(* ===== verification/_CoqProject ===== *)
-Q . S2P
Prelude.v
CLib.v
CFloat.v
Base64.v
AtParser.v
Aes.v
AesSpec.v
BleProg.v
Flash.v
BootTrailer.v
BootImage.v
BootLoader.v
BootSwap.v
BootPolicy.v
Cbor.v
BootSerial.v
BleLink.v
SerialLines.v
Os.v
IrisLib.v
Traces.v
Streams.v
ImageFormat.v
ValidateImage.v
ImageRoundtrip.v
FwInstall.v
Update.v
LedRing.v
RingCtrl.v
WifiScan.v
WifiProv.v
Lte.v
Battery.v
InitButtons.v
LedPath.v
SshAccess.v
Provision.v
Upkeep.v
Agent.v
LedCtrl.v
Tones.v
FrontEnds.v
