(* ===== verification/Prelude.v ===== *)
(** * Verification of the Arcus HubOS programs

    HubOS is the Linux distribution of the Arcus smart home hub.  Its own code, under
    src/meta-iris/recipes-core, is a set of C programs: the tools that build, validate and
    install firmware, the daemons that update the hub and drive its LEDs, buttons, battery,
    radios and backup connection, and a small library they share.  The hub's BLE module has a
    firmware of its own, whose boot loader is under src/radios/ble.

    ** How the programs interact

    build_image (on a build machine) signs and encrypts an archive; update and auto_updated
    fetch the image to the hub, run validate_image, which authenticates and decrypts it, and
    run fwinstall on the result, which unpacks the archive, installs it to the partition that
    is not running and, last, writes the boot index that makes the boot loader switch.
    fwinstall flashes the radios through programs such as ble_prog, which sends an image over
    a serial line to the boot loader of the BLE module: frames of base64 text with a CRC,
    around CBOR maps.  That boot loader stores the image in its flash, checks its signature and
    starts it, or exchanges it with the running one.  irisinitd watches the buttons, the
    provisioning of the wireless interface and access by SSH; wifi_scan and wifi_prov give a
    phone the networks in range and take the one it chooses, encrypted with AES; iris4gd
    switches to the modem when the primary connection fails; the battery daemons watch the
    power.  All of them show their progress as a LED mode in a file, from which ringctrl
    selects a pattern that ledRing plays on the LED ring.  irisagentd starts the agent, the Java
    program that connects the hub to the platform, again and again; dwatcher does it for
    the other daemons; factory_default, hub_restart, update_key and update_cert are run by hand
    or by the agent, play_tones by several of the programs.

    ** Files: shared parts

    - Prelude.v: integers of fixed width, automation, lists.
    - CLib.v: the <string.h>, <stdio.h>, <stdlib.h> functions the programs use.  CFloat.v:
      floating-point numbers, exactly as IEEE 754 has them.
    - Os.v: the operating system: files, mounts, commands, exits; a state and exit monad [M]
      and weakest preconditions [wp] for it.  What is not in the repository (shell commands,
      success of system calls) is the class [Env].  Traces.v: which commands a run has started.
      Streams.v: reading a stream line by line.
    - IrisLib.v: iris-lib/irislib.c and the constants of irisdefs.h.

    ** Files: programs of the hub

    - Base64.v: ble-utils/base64.c.  AtParser.v: iris-lib/at_parser.c, on a queue of receive
      events.  Aes.v: aes.c with its modes; AesSpec.v: the cipher as the standard defines it.
    - ImageFormat.v: iris-utils/build_image.c and build_image.h; the class [Crypto] states what
      openssl and sha256sum compute.  ValidateImage.v: validate_image.c.  ImageRoundtrip.v: one
      after the other, and a concrete instance of the parameters ([Toy]).
    - FwInstall.v: fwinstall.c for both platforms.  Update.v: update.c and auto_updated.c;
      [runs] says that a command runs one of the modelled programs.
    - LedRing.v: ledRing.c.  RingCtrl.v: ringctrl.c.  LedPath.v: from a held button to the ring.
    - WifiScan.v: wifi_scan.c.  WifiProv.v: ble-utils/wifi_prov.c.
    - Lte.v: the programs of iris-4g.  Battery.v: batteryd.c and batterydv3.c.
    - InitButtons.v, SshAccess.v, Provision.v: irisinitd.c, its buttons and watchdogs, the keys
      that open SSH, and the provisioning threads.
    - Upkeep.v: update_key.c, update_cert.c, factory_default.c, hub_restart.c and dwatcher.c.
      Agent.v: iris-agent/irisagentd.c.  LedCtrl.v: ledctrl.c.  Tones.v: play_tones.c.
      FrontEnds.v: iris-nfc/irisnfcd.c and ble-utils/ble_prog.c.
    - BleProg.v: ble-utils/ble_mcuboot_prog.c: CRC, framing, requests, upload, reset protocol.
      The CBOR encoder is a parameter, which BleLink.v instantiates.

    ** Files: the BLE module

    - Flash.v: the flash driver and the flash map, power failures, and [wpc], a weakest
      precondition with a crash condition.
    - BootTrailer.v, BootImage.v, BootLoader.v: bootutil_misc.c, image_validate.c, loader.c of
      mcuboot.  BootSwap.v: the exchange of the images, step by step.  BootPolicy.v: what the
      boot loader guarantees, with a small flash and toy cryptography ([BootToy]).
    - Cbor.v: tinycbor.  BootSerial.v: boot_serial.c, the console side of serial_adapter.c and
      Zephyr's CRC.  BleLink.v: the hub's programmer and the module connected to each other.
      SerialLines.v: the receive side of serial_adapter.c, its interrupt handler and the Zephyr
      queues of its line buffers, as a shared store with interleaved steps.

    ** Conventions

    A program that works on files is a definition of type [M Z] with the name of its source
    file; [Val] is a return from main, [Exit] a call of exit, [Throw] a goto to its error
    label, [Crash] an invalid call such as pclose(NULL).  A function of the BLE module has the
    type [B A]: [Done] is a return, [Cut] a power failure, [Hang] an endless loop, [Wild] an
    access outside of an array.  Parts of a function that do one step of it are definitions of
    their own, in the order of the source.  Constants carry the names of their macros.  Stores
    that overrun a buffer are events of the trace ([Overrun]) or results of their own, so that
    theorems can state where they happen and where they cannot.  Messages to the console and
    the log, permissions and sync are not modelled.

    ** What is proved

    - Firmware images: an image build_image makes is accepted by a hub it is meant for and
      gives back the archive; whatever validate_image leaves for installation is signed,
      intact and meant for this hub; a rejected image leaves nothing behind; update and
      auto_updated install nothing else.
    - Installation: fwinstall either leaves both boot indices alone or has written one of
      them, one above the other; the copy of the root file system is right although equal
      blocks are skipped; the lock file protocol.
    - Boot loader of the BLE module: an upgrade survives any series of power failures; a test
      upgrade stays only if it is confirmed; an upgrade that is not accepted never harms the
      running image; only signed images start.
    - Upload to the BLE module: what the hub sends is what the module has in its flash, and
      what it boots; the CBOR parser gives back what was encoded and ends on every message; the
      serial mode ends; the line buffers lose nothing while the loop keeps up.
    - Cryptography and text: AES is the standard's cipher, its modes and base64 are inverted by
      decryption and decoding, the AT parser returns the modem's response.
    - Network: the backup connection follows the state of the primary one; the configuration a
      phone sends reaches the configuration file; a hub is marked as provisioned only after a
      successful test; a key on a USB stick opens SSH only if it is signed for this hub, and
      SSH is closed when it is gone.
    - Buttons, battery, LEDs: each length of a press has its action and shows its mode; the
      battery state and the hold line; every frame is inside its array; what ringctrl prints is
      what ledRing reads; the final states of the hub cannot be left.
    - Maintenance: the key and the certificate of a hub are replaced only by ones that pass all
      checks; a factory default ends with a restart; the restart policy of the agent; a debug
      dongle installs only accepted firmware; every note sounds as the table says.
    - Places where the code does not do what it means to: theorems about an overrun, a lost
      upload, a revert a power failure undoes, an exit status that is always 0, and others,
      each next to the properties of its component.

    ** Bounds and fuel

    Loops over data are structural recursions on the data.  [dec_fuel] has as many steps as
    the number has bits, which is at least its number of digits ([dec_fuel_enough]);
    [rootfs_write] and [rootfs_verify] have one step more than the image has bytes, and every
    turn consumes at least one ([rootfs_install_correct] shows they finish); [tx_loop] and
    [upload_loop] get one step per byte.  [ring_loop] models an endless loop, and its fuel is
    the number of turns observed; [ledRing_duration] says which fuel is enough.  [auto_cycles]
    takes one element per turn of the daemon, [serial_loop] one per turn of the module, [agent_turns] one per
    run of the agent; [watch_turns], [nfc_turns] and the endless waits [wait_bluetooth] and [wait_for] take the number of turns
    observed, and the theorems about them hold for any number.  The
    loops of the image check have one step per four bytes of TLVs and per block
    ([validate_terminates]); those of the CBOR parser two steps per byte of the message
    ([cbor_search_ends]); [swap_loop] one per sector.  Integers are 32 bits wide, as on the
    target ([i32], [u32]), and [long] and [size_t] too.

    Power may fail before any word of the flash that is programmed or erased, and a page is
    erased word by word in order: pages that a failure leaves with unstable bits are outside
    of the model, as is a failure while the boot loader only reads.

    ** Parameters

    Commands of the shell and the outcome of system calls ([Env]), openssl and sha256sum
    ([Crypto]), SHA-256, RSA and the keys of the boot loader ([BootCrypto]), clocks, the answers
    on serial lines and the readings of sensors.  The assumptions on them are stated where
    they are used and are met by concrete instances.

    ** Not modelled

    daemon.c, which only forks and redirects the standard streams.  The registration of Bluetooth
    services over D-Bus (wifi_prov.c), main of irisinitd.c, the terminal handling of iris4gd, the
    set-up of the module's UART driver, test programs and a vendor tool for eMMC.  Vendored code that is
    not part of the parts above (BlueZ, the rest of Zephyr and tinycbor), shell scripts, of which only what a renewed
    lease does to routes and name servers is described ([renewed] in Lte.v), recipes and patches. *)
From Stdlib Require Import ZArith String Ascii Lia Bool.
From stdpp Require Import base gmap strings list numbers.

(** Bits and bytes: bytes are [Z] values in [0, 255]. *)
Definition is_byte (x : Z) : Prop := (0 <= x < 256)%Z.

(** Truncation of an integer to an unsigned 8, 16 or 32 bit type. *)
Definition u8 (x : Z) : Z := (x mod 2 ^ 8)%Z.
Definition u16 (x : Z) : Z := (x mod 2 ^ 16)%Z.
Definition u32 (x : Z) : Z := (x mod 2 ^ 32)%Z.

(** A C [int] (two's complement, 32 bits). *)
Definition i32 (x : Z) : Z := ((x + 2 ^ 31) mod 2 ^ 32 - 2 ^ 31)%Z.

Definition INT_MAX : Z := (2 ^ 31 - 1)%Z.
Definition INT_MIN : Z := (- 2 ^ 31)%Z.

(** ** Automation *)

Create HintDb hub.

#[global] Arguments String.append !_ _ / : simpl nomatch.

(** Case analysis on the innermost condition of the goal or of a hypothesis. *)
Ltac case_if :=
  match goal with
  | |- context [ if ?b then _ else _ ] =>
      lazymatch b with
      | context [ if _ then _ else _ ] => fail
      | _ => let E := fresh "E" in destruct b eqn:E
      end
  | H : context [ if ?b then _ else _ ] |- _ =>
      lazymatch b with
      | context [ if _ then _ else _ ] => fail
      | _ => let E := fresh "E" in destruct b eqn:E
      end
  end.

(** Turns the boolean tests in the hypotheses into propositions. *)
Ltac to_prop :=
  repeat match goal with
  | H : andb _ _ = true |- _ => apply andb_true_iff in H; destruct H
  | H : orb _ _ = false |- _ => apply orb_false_iff in H; destruct H
  | H : negb _ = true |- _ => apply negb_true_iff in H
  | H : negb _ = false |- _ => apply negb_false_iff in H
  | H : (_ =? _)%Z = true |- _ => apply Z.eqb_eq in H
  | H : (_ =? _)%Z = false |- _ => apply Z.eqb_neq in H
  | H : (_ <? _)%Z = true |- _ => apply Z.ltb_lt in H
  | H : (_ <? _)%Z = false |- _ => apply Z.ltb_ge in H
  | H : (_ <=? _)%Z = true |- _ => apply Z.leb_le in H
  | H : (_ <=? _)%Z = false |- _ => apply Z.leb_gt in H
  | H : (_ =? _)%nat = true |- _ => apply Nat.eqb_eq in H
  | H : (_ =? _)%nat = false |- _ => apply Nat.eqb_neq in H
  | H : (_ <? _)%nat = true |- _ => apply Nat.ltb_lt in H
  | H : (_ <? _)%nat = false |- _ => apply Nat.ltb_ge in H
  | H : (_ <=? _)%nat = true |- _ => apply Nat.leb_le in H
  | H : (_ <=? _)%nat = false |- _ => apply Nat.leb_gt in H
  | H : String.eqb _ _ = true |- _ => apply String.eqb_eq in H
  | H : String.eqb _ _ = false |- _ => apply String.eqb_neq in H
  | H : Ascii.eqb _ _ = true |- _ => apply Ascii.eqb_eq in H
  | H : Ascii.eqb _ _ = false |- _ => apply Ascii.eqb_neq in H
  end.

(** [lia] with division and modulo by constants. *)
Ltac dlia := Z.div_mod_to_equations; lia.

(** Splits [Forall P (x :: l)] hypotheses. *)
Ltac forall_hyps :=
  repeat match goal with
  | H : Forall _ (_ :: _) |- _ => apply Forall_cons_1 in H; destruct H
  | H : Forall _ (_ ++ _) |- _ => apply Forall_app in H; destruct H
  end.

(** A concrete list of bytes. *)
Ltac bytes_ok := repeat (apply Forall_cons_2; [unfold is_byte; lia|]); apply Forall_nil_2.

(** Decides by [lia] the integer comparisons a goal branches on. *)
Ltac zdec :=
  repeat match goal with
  | |- context [ (?a =? ?b)%Z ] =>
      first [ rewrite (proj2 (Z.eqb_neq a b)) by lia | rewrite (proj2 (Z.eqb_eq a b)) by lia ]
  | |- context [ (?a <? ?b)%Z ] =>
      first [ rewrite (proj2 (Z.ltb_ge a b)) by lia | rewrite (proj2 (Z.ltb_lt a b)) by lia ]
  | |- context [ (?a <=? ?b)%Z ] =>
      first [ rewrite (proj2 (Z.leb_gt a b)) by lia | rewrite (proj2 (Z.leb_le a b)) by lia ]
  end; cbn [negb andb orb].

(** A decidable statement about closed terms. *)
Ltac decide_closed := apply (bool_decide_unpack _); vm_compute; exact I.

Ltac case_ifs := repeat (case_if; to_prop; simplify_eq; try done; try lia).

(** ** Integers *)

Lemma u8_byte x : is_byte (u8 x).
Proof. unfold is_byte, u8. apply Z.mod_pos_bound. lia. Qed.

Lemma u8_small x : is_byte x -> u8 x = x.
Proof. intros H. unfold u8. apply Z.mod_small. exact H. Qed.

Lemma u16_small x : (0 <= x < 65536)%Z -> u16 x = x.
Proof. intros H. unfold u16. apply Z.mod_small. exact H. Qed.

Lemma u32_small x : (0 <= x < 2 ^ 32)%Z -> u32 x = x.
Proof. intros H. unfold u32. apply Z.mod_small. exact H. Qed.

Lemma i32_small x : (INT_MIN <= x <= INT_MAX)%Z -> i32 x = x.
Proof. unfold i32, INT_MIN, INT_MAX. intros H. rewrite Z.mod_small; lia. Qed.

#[export] Hint Resolve u8_byte u8_small u16_small u32_small i32_small : hub.

(** A nonnegative integer below [2^n] has no bit at or above position [n]. *)
Lemma testbit_small n x i : (0 <= x < 2 ^ n)%Z -> (n <= i)%Z -> Z.testbit x i = false.
Proof.
  intros [H0 H1] Hi. destruct (Z.ltb_spec n 0) as [Hn|Hn].
  - rewrite Z.pow_neg_r in H1 by done. lia.
  - destruct (decide (x = 0%Z)) as [->|Hx]; [apply Z.testbit_0_l|].
    apply Z.bits_above_log2; [done|]. apply Z.log2_lt_pow2 in H1; lia.
Qed.

(** An exhaustive check over the byte values. *)
Fixpoint all_below (n : nat) (P : Z -> bool) : bool :=
  match n with
  | O => true
  | S n' => P (Z.of_nat n') && all_below n' P
  end.

Lemma all_below_spec n P x :
  all_below n P = true -> (0 <= x < Z.of_nat n)%Z -> P x = true.
Proof.
  induction n as [|n IH]; cbn [all_below]; intros H Hx; [lia|].
  to_prop. destruct (decide (x = Z.of_nat n)) as [->|Hne]; [done|]. apply IH; [done|lia].
Qed.

Lemma byte_cases (P : Z -> bool) x : all_below 256 P = true -> is_byte x -> P x = true.
Proof. intros H Hx. apply (all_below_spec 256); [done|]. exact Hx. Qed.

(** The bits shifted in below a shifted value are disjoint from it. *)
Lemma land_shiftl_low k x i : (0 <= k)%Z -> (0 <= i < 2 ^ k)%Z -> Z.land (Z.shiftl x k) i = 0%Z.
Proof.
  intros Hk Hi. apply Z.bits_inj'. intros n Hn. rewrite Z.land_spec, Z.bits_0.
  destruct (Z.ltb_spec n k); [by rewrite Z.shiftl_spec_low|].
  rewrite (testbit_small k i) by lia. apply andb_false_r.
Qed.

Lemma lor_shiftl k x i : (0 <= k)%Z -> (0 <= i < 2 ^ k)%Z -> (Z.lor (Z.shiftl x k) i = x * 2 ^ k + i)%Z.
Proof.
  intros Hk Hi. pose proof (land_shiftl_low k x i Hk Hi) as H.
  rewrite <- Z.lxor_lor, <- Z.add_nocarry_lxor by done. by rewrite Z.shiftl_mul_pow2.
Qed.

(** ** Lists *)

(** Induction that consumes three elements at a time. *)
Lemma list_ind3 {A} (P : list A -> Prop) :
  P [] -> (forall a, P [a]) -> (forall a b, P [a; b]) ->
  (forall a b c l, P l -> P (a :: b :: c :: l)) -> forall l, P l.
Proof.
  intros H0 H1 H2 H3 l.
  enough (forall n, length l <= n -> P l) as H by (apply (H (length l)); lia).
  intros n. revert l. induction n as [|n IH]; intros [|a [|b [|c l]]] Hn; try done; cbn in *.
  - lia.
  - apply H3, IH. lia.
Qed.

(** Splitting a list into pieces of at most [k] elements. *)
Fixpoint chunks_fuel {A} (fuel k : nat) (l : list A) : list (list A) :=
  match fuel, l with
  | _, [] => []
  | O, _ => []
  | S f, _ => take k l :: chunks_fuel f k (drop k l)
  end.

Definition chunks {A} (k : nat) (l : list A) : list (list A) := chunks_fuel (length l) k l.

Lemma chunks_fuel_concat {A} k fuel (l : list A) :
  0 < k -> length l <= fuel -> concat (chunks_fuel fuel k l) = l.
Proof.
  intros Hk. revert l. induction fuel as [|f IH]; intros l Hl.
  - destruct l; [done|cbn in *; lia].
  - destruct l as [|a l]; [done|]. cbn [chunks_fuel concat].
    rewrite IH; [apply take_drop|]. rewrite length_drop. cbn [length] in *. lia.
Qed.

Lemma chunks_concat {A} k (l : list A) : 0 < k -> concat (chunks k l) = l.
Proof. intros H. by apply chunks_fuel_concat. Qed.

Lemma chunks_fuel_size {A} k fuel (l : list A) :
  0 < k -> Forall (fun c => 0 < length c <= k) (chunks_fuel fuel k l).
Proof.
  intros Hk. revert l. induction fuel as [|f IH]; intros [|a l]; cbn [chunks_fuel]; constructor; try done.
  rewrite length_take. cbn [length]. lia.
Qed.

Lemma chunks_size {A} k (l : list A) : 0 < k -> Forall (fun c => 0 < length c <= k) (chunks k l).
Proof. apply chunks_fuel_size. Qed.

Lemma chunks_fuel_irrel {A} k f1 f2 (l : list A) :
  0 < k -> length l <= f1 -> length l <= f2 -> chunks_fuel f1 k l = chunks_fuel f2 k l.
Proof.
  intros Hk. revert f2 l. induction f1 as [|f1 IH]; intros [|f2] [|a l] H1 H2; try done; cbn [length] in *; try lia.
  cbn [chunks_fuel]. f_equal. apply IH; rewrite length_drop; cbn [length]; lia.
Qed.

Lemma chunks_step {A} k (l : list A) : 0 < k -> l <> [] -> chunks k l = take k l :: chunks k (drop k l).
Proof.
  intros Hk Hl. unfold chunks at 1. destruct l as [|a l]; [done|]. cbn [length chunks_fuel]. f_equal.
  apply chunks_fuel_irrel; [done| |done]. rewrite length_drop. cbn [length]. lia.
Qed.
