(* ===== verification/CLib.v ===== *)
(** * The C library the hub code uses

    C strings are [string]s; the end of a [string], or an embedded NUL,
    is the terminator.  This file defines the <string.h>, <stdio.h> and
    <stdlib.h> functions the hub programs call, on their values only;
    the stateful part (files, processes) is in Os.v. *)
From Stdlib Require Import ZArith String Ascii Lia Bool.
From stdpp Require Import base gmap strings list numbers.
From S2P Require Import Prelude.

Local Open Scope string_scope.
Local Open Scope Z_scope.

Definition NUL : ascii := "000"%char.
Definition LF : ascii := "010"%char.
Definition CR : ascii := "013"%char.

(** ** Substrings *)

Fixpoint stake (n : nat) (s : string) : string :=
  match n, s with
  | S n', String c s' => String c (stake n' s')
  | _, _ => ""
  end.

Fixpoint sdrop (n : nat) (s : string) : string :=
  match n, s with
  | O, _ => s
  | S n', String _ s' => sdrop n' s'
  | S _, EmptyString => ""
  end.

(** [n] NUL bytes. *)
Fixpoint zeros (n : nat) : string :=
  match n with
  | O => ""
  | S n' => String NUL (zeros n')
  end.

(** The C string held in a character array: its bytes up to the first NUL. *)
Fixpoint cstr (s : string) : string :=
  match s with
  | EmptyString => ""
  | String c s' => if Ascii.eqb c NUL then "" else String c (cstr s')
  end.

Fixpoint all_chars (P : ascii -> bool) (s : string) : bool :=
  match s with
  | EmptyString => true
  | String c s' => P c && all_chars P s'
  end.

Definition nul_free (s : string) : bool := all_chars (fun c => negb (Ascii.eqb c NUL)) s.

(** [strncmp(a, b, n) == 0] *)
Fixpoint strncmp0 (a b : string) (n : nat) : bool :=
  match n with
  | O => true
  | S n' =>
      match a, b with
      | EmptyString, EmptyString => true
      | EmptyString, String y _ => Ascii.eqb y NUL
      | String x _, EmptyString => Ascii.eqb x NUL
      | String x a', String y b' =>
          if Ascii.eqb x y then (if Ascii.eqb x NUL then true else strncmp0 a' b' n') else false
      end
  end.

(** [strstr(hay, needle)]: the suffix of [hay] that starts with [needle]. *)
Fixpoint strstr (hay needle : string) : option string :=
  if String.prefix needle hay then Some hay
  else match hay with
       | EmptyString => None
       | String _ hay' => strstr hay' needle
       end.

Definition has_sub (hay needle : string) : bool :=
  match strstr hay needle with Some _ => true | None => false end.

(** [snprintf(buf, n, ...)] of a text: at most [n - 1] of its bytes. *)
Definition snprintf (n : nat) (s : string) : string := stake (n - 1) s.

(** [if (s[strlen(s)-1] == '\n') s[strlen(s)-1] = '\0';] on a non-empty string. *)
Fixpoint strip_nl (s : string) : string :=
  match s with
  | EmptyString => ""
  | String c EmptyString => if Ascii.eqb c LF then "" else s
  | String c s' => String c (strip_nl s')
  end.

(** ** Scanning *)

Definition isspace (c : ascii) : bool :=
  let n := N_of_ascii c in ((n =? 32) || ((9 <=? n) && (n <=? 13)))%N.

Fixpoint skip_ws (s : string) : string :=
  match s with
  | String c s' => if isspace c then skip_ws s' else s
  | EmptyString => ""
  end.

(** The longest prefix with no white space, and what follows it. *)
Fixpoint span_token (s : string) : string * string :=
  match s with
  | EmptyString => ("", "")
  | String c s' => if isspace c then ("", s) else let '(t, r) := span_token s' in (String c t, r)
  end.

(** [fscanf(f, "%s", buf)]: [None] when the input has no token. *)
Definition scan_s (s : string) : option string :=
  match span_token (skip_ws s) with
  | ("", _) => None
  | (t, _) => Some t
  end.

Definition digit_val (c : ascii) : option Z :=
  let n := Z.of_N (N_of_ascii c) in if (48 <=? n) && (n <=? 57) then Some (n - 48) else None.

Fixpoint scan_digits (s : string) (acc : Z) : Z * string :=
  match s with
  | EmptyString => (acc, "")
  | String c s' => match digit_val c with Some d => scan_digits s' (acc * 10 + d) | None => (acc, s) end
  end.

(** A conversion to a 32-bit [int] saturates, as [strtol] does on the target. *)
Definition sat_int (x : Z) : Z := Z.max INT_MIN (Z.min INT_MAX x).

(** A [%d] conversion: the value, and the input that follows it. *)
Definition scan_int (s : string) : option (Z * string) :=
  let s := skip_ws s in
  let '(neg, s) :=
    match s with
    | String c s' => if Ascii.eqb c "-"%char then (true, s') else if Ascii.eqb c "+"%char then (false, s') else (false, s)
    | EmptyString => (false, "")
    end in
  match s with
  | String c _ =>
      match digit_val c with
      | Some _ => let '(v, r) := scan_digits s 0 in Some (sat_int (if neg : bool then - v else v), r)
      | None => None
      end
  | EmptyString => None
  end.

(** [fscanf(f, "%d", &x)] *)
Definition scan_d (s : string) : option Z := fst <$> scan_int s.

(** [atoi]: zero when there is no number. *)
Definition atoi (s : string) : Z := match scan_d s with Some v => v | None => 0 end.

(** ** Numbers in other bases *)

Definition digit_of (c : ascii) : option Z :=
  let n := Z.of_N (N_of_ascii c) in
  if (48 <=? n) && (n <=? 57) then Some (n - 48)
  else if (97 <=? n) && (n <=? 122) then Some (n - 87)
  else if (65 <=? n) && (n <=? 90) then Some (n - 55)
  else None.

Fixpoint digits_in (base : Z) (s : string) (acc : Z) : Z :=
  match s with
  | EmptyString => acc
  | String c s' =>
      match digit_of c with
      | Some d => if d <? base then digits_in base s' (acc * base + d) else acc
      | None => acc
      end
  end.

(** An optional 0x, which must be followed by a hexadecimal digit. *)
Definition hex_prefix (s : string) : option string :=
  match s with
  | String z (String x (String c _ as s')) =>
      if Ascii.eqb z "0" && (Ascii.eqb x "x" || Ascii.eqb x "X") &&
         match digit_of c with Some d => d <? 16 | None => false end
      then Some s' else None
  | _ => None
  end.

Definition take_sign (s : string) : bool * string :=
  match s with
  | String c s' => if Ascii.eqb c "-"%char then (true, s') else if Ascii.eqb c "+"%char then (false, s') else (false, s)
  | EmptyString => (false, "")
  end.

(** The [strtoul] family with results of [bits] bits; base 0 goes by the prefix. *)
Definition strtou (bits : Z) (s : string) (base : Z) : Z :=
  let '(neg, s) := take_sign (skip_ws s) in
  let v :=
    match hex_prefix s with
    | Some s' => if (base =? 0) || (base =? 16) then digits_in 16 s' 0 else digits_in base s 0
    | None => if base =? 0 then digits_in (if String.prefix "0" s then 8 else 10) s 0 else digits_in base s 0
    end in
  if 2 ^ bits - 1 <? v then 2 ^ bits - 1 else if neg : bool then (- v) mod 2 ^ bits else v.

(** [fscanf(f, "%X", &x)]: [None] if there is no digit. *)
Definition scan_x (s : string) : option Z :=
  let '(_, t) := take_sign (skip_ws s) in
  match t with
  | String c _ => match digit_of c with Some d => if d <? 16 then Some (strtou 32 s 16) else None | None => None end
  | EmptyString => None
  end.

(** ** Printing numbers *)

Definition digit (d : Z) : ascii := ascii_of_N (Z.to_N (48 + d)).

Fixpoint dec_fuel (fuel : nat) (n : Z) : string :=
  match fuel with
  | O => ""
  | S f => if n <? 10 then String (digit n) "" else dec_fuel f (n / 10) +:+ String (digit (n mod 10)) ""
  end.

Definition dec_nonneg (n : Z) : string := dec_fuel (S (Z.to_nat (Z.log2 n))) n.

(** [printf("%d", x)] *)
Definition dec (x : Z) : string := if x <? 0 then String "-"%char (dec_nonneg (- x)) else dec_nonneg x.

(** ** Lemmas *)

Lemma slen_app a b : String.length (a +:+ b) = (String.length a + String.length b)%nat.
Proof. induction a; cbn; [done|]. by f_equal. Qed.

Lemma sapp_assoc a b c : (a +:+ b) +:+ c = a +:+ (b +:+ c).
Proof. induction a; cbn; [done|]. by f_equal. Qed.

Lemma sapp_nil_r a : a +:+ "" = a.
Proof. induction a; cbn; [done|]. by f_equal. Qed.

Lemma stake_len n s : String.length (stake n s) = Nat.min n (String.length s).
Proof. revert s. induction n; intros [|c s]; cbn; try done. by rewrite IHn. Qed.

Lemma sdrop_len n s : String.length (sdrop n s) = (String.length s - n)%nat.
Proof. revert s. induction n; intros [|c s]; cbn; try done. Qed.

Lemma stake_all n s : (String.length s <= n)%nat -> stake n s = s.
Proof. revert s. induction n; intros [|c s]; cbn; intros; try done; try lia. rewrite IHn; [done|lia]. Qed.

Lemma stake_app a b : stake (String.length a) (a +:+ b) = a.
Proof. induction a; cbn; [by destruct b|]. by f_equal. Qed.

Lemma sdrop_app a b : sdrop (String.length a) (a +:+ b) = b.
Proof. induction a; cbn; [by destruct b|]. done. Qed.

Lemma stake_sdrop n s : stake n s +:+ sdrop n s = s.
Proof. revert s. induction n; intros [|c s]; cbn; try done. by rewrite IHn. Qed.

Lemma stake_app_le n a b : (n <= String.length a)%nat -> stake n (a +:+ b) = stake n a.
Proof. revert a. induction n as [|n IH]; intros [|c a]; cbn; intros; try done; try lia. by rewrite IH by lia. Qed.

Lemma sdrop_app_le n a b : (n <= String.length a)%nat -> sdrop n (a +:+ b) = sdrop n a +:+ b.
Proof. revert a. induction n as [|n IH]; intros [|c a]; cbn; intros; try done; try lia. by rewrite IH by lia. Qed.

Lemma sdrop_sdrop n m s : sdrop n (sdrop m s) = sdrop (m + n) s.
Proof. revert s. induction m; intros [|c s]; cbn; try done. by destruct n. Qed.

Lemma zeros_len n : String.length (zeros n) = n.
Proof. induction n; cbn; by f_equal. Qed.

Lemma all_chars_app P a b : all_chars P (a +:+ b) = all_chars P a && all_chars P b.
Proof. induction a; cbn; [done|]. by rewrite IHa, andb_assoc. Qed.

Lemma cstr_nul_free s : nul_free s = true -> cstr s = s.
Proof.
  unfold nul_free. induction s as [|c s IH]; cbn; [done|]. intros H. to_prop.
  rewrite (proj2 (Ascii.eqb_neq c NUL)) by done. by rewrite IH.
Qed.

Lemma cstr_app s t : nul_free s = true -> cstr (s +:+ String NUL t) = s.
Proof.
  unfold nul_free. induction s as [|c s IH]; cbn; [done|]. intros H. to_prop.
  rewrite (proj2 (Ascii.eqb_neq c NUL)) by done. by rewrite IH.
Qed.

Lemma strncmp0_refl s n : strncmp0 s s n = true.
Proof.
  revert s. induction n as [|n IH]; intros [|c s]; cbn; try done.
  rewrite Ascii.eqb_refl. by destruct (Ascii.eqb c NUL).
Qed.

Lemma strncmp0_sym a b n : strncmp0 a b n = strncmp0 b a n.
Proof.
  revert a b. induction n as [|n IH]; intros [|x a] [|y b]; cbn; try done.
  rewrite (Ascii.eqb_sym y x). destruct (Ascii.eqb x y) eqn:E; [|done].
  apply Ascii.eqb_eq in E as ->. by destruct (Ascii.eqb y NUL).
Qed.

(** On NUL-free strings [strncmp] compares the first [n] bytes. *)
Lemma strncmp0_spec a b n :
  nul_free a = true -> nul_free b = true -> (strncmp0 a b n = true <-> stake n a = stake n b).
Proof.
  unfold nul_free. revert a b. induction n as [|n IH]; intros [|x a] [|y b]; cbn; intros Ha Hb; try done; to_prop.
  - rewrite (proj2 (Ascii.eqb_neq y NUL)) by done. done.
  - rewrite (proj2 (Ascii.eqb_neq x NUL)) by done. done.
  - destruct (Ascii.eqb x y) eqn:E; to_prop.
    + subst y. rewrite (proj2 (Ascii.eqb_neq x NUL)) by done.
      rewrite IH by done. split; [by intros ->|by intros [=]].
    + split; [done|]. by intros [=].
Qed.

(** Two C strings that agree on [n] bytes, one of them shorter than [n], are equal. *)
Lemma strncmp0_eq a b n :
  nul_free a = true -> nul_free b = true -> (String.length a < n)%nat -> strncmp0 a b n = true -> a = b.
Proof.
  intros Ha Hb Hl H. apply strncmp0_spec in H; try done.
  rewrite (stake_all n a) in H by lia.
  assert (String.length b < n)%nat as Hlb.
  { apply (f_equal String.length) in H. rewrite stake_len in H. lia. }
  by rewrite (stake_all n b) in H by lia.
Qed.

Lemma digit_val_digit d : 0 <= d < 10 -> digit_val (digit d) = Some d.
Proof.
  intros H. assert (d = 0 \/ d = 1 \/ d = 2 \/ d = 3 \/ d = 4 \/ d = 5 \/ d = 6 \/ d = 7 \/ d = 8 \/ d = 9) as Hd by lia.
  by repeat destruct Hd as [->|Hd]; [..|subst d].
Qed.

Lemma scan_digits_dec fuel n rest acc :
  0 <= n < 10 ^ Z.of_nat fuel -> (0 < fuel)%nat ->
  scan_digits (dec_fuel fuel n +:+ rest) acc =
  scan_digits rest (acc * 10 ^ Z.of_nat (String.length (dec_fuel fuel n)) + n).
Proof.
  revert n rest acc. induction fuel as [|f IH]; intros n rest acc Hn Hf; [lia|]. cbn [dec_fuel].
  destruct (Z.ltb_spec n 10) as [Hlt|Hge].
  - cbn. by rewrite digit_val_digit by lia.
  - assert (0 < f)%nat as Hf'.
    { destruct f; [|lia]. change (10 ^ Z.of_nat 1) with 10 in Hn. lia. }
    pose proof (Z.mod_pos_bound n 10 ltac:(lia)) as Hm.
    rewrite sapp_assoc, IH.
    + cbn [String.append scan_digits]. rewrite digit_val_digit by lia.
      rewrite slen_app. cbn [String.length]. f_equal.
      rewrite Nat2Z.inj_add, Z.pow_add_r by lia. change (10 ^ Z.of_nat 1) with 10.
      pose proof (Z.div_mod n 10 ltac:(lia)). lia.
    + split; [apply Z.div_pos; lia|]. apply Z.div_lt_upper_bound; [lia|].
      rewrite <- Z.pow_succ_r by lia. replace (Z.succ (Z.of_nat f)) with (Z.of_nat (S f)) by lia. lia.
    + done.
Qed.

Lemma dec_fuel_enough n : 0 <= n -> n < 10 ^ Z.of_nat (S (Z.to_nat (Z.log2 n))).
Proof.
  intros Hn. destruct (decide (n = 0)) as [->|Hne]; [done|].
  pose proof (Z.log2_spec n ltac:(lia)) as [_ Hl]. pose proof (Z.log2_nonneg n).
  replace (Z.of_nat (S (Z.to_nat (Z.log2 n)))) with (Z.succ (Z.log2 n)) by lia.
  eapply Z.lt_le_trans; [apply Hl|]. apply Z.pow_le_mono_l. lia.
Qed.

Lemma dec_fuel_head fuel n : (0 < fuel)%nat -> 0 <= n ->
  exists c t, dec_fuel fuel n = String c t /\ (exists d, digit_val c = Some d /\ 0 <= d < 10 /\ c = digit d).
Proof.
  revert n. induction fuel as [|f IH]; intros n Hf Hn; [lia|]. cbn [dec_fuel].
  destruct (Z.ltb_spec n 10).
  - do 2 eexists. split; [done|]. exists n. rewrite digit_val_digit by lia. done.
  - pose proof (Z.mod_pos_bound n 10 ltac:(lia)).
    destruct f as [|f'].
    + do 2 eexists. split; [done|]. exists (n mod 10). rewrite digit_val_digit by lia. done.
    + destruct (IH (n / 10) ltac:(lia) ltac:(apply Z.div_pos; lia)) as (c & t & -> & Hc).
      do 2 eexists. split; [done|]. done.
Qed.

Lemma digit_plain d : 0 <= d < 10 ->
  isspace (digit d) = false /\ Ascii.eqb (digit d) "-" = false /\ Ascii.eqb (digit d) "+" = false.
Proof.
  intros Hd. assert (d = 0 \/ d = 1 \/ d = 2 \/ d = 3 \/ d = 4 \/ d = 5 \/ d = 6 \/ d = 7 \/ d = 8 \/ d = 9) as Hd' by lia.
  by repeat destruct Hd' as [->|Hd']; [..|subst d].
Qed.

(** A text that does not continue a number. *)
Definition no_digit (s : string) : Prop :=
  match s with String c _ => digit_val c = None | EmptyString => True end.

Lemma scan_digits_stop s acc : no_digit s -> scan_digits s acc = (acc, s).
Proof. destruct s as [|c s]; cbn; [done|]. by intros ->. Qed.

Lemma scan_digits_nonneg n rest : 0 <= n -> no_digit rest -> scan_digits (dec_nonneg n +:+ rest) 0 = (n, rest).
Proof.
  intros Hn Hr. unfold dec_nonneg. rewrite scan_digits_dec; [by rewrite Z.mul_0_l, scan_digits_stop| |lia].
  split; [done|]. by apply dec_fuel_enough.
Qed.

(** Reading back a printed [int]. *)
Lemma scan_int_dec x rest : INT_MIN <= x <= INT_MAX -> no_digit rest -> scan_int (dec x +:+ rest) = Some (x, rest).
Proof.
  intros Hx Hr. unfold dec, scan_int. unfold INT_MIN, INT_MAX in Hx. destruct (Z.ltb_spec x 0) as [Hneg|Hpos].
  - cbn [String.append skip_ws]. change (isspace "-") with false. cbn iota.
    change (Ascii.eqb "-" "-") with true. cbn iota.
    pose proof (scan_digits_nonneg (- x) rest ltac:(lia) Hr) as H1.
    destruct (dec_fuel_head (S (Z.to_nat (Z.log2 (- x)))) (- x)) as (c & t & He & d & Hd & Hd1 & Hc); [lia..|].
    fold (dec_nonneg (- x)) in He. rewrite He in *. cbn [String.append] in *. rewrite Hd, H1.
    do 2 f_equal. unfold sat_int, INT_MIN, INT_MAX. lia.
  - pose proof (scan_digits_nonneg x rest ltac:(lia) Hr) as H1.
    destruct (dec_fuel_head (S (Z.to_nat (Z.log2 x))) x) as (c & t & He & d & Hd & Hd1 & Hc); [lia..|].
    fold (dec_nonneg x) in He. rewrite He in *. cbn [String.append skip_ws] in *.
    subst c. destruct (digit_plain d Hd1) as (-> & -> & ->). rewrite Hd, H1.
    do 2 f_equal. unfold sat_int, INT_MIN, INT_MAX. lia.
Qed.

Lemma scan_int_space s : scan_int (String " " s) = scan_int s.
Proof. done. Qed.

(** Leading zeros do not change a number. *)
Lemma scan_int_zero_digits s v r :
  scan_digits s 0 = (v, r) -> 0 <= v <= INT_MAX -> scan_int (String "0" s) = Some (v, r).
Proof.
  intros Hs Hv. assert (scan_int (String "0" s) = let '(v, r) := scan_digits s 0 in Some (sat_int v, r)) as -> by done.
  rewrite Hs. do 2 f_equal. unfold sat_int, INT_MIN, INT_MAX in *. lia.
Qed.

Lemma scan_digits_zero s : scan_digits (String "0" s) 0 = scan_digits s 0.
Proof. done. Qed.

Lemma scan_d_dec x : INT_MIN <= x <= INT_MAX -> scan_d (dec x +:+ String LF "") = Some x.
Proof. intros Hx. unfold scan_d. by rewrite scan_int_dec. Qed.

(** ** Substrings found *)

Lemma prefix_app a b : String.prefix a (a +:+ b) = true.
Proof. induction a as [|c a IH]; [by destruct b|]. cbn. by destruct (ascii_dec c c). Qed.

Lemma strstr_here key r : strstr (key +:+ r) key = Some (key +:+ r).
Proof. destruct (key +:+ r) eqn:E; cbn [strstr]; rewrite <- E, prefix_app; done. Qed.

(** A character that does not start the text that is looked for. *)
Lemma strstr_skip c s k key : c <> k -> strstr (String c s) (String k key) = strstr s (String k key).
Proof. intros H. cbn [strstr String.prefix]. by destruct (ascii_dec k c) as [->|]. Qed.

(** Spaces do not start a word. *)
Lemma strstr_spaces n s k key : k <> " "%char ->
  strstr (Nat.iter n (String " ") s) (String k key) = strstr s (String k key).
Proof. intros H. induction n as [|n IH]; [done|]. cbn [Nat.iter nat_rect]. by rewrite strstr_skip. Qed.

(** ** [strtoul] of a printed number *)

Lemma digit_of_digit d : 0 <= d < 10 -> digit_of (digit d) = Some d.
Proof.
  intros H. assert (d = 0 \/ d = 1 \/ d = 2 \/ d = 3 \/ d = 4 \/ d = 5 \/ d = 6 \/ d = 7 \/ d = 8 \/ d = 9) as Hd by lia.
  by repeat destruct Hd as [->|Hd]; [..|subst d].
Qed.

Lemma digits_in_app fuel n rest acc : 0 <= n < 10 ^ Z.of_nat fuel -> (0 < fuel)%nat ->
  digits_in 10 (dec_fuel fuel n +:+ rest) acc = digits_in 10 rest (acc * 10 ^ Z.of_nat (String.length (dec_fuel fuel n)) + n).
Proof.
  revert n rest acc. induction fuel as [|f IH]; intros n rest acc Hn Hf; [lia|]. cbn [dec_fuel].
  destruct (Z.ltb_spec n 10) as [Hlt|Hge].
  - cbn [String.append digits_in String.length]. rewrite digit_of_digit, (proj2 (Z.ltb_lt n 10)) by lia.
    by change (10 ^ Z.of_nat 1) with 10.
  - assert (0 < f)%nat as Hf' by (destruct f; [change (10 ^ Z.of_nat 1) with 10 in Hn; lia|lia]).
    pose proof (Z.mod_pos_bound n 10 ltac:(lia)) as Hm. rewrite sapp_assoc, IH.
    + cbn [String.append digits_in]. rewrite digit_of_digit, (proj2 (Z.ltb_lt (n mod 10) 10)) by lia.
      rewrite slen_app. cbn [String.length]. f_equal.
      rewrite Nat2Z.inj_add, Z.pow_add_r by lia. change (10 ^ Z.of_nat 1) with 10.
      pose proof (Z.div_mod n 10 ltac:(lia)). lia.
    + split; [apply Z.div_pos; lia|]. apply Z.div_lt_upper_bound; [lia|].
      rewrite <- Z.pow_succ_r by lia. replace (Z.succ (Z.of_nat f)) with (Z.of_nat (S f)) by lia. lia.
    + done.
Qed.

Lemma dec_fuel_lead fuel n : 0 < n < 10 ^ Z.of_nat fuel ->
  exists d t, dec_fuel fuel n = String (digit d) t /\ 0 < d < 10.
Proof.
  revert n. induction fuel as [|f IH]; intros n Hn; [cbn in Hn; lia|]. cbn [dec_fuel]. destruct (Z.ltb_spec n 10).
  - exists n, "". split; [done|lia].
  - destruct (IH (n / 10)) as (d & t & E & Hd).
    + split; [apply Z.div_str_pos; lia|]. apply Z.div_lt_upper_bound; [lia|].
      rewrite <- Z.pow_succ_r by lia. replace (Z.succ (Z.of_nat f)) with (Z.of_nat (S f)) by lia. lia.
    + rewrite E. by exists d, (t +:+ String (digit (n mod 10)) "").
Qed.

(** The [strtoul] family reads back a printed number that has no leading zero. *)
Lemma strtou_dec bits base n rest : 0 < n < 2 ^ bits -> base = 0 \/ base = 10 -> (forall acc, digits_in 10 rest acc = acc) ->
  strtou bits (dec n +:+ rest) base = n.
Proof.
  intros Hn Hb Hr. unfold dec. rewrite (proj2 (Z.ltb_ge n 0)) by lia. unfold dec_nonneg.
  pose proof (dec_fuel_enough n ltac:(lia)) as Hf. set (fuel := S (Z.to_nat (Z.log2 n))) in *.
  destruct (dec_fuel_lead fuel n) as (d & t & E & Hd); [lia|].
  pose proof (digits_in_app fuel n rest 0 ltac:(lia) ltac:(lia)) as Hv. rewrite Hr in Hv. rewrite E in *.
  unfold strtou. cbn [String.append skip_ws] in *. destruct (digit_plain d ltac:(lia)) as (-> & Hm & Hp). cbn [take_sign]. rewrite Hm, Hp.
  assert (Ascii.eqb (digit d) "0" = false) as Hz.
  { assert (d = 1 \/ d = 2 \/ d = 3 \/ d = 4 \/ d = 5 \/ d = 6 \/ d = 7 \/ d = 8 \/ d = 9) as Hd' by lia.
    by repeat destruct Hd' as [->|Hd']; [..|subst d]. }
  assert (hex_prefix (String (digit d) (t +:+ rest)) = None) as ->.
  { cbn [hex_prefix]. destruct (t +:+ rest) as [|x [|c t']]; [done|done|]. by rewrite Hz. }
  assert (String.prefix "0" (String (digit d) (t +:+ rest)) = false) as ->.
  { cbn [String.prefix]. destruct (ascii_dec "0" (digit d)) as [Ez|]; [|done]. by rewrite <- Ez in Hz. }
  assert ((if base =? 0 then digits_in 10 (String (digit d) (t +:+ rest)) 0 else digits_in base (String (digit d) (t +:+ rest)) 0) = n) as ->.
  { destruct Hb as [-> | ->]; cbn [Z.eqb]; rewrite Hv; lia. }
  by rewrite (proj2 (Z.ltb_ge (2 ^ bits - 1) _)) by lia.
Qed.
