(* ===== verification/CFloat.v ===== *)
(** * Floating point numbers of C

    [float] and [double] as the binary32 and binary64 formats of IEEE 754, with the operations
    of the Standard Library's specification of floating-point arithmetic: round to nearest
    even, no contraction of operations.  Printing with [%.2f] and reading with [%f]. *)
From Stdlib Require Import ZArith String Ascii Lia Bool.
From Stdlib Require Import SpecFloat.
From stdpp Require Import base strings list numbers.
From S2P Require Import Prelude CLib.

Local Open Scope string_scope.
Local Open Scope Z_scope.

Abbreviation float := spec_float.

Definition add64 : float -> float -> float := SFadd 53 1024.
Definition sub64 : float -> float -> float := SFsub 53 1024.
Definition mul64 : float -> float -> float := SFmul 53 1024.
Definition div64 : float -> float -> float := SFdiv 53 1024.
Definition add32 : float -> float -> float := SFadd 24 128.
Definition mul32 : float -> float -> float := SFmul 24 128.
Definition div32 : float -> float -> float := SFdiv 24 128.

(** Conversions from [int], and between the formats. *)
Definition of_int64 (n : Z) : float := binary_normalize 53 1024 n 0 false.
Definition of_int32 (n : Z) : float := binary_normalize 24 128 n 0 false.

Definition convert (prec emax : Z) (x : float) : float :=
  match x with S754_finite s m e => binary_round prec emax s m e | _ => x end.
Definition narrow : float -> float := convert 24 128.   (* [float = double] *)
Definition widen : float -> float := convert 53 1024.   (* [double = float] *)

(** The nearest number to [n / d]. *)
Definition ratio (prec emax : Z) (s : bool) (n d : positive) : float :=
  let '(m, e, l) := SFdiv_core_binary prec emax (Zpos n) 0 (Zpos d) 0 in binary_round_aux prec emax s m e l.

(** A decimal literal: [num] with [k] digits behind the point. *)
Definition lit64 (num : positive) (k : nat) : float := ratio 53 1024 false num (Z.to_pos (10 ^ Z.of_nat k)).

(** Comparisons; false if an operand is not a number. *)
Definition fle (x y : float) : bool := SFleb x y.
Definition flt (x y : float) : bool := SFltb x y.

(** ** [printf("%.2f")] *)

(** [m * 100 * 2^e], rounded to the nearest integer, ties to even. *)
Definition hundredths (m : positive) (e : Z) : Z :=
  let n := Zpos m * 100 in
  if 0 <=? e then n * 2 ^ e
  else
    let d := 2 ^ (- e) in
    let q := n / d in
    let r := n mod d in
    if (2 * r <? d) || ((2 * r =? d) && Z.even q) then q else q + 1.

Definition two_digits (n : Z) : string := (if n <? 10 then "0" else "") +:+ dec n.

Definition print_f2 (x : float) : string :=
  match x with
  | S754_zero s => (if s : bool then "-" else "") +:+ "0.00"
  | S754_infinity s => (if s : bool then "-" else "") +:+ "inf"
  | S754_nan => "nan"
  | S754_finite s m e =>
      let n := hundredths m e in (if s : bool then "-" else "") +:+ dec (n / 100) +:+ "." +:+ two_digits (n mod 100)
  end.

(** ** [scanf("%f")] on decimal numbers *)

(** The digits at the start, their value after [acc], their number and the rest. *)
Fixpoint take_digits (s : string) (acc : Z) (n : nat) : Z * nat * string :=
  match s with
  | String c s' => match digit_val c with Some d => take_digits s' (acc * 10 + d) (S n) | None => (acc, n, s) end
  | EmptyString => (acc, n, "")
  end.

(** The number [num * 10^x] in a format. *)
Definition decimal_in (prec emax : Z) (s : bool) (num x : Z) : float :=
  match num with
  | Zpos p => if 0 <=? x then ratio prec emax s (p * Z.to_pos (10 ^ x)) 1 else ratio prec emax s p (Z.to_pos (10 ^ (- x)))
  | _ => S754_zero s
  end.
Definition decimal : bool -> Z -> Z -> float := decimal_in 24 128.

(** The exponent, 0 if there is none. *)
Definition take_exponent (s : string) : Z :=
  match s with
  | String c s' =>
      if Ascii.eqb c "e" || Ascii.eqb c "E" then
        let '(neg, s') := take_sign s' in
        let '(v, _, _) := take_digits s' 0 0 in if neg : bool then - v else v
      else 0
  | EmptyString => 0
  end.

(** Sign, digits and power of ten; [None] if there is no number; hexadecimal numbers, infinities and NaNs are left out. *)
Definition scan_decimal (s : string) : option (bool * Z * Z) :=
  let '(neg, s) := take_sign (skip_ws s) in
  let '(v, n, s) := take_digits s 0 0 in
  let '(v, k, s) :=
    match s with
    | String c s' =>
        if Ascii.eqb c "." then let '(v', k, s'') := take_digits s' v 0 in (v', k, s'') else (v, 0%nat, s)
    | EmptyString => (v, 0%nat, s)
    end in
  if (n + k =? 0)%nat then None else Some (neg, v, take_exponent s - Z.of_nat k).

Definition scan_f (s : string) : option float := '(neg, v, x) ← scan_decimal s; Some (decimal neg v x).

(** [scanf("%lf")] *)
Definition scan_lf (s : string) : option float := '(neg, v, x) ← scan_decimal s; Some (decimal_in 53 1024 neg v x).

(** [(long)x] for a [double] in range: the integer part. *)
Definition to_long (x : float) : Z :=
  match x with
  | S754_finite s m e =>
      let n := if 0 <=? e then Zpos m * 2 ^ e else Zpos m / 2 ^ (- e) in if s : bool then - n else n
  | _ => 0
  end.

(** The literals and the operations of a C compiler, on samples. *)
Example lit_420 : lit64 420 2 = S754_finite false 4728779608739021 (-50).
Proof. reflexivity. Qed.
Example print_scan : option_map print_f2 (scan_f (" 6.03" +:+ String LF "")) = Some "6.03".
Proof. reflexivity. Qed.
Example print_tie : print_f2 (lit64 125 3) = "0.12" /\ print_f2 (lit64 375 3) = "0.38".
Proof. split; reflexivity. Qed.

(** The value of a non-negative [float] in units of 2^-149, the smallest positive one. *)
Definition units (x : float) : option Z :=
  match x with
  | S754_zero _ => Some 0
  | S754_finite false m e => if -149 <=? e then Some (Zpos m * 2 ^ (e + 149)) else None
  | _ => None
  end.
