(* ===== verification/Base64.v ===== *)
(** * base64.c: encoding and decoding of the BLE serial frames

    [base64_encode] and [base64_decode] of ble-utils/files/base64.c over
    byte lists, with the C return value, the value stored through [olen]
    ([None] when the call leaves it alone) and the bytes stored through
    [dst].  [size_t] is 32 bits wide on the hub. *)
From Stdlib Require Import ZArith Lia Bool.
From stdpp Require Import base list numbers.
From S2P Require Import Prelude.

Local Open Scope Z_scope.

Definition ENOMEM : Z := 12.
Definition EINVAL : Z := 22.

Definition base64_enc_map : list Z :=
  [65; 66; 67; 68; 69; 70; 71; 72; 73; 74;
   75; 76; 77; 78; 79; 80; 81; 82; 83; 84;
   85; 86; 87; 88; 89; 90; 97; 98; 99; 100;
   101; 102; 103; 104; 105; 106; 107; 108; 109; 110;
   111; 112; 113; 114; 115; 116; 117; 118; 119; 120;
   121; 122; 48; 49; 50; 51; 52; 53; 54; 55;
   56; 57; 43; 47].

Definition base64_dec_map : list Z :=
  [127; 127; 127; 127; 127; 127; 127; 127; 127; 127;
   127; 127; 127; 127; 127; 127; 127; 127; 127; 127;
   127; 127; 127; 127; 127; 127; 127; 127; 127; 127;
   127; 127; 127; 127; 127; 127; 127; 127; 127; 127;
   127; 127; 127; 62; 127; 127; 127; 63; 52; 53;
   54; 55; 56; 57; 58; 59; 60; 61; 127; 127;
   127; 64; 127; 127; 127; 0; 1; 2; 3; 4;
   5; 6; 7; 8; 9; 10; 11; 12; 13; 14;
   15; 16; 17; 18; 19; 20; 21; 22; 23; 24;
   25; 127; 127; 127; 127; 127; 127; 26; 27; 28;
   29; 30; 31; 32; 33; 34; 35; 36; 37; 38;
   39; 40; 41; 42; 43; 44; 45; 46; 47; 48;
   49; 50; 51; 127; 127; 127; 127; 127].

(** [base64_enc_map[i]] and [base64_dec_map[c]] *)
Definition enc_at (i : Z) : Z := nth (Z.to_nat i) base64_enc_map 0.
Definition dec_at (c : Z) : Z := nth (Z.to_nat c) base64_dec_map 127.

Definition BASE64_SIZE_T_MAX : Z := 2 ^ 32 - 1.

(** ** Encoding *)

(** The loop over whole groups of three bytes and the padded tail. *)
Fixpoint encode_body (src : list Z) : list Z :=
  match src with
  | C1 :: C2 :: C3 :: rest =>
      enc_at (Z.land (Z.shiftr C1 2) 63) ::
      enc_at (Z.land (Z.shiftl (Z.land C1 3) 4 + Z.shiftr C2 4) 63) ::
      enc_at (Z.land (Z.shiftl (Z.land C2 15) 2 + Z.shiftr C3 6) 63) ::
      enc_at (Z.land C3 63) :: encode_body rest
  | [C1; C2] =>
      [ enc_at (Z.land (Z.shiftr C1 2) 63);
        enc_at (Z.land (Z.shiftl (Z.land C1 3) 4 + Z.shiftr C2 4) 63);
        enc_at (Z.land (Z.shiftl (Z.land C2 15) 2) 63);
        61 ]
  | [C1] =>
      [ enc_at (Z.land (Z.shiftr C1 2) 63);
        enc_at (Z.land (Z.shiftl (Z.land C1 3) 4 + Z.shiftr 0 4) 63);
        61; 61 ]
  | [] => []
  end.

(** Result of a call: return value, [*olen] if stored, bytes stored from [dst] on. *)
Record b64_result := B64 { b64_ret : Z; b64_olen : option Z; b64_out : list Z }.

Definition base64_encode (dst_null : bool) (dlen : Z) (src : list Z) : b64_result :=
  let slen := Z.of_nat (length src) in
  if slen =? 0 then B64 0 (Some 0) []
  else
    let n := slen / 3 + (if slen mod 3 =? 0 then 0 else 1) in
    if (BASE64_SIZE_T_MAX - 1) / 4 <? n then B64 (- ENOMEM) (Some BASE64_SIZE_T_MAX) []
    else
      let n := n * 4 in
      if (dlen <? n + 1) || dst_null then B64 (- ENOMEM) (Some (n + 1)) []
      else
        let out := encode_body src in
        B64 0 (Some (Z.of_nat (length out))) (out ++ [0]).

(** ** Decoding *)

(** First pass: [None] is the -EINVAL return, otherwise the counts [n] and [j].
    [x] counts the spaces skipped since the start of the iteration. *)
Fixpoint decode_check (src : list Z) (n j x : Z) : option (Z * Z) :=
  match src with
  | [] => Some (n, j)
  | c :: rest =>
      if c =? 32 then decode_check rest n j (x + 1)
      else if (c =? 13) && (match rest with c' :: _ => c' =? 10 | [] => false end)
      then decode_check rest n j 0
      else if c =? 10 then decode_check rest n j 0
      else if negb (x =? 0) then None
      else
        let j := if c =? 61 then j + 1 else j in
        if (c =? 61) && (2 <? j) then None
        else if (127 <? c) || (dec_at c =? 127) then None
        else if (dec_at c <? 64) && negb (j =? 0) then None
        else decode_check rest (n + 1) j 0
  end.

(** Second pass: three bytes for every four symbols, fewer at the padding. *)
Fixpoint decode_emit (src : list Z) (j n x : Z) : list Z :=
  match src with
  | [] => []
  | c :: rest =>
      if (c =? 13) || (c =? 10) || (c =? 32) then decode_emit rest j n x
      else
        let j := j - (if dec_at c =? 64 then 1 else 0) in
        let x := u32 (Z.lor (Z.shiftl x 6) (Z.land (dec_at c) 63)) in
        if n + 1 =? 4 then
          (if 0 <? j then [u8 (Z.shiftr x 16)] else []) ++
          (if 1 <? j then [u8 (Z.shiftr x 8)] else []) ++
          (if 2 <? j then [u8 x] else []) ++
          decode_emit rest j 0 x
        else decode_emit rest j (n + 1) x
  end.

Definition base64_decode (dst_null : bool) (dlen : Z) (src : list Z) : b64_result :=
  match decode_check src 0 0 0 with
  | None => B64 (- EINVAL) None []
  | Some (n, j) =>
      if n =? 0 then B64 0 (Some 0) []
      else
        let n := 6 * Z.shiftr n 3 + Z.shiftr (6 * Z.land n 7 + 7) 3 in
        let n := n - j in
        if dst_null || (dlen <? n) then B64 (- ENOMEM) (Some n) []
        else
          let out := decode_emit src 3 0 0 in
          B64 0 (Some (Z.of_nat (length out))) out
  end.

(** ** Lemmas on the tables *)

(** What a symbol of the alphabet looks like to the decoder. *)
Definition symbol_ok (i : Z) : bool :=
  let c := enc_at i in
  (dec_at c =? i) && (c <=? 127) && negb (c =? 32) && negb (c =? 13) && negb (c =? 10) && negb (c =? 61) && (0 <? c).

Lemma enc_at_ok i : 0 <= i < 64 -> symbol_ok i = true.
Proof. apply (all_below_spec 64). by vm_compute. Qed.

Lemma land63_range x : 0 <= Z.land x 63 < 64.
Proof. change 63 with (Z.ones 6). rewrite Z.land_ones by lia. apply Z.mod_pos_bound. lia. Qed.

#[export] Hint Resolve land63_range : hub.

Lemma decode_check_symbol i rest n :
  0 <= i < 64 -> decode_check (enc_at i :: rest) n 0 0 = decode_check rest (n + 1) 0 0.
Proof.
  intros Hi. pose proof (enc_at_ok i Hi) as H. unfold symbol_ok in H. to_prop. cbn [decode_check].
  zdec. done.
Qed.

Lemma decode_check_pad rest n j : 0 <= j <= 1 ->
  decode_check (61 :: rest) n j 0 = decode_check rest (n + 1) (j + 1) 0.
Proof.
  intros Hj. cbn [decode_check]. change (dec_at 61) with 64. zdec. done.
Qed.

Lemma lor_shift6 x i : 0 <= i < 64 -> Z.lor (Z.shiftl x 6) i = x * 64 + i.
Proof. intros Hi. rewrite lor_shiftl; [done|lia|exact Hi]. Qed.

Lemma decode_emit_symbol i rest j n x : 0 <= i < 64 ->
  decode_emit (enc_at i :: rest) j n x =
  (let x := u32 (x * 64 + i) in
   if n + 1 =? 4 then
     (if 0 <? j then [u8 (Z.shiftr x 16)] else []) ++
     (if 1 <? j then [u8 (Z.shiftr x 8)] else []) ++
     (if 2 <? j then [u8 x] else []) ++ decode_emit rest j 0 x
   else decode_emit rest j (n + 1) x).
Proof.
  intros Hi. pose proof (enc_at_ok i Hi) as H. unfold symbol_ok in H. to_prop. cbn [decode_emit].
  match goal with E : dec_at _ = i |- _ => rewrite E end.
  rewrite !(proj2 (Z.eqb_neq (enc_at i) 13)), !(proj2 (Z.eqb_neq (enc_at i) 10)),
    !(proj2 (Z.eqb_neq (enc_at i) 32)), (proj2 (Z.eqb_neq i 64)) by lia. cbn [orb]. rewrite Z.sub_0_r.
  change 63 with (Z.ones 6). rewrite Z.land_ones by lia. rewrite Z.mod_small by (change (2 ^ 6) with 64; lia).
  by rewrite lor_shift6.
Qed.

Lemma decode_emit_pad rest j n x :
  decode_emit (61 :: rest) j n x =
  (let x := u32 (x * 64 + 0) in
   if n + 1 =? 4 then
     (if 0 <? j - 1 then [u8 (Z.shiftr x 16)] else []) ++
     (if 1 <? j - 1 then [u8 (Z.shiftr x 8)] else []) ++
     (if 2 <? j - 1 then [u8 x] else []) ++ decode_emit rest (j - 1) 0 x
   else decode_emit rest (j - 1) (n + 1) x).
Proof. cbn [decode_emit]. change (dec_at 61) with 64. cbn -[u32 u8 Z.mul Z.add Z.shiftl Z.shiftr decode_emit Z.lor].
  rewrite <- lor_shift6 by lia. done. Qed.

(** ** Groups of four symbols *)

(** The index expressions of the encoder as arithmetic. *)
Lemma shiftr_div x k : 0 <= k -> Z.shiftr x k = x / 2 ^ k.
Proof. apply Z.shiftr_div_pow2. Qed.
Lemma land_mod x k : 0 <= k -> Z.land x (Z.ones k) = x mod 2 ^ k.
Proof. apply Z.land_ones. Qed.

Ltac bits_to_arith :=
  unfold u8, u32;
  change 63 with (Z.ones 6); change 15 with (Z.ones 4); change 3 with (Z.ones 2);
  rewrite ?land_mod, ?shiftr_div, ?Z.shiftl_mul_pow2 by lia;
  change (2 ^ 2) with 4; change (2 ^ 4) with 16; change (2 ^ 6) with 64;
  change (2 ^ 8) with 256; change (2 ^ 16) with 65536; change (2 ^ 32) with 4294967296.

(** The low 24 bits of the accumulator hold the last four symbols, whatever came before. *)
Lemma accumulate4 x i1 i2 i3 i4 :
  0 <= i1 < 64 -> 0 <= i2 < 64 -> 0 <= i3 < 64 -> 0 <= i4 < 64 ->
  let X := u32 (u32 (u32 (u32 (x * 64 + i1) * 64 + i2) * 64 + i3) * 64 + i4) in
  u8 (Z.shiftr X 16) = i1 * 4 + i2 / 16 /\
  u8 (Z.shiftr X 8) = (i2 mod 16) * 16 + i3 / 4 /\
  u8 X = (i3 mod 4) * 64 + i4.
Proof.
  intros H1 H2 H3 H4 X.
  assert (HX : X mod 16777216 = i1 * 262144 + i2 * 4096 + i3 * 64 + i4).
  { subst X. unfold u32. change (2 ^ 32) with 4294967296. dlia. }
  assert (0 <= X) by (subst X; unfold u32; apply Z.mod_pos_bound; lia).
  clearbody X. clear x. bits_to_arith. repeat split; dlia.
Qed.

Ltac emit_steps :=
  repeat (first [rewrite decode_emit_symbol by done | rewrite decode_emit_pad]; cbv zeta; zdec; cbn [app]).

Lemma decode_emit_group i1 i2 i3 i4 rest x :
  0 <= i1 < 64 -> 0 <= i2 < 64 -> 0 <= i3 < 64 -> 0 <= i4 < 64 ->
  exists x', decode_emit (enc_at i1 :: enc_at i2 :: enc_at i3 :: enc_at i4 :: rest) 3 0 x =
    (i1 * 4 + i2 / 16) :: ((i2 mod 16) * 16 + i3 / 4) :: ((i3 mod 4) * 64 + i4) ::
    decode_emit rest 3 0 x'.
Proof.
  intros H1 H2 H3 H4. emit_steps.
  destruct (accumulate4 x i1 i2 i3 i4 H1 H2 H3 H4) as (-> & -> & ->). by eexists.
Qed.

Lemma decode_emit_tail2 i1 i2 i3 x :
  0 <= i1 < 64 -> 0 <= i2 < 64 -> 0 <= i3 < 64 ->
  decode_emit [enc_at i1; enc_at i2; enc_at i3; 61] 3 0 x = [i1 * 4 + i2 / 16; (i2 mod 16) * 16 + i3 / 4].
Proof.
  intros H1 H2 H3. emit_steps.
  by destruct (accumulate4 x i1 i2 i3 0 H1 H2 H3 ltac:(lia)) as (-> & -> & _).
Qed.

Lemma decode_emit_tail1 i1 i2 x :
  0 <= i1 < 64 -> 0 <= i2 < 64 ->
  decode_emit [enc_at i1; enc_at i2; 61; 61] 3 0 x = [i1 * 4 + i2 / 16].
Proof.
  intros H1 H2. emit_steps.
  by destruct (accumulate4 x i1 i2 0 0 H1 H2 ltac:(lia) ltac:(lia)) as (-> & _ & _).
Qed.

Lemma decode_emit_encode src x : Forall is_byte src -> decode_emit (encode_body src) 3 0 x = src.
Proof.
  revert x. induction src as [|a|a b|a b c src IH] using list_ind3; intros x Hb; [done|..];
    forall_hyps;
    unfold is_byte in *; cbn [encode_body].
  - rewrite decode_emit_tail1 by apply land63_range. f_equal. bits_to_arith. dlia.
  - rewrite decode_emit_tail2 by apply land63_range. bits_to_arith. repeat f_equal; dlia.
  - edestruct decode_emit_group as [x' ->]; [apply land63_range..|]. rewrite IH by done.
    bits_to_arith. repeat f_equal; dlia.
Qed.

(** Number of symbols and of padding characters the first pass counts. *)
Lemma decode_check_encode src n :
  decode_check (encode_body src) n 0 0 =
  Some (n + Z.of_nat (length (encode_body src)), (- Z.of_nat (length src)) mod 3).
Proof.
  revert n. induction src as [|a|a b|a b c src IH] using list_ind3; intros n; cbn [encode_body].
  - cbn [decode_check length]. do 2 f_equal; lia.
  - rewrite !decode_check_symbol by apply land63_range. rewrite !decode_check_pad by lia.
    cbn [decode_check length]. do 2 f_equal; lia.
  - rewrite !decode_check_symbol by apply land63_range. rewrite !decode_check_pad by lia.
    cbn [decode_check length]. do 2 f_equal; lia.
  - rewrite !decode_check_symbol by apply land63_range. rewrite IH. cbn [length].
    f_equal. f_equal; [lia|]. rewrite !Nat2Z.inj_succ. dlia.
Qed.

Lemma encode_body_length src :
  Z.of_nat (length (encode_body src)) = 4 * ((Z.of_nat (length src) + 2) / 3).
Proof.
  induction src as [|a|a b|a b c src IH] using list_ind3; cbn [encode_body length]; [done..|].
  rewrite !Nat2Z.inj_succ, IH. dlia.
Qed.

(** ** Bounds of the decoder *)

Lemma dec_at_cases c : dec_at c < 64 \/ (dec_at c = 64 /\ c = 61) \/ dec_at c = 127.
Proof.
  destruct (Z.ltb_spec c 0); [right; right; unfold dec_at; by rewrite Z2Nat.nonpos by lia|].
  destruct (Z.ltb_spec c 128).
  - pose proof (all_below_spec 128
      (fun c => (dec_at c <? 64) || ((dec_at c =? 64) && (c =? 61)) || (dec_at c =? 127)) c
      ltac:(by vm_compute) ltac:(lia)) as E.
    cbv beta in E. apply orb_true_iff in E as [E|E]; [apply orb_true_iff in E as [E|E]|]; to_prop; auto.
  - right; right. unfold dec_at. apply nth_overflow. change (length base64_dec_map) with 128%nat. lia.
Qed.

(** The size the first pass computes from [m] symbols, [p] of them padding, and what the
    second pass can have written by then. *)
Definition decode_size (m p : Z) : Z := 3 * (m / 4) + m mod 4 - p.
Definition decode_done (m p : Z) : Z := 3 * (m / 4) - p + Z.min (m mod 4) p.

Lemma decode_size_spec m p : 0 <= m ->
  6 * Z.shiftr m 3 + Z.shiftr (6 * Z.land m 7 + 7) 3 - p = decode_size m p.
Proof.
  intros Hm. unfold decode_size. change 7 with (Z.ones 3) at 1.
  rewrite land_mod, !shiftr_div by lia. change (2 ^ 3) with 8. dlia.
Qed.

Lemma decode_emit_bound src : forall m p x y m' p',
  0 <= p <= 2 -> 0 <= m -> decode_check src m p x = Some (m', p') ->
  Z.of_nat (length (decode_emit src (3 - p) (m mod 4) y)) + decode_done m p <= decode_size m' p'.
Proof.
  induction src as [|c src IH]; intros m p x y m' p' Hp Hm; cbn [decode_check decode_emit].
  { intros [= <- <-]. cbn [length]. unfold decode_done, decode_size. dlia. }
  destruct (Z.eqb_spec c 32) as [->|?]; [zdec; apply IH; lia|].
  destruct (Z.eqb_spec c 10) as [->|?]; [zdec; apply IH; lia|].
  destruct (Z.eqb_spec c 13) as [->|?].
  { zdec. case_if; [by apply IH|]. change (dec_at 13) with 127. zdec.
    intros Hrec. exfalso. revert Hrec. repeat case_if; done. }
  cbn [andb orb]. destruct (dec_at_cases c) as [Hs|[[Hs ->]|Hs]].
  - assert (Hc : c <> 61) by (intros ->; vm_compute in Hs; done). zdec.
    case_if; [done|]. case_if; [done|]. case_if; [done|]. to_prop. assert (p = 0) by lia. subst p.
    intros Hrec%(IH _ _ _ (u32 (Z.lor (Z.shiftl y 6) (Z.land (dec_at c) 63)))); [|lia..]. revert Hrec.
    unfold decode_done. case_if; to_prop.
    + replace ((m + 1) mod 4) with 0 by dlia. change (3 - 0 - 0) with 3. change (3 - 0) with 3.
      zdec. cbn [app length]. rewrite !Nat2Z.inj_succ. dlia.
    + replace ((m + 1) mod 4) with (m mod 4 + 1) by dlia. change (3 - 0 - 0) with (3 - 0). dlia.
  - change (dec_at 61) with 64. zdec. case_if; [done|]. case_if; [done|]. to_prop.
    intros Hrec%(IH _ _ _ (u32 (Z.lor (Z.shiftl y 6) (Z.land 64 63)))); [|lia..]. revert Hrec.
    replace (3 - (p + 1)) with (3 - p - 1) by lia. unfold decode_done. case_if; to_prop.
    + replace ((m + 1) mod 4) with 0 by dlia. zdec. repeat case_if; to_prop; cbn [app length]; rewrite !Nat2Z.inj_succ; dlia.
    + replace ((m + 1) mod 4) with (m mod 4 + 1) by dlia. dlia.
  - rewrite Hs. change (127 =? 127) with true. rewrite orb_true_r.
    intros Hrec. exfalso. revert Hrec. repeat case_if; done.
Qed.

Lemma decode_check_reject c src n j x :
  In c src -> c <> 32 -> c <> 13 -> c <> 10 -> 127 < c \/ dec_at c = 127 ->
  decode_check src n j x = None.
Proof.
  intros Hin H32 H13 H10 Hc. revert n j x.
  induction src as [|d src IH]; [done|]. intros n j x. destruct Hin as [->|Hin]; cbn [decode_check].
  - rewrite !(proj2 (Z.eqb_neq c _)) by done. cbn [andb].
    assert ((127 <? c) || (dec_at c =? 127) = true) as ->; [|by zdec; repeat case_if].
    apply orb_true_iff. destruct Hc; [left; by apply Z.ltb_lt|right; by apply Z.eqb_eq].
  - specialize (IH Hin). rewrite !IH. repeat case_if; done.
Qed.

Lemma decode_check_nonneg src n j x n' j' :
  decode_check src n j x = Some (n', j') -> 0 <= n -> 0 <= n'.
Proof.
  revert n j x. induction src as [|c src IH]; intros n j x; cbn [decode_check]; [by intros [= <- _]|].
  repeat case_if; try done; intros Hc Hn; apply IH in Hc; lia.
Qed.

(** Whole groups written by the encoder, in the terms the size check uses. *)
Lemma encode_groups n : 0 <= n -> n / 3 + (if n mod 3 =? 0 then 0 else 1) = (n + 2) / 3.
Proof. intros Hn. case_if; to_prop; dlia. Qed.

Lemma base64_encode_ok dlen src :
  src <> [] -> (Z.of_nat (length src) + 2) / 3 <= (BASE64_SIZE_T_MAX - 1) / 4 ->
  4 * ((Z.of_nat (length src) + 2) / 3) + 1 <= dlen ->
  base64_encode false dlen src =
  B64 0 (Some (Z.of_nat (length (encode_body src)))) (encode_body src ++ [0]).
Proof.
  intros Hne Hmax Hd. unfold base64_encode. cbv zeta.
  assert (length src <> 0%nat) by (by destruct src). rewrite encode_groups by lia. zdec. done.
Qed.

Lemma base64_decode_encode_body dlen src :
  Forall is_byte src -> Z.of_nat (length src) <= dlen ->
  base64_decode false dlen (encode_body src) = B64 0 (Some (Z.of_nat (length src))) src.
Proof.
  intros Hb Hd. unfold base64_decode. rewrite decode_check_encode, Z.add_0_l, decode_emit_encode by done.
  rewrite decode_size_spec by lia. unfold decode_size. pose proof (encode_body_length src) as Hl.
  destruct (decide (src = [])) as [->|Hne]; [done|].
  assert (length src <> 0%nat) by (by destruct src). rewrite Hl. cbn [orb].
  rewrite (proj2 (Z.eqb_neq _ 0)) by dlia. by rewrite (proj2 (Z.ltb_ge dlen _)) by dlia.
Qed.

(** ** Properties *)

(**  Decoding what [base64_encode] stored gives back the source bytes: for any byte
    string whose encoded size fits a 32-bit [size_t] and buffers of the documented size,
    the encoder returns 0, and the decoder returns 0 and the original bytes. *)
Theorem base64_roundtrip dlen dlen' src :
  Forall is_byte src ->
  (Z.of_nat (length src) + 2) / 3 <= (BASE64_SIZE_T_MAX - 1) / 4 ->
  4 * ((Z.of_nat (length src) + 2) / 3) + 1 <= dlen -> Z.of_nat (length src) <= dlen' ->
  exists txt nul,
    base64_encode false dlen src = B64 0 (Some (Z.of_nat (length txt))) (txt ++ nul) /\
    base64_decode false dlen' txt = B64 0 (Some (Z.of_nat (length src))) src.
Proof.
  intros Hb Hmax Hd Hd'. destruct (decide (src = [])) as [->|Hne].
  - by exists [], [].
  - exists (encode_body src), [0]. split; [by apply base64_encode_ok|by apply base64_decode_encode_body].
Qed.

Lemma base64_roundtrip_witness :
  exists txt nul,
    base64_encode false 9 [6; 9; 0; 11] = B64 0 (Some (Z.of_nat (length txt))) (txt ++ nul) /\
    base64_decode false 4 txt = B64 0 (Some 4) [6; 9; 0; 11].
Proof.
  apply (base64_roundtrip 9 4 [6; 9; 0; 11]); [bytes_ok|vm_compute; done..].
Defined.

(**  Neither routine writes past the destination: whatever the input, malformed text
    included, the number of bytes stored is at most [dlen], and [base64_encode] counts its
    terminating NUL in that bound. *)
Theorem base64_in_bounds dst_null dlen src :
  0 <= dlen ->
  Z.of_nat (length (b64_out (base64_encode dst_null dlen src))) <= dlen /\
  Z.of_nat (length (b64_out (base64_decode dst_null dlen src))) <= dlen.
Proof.
  intros Hd. split.
  - unfold base64_encode. cbv zeta. rewrite encode_groups by lia. repeat case_if; cbn [b64_out length]; try lia.
    to_prop. rewrite length_app, Nat2Z.inj_add, encode_body_length. cbn [length]. lia.
  - unfold base64_decode. destruct (decode_check src 0 0 0) as [[n j]|] eqn:Hc; [|done].
    apply decode_check_nonneg in Hc as Hn; [|lia].
    cbv zeta. rewrite decode_size_spec by done. repeat case_if; cbn [b64_out length]; try lia. to_prop.
    pose proof (decode_emit_bound src 0 0 0 0 n j ltac:(lia) ltac:(lia) Hc) as Hb.
    change (0 mod 4) with 0 in Hb. change (3 - 0) with 3 in Hb. change (decode_done 0 0) with 0 in Hb. lia.
Qed.

Lemma base64_in_bounds_witness :
  Z.of_nat (length (b64_out (base64_encode false 8 [1; 2; 3]))) <= 8 /\
  Z.of_nat (length (b64_out (base64_decode false 8 [1; 2; 3]))) <= 8.
Proof. apply (base64_in_bounds false 8 [1; 2; 3]). lia. Defined.

(**  A character outside the alphabet (and not a blank the decoder skips) anywhere in the
    text makes [base64_decode] return -EINVAL without storing a byte, and without storing
    [*olen] either. *)
Theorem base64_decode_rejects dst_null dlen src c :
  In c src -> c <> 32 -> c <> 13 -> c <> 10 -> 127 < c \/ dec_at c = 127 ->
  base64_decode dst_null dlen src = B64 (- EINVAL) None [].
Proof. intros. unfold base64_decode. by rewrite (decode_check_reject c). Qed.

Lemma base64_decode_rejects_witness :
  base64_decode false 16 [65; 66; 33; 67] = B64 (- EINVAL) None [].
Proof. apply (base64_decode_rejects false 16 [65; 66; 33; 67] 33); [cbn; auto|lia..|right; reflexivity]. Defined.
