(* ===== verification/AtParser.v ===== *)
(** * at_parser.c: AT commands to the LTE modem

    The serial port is a queue of receive events, one for every turn of
    the [do]/[while] of [atGetLine]; [time(NULL)] and [malloc] are
    functions of the number of lines asked for.  A call that has used up
    the queue is [Blocked] in [select]; one that stores past the end of a
    line's 256 bytes is [Overran], after which nothing is known. *)
From Stdlib Require Import ZArith String Ascii Lia Bool.
From stdpp Require Import base strings list numbers.
From S2P Require Import Prelude CLib.

Local Open Scope string_scope.
Local Open Scope Z_scope.

Inductive ATState := IDLE | DATA.
Inductive ATStatus := OK | ERROR.

Definition AT_DATA_BUF_SIZE : Z := 512.
Definition AT_LINE_SIZE : nat := 256.

(** [data] is the C string held in the 512-byte array. *)
Record ATPort := MkAT { at_fd : Z; at_state : ATState; at_status : ATStatus; at_data : string }.

(** One turn of [select] and [read]: a byte, no byte, or a failed [select]. *)
Inductive rx := Rx (c : ascii) | RxNone | SelErr.

Inductive getline := Line (s : string) | NoLine | Waiting | PastEnd.

(** ** Reading a line *)

(** A byte is stored at [line[index]] with [index] the length so far, and the NUL behind the line feed. *)
Fixpoint getline_loop (inp : list rx) (line : string) : getline * list rx :=
  match inp with
  | [] => (Waiting, [])
  | Rx newchar :: inp' =>
      if (AT_LINE_SIZE <=? String.length line)%nat then (PastEnd, inp')
      else
        let line := line +:+ String newchar "" in
        if Ascii.eqb newchar LF then (if (AT_LINE_SIZE <=? String.length line)%nat then PastEnd else Line line, inp')
        else getline_loop inp' line
  | RxNone :: inp' | SelErr :: inp' => (NoLine, inp')
  end.

Definition atGetLine (mem : bool) (inp : list rx) : getline * list rx :=
  if mem then getline_loop inp "" else (NoLine, inp).

(** ** Opening and closing: the port mutex *)

(** [None]: the caller waits for [at_mutex]. *)
Definition atOpen (at_mutex : bool) (fd : Z) (mem : bool) : option (option ATPort * bool) :=
  if at_mutex then None
  else if fd <? 0 then Some (None, false)
  else if negb mem then Some (None, false)
  else Some (Some (MkAT fd IDLE OK ""), true).

Definition atClose (at_mutex : bool) (port : option ATPort) : bool :=
  match port with None => at_mutex | Some _ => false end.

(** ** Sending a command *)

Definition blank_line (s : string) : bool :=
  match s with String c _ => Ascii.eqb c LF || Ascii.eqb c CR | EmptyString => false end.

Definition is_ok (line : string) : bool := strncmp0 line "OK" 2.
Definition is_error (line : string) : bool :=
  strncmp0 line "ERROR" 5 || strncmp0 line "+CME ERROR" 10 || strncmp0 line "+CMS ERROR" 10.

Inductive at_result := Ret (r : Z) | Blocked | Overran.

Section Send.
(** [malloc] success and [time(NULL)] at the n-th line. *)
Context (mem : nat -> bool) (now : nat -> Z).

Fixpoint at_loop (fuel k : nat) (endTime : Z) (port : ATPort) (remaining : Z) (inp : list rx)
    : at_result * ATPort * list rx :=
  match fuel with
  | O => (Blocked, port, inp)
  | S f =>
      match atGetLine (mem k) inp with
      | (Waiting, inp') => (Blocked, port, inp')
      | (PastEnd, inp') => (Overran, port, inp')
      | (NoLine, inp') => (Ret (-1), MkAT (at_fd port) IDLE ERROR (at_data port), inp')
      | (Line raw, inp') =>
          if endTime <? now k then (Ret (-1), MkAT (at_fd port) IDLE ERROR (at_data port), inp')
          else if blank_line raw then at_loop f (S k) endTime port remaining inp'
          else
            let line := cstr raw in
            match at_state port with
            | IDLE =>
                let port := if strncmp0 line "AT" 2
                            then MkAT (at_fd port) DATA (at_status port) (at_data port) else port in
                at_loop f (S k) endTime port remaining inp'
            | DATA =>
                if is_ok line then (Ret 0, MkAT (at_fd port) IDLE OK (at_data port), inp')
                else if is_error line then (Ret 0, MkAT (at_fd port) IDLE ERROR (at_data port), inp')
                else
                  let remaining := remaining - Z.of_nat (String.length line) in
                  let port := if 0 <? remaining
                              then MkAT (at_fd port) DATA (at_status port) (at_data port +:+ line) else port in
                  at_loop f (S k) endTime port remaining inp'
            end
      end
  end.

(** [written] is what [write] returned for the command. *)
Definition atSend (port : option ATPort) (cmd : option string) (timeout start written : Z) (inp : list rx)
    : at_result * option ATPort * list rx :=
  match port, cmd with
  | Some port, Some cmd =>
      if negb (written =? Z.of_nat (String.length cmd))
      then (Ret (-1), Some (MkAT (at_fd port) (at_state port) ERROR ""), inp)
      else
        let '(r, port', inp') :=
          at_loop (S (length inp)) 0 (start + timeout) (MkAT (at_fd port) DATA (at_status port) "")
            AT_DATA_BUF_SIZE inp in
        (r, Some port', inp')
  | _, _ => (Ret (-1), port, inp)
  end.

End Send.

(** ** Lines on the wire *)

Fixpoint rx_of (s : string) : list rx :=
  match s with EmptyString => [] | String c s' => Rx c :: rx_of s' end.

(** A text with no line feed and no NUL, and the line the modem sends for it. *)
Definition clean (s : string) : bool := all_chars (fun c => negb (Ascii.eqb c LF)) s && nul_free s.
Definition wire (s : string) : string := s +:+ String LF "".

(** The line and its NUL fit in the 256 bytes. *)
Definition fits (s : string) : bool := (String.length (wire s) <? AT_LINE_SIZE)%nat.

(** What the data buffer should hold: the whole lines that fit in [budget] bytes with their NUL. *)
Fixpoint whole_lines (budget : Z) (ls : list string) : string :=
  match ls with
  | [] => ""
  | l :: ls' =>
      if Z.of_nat (String.length l) <? budget
      then l +:+ whole_lines (budget - Z.of_nat (String.length l)) ls' else ""
  end.

Definition nonblank (l : string) : Prop := blank_line l = false.
#[global] Instance nonblank_dec l : Decision (nonblank l).
Proof. unfold nonblank. apply _. Defined.

Definition data_line (l : string) : bool := clean l && fits l && negb (is_ok (wire l)) && negb (is_error (wire l)).
Definition final_line (l : string) : bool := clean l && fits l && (is_ok (wire l) || is_error (wire l)).

Lemma rx_of_app a b : rx_of (a +:+ b) = (rx_of a ++ rx_of b)%list.
Proof. induction a; cbn; [done|]. by f_equal. Qed.

Lemma rx_of_length s : length (rx_of s) = String.length s.
Proof. induction s; cbn; by f_equal. Qed.

Lemma rx_wire_pos s : (0 < length (rx_of (wire s)))%nat.
Proof. rewrite rx_of_length. unfold wire. rewrite slen_app. cbn [String.length]. lia. Qed.

Lemma getline_line s rest acc :
  all_chars (fun c => negb (Ascii.eqb c LF)) s = true -> (String.length acc + String.length (wire s) < AT_LINE_SIZE)%nat ->
  getline_loop (rx_of (wire s) ++ rest)%list acc = (Line (acc +:+ wire s), rest).
Proof.
  unfold wire. revert acc. induction s as [|c s IH]; intros acc; cbn [all_chars String.append rx_of app getline_loop String.length]; intros H Hl;
    rewrite (proj2 (Nat.leb_gt _ _)) by lia.
  - rewrite Ascii.eqb_refl, slen_app. cbn [String.length]. by rewrite (proj2 (Nat.leb_gt _ _)) by lia.
  - to_prop. rewrite (proj2 (Ascii.eqb_neq c LF)) by done. rewrite IH; [by rewrite sapp_assoc|done|rewrite slen_app; cbn [String.length]; lia].
Qed.

Lemma getline_fits s rest : clean s = true -> fits s = true -> getline_loop (rx_of (wire s) ++ rest)%list "" = (Line (wire s), rest).
Proof. unfold clean, fits. intros Hc Hf. to_prop. by apply (getline_line s rest ""). Qed.

(** A line that does not fit is stored past the end. *)
Lemma getline_long s rest acc : all_chars (fun c => negb (Ascii.eqb c LF)) s = true ->
  (AT_LINE_SIZE <= String.length acc + String.length (wire s))%nat ->
  exists rest', getline_loop (rx_of (wire s) ++ rest)%list acc = (PastEnd, rest').
Proof.
  unfold wire. revert acc. induction s as [|c s IH]; intros acc; cbn [all_chars String.append rx_of app getline_loop String.length]; intros H Hl.
  - case_if; [by eexists|]. rewrite Ascii.eqb_refl, slen_app. cbn [String.length]. rewrite (proj2 (Nat.leb_le _ _)) by lia. by eexists.
  - case_if; [by eexists|]. to_prop. rewrite (proj2 (Ascii.eqb_neq c LF)) by done. apply IH; [done|rewrite slen_app; cbn [String.length]; lia].
Qed.

Lemma getline_shrinks inp acc s inp' :
  getline_loop inp acc = (Line s, inp') -> (length inp' < length inp)%nat.
Proof.
  revert acc. induction inp as [|[c| |] inp IH]; intros acc; cbn [getline_loop length]; try done.
  case_if; [done|]. case_if; [intros [= _ <-]; lia|]. intros H%IH. lia.
Qed.

Lemma getline_waiting inp acc inp' : getline_loop inp acc = (Waiting, inp') -> inp' = [].
Proof.
  revert acc. induction inp as [|[c| |] inp IH]; intros acc; cbn [getline_loop]; [by intros [= <-]| |done..].
  case_if; [done|]. case_if; [by case_if|]. apply IH.
Qed.

Lemma cstr_wire s : clean s = true -> cstr (wire s) = wire s.
Proof.
  unfold clean, wire. intros H. to_prop. apply cstr_nul_free. unfold nul_free in *.
  rewrite all_chars_app. by apply andb_true_iff.
Qed.

Lemma blank_not_final l : final_line l = true -> blank_line (wire l) = false.
Proof.
  unfold final_line, is_ok, is_error. intros H. to_prop. destruct l as [|c l]; [done|]. cbn in *.
  destruct (Ascii.eqb c LF) eqn:E1; [apply Ascii.eqb_eq in E1; by subst|].
  destruct (Ascii.eqb c CR) eqn:E2; [apply Ascii.eqb_eq in E2; by subst|]. done.
Qed.

(** ** The data buffer *)

(** Every pass keeps the text inside the 512-byte array. *)
Definition at_inv (port : ATPort) (remaining : Z) : Prop :=
  Z.of_nat (String.length (at_data port)) <= AT_DATA_BUF_SIZE - 1 /\
  Z.of_nat (String.length (at_data port)) <= AT_DATA_BUF_SIZE - remaining.

Lemma at_loop_inv mem now fuel k e port rem inp r port' inp' :
  at_loop mem now fuel k e port rem inp = (r, port', inp') -> at_inv port rem ->
  Z.of_nat (String.length (at_data port')) <= AT_DATA_BUF_SIZE - 1.
Proof.
  revert k port rem inp. induction fuel as [|f IH]; intros k port rem inp; cbn [at_loop].
  { intros [= _ <- _] [H _]. done. }
  destruct (atGetLine (mem k) inp) as [[raw| | |] inp1]; [|by intros [= _ <- _] [H _]..].
  case_if; [by intros [= _ <- _] [H _]|]. case_if; [apply IH|].
  destruct (at_state port); [intros H1 H2; apply IH in H1; [done|]; by case_if|].
  case_if; [by intros [= _ <- _] [H _]|]. case_if; [by intros [= _ <- _] [H _]|].
  intros H1 [H2 H3]. apply IH in H1; [done|]. unfold at_inv in *. case_if; to_prop; cbn [at_data].
  - rewrite slen_app. lia.
  - lia.
Qed.

(** A blocked call has emptied the queue: the fuel is enough. *)
Lemma at_loop_blocked mem now fuel k e port rem inp port' inp' :
  (length inp < fuel)%nat -> at_loop mem now fuel k e port rem inp = (Blocked, port', inp') -> inp' = [].
Proof.
  revert k port rem inp. induction fuel as [|f IH]; intros k port rem inp Hf; [lia|]. cbn [at_loop].
  destruct (atGetLine (mem k) inp) as [g inp1] eqn:Hg. unfold atGetLine in Hg.
  destruct (mem k); [|injection Hg as <- <-; done]. destruct g as [raw| | |].
  - apply getline_shrinks in Hg.
    case_if; [done|]. case_if; [apply IH; lia|]. destruct (at_state port); [apply IH; lia|].
    case_if; [done|]. case_if; [done|]. apply IH; lia.
  - done.
  - intros [= _ <-]. by apply getline_waiting in Hg.
  - done.
Qed.

(** ** A whole response *)

Definition wires (ls : list string) : string := foldr (fun l s => wire l +:+ s) "" ls.

Lemma whole_lines_nonpos b ls : b <= 0 -> whole_lines b ls = "".
Proof. intros Hb. destruct ls; cbn; [done|]. by rewrite (proj2 (Z.ltb_ge _ _)) by lia. Qed.

Lemma at_loop_response mem now e rest fin :
  (forall k, mem k = true) -> (forall k, now k <= e) -> final_line fin = true ->
  forall ls fuel k fd st data rem,
  Forall (fun l => data_line l = true) ls ->
  (length (rx_of (wires (ls ++ [fin]))) + length rest < fuel)%nat ->
  at_loop mem now fuel k e (MkAT fd DATA st data) rem (rx_of (wires (ls ++ [fin])) ++ rest)%list =
  (Ret 0, MkAT fd IDLE (if is_ok (wire fin) then OK else ERROR)
            (data +:+ whole_lines rem (filter nonblank (map wire ls))), rest).
Proof.
  intros Hmem Hnow Hfin ls. induction ls as [|l ls IH]; intros fuel k fd st data rem Hls Hf;
    destruct fuel as [|f]; [lia| |lia|].
  - pose proof (blank_not_final fin Hfin) as Hb. unfold final_line in Hfin. to_prop.
    cbn [app wires foldr]. rewrite sapp_nil_r. cbn [at_loop]. unfold atGetLine. rewrite Hmem.
    rewrite getline_fits by done.
    rewrite (proj2 (Z.ltb_ge _ _)) by apply Hnow. rewrite Hb, cstr_wire by done. cbn [at_state map].
    rewrite filter_nil. cbn [whole_lines]. rewrite sapp_nil_r.
    destruct (is_ok (wire fin)); [done|]. cbn [orb] in *.
    match goal with H : is_error _ = true |- _ => by rewrite H end.
  - forall_hyps. match goal with H : data_line l = true |- _ => unfold data_line in H; to_prop end.
    cbn [app wires foldr] in *. fold (wires (ls ++ [fin])) in *. rewrite rx_of_app in *.
    rewrite <- app_assoc. rewrite length_app in Hf. pose proof (rx_wire_pos l). cbn [at_loop]. unfold atGetLine at 1. rewrite Hmem.
    rewrite getline_fits by done.
    rewrite (proj2 (Z.ltb_ge _ _)) by apply Hnow. cbn [map].
    destruct (blank_line (wire l)) eqn:Hb.
    + rewrite IH; [|done|lia]. rewrite filter_cons_False; [done|]. unfold nonblank. by rewrite Hb.
    + rewrite cstr_wire by done. cbn [at_state at_fd at_status at_data].
      repeat match goal with H : _ (wire l) = false |- _ => rewrite H end.
      rewrite filter_cons_True by done. cbn [whole_lines].
      replace (0 <? rem - Z.of_nat (String.length (wire l))) with (Z.of_nat (String.length (wire l)) <? rem)
        by (destruct (Z.ltb_spec (Z.of_nat (String.length (wire l))) rem); symmetry; apply Z.ltb_lt || apply Z.ltb_ge; lia).
      case_if; (rewrite IH; [|done|lia]); [by rewrite sapp_assoc|].
      to_prop. by rewrite whole_lines_nonpos by lia.
Qed.

(** ** Properties *)

(**  The response text never overruns the 512-byte [data] array of the port, whatever the
    modem sends: when the call returns or waits, the text and its NUL fit. *)
Theorem atSend_data_bounded mem now port cmd timeout start written inp r port' inp' :
  Z.of_nat (String.length (at_data port)) < AT_DATA_BUF_SIZE ->
  atSend mem now (Some port) cmd timeout start written inp = (r, Some port', inp') ->
  Z.of_nat (String.length (at_data port')) < AT_DATA_BUF_SIZE.
Proof.
  intros Hp. unfold atSend. destruct cmd as [cmd|]; [|by intros [= _ <- _]].
  case_if; [intros [= _ <- _]; done|].
  destruct (at_loop _ _ _ _ _ _ _ _) as [[r1 p1] i1] eqn:Hl. intros [= _ <- _].
  apply at_loop_inv in Hl; [lia|]. split; cbn; lia.
Qed.

Lemma atSend_data_bounded_witness :
  let out := atSend (fun _ => true) (fun _ => 0) (Some (MkAT 3 IDLE OK "")) (Some "AT+CSQ") 2 0 6 (rx_of (wires ["+CSQ: 9"; "OK"])) in
  exists port', snd (fst out) = Some port' /\ Z.of_nat (String.length (at_data port')) < AT_DATA_BUF_SIZE.
Proof.
  eexists. split; [vm_compute; reflexivity|].
  eapply (atSend_data_bounded (fun _ => true) (fun _ => 0) (MkAT 3 IDLE OK "") (Some "AT+CSQ") 2 0 6
    (rx_of (wires ["+CSQ: 9"; "OK"]))); [done|vm_compute; reflexivity].
Defined.

(** C35.  A response in time whose lines have at most 254 characters before the line feed is read as
    the modem meant it: after any number of data and blank lines, the first result code ends the call with return value 0, the port is idle with the
    status of that code, the buffer holds the data lines in order (the whole lines that fit,
    blank ones skipped), and the bytes after the result code stay unread. *)
Theorem atSend_response mem now fd st0 st data0 cmd timeout start ls fin rest :
  (forall k, mem k = true) -> (forall k, now k <= start + timeout) ->
  Forall (fun l => data_line l = true) ls -> final_line fin = true ->
  atSend mem now (Some (MkAT fd st0 st data0)) (Some cmd) timeout start (Z.of_nat (String.length cmd))
    (rx_of (wires (ls ++ [fin])) ++ rest)%list =
  (Ret 0, Some (MkAT fd IDLE (if is_ok (wire fin) then OK else ERROR)
                  (whole_lines AT_DATA_BUF_SIZE (filter nonblank (map wire ls)))), rest).
Proof.
  intros Hmem Hnow Hls Hfin. unfold atSend. rewrite Z.eqb_refl. cbn [negb at_fd at_status].
  rewrite at_loop_response; [done|done|done|done|done|]. rewrite length_app. lia.
Qed.

Lemma atSend_response_witness :
  atSend (fun _ => true) (fun _ => 1) (Some (MkAT 3 IDLE OK "")) (Some "AT+COPS?") 2 0 8
    (rx_of (wires (["+COPS: 0" +:+ String CR ""; String CR ""] ++ ["+CME ERROR: 3"])) ++ [Rx "x"%char])%list =
  (Ret 0, Some (MkAT 3 IDLE ERROR (wire ("+COPS: 0" +:+ String CR ""))), [Rx "x"%char]).
Proof.
  apply (atSend_response (fun _ => true) (fun _ => 1) 3 IDLE OK "" "AT+COPS?" 2 0
    ["+COPS: 0" +:+ String CR ""; String CR ""] "+CME ERROR: 3" [Rx "x"%char]);
    [done|intros; lia|repeat constructor|reflexivity].
Defined.

(**  The line buffer has no bound of its own: a line of 255 or more characters before its line feed is
    stored past the end of the 256 bytes [atGetLine] allocated. *)
Theorem atGetLine_overruns s rest : clean s = true -> (AT_LINE_SIZE - 1 <= String.length s)%nat ->
  exists rest', atGetLine true (rx_of (wire s) ++ rest)%list = (PastEnd, rest').
Proof.
  unfold clean. intros Hs Hl. to_prop. apply (getline_long s rest ""); [done|]. unfold wire. rewrite slen_app. cbn [String.length].
  change AT_LINE_SIZE with 256%nat in *. lia.
Qed.

(**  [atSend] always comes back while the modem or the line timer reports something: it is
    still waiting only when every receive event has been consumed. *)
Theorem atSend_terminates mem now port cmd timeout start written inp port' inp' :
  atSend mem now port cmd timeout start written inp = (Blocked, port', inp') -> inp' = [].
Proof.
  unfold atSend. destruct port as [port|], cmd as [cmd|]; try done. case_if; [done|].
  destruct (at_loop _ _ _ _ _ _ _ _) as [[r1 p1] i1] eqn:Hl. intros [= -> _ <-].
  by eapply at_loop_blocked in Hl; [|lia].
Qed.

Lemma atSend_terminates_witness :
  let out := atSend (fun _ => true) (fun _ => 0) (Some (MkAT 3 IDLE OK "")) (Some "AT") 2 0 2 (rx_of "OK") in
  fst (fst out) = Blocked /\ snd out = [].
Proof.
  split; [vm_compute; reflexivity|].
  eapply (atSend_terminates (fun _ => true) (fun _ => 0) (Some (MkAT 3 IDLE OK "")) (Some "AT") 2 0 2 (rx_of "OK")).
  vm_compute. reflexivity.
Defined.
