(* ===== verification/Aes.v ===== *)
(** * aes.c: AES-128 and its modes

    iris-lib/aes.c, the cipher with which wifi_prov.c decrypts the Wi-Fi password.  A
    buffer is the list of its bytes; the cast of a buffer to [state_t] makes the byte [4 * i + j] of a block
    the entry [state[i][j]] of the matrix, and the functions that change the matrix in place
    return it.  Access to a buffer outside of its bytes is [None].

    The theorems say that the inverse cipher inverts the cipher, that each mode decrypts what
    it encrypted, and that the counter of the counter mode counts.  AesSpec.v compares the
    cipher with its standard. *)
From Stdlib Require Import ZArith Lia Bool Btauto.
From stdpp Require Import base gmap list numbers.
From S2P Require Import Prelude.

Local Open Scope Z_scope.

(** ** Constants and tables *)

Definition AES_BLOCKLEN : nat := 16.
Definition AES_keyExpSize : nat := 176.
Definition Nb : nat := 4.
Definition Nk : nat := 4.
Definition Nr : nat := 10.

Definition sbox : list Z := [
  0x63; 0x7c; 0x77; 0x7b; 0xf2; 0x6b; 0x6f; 0xc5; 0x30; 0x01; 0x67; 0x2b; 0xfe; 0xd7; 0xab; 0x76;
  0xca; 0x82; 0xc9; 0x7d; 0xfa; 0x59; 0x47; 0xf0; 0xad; 0xd4; 0xa2; 0xaf; 0x9c; 0xa4; 0x72; 0xc0;
  0xb7; 0xfd; 0x93; 0x26; 0x36; 0x3f; 0xf7; 0xcc; 0x34; 0xa5; 0xe5; 0xf1; 0x71; 0xd8; 0x31; 0x15;
  0x04; 0xc7; 0x23; 0xc3; 0x18; 0x96; 0x05; 0x9a; 0x07; 0x12; 0x80; 0xe2; 0xeb; 0x27; 0xb2; 0x75;
  0x09; 0x83; 0x2c; 0x1a; 0x1b; 0x6e; 0x5a; 0xa0; 0x52; 0x3b; 0xd6; 0xb3; 0x29; 0xe3; 0x2f; 0x84;
  0x53; 0xd1; 0x00; 0xed; 0x20; 0xfc; 0xb1; 0x5b; 0x6a; 0xcb; 0xbe; 0x39; 0x4a; 0x4c; 0x58; 0xcf;
  0xd0; 0xef; 0xaa; 0xfb; 0x43; 0x4d; 0x33; 0x85; 0x45; 0xf9; 0x02; 0x7f; 0x50; 0x3c; 0x9f; 0xa8;
  0x51; 0xa3; 0x40; 0x8f; 0x92; 0x9d; 0x38; 0xf5; 0xbc; 0xb6; 0xda; 0x21; 0x10; 0xff; 0xf3; 0xd2;
  0xcd; 0x0c; 0x13; 0xec; 0x5f; 0x97; 0x44; 0x17; 0xc4; 0xa7; 0x7e; 0x3d; 0x64; 0x5d; 0x19; 0x73;
  0x60; 0x81; 0x4f; 0xdc; 0x22; 0x2a; 0x90; 0x88; 0x46; 0xee; 0xb8; 0x14; 0xde; 0x5e; 0x0b; 0xdb;
  0xe0; 0x32; 0x3a; 0x0a; 0x49; 0x06; 0x24; 0x5c; 0xc2; 0xd3; 0xac; 0x62; 0x91; 0x95; 0xe4; 0x79;
  0xe7; 0xc8; 0x37; 0x6d; 0x8d; 0xd5; 0x4e; 0xa9; 0x6c; 0x56; 0xf4; 0xea; 0x65; 0x7a; 0xae; 0x08;
  0xba; 0x78; 0x25; 0x2e; 0x1c; 0xa6; 0xb4; 0xc6; 0xe8; 0xdd; 0x74; 0x1f; 0x4b; 0xbd; 0x8b; 0x8a;
  0x70; 0x3e; 0xb5; 0x66; 0x48; 0x03; 0xf6; 0x0e; 0x61; 0x35; 0x57; 0xb9; 0x86; 0xc1; 0x1d; 0x9e;
  0xe1; 0xf8; 0x98; 0x11; 0x69; 0xd9; 0x8e; 0x94; 0x9b; 0x1e; 0x87; 0xe9; 0xce; 0x55; 0x28; 0xdf;
  0x8c; 0xa1; 0x89; 0x0d; 0xbf; 0xe6; 0x42; 0x68; 0x41; 0x99; 0x2d; 0x0f; 0xb0; 0x54; 0xbb; 0x16].

Definition rsbox : list Z := [
  0x52; 0x09; 0x6a; 0xd5; 0x30; 0x36; 0xa5; 0x38; 0xbf; 0x40; 0xa3; 0x9e; 0x81; 0xf3; 0xd7; 0xfb;
  0x7c; 0xe3; 0x39; 0x82; 0x9b; 0x2f; 0xff; 0x87; 0x34; 0x8e; 0x43; 0x44; 0xc4; 0xde; 0xe9; 0xcb;
  0x54; 0x7b; 0x94; 0x32; 0xa6; 0xc2; 0x23; 0x3d; 0xee; 0x4c; 0x95; 0x0b; 0x42; 0xfa; 0xc3; 0x4e;
  0x08; 0x2e; 0xa1; 0x66; 0x28; 0xd9; 0x24; 0xb2; 0x76; 0x5b; 0xa2; 0x49; 0x6d; 0x8b; 0xd1; 0x25;
  0x72; 0xf8; 0xf6; 0x64; 0x86; 0x68; 0x98; 0x16; 0xd4; 0xa4; 0x5c; 0xcc; 0x5d; 0x65; 0xb6; 0x92;
  0x6c; 0x70; 0x48; 0x50; 0xfd; 0xed; 0xb9; 0xda; 0x5e; 0x15; 0x46; 0x57; 0xa7; 0x8d; 0x9d; 0x84;
  0x90; 0xd8; 0xab; 0x00; 0x8c; 0xbc; 0xd3; 0x0a; 0xf7; 0xe4; 0x58; 0x05; 0xb8; 0xb3; 0x45; 0x06;
  0xd0; 0x2c; 0x1e; 0x8f; 0xca; 0x3f; 0x0f; 0x02; 0xc1; 0xaf; 0xbd; 0x03; 0x01; 0x13; 0x8a; 0x6b;
  0x3a; 0x91; 0x11; 0x41; 0x4f; 0x67; 0xdc; 0xea; 0x97; 0xf2; 0xcf; 0xce; 0xf0; 0xb4; 0xe6; 0x73;
  0x96; 0xac; 0x74; 0x22; 0xe7; 0xad; 0x35; 0x85; 0xe2; 0xf9; 0x37; 0xe8; 0x1c; 0x75; 0xdf; 0x6e;
  0x47; 0xf1; 0x1a; 0x71; 0x1d; 0x29; 0xc5; 0x89; 0x6f; 0xb7; 0x62; 0x0e; 0xaa; 0x18; 0xbe; 0x1b;
  0xfc; 0x56; 0x3e; 0x4b; 0xc6; 0xd2; 0x79; 0x20; 0x9a; 0xdb; 0xc0; 0xfe; 0x78; 0xcd; 0x5a; 0xf4;
  0x1f; 0xdd; 0xa8; 0x33; 0x88; 0x07; 0xc7; 0x31; 0xb1; 0x12; 0x10; 0x59; 0x27; 0x80; 0xec; 0x5f;
  0x60; 0x51; 0x7f; 0xa9; 0x19; 0xb5; 0x4a; 0x0d; 0x2d; 0xe5; 0x7a; 0x9f; 0x93; 0xc9; 0x9c; 0xef;
  0xa0; 0xe0; 0x3b; 0x4d; 0xae; 0x2a; 0xf5; 0xb0; 0xc8; 0xeb; 0xbb; 0x3c; 0x83; 0x53; 0x99; 0x61;
  0x17; 0x2b; 0x04; 0x7e; 0xba; 0x77; 0xd6; 0x26; 0xe1; 0x69; 0x14; 0x63; 0x55; 0x21; 0x0c; 0x7d].

(** Powers of x in the field; the first element is not used. *)
Definition Rcon : list Z := [
  0x8d; 0x01; 0x02; 0x04; 0x08; 0x10; 0x20; 0x40; 0x80; 0x1b; 0x36].

Definition getSBoxValue (num : Z) : Z := nth (Z.to_nat num) sbox 0.
Definition getSBoxInvert (num : Z) : Z := nth (Z.to_nat num) rsbox 0.

#[global] Arguments getSBoxValue : simpl never.
#[global] Arguments getSBoxInvert : simpl never.

Record AES_ctx := mkCtx { RoundKey : list Z; Iv : list Z }.

(** ** Key expansion *)

Definition RotWord (tempa : list Z) : list Z :=
  [nth 1 tempa 0; nth 2 tempa 0; nth 3 tempa 0; nth 0 tempa 0].

Definition SubWord (tempa : list Z) : list Z := map getSBoxValue tempa.

(** One turn of the loop: appends the word [i] to the words before it. *)
Definition expand_word (RoundKey : list Z) (i : nat) : list Z :=
  let k := ((i - 1) * 4)%nat in
  let tempa := [nth k RoundKey 0; nth (k + 1) RoundKey 0; nth (k + 2) RoundKey 0; nth (k + 3) RoundKey 0] in
  let tempa :=
    if (i mod Nk =? 0)%nat then
      let tempa := SubWord (RotWord tempa) in
      <[0%nat := Z.lxor (nth 0 tempa 0) (nth (i / Nk) Rcon 0)]> tempa
    else tempa in
  let k := ((i - Nk) * 4)%nat in
  RoundKey ++
    [Z.lxor (nth k RoundKey 0) (nth 0 tempa 0); Z.lxor (nth (k + 1) RoundKey 0) (nth 1 tempa 0);
     Z.lxor (nth (k + 2) RoundKey 0) (nth 2 tempa 0); Z.lxor (nth (k + 3) RoundKey 0) (nth 3 tempa 0)].

Definition KeyExpansion (Key : list Z) : list Z :=
  foldl expand_word (map (fun i => nth i Key 0) (seq 0 (Nk * 4))) (seq Nk (Nb * (Nr + 1) - Nk)).

Definition AES_init_ctx (ctx : AES_ctx) (key : list Z) : AES_ctx := mkCtx (KeyExpansion key) (Iv ctx).

Definition AES_init_ctx_iv (key iv : list Z) : AES_ctx := mkCtx (KeyExpansion key) (take AES_BLOCKLEN iv).

Definition AES_ctx_set_iv (ctx : AES_ctx) (iv : list Z) : AES_ctx := mkCtx (RoundKey ctx) (take AES_BLOCKLEN iv).

(** ** Steps of a round *)

(** The entry [state[i][j]] and an assignment to it. *)
Definition cell (s : list Z) (i j : nat) : Z := nth (4 * i + j)%nat s 0.
Definition put (i j : nat) (v : Z) (s : list Z) : list Z := <[(4 * i + j)%nat := v]> s.

Definition AddRoundKey (round : nat) (s RoundKey : list Z) : list Z :=
  foldl (fun s i => foldl (fun s j =>
      put i j (Z.lxor (cell s i j) (nth (round * Nb * 4 + (i * Nb + j))%nat RoundKey 0)) s)
    s (seq 0 4)) s (seq 0 4).

Definition SubBytes (s : list Z) : list Z :=
  foldl (fun s i => foldl (fun s j => put j i (getSBoxValue (cell s j i)) s) s (seq 0 4)) s (seq 0 4).

Definition ShiftRows (s : list Z) : list Z :=
  let temp := cell s 0 1 in
  let s := put 0 1 (cell s 1 1) s in
  let s := put 1 1 (cell s 2 1) s in
  let s := put 2 1 (cell s 3 1) s in
  let s := put 3 1 temp s in
  let temp := cell s 0 2 in
  let s := put 0 2 (cell s 2 2) s in
  let s := put 2 2 temp s in
  let temp := cell s 1 2 in
  let s := put 1 2 (cell s 3 2) s in
  let s := put 3 2 temp s in
  let temp := cell s 0 3 in
  let s := put 0 3 (cell s 3 3) s in
  let s := put 3 3 (cell s 2 3) s in
  let s := put 2 3 (cell s 1 3) s in
  put 1 3 temp s.

Definition xtime (x : Z) : Z := u8 (Z.lxor (Z.shiftl x 1) (Z.land (Z.shiftr x 7) 1 * 0x1b)).

Definition mix_column (s : list Z) (i : nat) : list Z :=
  let t := cell s i 0 in
  let Tmp := Z.lxor (Z.lxor (Z.lxor (cell s i 0) (cell s i 1)) (cell s i 2)) (cell s i 3) in
  let Tm := xtime (Z.lxor (cell s i 0) (cell s i 1)) in
  let s := put i 0 (Z.lxor (cell s i 0) (Z.lxor Tm Tmp)) s in
  let Tm := xtime (Z.lxor (cell s i 1) (cell s i 2)) in
  let s := put i 1 (Z.lxor (cell s i 1) (Z.lxor Tm Tmp)) s in
  let Tm := xtime (Z.lxor (cell s i 2) (cell s i 3)) in
  let s := put i 2 (Z.lxor (cell s i 2) (Z.lxor Tm Tmp)) s in
  let Tm := xtime (Z.lxor (cell s i 3) t) in
  put i 3 (Z.lxor (cell s i 3) (Z.lxor Tm Tmp)) s.

Definition MixColumns (s : list Z) : list Z := foldl mix_column s (seq 0 4).

Definition Multiply (x y : Z) : Z :=
  Z.lxor (Z.lxor (Z.lxor (Z.lxor
    (Z.land y 1 * x)
    (Z.land (Z.shiftr y 1) 1 * xtime x))
    (Z.land (Z.shiftr y 2) 1 * xtime (xtime x)))
    (Z.land (Z.shiftr y 3) 1 * xtime (xtime (xtime x))))
    (Z.land (Z.shiftr y 4) 1 * xtime (xtime (xtime (xtime x)))).

(** One entry of the product: the four bytes of the column with their factors. *)
Definition mul4 (a b c d fa fb fc fd : Z) : Z :=
  Z.lxor (Z.lxor (Z.lxor (Multiply a fa) (Multiply b fb)) (Multiply c fc)) (Multiply d fd).

Definition inv_mix_column (s : list Z) (i : nat) : list Z :=
  let a := cell s i 0 in
  let b := cell s i 1 in
  let c := cell s i 2 in
  let d := cell s i 3 in
  let s := put i 0 (mul4 a b c d 0x0e 0x0b 0x0d 0x09) s in
  let s := put i 1 (mul4 a b c d 0x09 0x0e 0x0b 0x0d) s in
  let s := put i 2 (mul4 a b c d 0x0d 0x09 0x0e 0x0b) s in
  put i 3 (mul4 a b c d 0x0b 0x0d 0x09 0x0e) s.

Definition InvMixColumns (s : list Z) : list Z := foldl inv_mix_column s (seq 0 4).

Definition InvSubBytes (s : list Z) : list Z :=
  foldl (fun s i => foldl (fun s j => put j i (getSBoxInvert (cell s j i)) s) s (seq 0 4)) s (seq 0 4).

Definition InvShiftRows (s : list Z) : list Z :=
  let temp := cell s 3 1 in
  let s := put 3 1 (cell s 2 1) s in
  let s := put 2 1 (cell s 1 1) s in
  let s := put 1 1 (cell s 0 1) s in
  let s := put 0 1 temp s in
  let temp := cell s 0 2 in
  let s := put 0 2 (cell s 2 2) s in
  let s := put 2 2 temp s in
  let temp := cell s 1 2 in
  let s := put 1 2 (cell s 3 2) s in
  let s := put 3 2 temp s in
  let temp := cell s 0 3 in
  let s := put 0 3 (cell s 1 3) s in
  let s := put 1 3 (cell s 2 3) s in
  let s := put 2 3 (cell s 3 3) s in
  put 3 3 temp s.

(** ** The cipher *)

Definition Cipher (s RoundKey : list Z) : list Z :=
  let s := AddRoundKey 0 s RoundKey in
  let s := foldl (fun s round =>
    let s := SubBytes s in
    let s := ShiftRows s in
    let s := MixColumns s in
    AddRoundKey round s RoundKey) s (seq 1 (Nr - 1)) in
  let s := SubBytes s in
  let s := ShiftRows s in
  AddRoundKey Nr s RoundKey.

(** The rounds count down from [Nr - 1] to 1. *)
Definition InvCipher (s RoundKey : list Z) : list Z :=
  let s := AddRoundKey Nr s RoundKey in
  let s := foldl (fun s round =>
    let s := InvShiftRows s in
    let s := InvSubBytes s in
    let s := AddRoundKey round s RoundKey in
    InvMixColumns s) s (rev (seq 1 (Nr - 1))) in
  let s := InvShiftRows s in
  let s := InvSubBytes s in
  AddRoundKey 0 s RoundKey.

(** ** Modes *)

(** The first block of a buffer is changed by [f]. *)
Definition on_block (f : list Z -> list Z) (buf : list Z) : option (list Z) :=
  if (length buf <? AES_BLOCKLEN)%nat then None
  else Some (f (take AES_BLOCKLEN buf) ++ drop AES_BLOCKLEN buf).

Definition AES_ECB_encrypt (ctx : AES_ctx) (buf : list Z) : option (list Z) :=
  on_block (fun b => Cipher b (RoundKey ctx)) buf.

Definition AES_ECB_decrypt (ctx : AES_ctx) (buf : list Z) : option (list Z) :=
  on_block (fun b => InvCipher b (RoundKey ctx)) buf.

Definition XorWithIv (buf Iv : list Z) : list Z := zip_with Z.lxor buf Iv.

(** Turns of [for (i = 0; i < length; i += AES_BLOCKLEN)]. *)
Definition cbc_turns (length : Z) : nat := Z.to_nat ((length + 15) / 16).

Fixpoint cbc_encrypt_loop (turns : nat) (rk iv buf : list Z) : option (list Z * list Z) :=
  match turns with
  | O => Some (iv, buf)
  | S n =>
      if (length buf <? AES_BLOCKLEN)%nat then None
      else
        let b := Cipher (XorWithIv (take AES_BLOCKLEN buf) iv) rk in
        '(iv', rest) ← cbc_encrypt_loop n rk b (drop AES_BLOCKLEN buf);
        Some (iv', b ++ rest)
  end.

Definition AES_CBC_encrypt_buffer (ctx : AES_ctx) (buf : list Z) (length : Z) : option (AES_ctx * list Z) :=
  '(iv, out) ← cbc_encrypt_loop (cbc_turns length) (RoundKey ctx) (Iv ctx) buf;
  Some (mkCtx (RoundKey ctx) iv, out).

Fixpoint cbc_decrypt_loop (turns : nat) (ctx : AES_ctx) (buf : list Z) : option (AES_ctx * list Z) :=
  match turns with
  | O => Some (ctx, buf)
  | S n =>
      if (length buf <? AES_BLOCKLEN)%nat then None
      else
        let storeNextIv := take AES_BLOCKLEN buf in
        let b := XorWithIv (InvCipher storeNextIv (RoundKey ctx)) (Iv ctx) in
        '(ctx', rest) ← cbc_decrypt_loop n (mkCtx (RoundKey ctx) storeNextIv) (drop AES_BLOCKLEN buf);
        Some (ctx', b ++ rest)
  end.

Definition AES_CBC_decrypt_buffer (ctx : AES_ctx) (buf : list Z) (length : Z) : option (AES_ctx * list Z) :=
  cbc_decrypt_loop (cbc_turns length) ctx buf.

(** The counter is incremented from its last byte; [n] is [bi + 1]. *)
Fixpoint inc_from (n : nat) (iv : list Z) : list Z :=
  match n with
  | O => iv
  | S bi => if nth bi iv 0 =? 255 then inc_from bi (<[bi := 0]> iv) else <[bi := nth bi iv 0 + 1]> iv
  end.

Definition inc_iv (iv : list Z) : list Z := inc_from AES_BLOCKLEN iv.

Fixpoint ctr_loop (rk iv buffer : list Z) (bi : nat) (buf : list Z) : list Z * list Z :=
  match buf with
  | [] => (iv, [])
  | b :: buf' =>
      let '(iv, buffer, bi) :=
        if (bi =? AES_BLOCKLEN)%nat then (inc_iv iv, Cipher iv rk, 0%nat) else (iv, buffer, bi) in
      let '(iv', out) := ctr_loop rk iv buffer (S bi) buf' in
      (iv', Z.lxor b (nth bi buffer 0) :: out)
  end.

Definition AES_CTR_xcrypt_buffer (ctx : AES_ctx) (buf : list Z) (length : nat) : option (AES_ctx * list Z) :=
  if (List.length buf <? length)%nat then None
  else
    let '(iv, out) := ctr_loop (RoundKey ctx) (Iv ctx) [] AES_BLOCKLEN (take length buf) in
    Some (mkCtx (RoundKey ctx) iv, out ++ drop length buf).

(** ** Bytes and blocks *)

Definition block (s : list Z) : Prop := length s = AES_BLOCKLEN /\ Forall is_byte s.

(** Names the sixteen bytes of a block. *)
Ltac block_cases s H :=
  destruct H as [?Hlen ?Hb]; unfold AES_BLOCKLEN in *;
  do 16 (destruct s as [|? s]; [done|]); destruct s; [|done]; forall_hyps.

(** Equations between sums of bits. *)
Ltac xor_tac := apply Z.bits_inj; intros ?; rewrite ?Z.lxor_spec, ?Z.bits_0; btauto.

Lemma byte_lxor x y : is_byte x -> is_byte y -> is_byte (Z.lxor x y).
Proof.
  unfold is_byte. intros Hx Hy. split; [apply Z.lxor_nonneg; lia|].
  destruct (Z.eq_dec (Z.lxor x y) 0) as [->|Hne]; [lia|].
  apply (Z.log2_lt_pow2 _ 8); [assert (0 <= Z.lxor x y) by (apply Z.lxor_nonneg; lia); lia|].
  eapply Z.le_lt_trans; [apply Z.log2_lxor; lia|].
  assert (forall z, 0 <= z < 256 -> Z.log2 z < 8) as Hl.
  { intros z Hz. destruct (Z.eq_dec z 0) as [->|]; [done|]. apply Z.log2_lt_pow2; lia. }
  pose proof (Hl x Hx). pose proof (Hl y Hy). lia.
Qed.

Lemma byte_xtime x : is_byte (xtime x).
Proof. apply u8_byte. Qed.

Lemma sbox_byte x : is_byte x -> is_byte (getSBoxValue x).
Proof.
  intros H. apply (byte_cases (fun x => (0 <=? getSBoxValue x) && (getSBoxValue x <? 256))) in H; [|by vm_compute].
  to_prop. done.
Qed.

Lemma rsbox_sbox x : is_byte x -> getSBoxInvert (getSBoxValue x) = x.
Proof.
  intros H. apply (byte_cases (fun x => getSBoxInvert (getSBoxValue x) =? x)) in H; [|by vm_compute]. by to_prop.
Qed.

Lemma sbox_rsbox x : is_byte x -> getSBoxValue (getSBoxInvert x) = x.
Proof.
  intros H. apply (byte_cases (fun x => getSBoxValue (getSBoxInvert x) =? x)) in H; [|by vm_compute]. by to_prop.
Qed.

Lemma rsbox_byte x : is_byte x -> is_byte (getSBoxInvert x).
Proof.
  intros H. apply (byte_cases (fun x => (0 <=? getSBoxInvert x) && (getSBoxInvert x <? 256))) in H; [|by vm_compute].
  to_prop. done.
Qed.

(** [xtime] is additive. *)
Lemma xtime_lxor x y : is_byte x -> is_byte y -> xtime (Z.lxor x y) = Z.lxor (xtime x) (xtime y).
Proof.
  intros Hx Hy.
  apply (byte_cases (fun x => all_below 256 (fun y => xtime (Z.lxor x y) =? Z.lxor (xtime x) (xtime y)))) in Hx; [|by vm_compute].
  eapply byte_cases in Hx; [|done]. by to_prop.
Qed.

#[export] Hint Resolve byte_lxor byte_xtime sbox_byte rsbox_byte : hub.

(** ** The steps of a round on a block *)

Lemma SubBytes_map s : length s = 16%nat -> SubBytes s = map getSBoxValue s.
Proof. intros H. do 16 (destruct s as [|? s]; [done|]). by destruct s. Qed.

Lemma InvSubBytes_map s : length s = 16%nat -> InvSubBytes s = map getSBoxInvert s.
Proof. intros H. do 16 (destruct s as [|? s]; [done|]). by destruct s. Qed.

Lemma AddRoundKey_zip round s rk : length s = 16%nat ->
  AddRoundKey round s rk = zip_with Z.lxor s (map (fun n => nth (round * 16 + n)%nat rk 0) (seq 0 16)).
Proof.
  intros H. unfold AddRoundKey. replace (round * Nb * 4)%nat with (round * 16)%nat by (unfold Nb; lia).
  generalize (round * 16)%nat as R. intros R. do 16 (destruct s as [|? s]; [done|]). destruct s; [|done].
  vm_compute. reflexivity.
Qed.

Lemma nth_byte n l : Forall is_byte l -> is_byte (nth n l 0).
Proof.
  intros H. destruct (nth_in_or_default n l 0) as [Hi| ->]; [|unfold is_byte; lia].
  rewrite Forall_forall in H. by apply H.
Qed.

Lemma AddRoundKey_block round s rk : Forall is_byte rk -> block s -> block (AddRoundKey round s rk).
Proof.
  intros Hrk [Hl Hs]. rewrite AddRoundKey_zip by done. split; [by rewrite length_zip_with, Hl|].
  eapply Forall_zip_with_fst; [done|]. apply Forall_forall. intros y Hy x Hx.
  apply in_map_iff in Hy as (n & <- & _). by apply byte_lxor, nth_byte.
Qed.

Lemma SubBytes_block s : block s -> block (SubBytes s).
Proof.
  intros [Hl Hs]. rewrite SubBytes_map by done. split; [by rewrite length_map|].
  apply Forall_fmap. eapply Forall_impl; [|exact Hs]. intros x. apply sbox_byte.
Qed.

(** Where the bytes of the result come from. *)
Lemma ShiftRows_perm s : length s = 16%nat ->
  ShiftRows s = map (fun n => nth n s 0) [0; 5; 10; 15; 4; 9; 14; 3; 8; 13; 2; 7; 12; 1; 6; 11]%nat.
Proof. intros H. do 16 (destruct s as [|? s]; [done|]). destruct s; [|done]. by vm_compute. Qed.

Lemma ShiftRows_block s : block s -> block (ShiftRows s).
Proof.
  intros [Hl Hs]. rewrite ShiftRows_perm by done. split; [done|]. apply Forall_fmap, Forall_forall.
  intros n _. by apply nth_byte.
Qed.

Lemma InvSubBytes_block s : block s -> block (InvSubBytes s).
Proof.
  intros [Hl Hs]. rewrite InvSubBytes_map by done. split; [by rewrite length_map|].
  apply Forall_fmap. eapply Forall_impl; [|exact Hs]. intros x. apply rsbox_byte.
Qed.

Lemma InvShiftRows_perm s : length s = 16%nat ->
  InvShiftRows s = map (fun n => nth n s 0) [0; 13; 10; 7; 4; 1; 14; 11; 8; 5; 2; 15; 12; 9; 6; 3]%nat.
Proof. intros H. do 16 (destruct s as [|? s]; [done|]). destruct s; [|done]. by vm_compute. Qed.

Lemma InvShiftRows_block s : block s -> block (InvShiftRows s).
Proof.
  intros [Hl Hs]. rewrite InvShiftRows_perm by done. split; [done|]. apply Forall_fmap, Forall_forall.
  intros n _. by apply nth_byte.
Qed.

Lemma map_id_on {A} (P : A -> Prop) (f : A -> A) l : Forall P l -> (forall x, P x -> f x = x) -> map f l = l.
Proof. intros Hl Hf. induction Hl as [|x l Hx Hl IH]; cbn; [done|]. by rewrite Hf, IH. Qed.

Lemma InvSubBytes_SubBytes s : block s -> InvSubBytes (SubBytes s) = s.
Proof.
  intros [Hl Hs]. rewrite SubBytes_map, InvSubBytes_map by (by rewrite ?length_map). rewrite map_map.
  by apply (map_id_on is_byte); [|apply rsbox_sbox].
Qed.

Lemma InvShiftRows_ShiftRows s : block s -> InvShiftRows (ShiftRows s) = s.
Proof. intros H. block_cases s H. by vm_compute. Qed.

Lemma AddRoundKey_twice round s rk : length s = 16%nat -> AddRoundKey round (AddRoundKey round s rk) rk = s.
Proof.
  intros Hl. rewrite (AddRoundKey_zip round (AddRoundKey round s rk)); rewrite (AddRoundKey_zip round s) by done;
    [|by rewrite length_zip_with, Hl].
  generalize (fun n => nth (round * 16 + n)%nat rk 0) as K. intros K.
  do 16 (destruct s as [|? s]; [done|]). destruct s; [|done]. cbn.
  by rewrite !Z.lxor_assoc, !Z.lxor_nilpotent, !Z.lxor_0_r.
Qed.

(** ** Mixing columns *)

Lemma cons_eq {A} (a b : A) l k : a = b -> l = k -> a :: l = b :: k.
Proof. by intros -> ->. Qed.

(** The columns as functions of their four bytes. *)
Definition mix_col (l : list Z) : list Z := mix_column l 0.
Definition inv_mix_col (l : list Z) : list Z := inv_mix_column l 0.

Lemma MixColumns_cols s : length s = 16%nat ->
  MixColumns s = mix_col (take 4 s) ++ mix_col (take 4 (drop 4 s)) ++ mix_col (take 4 (drop 8 s)) ++ mix_col (drop 12 s).
Proof. intros H. do 16 (destruct s as [|? s]; [done|]). destruct s; [|done]. cbv -[Z.lxor xtime mul4]. reflexivity. Qed.

Lemma InvMixColumns_cols s : length s = 16%nat ->
  InvMixColumns s =
  inv_mix_col (take 4 s) ++ inv_mix_col (take 4 (drop 4 s)) ++ inv_mix_col (take 4 (drop 8 s)) ++ inv_mix_col (drop 12 s).
Proof. intros H. do 16 (destruct s as [|? s]; [done|]). destruct s; [|done]. cbv -[Z.lxor xtime mul4]. reflexivity. Qed.

Lemma mix_col_eq a b c d : is_byte a -> is_byte b -> is_byte c -> is_byte d ->
  mix_col [a; b; c; d] =
    [Z.lxor (xtime a) (Z.lxor (xtime b) (Z.lxor b (Z.lxor c d)));
     Z.lxor (xtime b) (Z.lxor (xtime c) (Z.lxor c (Z.lxor d a)));
     Z.lxor (xtime c) (Z.lxor (xtime d) (Z.lxor d (Z.lxor a b)));
     Z.lxor (xtime d) (Z.lxor (xtime a) (Z.lxor a (Z.lxor b c)))].
Proof.
  intros Ha Hb Hc Hd. unfold mix_col, mix_column, cell, put. cbn -[xtime Z.lxor].
  rewrite !xtime_lxor by auto. repeat (apply cons_eq; [xor_tac|]). done.
Qed.

(** Both are additive, byte by byte. *)
Definition xorl : list Z -> list Z -> list Z := zip_with Z.lxor.

Definition column (l : list Z) : Prop := length l = 4%nat /\ Forall is_byte l.

Ltac column_cases l H :=
  destruct H as [?Hlen ?Hb]; do 4 (destruct l as [|? l]; [done|]); destruct l; [|done]; forall_hyps.

Lemma mix_col_add l k : column l -> column k -> mix_col (xorl l k) = xorl (mix_col l) (mix_col k).
Proof.
  intros Hl Hk. column_cases l Hl. column_cases k Hk. unfold xorl. cbn [zip_with].
  rewrite !mix_col_eq by auto with hub. cbn [zip_with].
  rewrite !xtime_lxor by auto. repeat (apply cons_eq; [xor_tac|]). done.
Qed.

Lemma low_bit x k : Z.land (Z.shiftr x k) 1 = 0 \/ Z.land (Z.shiftr x k) 1 = 1.
Proof. rewrite (Z.land_ones _ 1) by lia. pose proof (Z.mod_pos_bound (Z.shiftr x k) (2 ^ 1) ltac:(lia)). lia. Qed.

Lemma byte_Multiply x f : is_byte x -> is_byte (Multiply x f).
Proof.
  intros Hx. unfold Multiply. rewrite <- (Z.shiftr_0_r f) at 1.
  assert (forall k y, is_byte y -> is_byte (Z.land (Z.shiftr f k) 1 * y)) as Hm.
  { intros k y Hy. unfold is_byte in *. destruct (low_bit f k) as [-> | ->]; lia. }
  auto 10 using byte_lxor, byte_xtime.
Qed.

Lemma Multiply_add x y f : is_byte x -> is_byte y -> is_byte f ->
  Multiply (Z.lxor x y) f = Z.lxor (Multiply x f) (Multiply y f).
Proof.
  intros Hx Hy Hf. unfold Multiply. rewrite !xtime_lxor by auto with hub.
  rewrite <- (Z.shiftr_0_r f) at 1 6 11.
  destruct (low_bit f 0) as [-> | ->], (low_bit f 1) as [-> | ->], (low_bit f 2) as [-> | ->], (low_bit f 3) as [-> | ->],
    (low_bit f 4) as [-> | ->]; rewrite ?Z.mul_0_l, ?Z.mul_1_l; xor_tac.
Qed.

Lemma inv_mix_col_add l k : column l -> column k -> inv_mix_col (xorl l k) = xorl (inv_mix_col l) (inv_mix_col k).
Proof.
  intros Hl Hk. column_cases l Hl. column_cases k Hk.
  unfold inv_mix_col, inv_mix_column, xorl, cell, put. cbn -[Multiply Z.lxor]. unfold mul4.
  rewrite !Multiply_add by (done || unfold is_byte; lia). repeat (apply cons_eq; [xor_tac|]). done.
Qed.

Lemma mix_col_column l : column l -> column (mix_col l).
Proof.
  intros Hl. column_cases l Hl. rewrite mix_col_eq by done. split; [done|].
  repeat (apply Forall_cons_2; [auto 8 with hub|]). apply Forall_nil_2.
Qed.

Lemma inv_mix_col_column l : column l -> column (inv_mix_col l).
Proof.
  intros Hl. column_cases l Hl. split; [done|]. unfold inv_mix_col, inv_mix_column, cell, put. cbn -[mul4]. unfold mul4.
  repeat (apply Forall_cons_2; [auto 8 using byte_lxor, byte_Multiply|]). apply Forall_nil_2.
Qed.

(** A column with one byte, and the sum of the four columns with one byte each. *)
Definition unit_col (i : nat) (x : Z) : list Z := <[i := x]> [0; 0; 0; 0].

Lemma col_split a b c d :
  [a; b; c; d] = xorl (unit_col 0 a) (xorl (unit_col 1 b) (xorl (unit_col 2 c) (unit_col 3 d))).
Proof. unfold xorl, unit_col. cbn. by rewrite !Z.lxor_0_r. Qed.

Lemma unit_col_column i x : is_byte x -> column (unit_col i x).
Proof.
  intros Hx. unfold unit_col. split; [by rewrite length_insert|]. apply Forall_insert; [|done].
  repeat (apply Forall_cons_2; [unfold is_byte; lia|]). apply Forall_nil_2.
Qed.

Lemma xorl_column l k : column l -> column k -> column (xorl l k).
Proof.
  intros Hl Hk. column_cases l Hl. column_cases k Hk. split; [done|].
  repeat (apply Forall_cons_2; [auto with hub|]). apply Forall_nil_2.
Qed.

#[export] Hint Resolve mix_col_column unit_col_column xorl_column : hub.

Definition col_eqb (l k : list Z) : bool := bool_decide (l = k).

Lemma unit_col_mix i x : is_byte x -> (i < 4)%nat -> inv_mix_col (mix_col (unit_col i x)) = unit_col i x.
Proof.
  intros Hx Hi.
  apply (byte_cases (fun x => forallb (fun i => col_eqb (inv_mix_col (mix_col (unit_col i x))) (unit_col i x)) (seq 0 4))) in Hx;
    [|by vm_compute].
  rewrite forallb_forall in Hx. specialize (Hx i ltac:(apply in_seq; lia)). by apply bool_decide_eq_true in Hx.
Qed.

Lemma inv_mix_col_mix l : column l -> inv_mix_col (mix_col l) = l.
Proof.
  intros Hl. column_cases l Hl. rewrite col_split.
  rewrite !mix_col_add, !inv_mix_col_add by auto 10 with hub. by rewrite !unit_col_mix by (done || lia).
Qed.

Lemma block_columns s : block s ->
  column (take 4 s) /\ column (take 4 (drop 4 s)) /\ column (take 4 (drop 8 s)) /\ column (drop 12 s).
Proof.
  intros [Hl Hb]. unfold column. rewrite !length_take, !length_drop, Hl.
  split_and!; try done; auto using Forall_take, Forall_drop.
Qed.

Lemma columns_join (s : list Z) : length s = 16%nat -> take 4 s ++ take 4 (drop 4 s) ++ take 4 (drop 8 s) ++ drop 12 s = s.
Proof. intros H. do 16 (destruct s as [|? s]; [done|]). by destruct s. Qed.

Lemma columns_block a b c d : column a -> column b -> column c -> column d -> block (a ++ b ++ c ++ d).
Proof.
  intros [Ha Ha'] [Hb Hb'] [Hc Hc'] [Hd Hd']. split; [by rewrite !length_app, Ha, Hb, Hc, Hd|].
  by repeat (apply Forall_app; split).
Qed.

Lemma MixColumns_block s : block s -> block (MixColumns s).
Proof.
  intros H. rewrite MixColumns_cols by apply H. destruct (block_columns s H) as (? & ? & ? & ?).
  apply columns_block; by apply mix_col_column.
Qed.

Lemma InvMixColumns_block s : block s -> block (InvMixColumns s).
Proof.
  intros H. rewrite InvMixColumns_cols by apply H. destruct (block_columns s H) as (? & ? & ? & ?).
  apply columns_block; by apply inv_mix_col_column.
Qed.

Lemma InvMixColumns_MixColumns s : block s -> InvMixColumns (MixColumns s) = s.
Proof.
  intros H. rewrite InvMixColumns_cols by apply MixColumns_block, H. rewrite MixColumns_cols by apply H.
  destruct (block_columns s H) as (H1 & H2 & H3 & H4).
  destruct (mix_col_column _ H1) as [L1 _], (mix_col_column _ H2) as [L2 _],
    (mix_col_column _ H3) as [L3 _], (mix_col_column _ H4) as [L4 _].
  rewrite !take_app_length' by done.
  rewrite (drop_app_length' _ _ 4) by done. rewrite (take_app_length' _ _ 4) by done.
  rewrite (app_assoc (mix_col (take 4 s))) at 1.
  rewrite (drop_app_length' _ _ 8) by (by rewrite length_app, L1, L2). rewrite (take_app_length' _ _ 4) by done.
  rewrite !app_assoc. rewrite (drop_app_length' _ _ 12) by (by rewrite !length_app, L1, L2, L3).
  rewrite !inv_mix_col_mix by done. rewrite <- !app_assoc. by apply columns_join, H.
Qed.

(** ** The inverse cipher *)

Section Rounds.
Context {A B : Type} (P : A -> Prop).

(** Undoing steps in the reverse order. *)
Lemma foldl_undo (f g : A -> B -> A) l s :
  (forall s r, P s -> P (f s r) /\ g (f s r) r = s) -> P s -> foldl g (foldl f s l) (rev l) = s.
Proof.
  intros H. revert s. induction l as [|r l IH]; intros s Hs; [done|]. cbn. rewrite foldl_snoc.
  destruct (H s r Hs). by rewrite IH.
Qed.

Lemma foldl_keeps (f : A -> B -> A) l s : (forall s r, P s -> P (f s r)) -> P s -> P (foldl f s l).
Proof. intros H. revert s. induction l as [|r l IH]; intros s Hs; [done|]. cbn. auto. Qed.

(** A step moved from the beginning of each round to its end. *)
Lemma foldl_shift (t : A -> A) (h : A -> B -> A) l s :
  t (foldl (fun s r => h (t s) r) s l) = foldl (fun s r => t (h s r)) (t s) l.
Proof. revert s. induction l as [|r l IH]; intros s; [done|]. cbn. by rewrite IH. Qed.
End Rounds.

Definition round_body (s rk : list Z) (round : nat) : list Z := AddRoundKey round (MixColumns s) rk.
Definition sub_shift (s : list Z) : list Z := ShiftRows (SubBytes s).

Section Inverse.
Context (rk : list Z) (Hrk : Forall is_byte rk).

Lemma sub_shift_block s : block s -> block (sub_shift s).
Proof. intros H. by apply ShiftRows_block, SubBytes_block. Qed.

Lemma sub_shift_undo s : block s -> InvSubBytes (InvShiftRows (sub_shift s)) = s.
Proof. intros H. unfold sub_shift. by rewrite InvShiftRows_ShiftRows, InvSubBytes_SubBytes by auto using SubBytes_block. Qed.

Lemma round_body_block s round : block s -> block (round_body s rk round).
Proof. intros H. by apply AddRoundKey_block, MixColumns_block. Qed.

Lemma Cipher_rounds s :
  Cipher s rk = AddRoundKey Nr (foldl (fun s r => sub_shift (round_body s rk r))
    (sub_shift (AddRoundKey 0 s rk)) (seq 1 (Nr - 1))) rk.
Proof.
  rewrite <- (foldl_shift sub_shift (fun s r => round_body s rk r)).
  unfold Cipher, sub_shift, round_body. cbv beta zeta. reflexivity.
Qed.

Lemma Cipher_block s : block s -> block (Cipher s rk).
Proof.
  intros H. rewrite Cipher_rounds. apply AddRoundKey_block; [done|].
  apply (foldl_keeps block); [intros; by apply sub_shift_block, round_body_block|].
  by apply sub_shift_block, AddRoundKey_block.
Qed.

Lemma InvCipher_block s : block s -> block (InvCipher s rk).
Proof.
  intros H. unfold InvCipher. cbv zeta. apply AddRoundKey_block, InvSubBytes_block, InvShiftRows_block; [done|].
  apply (foldl_keeps block); [|by apply AddRoundKey_block].
  intros t r Ht. by apply InvMixColumns_block, AddRoundKey_block, InvSubBytes_block, InvShiftRows_block.
Qed.

Lemma InvCipher_Cipher s : block s -> InvCipher (Cipher s rk) rk = s.
Proof.
  intros H. rewrite Cipher_rounds. unfold InvCipher. cbv zeta.
  assert (block (sub_shift (AddRoundKey 0 s rk))) as H0 by (by apply sub_shift_block, AddRoundKey_block).
  rewrite AddRoundKey_twice.
  2: { apply (foldl_keeps block); [intros; by apply sub_shift_block, round_body_block|done]. }
  rewrite (foldl_undo block); [|intros t r Ht|done].
  - rewrite sub_shift_undo by (by apply AddRoundKey_block). by apply AddRoundKey_twice, H.
  - split; [by apply sub_shift_block, round_body_block|].
    rewrite sub_shift_undo by (by apply round_body_block). unfold round_body.
    rewrite AddRoundKey_twice by apply MixColumns_block, Ht. by apply InvMixColumns_MixColumns.
Qed.
End Inverse.

(** ** The expanded key *)

Lemma Rcon_byte n : is_byte (nth n Rcon 0).
Proof. apply nth_byte. unfold Rcon. bytes_ok. Qed.

Lemma expand_word_bytes rk i : Forall is_byte rk -> Forall is_byte (expand_word rk i).
Proof.
  intros H. unfold expand_word. cbv zeta. apply Forall_app. split; [done|].
  assert (forall k, is_byte (nth k rk 0)) as Hn by (intros k; by apply nth_byte).
  match goal with |- Forall _ [Z.lxor _ (nth 0 ?t 0); _; _; _] => assert (Forall is_byte t) as Ht end.
  { case_if; [apply Forall_insert|]; [apply Forall_fmap| |];
      repeat (apply Forall_cons_2; [cbn -[getSBoxValue]; auto with hub|]); try apply Forall_nil_2.
    apply byte_lxor; [|apply Rcon_byte]. cbn -[getSBoxValue]. auto with hub. }
  repeat (apply Forall_cons_2; [apply byte_lxor; [done|by apply nth_byte]|]). apply Forall_nil_2.
Qed.

Lemma expand_word_length rk i : length (expand_word rk i) = (length rk + 4)%nat.
Proof. unfold expand_word. by rewrite length_app. Qed.

Lemma foldl_expand_length rk l : length (foldl expand_word rk l) = (length rk + 4 * length l)%nat.
Proof. revert rk. induction l as [|i l IH]; intros rk; cbn [foldl length]; [lia|]. rewrite IH, expand_word_length. lia. Qed.

(** The expanded key fills the array of the context with bytes. *)
Lemma KeyExpansion_bytes key : Forall is_byte key ->
  length (KeyExpansion key) = AES_keyExpSize /\ Forall is_byte (KeyExpansion key).
Proof.
  intros H. split; [unfold KeyExpansion; by rewrite foldl_expand_length, length_map|].
  unfold KeyExpansion. apply (foldl_keeps (Forall is_byte)); [intros; by apply expand_word_bytes|].
  apply Forall_fmap, Forall_forall. intros n _. by apply nth_byte.
Qed.

#[global] Opaque Cipher InvCipher KeyExpansion.

(** ** Cipher block chaining *)

Lemma xor_iv_block b iv : block b -> block iv -> block (XorWithIv b iv).
Proof.
  intros [Hb Hb'] [Hi Hi']. unfold XorWithIv. split; [by rewrite length_zip_with, Hb, Hi|].
  eapply Forall_zip_with_fst; [done|]. eapply Forall_impl; [|exact Hi']. auto using byte_lxor.
Qed.

Lemma xor_iv_twice b iv : length b = length iv -> XorWithIv (XorWithIv b iv) iv = b.
Proof.
  unfold XorWithIv. revert iv. induction b as [|x b IH]; intros [|y iv] H; try done. cbn. f_equal.
  - by rewrite Z.lxor_assoc, Z.lxor_nilpotent, Z.lxor_0_r.
  - apply IH. by injection H.
Qed.

Lemma take_block buf : Forall is_byte buf -> (AES_BLOCKLEN <= length buf)%nat -> block (take AES_BLOCKLEN buf).
Proof. intros Hb Hl. split; [rewrite length_take; lia|]. by apply Forall_take. Qed.

(** A turn of either loop inside the buffer. *)
Lemma in_buffer turns (buf : list Z) :
  (AES_BLOCKLEN * S turns <= length buf)%nat ->
  (length buf <? AES_BLOCKLEN)%nat = false /\ (AES_BLOCKLEN * turns <= length (drop AES_BLOCKLEN buf))%nat.
Proof. intros H. rewrite length_drop. split; [apply Nat.ltb_ge|]; lia. Qed.

Section Cbc.
Context (rk : list Z) (Hrk : Forall is_byte rk).

Lemma cbc_loops turns : forall iv buf, block iv -> Forall is_byte buf -> (AES_BLOCKLEN * turns <= length buf)%nat ->
  exists iv' out, cbc_encrypt_loop turns rk iv buf = Some (iv', out) /\ length out = length buf /\ Forall is_byte out /\
    cbc_decrypt_loop turns (mkCtx rk iv) out = Some (mkCtx rk iv', buf).
Proof.
  induction turns as [|n IH]; intros iv buf Hiv Hbuf Hl; [by exists iv, buf|].
  destruct (in_buffer n buf Hl) as [Hlt Hl']. cbn [cbc_encrypt_loop]. rewrite Hlt.
  assert (block (take AES_BLOCKLEN buf)) as Hb by (apply take_block; [done|lia]).
  set (b := Cipher _ rk).
  assert (block b) as Hcb by (by apply Cipher_block, xor_iv_block).
  destruct (IH b (drop AES_BLOCKLEN buf) Hcb ltac:(by apply Forall_drop) Hl') as (iv' & out & -> & Hlo & Hbo & Hdec).
  exists iv', (b ++ out). split; [done|]. destruct Hcb as [Hcl Hcb].
  split; [rewrite length_app, Hcl, Hlo, length_drop; lia|]. split; [by apply Forall_app|].
  cbn [cbc_decrypt_loop]. rewrite length_app, Hcl. replace (_ <? _)%nat with false by (symmetry; apply Nat.ltb_ge; lia).
  rewrite take_app_length', drop_app_length' by done. cbn [Aes.RoundKey Aes.Iv]. rewrite Hdec. cbn. do 2 f_equal.
  subst b. rewrite InvCipher_Cipher by (done || by apply xor_iv_block).
  rewrite xor_iv_twice by (rewrite (proj1 Hb), (proj1 Hiv); done). apply take_drop.
Qed.

(** Bytes behind the blocks stay as they are. *)
Lemma cbc_encrypt_app turns : forall iv buf t iv' out, (AES_BLOCKLEN * turns <= length buf)%nat ->
  cbc_encrypt_loop turns rk iv buf = Some (iv', out) -> cbc_encrypt_loop turns rk iv (buf ++ t) = Some (iv', out ++ t).
Proof.
  induction turns as [|n IH]; intros iv buf t iv' out Hl He; [by injection He as <- <-|].
  destruct (in_buffer n buf Hl) as [Hlt Hl']. to_prop. cbn [cbc_encrypt_loop] in *. rewrite length_app.
  rewrite (proj2 (Nat.ltb_ge (length buf) _)) in He by done. rewrite (proj2 (Nat.ltb_ge _ _)) by lia.
  rewrite take_app_le, drop_app_le by done. set (b := Cipher _ rk) in *.
  destruct (cbc_encrypt_loop n rk b (drop AES_BLOCKLEN buf)) as [[i r]|] eqn:E; [|done].
  cbn [mbind option_bind] in He. injection He as <- <-. rewrite (IH _ _ t _ _ Hl' E). cbn [mbind option_bind].
  by rewrite app_assoc.
Qed.

Lemma cbc_decrypt_bytes turns : forall iv buf ctx' out, block iv -> Forall is_byte buf ->
  cbc_decrypt_loop turns (mkCtx rk iv) buf = Some (ctx', out) -> length out = length buf /\ Forall is_byte out.
Proof.
  induction turns as [|n IH]; intros iv buf ctx' out Hiv Hbuf He; [by injection He as _ <-|]. cbn [cbc_decrypt_loop] in He.
  destruct (length buf <? AES_BLOCKLEN)%nat eqn:E; [done|]. to_prop.
  pose proof (take_block buf Hbuf E) as Hb. cbn [Aes.RoundKey Aes.Iv] in He.
  destruct (cbc_decrypt_loop n _ _) as [[c r]|] eqn:El; [|done]. cbn [mbind option_bind] in He. injection He as _ <-.
  destruct (IH _ _ _ _ Hb (Forall_drop _ _ _ Hbuf) El) as [Hl Hr].
  destruct (xor_iv_block _ _ (InvCipher_block rk Hrk _ Hb) Hiv) as [Hxl Hx].
  split; [rewrite length_app, Hl, Hxl, length_drop; lia|]. by apply Forall_app.
Qed.

(** Both loops end outside of the buffer exactly when it is shorter than the blocks they work on. *)
Lemma cbc_decrypt_bounds turns : forall iv buf,
  is_Some (cbc_decrypt_loop turns (mkCtx rk iv) buf) <-> (AES_BLOCKLEN * turns <= length buf)%nat.
Proof.
  induction turns as [|n IH]; intros iv buf; [split; [lia|done]|]. cbn [cbc_decrypt_loop].
  destruct (length buf <? AES_BLOCKLEN)%nat eqn:E; to_prop.
  - split; [by intros [? [=]]|]. lia.
  - specialize (IH (take AES_BLOCKLEN buf) (drop AES_BLOCKLEN buf)). rewrite length_drop in IH. cbn [Aes.RoundKey Aes.Iv].
    destruct (cbc_decrypt_loop n _ _) as [[c r]|]; cbn.
    + destruct IH as [IH _]. split; [intros _; specialize (IH ltac:(done)); unfold AES_BLOCKLEN in *; lia|done].
    + destruct IH as [_ IH]. split; [by intros [? [=]]|]. intros H. destruct IH as [? [=]]. unfold AES_BLOCKLEN in *. lia.
Qed.
End Cbc.

Lemma cbc_turns_ceil len : 0 <= len -> Z.of_nat (AES_BLOCKLEN * cbc_turns len) - 16 < len <= Z.of_nat (AES_BLOCKLEN * cbc_turns len).
Proof. intros H. unfold cbc_turns, AES_BLOCKLEN. rewrite Nat2Z.inj_mul, Z2Nat.id by dlia. dlia. Qed.

(** C19. Decrypting a buffer that was encrypted in CBC mode with the same key and initialisation vector gives the buffer
    back, for every length the buffer has room for in whole blocks; neither call leaves the buffer, and both leave the
    same vector for the next call. *)
Theorem aes_cbc_roundtrip key iv buf len :
  Forall is_byte key -> block iv -> Forall is_byte buf -> 0 <= len ->
  (AES_BLOCKLEN * cbc_turns len <= length buf)%nat ->
  exists ctx' out,
    AES_CBC_encrypt_buffer (AES_init_ctx_iv key iv) buf len = Some (ctx', out) /\ length out = length buf /\
    AES_CBC_decrypt_buffer (AES_init_ctx_iv key iv) out len = Some (ctx', buf).
Proof.
  intros Hk Hiv Hb _ Hl. destruct (KeyExpansion_bytes key Hk) as [_ Hrk].
  destruct (cbc_loops _ Hrk (cbc_turns len) iv buf Hiv Hb Hl) as (iv' & out & He & Hlen & _ & Hd).
  exists (mkCtx (KeyExpansion key) iv'), out. unfold AES_CBC_encrypt_buffer, AES_CBC_decrypt_buffer, AES_init_ctx_iv.
  rewrite firstn_all2 by (rewrite (proj1 Hiv); lia). cbn. by rewrite He.
Qed.

(** ** Counter mode *)

(** The value of a counter, its first byte the most significant. *)
Definition be_val (l : list Z) : Z := foldl (fun a b => a * 256 + b) 0 l.

Lemma be_val_app l k : be_val (l ++ k) = be_val l * 256 ^ Z.of_nat (length k) + be_val k.
Proof.
  induction k as [|x k IH] using rev_ind; [rewrite app_nil_r; cbn; lia|].
  unfold be_val in *. rewrite app_assoc, !foldl_snoc, IH, length_app. cbn [length].
  rewrite Nat2Z.inj_add, Z.pow_add_r by lia. change (256 ^ Z.of_nat 1) with 256. ring.
Qed.

Lemma be_val_range l : Forall is_byte l -> 0 <= be_val l < 256 ^ Z.of_nat (length l).
Proof.
  induction l as [|x l IH] using rev_ind; intros H; [cbn; lia|]. apply Forall_app in H as [H1 H2]. forall_hyps.
  specialize (IH H1). rewrite be_val_app, length_app. cbn [length]. rewrite Nat2Z.inj_add, Z.pow_add_r by lia.
  change (256 ^ Z.of_nat 1) with 256. unfold is_byte, be_val in *. cbn. nia.
Qed.

(** Increment of the first [length l] bytes. *)
Lemma inc_from_spec l : forall k, Forall is_byte l ->
  exists l', inc_from (length l) (l ++ k) = l' ++ k /\ length l' = length l /\ Forall is_byte l' /\
    be_val l' = (be_val l + 1) mod 256 ^ Z.of_nat (length l).
Proof.
  induction l as [|x l IH] using rev_ind; intros k H; [by exists []|].
  apply Forall_app in H as [H1 H2]. forall_hyps. rewrite length_app. cbn [length].
  replace (length l + 1)%nat with (S (length l)) by lia. cbn [inc_from].
  assert (nth (length l) ((l ++ [x]) ++ k) 0 = x) as ->
    by (rewrite <- app_assoc, app_nth2 by lia; by rewrite Nat.sub_diag).
  assert (forall y, <[length l := y]> ((l ++ [x]) ++ k) = l ++ y :: k) as Hins.
  { intros y. rewrite <- app_assoc. replace (length l) with (length l + 0)%nat at 1 by lia. by rewrite insert_app_r. }
  pose proof (be_val_range l H1) as Hr. unfold is_byte in *.
  replace (256 ^ Z.of_nat (S (length l))) with (256 ^ Z.of_nat (length l) * 256) by (rewrite Nat2Z.inj_succ, Z.pow_succ_r by lia; ring).
  rewrite be_val_app. change (be_val [x]) with (0 * 256 + x). change (256 ^ Z.of_nat (length [x])) with 256.
  destruct (Z.eqb_spec x 255) as [->|Hne].
  - rewrite Hins. destruct (IH (0 :: k) H1) as (l' & -> & Hl & Hb & Hv).
    exists (l' ++ [0]). split; [by rewrite <- app_assoc|]. split; [rewrite length_app, Hl; cbn; lia|].
    split; [apply Forall_app; split; [done|]; apply Forall_cons_2; [lia|apply Forall_nil_2]|].
    rewrite be_val_app, Hv. change (be_val [0]) with 0. change (256 ^ Z.of_nat (length [0])) with 256.
    replace (be_val l * 256 + (0 * 256 + 255) + 1) with ((be_val l + 1) * 256) by ring. rewrite Zmult_mod_distr_r. lia.
  - exists (l ++ [x + 1]). rewrite Hins. split; [by rewrite <- app_assoc|]. split; [rewrite length_app; cbn; lia|].
    split; [apply Forall_app; split; [done|]; apply Forall_cons_2; [lia|apply Forall_nil_2]|].
    rewrite be_val_app. change (be_val [x + 1]) with (0 * 256 + (x + 1)).
    change (256 ^ Z.of_nat (length [x + 1])) with 256. rewrite Z.mod_small; nia.
Qed.

Lemma inc_iv_spec iv : block iv -> block (inc_iv iv) /\ be_val (inc_iv iv) = (be_val iv + 1) mod 2 ^ 128.
Proof.
  intros [Hl Hb]. destruct (inc_from_spec iv [] Hb) as (l' & He & Hl' & Hb' & Hv). rewrite !app_nil_r, Hl in *.
  unfold inc_iv. rewrite He. split; [done|]. by rewrite Hv.
Qed.

(** The key stream: byte [bi] of the block encrypted last, then the encrypted values of the counter. *)
Lemma ctr_loop_spec rk : forall buf iv buffer bi,
  let '(iv', out) := ctr_loop rk iv buffer bi buf in
  length out = length buf /\ ctr_loop rk iv buffer bi out = (iv', buf).
Proof.
  induction buf as [|b buf IH]; intros iv buffer bi; [done|]. cbn [ctr_loop].
  destruct (if (bi =? AES_BLOCKLEN)%nat then _ else _) as [[iv1 buffer1] bi1] eqn:E.
  specialize (IH iv1 buffer1 (S bi1)). destruct (ctr_loop rk iv1 buffer1 (S bi1) buf) as [iv' out].
  destruct IH as [Hl IH]. split; [cbn; by rewrite Hl|]. cbn [ctr_loop]. rewrite E, IH.
  by rewrite Z.lxor_assoc, Z.lxor_nilpotent, Z.lxor_0_r.
Qed.

(** The counter after [k] increments, and the byte [n] of the key stream of the loop. *)
Definition counter (iv : list Z) (k : nat) : list Z := Nat.iter k inc_iv iv.

Definition stream (rk iv buffer : list Z) (bi n : nat) : Z :=
  if (bi + n <? AES_BLOCKLEN)%nat then nth (bi + n) buffer 0
  else nth ((bi + n) mod AES_BLOCKLEN) (Cipher (counter iv ((bi + n) / AES_BLOCKLEN - 1)) rk) 0.

Lemma ctr_loop_stream rk : forall buf iv buffer bi n, (bi <= AES_BLOCKLEN)%nat -> (n < length buf)%nat ->
  nth n (snd (ctr_loop rk iv buffer bi buf)) 0 = Z.lxor (nth n buf 0) (stream rk iv buffer bi n).
Proof.
  induction buf as [|b buf IH]; intros iv buffer bi n Hbi Hn; [cbn in Hn; lia|]. cbn [ctr_loop].
  destruct (Nat.eqb_spec bi AES_BLOCKLEN) as [->|Hne].
  - specialize (IH (inc_iv iv) (Cipher iv rk) 1%nat). destruct (ctr_loop rk (inc_iv iv) _ _ buf) as [iv' out].
    destruct n as [|n]; [done|]. cbn [snd nth]. rewrite IH by (cbn in *; unfold AES_BLOCKLEN; lia). f_equal.
    unfold stream, AES_BLOCKLEN. replace (16 + S n)%nat with (1 + n + 1 * 16)%nat by lia.
    rewrite Nat.Div0.mod_add, Nat.div_add by lia. rewrite (proj2 (Nat.ltb_ge (1 + n + 1 * 16) 16)) by lia.
    destruct (Nat.ltb_spec (1 + n) 16) as [Hlt|Hge].
    + by rewrite Nat.mod_small, Nat.div_small by lia.
    + pose proof (Nat.Div0.div_le_mono 16 (1 + n) 16 Hge) as Hd. change (16 / 16)%nat with 1%nat in Hd.
      unfold counter. rewrite <- Nat.iter_succ_r. do 3 f_equal. lia.
  - specialize (IH iv buffer (S bi)). destruct (ctr_loop rk iv buffer (S bi) buf) as [iv' out].
    destruct n as [|n]; cbn [snd nth].
    + unfold stream. rewrite Nat.add_0_r. by rewrite (proj2 (Nat.ltb_lt bi AES_BLOCKLEN)) by lia.
    + rewrite IH by (cbn in *; lia). unfold stream. by replace (S bi + n)%nat with (bi + S n)%nat by lia.
Qed.

Lemma counter_val iv k : block iv -> be_val (counter iv k) = (be_val iv + Z.of_nat k) mod 2 ^ 128.
Proof.
  intros Hiv. enough (block (counter iv k) /\ be_val (counter iv k) = (be_val iv + Z.of_nat k) mod 2 ^ 128) as H by apply H.
  induction k as [|k [Hb IH]].
  - pose proof (be_val_range iv (proj2 Hiv)) as Hr. rewrite (proj1 Hiv) in Hr. split; [done|].
    change (256 ^ Z.of_nat AES_BLOCKLEN) with (2 ^ 128) in Hr. rewrite Z.mod_small; cbn [counter Nat.iter nat_rect Z.of_nat] in *; lia.
  - destruct (inc_iv_spec _ Hb) as [Hb' Hv]. cbn [counter Nat.iter nat_rect]. split; [done|].
    change (be_val (inc_iv (counter iv k)) = (be_val iv + Z.of_nat (S k)) mod 2 ^ 128).
    rewrite Hv, IH, Zplus_mod_idemp_l. f_equal. lia.
Qed.

(** C34. Counter mode changes the byte [n] of the buffer by the byte [n mod 16] of the encrypted counter number [n / 16],
    leaves what is behind [length] bytes alone, and undoes itself; the counters are consecutive 128 bit numbers. *)
Theorem aes_ctr_correct ctx buf len :
  block (Iv ctx) -> (len <= length buf)%nat ->
  exists ctx' out,
    AES_CTR_xcrypt_buffer ctx buf len = Some (ctx', out) /\ length out = length buf /\
    (forall n, (n < len)%nat ->
       nth n out 0 = Z.lxor (nth n buf 0) (nth (n mod 16) (Cipher (counter (Iv ctx) (n / 16)) (RoundKey ctx)) 0)) /\
    drop len out = drop len buf /\
    AES_CTR_xcrypt_buffer ctx out len = Some (ctx', buf) /\
    (forall k, be_val (counter (Iv ctx) k) = (be_val (Iv ctx) + Z.of_nat k) mod 2 ^ 128).
Proof.
  intros Hiv Hlen. unfold AES_CTR_xcrypt_buffer. rewrite (proj2 (Nat.ltb_ge _ _)) by done.
  pose proof (ctr_loop_spec (RoundKey ctx) (take len buf) (Iv ctx) [] AES_BLOCKLEN) as Hs.
  pose proof (ctr_loop_stream (RoundKey ctx) (take len buf) (Iv ctx) [] AES_BLOCKLEN) as Hn.
  destruct (ctr_loop _ _ _ _ (take len buf)) as [iv' out]. destruct Hs as [Hl Hs]. rewrite length_take in Hl.
  assert (length out = len) as Hlo by lia. eexists _, _. split; [done|].
  split; [rewrite length_app, length_drop; lia|]. split; [|split; [by rewrite drop_app_length'|split]].
  - intros n Hlt. rewrite app_nth1 by lia. cbn [snd] in Hn. rewrite Hn by (rewrite ?length_take; unfold AES_BLOCKLEN; lia).
    rewrite <- (take_drop len buf) at 2. rewrite app_nth1 by (rewrite length_take; lia). f_equal. unfold stream, AES_BLOCKLEN.
    rewrite (proj2 (Nat.ltb_ge _ _)) by lia. replace (16 + n)%nat with (n + 1 * 16)%nat by lia.
    rewrite Nat.Div0.mod_add, Nat.div_add by lia. do 3 f_equal. lia.
  - rewrite length_app, length_drop, (proj2 (Nat.ltb_ge _ _)) by lia.
    rewrite take_app_length', drop_app_length' by done. rewrite Hs. do 2 f_equal. apply take_drop.
  - intros k. by apply counter_val.
Qed.

(** ** Examples *)

(** The key and the first block of the vectors in the comment of aes.c. *)
Definition nist_key : list Z := [0x2b; 0x7e; 0x15; 0x16; 0x28; 0xae; 0xd2; 0xa6; 0xab; 0xf7; 0x15; 0x88; 0x09; 0xcf; 0x4f; 0x3c].
Definition nist_plain : list Z := [0x6b; 0xc1; 0xbe; 0xe2; 0x2e; 0x40; 0x9f; 0x96; 0xe9; 0x3d; 0x7e; 0x11; 0x73; 0x93; 0x17; 0x2a].
Definition nist_cipher : list Z := [0x3a; 0xd7; 0x7b; 0xb4; 0x0d; 0x7a; 0x36; 0x60; 0xa8; 0x9e; 0xca; 0xf3; 0x24; 0x66; 0xef; 0x97].

Lemma nist_bytes : Forall is_byte nist_key /\ block nist_plain.
Proof. split; [bytes_ok|]. split; [done|]. bytes_ok. Qed.

Lemma aes_cbc_roundtrip_witness :
  exists ctx' out,
    AES_CBC_encrypt_buffer (AES_init_ctx_iv nist_key nist_plain) (nist_plain ++ nist_key) 20 = Some (ctx', out) /\
    length out = length (nist_plain ++ nist_key) /\
    AES_CBC_decrypt_buffer (AES_init_ctx_iv nist_key nist_plain) out 20 = Some (ctx', nist_plain ++ nist_key).
Proof.
  destruct nist_bytes as [Hk Hp]. apply aes_cbc_roundtrip; [done..| |lia|vm_compute; lia].
  apply Forall_app. split; [apply Hp|done].
Defined.

Lemma aes_ctr_correct_witness :
  let ctx := AES_init_ctx_iv nist_key nist_plain in
  exists ctx' out,
    AES_CTR_xcrypt_buffer ctx [1; 2; 3] 2 = Some (ctx', out) /\ length out = 3%nat /\
    (forall n, (n < 2)%nat ->
       nth n out 0 = Z.lxor (nth n [1; 2; 3] 0) (nth (n mod 16) (Cipher (counter (Iv ctx) (n / 16)) (RoundKey ctx)) 0)) /\
    drop 2 out = [3] /\
    AES_CTR_xcrypt_buffer ctx out 2 = Some (ctx', [1; 2; 3]) /\
    (forall k, be_val (counter (Iv ctx) k) = (be_val (Iv ctx) + Z.of_nat k) mod 2 ^ 128).
Proof.
  intros ctx. apply (aes_ctr_correct ctx [1; 2; 3] 2); [|cbn; lia]. exact (proj2 nist_bytes).
Defined.
