(* ===== verification/AesSpec.v ===== *)
(** * The cipher of aes.c against its standard

    The definitions of FIPS 197: arithmetic in the field of 256 elements, the substitution as
    inverse and affine map, the four steps on a matrix given by row and column, the recurrence
    of the key schedule.  The theorem says that Aes.v, which works on sixteen consecutive bytes
    with tables and doubling, computes this cipher.  Nothing of this file is code of the hub. *)
From Stdlib Require Import ZArith Lia Bool.
From stdpp Require Import base gmap list numbers.
From S2P Require Import Prelude Aes.

Local Open Scope Z_scope.

Module Fips.

(** ** The field *)

(** Product of polynomials over bits: [b] selects shifts of [a]. *)
Definition clmul (a b : Z) : Z :=
  foldl (fun acc k => if Z.testbit b k then Z.lxor acc (Z.shiftl a k) else acc) 0 (seqZ 0 8).

(** Remainder modulo x^8 + x^4 + x^3 + x + 1, for polynomials of degree up to 14. *)
Definition gf_reduce (p : Z) : Z :=
  foldl (fun p k => if Z.testbit p k then Z.lxor p (Z.shiftl 0x11b (k - 8)) else p) p (reverse (seqZ 8 7)).

Definition gf_mul (a b : Z) : Z := gf_reduce (clmul a b).

Definition gf_pow (x : Z) (n : nat) : Z := Nat.iter n (gf_mul x) 1.

(** The inverse; 0 for 0. *)
Definition gf_inv (x : Z) : Z := gf_pow x 254.

Definition bit (x i : Z) : Z := if Z.testbit x (i mod 8) then 1 else 0.

Definition affine (b : Z) : Z :=
  foldl (fun acc i =>
    Z.lor acc (Z.shiftl (Z.lxor (Z.lxor (Z.lxor (Z.lxor (Z.lxor (bit b i) (bit b (i + 4))) (bit b (i + 5)))
      (bit b (i + 6))) (bit b (i + 7))) (bit 0x63 i)) i)) 0 (seqZ 0 8).

Definition sub (x : Z) : Z := affine (gf_inv x).

(** ** Steps on the state, by row and column *)

Definition matrix : Type := nat -> nat -> Z.

Definition sub_bytes (f : matrix) : matrix := fun r c => sub (f r c).

Definition shift_rows (f : matrix) : matrix := fun r c => f r ((c + r) mod 4)%nat.

(** The rows of the matrix of 5.1.3 are rotations of the first. *)
Definition coefficient (r k : nat) : Z := nth ((k + 4 - r) mod 4)%nat [2; 3; 1; 1] 0.

Definition mix_columns (f : matrix) : matrix := fun r c =>
  foldl (fun acc k => Z.lxor acc (gf_mul (coefficient r k) (f k c))) 0 (seq 0 4).

(** [w i r] is the byte [r] of the word [i] of the key schedule. *)
Definition add_round_key (w : nat -> nat -> Z) (round : nat) (f : matrix) : matrix :=
  fun r c => Z.lxor (f r c) (w (4 * round + c)%nat r).

Definition cipher (w : nat -> nat -> Z) (f : matrix) : matrix :=
  let f := add_round_key w 0 f in
  let f := foldl (fun f round => add_round_key w round (mix_columns (shift_rows (sub_bytes f)))) f (seq 1 9) in
  add_round_key w 10 (shift_rows (sub_bytes f)).

(** ** The key schedule *)

(** What is added to the word [i - 4]: the word before, rotated, substituted and changed by a power of x every four. *)
Definition schedule_temp (w : nat -> nat -> Z) (i r : nat) : Z :=
  if (i mod 4 =? 0)%nat
  then Z.lxor (sub (w (i - 1)%nat ((r + 1) mod 4)%nat)) (if (r =? 0)%nat then gf_pow 2 (i / 4 - 1) else 0)
  else w (i - 1)%nat r.

Definition key_schedule (key : list Z) (w : nat -> nat -> Z) : Prop :=
  (forall i r, (i < 4)%nat -> (r < 4)%nat -> w i r = nth (4 * i + r)%nat key 0) /\
  (forall i r, (4 <= i < 44)%nat -> (r < 4)%nat -> w i r = Z.lxor (w (i - 4)%nat r) (schedule_temp w i r)).

(** The state holds the input column by column. *)
Definition load (s : list Z) : matrix := fun r c => nth (4 * c + r)%nat s 0.

End Fips.

(** ** Tables and arithmetic *)

(** Equality of two functions on bytes, by computation. *)
Lemma byte_ext (f g : Z -> Z) x : all_below 256 (fun x => f x =? g x) = true -> is_byte x -> f x = g x.
Proof. intros H Hx. apply (byte_cases (fun x => f x =? g x)) in Hx; [by to_prop|done]. Qed.

Lemma gf_inv_correct x : is_byte x -> x <> 0 -> Fips.gf_mul x (Fips.gf_inv x) = 1.
Proof.
  intros Hx Hne. assert ((if x =? 0 then 1 else Fips.gf_mul x (Fips.gf_inv x)) = 1) as H.
  { apply (byte_ext (fun x => if x =? 0 then 1 else Fips.gf_mul x (Fips.gf_inv x)) (fun _ => 1)); [by vm_compute|done]. }
  by rewrite (proj2 (Z.eqb_neq x 0)) in H.
Qed.

Lemma sbox_sub x : is_byte x -> getSBoxValue x = Fips.sub x.
Proof. apply (byte_ext getSBoxValue Fips.sub). by vm_compute. Qed.

Lemma gf_mul_1 x : is_byte x -> Fips.gf_mul 1 x = x.
Proof. apply (byte_ext (Fips.gf_mul 1) id). by vm_compute. Qed.

Lemma gf_mul_2 x : is_byte x -> Fips.gf_mul 2 x = xtime x.
Proof. apply (byte_ext (Fips.gf_mul 2) xtime). by vm_compute. Qed.

Lemma gf_mul_3 x : is_byte x -> Fips.gf_mul 3 x = Z.lxor (xtime x) x.
Proof. apply (byte_ext (Fips.gf_mul 3) (fun x => Z.lxor (xtime x) x)). by vm_compute. Qed.

#[global] Opaque Fips.gf_mul Fips.sub Fips.gf_pow xtime.

(** ** The steps *)

(** [s] holds the state [f]. *)
Definition holds (s : list Z) (f : Fips.matrix) : Prop :=
  block s /\ forall r c, (r < 4)%nat -> (c < 4)%nat -> Fips.load s r c = f r c.

(** Case analysis on an index below 4. *)
Ltac below4 r := assert (r = 0 \/ r = 1 \/ r = 2 \/ r = 3)%nat as [-> | [-> | [-> | ->]]] by lia.

Lemma load_byte s r c : block s -> is_byte (Fips.load s r c).
Proof. intros [_ Hb]. by apply nth_byte. Qed.

Lemma holds_sub s f : holds s f -> holds (SubBytes s) (Fips.sub_bytes f).
Proof.
  intros [Hb H]. split; [by apply SubBytes_block|]. intros r c Hr Hc. unfold Fips.sub_bytes.
  rewrite <- H, <- sbox_sub by (done || by apply load_byte). rewrite SubBytes_map by apply Hb.
  unfold Fips.load. rewrite (nth_indep _ 0 (getSBoxValue 0)) by (rewrite length_map, (proj1 Hb); unfold AES_BLOCKLEN; lia).
  by rewrite map_nth.
Qed.

Lemma holds_shift s f : holds s f -> holds (ShiftRows s) (Fips.shift_rows f).
Proof.
  intros [Hb H]. split; [by apply ShiftRows_block|]. intros r c Hr Hc. unfold Fips.shift_rows.
  rewrite <- H by (try done; apply Nat.mod_upper_bound; lia). rewrite ShiftRows_perm by apply Hb.
  below4 r; below4 c; done.
Qed.

Lemma nth_zip_key s (K : nat -> Z) n : length s = 16%nat -> (n < 16)%nat ->
  nth n (zip_with Z.lxor s (map K (seq 0 16))) 0 = Z.lxor (nth n s 0) (K n).
Proof.
  intros Hl Hn. do 16 (destruct s as [|? s]; [done|]). destruct s; [|done].
  do 16 (destruct n as [|n]; [done|]). lia.
Qed.

Lemma holds_key w rk round s f :
  Forall is_byte rk -> (forall i r, w i r = nth (4 * i + r)%nat rk 0) -> holds s f ->
  holds (AddRoundKey round s rk) (Fips.add_round_key w round f).
Proof.
  intros Hrk Hw [Hb H]. split; [by apply AddRoundKey_block|]. intros r c Hr Hc. unfold Fips.add_round_key.
  rewrite <- H, Hw by done. rewrite AddRoundKey_zip by apply Hb. unfold Fips.load.
  replace (4 * (4 * round + c) + r)%nat with (round * 16 + (4 * c + r))%nat by lia.
  assert (4 * c + r < 16)%nat as Hn by lia. revert Hn. generalize (4 * c + r)%nat as n. intros n Hn.
  by apply (nth_zip_key s (fun n => nth (round * 16 + n)%nat rk 0)); [apply Hb|].
Qed.

Lemma holds_mix s f : holds s f -> holds (MixColumns s) (Fips.mix_columns f).
Proof.
  intros [Hb H]. split; [by apply MixColumns_block|]. intros r c Hr Hc. unfold Fips.mix_columns. cbn [foldl seq].
  rewrite <- !H by lia. rewrite Z.lxor_0_l. rewrite MixColumns_cols by apply Hb. clear H. block_cases s Hb.
  unfold Fips.load. cbn [take drop]. rewrite !mix_col_eq by done.
  below4 r; below4 c; cbn -[Z.lxor]; rewrite ?gf_mul_1, ?gf_mul_2, ?gf_mul_3 by done; xor_tac.
Qed.

(** ** The key schedule *)

(** The bytes of the words of an expanded key. *)
Definition words (rk : list Z) (i r : nat) : Z := nth (4 * i + r)%nat rk 0.

Lemma Rcon_power k : (1 <= k <= 10)%nat -> nth k Rcon 0 = Fips.gf_pow 2 (k - 1).
Proof.
  intros Hk. assert (forallb (fun k => nth k Rcon 0 =? Fips.gf_pow 2 (k - 1)) (seq 1 10) = true) as H by by vm_compute.
  rewrite forallb_forall in H. specialize (H k ltac:(apply in_seq; lia)). by to_prop.
Qed.

(** The loop body appends the word the recurrence asks for. *)
Lemma expand_word_new rk i r :
  length rk = (4 * i)%nat -> Forall is_byte rk -> (4 <= i < 44)%nat -> (r < 4)%nat ->
  words (expand_word rk i) i r = Z.lxor (words rk (i - 4) r) (Fips.schedule_temp (words rk) i r).
Proof.
  intros Hl Hb Hi Hr. unfold words at 1, expand_word. cbv zeta. rewrite app_nth2 by lia. rewrite Hl.
  replace (4 * i + r - 4 * i)%nat with r by lia.
  assert (forall k, is_byte (nth k rk 0)) as Hn by (intros k; by apply nth_byte).
  unfold Fips.schedule_temp, Nk, words. replace ((i - 4) * 4)%nat with (4 * (i - 4))%nat by lia.
  replace ((i - 1) * 4)%nat with (4 * (i - 1))%nat by lia.
  destruct (i mod 4 =? 0)%nat eqn:E; to_prop.
  - assert (1 <= i / 4 <= 10)%nat as Hq.
    { split; [apply (Nat.Div0.div_le_mono 4 i 4); lia|]. change 10%nat with (43 / 4)%nat. apply Nat.Div0.div_le_mono. lia. }
    rewrite <- !sbox_sub by done. rewrite <- Rcon_power by done.
    below4 r; cbn -[Nat.mul Nat.div Nat.sub Z.lxor Rcon]; rewrite ?Nat.add_0_r, ?Z.lxor_0_r; done.
  - below4 r; cbn -[Nat.mul Nat.div Nat.sub Z.lxor]; rewrite ?Nat.add_0_r; done.
Qed.

Section Schedule.
Context (key : list Z) (Hkey : Forall is_byte key).

(** The words of the key and the next [n]. *)
Definition expanded (n : nat) : list Z :=
  foldl expand_word (map (fun i => nth i key 0) (seq 0 (Nk * 4))) (seq Nk n).

Lemma expanded_S n : expanded (S n) = expand_word (expanded n) (4 + n).
Proof. unfold expanded. by rewrite seq_S, foldl_snoc. Qed.

Lemma expanded_length n : length (expanded n) = (4 * (4 + n))%nat.
Proof. unfold expanded. rewrite foldl_expand_length, length_map, !length_seq. unfold Nk. lia. Qed.

Lemma expanded_bytes n : Forall is_byte (expanded n).
Proof.
  apply (foldl_keeps (Forall is_byte)); [intros; by apply expand_word_bytes|].
  apply Forall_fmap, Forall_forall. intros k _. by apply nth_byte.
Qed.

(** Later words leave the earlier ones alone. *)
Lemma expanded_stable n d i r : (i < 4 + n)%nat -> (r < 4)%nat -> words (expanded (d + n)) i r = words (expanded n) i r.
Proof.
  intros Hi Hr. induction d as [|d IH]; [done|]. change (S d + n)%nat with (S (d + n)). rewrite expanded_S, <- IH.
  unfold words, expand_word. cbv zeta. rewrite app_nth1; [done|]. rewrite expanded_length. lia.
Qed.

Lemma expanded_key i r : (i < 4)%nat -> (r < 4)%nat -> words (expanded 0) i r = nth (4 * i + r)%nat key 0.
Proof.
  intros Hi Hr. unfold words, expanded. cbn [foldl seq].
  assert (4 * i + r < 16)%nat as Hn by lia. revert Hn. generalize (4 * i + r)%nat as n. intros n Hn.
  do 16 (destruct n as [|n]; [done|]). lia.
Qed.

#[local] Transparent KeyExpansion.

Lemma KeyExpansion_expanded : KeyExpansion key = expanded 40.
Proof. unfold KeyExpansion, expanded. change (Nb * (Nr + 1) - Nk)%nat with 40%nat. reflexivity. Qed.

#[local] Opaque KeyExpansion expanded.

Lemma KeyExpansion_schedule : Fips.key_schedule key (words (KeyExpansion key)).
Proof.
  rewrite KeyExpansion_expanded. split.
  - intros i r Hi Hr. rewrite (expanded_stable 0 40) by lia. by apply expanded_key.
  - intros i r Hi Hr.
    assert (forall j q, (j < i)%nat -> (q < 4)%nat -> words (expanded 40) j q = words (expanded (i - 4)) j q) as Hold.
    { intros j q Hj Hq. replace 40%nat with ((44 - i) + (i - 4))%nat by lia. apply expanded_stable; lia. }
    replace (words (expanded 40) i r) with (words (expanded (S (i - 4))) i r).
    2: { symmetry. replace 40%nat with ((43 - i) + S (i - 4))%nat by lia. apply expanded_stable; lia. }
    rewrite expanded_S. replace (4 + (i - 4))%nat with i by lia.
    rewrite expand_word_new by (done || apply expanded_bytes || rewrite expanded_length; lia).
    rewrite (Hold (i - 4)%nat r) by lia. unfold Fips.schedule_temp. case_if.
    + by rewrite (Hold (i - 1)%nat) by (try lia; apply Nat.mod_upper_bound; lia).
    + by rewrite (Hold (i - 1)%nat) by lia.
Qed.
End Schedule.

(** ** The cipher *)

#[local] Transparent Cipher.

Lemma holds_rounds w rk l : Forall is_byte rk -> (forall i r, w i r = nth (4 * i + r)%nat rk 0) ->
  forall s f, holds s f ->
  holds (foldl (fun s round => AddRoundKey round (MixColumns (ShiftRows (SubBytes s))) rk) s l)
        (foldl (fun f round => Fips.add_round_key w round (Fips.mix_columns (Fips.shift_rows (Fips.sub_bytes f)))) f l).
Proof.
  intros Hrk Hw. induction l as [|round l IH]; intros s f H; [done|]. cbn [foldl]. apply IH.
  by apply holds_key, holds_mix, holds_shift, holds_sub.
Qed.

(** C18. The cipher of aes.c is the cipher of the standard: for every key there is its key schedule, the words of the
    expanded key, and encrypting a block gives the bytes of the state that the rounds of the standard compute.  Decrypting
    these bytes with the same key gives the block back. *)
Theorem cipher_is_standard key s :
  Forall is_byte key -> block s ->
  exists w, Fips.key_schedule key w /\
    block (Cipher s (KeyExpansion key)) /\
    InvCipher (Cipher s (KeyExpansion key)) (KeyExpansion key) = s /\
    forall r c, (r < 4)%nat -> (c < 4)%nat ->
      Fips.load (Cipher s (KeyExpansion key)) r c = Fips.cipher w (Fips.load s) r c.
Proof.
  intros Hk Hs. destruct (KeyExpansion_bytes key Hk) as [_ Hrk]. exists (words (KeyExpansion key)).
  split; [by apply KeyExpansion_schedule|].
  assert (forall i r, words (KeyExpansion key) i r = nth (4 * i + r)%nat (KeyExpansion key) 0) as Hw by done.
  assert (holds (Cipher s (KeyExpansion key)) (Fips.cipher (words (KeyExpansion key)) (Fips.load s))) as [Hb Hh];
    [|by split_and!; [|apply InvCipher_Cipher|]].
  unfold Cipher, Fips.cipher. cbv zeta. apply holds_key, holds_shift, holds_sub, (holds_rounds _ _ (seq 1 9)), holds_key; done.
Qed.

Lemma cipher_is_standard_witness :
  exists w, Fips.key_schedule nist_key w /\
    block (Cipher nist_plain (KeyExpansion nist_key)) /\
    InvCipher (Cipher nist_plain (KeyExpansion nist_key)) (KeyExpansion nist_key) = nist_plain /\
    forall r c, (r < 4)%nat -> (c < 4)%nat ->
      Fips.load (Cipher nist_plain (KeyExpansion nist_key)) r c = Fips.cipher w (Fips.load nist_plain) r c.
Proof. destruct nist_bytes as [Hk Hp]. exact (cipher_is_standard nist_key nist_plain Hk Hp). Defined.

(** The vector of the comment in aes.c, in both directions. *)
Example nist_vector :
  Cipher nist_plain (KeyExpansion nist_key) = nist_cipher /\ InvCipher nist_cipher (KeyExpansion nist_key) = nist_plain.
Proof. by vm_compute. Qed.
