(* ===== verification/BleProg.v ===== *)
(** * ble_mcuboot_prog.c: programming the BLE module over its serial console

    The CRC, the framing of packets into console lines, the receive
    loop, the newt manager (NMP) requests and the upload of an image.
    The port is a record of what is still to be received, the values of
    [time(NULL)] to come, the [write] results to come and the effects so
    far; the CBOR library is a parameter. *)
From Stdlib Require Import ZArith Lia Bool.
From stdpp Require Import base list numbers.
From S2P Require Import Prelude Base64.

Local Open Scope Z_scope.

Definition RX_TIMEOUT : Z := 10.
Definition MAX_BLE_RESET_ATTEMPTS : Z := 5.
Definition CRC_POLY : Z := 0x1021.
Definition CRC_INIT : Z := 0.
Definition NMP_HDR_SIZE : Z := 8.
Definition READ_CHUNK_SIZE : Z := 196.
Definition MAX_BUF_SIZE : Z := 512.
Definition NMP_OP_READ : Z := 0.
Definition NMP_OP_READ_RSP : Z := 1.
Definition NMP_OP_WRITE : Z := 2.
Definition NMP_OP_WRITE_RSP : Z := 3.
Definition NMP_GROUP_DEFAULT : Z := 0.
Definition NMP_GROUP_IMAGE : Z := 1.
Definition NMP_ID_IMAGE_UPLOAD : Z := 1.
Definition NMP_ID_CONS_ECHO_CTRL : Z := 1.
Definition start_mark : list Z := [6; 9].
Definition cont_mark : list Z := [4; 20].

(** ** CRC *)

(** One turn of the inner loop: shift in a message bit. *)
Definition crc_bit (crc bit : Z) : Z :=
  let divide := Z.land crc 0x8000 in
  let crc := u16 (Z.shiftl crc 1) in
  let crc := Z.lor crc bit in
  if divide =? 0 then crc else Z.lxor crc CRC_POLY.

(** [!!(byte & (0x80 >> b))] *)
Definition byte_bit (byte b : Z) : Z := if Z.land byte (Z.shiftr 0x80 b) =? 0 then 0 else 1.

Definition crc_byte (crc byte : Z) : Z :=
  fold_left (fun crc b => crc_bit crc (byte_bit byte b)) [0; 1; 2; 3; 4; 5; 6; 7] crc.

Definition crc16 (buf : list Z) (pad : bool) : Z :=
  fold_left crc_byte (buf ++ (if pad then [0; 0] else [])) CRC_INIT.

(** ** The serial port *)

Inductive ble_ev :=
| Tx (bytes : list Z)
| Reset (asserted : bool).

Record ble := MkBle {
  rxq : list (option Z);        (* what [select] and [read] give next: a byte or none *)
  clk : list Z;                 (* the values [time(NULL)] returns next *)
  wrs : list (option nat);      (* short [write]s to come: bytes accepted, [None] for all *)
  log : list ble_ev;            (* effects so far *)
  ble_res : list Z;             (* the static receive buffer *)
  curSeq : Z }.

Definition set_rx (s : ble) (q : list (option Z)) (res : list Z) : ble :=
  MkBle q (clk s) (wrs s) (log s) res (curSeq s).

(** Storing [bytes] from the start of [buf]. *)
Definition overwrite (bytes buf : list Z) : list Z := bytes ++ drop (length bytes) buf.

(** ** Lines *)

(** Returned length, bytes stored, rest of the queue. *)
Fixpoint getLine_loop (q : list (option Z)) (maxLen : Z) (acc : list Z) : Z * list Z * list (option Z) :=
  match q with
  | [] => (0, acc, [])
  | None :: q' => (0, acc, q')
  | Some ch :: q' =>
      if ch =? 10 then (Z.of_nat (length acc), acc, q')
      else
        let acc := acc ++ [ch] in
        if Z.of_nat (length acc) =? maxLen then (maxLen, acc, q')
        else getLine_loop q' maxLen acc
  end.

(** [BLE_getLine(fd, ble_res, sizeof(ble_res))] *)
Definition BLE_getLine (s : ble) : Z * ble :=
  let '(n, bytes, q) := getLine_loop (rxq s) MAX_BUF_SIZE [] in
  (n, set_rx s q (overwrite bytes (ble_res s))).

Definition BLE_txRaw (s : ble) (buf : list Z) : Z * ble :=
  let '(res, wrs') :=
    match wrs s with
    | Some n :: rest => (if (n <? length buf)%nat then Some n else None, rest)
    | None :: rest => (None, rest)
    | [] => (None, [])
    end in
  let sent := match res with Some n => take n buf | None => buf end in
  (match res with Some _ => -1 | None => 0 end,
   MkBle (rxq s) (clk s) wrs' (log s ++ [Tx sent]) (ble_res s) (curSeq s)).

(** ** Sending a packet *)

(** The packet of a message: length, data, CRC. *)
Definition packet (buf : list Z) : list Z :=
  let len := Z.of_nat (length buf) in
  let crc := crc16 buf true in
  [u8 (Z.shiftr (Z.land (len + 2) 0xFF00) 8); u8 (Z.land (len + 2) 0xFF)] ++ buf ++
  [u8 (Z.shiftr (Z.land crc 0xFF00) 8); u8 (Z.land crc 0xFF)].

(** The chunk loop; [encoded] is what remains after [written] bytes. *)
Fixpoint tx_loop (fuel : nat) (s : ble) (encoded : list Z) (written : Z) : Z * ble :=
  match fuel with
  | O => (0, s)
  | S f =>
      match encoded with
      | [] => (0, s)
      | _ =>
          let '(_, s) := BLE_txRaw s (if written =? 0 then start_mark else cont_mark) in
          let left := Z.of_nat (length encoded) in
          let writeLen := if 124 <? left then 124 else left in
          let '(r, s) := BLE_txRaw s (take (Z.to_nat writeLen) encoded) in
          if negb (r =? 0) then (-1, s)
          else
            let '(_, s) := BLE_txRaw s [10] in
            tx_loop f s (drop (Z.to_nat writeLen) encoded) (written + writeLen)
      end
  end.

Definition BLE_tx (s : ble) (buf : list Z) : Z * ble :=
  let r := base64_encode false MAX_BUF_SIZE (packet buf) in
  if negb (b64_ret r =? 0) then (-1, s)
  else
    let encoded := take (Z.to_nat (default 0 (b64_olen r))) (b64_out r) in
    tx_loop (length encoded) s encoded 0.

(** ** Receiving a packet *)

Inductive gmsg :=
| GMsg (retLen : Z)     (* [ble_res], of [retLen] bytes *)
| GTimeout              (* NULL *)
| GOob                  (* the decoder is sent past the end of the buffer *)
| GWaiting.             (* not returned yet *)

Inductive gline := LSkip (res : list Z) | LMsg (totalLen : Z) (res : list Z) | LOob.

Definition has_mark (mark line : list Z) : bool :=
  (nth 0 line 0 =? nth 0 mark 0) && (nth 1 line 0 =? nth 1 mark 0).

(** The loop body after [BLE_getLine] returned [dataLen]. *)
Definition getMsg_line (res : list Z) (dataLen : Z) : gline :=
  if (dataLen =? 0) || (dataLen =? MAX_BUF_SIZE) then LSkip res
  else
    let '(line, dataLen) :=
      if (1 <? dataLen) && (nth 0 res 0 =? 13) then (drop 1 res, dataLen - 1) else (res, dataLen) in
    if (dataLen <? 2) || (negb (has_mark cont_mark line) && negb (has_mark start_mark line)) then LSkip res
    else if dataLen - 3 <? 0 then LOob
    else
      let r := base64_decode false MAX_BUF_SIZE (take (Z.to_nat (dataLen - 3)) (drop 2 line)) in
      if negb (b64_ret r =? 0) then LSkip res
      else
        let decoded := b64_out r in
        let decodedLen := default 0 (b64_olen r) in
        if decodedLen =? 0 then LSkip res
        else if has_mark start_mark line then
          if decodedLen <? 2 then LSkip res
          else
            let totalLen := Z.lor (Z.shiftl (nth 0 decoded 0) 8) (nth 1 decoded 0) in
            let res := overwrite (drop 2 decoded) res in
            if decodedLen - 2 =? totalLen then LMsg totalLen res else LSkip res
        else
          let res := overwrite decoded res in
          if decodedLen =? 0 then LMsg 0 res else LSkip res.

Fixpoint getMsg_loop (ticks : list Z) (endTime : Z) (s : ble) : gmsg * ble :=
  match ticks with
  | [] => (GWaiting, MkBle (rxq s) [] (wrs s) (log s) (ble_res s) (curSeq s))
  | t :: ticks =>
      let s := MkBle (rxq s) ticks (wrs s) (log s) (ble_res s) (curSeq s) in
      if endTime <=? t then (GTimeout, s)
      else
        let '(dataLen, s) := BLE_getLine s in
        match getMsg_line (ble_res s) dataLen with
        | LSkip res => getMsg_loop ticks endTime (set_rx s (rxq s) res)
        | LMsg totalLen res => (GMsg totalLen, set_rx s (rxq s) res)
        | LOob => (GOob, s)
        end
  end.

Definition BLE_getMsg (s : ble) : gmsg * ble :=
  match clk s with
  | [] => (GWaiting, s)
  | t :: ticks => getMsg_loop ticks (t + RX_TIMEOUT) s
  end.

(** ** Newt manager requests *)

Definition BLE_txNmp (s : ble) (hdr body : list Z) : gmsg * ble :=
  let '(r, s) := BLE_tx s (hdr ++ body) in
  if negb (r =? 0) then (GTimeout, s) else BLE_getMsg s.

Definition BLE_populateNmpHdr (s : ble) (op group id len : Z) : list Z * ble :=
  ([op; 0; u8 (Z.shiftr (Z.land len 0xFF00) 8); u8 (Z.land len 0xFF);
    u8 (Z.shiftr (Z.land group 0xFF00) 8); u8 (Z.land group 0xFF); curSeq s; id],
   MkBle (rxq s) (clk s) (wrs s) (log s) (ble_res s) (u8 (curSeq s + 1))).

(** The response header carries the expected operation, group and id. *)
Definition hdr_ok (res : list Z) (op group id : Z) : bool :=
  (nth 0 res 0 =? op) && (nth 4 res 0 =? Z.shiftr (Z.land group 0xFF00) 8) &&
  (nth 5 res 0 =? Z.land group 0xFF) && (nth 7 res 0 =? id).

(** Results of the calls that wait for a response. *)
Inductive ble_ret := BRet (res : Z) | BOob | BWaiting.

Definition BLE_ping (s : ble) : ble_ret * ble :=
  let '(hdr, s) := BLE_populateNmpHdr s NMP_OP_READ NMP_GROUP_DEFAULT NMP_ID_CONS_ECHO_CTRL 0 in
  let '(g, s) := BLE_txNmp s hdr [] in
  match g with
  | GMsg _ =>
      if hdr_ok (ble_res s) NMP_OP_READ_RSP NMP_GROUP_DEFAULT NMP_ID_CONS_ECHO_CTRL
      then (BRet 0, s) else (BRet (-1), s)
  | GTimeout => (BRet (-1), s)
  | GOob => (BOob, s)
  | GWaiting => (BWaiting, s)
  end.

Section Upload.
(** The CBOR map of an upload request: offset, total length on the first request, data. *)
Context (cbor : Z -> option Z -> list Z -> list Z).

(** The [while (remaining)] loop; [file] is what [fread] has not returned yet. *)
Fixpoint upload_loop (fuel : nat) (s : ble) (slot remaining offset : Z) (file : list Z) : ble_ret * ble :=
  match fuel with
  | O => (BWaiting, s)
  | S f =>
      if remaining =? 0 then (BRet 0, s)
      else
        let readCount := if remaining <? READ_CHUNK_SIZE then remaining else READ_CHUNK_SIZE in
        let data := take (Z.to_nat readCount) file in
        if negb (Z.of_nat (length data) =? readCount) then (BRet (-1), s)
        else
          let first := offset =? 0 in
          let len := if slot =? 0 then remaining else Z.lor remaining (Z.shiftl (Z.land slot 0x0F) 24) in
          let body := cbor offset (if first then Some len else None) data in
          let remaining := if first then Z.land len 0x00FFFFFF else remaining in
          let '(hdr, s) := BLE_populateNmpHdr s NMP_OP_WRITE NMP_GROUP_IMAGE NMP_ID_IMAGE_UPLOAD
                             (u16 (Z.of_nat (length body))) in
          let '(g, s) := BLE_txNmp s hdr body in
          match g with
          | GMsg _ =>
              if hdr_ok (ble_res s) NMP_OP_WRITE_RSP NMP_GROUP_IMAGE NMP_ID_IMAGE_UPLOAD
              then upload_loop f s slot (u32 (remaining - readCount)) (offset + readCount)
                     (drop (Z.to_nat readCount) file)
              else (BRet (-1), s)
          | GTimeout => (BRet (-1), s)
          | GOob => (BOob, s)
          | GWaiting => (BWaiting, s)
          end
  end.

(** [file] is [None] when [fopen] fails, [size] what [stat] says. *)
Definition BLE_txImage (s : ble) (file : option (list Z)) (size : option Z) (slot : Z) : ble_ret * ble :=
  match file, size with
  | Some bytes, Some st_size =>
      let slot := if (slot <? 0) || (1 <? slot) then 0 else slot in
      upload_loop (S (length bytes)) s slot st_size 0 bytes
  | _, _ => (BRet (-1), s)
  end.

Definition ble_reset (s : ble) : ble :=
  MkBle (rxq s) (clk s) (wrs s) (log s ++ [Reset true; Reset false]) (ble_res s) (curSeq s).

(** [strncmp((char * )ble_res, "ready", 5) == 0] *)
Definition is_ready (res : list Z) : bool :=
  (nth 0 res 0 =? 114) && (nth 1 res 0 =? 101) && (nth 2 res 0 =? 97) && (nth 3 res 0 =? 100) && (nth 4 res 0 =? 121).

(** [while (retries-- > 0)]: the value of [retries] after the loop. *)
Fixpoint reset_loop (fuel : nat) (s : ble) (retries : Z) : Z * ble :=
  match fuel with
  | O => (retries, s)
  | S f =>
      if 0 <? retries then
        let retries := retries - 1 in
        let '(_, s) := BLE_getLine (ble_reset s) in
        if is_ready (ble_res s) then (retries, s) else reset_loop f s retries
      else (retries - 1, s)
  end.

Definition BLE_vendorProgram (s : ble) (file : option (list Z)) (size : option Z) (slot : Z) : ble_ret * ble :=
  let '(retries, s) := reset_loop (S (Z.to_nat MAX_BLE_RESET_ATTEMPTS)) s MAX_BLE_RESET_ATTEMPTS in
  let '(res, s) :=
    if retries <=? 0 then (BRet (-1), s)
    else
      let '(p, s) := BLE_ping s in
      match p with
      | BRet 0 =>
          let '(i, s) := BLE_txImage s file size slot in
          match i with
          | BRet r => if r <? 0 then (BRet (-1), s) else (BRet 0, s)
          | _ => (i, s)
          end
      | BRet _ => (BRet (-1), s)
      | _ => (p, s)
      end in
  match res with BRet _ => (res, ble_reset s) | _ => (res, s) end.

End Upload.

(** ** The CRC is linear *)

Definition is_u16 (x : Z) : Prop := 0 <= x < 65536.

Lemma lxor_small k a b : 0 <= k -> 0 <= a < 2 ^ k -> 0 <= b < 2 ^ k -> 0 <= Z.lxor a b < 2 ^ k.
Proof.
  intros Hk Ha Hb. assert (0 <= Z.lxor a b) by (by apply Z.lxor_nonneg; split; lia). split; [done|].
  destruct (Z.eq_dec (Z.lxor a b) 0) as [->|Hne]; [by apply Z.pow_pos_nonneg|].
  apply Z.log2_lt_pow2; [lia|]. eapply Z.le_lt_trans; [apply Z.log2_lxor; lia|].
  destruct (Z.eq_dec k 0) as [->|]; [change (2 ^ 0) with 1 in *; assert (a = 0) by lia; assert (b = 0) by lia; by subst|].
  apply Z.max_lub_lt; [destruct (Z.eq_dec a 0) as [->|]|destruct (Z.eq_dec b 0) as [->|]];
    try (rewrite Z.log2_nonpos by lia; lia); apply Z.log2_lt_pow2; lia.
Qed.

Lemma lxor_u16 a b : is_u16 a -> is_u16 b -> is_u16 (Z.lxor a b).
Proof. apply (lxor_small 16). lia. Qed.

Lemma u16_range x : is_u16 (u16 x).
Proof. apply Z.mod_pos_bound. lia. Qed.

Lemma u16_ones x : u16 x = Z.land x (Z.ones 16).
Proof. unfold u16. by rewrite Z.land_ones by lia. Qed.

Lemma u16_lxor a b : u16 (Z.lxor a b) = Z.lxor (u16 a) (u16 b).
Proof.
  rewrite !u16_ones. apply Z.bits_inj'. intros n _. rewrite !Z.lxor_spec, !Z.land_spec, Z.lxor_spec.
  by destruct (Z.testbit a n), (Z.testbit b n), (Z.testbit (Z.ones 16) n).
Qed.

(** The contribution of the bit that is shifted out. *)
Definition crc_top (crc : Z) : Z := if Z.testbit crc 15 then CRC_POLY else 0.

Lemma land_top crc : (Z.land crc 0x8000 =? 0) = negb (Z.testbit crc 15).
Proof.
  change 0x8000 with (2 ^ 15). destruct (Z.testbit crc 15) eqn:E.
  - apply Z.eqb_neq. intros H. apply (f_equal (fun x => Z.testbit x 15)) in H.
    rewrite Z.land_spec, Z.pow2_bits_true, E in H by lia. done.
  - apply Z.eqb_eq, Z.bits_inj'. intros n Hn. rewrite Z.land_spec, Z.bits_0.
    destruct (Z.eq_dec n 15) as [->|]; [by rewrite E|]. rewrite Z.pow2_bits_false by lia. apply andb_false_r.
Qed.

Lemma crc_bit_xor crc bit : bit = 0 \/ bit = 1 ->
  crc_bit crc bit = Z.lxor (Z.lxor (u16 (Z.shiftl crc 1)) bit) (crc_top crc).
Proof.
  intros Hb. unfold crc_bit, crc_top. rewrite land_top.
  assert (Z.lor (u16 (Z.shiftl crc 1)) bit = Z.lxor (u16 (Z.shiftl crc 1)) bit) as ->.
  { symmetry. apply Z.lxor_lor. destruct Hb as [->| ->]; [apply Z.land_0_r|].
    change 1 with (Z.ones 1) at 2. rewrite Z.land_ones by lia. unfold u16.
    rewrite Z.shiftl_mul_pow2 by lia. change (2 ^ 1) with 2. change (2 ^ 16) with 65536. dlia. }
  destruct (Z.testbit crc 15); cbn [negb]; [done|]. by rewrite Z.lxor_0_r.
Qed.

Lemma crc_bit_linear s t b c : (b = 0 \/ b = 1) -> (c = 0 \/ c = 1) ->
  crc_bit (Z.lxor s t) (Z.lxor b c) = Z.lxor (crc_bit s b) (crc_bit t c).
Proof.
  intros Hb Hc. rewrite !crc_bit_xor by (done || destruct Hb as [->| ->], Hc as [->| ->]; auto).
  rewrite Z.shiftl_lxor, u16_lxor.
  assert (crc_top (Z.lxor s t) = Z.lxor (crc_top s) (crc_top t)) as ->.
  { unfold crc_top. rewrite Z.lxor_spec. by destruct (Z.testbit s 15), (Z.testbit t 15). }
  apply Z.bits_inj'. intros n _. rewrite !Z.lxor_spec. 
  destruct (Z.testbit (u16 (Z.shiftl s 1)) n), (Z.testbit (u16 (Z.shiftl t 1)) n), (Z.testbit b n), (Z.testbit c n),
    (Z.testbit (crc_top s) n), (Z.testbit (crc_top t) n); done.
Qed.

Lemma byte_bit_01 x b : byte_bit x b = 0 \/ byte_bit x b = 1.
Proof. unfold byte_bit. case_if; auto. Qed.

Lemma byte_bit_lxor x y b : 0 <= b < 8 -> byte_bit (Z.lxor x y) b = Z.lxor (byte_bit x b) (byte_bit y b).
Proof.
  intros Hb. assert (forall z, byte_bit z b = if Z.testbit z (7 - b) then 1 else 0) as E.
  { intros z. unfold byte_bit. change 0x80 with (2 ^ 7). rewrite Z.shiftr_div_pow2 by lia.
    rewrite <- Z.pow_sub_r by lia. destruct (Z.testbit z (7 - b)) eqn:Ez.
    - case_if; [|done]. to_prop. apply (f_equal (fun x => Z.testbit x (7 - b))) in E.
      rewrite Z.land_spec, Z.pow2_bits_true, Ez, Z.bits_0 in E by lia. done.
    - case_if; [done|]. to_prop. exfalso. apply E. apply Z.bits_inj'. intros n Hn.
      rewrite Z.land_spec, Z.bits_0. destruct (Z.eq_dec n (7 - b)) as [->|]; [by rewrite Ez|].
      rewrite Z.pow2_bits_false by lia. apply andb_false_r. }
  rewrite !E, Z.lxor_spec. by destruct (Z.testbit x _), (Z.testbit y _).
Qed.

Lemma crc_byte_linear s t x y :
  crc_byte (Z.lxor s t) (Z.lxor x y) = Z.lxor (crc_byte s x) (crc_byte t y).
Proof.
  unfold crc_byte. cbn [fold_left]. rewrite !byte_bit_lxor by lia.
  rewrite !crc_bit_linear by apply byte_bit_01. done.
Qed.

Lemma crc_byte_zero x : is_byte x -> crc_byte 0 x = x.
Proof. intros Hx. apply Z.eqb_eq. by apply (byte_cases (fun x => crc_byte 0 x =? x)); [vm_compute|]. Qed.

Lemma crc_byte_shift x : is_byte x -> crc_byte x 0 = x * 256.
Proof. intros Hx. apply Z.eqb_eq. by apply (byte_cases (fun x => crc_byte x 0 =? x * 256)); [vm_compute|]. Qed.

Lemma crc_byte_split s x : is_byte x -> crc_byte s x = Z.lxor (crc_byte s 0) x.
Proof.
  intros Hx. rewrite <- (crc_byte_zero x Hx) at 2. rewrite <- crc_byte_linear.
  by rewrite Z.lxor_0_r, Z.lxor_0_l.
Qed.

Lemma crc_bit_u16 s b : (b = 0 \/ b = 1) -> is_u16 (crc_bit s b).
Proof.
  intros Hb. rewrite crc_bit_xor by done. repeat apply lxor_u16; [apply u16_range| |].
  - unfold is_u16. destruct Hb; subst; lia.
  - unfold crc_top, is_u16, CRC_POLY. case_if; lia.
Qed.

Lemma crc_byte_u16 s x : is_u16 (crc_byte s x).
Proof. unfold crc_byte. cbn [fold_left]. apply crc_bit_u16, byte_bit_01. Qed.

Lemma crc16_u16 buf : is_u16 (crc16 buf true).
Proof. unfold crc16. rewrite fold_left_app. cbn [fold_left]. apply crc_byte_u16. Qed.

(** Two bytes shifted into the register after the padding bits of [crc16]. *)
Lemma crc_two_bytes s hi lo : is_byte hi -> is_byte lo ->
  crc_byte (crc_byte s hi) lo = Z.lxor (crc_byte (crc_byte s 0) 0) (Z.lxor (hi * 256) lo).
Proof.
  intros Hh Hl. rewrite (crc_byte_split _ hi), (crc_byte_split _ lo) by done.
  pose proof (crc_byte_linear (crc_byte s 0) hi 0 0) as H. change (Z.lxor 0 0) with 0 in H.
  rewrite H, (crc_byte_shift hi) by done. by rewrite Z.lxor_assoc.
Qed.

(** High and low byte of a 16-bit value, as the code stores them. *)
Lemma u16_bytes x : is_u16 x ->
  u8 (Z.shiftr (Z.land x 0xFF00) 8) = x / 256 /\ u8 (Z.land x 0xFF) = x mod 256.
Proof.
  intros Hx. unfold is_u16, u8 in *.
  assert (Z.shiftr (Z.land x 0xFF00) 8 = x / 256) as ->.
  { rewrite Z.shiftr_land. change (Z.shiftr 0xFF00 8) with (Z.ones 8). rewrite Z.land_ones by lia.
    rewrite Z.shiftr_div_pow2 by lia. change (2 ^ 8) with 256. dlia. }
  change 0xFF with (Z.ones 8). rewrite Z.land_ones by lia. change (2 ^ 8) with 256. dlia.
Qed.

Lemma u16_join x : is_u16 x -> Z.lor (Z.shiftl (x / 256) 8) (x mod 256) = x.
Proof.
  intros Hx. rewrite lor_shiftl; [|lia|apply Z.mod_pos_bound; lia]. change (2 ^ 8) with 256. dlia.
Qed.

Lemma u16_join_xor x : is_u16 x -> Z.lxor (x / 256 * 256) (x mod 256) = x.
Proof.
  intros Hx. rewrite <- (u16_join x Hx) at 3. change 256 with (2 ^ 8) at 2. rewrite <- Z.shiftl_mul_pow2 by lia.
  apply Z.lxor_lor, land_shiftl_low; [lia|]. apply Z.mod_pos_bound. lia.
Qed.

(** A message followed by the two CRC bytes the sender appends checks to zero. *)
Lemma crc16_app2 buf hi lo : is_byte hi -> is_byte lo ->
  crc16 (buf ++ [hi; lo]) true = crc_byte (crc_byte (Z.lxor (crc16 buf true) (Z.lxor (hi * 256) lo)) 0) 0.
Proof.
  intros Hh Hl. unfold crc16. rewrite <- app_assoc, !fold_left_app. cbn [fold_left app].
  by rewrite (crc_two_bytes _ hi lo).
Qed.

Lemma crc16_residue buf :
  let crc := crc16 buf true in crc16 (buf ++ [crc / 256; crc mod 256]) true = 0.
Proof.
  cbv zeta. pose proof (crc16_u16 buf) as Hc. unfold is_u16 in Hc.
  rewrite crc16_app2, u16_join_xor, Z.lxor_nilpotent; [done|done|..]; unfold is_byte;
    generalize dependent (crc16 buf true); intros; dlia.
Qed.

(** ** Frames on the wire *)

(** The console protocol as its receiver sees it: every line carries a mark and a base64
    text; the decoded texts make up a length, that many bytes, the last two being the CRC. *)
Fixpoint split_lines (w cur : list Z) : list (list Z) :=
  match w with
  | [] => []
  | c :: w' => if c =? 10 then cur :: split_lines w' [] else split_lines w' (cur ++ [c])
  end.

Definition line_text (first : bool) (line : list Z) : option (list Z) :=
  if has_mark (if first then start_mark else cont_mark) line then
    let r := base64_decode false MAX_BUF_SIZE (drop 2 line) in
    if b64_ret r =? 0 then Some (b64_out r) else None
  else None.

Fixpoint lines_text (first : bool) (lines : list (list Z)) : option (list Z) :=
  match lines with
  | [] => Some []
  | l :: ls =>
      match line_text first l, lines_text false ls with
      | Some a, Some b => Some (a ++ b)
      | _, _ => None
      end
  end.

Definition nlip_receive (w : list Z) : option (list Z) :=
  match lines_text true (split_lines w []) with
  | Some (hi :: lo :: body) =>
      if (hi * 256 + lo =? Z.of_nat (length body)) && (crc16 body true =? 0)
      then Some (take (length body - 2) body) else None
  | _ => None
  end.

Fixpoint frames (first : bool) (cs : list (list Z)) : list (list Z) :=
  match cs with
  | [] => []
  | c :: cs' => ((if first then start_mark else cont_mark) ++ c) :: frames false cs'
  end.

Definition tx_bytes (l : list ble_ev) : list Z :=
  concat (map (fun e => match e with Tx b => b | Reset _ => [] end) l).

Lemma encode_body_app a b q : length a = (3 * q)%nat -> encode_body (a ++ b) = encode_body a ++ encode_body b.
Proof.
  revert q. induction a as [|x|x y|x y z a IH] using list_ind3; intros q; cbn [length]; [done|lia..|].
  intros H. cbn [encode_body app]. rewrite (IH (q - 1)%nat) by lia. done.
Qed.

(** Cutting the text every 124 symbols cuts the packet every 93 bytes. *)
Lemma chunks_encode src n : (length src <= n)%nat -> chunks 124 (encode_body src) = map encode_body (chunks 93 src).
Proof.
  revert src. induction n as [|n IH]; intros src Hn.
  { destruct src; [done|cbn in Hn; lia]. }
  destruct (decide (src = [])) as [->|Hne]; [done|].
  assert (encode_body src <> []) as Hne' by (by destruct src as [|? [|? [|? ?]]]).
  rewrite (chunks_step 124), (chunks_step 93) by (done || lia). cbn [map].
  destruct (decide (length src < 93)%nat) as [Hs|Hs].
  - rewrite (take_ge src), (drop_ge src) by lia. pose proof (encode_body_length src).
    rewrite take_ge, drop_ge by dlia. done.
  - rewrite <- (take_drop 93 src) at 1 2. pose proof (encode_body_length (take 93 src)) as Hl.
    assert (length (take 93 src) = 93)%nat as H93 by (rewrite length_take; lia). rewrite H93 in Hl.
    change (4 * ((Z.of_nat 93 + 2) / 3)) with 124 in Hl. apply (Nat2Z.inj _ 124) in Hl.
    rewrite (encode_body_app _ _ 31) by done. rewrite take_app_length', drop_app_length' by done.
    rewrite IH; [done|]. rewrite length_drop. lia.
Qed.

Lemma encode_body_no_lf src : Forall (fun c => (c =? 10) = false) (encode_body src).
Proof.
  assert (forall x, (enc_at (Z.land x 63) =? 10) = false) as E.
  { intros x. pose proof (enc_at_ok _ (land63_range x)) as H. unfold symbol_ok in H. to_prop. by apply Z.eqb_neq. }
  induction src as [|a|a b|a b c src IH] using list_ind3; cbn [encode_body]; repeat (constructor; [apply E || done|]); done.
Qed.

Lemma split_lines_line l w cur : Forall (fun c => (c =? 10) = false) l ->
  split_lines (l ++ 10 :: w) cur = (cur ++ l) :: split_lines w [].
Proof.
  revert cur. induction l as [|c l IH]; intros cur H; cbn [app split_lines].
  - by rewrite app_nil_r.
  - forall_hyps. rewrite H. rewrite IH by done. by rewrite <- app_assoc.
Qed.

Lemma split_frames first cs :
  Forall (Forall (fun c => (c =? 10) = false)) cs ->
  split_lines (concat (map (fun l => l ++ [10]) (frames first cs))) [] = frames first cs.
Proof.
  revert first. induction cs as [|c cs IH]; intros first H; [done|]. forall_hyps. cbn [frames map concat].
  rewrite <- !app_assoc. cbn [app]. rewrite <- (IH false) at 2 by done.
  rewrite app_assoc. rewrite split_lines_line; [done|].
  apply Forall_app. split; [|done]. by destruct first; repeat constructor.
Qed.

(** Decoding the lines gives the packet back. *)
Lemma lines_text_frames first cs :
  Forall (fun c => (length c <= 93)%nat) cs -> Forall (Forall is_byte) cs ->
  lines_text first (frames first (map encode_body cs)) = Some (concat cs).
Proof.
  revert first. induction cs as [|c cs IH]; intros first Hl Hb; [done|]. forall_hyps.
  cbn [map frames lines_text concat]. rewrite IH by done. unfold line_text.
  assert (has_mark (if first then start_mark else cont_mark)
    ((if first then start_mark else cont_mark) ++ encode_body c) = true) as -> by (by destruct first).
  replace (drop 2 ((if first then start_mark else cont_mark) ++ encode_body c)) with (encode_body c)
    by (by destruct first).
  rewrite base64_decode_encode_body; [done|done|]. change MAX_BUF_SIZE with 512. lia.
Qed.

(** ** What [BLE_tx] writes *)

Fixpoint frame_evs (first : bool) (cs : list (list Z)) : list ble_ev :=
  match cs with
  | [] => []
  | c :: cs' => [Tx (if first then start_mark else cont_mark); Tx c; Tx [10]] ++ frame_evs false cs'
  end.

Definition add_log (s : ble) (evs : list ble_ev) : ble :=
  MkBle (rxq s) (clk s) [] (log s ++ evs) (ble_res s) (curSeq s).

Lemma add_log_add s a b : add_log (add_log s a) b = add_log s (a ++ b).
Proof. unfold add_log. cbn. by rewrite app_assoc. Qed.

Lemma txRaw_ok s buf : wrs s = [] -> BLE_txRaw s buf = (0, add_log s [Tx buf]).
Proof. intros H. unfold BLE_txRaw, add_log. by rewrite H. Qed.

Lemma tx_bytes_frames first cs :
  tx_bytes (frame_evs first cs) = concat (map (fun l => l ++ [10]) (frames first cs)).
Proof.
  revert first. unfold tx_bytes. induction cs as [|c cs IH]; intros first; [done|].
  cbn [frame_evs frames app map concat]. rewrite IH. by rewrite <- !app_assoc.
Qed.

Lemma tx_loop_ok fuel : forall s encoded written,
  wrs s = [] -> (length encoded <= fuel)%nat -> 0 <= written ->
  tx_loop fuel s encoded written = (0, add_log s (frame_evs (written =? 0) (chunks 124 encoded))).
Proof.
  induction fuel as [|f IH]; intros s encoded written Hw Hf Hp.
  { destruct encoded; [|cbn in Hf; lia]. cbn. destruct s; cbn in *; subst. unfold add_log. cbn. by rewrite app_nil_r. }
  destruct (decide (encoded = [])) as [->|Hne].
  { cbn. destruct s; cbn in *; subst. unfold add_log. cbn. by rewrite app_nil_r. }
  rewrite (chunks_step 124) by (done || lia). cbn [tx_loop frame_evs].
  destruct encoded as [|e es] eqn:He; [done|]. rewrite <- He in *. clear He.
  set (wl := if 124 <? Z.of_nat (length encoded) then 124 else Z.of_nat (length encoded)).
  assert (take (Z.to_nat wl) encoded = take 124 encoded /\ drop (Z.to_nat wl) encoded = drop 124 encoded) as [-> ->].
  { subst wl. case_if; to_prop; [done|]. rewrite Nat2Z.id, !take_ge, !drop_ge by lia. done. }
  assert (0 < wl) by (subst wl; destruct encoded; [done|]; case_if; cbn [length] in *; lia).
  rewrite txRaw_ok by done. rewrite txRaw_ok by done. cbn [negb Z.eqb]. rewrite txRaw_ok by done.
  rewrite IH; [|done|rewrite length_drop; destruct encoded; [done|cbn [length] in *; lia]|lia].
  rewrite (proj2 (Z.eqb_neq (written + wl) 0)) by lia. by rewrite !add_log_add.
Qed.

Lemma packet_eq buf : Z.of_nat (length buf) + 2 < 65536 ->
  packet buf = [(Z.of_nat (length buf) + 2) / 256; (Z.of_nat (length buf) + 2) mod 256] ++ buf ++
               [crc16 buf true / 256; crc16 buf true mod 256].
Proof.
  intros Hl. unfold packet.
  destruct (u16_bytes (Z.of_nat (length buf) + 2)) as [-> ->]; [unfold is_u16; lia|].
  by destruct (u16_bytes (crc16 buf true) (crc16_u16 buf)) as [-> ->].
Qed.

Lemma packet_bytes buf : Forall is_byte buf -> Forall is_byte (packet buf).
Proof.
  intros Hb. unfold packet. repeat (apply Forall_cons_2; [apply u8_byte|]). apply Forall_app. split; [done|].
  repeat (apply Forall_cons_2; [apply u8_byte|]). apply Forall_nil_2.
Qed.

Lemma packet_length buf : length (packet buf) = (length buf + 4)%nat.
Proof. unfold packet. rewrite !length_app. cbn [length]. lia. Qed.

Lemma BLE_tx_ok s buf : wrs s = [] -> (length buf <= 377)%nat ->
  BLE_tx s buf = (0, add_log s (frame_evs true (chunks 124 (encode_body (packet buf))))).
Proof.
  intros Hw Hl. unfold BLE_tx. pose proof (packet_length buf) as Hp.
  rewrite base64_encode_ok; [|by intros E; rewrite E in Hp; cbn in Hp; lia|rewrite Hp..].
  - cbn [b64_ret b64_olen b64_out from_option negb Z.eqb]. unfold id. rewrite Nat2Z.id, take_app_length.
    by rewrite tx_loop_ok by done.
  - change ((BASE64_SIZE_T_MAX - 1) / 4) with 1073741823. dlia.
  - change MAX_BUF_SIZE with 512. dlia.
Qed.

Lemma frames_bound first cs : Forall (fun c => (0 < length c <= 124)%nat) cs ->
  Forall (fun l => (length l < 128)%nat) (map (fun l => l ++ [10]) (frames first cs)).
Proof.
  revert first. induction cs as [|c cs IH]; intros first H; cbn [frames map]; [constructor|]. forall_hyps.
  constructor; [|by apply IH]. rewrite !length_app. cbn [length]. destruct first; cbn [start_mark cont_mark length]; lia.
Qed.

(** ** Properties: sending *)

(**  The CRC the sender appends is the one the receiver checks: [crc16] over a message
    followed by its two CRC bytes, high byte first, is zero. *)
Theorem crc16_check buf :
  crc16 (buf ++ [u8 (Z.shiftr (Z.land (crc16 buf true) 0xFF00) 8); u8 (Z.land (crc16 buf true) 0xFF)]) true = 0.
Proof. destruct (u16_bytes (crc16 buf true) (crc16_u16 buf)) as [-> ->]. apply crc16_residue. Qed.

(**  [BLE_tx] follows the console protocol: for a message of at most 377 bytes on a port that
    accepts its writes, it returns 0, every line it writes is shorter than 128 bytes, and a
    receiver that strips the marks, decodes each line by itself, joins the results and
    checks length and CRC gets exactly the message. *)
Theorem BLE_tx_roundtrip s buf :
  wrs s = [] -> Forall is_byte buf -> (length buf <= 377)%nat ->
  exists lines, BLE_tx s buf = (0, add_log s (frame_evs true lines)) /\
    Forall (fun l => (length l < 128)%nat) (map (fun l => l ++ [10]) (frames true lines)) /\
    nlip_receive (tx_bytes (frame_evs true lines)) = Some buf.
Proof.
  intros Hw Hb Hl. exists (chunks 124 (encode_body (packet buf))).
  split; [by apply BLE_tx_ok|]. split; [apply frames_bound, chunks_size; lia|].
  rewrite tx_bytes_frames, (chunks_encode _ _ (Nat.le_refl _)). unfold nlip_receive.
  rewrite split_frames by (apply Forall_map, Forall_true; intros; apply encode_body_no_lf).
  assert (Forall (Forall is_byte) (chunks 93 (packet buf))) as Hc.
  { apply Forall_concat. rewrite chunks_concat by lia. by apply packet_bytes. }
  rewrite lines_text_frames; [|eapply Forall_impl; [|apply chunks_size; lia]; cbn; lia|done].
  rewrite chunks_concat by lia. rewrite packet_eq by lia. cbn [app].
  rewrite length_app. cbn [length]. rewrite crc16_residue. rewrite andb_true_r.
  rewrite (proj2 (Z.eqb_eq _ _)) by dlia. f_equal.
  replace (length buf + 2 - 2)%nat with (length buf) by lia. apply take_app_length.
Qed.

(** An idle port with everything to come left open. *)
Definition idle_ble (q : list (option Z)) (t : list Z) : ble := MkBle q t [] [] (repeat 0 512) 0.

Lemma BLE_tx_roundtrip_witness :
  exists lines, BLE_tx (idle_ble [] []) [0; 0; 0; 0; 0; 0; 0; 1] = (0, add_log (idle_ble [] []) (frame_evs true lines)) /\
    Forall (fun l => (length l < 128)%nat) (map (fun l => l ++ [10]) (frames true lines)) /\
    nlip_receive (tx_bytes (frame_evs true lines)) = Some [0; 0; 0; 0; 0; 0; 0; 1].
Proof. apply (BLE_tx_roundtrip (idle_ble [] []) [0; 0; 0; 0; 0; 0; 0; 1]); [done|bytes_ok|cbn; lia]. Defined.

(** ** Receiving *)

(** A response line as the module's console prints it. *)
Definition response_line (first : bool) (text : list Z) : list Z :=
  (if first then start_mark else cont_mark) ++ text ++ [13].

Lemma getLine_loop_line l rest maxLen acc :
  Forall (fun c => (c =? 10) = false) l -> Z.of_nat (length acc + length l) < maxLen ->
  getLine_loop (map Some l ++ Some 10 :: rest) maxLen acc = (Z.of_nat (length acc + length l), acc ++ l, rest).
Proof.
  revert acc. induction l as [|c l IH]; intros acc Hl Hm; cbn [map app getLine_loop].
  - by rewrite app_nil_r, Nat.add_0_r.
  - apply Forall_cons_1 in Hl as [-> Hl]. cbn [length] in Hm.
    rewrite length_app. cbn [length]. rewrite (proj2 (Z.eqb_neq _ _)) by lia.
    rewrite IH; [|done|rewrite length_app; cbn [length]; lia].
    rewrite length_app, <- app_assoc. cbn [length app]. do 3 f_equal. lia.
Qed.

Lemma response_line_length first b :
  Z.of_nat (length (response_line first (encode_body b))) = 4 * ((Z.of_nat (length b) + 2) / 3) + 3.
Proof.
  unfold response_line. rewrite !length_app, !Nat2Z.inj_add, encode_body_length. destruct first; cbn [start_mark cont_mark length]; lia.
Qed.

(** The loop body on such a line: the payload [b] is decoded; only a start line whose payload
    is as long as its length field says ends the loop. *)
Lemma getMsg_line_response first b res :
  Forall is_byte b -> (1 <= length b <= 381)%nat -> (first = true -> (2 <= length b)%nat) ->
  let line := response_line first (encode_body b) in
  let res1 := overwrite line res in
  getMsg_line res1 (Z.of_nat (length line)) =
  if first then
    let totalLen := Z.lor (Z.shiftl (nth 0 b 0) 8) (nth 1 b 0) in
    let res2 := overwrite (drop 2 b) res1 in
    if Z.of_nat (length b) - 2 =? totalLen then LMsg totalLen res2 else LSkip res2
  else LSkip (overwrite b res1).
Proof.
  intros Hb Hl H2. cbv zeta. pose proof (response_line_length first b) as Hlen.
  set (res1 := overwrite _ _). unfold getMsg_line. rewrite Hlen. change MAX_BUF_SIZE with 512.
  rewrite (proj2 (Z.eqb_neq _ 0)), (proj2 (Z.eqb_neq _ 512)) by dlia. cbn [orb].
  assert ((nth 0 res1 0 =? 13) = false) as -> by (by destruct first). rewrite andb_false_r.
  rewrite (proj2 (Z.ltb_ge _ 2)) by dlia.
  assert (has_mark cont_mark res1 = negb first /\ has_mark start_mark res1 = first) as [-> ->] by (by destruct first).
  replace (negb (negb first) && negb first) with false by (by destruct first). cbn [orb].
  rewrite (proj2 (Z.ltb_ge _ 0)) by dlia.
  assert (take (Z.to_nat (4 * ((Z.of_nat (length b) + 2) / 3) + 3 - 3)) (drop 2 res1) = encode_body b) as ->.
  { replace (Z.to_nat _) with (length (encode_body b)) by (pose proof (encode_body_length b); dlia).
    subst res1. unfold overwrite, response_line. rewrite <- !app_assoc.
    destruct first; cbn [start_mark cont_mark app drop]; apply take_app_length. }
  rewrite base64_decode_encode_body by (done || lia). cbn [b64_ret b64_olen b64_out from_option]. unfold id.
  rewrite (proj2 (Z.eqb_neq (Z.of_nat _) 0)) by lia. destruct first; [|done].
  by rewrite (proj2 (Z.ltb_ge (Z.of_nat _) 2)) by (specialize (H2 eq_refl); lia).
Qed.

Lemma response_no_lf first b : Forall (fun c => (c =? 10) = false) (response_line first (encode_body b)).
Proof.
  unfold response_line. repeat (apply Forall_app; split); [by destruct first; repeat constructor|
    apply encode_body_no_lf|by repeat constructor].
Qed.

(** One turn of the receive loop on a response line. *)
Lemma getMsg_loop_line first b rest t ticks endTime s :
  rxq s = map Some (response_line first (encode_body b)) ++ Some 10 :: rest ->
  t < endTime -> Forall is_byte b -> (1 <= length b <= 381)%nat ->
  let line := response_line first (encode_body b) in
  getMsg_loop (t :: ticks) endTime s =
  match getMsg_line (overwrite line (ble_res s)) (Z.of_nat (length line)) with
  | LSkip res => getMsg_loop ticks endTime (MkBle rest ticks (wrs s) (log s) res (curSeq s))
  | LMsg n res => (GMsg n, MkBle rest ticks (wrs s) (log s) res (curSeq s))
  | LOob => (GOob, MkBle rest ticks (wrs s) (log s) (overwrite line (ble_res s)) (curSeq s))
  end.
Proof.
  intros Hq Ht Hb Hl. cbv zeta. cbn [getMsg_loop]. rewrite (proj2 (Z.leb_gt _ _)) by lia.
  unfold BLE_getLine. cbn [rxq]. rewrite Hq.
  pose proof (response_line_length first b) as Hlen.
  rewrite getLine_loop_line; [|apply response_no_lf|change MAX_BUF_SIZE with 512; cbn [length]; dlia].
  cbn [length app Nat.add]. unfold set_rx. cbn [clk wrs log ble_res curSeq rxq].
  by destruct (getMsg_line _ _).
Qed.

Lemma take_overwrite k a b : (k <= length a)%nat -> take k (overwrite a b) = take k a.
Proof. intros H. unfold overwrite. rewrite take_app_le by lia. done. Qed.

(** The length field of a packet. *)
Lemma packet_len_field buf : Z.of_nat (length buf) + 2 < 65536 ->
  Z.lor (Z.shiftl (nth 0 (packet buf) 0) 8) (nth 1 (packet buf) 0) = Z.of_nat (length buf) + 2.
Proof. intros Hl. rewrite packet_eq by done. cbn [nth app]. apply u16_join. unfold is_u16. lia. Qed.

(** The whole response when it takes several lines. *)
Definition response_wire (cs : list (list Z)) : list (option Z) :=
  match cs with
  | [] => []
  | c :: cs' =>
      map Some (response_line true c) ++ [Some 10] ++
      concat (map (fun c => map Some (response_line false c) ++ [Some 10]) cs')
  end.

Lemma getMsg_loop_empty ticks endTime s : rxq s = [] ->
  fst (getMsg_loop ticks endTime s) = GTimeout \/ fst (getMsg_loop ticks endTime s) = GWaiting.
Proof.
  revert s. induction ticks as [|t ticks IH]; intros s Hq; cbn [getMsg_loop]; [auto|].
  case_if; [auto|]. unfold BLE_getLine. cbn [rxq]. rewrite Hq. cbn [getLine_loop].
  unfold getMsg_line. cbn [Z.eqb orb]. apply IH. done.
Qed.

Lemma getMsg_loop_conts bs : forall ticks endTime s,
  Forall (fun b => Forall is_byte b /\ (1 <= length b <= 381)%nat) bs ->
  rxq s = concat (map (fun c => map Some (response_line false c) ++ [Some 10]) (map encode_body bs)) ->
  fst (getMsg_loop ticks endTime s) = GTimeout \/ fst (getMsg_loop ticks endTime s) = GWaiting.
Proof.
  induction bs as [|b bs IH]; intros ticks endTime s Hbs Hq; [by apply getMsg_loop_empty|].
  apply Forall_cons_1 in Hbs as [[Hb Hl] Hbs]. destruct ticks as [|t ticks]; [cbn; auto|].
  destruct (Z.leb_spec endTime t) as [Ht|Ht].
  { cbn [getMsg_loop]. rewrite (proj2 (Z.leb_le _ _)) by lia. auto. }
  cbn [map concat] in Hq. rewrite <- app_assoc in Hq. cbn [app] in Hq.
  rewrite (getMsg_loop_line false b _ _ _ _ _ Hq) by done. rewrite getMsg_line_response by done.
  apply IH; done.
Qed.

(** A response that fits one line. *)
Lemma getMsg_one_line s buf t0 t1 ticks rest :
  Forall is_byte buf -> (length buf <= 377)%nat -> t1 < t0 + RX_TIMEOUT -> clk s = t0 :: t1 :: ticks ->
  rxq s = map Some (response_line true (encode_body (packet buf))) ++ Some 10 :: rest ->
  exists res, BLE_getMsg s = (GMsg (Z.of_nat (length buf) + 2), MkBle rest ticks (wrs s) (log s) res (curSeq s)) /\
    take (length buf) res = buf /\ crc16 (take (length buf + 2) res) true = 0.
Proof.
  intros Hb Hl Ht Hc Hq. unfold BLE_getMsg. rewrite Hc.
  rewrite (getMsg_loop_line true (packet buf) rest _ _ _ _ Hq);
    [|done|by apply packet_bytes|rewrite packet_length; lia].
  rewrite getMsg_line_response by (by apply packet_bytes || (rewrite packet_length; lia)). cbv zeta.
  rewrite packet_len_field by lia. rewrite packet_length.
  rewrite (proj2 (Z.eqb_eq _ _)) by lia. eexists. split; [done|].
  rewrite packet_eq by lia. cbn [app drop]. rewrite drop_0.
  rewrite !take_overwrite by (rewrite length_app; cbn [length]; lia).
  split; [apply take_app_length|].
  rewrite take_ge by (rewrite length_app; cbn [length]; lia). apply crc16_residue.
Qed.

(** ** Properties: receiving *)

(**  [BLE_getMsg] receives a response that fits one console line: it returns the message
    with its CRC, of the announced length, in the receive buffer, and leaves what follows
    the line in the port. *)
Theorem BLE_getMsg_one_line s buf t0 t1 ticks rest :
  Forall is_byte buf -> (length buf <= 377)%nat -> t1 < t0 + RX_TIMEOUT -> clk s = t0 :: t1 :: ticks ->
  rxq s = map Some (response_line true (encode_body (packet buf))) ++ Some 10 :: rest ->
  exists s', BLE_getMsg s = (GMsg (Z.of_nat (length buf) + 2), s') /\
    take (length buf) (ble_res s') = buf /\ crc16 (take (length buf + 2) (ble_res s')) true = 0 /\ rxq s' = rest.
Proof.
  intros Hb Hl Ht Hc Hq. destruct (getMsg_one_line s buf t0 t1 ticks rest) as (res & Hg & Hr1 & Hr2); try done.
  eexists. split; [exact Hg|]. done.
Qed.

Lemma BLE_getMsg_one_line_witness :
  exists s', BLE_getMsg (idle_ble (map Some (response_line true (encode_body (packet [3; 0; 7]))) ++ [Some 10]) [100; 101])
    = (GMsg 5, s') /\ take 3 (ble_res s') = [3; 0; 7] /\ crc16 (take 5 (ble_res s')) true = 0 /\ rxq s' = [].
Proof.
  apply (BLE_getMsg_one_line
    (idle_ble (map Some (response_line true (encode_body (packet [3; 0; 7]))) ++ [Some 10]) [100; 101])
    [3; 0; 7] 100 101 [] []); [bytes_ok|cbn; lia|unfold RX_TIMEOUT; lia|done|done].
Defined.

(**  A response the module splits over several lines is never received, although the code
    has a branch for continuation lines: the index and the announced length are reset for every
    line, so whatever the timing the call does not return such a message. *)
Theorem BLE_getMsg_split_lost s buf t0 ticks :
  Forall is_byte buf -> (89 < length buf)%nat -> Z.of_nat (length buf) < 65534 -> clk s = t0 :: ticks ->
  rxq s = response_wire (chunks 124 (encode_body (packet buf))) ->
  fst (BLE_getMsg s) = GTimeout \/ fst (BLE_getMsg s) = GWaiting.
Proof.
  intros Hb Hl Hl2 Hc Hq. unfold BLE_getMsg. rewrite Hc. pose proof (packet_length buf) as Hp.
  rewrite (chunks_encode _ _ (Nat.le_refl _)) in Hq.
  assert (packet buf <> []) as Hne by (by intros E; rewrite E in Hp; cbn in Hp; lia).
  rewrite (chunks_step 93) in Hq by (done || lia). cbn [map response_wire app] in Hq.
  pose proof (packet_bytes buf Hb) as Hpb. pose proof (packet_len_field buf ltac:(lia)) as Hf.
  assert (Forall (fun b => Forall is_byte b /\ (1 <= length b <= 381)%nat) (chunks 93 (drop 93 (packet buf)))) as Hcs.
  { apply Forall_and; [apply Forall_concat; rewrite chunks_concat by lia; by apply Forall_drop|].
    eapply Forall_impl; [|apply chunks_size; lia]; cbn; lia. }
  destruct ticks as [|t ticks]; [cbn; auto|]. destruct (Z.leb_spec (t0 + RX_TIMEOUT) t) as [Ht|Ht].
  { cbn [getMsg_loop]. rewrite (proj2 (Z.leb_le _ _)) by lia. auto. }
  assert (length (take 93 (packet buf)) = 93%nat) as H93 by (rewrite length_take; lia).
  rewrite (getMsg_loop_line true _ _ _ _ _ _ Hq); [|done|by apply Forall_take|lia].
  rewrite getMsg_line_response by (lia || by apply Forall_take). cbv zeta.
  rewrite <- (take_drop 93 (packet buf)) in Hf. rewrite !app_nth1 in Hf by lia.
  rewrite Hf, H93, (proj2 (Z.eqb_neq _ _)) by lia. by eapply getMsg_loop_conts.
Qed.

Lemma BLE_getMsg_split_lost_witness :
  let s := idle_ble (response_wire (chunks 124 (encode_body (packet (replicate 100 7))))) [0; 1; 2; 3; 4; 5; 12] in
  fst (BLE_getMsg s) = GTimeout \/ fst (BLE_getMsg s) = GWaiting.
Proof.
  apply (BLE_getMsg_split_lost
    (idle_ble (response_wire (chunks 124 (encode_body (packet (replicate 100 7))))) [0; 1; 2; 3; 4; 5; 12])
    (replicate 100 7) 0 [1; 2; 3; 4; 5; 12]); [apply Forall_replicate; unfold is_byte; lia|rewrite length_replicate; lia..|done|done].
Defined.

(**  A line that holds a packet mark and nothing else sends the decoder out of the receive
    buffer: [dataLen - 3] wraps around and 2^32 - 1 bytes are handed to [base64_decode]. *)
Theorem BLE_getMsg_short_line s t0 t1 ticks rest mark :
  mark = start_mark \/ mark = cont_mark ->
  t1 < t0 + RX_TIMEOUT -> clk s = t0 :: t1 :: ticks -> rxq s = map Some mark ++ Some 10 :: rest ->
  fst (BLE_getMsg s) = GOob.
Proof.
  intros Hm Ht Hc Hq. unfold BLE_getMsg. rewrite Hc. cbn [getMsg_loop]. rewrite (proj2 (Z.leb_gt _ _)) by lia.
  unfold BLE_getLine. cbn [rxq ble_res]. rewrite Hq. by destruct Hm as [-> | ->].
Qed.

Lemma BLE_getMsg_short_line_witness : fst (BLE_getMsg (idle_ble [Some 6; Some 9; Some 10] [0; 0])) = GOob.
Proof.
  apply (BLE_getMsg_short_line (idle_ble [Some 6; Some 9; Some 10] [0; 0]) 0 0 [] [] start_mark);
    [by left|unfold RX_TIMEOUT; lia|done|done].
Defined.

(** ** Uploading an image *)

(** The lines [BLE_tx] writes for a message. *)
Definition message_evs (m : list Z) : list ble_ev := frame_evs true (chunks 124 (encode_body (packet m))).

(** A request that is answered in time, by a response of one line. *)
Lemma BLE_txNmp_answered s hdr body ack t0 t1 ticks rest :
  wrs s = [] -> (length (hdr ++ body) <= 377)%nat ->
  Forall is_byte ack -> (8 <= length ack <= 377)%nat -> t1 < t0 + RX_TIMEOUT -> clk s = t0 :: t1 :: ticks ->
  rxq s = map Some (response_line true (encode_body (packet ack))) ++ Some 10 :: rest ->
  exists res, BLE_txNmp s hdr body =
      (GMsg (Z.of_nat (length ack) + 2), MkBle rest ticks [] (log s ++ message_evs (hdr ++ body)) res (curSeq s)) /\
    forall op group id, hdr_ok res op group id = hdr_ok ack op group id.
Proof.
  intros Hw Hl Hb Ha Ht Hc Hq. unfold BLE_txNmp. rewrite BLE_tx_ok by done. cbn [Z.eqb negb].
  destruct (getMsg_one_line (add_log s (message_evs (hdr ++ body))) ack t0 t1 ticks rest)
    as (res & Hg & Hr & _); [done|lia|done..|].
  exists res. split; [exact Hg|]. intros op group id. unfold hdr_ok.
  assert (forall k, (k < 8)%nat -> nth k res 0 = nth k ack 0) as E.
  { intros k Hk. rewrite <- (take_drop (length ack) res), Hr. rewrite app_nth1 by lia. done. }
  by rewrite !E by lia.
Qed.

(** The requests an upload should consist of: the pieces of the file in order, each with its
    offset and the next sequence number, the first with the length and the slot. *)
Fixpoint upload_msgs (cbor : Z -> option Z -> list Z -> list Z) (seq len off : Z) (pieces : list (list Z))
    : list (list Z) :=
  match pieces with
  | [] => []
  | p :: ps =>
      let body := cbor off (if off =? 0 then Some len else None) p in
      let blen := u16 (Z.of_nat (length body)) in
      ([NMP_OP_WRITE; 0; u8 (Z.shiftr (Z.land blen 0xFF00) 8); u8 (Z.land blen 0xFF); 0; 1; seq; NMP_ID_IMAGE_UPLOAD] ++ body)
      :: upload_msgs cbor (u8 (seq + 1)) len (off + Z.of_nat (length p)) ps
  end.

Lemma slot_len_mask slot n : 0 <= slot <= 1 -> 0 <= n < 2 ^ 24 ->
  Z.land (if slot =? 0 then n else Z.lor n (Z.shiftl (Z.land slot 0x0F) 24)) 0x00FFFFFF = n.
Proof.
  intros Hs Hn. change 0x00FFFFFF with (Z.ones 24). rewrite Z.land_ones by lia.
  assert (slot = 0 \/ slot = 1) as [-> | ->] by lia; cbn [Z.eqb].
  - apply Z.mod_small. lia.
  - rewrite Z.lor_comm, lor_shiftl by lia. change (Z.land 1 15 * 2 ^ 24) with (2 ^ 24).
    change (2 ^ 24) with 16777216 in *. dlia.
Qed.

Lemma read_count_spec (file : list Z) :
  let rc := if Z.of_nat (length file) <? READ_CHUNK_SIZE then Z.of_nat (length file) else READ_CHUNK_SIZE in
  take (Z.to_nat rc) file = take 196 file /\ drop (Z.to_nat rc) file = drop 196 file /\
  rc = Z.of_nat (length (take 196 file)).
Proof.
  unfold READ_CHUNK_SIZE. rewrite length_take. case_if; to_prop;
    [rewrite Nat2Z.id, !take_ge, !drop_ge by lia; split_and!; try done; lia|split_and!; try done; lia].
Qed.

Section UploadProofs.
Context (cbor : Z -> option Z -> list Z -> list Z).
Context (cbor_small : forall off len data, (length data <= 196)%nat -> (length (cbor off len data) <= 369)%nat).

(** One answer of the module and the two clock readings of the wait for it. *)
Definition answer_ok (a : list Z * (Z * Z)) : Prop :=
  Forall is_byte a.1 /\ (8 <= length a.1 <= 377)%nat /\ a.2.2 < a.2.1 + RX_TIMEOUT /\
  hdr_ok a.1 NMP_OP_WRITE_RSP NMP_GROUP_IMAGE NMP_ID_IMAGE_UPLOAD = true.
Definition answers_rx (l : list (list Z * (Z * Z))) : list (option Z) :=
  concat (map (fun a => map Some (response_line true (encode_body (packet a.1))) ++ [Some 10]) l).
Definition answers_clk (l : list (list Z * (Z * Z))) : list Z := concat (map (fun a => [a.2.1; a.2.2]) l).

Lemma upload_loop_ok fuel : forall s slot total off file answers rest ticks,
  (length file < fuel)%nat -> wrs s = [] -> 0 <= slot <= 1 -> Z.of_nat (length file) < 2 ^ 24 -> 0 <= off ->
  (off = 0 -> total = Z.of_nat (length file)) ->
  length answers = length (chunks 196 file) -> Forall answer_ok answers ->
  rxq s = answers_rx answers ++ rest -> clk s = answers_clk answers ++ ticks ->
  exists s', upload_loop cbor fuel s slot (Z.of_nat (length file)) off file = (BRet 0, s') /\
  log s' = log s ++ concat (map message_evs (upload_msgs cbor (curSeq s)
    (if slot =? 0 then total else Z.lor total (Z.shiftl (Z.land slot 0x0F) 24)) off (chunks 196 file))).
Proof.
  induction fuel as [|f IH]; intros s slot total off file answers rest ticks Hfl Hw Hs Hf Ho Ht Hn Ha Hq Hc;
    cbn [upload_loop]; [lia|].
  destruct (decide (file = [])) as [->|Hne]; [eexists; split; [done|]; cbn; by rewrite app_nil_r|].
  assert (0 < length file)%nat by (destruct file; [done|cbn; lia]).
  rewrite (proj2 (Z.eqb_neq (Z.of_nat (length file)) 0)) by lia.
  destruct (read_count_spec file) as (-> & -> & ->).
  rewrite Z.eqb_refl. cbn [negb].
  assert (forall x, (if off =? 0 then Some (if slot =? 0 then Z.of_nat (length file) else Z.lor (Z.of_nat (length file)) x) else None)
    = (if off =? 0 then Some (if slot =? 0 then total else Z.lor total x) else None)) as ->.
  { intros x. destruct (Z.eqb_spec off 0); [by rewrite Ht|done]. }
  rewrite (chunks_step 196) in * by (done || lia). cbn [upload_msgs map concat].
  destruct answers as [|[ack [t0 t1]] answers]; [done|]. apply Forall_cons_1 in Ha as [(Hb & Hl & Ht1 & Hh) Ha].
  cbn [fst snd] in *.
  unfold answers_rx, answers_clk in Hq, Hc. cbn [map concat app length] in *. rewrite <- !app_assoc in Hq.
  destruct (BLE_populateNmpHdr _ _ _ _ _) as [hdr s1] eqn:Hhdr. unfold BLE_populateNmpHdr in Hhdr. injection Hhdr as <- <-.
  change (u8 (Z.shiftr (Z.land NMP_GROUP_IMAGE 0xFF00) 8)) with 0. change (u8 (Z.land NMP_GROUP_IMAGE 0xFF)) with 1.
  match goal with |- context [BLE_txNmp ?s ?h ?b] =>
    destruct (BLE_txNmp_answered s h b ack t0 t1 (answers_clk answers ++ ticks) (answers_rx answers ++ rest))
      as (res & -> & Hres) end; [done|rewrite length_app; cbn [length]|done..|].
  { match goal with |- context [cbor ?a ?b ?c] => pose proof (cbor_small a b c ltac:(rewrite length_take; lia)) end. lia. }
  cbn [ble_res]. rewrite Hres, Hh. rewrite (slot_len_mask slot) by lia.
  pose proof (length_take file 196). pose proof (length_drop file 196).
  replace (if off =? 0 then Z.of_nat (length file) else Z.of_nat (length file)) with (Z.of_nat (length file))
    by (by destruct (off =? 0)).
  rewrite u32_small by lia.
  replace (Z.of_nat (length file) - Z.of_nat (length (take 196 file))) with (Z.of_nat (length (drop 196 file))) by lia.
  match goal with |- context [upload_loop cbor f ?s2 _ _ ?off2 _] =>
    destruct (IH s2 slot total off2 (drop 196 file) answers rest ticks) as (s' & -> & Hlog) end;
    [lia|done|done|lia..|done|done|done|].
  eexists. split; [done|]. rewrite Hlog. cbn [log curSeq]. rewrite <- app_assoc. reflexivity.
Qed.

End UploadProofs.

(** The reset loop on a module that stays silent, and on one that answers. *)
Lemma reset_loop_timeout f s r q :
  rxq s = None :: q -> is_ready (ble_res s) = false -> 0 < r ->
  reset_loop (S f) s r =
  reset_loop f (MkBle q (clk s) (wrs s) (log s ++ [Reset true; Reset false]) (ble_res s) (curSeq s)) (r - 1).
Proof.
  intros Hq Hr Hp. cbn [reset_loop]. rewrite (proj2 (Z.ltb_lt 0 r)) by done.
  unfold BLE_getLine, ble_reset. cbn [rxq ble_res]. rewrite Hq. cbn [getLine_loop].
  unfold set_rx, overwrite. cbn [ble_res clk wrs log curSeq length app]. rewrite drop_0, Hr. done.
Qed.

Lemma reset_loop_ready f s r q :
  rxq s = map Some [114; 101; 97; 100; 121; 13; 10] ++ q -> 0 < r ->
  reset_loop (S f) s r = (r - 1, MkBle q (clk s) (wrs s) (log s ++ [Reset true; Reset false])
                                   (overwrite [114; 101; 97; 100; 121; 13] (ble_res s)) (curSeq s)).
Proof.
  intros Hq Hp. cbn [reset_loop]. rewrite (proj2 (Z.ltb_lt 0 r)) by done.
  unfold BLE_getLine, ble_reset. cbn [rxq ble_res]. rewrite Hq. done.
Qed.

(** ** Properties: programming *)

(**  An image of less than 16 MiB is uploaded whole: if every request is answered in time by
    a one-line acknowledgement, [BLE_txImage] returns 0 and what it has written is exactly the
    upload requests for the 196-byte pieces of the file in order, whose offsets are contiguous
    and whose first request carries the file size with the slot number in its top byte. *)
Theorem BLE_txImage_sends_file cbor s file slot answers rest ticks :
  (forall off len data, (length data <= 196)%nat -> (length (cbor off len data) <= 369)%nat) ->
  wrs s = [] -> 0 <= slot <= 1 -> Z.of_nat (length file) < 2 ^ 24 ->
  length answers = length (chunks 196 file) -> Forall answer_ok answers ->
  rxq s = answers_rx answers ++ rest -> clk s = answers_clk answers ++ ticks ->
  concat (chunks 196 file) = file /\
  exists s', BLE_txImage cbor s (Some file) (Some (Z.of_nat (length file))) slot = (BRet 0, s') /\
  log s' = log s ++ concat (map message_evs
    (upload_msgs cbor (curSeq s) (Z.of_nat (length file) + slot * 2 ^ 24) 0 (chunks 196 file))).
Proof.
  intros Hcb Hw Hs Hf Hn Ha Hq Hc. split; [apply chunks_concat; lia|]. unfold BLE_txImage.
  rewrite (proj2 (Z.ltb_ge slot 0)), (proj2 (Z.ltb_ge 1 slot)) by lia. cbn [orb].
  destruct (upload_loop_ok cbor Hcb (S (length file)) s slot (Z.of_nat (length file)) 0 file answers rest ticks)
    as (s' & He & Hl); try done; try lia.
  exists s'. split; [exact He|]. rewrite Hl. do 4 f_equal.
  assert (slot = 0 \/ slot = 1) as [-> | ->] by lia; cbn [Z.eqb]; [lia|].
  rewrite Z.lor_comm, lor_shiftl by lia. change (Z.land 1 15) with 1. lia.
Qed.

Lemma BLE_txImage_sends_file_witness :
  let answers := [([3; 0; 0; 0; 0; 1; 0; 1], (100, 101))] in
  let s := idle_ble (answers_rx answers ++ []) (answers_clk answers ++ []) in
  concat (chunks 196 [1; 2; 3]) = [1; 2; 3] /\
  exists s', BLE_txImage (fun off _ data => off :: data) s (Some [1; 2; 3]) (Some 3) 1 = (BRet 0, s') /\
  log s' = [] ++ concat (map message_evs
    (upload_msgs (fun off _ data => off :: data) 0 (3 + 1 * 2 ^ 24) 0 (chunks 196 [1; 2; 3]))).
Proof.
  apply (BLE_txImage_sends_file (fun off _ data => off :: data)
    (idle_ble (answers_rx [([3; 0; 0; 0; 0; 1; 0; 1], (100, 101))] ++ [])
              (answers_clk [([3; 0; 0; 0; 0; 1; 0; 1], (100, 101))] ++ []))
    [1; 2; 3] 1 [([3; 0; 0; 0; 0; 1; 0; 1], (100, 101))] [] []);
    [intros; cbn [length]; lia|done|lia|cbn; lia|done| |done|done].
  constructor; [|constructor]. repeat split; try (cbn; lia). bytes_ok.
Defined.

(**  The last of the five resets is wasted: when the module answers "ready" to the fifth one,
    [BLE_vendorProgram] still gives up with -1 and sends it nothing. *)
Theorem BLE_vendorProgram_last_reset cbor s file size slot rest :
  is_ready (ble_res s) = false ->
  rxq s = [None; None; None; None] ++ map Some [114; 101; 97; 100; 121; 13; 10] ++ rest ->
  fst (BLE_vendorProgram cbor s file size slot) = BRet (-1) /\
  tx_bytes (log (snd (BLE_vendorProgram cbor s file size slot))) = tx_bytes (log s).
Proof.
  intros Hr Hq. unfold BLE_vendorProgram. change MAX_BLE_RESET_ATTEMPTS with 5. change (S (Z.to_nat 5)) with 6%nat.
  cbn [app] in Hq. do 4 (erewrite reset_loop_timeout; [|cbn [rxq]; done..]). cbn [rxq clk wrs log ble_res curSeq].
  erewrite reset_loop_ready by (cbn [rxq]; done). change (5 - 1 - 1 - 1 - 1 - 1 <=? 0) with true. cbn [fst snd ble_reset log].
  split; [done|]. unfold tx_bytes. rewrite !map_app, !concat_app. cbn [map concat app]. by rewrite !app_nil_r.
Qed.

Lemma BLE_vendorProgram_last_reset_witness :
  let s := idle_ble ([None; None; None; None] ++ map Some [114; 101; 97; 100; 121; 13; 10] ++ []) [] in
  fst (BLE_vendorProgram (fun _ _ d => d) s (Some []) (Some 0) 0) = BRet (-1) /\
  tx_bytes (log (snd (BLE_vendorProgram (fun _ _ d => d) s (Some []) (Some 0) 0))) = tx_bytes (log s).
Proof.
  apply (BLE_vendorProgram_last_reset (fun _ _ d => d)
    (idle_ble ([None; None; None; None] ++ map Some [114; 101; 97; 100; 121; 13; 10] ++ []) []) (Some []) (Some 0) 0 []); reflexivity.
Defined.
