(* ===== verification/Flash.v ===== *)
(** * The flash memory of the BLE module, with power failures

    The nRF52840 of the hub's BLE module runs the boot loader under
    [src/radios/ble/mcuboot].  Its flash is a function from addresses to
    bytes; programming clears bits word by word, erasing sets them.  The
    power may fail before any word: [power] counts the words that can still
    be changed, [None] means it does not fail.  [wpc] is a weakest
    precondition with a crash condition: the post-condition holds if the
    program ends, the crash condition of every memory a power failure may
    leave behind, and without a power failure the program does end.

    Sources: soc_flash_nrf.c and flash_page_layout.c (Zephyr), flash_map.c
    and hal_flash.c (mcuboot/boot/zephyr), nrf52840_pca10056.dts. *)
From Stdlib Require Import ZArith Lia Bool.
From stdpp Require Import base list numbers.
From S2P Require Import Prelude.

Local Open Scope Z_scope.

(** ** Memory *)

Definition memory := Z -> Z.

(** Pages and size of the chip (FICR), the write block of the device tree. *)
Definition CODEPAGESIZE : Z := 4096.
Definition CODESIZE : Z := 256.
Definition FLASH_ALIGN : Z := 4.
Definition EINVAL_RC : Z := -22.

Definition inside (lo n i : Z) : bool := (lo <=? i) && (i <? lo + n).

(** Programming can only clear bits. *)
Definition programmed (f : memory) (addr : Z) (data : list Z) : memory :=
  match data with
  | [] => f
  | _ => fun i => if inside addr (Z.of_nat (length data)) i then Z.land (f i) (nth (Z.to_nat (i - addr)) data 0xFF) else f i
  end.

Definition erased (f : memory) (addr n : Z) : memory :=
  match n with
  | 0 => f
  | _ => fun i => if inside addr n i then 0xFF else f i
  end.

Definition bytes_at (f : memory) (addr len : Z) : list Z := map (fun k => f (addr + Z.of_nat k)) (seq 0 (Z.to_nat len)).

(** ** Programs *)

Record dev := Dev { mem : memory; power : option N }.

(** [Cut]: the power failed; [Hang]: an endless loop; [Wild]: an array is read past its end. *)
Inductive res (A : Type) := Done (a : A) | Cut | Hang | Wild.
Arguments Done {A} a.
Arguments Cut {A}.
Arguments Hang {A}.
Arguments Wild {A}.

Definition B (A : Type) : Type := dev -> res A * dev.

#[export] Instance B_ret : MRet B := fun A a d => (Done a, d).
#[export] Instance B_bind : MBind B := fun A A' k m d =>
  match m d with
  | (Done a, d') => k a d'
  | (Cut, d') => (Cut, d')
  | (Hang, d') => (Hang, d')
  | (Wild, d') => (Wild, d')
  end.

Definition memory_now : B memory := fun d => (Done (mem d), d).
Definition hang {A} : B A := fun d => (Hang, d).
Definition wild {A} : B A := fun d => (Wild, d).

(** [need] words are changed; [after n] is the memory after [n] of them. *)
Definition change (need : Z) (after : Z -> memory) : B Z := fun d =>
  match power d with
  | None => (Done 0, Dev (after need) None)
  | Some n =>
      if need <=? Z.of_N n then (Done 0, Dev (after need) (Some (n - Z.to_N need)%N))
      else (Cut, Dev (after (Z.of_N n)) (Some 0%N))
  end.

(** ** The driver *)

Definition is_addr_valid (addr len : Z) : bool := negb ((CODEPAGESIZE * CODESIZE <? u32 (addr + len)) || (addr <? 0)).

(** [None] is -EINVAL. *)
Definition flash_read (f : memory) (addr len : Z) : option (list Z) :=
  if is_addr_valid addr len then Some (bytes_at f addr len) else None.

Definition flash_write (addr : Z) (data : list Z) : B Z :=
  let len := Z.of_nat (length data) in
  if negb (is_addr_valid addr len) then mret EINVAL_RC
  else if len =? 0 then mret 0
  else f ← memory_now; change ((addr mod 4 + len + 3) / 4) (fun n => programmed f addr (take (Z.to_nat (4 * n - addr mod 4)) data)).

Definition flash_erase (addr size : Z) : B Z :=
  if negb (addr mod CODEPAGESIZE =? 0) || negb (size mod CODEPAGESIZE =? 0) then mret EINVAL_RC
  else if negb (is_addr_valid addr size) then mret EINVAL_RC
  else if size / CODEPAGESIZE =? 0 then mret 0
  else f ← memory_now; change (size / 4) (fun n => erased f addr (4 * n)).

(** The pages, as [flash_page_foreach] presents them. *)
Definition flash_pages : list (Z * Z) := map (fun i => (CODEPAGESIZE * Z.of_nat i, CODEPAGESIZE)) (seq 0 (Z.to_nat CODESIZE)).

(** ** Flash areas *)

Record flash_area := FlashArea { fa_id : Z; fa_off : Z; fa_size : Z }.

Definition FLASH_AREA_IMAGE_0 : Z := 1.
Definition FLASH_AREA_IMAGE_1 : Z := 2.
Definition FLASH_AREA_IMAGE_SCRATCH : Z := 3.

(** The partitions of the device tree. *)
Definition image_0 : flash_area := FlashArea FLASH_AREA_IMAGE_0 0xC000 0x69000.
Definition image_1 : flash_area := FlashArea FLASH_AREA_IMAGE_1 0x75000 0x69000.
Definition scratch : flash_area := FlashArea FLASH_AREA_IMAGE_SCRATCH 0xDE000 0x1E000.
Definition part_map : list flash_area := [image_0; image_1; scratch].

Definition flash_area_open (id : Z) : option flash_area := List.find (fun a => fa_id a =? id) part_map.
Definition flash_area_id_from_image_slot (slot : Z) : Z := slot + FLASH_AREA_IMAGE_0.

(** Offsets are 32-bit, [off_t] is signed. *)
Definition addr_of (a : flash_area) (off : Z) : Z := i32 (fa_off a + off).

Definition flash_area_read (f : memory) (a : flash_area) (off len : Z) : option (list Z) := flash_read f (addr_of a off) len.
Definition flash_area_write (a : flash_area) (off : Z) (data : list Z) : B Z := flash_write (addr_of a off) data.
Definition flash_area_erase (a : flash_area) (off len : Z) : B Z := flash_erase (addr_of a off) len.
Definition hal_flash_align (id : Z) : Z := FLASH_ALIGN.
Definition flash_area_align (a : flash_area) : Z := hal_flash_align (fa_id a).

(** [flash_area_get_sectors]: the sectors as offset in the area and size, at most [cnt]; [None] is -ENOMEM. *)
Fixpoint get_sectors (a : flash_area) (cnt : nat) (pages : list (Z * Z)) : option (list (Z * Z)) :=
  match pages with
  | [] => Some []
  | (start, size) :: pages' =>
      if start <? fa_off a then get_sectors a cnt pages'
      else if fa_off a + fa_size a <=? start then Some []
      else match cnt with
           | O => None
           | S cnt' => cons (start - fa_off a, size) <$> get_sectors a cnt' pages'
           end
  end.

Definition flash_area_get_sectors (id : Z) (cnt : nat) : option (list (Z * Z)) :=
  a ← flash_area_open id; get_sectors a cnt flash_pages.

(** ** Weakest preconditions with crash conditions *)

Definition wpc {A} (m : B A) (Q : A -> memory -> Prop) (C : memory -> Prop) (f : memory) : Prop :=
  forall p, match m (Dev f p) with
    | (Done a, d) => Q a (mem d) /\ (p = None -> power d = None)
    | (Cut, d) => C (mem d) /\ p <> None
    | _ => False
    end.

Section Rules.
Context {A A' : Type}.
Implicit Types (Q : A -> memory -> Prop) (C : memory -> Prop).

Lemma wpc_ret (a : A) Q C f : Q a f -> wpc (mret a) Q C f.
Proof. intros H p. by split. Qed.

Lemma wpc_bind (m : B A') (k : A' -> B A) Q C f : wpc m (fun a f' => wpc (k a) Q C f') C f -> wpc (m ≫= k) Q C f.
Proof.
  intros H p. specialize (H p). unfold mbind, B_bind. destruct (m (Dev f p)) as [[a| | |] d]; try done.
  destruct H as [H Hp]. specialize (H (power d)). destruct d as [f' p']. cbn [mem power] in *.
  destruct (k a (Dev f' p')) as [[a'| | |] d']; naive_solver.
Qed.

Lemma wpc_mono (m : B A) Q Q' C C' f : wpc m Q C f -> (forall a f', Q a f' -> Q' a f') -> (forall f', C f' -> C' f') -> wpc m Q' C' f.
Proof. intros H HQ HC p. specialize (H p). destruct (m (Dev f p)) as [[a| | |] d]; naive_solver. Qed.

End Rules.

Lemma wpc_memory {A} (k : memory -> B A) (Q : A -> memory -> Prop) C f : wpc (k f) Q C f -> wpc (memory_now ≫= k) Q C f.
Proof. intros H. apply wpc_bind. by intros p. Qed.
Lemma wpc_change need after Q C f : (forall n, 0 <= n < need -> C (after n)) -> Q 0 (after need) -> wpc (change need after) Q C f.
Proof.
  intros HC HQ p. unfold change. cbn [power]. destruct p as [n|]; [|done].
  destruct (need <=? Z.of_N n) eqn:E; to_prop; [done|]. split; [|done]. apply HC. lia.
Qed.

(** ** Bytes *)

Definition good (f : memory) : Prop := forall i, is_byte (f i).

Lemma inside_spec lo n i : inside lo n i = true <-> lo <= i < lo + n.
Proof. unfold inside. rewrite andb_true_iff. split; intros; [to_prop; lia|split; apply Z.leb_le || apply Z.ltb_lt; lia]. Qed.

Lemma outside_spec lo n i : ~ lo <= i < lo + n -> inside lo n i = false.
Proof. intros H. apply not_true_iff_false. by rewrite inside_spec. Qed.

Lemma good_erased f a n : good f -> good (erased f a n).
Proof. intros H i. destruct n; cbn [erased]; [done|..]; case_match; first [done|unfold is_byte; lia]. Qed.

Lemma land_byte a b : is_byte a -> 0 <= b -> is_byte (Z.land a b).
Proof.
  intros Ha Hb. split; [apply Z.land_nonneg; left; apply Ha|].
  destruct (decide (Z.land a b = 0)) as [->|Hn]; [done|]. apply Z.log2_lt_cancel. change (Z.log2 256) with 8.
  pose proof (Z.log2_land a b ltac:(apply Ha) Hb). assert (Z.log2 a < 8) by (destruct (decide (a = 0)) as [->|]; [done|]; apply Z.log2_lt_pow2; unfold is_byte in Ha; lia). lia.
Qed.

Lemma land_ff x : is_byte x -> Z.land 0xFF x = x.
Proof. intros H. rewrite Z.land_comm. change 0xFF with (Z.ones 8). rewrite Z.land_ones by done. apply Z.mod_small. apply H. Qed.

Lemma good_programmed f a l : good f -> Forall is_byte l -> good (programmed f a l).
Proof.
  intros H Hl i. destruct l as [|x l]; [done|]. unfold programmed. case_match; [|done]. set (l' := x :: l) in *. clearbody l'. apply land_byte; [done|].
  destruct (nth_in_or_default (Z.to_nat (i - a)) l' 0xFF) as [Hi| ->]; [|done]. rewrite list.Forall_forall in Hl. by apply Hl, list_elem_of_In.
Qed.

Lemma bytes_at_length f a n : length (bytes_at f a n) = Z.to_nat n.
Proof. unfold bytes_at. by rewrite length_map, length_seq. Qed.

Lemma bytes_at_nth f a n k d : 0 <= Z.of_nat k < n -> nth k (bytes_at f a n) d = f (a + Z.of_nat k).
Proof.
  intros H. apply nth_lookup_Some. unfold bytes_at. rewrite list_lookup_fmap, lookup_seq_lt by lia. done.
Qed.

Lemma bytes_at_ext f g a b n : (forall k, 0 <= k < n -> f (a + k) = g (b + k)) -> bytes_at f a n = bytes_at g b n.
Proof. intros H. apply map_ext_in. intros k Hk. apply in_seq in Hk. apply H. lia. Qed.

Lemma bytes_at_good f a n : good f -> Forall is_byte (bytes_at f a n).
Proof. intros H. apply Forall_map. apply list.Forall_forall. intros k _. apply H. Qed.

Lemma bytes_at_app f a n m : 0 <= n -> 0 <= m -> bytes_at f a (n + m) = bytes_at f a n ++ bytes_at f (a + n) m.
Proof.
  intros Hn Hm. unfold bytes_at. rewrite Z2Nat.inj_add, seq_app, map_app by done. f_equal. cbn [Nat.add].
  rewrite <- (Nat.add_0_r (Z.to_nat n)) at 1. rewrite <- fmap_add_seq.
  apply list_eq. intros k. rewrite !list_lookup_fmap. destruct (seq 0 (Z.to_nat m) !! k); [|done]. cbn. do 2 f_equal. lia.
Qed.

(** ** Operations inside an area *)

Definition is_area (a : flash_area) : Prop := a = image_0 \/ a = image_1 \/ a = scratch.

(** Numbers for the bounds of an area. *)
Ltac area_cases Ha := destruct Ha as [-> | [-> | ->]]; cbn [fa_off fa_size image_0 image_1 scratch] in *;
  unfold INT_MIN, INT_MAX, CODEPAGESIZE, CODESIZE in *; lia.

Lemma addr_of_eq a off : is_area a -> 0 <= off <= fa_size a -> addr_of a off = fa_off a + off.
Proof. intros Ha Ho. apply i32_small. area_cases Ha. Qed.

Lemma addr_valid a off len : is_area a -> 0 <= off -> 0 <= len -> off + len <= fa_size a -> is_addr_valid (fa_off a + off) len = true.
Proof.
  intros Ha Ho Hl Hs. unfold is_addr_valid. rewrite u32_small by area_cases Ha.
  apply negb_true_iff, orb_false_iff. split; apply Z.ltb_ge; area_cases Ha.
Qed.

Lemma area_read f a off len : is_area a -> 0 <= off -> 0 <= len -> off + len <= fa_size a ->
  flash_area_read f a off len = Some (bytes_at f (fa_off a + off) len).
Proof. intros Ha Ho Hl Hs. unfold flash_area_read, flash_read. by rewrite addr_of_eq, addr_valid by (done || lia). Qed.

(** Programming one aligned word is atomic. *)
Lemma wpc_write a off data Q C f : is_area a -> 0 <= off -> (0 < length data)%nat -> off + Z.of_nat (length data) <= fa_size a ->
  (forall n, (n < length data)%nat -> C (programmed f (fa_off a + off) (take n data))) -> Q 0 (programmed f (fa_off a + off) data) ->
  wpc (flash_area_write a off data) Q C f.
Proof.
  intros Ha Ho Hl Hs HC HQ. unfold flash_area_write, flash_write. rewrite addr_of_eq, addr_valid by (done || lia). cbn [negb].
  rewrite (proj2 (Z.eqb_neq _ 0)) by lia. apply wpc_memory. set (x := fa_off a + off) in *.
  apply wpc_change.
  - intros n Hn. destruct (decide (Z.to_nat (4 * n - x mod 4) < length data)%nat); [by apply HC|]. exfalso.
    pose proof (Z.mod_pos_bound x 4). dlia.
  - rewrite take_ge; [done|]. pose proof (Z.mod_pos_bound x 4). dlia.
Qed.

Lemma wpc_write_word a off data Q C f : is_area a -> 0 <= off -> off mod 4 = 0 -> length data = 4%nat -> off + 4 <= fa_size a ->
  C f -> Q 0 (programmed f (fa_off a + off) data) -> wpc (flash_area_write a off data) Q C f.
Proof.
  intros Ha Ho Hm Hl Hs HC HQ. unfold flash_area_write, flash_write. rewrite Hl. change (Z.of_nat 4) with 4.
  rewrite addr_of_eq, addr_valid by (done || lia). cbn [negb Z.eqb]. apply wpc_memory. set (x := fa_off a + off) in *.
  assert (x mod 4 = 0) as -> by (unfold x; destruct Ha as [-> | [-> | ->]]; cbn [fa_off image_0 image_1 scratch]; dlia).
  apply wpc_change.
  - intros n Hn. change ((0 + 4 + 3) / 4) with 1 in Hn. by assert (n = 0) as -> by lia.
  - change (Z.to_nat (4 * ((0 + 4 + 3) / 4) - 0)) with 4%nat. by rewrite take_ge by lia.
Qed.

(** ** Changes inside a region *)

(** [f] and [g] differ at most in the [n] bytes at [lo]. *)
Definition same_but (lo n : Z) (f g : memory) : Prop := forall i, ~ lo <= i < lo + n -> g i = f i.

Lemma same_but_refl lo n f : same_but lo n f f.
Proof. done. Qed.

Lemma same_but_trans lo n f g h : same_but lo n f g -> same_but lo n g h -> same_but lo n f h.
Proof. intros H1 H2 i Hi. by rewrite H2, H1. Qed.

Lemma same_but_sub lo n lo' n' f g : lo <= lo' -> lo' + n' <= lo + n -> same_but lo' n' f g -> same_but lo n f g.
Proof. intros H1 H2 H i Hi. apply H. lia. Qed.

Lemma erased_out f a n i : ~ a <= i < a + n -> erased f a n i = f i.
Proof. intros H. destruct n; cbn [erased]; [done|..]; by rewrite outside_spec. Qed.

Lemma erased_in f a n i : a <= i < a + n -> erased f a n i = 0xFF.
Proof. intros H. destruct n; cbn [erased]; [lia|..]; by rewrite (proj2 (inside_spec _ _ _)). Qed.

Lemma programmed_out f a l i : ~ a <= i < a + Z.of_nat (length l) -> programmed f a l i = f i.
Proof. intros H. destruct l; [done|]. unfold programmed. by rewrite outside_spec. Qed.

Lemma programmed_in f a l i : a <= i < a + Z.of_nat (length l) -> programmed f a l i = Z.land (f i) (nth (Z.to_nat (i - a)) l 0xFF).
Proof. intros H. destruct l; [cbn in H; lia|]. unfold programmed. by rewrite (proj2 (inside_spec _ _ _)). Qed.

Lemma programmed_same f a l n : Z.of_nat (length l) <= n -> same_but a n f (programmed f a l).
Proof. intros H i Hi. apply programmed_out. lia. Qed.

Lemma erased_same f a m n : m <= n -> same_but a n f (erased f a m).
Proof. intros H i Hi. apply erased_out. lia. Qed.

Lemma wpc_erase a off sz (Q : Z -> memory -> Prop) (C : memory -> Prop) f : is_area a -> 0 <= off -> 0 < sz -> off mod 4096 = 0 -> sz mod 4096 = 0 ->
  off + sz <= fa_size a -> (forall n, 0 <= n < sz -> C (erased f (fa_off a + off) n)) -> Q 0 (erased f (fa_off a + off) sz) ->
  wpc (flash_area_erase a off sz) Q C f.
Proof.
  intros Ha Ho Hs Hm Hn He HC HQ. unfold flash_area_erase, flash_erase. rewrite addr_of_eq, addr_valid by (done || lia). unfold CODEPAGESIZE.
  assert ((fa_off a + off) mod 4096 = 0) as -> by (destruct Ha as [-> | [-> | ->]]; cbn [fa_off image_0 image_1 scratch]; dlia).
  rewrite Hn. cbn [Z.eqb negb orb]. rewrite (proj2 (Z.eqb_neq _ 0)) by dlia. apply wpc_memory. apply wpc_change.
  - intros n Hnn. apply HC. dlia.
  - by replace (4 * (sz / 4)) with sz by dlia.
Qed.
