(* ===== verification/BootTrailer.v ===== *)
(** * bootutil_misc.c: the image trailer of the boot loader

    The magic, flags, swap size and status bytes at the end of a slot, the
    tables that turn them into the kind of swap that is due, and the two
    requests of an application.  Assertions are not compiled on this board
    and do nothing. *)
From Stdlib Require Import ZArith Lia Bool.
From stdpp Require Import base list numbers.
From S2P Require Import Prelude Flash.

Local Open Scope Z_scope.

Definition BOOT_EFLASH : Z := 1.
Definition BOOT_EBADIMAGE : Z := 3.
Definition BOOT_EBADVECT : Z := 4.
Definition BOOT_EBADARGS : Z := 7.

Definition BOOT_MAX_ALIGN : Z := 8.
Definition BOOT_MAGIC_SZ : Z := 16.
Definition BOOT_MAX_IMG_SECTORS : Z := 128.
Definition BOOT_STATUS_STATE_COUNT : Z := 3.
Definition BOOT_STATUS_MAX_ENTRIES : Z := BOOT_MAX_IMG_SECTORS.
Definition BOOT_FLAG_SET : Z := 0x01.
Definition BOOT_FLAG_UNSET : Z := 0xFF.

(** Little-endian numbers. *)
Definition le32 (x : Z) : list Z := [u8 x; u8 (x / 2 ^ 8); u8 (x / 2 ^ 16); u8 (x / 2 ^ 24)].
Definition le (l : list Z) : Z := foldr (fun b n => b + 256 * n) 0 l.

Definition boot_img_magic : list Z := flat_map le32 [0xf395c277; 0x7fefd260; 0x0f505235; 0x8079b62c].

(** BOOT_MAGIC_GOOD, BOOT_MAGIC_BAD, BOOT_MAGIC_UNSET *)
Inductive magic_code := GOOD | BAD | UNSET.
#[export] Instance magic_code_eq : EqDecision magic_code.
Proof. solve_decision. Defined.

Definition boot_magic_code (magic : list Z) : magic_code :=
  if bool_decide (magic = boot_img_magic) then GOOD
  else if forallb (fun b => b =? 0xFF) magic then UNSET
  else BAD.

(** ** Offsets *)

Definition boot_slots_trailer_sz (min_write_sz : Z) : Z :=
  BOOT_STATUS_MAX_ENTRIES * BOOT_STATUS_STATE_COUNT * min_write_sz + BOOT_MAX_ALIGN * 3 + BOOT_MAGIC_SZ.

Definition boot_scratch_trailer_sz (min_write_sz : Z) : Z :=
  BOOT_STATUS_STATE_COUNT * min_write_sz + BOOT_MAX_ALIGN * 2 + BOOT_MAGIC_SZ.

Definition is_scratch (a : flash_area) : bool := fa_id a =? FLASH_AREA_IMAGE_SCRATCH.

Definition boot_magic_off (a : flash_area) : Z := fa_size a - BOOT_MAGIC_SZ.

Definition boot_status_entries (a : flash_area) : Z :=
  if (fa_id a =? FLASH_AREA_IMAGE_0) || (fa_id a =? FLASH_AREA_IMAGE_1) then BOOT_STATUS_STATE_COUNT * BOOT_STATUS_MAX_ENTRIES
  else if is_scratch a then BOOT_STATUS_STATE_COUNT
  else BOOT_EBADARGS.

Definition boot_status_off (a : flash_area) : Z :=
  fa_size a - (if is_scratch a then boot_scratch_trailer_sz (flash_area_align a) else boot_slots_trailer_sz (flash_area_align a)).

Definition boot_copy_done_off (a : flash_area) : Z := fa_size a - BOOT_MAGIC_SZ - BOOT_MAX_ALIGN * 2.
Definition boot_image_ok_off (a : flash_area) : Z := fa_size a - BOOT_MAGIC_SZ - BOOT_MAX_ALIGN.

Definition boot_swap_size_off (a : flash_area) : Z :=
  if is_scratch a then fa_size a - BOOT_MAGIC_SZ - BOOT_MAX_ALIGN * 2 else fa_size a - BOOT_MAGIC_SZ - BOOT_MAX_ALIGN * 3.

(** ** Reading *)

(** [copy_done] is not read from the scratch area. *)
Record boot_swap_state := SwapState { magic : magic_code; copy_done : option Z; image_ok : Z }.

Definition boot_read_swap_state (f : memory) (a : flash_area) : option boot_swap_state :=
  m ← flash_area_read f a (boot_magic_off a) BOOT_MAGIC_SZ;
  c ← (if is_scratch a then Some None else c ← flash_area_read f a (boot_copy_done_off a) 1; Some (Some (le c)));
  o ← flash_area_read f a (boot_image_ok_off a) 1;
  Some (SwapState (boot_magic_code m) c (le o)).

Definition boot_read_swap_state_by_id (f : memory) (id : Z) : option boot_swap_state :=
  a ← flash_area_open id; boot_read_swap_state f a.

Definition boot_read_swap_size (f : memory) : option Z :=
  a0 ← flash_area_open FLASH_AREA_IMAGE_0;
  m ← flash_area_read f a0 (boot_magic_off a0) BOOT_MAGIC_SZ;
  a ← (if bool_decide (m = boot_img_magic) then Some a0
       else a ← flash_area_open FLASH_AREA_IMAGE_SCRATCH; _ ← flash_area_read f a (boot_magic_off a) BOOT_MAGIC_SZ; Some a);
  s ← flash_area_read f a (boot_swap_size_off a) 4;
  Some (le s).

(** ** Writing *)

(** A return code other than 0 of the driver is BOOT_EFLASH. *)
Definition or_eflash (m : B Z) : B Z := rc ← m; mret (if rc =? 0 then 0 else BOOT_EFLASH).

Definition boot_write_magic (a : flash_area) : B Z := or_eflash (flash_area_write a (boot_magic_off a) boot_img_magic).

Definition padded (l : list Z) : list Z := l ++ repeat 0xFF (Z.to_nat BOOT_MAX_ALIGN - length l).

Inductive boot_flag := BOOT_FLAG_COPY_DONE | BOOT_FLAG_IMAGE_OK.

Definition boot_write_flag (flag : boot_flag) (a : flash_area) : B Z :=
  let off := match flag with BOOT_FLAG_COPY_DONE => boot_copy_done_off a | BOOT_FLAG_IMAGE_OK => boot_image_ok_off a end in
  or_eflash (flash_area_write a off (take (Z.to_nat (flash_area_align a)) (padded [BOOT_FLAG_SET]))).

Definition boot_write_copy_done : flash_area -> B Z := boot_write_flag BOOT_FLAG_COPY_DONE.
Definition boot_write_image_ok : flash_area -> B Z := boot_write_flag BOOT_FLAG_IMAGE_OK.

Definition boot_write_swap_size (a : flash_area) (swap_size : Z) : B Z :=
  or_eflash (flash_area_write a (boot_swap_size_off a) (take (Z.to_nat (Z.max (flash_area_align a) 4)) (padded (le32 swap_size)))).

(** ** The kind of swap *)

Inductive swap_type := SWAP_NONE | SWAP_TEST | SWAP_PERM | SWAP_REVERT | SWAP_FAIL | SWAP_PANIC.
#[export] Instance swap_type_eq : EqDecision swap_type.
Proof. solve_decision. Defined.

(** [None] is any value. *)
Record boot_swap_table := SwapTable { magic_slot0 : option magic_code; magic_slot1 : option magic_code; image_ok_slot0 : option Z;
  image_ok_slot1 : option Z; copy_done_slot0 : option Z; swap_type_of : swap_type }.

Definition boot_swap_tables : list boot_swap_table :=
  [SwapTable None (Some GOOD) None (Some 0xFF) None SWAP_TEST;
   SwapTable None (Some GOOD) None (Some 0x01) None SWAP_PERM;
   SwapTable (Some GOOD) (Some UNSET) (Some 0xFF) None (Some 0x01) SWAP_REVERT].

Definition any_or {A} `{EqDecision A} (want : option A) (have : option A) : bool :=
  match want with None => true | Some x => bool_decide (have = Some x) end.

Definition swap_row_matches (s0 s1 : boot_swap_state) (t : boot_swap_table) : bool :=
  any_or (magic_slot0 t) (Some (magic s0)) && any_or (magic_slot1 t) (Some (magic s1)) && any_or (image_ok_slot0 t) (Some (image_ok s0)) &&
  any_or (image_ok_slot1 t) (Some (image_ok s1)) && any_or (copy_done_slot0 t) (copy_done s0).

Definition boot_swap_type (f : memory) : swap_type :=
  match boot_read_swap_state_by_id f FLASH_AREA_IMAGE_0, boot_read_swap_state_by_id f FLASH_AREA_IMAGE_1 with
  | Some s0, Some s1 => match List.find (swap_row_matches s0 s1) boot_swap_tables with Some t => swap_type_of t | None => SWAP_NONE end
  | _, _ => SWAP_PANIC
  end.

(** ** Requests of the application *)

Definition boot_set_pending (permanent : bool) : B Z :=
  f ← memory_now;
  match boot_read_swap_state_by_id f FLASH_AREA_IMAGE_1 with
  | None => mret BOOT_EFLASH
  | Some s =>
      match magic s with
      | GOOD => mret 0
      | UNSET =>
          match flash_area_open FLASH_AREA_IMAGE_1 with
          | None => mret BOOT_EFLASH
          | Some a => rc ← boot_write_magic a; if (rc =? 0) && permanent then boot_write_image_ok a else mret rc
          end
      | BAD => mret (-1)
      end
  end.

Definition boot_set_confirmed : B Z :=
  f ← memory_now;
  match boot_read_swap_state_by_id f FLASH_AREA_IMAGE_0 with
  | None => mret BOOT_EFLASH
  | Some s =>
      match magic s with
      | UNSET => mret 0
      | BAD => mret BOOT_EBADVECT
      | GOOD =>
          if bool_decide (copy_done s = Some BOOT_FLAG_UNSET) then mret BOOT_EBADVECT
          else if negb (image_ok s =? BOOT_FLAG_UNSET) then mret 0
          else match flash_area_open FLASH_AREA_IMAGE_0 with None => mret BOOT_EFLASH | Some a => boot_write_image_ok a end
      end
  end.
