(* ===== verification/BootImage.v ===== *)
(** * image.h, image_validate.c: signed images of the BLE module

    The header, the TLV area behind the image and [bootutil_img_validate].
    SHA-256, the RSA check and the built-in keys are a parameter. *)
From Stdlib Require Import ZArith Lia Bool.
From stdpp Require Import base list numbers.
From S2P Require Import Prelude Flash BootTrailer.

Local Open Scope Z_scope.

Definition IMAGE_MAGIC : Z := 0x96f3b83d.
Definition IMAGE_MAGIC_NONE : Z := 0xffffffff.
Definition IMAGE_TLV_INFO_MAGIC : Z := 0x6907.
Definition IMAGE_HEADER_SIZE : Z := 32.
Definition IMAGE_F_NON_BOOTABLE : Z := 0x10.
Definition IMAGE_TLV_KEYHASH : Z := 0x01.
Definition IMAGE_TLV_SHA256 : Z := 0x10.
Definition IMAGE_TLV_RSA2048_PSS : Z := 0x20.

Record image_version := ImageVersion { iv_major : Z; iv_minor : Z; iv_revision : Z; iv_build_num : Z }.
Record image_header := ImageHeader { ih_magic : Z; ih_load_addr : Z; ih_hdr_size : Z; ih_img_size : Z; ih_flags : Z; ih_ver : image_version }.

(** The field of [n] bytes at [k]. *)
Definition field (k n : nat) (l : list Z) : Z := le (take n (drop k l)).

Definition parse_header (l : list Z) : image_header :=
  ImageHeader (field 0 4 l) (field 4 4 l) (field 8 2 l) (field 12 4 l) (field 16 4 l)
    (ImageVersion (field 20 1 l) (field 21 1 l) (field 22 2 l) (field 24 4 l)).

(** Keys and cryptography of the boot loader; [bootutil_verify_sig] tells whether it returns 0. *)
Class BootCrypto := {
  boot_sha256 : list Z -> list Z;
  bootutil_keys : list (list Z);
  bootutil_verify_sig : list Z -> list Z -> Z -> bool }.

Section Validate.
Context {Cr : BootCrypto}.

(** The bytes hashed, read in blocks of [tmp_buf_sz]. *)
Fixpoint hash_loop (fuel : nat) (f : memory) (a : flash_area) (tmp_buf_sz off size : Z) : option (list Z) :=
  if negb (off <? size) then Some []
  else match fuel with
  | O => None
  | S fuel' =>
      let blk_sz := Z.min (size - off) tmp_buf_sz in
      b ← flash_area_read f a off blk_sz;
      rest ← hash_loop fuel' f a tmp_buf_sz (off + blk_sz) size;
      Some (b ++ rest)
  end.

Definition bootutil_img_hash (f : memory) (hdr : image_header) (a : flash_area) (tmp_buf_sz : Z) (seed : list Z) : option (list Z) :=
  let size := u32 (ih_img_size hdr + ih_hdr_size hdr) in
  boot_sha256 <$> ((fun b => seed ++ b) <$> hash_loop (Z.to_nat (Z.min size (CODEPAGESIZE * CODESIZE) / tmp_buf_sz + 1)) f a tmp_buf_sz 0 size).

(** The index of the first key whose hash starts with [keyhash]. *)
Fixpoint find_key (keys : list (list Z)) (i : Z) (keyhash : list Z) : Z :=
  match keys with
  | [] => -1
  | key :: keys' => if bool_decide (take (length keyhash) (boot_sha256 key) = keyhash) then i else find_key keys' (i + 1) keyhash
  end.
Definition bootutil_find_key : list Z -> Z := find_key bootutil_keys 0.

(** The loop over the TLVs; [None] if the fuel does not suffice. *)
Fixpoint tlv_loop (fuel : nat) (f : memory) (a : flash_area) (hash : list Z) (off end_ : Z) (sha256_valid valid_signature : bool) (key_id : Z) : option Z :=
  if negb (off <? end_) then Some (if sha256_valid && valid_signature then 0 else -1)
  else match fuel with
  | O => None
  | S fuel' =>
      match flash_area_read f a off 4 with
      | None => Some EINVAL_RC
      | Some tlv =>
          let it_type := field 0 1 tlv in
          let it_len := field 2 2 tlv in
          let data := u32 (off + 4) in
          let next := u32 (off + 4 + it_len) in
          if it_type =? IMAGE_TLV_SHA256 then
            if negb (it_len =? 32) then Some (-1)
            else match flash_area_read f a data 32 with
                 | None => Some EINVAL_RC
                 | Some buf => if bool_decide (hash = buf) then tlv_loop fuel' f a hash next end_ true valid_signature key_id else Some (-1)
                 end
          else if it_type =? IMAGE_TLV_KEYHASH then
            if 32 <? it_len then Some (-1)
            else match flash_area_read f a data it_len with
                 | None => Some EINVAL_RC
                 | Some buf => tlv_loop fuel' f a hash next end_ sha256_valid valid_signature (bootutil_find_key buf)
                 end
          else if it_type =? IMAGE_TLV_RSA2048_PSS then
            if (key_id <? 0) || (Z.of_nat (length bootutil_keys) <=? key_id) then tlv_loop fuel' f a hash next end_ sha256_valid valid_signature (-1)
            else if negb (it_len =? 256) then Some (-1)
            else match flash_area_read f a data it_len with
                 | None => Some (-1)
                 | Some buf => tlv_loop fuel' f a hash next end_ sha256_valid (valid_signature || bootutil_verify_sig hash buf key_id) (-1)
                 end
          else tlv_loop fuel' f a hash next end_ sha256_valid valid_signature key_id
      end
  end.

(** The return code; 0 for a valid image. *)
Definition bootutil_img_validate (f : memory) (hdr : image_header) (a : flash_area) (tmp_buf_sz : Z) (seed : list Z) : option Z :=
  match bootutil_img_hash f hdr a tmp_buf_sz seed with
  | None => Some EINVAL_RC
  | Some hash =>
      let off := u32 (ih_img_size hdr + ih_hdr_size hdr) in
      match flash_area_read f a off 4 with
      | None => Some EINVAL_RC
      | Some info =>
          if negb (field 0 2 info =? IMAGE_TLV_INFO_MAGIC) then Some (-1)
          else
            let tot := field 2 2 info in
            tlv_loop (Z.to_nat (tot / 4 + 1)) f a hash (u32 (off + 4)) (u32 (off + tot)) false false (-1)
      end
  end.

End Validate.
