(* ===== verification/BootLoader.v ===== *)
(** * loader.c: the boot loader of the BLE module

    The status of an interrupted swap, the swap of the two slots through the
    scratch area, and [boot_go], as configured for this board: swapping,
    validation of slot 0, assertions off.  The globals are the headers and
    sectors of [boot_data]; the count of failed status writes is only logged. *)
From Stdlib Require Import ZArith Lia Bool.
From stdpp Require Import base list numbers.
From S2P Require Import Prelude Flash BootTrailer BootImage.

Local Open Scope Z_scope.

Definition BOOT_NUM_SLOTS : Z := 2.
Definition BOOT_TMPBUF_SZ : Z := 256.

Record boot_status := BootStatus { bs_idx : Z; bs_state : Z; bs_use_scratch : bool; bs_swap_size : Z }.
Definition boot_status_zero : boot_status := BootStatus 0 0 false 0.

Record slot_data := SlotData { hdr : image_header; sectors : list (Z * Z) }.
Record boot_data := BootData { img0 : slot_data; img1 : slot_data; write_sz : Z }.
Definition img (d : boot_data) (slot : Z) : slot_data := if slot =? 0 then img0 d else img1 d.

Definition boot_img_hdr (d : boot_data) (slot : Z) : image_header := hdr (img d slot).
Definition boot_img_num_sectors (d : boot_data) (slot : Z) : Z := Z.of_nat (length (sectors (img d slot))).
Definition sector (d : boot_data) (slot i : Z) : Z * Z := nth (Z.to_nat i) (sectors (img d slot)) (0, 0).
Definition boot_img_sector_size (d : boot_data) (slot i : Z) : Z := snd (sector d slot i).
Definition boot_img_sector_off (d : boot_data) (slot i : Z) : Z := fst (sector d slot i) - fst (sector d slot 0).
Definition boot_scratch_area_size : Z := fa_size scratch.

(** ** Where the status is *)

Inductive status_source := SOURCE_NONE | SOURCE_SCRATCH | SOURCE_SLOT0.
Record boot_status_table := StatusTable { bst_magic_slot0 : option magic_code; bst_magic_scratch : option magic_code;
  bst_copy_done_slot0 : option Z; bst_status_source : status_source }.

Definition boot_status_tables : list boot_status_table :=
  [StatusTable (Some GOOD) None (Some 0x01) SOURCE_NONE;
   StatusTable (Some GOOD) None (Some 0xFF) SOURCE_SLOT0;
   StatusTable None (Some GOOD) None SOURCE_SCRATCH;
   StatusTable (Some UNSET) None (Some 0xFF) SOURCE_SLOT0].

Definition status_row_matches (s0 sc : boot_swap_state) (t : boot_status_table) : bool :=
  any_or (bst_magic_slot0 t) (Some (magic s0)) && any_or (bst_magic_scratch t) (Some (magic sc)) && any_or (bst_copy_done_slot0 t) (copy_done s0).

Definition status_source_of (s0 sc : boot_swap_state) : status_source :=
  match List.find (status_row_matches s0 sc) boot_status_tables with Some t => bst_status_source t | None => SOURCE_NONE end.

(** [None] if a trailer cannot be read. *)
Definition boot_status_source (f : memory) : option status_source :=
  s0 ← boot_read_swap_state_by_id f FLASH_AREA_IMAGE_0;
  sc ← boot_read_swap_state_by_id f FLASH_AREA_IMAGE_SCRATCH;
  Some (status_source_of s0 sc).

Definition boot_previous_swap_type (f : memory) : swap_type :=
  match boot_swap_type f with SWAP_NONE => SWAP_PERM | SWAP_REVERT => SWAP_TEST | SWAP_PANIC => SWAP_PANIC | _ => SWAP_FAIL end.

(** ** Headers and sectors *)

(** [inl rc] on an error. *)
Definition boot_read_image_size (f : memory) (slot : Z) (h : image_header) : Z + Z :=
  match flash_area_open (flash_area_id_from_image_slot slot) with
  | None => inl BOOT_EFLASH
  | Some a =>
      match flash_area_read f a (u32 (ih_hdr_size h + ih_img_size h)) 4 with
      | None => inl BOOT_EFLASH
      | Some info =>
          if negb (field 0 2 info =? IMAGE_TLV_INFO_MAGIC) then inl BOOT_EBADIMAGE
          else inr (u32 (ih_hdr_size h + ih_img_size h + field 2 2 info))
      end
  end.

Definition boot_read_image_header (f : memory) (slot : Z) : option image_header :=
  a ← flash_area_open (flash_area_id_from_image_slot slot);
  parse_header <$> flash_area_read f a 0 IMAGE_HEADER_SIZE.

Definition with_hdrs (h0 h1 : image_header) (d : boot_data) : boot_data :=
  BootData (SlotData h0 (sectors (img0 d))) (SlotData h1 (sectors (img1 d))) (write_sz d).

(** [boot_read_image_headers(false)]: the return code and the data. *)
Definition boot_read_image_headers (f : memory) (d : boot_data) : Z * boot_data :=
  match boot_read_image_header f 0 with
  | None => (BOOT_EFLASH, d)
  | Some h0 =>
      match boot_read_image_header f 1 with
      | None => (0, with_hdrs h0 (hdr (img1 d)) d)
      | Some h1 => (0, with_hdrs h0 h1 d)
      end
  end.

Definition boot_write_sz : Z :=
  let elem_sz := hal_flash_align (fa_id image_0) in
  let align := hal_flash_align (fa_id scratch) in
  if elem_sz <? align then align else elem_sz.

Definition boot_slots_compatible (d : boot_data) : bool :=
  let n0 := boot_img_num_sectors d 0 in
  let n1 := boot_img_num_sectors d 1 in
  negb ((BOOT_MAX_IMG_SECTORS <? n0) || (BOOT_MAX_IMG_SECTORS <? n1)) && (n0 =? n1) &&
  forallb (fun i => boot_img_sector_size d 0 (Z.of_nat i) =? boot_img_sector_size d 1 (Z.of_nat i)) (seq 0 (Z.to_nat n0)).

Definition no_header : image_header := ImageHeader 0 0 0 0 0 (ImageVersion 0 0 0 0).

(** [None] is BOOT_EFLASH. *)
Definition boot_read_sectors : option boot_data :=
  s0 ← flash_area_get_sectors FLASH_AREA_IMAGE_0 (Z.to_nat BOOT_MAX_IMG_SECTORS);
  s1 ← flash_area_get_sectors FLASH_AREA_IMAGE_1 (Z.to_nat BOOT_MAX_IMG_SECTORS);
  Some (BootData (SlotData no_header s0) (SlotData no_header s1) boot_write_sz).

(** ** Status bytes *)

Definition boot_status_internal_off (idx state elem_sz : Z) : Z := idx * (elem_sz * BOOT_STATUS_STATE_COUNT) + state * elem_sz.

(** The loop over the status bytes from entry [i] on: [found], [found_idx] and [i] at its end; [None] on a failed read. *)
Fixpoint status_loop (n : nat) (f : memory) (a : flash_area) (wsz off i : Z) (found : bool) (found_idx : Z) : option (bool * Z * Z) :=
  match n with
  | O => Some (found, found_idx, i)
  | S n' =>
      status ← flash_area_read f a (off + i * wsz) 1;
      if le status =? 0xFF then status_loop n' f a wsz off (i + 1) found (if found && (found_idx =? 0) then i else found_idx)
      else if negb found then status_loop n' f a wsz off (i + 1) true found_idx
      else if negb (found_idx =? 0) then Some (found, found_idx, i)
      else status_loop n' f a wsz off (i + 1) found found_idx
  end.

Definition boot_read_status_bytes (f : memory) (a : flash_area) (wsz : Z) (bs : boot_status) : option boot_status :=
  '(found, found_idx, i) ← status_loop (Z.to_nat (boot_status_entries a)) f a wsz (boot_status_off a) 0 false 0;
  Some (if found : bool then
          let found_idx := (if found_idx =? 0 then i else found_idx) - 1 in
          BootStatus (found_idx / BOOT_STATUS_STATE_COUNT) (found_idx mod BOOT_STATUS_STATE_COUNT) (bs_use_scratch bs) (bs_swap_size bs)
        else bs).

(** [None] on an error. *)
Definition boot_read_status (f : memory) (wsz : Z) : option boot_status :=
  source ← boot_status_source f;
  match source with
  | SOURCE_NONE => Some boot_status_zero
  | SOURCE_SCRATCH => a ← flash_area_open FLASH_AREA_IMAGE_SCRATCH; boot_read_status_bytes f a wsz boot_status_zero
  | SOURCE_SLOT0 => a ← flash_area_open FLASH_AREA_IMAGE_0; boot_read_status_bytes f a wsz boot_status_zero
  end.

Definition boot_write_status (d : boot_data) (bs : boot_status) : B Z :=
  match flash_area_open (if bs_use_scratch bs then FLASH_AREA_IMAGE_SCRATCH else FLASH_AREA_IMAGE_0) with
  | None => mret BOOT_EFLASH
  | Some a =>
      let off := boot_status_off a + boot_status_internal_off (bs_idx bs) (bs_state bs) (write_sz d) in
      or_eflash (flash_area_write a off (take (Z.to_nat (flash_area_align a)) (padded [bs_state bs])))
  end.

(** ** Erasing and copying *)

Definition boot_erase_sector (id off sz : Z) : B Z :=
  match flash_area_open id with None => mret BOOT_EFLASH | Some a => or_eflash (flash_area_erase a off sz) end.

Definition COPY_BUF : Z := 1024.

(** [n] bytes are left to copy. *)
Fixpoint copy_loop (fuel : nat) (src dst : flash_area) (off_src off_dst n : Z) : B Z :=
  if n <=? 0 then mret 0
  else match fuel with
  | O => hang
  | S fuel' =>
      let chunk_sz := Z.min n COPY_BUF in
      f ← memory_now;
      match flash_area_read f src off_src chunk_sz with
      | None => mret BOOT_EFLASH
      | Some buf =>
          rc ← flash_area_write dst off_dst buf;
          if negb (rc =? 0) then mret BOOT_EFLASH else copy_loop fuel' src dst (off_src + chunk_sz) (off_dst + chunk_sz) (n - chunk_sz)
      end
  end.

Definition boot_copy_sector (id_src id_dst off_src off_dst sz : Z) : B Z :=
  match flash_area_open id_src, flash_area_open id_dst with
  | Some src, Some dst => copy_loop (Z.to_nat (sz / COPY_BUF + 1)) src dst off_src off_dst sz
  | _, _ => mret BOOT_EFLASH
  end.

(** The image flag and swap size, then the magic, of a trailer that takes over the status. *)
Definition init_trailer (a : flash_area) (image_ok : Z) (swap_size : Z) : B unit :=
  _ ← (if image_ok =? BOOT_FLAG_SET then boot_write_image_ok a else mret 0);
  _ ← boot_write_swap_size a swap_size;
  _ ← boot_write_magic a;
  mret tt.

Definition boot_status_init_by_id (id : Z) (bs : boot_status) : B unit :=
  f ← memory_now;
  match flash_area_open id, boot_read_swap_state_by_id f FLASH_AREA_IMAGE_1 with
  | Some a, Some s => init_trailer a (image_ok s) (bs_swap_size bs)
  | _, _ => mret tt
  end.

Definition boot_erase_last_sector_by_id (d : boot_data) (id : Z) : B Z :=
  let erase slot :=
    let last_sector := boot_img_num_sectors d slot - 1 in
    boot_erase_sector id (boot_img_sector_off d slot last_sector) (boot_img_sector_size d slot last_sector) in
  if id =? FLASH_AREA_IMAGE_0 then erase 0 else if id =? FLASH_AREA_IMAGE_1 then erase 1 else mret BOOT_EFLASH.

(** ** Swapping *)

(** The first sector that fits and the size; [i] is one above the sector looked at. *)
Fixpoint copy_sz_loop (d : boot_data) (i : nat) (sz : Z) : Z * Z :=
  match i with
  | O => (0, sz)
  | S i' =>
      let new_sz := sz + boot_img_sector_size d 0 (Z.of_nat i') in
      if boot_scratch_area_size <? new_sz then (Z.of_nat i, sz) else copy_sz_loop d i' new_sz
  end.
Definition boot_copy_sz (d : boot_data) (last_sector_idx : Z) : Z * Z := copy_sz_loop d (Z.to_nat (last_sector_idx + 1)) 0.

Definition with_state (bs : boot_status) (idx state : Z) (use : bool) : boot_status := BootStatus idx state use (bs_swap_size bs).

(** State 0: slot 1 to scratch, and the place of the status if this is the first step. *)
Definition swap_state_0 (d : boot_data) (img_off sz copy_sz : Z) (bs : boot_status) : B boot_status :=
  _ ← boot_erase_sector FLASH_AREA_IMAGE_SCRATCH 0 sz;
  _ ← boot_copy_sector FLASH_AREA_IMAGE_1 FLASH_AREA_IMAGE_SCRATCH img_off 0 copy_sz;
  _ ← (if bs_idx bs =? 0 then
         if bs_use_scratch bs then boot_status_init_by_id FLASH_AREA_IMAGE_SCRATCH bs
         else _ ← boot_erase_last_sector_by_id d FLASH_AREA_IMAGE_0; boot_status_init_by_id FLASH_AREA_IMAGE_0 bs
       else mret tt);
  let bs := with_state bs (bs_idx bs) 1 (bs_use_scratch bs) in
  _ ← boot_write_status d bs;
  mret bs.

(** State 1: slot 0 to slot 1. *)
Definition swap_state_1 (d : boot_data) (img_off sz copy_sz : Z) (bs : boot_status) : B boot_status :=
  _ ← boot_erase_sector FLASH_AREA_IMAGE_1 img_off sz;
  _ ← boot_copy_sector FLASH_AREA_IMAGE_0 FLASH_AREA_IMAGE_1 img_off img_off copy_sz;
  _ ← (if (bs_idx bs =? 0) && negb (bs_use_scratch bs) then boot_erase_last_sector_by_id d FLASH_AREA_IMAGE_1 else mret 0);
  let bs := with_state bs (bs_idx bs) 2 (bs_use_scratch bs) in
  _ ← boot_write_status d bs;
  mret bs.

(** The trailer goes from scratch to slot 0 with the first step. *)
Definition move_trailer (d : boot_data) (img_off copy_sz : Z) (bs : boot_status) : B unit :=
  match flash_area_open FLASH_AREA_IMAGE_SCRATCH, flash_area_open FLASH_AREA_IMAGE_0 with
  | Some sc, Some a =>
      _ ← boot_copy_sector FLASH_AREA_IMAGE_SCRATCH FLASH_AREA_IMAGE_0 (boot_status_off sc) (img_off + copy_sz)
            (BOOT_STATUS_STATE_COUNT * write_sz d);
      f ← memory_now;
      match boot_read_swap_state_by_id f FLASH_AREA_IMAGE_SCRATCH with
      | Some s => init_trailer a (image_ok s) (bs_swap_size bs)
      | None => mret tt
      end
  | _, _ => mret tt
  end.

(** State 2: scratch to slot 0. *)
Definition swap_state_2 (d : boot_data) (img_off sz copy_sz : Z) (bs : boot_status) : B boot_status :=
  _ ← boot_erase_sector FLASH_AREA_IMAGE_0 img_off sz;
  _ ← boot_copy_sector FLASH_AREA_IMAGE_SCRATCH FLASH_AREA_IMAGE_0 0 img_off copy_sz;
  _ ← (if bs_use_scratch bs then move_trailer d img_off copy_sz bs else mret tt);
  let bs := with_state bs (bs_idx bs + 1) 0 false in
  _ ← boot_write_status d bs;
  mret bs.

Definition boot_swap_sectors (d : boot_data) (idx sz : Z) (bs : boot_status) : B boot_status :=
  let img_off := boot_img_sector_off d 0 idx in
  let last_sector := boot_img_num_sectors d 0 - 1 in
  let copy_sz := if boot_img_sector_off d 0 last_sector <? img_off + sz then sz - boot_slots_trailer_sz (write_sz d) else sz in
  let bs := with_state bs (bs_idx bs) (bs_state bs) ((bs_idx bs =? 0) && negb (copy_sz =? sz)) in
  bs ← (if bs_state bs =? 0 then swap_state_0 d img_off sz copy_sz bs else mret bs);
  bs ← (if bs_state bs =? 1 then swap_state_1 d img_off sz copy_sz bs else mret bs);
  if bs_state bs =? 2 then swap_state_2 d img_off sz copy_sz bs else mret bs.

(** The index of the sector that ends the copy; [None] if the slot is too small. *)
Fixpoint last_sector_loop (l : list (Z * Z)) (size copy_size idx : Z) : option Z :=
  match l with
  | [] => None
  | (_, sz) :: l' => let size := size + sz in if copy_size <=? size then Some idx else last_sector_loop l' size copy_size (idx + 1)
  end.

Fixpoint swap_loop (fuel : nat) (d : boot_data) (last_sector_idx swap_idx : Z) (bs : boot_status) : B boot_status :=
  if last_sector_idx <? 0 then mret bs
  else match fuel with
  | O => hang
  | S fuel' =>
      let '(first, sz) := boot_copy_sz d last_sector_idx in
      bs ← (if bs_idx bs <=? swap_idx then boot_swap_sectors d first sz bs else mret bs);
      swap_loop fuel' d (first - 1) (swap_idx + 1) bs
  end.

Definition size_or_zero (r : Z + Z) : Z := match r with inl _ => 0 | inr n => n end.

Definition image_extent (f : memory) (d : boot_data) (slot : Z) : Z :=
  if ih_magic (boot_img_hdr d slot) =? IMAGE_MAGIC then size_or_zero (boot_read_image_size f slot (boot_img_hdr d slot)) else 0.

Definition boot_copy_image (d : boot_data) (bs : boot_status) : B Z :=
  f ← memory_now;
  let swap_size :=
    if (bs_idx bs =? 0) && (bs_state bs =? 0) then Z.max (image_extent f d 0) (image_extent f d 1)
    else default (bs_swap_size bs) (boot_read_swap_size f) in
  let bs := BootStatus (bs_idx bs) (bs_state bs) (bs_use_scratch bs) swap_size in
  match last_sector_loop (sectors (img0 d)) 0 swap_size 0 with
  | None => wild
  | Some last => _ ← swap_loop (S (length (sectors (img0 d)))) d last 0 bs; mret 0
  end.

(** ** Marks *)

Definition boot_set_copy_done : B Z :=
  match flash_area_open FLASH_AREA_IMAGE_0 with None => mret BOOT_EFLASH | Some a => boot_write_copy_done a end.

Definition boot_set_image_ok : B Z :=
  match flash_area_open FLASH_AREA_IMAGE_0 with
  | None => mret BOOT_EFLASH
  | Some a =>
      f ← memory_now;
      match boot_read_swap_state f a with
      | None => mret BOOT_EFLASH
      | Some s => if image_ok s =? BOOT_FLAG_UNSET then boot_write_image_ok a else mret 0
      end
  end.

(** ** Booting *)

Section Boot.
Context {Cr : BootCrypto}.

Definition boot_image_check (f : memory) (h : image_header) (a : flash_area) : Z :=
  match bootutil_img_validate f h a BOOT_TMPBUF_SZ [] with Some 0 => 0 | _ => BOOT_EBADIMAGE end.

Definition boot_validate_slot (d : boot_data) (slot : Z) : B Z :=
  let h := boot_img_hdr d slot in
  if (ih_magic h =? IMAGE_MAGIC_NONE) || negb (Z.land (ih_flags h) IMAGE_F_NON_BOOTABLE =? 0) then mret (-1)
  else match flash_area_open (flash_area_id_from_image_slot slot) with
  | None => mret BOOT_EFLASH
  | Some a =>
      f ← memory_now;
      if negb (ih_magic h =? IMAGE_MAGIC) || negb (boot_image_check f h a =? 0) then
        _ ← (if negb (slot =? 0) then flash_area_erase a 0 (fa_size a) else mret 0);
        mret (-1)
      else mret 0
  end.

Definition boot_validated_swap_type (d : boot_data) : B swap_type :=
  f ← memory_now;
  match boot_swap_type f with
  | SWAP_TEST | SWAP_PERM | SWAP_REVERT =>
      rc ← boot_validate_slot d 1;
      mret (if negb (rc =? 0) then SWAP_FAIL else boot_swap_type f)
  | t => mret t
  end.

(** The kind of swap, or an error code. *)
Definition boot_swap_if_needed (d : boot_data) : B (Z + swap_type) :=
  f ← memory_now;
  match boot_read_status f (write_sz d) with
  | None => mret (inl BOOT_EFLASH)
  | Some bs =>
      if negb (bs_idx bs =? 0) || negb (bs_state bs =? 0) then
        _ ← boot_copy_image d bs;
        f ← memory_now;
        mret (inr (boot_previous_swap_type f))
      else
        t ← boot_validated_swap_type d;
        _ ← (match t with SWAP_TEST | SWAP_PERM | SWAP_REVERT => boot_copy_image d bs | _ => mret 0 end);
        mret (inr t)
  end.

Record boot_rsp := BootRsp { br_hdr : image_header; br_image_off : Z }.

(** After the swap: the marks, and whether the headers are to be read again; [None] is a panic. *)
Definition boot_finish_swap (t : swap_type) : B (option bool) :=
  rc ← (match t with SWAP_REVERT | SWAP_FAIL => boot_set_image_ok | _ => mret 0 end);
  match (if negb (rc =? 0) then SWAP_PANIC else t) with
  | SWAP_NONE => mret (Some false)
  | SWAP_TEST | SWAP_PERM | SWAP_REVERT => rc ← boot_set_copy_done; mret (if negb (rc =? 0) then None else Some true)
  | SWAP_FAIL => mret (Some true)
  | SWAP_PANIC => mret None
  end.

(** The last part of [boot_go]: slot 0 is validated and its header returned. *)
Definition boot_response (d : boot_data) (reload_headers : bool) : B (Z * option boot_rsp) :=
  f ← memory_now;
  let '(rc, d) := if reload_headers then boot_read_image_headers f d else (0, d) in
  if negb (rc =? 0) then mret (rc, None)
  else
    rc ← boot_validate_slot d 0;
    mret (if negb (rc =? 0) then (BOOT_EBADIMAGE, None) else (0, Some (BootRsp (boot_img_hdr d 0) (fa_off image_0)))).

Definition boot_go : B (Z * option boot_rsp) :=
  f ← memory_now;
  match boot_read_sectors with
  | None => mret (BOOT_EFLASH, None)
  | Some d =>
      let '(rc, d) := boot_read_image_headers f d in
      if negb (rc =? 0) then mret (rc, None)
      else
        r ← (if boot_slots_compatible d then
               t ← boot_swap_if_needed d;
               match t with inl rc => mret (inl rc) | inr t => p ← boot_finish_swap t; mret (inr p) end
             else mret (inr (Some false)));
        match r with
        | inl rc => mret (rc, None)
        | inr None => hang
        | inr (Some reload) => boot_response d reload
        end
  end.

End Boot.
