(* ===== verification/BootSwap.v ===== *)
(** * The image swap of the BLE module survives power failures

    Correctness of the swap of loader.c under power failures: whatever the
    moments at which the power fails, the boot that is not interrupted ends
    with the two images exchanged and the new one validated and started.
    Then the failures the boot loader does not survive. *)
From Stdlib Require Import ZArith Lia Bool.
From stdpp Require Import base list numbers sets.
From S2P Require Import Prelude Flash BootTrailer BootImage BootLoader.

Local Open Scope Z_scope.

(** ** Steps of the loader *)

Lemma wpc_or_eflash (m : B Z) (Q : Z -> memory -> Prop) C f : wpc m (fun rc g => rc = 0 /\ Q 0 g) C f -> wpc (or_eflash m) Q C f.
Proof.
  intros H. apply wpc_bind. eapply wpc_mono; [exact H| |done]. intros rc g [-> HQ]. by apply wpc_ret.
Qed.

Lemma area_open a : is_area a -> flash_area_open (fa_id a) = Some a.
Proof. by intros [-> | [-> | ->]]. Qed.

Lemma wpc_erase_sector a off sz (Q : Z -> memory -> Prop) (C : memory -> Prop) f : is_area a -> 0 <= off -> 0 < sz -> off mod 4096 = 0 -> sz mod 4096 = 0 ->
  off + sz <= fa_size a -> good f ->
  (forall n, 0 <= n < sz -> C (erased f (fa_off a + off) n)) ->
  (forall g, good g -> same_but (fa_off a + off) sz f g -> (forall i, 0 <= i < sz -> g (fa_off a + off + i) = 0xFF) -> Q 0 g) ->
  wpc (boot_erase_sector (fa_id a) off sz) Q C f.
Proof.
  intros Ha Ho Hs Hm Hn He Hg HC HQ. unfold boot_erase_sector. rewrite area_open by done. apply wpc_or_eflash. apply wpc_erase; try done.
  split; [done|]. apply HQ; [by apply good_erased|by apply erased_same|]. intros i Hi. apply erased_in. lia.
Qed.

(** Every byte of the [n] at [b] is erased or as in [f0] at [a]. *)
Definition mixed (a b n : Z) (f0 g : memory) : Prop := forall i, 0 <= i < n -> g (b + i) = 0xFF \/ g (b + i) = f0 (a + i).

(** Copying to an erased region. *)
Lemma wpc_copy_loop fuel src dst (C : memory -> Prop) (f0 : memory) a b sz : is_area src -> is_area dst -> 0 <= a -> 0 <= b ->
  a + sz <= fa_size src -> b + sz <= fa_size dst ->
  (forall i j, 0 <= i < sz -> 0 <= j < sz -> fa_off src + a + i <> fa_off dst + b + j) ->
  (forall g, good g -> same_but (fa_off dst + b) sz f0 g -> mixed (fa_off src + a) (fa_off dst + b) sz f0 g -> C g) ->
  forall k f, 0 <= k <= sz -> sz - k <= 1024 * Z.of_nat fuel -> good f -> same_but (fa_off dst + b) sz f0 f ->
  (forall i, 0 <= i < k -> f (fa_off dst + b + i) = f0 (fa_off src + a + i)) ->
  (forall i, k <= i < sz -> f (fa_off dst + b + i) = 0xFF) ->
  wpc (copy_loop fuel src dst (a + k) (b + k) (sz - k))
    (fun rc g => rc = 0 /\ good g /\ same_but (fa_off dst + b) sz f0 g /\ forall i, 0 <= i < sz -> g (fa_off dst + b + i) = f0 (fa_off src + a + i)) C f.
Proof.
  intros Hs Hd Ha Hb Has Hbs Hdis HC. induction fuel as [|fuel IH]; intros k f Hk Hf Hg Hsb Hin Hout; cbn [copy_loop].
  { assert (k = sz) as -> by lia. replace (sz - sz <=? 0) with true by (symmetry; apply Z.leb_le; lia). by apply wpc_ret. }
  destruct (sz - k <=? 0) eqn:E; to_prop.
  { assert (k = sz) as -> by lia. by apply wpc_ret. }
  set (c := Z.min (sz - k) COPY_BUF). assert (0 < c <= sz - k /\ c <= 1024) as [Hc Hc'] by (unfold c, COPY_BUF; lia).
  apply wpc_memory. rewrite area_read by (done || lia). set (buf := bytes_at f (fa_off src + (a + k)) c).
  assert (length buf = Z.to_nat c) as Hl by apply bytes_at_length.
  assert (Forall is_byte buf) as Hbuf by (by apply bytes_at_good).
  (** after [n] bytes of the buffer *)
  assert (forall n, (n <= length buf)%nat -> let g := programmed f (fa_off dst + (b + k)) (take n buf) in good g /\ same_but (fa_off dst + b) sz f0 g /\
    (forall i, 0 <= i < k + Z.of_nat n -> g (fa_off dst + b + i) = f0 (fa_off src + a + i)) /\ forall i, k + Z.of_nat n <= i < sz -> g (fa_off dst + b + i) = 0xFF) as Hpart.
  { intros n Hn. assert (length (take n buf) = n) as Hn' by (rewrite length_take; lia). split_and!.
    - apply good_programmed; [done|by apply Forall_take].
    - eapply same_but_trans; [exact Hsb|]. eapply same_but_sub; [| |apply (programmed_same _ _ _ c)]; lia.
    - intros i Hi. destruct (decide (i < k)); [rewrite programmed_out by lia; apply Hin; lia|].
      rewrite programmed_in, Hout by lia. rewrite nth_lookup, lookup_take_lt, <- nth_lookup by lia. unfold buf. rewrite bytes_at_nth by lia. rewrite land_ff by apply Hg.
      replace (fa_off src + (a + k) + Z.of_nat (Z.to_nat (fa_off dst + b + i - (fa_off dst + (b + k))))) with (fa_off src + a + i) by lia.
      apply Hsb. intros Hr. apply (Hdis i (fa_off src + a + i - (fa_off dst + b))); lia.
    - intros i Hi. rewrite programmed_out by lia. apply Hout. lia. }
  apply wpc_bind. apply wpc_write; [done|lia|lia|lia| |].
  { intros n Hn. destruct (Hpart n ltac:(lia)) as (G1 & G2 & G3 & G4). apply HC; [done|done|]. intros i Hi.
    destruct (decide (i < k + Z.of_nat n)); [right; apply G3; lia|left; apply G4; lia]. }
  cbn [Z.eqb negb]. replace (a + k + c) with (a + (k + c)) by lia. replace (b + k + c) with (b + (k + c)) by lia. replace (sz - k - c) with (sz - (k + c)) by lia.
  destruct (Hpart (length buf) ltac:(lia)) as (G1 & G2 & G3 & G4). rewrite take_ge in G1, G2, G3, G4 by lia.
  apply IH; [lia|unfold c, COPY_BUF in *; lia|done|done| |]; intros i Hi; [apply G3|apply G4]; lia.
Qed.

Lemma wpc_copy src dst a b sz (Q : Z -> memory -> Prop) (C : memory -> Prop) f : is_area src -> is_area dst -> 0 <= a -> 0 <= b -> 0 <= sz ->
  a + sz <= fa_size src -> b + sz <= fa_size dst -> src <> dst -> good f -> (forall i, 0 <= i < sz -> f (fa_off dst + b + i) = 0xFF) ->
  (forall g, good g -> same_but (fa_off dst + b) sz f g -> mixed (fa_off src + a) (fa_off dst + b) sz f g -> C g) ->
  (forall g, good g -> same_but (fa_off dst + b) sz f g -> (forall i, 0 <= i < sz -> g (fa_off dst + b + i) = f (fa_off src + a + i)) -> Q 0 g) ->
  wpc (boot_copy_sector (fa_id src) (fa_id dst) a b sz) Q C f.
Proof.
  intros Hs Hd Ha Hb Hsz Has Hbs Hne Hg He HC HQ. unfold boot_copy_sector. rewrite !area_open by done.
  pose proof (wpc_copy_loop (Z.to_nat (sz / COPY_BUF + 1)) src dst C f a b sz Hs Hd Ha Hb Has Hbs) as L.
  specialize (L ltac:(destruct Hs as [-> | [-> | ->]], Hd as [-> | [-> | ->]]; try done; cbn [fa_off fa_size image_0 image_1 scratch] in *; lia) HC 0 f).
  rewrite !Z.add_0_r, Z.sub_0_r in L. eapply wpc_mono; [apply L; first [done|lia|by intros; lia|unfold COPY_BUF; dlia]| |done].
  intros rc g (-> & G1 & G2 & G3). by apply HQ.
Qed.

(** ** Trailers *)

(** The start of the slots and of the scratch area; the trailer is at the end of the last page of a slot. *)
Local Abbreviation S0 := 0xC000.
Local Abbreviation S1 := 0x75000.
Local Abbreviation SC := 0xDE000.
Local Abbreviation PAGE0 := 0x74000.
Local Abbreviation PAGE1 := 0xDD000.

Lemma is_image_0 : is_area image_0.
Proof. by left. Qed.
Lemma is_image_1 : is_area image_1.
Proof. right. by left. Qed.
Lemma is_area_scratch : is_area scratch.
Proof. right. by right. Qed.

Create HintDb areas.
#[export] Hint Resolve is_image_0 is_image_1 is_area_scratch : areas.

Lemma one_byte f a : le (bytes_at f a 1) = f a.
Proof. unfold bytes_at, le. change (Z.to_nat 1) with 1%nat. cbn [seq map foldr]. change (Z.of_nat 0) with 0. rewrite (Z.add_0_r a). lia. Qed.

Lemma state_slot0 f : boot_read_swap_state_by_id f FLASH_AREA_IMAGE_0 =
  Some (SwapState (boot_magic_code (bytes_at f 0x74FF0 16)) (Some (f 0x74FE0)) (f 0x74FE8)).
Proof.
  unfold boot_read_swap_state_by_id, boot_read_swap_state. change (flash_area_open _) with (Some image_0). cbn [mbind option_bind].
  rewrite !area_read by (auto with areas; cbv; discriminate). cbn [mbind option_bind is_scratch]. change (is_scratch image_0) with false.
  cbn [mbind option_bind]. by rewrite !one_byte.
Qed.

Lemma state_slot1 f : boot_read_swap_state_by_id f FLASH_AREA_IMAGE_1 =
  Some (SwapState (boot_magic_code (bytes_at f 0xDDFF0 16)) (Some (f 0xDDFE0)) (f 0xDDFE8)).
Proof.
  unfold boot_read_swap_state_by_id, boot_read_swap_state. change (flash_area_open _) with (Some image_1). cbn [mbind option_bind].
  rewrite !area_read by (auto with areas; cbv; discriminate). change (is_scratch image_1) with false.
  cbn [mbind option_bind]. by rewrite !one_byte.
Qed.

Lemma state_scratch f : boot_read_swap_state_by_id f FLASH_AREA_IMAGE_SCRATCH =
  Some (SwapState (boot_magic_code (bytes_at f 0xFBFF0 16)) None (f 0xFBFE8)).
Proof.
  unfold boot_read_swap_state_by_id, boot_read_swap_state. change (flash_area_open _) with (Some scratch). cbn [mbind option_bind].
  rewrite !area_read by (auto with areas; cbv; discriminate). change (is_scratch scratch) with true.
  cbn [mbind option_bind]. by rewrite !one_byte.
Qed.

(** The status bytes after [k] of them were written. *)
Definition entries (k : Z) (f : memory) : Prop :=
  forall j, 0 <= j < 384 -> f (0x749D8 + 4 * j) = if (1 <=? j) && (j <=? k) then j mod 3 else 0xFF.

Record trailer (ok size k : Z) (f : memory) : Prop := Trailer {
  tr_entries : entries k f;
  tr_magic : bytes_at f 0x74FF0 16 = boot_img_magic;
  tr_copy_done : f 0x74FE0 = 0xFF;
  tr_image_ok : f 0x74FE8 = ok;
  tr_size : le (bytes_at f 0x74FD8 4) = size }.

Lemma trailer_ext ok size k f g : trailer ok size k f -> (forall i, PAGE0 <= i < PAGE0 + 4096 -> g i = f i) -> trailer ok size k g.
Proof.
  intros [He Hm Hc Ho Hs] H. split.
  - intros j Hj. rewrite H by lia. by apply He.
  - rewrite <- Hm. apply bytes_at_ext. intros i Hi. apply H. lia.
  - by rewrite H by lia.
  - by rewrite H by lia.
  - rewrite <- Hs. f_equal. apply bytes_at_ext. intros i Hi. apply H. lia.
Qed.

(** ** Reading the status *)

Lemma read_entry f j : 0 <= j < 384 -> flash_area_read f image_0 (boot_status_off image_0 + j * 4) 1 = Some [f (0x749D8 + 4 * j)].
Proof.
  intros Hj. change (boot_status_off image_0) with 0x689D8. rewrite area_read by (auto with areas; cbn [fa_size image_0]; lia).
  unfold bytes_at. change (Z.to_nat 1) with 1%nat. cbn [seq map fa_off image_0]. change (Z.of_nat 0) with 0.
  by replace (S0 + (0x689D8 + j * 4) + 0) with (0x749D8 + 4 * j) by lia.
Qed.

Lemma status_none n f i : (forall j, 0 <= j < 384 -> f (0x749D8 + 4 * j) = 0xFF) -> 0 <= i -> i + Z.of_nat n = 384 ->
  status_loop n f image_0 4 (boot_status_off image_0) i false 0 = Some (false, 0, 384).
Proof.
  intros He. revert i. induction n as [|n IH]; intros i Hi Hn; cbn [status_loop].
  { do 3 f_equal. lia. }
  rewrite read_entry by lia. cbn [mbind option_bind le foldr]. rewrite He by lia. cbn [Z.eqb Z.add Z.mul Pos.eqb andb]. apply IH; lia.
Qed.

(** What the loop knows after the entries below [i]. *)
Lemma status_some k n f i : entries k f -> 1 <= k < 384 -> 0 <= i -> i + Z.of_nat n = 384 ->
  status_loop n f image_0 4 (boot_status_off image_0) i (1 <? i) (if k + 1 <? i then k + 1 else 0) = Some (true, if k =? 383 then 0 else k + 1, 384).
Proof.
  intros He Hk. revert i. induction n as [|n IH]; intros i Hi Hn; cbn [status_loop].
  { assert (i = 384) as -> by lia. destruct (k =? 383) eqn:E1, (k + 1 <? 384) eqn:E2; to_prop; [lia|done|done|lia]. }
  rewrite read_entry by lia. cbn [mbind option_bind le foldr]. rewrite Z.mul_0_r, Z.add_0_r. rewrite He by lia.
  specialize (IH (i + 1) ltac:(lia) ltac:(lia)). rewrite <- IH. clear IH.
  destruct (decide (1 <= i <= k)) as [Hik|Hik].
  - rewrite (proj2 (Z.leb_le 1 i)), (proj2 (Z.leb_le i k)) by lia. cbn [andb].
    rewrite (proj2 (Z.eqb_neq (i mod 3) 0xFF)) by dlia. rewrite !(proj2 (Z.ltb_ge (k + 1) _)) by lia. rewrite (proj2 (Z.ltb_lt 1 (i + 1))) by lia.
    destruct (decide (i = 1)) as [->|]; [done|]. by rewrite (proj2 (Z.ltb_lt 1 i)) by lia.
  - assert ((1 <=? i) && (i <=? k) = false) as -> by (apply andb_false_iff; rewrite !Z.leb_gt; lia). rewrite Z.eqb_refl.
    destruct (decide (i = 0)) as [->|]; [cbn [Z.ltb Z.compare andb]; by rewrite !(proj2 (Z.ltb_ge (k + 1) _)) by lia|].
    rewrite !(proj2 (Z.ltb_lt 1 _)) by lia. rewrite (proj2 (Z.ltb_lt (k + 1) (i + 1))) by lia.
    destruct (decide (i = k + 1)) as [->|]; [by rewrite Z.ltb_irrefl|].
    rewrite (proj2 (Z.ltb_lt (k + 1) i)) by lia. by rewrite (proj2 (Z.eqb_neq (k + 1) 0)) by lia.
Qed.

Lemma status_bytes_some k f : entries k f -> 1 <= k < 384 ->
  boot_read_status_bytes f image_0 4 boot_status_zero = Some (BootStatus (k / 3) (k mod 3) false 0).
Proof.
  intros He Hk. unfold boot_read_status_bytes. change (Z.to_nat (boot_status_entries image_0)) with 384%nat.
  pose proof (status_some k 384 f 0 He Hk ltac:(lia) ltac:(lia)) as S. rewrite (proj2 (Z.ltb_ge (k + 1) 0)) in S by lia. cbn [Z.ltb Z.compare] in S.
  rewrite S. cbn [mbind option_bind]. destruct (k =? 383) eqn:E; to_prop; [by subst k|].
  rewrite (proj2 (Z.eqb_neq (k + 1) 0)) by lia. by replace (k + 1 - 1) with k by lia.
Qed.

Lemma magic_good l : boot_magic_code l = GOOD <-> l = boot_img_magic.
Proof. unfold boot_magic_code. repeat case_bool_decide; [done|]. case_match; naive_solver. Qed.

(** No status to read in slot 0: it was never written, or the swap it belongs to is complete. *)
Definition clean0 (f : memory) : Prop :=
  (forall j, 0 <= j < 384 -> f (0x749D8 + 4 * j) = 0xFF) \/ (bytes_at f 0x74FF0 16 = boot_img_magic /\ f 0x74FE0 = 1).

Lemma clean_frame f g : (forall i, 0x749D8 <= i < PAGE0 + 4096 -> i <> 0x74FE8 -> g i = f i) -> clean0 f -> clean0 g.
Proof.
  intros H [Hc|[Hm Hd]]; [left; intros j Hj; rewrite H by lia; by apply Hc|right]. split; [|by rewrite H by lia].
  rewrite <- Hm. apply bytes_at_ext. intros i Hi. apply H; lia.
Qed.

Lemma open_slot0 : flash_area_open FLASH_AREA_IMAGE_0 = Some image_0.
Proof. done. Qed.

Lemma source_scratch s0 m c o : status_source_of s0 (SwapState m c o) = SOURCE_SCRATCH -> m = GOOD.
Proof.
  unfold status_source_of, status_row_matches. cbn [List.find boot_status_tables bst_magic_slot0 bst_magic_scratch bst_copy_done_slot0 any_or magic].
  destruct m; [done|change (bool_decide (Some BAD = Some GOOD)) with false|change (bool_decide (Some UNSET = Some GOOD)) with false]; cbn [andb];
    repeat match goal with |- context [if ?b then _ else _] => destruct b end; done.
Qed.

Lemma read_status_clean f : clean0 f -> bytes_at f 0xFBFF0 16 <> boot_img_magic -> boot_read_status f 4 = Some boot_status_zero.
Proof.
  intros Hc Hs. unfold boot_read_status, boot_status_source. rewrite state_slot0, state_scratch. cbn [mbind option_bind].
  assert (boot_magic_code (bytes_at f 0xFBFF0 16) <> GOOD) as Hsc by (by rewrite magic_good).
  destruct (status_source_of _ _) eqn:E; [done| |].
  - by apply source_scratch in E.
  - rewrite open_slot0. cbn [mbind option_bind]. unfold boot_read_status_bytes. change (Z.to_nat (boot_status_entries image_0)) with 384%nat.
    destruct Hc as [Hc|[Hm Hd]]; [by rewrite (status_none 384 f 0 Hc)|]. exfalso. revert E.
    apply magic_good in Hm. unfold status_source_of. cbn. rewrite Hm, Hd. done.
Qed.

Lemma read_status_trailer ok size k f : trailer ok size k f -> 1 <= k < 384 -> boot_read_status f 4 = Some (BootStatus (k / 3) (k mod 3) false 0).
Proof.
  intros [He Hm Hc _ _] Hk. unfold boot_read_status, boot_status_source. rewrite state_slot0, state_scratch. cbn [mbind option_bind].
  apply magic_good in Hm. unfold status_source_of. cbn. rewrite Hm, Hc. cbn. by apply status_bytes_some.
Qed.

(** ** Writing single fields *)

Lemma wpc_field a off x (Q : Z -> memory -> Prop) (C : memory -> Prop) f : is_area a -> 0 <= off -> off mod 4 = 0 -> off + 4 <= fa_size a -> is_byte x -> good f -> C f ->
  (forall g, good g -> (forall i, g i = if i =? fa_off a + off then Z.land (f i) x else f i) -> Q 0 g) ->
  wpc (or_eflash (flash_area_write a off [x; 0xFF; 0xFF; 0xFF])) Q C f.
Proof.
  intros Ha Ho Hm Hs Hx Hg HC HQ. apply wpc_or_eflash. apply wpc_write_word; try done. split; [done|]. apply HQ.
  { apply good_programmed; [done|]. repeat (apply Forall_cons_2; [first [done|unfold is_byte; lia]|]). apply Forall_nil_2. }
  intros i. destruct (i =? fa_off a + off) eqn:E; to_prop.
  - subst i. rewrite programmed_in by (cbn; lia). by rewrite Z.sub_diag.
  - destruct (decide (fa_off a + off <= i < fa_off a + off + 4)).
    + rewrite programmed_in by (cbn; lia). assert (nth (Z.to_nat (i - (fa_off a + off))) [x; 0xFF; 0xFF; 0xFF] 0xFF = 0xFF) as ->.
      { assert (Z.to_nat (i - (fa_off a + off)) = 1%nat \/ Z.to_nat (i - (fa_off a + off)) = 2%nat \/ Z.to_nat (i - (fa_off a + off)) = 3%nat) as [-> | [-> | ->]] by lia; done. }
      rewrite Z.land_comm. apply land_ff, Hg.
    + apply programmed_out. cbn. lia.
Qed.

Lemma wpc_status d idx st size (Q : Z -> memory -> Prop) (C : memory -> Prop) f : write_sz d = 4 -> 0 <= idx -> 0 <= st < 3 -> 3 * idx + st < 384 -> good f -> C f ->
  (forall g, good g -> (forall i, g i = if i =? 0x749D8 + 4 * (3 * idx + st) then Z.land (f i) st else f i) -> Q 0 g) ->
  wpc (boot_write_status d (BootStatus idx st false size)) Q C f.
Proof.
  intros Hd Hi Hst Hk Hg HC HQ. unfold boot_write_status. cbn [bs_use_scratch bs_idx bs_state]. rewrite open_slot0, Hd.
  unfold boot_status_internal_off, BOOT_STATUS_STATE_COUNT. change (boot_status_off image_0) with 0x689D8.
  change (take (Z.to_nat (flash_area_align image_0)) (padded [st])) with [st; 0xFF; 0xFF; 0xFF].
  apply wpc_field; [auto with areas|lia|dlia|cbn [fa_size image_0]; lia|unfold is_byte; lia|done|done|].
  intros g G1 G2. apply HQ; [done|]. intros i. rewrite G2. cbn [fa_off image_0].
  by replace (S0 + (0x689D8 + (idx * (4 * 3) + st * 4))) with (0x749D8 + 4 * (3 * idx + st)) by lia.
Qed.

(** The next status byte. *)
Lemma trailer_next ok size k f g : trailer ok size k f -> 0 <= k -> k + 1 < 384 ->
  (forall i, g i = if i =? 0x749D8 + 4 * (k + 1) then Z.land (f i) ((k + 1) mod 3) else f i) -> trailer ok size (k + 1) g.
Proof.
  intros [He Hm Hc Ho Hs] H0 Hk Hg.
  assert (forall i, i <> 0x749D8 + 4 * (k + 1) -> g i = f i) as Hne.
  { intros i Hi. rewrite Hg. by rewrite (proj2 (Z.eqb_neq _ _) Hi). }
  split.
  - intros j Hj. destruct (decide (j = k + 1)) as [->|Hjk].
    + rewrite Hg, Z.eqb_refl, He by lia. rewrite (proj2 (Z.leb_le 1 (k + 1))), Z.leb_refl, (proj2 (Z.leb_gt (k + 1) k)) by lia.
      cbn [andb]. apply land_ff. unfold is_byte. dlia.
    + rewrite Hne, He by lia. destruct (1 <=? j); [|done]. cbn [andb].
      destruct (j <=? k) eqn:E1, (j <=? k + 1) eqn:E2; to_prop; done || lia.
  - rewrite <- Hm. apply bytes_at_ext. intros i Hi. apply Hne. lia.
  - by rewrite Hne by lia.
  - by rewrite Hne by lia.
  - rewrite <- Hs. f_equal. apply bytes_at_ext. intros i Hi. apply Hne. lia.
Qed.

(** ** The new trailer of slot 0 *)

Lemma le_le32 x : 0 <= x < 2 ^ 32 -> le (le32 x) = x.
Proof. intros H. unfold le, le32, u8. cbn [foldr]. dlia. Qed.

Lemma le32_bytes x : Forall is_byte (le32 x).
Proof. repeat (apply Forall_cons_2; [apply u8_byte|]). apply Forall_nil_2. Qed.

Lemma magic_bytes : Forall is_byte boot_img_magic.
Proof. unfold boot_img_magic. cbn [flat_map]. rewrite !Forall_app. split_and!; first [apply le32_bytes|apply Forall_nil_2]. Qed.

Lemma programmed_read f a l : Forall is_byte l -> (forall i, a <= i < a + Z.of_nat (length l) -> f i = 0xFF) ->
  bytes_at (programmed f a l) a (Z.of_nat (length l)) = l.
Proof.
  intros Hl He. apply (nth_ext _ _ 0 0xFF); [rewrite bytes_at_length; lia|]. rewrite bytes_at_length. intros k Hk.
  rewrite bytes_at_nth, programmed_in, He by lia. replace (Z.to_nat (a + Z.of_nat k - a)) with k by lia.
  apply land_ff. rewrite list.Forall_forall in Hl. apply Hl. apply list_elem_of_In, nth_In. lia.
Qed.

(** A trailer page on which no status byte is written yet. *)
Definition fresh (f g : memory) : Prop :=
  good g /\ same_but PAGE0 4096 f g /\ forall j, 0 <= j < 384 -> g (0x749D8 + 4 * j) = 0xFF.

Lemma fresh_step f g h a n : fresh f g -> good h -> same_but a n g h -> 0x74FD8 <= a -> a + n <= PAGE0 + 4096 -> fresh f h.
Proof.
  intros (G1 & G2 & G3) Hh Hs Ha Hn. split_and!; [done| |].
  - eapply same_but_trans; [exact G2|]. eapply same_but_sub; [| |exact Hs]; lia.
  - intros j Hj. rewrite Hs by lia. by apply G3.
Qed.

Lemma wpc_init_magic ok size (C : memory -> Prop) f g : fresh f g -> (forall h, fresh f h -> C h) ->
  (forall i, 0x74FF0 <= i < PAGE0 + 4096 -> g i = 0xFF) -> g 0x74FE0 = 0xFF -> g 0x74FE8 = ok -> le (bytes_at g 0x74FD8 4) = size ->
  wpc (_ ← boot_write_magic image_0; mret tt) (fun _ h => fresh f h /\ trailer ok size 0 h) C g.
Proof.
  intros Hf HC Hb Hc Ho Hs. pose proof magic_bytes as Hmb.
  assert (forall n, fresh f (programmed g 0x74FF0 (take n boot_img_magic))) as Hn.
  { intros n. apply (fresh_step f g _ 0x74FF0 16 Hf); [apply good_programmed; [apply Hf|by apply Forall_take]| |lia|lia].
    apply programmed_same. rewrite length_take. change (length boot_img_magic) with 16%nat. lia. }
  apply wpc_bind. apply wpc_or_eflash. change (boot_magic_off image_0) with 0x68FF0.
  apply wpc_write; [auto with areas|lia|change (length boot_img_magic) with 16%nat; lia|cbn [fa_size image_0]; change (length boot_img_magic) with 16%nat; lia
    |intros n _; apply HC, Hn|]. split; [done|]. apply wpc_ret. cbn [fa_off image_0]. change (S0 + 0x68FF0) with 0x74FF0.
  specialize (Hn 16%nat). rewrite take_ge in Hn by (change (length boot_img_magic) with 16%nat; lia). split; [done|].
  assert (forall i, i < 0x74FF0 -> programmed g 0x74FF0 boot_img_magic i = g i) as Hlow by (intros i Hi; apply programmed_out; lia).
  split; [|by apply (programmed_read g 0x74FF0 boot_img_magic Hmb)|by rewrite Hlow by lia|by rewrite Hlow by lia|].
  - intros j Hj. rewrite (proj2 (proj2 Hn)) by done. assert ((1 <=? j) && (j <=? 0) = false) as -> by (apply andb_false_iff; rewrite !Z.leb_gt; lia). done.
  - rewrite <- Hs. apply (f_equal le), bytes_at_ext. intros i Hi. apply Hlow. lia.
Qed.

Lemma wpc_init_size ok size (C : memory -> Prop) f g : fresh f g -> (forall h, fresh f h -> C h) -> 0 <= size < 2 ^ 32 ->
  (forall i, 0x74FD8 <= i < PAGE0 + 4096 -> i <> 0x74FE8 -> g i = 0xFF) -> g 0x74FE8 = ok ->
  wpc (_ ← boot_write_swap_size image_0 size; _ ← boot_write_magic image_0; mret tt) (fun _ h => fresh f h /\ trailer ok size 0 h) C g.
Proof.
  intros Hf HC Hz Hb Ho. apply wpc_bind. apply wpc_or_eflash. change (boot_swap_size_off image_0) with 0x68FD8.
  change (take _ (padded (le32 size))) with (le32 size). apply wpc_write_word; [auto with areas|lia|done|done|cbn [fa_size image_0]; lia|by apply HC|].
  split; [done|]. cbn [fa_off image_0]. change (S0 + 0x68FD8) with 0x74FD8. set (h := programmed g 0x74FD8 (le32 size)).
  assert (forall i, ~ 0x74FD8 <= i < 0x74FDC -> h i = g i) as Hh by (intros i Hi; apply programmed_out; cbn; lia).
  apply wpc_init_magic; [|done| | | |].
  - apply (fresh_step f g _ 0x74FD8 4 Hf); [apply good_programmed; [apply Hf|apply le32_bytes]|by apply programmed_same|lia|lia].
  - intros i Hi. rewrite Hh by lia. apply Hb; lia.
  - rewrite Hh by lia. apply Hb; lia.
  - by rewrite Hh by lia.
  - assert (bytes_at h 0x74FD8 4 = le32 size) as -> by (apply (programmed_read g 0x74FD8 (le32 size)); [apply le32_bytes|intros i Hi; apply Hb; cbn in Hi; lia]).
    by apply le_le32.
Qed.

Lemma wpc_init_trailer ok size (C : memory -> Prop) f g : fresh f g -> (forall h, fresh f h -> C h) -> 0 <= size < 2 ^ 32 ->
  (forall i, 0x74FD8 <= i < PAGE0 + 4096 -> g i = 0xFF) -> ok = 1 \/ ok = 0xFF ->
  wpc (init_trailer image_0 ok size) (fun _ h => fresh f h /\ trailer ok size 0 h) C g.
Proof.
  intros Hf HC Hz Hb Hok. unfold init_trailer. apply wpc_bind. destruct Hok as [-> | ->]; cbn [Z.eqb Pos.eqb BOOT_FLAG_SET].
  - change (boot_write_image_ok image_0) with (or_eflash (flash_area_write image_0 0x68FE8 [1; 0xFF; 0xFF; 0xFF])).
    apply wpc_field; [auto with areas|lia|done|cbn [fa_size image_0]; lia|unfold is_byte; lia|apply Hf|by apply HC|].
    intros h H1 H2. cbn [fa_off image_0] in H2. change (S0 + 0x68FE8) with 0x74FE8 in H2.
    assert (forall i, i <> 0x74FE8 -> h i = g i) as Hh by (intros i Hi; by rewrite H2, (proj2 (Z.eqb_neq _ _) Hi)).
    apply wpc_init_size; [|done|done| |].
    + apply (fresh_step f g _ 0x74FE8 1 Hf); [done|intros i Hi; apply Hh; lia|lia|lia].
    + intros i Hi Hne. rewrite Hh by done. by apply Hb.
    + rewrite H2, Z.eqb_refl, Hb by lia. done.
  - apply wpc_ret. apply wpc_init_size; [done|done|done|intros i Hi _; by apply Hb|apply Hb; lia].
Qed.

(** ** Sectors *)

Definition secs : list (Z * Z) := map (fun i => (4096 * Z.of_nat i, 4096)) (seq 0 105).

Record layout (d : boot_data) : Prop := Layout { lay0 : sectors (img0 d) = secs; lay1 : sectors (img1 d) = secs; lay_wsz : write_sz d = 4 }.

Lemma read_sectors : exists d, boot_read_sectors = Some d /\ layout d.
Proof. eexists. split; [vm_compute; reflexivity|]. by split. Qed.

Section Sectors.
Context (d : boot_data) (L : layout d).

Lemma sectors_of slot : sectors (img d slot) = secs.
Proof. unfold img. destruct L. by case_match. Qed.

Lemma num_sectors slot : boot_img_num_sectors d slot = 105.
Proof. unfold boot_img_num_sectors. by rewrite sectors_of. Qed.

Lemma sector_nth slot i : 0 <= i < 105 -> sector d slot i = (4096 * i, 4096).
Proof.
  intros Hi. unfold sector. rewrite sectors_of. rewrite nth_lookup. unfold secs. rewrite list_lookup_fmap, lookup_seq_lt by lia.
  cbn. do 2 f_equal. lia.
Qed.

Lemma sector_size slot i : 0 <= i < 105 -> boot_img_sector_size d slot i = 4096.
Proof. intros Hi. unfold boot_img_sector_size. by rewrite sector_nth. Qed.

Lemma sector_off slot i : 0 <= i < 105 -> boot_img_sector_off d slot i = 4096 * i.
Proof. intros Hi. unfold boot_img_sector_off. rewrite !sector_nth by lia. cbn. lia. Qed.

Lemma slots_compatible : boot_slots_compatible d = true.
Proof.
  unfold boot_slots_compatible. rewrite !num_sectors. cbn [Z.ltb Z.compare Z.eqb orb negb andb BOOT_MAX_IMG_SECTORS Pos.compare Pos.compare_cont Pos.eqb].
  apply forallb_forall. intros i Hi. apply in_seq in Hi. rewrite !sector_size by lia. done.
Qed.

(** At most 30 sectors fit into the scratch area. *)
Lemma copy_sz_steps (i : nat) c : Z.of_nat i <= 105 -> 0 <= c <= 30 ->
  copy_sz_loop d i (4096 * c) = (Z.max 0 (Z.of_nat i - (30 - c)), 4096 * Z.min (c + Z.of_nat i) 30).
Proof.
  revert c. induction i as [|i IH]; intros c Hi Hc; cbn [copy_sz_loop]; [f_equal; lia|].
  rewrite sector_size by lia. replace (4096 * c + 4096) with (4096 * (c + 1)) by lia.
  destruct (boot_scratch_area_size <? 4096 * (c + 1)) eqn:E; unfold boot_scratch_area_size in E; cbn [fa_size scratch] in E; to_prop.
  - f_equal; lia.
  - rewrite IH by lia. f_equal; lia.
Qed.

Lemma copy_sz_spec last : 0 <= last < 105 -> boot_copy_sz d last = (Z.max 0 (last + 1 - 30), 4096 * Z.min (last + 1) 30).
Proof. intros H. unfold boot_copy_sz. replace 0 with (4096 * 0) by lia. rewrite copy_sz_steps by lia. f_equal; lia. Qed.

Lemma last_sector_steps n s size : 0 <= s -> size <= 4096 * (s + Z.of_nat n) -> 4096 * s < size \/ s = 0 -> (0 < n)%nat ->
  last_sector_loop (map (fun i => (4096 * Z.of_nat i, 4096)) (seq (Z.to_nat s) n)) (4096 * s) size s = Some (Z.max 1 ((size + 4095) / 4096) - 1).
Proof.
  revert s. induction n as [|n IH]; intros s Hs Hz Hl Hn; [lia|]. cbn [seq map last_sector_loop].
  destruct (size <=? 4096 * s + 4096) eqn:E; to_prop.
  { f_equal. dlia. }
  replace (4096 * s + 4096) with (4096 * (s + 1)) by lia. replace (S (Z.to_nat s)) with (Z.to_nat (s + 1)) by lia. apply IH; lia.
Qed.

Lemma last_sector_spec size : size <= 4096 * 105 -> last_sector_loop (sectors (img0 d)) 0 size 0 = Some (Z.max 1 ((size + 4095) / 4096) - 1).
Proof. intros H. destruct L as [-> _ _]. apply (last_sector_steps 105 0 size); lia. Qed.
End Sectors.

Lemma wpc_erase_last d a (Q : Z -> memory -> Prop) (C : memory -> Prop) f : layout d -> a = image_0 \/ a = image_1 -> good f ->
  (forall n, 0 <= n < 4096 -> C (erased f (fa_off a + 0x68000) n)) ->
  (forall g, good g -> same_but (fa_off a + 0x68000) 4096 f g -> (forall i, 0 <= i < 4096 -> g (fa_off a + 0x68000 + i) = 0xFF) -> Q 0 g) ->
  wpc (boot_erase_last_sector_by_id d (fa_id a)) Q C f.
Proof.
  intros L Ha Hg HC HQ. unfold boot_erase_last_sector_by_id. rewrite !num_sectors by done. change (105 - 1) with 104.
  rewrite !sector_off, !sector_size by (done || lia). change (4096 * 104) with 0x68000.
  destruct Ha as [-> | ->]; cbn [fa_id image_0 image_1 Z.eqb Pos.eqb FLASH_AREA_IMAGE_0 FLASH_AREA_IMAGE_1].
  - apply (wpc_erase_sector image_0); try done; auto with areas.
  - apply (wpc_erase_sector image_1); try done; auto with areas.
Qed.

(** ** The swap *)

Lemma mixed_magic f g a b : mixed a b 16 f g -> bytes_at f a 16 <> boot_img_magic -> bytes_at g b 16 <> boot_img_magic.
Proof.
  intros Hm Hf Hg. apply Hf. rewrite <- Hg. apply bytes_at_ext. intros k Hk. destruct (Hm k Hk) as [H|H]; [|done]. exfalso.
  pose proof (bytes_at_nth g b 16 (Z.to_nat k) 0) as Hn. rewrite Hg in Hn. replace (Z.of_nat (Z.to_nat k)) with k in Hn by lia.
  rewrite H in Hn by lia. specialize (Hn ltac:(lia)).
  assert (In 0xFF boot_img_magic) as Hin by (rewrite <- Hn; apply nth_In; change (length boot_img_magic) with 16%nat; lia).
  vm_compute in Hin. intuition discriminate.
Qed.

Lemma mixed_erased f a b n : mixed a a b f (erased f SC n).
Proof.
  intros i Hi. destruct (decide (SC <= a + i < SC + n)); [left; by apply erased_in|right; by apply erased_out].
Qed.

Section Swap.
(** The memory before the swap, the flag and size of the request, and the number of sectors to swap. *)
Context (f0 : memory) (ok size N : Z).
Context (HN : 1 <= N <= 104) (Hsize : 0 <= size < 2 ^ 32) (Hok : ok = 1 \/ ok = 0xFF).
Context (Hflag : f0 0xDDFE8 = ok).
Context (Htail : forall p, 30 <= p <= N -> bytes_at f0 (S1 + 4096 * p - 16) 16 <> boot_img_magic).

(** [left j] sectors are left before step [j]; the step takes the last 30 of them. *)
Definition left (j : Z) : Z := Z.max 0 (N - 30 * j).
Definition steps : Z := (N + 29) / 30.

(** Nothing is lost before the first status byte. *)
Record starting (f : memory) : Prop := Starting {
  start_good : good f;
  start_slot0 : forall i, 0 <= i < 4096 * N -> f (S0 + i) = f0 (S0 + i);
  start_slot1 : forall i, 0 <= i < 0x69000 -> f (S1 + i) = f0 (S1 + i);
  start_clean : clean0 f;
  start_scratch : bytes_at f 0xFBFF0 16 <> boot_img_magic }.

(** In state [st] of step [idx]. *)
Record swapping (idx st : Z) (f : memory) : Prop := Swapping {
  sw_good : good f;
  sw_trailer : trailer ok size (3 * idx + st) f;
  sw_done : forall i, 4096 * left idx <= i < 4096 * N -> f (S0 + i) = f0 (S1 + i) /\ f (S1 + i) = f0 (S0 + i);
  sw_todo : forall i, 0 <= i < 4096 * left (idx + 1) -> f (S0 + i) = f0 (S0 + i) /\ f (S1 + i) = f0 (S1 + i);
  sw_slot0 : st <> 2 -> forall i, 4096 * left (idx + 1) <= i < 4096 * left idx -> f (S0 + i) = f0 (S0 + i);
  sw_slot1 : st <> 1 -> forall i, 4096 * left (idx + 1) <= i < 4096 * left idx -> f (S1 + i) = if st =? 0 then f0 (S1 + i) else f0 (S0 + i);
  sw_scratch : st <> 0 -> forall i, 4096 * left (idx + 1) <= i < 4096 * left idx -> f (SC + i - 4096 * left (idx + 1)) = f0 (S1 + i);
  sw_page1 : 2 <= 3 * idx + st -> forall i, 0 <= i < 4096 -> f (PAGE1 + i) = 0xFF;
  sw_tail : bytes_at f 0xFBFF0 16 <> boot_img_magic }.

(** What a power failure may leave. *)
Definition resumable (f : memory) : Prop :=
  starting f \/ exists idx st, 0 <= idx <= steps /\ 0 <= st < 3 /\ 1 <= 3 * idx + st /\ (idx = steps -> st = 0) /\ swapping idx st f.

Definition at_step (idx st : Z) (f : memory) : Prop := if 3 * idx + st =? 0 then starting f else swapping idx st f.

Lemma left_bounds idx : 0 <= idx < steps -> 0 <= left (idx + 1) < left idx /\ left idx <= N /\ left idx - left (idx + 1) <= 30.
Proof. unfold left, steps. intros H. dlia. Qed.

(** Changes elsewhere keep the state. *)
Lemma tail_frame f g : (forall i, 0xFBFF0 <= i < 0xFC000 -> g i = f i) -> bytes_at f 0xFBFF0 16 <> boot_img_magic -> bytes_at g 0xFBFF0 16 <> boot_img_magic.
Proof. intros H Hf Hg. apply Hf. rewrite <- Hg. apply bytes_at_ext. intros i Hi. symmetry. apply H. lia. Qed.

Ltac framed S :=
  destruct S as [? T Hd Ht H0 H1 Hs Hp Hl]; split; [done|eapply trailer_ext; [exact T|]|..|first [done|eapply tail_frame; [|exact Hl]]];
    intros; repeat match goal with H : same_but _ _ _ ?g |- context [?g _] => rewrite H by lia end; auto with lia.

Lemma frame_scratch idx f g : swapping idx 0 f -> 0 <= idx -> good g -> same_but SC 0x1E000 f g -> bytes_at g 0xFBFF0 16 <> boot_img_magic -> swapping idx 0 g.
Proof. intros S Hi Hg Hsb Htl. assert (0 <= left (idx + 1) <= left idx /\ left idx <= N) by (unfold left; lia). framed S; lia. Qed.

Lemma frame_slot1 idx f g : swapping idx 1 f -> 0 <= idx < steps -> good g ->
  same_but (S1 + 4096 * left (idx + 1)) (4096 * (left idx - left (idx + 1))) f g -> swapping idx 1 g.
Proof. intros S Hi Hg Hsb. pose proof (left_bounds idx Hi). framed S; lia. Qed.

Lemma frame_slot0 idx f g : swapping idx 2 f -> 0 <= idx < steps -> good g ->
  same_but (S0 + 4096 * left (idx + 1)) (4096 * (left idx - left (idx + 1))) f g -> swapping idx 2 g.
Proof. intros S Hi Hg Hsb. pose proof (left_bounds idx Hi). framed S; lia. Qed.

Lemma resume idx st f : 0 <= idx <= steps -> 0 <= st < 3 -> 1 <= 3 * idx + st -> (idx = steps -> st = 0) -> swapping idx st f -> resumable f.
Proof. intros. right. by exists idx, st. Qed.

Lemma steps_entries idx st : 0 <= idx <= steps -> 0 <= st < 3 -> 3 * idx + st < 384.
Proof. unfold steps. intros. dlia. Qed.

(** The status after a step: the bytes of the trailer page but the next entry are as before. *)
Lemma next_step idx f g : 0 <= idx < steps -> swapping idx 2 f -> good g ->
  (forall i, 4096 * left (idx + 1) <= i < 4096 * left idx -> f (S0 + i) = f0 (S1 + i)) ->
  (forall i, g i = if i =? 0x749D8 + 4 * (3 * idx + 2 + 1) then Z.land (f i) ((3 * idx + 2 + 1) mod 3) else f i) -> swapping (idx + 1) 0 g.
Proof.
  intros Hi S Hg Hc H. pose proof (left_bounds idx Hi) as Hb1. assert (0 <= left (idx + 1 + 1) <= left (idx + 1)) as Hb2 by (unfold left; lia).
  assert (forall i, ~ PAGE0 <= i < PAGE0 + 4096 -> g i = f i) as Hne.
  { intros i Hi'. rewrite H. destruct (i =? _) eqn:E; to_prop; [|done]. pose proof (steps_entries idx 2). lia. }
  destruct S as [? T Hd Ht H0 H1 Hs Hp Hl]. split; [done|..|by apply (tail_frame f); [intros i Hi'; apply Hne; lia|]].
  - replace (3 * (idx + 1) + 0) with (3 * idx + 2 + 1) by lia. eapply trailer_next; [exact T|lia|pose proof (steps_entries (idx + 1) 0); lia|done].
  - intros i Hi'. rewrite !Hne by lia. destruct (decide (i < 4096 * left idx)); [|apply Hd; lia].
    rewrite Hc by lia. split; [done|]. apply (H1 ltac:(done)). lia.
  - intros i Hi'. rewrite !Hne by lia. apply Ht. lia.
  - intros _ i Hi'. rewrite !Hne by lia. apply Ht. lia.
  - intros _ i Hi'. rewrite !Hne by lia. apply Ht. lia.
  - done.
  - intros _ i Hi'. rewrite Hne by lia. apply Hp; lia.
Qed.

Lemma frame_page1 f g : swapping 0 1 f -> good g -> same_but PAGE1 4096 f g -> swapping 0 1 g.
Proof. intros S Hg Hsb. assert (0 <= left (0 + 1) <= left 0 /\ left 0 <= N) by (unfold left; lia). framed S; lia. Qed.

(** Slot 1 has its part. *)
Lemma mid_step idx f g : 0 <= idx < steps -> swapping idx 1 f -> good g ->
  (forall i, 4096 * left (idx + 1) <= i < 4096 * left idx -> f (S1 + i) = f0 (S0 + i)) -> (forall i, 0 <= i < 4096 -> f (PAGE1 + i) = 0xFF) ->
  (forall i, g i = if i =? 0x749D8 + 4 * (3 * idx + 1 + 1) then Z.land (f i) ((3 * idx + 1 + 1) mod 3) else f i) -> swapping idx 2 g.
Proof.
  intros Hi S Hg Hc Hpg H. pose proof (left_bounds idx Hi) as Hb.
  assert (forall i, ~ PAGE0 <= i < PAGE0 + 4096 -> g i = f i) as Hne.
  { intros i Hi'. rewrite H. destruct (i =? _) eqn:E; to_prop; [|done]. pose proof (steps_entries idx 2). lia. }
  destruct S as [? T Hd Ht H0 H1 Hs Hp Hl]. split; [done|..|by apply (tail_frame f); [intros i Hi'; apply Hne; lia|]].
  - replace (3 * idx + 2) with (3 * idx + 1 + 1) by lia. eapply trailer_next; [exact T|lia|pose proof (steps_entries idx 2); lia|done].
  - intros i Hi'. rewrite !Hne by lia. by apply Hd.
  - intros i Hi'. rewrite !Hne by lia. by apply Ht.
  - done.
  - intros _ i Hi'. rewrite Hne by lia. by apply Hc.
  - intros _ i Hi'. rewrite Hne by lia. by apply Hs.
  - intros _ i Hi'. rewrite Hne by lia. by apply Hpg.
Qed.

Section Steps.
Context (d : boot_data) (L : layout d) (idx : Z) (Hi : 0 <= idx < steps).

Let lo : Z := 4096 * left (idx + 1).
Let sz : Z := 4096 * (left idx - left (idx + 1)).

Lemma step_2 f : swapping idx 2 f ->
  wpc (swap_state_2 d lo sz sz (BootStatus idx 2 false size)) (fun bs g => bs = BootStatus (idx + 1) 0 false size /\ swapping (idx + 1) 0 g) resumable f.
Proof.
  intros S. pose proof (left_bounds idx Hi) as Hb. pose proof (frame_slot0 idx f) as Fr. fold lo sz in Fr.
  assert (forall g, good g -> same_but (S0 + lo) sz f g -> resumable g) as HC.
  { intros g G1 G2. apply (resume idx 2); [lia|lia|lia|lia|]. by apply Fr. }
  unfold swap_state_2. apply wpc_bind. change FLASH_AREA_IMAGE_0 with (fa_id image_0) at 1.
  apply wpc_erase_sector; [auto with areas|unfold lo; lia|unfold sz; lia|unfold lo; dlia|unfold sz; dlia|unfold lo, sz; cbn [fa_size image_0]; lia|apply S| |].
  { intros n Hn. apply HC; [apply good_erased, S|]. eapply same_but_sub; [| |by apply (erased_same f _ n n)]; cbn [fa_off image_0]; lia. }
  cbn [fa_off image_0]. intros g1 G1 Sb1 E1. apply wpc_bind. change FLASH_AREA_IMAGE_SCRATCH with (fa_id scratch). change FLASH_AREA_IMAGE_0 with (fa_id image_0).
  apply wpc_copy; [auto with areas|auto with areas|lia|unfold lo; lia|unfold sz; lia|unfold sz; cbn [fa_size scratch]; lia|unfold lo, sz; cbn [fa_size image_0]; lia|done|done|done| |].
  { intros g G Sb _. apply HC; [done|]. by eapply same_but_trans. }
  cbn [fa_off image_0 scratch]. intros g2 G2 Sb2 E2. cbn [bs_use_scratch]. apply wpc_bind, wpc_ret. cbn [with_state bs_idx bs_swap_size]. apply wpc_bind.
  assert (swapping idx 2 g2) as S2 by (apply Fr; [done|lia|done|by eapply same_but_trans]).
  apply wpc_status; [by destruct L|lia|lia|apply steps_entries; lia|done|by apply (resume idx 2); lia || done|].
  intros g3 G3 Hg3. apply wpc_ret. split; [done|].
  apply (next_step idx g2); [lia|done|done| |].
  - intros i Hi'. replace (S0 + i) with (S0 + lo + (i - lo)) by lia. rewrite E2 by (unfold lo, sz in *; lia). rewrite Sb1 by lia.
    pose proof (sw_scratch _ _ _ S ltac:(done) i Hi') as E. fold lo in E. by replace (SC + 0 + (i - lo)) with (SC + i - lo) by lia.
  - intros i. rewrite Hg3. replace (3 * (idx + 1) + 0) with (3 * idx + 2 + 1) by lia. by replace ((3 * idx + 2 + 1) mod 3) with 0 by dlia.
Qed.
Lemma step_1 f : swapping idx 1 f ->
  wpc (swap_state_1 d lo sz sz (BootStatus idx 1 false size)) (fun bs g => bs = BootStatus idx 2 false size /\ swapping idx 2 g) resumable f.
Proof.
  intros S. pose proof (left_bounds idx Hi) as Hb. pose proof (frame_slot1 idx f) as Fr. fold lo sz in Fr.
  assert (forall g, swapping idx 1 g -> resumable g) as HR by (intros g G; apply (resume idx 1); lia || done).
  assert (forall g, good g -> same_but (S1 + lo) sz f g -> resumable g) as HC by (intros g G1 G2; by apply HR, Fr).
  unfold swap_state_1. apply wpc_bind. change FLASH_AREA_IMAGE_1 with (fa_id image_1) at 1.
  apply wpc_erase_sector; [auto with areas|unfold lo; lia|unfold sz; lia|unfold lo; dlia|unfold sz; dlia|unfold lo, sz; cbn [fa_size image_1]; lia|apply S| |].
  { intros n Hn. apply HC; [apply good_erased, S|]. eapply same_but_sub; [| |by apply (erased_same f _ n n)]; cbn [fa_off image_1]; lia. }
  cbn [fa_off image_1]. intros g1 G1 Sb1 E1. apply wpc_bind. change FLASH_AREA_IMAGE_0 with (fa_id image_0). change FLASH_AREA_IMAGE_1 with (fa_id image_1) at 1.
  apply wpc_copy; [auto with areas|auto with areas|unfold lo; lia|unfold lo; lia|unfold sz; lia|unfold lo, sz; cbn [fa_size image_0]; lia|unfold lo, sz; cbn [fa_size image_1]; lia|done|done|done| |].
  { intros g G Sb _. apply HC; [done|]. by eapply same_but_trans. }
  cbn [fa_off image_0 image_1]. intros g2 G2 Sb2 E2. assert (same_but (S1 + lo) sz f g2) as Sb by (by eapply same_but_trans).
  assert (swapping idx 1 g2) as S2 by (by apply Fr).
  assert (forall i, 4096 * left (idx + 1) <= i < 4096 * left idx -> g2 (S1 + i) = f0 (S0 + i)) as Hc.
  { intros i Hi'. replace (S1 + i) with (S1 + lo + (i - lo)) by lia. rewrite E2 by (unfold lo, sz in *; lia). rewrite Sb1 by (unfold lo, sz in *; lia).
    replace (S0 + lo + (i - lo)) with (S0 + i) by lia. by apply (sw_slot0 _ _ _ S). }
  apply wpc_bind.
  apply (wpc_mono _ (fun _ g => swapping idx 1 g /\ (forall i, 4096 * left (idx + 1) <= i < 4096 * left idx -> g (S1 + i) = f0 (S0 + i)) /\
    forall i, 0 <= i < 4096 -> g (PAGE1 + i) = 0xFF) _ resumable resumable); [| |done].
  - cbn [bs_idx bs_use_scratch negb]. rewrite andb_true_r. destruct (idx =? 0) eqn:E0; to_prop.
    + change FLASH_AREA_IMAGE_1 with (fa_id image_1). apply wpc_erase_last; [done|by right|done| |].
      * intros n Hn. cbn [fa_off image_1]. apply HR. rewrite E0 in *. apply (frame_page1 g2); [done|by apply good_erased|].
        eapply same_but_sub; [| |by apply (erased_same g2 _ n n)]; lia.
      * cbn [fa_off image_1]. intros g3 G3 Sb3 E3. split_and!; [|intros i Hi'; rewrite Sb3 by lia; by apply Hc|].
        { rewrite E0 in *. by apply (frame_page1 g2). }
        intros i Hi'. by replace (PAGE1 + i) with (S1 + 0x68000 + i) by lia; apply E3.
    + apply wpc_ret. split_and!; [done|done|]. intros i Hi'. apply (sw_page1 _ _ _ S2); lia.
  - intros _ g3 (S3 & C3 & P3). cbn [with_state bs_idx bs_swap_size bs_use_scratch]. apply wpc_bind.
    apply wpc_status; [by destruct L|lia|lia|apply steps_entries; lia|apply S3|by apply HR|].
    intros g4 G4 Hg4. apply wpc_ret. split; [done|]. apply (mid_step idx g3); try done.
    intros i. rewrite Hg4. replace (3 * idx + 1 + 1) with (3 * idx + 2) by lia. by replace ((3 * idx + 2) mod 3) with 2 by dlia.
Qed.
(** Slot 1 to scratch. *)
Lemma wpc_to_scratch f (C : memory -> Prop) (k : B boot_status) (Q' : boot_status -> memory -> Prop) : good f ->
  (forall n, 0 <= n < sz -> C (erased f SC n)) ->
  (forall f1 g, same_but SC sz f f1 -> good g -> same_but SC sz f g -> mixed (S1 + lo) SC sz f1 g -> C g) ->
  (forall g, good g -> same_but SC sz f g -> (forall i, 0 <= i < sz -> g (SC + i) = f (S1 + lo + i)) -> wpc k Q' C g) ->
  wpc (_ ← boot_erase_sector FLASH_AREA_IMAGE_SCRATCH 0 sz; _ ← boot_copy_sector FLASH_AREA_IMAGE_1 FLASH_AREA_IMAGE_SCRATCH lo 0 sz; k) Q' C f.
Proof.
  intros Hg H1 H2 H3. pose proof (left_bounds idx Hi) as Hb. apply wpc_bind.
  apply (wpc_erase_sector scratch); [auto with areas|lia|unfold sz; lia|done|unfold sz; dlia|unfold sz; cbn [fa_size scratch]; lia|done|done|].
  cbn [fa_off scratch]. intros g1 G1 Sb1 E1. apply wpc_bind.
  apply (wpc_copy image_1 scratch); [auto with areas|auto with areas|unfold lo; lia|lia|unfold sz; lia|unfold lo, sz; cbn [fa_size image_1]; lia
    |unfold sz; cbn [fa_size scratch]; lia|done|done|done| |]; cbn [fa_off scratch image_1]; change (SC + 0) with SC in *.
  - intros g G Sb M. apply (H2 g1); [done|done|by eapply same_but_trans|done].
  - intros g G Sb E. apply H3; [done|by eapply same_but_trans|]. intros i Hi'. rewrite E by done. apply Sb1. unfold lo, sz in *. lia.
Qed.

(** The scratch area never ends in the magic. *)
Lemma scratch_tail f f1 g : bytes_at f 0xFBFF0 16 <> boot_img_magic -> (forall i, lo <= i < 4096 * left idx -> f (S1 + i) = f0 (S1 + i)) ->
  same_but SC sz f f1 -> same_but SC sz f g -> mixed (S1 + lo) SC sz f1 g -> bytes_at g 0xFBFF0 16 <> boot_img_magic.
Proof.
  intros Hf H1 Sb1 Sb M. pose proof (left_bounds idx Hi) as Hb. destruct (decide (left idx - left (idx + 1) = 30)) as [Hn|Hn].
  - apply (mixed_magic f0 g (S1 + 4096 * left idx - 16)); [|apply Htail; lia]. intros i Hi'.
    destruct (M (0x1DFF0 + i)) as [E|E]; [unfold sz; lia|left; rewrite <- E; f_equal; lia|right].
    replace (SC + (0x1DFF0 + i)) with (0xFBFF0 + i) in E by lia. rewrite E. rewrite Sb1 by (unfold lo; lia).
    replace (S1 + lo + (0x1DFF0 + i)) with (S1 + (4096 * left idx - 16 + i)) by (unfold lo; lia).
    rewrite H1 by (unfold lo; lia). f_equal. lia.
  - apply (tail_frame f); [|done]. intros i Hi'. apply Sb. unfold sz. lia.
Qed.

(** The first status byte of a step. *)
Lemma first_status f g : idx <> 0 -> swapping idx 0 f -> good g -> (forall i, 0 <= i < sz -> f (SC + i) = f0 (S1 + lo + i)) ->
  (forall i, g i = if i =? 0x749D8 + 4 * (3 * idx + 0 + 1) then Z.land (f i) ((3 * idx + 0 + 1) mod 3) else f i) -> swapping idx 1 g.
Proof.
  intros Hz S Hg Hc H. pose proof (left_bounds idx Hi) as Hb.
  assert (forall i, ~ PAGE0 <= i < PAGE0 + 4096 -> g i = f i) as Hne.
  { intros i Hi'. rewrite H. destruct (i =? _) eqn:E; to_prop; [|done]. pose proof (steps_entries idx 1). lia. }
  destruct S as [? T Hd Ht H0 H1 Hs Hp Hl]. split; [done|..|by apply (tail_frame f); [intros i Hi'; apply Hne; lia|]].
  - replace (3 * idx + 1) with (3 * idx + 0 + 1) by lia. eapply trailer_next; [exact T|lia|pose proof (steps_entries idx 1); lia|done].
  - intros i Hi'. rewrite !Hne by lia. by apply Hd.
  - intros i Hi'. rewrite !Hne by lia. by apply Ht.
  - intros _ i Hi'. rewrite Hne by lia. by apply H0.
  - done.
  - intros _ i Hi'. rewrite Hne by lia. fold lo. replace (SC + i - lo) with (SC + (i - lo)) by lia. rewrite Hc by (unfold lo, sz; lia). f_equal. lia.
  - intros Hk i Hi'. rewrite Hne by lia. apply Hp; lia.
Qed.

Lemma step_0 f : idx <> 0 -> swapping idx 0 f ->
  wpc (swap_state_0 d lo sz sz (BootStatus idx 0 false size)) (fun bs g => bs = BootStatus idx 1 false size /\ swapping idx 1 g) resumable f.
Proof.
  intros Hz S. pose proof (left_bounds idx Hi) as Hb.
  assert (forall g, good g -> same_but SC sz f g -> bytes_at g 0xFBFF0 16 <> boot_img_magic -> swapping idx 0 g) as Fr.
  { intros g G1 G2. apply (frame_scratch idx f); [done|lia|done|]. eapply same_but_sub; [| |exact G2]; unfold sz; lia. }
  assert (forall g, swapping idx 0 g -> resumable g) as HR by (intros g G; apply (resume idx 0); lia || done).
  assert (forall f1 g, same_but SC sz f f1 -> same_but SC sz f g -> mixed (S1 + lo) SC sz f1 g -> bytes_at g 0xFBFF0 16 <> boot_img_magic) as Ht.
  { intros f1 g. apply scratch_tail; [apply S|]. intros i Hi'. by apply (sw_slot1 _ _ _ S). }
  apply wpc_to_scratch; [apply S| | |].
  - intros n Hn. apply HR, Fr; [apply good_erased, S|by apply erased_same; lia|]. eapply mixed_magic; [apply mixed_erased|apply S].
  - intros f1 g S1' G Sb M. apply HR, Fr; [done|done|]. by apply (Ht f1).
  - intros g G Sb E. cbn [bs_idx]. rewrite (proj2 (Z.eqb_neq idx 0) Hz). apply wpc_bind, wpc_ret. cbn [with_state bs_idx bs_swap_size bs_use_scratch].
    assert (swapping idx 0 g) as S1' by (apply Fr; [done|done|]; apply (Ht f); [done|done|intros i Hi'; right; by apply E]). apply wpc_bind. apply wpc_status; [by destruct L|lia|lia|apply steps_entries; lia|done|by apply HR|].
    intros g4 G4 Hg4. apply wpc_ret. split; [done|]. apply (first_status g); [done|done|done| |].
    + intros i Hi'. rewrite E by done. replace (S1 + lo + i) with (S1 + (lo + i)) by lia.
      rewrite (sw_slot1 _ _ _ S) by (done || unfold lo, sz in *; lia). done.
    + intros i. rewrite Hg4. replace (3 * idx + 0 + 1) with (3 * idx + 1) by lia. by replace ((3 * idx + 1) mod 3) with 1 by dlia.
Qed.
End Steps.

(** ** Starting *)

Lemma start_frame_scratch f g : starting f -> good g -> same_but SC 0x1E000 f g -> bytes_at g 0xFBFF0 16 <> boot_img_magic -> starting g.
Proof.
  intros [? H0 H1 Hc Hs] Hg Sb Hm. split; [done|intros i Hi; rewrite Sb by lia; by apply H0|intros i Hi; rewrite Sb by lia; by apply H1| |done].
  apply (clean_frame f); [|done]. intros i Hi _. apply Sb. lia.
Qed.

Lemma start_frame_page0 f g : starting f -> good g -> same_but PAGE0 4096 f g -> clean0 g -> starting g.
Proof.
  intros [? H0 H1 Hc Hs] Hg Sb Hn. split; [done|intros i Hi; rewrite Sb by lia; by apply H0|intros i Hi; rewrite Sb by lia; by apply H1|done|].
  apply (tail_frame f); [|done]. intros i Hi. apply Sb. lia.
Qed.

(** An erase that is cut short. *)
Lemma clean_torn f n : 0 <= n < 4096 -> clean0 f -> clean0 (erased f PAGE0 n).
Proof.
  intros Hn Hc. destruct (decide (n <= 0xFE0)) as [Hle|Hle].
  - destruct Hc as [Hc|[Hm Hd]].
    + left. intros j Hj. destruct (decide (0x749D8 + 4 * j < PAGE0 + n)); [by rewrite erased_in by lia|]. rewrite erased_out by lia. by apply Hc.
    + right. rewrite erased_out by lia. split; [|done]. rewrite <- Hm. apply bytes_at_ext. intros i Hi. apply erased_out. lia.
  - left. intros j Hj. apply erased_in. lia.
Qed.

Section Start.
Context (d : boot_data) (L : layout d).

Let lo : Z := 4096 * left 1.
Let sz : Z := 4096 * (left 0 - left 1).

Lemma start_scratch_copy f f1 g : starting f -> same_but SC sz f f1 -> good g -> same_but SC sz f g -> mixed (S1 + lo) SC sz f1 g -> starting g.
Proof.
  intros S Sb1 Hg Sb M. assert (sz <= 0x1E000) by (unfold sz, left; lia).
  apply (start_frame_scratch f); [done|done|eapply same_but_sub; [| |exact Sb]; lia|].
  apply (scratch_tail 0 ltac:(unfold steps; dlia) f f1); [apply S| |done|done|done]. intros i Hi. apply (start_slot1 _ S).
  change (0 + 1) with 1 in Hi. unfold left in Hi. lia.
Qed.

Lemma first_trailer f g : starting f -> good f -> trailer ok size 0 f -> good g -> (forall i, 0 <= i < sz -> f (SC + i) = f0 (S1 + lo + i)) ->
  (forall i, g i = if i =? 0x749D8 + 4 * (0 + 1) then Z.land (f i) ((0 + 1) mod 3) else f i) -> swapping 0 1 g.
Proof.
  intros S Hf T Hg Hc H. assert (left 0 = N) as HL by (unfold left; lia). assert (0 <= left (0 + 1) <= N) as HL1 by (unfold left; lia).
  assert (forall i, ~ PAGE0 <= i < PAGE0 + 4096 -> g i = f i) as Hne.
  { intros i Hi'. rewrite H. destruct (i =? _) eqn:E; to_prop; [lia|done]. }
  split; [done|by apply (trailer_next _ _ 0 f)|intros i Hi; lia|..].
  - intros i Hi. rewrite !Hne by lia. split; [apply (start_slot0 _ S)|apply (start_slot1 _ S)]; lia.
  - intros _ i Hi. rewrite Hne by lia. apply (start_slot0 _ S). lia.
  - done.
  - intros _ i Hi. rewrite Hne by lia. change (4096 * left (0 + 1)) with lo in *. replace (SC + i - lo) with (SC + (i - lo)) by lia.
    rewrite Hc by (unfold lo, sz in *; change (0 + 1) with 1 in *; lia). f_equal. lia.
  - lia.
  - apply (tail_frame f); [|apply S]. intros i Hi. apply Hne. lia.
Qed.

Lemma step_start f : starting f ->
  wpc (swap_state_0 d lo sz sz (BootStatus 0 0 false size)) (fun bs g => bs = BootStatus 0 1 false size /\ swapping 0 1 g) resumable f.
Proof.
  intros S. assert (0 <= 0 < steps) as H0 by (unfold steps; dlia). pose proof (left_bounds 0 H0) as Hb. change (0 + 1) with 1 in Hb.
  apply (wpc_to_scratch 0 H0); change (0 + 1) with 1; fold lo sz; [apply S| | |].
  - intros n Hn. left. apply (start_frame_scratch f); [done|apply good_erased, S|eapply same_but_sub; [| |by apply (erased_same f _ n n)]; unfold sz in Hn; lia|].
    eapply mixed_magic; [apply mixed_erased|apply S].
  - intros f1 g ???. left. by apply (start_scratch_copy f f1).
  - intros g G Sb E. cbn [bs_idx bs_use_scratch Z.eqb].
    assert (starting g) as Sg by (apply (start_scratch_copy f f); [done|done|done|done|intros i Hi; right; by apply E]).
    apply wpc_bind, wpc_bind. apply (wpc_erase_last d image_0); [done|by left|done| |]; cbn [fa_off image_0]; change (S0 + 0x68000) with PAGE0.
    { intros n Hn. left. apply (start_frame_page0 g); [done|by apply good_erased|eapply same_but_sub; [| |by apply (erased_same g _ n n)]; lia|].
      apply clean_torn; [done|apply Sg]. }
    intros g1 G1 Sb1 E1. assert (forall h, fresh g h -> starting h) as Fr.
    { intros h (F1 & F2 & F3). apply (start_frame_page0 g); [done|done|done|by left]. }
    apply wpc_memory. rewrite open_slot0, state_slot1. cbn [image_ok bs_swap_size].
    replace (g1 0xDDFE8) with ok by (rewrite Sb1 by lia; rewrite <- Hflag; symmetry; apply (start_slot1 _ Sg 0x68FE8); lia).
    assert (forall i, 0x74000 <= i < PAGE0 + 4096 -> g1 i = 0xFF) as E1'.
    { intros i Hi. replace i with (PAGE0 + (i - PAGE0)) by lia. apply E1. lia. }
    eapply wpc_mono; [apply (wpc_init_trailer ok size starting g g1)| |intros h Hh; by left].
    { split_and!; [done|done|]. intros j Hj. apply E1'. lia. } { done. } { done. } { intros i Hi. apply E1'. lia. } { done. }
    intros _ h [Fh Th]. pose proof (Fr h Fh) as Sh. apply wpc_bind. cbn [with_state bs_idx bs_swap_size bs_use_scratch].
    apply wpc_status; [by destruct L|lia|lia|lia|apply Fh|by left|]. intros h1 Gh1 Hh1. apply wpc_ret. split; [done|].
    apply (first_trailer h); [done|apply Fh|done|done| |done].
    intros i Hi. destruct Fh as (_ & Fh & _). rewrite Fh by (unfold sz in Hi; lia). rewrite E by done.
    replace (S1 + lo + i) with (S1 + (lo + i)) by lia. apply (start_slot1 _ S). unfold lo, sz in *. lia.
Qed.
End Start.

(** ** All steps *)

Section Loop.
Context (d : boot_data) (L : layout d).

Lemma swap_step idx st use f : 0 <= idx < steps -> 0 <= st < 3 -> at_step idx st f ->
  wpc (boot_swap_sectors d (left (idx + 1)) (4096 * (left idx - left (idx + 1))) (BootStatus idx st use size))
    (fun bs g => bs = BootStatus (idx + 1) 0 false size /\ swapping (idx + 1) 0 g) resumable f.
Proof.
  intros Hi Hst S. pose proof (left_bounds idx Hi) as Hb. unfold boot_swap_sectors.
  rewrite num_sectors, !sector_off by (done || lia). change (105 - 1) with 104.
  rewrite (proj2 (Z.ltb_ge (4096 * 104) _)) by lia. rewrite Z.eqb_refl, andb_false_r. cbn [with_state bs_idx bs_state bs_swap_size].
  set (lo := 4096 * left (idx + 1)). set (sz := 4096 * (left idx - left (idx + 1))). unfold at_step in S.
  apply wpc_bind. apply (wpc_mono _ (fun bs g => exists st', 1 <= st' < 3 /\ bs = BootStatus idx st' false size /\ swapping idx st' g) _ resumable resumable); [| |done].
  - destruct (st =? 0) eqn:E; to_prop; [subst st|apply wpc_ret; exists st; split_and!; [lia|lia|done|];
      by rewrite (proj2 (Z.eqb_neq (3 * idx + st) 0)) in S by lia].
    destruct (3 * idx + 0 =? 0) eqn:E; to_prop.
    + assert (idx = 0) as -> by lia. eapply wpc_mono; [by apply (step_start d L)| |done]. intros bs g [-> Hg]. by exists 1.
    + eapply wpc_mono; [apply (step_0 d L idx Hi); [lia|done]| |done]. intros bs g [-> Hg]. by exists 1.
  - intros bs g (st' & Hst' & -> & Sg). cbn [bs_state]. apply wpc_bind.
    apply (wpc_mono _ (fun bs g => bs = BootStatus idx 2 false size /\ swapping idx 2 g) _ resumable resumable); [| |done].
    + destruct (st' =? 1) eqn:E; to_prop; [subst st'; by apply (step_1 d L idx Hi)|]. apply wpc_ret. by replace st' with 2 in * by lia.
    + intros bs' g' [-> Sg']. cbn [bs_state Z.eqb Pos.eqb]. by apply (step_2 d L idx Hi).
Qed.

Lemma wpc_swap_loop fuel j idx st use f : left j <= Z.of_nat fuel -> 0 <= j <= idx -> idx <= steps -> 0 <= st < 3 -> (idx = steps -> st = 0) -> at_step idx st f ->
  wpc (swap_loop fuel d (left j - 1) j (BootStatus idx st use size)) (fun _ g => swapping steps 0 g) resumable f.
Proof.
  assert (1 <= steps) as Hs1 by (unfold steps; dlia).
  revert j idx st use f. induction fuel as [|fuel IH]; intros j idx st use f Hf Hj Hi Hst He S; cbn [swap_loop].
  all: destruct (left j - 1 <? 0) eqn:E; to_prop; [|try lia].
  1, 2: assert (idx = steps) as -> by (unfold left, steps in *; dlia); rewrite (He eq_refl) in *; apply wpc_ret; unfold at_step in S;
    by rewrite (proj2 (Z.eqb_neq (3 * steps + 0) 0)) in S by lia.
  assert (j < steps) as Hjs by (unfold left, steps in *; dlia). pose proof (left_bounds j ltac:(lia)) as Hb.
  rewrite copy_sz_spec by (done || lia). replace (Z.max 0 (left j - 1 + 1 - 30)) with (left (j + 1)) by (unfold left; lia).
  replace (4096 * Z.min (left j - 1 + 1) 30) with (4096 * (left j - left (j + 1))) by (unfold left; lia). cbn [bs_idx].
  apply wpc_bind. destruct (idx <=? j) eqn:E2; to_prop.
  - assert (idx = j) as -> by lia. eapply wpc_mono; [apply swap_step; (done || lia)| |done]. intros bs g [-> Sg].
    apply IH; [lia|lia|lia|lia|done|]. unfold at_step. by rewrite (proj2 (Z.eqb_neq _ 0)) by lia.
  - apply wpc_ret. by apply IH; lia || done.
Qed.

Lemma read_swap_size f k : trailer ok size k f -> boot_read_swap_size f = Some size.
Proof.
  intros [_ Hm _ _ Hs]. unfold boot_read_swap_size. rewrite open_slot0. cbn [mbind option_bind].
  rewrite !area_read by (auto with areas; cbv; discriminate). cbn [mbind option_bind]. change (boot_magic_off image_0) with 0x68FF0.
  cbn [fa_off image_0]. change (S0 + 0x68FF0) with 0x74FF0. change BOOT_MAGIC_SZ with 16. rewrite bool_decide_true by done. cbn [mbind option_bind].
  rewrite area_read by (auto with areas; cbv; discriminate). change (boot_swap_size_off image_0) with 0x68FD8. cbn [mbind option_bind fa_off image_0].
  change (S0 + 0x68FD8) with 0x74FD8. by rewrite Hs.
Qed.

(** Nothing is left to swap. *)
Lemma wpc_swap_done fuel j bs (Q : boot_status -> memory -> Prop) C f : left j <= Z.of_nat fuel -> 0 <= j <= steps -> bs_idx bs = steps -> Q bs f ->
  wpc (swap_loop fuel d (left j - 1) j bs) Q C f.
Proof.
  intros Hf Hj Hb HQ. revert j Hf Hj. induction fuel as [|fuel IH]; intros j Hf Hj; cbn [swap_loop].
  all: destruct (left j - 1 <? 0) eqn:E; to_prop; [by apply wpc_ret|try lia].
  assert (j < steps) as Hjs by (unfold left, steps in *; dlia). pose proof (left_bounds j ltac:(lia)) as Hlb.
  rewrite copy_sz_spec by (done || lia). replace (Z.max 0 (left j - 1 + 1 - 30)) with (left (j + 1)) by (unfold left; lia).
  rewrite (proj2 (Z.leb_gt (bs_idx bs) j)) by lia. apply wpc_bind, wpc_ret. apply IH; lia.
Qed.

Lemma wpc_copy_image_done f (C : memory -> Prop) : N = Z.max 1 ((size + 4095) / 4096) -> swapping steps 0 f ->
  wpc (boot_copy_image d (BootStatus steps 0 false 0)) (fun _ g => g = f) C f.
Proof.
  intros HNs S. assert (1 <= steps) as Hs1 by (unfold steps; dlia). unfold boot_copy_image. apply wpc_memory. cbn [bs_idx bs_state bs_use_scratch bs_swap_size].
  rewrite (proj2 (Z.eqb_neq steps 0)) by lia. cbn [andb]. rewrite (read_swap_size f _ (sw_trailer _ _ _ S)). change (default 0 (Some size)) with size.
  rewrite last_sector_spec, <- HNs by (done || dlia). apply wpc_bind. replace (N - 1) with (left 0 - 1) by (unfold left; lia).
  assert (length (sectors (img0 d)) = 105%nat) as -> by (by destruct L as [-> _ _]).
  apply wpc_swap_done; [unfold left; lia|lia|done|by apply wpc_ret].
Qed.

Lemma wpc_copy_image idx st f : N = Z.max 1 ((size + 4095) / 4096) -> 0 <= idx <= steps -> 0 <= st < 3 -> (idx = steps -> st = 0) -> at_step idx st f ->
  (idx = 0 -> st = 0 -> Z.max (image_extent f d 0) (image_extent f d 1) = size) ->
  wpc (boot_copy_image d (BootStatus idx st false 0)) (fun _ g => swapping steps 0 g) resumable f.
Proof.
  intros HNs Hi Hst He S Hx. unfold boot_copy_image. apply wpc_memory. cbn [bs_idx bs_state bs_use_scratch bs_swap_size].
  assert ((if (idx =? 0) && (st =? 0) then Z.max (image_extent f d 0) (image_extent f d 1) else default 0 (boot_read_swap_size f)) = size) as ->.
  { unfold at_step in S. destruct ((idx =? 0) && (st =? 0)) eqn:E.
    - apply andb_true_iff in E as [E1 E2]. to_prop. by apply Hx.
    - apply andb_false_iff in E. rewrite (proj2 (Z.eqb_neq (3 * idx + st) 0)) in S by (destruct E; to_prop; lia).
      by rewrite (read_swap_size f _ (sw_trailer _ _ _ S)). }
  rewrite last_sector_spec, <- HNs by (done || dlia). apply wpc_bind.
  eapply wpc_mono; [|intros bs g Hg; apply wpc_ret; exact Hg|done]. replace (N - 1) with (left 0 - 1) by (unfold left; lia).
  assert (length (sectors (img0 d)) = 105%nat) as -> by (by destruct L as [-> _ _]).
  apply wpc_swap_loop; try done; unfold left; lia.
Qed.
End Loop.
End Swap.

(** ** Images that end where their TLVs end *)

(** The TLVs from [off] on end at [end_]. *)
Fixpoint tlvs_tile (fuel : nat) (f : memory) (a : flash_area) (off end_ : Z) : bool :=
  if negb (off <? end_) then true
  else match fuel with
  | O => false
  | S fuel' =>
      match flash_area_read f a off 4 with
      | None => false
      | Some tlv => let next := off + 4 + field 2 2 tlv in (next <=? end_) && tlvs_tile fuel' f a next end_
      end
  end.

Definition body_size (h : image_header) : Z := ih_hdr_size h + ih_img_size h.
Definition tlv_info (f : memory) (h : image_header) (a : flash_area) : list Z := bytes_at f (fa_off a + body_size h) 4.
Definition image_end (f : memory) (h : image_header) (a : flash_area) : Z := body_size h + field 2 2 (tlv_info f h a).
Definition header (f : memory) (a : flash_area) : image_header := parse_header (bytes_at f (fa_off a) IMAGE_HEADER_SIZE).

(** The image leaves the last page of the slot to the trailer. *)
Definition well_formed (f : memory) (h : image_header) (a : flash_area) : bool :=
  let tot := field 2 2 (tlv_info f h a) in
  (field 0 2 (tlv_info f h a) =? IMAGE_TLV_INFO_MAGIC) && (4 <=? tot) && (image_end f h a <=? 0x68000) &&
  tlvs_tile (Z.to_nat (tot / 4 + 1)) f a (body_size h + 4) (image_end f h a).

Lemma le_bounds l : Forall is_byte l -> 0 <= le l < 2 ^ (8 * Z.of_nat (length l)).
Proof.
  intros H. induction H as [|x l Hx _ IH]; [done|]. cbn [le foldr length]. unfold le in IH. unfold is_byte in Hx.
  replace (8 * Z.of_nat (S (length l))) with (8 * Z.of_nat (length l) + 8) by lia. rewrite Z.pow_add_r by lia. lia.
Qed.

Lemma field_bounds k n l : Forall is_byte l -> 0 <= field k n l < 2 ^ (8 * Z.of_nat n).
Proof.
  intros H. pose proof (le_bounds (take n (drop k l))) as Hb. unfold field. specialize (Hb ltac:(by apply Forall_take, Forall_drop)).
  rewrite length_take in Hb. pose proof (Z.pow_le_mono_r 2 (8 * Z.of_nat (n `min` length (drop k l))) (8 * Z.of_nat n)). lia.
Qed.

(** The first [n] bytes of two slots agree. *)
Definition agree (n : Z) (f : memory) (a : flash_area) (g : memory) (b : flash_area) : Prop :=
  forall i, 0 <= i < n -> f (fa_off a + i) = g (fa_off b + i).

Section Local.
Context {Cr : BootCrypto} (n : Z) (f g : memory) (a b : flash_area).
Context (Ha : is_area a) (Hb : is_area b) (Hna : n <= fa_size a) (Hnb : n <= fa_size b) (Hf : good f) (Hag : agree n f a g b).

Lemma agree_bytes off len : 0 <= off -> off + len <= n -> bytes_at f (fa_off a + off) len = bytes_at g (fa_off b + off) len.
Proof.
  intros Ho Hl. apply bytes_at_ext. intros k Hk. replace (fa_off a + off + k) with (fa_off a + (off + k)) by lia.
  replace (fa_off b + off + k) with (fa_off b + (off + k)) by lia. apply Hag. lia.
Qed.

Lemma agree_read off len : 0 <= off -> 0 <= len -> off + len <= n -> flash_area_read g b off len = flash_area_read f a off len.
Proof. intros Ho Hl Hs. rewrite !area_read by (done || lia). by rewrite agree_bytes. Qed.

Lemma agree_hash fuel buf off size : 0 < buf -> 0 <= off -> size <= n -> hash_loop fuel g b buf off size = hash_loop fuel f a buf off size.
Proof.
  intros Hbuf. revert off. induction fuel as [|fuel IH]; intros off Ho Hs; cbn [hash_loop]; [done|].
  destruct (off <? size) eqn:E; to_prop; cbn [negb]; [|done]. rewrite agree_read by lia. by rewrite IH by lia.
Qed.

Lemma agree_tlvs fuel fuel' hash off end_ s v k : 0 <= off -> end_ <= n -> n <= 0x69000 -> tlvs_tile fuel' f a off end_ = true ->
  tlv_loop fuel g b hash off end_ s v k = tlv_loop fuel f a hash off end_ s v k.
Proof.
  revert fuel' off s v k. induction fuel as [|fuel IH]; intros fuel' off s v k Ho He Hn Ht; cbn [tlv_loop]; [done|].
  destruct fuel' as [|fuel']; cbn [tlvs_tile] in Ht; destruct (off <? end_) eqn:E; try done; cbn [negb] in *; to_prop.
  destruct (flash_area_read f a off 4) as [tlv|] eqn:Er; [|done]. apply andb_true_iff in Ht as [Hnx Ht]. to_prop.
  assert (0 <= field 2 2 tlv) as Hl.
  { unfold flash_area_read, flash_read in Er. case_match; [|done]. injection Er as <-. apply field_bounds. by apply bytes_at_good. }
  rewrite agree_read, Er by lia. unfold u32. rewrite !Z.mod_small by lia.
  assert (forall s v k, tlv_loop fuel g b hash (off + 4 + field 2 2 tlv) end_ s v k = tlv_loop fuel f a hash (off + 4 + field 2 2 tlv) end_ s v k) as IH'
    by (intros s' v' k'; apply (IH fuel'); [lia|lia|lia|done]).
  assert (forall len, 0 <= len <= field 2 2 tlv -> flash_area_read g b (off + 4) len = flash_area_read f a (off + 4) len) as Hrd by (intros len Hlen; apply agree_read; lia).
  repeat match goal with |- context [if ?c then _ else _] => let E := fresh "E" in destruct c eqn:E; try done end;
    to_prop; rewrite ?IH'; try done; rewrite Hrd by lia; repeat case_match; by rewrite ?IH'.
Qed.

Lemma agree_header : IMAGE_HEADER_SIZE <= n -> header g b = header f a.
Proof.
  intros Hn. unfold header. f_equal. pose proof (agree_bytes 0 IMAGE_HEADER_SIZE ltac:(lia) ltac:(lia)) as E. by rewrite !Z.add_0_r in E.
Qed.

Lemma agree_info h : 0 <= body_size h -> body_size h + 4 <= n -> tlv_info g h b = tlv_info f h a.
Proof. intros H1 H2. symmetry. by apply agree_bytes. Qed.

Lemma agree_validate h : 0 <= body_size h -> well_formed f h a = true -> image_end f h a <= n -> n <= 0x69000 ->
  bootutil_img_validate g h b BOOT_TMPBUF_SZ [] = bootutil_img_validate f h a BOOT_TMPBUF_SZ [].
Proof.
  intros H0 Hw He Hn. unfold well_formed in Hw. rewrite !andb_true_iff in Hw. destruct Hw as [[[Hm H4] _] Ht]. to_prop. unfold image_end in *.
  unfold bootutil_img_validate, bootutil_img_hash. replace (ih_img_size h + ih_hdr_size h) with (body_size h) by (unfold body_size; lia).
  unfold u32. cbv zeta. rewrite (Z.mod_small (body_size h)) by lia. rewrite agree_hash by (unfold BOOT_TMPBUF_SZ; lia).
  destruct (boot_sha256 <$> _) as [hash|]; [|done]. rewrite agree_read, area_read by (done || lia). fold (tlv_info f h a).
  case_match; [done|]. rewrite !Z.mod_small by lia. eapply agree_tlvs; [lia|exact He|done|exact Ht].
Qed.

Lemma agree_tile fuel off end_ : 0 <= off -> end_ <= n -> tlvs_tile fuel f a off end_ = true -> tlvs_tile fuel g b off end_ = true.
Proof.
  revert off. induction fuel as [|fuel IH]; intros off Ho He; cbn [tlvs_tile]; [done|]. destruct (off <? end_) eqn:E; cbn [negb]; [|done]. to_prop.
  destruct (flash_area_read f a off 4) as [tlv|] eqn:Er; [|done]. intros [Hnx Ht]%andb_true_iff. to_prop.
  assert (0 <= field 2 2 tlv) as Hl.
  { unfold flash_area_read, flash_read in Er. case_match; [|done]. injection Er as <-. apply field_bounds. by apply bytes_at_good. }
  rewrite agree_read, Er by lia. apply andb_true_iff. split; [by apply Z.leb_le|]. apply IH; [lia|lia|done].
Qed.

Lemma agree_wf h : 0 <= body_size h -> well_formed f h a = true -> image_end f h a <= n ->
  well_formed g h b = true /\ image_end g h b = image_end f h a.
Proof.
  intros H0 Hw He. unfold well_formed in Hw |- *. unfold image_end in *. rewrite !andb_true_iff in Hw. destruct Hw as [[[Hm H4] Hx] Ht]. to_prop.
  rewrite !agree_info by lia. split; [|done]. rewrite !andb_true_iff. split_and!; [by apply Z.eqb_eq|by apply Z.leb_le|by apply Z.leb_le|].
  apply agree_tile; [lia|done|done].
Qed.
End Local.

Lemma header_nonneg f a : good f -> 0 <= body_size (header f a).
Proof.
  intros Hg. unfold body_size, header, parse_header. cbn [ih_hdr_size ih_img_size].
  pose proof (field_bounds 8 2 _ (bytes_at_good f (fa_off a) IMAGE_HEADER_SIZE Hg)).
  pose proof (field_bounds 12 4 _ (bytes_at_good f (fa_off a) IMAGE_HEADER_SIZE Hg)). lia.
Qed.

(** ** The boot loader *)

(** The size a swap exchanges, and its pages. *)
Definition extent (f : memory) (a : flash_area) : Z := if ih_magic (header f a) =? IMAGE_MAGIC then image_end f (header f a) a else 0.
Definition swap_size (f : memory) : Z := Z.max (extent f image_0) (extent f image_1).
Definition swap_pages (f : memory) : Z := Z.max 1 ((swap_size f + 4095) / 4096).

Definition loaded (f : memory) (d : boot_data) : boot_data := with_hdrs (header f image_0) (header f image_1) d.

Lemma read_headers f d : boot_read_image_headers f d = (0, loaded f d).
Proof.
  unfold boot_read_image_headers, boot_read_image_header. change (flash_area_open (flash_area_id_from_image_slot 0)) with (Some image_0).
  change (flash_area_open (flash_area_id_from_image_slot 1)) with (Some image_1). cbn [mbind option_bind fmap option_fmap option_map].
  rewrite !area_read by (auto with areas; cbv; discriminate). cbn [fmap option_fmap option_map]. by rewrite !Z.add_0_r.
Qed.

Lemma loaded_layout f d : layout d -> layout (loaded f d).
Proof. by intros [? ? ?]. Qed.

Lemma wf_end f h a : well_formed f h a = true -> field 0 2 (tlv_info f h a) = IMAGE_TLV_INFO_MAGIC /\ body_size h + 4 <= image_end f h a <= 0x68000.
Proof. unfold well_formed, image_end. rewrite !andb_true_iff. intros [[[H1 H2] H3] _]. to_prop. split; [done|lia]. Qed.

(** What the loader computes is [extent]. *)
Lemma extent_loaded f d slot a : good f -> slot = 0 /\ a = image_0 \/ slot = 1 /\ a = image_1 ->
  (ih_magic (header f a) = IMAGE_MAGIC -> field 0 2 (tlv_info f (header f a) a) = IMAGE_TLV_INFO_MAGIC /\
    body_size (header f a) + 4 <= image_end f (header f a) a <= 0x68000) -> image_extent f (loaded f d) slot = extent f a.
Proof.
  intros Hg Hs Hw. unfold image_extent, extent. assert (boot_img_hdr (loaded f d) slot = header f a) as -> by (by destruct Hs as [[-> ->]|[-> ->]]).
  destruct (_ =? IMAGE_MAGIC) eqn:E; to_prop; [|done]. destruct (Hw E) as [Hi He]. pose proof (header_nonneg f a Hg) as H0.
  unfold boot_read_image_size. assert (flash_area_open (flash_area_id_from_image_slot slot) = Some a) as -> by (by destruct Hs as [[-> ->]|[-> ->]]).
  assert (is_area a /\ fa_size a = 0x69000) as [Ha Hz] by (destruct Hs as [[_ ->]|[_ ->]]; auto with areas).
  fold (body_size (header f a)). unfold u32 at 1. rewrite Z.mod_small by lia. rewrite area_read by (done || lia). fold (tlv_info f (header f a) a).
  rewrite Hi, Z.eqb_refl. cbn [negb size_or_zero]. change (ih_hdr_size ?h + ih_img_size ?h + ?x) with (body_size h + x). fold (image_end f (header f a) a).
  apply Z.mod_small. lia.
Qed.

Section Go.
Context {Cr : BootCrypto}.

Definition valid_image (f : memory) (a : flash_area) : bool :=
  (ih_magic (header f a) =? IMAGE_MAGIC) && (Z.land (ih_flags (header f a)) IMAGE_F_NON_BOOTABLE =? 0) && well_formed f (header f a) a &&
  bool_decide (bootutil_img_validate f (header f a) a BOOT_TMPBUF_SZ [] = Some 0).

(** Slot 1 holds a valid image and slot 0 a complete image or none; no swap is under way.  [ok] is the flag of slot 1. *)
Record swappable (f : memory) (ok : Z) : Prop := Swappable {
  sp_good : good f;
  sp_ok : ok = 1 \/ ok = 0xFF;
  sp_flag : exists m c, boot_read_swap_state_by_id f FLASH_AREA_IMAGE_1 = Some (SwapState m c ok);
  sp_new : valid_image f image_1 = true;
  sp_old : ih_magic (header f image_0) = IMAGE_MAGIC -> well_formed f (header f image_0) image_0 = true;
  sp_status : clean0 f;
  sp_scratch : bytes_at f 0xFBFF0 16 <> boot_img_magic;
  sp_tail : forall p, 30 <= p <= swap_pages f -> bytes_at f (S1 + 4096 * p - 16) 16 <> boot_img_magic }.

(** An upgrade is requested, as a test or for good. *)
Record pending (f : memory) (ok : Z) : Prop := Pending {
  pend_slots : swappable f ok;
  pend_type : boot_swap_type f = SWAP_TEST \/ boot_swap_type f = SWAP_PERM }.

(** The first [n] bytes of the slots are exchanged; the swap is marked complete. *)
Record swapped (f0 : memory) (n ok : Z) (g : memory) : Prop := Swapped {
  sd_good : good g;
  sd_slots : forall i, 0 <= i < n -> g (S0 + i) = f0 (S1 + i) /\ g (S1 + i) = f0 (S0 + i);
  sd_state0 : boot_read_swap_state_by_id g FLASH_AREA_IMAGE_0 = Some (SwapState GOOD (Some 1) ok);
  sd_state1 : boot_read_swap_state_by_id g FLASH_AREA_IMAGE_1 = Some (SwapState UNSET (Some 0xFF) 0xFF);
  sd_scratch : bytes_at g 0xFBFF0 16 <> boot_img_magic }.

Lemma valid_spec f a : valid_image f a = true -> ih_magic (header f a) = IMAGE_MAGIC /\ Z.land (ih_flags (header f a)) IMAGE_F_NON_BOOTABLE = 0 /\
  well_formed f (header f a) a = true /\ bootutil_img_validate f (header f a) a BOOT_TMPBUF_SZ [] = Some 0.
Proof. unfold valid_image. rewrite !andb_true_iff, bool_decide_eq_true. intros [[[? ?] ?] ?]. by to_prop. Qed.

(** A slot that starts with the same bytes passes the check of the loader. *)
Lemma wpc_validate n f g a b d slot (Q : Z -> memory -> Prop) C : good f -> valid_image f a = true -> is_area a -> is_area b -> fa_size a = 0x69000 -> fa_size b = 0x69000 ->
  IMAGE_HEADER_SIZE <= n <= 0x69000 -> image_end f (header f a) a <= n -> agree n f a g b ->
  boot_img_hdr d slot = header g b -> flash_area_open (flash_area_id_from_image_slot slot) = Some b -> Q 0 g ->
  wpc (boot_validate_slot d slot) Q C g.
Proof.
  intros Hg Hv Ha Hb Hza Hzb Hn He Hag Hh Ho HQ. apply valid_spec in Hv as (Hm & Hfl & Hw & Hv).
  assert (header g b = header f a) as E by (apply (agree_header n); lia || done). unfold boot_validate_slot. rewrite Hh, E, Hm, Hfl, Ho.
  cbn [Z.eqb orb negb IMAGE_MAGIC IMAGE_MAGIC_NONE Pos.eqb]. apply wpc_memory. unfold boot_image_check.
  rewrite (agree_validate n f g a b) by (done || lia || by apply header_nonneg). rewrite Hv. by apply wpc_ret.
Qed.

(** A copy of a valid image is valid. *)
Lemma valid_agree n f g a b : good f -> valid_image f a = true -> is_area a -> is_area b -> fa_size a = 0x69000 -> fa_size b = 0x69000 ->
  IMAGE_HEADER_SIZE <= n <= 0x69000 -> image_end f (header f a) a <= n -> agree n f a g b ->
  valid_image g b = true /\ header g b = header f a /\ image_end g (header g b) b = image_end f (header f a) a.
Proof.
  intros Hg Hv Ha Hb Hza Hzb Hn He Hag. apply valid_spec in Hv as (Hm & Hfl & Hw & Hv). pose proof (header_nonneg f a Hg) as H0.
  assert (header g b = header f a) as E by (apply (agree_header n); lia || done).
  destruct (agree_wf n f g a b Ha Hb ltac:(lia) ltac:(lia) Hg Hag (header f a) H0 Hw He) as [Hw' He'].
  unfold valid_image. rewrite E, Hm, Hfl, Hw', He'. split_and!; [|done|done]. rewrite (agree_validate n f g a b) by (done || lia). by rewrite Hv.
Qed.

Context (f0 : memory) (ok : Z) (P : swappable f0 ok).

Let N := swap_pages f0.
Let size := swap_size f0.

Lemma new_magic : ih_magic (header f0 image_1) = IMAGE_MAGIC.
Proof. apply (valid_spec _ _ (sp_new _ _ P)). Qed.

Lemma new_end : body_size (header f0 image_1) + 4 <= image_end f0 (header f0 image_1) image_1 <= 0x68000.
Proof. by destruct (valid_spec _ _ (sp_new _ _ P)) as (_ & _ & [_ Hw]%wf_end & _). Qed.

Lemma size_bounds : 0 <= size <= 0x68000 /\ image_end f0 (header f0 image_1) image_1 <= size.
Proof.
  pose proof new_end as He. pose proof (header_nonneg f0 image_1 (sp_good _ _ P)) as H0. unfold size, swap_size, extent.
  rewrite new_magic, Z.eqb_refl. destruct (_ =? IMAGE_MAGIC) eqn:E; to_prop; [|lia].
  destruct (wf_end _ _ _ (sp_old _ _ P E)) as [_ ?]. lia.
Qed.

Lemma pages_bounds : 1 <= N <= 104 /\ size <= 4096 * N.
Proof. pose proof size_bounds. unfold N, swap_pages. fold size. dlia. Qed.

Lemma flag_byte : f0 0xDDFE8 = ok.
Proof. destruct (sp_flag _ _ P) as (m & c & Hc). rewrite state_slot1 in Hc. by injection Hc as _ _ Ho. Qed.

Lemma swappable_starting : starting f0 N f0.
Proof. destruct P. by split. Qed.

Lemma upgrade_magic f : boot_swap_type f = SWAP_TEST \/ boot_swap_type f = SWAP_PERM -> bytes_at f 0xDDFF0 16 = boot_img_magic.
Proof.
  unfold boot_swap_type. rewrite state_slot0, state_slot1. rewrite <- magic_good. unfold swap_row_matches.
  cbn [List.find boot_swap_tables magic_slot0 magic_slot1 image_ok_slot0 image_ok_slot1 copy_done_slot0 any_or magic copy_done image_ok].
  destruct (boot_magic_code (bytes_at f 0xDDFF0 16)); [done|..]; cbn [andb];
    change (bool_decide (Some BAD = Some GOOD)) with false; change (bool_decide (Some UNSET = Some GOOD)) with false; cbn [andb]; rewrite ?andb_false_r; match goal with |- context [if ?b then _ else _] => destruct b end; by intros [|].
Qed.

Lemma start_type f : bytes_at f0 0xDDFF0 16 = boot_img_magic -> starting f0 N f -> boot_swap_type f = if ok =? 1 then SWAP_PERM else SWAP_TEST.
Proof.
  intros Hm S. unfold boot_swap_type. rewrite state_slot0, state_slot1.
  assert (bytes_at f 0xDDFF0 16 = boot_img_magic) as Hm'.
  { rewrite <- Hm. apply bytes_at_ext. intros i Hi. replace (0xDDFF0 + i) with (S1 + (0x68FF0 + i)) by lia. apply (start_slot1 _ _ _ S). lia. }
  assert (f 0xDDFE8 = ok) as -> by (rewrite <- flag_byte; apply (start_slot1 _ _ _ S 0x68FE8); lia).
  apply magic_good in Hm'. rewrite Hm'. destruct (sp_ok _ _ P) as [-> | ->]; by cbn.
Qed.

Lemma start_headers f : starting f0 N f -> header f image_0 = header f0 image_0 /\ header f image_1 = header f0 image_1.
Proof.
  intros S. pose proof pages_bounds as HN. split.
  - apply (agree_header (4096 * N)); [|unfold IMAGE_HEADER_SIZE; lia]. intros i Hi. symmetry. by apply (start_slot0 _ _ _ S).
  - apply (agree_header 0x69000); [|done]. intros i Hi. symmetry. by apply (start_slot1 _ _ _ S).
Qed.

Lemma start_extents f d : starting f0 N f -> Z.max (image_extent f (loaded f d) 0) (image_extent f (loaded f d) 1) = size.
Proof.
  intros S. pose proof pages_bounds as HN. destruct (start_headers f S) as [E0 E1].
  assert (ih_magic (header f0 image_0) = IMAGE_MAGIC -> tlv_info f (header f0 image_0) image_0 = tlv_info f0 (header f0 image_0) image_0) as I0.
  { intros Hm. destruct (wf_end _ _ _ (sp_old _ _ P Hm)) as [_ He].
    apply (agree_info (4096 * N)); [intros i Hi; symmetry; by apply (start_slot0 _ _ _ S)|apply header_nonneg, P|].
    unfold size, swap_size, extent in HN. rewrite Hm, Z.eqb_refl in HN. lia. }
  assert (tlv_info f (header f0 image_1) image_1 = tlv_info f0 (header f0 image_1) image_1) as I1.
  { apply (agree_info 0x69000); [intros i Hi; symmetry; by apply (start_slot1 _ _ _ S)|apply header_nonneg, P|]. pose proof new_end. lia. }
  rewrite (extent_loaded f d 0 image_0), (extent_loaded f d 1 image_1); [|apply S|by right| |apply S|by left|].
  - unfold size, swap_size, extent, image_end. rewrite E0, E1, I1. destruct (ih_magic (header f0 image_0) =? IMAGE_MAGIC) eqn:E; to_prop; [|done]. by rewrite I0.
  - intros _. unfold image_end. rewrite E1, I1. apply wf_end. apply (valid_spec _ _ (sp_new _ _ P)).
  - rewrite E0. intros Hm. unfold image_end. rewrite (I0 Hm). by apply wf_end, P.
Qed.

Lemma page1_state g : (forall i, 0 <= i < 4096 -> g (PAGE1 + i) = 0xFF) -> boot_read_swap_state_by_id g FLASH_AREA_IMAGE_1 = Some (SwapState UNSET (Some 0xFF) 0xFF).
Proof.
  intros H. rewrite state_slot1. assert (bytes_at g 0xDDFF0 16 = repeat 0xFF 16) as ->.
  { change (repeat 0xFF 16) with (bytes_at (fun _ => 0xFF) 0 16). apply bytes_at_ext. intros k Hk.
    replace (0xDDFF0 + k) with (PAGE1 + (0xFF0 + k)) by lia. apply H. lia. }
  pose proof (H 0xFE0 ltac:(lia)) as H1. pose proof (H 0xFE8 ltac:(lia)) as H2. change (PAGE1 + 0xFE0) with 0xDDFE0 in H1. change (PAGE1 + 0xFE8) with 0xDDFE8 in H2.
  by rewrite H1, H2.
Qed.

(** A swap that was resumed is taken for a permanent one. *)
Lemma resumed_type o g : swapping f0 o size N (steps N) 0 g -> boot_previous_swap_type g = SWAP_PERM.
Proof.
  intros S. pose proof pages_bounds as HN. unfold boot_previous_swap_type, boot_swap_type.
  rewrite page1_state by (apply S; unfold steps; dlia). rewrite state_slot0. destruct (sw_trailer _ _ _ _ _ _ _ S) as [_ Hm Hc _ _].
  apply magic_good in Hm. rewrite Hm, Hc. unfold swap_row_matches. cbn [List.find boot_swap_tables magic_slot0 magic_slot1 image_ok_slot0 image_ok_slot1 copy_done_slot0 any_or magic copy_done image_ok].
  change (bool_decide (Some UNSET = Some GOOD)) with false. change (bool_decide (Some 0xFF = Some 1)) with false. cbn [andb]. by rewrite !andb_false_r.
Qed.

Lemma wpc_copying f d idx st : layout d -> 0 <= idx <= steps N -> 0 <= st < 3 -> (idx = steps N -> st = 0) -> at_step f0 ok size N idx st f ->
  wpc (boot_copy_image (loaded f d) (BootStatus idx st false 0)) (fun _ g => swapping f0 ok size N (steps N) 0 g) (resumable f0 ok size N) f.
Proof.
  intros L Hi Hst He S. pose proof pages_bounds as HN. pose proof size_bounds as Hz. pose proof (loaded_layout f d L) as L'.
  apply wpc_copy_image; try done; [lia|lia|apply P|apply flag_byte|apply P|]. intros -> ->. by apply start_extents.
Qed.

Lemma wpc_start f d : layout d -> starting f0 N f -> boot_swap_type f ∈ [SWAP_TEST; SWAP_PERM; SWAP_REVERT] ->
  wpc (boot_swap_if_needed (loaded f d)) (fun r g => r = inr (boot_swap_type f) /\ swapping f0 ok size N (steps N) 0 g) (resumable f0 ok size N) f.
Proof.
  intros L S Ht. unfold boot_swap_if_needed. apply wpc_memory. change (write_sz (loaded f d)) with (write_sz d). rewrite (lay_wsz _ L).
  rewrite read_status_clean by apply S. cbn [bs_idx bs_state boot_status_zero Z.eqb negb orb]. apply wpc_bind.
  unfold boot_validated_swap_type. apply wpc_memory.
  assert (forall t, t ∈ [SWAP_TEST; SWAP_PERM; SWAP_REVERT] -> wpc (rc ← boot_validate_slot (loaded f d) 1; mret (if negb (rc =? 0) then SWAP_FAIL else t))
    (fun t' g => wpc (match t' with SWAP_TEST | SWAP_PERM | SWAP_REVERT => boot_copy_image (loaded f d) boot_status_zero | _ => mret 0 end ≫= fun _ => mret (inr t' : Z + swap_type))
    (fun r g => r = inr t /\ swapping f0 ok size N (steps N) 0 g) (resumable f0 ok size N) g) (resumable f0 ok size N) f) as Hv.
  { intros t Ht'. apply wpc_bind.
    eapply (wpc_validate 0x69000 f0 f image_1 image_1); [apply P|apply P|auto with areas..|done|done|done|pose proof new_end; lia| |done|done|].
    { intros i Hi. symmetry. by apply (start_slot1 _ _ _ S). }
    apply wpc_ret. cbn [Z.eqb negb]. apply wpc_bind. pose proof pages_bounds as HN.
    assert (wpc (boot_copy_image (loaded f d) boot_status_zero) (fun _ g => wpc (mret (inr t : Z + swap_type)) (fun r g => r = inr t /\
      swapping f0 ok size N (steps N) 0 g) (resumable f0 ok size N) g) (resumable f0 ok size N) f) as Hc
      by (eapply wpc_mono; [apply (wpc_copying f d 0 0); done || (unfold steps; dlia)|intros ? g Sg; by apply wpc_ret|done]).
    destruct t; first [exact Hc|exfalso; set_solver]. }
  specialize (Hv _ Ht). destruct (boot_swap_type f); first [exact Hv|exfalso; set_solver].
Qed.

Lemma wpc_resume f d idx st : layout d -> 0 <= idx <= steps N -> 0 <= st < 3 -> 1 <= 3 * idx + st -> (idx = steps N -> st = 0) -> swapping f0 ok size N idx st f ->
  wpc (boot_swap_if_needed (loaded f d)) (fun r g => r = inr SWAP_PERM /\ swapping f0 ok size N (steps N) 0 g) (resumable f0 ok size N) f.
Proof.
  intros L Hi Hst H1 He S. pose proof pages_bounds as HN. pose proof size_bounds as Hz.
  unfold boot_swap_if_needed. apply wpc_memory. change (write_sz (loaded f d)) with (write_sz d). rewrite (lay_wsz _ L).
  rewrite (read_status_trailer ok size _ f (sw_trailer _ _ _ _ _ _ _ S)) by (pose proof (steps_entries size N ltac:(lia) ltac:(lia) idx st); lia).
  replace ((3 * idx + st) / 3) with idx by dlia. replace ((3 * idx + st) mod 3) with st by dlia. cbn [bs_idx bs_state].
  assert (negb (idx =? 0) || negb (st =? 0) = true) as -> by (rewrite orb_true_iff, !negb_true_iff, !Z.eqb_neq; lia).
  apply wpc_bind. eapply wpc_mono; [apply (wpc_copying f d idx st); [done|done|done|done|]|intros ? g Sg|done].
  { unfold at_step. by rewrite (proj2 (Z.eqb_neq _ 0)) by lia. }
  apply wpc_memory, wpc_ret. by rewrite (resumed_type ok).
Qed.

(** ** The marks of a completed swap *)

(** All is copied, nothing marked. *)
Record exchanged (o : Z) (g : memory) : Prop := Exchanged {
  ex_good : good g;
  ex_slots : forall i, 0 <= i < 4096 * N -> g (S0 + i) = f0 (S1 + i) /\ g (S1 + i) = f0 (S0 + i);
  ex_magic : bytes_at g 0x74FF0 16 = boot_img_magic;
  ex_copy_done : g 0x74FE0 = 0xFF;
  ex_image_ok : g 0x74FE8 = o;
  ex_page1 : forall i, 0 <= i < 4096 -> g (PAGE1 + i) = 0xFF;
  ex_scratch : bytes_at g 0xFBFF0 16 <> boot_img_magic }.

Lemma swapping_exchanged o g : swapping f0 o size N (steps N) 0 g -> exchanged o g.
Proof.
  intros S. pose proof pages_bounds as HN. destruct (sw_trailer _ _ _ _ _ _ _ S) as [_ Hm Hc Hok _]. split; try done; [apply S| | |apply S].
  - intros i Hi. apply (sw_done _ _ _ _ _ _ _ S). unfold left, steps. dlia.
  - apply (sw_page1 _ _ _ _ _ _ _ S). unfold steps. dlia.
Qed.

Lemma wpc_copy_done o (C : memory -> Prop) f : exchanged o f -> C f ->
  wpc boot_set_copy_done (fun rc g => rc = 0 /\ swapped f0 (4096 * N) o g) C f.
Proof.
  intros [Gf Hs Hm Hc Hok Hp Hl] HC. pose proof pages_bounds as HN. unfold boot_set_copy_done. rewrite open_slot0.
  change (boot_write_copy_done image_0) with (or_eflash (flash_area_write image_0 0x68FE0 [1; 0xFF; 0xFF; 0xFF])).
  apply wpc_field; [auto with areas|lia|done|cbn [fa_size image_0]; lia|unfold is_byte; lia|done|done|].
  cbn [fa_off image_0]. change (S0 + 0x68FE0) with 0x74FE0. intros g Gg Hg. split; [done|].
  assert (forall i, i <> 0x74FE0 -> g i = f i) as Hne by (intros i Hi; by rewrite Hg, (proj2 (Z.eqb_neq _ _) Hi)). split; [done|..|by apply (tail_frame f); [intros i Hi; apply Hne; lia|]].
  - intros i Hi. rewrite !Hne by lia. by apply Hs.
  - rewrite state_slot0. rewrite (Hne 0x74FE8), Hok, Hg, Z.eqb_refl, Hc by lia. change (Z.land 0xFF 1) with 1. do 2 f_equal.
    apply magic_good. rewrite <- Hm. apply bytes_at_ext. intros i Hi. apply Hne. lia.
  - apply page1_state. intros i Hi. rewrite Hne by lia. by apply Hp.
Qed.

Lemma wpc_image_ok f : ok = 0xFF -> swapping f0 ok size N (steps N) 0 f ->
  wpc boot_set_image_ok (fun rc g => rc = 0 /\ swapping f0 1 size N (steps N) 0 g) (resumable f0 ok size N) f.
Proof.
  intros Eo S. pose proof pages_bounds as HN. assert (resumable f0 ok size N f) as R by (apply (resume _ _ _ _ (steps N) 0); done || (unfold steps; dlia)).
  assert (0 <= left N (steps N + 1) <= left N (steps N) /\ left N (steps N) <= N) as Hl by (unfold left, steps; dlia).
  destruct S as [Gf [He Hm Hc Ho Hs] Hd Ht H0 H1 Hsc Hp Htl]. rewrite Eo in *. unfold boot_set_image_ok. rewrite open_slot0. apply wpc_memory.
  change (boot_read_swap_state f image_0) with (boot_read_swap_state_by_id f FLASH_AREA_IMAGE_0). rewrite state_slot0, Ho. cbn [image_ok Z.eqb Pos.eqb BOOT_FLAG_UNSET].
  change (boot_write_image_ok image_0) with (or_eflash (flash_area_write image_0 0x68FE8 [1; 0xFF; 0xFF; 0xFF])).
  apply wpc_field; [auto with areas|lia|done|cbn [fa_size image_0]; lia|unfold is_byte; lia|done|done|].
  cbn [fa_off image_0]. change (S0 + 0x68FE8) with 0x74FE8. intros g Gg Hg. split; [done|].
  assert (forall i, i <> 0x74FE8 -> g i = f i) as Hne by (intros i Hi; by rewrite Hg, (proj2 (Z.eqb_neq _ _) Hi)).
  split; [done| |..|by apply (tail_frame f); [intros i Hi; apply Hne; lia|]]; try (intros; rewrite ?Hne by lia; by auto).
  split; [intros j Hj; rewrite Hne by lia; by apply He| |by rewrite Hne by lia|by rewrite Hg, Z.eqb_refl, Ho|].
  - rewrite <- Hm. apply bytes_at_ext. intros i Hi. apply Hne. lia.
  - rewrite <- Hs. f_equal. apply bytes_at_ext. intros i Hi. apply Hne. lia.
Qed.

Lemma wpc_finish t f : t = SWAP_TEST \/ t = SWAP_PERM -> swapping f0 ok size N (steps N) 0 f ->
  wpc (boot_finish_swap t) (fun r g => r = Some true /\ swapped f0 (4096 * N) ok g) (resumable f0 ok size N) f.
Proof.
  intros Ht S. pose proof pages_bounds as HN. assert (resumable f0 ok size N f) as R by (apply (resume _ _ _ _ (steps N) 0); done || (unfold steps; dlia)).
  pose proof (wpc_copy_done ok _ f (swapping_exchanged ok f S) R) as Hd.
  unfold boot_finish_swap. destruct Ht as [-> | ->]; apply wpc_bind, wpc_ret; cbn [Z.eqb negb]; apply wpc_bind;
    (eapply wpc_mono; [exact Hd|intros rc g [-> Hg]; by apply wpc_ret|done]).
Qed.

(** What a power failure may leave of a revert: the flag of the image that is back may be set already. *)
Definition reverting (g : memory) : Prop := resumable f0 ok size N g \/ swapping f0 1 size N (steps N) 0 g.

Lemma wpc_finish_revert f : ok = 0xFF -> swapping f0 ok size N (steps N) 0 f ->
  wpc (boot_finish_swap SWAP_REVERT) (fun r g => r = Some true /\ swapped f0 (4096 * N) 1 g) reverting f.
Proof.
  intros E S. unfold boot_finish_swap. apply wpc_bind. eapply wpc_mono; [by apply wpc_image_ok| |intros g Hg; by left].
  intros rc g [-> Sg]. cbn [Z.eqb negb]. apply wpc_bind. eapply wpc_mono; [apply (wpc_copy_done 1 reverting); [by apply swapping_exchanged|by right]| |done].
  intros rc h [-> Sh]. by apply wpc_ret.
Qed.

(** The new image is started. *)
Lemma wpc_response (C : memory -> Prop) o d f : swapped f0 (4096 * N) o f ->
  wpc (boot_response d true) (fun r g => r = (0, Some (BootRsp (header f0 image_1) S0)) /\ swapped f0 (4096 * N) o g) C f.
Proof.
  intros Sd. pose proof pages_bounds as HN. pose proof size_bounds as Hz.
  assert (agree (4096 * N) f0 image_1 f image_0) as Hag by (intros i Hi; symmetry; by apply Sd).
  unfold boot_response. apply wpc_memory. rewrite read_headers. cbn [Z.eqb negb]. apply wpc_bind.
  eapply (wpc_validate (4096 * N) f0 f image_1 image_0); [apply P|apply P|auto with areas..|done|done|unfold IMAGE_HEADER_SIZE; lia|lia|done|done|done|].
  apply wpc_ret. split; [|done]. cbn [Z.eqb negb]. do 3 f_equal. change (boot_img_hdr (loaded f d) 0) with (header f image_0).
  apply (agree_header (4096 * N)); [done|unfold IMAGE_HEADER_SIZE; lia].
Qed.

(** [boot_go], given its swap. *)
Lemma wpc_go (C : memory -> Prop) o f (T : swap_type -> memory -> Prop) :
  (forall d, layout d -> wpc (boot_swap_if_needed (loaded f d)) (fun r g => exists t, r = inr t /\ T t g) C f) ->
  (forall t g, T t g -> wpc (boot_finish_swap t) (fun r g => r = Some true /\ swapped f0 (4096 * N) o g) C g) ->
  wpc boot_go (fun r g => r = (0, Some (BootRsp (header f0 image_1) S0)) /\ swapped f0 (4096 * N) o g) C f.
Proof.
  intros H1 H2. unfold boot_go. apply wpc_memory. destruct read_sectors as (d & -> & L). rewrite read_headers. cbn [Z.eqb negb].
  rewrite slots_compatible by (by apply loaded_layout). apply wpc_bind, wpc_bind.
  eapply wpc_mono; [by apply H1| |done]. intros r g (t & -> & Ht).
  apply wpc_bind. eapply wpc_mono; [by apply H2| |done]. intros p h [-> Sd]. apply wpc_ret. by apply wpc_response.
Qed.

Lemma wpc_resumed f idx st : 0 <= idx <= steps N -> 0 <= st < 3 -> 1 <= 3 * idx + st -> (idx = steps N -> st = 0) -> swapping f0 ok size N idx st f ->
  wpc boot_go (fun r g => r = (0, Some (BootRsp (header f0 image_1) S0)) /\ swapped f0 (4096 * N) ok g) (resumable f0 ok size N) f.
Proof.
  intros Hi Hst H1 He S. apply (wpc_go _ _ _ (fun t g => t = SWAP_PERM /\ swapping f0 ok size N (steps N) 0 g)); [|intros t g [-> Sg]; apply wpc_finish; auto].
  intros d L. eapply wpc_mono; [by apply (wpc_resume f d idx st)| |done]. intros r g [-> Sg]. eauto.
Qed.

Lemma wpc_upgrade f : bytes_at f0 0xDDFF0 16 = boot_img_magic -> resumable f0 ok size N f ->
  wpc boot_go (fun r g => r = (0, Some (BootRsp (header f0 image_1) S0)) /\ swapped f0 (4096 * N) ok g) (resumable f0 ok size N) f.
Proof.
  intros Hm [S|(idx & st & Hi & Hst & H1 & He & S)]; [|by apply (wpc_resumed f idx st)].
  apply (wpc_go _ _ _ (fun t g => (t = SWAP_TEST \/ t = SWAP_PERM) /\ swapping f0 ok size N (steps N) 0 g)); [|intros t g [Ht Sg]; by apply wpc_finish].
  intros d L. pose proof (start_type f Hm S) as Ht. assert (boot_swap_type f = SWAP_TEST \/ boot_swap_type f = SWAP_PERM) as Ht' by (rewrite Ht; case_match; auto).
  eapply wpc_mono; [apply wpc_start; [done|done|]| |done]; [destruct Ht' as [-> | ->]; set_solver|]. intros r g [-> Sg]. eauto.
Qed.

Lemma wpc_revert f : ok = 0xFF -> starting f0 N f -> boot_swap_type f = SWAP_REVERT ->
  wpc boot_go (fun r g => r = (0, Some (BootRsp (header f0 image_1) S0)) /\ swapped f0 (4096 * N) 1 g) reverting f.
Proof.
  intros E S Ht. apply (wpc_go _ _ _ (fun t g => t = SWAP_REVERT /\ swapping f0 ok size N (steps N) 0 g)); [|intros t g [-> Sg]; by apply wpc_finish_revert].
  intros d L. eapply wpc_mono; [apply wpc_start; [done|done|rewrite Ht; set_solver]| |intros g Hg; by left]. intros r g [-> Sg]. eauto.
Qed.

(** The revert was complete but for the last mark. *)
Lemma wpc_reverted f : swapping f0 1 size N (steps N) 0 f ->
  wpc boot_go (fun r g => r = (0, Some (BootRsp (header f0 image_1) S0)) /\ swapped f0 (4096 * N) 1 g) (fun _ => True) f.
Proof.
  intros S. pose proof pages_bounds as HN. pose proof size_bounds as Hz. assert (1 <= steps N) as Hs1 by (unfold steps; dlia).
  apply (wpc_go _ _ _ (fun t g => t = SWAP_PERM /\ g = f)).
  - intros d L. unfold boot_swap_if_needed. apply wpc_memory. change (write_sz (loaded f d)) with (write_sz d). rewrite (lay_wsz _ L).
    rewrite (read_status_trailer 1 size _ f (sw_trailer _ _ _ _ _ _ _ S)) by (pose proof (steps_entries size N ltac:(lia) ltac:(lia) (steps N) 0); lia).
    replace ((3 * steps N + 0) / 3) with (steps N) by dlia. replace ((3 * steps N + 0) mod 3) with 0 by dlia. cbn [bs_idx bs_state].
    rewrite (proj2 (Z.eqb_neq (steps N) 0)) by lia. cbn [negb orb]. apply wpc_bind.
    eapply wpc_mono; [apply (wpc_copy_image_done f0 1 size N) with (C := fun _ => True); [lia|lia|by apply loaded_layout|done|exact S]| |done].
    intros ? g ->. apply wpc_memory, wpc_ret. rewrite (resumed_type 1) by done. eauto.
  - intros t g [-> ->]. unfold boot_finish_swap. apply wpc_bind, wpc_ret. cbn [Z.eqb negb]. apply wpc_bind.
    eapply wpc_mono; [apply (wpc_copy_done 1 (fun _ => True)); [by apply swapping_exchanged|done]| |done]. intros rc h [-> Sh]. by apply wpc_ret.
Qed.
End Go.
