(* ===== verification/BootPolicy.v ===== *)
(** * What the boot loader of the BLE module guarantees

    The theorems on [boot_go]: an upgrade survives power failures, a test
    upgrade is kept only if it is confirmed, a bad upgrade does not touch the
    running image, and only signed images are started.  Then the reverts that
    power failures do spoil. *)
From Stdlib Require Import ZArith Lia Bool.
From stdpp Require Import base list numbers.
From S2P Require Import Prelude Flash BootTrailer BootImage BootLoader BootSwap.

Local Open Scope Z_scope.

(** The module restarts after each power failure; [g] is a memory a series of interrupted boots leaves. *)
Inductive reboots {Cr : BootCrypto} : memory -> memory -> Prop :=
  | reboots_none f : reboots f f
  | reboots_cut f n d g : boot_go (Dev f (Some n)) = (Cut, d) -> reboots (mem d) g -> reboots f g.

Section Policy.
Context {Cr : BootCrypto}.

Lemma reboots_snoc f g n d : reboots f g -> boot_go (Dev g (Some n)) = (Cut, d) -> reboots f (mem d).
Proof. induction 1 as [|f m d' g E R IH]; intros H; [by eapply reboots_cut; [exact H|constructor]|eapply reboots_cut; [exact E|by apply IH]]. Qed.

Lemma reboots_resumable f0 ok f g : pending f0 ok -> reboots f g -> resumable f0 ok (swap_size f0) (swap_pages f0) f ->
  resumable f0 ok (swap_size f0) (swap_pages f0) g.
Proof.
  intros P R. induction R as [|f n d g E R IH]; [done|]. intros Rs. apply IH.
  pose proof (wpc_upgrade f0 ok (pend_slots _ _ P) f (upgrade_magic _ (pend_type _ _ P)) Rs (Some n)) as W. rewrite E in W. apply W.
Qed.

(** What a boot that is given the power it needs does. *)
Definition boots_to (f : memory) (h : image_header) (Q : memory -> Prop) : Prop :=
  exists g, boot_go (Dev f None) = (Done (0, Some (BootRsp h (fa_off image_0))), Dev g None) /\ Q g.

Lemma wpc_boots f h (Q : memory -> Prop) C : wpc boot_go (fun r g => r = (0, Some (BootRsp h (fa_off image_0))) /\ Q g) C f -> boots_to f h Q.
Proof.
  intros H. specialize (H None). unfold boots_to. destruct (boot_go (Dev f None)) as [[r| | |] [g p]]; cbn [mem power] in H; [|naive_solver..].
  destruct H as [[-> HQ] Hp]. rewrite (Hp eq_refl). eauto.
Qed.

Lemma upgrade_boots f0 ok g : pending f0 ok -> reboots f0 g -> boots_to g (header f0 image_1) (swapped f0 (4096 * swap_pages f0) ok).
Proof.
  intros P R. eapply wpc_boots, wpc_upgrade; [apply P|apply upgrade_magic, P|]. eapply reboots_resumable; [done..|].
  left. eapply swappable_starting, P.
Qed.

(** ** Unchanged memory *)

Lemma swap_type_cases f : boot_swap_type f = SWAP_NONE \/ boot_swap_type f = SWAP_TEST \/ boot_swap_type f = SWAP_PERM \/ boot_swap_type f = SWAP_REVERT.
Proof.
  unfold boot_swap_type. rewrite state_slot0, state_slot1. cbn [List.find boot_swap_tables].
  repeat match goal with |- context [if ?b then _ else _] => destruct b end; cbn; auto.
Qed.

Lemma boot_unchanged f : boot_read_status f 4 = Some boot_status_zero -> boot_swap_type f = SWAP_NONE -> good f -> valid_image f image_0 = true ->
  boots_to f (header f image_0) (fun g => g = f).
Proof.
  intros Hs Ht Hg Hv. apply (wpc_boots _ _ _ (fun _ => True)). unfold boot_go. apply wpc_memory. destruct read_sectors as (d & -> & L).
  rewrite read_headers. cbn [Z.eqb negb]. rewrite slots_compatible by (by apply loaded_layout). apply wpc_bind, wpc_bind.
  unfold boot_swap_if_needed. apply wpc_memory. change (write_sz (loaded f d)) with (write_sz d). rewrite (lay_wsz _ L), Hs.
  cbn [bs_idx bs_state boot_status_zero Z.eqb negb orb]. apply wpc_bind. unfold boot_validated_swap_type. apply wpc_memory. rewrite Ht. apply wpc_ret, wpc_bind, wpc_ret, wpc_ret.
  apply wpc_bind. unfold boot_finish_swap. apply wpc_bind, wpc_ret. cbn [Z.eqb negb]. apply wpc_ret, wpc_ret.
  unfold boot_response. apply wpc_memory. cbn [Z.eqb negb]. apply wpc_bind. destruct (valid_spec _ _ Hv) as (_ & _ & [_ Hw]%wf_end & _).
  eapply (wpc_validate 0x69000 f f image_0 image_0); auto with areas; try done. lia.
Qed.

Lemma swapped_clean f0 n ok g : swapped f0 n ok g -> clean0 g.
Proof. intros S. pose proof (sd_state0 _ _ _ _ S) as H. rewrite state_slot0 in H. injection H as Hm Hc _. apply magic_good in Hm. by right. Qed.

Lemma swapped_type f0 n ok g : ok = 1 \/ ok = 0xFF -> swapped f0 n ok g -> boot_swap_type g = if ok =? 1 then SWAP_NONE else SWAP_REVERT.
Proof. intros Hok S. unfold boot_swap_type. rewrite (sd_state0 _ _ _ _ S), (sd_state1 _ _ _ _ S). by destruct Hok as [-> | ->]. Qed.

(** The images after a swap. *)
Lemma swapped_agree f0 n ok g : swapped f0 n ok g -> agree n f0 image_1 g image_0 /\ agree n f0 image_0 g image_1.
Proof. intros S. split; intros i Hi; symmetry; by apply (sd_slots _ _ _ _ S). Qed.

(** A confirmed image is started by every further boot. *)
Lemma swapped_stays f0 ok g : swappable f0 ok -> swapped f0 (4096 * swap_pages f0) 1 g -> boots_to g (header f0 image_1) (fun h => h = g).
Proof.
  intros P S. pose proof (pages_bounds _ _ P) as HN. pose proof (size_bounds _ _ P) as Hz.
  destruct (valid_agree (4096 * swap_pages f0) f0 g image_1 image_0) as (Hv & <- & _); auto with areas; try apply P; [unfold IMAGE_HEADER_SIZE; lia|lia|by eapply swapped_agree|].
  apply boot_unchanged; [|by eapply swapped_type in S; [|left]|apply S|done]. eapply read_status_clean; [by eapply swapped_clean|apply S].
Qed.

Section Test.
Context (f0 : memory) (Ps : swappable f0 0xFF) (Hold : valid_image f0 image_0 = true).
Context (Htail : forall p, 30 <= p <= swap_pages f0 -> bytes_at f0 (fa_off image_0 + 4096 * p - 16) 16 <> boot_img_magic).

Let n := 4096 * swap_pages f0.

(** The old image can be brought back. *)
Lemma swapped_swappable g : swapped f0 n 0xFF g -> swappable g 0xFF /\ header g image_1 = header f0 image_0 /\ swap_pages g = swap_pages f0.
Proof.
  intros S. pose proof (pages_bounds _ _ Ps) as HN. pose proof (size_bounds _ _ Ps) as Hz. destruct (swapped_agree _ _ _ _ S) as [A1 A0].
  destruct (valid_spec _ _ Hold) as (Hm0 & _ & Hw0 & _). destruct (valid_spec _ _ (sp_new _ _ Ps)) as (Hm1 & _ & Hw1 & _).
  assert (image_end f0 (header f0 image_0) image_0 <= swap_size f0) as He by (unfold swap_size, extent; rewrite Hm0, Z.eqb_refl; lia).
  destruct (valid_agree n f0 g image_0 image_1) as (V0 & H0 & E0); auto with areas; [apply Ps|unfold IMAGE_HEADER_SIZE, n; lia|unfold n; lia|].
  destruct (valid_agree n f0 g image_1 image_0) as (V1 & H1 & E1); auto with areas; [apply Ps|apply Ps|unfold IMAGE_HEADER_SIZE, n; lia|unfold n; lia|].
  assert (swap_pages g = swap_pages f0) as Hp.
  { unfold swap_pages, swap_size, extent. rewrite E0, E1, H0, H1, Hm0, Hm1, Z.eqb_refl. by rewrite (Z.max_comm (image_end f0 (header f0 image_1) _)). }
  split; [|by split]. split; [apply S|by right|by eexists _, _; apply S|done| |by eapply swapped_clean|apply S|].
  - intros _. by apply valid_spec in V1 as (_ & _ & ? & _).
  - rewrite Hp. intros p Hpp Hb. apply (Htail p Hpp). rewrite <- Hb. apply bytes_at_ext. intros k Hk. cbn [fa_off image_0 image_1] in A0 |- *.
    replace (0xC000 + 4096 * p - 16 + k) with (0xC000 + (4096 * p - 16 + k)) by lia. replace (0x75000 + 4096 * p - 16 + k) with (0x75000 + (4096 * p - 16 + k)) by lia.
    apply A0. unfold n. lia.
Qed.

Lemma swapped_reverts g : swapped f0 n 0xFF g -> boots_to g (header f0 image_0) (fun h => swapped g n 1 h /\ boots_to h (header f0 image_0) (fun h' => h' = h)).
Proof.
  intros S. destruct (swapped_swappable g S) as (Pg & Hh & Hp). rewrite <- Hh.
  eapply wpc_boots. eapply wpc_mono; [apply (wpc_revert g 0xFF Pg); [done|by eapply swappable_starting|by eapply swapped_type in S; [|right]]| |done].
  intros r h [-> Sh]. split; [done|]. rewrite Hp in Sh. split; [done|]. apply (swapped_stays g 0xFF); [done|]. by rewrite Hp.
Qed.

Lemma swapped_confirm g : swapped f0 n 0xFF g -> exists h, boot_set_confirmed (Dev g None) = (Done 0, Dev h None) /\ swapped f0 n 1 h.
Proof.
  intros S. assert (wpc boot_set_confirmed (fun rc h => rc = 0 /\ swapped f0 n 1 h) (fun _ => True) g) as W.
  { pose proof (pages_bounds _ _ Ps) as HN. destruct S as [Gg Hs H0 H1 Hl]. unfold boot_set_confirmed. apply wpc_memory. rewrite H0.
    cbn [magic copy_done image_ok]. rewrite bool_decide_false by done. cbn [Z.eqb Pos.eqb negb BOOT_FLAG_UNSET]. rewrite open_slot0.
    change (boot_write_image_ok image_0) with (or_eflash (flash_area_write image_0 0x68FE8 [1; 0xFF; 0xFF; 0xFF])).
    apply wpc_field; [auto with areas|lia|done|cbn [fa_size image_0]; lia|unfold is_byte; lia|done|done|].
    cbn [fa_off image_0]. change (0xC000 + 0x68FE8) with 0x74FE8. intros h Gh Hh. split; [done|].
    assert (forall i, i <> 0x74FE8 -> h i = g i) as Hne by (intros i Hi; by rewrite Hh, (proj2 (Z.eqb_neq _ _) Hi)).
    rewrite state_slot0 in H0. rewrite state_slot1 in H1. injection H0 as Hm Hc Hok. split; [done|..|by apply (tail_frame g); [intros i Hi; apply Hne; lia|]].
    - intros i Hi. rewrite !Hne by (unfold n in Hi; lia). by apply Hs.
    - rewrite state_slot0, <- Hm. rewrite (Hne 0x74FE0), Hc, Hh, Z.eqb_refl, Hok by lia. change (Z.land 0xFF 1) with 1. do 3 f_equal.
      apply bytes_at_ext. intros i Hi. apply Hne. lia.
    - rewrite <- H1, state_slot1. rewrite !Hne by lia. do 3 f_equal. apply bytes_at_ext. intros i Hi. apply Hne. lia. }
  specialize (W None). destruct (boot_set_confirmed (Dev g None)) as [[r| | |] [h p]]; cbn [mem power] in W; [|naive_solver..].
  destruct W as [[-> HQ] Hpw]. rewrite (Hpw eq_refl). eauto.
Qed.
End Test.

(** C7. Whatever power failures came before, the boot that is given the power it needs starts the image under test.  If the application then
    confirms it, every further boot starts it and leaves the flash as it is; if not, the next boot brings the old image back, byte for byte, and the
    boots after that start the old image and leave the flash as it is. *)
Theorem test_upgrade_needs_confirmation f0 g : pending f0 0xFF -> valid_image f0 image_0 = true ->
  (forall p, 30 <= p <= swap_pages f0 -> bytes_at f0 (fa_off image_0 + 4096 * p - 16) 16 <> boot_img_magic) -> reboots f0 g ->
  boots_to g (header f0 image_1) (fun h =>
    (exists c, boot_set_confirmed (Dev h None) = (Done 0, Dev c None) /\ boots_to c (header f0 image_1) (fun h' => h' = c)) /\
    boots_to h (header f0 image_0) (fun r =>
      (forall i, 0 <= i < 4096 * swap_pages f0 -> r (fa_off image_0 + i) = f0 (fa_off image_0 + i)) /\ boots_to r (header f0 image_0) (fun h' => h' = r))).
Proof.
  intros P Hold Htail R. pose proof (pend_slots _ _ P) as Ps.
  destruct (upgrade_boots f0 0xFF g P R) as (h & Hb & S).
  exists h. split; [done|]. split.
  - destruct (swapped_confirm f0 Ps h S) as (c & Hc & Sc). exists c. split; [done|]. by eapply swapped_stays.
  - destruct (swapped_reverts f0 Ps Hold Htail h S) as (r & Hr & Sr & Hst). exists r. split; [done|]. split; [|done].
    intros i Hi. destruct (sd_slots _ _ _ _ Sr i Hi) as [Hx _]. destruct (sd_slots _ _ _ _ S i Hi) as [_ Hy]. etransitivity; [exact Hx|exact Hy].
Qed.

(** C6. An upgrade survives power failures.  From a flash with a valid new image and a request, after any number of boots that each lost power after
    any number of flash words, a boot with power starts the new image with the two images exchanged and the swap marked complete; a boot with limited power
    does the same or is cut again, and never hangs or reads past its tables. *)
Theorem upgrade_survives_power_failures f0 ok g : pending f0 ok -> reboots f0 g ->
  boots_to g (header f0 image_1) (swapped f0 (4096 * swap_pages f0) ok) /\
  forall n, match boot_go (Dev g (Some n)) with
    | (Done r, d) => r = (0, Some (BootRsp (header f0 image_1) (fa_off image_0))) /\ swapped f0 (4096 * swap_pages f0) ok (mem d)
    | (Cut, d) => reboots f0 (mem d)
    | _ => False
    end.
Proof.
  intros P R. split; [by apply upgrade_boots|]. intros n. pose proof (pend_slots _ _ P) as Ps.
  pose proof (reboots_resumable f0 ok f0 g P R (or_introl (swappable_starting _ _ Ps))) as Rg.
  pose proof (wpc_upgrade f0 ok Ps g (upgrade_magic _ (pend_type _ _ P)) Rg (Some n)) as W.
  destruct (boot_go (Dev g (Some n))) as [[r| | |] d] eqn:E; [apply W|by eapply reboots_snoc|destruct W|destruct W].
Qed.

(** ** Reverts and power failures *)

Section Revert.
Context (f : memory) (P : swappable f 0xFF) (Ht : boot_swap_type f = SWAP_REVERT) (Hrun : valid_image f image_0 = true).
Context (Htail : forall p, 30 <= p <= swap_pages f -> bytes_at f (fa_off image_0 + 4096 * p - 16) 16 <> boot_img_magic).

Let n := 4096 * swap_pages f.

(** Slot 1 asks for nothing during a revert. *)
Lemma revert_type g : starting f (swap_pages f) g -> boot_swap_type g = SWAP_REVERT \/ boot_swap_type g = SWAP_NONE.
Proof.
  intros S. destruct (swap_type_cases g) as [H|[H|[H|H]]]; [by right|exfalso..|by left].
  1, 2: assert (bytes_at g 0xDDFF0 16 = boot_img_magic) as Hm by (apply upgrade_magic; auto).
  1, 2: assert (bytes_at f 0xDDFF0 16 = boot_img_magic) as Hm'
    by (rewrite <- Hm; apply bytes_at_ext; intros i Hi; replace (0xDDFF0 + i) with (0x75000 + (0x68FF0 + i)) by lia; symmetry; apply (start_slot1 _ _ _ S); lia).
  all: pose proof (start_type f 0xFF P f Hm' (swappable_starting _ _ P)) as E; by rewrite Ht in E.
Qed.

(** Before the first status byte: the revert is done by the next boot, or forgotten. *)
Lemma revert_starting g : starting f (swap_pages f) g ->
  boot_swap_type g = SWAP_REVERT /\ boots_to g (header f image_1) (swapped f n 1) \/
  boot_swap_type g = SWAP_NONE /\ boots_to g (header f image_0) (fun h => h = g).
Proof.
  intros S. pose proof (pages_bounds _ _ P) as HN. destruct (revert_type g S) as [H|H]; [left|right]; (split; [done|]).
  - by eapply wpc_boots, wpc_revert.
  - destruct (valid_spec _ _ Hrun) as (Hm & _ & _ & _).
    destruct (valid_agree n f g image_0 image_0) as (Hv & <- & _); auto with areas; [apply P|unfold IMAGE_HEADER_SIZE, n; lia| | |].
    + unfold swap_size, extent in HN. rewrite Hm, Z.eqb_refl in HN. unfold n. lia.
    + intros i Hi. symmetry. by apply (start_slot0 _ _ _ S).
    + apply boot_unchanged; [apply read_status_clean; apply S|done|apply S|done].
Qed.

(** After the first status byte: the revert is done, but not marked as one, and the boot after undoes it. *)
Lemma revert_swapping g idx st : 0 <= idx <= steps (swap_pages f) -> 0 <= st < 3 -> 1 <= 3 * idx + st -> (idx = steps (swap_pages f) -> st = 0) ->
  swapping f 0xFF (swap_size f) (swap_pages f) idx st g ->
  boot_read_status g 4 <> Some boot_status_zero /\
  boots_to g (header f image_1) (fun g' => boots_to g' (header f image_0) (fun h => boots_to h (header f image_0) (fun h' => h' = h))).
Proof.
  intros Hi Hst H1 He S. pose proof (pages_bounds _ _ P) as HN. pose proof (size_bounds _ _ P) as Hz. split.
  - rewrite (read_status_trailer _ _ _ _ (sw_trailer _ _ _ _ _ _ _ S)) by (pose proof (steps_entries (swap_size f) (swap_pages f) ltac:(lia) ltac:(lia) idx st); lia).
    intros [= H2 H3]. dlia.
  - destruct (wpc_boots _ _ _ _ (wpc_resumed f 0xFF P g idx st Hi Hst H1 He S)) as (g' & Hg & Sg). exists g'. split; [exact Hg|].
    destruct (swapped_reverts f P Hrun Htail g' Sg) as (h & Hh & _ & Hs). exists h. split; [exact Hh|exact Hs].
Qed.

(** C36. What a power failure leaves of a revert: the next boot completes it; or nothing remembers that slot 0 held an image under test, and that image
    stays; or the next boot starts the old image but does not mark it, and the boot after that brings the image under test back for good. *)
Theorem interrupted_revert k d : boot_go (Dev f (Some k)) = (Cut, d) ->
  (boots_to (mem d) (header f image_1) (swapped f n 1)) \/
  (boot_swap_type (mem d) = SWAP_NONE /\ boots_to (mem d) (header f image_0) (fun g => g = mem d)) \/
  (boot_read_status (mem d) 4 <> Some boot_status_zero /\ boots_to (mem d) (header f image_1) (fun g =>
    boots_to g (header f image_0) (fun h => boots_to h (header f image_0) (fun h' => h' = h)))).
Proof.
  intros E. pose proof (wpc_revert f 0xFF P f eq_refl (swappable_starting _ _ P) Ht (Some k)) as W. rewrite E in W. destruct W as [W _].
  destruct W as [[S|(idx & st & Hi & Hst & H1 & He & S)]|S].
  - destruct (revert_starting _ S) as [[_ H]|H]; [left; exact H|right; left; exact H].
  - right. right. by apply (revert_swapping _ idx st).
  - left. eapply wpc_boots. by eapply wpc_reverted.
Qed.
End Revert.

(** ** Only signed images are started *)

Lemma hash_loop_bytes fuel f a buf off size l : is_area a -> 0 < buf <= 256 -> 0 <= off -> fa_off a + off <= CODEPAGESIZE * CODESIZE ->
  hash_loop fuel f a buf off size = Some l -> l = bytes_at f (fa_off a + off) (size - off).
Proof.
  intros Ha Hb. revert off l. induction fuel as [|fuel IH]; intros off l Ho Hm; cbn [hash_loop]; destruct (off <? size) eqn:E; cbn [negb]; try done; to_prop.
  1, 3: intros H; injection H as <-; unfold bytes_at; by replace (Z.to_nat (size - off)) with 0%nat by lia.
  set (c := Z.min (size - off) buf). assert (0 < c <= 256 /\ c <= size - off) as Hc by (unfold c; lia).
  assert (0 <= fa_off a) as Hoff by (by destruct Ha as [-> | [-> | ->]]). unfold CODEPAGESIZE, CODESIZE in *.
  unfold flash_area_read, flash_read, addr_of. assert (i32 (fa_off a + off) = fa_off a + off) as -> by (unfold i32; dlia).
  destruct (is_addr_valid _ _) eqn:Ev; [|done]. cbn [mbind option_bind].
  destruct (hash_loop fuel f a buf (off + c) size) as [rest|] eqn:Er; [|done]. intros H; injection H as <-.
  apply IH in Er; [|lia|]; [rewrite Er|].
  - replace (size - off) with (c + (size - (off + c))) by lia. rewrite bytes_at_app by lia. do 2 f_equal. lia.
  - unfold is_addr_valid in Ev. rewrite negb_true_iff, orb_false_iff in Ev. destruct Ev as [Ev _]. to_prop. unfold u32 in Ev. rewrite Z.mod_small in Ev by lia.
    unfold CODEPAGESIZE, CODESIZE in Ev. lia.
Qed.

(** More fuel does not change the hash. *)
Lemma hash_loop_fuel fuel k f a buf off size : is_area a -> 0 < buf <= 256 -> 0 <= off <= CODEPAGESIZE * CODESIZE + 256 ->
  Z.min size (CODEPAGESIZE * CODESIZE) - off <= buf * Z.of_nat fuel -> hash_loop (fuel + k) f a buf off size = hash_loop fuel f a buf off size.
Proof.
  intros Ha Hb. assert (0 <= fa_off a <= 0xDE000) as Hoff by (by destruct Ha as [-> | [-> | ->]]). unfold CODEPAGESIZE, CODESIZE in *.
  assert (forall off len, 0 <= off <= 2 ^ 20 + 256 -> 0 <= len <= 256 -> 2 ^ 20 < fa_off a + off + len -> flash_area_read f a off len = None) as Hout.
  { intros o l Ho Hl Hx. unfold flash_area_read, flash_read, addr_of. assert (i32 (fa_off a + o) = fa_off a + o) as -> by (unfold i32; dlia).
    unfold is_addr_valid, CODEPAGESIZE, CODESIZE, u32. rewrite Z.mod_small by lia. by rewrite (proj2 (Z.ltb_lt _ _)) by lia. }
  revert off. induction fuel as [|fuel IH]; intros off Ho Hf.
  - destruct k as [|k]; [done|]. cbn [Nat.add hash_loop]. destruct (off <? size) eqn:E; cbn [negb]; [|done]. to_prop. rewrite Hout by lia. done.
  - cbn [Nat.add hash_loop]. destruct (off <? size) eqn:E; cbn [negb]; [|done]. to_prop.
    set (c := Z.min (size - off) buf). destruct (decide (2 ^ 20 < fa_off a + off + c)) as [Hx|Hx]; [rewrite Hout by (unfold c; lia); done|].
    by rewrite IH by (unfold c in *; lia).
Qed.

Lemma hash_loop_inside fuel f a buf off size l : is_area a -> 0 < buf <= 256 -> 0 <= off -> fa_off a + off <= CODEPAGESIZE * CODESIZE ->
  hash_loop fuel f a buf off size = Some l -> size <= off \/ fa_off a + size <= CODEPAGESIZE * CODESIZE.
Proof.
  intros Ha Hb. revert off l. induction fuel as [|fuel IH]; intros off l Ho Hm; cbn [hash_loop]; destruct (off <? size) eqn:E; cbn [negb]; try done; to_prop; [by left| |by left].
  set (c := Z.min (size - off) buf). assert (0 < c <= 256) as Hc by (unfold c; lia).
  assert (0 <= fa_off a) as Hoff by (by destruct Ha as [-> | [-> | ->]]). unfold CODEPAGESIZE, CODESIZE in *.
  unfold flash_area_read, flash_read, addr_of. assert (i32 (fa_off a + off) = fa_off a + off) as -> by (unfold i32; dlia).
  destruct (is_addr_valid _ _) eqn:Ev; [|done]. cbn [mbind option_bind].
  unfold is_addr_valid in Ev. rewrite negb_true_iff, orb_false_iff in Ev. destruct Ev as [Ev _]. to_prop. unfold u32 in Ev. rewrite Z.mod_small in Ev by lia.
  unfold CODEPAGESIZE, CODESIZE in Ev. destruct (hash_loop fuel f a buf (off + c) size) as [rest|] eqn:Er; [|done]. intros _.
  apply IH in Er; [|lia|lia]. destruct Er; [|by right]. right. unfold c in *. lia.
Qed.

Lemma tlv_loop_ends fuel f a hash off end_ s v k : good f -> 0 <= off -> end_ <= 2 ^ 31 -> end_ - off <= 4 * Z.of_nat fuel -> tlv_loop fuel f a hash off end_ s v k <> None.
Proof.
  intros Hg. revert off s v k. induction fuel as [|fuel IH]; intros off s v k Ho He Hf; cbn [tlv_loop]; destruct (off <? end_) eqn:E; cbn [negb]; try done; to_prop; [lia|].
  destruct (flash_area_read f a off 4) as [tlv|] eqn:Er; [|done]. cbv zeta.
  assert (0 <= field 2 2 tlv < 2 ^ 16) as Hl.
  { unfold flash_area_read, flash_read in Er. case_match; [|done]. injection Er as <-. apply (field_bounds 2 2). by apply bytes_at_good. }
  unfold u32. rewrite !(Z.mod_small (off + 4 + _)) by lia.
  assert (forall s v k, tlv_loop fuel f a hash (off + 4 + field 2 2 tlv) end_ s v k <> None) as IH' by (intros; apply IH; lia).
  repeat match goal with |- context [if ?c then _ else _] => destruct c; try done; try apply IH' end; case_match; try done; try (case_match; [|done]); apply IH'.
Qed.

(** The check of an image ends whatever the flash holds: its loops stop within the number of turns the definitions allow, the one over the image because
    more turns would not change its result, the one over the TLVs because each of them takes at least four bytes. *)
Theorem validate_terminates f h a seed : good f -> is_area a ->
  let size := u32 (ih_img_size h + ih_hdr_size h) in
  let turns := Z.to_nat (Z.min size (CODEPAGESIZE * CODESIZE) / BOOT_TMPBUF_SZ + 1) in
  (forall k, hash_loop (turns + k) f a BOOT_TMPBUF_SZ 0 size = hash_loop turns f a BOOT_TMPBUF_SZ 0 size) /\
  bootutil_img_validate f h a BOOT_TMPBUF_SZ seed <> None.
Proof.
  intros Hg Ha size turns. assert (0 <= size) as Hs by (apply Z.mod_pos_bound; lia). split.
  { intros k. apply hash_loop_fuel; [done|unfold BOOT_TMPBUF_SZ; lia|done|]. unfold turns, BOOT_TMPBUF_SZ, CODEPAGESIZE, CODESIZE. dlia. }
  unfold bootutil_img_validate, bootutil_img_hash. fold size. fold turns.
  destruct (hash_loop turns f a BOOT_TMPBUF_SZ 0 size) as [l|] eqn:El; [|done]. cbn [fmap option_fmap option_map].
  assert (0 <= fa_off a <= 0xDE000) as Hoff by (by destruct Ha as [-> | [-> | ->]]).
  apply hash_loop_inside in El; [|done|done|done|unfold CODEPAGESIZE, CODESIZE; lia]. unfold CODEPAGESIZE, CODESIZE in El.
  destruct (flash_area_read f a size 4) as [info|] eqn:Er; [|done]. destruct (negb _); [done|]. cbv zeta.
  assert (0 <= field 2 2 info < 2 ^ 16) as Hl.
  { unfold flash_area_read, flash_read in Er. case_match; [|done]. injection Er as <-. apply (field_bounds 2 2). by apply bytes_at_good. }
  unfold u32. rewrite !Z.mod_small by lia. apply tlv_loop_ends; [done|lia|lia|]. dlia.
Qed.

Definition signed (hash : list Z) : Prop :=
  exists sig key, 0 <= key < Z.of_nat (length bootutil_keys) /\ bootutil_verify_sig hash sig key = true.

Lemma tlv_loop_signed fuel f a hash off end_ s v k : tlv_loop fuel f a hash off end_ s v k = Some 0 -> v = true \/ signed hash.
Proof.
  revert off s v k. induction fuel as [|fuel IH]; intros off s v k; cbn [tlv_loop]; destruct (off <? end_); cbn [negb]; try done;
    try (destruct s, v; cbn; by auto). destruct (flash_area_read f a off 4) as [tlv|]; [|done]. cbv zeta.
  repeat match goal with |- context [if ?c then _ else _] => let E := fresh "E" in destruct c eqn:E; try done; try apply IH end;
    case_match; try done; try (case_match; [|done]); try apply IH.
  intros [Hv|Hs]%IH; [|by right]. apply orb_true_iff in Hv as [Hv|Hv]; [by left|]. right. eexists _, k. split; [|exact Hv].
  match goal with E : (k <? 0) || _ = false |- _ => apply orb_false_iff in E as [? ?] end. to_prop. lia.
Qed.

(** The header and the image, as the hash covers them. *)
Definition image_bytes (f : memory) (h : image_header) (a : flash_area) : list Z := bytes_at f (fa_off a) (u32 (ih_img_size h + ih_hdr_size h)).

Lemma check_signed f h a : is_area a -> boot_image_check f h a = 0 -> signed (boot_sha256 (image_bytes f h a)).
Proof.
  intros Ha. unfold boot_image_check, bootutil_img_validate, bootutil_img_hash.
  destruct (hash_loop _ _ _ _ _ _) as [l|] eqn:El; [|done]. cbn [fmap option_fmap option_map app].
  apply hash_loop_bytes in El; [|done|done|done|by destruct Ha as [-> | [-> | ->]]]. rewrite Z.add_0_r, Z.sub_0_r in El. fold (image_bytes f h a) in El. subst l.
  destruct (flash_area_read _ _ _ 4) as [info|]; [|done]. destruct (negb _); [done|]. intros H.
  destruct (tlv_loop _ _ _ _ _ _ _ _ _) as [z|] eqn:Et; [|done]. destruct z; try done. by destruct (tlv_loop_signed _ _ _ _ _ _ _ _ _ Et).
Qed.

Lemma bind_done {A A'} (m : B A) (k : A -> B A') d b d' : (m ≫= k) d = (Done b, d') -> exists a d1, m d = (Done a, d1) /\ k a d1 = (Done b, d').
Proof. unfold mbind, B_bind. destruct (m d) as [[a| | |] d1]; try done. eauto. Qed.

(** Slot 0 is checked without being changed. *)
Lemma validate_slot0 bd d d' : boot_validate_slot bd 0 d = (Done 0, d') ->
  d' = d /\ ih_magic (boot_img_hdr bd 0) = IMAGE_MAGIC /\ boot_image_check (mem d) (boot_img_hdr bd 0) image_0 = 0.
Proof.
  unfold boot_validate_slot. destruct (_ || _); [done|]. change (flash_area_open (flash_area_id_from_image_slot 0)) with (Some image_0).
  unfold mbind, B_bind, memory_now. destruct (negb (_ =? IMAGE_MAGIC) || _) eqn:E; [done|]. apply orb_false_iff in E as [E1 E2].
  rewrite negb_false_iff in E1, E2. to_prop. intros H. by injection H as <-.
Qed.

(** Without a swap nothing is written. *)
Lemma no_swap bd d d' : boot_swap_if_needed bd d = (Done (inr SWAP_NONE), d') -> d' = d.
Proof.
  intros H. unfold boot_swap_if_needed in H. apply bind_done in H as (f & d1 & [= <- <-] & H). destruct (boot_read_status _ _) as [bs|]; [|done].
  destruct (_ || _).
  - apply bind_done in H as (r & d1 & _ & H). apply bind_done in H as (g & d2 & _ & H). injection H as H _. unfold boot_previous_swap_type in H. by destruct (boot_swap_type g).
  - apply bind_done in H as (t & d1 & H1 & H). apply bind_done in H as (r & d2 & H2 & H). injection H as -> <-. injection H2 as _ <-.
    unfold boot_validated_swap_type in H1. apply bind_done in H1 as (f & d2 & [= <- <-] & H1).
    assert (forall t, t <> SWAP_NONE -> (rc ← boot_validate_slot bd 1; mret (if negb (rc =? 0) then SWAP_FAIL else t)) d <> (Done SWAP_NONE, d1)) as Hn.
    { intros t Ht Hx. apply bind_done in Hx as (rc & d2 & _ & Hx). injection Hx as Hx _. by destruct (negb _). }
    destruct (boot_swap_type (mem d)); first [by injection H1|by apply Hn in H1].
Qed.

Lemma finish_kept t d d' : boot_finish_swap t d = (Done (Some false), d') -> t = SWAP_NONE /\ d' = d.
Proof.
  unfold boot_finish_swap. intros H. apply bind_done in H as (rc & d1 & H1 & H). destruct (negb (rc =? 0)); [done|]. destruct t; try done.
  - injection H1 as <- <-. by injection H as <-.
  - apply bind_done in H as (rc' & d2 & _ & H). injection H as H _. by destruct (negb _).
  - apply bind_done in H as (rc' & d2 & _ & H). injection H as H _. by destruct (negb _).
  - apply bind_done in H as (rc' & d2 & _ & H). injection H as H _. by destruct (negb _).
Qed.

(** C8. From any flash, whatever the power does: if [boot_go] succeeds, it names slot 0, the header it returns is the one in slot 0, and one of the
    built-in keys verifies a signature of the hash of the header and image bytes in slot 0 at that moment. *)
Theorem only_signed_images_start d rsp d' : boot_go d = (Done (0, Some rsp), d') ->
  br_image_off rsp = fa_off image_0 /\ br_hdr rsp = header (mem d') image_0 /\ ih_magic (br_hdr rsp) = IMAGE_MAGIC /\
  signed (boot_sha256 (image_bytes (mem d') (br_hdr rsp) image_0)).
Proof.
  intros H. unfold boot_go in H. apply bind_done in H as (f & d1 & [= <- <-] & H). destruct read_sectors as (bd & Hbd & L). rewrite Hbd, read_headers in H.
  cbn [Z.eqb negb] in H. rewrite slots_compatible in H by (by apply loaded_layout). apply bind_done in H as (r & d1 & Hr & H).
  assert (forall b d2, boot_response (loaded (mem d) bd) b d2 = (Done (0, Some rsp), d') -> (b = false -> d2 = d) ->
    br_image_off rsp = fa_off image_0 /\ br_hdr rsp = header (mem d') image_0 /\ ih_magic (br_hdr rsp) = IMAGE_MAGIC /\
    signed (boot_sha256 (image_bytes (mem d') (br_hdr rsp) image_0))) as Hresp.
  { intros b d2 H' Hb. unfold boot_response in H'. apply bind_done in H' as (f & d3 & [= <- <-] & H').
    assert (exists bd', (if b then boot_read_image_headers (mem d2) (loaded (mem d) bd) else (0, loaded (mem d) bd)) = (0, bd') /\
      boot_img_hdr bd' 0 = header (mem d2) image_0) as (bd' & E & Eh).
    { destruct b; [rewrite read_headers; by eexists|]. rewrite (Hb eq_refl). by eexists. }
    rewrite E in H'. cbn [Z.eqb negb] in H'. apply bind_done in H' as (rc & d4 & Hv & H').
    destruct (negb (rc =? 0)) eqn:Erc; [done|]. rewrite negb_false_iff in Erc. to_prop. subst rc. apply validate_slot0 in Hv as (-> & Hm & Hc).
    injection H' as <- <-. cbn [br_hdr br_image_off]. rewrite <- Eh. split_and!; [done|done|done|]. by apply check_signed; [left|]. }
  destruct r as [rc|[reload|]]; [| |done].
  - by injection H.
  - apply (Hresp reload d1 H). intros ->. apply bind_done in Hr as (t & d2 & Ht & Hr). destruct t as [rc|t]; [done|].
    apply bind_done in Hr as (p & d3 & Hp & Hr). injection Hr as -> <-. apply finish_kept in Hp as [-> ->]. by apply no_swap in Ht.
Qed.

(** ** A bad upgrade *)

(** What [boot_validate_slot] accepts. *)
Definition accepted (f : memory) (a : flash_area) : bool :=
  (ih_magic (header f a) =? IMAGE_MAGIC) && (Z.land (ih_flags (header f a)) IMAGE_F_NON_BOOTABLE =? 0) && (boot_image_check f (header f a) a =? 0).

Section Bad.
Context (f0 : memory) (Hrun : valid_image f0 image_0 = true).

(** The image of slot 0 is as in [f0]; slot 1 holds no acceptable image, and still does not when a part of it is erased. *)
Record rejecting (f : memory) : Prop := Rejecting {
  rj_good : good f;
  rj_slot0 : forall i, 0 <= i < 0x68000 -> f (fa_off image_0 + i) = f0 (fa_off image_0 + i);
  rj_status : clean0 f;
  rj_scratch : bytes_at f 0xFBFF0 16 <> boot_img_magic;
  rj_slot1 : accepted f image_1 = false }.

Lemma torn_header f a n : good f -> 0 < n -> ih_magic (header (erased f (fa_off a) n) a) <> IMAGE_MAGIC.
Proof.
  intros Hg Hn. unfold header, parse_header. cbn [ih_magic]. set (g := erased f (fa_off a) n). change IMAGE_HEADER_SIZE with (1 + (3 + 28)).
  rewrite !bytes_at_app by done. assert (bytes_at g (fa_off a) 1 = [0xFF]) as ->.
  { unfold bytes_at. change (Z.to_nat 1) with 1%nat. cbn [seq map]. unfold g. by rewrite erased_in by lia. }
  unfold field. rewrite drop_0. cbn [app]. change (take 4 (0xFF :: ?l)) with (0xFF :: take 3 l). rewrite take_app_le, take_ge by (rewrite bytes_at_length; done).
  cbn [le foldr]. unfold IMAGE_MAGIC. pose proof (le_bounds _ (bytes_at_good g (fa_off a + 1) 3 ltac:(by apply good_erased))) as Hb. unfold le in Hb. lia.
Qed.

Lemma rejecting_erase f n : rejecting f -> 0 <= n <= 0x69000 -> rejecting (erased f (fa_off image_1) n).
Proof.
  intros R Hn. destruct (decide (n = 0)) as [->|Hz]; [done|]. destruct R as [Hg H0 Hs Hc H1].
  assert (forall i, i < 0x75000 \/ 0xDE000 <= i -> erased f (fa_off image_1) n i = f i) as He by (intros i Hi; apply erased_out; cbn [fa_off image_1]; lia).
  split; [by apply good_erased|intros i Hi; cbn [fa_off image_0]; rewrite He by lia; by apply H0| |by apply (tail_frame f); [intros i Hi; apply He; lia|]|].
  - apply (clean_frame f); [|done]. intros i Hi _. apply He. lia.
  - unfold accepted. by rewrite (proj2 (Z.eqb_neq _ _) (torn_header f image_1 n Hg ltac:(lia))).
Qed.

(** The header alone rules the image out. *)
Definition unbootable (f : memory) (a : flash_area) : bool :=
  (ih_magic (header f a) =? IMAGE_MAGIC_NONE) || negb (Z.land (ih_flags (header f a)) IMAGE_F_NON_BOOTABLE =? 0).

Lemma erased_header f a : ih_magic (header (erased f (fa_off a) 0x69000) a) = IMAGE_MAGIC_NONE.
Proof.
  unfold header. replace (bytes_at _ (fa_off a) IMAGE_HEADER_SIZE) with (repeat 0xFF 32); [done|].
  change (repeat 0xFF 32) with (bytes_at (fun _ => 0xFF) 0 32). apply bytes_at_ext. intros k Hk. symmetry. apply erased_in. unfold IMAGE_HEADER_SIZE in Hk. lia.
Qed.

Lemma wpc_reject f d : layout d -> rejecting f ->
  wpc (boot_validate_slot (loaded f d) 1) (fun rc g => rc <> 0 /\ rejecting g /\ unbootable g image_1 = true) rejecting f.
Proof.
  intros L R. unfold boot_validate_slot. change (boot_img_hdr (loaded f d) 1) with (header f image_1). fold (unbootable f image_1).
  destruct (unbootable f image_1) eqn:E1; [by apply wpc_ret|]. change (flash_area_open (flash_area_id_from_image_slot 1)) with (Some image_1). apply wpc_memory.
  destruct (negb (_ =? IMAGE_MAGIC) || _) eqn:E2.
  - apply wpc_bind. cbn [Z.eqb negb]. apply wpc_erase; [auto with areas|done|done|done|done|done| |]; rewrite Z.add_0_r; cbn [fa_size image_1].
    + intros n Hn. apply rejecting_erase; [done|lia].
    + apply wpc_ret. split; [done|]. split; [by apply rejecting_erase; [|lia]|]. unfold unbootable. by rewrite erased_header.
  - exfalso. pose proof (rj_slot1 f R) as H. unfold accepted in H. unfold unbootable in E1. apply orb_false_iff in E1 as [_ E1], E2 as [E2 E3].
    rewrite negb_false_iff in E1, E2, E3. by rewrite E1, E2, E3 in H.
Qed.

Lemma wpc_mark f : rejecting f -> unbootable f image_1 = true -> wpc boot_set_image_ok (fun rc g => rc = 0 /\ rejecting g) rejecting f.
Proof.
  intros R Hu. unfold boot_set_image_ok. rewrite open_slot0. apply wpc_memory.
  change (boot_read_swap_state f image_0) with (boot_read_swap_state_by_id f FLASH_AREA_IMAGE_0). rewrite state_slot0. cbn [image_ok].
  destruct (_ =? BOOT_FLAG_UNSET); [|by apply wpc_ret].
  change (boot_write_image_ok image_0) with (or_eflash (flash_area_write image_0 0x68FE8 [1; 0xFF; 0xFF; 0xFF])).
  apply wpc_field; [auto with areas|lia|done|cbn [fa_size image_0]; lia|unfold is_byte; lia|apply R|done|].
  cbn [fa_off image_0]. change (0xC000 + 0x68FE8) with 0x74FE8. intros g Gg Hg. split; [done|].
  assert (forall i, i <> 0x74FE8 -> g i = f i) as He by (intros i Hi; by rewrite Hg, (proj2 (Z.eqb_neq _ _) Hi)).
  destruct R as [Gf H0 Hs Hc H1].
  split; [done|intros i Hi; cbn [fa_off image_0]; rewrite He by lia; by apply H0| |by apply (tail_frame f); [intros i Hi; apply He; lia|]|].
  - apply (clean_frame f); [|done]. intros i Hi. apply He.
  - assert (header g image_1 = header f image_1) as E.
    { apply (agree_header 0x69000); [|done]. intros i Hi. cbn [fa_off image_1]. symmetry. apply He. lia. }
    unfold accepted, unbootable in *. rewrite E. destruct (_ =? IMAGE_MAGIC) eqn:Em; [|done]. to_prop. rewrite Em in Hu. cbn [Z.eqb IMAGE_MAGIC IMAGE_MAGIC_NONE Pos.eqb orb] in Hu.
    rewrite negb_true_iff in Hu. by rewrite Hu.
Qed.

Lemma wpc_bad_swap f d : layout d -> rejecting f ->
  wpc (t ← boot_swap_if_needed (loaded f d); match t with inl rc => mret (inl rc : Z + option bool) | inr t => p ← boot_finish_swap t; mret (inr p) end)
    (fun r g => (r = inr (Some true) \/ r = inr (Some false) /\ g = f) /\ rejecting g) rejecting f.
Proof.
  intros L R. apply wpc_bind. unfold boot_swap_if_needed. apply wpc_memory. change (write_sz (loaded f d)) with (write_sz d). rewrite (lay_wsz _ L).
  rewrite read_status_clean by apply R. cbn [bs_idx bs_state boot_status_zero Z.eqb negb orb]. apply wpc_bind. unfold boot_validated_swap_type. apply wpc_memory.
  set (k := fun t : swap_type => _ ← (match t with SWAP_TEST | SWAP_PERM | SWAP_REVERT => boot_copy_image (loaded f d) boot_status_zero | _ => mret 0 end);
    mret (inr t : Z + swap_type)).
  set (Q := fun (r : Z + option bool) (g : memory) => (r = inr (Some true) \/ r = inr (Some false) /\ g = f) /\ rejecting g).
  assert (forall t, wpc (rc ← boot_validate_slot (loaded f d) 1; mret (if negb (rc =? 0) then SWAP_FAIL else t)) (fun t g => wpc (k t) (fun r g =>
    wpc (match r with inl rc => mret (inl rc) | inr t => p ← boot_finish_swap t; mret (inr p) end) Q rejecting g) rejecting g) rejecting f) as Hbad.
  { intros t. apply wpc_bind. eapply wpc_mono; [by apply wpc_reject| |done]. intros rc g (Hrc & Rg & Hu). rewrite (proj2 (Z.eqb_neq rc 0)) by done.
    cbn [negb]. apply wpc_ret. unfold k. apply wpc_bind, wpc_ret, wpc_ret, wpc_bind. unfold boot_finish_swap. apply wpc_bind.
    eapply wpc_mono; [by apply wpc_mark| |done]. intros rc' h [-> Rh]. cbn [Z.eqb negb]. apply wpc_ret, wpc_ret. split; [by left|done]. }
  destruct (swap_type_cases f) as [-> | [-> | [-> | ->]]]; [|apply Hbad..].
  apply wpc_ret. unfold k. apply wpc_bind, wpc_ret, wpc_ret, wpc_bind. unfold boot_finish_swap. apply wpc_bind, wpc_ret. cbn [Z.eqb negb]. apply wpc_ret, wpc_ret.
  split; [by right|done].
Qed.

Lemma wpc_bad f : good f0 -> rejecting f -> wpc boot_go (fun r g => r = (0, Some (BootRsp (header f0 image_0) (fa_off image_0))) /\ rejecting g) rejecting f.
Proof.
  intros Hg R. unfold boot_go. apply wpc_memory. destruct read_sectors as (d & -> & L). rewrite read_headers. cbn [Z.eqb negb].
  rewrite slots_compatible by (by apply loaded_layout). apply wpc_bind. eapply wpc_mono; [by apply wpc_bad_swap| |done]. intros r g [Hr Rg].
  assert (exists b, r = inr (Some b) /\ (b = false -> g = f)) as (b & -> & Hb) by (destruct Hr as [-> | [-> ->]]; eexists; by split).
  destruct (valid_spec _ _ Hrun) as (_ & _ & [_ Hw]%wf_end & _).
  assert (agree 0x68000 f0 image_0 g image_0) as Hag by (intros i Hi; symmetry; by apply (rj_slot0 _ Rg)).
  unfold boot_response. apply wpc_memory.
  assert (exists d', (if b then boot_read_image_headers g (loaded f d) else (0, loaded f d)) = (0, d') /\ boot_img_hdr d' 0 = header g image_0) as (d' & -> & Eh)
    by (destruct b; [rewrite read_headers|rewrite (Hb eq_refl)]; by eexists).
  cbn [Z.eqb negb]. apply wpc_bind. eapply (wpc_validate 0x68000 f0 g image_0 image_0); auto with areas; try done; [lia|].
  apply wpc_ret. split; [|done]. cbn [Z.eqb negb]. rewrite Eh. do 3 f_equal. by apply (agree_header 0x68000).
Qed.

Lemma reboots_rejecting f g : good f0 -> reboots f g -> rejecting f -> rejecting g.
Proof.
  intros Hg R. induction R as [|f n d g E R IH]; [done|]. intros Rs. apply IH. pose proof (wpc_bad f Hg Rs (Some n)) as W. rewrite E in W. apply W.
Qed.
End Bad.

(** C9. If slot 1 holds no image [boot_validate_slot] accepts, the image of slot 0 is started by every boot with power and never changed,
    whatever the request in the trailers says and whatever boots lost power before. *)
Theorem bad_upgrade_is_harmless f g : good f -> clean0 f -> bytes_at f 0xFBFF0 16 <> boot_img_magic -> valid_image f image_0 = true -> accepted f image_1 = false ->
  reboots f g ->
  boots_to g (header f image_0) (fun h => forall i, 0 <= i < 0x68000 -> h (fa_off image_0 + i) = f (fa_off image_0 + i)).
Proof.
  intros Hg Hc Hs Hv Ha R. assert (rejecting f f) as Rf by done. eapply wpc_boots, wpc_mono; [eapply (wpc_bad f Hv g Hg), reboots_rejecting; done| |done].
  intros r h [-> Rh]. split; [done|]. apply Rh.
Qed.
End Policy.

(** ** A flash with two images *)

Module BootToy.
(** A checksum for the hash, one key, and one signature that verifies. *)
#[export] Instance toy_crypto : BootCrypto := {
  boot_sha256 l := repeat (foldr Z.add 0 l mod 256) 32;
  bootutil_keys := [[5]];
  bootutil_verify_sig hash sig key := bool_decide (sig = repeat 7 256) }.

Definition le16 (x : Z) : list Z := [u8 x; u8 (x / 2 ^ 8)].

(** An image of version [v] with [body] behind its header. *)
Definition signed_part (v : Z) (body : list Z) : list Z :=
  le32 IMAGE_MAGIC ++ le32 0 ++ le16 32 ++ le16 0 ++ le32 (Z.of_nat (length body)) ++ le32 0 ++ [v; 0] ++ le16 0 ++ le32 0 ++ le32 0 ++ body.
Definition toy_image (v : Z) (body : list Z) : list Z :=
  signed_part v body ++ le16 IMAGE_TLV_INFO_MAGIC ++ le16 336 ++
  [IMAGE_TLV_SHA256; 0] ++ le16 32 ++ boot_sha256 (signed_part v body) ++
  [IMAGE_TLV_KEYHASH; 0] ++ le16 32 ++ boot_sha256 [5] ++
  [IMAGE_TLV_RSA2048_PSS; 0] ++ le16 256 ++ repeat 7 256.

Definition old : list Z := toy_image 1 [10; 11; 12; 13].
Definition new : list Z := toy_image 2 [20; 21; 22; 23].

(** The lists written to an erased memory. *)
Definition burnt (l : list (Z * list Z)) : memory :=
  foldr (fun '(a, b) f i => if inside a (Z.of_nat (length b)) i then nth (Z.to_nat (i - a)) b 0xFF else f i) (fun _ => 0xFF) l.

Lemma burnt_good l : forallb (fun '(_, b) => forallb (fun x => (0 <=? x) && (x <? 256)) b) l = true -> good (burnt l).
Proof.
  induction l as [|[a b] l IH]; [by intros _ i; unfold is_byte; cbn|]. cbn [forallb]. intros [Hb Hl]%andb_true_iff i. cbn [burnt foldr].
  destruct (inside _ _ _); [|by apply IH]. destruct (nth_in_or_default (Z.to_nat (i - a)) b 0xFF) as [Hi| ->]; [|unfold is_byte; lia].
  rewrite forallb_forall in Hb. apply Hb, andb_true_iff in Hi as [H1 H2]. to_prop. unfold is_byte. lia.
Qed.

(** The new image is to be tested. *)
Definition asked : memory := burnt [(0xC000, old); (0x75000, new); (0xDDFF0, boot_img_magic)].

Lemma asked_valid : valid_image asked image_0 = true /\ valid_image asked image_1 = true.
Proof. split; vm_compute; reflexivity. Qed.

Lemma asked_pending : pending asked 0xFF.
Proof.
  split; [split|left; vm_compute; reflexivity].
  - apply burnt_good. vm_compute. reflexivity.
  - by right.
  - eexists GOOD, (Some 0xFF). vm_compute. reflexivity.
  - apply asked_valid.
  - intros _. apply (valid_spec _ _ (proj1 asked_valid)).
  - left. intros j Hj. unfold asked, burnt. cbn [foldr]. 
    assert (Z.of_nat (length old) = 372 /\ Z.of_nat (length new) = 372 /\ Z.of_nat (length boot_img_magic) = 16) as (-> & -> & ->) by (vm_compute; done).
    rewrite !outside_spec by lia. done.
  - vm_compute. discriminate.
  - assert (swap_pages asked = 1) as -> by (vm_compute; reflexivity). lia.
Qed.

Definition cut_at (f : memory) (n : N) : memory := mem (snd (boot_go (Dev f (Some n)))).

Lemma cut_eq f n : fst (boot_go (Dev f (Some n))) = Cut -> boot_go (Dev f (Some n)) = (Cut, snd (boot_go (Dev f (Some n)))).
Proof. intros H. rewrite <- H. by destruct (boot_go _). Qed.

Lemma cut_reboots f n g : fst (boot_go (Dev f (Some n))) = Cut -> reboots (cut_at f n) g -> reboots f g.
Proof. intros H R. eapply reboots_cut; [by apply cut_eq|exact R]. Qed.

Lemma asked_cut : reboots asked (cut_at asked 3000).
Proof. apply (cut_reboots asked 3000); [vm_compute; reflexivity|constructor]. Qed.

Lemma upgrade_survives_power_failures_witness : boots_to (cut_at asked 3000) (header asked image_1) (swapped asked (4096 * swap_pages asked) 0xFF).
Proof. exact (proj1 (upgrade_survives_power_failures asked 0xFF (cut_at asked 3000) asked_pending asked_cut)). Defined.

Lemma asked_tail : forall p, 30 <= p <= swap_pages asked -> bytes_at asked (fa_off image_0 + 4096 * p - 16) 16 <> boot_img_magic.
Proof. assert (swap_pages asked = 1) as -> by (vm_compute; reflexivity). lia. Qed.

Lemma test_upgrade_needs_confirmation_witness : exists h,
  boots_to h (header asked image_0) (fun r => boots_to r (header asked image_0) (fun h' => h' = r)).
Proof.
  destruct (test_upgrade_needs_confirmation asked (cut_at asked 3000) asked_pending (proj1 asked_valid) asked_tail asked_cut) as (h & _ & _ & r & Hr & _ & Hs).
  exists h, r. split; [exact Hr|exact Hs].
Defined.

(** Only the old image, nothing asked for. *)
Definition running : memory := burnt [(0xC000, old)].

Lemma running_boots : boots_to running (header running image_0) (fun g => g = running).
Proof. apply boot_unchanged; [vm_compute; reflexivity|vm_compute; reflexivity|apply burnt_good; vm_compute; reflexivity|vm_compute; reflexivity]. Qed.

Lemma only_signed_images_start_witness : signed (boot_sha256 (image_bytes running (header running image_0) image_0)).
Proof.
  destruct running_boots as (g & H & Hg). pose proof (proj2 (proj2 (proj2 (only_signed_images_start _ _ _ H)))) as Hs. rewrite Hg in Hs. exact Hs.
Defined.

Lemma validate_terminates_witness : bootutil_img_validate running (header running image_0) image_0 BOOT_TMPBUF_SZ [] <> None.
Proof. apply (validate_terminates running (header running image_0) image_0 []); [apply burnt_good; vm_compute; reflexivity|by left]. Defined.

(** The new image is damaged. *)
Definition damaged : memory := burnt [(0xC000, old); (0x75020, [0]); (0x75000, new); (0xDDFF0, boot_img_magic)].

Lemma damaged_cut : reboots damaged (cut_at damaged 3000).
Proof. apply (cut_reboots damaged 3000); [vm_compute; reflexivity|constructor]. Qed.

Lemma damaged_clean : clean0 damaged.
Proof.
  left. intros j Hj. unfold damaged, burnt. cbn [foldr].
  assert (Z.of_nat (length old) = 372 /\ Z.of_nat (length new) = 372 /\ Z.of_nat (length boot_img_magic) = 16 /\ Z.of_nat (length [0]) = 1) as (-> & -> & -> & ->) by (vm_compute; done).
  rewrite !outside_spec by lia. done.
Qed.

Lemma bad_upgrade_is_harmless_witness : boots_to (cut_at damaged 3000) (header damaged image_0)
  (fun h => forall i, 0 <= i < 0x68000 -> h (fa_off image_0 + i) = damaged (fa_off image_0 + i)).
Proof.
  apply (bad_upgrade_is_harmless damaged); [apply burnt_good; vm_compute; reflexivity|exact damaged_clean|vm_compute; discriminate
    |vm_compute; reflexivity|vm_compute; reflexivity|exact damaged_cut].
Defined.

(** The new image runs as a test. *)
Definition testing : memory := burnt [(0xC000, new); (0x74FE0, [1]); (0x74FF0, boot_img_magic); (0x75000, old)].

Lemma testing_valid : valid_image testing image_0 = true /\ valid_image testing image_1 = true.
Proof. split; vm_compute; reflexivity. Qed.

Lemma testing_tail a : forall p, 30 <= p <= swap_pages testing -> bytes_at testing (a + 4096 * p - 16) 16 <> boot_img_magic.
Proof. assert (swap_pages testing = 1) as -> by (vm_compute; reflexivity). lia. Qed.

Lemma testing_swappable : swappable testing 0xFF.
Proof.
  split; [apply burnt_good; vm_compute; reflexivity|by right|eexists UNSET, (Some 0xFF); vm_compute; reflexivity|apply testing_valid| | | |apply testing_tail].
  - intros _. apply (valid_spec _ _ (proj1 testing_valid)).
  - right. split; vm_compute; reflexivity.
  - vm_compute. discriminate.
Qed.

Lemma testing_reverts : boot_swap_type testing = SWAP_REVERT.
Proof. vm_compute. reflexivity. Qed.

Lemma interrupted_revert_witness :
  (boots_to (cut_at testing 3000) (header testing image_1) (swapped testing (4096 * swap_pages testing) 1)) \/
  (boot_swap_type (cut_at testing 3000) = SWAP_NONE /\ boots_to (cut_at testing 3000) (header testing image_0) (fun g => g = cut_at testing 3000)) \/
  (boot_read_status (cut_at testing 3000) 4 <> Some boot_status_zero /\ boots_to (cut_at testing 3000) (header testing image_1) (fun g =>
    boots_to g (header testing image_0) (fun h => boots_to h (header testing image_0) (fun h' => h' = h)))).
Proof.
  apply (interrupted_revert testing testing_swappable testing_reverts (proj1 testing_valid) (testing_tail _) 3000%N). apply cut_eq. vm_compute. reflexivity.
Defined.

Lemma testing_cut k : fst (boot_go (Dev testing (Some k))) = Cut -> reverting testing 0xFF (cut_at testing k).
Proof.
  intros H%cut_eq. pose proof (wpc_revert testing 0xFF testing_swappable testing eq_refl (swappable_starting _ _ testing_swappable) testing_reverts (Some k)) as W.
  rewrite H in W. apply W.
Qed.

Lemma reverting_good g : reverting testing 0xFF g -> good g.
Proof. intros [[S|(idx & st & _ & _ & _ & _ & S)]|S]; apply S. Qed.

(** The power fails when the page of the trailer is erased: nothing remembers that the image was under test, and it is started by every further boot. *)
Example revert_forgotten : exists k, fst (boot_go (Dev testing (Some k))) = Cut /\ boots_to (cut_at testing k) (header testing image_0) (fun g => g = cut_at testing k).
Proof.
  assert (fst (boot_go (Dev testing (Some 3072%N))) = Cut) as Hc by (vm_compute; reflexivity). exists 3072%N. split; [exact Hc|].
  assert (header (cut_at testing 3072) image_0 = header testing image_0) as <- by (vm_compute; reflexivity).
  apply boot_unchanged; [vm_compute; reflexivity|vm_compute; reflexivity|exact (reverting_good _ (testing_cut _ Hc))|vm_compute; reflexivity].
Qed.

(** The power fails behind the first status byte: the old image is started once, then the image under test for good. *)
Example revert_undone : exists k, fst (boot_go (Dev testing (Some k))) = Cut /\ boots_to (cut_at testing k) (header testing image_1) (fun g =>
    boots_to g (header testing image_0) (fun h => boots_to h (header testing image_0) (fun h' => h' = h))).
Proof.
  assert (fst (boot_go (Dev testing (Some 3100%N))) = Cut) as Hc by (vm_compute; reflexivity). exists 3100%N. split; [exact Hc|].
  destruct (testing_cut _ Hc) as [[S|(idx & st & Hi & Hst & H1 & He & S)]|S].
  - exfalso. assert (boot_read_status (cut_at testing 3100) 4 <> Some boot_status_zero) as Hn by (vm_compute; discriminate).
    apply Hn, read_status_clean; apply S.
  - apply (revert_swapping testing testing_swappable (proj1 testing_valid) (testing_tail _) _ idx st Hi Hst H1 He S).
  - exfalso. pose proof (tr_image_ok _ _ _ _ (sw_trailer _ _ _ _ _ _ _ S)) as Ho.
    assert (cut_at testing 3100 0x74FE8 = 0xFF) as Hn by (vm_compute; reflexivity). rewrite Hn in Ho. clear -Ho. lia.
Qed.
End BootToy.
