(* ===== verification/Cbor.v ===== *)
(** * tinycbor: messages of the BLE module and the hub

    The part of the CBOR library under
    [src/radios/ble/zephyr/ext/lib/encoding/tinycbor] that the boot loader of
    the BLE module and its programmer use: the encoder of numbers, strings and
    maps (cborencoder.c), the iterator over a message, strings in chunks and
    the search in a map (cborparser.c, cbor_buf_reader.c, cbor.h).  The message
    is memory with an end, since the parser reads single bytes behind it. *)
From Stdlib Require Import ZArith Lia Bool.
From stdpp Require Import base list numbers.
From S2P Require Import Prelude.

Local Open Scope Z_scope.

(** ** Encoder *)

(** CborMajorTypes, shifted by MajorTypeShift *)
Definition UnsignedInteger : Z := 0x00.
Definition NegativeInteger : Z := 0x20.
Definition ByteString : Z := 0x40.
Definition TextString : Z := 0x60.
Definition ArrayT : Z := 0x80.
Definition MapT : Z := 0xA0.
Definition TagT : Z := 0xC0.
Definition SimpleT : Z := 0xE0.
Definition InvalidT : Z := 0xFF.
Definition BreakByte : Z := 0xFF.
Definition IndefiniteLength : Z := 31.

(** [n] bytes of [x], the most significant first. *)
Fixpoint be (n : nat) (x : Z) : list Z :=
  match n with
  | O => []
  | S n' => u8 (x / 2 ^ (8 * Z.of_nat n')) :: be n' x
  end.

Definition encode_number (ui shiftedMajorType : Z) : list Z :=
  if ui <? 24 then [u8 (ui + shiftedMajorType)]
  else
    let more := (if 0xff <? ui then 1 else 0) + (if 0xffff <? ui then 1 else 0) + (if 0xffffffff <? ui then 1 else 0) in
    u8 (shiftedMajorType + 24 + more) :: be (Z.to_nat (2 ^ more)) ui.

Definition cbor_encode_uint (v : Z) : list Z := encode_number v UnsignedInteger.

(** [v] is a signed 64-bit number. *)
Definition cbor_encode_int (v : Z) : list Z :=
  let sign := if v <? 0 then 2 ^ 64 - 1 else 0 in
  encode_number (Z.lxor sign (v mod 2 ^ 64)) (Z.land sign 0x20).

Definition encode_string (s : list Z) (shiftedMajorType : Z) : list Z := encode_number (Z.of_nat (length s)) shiftedMajorType ++ s.
Definition cbor_encode_byte_string (s : list Z) : list Z := encode_string s ByteString.
Definition cbor_encode_text_string (s : list Z) : list Z := encode_string s TextString.

(** With [CborIndefiniteLength], as both sides call them. *)
Definition cbor_encoder_create_map : list Z := [MapT + IndefiniteLength].
Definition cbor_encoder_create_array : list Z := [ArrayT + IndefiniteLength].
Definition cbor_encoder_close_container : list Z := [BreakByte].

(** ** Parser *)

Inductive cbor_error :=
  | CborNoError | CborErrorUnexpectedEOF | CborErrorUnexpectedBreak | CborErrorUnknownType | CborErrorIllegalType | CborErrorIllegalNumber
  | CborErrorIllegalSimpleType | CborErrorDataTooLarge | CborErrorNestingTooDeep | CborErrorAdvancePastEOF | CborErrorOutOfMemory.

Record cbor_parser := Parser { p_mem : Z -> Z; p_end : Z }.

(** CborValue; the flags are [unknown] (UnknownLength), [too_large] (IntegerValueTooLarge) and [iterating]: IteratingStringChunks
    and NegativeInteger are the same bit. *)
Record cbor_value := Value { offset : Z; remaining : Z; extra : Z; type : Z; unknown : bool; iterating : bool; too_large : bool; remainingclen : Z }.

Definition with_type (t : Z) (v : cbor_value) : cbor_value :=
  Value (offset v) (remaining v) (extra v) t (unknown v) (iterating v) (too_large v) (remainingclen v).
Definition with_offset (o : Z) (v : cbor_value) : cbor_value :=
  Value o (remaining v) (extra v) (type v) (unknown v) (iterating v) (too_large v) (remainingclen v).
Definition with_remaining (r : Z) (v : cbor_value) : cbor_value :=
  Value (offset v) r (extra v) (type v) (unknown v) (iterating v) (too_large v) (remainingclen v).
Definition with_extra (e : Z) (v : cbor_value) : cbor_value :=
  Value (offset v) (remaining v) e (type v) (unknown v) (iterating v) (too_large v) (remainingclen v).
Definition with_unknown (v : cbor_value) : cbor_value :=
  Value (offset v) (remaining v) (extra v) (type v) true (iterating v) (too_large v) (remainingclen v).
Definition with_iterating (v : cbor_value) : cbor_value :=
  Value (offset v) (remaining v) (extra v) (type v) (unknown v) true (too_large v) (remainingclen v).
Definition with_too_large (v : cbor_value) : cbor_value :=
  Value (offset v) (remaining v) (extra v) (type v) (unknown v) (iterating v) true (remainingclen v).
Definition with_clen (c : Z) (v : cbor_value) : cbor_value :=
  Value (offset v) (remaining v) (extra v) (type v) (unknown v) (iterating v) (too_large v) c.

Section Parser.
Context (p : cbor_parser).

Definition get8 (o : Z) : Z := p_mem p o.

(** [n] bytes from [o] on as a number, the most significant first. *)
Fixpoint getn (n : nat) (o : Z) : Z :=
  match n with
  | O => 0
  | S n' => get8 o * 2 ^ (8 * Z.of_nat n') + getn n' (o + 1)
  end.

Definition bytes_needed (info : Z) : Z := if info <? 24 then 0 else 2 ^ (info - 24).

(** The error, the new offset and the number. *)
Definition extract_number (o : Z) : cbor_error * Z * Z :=
  let info := Z.land (get8 o) 31 in
  let o := o + 1 in
  if info <? 24 then (CborNoError, o, info)
  else if 27 <? info then (CborErrorIllegalNumber, o, 0)
  else if u32 (p_end p - o) <? bytes_needed info then (CborErrorUnexpectedEOF, o, 0)
  else (CborNoError, o + bytes_needed info, getn (Z.to_nat (bytes_needed info)) o).

Definition extract_length (o : Z) : cbor_error * Z * Z :=
  match extract_number o with
  | (CborNoError, o, v) => if negb (v =? u32 v) then (CborErrorDataTooLarge, o, u32 v) else (CborNoError, o, v)
  | (e, o, _) => (e, o, 0)
  end.

Definition is_fixed_type (t : Z) : bool := negb (t =? TextString) && negb (t =? ByteString) && negb (t =? ArrayT) && negb (t =? MapT).

Definition preparse_simple (it : cbor_value) (descriptor : Z) : cbor_error * cbor_value :=
  if descriptor =? 20 then (CborNoError, with_type 0xF5 (with_extra 0 it))
  else if (descriptor =? 26) || (descriptor =? 27) then (CborNoError, with_type (get8 (offset it)) (with_too_large it))
  else if (descriptor =? 21) || (descriptor =? 22) || (descriptor =? 23) || (descriptor =? 25) then (CborNoError, with_type (get8 (offset it)) it)
  else if descriptor =? 24 then
    let it := with_extra (get8 (offset it + 1)) it in
    if extra it <? 32 then (CborErrorIllegalSimpleType, with_type InvalidT it) else (CborNoError, it)
  else (CborNoError, it).

Definition preparse_value (it : cbor_value) : cbor_error * cbor_value :=
  if offset it =? p_end p then (CborErrorUnexpectedEOF, with_type InvalidT it)
  else
    let t := Z.land (get8 (offset it)) 0xE0 in
    let descriptor := Z.land (get8 (offset it)) 31 in
    let it := Value (offset it) (remaining it) descriptor t false false false 0 in
    if 27 <? descriptor then
      if negb (descriptor =? IndefiniteLength) then (if t =? SimpleT then CborErrorUnknownType else CborErrorIllegalNumber, it)
      else if negb (is_fixed_type t) then (CborNoError, with_unknown it)
      else (if t =? SimpleT then CborErrorUnexpectedBreak else CborErrorIllegalNumber, it)
    else if u32 (p_end p - offset it) <? bytes_needed descriptor + 1 then (CborErrorUnexpectedEOF, it)
    else if t =? SimpleT then preparse_simple it descriptor
    else
      let it := if t =? NegativeInteger then with_type UnsignedInteger (with_iterating it) else it in
      if descriptor <? 24 then (CborNoError, it)
      else if descriptor =? 24 then (CborNoError, with_extra (get8 (offset it + 1)) it)
      else if descriptor =? 25 then (CborNoError, with_extra (getn 2 (offset it + 1)) it)
      else (CborNoError, with_too_large it).

Definition UINT32_MAX : Z := 2 ^ 32 - 1.

Definition preparse_next_value (it : cbor_value) : cbor_error * cbor_value :=
  if negb (remaining it =? UINT32_MAX) then
    if type it =? TagT then preparse_value it
    else
      let it := with_remaining (u32 (remaining it - 1)) it in
      if remaining it =? 0 then (CborNoError, with_type InvalidT it) else preparse_value it
  else if negb (offset it =? p_end p) && (get8 (offset it) =? BreakByte) then
    (CborNoError, with_remaining 0 (with_type InvalidT (with_offset (offset it + 1) it)))
  else preparse_value it.

(** Of the number only the end matters for the fixed types. *)
Definition advance_internal (it : cbor_value) : cbor_error * cbor_value :=
  let '(_, o, length) := extract_number (offset it) in
  let o := if (type it =? ByteString) || (type it =? TextString) then o + length else o in
  preparse_next_value (with_offset o it).

Definition cbor_parser_init : cbor_error * cbor_value := preparse_value (Value 0 1 0 0 false false false 0).

Definition at_end (it : cbor_value) : bool := remaining it =? 0.
Definition is_container (it : cbor_value) : bool := (type it =? ArrayT) || (type it =? MapT).

Definition enter_container (it : cbor_value) : cbor_error * cbor_value :=
  let empty v := (CborNoError, with_remaining 0 (with_type InvalidT v)) in
  if unknown it then
    match preparse_value (with_offset (offset it + 1) (with_remaining UINT32_MAX it)) with
    | (CborErrorUnexpectedBreak, r) => empty (with_offset (offset r + 1) r)
    | er => er
    end
  else
    let '(_, o, len) := extract_number (offset it) in
    let r := with_remaining (u32 len) (with_offset o it) in
    if negb (remaining r =? len) || (len =? UINT32_MAX) then (CborErrorDataTooLarge, with_offset (offset it) r)
    else if (type r =? MapT) && (UINT32_MAX / 2 <? remaining r) then (CborErrorDataTooLarge, with_offset (offset it) r)
    else
      let r := if type r =? MapT then with_remaining (remaining r * 2) r else r in
      if negb (len =? 0) then preparse_value r else empty r.

Definition leave_container (it recursed : cbor_value) : cbor_error * cbor_value :=
  preparse_next_value (with_offset (offset recursed) it).

(** The next chunk of a string, as offset and length; [None] after the last one. *)
Definition last_chunk (it : cbor_value) : cbor_error * option (Z * Z) * cbor_value :=
  let '(e, it) := preparse_next_value (with_clen 0 it) in (e, None, it).

Definition take_chunk (it : cbor_value) (len : Z) : cbor_error * option (Z * Z) * cbor_value :=
  (CborNoError, Some (offset it, len), with_clen (remainingclen it - len) (with_offset (offset it + len) it)).

Definition get_string_chunk (it : cbor_value) : cbor_error * option (Z * Z) * cbor_value :=
  if negb (remainingclen it =? 0) then take_chunk it (remainingclen it)
  else if iterating it && negb (unknown it) then last_chunk it
  else
    let it := if negb (iterating it) && unknown it then with_iterating (with_offset (offset it + 1) it) else it in
    let val := get8 (offset it) in
    if offset it =? p_end p then (CborErrorUnexpectedEOF, None, it)
    else if val =? BreakByte then last_chunk (with_offset (offset it + 1) it)
    else if Z.land val 0xE0 =? type it then
      let '(e, o, len) := extract_length (offset it) in
      let it := with_offset o it in
      match e with
      | CborNoError =>
          if u32 (p_end p - o) <? len then (CborErrorUnexpectedEOF, None, it)
          else let '(e, c, it) := take_chunk (with_clen len it) len in (e, c, with_iterating it)
      | e => (e, None, it)
      end
    else (CborErrorIllegalType, None, it).

Definition span (o len : Z) : list Z := map (fun k => get8 (o + Z.of_nat k)) (seq 0 (Z.to_nat len)).

(** The loop of [iterate_string_chunks]: [func] gets the place in the buffer and the bytes; [acc] are the bytes copied so far. *)
Fixpoint chunk_loop (fuel : nat) (buflen : Z) (func : Z -> list Z -> bool) (next : cbor_value) (total : Z) (result : bool) (acc : list Z)
    : option (cbor_error * Z * bool * list Z * cbor_value) :=
  match fuel with
  | O => None
  | S fuel' =>
      match get_string_chunk next with
      | (CborNoError, None, next) => Some (CborNoError, total, result, acc, next)
      | (CborNoError, Some (o, len), next) =>
          let newTotal := total + len in
          if 2 ^ 32 <=? newTotal then Some (CborErrorDataTooLarge, total, result, acc, next)
          else
            let fits := result && (newTotal <=? buflen) in
            chunk_loop fuel' buflen func next newTotal (fits && func total (span o len)) (if fits then acc ++ span o len else acc)
      | (e, _, next) => Some (e, total, result, acc, next)
      end
  end.

(** More turns than bytes are not possible. *)
Definition turns : nat := Z.to_nat (p_end p + 2).

Definition iterate_string_chunks (v : cbor_value) (buflen : Z) (func : Z -> list Z -> bool) : option (cbor_error * Z * bool * list Z * cbor_value) :=
  chunk_loop turns buflen func v 0 true [].

(** The error, [*buflen] afterwards and the bytes stored from [buffer] on, nothing when it is null ([buffer] false).
    Behind a string that was copied completely the function stores a 0, also when the string fills the buffer. *)
Definition copy_string (v : cbor_value) (buffer : bool) (buflen : Z) : option (cbor_error * Z * list Z * cbor_value) :=
  '(e, total, result, acc, next) ← iterate_string_chunks v buflen (fun _ _ => true);
  Some match e with
  | CborNoError =>
      if result : bool then (CborNoError, total, if buffer then acc ++ [0] else [], next)
      else (CborErrorOutOfMemory, total, if buffer then acc else [], next)
  | e => (e, buflen, if buffer then acc else [], next)
  end.

(** Skipping a value of any type; a string is skipped as one of any length. *)
Fixpoint advance_recursive (fuel : nat) (nestingLevel : nat) (it : cbor_value) : option (cbor_error * cbor_value) :=
  match fuel with
  | O => None
  | S fuel' =>
      if is_fixed_type (type it) then Some (advance_internal it)
      else if negb (is_container it) then '(e, _, _, next) ← copy_string it false UINT32_MAX; Some (e, next)
      else match nestingLevel with
      | O => Some (CborErrorNestingTooDeep, it)
      | S level =>
          match enter_container it with
          | (CborNoError, recursed) => advance_items fuel' level it recursed
          | (e, _) => Some (e, it)
          end
      end
  end
with advance_items (fuel : nat) (level : nat) (it recursed : cbor_value) : option (cbor_error * cbor_value) :=
  match fuel with
  | O => None
  | S fuel' =>
      if at_end recursed then Some (leave_container it recursed)
      else
        r ← advance_recursive fuel' level recursed;
        match r with
        | (CborNoError, recursed) => advance_items fuel' level it recursed
        | (e, _) => Some (e, it)
        end
  end.

Definition CBOR_PARSER_MAX_RECURSIONS : nat := 1024.

Definition cbor_value_advance (it : cbor_value) : option (cbor_error * cbor_value) :=
  if remaining it =? 0 then Some (CborErrorAdvancePastEOF, it) else advance_recursive (2 * turns) CBOR_PARSER_MAX_RECURSIONS it.

Fixpoint skip_tags (fuel : nat) (it : cbor_value) : option (cbor_error * cbor_value) :=
  match fuel with
  | O => None
  | S fuel' =>
      if negb (type it =? TagT) then Some (CborNoError, it)
      else if remaining it =? 0 then Some (CborErrorAdvancePastEOF, it)
      else match advance_internal it with (CborNoError, it) => skip_tags fuel' it | er => Some er end
  end.
Definition cbor_value_skip_tag (it : cbor_value) : option (cbor_error * cbor_value) := skip_tags turns it.

Definition compare_at (string : list Z) (total : Z) (bytes : list Z) : bool :=
  bool_decide (take (length bytes) (drop (Z.to_nat total) string) = bytes).

Fixpoint find_loop (fuel : nat) (string : list Z) (element : cbor_value) : option (cbor_error * cbor_value) :=
  match fuel with
  | O => None
  | S fuel' =>
      let fail e v := Some (e, with_type InvalidT v) in
      let skip_value element :=
        r ← cbor_value_skip_tag element;
        match r with
        | (CborNoError, element) =>
            r ← cbor_value_advance element;
            match r with (CborNoError, element) => find_loop fuel' string element | (e, v) => fail e v end
        | (e, v) => fail e v
        end in
      if at_end element then fail CborNoError element
      else
        r ← cbor_value_skip_tag element;
        match r with
        | (CborNoError, element) =>
            if type element =? TextString then
              r ← iterate_string_chunks element (Z.of_nat (length string)) (compare_at string);
              match r with
              | (CborNoError, total, equals, _, element) =>
                  if equals && (total =? Z.of_nat (length string)) then Some (preparse_value element) else skip_value element
              | (e, _, _, _, v) => fail e v
              end
            else
              r ← cbor_value_advance element;
              match r with (CborNoError, element) => skip_value element | (e, v) => fail e v end
        | (e, v) => fail e v
        end
  end.

Definition cbor_value_map_find_value (m : cbor_value) (string : list Z) : option (cbor_error * cbor_value) :=
  match enter_container m with
  | (CborNoError, element) => find_loop turns string element
  | (e, v) => Some (e, with_type InvalidT v)
  end.

(** The value is not looked at: assertions are off. *)
Definition cbor_value_get_uint64 (v : cbor_value) : Z :=
  if too_large v then if Z.even (get8 (offset v)) then getn 4 (offset v + 1) else getn 8 (offset v + 1) else extra v.

End Parser.

(** ** The parser ends on every message *)

Section Bounds.
Context (p : cbor_parser).
Context (Hend : 0 <= p_end p < 2 ^ 31).

(** A value [preparse_value] has accepted, and what the iterator holds between two calls. *)
Definition parsed (it : cbor_value) : Prop := offset it < p_end p /\ exists it0, preparse_value p it0 = (CborNoError, it).
Definition usable (it : cbor_value) : Prop := 0 <= offset it <= p_end p /\ remainingclen it = 0 /\ (remaining it = 0 /\ type it = InvalidT \/ parsed it).

Lemma preparse_offset it e it' : preparse_value p it = (e, it') -> offset it' = offset it /\ remaining it' = remaining it.
Proof. unfold preparse_value, preparse_simple. intros H. repeat case_match; simplify_eq; done. Qed.

Lemma preparse_ok it it' : 0 <= offset it <= p_end p -> preparse_value p it = (CborNoError, it') -> usable it' /\ parsed it'.
Proof.
  intros Ho H. pose proof (preparse_offset _ _ _ H) as [E _].
  assert (offset it <> p_end p) as Hn by (intros Hx; unfold preparse_value in H; rewrite Hx, Z.eqb_refl in H; discriminate).
  assert (parsed it') as Hp by (split; [lia|by exists it]).
  split; [|done]. split_and!; [lia|lia| |by right].
  clear Hp. revert H. unfold preparse_value, preparse_simple. intros H. repeat case_match; simplify_eq; done.
Qed.

Lemma preparse_fits it it' : 0 <= offset it <= p_end p -> preparse_value p it = (CborNoError, it') ->
  Z.land (get8 p (offset it)) 31 = 31 \/ bytes_needed (Z.land (get8 p (offset it)) 31) + 1 <= p_end p - offset it.
Proof.
  intros Ho H. unfold preparse_value in H. destruct (offset it =? p_end p); [discriminate|]. cbv zeta in H. cbn [offset] in H.
  destruct (27 <? _) eqn:E1.
  - unfold IndefiniteLength in H. destruct (Z.eqb_spec (Z.land (get8 p (offset it)) 31) 31); [by left|].
    cbn [negb] in H. destruct (_ =? SimpleT); discriminate.
  - destruct (u32 (p_end p - offset it) <? _) eqn:E2; [discriminate|]. right. to_prop. rewrite u32_small in E2 by lia. lia.
Qed.

(** The number of a value that was accepted ends inside the message. *)
Lemma extract_inside it : 0 <= offset it -> parsed it -> offset it < snd (fst (extract_number p (offset it))) <= p_end p.
Proof.
  intros H0 [Ho [it0 H]]. pose proof (preparse_offset _ _ _ H) as [E _].
  assert (0 <= offset it0 <= p_end p) as H1 by lia. apply (preparse_fits _ _ H1) in H. rewrite <- E in H.
  unfold extract_number. destruct (Z.land (get8 p (offset it)) 31 <? 24) eqn:E1; cbn [fst snd]; [lia|].
  destruct (27 <? _) eqn:E2; cbn [fst snd]; [lia|]. to_prop.
  assert (0 < bytes_needed (Z.land (get8 p (offset it)) 31)) by (unfold bytes_needed; case_if; to_prop; lia).
  destruct (u32 _ <? _); cbn [fst snd]; lia.
Qed.

Lemma next_usable it it' : 0 <= offset it <= p_end p -> remainingclen it = 0 -> preparse_next_value p it = (CborNoError, it') ->
  usable it' /\ offset it <= offset it'.
Proof.
  intros Ho Hc H. unfold preparse_next_value in H.
  assert (forall v, offset v = offset it -> preparse_value p v = (CborNoError, it') -> usable it' /\ offset it <= offset it') as Hp.
  { intros v Hv Hp. pose proof (preparse_offset _ _ _ Hp) as [E _]. rewrite <- Hv in Ho. split; [by apply (preparse_ok v)|lia]. }
  destruct (negb (remaining it =? UINT32_MAX)).
  - destruct (type it =? TagT); [by apply (Hp it)|]. cbv zeta in H. destruct (remaining _ =? 0) eqn:E; [|by eapply Hp; [|exact H]].
    injection H as <-. to_prop. split; [|done]. split_and!; [apply Ho|apply Ho|exact Hc|left; by split].
  - destruct (negb (offset it =? p_end p) && _) eqn:E; [|by apply (Hp it)].
    injection H as <-. apply andb_true_iff in E as [E _]. to_prop. cbn. split; [|lia]. split_and!; cbn; [lia|lia|exact Hc|by left].
Qed.

Lemma advance_internal_usable it it' : 0 <= offset it -> parsed it -> remainingclen it = 0 -> is_fixed_type (type it) = true ->
  advance_internal p it = (CborNoError, it') -> usable it' /\ offset it < offset it'.
Proof.
  intros H0 Hp Hc Ht H. pose proof (extract_inside it H0 Hp) as He. unfold advance_internal in H.
  destruct (extract_number p (offset it)) as [[e o] len]. cbn [fst snd] in He.
  assert ((type it =? ByteString) || (type it =? TextString) = false) as E.
  { unfold is_fixed_type in Ht. destruct (type it =? TextString), (type it =? ByteString); done. }
  rewrite E in H. apply next_usable in H as [Hu Hl]; [|cbn; lia|exact Hc]. cbn in Hl. split; [done|lia].
Qed.

Lemma extract_number_ok o o' v : 0 <= o < p_end p -> extract_number p o = (CborNoError, o', v) -> o < o' <= p_end p.
Proof.
  intros Ho H. unfold extract_number in H. destruct (_ <? 24) eqn:E1; [injection H as <- _; lia|]. destruct (27 <? _); [discriminate|].
  destruct (u32 _ <? _) eqn:E2; [discriminate|]. injection H as <- _. to_prop. rewrite u32_small in E2 by lia.
  assert (0 < bytes_needed (Z.land (get8 p o) 31)) by (unfold bytes_needed; case_if; to_prop; lia). lia.
Qed.

Lemma extract_length_ok o o' v : 0 <= o < p_end p -> extract_length p o = (CborNoError, o', v) -> o < o' <= p_end p /\ 0 <= v.
Proof.
  intros Ho H. unfold extract_length in H. destruct (extract_number p o) as [[[] o1] v1] eqn:E; try discriminate.
  destruct (negb (v1 =? u32 v1)) eqn:Ev; [discriminate|]. injection H as <- <-. split; [by eapply extract_number_ok|].
  apply negb_false_iff in Ev. to_prop. rewrite Ev. unfold u32. pose proof (Z.mod_pos_bound v1 (2 ^ 32)). lia.
Qed.

Lemma last_usable it e c it' : 0 <= offset it <= p_end p -> last_chunk p it = (e, c, it') ->
  c = None /\ (e = CborNoError -> usable it' /\ offset it <= offset it').
Proof.
  intros Ho H. unfold last_chunk in H. destruct (preparse_next_value p (with_clen 0 it)) as [e1 v1] eqn:E. injection H as <- <- <-.
  split; [done|]. intros ->. by apply (next_usable (with_clen 0 it)) in E.
Qed.

(** One chunk takes at least a byte; after the last one the iterator is at the next value. *)
Definition chunking (it : cbor_value) : Prop :=
  0 <= offset it <= p_end p /\ remainingclen it = 0 /\ (iterating it = true \/ offset it < p_end p).

Lemma chunk_step it c it' : chunking it -> get_string_chunk p it = (CborNoError, c, it') ->
  match c with
  | Some (_, len) => 0 <= len /\ offset it < offset it' /\ chunking it'
  | None => usable it' /\ offset it <= offset it' /\ (iterating it = false -> offset it < offset it')
  end.
Proof.
  intros (Ho & Hc & Hi) H. unfold get_string_chunk in H. rewrite Hc in H. cbn [Z.eqb negb] in H.
  destruct (iterating it && negb (unknown it)) eqn:E1.
  { apply last_usable in H as [-> H]; [|done]. destruct (H eq_refl). apply andb_true_iff in E1 as [E1 _]. split_and!; [done|done|congruence]. }
  set (it1 := if negb (iterating it) && unknown it then _ else it) in H. cbv zeta in H.
  assert (offset it <= offset it1 <= p_end p) as H1.
  { unfold it1. destruct (negb (iterating it) && unknown it) eqn:E; cbn; [|lia]. apply andb_true_iff in E as [E _].
    apply negb_true_iff in E. destruct Hi; [congruence|lia]. }
  destruct (offset it1 =? p_end p) eqn:E2; [discriminate|]. to_prop.
  destruct (get8 p (offset it1) =? BreakByte).
  { apply last_usable in H as [-> H]; [|cbn; lia]. destruct (H eq_refl) as [Hu Hl]. cbn in Hl. split_and!; [done|lia|lia]. }
  destruct (_ =? type it1); [|discriminate].
  destruct (extract_length p (offset it1)) as [[[] o] len] eqn:E; try discriminate.
  apply extract_length_ok in E as [E Hlen]; [|lia].
  destruct (u32 (p_end p - o) <? len) eqn:E3; [discriminate|]. to_prop. rewrite u32_small in E3 by lia.
  unfold take_chunk in H. injection H as <- <-. unfold chunking. cbn. split_and!; [lia|lia|lia|lia|lia|by left].
Qed.

Lemma chunk_loop_ends fuel : forall buflen func it total result acc, chunking it -> (Z.to_nat (p_end p - offset it) < fuel)%nat ->
  exists e t r a it', chunk_loop p fuel buflen func it total result acc = Some (e, t, r, a, it') /\
    (e = CborNoError -> usable it' /\ offset it <= offset it' /\ (iterating it = false -> offset it < offset it')).
Proof.
  induction fuel as [|fuel IH]; intros buflen func it total result acc Hc Hf; [lia|]. cbn [chunk_loop].
  destruct (get_string_chunk p it) as [[e c] it1] eqn:E. destruct e; try by (repeat eexists; discriminate).
  pose proof (chunk_step _ _ _ Hc E) as Hs. destruct c as [[o len]|]; [|by repeat eexists; apply Hs].
  destruct Hs as (_ & Hlt & Hc1). destruct (2 ^ 32 <=? total + len); [by repeat eexists; discriminate|].
  match goal with |- context [chunk_loop p fuel ?b ?g it1 ?t ?r ?a] => destruct (IH b g it1 t r a Hc1) as (e & t' & r' & a' & it' & -> & Hr) end.
  { destruct Hc1. lia. }
  do 5 eexists. split; [done|]. intros He. destruct (Hr He) as (? & ? & _). split_and!; [done|lia|lia].
Qed.

Lemma parsed_string it : parsed it -> is_fixed_type (type it) = false -> iterating it = false.
Proof.
  intros [_ [it0 H]] Ht. revert H. unfold preparse_value, preparse_simple. intros H. repeat case_match; simplify_eq; cbn in *; try done.
Qed.

Lemma iterate_ends buflen func it : usable it -> parsed it -> is_fixed_type (type it) = false ->
  exists e t r a it', iterate_string_chunks p it buflen func = Some (e, t, r, a, it') /\
    (e = CborNoError -> usable it' /\ offset it < offset it').
Proof.
  intros (Ho & Hc & _) Hp Ht. pose proof (parsed_string _ Hp Ht) as Hi. unfold iterate_string_chunks, turns.
  destruct (chunk_loop_ends (Z.to_nat (p_end p + 2)) buflen func it 0 true []) as (e & t & r & a & it' & -> & Hr).
  - split_and!; [lia|lia|done|right; apply Hp].
  - lia.
  - do 5 eexists. split; [done|]. intros He. destruct (Hr He) as (? & _ & H). split; [done|by apply H].
Qed.

Lemma enter_usable it it' : usable it -> parsed it -> enter_container p it = (CborNoError, it') -> usable it' /\ offset it < offset it'.
Proof.
  intros (Ho & Hc & _) Hp H. pose proof (extract_inside it ltac:(lia) Hp) as He. unfold enter_container in H. cbv zeta in H. destruct (unknown it).
  - destruct (preparse_value p _) as [e v] eqn:E. pose proof (preparse_offset _ _ _ E) as [Ev _]. cbn in Ev. destruct Hp as [Hp _].
    assert (remainingclen v = 0 \/ e = CborNoError) as Hv.
    { revert E. unfold preparse_value, preparse_simple. intros E. repeat case_match; simplify_eq; cbn; auto. }
    destruct e; try discriminate.
    + injection H as <-. apply preparse_ok in E as [Hu _]; [|cbn; lia]. split; [done|lia].
    + injection H as <-. destruct Hv as [Hv|]; [|discriminate]. cbn. split; [|lia].
      assert (offset v <> p_end p) by (intros Hx; unfold preparse_value in E; cbn in E; rewrite <- Ev, Hx, Z.eqb_refl in E; discriminate).
      split_and!; cbn; [lia|lia|done|by left].
  - destruct (extract_number p (offset it)) as [[e o] len]. cbn [fst snd] in He. cbn [remaining type with_remaining with_offset offset] in H.
    destruct (negb _ || _); [discriminate|]. destruct ((type it =? MapT) && _); [discriminate|].
    set (r := if type it =? MapT then _ else _) in H. assert (offset r = o /\ remainingclen r = 0) as [Er Hr] by (unfold r; destruct (type it =? MapT); by split).
    destruct (negb (len =? 0)).
    + pose proof (preparse_offset _ _ _ H) as [Eo _]. apply preparse_ok in H as [Hu _]; [|lia]. split; [done|lia].
    + injection H as <-. cbn. split; [|lia]. split_and!; cbn; [lia|lia|done|by left].
Qed.

Lemma not_end it : usable it -> at_end it = false -> parsed it.
Proof. intros (_ & _ & [[H _]|H]) E; [|done]. unfold at_end in E. to_prop. lia. Qed.

(** What a call that skips something gives. *)
Definition skips (it : cbor_value) (r : option (cbor_error * cbor_value)) : Prop :=
  exists e it', r = Some (e, it') /\ (e = CborNoError -> usable it' /\ offset it < offset it').

Lemma skips_error it e it' : e <> CborNoError -> skips it (Some (e, it')).
Proof. intros H. exists e, it'. split; [done|]. intros ->. done. Qed.

Lemma skips_some it r : (r.1 = CborNoError -> usable r.2 /\ offset it < offset r.2) -> skips it (Some r).
Proof. intros H. destruct r as [e v]. by exists e, v. Qed.

Lemma copy_skips it buflen : usable it -> parsed it -> is_fixed_type (type it) = false ->
  skips it ('(e, _, _, next) ← copy_string p it false buflen; Some (e, next)).
Proof.
  intros Hu Hp Ht. unfold copy_string. destruct (iterate_ends buflen (fun _ _ => true) it Hu Hp Ht) as (e & t & r & a & it' & -> & Hr).
  cbn [mbind option_bind]. destruct e; try by apply skips_error. destruct r; [|by apply skips_error]. apply skips_some. intros _. by apply Hr.
Qed.

(** The two recursive functions, by their fuel: two units for every byte that is left. *)
Lemma advance_ends fuel :
  (forall level it, usable it -> parsed it -> (2 * Z.to_nat (p_end p - offset it) + 1 <= fuel)%nat -> skips it (advance_recursive p fuel level it)) /\
  (forall level it rec, usable it -> parsed it -> usable rec -> offset it < offset rec -> (2 * Z.to_nat (p_end p - offset rec) + 2 <= fuel)%nat ->
     skips it (advance_items p fuel level it rec)).
Proof.
  induction fuel as [|fuel [IHr IHi]]; [split; intros; lia|]. split.
  - intros level it Hu Hp Hf. cbn [advance_recursive]. destruct (is_fixed_type (type it)) eqn:Et.
    { apply skips_some. destruct (advance_internal p it) as [e v] eqn:E. cbn. intros ->. destruct Hu as (? & ? & _).
      by apply (advance_internal_usable it v) in E; [|lia|..]. }
    destruct (negb (is_container it)); [by apply copy_skips|]. destruct level as [|level]; [by apply skips_error|].
    destruct (enter_container p it) as [e r] eqn:E. destruct e; try by apply skips_error.
    destruct (enter_usable _ _ Hu Hp E) as [Hr Hl]. apply IHi; try done. destruct Hr, Hp. lia.
  - intros level it rec Hu Hp Hr Hl Hf. cbn [advance_items]. destruct (at_end rec) eqn:Ee.
    { apply skips_some. destruct (leave_container p it rec) as [e v] eqn:E. cbn. intros ->. unfold leave_container in E.
      apply next_usable in E as [Hv Ho]; [|cbn; apply Hr|cbn; apply Hu]. cbn in Ho. split; [done|lia]. }
    pose proof (not_end _ Hr Ee) as Hpr. destruct (IHr level rec Hr Hpr) as (e & v & -> & Hv); [destruct Hpr; lia|].
    cbn. destruct e; try by apply skips_error. destruct (Hv eq_refl) as [Hv1 Hv2]. apply IHi; try done; [lia|]. destruct Hr, Hv1, Hpr. lia.
Qed.

Lemma value_advance_skips it : usable it -> skips it (cbor_value_advance p it).
Proof.
  intros Hu. unfold cbor_value_advance. destruct (remaining it =? 0) eqn:E; [by apply skips_error|].
  apply advance_ends; [done|by apply not_end|]. unfold turns. destruct Hu. lia.
Qed.

Lemma skip_tags_ends fuel : forall it, usable it -> (Z.to_nat (p_end p - offset it) < fuel)%nat ->
  exists e it', skip_tags p fuel it = Some (e, it') /\ (e = CborNoError -> usable it' /\ offset it <= offset it').
Proof.
  induction fuel as [|fuel IH]; intros it Hu Hf; [lia|]. cbn [skip_tags]. destruct (type it =? TagT) eqn:Et; cbn [negb]; [|by exists CborNoError, it].
  destruct (remaining it =? 0) eqn:Er; [by exists CborErrorAdvancePastEOF, it|].
  destruct (advance_internal p it) as [e v] eqn:E. destruct e; try by (do 2 eexists).
  pose proof (not_end _ Hu Er) as Hp. pose proof Hu as (Ho & Hc & _).
  apply advance_internal_usable in E as [Hv Hl]; [|lia|done|done|to_prop; by rewrite Et].
  destruct (IH v Hv) as (e & it' & -> & Hr); [destruct Hv; lia|]. do 2 eexists. split; [done|]. intros He. destruct (Hr He). split; [done|lia].
Qed.

Lemma skip_tag_ends it : usable it -> exists e it', cbor_value_skip_tag p it = Some (e, it') /\ (e = CborNoError -> usable it' /\ offset it <= offset it').
Proof. intros Hu. apply skip_tags_ends; [done|]. unfold turns. destruct Hu. lia. Qed.

Lemma text_parsed it : usable it -> type it = TextString -> parsed it.
Proof. intros (_ & _ & [[_ H]|H]) Ht; [|done]. rewrite H in Ht. discriminate. Qed.

(** What a search gives: the value, or one of the invalid type inside the message. *)
Definition searched (r : option (cbor_error * cbor_value)) : Prop :=
  exists e v, r = Some (e, v) /\ (e = CborNoError -> 0 <= offset v <= p_end p /\ remainingclen v = 0 /\ (type v = InvalidT \/ parsed v)).

Lemma searched_error e v : e <> CborNoError -> searched (Some (e, v)).
Proof. intros H. exists e, v. split; [done|]. intros ->. done. Qed.

Lemma find_loop_ends fuel string : forall it, usable it -> (Z.to_nat (p_end p - offset it) < fuel)%nat -> searched (find_loop p fuel string it).
Proof.
  induction fuel as [|fuel IH]; intros it Hu Hf; [lia|]. cbn [find_loop]. cbv zeta.
  assert (forall v, usable v -> offset it <= offset v -> searched
    (r ← cbor_value_skip_tag p v; match r with
      | (CborNoError, v) => r ← cbor_value_advance p v; match r with (CborNoError, v) => find_loop p fuel string v | (e, v) => Some (e, with_type InvalidT v) end
      | (e, v) => Some (e, with_type InvalidT v) end)) as Hskip.
  { intros v Hv Hl. destruct (skip_tag_ends v Hv) as (e & v1 & -> & H1). cbn. destruct e; try by apply searched_error.
    destruct (H1 eq_refl) as [Hu1 Hl1]. destruct (value_advance_skips v1 Hu1) as (e & v2 & -> & H2). cbn. destruct e; try by apply searched_error.
    destruct (H2 eq_refl) as [Hu2 Hl2]. apply IH; [done|]. destruct Hu2. lia. }
  destruct (at_end it); [by exists CborNoError, (with_type InvalidT it); split; [done|]; intros _; destruct Hu as (? & ? & _); split_and!; cbn; auto; lia|].
  destruct (skip_tag_ends it Hu) as (e & v & -> & H1). cbn [mbind option_bind]. destruct e; try by apply searched_error.
  destruct (H1 eq_refl) as [Hv Hl]. destruct (type v =? TextString) eqn:Et.
  - to_prop. pose proof (text_parsed _ Hv Et) as Hp.
    destruct (iterate_ends (Z.of_nat (length string)) (compare_at string) v Hv Hp) as (e & t & r & a & v1 & -> & H2); [by rewrite Et|].
    cbn [mbind option_bind]. destruct e; try by apply searched_error. destruct (H2 eq_refl) as [Hv1 Hl1].
    destruct (r && _); [|apply Hskip; [done|lia]]. destruct (preparse_value p v1) as [e v2] eqn:E. exists e, v2. split; [done|]. intros ->.
    apply preparse_ok in E as [(? & ? & _) ?]; [|apply Hv1]. split_and!; [lia|lia|done|by right].
  - destruct (value_advance_skips v Hv) as (e & v1 & -> & H2). cbn [mbind option_bind]. destruct e; try by apply searched_error.
    destruct (H2 eq_refl) as [Hv1 Hl1]. apply Hskip; [done|lia].
Qed.

Lemma find_ends m string : usable m -> parsed m -> searched (cbor_value_map_find_value p m string).
Proof.
  intros Hm Hp. unfold cbor_value_map_find_value. destruct (enter_container p m) as [e v] eqn:E. destruct e; try by apply searched_error.
  destruct (enter_usable _ _ Hm Hp E) as [Hv _]. apply find_loop_ends; [done|]. unfold turns. destruct Hv. lia.
Qed.

Lemma init_parsed m : cbor_parser_init p = (CborNoError, m) -> usable m /\ parsed m.
Proof. intros H. by apply preparse_ok in H; [|cbn; lia]. Qed.

(** Copying gives no more bytes than asked for, whatever the value is. *)
Lemma chunk_loop_bound fuel : forall buflen func it total result acc r, chunking it -> (result = true -> Z.of_nat (length acc) = total) ->
  Z.of_nat (length acc) <= buflen -> chunk_loop p fuel buflen func it total result acc = Some r ->
  Z.of_nat (length r.1.2) <= buflen /\ (r.1.1.2 = true -> Z.of_nat (length r.1.2) = r.1.1.1.2).
Proof.
  induction fuel as [|fuel IH]; intros buflen func it total result acc r Hc Ht Hb H; [discriminate|]. cbn [chunk_loop] in H.
  destruct (get_string_chunk p it) as [[e c] it1] eqn:E. destruct e; try by (injection H as <-).
  pose proof (chunk_step _ _ _ Hc E) as Hs. destruct c as [[o len]|]; [|by injection H as <-]. destruct Hs as (Hlen & _ & Hc1).
  destruct (2 ^ 32 <=? total + len); [by injection H as <-|]. cbv zeta in H.
  assert (length (span p o len) = Z.to_nat len) as Es by (unfold span; by rewrite length_map, length_seq).
  destruct (result && (total + len <=? buflen)) eqn:Ef.
  - apply andb_true_iff in Ef as [-> Ef]. to_prop. specialize (Ht eq_refl). apply IH in H; [done|done|..]; rewrite ?length_app; lia.
  - apply IH in H; [done|done|intros; discriminate|done].
Qed.

Lemma invalid_chunk v : type v = InvalidT -> remainingclen v = 0 -> snd (fst (get_string_chunk p v)) = None.
Proof.
  intros Ht Hc. unfold get_string_chunk. rewrite Hc. cbn [Z.eqb negb].
  assert (forall v, snd (fst (last_chunk p v)) = None) as Hl by (intros v1; unfold last_chunk; by destruct (preparse_next_value p _)).
  destruct (iterating v && negb (unknown v)); [apply Hl|]. set (v1 := if negb (iterating v) && unknown v then _ else v). cbv zeta.
  assert (type v1 = InvalidT) as -> by (unfold v1; by case_match).
  destruct (offset v1 =? p_end p); [done|]. destruct (_ =? BreakByte); [apply Hl|].
  assert ((Z.land (get8 p (offset v1)) 0xE0 =? InvalidT) = false) as ->; [|done].
  apply Z.eqb_neq. intros Hx. assert (Z.testbit (Z.land (get8 p (offset v1)) 0xE0) 0 = true) as Hb by (by rewrite Hx).
  rewrite Z.land_spec in Hb. by rewrite andb_false_r in Hb.
Qed.

(** What a copy into a buffer leaves: behind a string that was copied completely there is the 0, one byte more than [buflen]
    allows when the string fills the buffer. *)
Definition copied (buflen : Z) (r : cbor_error * Z * list Z * cbor_value) : Prop :=
  let '(e, len, stored, _) := r in
  match e with CborNoError => len <= buflen /\ Z.of_nat (length stored) = len + 1 /\ stored !! Z.to_nat len = Some 0 | _ => Z.of_nat (length stored) <= buflen end.

Lemma copy_ends buflen v : 0 <= buflen -> 0 <= offset v <= p_end p -> remainingclen v = 0 -> type v = InvalidT \/ parsed v ->
  exists r, copy_string p v true buflen = Some r /\ copied buflen r.
Proof.
  intros Hb Ho Hc Hv. unfold copy_string, iterate_string_chunks. destruct Hv as [Ht|Hp].
  - pose proof (invalid_chunk v Ht Hc) as Hi. unfold turns. destruct (Z.to_nat (p_end p + 2)) as [|n] eqn:Et; [exfalso; clear -Et Hend; lia|]. cbn [chunk_loop].
    destruct (get_string_chunk p v) as [[e c] v1]. cbn [fst snd] in Hi. subst c. destruct e; (eexists; split; [reflexivity|done]).
  - assert (chunking v) as Hk by (split_and!; [lia|lia|done|right; apply Hp]).
    destruct (chunk_loop_ends (turns p) buflen (fun _ _ => true) v 0 true [] Hk) as (e & t & r & a & v1 & E & _); [unfold turns; lia|].
    destruct (chunk_loop_bound (turns p) buflen (fun _ _ => true) v 0 true [] _ Hk (fun _ => eq_refl) Hb E) as [Hl Hr]. cbn in Hl, Hr.
    rewrite E. cbn [mbind option_bind]. eexists. split; [reflexivity|]. destruct e; try done. destruct r; [|done]. specialize (Hr eq_refl).
    cbn. rewrite length_app. cbn. split_and!; [lia|lia|]. rewrite lookup_app_r by lia. by replace (Z.to_nat t - length a)%nat with 0%nat by lia.
Qed.

End Bounds.

(** ** Round trip *)

(** The messages of the upload protocol: a map from text to numbers and byte strings. *)
Inductive item := IUint (v : Z) | IBytes (s : list Z).

Definition enc_item (i : item) : list Z := match i with IUint v => cbor_encode_uint v | IBytes s => cbor_encode_byte_string s end.
Fixpoint enc_pairs (l : list (list Z * item)) : list Z :=
  match l with
  | [] => []
  | (k, i) :: l' => cbor_encode_text_string k ++ enc_item i ++ enc_pairs l'
  end.
Definition enc_map (l : list (list Z * item)) : list Z := cbor_encoder_create_map ++ enc_pairs l ++ cbor_encoder_close_container.

(** A message in memory. *)
Definition message (m : list Z) : cbor_parser := Parser (fun o => if o <? 0 then 0 else nth (Z.to_nat o) m 0) (Z.of_nat (length m)).

Definition item_ok (i : item) : Prop :=
  match i with IUint v => 0 <= v < 2 ^ 64 | IBytes s => Forall is_byte s /\ Z.of_nat (length s) < 2 ^ 31 end.
Definition number_of (i : item) : Z := match i with IUint v => v | IBytes s => Z.of_nat (length s) end.
Definition type_of (i : item) : Z := match i with IUint _ => UnsignedInteger | IBytes _ => ByteString end.

Lemma head_byte q d : 0 <= q < 8 -> 0 <= d < 32 -> Z.land (32 * q + d) 31 = d /\ Z.land (32 * q + d) 0xE0 = 32 * q.
Proof.
  intros Hq Hd.
  assert (forallb (fun q => forallb (fun d => (Z.land (32 * q + d) 31 =? d) && (Z.land (32 * q + d) 0xE0 =? 32 * q)) (seqZ 0 32)) (seqZ 0 8) = true) as H by reflexivity.
  rewrite forallb_forall in H. specialize (H q ltac:(apply list_elem_of_In, elem_of_seqZ; lia)).
  rewrite forallb_forall in H. specialize (H d ltac:(apply list_elem_of_In, elem_of_seqZ; lia)). apply andb_true_iff in H as [? ?]. by to_prop.
Qed.

Section Roundtrip.
Context (p : cbor_parser).
Context (Hend : 0 <= p_end p < 2 ^ 31).

(** [l] is at [o], inside the message. *)
Definition holds (o : Z) (l : list Z) : Prop := 0 <= o /\ o + Z.of_nat (length l) <= p_end p /\ forall k x, l !! k = Some x -> get8 p (o + Z.of_nat k) = x.

Lemma holds_app o a b : holds o (a ++ b) -> holds o a /\ holds (o + Z.of_nat (length a)) b.
Proof.
  intros (H0 & H1 & H2). rewrite length_app in H1. split.
  - split_and!; [lia|lia|]. intros k x Hx. apply H2. by apply lookup_app_l_Some.
  - split_and!; [lia|lia|]. intros k x Hx. rewrite <- Z.add_assoc, <- Nat2Z.inj_add. apply H2. rewrite lookup_app_r by lia. by rewrite Nat.add_comm, Nat.add_sub.
Qed.

Lemma holds_cons o x l : holds o (x :: l) -> get8 p o = x /\ holds (o + 1) l.
Proof.
  intros H. change (x :: l) with ([x] ++ l) in H. apply holds_app in H as [(_ & _ & H1) H2]. split; [|done].
  rewrite <- (H1 0%nat x) by done. f_equal. lia.
Qed.

Lemma getn_be n : forall o x, holds o (be n x) -> getn p n o = x mod 2 ^ (8 * Z.of_nat n).
Proof.
  induction n as [|n IH]; intros o x H; cbn [getn be] in *; [by rewrite Z.mod_1_r|].
  apply holds_cons in H as [-> H]. rewrite (IH _ _ H). unfold u8.
  replace (8 * Z.of_nat (S n)) with (8 * Z.of_nat n + 8) by lia. rewrite Z.pow_add_r by lia.
  rewrite Z.rem_mul_r by (try apply Z.pow_nonzero; lia). lia.
Qed.

Lemma span_holds o l : holds o l -> span p o (Z.of_nat (length l)) = l.
Proof.
  intros (_ & _ & H). unfold span. rewrite Nat2Z.id. apply list_eq. intros k. rewrite list_lookup_fmap.
  destruct (l !! k) as [x|] eqn:E.
  - pose proof (lookup_lt_Some _ _ _ E). rewrite lookup_seq_lt by lia. cbn. f_equal. by apply H.
  - apply lookup_ge_None in E. by rewrite lookup_seq_ge by lia.
Qed.

Lemma encode_number_shape q ui : 0 <= q < 8 -> 0 <= ui < 2 ^ 64 -> exists d n,
  encode_number ui (32 * q) = (32 * q + d) :: be n ui /\ bytes_needed d = Z.of_nat n /\
  (d = ui /\ n = 0%nat /\ 0 <= ui < 24 \/ 24 <= d <= 27 /\ ui < 2 ^ (8 * Z.of_nat n) /\ (ui < 65536 -> d <= 25)).
Proof.
  intros Hq Hu. unfold encode_number. destruct (ui <? 24) eqn:E; to_prop.
  - exists ui, 0%nat. cbn [be]. split_and!; [|unfold bytes_needed; by rewrite (proj2 (Z.ltb_lt _ _))|left; repeat split; lia].
    f_equal. rewrite u8_small; [lia|unfold is_byte; lia].
  - assert (forall m, 0 <= m <= 3 -> u8 (32 * q + 24 + m) = 32 * q + (24 + m)) as Hb by (intros m Hm; rewrite u8_small; [lia|unfold is_byte; lia]).
    destruct (0xff <? ui) eqn:E1; [destruct (0xffff <? ui) eqn:E2; [destruct (0xffffffff <? ui) eqn:E3|]|]; to_prop.
    + exists 27, 8%nat. rewrite Hb by lia. split_and!; [done|done|right; split; [lia|split; [change (2 ^ (8 * Z.of_nat 8)) with (2 ^ 64); lia|lia]]].
    + exists 26, 4%nat. rewrite Hb by lia. split_and!; [done|done|right; split; [lia|split; [change (2 ^ (8 * Z.of_nat 4)) with 4294967296; lia|lia]]].
    + rewrite (proj2 (Z.ltb_ge 0xffffffff ui)) by lia. exists 25, 2%nat. rewrite Hb by lia.
      split_and!; [done|done|right; split; [lia|split; [change (2 ^ (8 * Z.of_nat 2)) with 65536; lia|lia]]].
    + rewrite (proj2 (Z.ltb_ge 0xffff ui)), (proj2 (Z.ltb_ge 0xffffffff ui)) by lia. exists 24, 1%nat. rewrite Hb by lia.
      split_and!; [done|done|right; split; [lia|split; [change (2 ^ (8 * Z.of_nat 1)) with 256; lia|lia]]].
Qed.

Lemma be_length n x : length (be n x) = n.
Proof. induction n as [|n IH]; cbn; [done|by rewrite IH]. Qed.

(** The parser's reading of an encoded number. *)
Lemma extract_encoded q ui o : 0 <= q < 8 -> 0 <= ui < 2 ^ 64 -> holds o (encode_number ui (32 * q)) ->
  extract_number p o = (CborNoError, o + Z.of_nat (length (encode_number ui (32 * q))), ui).
Proof.
  intros Hq Hu. destruct (encode_number_shape q ui Hq Hu) as (d & n & -> & Hn & Hd). intros H.
  pose proof H as (H0 & H1 & _). cbn [length] in *. rewrite be_length in *. apply holds_cons in H as [Hg H].
  destruct (head_byte q d Hq) as [E1 E2]; [destruct Hd; lia|]. unfold extract_number. rewrite Hg, E1.
  destruct Hd as [(-> & -> & Hd)|(Hd & Hlt & _)].
  - rewrite (proj2 (Z.ltb_lt ui 24)) by lia. do 2 f_equal.
  - rewrite (proj2 (Z.ltb_ge d 24)), (proj2 (Z.ltb_ge 27 d)), Hn, u32_small, (proj2 (Z.ltb_ge _ (Z.of_nat n))) by lia.
    rewrite Nat2Z.id, (getn_be _ _ _ H), Z.mod_small by lia. do 2 f_equal. lia.
Qed.

Lemma preparse_encoded q ui it : q = 0 \/ q = 2 \/ q = 3 -> 0 <= ui < 2 ^ 64 -> holds (offset it) (encode_number ui (32 * q)) ->
  exists e tl, preparse_value p it = (CborNoError, Value (offset it) (remaining it) e (32 * q) false false tl 0) /\
    (forall rem c u i t, cbor_value_get_uint64 p (Value (offset it) rem e t u i tl c) = ui) /\ (ui < 65536 -> e = ui /\ tl = false).
Proof.
  intros Hq Hu. destruct (encode_number_shape q ui ltac:(lia) Hu) as (d & n & -> & Hn & Hd). intros H.
  pose proof H as (H0 & H1 & _). cbn [length] in *. rewrite be_length in *. apply holds_cons in H as [Hg H].
  destruct (head_byte q d ltac:(lia)) as [E1 E2]; [destruct Hd; lia|]. unfold preparse_value, cbor_value_get_uint64.
  cbn [offset too_large extra]. rewrite Hg, E1, E2. cbv zeta. cbn [offset].
  rewrite (proj2 (Z.eqb_neq (offset it) (p_end p))), (proj2 (Z.ltb_ge 27 d)), Hn, u32_small, (proj2 (Z.ltb_ge _ (Z.of_nat n + 1))) by lia.
  rewrite (proj2 (Z.eqb_neq (32 * q) SimpleT)), (proj2 (Z.eqb_neq (32 * q) NegativeInteger)) by (unfold SimpleT, NegativeInteger; lia).
  destruct Hd as [(-> & -> & Hd)|(Hd & Hlt & Hs)].
  { rewrite (proj2 (Z.ltb_lt ui 24)) by lia. by exists ui, false. }
  rewrite (proj2 (Z.ltb_ge d 24)) by lia. pose proof (getn_be _ _ _ H) as Hv. rewrite Z.mod_small in Hv by lia.
  assert (d = 24 \/ d = 25 \/ d = 26 \/ d = 27) as Hc by lia.
  destruct Hc as [-> | [-> | [-> | ->]]]; cbn [Z.eqb Pos.eqb]; unfold with_extra, with_too_large; cbn [offset remaining extra type unknown iterating too_large remainingclen].
  - assert (n = 1%nat) as -> by (change (bytes_needed 24) with 1 in Hn; lia). cbn [getn] in Hv. rewrite Z.mul_1_r, Z.add_0_r in Hv. rewrite Hv. by exists ui, false.
  - assert (n = 2%nat) as -> by (change (bytes_needed 25) with 2 in Hn; lia). rewrite Hv. by exists ui, false.
  - assert (n = 4%nat) as -> by (change (bytes_needed 26) with 4 in Hn; lia). exists 26, true. split_and!; [done| |intros; lia].
    intros. replace (Z.even (32 * q + 26)) with true; [done|]. by destruct Hq as [-> | [-> | ->]].
  - assert (n = 8%nat) as -> by (change (bytes_needed 27) with 8 in Hn; lia). exists 27, true. split_and!; [done| |intros; lia].
    intros. replace (Z.even (32 * q + 27)) with false; [done|]. by destruct Hq as [-> | [-> | ->]].
Qed.

Lemma string_head q s o : 0 <= q < 7 -> Z.of_nat (length s) < 2 ^ 31 -> holds o (encode_string s (32 * q)) ->
  let h := Z.of_nat (length (encode_number (Z.of_nat (length s)) (32 * q))) in
  Z.land (get8 p o) 0xE0 = 32 * q /\ get8 p o <> BreakByte /\ 0 < h /\ extract_length p o = (CborNoError, o + h, Z.of_nat (length s)) /\
  holds (o + h) s /\ o <> p_end p.
Proof.
  intros Hq Hs H. cbv zeta. unfold encode_string in H. apply holds_app in H as [H Hb].
  pose proof (extract_encoded q (Z.of_nat (length s)) o ltac:(lia) ltac:(lia) H) as He. unfold extract_length. rewrite He, u32_small, Z.eqb_refl by lia. cbn [negb].
  destruct (encode_number_shape q (Z.of_nat (length s)) ltac:(lia) ltac:(lia)) as (d & n & E & _ & Hd). rewrite E in *. cbn [length] in *.
  pose proof H as (? & ? & _). cbn [length] in *. apply holds_cons in H as [-> _].
  destruct (head_byte q d ltac:(lia)) as [_ ->]; [destruct Hd; lia|]. unfold BreakByte. split_and!; [done|destruct Hd; lia|lia|done|done|lia].
Qed.

Lemma string_chunks q s o rem e tl buflen func : q = 2 \/ q = 3 -> Z.of_nat (length s) < 2 ^ 31 -> holds o (encode_string s (32 * q)) ->
  let len := Z.of_nat (length s) in let fits := len <=? buflen in
  let '(er, next) := preparse_next_value p (Value (o + Z.of_nat (length (encode_string s (32 * q)))) rem e (32 * q) false true tl 0) in
  iterate_string_chunks p (Value o rem e (32 * q) false false tl 0) buflen func = Some (er, len, fits && func 0 s, if fits then s else [], next).
Proof.
  intros Hq Hs H. pose proof H as (H0 & H1 & _). destruct (string_head q s o ltac:(lia) Hs H) as (E1 & E2 & Hh & E3 & Hb & Hn).
  set (h := Z.of_nat (length (encode_number (Z.of_nat (length s)) (32 * q)))) in *. cbv zeta.
  assert (o + Z.of_nat (length (encode_string s (32 * q))) = o + h + Z.of_nat (length s)) as Eo by (unfold encode_string; rewrite length_app; lia).
  destruct (preparse_next_value p _) as [er next] eqn:En. unfold iterate_string_chunks, turns.
  assert (exists n, Z.to_nat (p_end p + 2) = S (S n)) as [n ->] by (exists (Z.to_nat (p_end p)); lia).
  assert (get_string_chunk p (Value o rem e (32 * q) false false tl 0) =
    (CborNoError, Some (o + h, Z.of_nat (length s)), Value (o + h + Z.of_nat (length s)) rem e (32 * q) false true tl 0)) as Ec.
  { unfold get_string_chunk. cbn [remainingclen iterating unknown offset type Z.eqb negb andb]. cbv zeta. cbn [offset type].
    rewrite (proj2 (Z.eqb_neq o (p_end p))), (proj2 (Z.eqb_neq _ BreakByte)), E1, Z.eqb_refl, E3 by done.
    destruct Hb as (? & ? & _). rewrite u32_small, (proj2 (Z.ltb_ge _ _)) by lia. unfold take_chunk, with_iterating, with_clen, with_offset.
    cbn [offset remaining extra type unknown iterating too_large remainingclen]. by rewrite Z.sub_diag. }
  cbn [chunk_loop]. rewrite Ec. rewrite (proj2 (Z.leb_gt (2 ^ 32) _)) by lia. cbv zeta. rewrite (span_holds _ _ Hb), Z.add_0_l. cbn [andb app].
  assert (get_string_chunk p (Value (o + h + Z.of_nat (length s)) rem e (32 * q) false true tl 0) = (er, None, next)) as Ed.
  { unfold get_string_chunk, last_chunk, with_clen. cbn [remainingclen iterating unknown offset type Z.eqb negb andb remaining extra too_large].
    rewrite <- Eo, En. done. }
  rewrite Ed. by destruct er.
Qed.

(** ** Searching an encoded map *)

Lemma text_q : TextString = 32 * 3. Proof. done. Qed.
Lemma bytes_q : ByteString = 32 * 2. Proof. done. Qed.

(** The iterator in front of the pairs [l], inside a map of unknown length. *)
Definition at_pairs (o : Z) (l : list (list Z * item)) (v : cbor_value) : Prop :=
  match l with
  | [] => remaining v = 0
  | _ => exists e tl, v = Value o UINT32_MAX e TextString false false tl 0
  end.

Definition pair_ok (x : list Z * item) : Prop := Z.of_nat (length x.1) < 2 ^ 31 /\ item_ok x.2.

Lemma next_pairs o l v : Forall pair_ok l -> remaining v = UINT32_MAX -> offset v = o -> holds o (enc_pairs l ++ [BreakByte]) ->
  exists w, preparse_next_value p v = (CborNoError, w) /\ at_pairs o l w /\ (l = [] -> extra w = extra v /\ too_large w = too_large v).
Proof.
  intros Hl Hr Ho H. subst o. unfold preparse_next_value. rewrite Hr, Z.eqb_refl. cbn [negb]. pose proof H as (H0 & H1 & _).
  rewrite length_app in H1. cbn [length] in H1. rewrite (proj2 (Z.eqb_neq (offset v) (p_end p))) by lia. cbn [negb andb].
  destruct l as [|[k i] l].
  - cbn [enc_pairs app] in H. apply holds_cons in H as [-> _]. rewrite Z.eqb_refl. eexists. split; [done|]. split; [done|]. intros _. done.
  - apply Forall_cons_1 in Hl as [[Hk _] _]. cbn [fst] in Hk. cbn [enc_pairs] in H. rewrite <- app_assoc in H. apply holds_app in H as [H _].
    unfold cbor_encode_text_string in H. rewrite text_q in H. pose proof (string_head 3 k _ ltac:(lia) Hk H) as (_ & E & _).
    rewrite (proj2 (Z.eqb_neq _ BreakByte)) by done. apply holds_app in H as [H _].
    destruct (preparse_encoded 3 (Z.of_nat (length k)) v ltac:(lia) ltac:(lia) H) as (e & tl & -> & _). rewrite Hr.
    eexists. split; [done|]. split; [by exists e, tl|discriminate].
Qed.

(** The iterator at a value of the map. *)
Definition value_at (o : Z) (i : item) (v : cbor_value) : Prop :=
  holds o (enc_item i) /\ exists e tl, v = Value o UINT32_MAX e (type_of i) false false tl 0 /\ cbor_value_get_uint64 p v = number_of i /\
    (number_of i < 65536 -> e = number_of i /\ tl = false).

Lemma enc_item_head i o : item_ok i -> holds o (enc_item i) -> exists q, (q = 0 \/ q = 2) /\ type_of i = 32 * q /\ 0 <= number_of i < 2 ^ 64 /\
  holds o (encode_number (number_of i) (32 * q)).
Proof.
  intros Hi H. destruct i as [n|s]; cbn [item_ok number_of type_of enc_item] in *.
  - exists 0. split_and!; [by left|done|lia|lia|exact H].
  - exists 2. split_and!; [by right|done|lia|lia|]. by apply holds_app in H as [H _].
Qed.

Lemma preparse_item i v : item_ok i -> remaining v = UINT32_MAX -> holds (offset v) (enc_item i) ->
  exists w, preparse_value p v = (CborNoError, w) /\ value_at (offset v) i w.
Proof.
  intros Hi Hr H. destruct (enc_item_head i _ Hi H) as (q & Hq & Et & Hn & Hh).
  destruct (preparse_encoded q (number_of i) v ltac:(lia) Hn Hh) as (e & tl & -> & Hg & Hs). rewrite Hr, <- Et.
  eexists. split; [done|]. split; [done|]. exists e, tl. split_and!; [done|apply Hg|done].
Qed.

Lemma next_item i v : item_ok i -> remaining v = UINT32_MAX -> holds (offset v) (enc_item i) ->
  exists w, preparse_next_value p v = (CborNoError, w) /\ value_at (offset v) i w.
Proof.
  intros Hi Hr H. destruct (preparse_item i v Hi Hr H) as (w & Hw & Hv). exists w. split; [|done].
  unfold preparse_next_value. rewrite Hr, Z.eqb_refl. cbn [negb].
  destruct (negb (offset v =? p_end p) && (get8 p (offset v) =? BreakByte)) eqn:E; [|done]. exfalso.
  apply andb_true_iff in E as [_ E]. to_prop. unfold preparse_value in Hw. rewrite E in Hw.
  destruct (offset v =? p_end p); discriminate.
Qed.

(** Skipping a value leaves its number in the iterator. *)
Lemma advance_item o i v : item_ok i -> value_at o i v -> exists w, cbor_value_advance p v = Some (preparse_next_value p w) /\
  offset w = o + Z.of_nat (length (enc_item i)) /\ remaining w = UINT32_MAX /\ (number_of i < 65536 -> extra w = number_of i /\ too_large w = false).
Proof.
  intros Hi (Hh & e & tl & -> & _ & Hs). unfold cbor_value_advance. cbn [remaining Z.eqb]. change (UINT32_MAX =? 0) with false. cbv iota.
  unfold turns. assert (exists n, (2 * Z.to_nat (p_end p + 2) = S n)%nat) as [n ->] by (exists (2 * Z.to_nat (p_end p + 2) - 1)%nat; lia).
  cbn [advance_recursive type]. destruct i as [u|s]; cbn [type_of enc_item number_of item_ok] in *.
  - change (is_fixed_type UnsignedInteger) with true. cbv iota. unfold advance_internal. cbn [offset type].
    unfold cbor_encode_uint in Hh. change UnsignedInteger with (32 * 0) in Hh. rewrite (extract_encoded 0 u o ltac:(lia) Hi Hh).
    change ((UnsignedInteger =? ByteString) || (UnsignedInteger =? TextString)) with false. cbv iota.
    eexists. split; [done|]. cbn. split_and!; [done|done|exact Hs].
  - change (is_fixed_type ByteString) with false. unfold is_container. cbn [type]. change ((ByteString =? ArrayT) || (ByteString =? MapT)) with false.
    cbn [negb]. cbv iota. unfold cbor_encode_byte_string in Hh. destruct Hi as [_ Hi]. unfold copy_string. rewrite bytes_q in *.
    pose proof (string_chunks 2 s o UINT32_MAX e tl UINT32_MAX (fun _ _ => true) ltac:(lia) Hi Hh) as Hc. cbv zeta in Hc.
    rewrite (proj2 (Z.leb_le (Z.of_nat (length s)) UINT32_MAX)) in Hc by (unfold UINT32_MAX; lia).
    eexists (Value _ UINT32_MAX e (32 * 2) false true tl 0).
    destruct (preparse_next_value p _) as [er next] eqn:En. rewrite Hc. cbn [mbind option_bind andb]. rewrite En.
    split; [by destruct er|]. unfold cbor_encode_byte_string. rewrite bytes_q. cbn. split_and!; [done|done|exact Hs].
Qed.

Fixpoint assoc (key : list Z) (l : list (list Z * item)) : option item :=
  match l with
  | [] => None
  | (k, i) :: l' => if bool_decide (k = key) then Some i else assoc key l'
  end.

Lemma key_equal (k key : list Z) :
  ((Z.of_nat (length k) <=? Z.of_nat (length key)) && compare_at key 0 k) && (Z.of_nat (length k) =? Z.of_nat (length key)) = bool_decide (k = key).
Proof.
  unfold compare_at. cbn [Z.to_nat]. rewrite drop_0. destruct (decide (k = key)) as [->|Hne].
  - rewrite Z.leb_refl, Z.eqb_refl, take_ge by lia. by rewrite !bool_decide_eq_true_2.
  - rewrite (bool_decide_eq_false_2 (k = key)) by done. destruct (Z.of_nat (length k) =? _) eqn:E; [|by rewrite andb_false_r].
    to_prop. rewrite take_ge by lia. rewrite (bool_decide_eq_false_2 (key = k)) by congruence. by rewrite andb_false_r.
Qed.

(** What a search for [key] gives in front of the pairs [l]: its value, or the number of the last value. *)
Definition finds (key : list Z) (l : list (list Z * item)) (v w : cbor_value) : Prop :=
  match assoc key l with
  | Some i => exists o l', value_at o i w /\ Forall pair_ok l' /\ holds (o + Z.of_nat (length (enc_item i))) (enc_pairs l' ++ [BreakByte])
  | None => type w = InvalidT /\
      match list.last l with
      | None => extra w = extra v /\ too_large w = too_large v
      | Some (_, i) => number_of i < 65536 -> extra w = number_of i /\ too_large w = false
      end
  end.

Lemma skip_no_tag v : type v <> TagT -> cbor_value_skip_tag p v = Some (CborNoError, v).
Proof.
  intros H. unfold cbor_value_skip_tag, turns. assert (exists n, Z.to_nat (p_end p + 2) = S n) as [n ->] by (exists (Z.to_nat (p_end p + 1)); lia).
  cbn [skip_tags]. by rewrite (proj2 (Z.eqb_neq _ TagT)).
Qed.

Lemma find_loop_spec key fuel : forall l o v, (length l < fuel)%nat -> Forall pair_ok l -> at_pairs o l v -> holds o (enc_pairs l ++ [BreakByte]) ->
  exists w, find_loop p fuel key v = Some (CborNoError, w) /\ finds key l v w.
Proof.
  induction fuel as [|fuel IH]; intros l o v Hf Hl Hv H; [lia|]. cbn [find_loop]. cbv zeta. destruct l as [|[k i] l].
  { cbn in Hv. unfold at_end. rewrite Hv. cbn [Z.eqb]. eexists. split; [done|]. done. }
  destruct Hv as (e & tl & ->). apply Forall_cons_1 in Hl as [[Hk Hi] Hl]. cbn [fst snd] in Hk, Hi. cbn [enc_pairs] in H. rewrite <- !app_assoc in H.
  apply holds_app in H as [Hhk H]. apply holds_app in H as [Hhi H].
  change (at_end _) with false. rewrite skip_no_tag by done. cbn [mbind option_bind type]. change (TextString =? TextString) with true. cbv iota.
  unfold cbor_encode_text_string in *. rewrite text_q in *.
  pose proof (string_chunks 3 k o UINT32_MAX e tl (Z.of_nat (length key)) (compare_at key) ltac:(lia) Hk Hhk) as Hc. cbv zeta in Hc.
  match type of Hc with context [preparse_next_value p ?v0] => destruct (next_item i v0 Hi eq_refl Hhi) as (w & Hw & Hvw) end.
  rewrite Hw in Hc. rewrite Hc. cbn [mbind option_bind offset] in *. rewrite key_equal. unfold finds. cbn [assoc].
  destruct (bool_decide (k = key)).
  { pose proof Hvw as (_ & e1 & tl1 & Ew & _). destruct (preparse_item i w Hi) as (w1 & -> & Hw1); [by rewrite Ew|rewrite Ew; apply Hvw|].
    exists w1. split; [done|]. rewrite Ew in Hw1. cbn [offset] in Hw1. do 2 eexists. split_and!; [exact Hw1|exact Hl|exact H]. }
  rewrite skip_no_tag by (destruct Hvw as (_ & e1 & tl1 & -> & _); cbn; by destruct i). cbn [mbind option_bind].
  destruct (advance_item _ i w Hi Hvw) as (w1 & -> & Ho1 & Hr1 & Hs1). cbn [mbind option_bind].
  destruct (next_pairs _ l w1 Hl Hr1 Ho1 H) as (w2 & -> & Hw2 & He2). destruct (IH l _ w2 ltac:(cbn in Hf; lia) Hl Hw2 H) as (w3 & -> & H3).
  exists w3. split; [done|]. unfold finds in H3. destruct (assoc key l); [done|]. destruct H3 as [Ht H3]. split; [done|].
  rewrite last_cons. destruct (list.last l) as [[]|] eqn:El; [done|]. apply last_None in El as ->. destruct (He2 eq_refl) as [E1 E2].
  destruct H3 as [-> ->]. rewrite E1, E2. exact Hs1.
Qed.

Lemma enc_pairs_length l : (length l <= length (enc_pairs l))%nat.
Proof.
  induction l as [|[k i] l IH]; cbn [enc_pairs length]; [lia|]. rewrite !length_app. unfold cbor_encode_text_string, encode_string.
  rewrite length_app. unfold encode_number. case_if; cbn [length]; lia.
Qed.

(** A search from the start of the message. *)
Lemma find_in_map key l : Forall pair_ok l -> holds 0 (enc_map l) -> l <> [] -> exists m w, cbor_parser_init p = (CborNoError, m) /\
  type m = MapT /\ cbor_value_map_find_value p m key = Some (CborNoError, w) /\ exists v, finds key l v w.
Proof.
  intros Hl H Hne. unfold enc_map, cbor_encoder_create_map, cbor_encoder_close_container in H. cbn [app] in H. pose proof H as (_ & H1 & _).
  apply holds_cons in H as [Hg H]. cbn [length] in H1. rewrite length_app in H1. cbn [length] in H1.
  eexists (Value 0 1 31 MapT true false false 0).
  unfold cbor_parser_init, preparse_value. cbn [offset remaining]. rewrite (proj2 (Z.eqb_neq 0 (p_end p))) by lia. rewrite Hg.
  unfold cbor_value_map_find_value, enter_container, with_offset, with_remaining. cbn [unknown offset remaining extra type iterating too_large remainingclen].
  destruct l as [|[k i] l]; [done|]. set (l' := (k, i) :: l) in *.
  assert (exists v, preparse_value p (Value (0 + 1) UINT32_MAX 31 MapT true false false 0) = (CborNoError, v) /\ at_pairs 1 l' v) as (v & -> & Hv).
  { apply Forall_cons_1 in Hl as [[Hk _] _]. cbn [fst] in Hk. cbn [enc_pairs l'] in H. rewrite <- app_assoc in H. apply holds_app in H as [H _].
    unfold cbor_encode_text_string in H. rewrite text_q in H. apply holds_app in H as [H _].
    destruct (preparse_encoded 3 (Z.of_nat (length k)) (Value (0 + 1) UINT32_MAX 31 MapT true false false 0) ltac:(lia) ltac:(lia) H) as (e & tl & -> & _).
    eexists. split; [done|]. by exists e, tl. }
  pose proof (enc_pairs_length l'). destruct (find_loop_spec key (turns p) l' 1 v) as (w & -> & Hw); [unfold turns; lia|done..|].
  exists w. split_and!; [done|done|done|by exists v].
Qed.

Lemma copy_value o s l w buflen : item_ok (IBytes s) -> value_at o (IBytes s) w -> Forall pair_ok l ->
  holds (o + Z.of_nat (length (enc_item (IBytes s)))) (enc_pairs l ++ [BreakByte]) ->
  exists next, copy_string p w true buflen =
    Some (if Z.of_nat (length s) <=? buflen then (CborNoError, Z.of_nat (length s), s ++ [0], next) else (CborErrorOutOfMemory, Z.of_nat (length s), [], next)).
Proof.
  intros [_ Hi] (Hh & e & tl & -> & _) Hl H. cbn [enc_item type_of] in *. unfold cbor_encode_byte_string in *. rewrite bytes_q in *.
  unfold copy_string. pose proof (string_chunks 2 s o UINT32_MAX e tl buflen (fun _ _ => true) ltac:(lia) Hi Hh) as Hc. cbv zeta in Hc.
  match type of Hc with context [preparse_next_value p ?v0] => destruct (next_pairs _ l v0 Hl eq_refl eq_refl H) as (w & Hw & _) end.
  rewrite Hw in Hc. rewrite Hc. cbn [mbind option_bind]. exists w. by destruct (_ <=? buflen).
Qed.

End Roundtrip.

Lemma message_holds m : holds (message m) 0 m.
Proof.
  split_and!; [lia|cbn; lia|]. intros k x Hx. unfold get8, message. cbn [p_mem]. rewrite (proj2 (Z.ltb_ge _ 0)) by lia.
  rewrite Z.add_0_l, Nat2Z.id. by apply nth_lookup_Some.
Qed.

Lemma assoc_ok key l i : Forall pair_ok l -> assoc key l = Some i -> item_ok i.
Proof.
  induction l as [|[k j] l IH]; intros Hl H; [done|]. cbn [assoc] in H. apply Forall_cons_1 in Hl as [[_ Hj] Hl].
  destruct (bool_decide (k = key)); [by injection H as <-|by apply IH].
Qed.

(** ** Properties *)

(** C12. What the encoder writes the parser reads: in a message that is a map of text keys to numbers and byte strings,
    [cbor_value_map_find_value] finds the first value of a key that is there; [cbor_value_get_uint64] gives its
    number back, for any 64-bit number, and copying gives its length and its bytes back, with a 0 behind them, if [buflen]
    is enough for the bytes, and an error and no byte otherwise. *)
Theorem cbor_map_roundtrip l key i : Forall pair_ok l -> Z.of_nat (length (enc_map l)) < 2 ^ 31 -> assoc key l = Some i ->
  let p := message (enc_map l) in
  exists m w, cbor_parser_init p = (CborNoError, m) /\ cbor_value_map_find_value p m key = Some (CborNoError, w) /\ type w = type_of i /\
  match i with
  | IUint v => cbor_value_get_uint64 p w = v
  | IBytes s => forall buflen, exists next, copy_string p w true buflen =
      Some (if Z.of_nat (length s) <=? buflen then (CborNoError, Z.of_nat (length s), s ++ [0], next)
            else (CborErrorOutOfMemory, Z.of_nat (length s), [], next))
  end.
Proof.
  intros Hl Hn Hk p. assert (0 <= p_end p < 2 ^ 31) as He by (unfold p, message; cbn [p_end]; lia). assert (l <> []) as Hne by (by intros ->).
  destruct (find_in_map p He key l Hl (message_holds _) Hne) as (m & w & Hm & _ & Hw & v & Hf). unfold finds in Hf. rewrite Hk in Hf.
  destruct Hf as (o & l' & Hv & Hl' & Hr). exists m, w. split_and!; [done|done|by destruct Hv as (_ & e & tl & -> & _)|].
  pose proof (assoc_ok _ _ _ Hl Hk) as Hi. destruct i as [u|s].
  - by destruct Hv as (_ & e & tl & -> & Hg & _).
  - intros buflen. by apply (copy_value p He o s l').
Qed.

Lemma cbor_map_roundtrip_witness :
  let l := [([111; 102; 102], IUint 100000); ([100], IBytes [1; 2; 255])] in let p := message (enc_map l) in
  exists m w, cbor_parser_init p = (CborNoError, m) /\ cbor_value_map_find_value p m [111; 102; 102] = Some (CborNoError, w) /\
  type w = UnsignedInteger /\ cbor_value_get_uint64 p w = 100000.
Proof.
  apply (cbor_map_roundtrip [([111; 102; 102], IUint 100000); ([100], IBytes [1; 2; 255])] [111; 102; 102] (IUint 100000)); [|vm_compute; reflexivity..].
  apply Forall_cons_2; [split; [cbn; lia|cbn [snd item_ok]; lia]|]. apply Forall_cons_2; [split; [cbn; lia|split; [bytes_ok|cbn [length]; lia]]|]. apply Forall_nil_2.
Defined.

(** C37. Whatever bytes arrive, the parser comes to an end: on a message shorter than 2 GiB that [cbor_parser_init]
    accepts, with arbitrary nesting, lengths, tags and chunks, the search for any key returns, and so does copying what
    it found to a buffer. A copy that fails stores at most [buflen] bytes; one that succeeds stores the [len] bytes of the
    string, at most [buflen], and a 0 at index [len], which is behind the buffer exactly if the string fills it. *)
Theorem cbor_search_ends p m key buflen : 0 <= p_end p < 2 ^ 31 -> 0 <= buflen ->
  cbor_parser_init p = (CborNoError, m) ->
  exists e w, cbor_value_map_find_value p m key = Some (e, w) /\
  (e = CborNoError -> exists e' len stored next, copy_string p w true buflen = Some (e', len, stored, next) /\
     match e' with CborNoError => len <= buflen /\ Z.of_nat (length stored) = len + 1 /\ stored !! Z.to_nat len = Some 0 | _ => Z.of_nat (length stored) <= buflen end).
Proof.
  intros He Hb H. destruct (init_parsed p He m H) as [Hu Hp]. destruct (find_ends p He m key Hu Hp) as (e & w & Hw & Hr).
  exists e, w. split; [done|]. intros H0. destruct (Hr H0) as (Ho & Hc & Ht).
  destruct (copy_ends p He buflen w Hb Ho Hc Ht) as ([[[e' len] stored] next] & E & Hs). by exists e', len, stored, next.
Qed.

(** A map with a tagged key, a nested array and a chunked string. *)
Definition odd_message : list Z := [0xBF; 0xC1; 0x61; 0x61; 0x9F; 0x82; 0x01; 0x20; 0xFF; 0x61; 0x62; 0x5F; 0x41; 0x07; 0x42; 0x08; 0x09; 0xFF; 0xFF].

Lemma cbor_search_ends_witness :
  let p := message odd_message in
  exists e w, cbor_value_map_find_value p (snd (cbor_parser_init p)) [98] = Some (e, w) /\
  (e = CborNoError -> exists e' len stored next, copy_string p w true 3 = Some (e', len, stored, next) /\
     match e' with CborNoError => len <= 3 /\ Z.of_nat (length stored) = len + 1 /\ stored !! Z.to_nat len = Some 0 | _ => Z.of_nat (length stored) <= 3 end).
Proof.
  apply (cbor_search_ends (message odd_message) (snd (cbor_parser_init (message odd_message))) [98] 3).
  - cbn. lia.
  - lia.
  - vm_compute. reflexivity.
Defined.

(** The nested values and the chunks are read as they should be; the three bytes fill a buffer of three, and the 0 is behind it. *)
Example odd_message_read : let p := message odd_message in let m := snd (cbor_parser_init p) in
  (fst <$> cbor_value_map_find_value p m [97]) = Some CborNoError /\
  (w ← cbor_value_map_find_value p m [98]; r ← copy_string p w.2 true 3; Some r.1) = Some (CborNoError, 3, [7; 8; 9; 0]) /\
  (w ← cbor_value_map_find_value p m [98]; r ← copy_string p w.2 true 2; Some r.1) = Some (CborErrorOutOfMemory, 3, [7]).
Proof. vm_compute. done. Qed.
