(* ===== verification/BootSerial.v ===== *)
(** * boot_serial.c: uploads over the serial port of the BLE module

    The boot loader always starts with the serial recovery mode: it announces
    itself with "ready", reads lines of the newt manager protocol and leaves
    the mode when the line stays idle.  The state of the C file (offset and
    size of the upload, the buffer of decoded bytes) is a record, what is
    written to the console a list of bytes, and the flash the [dev] of the
    boot loader.  [Wild] marks a write past the end of an array.

    The CRC is lib/crc/crc16_sw.c of Zephyr; lib/base64/base64.c is the file
    the hub has too. *)
From Stdlib Require Import ZArith Lia Bool String.
From stdpp Require Import base list numbers.
From S2P Require Import Prelude CLib Base64 BleProg Flash BootTrailer BootImage Cbor.

Local Open Scope Z_scope.

Definition CONFIG_BOOT_MAX_LINE_INPUT_LEN : Z := 512.
Definition max_input : Z := CONFIG_BOOT_MAX_LINE_INPUT_LEN + 1.
Definition BOOT_SERIAL_OUT_MAX : Z := 48.
Definition IMG_DATA_SIZE : Z := 400.
Definition IDLE_MAX : Z := 1000000.
Definition UINT_MAX : Z := 2 ^ 32 - 1.
Definition MGMT_ERR_EINVAL : Z := 3.
Definition HDR_SIZE : Z := 8.

(** [dec] is dec_buf; [dec_off] has no value before the first start of a packet. *)
Record serial := Serial { curr_off : Z; img_size : Z; dec : list Z; dec_off : option Z; console : list Z }.

Definition serial_init : serial := Serial 0 0 (repeat 0 (Z.to_nat max_input)) None [].

Definition with_dec (d : list Z) (s : serial) : serial := Serial (curr_off s) (img_size s) d (dec_off s) (console s).
Definition with_dec_off (o : Z) (s : serial) : serial := Serial (curr_off s) (img_size s) (dec s) (Some o) (console s).
Definition with_upload (o n : Z) (s : serial) : serial := Serial o n (dec s) (dec_off s) (console s).

(** Bytes stored into an array. *)
Definition put (l : list Z) (k : Z) (bytes : list Z) : list Z :=
  take (Z.to_nat k) l ++ bytes ++ drop (Z.to_nat k + length bytes) l.
Definition byte (l : list Z) (k : Z) : Z := nth (Z.to_nat k) l 0.
Definition be16 (l : list Z) (k : Z) : Z := 256 * byte l k + byte l (k + 1).

(** The CRC with polynomial 0x1021, as the calls have it. *)
Definition crc16_sw (src : list Z) (initial_value : Z) (pad : bool) : Z :=
  fold_left crc_byte (src ++ (if pad then [0; 0] else [])) initial_value.

(** ** Console *)

Definition console_out (c : Z) : list Z := if c =? 10 then [13; 10] else [c].
Definition console_write (str : list Z) (s : serial) : serial :=
  Serial (curr_off s) (img_size s) (dec s) (dec_off s) (console s ++ flat_map console_out str).

(** ** Responses *)

(** The header of the request, in place at dec[2], becomes that of the response. *)
Definition response_hdr (s : serial) (len : Z) : list Z :=
  [u8 (byte (dec s) 2 + 1); 1; len / 256; len mod 256; byte (dec s) 6; byte (dec s) 7; byte (dec s) 8; byte (dec s) 9].

Definition boot_serial_output (s : serial) (data : list Z) : B serial :=
  let len := Z.of_nat (length data) in
  let hdr := response_hdr s len in
  let crc := crc16_sw data (crc16_sw hdr 0 false) true in
  let totlen := len + HDR_SIZE + 2 in
  let buf := [totlen / 256; totlen mod 256] ++ hdr ++ data ++ [crc / 256; crc mod 256] in
  if BOOT_SERIAL_OUT_MAX <? Z.of_nat (length buf) then wild
  else mret (console_write [10] (console_write (encode_body buf) (console_write [6; 9] (with_dec (put (dec s) 2 hdr) s)))).

(** [bs_obuf] after the encoder's calls. *)
Definition bs_cbor_writer (data : list Z) : B unit := if BOOT_SERIAL_OUT_MAX <? Z.of_nat (length data) then wild else mret tt.

Definition bs_respond (s : serial) (data : list Z) : B serial := _ ← bs_cbor_writer data; boot_serial_output s data.

Definition str (s : string) : list Z := map (fun c => Z.of_N (Ascii.N_of_ascii c)) (list_ascii_of_string s).
Definition text (s : string) : list Z := cbor_encode_text_string (str s).

(** ** Upload *)

(** The parser on the [len] bytes at dec[10]. *)
Definition request_parser (s : serial) (len : Z) : cbor_parser := Parser (fun o => byte (dec s) (2 + HDR_SIZE + o)) len.

(** The fields of a request, or the code of the response. *)
Record upload := Upload { u_off : Z; u_slot : Z; u_len : Z; u_data : list Z }.

Definition parse_len (p : cbor_parser) (map : cbor_value) : option (Z * Z) :=
  r ← cbor_value_map_find_value p map (str "len");
  Some match r with
  | (CborNoError, value) =>
      let data_len := cbor_value_get_uint64 p value in
      let slot := Z.shiftr (Z.land data_len 0x0F000000) 24 in
      (if (slot <? 0) || (1 <? slot) then 0 else slot, Z.land data_len 0x00FFFFFF)
  | _ => (0, UINT_MAX)
  end.

Definition parse_upload (p : cbor_parser) : option (Z + upload) :=
  match cbor_parser_init p with
  | (CborNoError, map) =>
      r ← cbor_value_map_find_value p map (str "off");
      match r with
      | (CborNoError, value) =>
          let off := cbor_value_get_uint64 p value in
          '(slot, data_len) ← parse_len p map;
          r ← cbor_value_map_find_value p map (str "data");
          match r with
          | (CborNoError, value) =>
              '(e, img_blen, img_data, _) ← copy_string p value true IMG_DATA_SIZE;
              Some match e with CborNoError => inr (Upload off slot data_len (take (Z.to_nat img_blen) img_data)) | _ => inl 12 end
          | _ => Some (inl 22)
          end
      | _ => Some (inl 20)
      end
  | _ => Some (inl MGMT_ERR_EINVAL)
  end.

(** The first request erases the slot. *)
Definition upload_start (s : serial) (fap : flash_area) (u : upload) : B (Z * serial) :=
  if negb (u_off u =? 0) then mret (0, s)
  else
    let s := with_upload 0 (img_size s) s in
    if fa_size fap <? u_len u then mret (MGMT_ERR_EINVAL, s)
    else
      rc ← flash_area_erase fap 0 (fa_size fap);
      if negb (rc =? 0) then mret (MGMT_ERR_EINVAL, s) else mret (0, with_upload 0 (u32 (u_len u)) s).

Definition upload_write (s : serial) (fap : flash_area) (u : upload) : B (Z * serial) :=
  if negb (u_off u =? curr_off s) then mret (33, s)
  else
    let img_blen := Z.of_nat (length (u_data u)) in
    let img_blen := if u32 (curr_off s + img_blen) <? img_size s then img_blen - img_blen mod flash_area_align fap else img_blen in
    rc ← flash_area_write fap (curr_off s) (take (Z.to_nat img_blen) (u_data u));
    if negb (rc =? 0) then mret (MGMT_ERR_EINVAL, s) else mret (0, with_upload (u32 (curr_off s + img_blen)) (img_size s) s).

(** The copy of the string has stored a 0 behind it: a string that fills img_data is followed by a store behind the array. *)
Definition upload_run (s : serial) (len : Z) : B (Z * serial) :=
  match parse_upload (request_parser s len) with
  | None => hang
  | Some (inl rc) => mret (rc, s)
  | Some (inr u) =>
      if IMG_DATA_SIZE <=? Z.of_nat (length (u_data u)) then wild
      else if u_off u =? UINT_MAX then mret (MGMT_ERR_EINVAL, s)
      else match flash_area_open (flash_area_id_from_image_slot (u_slot u)) with
      | None => mret (MGMT_ERR_EINVAL, s)
      | Some fap => '(rc, s) ← upload_start s fap u; if negb (rc =? 0) then mret (rc, s) else upload_write s fap u
      end
  end.

Definition upload_response (rc off : Z) : list Z :=
  cbor_encoder_create_map ++ text "rc" ++ cbor_encode_int rc ++
  (if rc =? 0 then text "off" ++ cbor_encode_uint off else []) ++ cbor_encoder_close_container.

Definition bs_upload (s : serial) (len : Z) : B serial :=
  '(rc, s) ← upload_run s len; bs_respond s (upload_response rc (curr_off s)).

(** ** The other commands *)

Definition bs_echo_ctl (s : serial) : B serial := boot_serial_output s [].

Definition reset_response : list Z := cbor_encoder_create_map ++ text "rc" ++ cbor_encode_int 0 ++ cbor_encoder_close_container.
Definition bs_reset (s : serial) : B serial := bs_respond s reset_response.

Section Serial.
Context {Cr : BootCrypto}.

Definition version_string (v : image_version) : string :=
  (CLib.dec (iv_major v) ++ "." ++ CLib.dec (iv_minor v) ++ "." ++ CLib.dec (iv_revision v) ++ "." ++ CLib.dec (iv_build_num v))%string.

(** What [bs_list] writes for slot [i]. *)
Definition list_entry (f : memory) (i : Z) : list Z :=
  match flash_area_open (flash_area_id_from_image_slot i) with
  | None => []
  | Some fap =>
      let hdr := parse_header (bytes_at f (fa_off fap) IMAGE_HEADER_SIZE) in
      if negb (ih_magic hdr =? IMAGE_MAGIC) then []
      else match bootutil_img_validate f hdr fap 64 [] with
      | Some 0 => cbor_encoder_create_map ++ text "slot" ++ cbor_encode_int i ++ text "version" ++ text (version_string (ih_ver hdr)) ++ cbor_encoder_close_container
      | _ => []
      end
  end.

Definition list_response (f : memory) : list Z :=
  cbor_encoder_create_map ++ text "images" ++ cbor_encoder_create_array ++ list_entry f 0 ++ list_entry f 1 ++
  cbor_encoder_close_container ++ cbor_encoder_close_container.

Definition bs_list (s : serial) : B serial := f ← memory_now; bs_respond s (list_response f).

(** ** Input *)

(** What a line leads to: the module goes on, or is reset. *)
Inductive outcome := Goes (s : serial) | Resets (s : serial).

Definition boot_serial_input (s : serial) (len : Z) : B outcome :=
  let op := byte (dec s) 2 in
  if (len <? HDR_SIZE) || (negb (op =? 0) && negb (op =? 2)) || (be16 (dec s) 4 <? len - HDR_SIZE) then mret (Goes s)
  else
    let len := len - HDR_SIZE in
    let group := be16 (dec s) 6 in
    let id := byte (dec s) 9 in
    if group =? 1 then
      if id =? 0 then s ← bs_list s; mret (Goes s)
      else if id =? 1 then s ← bs_upload s len; mret (Goes s)
      else mret (Goes s)
    else if group =? 0 then
      if id =? 1 then s ← bs_echo_ctl s; mret (Goes s)
      else if id =? 5 then s ← bs_reset s; mret (Resets s)
      else mret (Goes s)
    else mret (Goes s).

(** 1 if a packet is complete.  [wild]: dec_off without a value, or a line that does not fit behind it. *)
Definition boot_serial_in_dec (s : serial) (line_text : list Z) : B (Z * serial) :=
  match dec_off s with
  | None => wild
  | Some off =>
      match base64_decode false max_input line_text with
      | B64 0 (Some rc) out =>
          if max_input <? off + rc then wild
          else
            let s := with_dec_off (off + rc) (with_dec (put (dec s) off out) s) in
            let off := off + rc in
            if 2 <? off then
              let len := Z.min (be16 (dec s) 0) (off - 2) in
              let crc := crc16_sw (take (Z.to_nat len) (drop 2 (dec s))) 0 true in
              if negb (crc =? 0) || (len <=? 2) then mret (0, s)
              else mret (1, with_dec_off (off - 2) (with_dec (put (dec s) (off - 2) [0]) s))
            else mret (0, s)
      | _ => mret (-1, s)
      end
  end.

(** One turn of the loop with a line, which is never empty: it ends in its newline, which is left out by its place. *)
Definition boot_serial_line (s : serial) (line : list Z) : B outcome :=
  let line := take (Z.to_nat CONFIG_BOOT_MAX_LINE_INPUT_LEN) line in
  let line_text := take (length line - 3) (drop 2 line) in
  let start := (byte line 0 =? 6) && (byte line 1 =? 9) in
  let cont := (byte line 0 =? 4) && (byte line 1 =? 20) in
  if start || cont then
    '(rc, s) ← boot_serial_in_dec (if start then with_dec_off 0 s else s) line_text;
    if rc =? 1 then boot_serial_input s (default 0 (dec_off s) - 2) else mret (Goes s)
  else mret (Goes s).

(** The loop; [None] is a turn that finds no line.  [Ended]: the mode is left; [Reading]: no more events. *)
Inductive stop := Ended (s : serial) | Reset_ (s : serial) | Reading (s : serial) (idle : Z).

Fixpoint serial_loop (evs : list (option (list Z))) (idle_count : Z) (s : serial) : B stop :=
  match evs with
  | [] => mret (Reading s idle_count)
  | None :: evs' => if IDLE_MAX <? idle_count + 1 then mret (Ended s) else serial_loop evs' (idle_count + 1) s
  | Some line :: evs' =>
      r ← boot_serial_line s line;
      match r with Goes s => serial_loop evs' 0 s | Resets s => mret (Reset_ s) end
  end.

Definition boot_serial_start (evs : list (option (list Z))) : B stop :=
  serial_loop evs 0 (console_write (str "ready" ++ [10]) serial_init).

End Serial.

(** ** Receiving a message *)

(** The request the hub builds for a piece of the file. *)
Definition upload_items (off : Z) (len : option Z) (data : list Z) : list (list Z * item) :=
  (str "off", IUint off) :: match len with Some n => [(str "len", IUint n)] | None => [] end ++ [(str "data", IBytes data)].
Definition upload_request (off : Z) (len : option Z) (data : list Z) : list Z := enc_map (upload_items off len data).

(** The lines of a message, as [BLE_tx] writes them. *)
Definition message_lines (m : list Z) : list (list Z) := map (fun l => l ++ [10]) (frames true (chunks 124 (encode_body (packet m)))).

(** No part of the message up to a line's end looks complete: its CRC is not 0. *)
Definition clean (m : list Z) : bool :=
  forallb (fun j => negb (crc16_sw (take (93 * j - 2) (drop 2 (packet m))) 0 true =? 0)) (seq 1 ((length m + 3) / 93)).

Lemma put_app a c t : put (a ++ t) (Z.of_nat (length a)) c = a ++ c ++ drop (length c) t.
Proof. unfold put. rewrite Nat2Z.id, take_app_length. by rewrite drop_app_add. Qed.

(** The bytes [a] have been decoded. *)
Definition got (s : serial) (a : list Z) : Prop :=
  length (dec s) = 513%nat /\ dec_off s = Some (Z.of_nat (length a)) /\ exists t, dec s = a ++ t.

Definition same_upload (s s' : serial) : Prop := curr_off s' = curr_off s /\ img_size s' = img_size s /\ console s' = console s.

Lemma packet_be16 m t : Z.of_nat (length m) + 2 < 65536 -> be16 (packet m ++ t) 0 = Z.of_nat (length m) + 2.
Proof.
  intros H. rewrite packet_eq by done. set (n := Z.of_nat (length m) + 2). unfold be16, byte. change (Z.to_nat 0) with 0%nat.
  change (Z.to_nat (0 + 1)) with 1%nat. cbn [nth app]. pose proof (Z.div_mod n 256). lia.
Qed.

Lemma be16_app a b t : (2 <= length a)%nat -> be16 (a ++ t) 0 = be16 (a ++ b) 0.
Proof. intros H. unfold be16, byte. by destruct a as [|x [|y a]]; cbn in H; [lia..|]. Qed.

Lemma clean_spec m j : clean m = true -> (0 < j)%nat -> (93 * j < length m + 4)%nat -> crc16_sw (take (93 * j - 2) (drop 2 (packet m))) 0 true <> 0.
Proof.
  intros H Hj Hl. unfold clean in H. rewrite forallb_forall in H.
  assert (negb (crc16_sw (take (93 * j - 2) (drop 2 (packet m))) 0 true =? 0) = true) as Hn by (apply H, in_seq; pose proof (Nat.div_le_lower_bound (length m + 3) 93 j); lia).
  apply negb_true_iff in Hn. by to_prop.
Qed.

Lemma packet_residue m : crc16_sw (take (length m + 2) (drop 2 (packet m))) 0 true = 0.
Proof.
  assert (packet m = take 2 (packet m) ++ m ++ [crc16 m true / 256; crc16 m true mod 256]) as E.
  { unfold packet. cbn [app take]. by destruct (u16_bytes (crc16 m true) (crc16_u16 m)) as [-> ->]. }
  rewrite E, drop_app_length' by done. rewrite take_ge by (rewrite length_app; cbn [length]; lia). exact (crc16_residue m).
Qed.

Lemma prefix_take n (a b t : list Z) : (2 <= length a)%nat -> (n <= length a - 2)%nat -> take n (drop 2 (a ++ t)) = take n (drop 2 (a ++ b)).
Proof. intros H Hn. destruct a as [|x [|y a]]; cbn [length] in *; [lia..|]. change (take n (a ++ t) = take n (a ++ b)). by rewrite !take_app_le by lia. Qed.

Lemma packet_split m : exists x y, packet m = (take 2 (packet m) ++ m) ++ [x; y].
Proof. by do 2 eexists. Qed.

(** One line of a message: it is stored; the last one completes the packet. *)
Lemma in_dec_piece m a c b s : (1 <= length m <= 377)%nat -> packet m = a ++ c ++ b -> Forall is_byte c -> (1 <= length c <= 93)%nat ->
  got s a -> clean m = true -> (b <> [] -> exists j, (length a + length c = 93 * j)%nat) ->
  exists s', same_upload s s' /\ boot_serial_in_dec s (encode_body c) = mret (if bool_decide (b = []) then 1 else 0, s') /\
    if bool_decide (b = []) then length (dec s') = 513%nat /\ dec_off s' = Some (Z.of_nat (length m) + 2) /\
         exists t, dec s' = take 2 (packet m) ++ m ++ 0 :: t
    else got s' (a ++ c).
Proof.
  intros Hm Hp Hb Hc (Hd & Ho & t & Et) Hcl Hj. pose proof (packet_length m) as Hpl. pose proof (f_equal length Hp) as El.
  rewrite !length_app in El. unfold boot_serial_in_dec. unfold max_input, CONFIG_BOOT_MAX_LINE_INPUT_LEN.
  rewrite Ho, base64_decode_encode_body by (done || lia).
  rewrite (proj2 (Z.ltb_ge (512 + 1) _)) by lia. cbv zeta. cbn [dec with_dec with_dec_off].
  rewrite Et, put_app. set (t' := drop (length c) t).
  assert (length (a ++ c ++ t') = 513%nat) as Hl'.
  { rewrite Et in Hd. rewrite length_app in Hd. unfold t'. rewrite !length_app, length_drop. lia. }
  assert (2 < length a + length c)%nat as H2.
  { destruct (decide (b = [])) as [->|Hbn]; [cbn [length] in El; lia|]. destruct (Hj Hbn). lia. }
  rewrite (proj2 (Z.ltb_lt 2 _)) by lia.
  assert (be16 (a ++ c ++ t') 0 = Z.of_nat (length m) + 2) as ->.
  { rewrite app_assoc, (be16_app _ b) by (rewrite length_app; lia). rewrite <- app_assoc, <- Hp, <- (app_nil_r (packet m)). apply packet_be16. lia. }
  rewrite Z.min_r by lia.
  assert (take (Z.to_nat (Z.of_nat (length a) + Z.of_nat (length c) - 2)) (drop 2 (a ++ c ++ t')) =
          take (length a + length c - 2) (drop 2 (packet m))) as ->.
  { replace (Z.to_nat _) with (length a + length c - 2)%nat by lia. rewrite Hp, !(app_assoc a). apply prefix_take; rewrite length_app; lia. }
  destruct (bool_decide_reflect (b = [])) as [->|Hbn].
  - cbn [length] in El. replace (length a + length c - 2)%nat with (length m + 2)%nat by lia. rewrite packet_residue.
    rewrite (proj2 (Z.leb_gt _ 2)) by lia. cbn [Z.eqb negb orb].
    destruct (packet_split m) as (x & y & E). set (h := take 2 (packet m)) in *.
    assert (length (h ++ m) = length m + 2)%nat as Hh by (unfold h; rewrite length_app, length_take, Hpl; lia).
    assert (a ++ c ++ t' = (h ++ m) ++ x :: y :: t') as E' by (rewrite app_nil_r in Hp; rewrite app_assoc, <- Hp, E, <- app_assoc; done).
    assert (put (a ++ c ++ t') (Z.of_nat (length a) + Z.of_nat (length c) - 2) [0] = (h ++ m) ++ 0 :: y :: t') as Ep.
    { rewrite E'. replace (Z.of_nat (length a) + Z.of_nat (length c) - 2) with (Z.of_nat (length (h ++ m))) by lia. apply put_app. }
    eexists. split_and!; [|reflexivity|..]; [done| |cbn; f_equal; lia|]; cbn [dec with_dec with_dec_off]; rewrite Ep.
    + rewrite E' in Hl'. rewrite length_app in *. exact Hl'.
    + exists (y :: t'). by rewrite <- app_assoc.
  - destruct (Hj Hbn) as [j Ej]. rewrite Ej. assert (0 < length b)%nat by (by destruct b; [|cbn; lia]).
    pose proof (clean_spec m j Hcl ltac:(lia) ltac:(lia)) as Hn. rewrite (proj2 (Z.eqb_neq _ 0)) by exact Hn. cbn [negb orb].
    eexists. split_and!; [|reflexivity|]; [done|]. split_and!; cbn [dec with_dec with_dec_off dec_off]; [done|rewrite length_app; f_equal; lia|].
    exists t'. by rewrite <- app_assoc.
Qed.

Lemma ret_bind {A A'} (a : A) (k : A -> B A') : (mret a : B A) ≫= k = k a.
Proof. done. Qed.

Section Receive.
Context {Cr : BootCrypto}.

Lemma line_piece (first : bool) c s : (length c <= 93)%nat ->
  boot_serial_line s (((if first then start_mark else cont_mark) ++ encode_body c) ++ [10]) =
  ('(rc, s) ← boot_serial_in_dec (if first then with_dec_off 0 s else s) (encode_body c);
   if rc =? 1 then boot_serial_input s (default 0 (dec_off s) - 2) else mret (Goes s)).
Proof.
  intros Hc. pose proof (encode_body_length c) as Hl. unfold boot_serial_line. cbv zeta.
  assert (forall x y : Z, take (Z.to_nat CONFIG_BOOT_MAX_LINE_INPUT_LEN) (([x; y] ++ encode_body c) ++ [10]) = x :: y :: encode_body c ++ [10]) as Et.
  { intros x y. rewrite take_ge; [done|]. rewrite !length_app. unfold CONFIG_BOOT_MAX_LINE_INPUT_LEN. cbn [length]. dlia. }
  assert (forall x y : Z, take (length (x :: y :: encode_body c ++ [10]) - 3) (drop 2 (x :: y :: encode_body c ++ [10])) = encode_body c) as Ex.
  { intros x y. change (drop 2 (x :: y :: encode_body c ++ [10])) with (encode_body c ++ [10]). cbn [length]. rewrite length_app. cbn [length].
    replace (_ - 3)%nat with (length (encode_body c)) by lia. apply take_app_length. }
  destruct first; unfold start_mark, cont_mark; rewrite !Et, Ex; done.
Qed.

(** What the loop makes of the result of a line. *)
Definition after (evs : list (option (list Z))) (r : outcome) : B stop := match r with Goes s => serial_loop evs 0 s | Resets s => mret (Reset_ s) end.

(** The message [m] is in dec_buf, followed by a 0. *)
Definition received (m : list Z) (s : serial) : Prop :=
  length (dec s) = 513%nat /\ dec_off s = Some (Z.of_nat (length m) + 2) /\ exists t, dec s = take 2 (packet m) ++ m ++ 0 :: t.

Lemma receive_lines m evs n : (1 <= length m <= 377)%nat -> Forall is_byte m -> clean m = true -> forall (first : bool) a b s idle, (length b <= n)%nat ->
  packet m = a ++ b -> b <> [] -> (exists j, length a = 93 * j)%nat -> (if first then a = [] /\ length (dec s) = 513%nat else got s a) ->
  exists s', same_upload s s' /\ received m s' /\
  serial_loop (map Some (map (fun l => l ++ [10]) (frames first (map encode_body (chunks 93 b)))) ++ evs) idle s =
  (boot_serial_input s' (Z.of_nat (length m)) ≫= after evs).
Proof.
  intros Hm Hb Hcl. induction n as [|n IH]; intros first a b s idle Hn Hp Hne [j Hj] Hs; [by destruct b; [|cbn in Hn; lia]|].
  assert (0 < length b)%nat as Hb0 by (by destruct b; [|cbn; lia]).
  rewrite (chunks_step 93 b) by (done || lia). cbn [map frames app serial_loop]. set (c := take 93 b).
  assert (length c = Nat.min 93 (length b)) as Hc by apply length_take.
  rewrite line_piece by lia. set (s0 := if first then with_dec_off 0 s else s).
  assert (got s0 a) as Hg.
  { unfold s0. destruct first; [|done]. destruct Hs as [-> Hs]. split_and!; [done|done|]. by exists (dec s). }
  assert (same_upload s s0) as Hu0 by (unfold s0; by destruct first).
  assert (packet m = a ++ c ++ drop 93 b) as Hp' by (unfold c; by rewrite take_drop).
  assert (Forall is_byte c) as Hbc.
  { pose proof (packet_bytes m Hb) as Hpb. rewrite Hp' in Hpb. apply Forall_app in Hpb as [_ Hpb]. by apply Forall_app in Hpb as [Hpb _]. }
  destruct (in_dec_piece m a c (drop 93 b) s0) as (s1 & Hu1 & -> & H1); try done; [lia|..].
  { intros Hd. exists (S j). assert (length (drop 93 b) <> 0)%nat as Hd0 by (by destruct (drop 93 b)). rewrite length_drop in Hd0. lia. }
  assert (same_upload s s1) as Hu by (unfold same_upload in *; destruct Hu0 as (-> & -> & ->) in Hu1; done).
  destruct (bool_decide_reflect (drop 93 b = [])) as [E|E].
  - rewrite E. exists s1. split_and!; [done|done|]. rewrite ret_bind. cbv iota beta. cbn [Z.eqb Pos.eqb]. destruct H1 as (_ & -> & _).
    change (default 0 (Some (Z.of_nat (length m) + 2))) with (Z.of_nat (length m) + 2). rewrite Z.add_simpl_r. reflexivity.
  - rewrite !ret_bind. cbv iota beta. cbn [Z.eqb]. rewrite ret_bind. cbv iota beta.
    destruct (IH false (a ++ c) (drop 93 b) s1 0) as (s' & Hu' & Hr & Hl); [rewrite length_drop; lia|by rewrite <- app_assoc|done| |done|].
    { exists (S j). assert (length (drop 93 b) <> 0)%nat as Hd0 by (by destruct (drop 93 b)). rewrite length_drop in Hd0. rewrite length_app. lia. }
    exists s'. split_and!; [|done|exact Hl]. unfold same_upload in *. destruct Hu as (E1 & E2 & E3), Hu' as (-> & -> & ->). by split_and!.
Qed.

Lemma receive_message m evs s idle : (1 <= length m <= 377)%nat -> Forall is_byte m -> clean m = true -> length (dec s) = 513%nat ->
  exists s', same_upload s s' /\ received m s' /\
  serial_loop (map Some (message_lines m) ++ evs) idle s = (boot_serial_input s' (Z.of_nat (length m)) ≫= after evs).
Proof.
  intros Hm Hb Hcl Hd. unfold message_lines. pose proof (packet_length m). rewrite (chunks_encode _ (length (packet m))) by lia.
  apply (receive_lines m evs (length (packet m)) Hm Hb Hcl true [] (packet m)); [lia|done| |by exists 0%nat|done].
  intros E. rewrite E in H. cbn in H. lia.
Qed.

End Receive.

(** ** The requests are understood *)

(** What the module takes the length for; a request without one gives the length of its data. *)
Definition decode_len (n : Z) : Z * Z :=
  let slot := Z.shiftr (Z.land n 0x0F000000) 24 in (if (slot <? 0) || (1 <? slot) then 0 else slot, Z.land n 0x00FFFFFF).

Lemma assoc_off off len data : assoc (str "off") (upload_items off len data) = Some (IUint off).
Proof. reflexivity. Qed.
Lemma assoc_len off len data : assoc (str "len") (upload_items off len data) = IUint <$> len.
Proof. by destruct len. Qed.
Lemma assoc_data off len data : assoc (str "data") (upload_items off len data) = Some (IBytes data).
Proof. by destruct len. Qed.

Lemma upload_items_ok off len data : 0 <= off < 2 ^ 64 -> (forall n, len = Some n -> 0 <= n < 2 ^ 64) -> Forall is_byte data -> Z.of_nat (length data) < 2 ^ 31 ->
  Forall pair_ok (upload_items off len data).
Proof.
  intros Ho Hl Hb Hd. unfold upload_items. apply Forall_cons_2; [split; [cbn; lia|done]|]. apply Forall_app. split.
  - destruct len as [n|]; [|done]. apply Forall_cons_2; [|done]. split; [cbn; lia|by apply Hl].
  - apply Forall_cons_2; [|done]. split; [cbn; lia|done].
Qed.

Lemma parse_request p off len data : 0 <= p_end p < 2 ^ 31 -> holds p 0 (upload_request off len data) ->
  0 <= off < 2 ^ 64 -> (forall n, len = Some n -> 0 <= n < 2 ^ 64) -> Forall is_byte data -> Z.of_nat (length data) <= IMG_DATA_SIZE ->
  let '(slot, n) := decode_len (default (Z.of_nat (length data)) len) in parse_upload p = Some (inr (Upload off slot n data)).
Proof.
  intros He Hh Ho Hl Hb Hd. unfold IMG_DATA_SIZE in *. pose proof (upload_items_ok off len data Ho Hl Hb ltac:(lia)) as Hi.
  assert (upload_items off len data <> []) as Hne by done. unfold upload_request in Hh.
  destruct (find_in_map p He (str "off") _ Hi Hh Hne) as (m & w1 & Hm & _ & Hw1 & v1 & H1).
  destruct (find_in_map p He (str "len") _ Hi Hh Hne) as (m' & w2 & Hm' & _ & Hw2 & v2 & H2).
  rewrite Hm in Hm'. injection Hm' as <-.
  destruct (find_in_map p He (str "data") _ Hi Hh Hne) as (m' & w3 & Hm' & _ & Hw3 & v3 & H3).
  rewrite Hm in Hm'. injection Hm' as <-. unfold finds in H1, H2, H3. rewrite assoc_off in H1. rewrite assoc_len in H2. rewrite assoc_data in H3.
  destruct H1 as (o1 & _ & (_ & e1 & tl1 & E1 & G1 & _) & _). destruct H3 as (o3 & l3 & V3 & Hl3 & Hr3).
  destruct (copy_value p He o3 data l3 w3 400 ltac:(split; [done|lia]) V3 Hl3 Hr3) as [next Hc]. rewrite (proj2 (Z.leb_le _ 400)) in Hc by lia.
  assert (cbor_value_get_uint64 p w2 = default (Z.of_nat (length data)) len) as G2.
  { destruct len as [n|]; cbn [fmap option_fmap option_map] in H2.
    - by destruct H2 as (o2 & l2 & (_ & e2 & tl2 & -> & -> & _) & _).
    - destruct H2 as [_ H2]. cbn in H2. destruct H2 as [E2 E3]; [lia|]. unfold cbor_value_get_uint64. by rewrite E3, E2. }
  unfold parse_upload, parse_len. rewrite Hm, Hw1. cbn [mbind option_bind]. rewrite Hw2. cbn [mbind option_bind]. rewrite Hw3. cbn [mbind option_bind].
  unfold IMG_DATA_SIZE. rewrite Hc. cbn [mbind option_bind]. rewrite G1, G2. rewrite Nat2Z.id, take_app_length. reflexivity.
Qed.

Lemma received_byte m s k : received m s -> 0 <= k < Z.of_nat (length m) -> byte (dec s) (2 + k) = nth (Z.to_nat k) m 0.
Proof.
  intros (_ & _ & t & ->) Hk. unfold byte. rewrite Z2Nat.inj_add by lia. pose proof (packet_length m).
  rewrite app_nth2; rewrite length_take; [|lia]. rewrite app_nth1 by lia. f_equal. lia.
Qed.

Lemma request_holds hdr body s : received (hdr ++ body) s -> length hdr = 8%nat -> holds (request_parser s (Z.of_nat (length body))) 0 body.
Proof.
  intros Hr Hh. split_and!; [lia|cbn [p_end request_parser]; lia|]. intros k x Hx. pose proof (lookup_lt_Some _ _ _ Hx).
  unfold get8, request_parser. cbn [p_mem]. unfold HDR_SIZE. replace (2 + 8 + (0 + Z.of_nat k)) with (2 + (8 + Z.of_nat k)) by lia.
  rewrite (received_byte (hdr ++ body)); [|done|rewrite length_app; lia]. rewrite app_nth2 by lia. rewrite Hh.
  replace (Z.to_nat (8 + Z.of_nat k) - 8)%nat with k by lia. by apply nth_lookup_Some.
Qed.

(** The header of an upload request. *)
Definition upload_hdr (blen seq : Z) : list Z := [2; 0; blen / 256; blen mod 256; 0; 1; seq; 1].

Lemma input_upload {Cr : BootCrypto} body seq s : received (upload_hdr (Z.of_nat (length body)) seq ++ body) s -> (length body <= 369)%nat ->
  boot_serial_input s (Z.of_nat (length (upload_hdr (Z.of_nat (length body)) seq ++ body))) =
  (s ← bs_upload s (Z.of_nat (length body)); mret (Goes s)).
Proof.
  intros Hr Hl. set (m := upload_hdr _ seq ++ body) in *. assert (length m = 8 + length body)%nat as Hm by done.
  assert (forall k, 0 <= k < 8 -> byte (dec s) (2 + k) = nth (Z.to_nat k) m 0) as Hb by (intros k Hk; apply received_byte; [done|lia]).
  unfold boot_serial_input, be16. rewrite (Hb 0 ltac:(lia) : byte (dec s) 2 = 2), (Hb 2 ltac:(lia) : byte (dec s) 4 = _),
    (Hb 3 ltac:(lia) : byte (dec s) (4 + 1) = _), (Hb 4 ltac:(lia) : byte (dec s) 6 = 0), (Hb 5 ltac:(lia) : byte (dec s) (6 + 1) = 1),
    (Hb 7 ltac:(lia) : byte (dec s) 9 = 1). rewrite Hm.
  change (nth (Z.to_nat 2) m 0) with (Z.of_nat (length body) / 256). change (nth (Z.to_nat 3) m 0) with (Z.of_nat (length body) mod 256).
  rewrite <- Z.div_mod by lia. unfold HDR_SIZE. rewrite (proj2 (Z.ltb_ge _ 8)), (proj2 (Z.ltb_ge (Z.of_nat (length body)) _)) by lia.
  cbn [Z.eqb Pos.eqb negb andb orb]. replace (Z.of_nat (8 + length body) - 8) with (Z.of_nat (length body)) by lia. reflexivity.
Qed.

(** ** Responses *)

Definition response (s : serial) (data : list Z) : list Z := response_hdr s (Z.of_nat (length data)) ++ data.

Lemma console_plain l : Forall (fun c => (c =? 10) = false) l -> flat_map console_out l = l.
Proof. induction 1 as [|c l Hc _ IH]; [done|]. cbn [flat_map]. unfold console_out at 1. by rewrite Hc, IH. Qed.

Lemma put_length l k bytes : 0 <= k -> (Z.to_nat k + length bytes <= length l)%nat -> length (put l k bytes) = length l.
Proof. intros Hk Hl. unfold put. rewrite !length_app, length_take, length_drop. lia. Qed.

Lemma output_ok s data : length (dec s) = 513%nat -> (length data <= 36)%nat -> exists s', boot_serial_output s data = mret s' /\
  curr_off s' = curr_off s /\ img_size s' = img_size s /\ length (dec s') = 513%nat /\
  console s' = console s ++ response_line true (encode_body (packet (response s data))) ++ [10].
Proof.
  intros Hd Hl. unfold boot_serial_output. cbv zeta. set (len := Z.of_nat (length data)). set (hdr := response_hdr s len).
  assert (crc16_sw data (crc16_sw hdr 0 false) true = crc16 (hdr ++ data) true) as ->.
  { unfold crc16_sw, crc16. rewrite app_nil_r, <- app_assoc, (fold_left_app _ hdr). done. }
  assert ([(len + HDR_SIZE + 2) / 256; (len + HDR_SIZE + 2) mod 256] ++ hdr ++ data ++ [crc16 (hdr ++ data) true / 256; crc16 (hdr ++ data) true mod 256]
    = packet (hdr ++ data)) as ->.
  { rewrite packet_eq by (rewrite length_app; cbn [hdr response_hdr length]; lia). rewrite <- app_assoc.
    replace (Z.of_nat (length (hdr ++ data)) + 2) with (len + HDR_SIZE + 2); [done|]. rewrite length_app. unfold HDR_SIZE, len. cbn [hdr response_hdr length]. lia. }
  rewrite packet_length, length_app. unfold BOOT_SERIAL_OUT_MAX. cbn [hdr response_hdr length]. rewrite (proj2 (Z.ltb_ge 48 _)) by lia.
  eexists. split; [done|]. unfold console_write, with_dec. cbn [curr_off img_size dec console]. split_and!; [done|done|rewrite put_length; [done|lia|cbn; lia]|].
  rewrite (console_plain _ (encode_body_no_lf _)). unfold response_line, start_mark. cbn [flat_map console_out Z.eqb Pos.eqb app]. rewrite <- !app_assoc. reflexivity.
Qed.

(** ** One request *)

Lemma wpc_now {A} (m : B A) a g f : wpc m (fun a' f' => a' = a /\ f' = g) (fun _ => True) f -> m (Dev f None) = (Done a, Dev g None).
Proof.
  intros H. specialize (H None). destruct (m (Dev f None)) as [[x| | |] [h q]]; cbn [mem power] in H; [|naive_solver..].
  destruct H as [[-> ->] Hp]. by rewrite (Hp eq_refl).
Qed.

Definition slot_area (slot : Z) : flash_area := if slot =? 0 then image_0 else image_1.

Lemma slot_is_area slot : is_area (slot_area slot).
Proof. unfold slot_area. case_if; [by left|by right; left]. Qed.

Lemma slot_size slot : fa_size (slot_area slot) = 0x69000.
Proof. unfold slot_area. by case_if. Qed.

(** The memory after a request: the first one erases the slot. *)
Definition piece_mem (f : memory) (off slot : Z) (data : list Z) : memory :=
  let a := slot_area slot in programmed (if off =? 0 then erased f (fa_off a) (fa_size a) else f) (fa_off a + off) data.

Lemma start_now s slot u f : 0 <= u_len u <= 0x69000 ->
  upload_start s (slot_area slot) u (Dev f None) =
  (Done (0, if u_off u =? 0 then with_upload 0 (u_len u) s else s),
   Dev (if u_off u =? 0 then erased f (fa_off (slot_area slot)) (fa_size (slot_area slot)) else f) None).
Proof.
  intros Hl. unfold upload_start. destruct (u_off u =? 0); cbn [negb]; [|done]. rewrite slot_size, (proj2 (Z.ltb_ge _ _)) by lia.
  unfold mbind, B_bind. rewrite (wpc_now (flash_area_erase _ _ _) 0 (erased f (fa_off (slot_area slot)) 0x69000)).
  - cbn [Z.eqb negb]. rewrite u32_small by lia. done.
  - apply wpc_erase; [apply slot_is_area|lia|lia|done|done|rewrite slot_size; lia|done|by rewrite Z.add_0_r].
Qed.

Lemma write_now s slot u f : u_off u = curr_off s -> 0 <= u_off u -> (0 < length (u_data u))%nat ->
  u_off u + Z.of_nat (length (u_data u)) <= 0x69000 ->
  Z.of_nat (length (u_data u)) mod 4 = 0 \/ img_size s <= u_off u + Z.of_nat (length (u_data u)) ->
  upload_write s (slot_area slot) u (Dev f None) =
  (Done (0, with_upload (u_off u + Z.of_nat (length (u_data u))) (img_size s) s), Dev (programmed f (fa_off (slot_area slot) + u_off u) (u_data u)) None).
Proof.
  intros Ho H0 Hd Hs Hfull. unfold upload_write. rewrite Ho in H0, Hs, Hfull |- *. rewrite Z.eqb_refl. cbn [negb]. cbv zeta. rewrite (u32_small (curr_off s + Z.of_nat (length (u_data u)))) by lia.
  assert ((if curr_off s + Z.of_nat (length (u_data u)) <? img_size s
    then Z.of_nat (length (u_data u)) - Z.of_nat (length (u_data u)) mod flash_area_align (slot_area slot) else Z.of_nat (length (u_data u)))
    = Z.of_nat (length (u_data u))) as ->.
  { case_if; to_prop; [|done]. destruct Hfull as [Hf|Hf]; [|lia]. change (flash_area_align (slot_area slot)) with 4. lia. }
  rewrite Nat2Z.id, take_ge by lia. unfold mbind, B_bind.
  rewrite (wpc_now (flash_area_write _ _ _) 0 (programmed f (fa_off (slot_area slot) + curr_off s) (u_data u))).
  - cbn [Z.eqb negb]. rewrite u32_small by lia. done.
  - apply wpc_write; [apply slot_is_area|lia|lia|rewrite slot_size; lia|done|done].
Qed.

Lemma open_slot slot : 0 <= slot <= 1 -> flash_area_open (flash_area_id_from_image_slot slot) = Some (slot_area slot).
Proof. intros H. by assert (slot = 0 \/ slot = 1) as [-> | ->] by lia. Qed.

Lemma upload_run_ok s len u f : parse_upload (request_parser s len) = Some (inr u) -> 0 <= u_slot u <= 1 -> (0 < length (u_data u) < 400)%nat ->
  0 <= u_len u <= 0x69000 -> 0 <= u_off u -> (u_off u <> 0 -> u_off u = curr_off s) -> u_off u + Z.of_nat (length (u_data u)) <= 0x69000 ->
  let size := if u_off u =? 0 then u_len u else img_size s in
  Z.of_nat (length (u_data u)) mod 4 = 0 \/ size <= u_off u + Z.of_nat (length (u_data u)) ->
  upload_run s len (Dev f None) =
  (Done (0, with_upload (u_off u + Z.of_nat (length (u_data u))) size s), Dev (piece_mem f (u_off u) (u_slot u) (u_data u)) None).
Proof.
  intros Hp Hs Hd Hl H0 Hc He size Hfull. unfold upload_run. rewrite Hp. unfold IMG_DATA_SIZE. rewrite (proj2 (Z.leb_gt 400 _)) by lia.
  unfold UINT_MAX. rewrite (proj2 (Z.eqb_neq (u_off u) _)) by lia. rewrite open_slot by done. unfold mbind at 1, B_bind at 1. rewrite start_now by done.
  cbv iota beta. cbn [Z.eqb negb]. set (s1 := if u_off u =? 0 then _ else s). rewrite write_now; [|unfold s1|done|lia|done|].
  - unfold piece_mem. unfold size, s1. by destruct (u_off u =? 0).
  - destruct (Z.eqb_spec (u_off u) 0); [done|by apply Hc].
  - unfold s1. unfold size in Hfull. by destruct (u_off u =? 0).
Qed.

(** ** An upload *)

Definition upload_msg (seq off : Z) (len : option Z) (data : list Z) : list Z :=
  let body := upload_request off len data in upload_hdr (Z.of_nat (length body)) seq ++ body.

(** The answer to a request that was carried out. *)
Definition ack_msg (seq off : Z) : list Z :=
  let data := upload_response 0 off in [3; 1; Z.of_nat (length data) / 256; Z.of_nat (length data) mod 256; 0; 1; seq; 1] ++ data.
Definition ack_line (seq off : Z) : list Z := response_line true (encode_body (packet (ack_msg seq off))) ++ [10].

Lemma number_length ui t : 0 <= ui -> (1 <= length (encode_number ui t) <= 9)%nat /\ (ui < 2 ^ 32 -> (length (encode_number ui t) <= 5)%nat) /\
  (ui < 65536 -> (length (encode_number ui t) <= 3)%nat).
Proof.
  intros H. unfold encode_number. destruct (ui <? 24); [cbn [length]; split_and!; intros; lia|]. cbv zeta. cbn [length]. rewrite be_length.
  destruct (0xff <? ui) eqn:E1, (0xffff <? ui) eqn:E2, (0xffffffff <? ui) eqn:E3; to_prop; try lia; cbn; split_and!; intros; lia.
Qed.

Lemma response_short off : 0 <= off < 2 ^ 32 -> (length (upload_response 0 off) <= 15)%nat.
Proof.
  intros H. unfold upload_response. cbn [Z.eqb]. rewrite !length_app. pose proof (number_length off UnsignedInteger ltac:(lia)) as (_ & Hn & _).
  unfold cbor_encode_uint. specialize (Hn ltac:(lia)). change (length cbor_encoder_create_map) with 1%nat. change (length (text "rc")) with 3%nat.
  change (length (cbor_encode_int 0)) with 1%nat. change (length (text "off")) with 4%nat. change (length cbor_encoder_close_container) with 1%nat. lia.
Qed.

Lemma request_length off len data : 0 <= off < 2 ^ 32 -> (forall n, len = Some n -> 0 <= n < 2 ^ 32) -> (length data <= 196)%nat ->
  (length (upload_request off len data) <= 226)%nat.
Proof.
  intros Ho Hl Hd. unfold upload_request, enc_map, upload_items. rewrite !length_app. cbn [enc_pairs]. rewrite !length_app.
  pose proof (number_length off UnsignedInteger ltac:(lia)) as (_ & Hn & _). specialize (Hn ltac:(lia)).
  pose proof (number_length (Z.of_nat (length data)) ByteString ltac:(lia)) as (_ & _ & Hn2). specialize (Hn2 ltac:(lia)).
  assert (forall i, length (enc_pairs [(str "data", i)]) = 5 + length (enc_item i))%nat as Ed by (intros i; cbn [enc_pairs]; rewrite app_nil_r, length_app; done).
  change (length (cbor_encode_text_string (str "off"))) with 4%nat. cbn [enc_item length cbor_encoder_create_map cbor_encoder_close_container].
  unfold cbor_encode_uint in *. destruct len as [n|]; cbn [app].
  - cbn [enc_pairs] in Ed |- *. rewrite !length_app. cbn [length]. change (length (cbor_encode_text_string (str "len"))) with 4%nat.
    change (length (cbor_encode_text_string (str "data"))) with 5%nat. cbn [enc_item]. unfold cbor_encode_uint, cbor_encode_byte_string, encode_string. rewrite length_app.
    pose proof (number_length n UnsignedInteger ltac:(by apply Hl)) as (_ & Hn3 & _). specialize (Hn3 ltac:(by apply Hl)). lia.
  - rewrite Ed. cbn [enc_item]. unfold cbor_encode_byte_string, encode_string. rewrite length_app. lia.
Qed.

Lemma number_bytes ui t : Forall is_byte (encode_number ui t).
Proof.
  assert (forall n x, Forall is_byte (be n x)) as Hb by (induction n; intros; cbn [be]; [done|apply Forall_cons_2; [apply u8_byte|done]]).
  unfold encode_number. case_if; [apply Forall_cons_2; [apply u8_byte|done]|]. apply Forall_cons_2; [apply u8_byte|apply Hb].
Qed.

Lemma string_bytes s t : Forall is_byte s -> Forall is_byte (encode_string s t).
Proof. intros H. apply Forall_app. split; [apply number_bytes|done]. Qed.

Lemma serial_str_bytes s : Forall is_byte (str s).
Proof.
  unfold str. apply Forall_map, list.Forall_forall. intros c _. pose proof (Ascii.N_ascii_bounded c). unfold compose, is_byte. lia.
Qed.

Lemma items_bytes l : Forall (fun x => Forall is_byte x.1 /\ match x.2 with IUint _ => True | IBytes s => Forall is_byte s end) l -> Forall is_byte (enc_map l).
Proof.
  intros H. unfold enc_map. apply Forall_cons_2; [by split|]. cbn [app]. apply Forall_app. split; [|apply Forall_cons_2; [by split|done]].
  induction H as [|[k i] l [Hk Hi] _ IH]; [done|]. cbn [enc_pairs fst snd] in *. apply Forall_app. split; [by apply string_bytes|]. apply Forall_app. split; [|done].
  destruct i; [apply number_bytes|by apply string_bytes].
Qed.

Lemma request_bytes off len data : Forall is_byte data -> Forall is_byte (upload_request off len data).
Proof.
  intros H. apply items_bytes. unfold upload_items. apply Forall_cons_2; [split; [apply serial_str_bytes|done]|]. apply Forall_app.
  split; [destruct len; [apply Forall_cons_2; [split; [apply serial_str_bytes|done]|done]|done]|]. apply Forall_cons_2; [split; [apply serial_str_bytes|done]|done].
Qed.

Lemma msg_bytes off len data seq : 0 <= off < 2 ^ 32 -> (forall n, len = Some n -> 0 <= n < 2 ^ 32) -> (length data <= 196)%nat -> Forall is_byte data ->
  is_byte seq -> Forall is_byte (upload_msg seq off len data) /\ (1 <= length (upload_msg seq off len data) <= 234)%nat.
Proof.
  intros Ho Hl Hd Hb Hs. pose proof (request_length off len data Ho Hl Hd). unfold upload_msg. split.
  - apply Forall_app. split; [|by apply request_bytes]. set (n := Z.of_nat _) in *. unfold upload_hdr, is_byte in *.
    pose proof (Z.mod_pos_bound n 256 ltac:(lia)). pose proof (Z.div_pos n 256 ltac:(lia) ltac:(lia)). pose proof (Z.div_lt_upper_bound n 256 256 ltac:(lia) ltac:(lia)).
    repeat (apply Forall_cons_2; [lia|]). done.
  - rewrite length_app. cbn [upload_hdr length]. lia.
Qed.

Lemma decode_len_slot slot n : 0 <= slot <= 1 -> 0 <= n < 2 ^ 24 -> decode_len (n + slot * 2 ^ 24) = (slot, n).
Proof.
  intros Hs Hn. unfold decode_len. assert (Z.land (n + slot * 2 ^ 24) 0x00FFFFFF = n) as ->.
  { change 0x00FFFFFF with (Z.ones 24). rewrite Z.land_ones by lia. rewrite Z.mod_add by lia. by apply Z.mod_small. }
  assert (Z.shiftr (Z.land (n + slot * 2 ^ 24) 0x0F000000) 24 = slot) as ->.
  { rewrite Z.shiftr_land. change (Z.shiftr 0x0F000000 24) with (Z.ones 4). rewrite Z.land_ones, Z.shiftr_div_pow2 by lia.
    rewrite Z.div_add, (Z.div_small n) by lia. apply Z.mod_small. lia. }
  by rewrite (proj2 (Z.ltb_ge slot 0)), (proj2 (Z.ltb_ge 1 slot)) by lia.
Qed.

(** The first request names the slot, the others end up in slot 0. *)
Definition slot_used (slot off : Z) : Z := if off =? 0 then slot else 0.

Section Upload.
Context {Cr : BootCrypto}.

Lemma upload_step s f seq slot total off data evs idle :
  length (dec s) = 513%nat -> is_byte seq -> 0 <= slot <= 1 -> 0 <= total <= 0x69000 -> 0 <= off -> Forall is_byte data -> (0 < length data <= 196)%nat ->
  off + Z.of_nat (length data) <= total -> (off <> 0 -> curr_off s = off /\ img_size s = total) ->
  Z.of_nat (length data) mod 4 = 0 \/ total = off + Z.of_nat (length data) ->
  let m := upload_msg seq off (if off =? 0 then Some (total + slot * 2 ^ 24) else None) data in clean m = true ->
  exists s', serial_loop (map Some (message_lines m) ++ evs) idle s (Dev f None) =
      serial_loop evs 0 s' (Dev (piece_mem f off (slot_used slot off) data) None) /\
    length (dec s') = 513%nat /\ curr_off s' = off + Z.of_nat (length data) /\ img_size s' = total /\
    console s' = console s ++ ack_line seq (off + Z.of_nat (length data)).
Proof.
  intros Hd Hseq Hs Ht Ho Hb Hl He Hc Hfull m Hcl. set (len := if off =? 0 then Some (total + slot * 2 ^ 24) else None) in *.
  assert (forall n, len = Some n -> 0 <= n < 2 ^ 32) as Hlen by (unfold len; intros n; case_if; intros [= <-]; lia).
  destruct (msg_bytes off len data seq ltac:(lia) Hlen ltac:(lia) Hb Hseq) as [Hmb Hml]. change (upload_msg seq off len data) with m in Hmb, Hml.
  destruct (receive_message m evs s idle ltac:(lia) Hmb Hcl Hd) as (s1 & (E1 & E2 & E3) & Hr & ->).
  pose proof (request_length off len data ltac:(lia) Hlen ltac:(lia)) as Hrl. set (body := upload_request off len data) in *.
  change m with (upload_hdr (Z.of_nat (length body)) seq ++ body) in *. rewrite input_upload by (done || lia).
  pose proof (parse_request (request_parser s1 (Z.of_nat (length body))) off len data ltac:(cbn [request_parser p_end]; lia)
    (request_holds _ _ _ Hr eq_refl) ltac:(lia) ltac:(intros n Hn; specialize (Hlen n Hn); lia) Hb ltac:(unfold IMG_DATA_SIZE; lia)) as Hp.
  assert (decode_len (default (Z.of_nat (length data)) len) = (slot_used slot off, if off =? 0 then total else Z.of_nat (length data))) as Ed.
  { unfold len, slot_used. destruct (off =? 0); [exact (decode_len_slot slot total Hs ltac:(lia))|].
    change (default (Z.of_nat (length data)) None) with (Z.of_nat (length data)). rewrite <- (Z.add_0_r (Z.of_nat (length data))) at 1.
    exact (decode_len_slot 0 (Z.of_nat (length data)) ltac:(lia) ltac:(lia)). }
  rewrite Ed in Hp.
  set (u := Upload _ _ _ data) in Hp. unfold bs_upload. unfold mbind, B_bind. rewrite (upload_run_ok _ _ u f Hp); cbn [u u_slot u_data u_len u_off].
  2: unfold slot_used; case_if; lia. 2: lia. 2: case_if; lia. 2: lia. 2: intros Hn; rewrite E1; symmetry; by apply Hc. 2: lia.
  2: { destruct Hfull as [Hf|Hf]; [by left|right]. destruct (Z.eqb_spec off 0); [lia|]. rewrite E2. destruct (Hc n) as [_ ->]. lia. }
  cbn [curr_off with_upload]. unfold bs_respond, bs_cbor_writer. pose proof (response_short (off + Z.of_nat (length data)) ltac:(lia)) as Hrs.
  unfold BOOT_SERIAL_OUT_MAX. rewrite (proj2 (Z.ltb_ge 48 _)) by lia. rewrite ret_bind.
  assert ((if off =? 0 then if off =? 0 then total else Z.of_nat (length data) else img_size s1) = total) as ->.
  { destruct (Z.eqb_spec off 0); [done|]. rewrite E2. by apply Hc. }
  destruct (output_ok (with_upload (off + Z.of_nat (length data)) total s1) (upload_response 0 (off + Z.of_nat (length data))))
    as (s2 & -> & F1 & F2 & F3 & F4); [apply Hr|lia|].
  exists s2. cbn [curr_off img_size with_upload console] in F1, F2, F4. split_and!; [reflexivity|done|done|done|].
  - rewrite F4, E3. unfold ack_line, ack_msg, response, response_hdr. cbn [dec with_upload].
    assert (forall k, 0 <= k < 8 -> byte (dec s1) (2 + k) = nth (Z.to_nat k) (upload_hdr (Z.of_nat (length body)) seq) 0) as Hk.
    { intros k Hk. rewrite (received_byte _ _ _ Hr) by (rewrite length_app; cbn [upload_hdr length]; lia). rewrite app_nth1; [done|]. cbn [upload_hdr length]. lia. }
    rewrite (Hk 0 ltac:(lia) : byte (dec s1) 2 = 2), (Hk 4 ltac:(lia) : byte (dec s1) 6 = 0), (Hk 5 ltac:(lia) : byte (dec s1) 7 = 1),
      (Hk 6 ltac:(lia) : byte (dec s1) 8 = seq), (Hk 7 ltac:(lia) : byte (dec s1) 9 = 1). reflexivity.
Qed.

(** The memory and the answers after all requests of an upload. *)
Fixpoint pieces_mem (f : memory) (slot off : Z) (pieces : list (list Z)) : memory :=
  match pieces with
  | [] => f
  | p :: ps => pieces_mem (piece_mem f off (slot_used slot off) p) slot (off + Z.of_nat (length p)) ps
  end.
Fixpoint acks (seq off : Z) (pieces : list (list Z)) : list (list Z) :=
  match pieces with
  | [] => []
  | p :: ps => ack_msg seq (off + Z.of_nat (length p)) :: acks (u8 (seq + 1)) (off + Z.of_nat (length p)) ps
  end.
Definition answer_bytes (ms : list (list Z)) : list Z := concat (map (fun a => response_line true (encode_body (packet a)) ++ [10]) ms).

Lemma upload_msgs_cons seq len off p ps : 0 <= off < 2 ^ 32 -> 0 <= len < 2 ^ 32 -> (length p <= 196)%nat ->
  upload_msgs upload_request seq len off (p :: ps) =
  upload_msg seq off (if off =? 0 then Some len else None) p :: upload_msgs upload_request (u8 (seq + 1)) len (off + Z.of_nat (length p)) ps.
Proof.
  intros Ho Hl Hp. cbn [upload_msgs]. unfold upload_msg, upload_hdr. f_equal. set (l := if off =? 0 then Some len else None).
  pose proof (request_length off l p Ho ltac:(unfold l; intros n; case_if; intros [= <-]; lia) Hp) as Hr. rewrite u16_small by lia.
  destruct (u16_bytes (Z.of_nat (length (upload_request off l p)))) as [-> ->]; [unfold is_u16; lia|]. done.
Qed.

Lemma upload_pieces n slot total : 0 <= slot <= 1 -> total <= 0x69000 -> forall file s f seq off evs idle, (length file <= n)%nat ->
  length (dec s) = 513%nat -> is_byte seq -> 0 <= off -> Forall is_byte file -> off + Z.of_nat (length file) = total ->
  (off <> 0 -> curr_off s = off /\ img_size s = total) ->
  let ms := upload_msgs upload_request seq (total + slot * 2 ^ 24) off (chunks 196 file) in forallb clean ms = true ->
  exists s' idle', serial_loop (map Some (concat (map message_lines ms)) ++ evs) idle s (Dev f None) =
      serial_loop evs idle' s' (Dev (pieces_mem f slot off (chunks 196 file)) None) /\
    length (dec s') = 513%nat /\ console s' = console s ++ answer_bytes (acks seq off (chunks 196 file)).
Proof.
  intros Hs Ht. induction n as [|n IH]; intros file s f seq off evs idle Hn Hd Hseq Ho Hb He Hc ms Hcl.
  { destruct file; [|cbn in Hn; lia]. exists s, idle. split_and!; [done|done|]. cbn. by rewrite app_nil_r. }
  destruct (decide (file = [])) as [->|Hne]; [exists s, idle; split_and!; [done|done|]; cbn; by rewrite app_nil_r|].
  assert (0 < length file)%nat as Hpos by (by destruct file; [|cbn; lia]).
  unfold ms in *. rewrite (chunks_step 196) in * by (done || lia). set (p := take 196 file) in *.
  assert (length p = Nat.min 196 (length file)) as Hp by apply length_take. pose proof (length_drop file 196) as Hdr.
  rewrite upload_msgs_cons in * by lia. cbn [forallb map concat] in *. apply andb_true_iff in Hcl as [Hc1 Hc2].
  rewrite map_app, <- app_assoc.
  destruct (upload_step s f seq slot total off p (map Some (concat (map message_lines (upload_msgs upload_request (u8 (seq + 1)) (total + slot * 2 ^ 24)
    (off + Z.of_nat (length p)) (chunks 196 (drop 196 file))))) ++ evs) idle) as (s1 & -> & Hd1 & E1 & E2 & E3); try done; try lia.
  { by apply Forall_take. }
  { destruct (decide (196 < length file)%nat); [left|right; lia]. by replace (length p) with 196%nat by lia. }
  destruct (IH (drop 196 file) s1 (piece_mem f off (slot_used slot off) p) (u8 (seq + 1)) (off + Z.of_nat (length p)) evs 0) as (s2 & idle' & E & Hd2 & E4);
    [lia|done|apply u8_byte|lia|by apply Forall_drop|lia|done|exact Hc2|].
  exists s2, idle'. split_and!; [exact E|done|]. rewrite E4, E3. cbn [acks]. unfold answer_bytes, ack_line. cbn [map concat]. by rewrite <- app_assoc.
Qed.

End Upload.

(** ** Where the file ends up *)

Lemma programmed_app g x a b i : programmed (programmed g x a) (x + Z.of_nat (length a)) b i = programmed g x (a ++ b) i.
Proof.
  destruct (decide (x <= i < x + Z.of_nat (length a))) as [Ha|Ha].
  - rewrite (programmed_out _ _ b), (programmed_in _ _ a), (programmed_in _ _ (a ++ b)) by (rewrite ?length_app; lia). by rewrite app_nth1 by lia.
  - destruct (decide (x + Z.of_nat (length a) <= i < x + Z.of_nat (length a) + Z.of_nat (length b))) as [Hb|Hb].
    + rewrite (programmed_in _ _ b), (programmed_out _ _ a), (programmed_in _ _ (a ++ b)) by (rewrite ?length_app; lia). rewrite app_nth2 by lia.
      do 2 f_equal. lia.
    + rewrite (programmed_out _ _ b), (programmed_out _ _ a), (programmed_out _ _ (a ++ b)) by (rewrite ?length_app; lia). done.
Qed.

Lemma pieces_later n slot : forall file f off, (length file <= n)%nat -> 0 < off ->
  forall i, pieces_mem f slot off (chunks 196 file) i = programmed f (fa_off image_0 + off) file i.
Proof.
  induction n as [|n IH]; intros file f off Hn Ho i; [by destruct file; [|cbn in Hn; lia]|].
  destruct (decide (file = [])) as [->|Hne]; [done|]. assert (0 < length file)%nat as Hpos by (by destruct file; [|cbn; lia]).
  rewrite (chunks_step 196) by (done || lia). cbn [pieces_mem]. unfold slot_used, piece_mem. rewrite (proj2 (Z.eqb_neq off 0)) by lia.
  change (slot_area 0) with image_0. rewrite IH by (rewrite ?length_drop; lia). rewrite Z.add_assoc, programmed_app, take_drop. done.
Qed.

(** The first piece goes to the slot asked for, the rest to slot 0. *)
Definition uploaded (f : memory) (slot : Z) (file : list Z) : memory :=
  let a := slot_area slot in let p := take 196 file in
  programmed (programmed (erased f (fa_off a) (fa_size a)) (fa_off a) p) (fa_off image_0 + Z.of_nat (length p)) (drop 196 file).

Lemma pieces_uploaded f slot file i : file <> [] -> pieces_mem f slot 0 (chunks 196 file) i = uploaded f slot file i.
Proof.
  intros Hne. assert (0 < length file)%nat as Hpos by (by destruct file; [|cbn; lia]). rewrite (chunks_step 196) by (done || lia). cbn [pieces_mem].
  rewrite (pieces_later (length file)); [|rewrite length_drop; lia|rewrite length_take; lia]. unfold uploaded, piece_mem, slot_used. cbn [Z.eqb].
  by rewrite Z.add_0_l, Z.add_0_r.
Qed.

(** A slot that holds a file and is erased behind it. *)
Definition stored (f : memory) (file : list Z) : memory := fun i =>
  if inside (fa_off image_0) (Z.of_nat (length file)) i then nth (Z.to_nat (i - fa_off image_0)) file 0xFF
  else if inside (fa_off image_0) (fa_size image_0) i then 0xFF else f i.

Lemma uploaded_stored f file i : Forall is_byte file -> Z.of_nat (length file) <= fa_size image_0 -> uploaded f 0 file i = stored f file i.
Proof.
  intros Hb Hl. unfold uploaded. change (slot_area 0) with image_0. rewrite programmed_app, take_drop. unfold stored.
  destruct (inside (fa_off image_0) (Z.of_nat (length file)) i) eqn:E.
  - apply inside_spec in E. rewrite programmed_in by lia. rewrite erased_in by lia. apply land_ff.
    rewrite list.Forall_forall in Hb. apply Hb, list_elem_of_In, nth_In. lia.
  - assert (~ fa_off image_0 <= i < fa_off image_0 + Z.of_nat (length file)) as Hn by (intros Hx; apply inside_spec in Hx; congruence).
    rewrite programmed_out by lia. destruct (inside (fa_off image_0) (fa_size image_0) i) eqn:E2.
    + apply inside_spec in E2. by apply erased_in.
    + apply erased_out. intros Hx. apply inside_spec in Hx. congruence.
Qed.

(** ** The module never hangs *)

Definition not_hang {A} (r : res A) : Prop := match r with Hang => False | _ => True end.
Definition calm {A} (m : B A) : Prop := forall d, not_hang (fst (m d)).

Lemma calm_ret {A} (a : A) : calm (mret a).
Proof. done. Qed.
Lemma calm_wild {A} : calm (wild (A := A)).
Proof. done. Qed.
Lemma calm_bind {A A'} (m : B A) (k : A -> B A') : calm m -> (forall a, calm (k a)) -> calm (m ≫= k).
Proof. intros Hm Hk d. unfold mbind, B_bind. specialize (Hm d). destruct (m d) as [[a| | |] d']; [apply Hk|done..]. Qed.
Lemma calm_memory : calm memory_now.
Proof. done. Qed.
Lemma calm_change n after : calm (change n after).
Proof. intros d. unfold change. destruct (power d); [case_if|]; done. Qed.

Create HintDb calm.
#[export] Hint Resolve calm_ret calm_wild calm_memory calm_change : calm.

(** A program made of calm parts. *)
Ltac calm := repeat first
  [ progress auto with calm | apply calm_bind; [|intros] | case_match ].

Lemma calm_erase a off n : calm (flash_area_erase a off n).
Proof. unfold flash_area_erase, flash_erase. calm. Qed.
Lemma calm_write a off data : calm (flash_area_write a off data).
Proof. unfold flash_area_write, flash_write. calm. Qed.
#[export] Hint Resolve calm_erase calm_write : calm.

Lemma parse_ends p : 0 <= p_end p < 2 ^ 31 -> is_Some (parse_upload p).
Proof.
  intros He. unfold parse_upload. destruct (cbor_parser_init p) as [e m] eqn:Em. destruct e; try done.
  destruct (init_parsed p He m Em) as [Hu Hp].
  destruct (find_ends p He m (str "off") Hu Hp) as (e1 & w1 & -> & _). cbn [mbind option_bind]. destruct e1; try done.
  assert (is_Some (parse_len p m)) as [[slot n] ->].
  { unfold parse_len. destruct (find_ends p He m (str "len") Hu Hp) as (e2 & w2 & -> & _). by eexists. }
  cbn [mbind option_bind].
  destruct (find_ends p He m (str "data") Hu Hp) as (e3 & w3 & -> & H3). cbn [mbind option_bind]. destruct e3; try done.
  destruct (H3 eq_refl) as (Ho & Hc & Ht). destruct (copy_ends p He IMG_DATA_SIZE w3) as ([[[e4 n4] b4] next] & -> & _); [done..|].
  cbn [mbind option_bind]. by eexists.
Qed.

Lemma calm_respond s data : calm (bs_respond s data).
Proof. unfold bs_respond, bs_cbor_writer, boot_serial_output. calm. Qed.
#[export] Hint Resolve calm_respond : calm.

Lemma calm_upload s len : 0 <= len < 2 ^ 31 -> calm (bs_upload s len).
Proof.
  intros Hl. unfold bs_upload. apply calm_bind; [|intros []; auto with calm]. unfold upload_run.
  destruct (parse_ends (request_parser s len) Hl) as [r ->]. unfold upload_start, upload_write. calm.
Qed.

Section Calm.
Context {Cr : BootCrypto}.

Lemma calm_input s len : len < 2 ^ 31 -> calm (boot_serial_input s len).
Proof.
  intros Hl. unfold boot_serial_input. destruct (_ || _ || _) eqn:E; [auto with calm|]. apply orb_false_iff in E as [E _]. apply orb_false_iff in E as [E _].
  to_prop. pose proof (calm_upload s (len - HDR_SIZE) ltac:(unfold HDR_SIZE in *; lia)). unfold bs_list, bs_echo_ctl, boot_serial_output, bs_reset. calm.
Qed.

Lemma in_dec_bound s t d rc s' d' : boot_serial_in_dec s t d = (Done (rc, s'), d') -> rc = 1 -> default 0 (dec_off s') <= 511.
Proof.
  intros H ->. unfold boot_serial_in_dec, max_input, CONFIG_BOOT_MAX_LINE_INPUT_LEN in H. destruct (dec_off s); [|done].
  destruct (base64_decode _ _ _) as [[] [n|] out]; try (by injection H). destruct (512 + 1 <? z + n) eqn:E; [done|]. cbv zeta in H. to_prop.
  destruct (2 <? z + n); [|by injection H]. destruct (_ || _); [by injection H|]. injection H as <- _.
  change (z + n - 2 <= 511). lia.
Qed.

Lemma calm_line s line : calm (boot_serial_line s line).
Proof.
  unfold boot_serial_line. cbv zeta. destruct (_ || _); [|auto with calm]. intros d. unfold mbind, B_bind.
  match goal with |- context [boot_serial_in_dec ?s ?t d] => destruct (boot_serial_in_dec s t d) as [[[rc s1]| | |] d1] eqn:E; try done;
    [|by assert (calm (boot_serial_in_dec s t)) as Hc by (unfold boot_serial_in_dec; calm); specialize (Hc d); rewrite E in Hc] end.
  cbv iota beta. destruct (Z.eqb_spec rc 1); [|done]. apply calm_input. pose proof (in_dec_bound _ _ _ _ _ _ E). lia.
Qed.

(** How the loop ends when the line has been idle for long enough. *)
Definition left_mode (r : res stop) : Prop := match r with Done (Ended _) | Done (Reset_ _) | Cut | Wild => True | _ => False end.

Lemma idle_ends n : forall idle s d, IDLE_MAX < idle + Z.of_nat n -> idle <= IDLE_MAX -> fst (serial_loop (repeat None n) idle s d) = Done (Ended s).
Proof.
  induction n as [|n IH]; intros idle s d Hn Hi; [lia|]. cbn [repeat serial_loop]. destruct (IDLE_MAX <? idle + 1) eqn:E; [done|]. to_prop. apply IH; lia.
Qed.

Lemma loop_ends evs n : IDLE_MAX < Z.of_nat n -> forall idle s d, 0 <= idle <= IDLE_MAX -> left_mode (fst (serial_loop (evs ++ repeat None n) idle s d)).
Proof.
  intros Hn. induction evs as [|[line|] evs IH]; intros idle s d Hi; cbn [app].
  - by rewrite idle_ends by lia.
  - cbn [serial_loop]. unfold mbind, B_bind. pose proof (calm_line s line d) as Hc. destruct (boot_serial_line s line d) as [[[s1|s1]| | |] d1]; try done.
    apply IH. unfold IDLE_MAX. lia.
  - cbn [serial_loop]. destruct (IDLE_MAX <? idle + 1) eqn:E; [done|]. to_prop. apply IH. lia.
Qed.

(** ** Properties *)

(** C38. The serial mode ends: whatever lines arrive, of any content, and whatever the flash holds, after them and
    1000001 idle turns of the loop the boot loader has left the mode or was reset by a command, unless the power
    failed or an array was overrun: it never hangs in the decoder or the CBOR parser. *)
Theorem serial_mode_ends evs d : left_mode (fst (boot_serial_start (evs ++ repeat None (Z.to_nat (IDLE_MAX + 1))) d)).
Proof. unfold boot_serial_start. apply loop_ends; unfold IDLE_MAX; lia. Qed.

End Calm.
