(* ===== verification/BleLink.v ===== *)
(** * The hub and its BLE module together

    [BleProg] models the program on the hub that sends an image over the
    serial line, [BootSerial] the boot loader of the module that receives it,
    with the CBOR code of [Cbor] on both sides.  Here the bytes one side
    writes are what the other side reads: uploads end with the file in the
    flash, from where the boot loader of [BootLoader] starts it.  Then the
    uploads that fail although the hub reports success. *)
From Stdlib Require Import ZArith Lia Bool String.
From stdpp Require Import base list numbers.
From S2P Require Import Prelude CLib Base64 BleProg Flash BootTrailer BootImage BootLoader BootSwap BootPolicy Cbor BootSerial.

Local Open Scope Z_scope.

(** ** The lines on the wire *)

(** What the module reads of the bytes the hub has written. *)
Definition wire_lines (evs : list ble_ev) : list (list Z) := map (fun l => l ++ [10]) (split_lines (tx_bytes evs) []).

Lemma split_no_lf ls : Forall (Forall (fun c => (c =? 10) = false)) ls -> split_lines (concat (map (fun l => l ++ [10]) ls)) [] = ls.
Proof.
  induction 1 as [|l ls Hl _ IH]; [done|]. cbn [map concat]. rewrite <- app_assoc. cbn [app]. rewrite split_lines_line by done. by rewrite IH.
Qed.

Lemma frames_no_lf first cs : Forall (Forall (fun c => (c =? 10) = false)) cs -> Forall (Forall (fun c => (c =? 10) = false)) (frames first cs).
Proof.
  intros H. revert first. induction H as [|c cs Hc _ IH]; intros first; cbn [frames]; [done|]. constructor; [|apply IH].
  apply Forall_app. split; [|done]. by destruct first; repeat constructor.
Qed.

Lemma message_no_lf m : Forall (Forall (fun c => (c =? 10) = false)) (frames true (chunks 124 (encode_body (packet m)))).
Proof.
  rewrite (chunks_encode _ (length (packet m))) by lia. apply frames_no_lf, Forall_map, list.Forall_forall. intros c _. apply encode_body_no_lf.
Qed.

Lemma wire_messages ms : wire_lines (concat (map message_evs ms)) = concat (map message_lines ms).
Proof.
  assert (tx_bytes (concat (map message_evs ms)) =
    concat (map (fun l => l ++ [10]) (concat (map (fun m => frames true (chunks 124 (encode_body (packet m)))) ms)))) as E.
  { induction ms as [|m ms IH]; [done|]. cbn [map concat]. unfold tx_bytes in *. rewrite !map_app, !concat_app, IH. f_equal. apply tx_bytes_frames. }
  unfold wire_lines. rewrite E, split_no_lf.
  - clear E. induction ms as [|m ms IH]; [done|]. cbn [map concat]. by rewrite map_app, IH.
  - clear E. induction ms as [|m ms IH]; [constructor|]. cbn [map concat]. apply Forall_app. split; [apply message_no_lf|done].
Qed.

(** ** The answers *)

Lemma number_short ui t : (length (encode_number ui t) <= 9)%nat.
Proof. destruct (decide (0 <= ui)); [by apply number_length|]. unfold encode_number. rewrite (proj2 (Z.ltb_lt ui 24)) by lia. cbn. lia. Qed.

Lemma upload_request_small off len data : (length data <= 196)%nat -> (length (upload_request off len data) <= 369)%nat.
Proof.
  intros Hd. unfold upload_request, enc_map, upload_items. pose proof (number_short off UnsignedInteger). pose proof (number_short (Z.of_nat (length data)) ByteString).
  destruct len as [n|]; cbn [app enc_pairs enc_item]; unfold cbor_encode_uint, cbor_encode_byte_string, encode_string; rewrite !length_app; cbn [length].
  - pose proof (number_short n UnsignedInteger). change (length (cbor_encode_text_string (str "off"))) with 4%nat.
    change (length (cbor_encode_text_string (str "len"))) with 4%nat. change (length (cbor_encode_text_string (str "data"))) with 5%nat.
    change (length cbor_encoder_create_map) with 1%nat. change (length cbor_encoder_close_container) with 1%nat. lia.
  - change (length (cbor_encode_text_string (str "off"))) with 4%nat. change (length (cbor_encode_text_string (str "data"))) with 5%nat.
    change (length cbor_encoder_create_map) with 1%nat. change (length cbor_encoder_close_container) with 1%nat. lia.
Qed.

(** The waits for the answers, as pairs of clock readings. *)
Definition in_time (t : Z * Z) : Prop := t.2 < t.1 + RX_TIMEOUT.

Lemma ack_ok seq off t : is_byte seq -> 0 <= off < 2 ^ 32 -> in_time t -> answer_ok (ack_msg seq off, t).
Proof.
  intros Hs Ho Ht. pose proof (response_short off Ho) as Hl. unfold answer_ok, ack_msg. cbn [fst snd]. set (n := Z.of_nat (length (upload_response 0 off))).
  split_and!; [|rewrite length_app; cbn [length]; lia|rewrite length_app; cbn [length]; lia|done|done].
  assert (0 <= n <= 15) as Hn by lia. clearbody n. apply Forall_app. split.
  - rewrite Z.div_small, Z.mod_small by lia. unfold is_byte in *. repeat (apply Forall_cons_2; [lia|]). done.
  - unfold upload_response. cbn [Z.eqb]. repeat (apply Forall_app; split); first [apply number_bytes | apply serial_str_bytes | apply string_bytes, serial_str_bytes | apply Forall_cons_2; [by split|done]].
Qed.

Lemma acks_length pieces : forall seq off, length (acks seq off pieces) = length pieces.
Proof. induction pieces as [|p ps IH]; intros; cbn [acks length]; [done|by rewrite IH]. Qed.

Lemma acks_ok pieces : forall seq off times, is_byte seq -> 0 <= off -> off + Z.of_nat (length (concat pieces)) < 2 ^ 32 -> Forall in_time times ->
  Forall answer_ok (zip (acks seq off pieces) times).
Proof.
  induction pieces as [|p ps IH]; intros seq off times Hs Ho Hl Ht; cbn [acks]; [constructor|]. destruct Ht as [|t times Ht Hts]; [constructor|].
  cbn [concat] in Hl. rewrite length_app in Hl. cbn [zip_with]. constructor; [apply ack_ok; [done|lia|done]|]. apply IH; [apply u8_byte|lia|lia|done].
Qed.

Lemma answers_wire ms times : length times = length ms -> answers_rx (zip ms times) = map Some (answer_bytes ms).
Proof.
  revert times. induction ms as [|m ms IH]; intros [|t times] H; try done. unfold answers_rx, answer_bytes in *. cbn [zip_with map concat].
  rewrite IH by (by injection H). rewrite map_app. f_equal. by rewrite map_app.
Qed.

Definition clock (times : list (Z * Z)) : list Z := concat (map (fun t => [t.1; t.2]) times).

Lemma answers_clock (ms : list (list Z)) times : length times = length ms -> answers_clk (zip ms times) = clock times.
Proof.
  revert times. induction ms as [|m ms IH]; intros [|t times] H; try done. unfold answers_clk, clock in *. cbn [zip_with map concat].
  by rewrite IH by (by injection H).
Qed.

(** ** Uploads *)

(** The requests of an upload. *)
Definition requests (seq slot : Z) (file : list Z) : list (list Z) :=
  upload_msgs upload_request seq (Z.of_nat (length file) + slot * 2 ^ 24) 0 (chunks 196 file).

(** The hub sends [file] and reports success, from any state in which it can write and its clock shows no long wait; the module in state
    [s] with the flash [f] reads what the hub writes and writes what the hub reads, and is left with a flash that satisfies [Q]. *)
Definition exchange {Cr : BootCrypto} (file : list Z) (slot seq : Z) (s : serial) (f : memory) (Q : memory -> Prop) : Prop :=
  exists evs w s' idle g,
    serial_loop (map Some (wire_lines evs)) 0 s (Dev f None) = (Done (Reading s' idle), Dev g None) /\ console s' = console s ++ w /\ Q g /\
    forall h times rest ticks, wrs h = [] -> curSeq h = seq -> length times = length (chunks 196 file) -> Forall in_time times ->
      rxq h = map Some w ++ rest -> clk h = clock times ++ ticks ->
      exists h', BLE_txImage upload_request h (Some file) (Some (Z.of_nat (length file))) slot = (BRet 0, h') /\ log h' = log h ++ evs.

Section Link.
Context {Cr : BootCrypto}.

Lemma upload_exchange file slot seq s f : Forall is_byte file -> (0 < length file)%nat -> Z.of_nat (length file) <= fa_size image_0 -> 0 <= slot <= 1 ->
  is_byte seq -> length (dec s) = 513%nat -> forallb clean (requests seq slot file) = true ->
  exchange file slot seq s f (fun g => forall i, g i = uploaded f slot file i).
Proof.
  intros Hb Hne Hl Hs Hseq Hd Hcl. cbn [fa_size image_0] in Hl. assert (file <> []) as Hn by (by intros ->; cbn in Hne; lia).
  set (ms := requests seq slot file) in *.
  destruct (upload_pieces (length file) slot (Z.of_nat (length file)) Hs Hl file s f seq 0 [] 0) as (s' & idle & E & _ & Ec); try done; try lia.
  rewrite app_nil_r in E. exists (concat (map message_evs ms)), (answer_bytes (acks seq 0 (chunks 196 file))), s', idle, (pieces_mem f slot 0 (chunks 196 file)).
  split_and!; [rewrite wire_messages; exact E|exact Ec|intros i; by apply pieces_uploaded|].
  intros h times rest ticks Hw Hq Ht Hit Hrx Hck.
  assert (length times = length (acks seq 0 (chunks 196 file))) as Hta by (by rewrite acks_length).
  assert (concat (chunks 196 file) = file) as Hcc by (apply chunks_concat; lia).
  unfold BLE_txImage. rewrite (proj2 (Z.ltb_ge slot 0)), (proj2 (Z.ltb_ge 1 slot)) by lia. cbn [orb].
  destruct (upload_loop_ok upload_request upload_request_small (S (length file)) h slot (Z.of_nat (length file)) 0 file
    (zip (acks seq 0 (chunks 196 file)) times) rest ticks) as (h' & He & Hlog); try done; try lia.
  - rewrite length_zip_with, acks_length. lia.
  - apply acks_ok; [done|lia|rewrite Hcc; lia|done].
  - by rewrite answers_wire.
  - by rewrite answers_clock.
  - exists h'. split; [exact He|]. rewrite Hlog. unfold ms, requests. rewrite Hq. do 4 f_equal.
    assert (slot = 0 \/ slot = 1) as [-> | ->] by lia; cbn [Z.eqb]; [lia|]. rewrite Z.lor_comm, lor_shiftl by lia. change (Z.land 1 15) with 1. lia.
Qed.

Lemma exchange_mono file slot seq s f (Q Q' : memory -> Prop) : (forall g, Q g -> Q' g) -> exchange file slot seq s f Q -> exchange file slot seq s f Q'.
Proof. intros H (evs & w & s' & idle & g & E & Hc & HQ & Hh). exists evs, w, s', idle, g. auto. Qed.

(** ** Properties *)

(** C10. Programming the module works: an image of at most the size of a slot that the hub sends for slot 0 is in slot 0 of the module
    afterwards, byte for byte, with the rest of the slot erased and every other byte of the flash as it was, and the hub reports success;
    each side reads the bytes the other one writes, through the frames, the base64 text, the CRC and the CBOR maps.  No part of a
    request may by chance have a CRC of 0 where a line ends. *)
Theorem ble_upload_delivers file seq s f : Forall is_byte file -> (0 < length file)%nat -> Z.of_nat (length file) <= fa_size image_0 ->
  is_byte seq -> length (dec s) = 513%nat -> forallb clean (requests seq 0 file) = true ->
  exchange file 0 seq s f (fun g => forall i, g i = stored f file i).
Proof.
  intros Hb Hn Hl Hs Hd Hc. eapply exchange_mono, upload_exchange; try done. intros g Hg i. rewrite Hg. by apply uploaded_stored.
Qed.

(** The trailers of an uploaded image ask for nothing. *)
Lemma uploaded_quiet f g file : (forall i, g i = stored f file i) -> Z.of_nat (length file) <= 0x689D8 ->
  bytes_at f 0xFBFF0 16 <> boot_img_magic -> bytes_at f 0xDDFF0 16 <> boot_img_magic ->
  boot_read_status g 4 = Some boot_status_zero /\ boot_swap_type g = SWAP_NONE.
Proof.
  intros Hg Hl Hs H1.
  assert (forall i, 0x749D8 <= i < 0x75000 -> g i = 0xFF) as Ht.
  { intros i Hi. rewrite Hg. unfold stored. cbn [fa_off fa_size image_0]. rewrite outside_spec by lia. by rewrite (proj2 (inside_spec _ _ _)) by lia. }
  assert (forall a, 0x75000 <= a -> bytes_at g a 16 = bytes_at f a 16) as Hr.
  { intros a Ha. apply bytes_at_ext. intros k Hk. rewrite Hg. unfold stored. cbn [fa_off fa_size image_0]. by rewrite !outside_spec by lia. }
  split.
  - apply read_status_clean; [left; intros j Hj; apply Ht; lia|by rewrite Hr by lia].
  - unfold boot_swap_type. rewrite state_slot0, state_slot1.
    assert (boot_magic_code (bytes_at g 0x74FF0 16) <> GOOD) as H0.
    { rewrite magic_good. intros E. assert (nth 0 (bytes_at g 0x74FF0 16) 0 = nth 0 boot_img_magic 0) as En by (by rewrite E).
      rewrite bytes_at_nth, Ht in En by lia. discriminate. }
    assert (boot_magic_code (bytes_at g 0xDDFF0 16) <> GOOD) as H2 by (rewrite magic_good, Hr by lia; done).
    unfold swap_row_matches. cbn [List.find boot_swap_tables magic_slot0 magic_slot1 image_ok_slot0 image_ok_slot1 copy_done_slot0 any_or magic].
    rewrite !(bool_decide_eq_false_2 (Some (boot_magic_code _) = Some GOOD)) by congruence. done.
Qed.

(** C11. A programmed module starts its new image: if the file the hub sends for slot 0 is an image the boot loader accepts, leaves the
    trailer of the slot free, and neither slot 1 nor the scratch area asks for a swap, then the next boot with power starts that
    image, from a flash it does not change. *)
Theorem ble_upload_boots file seq s f : Forall is_byte file -> (0 < length file)%nat -> Z.of_nat (length file) <= 0x689D8 ->
  is_byte seq -> length (dec s) = 513%nat -> forallb clean (requests seq 0 file) = true ->
  good f -> valid_image (stored f file) image_0 = true -> bytes_at f 0xFBFF0 16 <> boot_img_magic -> bytes_at f 0xDDFF0 16 <> boot_img_magic ->
  exchange file 0 seq s f (fun g => boots_to g (header (stored f file) image_0) (fun g' => g' = g)).
Proof.
  intros Hb Hn Hl Hs Hd Hc Hf Hv H1 H2. eapply exchange_mono, upload_exchange; try done; [|cbn [fa_size image_0]; lia].
  intros g Hg0. assert (forall i, g i = stored f file i) as Hg by (intros i; rewrite Hg0; apply uploaded_stored; [done|cbn [fa_size image_0]; lia]).
  assert (good (stored f file)) as Hgs.
  { intros i. unfold stored. destruct (inside _ _ i); [|destruct (inside _ _ i); [unfold is_byte; lia|apply Hf]].
    destruct (nth_in_or_default (Z.to_nat (i - fa_off image_0)) file 0xFF) as [Hi| ->]; [|unfold is_byte; lia].
    rewrite list.Forall_forall in Hb. by apply Hb, list_elem_of_In. }
  destruct (uploaded_quiet f g file Hg ltac:(lia) H1 H2) as [Hst Hty].
  destruct (valid_agree 0x69000 (stored f file) g image_0 image_0) as (Hvg & Eh & _); auto with areas; try done.
  { destruct (valid_spec _ _ Hv) as (_ & _ & [_ Hw]%wf_end & _). clear -Hw; lia. }
  { intros i Hi. by rewrite Hg. }
  rewrite <- Eh. apply boot_unchanged; [done|done|intros i; rewrite Hg; apply Hgs|done].
Qed.

(** C39. An upload to slot 1 goes wrong and is reported as a success: only the first 196 bytes of the file reach slot 1, since only the
    first request says which slot is meant; the others are programmed over slot 0, which was not erased, so that of the image there
    only the bits it has in common with the file are left. *)
Theorem ble_upload_slot1_corrupts file seq s f : Forall is_byte file -> (196 < length file)%nat -> Z.of_nat (length file) <= fa_size image_0 ->
  is_byte seq -> length (dec s) = 513%nat -> forallb clean (requests seq 1 file) = true ->
  exchange file 1 seq s f (fun g =>
    (forall k, 196 <= k < Z.of_nat (length file) -> g (fa_off image_0 + k) = Z.land (f (fa_off image_0 + k)) (nth (Z.to_nat k) file 0)) /\
    (forall k, 196 <= k < fa_size image_1 -> g (fa_off image_1 + k) = 0xFF) /\
    (forall k, 0 <= k < 196 -> g (fa_off image_1 + k) = nth (Z.to_nat k) file 0)).
Proof.
  intros Hb Hn Hl Hs Hd Hc. eapply exchange_mono, upload_exchange; try done; [|lia]. intros g Hg.
  assert (length (take 196 file) = 196%nat) as Ht by (rewrite length_take; lia). pose proof (length_drop file 196) as Hdr.
  cbn [fa_size fa_off image_0 image_1] in *. split_and!; intros k Hk; rewrite Hg; unfold uploaded; rewrite Ht; change (slot_area 1) with image_1;
    cbn [fa_size fa_off image_0 image_1].
  - rewrite programmed_in, programmed_out, erased_out by lia. f_equal. rewrite <- (take_drop 196 file) at 2.
    rewrite app_nth2, Ht by lia. rewrite (nth_indep _ 0 0xFF) by lia. f_equal. lia.
  - rewrite programmed_out, programmed_out, erased_in by lia. done.
  - rewrite programmed_out, programmed_in, erased_in by lia. replace (Z.to_nat (0x75000 + k - 0x75000)) with (Z.to_nat k) by lia.
    rewrite <- (take_drop 196 file) at 2. rewrite app_nth1 by lia. rewrite (nth_indep _ 0 0xFF) by lia. apply land_ff.
    apply (Forall_take _ 196) in Hb. rewrite list.Forall_forall in Hb. apply Hb, list_elem_of_In, nth_In. lia.
Qed.

End Link.

(** ** A request that is cut by chance *)

(** 196 bytes of which two make the CRC of the first line of the request 0. *)
Definition crc_file : list Z :=
  let c := crc16 (take 89 (upload_msg 0 0 (Some 196) (repeat 0 196))) true in repeat 0 62 ++ [c / 256; c mod 256] ++ repeat 0 132.

(** The answer of the module, with code 12. *)
Definition refusal : list Z := [3; 1; 0; 6; 0; 1; 0; 1] ++ upload_response 12 0.

(** The hub takes any answer with the right header. *)
Lemma hub_accepts file h msg t rest ticks : Z.of_nat (length file) < 2 ^ 24 -> length (chunks 196 file) = 1%nat -> answer_ok (msg, t) -> wrs h = [] ->
  rxq h = map Some (answer_bytes [msg]) ++ rest -> clk h = clock [t] ++ ticks ->
  exists h', BLE_txImage upload_request h (Some file) (Some (Z.of_nat (length file))) 0 = (BRet 0, h') /\
    log h' = log h ++ concat (map message_evs (requests (curSeq h) 0 file)).
Proof.
  intros Hl Hc Ha Hw Hrx Hck. destruct (upload_loop_ok upload_request upload_request_small (S (length file)) h 0 (Z.of_nat (length file)) 0 file [(msg, t)] rest ticks)
    as (h' & He & Hlog); [lia|done|lia|done|lia|done|by rewrite Hc|by constructor| |done|].
  - rewrite Hrx. unfold answer_bytes, answers_rx. cbn [map concat fst]. by rewrite !app_nil_r, map_app.
  - exists h'. split; [exact He|]. rewrite Hlog. unfold requests. by rewrite Z.add_0_r.
Qed.

(** The module on the lines of this request. *)
Lemma partial_request {Cr : BootCrypto} f :
  match serial_loop (map Some (concat (map message_lines (requests 0 0 crc_file)))) 0 serial_init (Dev f None) with
  | (Done (Reading s' _), d) => d = Dev f None /\ console s' = answer_bytes [refusal]
  | _ => False
  end.
Proof. vm_compute. split; reflexivity. Qed.

(** An upload may be lost and reported as a success: the module checks the CRC after every line of a request and takes the first part
    of [crc_file]'s request, whose CRC happens to be 0, for the whole of it; it answers with an error code, keeps the flash as it
    was and drops the remaining lines, and the hub, which looks at the header of the answer only, reports success. *)
Example ble_partial_request_lost {Cr : BootCrypto} f : exchange crc_file 0 0 serial_init f (fun g => g = f).
Proof.
  pose proof (partial_request f) as H. rewrite <- wire_messages in H. assert (length (chunks 196 crc_file) = 1%nat) as Hc by (vm_compute; reflexivity).
  assert (Z.of_nat (length crc_file) < 2 ^ 24) as Hl by (vm_compute; reflexivity). unfold exchange. revert H Hc Hl. generalize crc_file. intros file H Hc Hl.
  destruct (serial_loop _ 0 serial_init (Dev f None)) as [[[| |s' idle]| | |] d] eqn:E; try done. destruct H as [-> Ec].
  exists (concat (map message_evs (requests 0 0 file))), (answer_bytes [refusal]), s', idle, f. split_and!; [exact E|exact Ec|done|].
  intros h times rest ticks Hw Hq Ht Hit Hrx Hck. rewrite Hc in Ht. destruct times as [|t [|]]; [done| |done]. apply Forall_cons_1 in Hit as [Hit _].
  assert (Forall is_byte refusal) as Hb by (vm_compute; repeat constructor; done).
  assert (length refusal = 14%nat) as Hr by (vm_compute; reflexivity).
  assert (answer_ok (refusal, t)) as Ha by (split_and!; [exact Hb|cbn [fst]; lia|cbn [fst]; lia|exact Hit|vm_compute; reflexivity]).
  destruct (hub_accepts file h refusal t rest ticks Hl Hc Ha Hw Hrx Hck) as (h' & He & Hlog). rewrite Hq in Hlog. by exists h'.
Qed.

(** ** The list of images *)

Lemma length_append a b : String.length (a ++ b)%string = (String.length a + String.length b)%nat.
Proof. induction a as [|c a IH]; cbn; [done|]. by rewrite IH. Qed.

Lemma dec_length n : (1 <= String.length (CLib.dec n))%nat.
Proof.
  assert (forall fuel m, 1 <= String.length (dec_fuel (S fuel) m))%nat as H.
  { intros fuel m. cbn [dec_fuel]. case_if; [cbn; lia|]. rewrite length_append. cbn. lia. }
  unfold CLib.dec, dec_nonneg. case_if; [cbn; lia|apply H].
Qed.

Lemma str_length s : length (str s) = String.length s.
Proof. unfold str. rewrite length_map. induction s as [|c s IH]; cbn; [done|]. by rewrite IH. Qed.

Lemma text_at_least s : (1 + String.length s <= length (text s))%nat.
Proof.
  unfold text, cbor_encode_text_string, encode_string. rewrite length_app, str_length.
  pose proof (number_length (Z.of_nat (length (str s))) TextString ltac:(lia)) as [H _]. rewrite str_length in *. lia.
Qed.

Lemma version_length v : (7 <= String.length (version_string v))%nat.
Proof.
  unfold version_string. rewrite !length_append. pose proof (dec_length (iv_major v)). pose proof (dec_length (iv_minor v)).
  pose proof (dec_length (iv_revision v)). pose proof (dec_length (iv_build_num v)). cbn [String.length]. lia.
Qed.

Lemma entry_length {Cr : BootCrypto} f i : list_entry f i <> [] -> (20 <= length (list_entry f i))%nat.
Proof.
  unfold list_entry. intros H. destruct (flash_area_open _) as [a|]; [|done]. destruct (negb _); [done|].
  destruct (bootutil_img_validate _ _ _ _ _) as [[]|]; try done. rewrite !length_app.
  match goal with |- context [version_string ?v] => pose proof (version_length v); pose proof (text_at_least (version_string v)) end.
  pose proof (text_at_least "slot"). pose proof (text_at_least "version"). cbn [String.length] in *. lia.
Qed.

(** Listing two valid images overruns the buffer of the response: it has 48 bytes, and the two entries need more. *)
Theorem image_list_overruns {Cr : BootCrypto} s f p : list_entry f 0 <> [] -> list_entry f 1 <> [] -> bs_list s (Dev f p) = (Wild, Dev f p).
Proof.
  intros H0 H1. apply entry_length in H0, H1. unfold bs_list, bs_respond, bs_cbor_writer, mbind, B_bind, memory_now. cbn [mem].
  assert (48 < Z.of_nat (length (list_response f))) as Hl.
  { unfold list_response. rewrite !length_app. pose proof (text_at_least "images"). cbn [String.length length cbor_encoder_create_map cbor_encoder_create_array cbor_encoder_close_container] in *. lia. }
  unfold BOOT_SERIAL_OUT_MAX. by rewrite (proj2 (Z.ltb_lt 48 _)).
Qed.

(** ** Witnesses *)

Module LinkToy.
Import BootToy.

Definition blank : memory := fun _ => 0xFF.

Lemma new_bytes : Forall is_byte new.
Proof.
  assert (forallb (fun x => (0 <=? x) && (x <? 256)) new = true) as H by (vm_compute; reflexivity). rewrite forallb_forall in H.
  apply List.Forall_forall. intros x Hx. specialize (H x Hx). apply andb_true_iff in H as [? ?]. to_prop. unfold is_byte. lia.
Qed.

Lemma new_length : length new = 372%nat.
Proof. vm_compute. reflexivity. Qed.

Lemma ble_upload_delivers_witness : exchange new 0 0 serial_init blank (fun g => forall i, g i = stored blank new i).
Proof.
  apply (ble_upload_delivers new 0 serial_init blank new_bytes); [rewrite new_length; lia|rewrite new_length; cbn; lia|by split|vm_compute; reflexivity|vm_compute; reflexivity].
Defined.

Lemma ble_upload_boots_witness : exchange new 0 0 serial_init blank (fun g => boots_to g (header (stored blank new) image_0) (fun g' => g' = g)).
Proof.
  apply (ble_upload_boots new 0 serial_init blank new_bytes); [rewrite new_length; lia|rewrite new_length; lia|by split|vm_compute; reflexivity|vm_compute; reflexivity| |
    vm_compute; reflexivity|vm_compute; discriminate|vm_compute; discriminate].
  intros i. by split.
Defined.

Lemma ble_upload_slot1_corrupts_witness : exchange new 1 0 serial_init asked (fun g =>
  (forall k, 196 <= k < Z.of_nat (length new) -> g (fa_off image_0 + k) = Z.land (asked (fa_off image_0 + k)) (nth (Z.to_nat k) new 0)) /\
  (forall k, 196 <= k < fa_size image_1 -> g (fa_off image_1 + k) = 0xFF) /\
  (forall k, 0 <= k < 196 -> g (fa_off image_1 + k) = nth (Z.to_nat k) new 0)).
Proof.
  apply (ble_upload_slot1_corrupts new 0 serial_init asked new_bytes); [rewrite new_length; lia|rewrite new_length; cbn; lia|by split|vm_compute; reflexivity|vm_compute; reflexivity].
Defined.

Lemma image_list_overruns_witness : bs_list serial_init (Dev asked None) = (Wild, Dev asked None).
Proof. apply (image_list_overruns serial_init asked None); vm_compute; discriminate. Defined.

End LinkToy.
