(* ===== verification/SerialLines.v ===== *)
(** * serial_adapter.c: the lines of the serial port of the BLE module

    Under [boot_serial_start] the bytes arrive in an interrupt handler that
    fills a buffer and queues it at the end of a line, and the loop takes the
    lines out with [console_read].  The queues are the k_fifo of Zephyr
    (kernel/queue.c over include/misc/sflist.h and list_gen.h): a buffer's
    first word is the link of the queue it is in, so that a buffer is in one
    queue at most.  Here buffers, links and queues are a shared store, the
    interrupt and the loop interleave between the calls on the queues, and
    the text is read from the buffer when it is copied.

    The handler never gives up the buffer it has queued.  Lines still get
    through as [BootSerial] reads them when the loop keeps up ([prompt]);
    otherwise lines are lost, or one is read over and over. *)
From Stdlib Require Import ZArith Lia Bool String.
From stdpp Require Import base list numbers.
From S2P Require Import Prelude CLib Base64 BleProg Flash BootTrailer BootImage Cbor BootSerial BleLink.

Local Open Scope Z_scope.

(** ** Queues of Zephyr *)

Record line_input := LineInput { next : option nat; len : Z; line : list Z }.
Record sflist := Sflist { head : option nat; tail : option nat }.

Definition next_peek (b : list line_input) (n : nat) : option nat := b !! n ≫= next.
Definition next_set (n : nat) (x : option nat) (b : list line_input) : list line_input := alter (fun i => LineInput x (len i) (line i)) n b.
Definition sys_sfnode_init : nat -> list line_input -> list line_input := fun n => next_set n None.

Definition sys_sflist_prepend (q : sflist) (n : nat) (b : list line_input) : list line_input * sflist :=
  (next_set n (head q) b, Sflist (Some n) (match tail q with None => Some n | t => t end)).

Definition sys_sflist_append (q : sflist) (n : nat) (b : list line_input) : list line_input * sflist :=
  let b := next_set n None b in
  match tail q with
  | None => (b, Sflist (Some n) (Some n))
  | Some t => (next_set t (Some n) b, Sflist (head q) (Some n))
  end.

Definition sys_sflist_insert (q : sflist) (prev : option nat) (n : nat) (b : list line_input) : list line_input * sflist :=
  match prev with
  | None => sys_sflist_prepend q n b
  | Some p =>
      match next_peek b p with
      | None => sys_sflist_append q n b
      | Some x => (next_set p (Some n) (next_set n (Some x) b), q)
      end
  end.

Definition sys_sflist_get_not_empty (q : sflist) (n : nat) (b : list line_input) : sflist :=
  let h := next_peek b n in Sflist h (if bool_decide (tail q = Some n) then h else tail q).

(** No thread waits on these queues: they are read with K_NO_WAIT. *)
Definition k_fifo_put (q : sflist) (n : nat) (b : list line_input) : list line_input * sflist := sys_sflist_insert q (tail q) n (sys_sfnode_init n b).

Definition k_fifo_get (q : sflist) (b : list line_input) : option nat * sflist :=
  match head q with None => (None, q) | Some n => (Some n, sys_sflist_get_not_empty q n b) end.

(** ** Interrupt handler and reader *)

(** [rx_cmd] and [cmd] are the static variables of the handler and of [boot_uart_fifo_getline]. *)
Record uart := Uart { line_bufs : list line_input; free_queue : sflist; used_queue : sflist; cur : Z; rx_cmd : option nat; cmd : option nat }.

Definition empty_line : line_input := LineInput None 0 (repeat 0 (Z.to_nat CONFIG_BOOT_MAX_LINE_INPUT_LEN)).

Definition boot_console_init : uart :=
  let '(b, q) := k_fifo_put (Sflist None None) 0 [empty_line; empty_line] in
  let '(b, q) := k_fifo_put q 1 b in
  Uart b q (Sflist None None) 0 None None.

(** A byte stored in a buffer whose index is given. *)
Definition store (n : nat) (k : Z) (c : Z) (b : list line_input) : list line_input := alter (fun i => LineInput (next i) (len i) (put (line i) k [c])) n b.
Definition set_len (n : nat) (k : Z) (b : list line_input) : list line_input := alter (fun i => LineInput (next i) k (line i)) n b.

Definition rx_stored (byte : Z) (n : nat) (s : uart) : uart :=
  let '(b, k) := if cur s <? CONFIG_BOOT_MAX_LINE_INPUT_LEN then (store n (cur s) byte (line_bufs s), cur s + 1) else (line_bufs s, cur s) in
  if byte =? 10 then
    let '(b, q) := k_fifo_put (used_queue s) n (set_len n k b) in
    Uart b (free_queue s) q 0 (Some n) (cmd s)
  else Uart b (free_queue s) (used_queue s) k (Some n) (cmd s).

Definition boot_uart_fifo_callback (byte : Z) (s : uart) : uart :=
  match rx_cmd s with
  | Some n => rx_stored byte n s
  | None =>
      match k_fifo_get (free_queue s) (line_bufs s) with
      | (None, _) => s
      | (Some n, q) => rx_stored byte n (Uart (line_bufs s) q (used_queue s) (cur s) (Some n) (cmd s))
      end
  end.

(** [boot_uart_fifo_getline]: the buffer of the call before goes back, and the next line is taken. *)
Definition recycle (s : uart) : uart :=
  match cmd s with
  | None => s
  | Some n => let '(b, q) := k_fifo_put (free_queue s) n (line_bufs s) in Uart b q (used_queue s) (cur s) (rx_cmd s) (cmd s)
  end.

Definition take_line (s : uart) : uart :=
  let '(n, q) := k_fifo_get (used_queue s) (line_bufs s) in Uart (line_bufs s) (free_queue s) q (cur s) (rx_cmd s) n.

Definition boot_uart_fifo_getline (s : uart) : uart := take_line (recycle s).

Definition line_of (s : uart) : option line_input := cmd s ≫= fun n => line_bufs s !! n.

(** The copy out of the buffer: [memcpy] of [k] bytes, or one less than the room. *)
Definition copied (k : Z) (s : uart) : option (list Z) :=
  (fun i => take (Z.to_nat (Z.min k (max_input - 1))) (line i)) <$> line_of s.

Definition console_read (s : uart) : option (list Z) * uart :=
  let s := boot_uart_fifo_getline s in
  match line_of s with None => (None, s) | Some i => (copied (len i) s, s) end.

(** ** Interleaving *)

(** A byte is received, or the loop goes on to its next call on a queue or copy. *)
Inductive event := Rx (byte : Z) | Loop.
Inductive place := Calling | Recycled | Copying (k : Z).

Definition step (e : event) (st : uart * place) : list (option (list Z)) * (uart * place) :=
  let '(s, at_) := st in
  match e, at_ with
  | Rx c, _ => ([], (boot_uart_fifo_callback c s, at_))
  | Loop, Calling => ([], (recycle s, Recycled))
  | Loop, Recycled =>
      let s := take_line s in
      match line_of s with None => ([None], (s, Calling)) | Some i => ([], (s, Copying (len i))) end
  | Loop, Copying k => ([copied k s], (s, Calling))
  end.

(** What the calls of [console_read] return. *)
Fixpoint run (evs : list event) (st : uart * place) : list (option (list Z)) * (uart * place) :=
  match evs with
  | [] => ([], st)
  | e :: evs' => let '(o, st) := step e st in let '(o', st) := run evs' st in (o ++ o', st)
  end.

Definition read (evs : list event) : list (option (list Z)) := (run evs (boot_console_init, Calling)).1.

(** Without interrupts in between, the steps of the loop are a call of [console_read]. *)
Lemma step_console_read s :
  let '(o, s') := console_read s in
  run (if decide (o = None) then [Loop; Loop] else [Loop; Loop; Loop]) (s, Calling) = ([o], (s', Calling)).
Proof.
  unfold console_read, boot_uart_fifo_getline. destruct (line_of (take_line (recycle s))) as [i|] eqn:E.
  - assert (copied (len i) (take_line (recycle s)) <> None) as Hc by (unfold copied; by rewrite E).
    rewrite decide_False by done. cbn [run step]. rewrite E. done.
  - rewrite decide_True by done. cbn [run step]. by rewrite E.
Qed.

(** ** What the port promises *)

Definition received (evs : list event) : list Z := omap (fun e => match e with Rx c => Some c | Loop => None end) evs.

(** The line ends at its newline, and the buffer cuts it. *)
Definition cut (l : list Z) : list Z := take (Z.to_nat CONFIG_BOOT_MAX_LINE_INPUT_LEN) (l ++ [10]).

(** The promise: the start of a line, a line that waits to be read, and whether the loop still has the buffer of the line before. *)
Record port := Port { acc : list Z; ready : option (list Z); held : bool; stage : place }.

Definition port_init : port := Port [] None false Calling.

(** [None]: the loop does not keep up.  A byte comes between the end of a line and its copy, or a line ends before the one before
    it is given back. *)
Definition keeps_up (e : event) (p : port) : option (list (option (list Z)) * port) :=
  match e, stage p with
  | Rx c, st =>
      match ready p with
      | Some _ => None
      | None =>
          if c =? 10 then if held p then None else Some ([], Port [] (Some (cut (acc p))) false st)
          else Some ([], Port (acc p ++ [c]) None (held p) st)
      end
  | Loop, Calling => Some ([], Port (acc p) (ready p) false Recycled)
  | Loop, Recycled =>
      match ready p with
      | None => Some ([None], Port (acc p) None false Calling)
      | Some l => Some ([], Port (acc p) (Some l) true (Copying (Z.of_nat (length l))))
      end
  | Loop, Copying _ => Some ([ready p], Port (acc p) None true Calling)
  end.

Fixpoint port_run (evs : list event) (p : port) : option (list (option (list Z)) * port) :=
  match evs with
  | [] => Some ([], p)
  | e :: evs' => '(o, p) ← keeps_up e p; '(o', p) ← port_run evs' p; Some (o ++ o', p)
  end.

Definition prompt (evs : list event) : Prop := exists o p, port_run evs port_init = Some (o, p) /\ ready p = None.

(** ** The buffers keep the promise *)

(** Only the first buffer is ever used. *)
Definition in_use (k : option nat) (n : Z) (l : list Z) (i : line_input) : list line_input := [LineInput k n l; i].

Lemma put_used k n l i : k_fifo_put (Sflist None None) 0 (in_use k n l i) = (in_use None n l i, Sflist (Some 0%nat) (Some 0%nat)).
Proof. done. Qed.

Lemma put_again h k n l i : k_fifo_put (Sflist h (Some 0%nat)) 0 (in_use k n l i) = (in_use (Some 0%nat) n l i, Sflist h (Some 0%nat)).
Proof. done. Qed.

Lemma put_first h k n l n1 l1 : k_fifo_put (Sflist h (Some 1%nat)) 0 (in_use k n l (LineInput None n1 l1)) =
  (in_use None n l (LineInput (Some 0%nat) n1 l1), Sflist h (Some 0%nat)).
Proof. done. Qed.

Definition nothing : sflist := Sflist None None.
Definition queued : sflist := Sflist (Some 0%nat) (Some 0%nat).

(** The free queue: at first both buffers, then the second alone, then the second with the first behind it. *)
Inductive rx_state (q : sflist) (n0 n1 : option nat) : option nat -> Prop :=
  | RxNone : q = Sflist (Some 0%nat) (Some 1%nat) -> n0 = Some 1%nat -> n1 = None -> rx_state q n0 n1 None
  | RxFirst : tail q = Some 1%nat -> n1 = None -> rx_state q n0 n1 (Some 0%nat)
  | RxAgain : tail q = Some 0%nat -> rx_state q n0 n1 (Some 0%nat).

(** The line that waits: queued, or taken and about to be copied. *)
Definition waits (s : uart) (n0 : option nat) (k0 : Z) (l0 : list Z) (p : port) : Prop :=
  match ready p, stage p with
  | Some l, Copying k => used_queue s = nothing /\ k = Z.of_nat (length l) /\ cmd s = Some 0%nat /\ take (length l) l0 = l
  | Some l, _ => used_queue s = queued /\ n0 = None /\ k0 = Z.of_nat (length l) /\ take (length l) l0 = l
  | None, Copying _ => False
  | None, _ => used_queue s = nothing
  end.

Record follows (s : uart) (p : port) (n0 : option nat) (k0 : Z) (l0 : list Z) (i1 : line_input) : Prop := {
  f_bufs : line_bufs s = in_use n0 k0 l0 i1;
  f_room : length l0 = 512%nat;
  f_cur : cur s = Z.min (Z.of_nat (length (acc p))) 512;
  f_acc : take (Z.to_nat (cur s)) l0 = take 512 (acc p);
  f_rx : rx_state (free_queue s) n0 (next i1) (rx_cmd s);
  f_new : rx_cmd s = None -> acc p = [] /\ ready p = None /\ held p = false /\ cmd s = None;
  f_line : waits s n0 k0 l0 p;
  f_one : ready p = None \/ acc p = [];
  f_cmd : stage p = Calling -> cmd s = (if held p then Some 0%nat else None) /\ (ready p = None \/ held p = false) }.

Definition simulates (st : uart * place) (p : port) : Prop := st.2 = stage p /\ exists n0 k0 l0 i1, follows st.1 p n0 k0 l0 i1.

Lemma simulates_init : simulates (boot_console_init, Calling) port_init.
Proof. split; [done|]. eexists _, _, _, _. constructor; try done; [by constructor|by left|by intros _; split; [|left]]. Qed.

Definition rx_text (c k : Z) (l : list Z) : list Z * Z := if k <? CONFIG_BOOT_MAX_LINE_INPUT_LEN then (put l k [c], k + 1) else (l, k).

Lemma rx_text_spec c k l a : length l = 512%nat -> k = Z.min (Z.of_nat (length a)) 512 -> take (Z.to_nat k) l = take 512 a ->
  let '(l', k') := rx_text c k l in
  length l' = 512%nat /\ k' = Z.min (Z.of_nat (length (a ++ [c]))) 512 /\ take (Z.to_nat k') l' = take 512 (a ++ [c]).
Proof.
  intros Hl -> Ht. rewrite length_app. cbn [length]. unfold rx_text, CONFIG_BOOT_MAX_LINE_INPUT_LEN. case Z.ltb_spec; intros Hk.
  - assert (length a < 512)%nat by lia. rewrite (Z.min_l (Z.of_nat (length a))) in * by lia. rewrite Nat2Z.id in Ht. rewrite (take_ge a) in Ht by lia. unfold put. rewrite Nat2Z.id, Ht. cbn [length]. split_and!.
    + rewrite !length_app, length_drop. cbn [length]. lia.
    + lia.
    + rewrite app_assoc, take_app_le by (rewrite length_app; cbn [length]; lia). rewrite !take_ge; [done|rewrite length_app; cbn [length]; lia..].
  - assert (512 <= length a)%nat by lia. rewrite (Z.min_r (Z.of_nat (length a))) in * by lia. split_and!; [done|lia|]. by rewrite Ht, take_app_le.
Qed.

Lemma rx_stored_spec c s k0 n0 l0 i1 : line_bufs s = in_use n0 k0 l0 i1 ->
  rx_stored c 0 s =
    let '(l, k) := rx_text c (cur s) l0 in
    if c =? 10 then let '(b, q) := k_fifo_put (used_queue s) 0 (in_use n0 k l i1) in Uart b (free_queue s) q 0 (Some 0%nat) (cmd s)
    else Uart (in_use n0 k0 l i1) (free_queue s) (used_queue s) k (Some 0%nat) (cmd s).
Proof. intros E. unfold rx_stored, rx_text. rewrite E. by destruct (cur s <? _), (c =? 10). Qed.

(** A byte goes into the first buffer, which the handler takes at the first byte. *)
Lemma callback_spec c s n0 k0 l0 i1 : line_bufs s = in_use n0 k0 l0 i1 -> rx_state (free_queue s) n0 (next i1) (rx_cmd s) -> used_queue s = nothing ->
  exists q, (forall n, rx_state q n (next i1) (Some 0%nat)) /\ boot_uart_fifo_callback c s =
    let '(l, k) := rx_text c (cur s) l0 in
    if c =? 10 then Uart (in_use None k l i1) q queued 0 (Some 0%nat) (cmd s) else Uart (in_use n0 k0 l i1) q nothing k (Some 0%nat) (cmd s).
Proof.
  intros Hb Hx Hu. unfold boot_uart_fifo_callback. remember (rx_cmd s) as x eqn:Ex. destruct Hx as [Hq -> H1|Hq H1|Hq].
  - exists (Sflist (Some 1%nat) (Some 1%nat)). split; [intros n; by apply RxFirst|]. rewrite Hq, Hb. cbn.
    rewrite (rx_stored_spec _ _ k0 (Some 1%nat) l0 i1) by done. cbn [cur used_queue free_queue cmd]. rewrite Hu. by destruct (rx_text _ _ _), (c =? 10).
  - exists (free_queue s). split; [intros n; by apply RxFirst|]. rewrite (rx_stored_spec _ _ k0 n0 l0 i1) by done. rewrite Hu.
    by destruct (rx_text _ _ _), (c =? 10).
  - exists (free_queue s). split; [intros n; by apply RxAgain|]. rewrite (rx_stored_spec _ _ k0 n0 l0 i1) by done. rewrite Hu.
    by destruct (rx_text _ _ _), (c =? 10).
Qed.

Lemma waits_none s p n0 k0 l0 : waits s n0 k0 l0 p -> ready p = None -> used_queue s = nothing /\ (stage p = Calling \/ stage p = Recycled).
Proof. unfold waits. intros H E. rewrite E in H. destruct (stage p); auto; done. Qed.

Lemma simulates_rx c s at_ p o p' : simulates (s, at_) p -> keeps_up (Rx c) p = Some (o, p') ->
  o = [] /\ simulates (boot_uart_fifo_callback c s, at_) p'.
Proof.
  intros [Hat (n0 & k0 & l0 & i1 & F)] H. cbn [fst snd] in *. subst at_. unfold keeps_up in H. destruct (ready p) eqn:Er; [done|].
  destruct (waits_none _ _ _ _ _ (f_line _ _ _ _ _ _ F) Er) as [Hu Hst]. destruct (callback_spec c _ _ _ _ _ (f_bufs _ _ _ _ _ _ F) (f_rx _ _ _ _ _ _ F) Hu) as (q & Hq & Ecb).
  pose proof (rx_text_spec c _ _ _ (f_room _ _ _ _ _ _ F) (f_cur _ _ _ _ _ _ F) (f_acc _ _ _ _ _ _ F)) as Ht.
  destruct (rx_text c (cur s) l0) as [l k]. destruct Ht as (Hl & Hk & Ht). rewrite Ecb. clear Ecb.
  destruct (Z.eqb_spec c 10) as [->|Hc]; [destruct (held p) eqn:Eh; [done|]|]; injection H as <- <-; split; try done; split; try done; cbn [fst].
  - exists None, k, l, i1. constructor; try done; cbn [cur acc ready stage held cmd rx_cmd free_queue]; [|by right|].
    + unfold waits. cbn [ready stage]. assert (length (cut (acc p)) = Z.to_nat k) as Hlen.
      { unfold cut. change (Z.to_nat CONFIG_BOOT_MAX_LINE_INPUT_LEN) with 512%nat. rewrite <- Ht, length_take. lia. }
      assert (take (length (cut (acc p))) l = cut (acc p)) by (rewrite Hlen, Ht; done).
      destruct Hst as [-> | ->]; split_and!; try done; lia.
    + intros E. destruct (f_cmd _ _ _ _ _ _ F E) as [E' _]. rewrite Eh in E'. split; [done|by right].
  - exists n0, k0, l, i1. constructor; try done; cbn [cur acc ready stage held cmd rx_cmd free_queue]; [|by left|].
    + unfold waits. cbn [ready stage]. by destruct Hst as [-> | ->].
    + intros E. destruct (f_cmd _ _ _ _ _ _ F E) as [E' _]. split; [done|by left].
Qed.

(** The loop gives the buffer back: to the free queue, which nothing takes it from again. *)
Lemma simulates_recycle s p : simulates (s, Calling) p -> simulates (recycle s, Recycled) (Port (acc p) (ready p) false Recycled).
Proof.
  intros [Hat (n0 & k0 & l0 & i1 & F)]. cbn [fst snd] in *. split; [done|]. destruct F as [Hb Hr Hc Ha Hx Hn Hw Ho Hm].
  destruct (Hm (eq_sym Hat)) as [Hcmd Hrd]. unfold recycle. rewrite Hcmd. cbn [fst]. unfold waits in Hw. rewrite <- Hat in Hw. destruct (held p) eqn:Eh.
  - destruct Hrd as [Hrd|]; [|done]. rewrite Hrd in Hw. remember (rx_cmd s) as x eqn:Ex. destruct Hx as [Hq -> H1|Hq H1|Hq].
    + by destruct (Hn eq_refl) as (_ & _ & ? & _).
    + destruct (free_queue s) as [h t]. cbn in Hq. subst t. destruct i1 as [x n1 l1]. cbn in H1. subst x. rewrite Hb, put_first.
      eexists None, k0, l0, _. constructor; try done. { by apply RxAgain. } unfold waits. cbn [ready stage]. by rewrite Hrd.
    + destruct (free_queue s) as [h t]. cbn in Hq. subst t. rewrite Hb, put_again.
      eexists _, k0, l0, _. constructor; try done. { by apply RxAgain. } unfold waits. cbn [ready stage]. by rewrite Hrd.
  - exists n0, k0, l0, i1. by constructor.
Qed.

Lemma simulates_take s p : simulates (s, Recycled) p ->
  match ready p with
  | None => line_of (take_line s) = None /\ simulates (take_line s, Calling) (Port (acc p) None false Calling)
  | Some l => exists i, line_of (take_line s) = Some i /\ len i = Z.of_nat (length l) /\
      simulates (take_line s, Copying (len i)) (Port (acc p) (Some l) true (Copying (Z.of_nat (length l))))
  end.
Proof.
  intros [Hat (n0 & k0 & l0 & i1 & F)]. cbn [fst snd] in *. destruct F as [Hb Hr Hc Ha Hx Hn Hw Ho Hm]. unfold waits in Hw. rewrite <- Hat in Hw.
  unfold take_line. destruct (ready p) as [l|] eqn:Er.
  - destruct Hw as (-> & -> & Hk & Ht). rewrite Hb. exists (LineInput None k0 l0). split; [done|]. split; [done|]. split; [by rewrite <- Hk|]. 
    eexists _, _, _, _. constructor; try done. { intros E. by destruct (Hn E) as (_ & ? & _). }
  - rewrite Hw. split; [done|]. split; [done|]. exists n0, k0, l0, i1. constructor; try done.
    + intros E. by destruct (Hn E) as (? & ? & ? & ?).
    + intros _. split; [done|by left].
Qed.

Lemma simulates_copy s k p : simulates (s, Copying k) p -> copied k s = ready p /\ simulates (s, Calling) (Port (acc p) None true Calling).
Proof.
  intros [Hat (n0 & k0 & l0 & i1 & F)]. cbn [fst snd] in *. destruct F as [Hb Hr Hc Ha Hx Hn Hw Ho Hm]. unfold waits in Hw. rewrite <- Hat in Hw.
  destruct (ready p) as [l|] eqn:Er; [|done]. destruct Hw as (Hu & Hk & Hcmd & Ht). split.
  - unfold copied, line_of. rewrite Hcmd, Hb. cbn [mbind option_bind]. cbn. rewrite Hk. f_equal.
    assert (length l <= 512)%nat by (rewrite <- Ht, length_take; lia). rewrite Z.min_l by (unfold max_input, CONFIG_BOOT_MAX_LINE_INPUT_LEN; lia).
    by rewrite Nat2Z.id.
  - split; [done|]. exists n0, k0, l0, i1. constructor; try done; [by intros E; destruct (Hn E) as (_ & ? & _)|by left|intros _; split; [done|by left]].
Qed.

Lemma simulates_step e st p o p' : simulates st p -> keeps_up e p = Some (o, p') -> (step e st).1 = o /\ simulates (step e st).2 p'.
Proof.
  intros H E. destruct st as [s at_]. destruct e as [c|].
  - destruct (simulates_rx _ _ _ _ _ _ H E) as [-> H']. by destruct at_.
  - pose proof (proj1 H) as Hat. cbn in Hat. unfold keeps_up in E. rewrite <- Hat in E. destruct at_ as [| |k]; cbn [step].
    + injection E as <- <-. split; [done|]. by apply simulates_recycle.
    + pose proof (simulates_take _ _ H) as Ht. destruct (ready p) as [l|]; injection E as <- <-.
      * destruct Ht as (i & -> & _ & Hs). by split.
      * destruct Ht as (-> & Hs). by split.
    + injection E as <- <-. destruct (simulates_copy _ _ _ H) as [-> Hs]. by split.
Qed.

Lemma simulates_run evs : forall st p o p', simulates st p -> port_run evs p = Some (o, p') -> (run evs st).1 = o.
Proof.
  induction evs as [|e evs IH]; intros st p o p' H E; cbn [port_run run] in *; [by injection E as <- _|].
  destruct (keeps_up e p) as [[o1 p1]|] eqn:Ek; [|done]. cbn [mbind option_bind] in E.
  destruct (port_run evs p1) as [[o2 p2]|] eqn:Er; [|done]. injection E as <- <-.
  destruct (simulates_step _ _ _ _ _ H Ek) as [H1 H2]. destruct (step e st) as [o1' st1]. cbn [fst snd] in *. subst o1'.
  pose proof (IH _ _ _ _ H2 Er) as H3. destruct (run evs st1). by cbn in *; subst.
Qed.

(** What is promised: every line in its order. *)
Lemma port_lines evs : forall p o p', port_run evs p = Some (o, p') ->
  option_list (ready p) ++ map cut (split_lines (received evs) (acc p)) = omap id o ++ option_list (ready p').
Proof.
  induction evs as [|e evs IH]; intros p o p' E; cbn [port_run] in E; [injection E as <- <-; by rewrite app_nil_r|].
  destruct (keeps_up e p) as [[o1 p1]|] eqn:Ek; [|done]. cbn [mbind option_bind] in E.
  destruct (port_run evs p1) as [[o2 p2]|] eqn:Er; [|done]. injection E as <- <-. rewrite omap_app, <- app_assoc, <- (IH _ _ _ Er). clear IH Er.
  unfold keeps_up in Ek. destruct e as [c|].
  - change (received (Rx c :: evs)) with (c :: received evs). destruct (ready p); [done|]. cbn [split_lines].
    destruct (c =? 10); [destruct (held p); [done|]|]; injection Ek as <- <-; done.
  - change (received (Loop :: evs)) with (received evs). destruct (stage p), (ready p); injection Ek as <- <-; done.
Qed.

(** ** Properties *)

(** C40. The line buffers of the serial port lose nothing while the loop keeps up: for every interleaving of received bytes with the
    queue operations and copies of [console_read] in which no byte comes between the end of a line and its copy, a line
    ends only after the buffer of the line before was given back, and the last line has been copied, the calls of [console_read] return
    exactly the lines received, in their order, each cut to the 512 bytes of a buffer and ended by its newline if that fits. *)
Theorem serial_lines_kept evs : prompt evs -> omap id (read evs) = map cut (split_lines (received evs) []).
Proof.
  intros (o & p & E & Hr). unfold read. rewrite (simulates_run evs _ _ _ _ simulates_init E).
  pose proof (port_lines evs _ _ _ E) as H. rewrite Hr in H. cbn in H. by rewrite app_nil_r in H.
Qed.

Definition feed (l : list Z) : list event := map Rx (l ++ [10]).
Definition poll : list event := [Loop; Loop; Loop].

(** Two lines; the first byte of the second comes before the buffer is given back. *)
Definition two_lines : list event := (feed [97; 98] ++ poll ++ [Rx 99; Loop; Rx 100; Loop; Rx 10] ++ poll)%list.

Lemma serial_lines_kept_witness : omap id (read two_lines) = [[97; 98; 10]; [99; 100; 10]].
Proof. apply (serial_lines_kept two_lines). eexists _, _. split; [vm_compute; reflexivity|reflexivity]. Defined.

(** A loop that does not keep up loses the first of two lines and reads the second twice. *)
Example second_line_twice : read (feed [97; 98] ++ feed [99; 100] ++ poll ++ poll) = [Some [99; 100; 10]; Some [99; 100; 10]].
Proof. vm_compute. reflexivity. Qed.

(** A byte between the end of a line and its copy replaces the first byte of the line. *)
Example line_overwritten : read (feed [97; 98] ++ [Loop; Loop; Rx 99; Loop]) = [Some [99; 98; 10]].
Proof. vm_compute. reflexivity. Qed.

Lemma run_app a b st : run (a ++ b) st = ((run a st).1 ++ (run b (run a st).2).1, (run b (run a st).2).2).
Proof.
  revert st. induction a as [|e a IH]; intros st; [apply surjective_pairing|]. cbn [app run]. destruct (step e st) as [o st1]. rewrite IH.
  destruct (run a st1) as [o1 st2]. cbn [fst snd]. by rewrite app_assoc.
Qed.

Lemma run_poll_again o n st : run poll st = ([o], st) -> run (concat (repeat poll n)) st = (repeat o n, st).
Proof. intros E. induction n as [|n IH]; [done|]. cbn [repeat concat]. rewrite run_app, E. cbn [fst snd]. by rewrite IH. Qed.

(** A buffer that is given back while it is queued again is linked to itself: from then on its line is read over and over. *)
Definition self_linked : list event := (feed [97] ++ poll ++ feed [98] ++ poll ++ feed [99] ++ poll)%list.

Example line_again_and_again n : read (self_linked ++ concat (repeat poll n)) = [Some [97; 10]; Some [98; 10]; Some [99; 10]] ++ repeat (Some [99; 10]) n.
Proof.
  unfold read. rewrite run_app. cbn [fst]. rewrite (run_poll_again (Some [99; 10])); [|vm_compute; reflexivity]. done.
Qed.
