(* ===== verification/Os.v ===== *)
(** * The operating system as the hub programs see it

    A state and exit monad for the programs that work on files, mounted
    partitions and external commands, the system calls they make, and a
    weakest-precondition calculus for them.

    A file is its contents under a key: the path itself, or, below a
    mount point, the device and the path inside it, so that what is on a
    partition does not depend on whether it is mounted.  Block devices
    are files.  The programs the hub runs, and the conditions under which
    a system call fails, are the class [Env]: functions of everything
    that happened before, since they see the whole [world]. *)
From Stdlib Require Import ZArith String Ascii Lia Bool.
From stdpp Require Import base gmap strings list numbers.
From S2P Require Import Prelude CLib.

Local Open Scope string_scope.
Local Open Scope Z_scope.

(** ** State *)

Record fsys := Fsys {
  files : gmap string string;
  dirs : gset string;
  mnts : list (string * string);      (* mount point, device *)
  links : gmap string string;
  cwd : string }.

Inductive event :=
| Cmd (c : string)                    (* [system] *)
| Pipe (c : string)                   (* [popen] *)
| Sleep (seconds : Z)
| Usleep (microseconds : Z)
| Kill (pid signal : Z)
| Ioctl (device request : string)
| Autoboot                            (* [reboot(RB_AUTOBOOT)] *)
| Overrun (buffer : string) (index : Z). (* an access outside a buffer *)

Record world := World { fs : fsys; trace : list event }.

Inductive outcome (A : Type) :=
| Val (a : A)
| Throw (code : Z)                    (* [goto error_exit] *)
| Exit (code : Z)                     (* the process ends *)
| Crash.                              (* an invalid call, such as [pclose(NULL)] *)
Arguments Val {A} a.
Arguments Throw {A} code.
Arguments Exit {A} code.
Arguments Crash {A}.

(** What lies outside the programs: commands, and the success of system calls. *)
Class Env := {
  sh : string -> world -> Z * fsys;          (* wait status and effect of a command *)
  pipe : string -> world -> option string;   (* standard output, [None] if [popen] fails *)
  rd_ok : string -> world -> bool;           (* an existing file can be opened for reading *)
  wr_ok : string -> world -> bool;           (* a file can be created or opened for writing *)
  wr_len : string -> world -> nat -> nat;    (* bytes a write of [n] bytes accepts *)
  mount_ok : string -> string -> world -> bool;
  mem_ok : world -> bool }.

(** ** Paths *)

Definition abs_path (s : fsys) (p : string) : string :=
  if String.prefix "/" p then p else cwd s +:+ "/" +:+ p.

(** The part of [p] below the directory [d], with its slash. *)
Definition below (d p : string) : option string :=
  if String.prefix (d +:+ "/") p then Some (sdrop (String.length d) p) else None.

Fixpoint resolve_in (ms : list (string * string)) (p : string) : string :=
  match ms with
  | [] => p
  | (d, dev) :: ms' => match below d p with Some r => dev +:+ ":" +:+ r | None => resolve_in ms' p end
  end.

Definition resolve (s : fsys) (p : string) : string := resolve_in (mnts s) (abs_path s p).

Definition get (p : string) (w : world) : option string := files (fs w) !! resolve (fs w) p.

(** ** The monad *)

Definition M (A : Type) : Type := world -> outcome A * world.

#[global] Instance M_ret : MRet M := fun A a w => (Val a, w).
#[global] Instance M_bind : MBind M := fun A B k m w =>
  match m w with
  | (Val a, w') => k a w'
  | (Throw z, w') => (Throw z, w')
  | (Exit z, w') => (Exit z, w')
  | (Crash, w') => (Crash, w')
  end.

Definition throw {A} (z : Z) : M A := fun w => (Throw z, w).
Definition exit {A} (z : Z) : M A := fun w => (Exit z, w).
Definition crash {A} : M A := fun w => (Crash, w).
Definition get_world : M world := fun w => (Val w, w).

(** [error_exit:] label: [h] handles the [goto]s of [m]. *)
Definition catch {A} (m : M A) (h : Z -> M A) : M A := fun w =>
  match m w with
  | (Throw z, w') => h z w'
  | r => r
  end.

Definition when (b : bool) (m : M unit) : M unit := if b then m else mret tt.

Definition emit (e : event) : M unit := fun w => (Val tt, World (fs w) (trace w ++ [e])).

Definition set_fs (w : world) (s : fsys) : world := World s (trace w).

Definition put_file (p s : string) (w : world) : world :=
  set_fs w (Fsys (<[resolve (fs w) p := s]> (files (fs w))) (dirs (fs w)) (mnts (fs w)) (links (fs w)) (cwd (fs w))).

Definition del_file (p : string) (w : world) : world :=
  set_fs w (Fsys (delete (resolve (fs w) p) (files (fs w))) (dirs (fs w)) (mnts (fs w)) (links (fs w)) (cwd (fs w))).

(** A step whose result is known. *)
Lemma bind_val {A B} (m : M A) (k : A -> M B) a w w' : m w = (Val a, w') -> (m ≫= k) w = k a w'.
Proof. unfold mbind, M_bind. by intros ->. Qed.

(** ** System calls *)

Section Calls.
Context `{Env}.

(** [access(p, F_OK) != -1] *)
Definition access (p : string) : M bool := fun w =>
  (Val (match get p w with Some _ => true | None => bool_decide (abs_path (fs w) p ∈ dirs (fs w)) end), w).

(** [stat]: the size of a file, [None] on failure. *)
Definition stat (p : string) : M (option Z) := fun w =>
  (Val (match get p w with Some s => Some (Z.of_nat (String.length s)) | None => None end), w).

(** [fopen(p, "r")] and what reading the whole stream gives. *)
Definition fopen_r (p : string) : M (option string) := fun w =>
  (Val (match get p w with Some s => if rd_ok p w then Some s else None | None => None end), w).

(** [fopen(p, "w")]: the file is created or emptied. *)
Definition fopen_w (p : string) : M bool := fun w =>
  if wr_ok p w then (Val true, put_file p "" w) else (Val false, w).

(** [fwrite] to the end of an open file: number of bytes written. *)
Definition fwrite (p s : string) : M nat := fun w =>
  let n := Nat.min (wr_len p w (String.length s)) (String.length s) in
  (Val n, put_file p (default "" (get p w) +:+ stake n s) w).

(** [open(p, O_RDWR | O_CREAT)]: an existing file keeps its contents. *)
Definition open_rw (p : string) : M bool := fun w =>
  if wr_ok p w then (Val true, put_file p (default "" (get p w)) w) else (Val false, w).

(** [sendfile] of a whole file to the start of another: bytes copied, or -1. *)
Definition sendfile (p data : string) : M Z := fun w =>
  let n := Nat.min (wr_len p w (String.length data)) (String.length data) in
  (Val (if (n =? 0)%nat && negb (String.length data =? 0)%nat then -1 else Z.of_nat n),
   put_file p (stake n data +:+ sdrop n (default "" (get p w))) w).

(** The contents of an open device after a sequence of writes. *)
Definition put_dev (p s : string) : M unit := fun w => (Val tt, put_file p s w).

Definition unlink (p : string) : M unit := fun w => (Val tt, del_file p w).

Definition mkdir (p : string) : M unit := fun w =>
  (Val tt, set_fs w (Fsys (files (fs w)) ({[p]} ∪ dirs (fs w)) (mnts (fs w)) (links (fs w)) (cwd (fs w)))).

Definition rmdir (p : string) : M unit := fun w =>
  (Val tt, set_fs w (Fsys (files (fs w)) (dirs (fs w) ∖ {[p]}) (mnts (fs w)) (links (fs w)) (cwd (fs w)))).

Definition chdir (p : string) : M unit := fun w =>
  (Val tt, set_fs w (Fsys (files (fs w)) (dirs (fs w)) (mnts (fs w)) (links (fs w)) p)).

(** [mount] returns true on failure, as the C tests it. *)
Definition mount (dev dir : string) : M bool := fun w =>
  if mount_ok dev dir w
  then (Val false, set_fs w (Fsys (files (fs w)) (dirs (fs w)) ((dir, dev) :: mnts (fs w)) (links (fs w)) (cwd (fs w))))
  else (Val true, w).

Definition umount2 (dir : string) : M unit := fun w =>
  (Val tt, set_fs w (Fsys (files (fs w)) (dirs (fs w))
     (filter (fun m => m.1 <> dir) (mnts (fs w))) (links (fs w)) (cwd (fs w)))).

Definition readlink (p : string) : M (option string) := fun w => (Val (links (fs w) !! p), w).

Definition system (c : string) : M Z := fun w =>
  let '(st, s) := sh c w in (Val st, World s (trace w ++ [Cmd c])).

Definition popen (c : string) : M (option string) := fun w =>
  (Val (pipe c w), World (fs w) (trace w ++ [Pipe c])).

Definition sleep (n : Z) : M unit := emit (Sleep n).
Definition usleep (n : Z) : M unit := emit (Usleep n).
Definition kill (pid sig : Z) : M unit := emit (Kill pid sig).

Definition malloc_ok : M bool := fun w => (Val (mem_ok w), w).

(** [fgets(buf, n, f)] on a stream: the first line, at most [n - 1] bytes; [None] at end of file. *)
Fixpoint first_line (s : string) : string :=
  match s with
  | EmptyString => ""
  | String c s' => if Ascii.eqb c LF then String c "" else String c (first_line s')
  end.

Definition fgets (n : nat) (s : string) : option string :=
  match s with EmptyString => None | _ => Some (stake (n - 1) (first_line s)) end.

End Calls.

(** ** Weakest preconditions *)

Definition wp {A} (m : M A) (Q : outcome A -> world -> Prop) (w : world) : Prop := Q (fst (m w)) (snd (m w)).

(** What follows a step of a sequence. *)
Definition seq_post {A B} (k : A -> M B) (Q : outcome B -> world -> Prop) (r : outcome A) (w : world) : Prop :=
  match r with
  | Val a => wp (k a) Q w
  | Throw z => Q (Throw z) w
  | Exit z => Q (Exit z) w
  | Crash => Q Crash w
  end.

Lemma wp_ret {A} (a : A) Q w : Q (Val a) w -> wp (mret a) Q w.
Proof. done. Qed.

Lemma wp_bind {A B} (m : M A) (k : A -> M B) Q w : wp m (seq_post k Q) w -> wp (m ≫= k) Q w.
Proof. unfold wp, mbind, M_bind, seq_post. by destruct (m w) as [[a|z|z|] w']. Qed.

Lemma wp_mono {A} (m : M A) (P Q : outcome A -> world -> Prop) w :
  wp m P w -> (forall r w', P r w' -> Q r w') -> wp m Q w.
Proof. unfold wp. auto. Qed.

(** A call that always succeeds. *)
Lemma wp_tt (m : M unit) Q w : fst (m w) = Val tt -> Q (Val tt) (snd (m w)) -> wp m Q w.
Proof. unfold wp. by intros ->. Qed.

Lemma wp_and {A} (m : M A) (P Q : outcome A -> world -> Prop) w :
  wp m P w -> wp m Q w -> wp m (fun r w' => P r w' /\ Q r w') w.
Proof. by split. Qed.

Lemma wp_seq {A B} (m : M A) (k : A -> M B) (P : outcome A -> world -> Prop) Q w :
  wp m P w -> (forall r w', P r w' -> seq_post k Q r w') -> wp (m ≫= k) Q w.
Proof. intros H1 H2. apply wp_bind. by eapply wp_mono. Qed.

Lemma wp_catch {A} (m : M A) (h : Z -> M A) Q w :
  wp m (fun r w' => match r with Throw z => wp (h z) Q w' | r => Q r w' end) w -> wp (catch m h) Q w.
Proof. unfold wp, catch. by destruct (m w) as [[a|z|z|] w']. Qed.

Lemma wp_if {A} (b : bool) (m1 m2 : M A) Q w :
  (b = true -> wp m1 Q w) -> (b = false -> wp m2 Q w) -> wp (if b then m1 else m2) Q w.
Proof. destruct b; intros H1 H2; [by apply H1|by apply H2]. Qed.

Lemma wp_when b m Q w :
  (b = true -> wp m Q w) -> (b = false -> Q (Val tt) w) -> wp (when b m) Q w.
Proof. destruct b; intros H1 H2; [by apply H1|by apply H2]. Qed.

(** A relation between the worlds before and after that every step of [m] keeps. *)
Definition stable {A} (I : world -> Prop) (m : M A) : Prop := forall w, I w -> I (snd (m w)).

Section Stable.
Context {A B : Type} (I : world -> Prop).

Lemma stable_ret (a : A) : stable I (mret a).
Proof. by intros w. Qed.
Lemma stable_throw z : stable I (@throw A z).
Proof. by intros w. Qed.
Lemma stable_exit z : stable I (@exit A z).
Proof. by intros w. Qed.
Lemma stable_crash : stable I (@crash A).
Proof. by intros w. Qed.

Lemma stable_bind (m : M A) (k : A -> M B) : stable I m -> (forall a, stable I (k a)) -> stable I (m ≫= k).
Proof.
  intros Hm Hk w Hw. unfold mbind, M_bind. specialize (Hm w Hw).
  destruct (m w) as [[a|z|z|] w']; cbn in *; try done. by apply Hk.
Qed.

Lemma stable_catch (m : M A) h : stable I m -> (forall z, stable I (h z)) -> stable I (catch m h).
Proof.
  intros Hm Hh w Hw. unfold catch. specialize (Hm w Hw). destruct (m w) as [[a|z|z|] w']; cbn in *; try done.
  by apply Hh.
Qed.

Lemma stable_if (b : bool) (m1 m2 : M A) : stable I m1 -> stable I m2 -> stable I (if b then m1 else m2).
Proof. by destruct b. Qed.

Lemma stable_option {C} (o : option C) (m1 : C -> M A) m2 :
  (forall c, stable I (m1 c)) -> stable I m2 -> stable I (match o with Some c => m1 c | None => m2 end).
Proof. destruct o; auto. Qed.

Lemma stable_wp (m : M A) w : stable I m -> I w -> wp m (fun _ w' => I w') w.
Proof. intros H Hw. by apply H. Qed.
End Stable.

Lemma stable_when I b m : stable I m -> stable I (when b m).
Proof. destruct b; intros H; [done|apply stable_ret]. Qed.

Create HintDb stable.

(** Steps of a proof that a program is stable: structure first, then the database. *)
Ltac stable_step :=
  lazymatch goal with
  | |- forall _, _ => intros ?
  | |- stable _ (mbind _ _) => apply stable_bind
  | |- stable _ (mret _) => apply stable_ret
  | |- stable _ (throw _) => apply stable_throw
  | |- stable _ (exit _) => apply stable_exit
  | |- stable _ crash => apply stable_crash
  | |- stable _ (catch _ _) => apply stable_catch
  | |- stable _ (when _ _) => apply stable_when
  | |- stable _ (if _ then _ else _) => apply stable_if
  | |- stable _ (match ?o with Some _ => _ | None => _ end) => destruct o
  | |- stable _ (let '(_, _) := ?x in _) => destruct x
  | |- stable _ _ => solve [auto with stable nocore]
  end.
Ltac stable_tac := repeat stable_step.

(** A command neither mounts a partition nor changes the directory of the program that ran it. *)
Class ShLocal `{Env} : Prop := sh_local : forall c w,
  mnts (snd (sh c w)) = mnts (fs w) /\ cwd (snd (sh c w)) = cwd (fs w).

(** ** Rules for the system calls *)

Section Rules.
Context `{Env}.

(** Storing a token of [scanf("%s")] in an array of [n] bytes. *)
Definition store_token (buffer : string) (n : nat) (t : string) : M unit :=
  when (n <=? String.length t)%nat (emit (Overrun buffer (Z.of_nat (String.length t)))).

(** Calls that leave the file system alone. *)
Definition keeps_fs {A} (m : M A) : Prop := forall w, fs (snd (m w)) = fs w.

Lemma keeps_fs_emit e : keeps_fs (emit e).
Proof. done. Qed.
Lemma keeps_fs_popen c : keeps_fs (popen c).
Proof. done. Qed.
Lemma keeps_fs_access p : keeps_fs (access p).
Proof. done. Qed.
Lemma keeps_fs_stat p : keeps_fs (stat p).
Proof. done. Qed.
Lemma keeps_fs_fopen_r p : keeps_fs (fopen_r p).
Proof. done. Qed.
Lemma keeps_fs_readlink p : keeps_fs (readlink p).
Proof. done. Qed.
Lemma keeps_fs_malloc : keeps_fs malloc_ok.
Proof. done. Qed.
Lemma keeps_fs_store b n t : keeps_fs (store_token b n t).
Proof. intros w. unfold store_token, when. by case_if. Qed.

(** An invariant of the file system alone. *)
Lemma stable_keeps_fs {A} (I : fsys -> Prop) (m : M A) : keeps_fs m -> stable (fun w => I (fs w)) m.
Proof. intros Hm w Hw. by rewrite Hm. Qed.

End Rules.

#[export] Hint Resolve keeps_fs_emit keeps_fs_popen keeps_fs_access keeps_fs_stat keeps_fs_fopen_r keeps_fs_readlink
  keeps_fs_malloc keeps_fs_store : stable.
#[export] Hint Resolve stable_keeps_fs : stable.

(** ** Reading back what was stored *)

Lemma get_fs p w w' : fs w = fs w' -> get p w = get p w'.
Proof. unfold get. by intros ->. Qed.

Lemma get_put_eq p s w : get p (put_file p s w) = Some s.
Proof. unfold get, put_file, resolve. cbn. apply lookup_insert_eq. Qed.

Lemma get_put_ne p q s w : resolve (fs w) q <> resolve (fs w) p -> get q (put_file p s w) = get q w.
Proof. intros H. unfold get, put_file. cbn. rewrite lookup_insert_ne; [done|]. by apply not_eq_sym. Qed.

Lemma put_put p s t w : put_file p t (put_file p s w) = put_file p t w.
Proof. unfold put_file, set_fs, resolve. cbn. by rewrite insert_insert_eq. Qed.

Lemma get_del_eq p w : get p (del_file p w) = None.
Proof. unfold get, del_file, resolve. cbn. apply lookup_delete_eq. Qed.

Lemma get_del_ne p q w : resolve (fs w) q <> resolve (fs w) p -> get q (del_file p w) = get q w.
Proof. intros H. unfold get, del_file. cbn. rewrite lookup_delete_ne; [done|]. by apply not_eq_sym. Qed.

Lemma get_del_none p q w : get q w = None -> get q (del_file p w) = None.
Proof.
  unfold get, del_file. cbn. intros H.
  destruct (decide (resolve (fs w) p = resolve (fs w) q)) as [->|Hne]; [apply lookup_delete_eq|].
  by rewrite lookup_delete_ne.
Qed.

(** With nothing mounted an absolute path is its own key. *)
Definition plain (w : world) : Prop := mnts (fs w) = [].

Lemma resolve_plain w p : plain w -> String.prefix "/" p = true -> resolve (fs w) p = p.
Proof. unfold plain, resolve, abs_path. intros -> ->. done. Qed.

(** [w'] holds the same files as [w], except possibly at the paths [ps]. *)
Definition is_abs (p : string) : Prop := String.prefix "/" p = true.
Definition agree (ps : list string) (w w' : world) : Prop :=
  plain w' /\ forall p, is_abs p -> p ∉ ps -> get p w' = get p w.

Lemma agree_refl ps w : plain w -> agree ps w w.
Proof. by split. Qed.

Lemma agree_trans ps qs w1 w2 w3 : agree ps w1 w2 -> agree qs w2 w3 -> agree (ps ++ qs) w1 w3.
Proof.
  intros [_ H1] [P H2]. split; [done|]. intros p Ha Hp. rewrite not_elem_of_app in Hp. destruct Hp.
  rewrite H2, H1 by done. done.
Qed.

Lemma agree_fs ps w w1 w2 : fs w1 = fs w2 -> agree ps w w1 -> agree ps w w2.
Proof.
  intros E [P H]. split; [unfold plain in *; by rewrite <- E|].
  intros p Ha Hp. rewrite <- (H p) by done. symmetry. by apply get_fs.
Qed.

Lemma agree_put ps p s w w1 : agree ps w w1 -> is_abs p -> p ∈ ps -> agree ps w (put_file p s w1).
Proof.
  intros [P H] Hp Hin. split; [done|]. intros q Hq Hne. rewrite <- H by done. apply get_put_ne.
  rewrite !resolve_plain by done. set_solver.
Qed.

Lemma agree_del ps p w w1 : agree ps w w1 -> is_abs p -> p ∈ ps -> agree ps w (del_file p w1).
Proof.
  intros [P H] Hp Hin. split; [done|]. intros q Hq Hne. rewrite <- H by done. apply get_del_ne.
  rewrite !resolve_plain by done. set_solver.
Qed.

Lemma agree_mono ps qs w w1 : agree ps w w1 -> ps ⊆ qs -> agree qs w w1.
Proof. intros [P H] Hs. split; [done|]. intros p Hp Hn. apply H; set_solver. Qed.

(** ** Weakest preconditions of the calls *)

Section CallRules.
Context `{Env}.

Lemma wp_system c st s Q w :
  sh c w = (st, s) -> Q (Val st) (World s (trace w ++ [Cmd c])) -> wp (system c) Q w.
Proof. unfold wp, system. by intros ->. Qed.

Lemma wp_system_any c Q w :
  (forall st s, sh c w = (st, s) -> Q (Val st) (World s (trace w ++ [Cmd c]))) -> wp (system c) Q w.
Proof. unfold wp, system. destruct (sh c w) eqn:E. cbn. auto. Qed.

Lemma wp_popen c Q w : Q (Val (pipe c w)) (World (fs w) (trace w ++ [Pipe c])) -> wp (popen c) Q w.
Proof. done. Qed.

Lemma wp_emit e Q w : Q (Val tt) (World (fs w) (trace w ++ [e])) -> wp (emit e) Q w.
Proof. done. Qed.

Lemma wp_fopen_r p Q w :
  (forall s, get p w = Some s -> rd_ok p w = true -> Q (Val (Some s)) w) ->
  (get p w = None \/ rd_ok p w = false -> Q (Val None) w) -> wp (fopen_r p) Q w.
Proof. unfold wp, fopen_r. cbn. intros H1 H2. destruct (get p w); [destruct (rd_ok p w)|]; auto. Qed.

Lemma wp_fopen_w p Q w :
  (wr_ok p w = true -> Q (Val true) (put_file p "" w)) -> (wr_ok p w = false -> Q (Val false) w) ->
  wp (fopen_w p) Q w.
Proof. unfold wp, fopen_w. destruct (wr_ok p w); cbn; auto. Qed.

Lemma wp_fwrite p s Q w :
  (forall n, (n <= String.length s)%nat -> Q (Val n) (put_file p (default "" (get p w) +:+ stake n s) w)) ->
  wp (fwrite p s) Q w.
Proof. unfold wp, fwrite. cbn. intros HQ. apply HQ. lia. Qed.

Lemma wp_unlink p Q w : Q (Val tt) (del_file p w) -> wp (unlink p) Q w.
Proof. done. Qed.

Lemma wp_access p Q w : (forall b, Q (Val b) w) -> wp (access p) Q w.
Proof. unfold wp, access. cbn. auto. Qed.

Lemma wp_stat p Q w :
  (forall s, get p w = Some s -> Q (Val (Some (Z.of_nat (String.length s)))) w) -> (get p w = None -> Q (Val None) w) ->
  wp (stat p) Q w.
Proof. unfold wp, stat. cbn. intros H1 H2. destruct (get p w); auto. Qed.

Lemma wp_malloc Q w : (forall b, mem_ok w = b -> Q (Val b) w) -> wp malloc_ok Q w.
Proof. unfold wp, malloc_ok. cbn. auto. Qed.

Lemma wp_store b n t Q w : (forall tr, Q (Val tt) (World (fs w) tr)) -> wp (store_token b n t) Q w.
Proof. unfold wp, store_token, when. intros HQ. case_if; cbn; [auto|]. destruct w. apply HQ. Qed.
End CallRules.

(** One step of a proof about a program. *)
Ltac wp_step :=
  lazymatch goal with
  | |- wp (mbind _ _) _ _ => apply wp_bind
  | |- wp (mret _) _ _ => apply wp_ret
  | |- wp (catch _ _) _ _ => apply wp_catch
  | |- wp (if _ then _ else _) _ _ => apply wp_if; intros
  | |- wp (when _ _) _ _ => apply wp_when; intros
  | |- wp (throw _) _ _ => unfold wp, throw; cbn [fst snd]
  | |- wp (exit _) _ _ => unfold wp, exit; cbn [fst snd]
  | |- wp crash _ _ => unfold wp, crash; cbn [fst snd]
  | |- wp (unlink _) _ _ => apply wp_unlink
  | |- wp (umount2 _) _ _ => apply wp_tt; [reflexivity|]
  | |- wp (mkdir _) _ _ => apply wp_tt; [reflexivity|]
  | |- wp (rmdir _) _ _ => apply wp_tt; [reflexivity|]
  | |- wp (chdir _) _ _ => apply wp_tt; [reflexivity|]
  | |- wp (popen _) _ _ => apply wp_popen
  | |- wp (emit _) _ _ => apply wp_emit
  | |- wp (fopen_r _) _ _ => apply wp_fopen_r; intros
  | |- wp (fopen_w _) _ _ => apply wp_fopen_w; intros
  | |- wp (fwrite _ _) _ _ => apply wp_fwrite; intros
  | |- wp (access _) _ _ => apply wp_access; intros
  | |- wp malloc_ok _ _ => apply wp_malloc; intros
  | |- wp (store_token _ _ _) _ _ => apply wp_store; intros
  | |- wp (system _) _ _ => apply wp_system_any; intros
  | |- wp (match ?o with Some _ => _ | None => _ end) _ _ => destruct o eqn:?
  | |- seq_post _ _ _ _ => cbn [seq_post]
  end.
Ltac wp_go := repeat wp_step.

(** ** A machine on which no call fails for want of resources *)

Definition healthy `{Env} : Prop := forall p w n,
  rd_ok p w = true /\ wr_ok p w = true /\ wr_len p w n = n /\ mem_ok w = true.

Section Healthy.
Context `{Env} (Hh : healthy).

Lemma wp_fopen_r_some p s Q w : get p w = Some s -> Q (Val (Some s)) w -> wp (fopen_r p) Q w.
Proof. unfold wp, fopen_r. intros -> HQ. by rewrite (proj1 (Hh p w O)). Qed.

Lemma wp_fopen_w_ok p Q w : Q (Val true) (put_file p "" w) -> wp (fopen_w p) Q w.
Proof. unfold wp, fopen_w. by rewrite (proj1 (proj2 (Hh p w O))). Qed.

Lemma wp_fwrite_ok p s Q w :
  Q (Val (String.length s)) (put_file p (default "" (get p w) +:+ s) w) -> wp (fwrite p s) Q w.
Proof.
  unfold wp, fwrite. destruct (Hh p w (String.length s)) as (_ & _ & -> & _). rewrite Nat.min_id.
  by rewrite (stake_all _ s) by lia.
Qed.

Lemma wp_malloc_ok Q w : Q (Val true) w -> wp malloc_ok Q w.
Proof. unfold wp, malloc_ok. by rewrite (proj2 (proj2 (proj2 (Hh "" w O)))). Qed.
End Healthy.

Lemma snprintf_id n s : (String.length s < n)%nat -> snprintf n s = s.
Proof. intros Hl. apply stake_all. lia. Qed.

(** ** Properties of the runs that go on *)

(** [I] is kept by the runs of [m] that return a value. *)
Definition vstable {A} (I : world -> Prop) (m : M A) : Prop :=
  forall w, I w -> wp m (fun r w' => match r with Val _ => I w' | _ => True end) w.

Section VStable.
Context {A B : Type} (I : world -> Prop).

Lemma vstable_stable (m : M A) : stable I m -> vstable I m.
Proof. intros Hm w Hw. unfold wp. specialize (Hm w Hw). by destruct (fst (m w)). Qed.

Lemma vstable_ret (a : A) : vstable I (mret a).
Proof. by intros w. Qed.

Lemma vstable_bind (m : M A) (k : A -> M B) : vstable I m -> (forall a, vstable I (k a)) -> vstable I (m ≫= k).
Proof.
  intros Hm Hk w Hw. apply wp_bind. eapply wp_mono; [by apply Hm|]. intros [a|z|z|] w' Hw'; cbn; try done. by apply Hk.
Qed.

(** A program that never returns a value. *)
Definition no_val (m : M A) : Prop := forall w, wp m (fun r _ => match r with Val _ => False | _ => True end) w.

Lemma vstable_no_val (m : M A) : no_val m -> vstable I m.
Proof. intros Hm w _. eapply wp_mono; [apply Hm|]. by intros []. Qed.

Lemma wp_vstable (m : M A) (k : A -> M B) Q w :
  vstable I m -> I w -> (forall a w', I w' -> wp (k a) Q w') ->
  (forall r w', match r with Val _ => False | _ => True end -> Q r w') -> wp (m ≫= k) Q w.
Proof.
  intros Hm Hw Hk HQ. apply wp_bind. eapply wp_mono; [by apply Hm|]. intros [a|z|z|] w' H; cbn; auto; by apply HQ.
Qed.
End VStable.

Lemma no_val_bind {A B} (m : M A) (k : A -> M B) : (forall a, no_val (k a)) -> no_val (m ≫= k).
Proof. intros Hk w. apply wp_bind. unfold wp at 1. destruct (m w) as [[a|z|z|] w']; cbn; try done. apply Hk. Qed.

Lemma no_val_exit {A} z : no_val (@exit A z).
Proof. done. Qed.

Lemma vstable_when I b m : vstable I m -> vstable I (when b m).
Proof. destruct b; intros H; [done|apply vstable_ret]. Qed.

(** Calls that leave the mounts alone. *)
Definition keeps_mnts {A} (m : M A) : Prop := forall w, mnts (fs (snd (m w))) = mnts (fs w).

Lemma keeps_mnts_fs {A} (m : M A) : keeps_fs m -> keeps_mnts m.
Proof. intros Hm w. by rewrite Hm. Qed.

Lemma vstable_mnts {A} (P : list (string * string) -> Prop) (m : M A) :
  keeps_mnts m -> vstable (fun w => P (mnts (fs w))) m.
Proof. intros Hm. apply vstable_stable. intros w Hw. by rewrite Hm. Qed.

Section KeepsMnts.
Context `{Env}.
Lemma km_fopen_w p : keeps_mnts (fopen_w p).
Proof. intros w. unfold fopen_w. by destruct (wr_ok p w). Qed.
Lemma km_fwrite p s : keeps_mnts (fwrite p s).
Proof. done. Qed.
Lemma km_open_rw p : keeps_mnts (open_rw p).
Proof. intros w. unfold open_rw. by destruct (wr_ok p w). Qed.
Lemma km_sendfile p s : keeps_mnts (sendfile p s).
Proof. done. Qed.
Lemma km_put_dev p s : keeps_mnts (put_dev p s).
Proof. done. Qed.
Lemma km_unlink p : keeps_mnts (unlink p).
Proof. done. Qed.
Lemma km_mkdir p : keeps_mnts (mkdir p).
Proof. done. Qed.
Lemma km_rmdir p : keeps_mnts (rmdir p).
Proof. done. Qed.
Lemma km_chdir p : keeps_mnts (chdir p).
Proof. done. Qed.
Lemma km_system `{!ShLocal} c : keeps_mnts (system c).
Proof. intros w. unfold system. destruct (sh_local c w) as [Hm _]. by destruct (sh c w). Qed.
End KeepsMnts.

(** Closes a [keeps_mnts] goal about a single call. *)
Ltac km_leaf :=
  lazymatch goal with
  | |- keeps_mnts (fopen_w _) => apply km_fopen_w
  | |- keeps_mnts (fwrite _ _) => apply km_fwrite
  | |- keeps_mnts (open_rw _) => apply km_open_rw
  | |- keeps_mnts (sendfile _ _) => apply km_sendfile
  | |- keeps_mnts (put_dev _ _) => apply km_put_dev
  | |- keeps_mnts (unlink _) => apply km_unlink
  | |- keeps_mnts (mkdir _) => apply km_mkdir
  | |- keeps_mnts (rmdir _) => apply km_rmdir
  | |- keeps_mnts (chdir _) => apply km_chdir
  | |- keeps_mnts (system _) => apply km_system
  | |- keeps_mnts (access _) => apply keeps_mnts_fs, keeps_fs_access
  | |- keeps_mnts (stat _) => apply keeps_mnts_fs, keeps_fs_stat
  | |- keeps_mnts (fopen_r _) => apply keeps_mnts_fs, keeps_fs_fopen_r
  | |- keeps_mnts (popen _) => apply keeps_mnts_fs, keeps_fs_popen
  | |- keeps_mnts (readlink _) => apply keeps_mnts_fs, keeps_fs_readlink
  | |- keeps_mnts malloc_ok => apply keeps_mnts_fs, keeps_fs_malloc
  | |- keeps_mnts (emit _) => apply keeps_mnts_fs, keeps_fs_emit
  | |- keeps_mnts (store_token _ _ _) => apply keeps_mnts_fs, keeps_fs_store
  end.

Lemma wp_stable_bind {A B} I (m : M A) (k : A -> M B) (Q : outcome B -> world -> Prop) w :
  stable I m -> I w -> (forall a w', I w' -> wp (k a) Q w') ->
  (forall z w', I w' -> Q (Throw z) w' /\ Q (Exit z) w' /\ Q Crash w') -> wp (m ≫= k) Q w.
Proof.
  intros Hm Hw Hk HQ. apply wp_bind. eapply wp_mono; [by apply (stable_wp I m w Hm)|].
  intros [a|z|z|] w' Hw'; cbn; [by apply Hk|by apply HQ..|by apply (HQ 0)].
Qed.

Lemma vstable_and {A} (I J : world -> Prop) (m : M A) :
  vstable I m -> vstable J m -> vstable (fun w => I w /\ J w) m.
Proof.
  intros HI HJ w [Hi Hj]. specialize (HI w Hi). specialize (HJ w Hj). unfold wp in *. by destruct (fst (m w)).
Qed.

(** ** Programs as commands *)

(** The status [system] returns when a program ends with [r]; 11 is a segmentation fault. *)
Definition wait_status (r : outcome Z) : Z :=
  match r with
  | Val z => 256 * (z mod 256)
  | Exit z => 256 * (z mod 256)
  | Throw _ => 11
  | Crash => 11
  end.

(** The command [c] runs the program [m]. *)
Definition runs `{Env} (c : string) (m : M Z) : Prop :=
  forall w, sh c w = (wait_status (fst (m w)), fs (snd (m w))).
