(* ===== verification/IrisLib.v ===== *)
(** * irislib.c and irisdefs.h: paths, error codes and library routines

    The routines the hub programs share, as programs of the monad of
    Os.v. *)
From Stdlib Require Import ZArith String Ascii Lia Bool.
From stdpp Require Import base gmap strings list numbers.
From S2P Require Import Prelude CLib Os.

Local Open Scope string_scope.
Local Open Scope Z_scope.

(** ** irisdefs.h *)

Definition LED_MODE_FILE : string := "/tmp/ledMode".
Definition VERSION_FILE : string := "/tmp/version".
Definition FW_INSTALL_FILE : string := "/tmp/fw_image.bin".
Definition MODEL_FILE : string := "/tmp/mfg/config/model".
Definition CUSTOMER_FILE : string := "/tmp/mfg/config/customer".
Definition HUB_ID_FILE : string := "/tmp/mfg/config/hubID".
Definition HW_VER_FILE : string := "/tmp/mfg/config/hwVer".
Definition MAC_ADDR1_FILE : string := "/tmp/mfg/config/macAddr1".
Definition MAC_ADDR2_FILE : string := "/tmp/mfg/config/macAddr2".
Definition HW_VERSION_WITH_FLOWCONTROL : Z := 2.
Definition HW_VERSION_WITH_BATTERY_VOLTAGE : Z := 3.
Definition HW_WATCHDOG_DEV : string := "/dev/watchdog0".
Definition BUILD_PUBLIC_KEY : string := "/etc/.ssh/iris-fwsign.pub".
Definition UPDATE_SERVER_URL : string := "https://eyerisbuild.cloudapp.net/artifactory/hubos/".
Definition UPDATE_USERNAME : string := "hubos".
Definition UPDATE_PASSWORD : string := "z4eYWeUGXSUXjABEXTPw42reLVm88hag".
Definition UPDATE_VER_FILE : string := "hubOS_latest.txt".
Definition FIRMWARE_PREFIX : string := "hubOS".
Definition DEFAULT_MODEL : string := "IH304".
Definition DEFAULT_CUSTOMER : string := "IRIS".
Definition DEFAULT_PREFIX : string := "hubOS".
Definition CUSTOMER_ALL : string := "ALL".
Definition SSH_PID_FILE : string := "/var/run/dropbear.pid".
Definition SSH_KEY_FILE : string := "/data/config/dropbear/dropbear_rsa_host_key".
Definition JAVA_BIN_FILE : string := "/usr/bin/java".
Definition SERIALIZE_BIN_FILE : string := "/usr/bin/serialize".
Definition AUDIO_APP : string := "/usr/bin/play".
Definition LTE_CONTROL_FILE : string := "/tmp/lteControl".
Definition UPDATE_SKIP_FILE : string := "/data/config/update_skip".

Definition INSTALL_ARG_ERR : Z := 1.
Definition INSTALL_DOWNLOAD_ERR : Z := 2.
Definition INSTALL_FILE_OPEN_ERR : Z := 3.
Definition INSTALL_MEMORY_ERR : Z := 4.
Definition INSTALL_DECRYPT_ERR : Z := 5.
Definition INSTALL_HDR_SIG_ERR : Z := 6.
Definition INSTALL_MODEL_ERR : Z := 7.
Definition INSTALL_CUSTOMER_ERR : Z := 8.
Definition INSTALL_FW_DECRYPT_ERR : Z := 9.
Definition INSTALL_CKSUM_ERR : Z := 10.
Definition INSTALL_IN_PROCESS : Z := 11.
Definition INSTALL_UNPACK_ERR : Z := 12.
Definition INSTALL_ARCHIVE_CKSUM_ERR : Z := 13.
Definition INSTALL_MOUNT_ERR : Z := 14.
Definition INSTALL_ZWAVE_ERR : Z := 15.
Definition INSTALL_ZIGBEE_ERR : Z := 16.
Definition INSTALL_BLE_ERR : Z := 17.
Definition INSTALL_HARD_ERRORS : Z := 20.
Definition INSTALL_UBOOT_ERR : Z := 21.
Definition INSTALL_KERNEL_ERR : Z := 22.
Definition INSTALL_ROOTFS_ERR : Z := 23.

(** irisversion.h *)
Definition VERSION_MAJOR : Z := 3.
Definition VERSION_MINOR : Z := 0.
Definition VERSION_POINT : Z := 1.
Definition VERSION_BUILD : Z := 29.
Definition VERSION_SUFFIX : string := "".

(** A double quote, for the command lines that have one. *)
Definition DQ : string := String "034"%char "".

(** The platform the programs are compiled for. *)
Inductive platform := beaglebone_yocto | imxdimagic.

(** ** Devices *)

Class Hardware := {
  i2c_open : world -> bool;                    (* [open] of the bus succeeds *)
  i2c_slave : Z -> world -> bool;              (* the slave address can be set *)
  i2c_reg : Z -> Z -> world -> option Z;       (* byte in a register of a slave, [None] if [read] fails *)
  usb_open : string -> world -> bool;
  usb_status : string -> world -> option Z;    (* port status, [None] if the ioctl fails *)
  usb_ioctl : string -> string -> world -> option Z }. (* [errno] of an ioctl that fails *)

(** ** Serial ports *)

Definition PARENB : Z := 0x100.
Definition PARODD : Z := 0x200.
Definition CSTOPB : Z := 0x40.
Definition CSIZE : Z := 0x30.
Definition CS8 : Z := 0x30.
Definition CLOCAL : Z := 0x800.
Definition CREAD : Z := 0x80.
Definition CRTSCTS : Z := 0x80000000.
Definition CBAUD : Z := 0x100F.
Definition IGNBRK : Z := 0x1.
Definition BRKINT : Z := 0x2.
Definition INPCK : Z := 0x10.
Definition ISTRIP : Z := 0x20.
Definition INLCR : Z := 0x40.
Definition IGNCR : Z := 0x80.
Definition ICRNL : Z := 0x100.
Definition IXON : Z := 0x400.
Definition IXANY : Z := 0x800.
Definition IXOFF : Z := 0x1000.
Definition IMAXBEL : Z := 0x2000.
Definition VTIME : nat := 5.
Definition VMIN : nat := 6.
Definition VSTART : nat := 8.
Definition VSTOP : nat := 9.
Definition NCCS : nat := 32.
Definition CSTART : Z := 0x11.
Definition CSTOP : Z := 0x13.

Definition FLOW_CONTROL_NONE : Z := 0.
Definition FLOW_CONTROL_XONXOFF : Z := 1.
Definition FLOW_CONTROL_RTSCTS : Z := 2.

Record termios := Termios { c_iflag : Z; c_oflag : Z; c_cflag : Z; c_lflag : Z; c_cc : list Z }.

Definition clear (x mask : Z) : Z := Z.ldiff x mask.
Definition lors (l : list Z) : Z := foldr Z.lor 0 l.

(** The settings applied to a port that had the settings [tty]. *)
Definition IRIS_initSerialPort (baud mode : Z) (tty : termios) : termios :=
  let cflag := Z.lor (clear (c_cflag tty) CBAUD) baud in
  let cflag := clear (clear (clear cflag (lors [PARENB; PARODD])) CSTOPB) CSIZE in
  let iflag := clear (c_iflag tty) IGNBRK in
  let cflag := Z.lor cflag (lors [CS8; CLOCAL; CREAD]) in
  if negb (mode =? FLOW_CONTROL_NONE) then
    let iflag := clear iflag (lors [BRKINT; ISTRIP; INLCR; INPCK; IGNCR; ICRNL; IMAXBEL; IXON; IXOFF; IXANY]) in
    let '(iflag, cc, cflag) :=
      if mode =? FLOW_CONTROL_XONXOFF then
        (Z.lor iflag IXON, <[VSTOP := CSTOP]> (<[VSTART := CSTART]> (replicate NCCS 0)), clear cflag CRTSCTS)
      else (iflag, c_cc tty, Z.lor cflag CRTSCTS) in
    Termios iflag 0 cflag 0 (<[VTIME := 0]> (<[VMIN := 1]> cc))
  else
    Termios (clear iflag (lors [IXON; IXOFF; IXANY])) 0 (clear cflag CRTSCTS) 0 (<[VTIME := 5]> (<[VMIN := 1]> (c_cc tty))).

Section Lib.
Context `{Env}.

(** ** Image and hardware queries *)

Definition IRIS_isReleaseImage : M bool := mret true.

Definition IRIS_isMfgImage : M bool := access SERIALIZE_BIN_FILE.

Definition IRIS_isDevImage : M bool :=
  s ← access SERIALIZE_BIN_FILE; if s : bool then mret false else
  j ← access JAVA_BIN_FILE; mret (negb j).

Definition IRIS_isSSHEnabled : M bool := access SSH_PID_FILE.

Definition IRIS_isSSHKeyGen : M bool := k ← access SSH_KEY_FILE; mret (negb k).

Definition IRIS_getHardwareVersion : M Z :=
  f ← fopen_r HW_VER_FILE;
  mret (match f with Some s => default 0 (scan_d s) | None => 0 end).

(** The five routines that read one word of a file into the caller's buffer [old]:
    the return value and the buffer afterwards. *)
Definition read_word (path old : string) : M (bool * string) :=
  f ← fopen_r path;
  mret (match f with
        | Some s => (true, match scan_s s with Some t => t | None => old end)
        | None => (false, "")
        end).

Definition IRIS_getFirmwareVersion (old : string) : M (bool * string) := read_word VERSION_FILE old.
Definition IRIS_getModel (old : string) : M (bool * string) := read_word MODEL_FILE old.
Definition IRIS_getHubID (old : string) : M (bool * string) := read_word HUB_ID_FILE old.
Definition IRIS_getMACAddr1 (old : string) : M (bool * string) := read_word MAC_ADDR1_FILE old.
Definition IRIS_getMACAddr2 (old : string) : M (bool * string) := read_word MAC_ADDR2_FILE old.

(** A capability all models but the IH200 have, and the IH200 from a hardware version on;
    [stack] is what the uninitialised [model[32]] holds. *)
Definition model_or_version (stack : string) (version : Z) : M bool :=
  '(ok, model) ← IRIS_getModel stack;
  _ ← store_token "model" 32 model;
  if ok && negb (strncmp0 model "IH200" 5) then mret true
  else v ← IRIS_getHardwareVersion; mret (version <=? v).

Definition IRIS_isHwFlowControlSupported (stack : string) : M bool :=
  model_or_version stack HW_VERSION_WITH_FLOWCONTROL.

Definition IRIS_isBatteryVoltageDetectionSupported (stack : string) : M bool :=
  model_or_version stack HW_VERSION_WITH_BATTERY_VOLTAGE.

Definition IRIS_isLTEConnected : M bool :=
  a ← access LTE_CONTROL_FILE;
  if a : bool then
    f ← fopen_r LTE_CONTROL_FILE;
    match f with
    | Some s =>
        let data := cstr (stake 127 s) in
        _ ← when (String.length data =? 0)%nat (emit (Overrun "data" (-1)));
        mret (strncmp0 (strip_nl data) "connect" 7)
    | None => mret false
    end
  else mret false.

(** ** LED mode *)

Definition IRIS_setLedMode (mode : string) : M unit :=
  f ← fopen_w LED_MODE_FILE;
  _ ← when f (_ ← fwrite LED_MODE_FILE mode; mret tt);
  usleep 10000.

(** The caller's buffer after the call. *)
Definition IRIS_getLedMode (mode : string) (size : nat) : M string :=
  f ← fopen_r LED_MODE_FILE;
  mret (match f with Some s => default mode (fgets size s) | None => mode end).

(** ** Copying a file *)

(** The destination is opened without truncation: bytes of an older, longer file stay. *)
Definition IRIS_copyFile (src dst : string) : M Z :=
  i ← fopen_r src;
  match i with
  | None => mret (-1)
  | Some data =>
      o ← open_rw dst;
      if negb o then mret (-1)
      else
        res ← sendfile dst data;
        mret (if res =? Z.of_nat (String.length data) then 0 else res)
  end.

(** ** Audio and interfaces *)

Definition playAudio (filename : string) : M unit :=
  f ← popen (snprintf 256 ("pidof " +:+ AUDIO_APP));
  match f with
  | Some out =>
      when (match fgets 128 out with None => true | Some _ => false end)
        (_ ← system (snprintf 256 (AUDIO_APP +:+ " " +:+ filename +:+ " > /dev/null 2>&1")); mret tt)
  | None => mret tt
  end.

(** The thread is joined at once; [thread_ok] is the result of [pthread_create]. *)
Definition IRIS_playAudio (thread_ok : bool) (filename : string) (delay : Z) : M unit :=
  a ← access filename;
  when a (when thread_ok (_ ← playAudio filename; when (negb (delay =? 0)) (usleep delay))).

(** A pipeline ending in grep printed a line. *)
Definition printed_line (cmd : string) : M bool :=
  f ← popen (snprintf 256 cmd);
  mret (match f with Some out => match fgets 256 out with Some _ => true | None => false end | None => false end).

Definition IRIS_isIntfIPUp (intf : string) : M bool :=
  printed_line ("ifconfig " +:+ intf +:+ " | grep " +:+ DQ +:+ "inet addr" +:+ DQ).

Definition IRIS_isIntfConnected (intf : string) : M bool :=
  printed_line ("ip link show " +:+ intf +:+ " | grep " +:+ DQ +:+ "[<,]LOWER_UP[,>]" +:+ DQ).

(** ** Watchdog *)

Definition writeWatchdog (data : string) : M unit :=
  f ← popen (snprintf 128 ("/usr/bin/lsof | grep " +:+ HW_WATCHDOG_DEV));
  let idle := match f with None => true | Some out => match fgets 127 out with None => true | Some _ => false end end in
  _ ← when idle (_ ← system (snprintf 128 ("echo " +:+ data +:+ " > " +:+ HW_WATCHDOG_DEV +:+ " 2> /dev/null")); mret tt);
  match f with None => crash | Some _ => mret tt end.

Definition startWatchdog : M unit := writeWatchdog "1".
Definition pokeWatchdog : M unit := writeWatchdog "A".
Definition stopWatchdog : M unit := writeWatchdog "V".

(** ** Power *)

Definition SY6991_DEVICE_NAME : string := "/dev/i2c-1".
Definition SY6991_SLAVE_ADDR : Z := 0x6A.

Fixpoint power_line (n : nat) : M unit :=
  match n with
  | O => mret tt
  | S n' => _ ← system "echo 0 > /sys/class/gpio/gpio106/value"; power_line n'
  end.

(** Returns only if the power controller cannot be reached; otherwise power is gone after [n] writes. *)
Definition IRIS_powerDownHub `{Hardware} (n : nat) : M unit :=
  w ← get_world;
  if negb (i2c_open w) then mret tt
  else if negb (i2c_slave SY6991_SLAVE_ADDR w) then mret tt
  else
    _ ← when (match i2c_reg SY6991_SLAVE_ADDR 1 w with Some _ => true | None => false end)
          (emit (Ioctl SY6991_DEVICE_NAME "write 0x01 0x84"));
    _ ← system "echo 106 > /sys/class/gpio/export";
    _ ← system "echo out > /sys/class/gpio/gpio106/direction";
    _ ← power_line n;
    exit 0.

End Lib.

(** ** What a port is set to *)

Lemma land_within b m a : Z.ldiff b a = 0 -> Z.land a m = 0 -> Z.land b m = 0.
Proof.
  intros H1 H2. apply Z.bits_inj'. intros n Hn. pose proof (f_equal (fun z => Z.testbit z n) H1) as Hb.
  pose proof (f_equal (fun z => Z.testbit z n) H2) as Ha. cbv beta in *.
  rewrite Z.ldiff_spec, Z.bits_0 in Hb. rewrite !Z.land_spec, Z.bits_0 in *. revert Hb Ha.
  by destruct (Z.testbit b n), (Z.testbit a n), (Z.testbit m n).
Qed.

Lemma land_set x m b : Z.ldiff m b = 0 -> Z.land (Z.lor x b) m = m.
Proof.
  intros H. apply Z.bits_inj'. intros n Hn. pose proof (f_equal (fun z => Z.testbit z n) H) as Hb. cbv beta in Hb.
  rewrite Z.ldiff_spec, Z.bits_0 in Hb. rewrite Z.land_spec, Z.lor_spec. revert Hb. by destruct (Z.testbit x n), (Z.testbit b n), (Z.testbit m n).
Qed.

Lemma land_clear_mask x m a : Z.land (clear x a) m = Z.land x (Z.ldiff m a).
Proof.
  apply Z.bits_inj'. intros n Hn. unfold clear. rewrite !Z.land_spec, !Z.ldiff_spec.
  by destruct (Z.testbit x n), (Z.testbit a n), (Z.testbit m n).
Qed.

(** The flow control bits of the two flag words. *)
Definition flow_bits (mode : Z) : Z * Z :=
  if mode =? FLOW_CONTROL_NONE then (0, 0) else if mode =? FLOW_CONTROL_XONXOFF then (IXON, 0) else (0, CRTSCTS).

Ltac port_bits := repeat first
  [ rewrite Z.land_lor_distr_l | rewrite land_clear_mask; match goal with |- context[Z.ldiff ?m ?a] =>
      let z := eval vm_compute in (Z.ldiff m a) in change (Z.ldiff m a) with z end ];
  rewrite ?Z.land_0_r; repeat erewrite (land_within _ _ CBAUD) by (eassumption || reflexivity).

Ltac fold_bits := repeat match goal with |- context[Z.land ?c ?m] =>
  let z := eval vm_compute in (Z.land c m) in match z with 0 => change (Z.land c m) with 0 end end.

(** Whatever the port was set to, it is set to eight data bits without parity, one stop bit, raw mode, a receiver that is
    on, and the flow control asked for. *)
Lemma serial_port_set baud mode tty : Z.ldiff baud CBAUD = 0 -> length (c_cc tty) = NCCS ->
  let t := IRIS_initSerialPort baud mode tty in
  Z.land (c_cflag t) CBAUD = baud /\
  Z.land (c_cflag t) (lors [PARENB; PARODD; CSTOPB; CSIZE]) = CS8 /\ Z.land (c_cflag t) (lors [CLOCAL; CREAD]) = lors [CLOCAL; CREAD] /\
  c_lflag t = 0 /\ c_oflag t = 0 /\
  (Z.land (c_iflag t) (lors [IXON; IXOFF; IXANY]), Z.land (c_cflag t) CRTSCTS) = flow_bits mode /\
  c_cc t !! VMIN = Some 1.
Proof.
  intros Hb Hcc. unfold IRIS_initSerialPort, flow_bits.
  assert (Z.land baud CBAUD = baud) as Hbb.
  { apply Z.bits_inj'. intros n Hn. pose proof (f_equal (fun z => Z.testbit z n) Hb) as H. cbv beta in H.
    rewrite Z.ldiff_spec, Z.bits_0 in H. rewrite Z.land_spec. revert H. by destruct (Z.testbit baud n), (Z.testbit CBAUD n). }
  destruct (mode =? FLOW_CONTROL_NONE); [|destruct (mode =? FLOW_CONTROL_XONXOFF)]; cbv zeta; cbn [negb c_cflag c_iflag c_lflag c_oflag c_cc];
    (split; [port_bits; change (Z.land baud _) with (Z.land baud CBAUD); rewrite Hbb; fold_bits; by rewrite ?Z.lor_0_r, ?Z.lor_0_l|]);
    (split; [port_bits; reflexivity|]); (split; [first [rewrite land_clear_mask; apply land_set; reflexivity | rewrite Z.land_lor_distr_l, land_set by reflexivity; reflexivity]|]);
    (split; [done|]); (split; [done|]); (split; [f_equal; first [apply land_set; reflexivity | port_bits; reflexivity]|]);
    rewrite list_lookup_insert_ne by done; (rewrite list_lookup_insert_eq; [done|]).
  - by rewrite Hcc; unfold NCCS, VMIN; lia.
  - vm_compute. lia.
  - by rewrite Hcc; unfold NCCS, VMIN; lia.
Qed.
