(* ===== verification/Traces.v ===== *)
(** * Commands of a run

    What a run of a program adds to the trace, for the daemons: the commands of
    interest issued so far, steps that always return, and results of steps. *)
From Stdlib Require Import ZArith String Ascii Lia Bool.
From stdpp Require Import base gmap strings list numbers.
From S2P Require Import Prelude CLib Os IrisLib.

Local Open Scope string_scope.
Local Open Scope Z_scope.

(** ** Steps that return *)

Definition returns {A} (m : M A) : Prop := forall w, exists a, fst (m w) = Val a.

(** What every result of a step satisfies. *)
Definition yields {A} (P : A -> Prop) (m : M A) : Prop := forall w a, fst (m w) = Val a -> P a.

Section Returns.
Context {A B : Type}.

Lemma returns_ret (a : A) : returns (mret a).
Proof. intros w. by exists a. Qed.

Lemma returns_bind (m : M A) (k : A -> M B) : returns m -> (forall a, returns (k a)) -> returns (m ≫= k).
Proof.
  intros Hm Hk w. unfold mbind, M_bind. destruct (Hm w) as [a Ha]. destruct (m w) as [o w']. cbn in Ha. subst o. apply Hk.
Qed.

Lemma returns_if (b : bool) (m1 m2 : M A) : returns m1 -> returns m2 -> returns (if b then m1 else m2).
Proof. by destruct b. Qed.

Lemma returns_option {C} (o : option C) (m1 : C -> M A) m2 :
  (forall c, returns (m1 c)) -> returns m2 -> returns (match o with Some c => m1 c | None => m2 end).
Proof. by destruct o. Qed.

Lemma yields_ret (P : A -> Prop) a : P a -> yields P (mret a).
Proof. intros HP w b [= <-]. done. Qed.

Lemma yields_bind (P : B -> Prop) (m : M A) (k : A -> M B) : (forall a, yields P (k a)) -> yields P (m ≫= k).
Proof. intros Hk w b. unfold mbind, M_bind. destruct (m w) as [[a| | |] w']; [apply Hk|done..]. Qed.

Lemma yields_seq (P : A -> Prop) (Q : B -> Prop) (m : M A) (k : A -> M B) :
  yields P m -> (forall a, P a -> yields Q (k a)) -> yields Q (m ≫= k).
Proof.
  intros Hm Hk w b. unfold mbind, M_bind. specialize (Hm w). destruct (m w) as [[a| | |] w']; try done. by apply Hk, Hm.
Qed.

(** A step that returns and keeps [I]. *)
Lemma wp_returns (I : world -> Prop) (m : M A) (k : A -> M B) Q w : returns m -> stable I m -> I w ->
  (forall a w', I w' -> wp (k a) Q w') -> wp (m ≫= k) Q w.
Proof.
  intros Hr Hs Hw HQ. apply wp_bind. specialize (Hs w Hw). destruct (Hr w) as [a Ha]. unfold wp. rewrite Ha. by apply HQ.
Qed.

Lemma wp_returned (I : world -> Prop) (m : M A) Q w : returns m -> stable I m -> I w ->
  (forall a w', I w' -> Q (Val a) w') -> wp m Q w.
Proof. intros Hr Hs Hw HQ. specialize (Hs w Hw). destruct (Hr w) as [a Ha]. unfold wp. rewrite Ha. by apply HQ. Qed.

End Returns.

Lemma returns_when b m : returns m -> returns (when b m).
Proof. destruct b; [done|intros _; apply returns_ret]. Qed.

(** ** Commands *)

Definition cmds (t : list event) : list string := omap (fun e => match e with Cmd c => Some c | _ => None end) t.

Lemma cmds_app t1 t2 : cmds (t1 ++ t2) = (cmds t1 ++ cmds t2)%list.
Proof. apply omap_app. Qed.

Section Issued.
Context {Ev : Env} (P : string -> bool).

(** The commands that satisfy [P]. *)
Definition issued (t : list event) : list string := filter (fun c => P c = true) (cmds t).

Lemma issued_app t1 t2 : issued (t1 ++ t2) = (issued t1 ++ issued t2)%list.
Proof. unfold issued. by rewrite cmds_app, list.filter_app. Qed.

Lemma issued_in t c : P c = true -> issued (t ++ [Cmd c]) = (issued t ++ [c])%list.
Proof. intros Hc. rewrite issued_app. f_equal. unfold issued. cbn [cmds omap list_omap]. by rewrite filter_cons_True. Qed.

Lemma issued_out t c : P c = false -> issued (t ++ [Cmd c]) = issued t.
Proof.
  intros Hc. rewrite issued_app. transitivity (issued t ++ [])%list; [|apply app_nil_r]. f_equal. unfold issued. cbn [cmds omap list_omap].
  rewrite filter_cons_False; [done|]. by rewrite Hc.
Qed.

(** Exactly [l] was issued. *)
Definition sofar (l : list string) (w : world) : Prop := issued (trace w) = l.

Lemma sofar_same {A} l (m : M A) : (forall w, trace (snd (m w)) = trace w) -> stable (sofar l) m.
Proof. intros Hm w Hw. unfold sofar. by rewrite Hm. Qed.

Lemma sofar_emit l e : match e with Cmd _ => False | _ => True end -> stable (sofar l) (emit e).
Proof. intros He w Hw. change (issued (trace w ++ [e]) = l). rewrite issued_app, Hw. destruct e; by rewrite ?app_nil_r. Qed.

Lemma sofar_popen l c : stable (sofar l) (popen c).
Proof. intros w Hw. change (issued (trace w ++ [Pipe c]) = l). by rewrite issued_app, Hw, app_nil_r. Qed.

Lemma sofar_other l c : P c = false -> stable (sofar l) (system c).
Proof. intros Hc w Hw. unfold system, sofar. destruct (sh c w). cbn [snd trace]. by rewrite issued_out. Qed.

Lemma sofar_fopen_w l p : stable (sofar l) (fopen_w p).
Proof. apply sofar_same. intros w. unfold fopen_w. by destruct (wr_ok p w). Qed.

(** The world after a command. *)
Definition after_cmd (c : string) (w : world) : world := World (snd (sh c w)) (trace w ++ [Cmd c]).

Lemma wp_cmd c Q w : Q (Val (fst (sh c w))) (after_cmd c w) -> wp (system c) Q w.
Proof. unfold wp, system, after_cmd. by destruct (sh c w). Qed.

Lemma wp_issue {A} (k : Z -> M A) c l Q w : P c = true -> sofar l w ->
  (forall st w', sofar (l ++ [c]) w' -> wp (k st) Q w') -> wp (st ← system c; k st) Q w.
Proof.
  intros Hc Hl HQ. apply wp_bind, wp_cmd. cbn [seq_post]. apply HQ. unfold sofar, after_cmd. cbn [trace]. by rewrite issued_in, Hl.
Qed.

End Issued.

Section Leaves.
Context {Ev : Env}.

Lemma returns_system c : returns (system c).
Proof. intros w. unfold system. destruct (sh c w). by eexists. Qed.
Lemma returns_popen c : returns (popen c).
Proof. intros w. by eexists. Qed.
Lemma returns_emit e : returns (emit e).
Proof. intros w. by eexists. Qed.
Lemma returns_fopen_w p : returns (fopen_w p).
Proof. intros w. unfold fopen_w. destruct (wr_ok p w); by eexists. Qed.
Lemma returns_pure {A} (f : world -> A) : returns (fun w => (Val (f w), w)).
Proof. intros w. by eexists. Qed.

End Leaves.

(** ** Automation *)

Create HintDb steps.
#[export] Hint Resolve returns_ret returns_system returns_popen returns_emit returns_fopen_w : steps.
#[export] Hint Resolve stable_ret sofar_emit sofar_popen sofar_fopen_w : steps.
#[export] Hint Extern 1 (returns (sleep _)) => apply returns_emit : steps.
#[export] Hint Extern 1 (returns (usleep _)) => apply returns_emit : steps.
#[export] Hint Extern 1 (returns (kill _ _)) => apply returns_emit : steps.
#[export] Hint Extern 1 (stable (sofar _ _) (sleep _)) => (by apply sofar_emit) : steps.
#[export] Hint Extern 1 (stable (sofar _ _) (usleep _)) => (by apply sofar_emit) : steps.
#[export] Hint Extern 1 (stable (sofar _ _) (kill _ _)) => (by apply sofar_emit) : steps.
#[export] Hint Extern 1 (returns (access _)) => (intros ?; by eexists) : steps.
#[export] Hint Extern 1 (returns (fopen_r _)) => (intros ?; by eexists) : steps.
#[export] Hint Extern 1 (returns (fwrite _ _)) => (intros ?; by eexists) : steps.
#[export] Hint Extern 1 (returns (unlink _)) => (intros ?; by eexists) : steps.
#[export] Hint Extern 1 (returns get_world) => (intros ?; by eexists) : steps.
#[export] Hint Extern 1 (stable (sofar _ _) (access _)) => (by apply sofar_same) : steps.
#[export] Hint Extern 1 (stable (sofar _ _) (fopen_r _)) => (by apply sofar_same) : steps.
#[export] Hint Extern 1 (stable (sofar _ _) (fwrite _ _)) => (by apply sofar_same) : steps.
#[export] Hint Extern 1 (stable (sofar _ _) (unlink _)) => (by apply sofar_same) : steps.
#[export] Hint Extern 1 (stable (sofar _ _) get_world) => (by apply sofar_same) : steps.

(** Goes through the structure of a step that returns or keeps an invariant. *)
Ltac steps := repeat match goal with
  | |- returns (mret _) => apply returns_ret
  | |- returns (mbind _ _) => apply returns_bind; [|intros ?]
  | |- returns (when _ _) => apply returns_when
  | |- returns (if _ then _ else _) => apply returns_if
  | |- returns (match ?x with _ => _ end) => destruct x
  | |- returns (let _ := _ in _) => cbv zeta
  | |- returns _ => solve [auto with steps]
  | |- stable _ (mret _) => apply stable_ret
  | |- stable _ (mbind _ _) => apply stable_bind; [|intros ?]
  | |- stable _ (when _ _) => apply stable_when
  | |- stable _ (if _ then _ else _) => apply stable_if
  | |- stable _ (match ?x with _ => _ end) => destruct x
  | |- stable _ (let _ := _ in _) => cbv zeta
  | |- stable _ crash => apply stable_crash
  | |- stable _ (exit _) => apply stable_exit
  | |- stable _ _ => solve [auto with steps]
  end.

Section LibSteps.
Context {Ev : Env} (P : string -> bool).

Lemma returns_playAudio ok f d : returns (IRIS_playAudio ok f d).
Proof. unfold IRIS_playAudio, playAudio, usleep. steps. Qed.

Lemma returns_printed c : returns (printed_line c).
Proof. unfold printed_line. steps. Qed.

Lemma returns_connected intf : returns (IRIS_isIntfConnected intf).
Proof. apply returns_printed. Qed.

Lemma returns_ip_up intf : returns (IRIS_isIntfIPUp intf).
Proof. apply returns_printed. Qed.

Lemma sofar_playAudio l ok f d : (forall s, P (snprintf 256 (AUDIO_APP +:+ s)) = false) -> stable (sofar P l) (IRIS_playAudio ok f d).
Proof.
  intros HP. unfold IRIS_playAudio, playAudio, usleep. steps; try (by apply sofar_emit). apply sofar_other. exact (HP (" " +:+ f +:+ " > /dev/null 2>&1")).
Qed.

Lemma sofar_printed l c : stable (sofar P l) (printed_line c).
Proof. unfold printed_line. steps. Qed.

End LibSteps.

#[export] Hint Resolve returns_playAudio returns_printed returns_connected returns_ip_up sofar_printed : steps.
