(* ===== verification/Streams.v ===== *)
(** * Lines of a stream

    What successive calls of [fgets] return, for output made of lines. *)
From Stdlib Require Import ZArith String Ascii Lia Bool List.
From stdpp Require Import base gmap strings list numbers.
From S2P Require Import Prelude CLib Os.

Local Open Scope string_scope.
Local Open Scope Z_scope.

(** What successive calls of [fgets] with a buffer of [n] bytes return. *)
Fixpoint fgets_all (fuel n : nat) (s : string) : list string :=
  match fuel with
  | O => []
  | S f => match fgets n s with Some l => l :: fgets_all f n (sdrop (String.length l) s) | None => [] end
  end.

Lemma first_line_prefix s : exists r, s = first_line s +:+ r.
Proof.
  induction s as [|c s [r IH]]; [by exists ""|]. cbn. destruct (Ascii.eqb c LF); [by exists s|].
  exists r. cbn. by f_equal.
Qed.

Lemma fgets_split n s l : fgets n s = Some l -> s = l +:+ sdrop (String.length l) s.
Proof.
  unfold fgets. destruct s as [|c s]; [done|]. intros [= <-]. destruct (first_line_prefix (String c s)) as [r Hr].
  set (t := first_line (String c s)) in *. rewrite <- (stake_sdrop (n - 1) t) in Hr. rewrite sapp_assoc in Hr.
  rewrite Hr at 1. f_equal. rewrite Hr. by rewrite sdrop_app.
Qed.

Lemma fgets_nonempty n s l : (2 <= n)%nat -> fgets n s = Some l -> (0 < String.length l)%nat.
Proof.
  unfold fgets. intros Hn. destruct s as [|c s]; [done|]. intros [= <-]. rewrite stake_len. cbn.
  destruct (Ascii.eqb c LF); cbn; lia.
Qed.

(** The lines are the whole output. *)
Lemma fgets_all_concat n : (2 <= n)%nat -> forall fuel s, (String.length s <= fuel)%nat ->
  fold_right String.append "" (fgets_all fuel n s) = s.
Proof.
  intros Hn fuel. induction fuel as [|f IH]; intros s Hs; [destruct s; [done|cbn in Hs; lia]|]. cbn [fgets_all].
  destruct (fgets n s) as [l|] eqn:E; [|by destruct s]. cbn [fold_right].
  pose proof (fgets_split n s l E) as Hsp. pose proof (fgets_nonempty n s l Hn E).
  rewrite IH; [done|]. rewrite sdrop_len. lia.
Qed.

(** ** Lines of a text *)

Definition is_line (l : string) : Prop :=
  exists body, l = body +:+ String LF "" /\ all_chars (fun c => negb (Ascii.eqb c LF)) body = true /\ (String.length l < 256)%nat.

(** The same as a test. *)
Fixpoint ends_line (s : string) : bool :=
  match s with
  | EmptyString => false
  | String c EmptyString => Ascii.eqb c LF
  | String c s' => negb (Ascii.eqb c LF) && ends_line s'
  end.

Lemma ends_line_body s : ends_line s = true ->
  exists body, s = body +:+ String LF "" /\ all_chars (fun c => negb (Ascii.eqb c LF)) body = true.
Proof.
  induction s as [|c s IH]; [done|]. destruct s as [|d s].
  - cbn. intros H. to_prop. subst. by exists "".
  - intros H. cbn [ends_line] in H. apply andb_true_iff in H as [Hc Hs]. destruct (IH Hs) as (body & -> & Hb).
    exists (String c body). split; [done|]. cbn. by rewrite Hc.
Qed.

Lemma is_lineb_lines l : forallb (fun s => ends_line s && (String.length s <? 256)%nat) l = true -> Forall is_line l.
Proof.
  intros H. apply Forall_forall. intros s Hs. rewrite forallb_forall in H. specialize (H s Hs). apply andb_true_iff in H as [H Hl].
  to_prop. destruct (ends_line_body s H) as (body & -> & Hb). by exists body.
Qed.

Lemma first_line_line body r : all_chars (fun c => negb (Ascii.eqb c LF)) body = true ->
  first_line (body +:+ String LF r) = body +:+ String LF "".
Proof.
  induction body as [|c body IH]; [done|]. cbn [all_chars String.append first_line]. intros H. to_prop.
  rewrite (proj2 (Ascii.eqb_neq c LF)) by done. by rewrite IH.
Qed.

Lemma fgets_line l r : is_line l -> fgets 256 (l +:+ r) = Some l.
Proof.
  intros (body & -> & Hb & Hl). rewrite sapp_assoc. cbn [String.append]. unfold fgets.
  rewrite first_line_line by done. rewrite stake_all by lia. by destruct body.
Qed.

(** The calls of [fgets] give the lines of the output. *)
Lemma fgets_all_lines lines : Forall is_line lines -> forall fuel, (List.length lines < fuel)%nat ->
  fgets_all fuel 256 (fold_right String.append "" lines) = lines.
Proof.
  intros H. induction H as [|l lines Hl Hlines IH]; intros fuel Hf; (destruct fuel as [|f]; [lia|]); [done|].
  cbn [fgets_all fold_right]. rewrite fgets_line by done. rewrite sdrop_app. rewrite IH; [done|]. cbn in Hf. lia.
Qed.

Lemma lines_length lines : Forall is_line lines -> (List.length lines <= String.length (fold_right String.append "" lines))%nat.
Proof.
  intros H. induction H as [|l lines (body & -> & _) Hlines IH]; [done|]. cbn [List.length fold_right].
  rewrite !slen_app. cbn [String.length]. lia.
Qed.

