(* ===== verification/ImageFormat.v ===== *)
(** * build_image.h and build_image.c: the signed firmware image

    The header structure and its bytes, the program that builds an image
    from a firmware archive, and the class [FwTools] of the external
    programs (openssl, sha256sum, cat) both ends of the format run. *)
From Stdlib Require Import ZArith String Ascii Lia Bool.
From stdpp Require Import base gmap strings list numbers.
From S2P Require Import Prelude CLib Os IrisLib.

Local Open Scope string_scope.
Local Open Scope Z_scope.

Definition HEADER_VERSION_0 : Z := 0.
Definition FW_VER_LEN : nat := 24.
Definition FW_MODEL_LEN : nat := 16.
Definition FW_CUSTOMER_LEN : nat := 16.
Definition FW_CKSUM_LEN : nat := 64.
Definition FW_KEY_LEN : nat := 16.
Definition FW_IV_LEN : nat := 16.
Definition SIGNED_HDR_LEN : nat := 512.

(** The members that hold text are C strings. *)
Record fw_header := FwHeader {
  header_version : Z;
  image_size : Z;
  fw_version : string;
  fw_model : string;
  fw_customer : string;
  fw_cksum : string;
  fw_key : string;
  fw_iv : string }.

Definition byte_char (x : Z) : ascii := ascii_of_N (Z.to_N (u8 x)).

(** The memory of [htons(x)] and [htonl(x)]. *)
Definition htons (x : Z) : string := String (byte_char (Z.shiftr x 8)) (String (byte_char x) "").
Definition htonl (x : Z) : string :=
  String (byte_char (Z.shiftr x 24)) (String (byte_char (Z.shiftr x 16))
    (String (byte_char (Z.shiftr x 8)) (String (byte_char x) ""))).

(** A zeroed array of [n] bytes after a C string was stored in it. *)
Definition char_array (n : nat) (s : string) : string := stake n (s +:+ zeros n).

(** The structure in memory, with the two bytes that pad it to a multiple of four. *)
Definition header_bytes (h : fw_header) : string :=
  htons (header_version h) +:+ htons 0 +:+ htonl (image_size h) +:+
  char_array FW_VER_LEN (fw_version h) +:+
  char_array FW_MODEL_LEN (fw_model h) +:+
  char_array FW_CUSTOMER_LEN (fw_customer h) +:+
  char_array (FW_CKSUM_LEN + 2) (fw_cksum h) +:+
  char_array (FW_KEY_LEN * 2 + 2) (fw_key h) +:+
  char_array (FW_IV_LEN * 2 + 2) (fw_iv h) +:+ zeros 2.

Definition sizeof_header : nat := 200.

(** Members of a header in memory, read as C strings. *)
Definition hdr_version (s : string) : string := cstr (sdrop 8 s).
Definition hdr_model (s : string) : string := cstr (sdrop 32 s).
Definition hdr_customer (s : string) : string := cstr (sdrop 48 s).
Definition hdr_cksum (s : string) : string := stake 64 (sdrop 64 s).
Definition hdr_key (s : string) : string := cstr (sdrop 130 s).
Definition hdr_iv (s : string) : string := cstr (sdrop 164 s).

(** ** build_image.c *)

Definition BUILD_PRIVATE_KEY : string := "iris-fwsign-nopass.key".
Definition HEADER_ORIG_FILE : string := "header.aes".
Definition BUILD_SIGNED_FILE : string := "header.signed".
Definition IMAGE_ENCRYPT_FILE : string := "image.encrypted".

Definition validate_model (model : option string) : option string :=
  match model with
  | None => Some DEFAULT_MODEL
  | Some m => if strncmp0 m DEFAULT_MODEL (String.length DEFAULT_MODEL) then Some DEFAULT_MODEL else None
  end.

Definition validate_customer (customer : option string) : option string :=
  match customer with
  | Some c =>
      if strncmp0 c CUSTOMER_ALL (String.length CUSTOMER_ALL) then Some c
      else if strncmp0 c DEFAULT_CUSTOMER (String.length DEFAULT_CUSTOMER + 1) then Some DEFAULT_CUSTOMER
      else None
  | None => Some DEFAULT_CUSTOMER
  end.

(** [%03d] of a small number *)
Definition dec3 (x : Z) : string :=
  let s := dec x in (if x <? 10 then "00" else if x <? 100 then "0" else "") +:+ s.

Definition version_text : string :=
  dec VERSION_MAJOR +:+ "." +:+ dec VERSION_MINOR +:+ "." +:+ dec VERSION_POINT +:+ "." +:+
  dec3 VERSION_BUILD +:+ VERSION_SUFFIX.

(** Command lines *)
Definition sha_cmd (f : string) : string := "sha256sum -b " +:+ f.
Definition rand_cmd (n : nat) : string := "openssl rand -hex " +:+ dec (Z.of_nat n).
Definition sign_cmd : string :=
  "openssl rsautl -sign -inkey " +:+ BUILD_PRIVATE_KEY +:+ " -in " +:+ HEADER_ORIG_FILE +:+ " -out " +:+ BUILD_SIGNED_FILE.
Definition encrypt_cmd (f key iv : string) : string :=
  "openssl aes-128-cbc -in " +:+ f +:+ " -out " +:+ IMAGE_ENCRYPT_FILE +:+ " -e -K " +:+ key +:+ " -iv " +:+ iv +:+ " -e".
Definition image_name (prefix : string) : string := prefix +:+ "_" +:+ version_text +:+ ".bin".
Definition cat_cmd (prefix : string) : string :=
  "cat " +:+ BUILD_SIGNED_FILE +:+ " " +:+ IMAGE_ENCRYPT_FILE +:+ " > " +:+ image_name prefix.

(** What [getopt] returns, with its argument. *)
Inductive build_opt := BHelp | BModel (a : string) | BPrefix (a : string) | BCustomer (a : string) | BBad.

(** [inl]: the program ends in the option loop. *)
Fixpoint build_opts (opts : list build_opt) (model prefix customer : option string)
    : Z + (option string * option string * option string) :=
  match opts with
  | [] => inr (model, prefix, customer)
  | BHelp :: _ => inl 0
  | BModel a :: r => build_opts r (Some a) prefix customer
  | BPrefix a :: r => build_opts r model (Some a) customer
  | BCustomer a :: r => build_opts r model prefix (Some a)
  | BBad :: _ => inl 1
  end.

Section Build.
Context `{Env}.

(** [popen], [fscanf("%s")] into an array of [size] bytes, [pclose]; exit code 1 on failure. *)
Definition popen_word (cmd buffer : string) (size : nat) : M string :=
  f ← popen (snprintf 256 cmd);
  match f with
  | None => exit 1
  | Some out =>
      match scan_s out with
      | None => exit 1
      | Some t => _ ← store_token buffer size t; mret t
      end
  end.

(** [if (system(cmd)) exit(1)] *)
Definition system_or_exit (cmd : string) : M unit :=
  st ← system (snprintf 256 cmd);
  if negb (st =? 0) then exit 1 else mret tt.

(** Signing, encrypting and joining; the temporary files go. *)
Definition build_commands (filearg key iv prefix : string) : M Z :=
  _ ← system_or_exit sign_cmd;
  _ ← system_or_exit (encrypt_cmd filearg key iv);
  _ ← system_or_exit (cat_cmd prefix);
  _ ← unlink HEADER_ORIG_FILE;
  _ ← unlink BUILD_SIGNED_FILE;
  _ ← unlink IMAGE_ENCRYPT_FILE;
  mret 0.

Definition build_main (filearg model customer prefix : string) : M Z :=
  st ← stat filearg;
  match st with
  | None => exit 1
  | Some st_size =>
      cksum ← popen_word (sha_cmd filearg) "fw_cksum" (FW_CKSUM_LEN + 2);
      key ← popen_word (rand_cmd FW_KEY_LEN) "fw_key" (FW_KEY_LEN * 2 + 2);
      iv ← popen_word (rand_cmd FW_IV_LEN) "fw_iv" (FW_IV_LEN * 2 + 2);
      let header :=
        FwHeader HEADER_VERSION_0 (u32 st_size) (snprintf FW_VER_LEN ("v" +:+ version_text))
          (snprintf FW_MODEL_LEN model) (snprintf FW_CUSTOMER_LEN customer) cksum key iv in
      o ← fopen_w HEADER_ORIG_FILE;
      if negb o then exit 1 else
      n ← fwrite HEADER_ORIG_FILE (header_bytes header);
      if negb (n =? sizeof_header)%nat then exit 1 else
      build_commands filearg key iv prefix
  end.

Definition build_image (opts : list build_opt) (filearg : option string) : M Z :=
  match build_opts opts None None None with
  | inl code => exit code
  | inr (model, prefix, customer) =>
      match filearg with
      | None => exit 1
      | Some f =>
          match validate_model model with
          | None => exit 1
          | Some m =>
              match validate_customer customer with
              | None => exit 1
              | Some c => build_main f m c (default DEFAULT_PREFIX prefix)
              end
          end
      end
  end.

End Build.

(** ** The bytes of a header *)

Lemma char_array_len n s : String.length (char_array n s) = n.
Proof. unfold char_array. rewrite stake_len, slen_app, zeros_len. lia. Qed.

Lemma zeros_add a b : zeros (a + b) = zeros a +:+ zeros b.
Proof. induction a; cbn; [done|]. by f_equal. Qed.

Lemma stake_zeros n m : stake n (zeros m) = zeros (Nat.min n m).
Proof. revert m. induction n as [|n IH]; intros [|m]; cbn; try done. by rewrite IH. Qed.

Lemma stake_app_ge n a b : (String.length a <= n)%nat -> stake n (a +:+ b) = a +:+ stake (n - String.length a) b.
Proof.
  revert n. induction a as [|c a IH]; intros n; cbn [String.length String.append]; intros Hn.
  - by rewrite Nat.sub_0_r.
  - destruct n as [|n]; [lia|]. cbn [stake Nat.sub]. by rewrite IH by lia.
Qed.

Lemma cstr_char_array n s rest :
  nul_free s = true -> (String.length s < n)%nat -> cstr (char_array n s +:+ rest) = s.
Proof.
  intros Hs Hl. unfold char_array. rewrite stake_app_ge, stake_zeros by lia.
  replace (Nat.min (n - String.length s) n) with (S (n - String.length s - 1)) by lia.
  cbn [zeros]. rewrite sapp_assoc. cbn [String.append]. by apply cstr_app.
Qed.

Lemma stake_char_array n k s rest :
  (k <= String.length s)%nat -> (String.length s <= n)%nat -> stake k (char_array n s +:+ rest) = stake k s.
Proof.
  intros Hk Hl. unfold char_array. rewrite (stake_app_ge n) by lia. rewrite sapp_assoc. by apply stake_app_le.
Qed.

Lemma sdrop_at n a b : String.length a = n -> sdrop n (a +:+ b) = b.
Proof. intros <-. apply sdrop_app. Qed.

(** The texts of a header that fit their arrays. *)
Record header_ok (h : fw_header) : Prop := {
  ok_version : nul_free (fw_version h) = true /\ (String.length (fw_version h) < FW_VER_LEN)%nat;
  ok_model : nul_free (fw_model h) = true /\ (String.length (fw_model h) < FW_MODEL_LEN)%nat;
  ok_customer : nul_free (fw_customer h) = true /\ (String.length (fw_customer h) < FW_CUSTOMER_LEN)%nat;
  ok_cksum : String.length (fw_cksum h) = FW_CKSUM_LEN;
  ok_key : nul_free (fw_key h) = true /\ String.length (fw_key h) = (FW_KEY_LEN * 2)%nat;
  ok_iv : nul_free (fw_iv h) = true /\ String.length (fw_iv h) = (FW_IV_LEN * 2)%nat }.

Lemma header_bytes_len h : String.length (header_bytes h) = sizeof_header.
Proof. unfold header_bytes. rewrite !slen_app, !char_array_len. done. Qed.

Lemma header_members h : header_ok h ->
  hdr_version (header_bytes h) = fw_version h /\ hdr_model (header_bytes h) = fw_model h /\
  hdr_customer (header_bytes h) = fw_customer h /\ hdr_cksum (header_bytes h) = fw_cksum h /\
  hdr_key (header_bytes h) = fw_key h /\ hdr_iv (header_bytes h) = fw_iv h.
Proof.
  intros [[Hv1 Hv2] [Hm1 Hm2] [Hc1 Hc2] Hs [Hk1 Hk2] [Hi1 Hi2]].
  unfold hdr_version, hdr_model, hdr_customer, hdr_cksum, hdr_key, hdr_iv.
  pose (iv := char_array (FW_IV_LEN * 2 + 2) (fw_iv h) +:+ zeros 2).
  pose (key := char_array (FW_KEY_LEN * 2 + 2) (fw_key h) +:+ iv).
  pose (ck := char_array (FW_CKSUM_LEN + 2) (fw_cksum h) +:+ key).
  pose (cu := char_array FW_CUSTOMER_LEN (fw_customer h) +:+ ck).
  pose (mo := char_array FW_MODEL_LEN (fw_model h) +:+ cu).
  assert (E0 : sdrop 8 (header_bytes h) = char_array FW_VER_LEN (fw_version h) +:+ mo) by done.
  assert (E1 : sdrop 32 (header_bytes h) = mo)
    by (rewrite <- (sdrop_sdrop 24 8), E0; apply sdrop_at, char_array_len).
  assert (E2 : sdrop 48 (header_bytes h) = cu)
    by (rewrite <- (sdrop_sdrop 16 32), E1; apply sdrop_at, char_array_len).
  assert (E3 : sdrop 64 (header_bytes h) = ck)
    by (rewrite <- (sdrop_sdrop 16 48), E2; apply sdrop_at, char_array_len).
  assert (E4 : sdrop 130 (header_bytes h) = key)
    by (rewrite <- (sdrop_sdrop 66 64), E3; apply sdrop_at, char_array_len).
  assert (E5 : sdrop 164 (header_bytes h) = iv)
    by (rewrite <- (sdrop_sdrop 34 130), E4; apply sdrop_at, char_array_len).
  rewrite E0, E1, E2, E3, E4, E5.
  split_and!; [by apply cstr_char_array..| | |].
  - unfold ck. rewrite stake_char_array by (rewrite Hs; unfold FW_CKSUM_LEN; lia). apply stake_all. by rewrite Hs.
  - apply cstr_char_array; [done|]. rewrite Hk2. unfold FW_KEY_LEN. lia.
  - apply cstr_char_array; [done|]. rewrite Hi2. unfold FW_IV_LEN. lia.
Qed.

(** ** The external programs *)

Definition is_hex (c : ascii) : bool :=
  let n := N_of_ascii c in (((48 <=? n) && (n <=? 57)) || ((97 <=? n) && (n <=? 102)))%N.

(** The algorithms: SHA-256 in hexadecimal, RSA with a 4096-bit key and PKCS #1 padding,
    AES-128 in CBC mode with padding. *)
Class Crypto := {
  sha256 : string -> string;
  rsa_sign : string -> string;
  rsa_verify : string -> option string;
  aes_enc : string -> string -> string -> string;
  aes_dec : string -> string -> string -> option string;
  sha256_len : forall d, String.length (sha256 d) = FW_CKSUM_LEN;
  sha256_hex : forall d, all_chars is_hex (sha256 d) = true;
  rsa_sign_len : forall h, (String.length h <= 501)%nat -> String.length (rsa_sign h) = SIGNED_HDR_LEN;
  rsa_verify_sign : forall h, (String.length h <= 501)%nat -> rsa_verify (rsa_sign h) = Some h;
  aes_dec_enc : forall k iv d, aes_dec k iv (aes_enc k iv d) = Some d }.

(** sha256sum prints the checksum and the name of a file it can read. *)
Definition sha_law `{Env} `{Crypto} (f : string) : Prop := forall w,
  pipe (sha_cmd f) w =
  Some (match get f w with Some d => sha256 d +:+ " *" +:+ f +:+ String LF "" | None => "" end).

Lemma hex_not_special c : is_hex c = true -> isspace c = false /\ Ascii.eqb c NUL = false.
Proof. destruct c as [[] [] [] [] [] [] [] []]; cbn; done. Qed.

Lemma scan_s_hex t c rest :
  all_chars is_hex t = true -> t <> "" -> isspace c = true -> scan_s (t +:+ String c rest) = Some t.
Proof.
  intros Ht Hne Hc. unfold scan_s.
  assert (skip_ws (t +:+ String c rest) = t +:+ String c rest) as ->.
  { destruct t as [|x t]; [done|]. cbn in Ht. to_prop. cbn.
    match goal with E : is_hex x = true |- _ => by destruct (hex_not_special x E) as [-> _] end. }
  assert (span_token (t +:+ String c rest) = (t, String c rest)) as ->.
  { clear Hne. induction t as [|x t IH]; [cbn; by rewrite Hc|]. cbn in Ht. to_prop. cbn.
    match goal with E : is_hex x = true |- _ => destruct (hex_not_special x E) as [-> _] end. by rewrite IH. }
  by destruct t.
Qed.

Lemma hex_nul_free t : all_chars is_hex t = true -> nul_free t = true.
Proof.
  unfold nul_free. induction t as [|c t IH]; cbn; [done|]. intros H. to_prop.
  match goal with E : is_hex c = true |- _ => destruct (hex_not_special c E) as [_ ->] end. by rewrite IH.
Qed.
