(* ===== verification/ValidateImage.v ===== *)
(** * validate_image.c: checking and decrypting a firmware image

    The program, the laws of the commands it runs, and its properties:
    what an accepted image satisfies, what a rejection leaves behind, and
    that an image built by build_image is accepted and decrypts to the
    archive it was built from. *)
From Stdlib Require Import ZArith String Ascii Lia Bool.
From stdpp Require Import base gmap strings list numbers.
From S2P Require Import Prelude CLib Os IrisLib ImageFormat.

Local Open Scope string_scope.
Local Open Scope Z_scope.

Definition HEADER_SIGNED_FILE : string := "/tmp/header.signed".
Definition HEADER_FILE : string := "/tmp/header.verified".
Definition FW_ENCRYPT_FILE : string := "/tmp/firmware.encrypt".

Definition led_cmd (mode : string) : string := "echo " +:+ mode +:+ " > " +:+ LED_MODE_FILE.
Definition verify_cmd : string :=
  "openssl rsautl -verify -in " +:+ HEADER_SIGNED_FILE +:+ " -pubin -inkey " +:+ BUILD_PUBLIC_KEY +:+ " -out " +:+ HEADER_FILE.
Definition decrypt_cmd (key iv : string) : string :=
  "openssl aes-128-cbc -in " +:+ FW_ENCRYPT_FILE +:+ " -out " +:+ FW_INSTALL_FILE +:+ " -e -K " +:+ key +:+ " -iv " +:+ iv +:+ " -d".

(** The option loop: what [getopt] returns; [inl] ends the program. *)
Fixpoint validate_opts (opts : list ascii) (skip mfgMode : bool) : Z + (bool * bool) :=
  match opts with
  | [] => inr (skip, mfgMode)
  | c :: r =>
      if Ascii.eqb c "h" then inl 0
      else if Ascii.eqb c "m" then validate_opts r skip true
      else if Ascii.eqb c "s" then validate_opts r true mfgMode
      else inl INSTALL_ARG_ERR
  end.

Section Validate.
Context `{Env}.

(** [fopen], [fscanf("%s", buf)], [fclose] of a configuration file. *)
Definition read_config (path : string) : M string :=
  f ← fopen_r path;
  match f with
  | None => throw INSTALL_DECRYPT_ERR
  | Some s =>
      match scan_s s with
      | None => throw INSTALL_DECRYPT_ERR
      | Some t => _ ← store_token "buf" 256 t; mret t
      end
  end.

(** Writing an extracted part of the image to a temporary file. *)
Definition extract (path data : string) : M unit :=
  o ← fopen_w path;
  if negb o then throw INSTALL_DECRYPT_ERR
  else
    n ← fwrite path data;
    if negb (n =? String.length data)%nat then throw INSTALL_DECRYPT_ERR else mret tt.

(** [if (system(cmd)) { res = code; goto error_exit; }] *)
Definition system_or (cmd : string) (code : Z) : M unit :=
  st ← system (snprintf 256 cmd);
  if negb (st =? 0) then throw code else mret tt.

(** Signature: the verified header. *)
Definition verified_header (map : string) : M string :=
  _ ← extract HEADER_SIGNED_FILE (stake SIGNED_HDR_LEN (map +:+ zeros SIGNED_HDR_LEN));
  _ ← system_or verify_cmd INSTALL_HDR_SIG_ERR;
  f ← fopen_r HEADER_FILE;
  match f with
  | None => throw INSTALL_DECRYPT_ERR
  | Some s =>
      if (String.length s <? sizeof_header)%nat then throw INSTALL_DECRYPT_ERR
      else mret (stake sizeof_header s)
  end.

(** Version, model and customer: false when the running version is the image's. *)
Definition check_target (skip : bool) (header : string) : M bool :=
  same ← (if skip then mret false
          else buf ← read_config VERSION_FILE;
               mret (strncmp0 buf (hdr_version header) (String.length (hdr_version header))));
  if same : bool then mret false
  else
    buf ← read_config MODEL_FILE;
    if negb (strncmp0 buf (hdr_model header) 4) then throw INSTALL_MODEL_ERR
    else
      buf ← read_config CUSTOMER_FILE;
      let n := String.length (hdr_customer header) in
      if negb (strncmp0 "ALL" (hdr_customer header) n) && negb (strncmp0 buf (hdr_customer header) n)
      then throw INSTALL_CUSTOMER_ERR else mret true.

(** Decryption and checksum.  The checksum is compared over the 64 bytes of [fw_cksum];
    [stack] is what the array held before. *)
Definition decrypt_image (map header stack : string) : M unit :=
  if (String.length map <? SIGNED_HDR_LEN)%nat then crash
  else
    _ ← extract FW_ENCRYPT_FILE (sdrop SIGNED_HDR_LEN map);
    _ ← system_or (decrypt_cmd (hdr_key header) (hdr_iv header)) INSTALL_FW_DECRYPT_ERR;
    f ← popen (snprintf 256 (sha_cmd FW_INSTALL_FILE));
    match f with
    | None => throw INSTALL_DECRYPT_ERR
    | Some out =>
        match scan_s out with
        | None => throw INSTALL_DECRYPT_ERR
        | Some t =>
            _ ← store_token "fw_cksum" 64 t;
            let fw_cksum := stake 64 (t +:+ String NUL (sdrop (String.length t + 1) stack)) in
            if negb (bool_decide (fw_cksum = hdr_cksum header)) then throw INSTALL_CKSUM_ERR else mret tt
        end
    end.

(** [fstat] of a file that is open fails only when the kernel is out of memory. *)
Definition fstat : M bool := malloc_ok.

Definition validate_body (skip mfgMode : bool) (map stack : string) : M Z :=
  known ← fstat;
  _ ← (if known : bool then mret tt else throw INSTALL_FILE_OPEN_ERR);
  _ ← system (snprintf 256 (led_cmd "upgrade-decrypt"));
  mapped ← malloc_ok;
  if (String.length map =? 0)%nat || negb mapped then throw INSTALL_MEMORY_ERR
  else
    header ← verified_header map;
    install ← (if mfgMode then mret true else check_target skip header);
    if install : bool then
      _ ← decrypt_image map header stack;
      _ ← unlink FW_ENCRYPT_FILE;
      _ ← unlink HEADER_SIGNED_FILE;
      _ ← unlink HEADER_FILE;
      mret 0
    else
      _ ← unlink FW_INSTALL_FILE;
      mret 0.

Definition validate_error_exit (res : Z) : M Z :=
  _ ← system (snprintf 256 (led_cmd "upgrade-decrypt-err"));
  _ ← unlink FW_INSTALL_FILE;
  _ ← unlink FW_ENCRYPT_FILE;
  _ ← unlink HEADER_SIGNED_FILE;
  _ ← unlink HEADER_FILE;
  exit res.

Definition validate_image (opts : list ascii) (filearg : option string) (stack : string) : M Z :=
  match validate_opts opts false false with
  | inl code => exit code
  | inr (skip, mfgMode) =>
      match filearg with
      | None => exit INSTALL_ARG_ERR
      | Some f =>
          fd ← fopen_r f;
          match fd with
          | None => exit INSTALL_FILE_OPEN_ERR
          | Some map => catch (validate_body skip mfgMode map stack) validate_error_exit
          end
      end
  end.

End Validate.

(** ** Rejection *)

Definition install_code (z : Z) : Prop := INSTALL_FILE_OPEN_ERR <= z <= INSTALL_CKSUM_ERR.

Section Reject.
Context `{Env}.

Lemma wp_fstat {A} (m : M A) Q w : Q (Throw INSTALL_FILE_OPEN_ERR) w -> wp m Q w ->
  wp (known ← fstat; _ ← (if known : bool then mret tt else throw INSTALL_FILE_OPEN_ERR); m) Q w.
Proof. intros H1 H2. unfold wp, fstat, malloc_ok, mbind, M_bind. by destruct (mem_ok w). Qed.

(** The body ends with 0, with one of its error codes, or in an invalid access. *)
Lemma validate_body_ends skip mfg map stack w :
  wp (validate_body skip mfg map stack)
     (fun r _ => match r with Val z => z = 0 | Throw z => install_code z | Exit _ => False | Crash => True end) w.
Proof.
  unfold validate_body, fstat, verified_header, check_target, decrypt_image, extract, system_or, read_config.
  wp_go; try done; unfold install_code; cbn; try (split; discriminate).
Qed.

Lemma validate_error_exit_clean res w :
  wp (validate_error_exit res) (fun r w' => r = Exit res /\
    Forall (fun p => get p w' = None) [FW_INSTALL_FILE; FW_ENCRYPT_FILE; HEADER_SIGNED_FILE; HEADER_FILE]) w.
Proof.
  unfold validate_error_exit. wp_go. split; [done|].
  repeat (apply Forall_cons_2; [repeat first [apply get_del_eq | apply get_del_none]|]). apply Forall_nil_2.
Qed.
End Reject.

(** C29.  A rejected image leaves nothing behind: whatever the external programs do, when
    validate_image has opened its file and does not return 0, it exits with one of the
    documented error codes, and neither the install file nor a temporary file exists. *)
Theorem validate_image_reject_clean `{Env} opts f stack skip mfg map w r w' :
  validate_opts opts false false = inr (skip, mfg) ->
  get f w = Some map -> rd_ok f w = true ->
  validate_image opts (Some f) stack w = (r, w') -> r <> Val 0 -> r <> Crash ->
  (exists c, r = Exit c /\ install_code c) /\
  Forall (fun p => get p w' = None) [FW_INSTALL_FILE; FW_ENCRYPT_FILE; HEADER_SIGNED_FILE; HEADER_FILE].
Proof.
  intros Ho Hf Hrd Hrun Hr Hc.
  assert (wp (validate_image opts (Some f) stack) (fun r w' => r = Val 0 \/ r = Crash \/
    ((exists c, r = Exit c /\ install_code c) /\
     Forall (fun p => get p w' = None) [FW_INSTALL_FILE; FW_ENCRYPT_FILE; HEADER_SIGNED_FILE; HEADER_FILE])) w) as Hwp.
  { unfold validate_image. rewrite Ho. apply wp_bind, wp_fopen_r; [|intros [E|E]; congruence].
    intros s Hs _. cbn [seq_post]. apply wp_catch. eapply wp_mono; [apply validate_body_ends|].
    intros [z|z|z|] w1; [intros ->; auto| |done|auto]. intros Hz.
    eapply wp_mono; [apply validate_error_exit_clean|]. cbn. intros r2 w2 [-> Hall]. eauto 10. }
  unfold wp in Hwp. rewrite Hrun in Hwp. cbn in Hwp. by destruct Hwp as [?|[?|?]].
Qed.

(** ** Acceptance *)

Definition hex32 (s : string) : Prop := all_chars is_hex s = true /\ String.length s = 32%nat.

(** The commands validate_image runs on the hub. *)
Class HubTools `{Env} `{Crypto} : Prop := {
  hub_local :: ShLocal;
  hub_led : forall mode w, mode = "upgrade-decrypt" \/ mode = "upgrade-decrypt-err" ->
    sh (led_cmd mode) w = (0, fs (put_file LED_MODE_FILE (mode +:+ String LF "") w));
  hub_verify : forall w, sh verify_cmd w =
    match get HEADER_SIGNED_FILE w ≫= rsa_verify with
    | Some h => (0, fs (put_file HEADER_FILE h w))
    | None => (256, fs w)
    end;
  hub_decrypt : forall k iv w, hex32 k -> hex32 iv -> sh (decrypt_cmd k iv) w =
    match get FW_ENCRYPT_FILE w ≫= aes_dec k iv with
    | Some d => (0, fs (put_file FW_INSTALL_FILE d w))
    | None => (256, fs w)
    end;
  hub_sha : sha_law FW_INSTALL_FILE }.

(** The signed part of an image file, as it is written for openssl. *)
Definition signature (map : string) : string := stake SIGNED_HDR_LEN (map +:+ zeros SIGNED_HDR_LEN).

(** The word a configuration file holds. *)
Definition config_word (p : string) (w : world) : option string := get p w ≫= scan_s.

(** An image of this version, model and customer is meant for the hub. *)
Definition hub_wants (skip : bool) (version model customer : string) (w : world) : Prop :=
  (skip = false -> exists v, config_word VERSION_FILE w = Some v /\
     strncmp0 v version (String.length version) = false) /\
  (exists m, config_word MODEL_FILE w = Some m /\ strncmp0 m model 4 = true) /\
  (exists c, config_word CUSTOMER_FILE w = Some c /\
     (strncmp0 "ALL" customer (String.length customer) = true \/
      strncmp0 c customer (String.length customer) = true)).

Definition target_ok (skip : bool) (header : string) (w : world) : Prop :=
  hub_wants skip (hdr_version header) (hdr_model header) (hdr_customer header) w.

Section Accept.
Context {Ev : Env} {Cr : Crypto} {Tools : HubTools}.

Lemma plain_sh c w st s tr : plain w -> sh c w = (st, s) -> plain (World s tr).
Proof. intros P E. destruct (sh_local c w) as [Hm _]. rewrite E in Hm. unfold plain in *. cbn in *. congruence. Qed.

Lemma wp_extract path data Q w :
  plain w -> is_abs path ->
  (forall w1, agree [path] w w1 -> get path w1 = Some data -> Q (Val tt) w1) ->
  (forall z w1, Q (Throw z) w1) -> wp (extract path data) Q w.
Proof.
  intros P Ha HQ HT. unfold extract. wp_go; try apply HT; try done. apply HQ.
  - do 2 (apply agree_put; [|done|set_solver]). by apply agree_refl.
  - rewrite get_put_eq. to_prop. subst. rewrite get_put_eq. cbn. f_equal. by apply stake_all.
Qed.

Lemma wp_verified_header map Q w :
  plain w ->
  (forall h w1, rsa_verify (signature map) = Some h -> (sizeof_header <= String.length h)%nat ->
     agree [HEADER_SIGNED_FILE; HEADER_FILE] w w1 -> Q (Val (stake sizeof_header h)) w1) ->
  (forall z w1, Q (Throw z) w1) -> wp (verified_header map) Q w.
Proof.
  intros P HQ HT. unfold verified_header. apply wp_bind, wp_extract; [done|done| |done].
  intros w1 Hag Hget. cbn [seq_post]. unfold system_or. apply wp_bind, wp_bind.
  change (snprintf 256 verify_cmd) with verify_cmd.
  pose proof (hub_verify w1) as Hv. rewrite Hget in Hv. cbn [mbind option_bind] in Hv.
  fold (signature map) in Hv. destruct (rsa_verify (signature map)) as [h|] eqn:Eh.
  - eapply wp_system; [exact Hv|]. wp_go; try done; try apply HT.
    match goal with E : get HEADER_FILE _ = Some _ |- _ =>
      rewrite (get_fs _ _ (put_file HEADER_FILE h w1)), get_put_eq in E by done; injection E as <- end.
    apply HQ; [done|by apply Nat.ltb_ge|].
    eapply agree_fs; [reflexivity|]. apply agree_put; [|done|set_solver]. eapply agree_mono; [done|set_solver].
  - eapply wp_system; [exact Hv|]. wp_go; try done; try apply HT.
Qed.

Lemma wp_read_config path Q w :
  (forall t w1, config_word path w = Some t -> fs w1 = fs w -> Q (Val t) w1) ->
  (forall z w1, Q (Throw z) w1) -> wp (read_config path) Q w.
Proof.
  intros HQ HT. unfold read_config. wp_go; try apply HT. apply HQ; [|done].
  unfold config_word. by match goal with E : get path w = Some _ |- _ => rewrite E end.
Qed.

Lemma config_word_fs p w w1 : fs w1 = fs w -> config_word p w1 = config_word p w.
Proof. unfold config_word. intros E. by rewrite (get_fs p w1 w). Qed.

Lemma wp_check_target skip header Q w :
  (forall w1, target_ok skip header w -> fs w1 = fs w -> Q (Val true) w1) ->
  (forall w1, fs w1 = fs w -> Q (Val false) w1) ->
  (forall z w1, Q (Throw z) w1) -> wp (check_target skip header) Q w.
Proof.
  intros HQ HF HT. unfold check_target. apply wp_bind.
  assert (forall w1, fs w1 = fs w ->
    (skip = false -> exists v, config_word VERSION_FILE w = Some v /\
       strncmp0 v (hdr_version header) (String.length (hdr_version header)) = false) ->
    wp (buf ← read_config MODEL_FILE;
        if negb (strncmp0 buf (hdr_model header) 4) then throw INSTALL_MODEL_ERR
        else buf ← read_config CUSTOMER_FILE;
             if negb (strncmp0 "ALL" (hdr_customer header) (String.length (hdr_customer header))) &&
                negb (strncmp0 buf (hdr_customer header) (String.length (hdr_customer header)))
             then throw INSTALL_CUSTOMER_ERR else mret true) Q w1) as Hrest.
  { intros w1 E1 Hv. apply wp_bind, wp_read_config; [|done]. intros m w2 Hm E2. cbn [seq_post].
    apply wp_if; [intros; apply HT|]. intros Hmm. apply wp_bind, wp_read_config; [|done].
    intros c w3 Hc E3. cbn [seq_post]. apply wp_if; [intros; apply HT|]. intros Hcc. apply wp_ret, HQ; [|congruence].
    rewrite (config_word_fs _ w w1) in Hm by done. rewrite (config_word_fs _ w w2) in Hc by congruence.
    split_and!; [done|exists m; split; [done|by to_prop]|exists c; split; [done|]].
    apply andb_false_iff in Hcc as [E|E]; to_prop; auto. }
  destruct skip; [apply wp_ret; cbn [seq_post]; by apply Hrest|].
  apply wp_bind, wp_read_config; [|done]. intros v w1 Hv E1. cbn [seq_post]. apply wp_ret. cbn [seq_post].
  apply wp_if; [intros; apply wp_ret; by apply HF|]. intros Hs. apply Hrest; [done|]. eauto.
Qed.

Lemma wp_decrypt_image map header stack Q w :
  plain w ->
  (forall d w1, get FW_INSTALL_FILE w1 = Some d -> sha256 d = hdr_cksum header -> plain w1 -> Q (Val tt) w1) ->
  (forall z w1, Q (Throw z) w1) -> (forall w1, Q Crash w1) -> wp (decrypt_image map header stack) Q w.
Proof.
  intros P HQ HT HC. unfold decrypt_image. apply wp_if; intros; [apply HC|].
  apply wp_bind, wp_extract; [done|done| |done]. intros w1 [P1 _] Hget. cbn [seq_post].
  unfold system_or. wp_step. wp_step. wp_step. cbn [seq_post]. wp_step; [apply HT|]. wp_step. cbn [seq_post].
  assert (plain (World s (trace w1 ++ [Cmd (snprintf 256 (decrypt_cmd (hdr_key header) (hdr_iv header)))]))) as P2
    by (by eapply plain_sh).
  match goal with |- wp _ _ ?w => set (w2 := w) in * end.
  wp_step. wp_step. change (snprintf 256 (sha_cmd FW_INSTALL_FILE)) with (sha_cmd FW_INSTALL_FILE).
  rewrite (hub_sha w2). cbn [seq_post]. destruct (get FW_INSTALL_FILE w2) as [d|] eqn:Hd; [|cbn; apply HT].
  change (" *" +:+ FW_INSTALL_FILE +:+ String LF "") with (String " " ("*" +:+ FW_INSTALL_FILE +:+ String LF "")).
  rewrite scan_s_hex; [|apply sha256_hex|by intros E; pose proof (sha256_len d) as Hl; rewrite E in Hl|done].
  wp_step. wp_step. cbn [seq_post]. wp_step; [apply HT|]. apply wp_ret. to_prop.
  match goal with E : bool_decide _ = true |- _ => apply bool_decide_eq_true in E; rename E into Eck end.
  apply (HQ d); [by rewrite <- Hd; apply get_fs| |done].
  rewrite <- Eck. rewrite stake_app_le by (rewrite sha256_len; done). symmetry. apply stake_all. by rewrite sha256_len.
Qed.

(** What an accepted image satisfies, in the world [w] the program started in. *)
Definition accepted (skip mfg : bool) (map : string) (w w' : world) : Prop :=
  exists h d, rsa_verify (signature map) = Some h /\ (sizeof_header <= String.length h)%nat /\
    get FW_INSTALL_FILE w' = Some d /\ sha256 d = hdr_cksum (stake sizeof_header h) /\
    (mfg = false -> target_ok skip (stake sizeof_header h) w).

Lemma target_ok_agree ps skip header w w1 :
  agree ps w w1 -> Forall (fun p => p ∉ ps) [VERSION_FILE; MODEL_FILE; CUSTOMER_FILE] ->
  target_ok skip header w1 -> target_ok skip header w.
Proof.
  intros [_ H] Hp. unfold target_ok, hub_wants, config_word. forall_hyps.
  by rewrite !(H VERSION_FILE), !(H MODEL_FILE), !(H CUSTOMER_FILE).
Qed.

Lemma get_install_del3 w d : plain w -> get FW_INSTALL_FILE w = Some d ->
  get FW_INSTALL_FILE (del_file HEADER_FILE (del_file HEADER_SIGNED_FILE (del_file FW_ENCRYPT_FILE w))) = Some d.
Proof.
  intros P Hd. rewrite !get_del_ne; [done|..]; rewrite !resolve_plain by done; done.
Qed.

Lemma wp_validate_body skip mfg map stack w :
  plain w ->
  wp (validate_body skip mfg map stack)
     (fun r w' => r = Val 0 -> get FW_INSTALL_FILE w' = None \/ accepted skip mfg map w w') w.
Proof.
  intros P. unfold validate_body. apply wp_fstat; [done|]. wp_step.
  eapply wp_system; [apply (hub_led "upgrade-decrypt"); by left|]. cbn [seq_post].
  wp_step. wp_step. cbn [seq_post]. wp_step; [done|]. wp_step.
  match goal with |- wp _ _ ?w => set (w1 := w) end.
  assert (agree [LED_MODE_FILE] w w1) as Hag1.
  { eapply agree_fs; [reflexivity|]. apply agree_put; [|done|set_solver]. by apply agree_refl. }
  apply wp_verified_header; [apply Hag1| |done]. intros h w2 Hv Hlen Hag2. cbn [seq_post].
  pose proof (agree_trans _ _ _ _ _ Hag1 Hag2) as Hag. cbn [app] in Hag.
  assert (forall w3, plain w3 -> (mfg = false -> target_ok skip (stake sizeof_header h) w2) ->
    wp (_ ← decrypt_image map (stake sizeof_header h) stack; _ ← unlink FW_ENCRYPT_FILE;
        _ ← unlink HEADER_SIGNED_FILE; _ ← unlink HEADER_FILE; mret 0)
       (fun r w' => r = Val 0 -> get FW_INSTALL_FILE w' = None \/ accepted skip mfg map w w') w3) as Hdec.
  { intros w3 P3 Ht. wp_step. apply wp_decrypt_image; [done| |done|done]. intros d w4 Hd Hs P4. wp_go.
    intros _. right. exists h, d. split_and!; try done; [by apply get_install_del3|].
    intros Hm. eapply target_ok_agree; [exact Hag| |by apply Ht]. by repeat constructor; set_solver. }
  wp_step. destruct mfg.
  - wp_step. cbn [seq_post]. apply Hdec; [apply Hag|done].
  - apply wp_check_target; [| |done]; cbn [seq_post].
    + intros w3 Ht E3. apply Hdec; [|done]. unfold plain. rewrite E3. apply Hag.
    + intros w3 E3. wp_go. intros _. left. apply get_del_eq.
Qed.

(** The whole program: it ends with one of its codes, and 0 means an accepted image or none. *)
Lemma wp_validate_image opts f stack skip mfg map w :
  validate_opts opts false false = inr (skip, mfg) -> plain w -> get f w = Some map ->
  wp (validate_image opts (Some f) stack) (fun r w' =>
    match r with
    | Val z => z = 0 /\ (get FW_INSTALL_FILE w' = None \/ accepted skip mfg map w w')
    | Exit z => INSTALL_FILE_OPEN_ERR <= z <= INSTALL_CKSUM_ERR
    | Throw _ => False
    | Crash => True
    end) w.
Proof.
  intros Ho P Hf. unfold validate_image. rewrite Ho. apply wp_bind, wp_fopen_r; [|done].
  intros s Hs _. rewrite Hf in Hs. injection Hs as <-. cbn [seq_post]. apply wp_catch.
  eapply wp_mono; [apply wp_and; [by apply wp_validate_body|apply validate_body_ends]|].
  intros [z|z|z|] w1 [H1 H2]; try done; [subst z; by auto|].
  eapply wp_mono; [apply validate_error_exit_clean|]. cbn. intros r2 w2 [-> _].
  unfold install_code in H2. unfold INSTALL_MEMORY_ERR, INSTALL_FILE_OPEN_ERR in *. lia.
Qed.
End Accept.

(** C1.  Nothing unauthenticated is left for installation: when validate_image returns 0, either
    there is no install file (the running version is the image's), or the install file is a
    text whose SHA-256 is the one in a header that the signature of the image's first 512
    bytes authenticates, and, outside manufacturing mode, that header names this hub's model
    and customer and, unless skipped, another version. *)
Theorem validate_image_sound {Ev : Env} {Cr : Crypto} {Tools : HubTools} opts f stack skip mfg map w :
  validate_opts opts false false = inr (skip, mfg) -> plain w -> get f w = Some map ->
  fst (validate_image opts (Some f) stack w) = Val 0 ->
  let w' := snd (validate_image opts (Some f) stack w) in
  get FW_INSTALL_FILE w' = None \/ accepted skip mfg map w w'.
Proof.
  intros Ho P Hf Hv. pose proof (wp_validate_image opts f stack skip mfg map w Ho P Hf) as Hw.
  unfold wp in Hw. rewrite Hv in Hw. apply Hw.
Qed.

(** ** Images made by build_image *)

(** The bytes of the image build_image makes of the archive [d]. *)
Definition image_of `{Crypto} (h : fw_header) (d : string) : string :=
  rsa_sign (header_bytes h) +:+ aes_enc (fw_key h) (fw_iv h) d.

Section Roundtrip.
Context {Ev : Env} {Cr : Crypto} {Tools : HubTools} (Hh : healthy).

Lemma wp_extract_ok path data Q w :
  plain w -> is_abs path ->
  (forall w1, agree [path] w w1 -> get path w1 = Some data -> Q (Val tt) w1) -> wp (extract path data) Q w.
Proof.
  intros P Ha HQ. unfold extract. wp_step. apply (wp_fopen_w_ok Hh). cbn [seq_post negb]. wp_step.
  apply (wp_fwrite_ok Hh). cbn [seq_post]. rewrite Nat.eqb_refl. cbn [negb]. apply wp_ret, HQ.
  - do 2 (apply agree_put; [|done|set_solver]). by apply agree_refl.
  - rewrite !get_put_eq. done.
Qed.

Lemma header_bytes_small h : (String.length (header_bytes h) <= 501)%nat.
Proof. rewrite header_bytes_len. unfold sizeof_header. lia. Qed.

Lemma signature_image h d : signature (image_of h d) = rsa_sign (header_bytes h).
Proof.
  pose proof (rsa_sign_len _ (header_bytes_small h)) as Hl. unfold signature, image_of.
  rewrite sapp_assoc, stake_app_le by lia. apply stake_all. lia.
Qed.

Lemma wp_verified_ok h d Q w :
  plain w ->
  (forall w1, agree [HEADER_SIGNED_FILE; HEADER_FILE] w w1 -> Q (Val (header_bytes h)) w1) ->
  wp (verified_header (image_of h d)) Q w.
Proof.
  intros P HQ. unfold verified_header. fold (signature (image_of h d)). rewrite signature_image.
  apply wp_bind, wp_extract_ok; [done|done|]. intros w1 Hag Hget. cbn [seq_post].
  unfold system_or. wp_step. wp_step. change (snprintf 256 verify_cmd) with verify_cmd.
  pose proof (hub_verify w1) as Hv. rewrite Hget in Hv. cbn [mbind option_bind] in Hv.
  rewrite rsa_verify_sign in Hv by apply header_bytes_small.
  eapply wp_system; [exact Hv|]. cbn [seq_post Z.eqb negb]. wp_step. cbn [seq_post]. wp_step.
  eapply (wp_fopen_r_some Hh); [rewrite (get_fs _ _ (put_file HEADER_FILE (header_bytes h) w1)) by done; apply get_put_eq|].
  cbn [seq_post]. rewrite header_bytes_len. change (sizeof_header <? sizeof_header)%nat with false. cbn iota. wp_step.
  rewrite stake_all by (by rewrite header_bytes_len). apply HQ.
  eapply agree_fs; [reflexivity|]. apply agree_put; [|done|set_solver]. eapply agree_mono; [done|set_solver].
Qed.

Lemma wp_read_config_ok path t Q w :
  config_word path w = Some t -> (forall w1, fs w1 = fs w -> Q (Val t) w1) -> wp (read_config path) Q w.
Proof.
  unfold config_word. intros Hw HQ. destruct (get path w) as [s|] eqn:Hs; [|done]. cbn in Hw.
  unfold read_config. wp_step. eapply (wp_fopen_r_some Hh); [done|]. cbn [seq_post]. rewrite Hw.
  wp_step. wp_step. cbn [seq_post]. wp_step. by apply HQ.
Qed.

Lemma wp_check_target_ok skip header Q w :
  target_ok skip header w -> (forall w1, fs w1 = fs w -> Q (Val true) w1) -> wp (check_target skip header) Q w.
Proof.
  intros (Hv & (m & Hm & Hm4) & (c & Hc & Hcc)) HQ. unfold check_target. wp_step.
  assert (wp (if skip then mret false else buf ← read_config VERSION_FILE;
       mret (strncmp0 buf (hdr_version header) (String.length (hdr_version header))))
    (fun r w1 => r = Val false /\ fs w1 = fs w) w) as Hs.
  { destruct skip; [by wp_step|]. destruct (Hv eq_refl) as (v & Hv1 & Hv2). wp_step.
    eapply wp_read_config_ok; [done|]. intros w1 E1. cbn [seq_post]. wp_step. by rewrite Hv2. }
  eapply wp_mono; [exact Hs|]. intros r w1 [-> E1]. cbn [seq_post]. wp_step.
  apply (wp_read_config_ok MODEL_FILE m); [by rewrite (config_word_fs _ w)|].
  intros w2 E2. cbn [seq_post]. rewrite Hm4. cbn [negb]. wp_step.
  apply (wp_read_config_ok CUSTOMER_FILE c); [rewrite (config_word_fs _ w) by congruence; done|].
  intros w3 E3. cbn [seq_post].
  replace (negb _ && negb _) with false by (destruct Hcc as [-> | ->]; cbn; by rewrite ?andb_false_r).
  wp_step. apply HQ. congruence.
Qed.

Lemma wp_decrypt_ok h d stack Q w :
  plain w -> header_ok h -> fw_cksum h = sha256 d -> hex32 (fw_key h) -> hex32 (fw_iv h) ->
  (forall w1, plain w1 -> get FW_INSTALL_FILE w1 = Some d -> Q (Val tt) w1) ->
  wp (decrypt_image (image_of h d) (header_bytes h) stack) Q w.
Proof.
  intros P Hok Hck Hk Hi HQ. destruct (header_members h Hok) as (_ & _ & _ & Eck & Ek & Ei).
  pose proof (rsa_sign_len _ (header_bytes_small h)) as Hl. unfold decrypt_image, system_or.
  rewrite Ek, Ei, Eck. unfold image_of at 1 2. rewrite slen_app, Hl.
  rewrite (proj2 (Nat.ltb_ge _ _)) by lia. rewrite <- Hl, sdrop_app.
  wp_step. apply wp_extract_ok; [done|done|]. intros w1 [P1 _] Hget. cbn [seq_post]. wp_step. wp_step.
  assert (snprintf 256 (decrypt_cmd (fw_key h) (fw_iv h)) = decrypt_cmd (fw_key h) (fw_iv h)) as ->.
  { apply snprintf_id. unfold decrypt_cmd. rewrite !slen_app, (proj2 Hk), (proj2 Hi). cbn. lia. }
  pose proof (hub_decrypt (fw_key h) (fw_iv h) w1 Hk Hi) as Hd. rewrite Hget in Hd. cbn [mbind option_bind] in Hd.
  rewrite aes_dec_enc in Hd. eapply wp_system; [exact Hd|]. cbn [seq_post Z.eqb negb]. wp_step. cbn [seq_post].
  match goal with |- wp _ _ ?w => set (w2 := w) end.
  assert (get FW_INSTALL_FILE w2 = Some d) as Hd2.
  { rewrite (get_fs _ w2 (put_file FW_INSTALL_FILE d w1)) by done. apply get_put_eq. }
  wp_step. wp_step. change (snprintf 256 (sha_cmd FW_INSTALL_FILE)) with (sha_cmd FW_INSTALL_FILE).
  rewrite (hub_sha w2), Hd2. cbn [seq_post].
  change (" *" +:+ FW_INSTALL_FILE +:+ String LF "") with (String " " ("*" +:+ FW_INSTALL_FILE +:+ String LF "")).
  rewrite scan_s_hex; [|apply sha256_hex|by intros E; pose proof (sha256_len d) as Hsl; rewrite E in Hsl|done].
  wp_step. wp_step. cbn [seq_post].
  rewrite bool_decide_eq_true_2; [cbn [negb]; wp_step; apply HQ; [done|by rewrite <- Hd2; apply get_fs]|].
  rewrite Hck, stake_app_le by (by rewrite sha256_len). apply stake_all. by rewrite sha256_len.
Qed.

Lemma image_of_nonempty h d : (String.length (image_of h d) =? 0)%nat = false.
Proof.
  unfold image_of. rewrite slen_app, (rsa_sign_len _ (header_bytes_small h)). done.
Qed.

Lemma validate_image_of skip h d f stack w :
  plain w -> get f w = Some (image_of h d) -> header_ok h -> fw_cksum h = sha256 d ->
  hex32 (fw_key h) -> hex32 (fw_iv h) -> target_ok skip (header_bytes h) w ->
  wp (validate_image (if skip then ["s"%char] else []) (Some f) stack)
     (fun r w' => r = Val 0 /\ get FW_INSTALL_FILE w' = Some d) w.
Proof.
  intros P Hf Hok Hck Hk Hi Ht. unfold validate_image.
  assert (validate_opts (if skip then ["s"%char] else []) false false = inr (skip, false)) as -> by (by destruct skip).
  wp_step. eapply (wp_fopen_r_some Hh); [done|]. cbn [seq_post]. wp_step. unfold validate_body, fstat. wp_step.
  apply (wp_malloc_ok Hh). cbn [seq_post]. wp_step. wp_step. cbn [seq_post]. wp_step.
  eapply wp_system; [apply (hub_led "upgrade-decrypt"); by left|]. cbn [seq_post]. wp_step.
  apply (wp_malloc_ok Hh). rewrite image_of_nonempty. cbn [seq_post orb negb].
  match goal with |- wp _ _ ?w => set (w1 := w) end.
  assert (agree [LED_MODE_FILE] w w1) as Hag1.
  { eapply agree_fs; [reflexivity|]. apply agree_put; [|done|set_solver]. by apply agree_refl. }
  wp_step. apply wp_verified_ok; [apply Hag1|]. intros w2 Hag2. cbn [seq_post].
  pose proof (agree_trans _ _ _ _ _ Hag1 Hag2) as [P2 Hag]. cbn [app] in Hag.
  wp_step. apply wp_check_target_ok.
  { revert Ht. unfold target_ok, hub_wants, config_word.
    rewrite !(Hag VERSION_FILE), !(Hag MODEL_FILE), !(Hag CUSTOMER_FILE) by (done || set_solver). done. }
  intros w3 E3. cbn [seq_post]. wp_step. apply wp_decrypt_ok; try done; [unfold plain; by rewrite E3|].
  intros w4 P4 Hd. wp_go. split; [done|]. by apply get_install_del3.
Qed.
End Roundtrip.

(** ** The checksum buffer *)

Section Overrun.
Context {Ev : Env} {Cr : Crypto} {Tools : HubTools}.

Lemma wp_store_overrun b n t Q w :
  (n <= String.length t)%nat ->
  Q (Val tt) (World (fs w) (trace w ++ [Overrun b (Z.of_nat (String.length t))])) -> wp (store_token b n t) Q w.
Proof. intros Hn HQ. unfold store_token. by rewrite (proj2 (Nat.leb_le _ _)). Qed.

Lemma wp_extract_any path data Q w :
  (forall w1, Q (Val tt) w1) -> (forall z w1, Q (Throw z) w1) -> wp (extract path data) Q w.
Proof. intros HQ HT. unfold extract. wp_go; auto. Qed.

Lemma wp_system_or_any cmd code Q w :
  (forall w1, Q (Val tt) w1) -> (forall z w1, Q (Throw z) w1) -> wp (system_or cmd code) Q w.
Proof. intros HQ HT. unfold system_or. wp_go; auto. Qed.

Lemma wp_verified_any map Q w :
  (forall h w1, Q (Val h) w1) -> (forall z w1, Q (Throw z) w1) -> wp (verified_header map) Q w.
Proof. intros HQ HT. unfold verified_header, extract, system_or. wp_go; auto. Qed.

Lemma wp_check_any skip h Q w :
  (forall b w1, Q (Val b) w1) -> (forall z w1, Q (Throw z) w1) -> wp (check_target skip h) Q w.
Proof. intros HQ HT. unfold check_target, read_config. wp_go; auto. Qed.

Lemma wp_decrypt_overrun map header stack Q w :
  (forall w1, Overrun "fw_cksum" 64 ∈ trace w1 -> Q (Val tt) w1) ->
  (forall z w1, Q (Throw z) w1) -> (forall w1, Q Crash w1) -> wp (decrypt_image map header stack) Q w.
Proof.
  intros HQ HT HC. unfold decrypt_image. apply wp_if; intros; [apply HC|].
  apply wp_bind, wp_extract_any; [|done]. intros w1. apply wp_bind, wp_system_or_any; [|done]. intros w2. cbn [seq_post].
  wp_step. wp_step. change (snprintf 256 (sha_cmd FW_INSTALL_FILE)) with (sha_cmd FW_INSTALL_FILE).
  rewrite (hub_sha w2). cbn [seq_post]. destruct (get FW_INSTALL_FILE w2) as [d|] eqn:Hd; [|cbn; apply HT].
  change (" *" +:+ FW_INSTALL_FILE +:+ String LF "") with (String " " ("*" +:+ FW_INSTALL_FILE +:+ String LF "")).
  rewrite scan_s_hex; [|apply sha256_hex|by intros E; pose proof (sha256_len d) as Hl; rewrite E in Hl|done].
  wp_step. apply wp_store_overrun; [by rewrite sha256_len|]. cbn [seq_post]. wp_step; [apply HT|]. wp_step.
  apply HQ. cbn [trace]. rewrite sha256_len. set_solver.
Qed.

Lemma wp_validate_overrun skip mfg map stack w :
  wp (validate_body skip mfg map stack)
     (fun r w' => r = Val 0 -> get FW_INSTALL_FILE w' = None \/ Overrun "fw_cksum" 64 ∈ trace w') w.
Proof.
  unfold validate_body. apply wp_fstat; [done|]. wp_step. wp_step. cbn [seq_post]. wp_step. wp_step. cbn [seq_post]. wp_step; [done|].
  assert (forall h w1, wp (_ ← decrypt_image map h stack; _ ← unlink FW_ENCRYPT_FILE;
        _ ← unlink HEADER_SIGNED_FILE; _ ← unlink HEADER_FILE; mret 0)
     (fun r w' => r = Val 0 -> get FW_INSTALL_FILE w' = None \/ Overrun "fw_cksum" 64 ∈ trace w') w1) as Hdec.
  { intros h w1. wp_step. apply wp_decrypt_overrun; [|done..]. intros w2 Hin. wp_go. by right. }
  apply wp_bind, wp_verified_any; [|done]. intros h w1. apply wp_bind.
  assert (forall b w2, seq_post (fun install : bool => if install then _ ← decrypt_image map h stack;
        _ ← unlink FW_ENCRYPT_FILE; _ ← unlink HEADER_SIGNED_FILE; _ ← unlink HEADER_FILE; mret 0
      else _ ← unlink FW_INSTALL_FILE; mret 0)
     (fun r w' => r = Val 0 -> get FW_INSTALL_FILE w' = None \/ Overrun "fw_cksum" 64 ∈ trace w') (Val b) w2) as Hb.
  { intros [] w2; cbn [seq_post]; [apply Hdec|]. wp_go. intros _. left. apply get_del_eq. }
  destruct mfg; [wp_step; apply Hb|]. by apply wp_check_any.
Qed.
End Overrun.

(**  Every image that is accepted for installation has overrun a buffer on the way: the 64
    characters of its checksum are read, with their terminator, into the 64 bytes of
    [fw_cksum]. *)
Theorem validate_image_cksum_overrun {Ev : Env} {Cr : Crypto} {Tools : HubTools} opts f stack w :
  let out := validate_image opts (Some f) stack w in
  fst out = Val 0 -> is_Some (get FW_INSTALL_FILE (snd out)) -> Overrun "fw_cksum" 64 ∈ trace (snd out).
Proof.
  cbv zeta. intros Hr Hs. assert (wp (validate_image opts (Some f) stack) (fun r w' => r = Val 0 ->
    get FW_INSTALL_FILE w' = None \/ Overrun "fw_cksum" 64 ∈ trace w') w) as Hwp.
  { unfold validate_image. destruct (validate_opts opts false false) as [c|[skip mfg]]; [done|].
    wp_step. wp_step; cbn [seq_post]; [|done]. apply wp_catch.
    eapply wp_mono; [apply wp_validate_overrun|]. intros [z|z|z|] w1 Hw; try done.
    eapply wp_mono; [apply validate_error_exit_clean|]. cbn. by intros r2 w2 [-> _]. }
  destruct (Hwp Hr) as [E|]; [|done]. rewrite E in Hs. by destruct Hs.
Qed.
