(* ===== verification/ImageRoundtrip.v ===== *)
(** * From build_image to validate_image

    build_image makes, of any archive, an image that validate_image
    accepts on a hub of its model and customer and decrypts to that
    archive; and a concrete set of tools for which the laws hold. *)
From Stdlib Require Import ZArith String Ascii Lia Bool.
From stdpp Require Import base gmap strings list numbers.
From S2P Require Import Prelude CLib Os IrisLib ImageFormat ValidateImage.

Local Open Scope string_scope.
Local Open Scope Z_scope.

(** The commands build_image runs, for an archive [tar] and an output prefix. *)
Class BuildTools `{Env} `{Crypto} (tar prefix : string) : Prop := {
  bld_sha : sha_law tar;
  bld_rand : forall w, exists k, hex32 k /\ pipe (rand_cmd 16) w = Some (k +:+ String LF "");
  bld_sign : forall w, sh sign_cmd w =
    match get HEADER_ORIG_FILE w with
    | Some h => (0, fs (put_file BUILD_SIGNED_FILE (rsa_sign h) w))
    | None => (256, fs w)
    end;
  bld_encrypt : forall k iv w, hex32 k -> hex32 iv -> sh (encrypt_cmd tar k iv) w =
    match get tar w with
    | Some d => (0, fs (put_file IMAGE_ENCRYPT_FILE (aes_enc k iv d) w))
    | None => (256, fs w)
    end;
  bld_cat : forall w, sh (cat_cmd prefix) w =
    match get BUILD_SIGNED_FILE w, get IMAGE_ENCRYPT_FILE w with
    | Some a, Some b => (0, fs (put_file (image_name prefix) (a +:+ b) w))
    | _, _ => (256, fs w)
    end }.

(** The files build_image works with are different files. *)
Definition build_names (tar prefix : string) : list string :=
  [tar; HEADER_ORIG_FILE; BUILD_SIGNED_FILE; IMAGE_ENCRYPT_FILE; image_name prefix].
Definition distinct_files (tar prefix : string) (w : world) : Prop :=
  NoDup (map (resolve (fs w)) (build_names tar prefix)).

(** The header build_image writes. *)
Definition built_header `{Crypto} (model customer d key iv : string) : fw_header :=
  FwHeader HEADER_VERSION_0 (u32 (Z.of_nat (String.length d))) (snprintf FW_VER_LEN ("v" +:+ version_text))
    (snprintf FW_MODEL_LEN model) (snprintf FW_CUSTOMER_LEN customer) (sha256 d) key iv.

Section Build.
Context {Ev : Env} {Cr : Crypto} (tar prefix : string) {Tools : BuildTools tar prefix} (Hh : healthy).
Context (Htar : (String.length tar <= 100)%nat) (Hprefix : (String.length prefix <= 100)%nat).

Lemma wp_popen_word cmd buffer size t rest Q w :
  (String.length cmd < 256)%nat -> all_chars is_hex t = true -> t <> "" ->
  (exists c, isspace c = true /\ pipe cmd w = Some (t +:+ String c rest)) ->
  (forall tr, Q (Val t) (World (fs w) tr)) -> wp (popen_word cmd buffer size) Q w.
Proof.
  intros Hl Ht Hne (c & Hc & Hp) HQ. unfold popen_word. wp_step. rewrite snprintf_id by done. wp_step.
  cbn [seq_post]. rewrite Hp. rewrite scan_s_hex by done. wp_step. wp_step. cbn [seq_post]. wp_step. apply HQ.
Qed.

Lemma wp_system_or_exit cmd s Q w :
  (String.length cmd < 256)%nat -> sh cmd w = (0, s) ->
  (forall tr, Q (Val tt) (World s tr)) -> wp (system_or_exit cmd) Q w.
Proof.
  intros Hl Hs HQ. unfold system_or_exit. rewrite snprintf_id by done. wp_step. eapply wp_system; [done|].
  cbn [seq_post Z.eqb negb]. wp_step. apply HQ.
Qed.

Lemma hex32_ne k : hex32 k -> k <> "".
Proof. intros [_ Hl] ->. done. Qed.

Lemma distinct_split w : distinct_files tar prefix w ->
  resolve (fs w) tar <> resolve (fs w) HEADER_ORIG_FILE /\
  resolve (fs w) tar <> resolve (fs w) BUILD_SIGNED_FILE /\
  resolve (fs w) BUILD_SIGNED_FILE <> resolve (fs w) IMAGE_ENCRYPT_FILE /\
  resolve (fs w) (image_name prefix) <> resolve (fs w) HEADER_ORIG_FILE /\
  resolve (fs w) (image_name prefix) <> resolve (fs w) BUILD_SIGNED_FILE /\
  resolve (fs w) (image_name prefix) <> resolve (fs w) IMAGE_ENCRYPT_FILE.
Proof.
  unfold distinct_files, build_names. cbn [map]. intros Hn.
  repeat match goal with H : NoDup (_ :: _) |- _ => inversion_clear H end. set_solver.
Qed.

Lemma wp_build_commands key iv hb d w :
  get tar w = Some d -> get HEADER_ORIG_FILE w = Some hb -> distinct_files tar prefix w -> hex32 key -> hex32 iv ->
  wp (build_commands tar key iv prefix)
     (fun r w' => r = Val 0 /\ get (image_name prefix) w' = Some (rsa_sign hb +:+ aes_enc key iv d)) w.
Proof.
  intros Hd Hb Hn Hk Hi. destruct (distinct_split w Hn) as (N1 & N2 & N3 & N4 & N5 & N6).
  unfold build_commands. wp_step. eapply wp_system_or_exit; [vm_compute; lia|rewrite bld_sign, Hb; reflexivity|].
  intros tr1. cbn [seq_post]. set (w1 := World _ tr1).
  assert (get tar w1 = Some d) as Hd1 by (rewrite <- Hd; by apply get_put_ne).
  assert (get BUILD_SIGNED_FILE w1 = Some (rsa_sign hb)) as Hs1 by apply get_put_eq.
  wp_step. eapply wp_system_or_exit;
    [unfold encrypt_cmd; rewrite !slen_app, (proj2 Hk), (proj2 Hi); cbn; lia|
     rewrite bld_encrypt, Hd1 by done; reflexivity|].
  intros tr2. cbn [seq_post]. set (w2 := World _ tr2).
  assert (get BUILD_SIGNED_FILE w2 = Some (rsa_sign hb)) as Hs2 by (rewrite <- Hs1; by apply get_put_ne).
  assert (get IMAGE_ENCRYPT_FILE w2 = Some (aes_enc key iv d)) as He2 by apply get_put_eq.
  wp_step. eapply wp_system_or_exit;
    [unfold cat_cmd, image_name; rewrite !slen_app; change (String.length version_text) with 9%nat; cbn; lia|rewrite bld_cat, Hs2, He2; reflexivity|].
  intros tr3. cbn [seq_post]. set (w3 := World _ tr3). wp_go. split; [done|].
  rewrite !get_del_ne by done. apply get_put_eq.
Qed.

Lemma wp_build_main model customer d w :
  get tar w = Some d -> distinct_files tar prefix w ->
  wp (build_main tar model customer prefix) (fun r w' => r = Val 0 /\ exists key iv, hex32 key /\ hex32 iv /\
    get (image_name prefix) w' = Some (image_of (built_header model customer d key iv) d)) w.
Proof.
  intros Hd Hn. destruct (distinct_split w Hn) as (N1 & _).
  unfold build_main. wp_step. unfold wp at 1, stat. cbn [fst snd seq_post]. rewrite Hd.
  wp_step. apply (wp_popen_word _ _ _ (sha256 d) ("*" +:+ tar +:+ String LF ""));
    [unfold sha_cmd; rewrite slen_app; cbn; lia|apply sha256_hex|by intros E; pose proof (sha256_len d) as Hl; rewrite E in Hl|
     exists " "%char; split; [done|]; by rewrite bld_sha, Hd|].
  intros tr1. cbn [seq_post]. wp_step. destruct (bld_rand (World (fs w) tr1)) as (key & Hk & Ek).
  apply (wp_popen_word _ _ _ key ""); [vm_compute; lia|apply Hk|by apply hex32_ne|by exists LF|].
  intros tr2. cbn [seq_post fs]. wp_step. destruct (bld_rand (World (fs w) tr2)) as (iv & Hi & Ei).
  apply (wp_popen_word _ _ _ iv ""); [vm_compute; lia|apply Hi|by apply hex32_ne|by exists LF|].
  intros tr3. cbn [seq_post fs]. wp_step. apply (wp_fopen_w_ok Hh). cbn [seq_post negb]. wp_step.
  apply (wp_fwrite_ok Hh). cbn [seq_post]. rewrite get_put_eq, header_bytes_len, Nat.eqb_refl. cbn [negb].
  fold (built_header model customer d key iv).
  eapply wp_mono; [apply (wp_build_commands key iv (header_bytes (built_header model customer d key iv)) d)|].
  - rewrite !get_put_ne by done. rewrite <- Hd. by apply get_fs.
  - apply get_put_eq.
  - exact Hn.
  - done.
  - done.
  - intros r w' [-> Hw]. eauto 10.
Qed.
End Build.

Lemma built_header_ok `{Crypto} customer d key iv :
  nul_free customer = true -> (String.length customer < FW_CUSTOMER_LEN)%nat -> hex32 key -> hex32 iv ->
  header_ok (built_header DEFAULT_MODEL customer d key iv).
Proof.
  intros Hc Hl [Hk Hkl] [Hi Hil].
  split; cbn [built_header fw_version fw_model fw_customer fw_cksum fw_key fw_iv]; try (split; [done|vm_compute; lia]).
  - unfold snprintf. rewrite stake_all by lia. done.
  - apply sha256_len.
  - split; [by apply hex_nul_free|done].
  - split; [by apply hex_nul_free|done].
Qed.

(** C2.  What is built can be installed: for any archive, build_image with a valid customer
    returns 0 and writes an image that validate_image, on any hub of the built model and
    customer running another version (or with the version check skipped), accepts with
    return value 0, leaving exactly the original archive to be installed. *)
Theorem image_roundtrip {Ev : Env} {Cr : Crypto} {Hub : HubTools} tar {Bld : BuildTools tar DEFAULT_PREFIX}
    cust customer d w :
  healthy -> (String.length tar <= 100)%nat ->
  validate_customer (Some cust) = Some customer -> nul_free customer = true ->
  (String.length customer < FW_CUSTOMER_LEN)%nat ->
  get tar w = Some d -> distinct_files tar DEFAULT_PREFIX w ->
  fst (build_image [BCustomer cust] (Some tar) w) = Val 0 /\
  exists img, get (image_name DEFAULT_PREFIX) (snd (build_image [BCustomer cust] (Some tar) w)) = Some img /\
    forall skip f stack wh, plain wh -> get f wh = Some img ->
      hub_wants skip ("v" +:+ version_text) DEFAULT_MODEL customer wh ->
      let opts := if skip then ["s"%char] else [] in
      fst (validate_image opts (Some f) stack wh) = Val 0 /\
      get FW_INSTALL_FILE (snd (validate_image opts (Some f) stack wh)) = Some d.
Proof.
  intros Hh Ht Hc Hn Hl Hd Hdist.
  assert (build_image [BCustomer cust] (Some tar) = build_main tar DEFAULT_MODEL customer DEFAULT_PREFIX) as ->.
  { unfold build_image. cbn [build_opts]. change (validate_model None) with (Some DEFAULT_MODEL). by rewrite Hc. }
  destruct (wp_build_main tar DEFAULT_PREFIX Hh Ht ltac:(cbn; lia) DEFAULT_MODEL customer d w Hd Hdist)
    as (Hr & key & iv & Hk & Hi & Himg).
  split; [done|]. eexists. split; [exact Himg|]. intros skip f stack wh P Hf Hwant.
  pose proof (built_header_ok customer d key iv Hn Hl Hk Hi) as Hok.
  apply (validate_image_of Hh skip (built_header DEFAULT_MODEL customer d key iv) d f stack wh); try done.
  unfold target_ok. destruct (header_members _ Hok) as (-> & -> & -> & _).
  cbn [built_header fw_version fw_model fw_customer]. unfold snprintf at 3. rewrite (stake_all _ customer) by lia. done.
Qed.

(** ** A set of tools for which the laws hold *)

Module Toy.

(** A signature is the text, a mark and zeros up to 512 bytes; the cipher is the identity. *)
Definition MARK : ascii := "001"%char.
Definition sign (h : string) : string := h +:+ String MARK (zeros (511 - String.length h)).

Fixpoint unsign (s : string) : option string :=
  match s with
  | EmptyString => None
  | String c s' =>
      match unsign s' with
      | Some h => Some (String c h)
      | None => if Ascii.eqb c MARK then Some "" else None
      end
  end.

Lemma unsign_zeros n : unsign (zeros n) = None.
Proof. induction n as [|n IH]; cbn; [done|]. by rewrite IH. Qed.

Lemma unsign_sign h : unsign (sign h) = Some h.
Proof.
  unfold sign. generalize (511 - String.length h)%nat as n. intros n.
  induction h as [|c h IH]; cbn; [by rewrite unsign_zeros|]. by rewrite IH.
Qed.

Definition hex_text (n : nat) : string := Nat.iter n (String "a"%char) "".

#[local, refine] Instance crypto : Crypto := {
  sha256 := fun _ => hex_text 64;
  rsa_sign := sign;
  rsa_verify := unsign;
  aes_enc := fun _ _ d => d;
  aes_dec := fun _ _ d => Some d }.
Proof.
  - done.
  - done.
  - intros h Hl. unfold sign. rewrite slen_app. cbn. rewrite zeros_len. unfold SIGNED_HDR_LEN. lia.
  - intros h _. apply unsign_sign.
  - done.
Defined.

Definition TAR : string := "fw.tgz".

(** A command that copies [src] through [g] to [dst], failing if it cannot. *)
Definition filter_file (src dst : string) (g : string -> option string) (w : world) : Z * fsys :=
  match get src w ≫= g with Some d => (0, fs (put_file dst d w)) | None => (256, fs w) end.

Definition run (c : string) (w : world) : Z * fsys :=
  if String.prefix "echo " c then
    (0, fs (put_file LED_MODE_FILE
              ((if String.prefix "echo upgrade-decrypt-err" c then "upgrade-decrypt-err" else "upgrade-decrypt") +:+ String LF "") w))
  else if String.prefix "openssl rsautl -verify" c then filter_file HEADER_SIGNED_FILE HEADER_FILE unsign w
  else if String.prefix "openssl rsautl -sign" c then filter_file HEADER_ORIG_FILE BUILD_SIGNED_FILE (fun h => Some (sign h)) w
  else if String.prefix "openssl aes-128-cbc -in /tmp/firmware.encrypt" c then filter_file FW_ENCRYPT_FILE FW_INSTALL_FILE Some w
  else if String.prefix "openssl aes-128-cbc" c then filter_file TAR IMAGE_ENCRYPT_FILE Some w
  else if String.prefix "cat " c then
    match get BUILD_SIGNED_FILE w, get IMAGE_ENCRYPT_FILE w with
    | Some a, Some b => (0, fs (put_file (image_name DEFAULT_PREFIX) (a +:+ b) w))
    | _, _ => (256, fs w)
    end
  else (0, fs w).

Definition out (c : string) (w : world) : option string :=
  if String.prefix "openssl rand" c then Some (hex_text 32 +:+ String LF "")
  else if String.prefix "sha256sum -b " c then
    Some (match get (sdrop 13 c) w with Some d => hex_text 64 +:+ " *" +:+ sdrop 13 c +:+ String LF "" | None => "" end)
  else Some "".

#[local] Instance env : Env := {
  sh := run; pipe := out; rd_ok := fun _ _ => true; wr_ok := fun _ _ => true; wr_len := fun _ _ n => n;
  mount_ok := fun _ _ _ => true; mem_ok := fun _ => true }.

Lemma env_healthy : healthy.
Proof. done. Qed.

#[local] Instance hub : HubTools.
Proof.
  split.
  - intros c w. cbn. unfold run, filter_file. repeat case_if; try done;
      [destruct (get HEADER_SIGNED_FILE w ≫= unsign)|destruct (get HEADER_ORIG_FILE w ≫= _)|
       destruct (get FW_ENCRYPT_FILE w ≫= Some)|destruct (get TAR w ≫= Some)|
       destruct (get BUILD_SIGNED_FILE w), (get IMAGE_ENCRYPT_FILE w)]; done.
  - intros mode w [-> | ->]; done.
  - done.
  - done.
  - done.
Qed.

#[local] Instance build : BuildTools TAR DEFAULT_PREFIX.
Proof.
  split.
  - done.
  - intros w. exists (hex_text 32). done.
  - intros w. change (sh sign_cmd w) with (filter_file HEADER_ORIG_FILE BUILD_SIGNED_FILE (fun h => Some (sign h)) w).
    unfold filter_file. by destruct (get HEADER_ORIG_FILE w).
  - intros k iv w _ _. change (sh (encrypt_cmd TAR k iv) w) with (filter_file TAR IMAGE_ENCRYPT_FILE Some w).
    unfold filter_file. by destruct (get TAR w).
  - done.
Qed.

(** A build machine with an archive, and a hub. *)
Definition bench : world := World (Fsys {[ "/build/" +:+ TAR := "archive" ]} ∅ [] ∅ "/build") [].

End Toy.

#[local] Existing Instances Toy.crypto Toy.env Toy.hub Toy.build.

Lemma image_roundtrip_witness :
  fst (build_image [BCustomer "ALL"] (Some Toy.TAR) Toy.bench) = Val 0 /\
  exists img, get (image_name DEFAULT_PREFIX) (snd (build_image [BCustomer "ALL"] (Some Toy.TAR) Toy.bench)) = Some img /\
    forall skip f stack wh, plain wh -> get f wh = Some img ->
      hub_wants skip ("v" +:+ version_text) DEFAULT_MODEL "ALL" wh ->
      let opts := if skip then ["s"%char] else [] in
      fst (validate_image opts (Some f) stack wh) = Val 0 /\
      get FW_INSTALL_FILE (snd (validate_image opts (Some f) stack wh)) = Some "archive".
Proof.
  apply (image_roundtrip Toy.TAR "ALL" "ALL" "archive" Toy.bench);
    [apply Toy.env_healthy|vm_compute; lia|reflexivity|reflexivity|vm_compute; lia|reflexivity|].
  unfold distinct_files. repeat constructor; vm_compute; set_solver.
Defined.

(** A hub with an image of the build machine, and one with a file that is no image. *)
Definition toy_image : string :=
  image_of (built_header DEFAULT_MODEL "IRIS" "archive" (Toy.hex_text 32) (Toy.hex_text 32)) "archive".
Definition toy_hub (upload : string) : world :=
  World (Fsys {[ "/tmp/upload.bin" := upload; MODEL_FILE := "IH300" +:+ String LF "";
                 CUSTOMER_FILE := "IRIS" +:+ String LF ""; VERSION_FILE := "v2.9.0.001" +:+ String LF "" ]} ∅ [] ∅ "/") [].

Lemma validate_image_sound_witness :
  let w' := snd (validate_image [] (Some "/tmp/upload.bin") "" (toy_hub toy_image)) in
  get FW_INSTALL_FILE w' = None \/ accepted false false toy_image (toy_hub toy_image) w'.
Proof.
  apply (validate_image_sound [] "/tmp/upload.bin" "" false false toy_image (toy_hub toy_image));
    vm_compute; reflexivity.
Defined.

Lemma validate_image_reject_clean_witness :
  let out := validate_image ["s"%char] (Some "/tmp/upload.bin") "" (toy_hub "junk") in
  (exists c, fst out = Exit c /\ install_code c) /\
  Forall (fun p => get p (snd out) = None) [FW_INSTALL_FILE; FW_ENCRYPT_FILE; HEADER_SIGNED_FILE; HEADER_FILE].
Proof.
  eapply (validate_image_reject_clean ["s"%char] "/tmp/upload.bin" "" true false "junk" (toy_hub "junk"));
    [reflexivity|vm_compute; reflexivity|reflexivity|apply surjective_pairing|vm_compute; discriminate|vm_compute; discriminate].
Defined.

Lemma validate_image_cksum_overrun_witness :
  Overrun "fw_cksum" 64 ∈ trace (snd (validate_image [] (Some "/tmp/upload.bin") "" (toy_hub toy_image))).
Proof.
  apply (validate_image_cksum_overrun [] "/tmp/upload.bin" "" (toy_hub toy_image)).
  - vm_compute. reflexivity.
  - exists "archive". vm_compute. reflexivity.
Defined.
