(* ===== verification/FwInstall.v ===== *)
(** * fwinstall.c: installing a firmware archive

    The two platforms of the source are the constructors of [platform].
    Permissions ([chmod], [chown]) and [sync] are not part of the model.
    Files are read and written whole, except the root file system, whose
    compare, write and verify loops are modelled block by block. *)
From Stdlib Require Import ZArith String Ascii Lia Bool.
From stdpp Require Import base gmap strings list numbers.
From S2P Require Import Prelude CLib Os IrisLib.

Local Open Scope string_scope.
Local Open Scope Z_scope.

Definition INSTALL_LOCK_FILE : string := "/var/lock/fwinstall".
Definition TMP_KERNEL1_DIR : string := "/tmp/kernel1".
Definition TMP_KERNEL2_DIR : string := "/tmp/kernel2".
Definition TMP_BOOT_DIR : string := "/tmp/bootupdate".
Definition READ_BLOCK_SIZE : nat := 1024.
Definition IMAGE_VALIDATE_ERR : Z := 2.
Definition KERNEL1_DEV : string := "/dev/kern1".
Definition KERNEL2_DEV : string := "/dev/kern2".
Definition DEV_ROOTFS1 : string := "/dev/fs1".
Definition DEV_ROOTFS2 : string := "/dev/fs2".
Definition ZWAVE_FIRMWARE : string := "zwave-firmware.bin".
Definition ZIGBEE_FIRMWARE : string := "zigbee-firmware.bin".
Definition ZIGBEE_FIRMWARE_HWFLOW : string := "zigbee-firmware-hwflow.bin".
Definition BLE_FIRMWARE : string := "ble-firmware.bin".
Definition BLE_FIRMWARE_HWFLOW : string := "ble-firmware-hwflow.bin".
Definition FIRMWARE_DIR : string := "/data/firmware/".
Definition TMP_CMP_FILE : string := "/tmp/flashData".

(** The platform dependent names. *)
Definition BOOT_DEV : string := "/dev/mmcblk0p1".
Definition UBOOT_TMP_MLO : string := "/tmp/bootupdate/MLO".
Definition UBOOT_TMP_IMAGE : string := "/tmp/bootupdate/u-boot.img".
Definition UBOOT_MLO (p : platform) : string :=
  match p with beaglebone_yocto => "/tmp/update/MLO-beaglebone" | imxdimagic => "/tmp/update/u-boot-imxdimagic.imx" end.
Definition UBOOT_IMAGE (p : platform) : string :=
  match p with beaglebone_yocto => "/tmp/update/u-boot-beaglebone.img" | imxdimagic => "/tmp/update/u-boot-imxdimagic.imx" end.
Definition KERNEL_IMAGE (p : platform) : string :=
  match p with beaglebone_yocto => "/tmp/update/uImage-beaglebone.bin" | imxdimagic => "/tmp/update/zImage-imxdimagic.bin" end.
Definition KERNEL_TMP_IMAGE (p : platform) : string :=
  match p with beaglebone_yocto => "/boot/uImage" | imxdimagic => "/zImage" end.
Definition KERNEL_DTB (p : platform) : string :=
  match p with beaglebone_yocto => "/tmp/update/uImage-am335x-boneblack.dtb" | imxdimagic => "/tmp/update/zImage-imx6dl-imagic.dtb" end.
Definition KERNEL_TMP_DTB (p : platform) : string :=
  match p with beaglebone_yocto => "/boot/am335x-boneblack.dtb" | imxdimagic => "/imx6dl-imagic.dtb" end.
Definition ROOTFS_FILE (p : platform) : string :=
  match p with
  | beaglebone_yocto => "core-image-minimal-iris-beaglebone.squashfs"
  | imxdimagic => "core-image-minimal-iris-imxdimagic.squashfs"
  end.

(** ** Options *)

Record fw_opts := FwOpts { opt_verify : bool; opt_kill : bool; opt_skipradio : bool }.

Fixpoint parse_opts (opts : list ascii) (o : fw_opts) : Z + fw_opts :=
  match opts with
  | [] => inr o
  | c :: r =>
      if Ascii.eqb c "h" then inl 0
      else if Ascii.eqb c "k" then parse_opts r (FwOpts (opt_verify o) true (opt_skipradio o))
      else if Ascii.eqb c "s" then parse_opts r (FwOpts (opt_verify o) (opt_kill o) true)
      else if Ascii.eqb c "n" then parse_opts r (FwOpts false (opt_kill o) (opt_skipradio o))
      else inl INSTALL_ARG_ERR
  end.

(** ** Which partition to install to *)

(** The corruption check: a partition with the latest index that is not the running root
    loses its index.  [cmdline] is the kernel command line, [fs1] and [fs2] the partitions
    the links point to. *)
Definition corrupt_check (cmdline fs1 fs2 : string) (index1 index2 : Z) : Z * Z :=
  if (index2 <? index1) && negb (has_sub cmdline fs1) then (-1, index2)
  else if (index1 <? index2) && negb (has_sub cmdline fs2) then (index1, -1)
  else (index1, index2).

(** Boot directory, root device and new index. *)
Definition choose_partition (index1 index2 : Z) : string * string * Z :=
  if index2 <? index1 then (TMP_KERNEL2_DIR, DEV_ROOTFS2, i32 (index1 + 1))
  else (TMP_KERNEL1_DIR, DEV_ROOTFS1, i32 (index2 + 1)).

(** ** The root file system *)

(** The result of the [read]s and [write]s at each block. *)
Record blk_io := BlkIo { rd_src : nat -> bool; rd_dev : nat -> bool; wr_dev : nat -> bool }.

(** [memcmp(a, b, n) == 0] *)
Definition same_bytes (a b : string) : bool := bool_decide (a = b).

(** The first loop: [src] is unread, [pre] and [cur] are the device before and from the file
    position on.  [res] and the device afterwards. *)
Fixpoint rootfs_write (fuel : nat) (io : blk_io) (k : nat) (src pre cur : string) (compare : bool) : Z * string :=
  match fuel with
  | O => (0, pre +:+ cur)
  | S f =>
      if (String.length src =? 0)%nat then (0, pre +:+ cur)
      else
        let readSize := if (READ_BLOCK_SIZE <? String.length src)%nat then READ_BLOCK_SIZE else String.length src in
        if negb (rd_src io k) then (1, pre +:+ cur)
        else
          let readBuf := stake readSize src in
          let same := same_bytes readBuf (stake readSize cur) in
          if compare && (negb (rd_dev io k) || (String.length cur <? readSize)%nat) then (1, pre +:+ cur)
          else if compare && same then
            rootfs_write f io (S k) (sdrop readSize src) (pre +:+ stake readSize cur) (sdrop readSize cur) true
          else if negb (wr_dev io k) then (1, pre +:+ cur)
          else if (String.length cur <? readSize)%nat
          then (1, pre +:+ stake (String.length cur) readBuf)
          else rootfs_write f io (S k) (sdrop readSize src) (pre +:+ readBuf) (sdrop readSize cur) false
  end.

(** The verify loop, from the start of both files. *)
Fixpoint rootfs_verify (fuel : nat) (io : blk_io) (k : nat) (src cur : string) : Z :=
  match fuel with
  | O => 0
  | S f =>
      if (String.length src =? 0)%nat then 0
      else
        let readSize := if (READ_BLOCK_SIZE <? String.length src)%nat then READ_BLOCK_SIZE else String.length src in
        if negb (rd_src io k) then 1
        else if negb (rd_dev io k) || (String.length cur <? readSize)%nat then 1
        else if same_bytes (stake readSize src) (stake readSize cur)
        then rootfs_verify f io (S k) (sdrop readSize src) (sdrop readSize cur)
        else IMAGE_VALIDATE_ERR
  end.

Section Install.
Context `{Env} (plat : platform).
(** Contents of the uninitialised [model] array, and the block I/O of the two loops. *)
Context (stack : string) (io1 io2 : blk_io).

(** ** Leaving on an error *)

Definition cleanup_exit {A} (code : Z) : M A :=
  _ ← umount2 TMP_KERNEL1_DIR;
  _ ← umount2 TMP_KERNEL2_DIR;
  _ ← umount2 TMP_BOOT_DIR;
  _ ← rmdir TMP_BOOT_DIR;
  _ ← rmdir TMP_KERNEL1_DIR;
  _ ← rmdir TMP_KERNEL2_DIR;
  _ ← system "rm -rf /tmp/update";
  _ ← unlink INSTALL_LOCK_FILE;
  exit code.

(** [IRIS_setLedMode(led); cleanup_exit(code);] *)
Definition fail_exit {A} (led : string) (code : Z) : M A :=
  _ ← IRIS_setLedMode led; cleanup_exit code.

Definition stopHubAgent : M unit :=
  _ ← system "killall irisagentd";
  _ ← system "killall java";
  sleep 10.

Definition cmpFlashToFile (partition : string) (offset bs : Z) (filename : string) : M Z :=
  st ← stat filename;
  let blockCount := default 0 st / bs in
  _ ← system (snprintf 256 ("dd if=" +:+ partition +:+ " bs=" +:+ dec bs +:+ " skip=" +:+ dec offset +:+
                            " count=" +:+ dec blockCount +:+ " of=" +:+ TMP_CMP_FILE));
  ret ← system (snprintf 256 ("diff -q " +:+ filename +:+ " " +:+ TMP_CMP_FILE));
  _ ← unlink TMP_CMP_FILE;
  mret ret.

(** ** Unpacking *)

Definition take_lock : M unit :=
  l ← access INSTALL_LOCK_FILE;
  if l : bool then exit INSTALL_IN_PROCESS
  else _ ← open_rw INSTALL_LOCK_FILE; mret tt.

Definition unpack (filearg : string) : M unit :=
  _ ← IRIS_setLedMode "upgrade-unpack";
  _ ← pokeWatchdog;
  st ← system (snprintf 256 ("tar xf " +:+ filearg));
  if negb (st =? 0) then
    _ ← IRIS_setLedMode "upgrade-unpack-err";
    _ ← unlink INSTALL_LOCK_FILE;
    exit INSTALL_UNPACK_ERR
  else
    _ ← chdir "/tmp/update";
    _ ← pokeWatchdog;
    st ← system "sha256sum -c sha256sums.txt";
    if negb (st =? 0) then
      _ ← IRIS_setLedMode "upgrade-unpack-err";
      _ ← unlink INSTALL_LOCK_FILE;
      _ ← system "rm -rf /tmp/update";
      exit INSTALL_ARCHIVE_CKSUM_ERR
    else mret tt.

Definition mount_kernels : M unit :=
  _ ← pokeWatchdog;
  _ ← mkdir TMP_KERNEL1_DIR;
  _ ← mkdir TMP_KERNEL2_DIR;
  e1 ← mount KERNEL1_DEV TMP_KERNEL1_DIR;
  if e1 : bool then fail_exit "upgrade-unpack-err" INSTALL_MOUNT_ERR
  else
    e2 ← mount KERNEL2_DEV TMP_KERNEL2_DIR;
    if e2 : bool then fail_exit "upgrade-unpack-err" INSTALL_MOUNT_ERR else mret tt.

(** ** Boot indices *)

Definition read_index (dir : string) : M Z :=
  f ← fopen_r (dir +:+ "/bootindex");
  mret (match f with Some s => default (-1) (scan_d s) | None => -1 end).

Definition boot_indices : M (Z * Z) :=
  index1 ← read_index TMP_KERNEL1_DIR;
  index2 ← read_index TMP_KERNEL2_DIR;
  f ← popen "cat /proc/cmdline";
  match f with
  | None => mret (index1, index2)
  | Some out =>
      fs1 ← readlink DEV_ROOTFS1;
      fs2 ← readlink DEV_ROOTFS2;
      mret (match fgets 256 out with
            | Some cmdline => corrupt_check cmdline (stake 63 (default "" fs1)) (stake 63 (default "" fs2)) index1 index2
            | None => (index1, index2)
            end)
  end.

(** ** Boot loader, kernel and device tree *)

Definition diff_q (a b : string) : M bool :=
  st ← system (snprintf 256 ("diff -q " +:+ a +:+ " " +:+ b)); mret (negb (st =? 0)).

(** Install [src] as [dst] if they differ, and check the copy. *)
Definition install_file (verify : bool) (src dst led : string) (code : Z) : M unit :=
  d ← diff_q src dst;
  if d : bool then
    _ ← unlink dst;
    r ← IRIS_copyFile src dst;
    if negb (r =? 0) then fail_exit led code
    else if verify then
      d ← diff_q src dst;
      if d : bool then fail_exit led code else mret tt
    else mret tt
  else mret tt.

Definition install_uboot (verify : bool) : M unit :=
  _ ← IRIS_setLedMode "upgrade-bootloader";
  a ← access (UBOOT_MLO plat);
  b ← access (UBOOT_IMAGE plat);
  when (a && b)
    (_ ← pokeWatchdog;
     match plat with
     | beaglebone_yocto =>
         _ ← mkdir TMP_BOOT_DIR;
         e ← mount BOOT_DEV TMP_BOOT_DIR;
         if e : bool then fail_exit "upgrade-bootloader-err" INSTALL_UBOOT_ERR
         else
           _ ← install_file verify (UBOOT_MLO plat) UBOOT_TMP_MLO "upgrade-bootloader-err" INSTALL_UBOOT_ERR;
           install_file verify (UBOOT_IMAGE plat) UBOOT_TMP_IMAGE "upgrade-bootloader-err" INSTALL_UBOOT_ERR
     | imxdimagic =>
         d ← cmpFlashToFile "/dev/mmcblk2boot0" 2 512 (UBOOT_IMAGE plat);
         when (negb (d =? 0))
           (_ ← system "echo 0 > /sys/block/mmcblk2boot0/force_ro";
            st ← system (snprintf 256 ("dd if=" +:+ UBOOT_IMAGE plat +:+ " of=/dev/mmcblk2boot0 seek=2 bs=512"));
            if negb (st =? 0) then fail_exit "upgrade-bootloader-err" INSTALL_UBOOT_ERR
            else
              d ← cmpFlashToFile "/dev/mmcblk2boot0" 2 512 (UBOOT_IMAGE plat);
              if negb (d =? 0) then fail_exit "upgrade-bootloader-err" INSTALL_UBOOT_ERR else mret tt)
     end).

(** A file of the archive that goes to the boot partition. *)
Definition install_boot_file (verify : bool) (src bootdir name : string) : M unit :=
  a ← access src;
  when a
    (_ ← pokeWatchdog;
     install_file verify src (snprintf 256 (bootdir +:+ name)) "upgrade-kernel-err" INSTALL_KERNEL_ERR).

Definition install_kernel (verify : bool) (bootdir : string) : M unit :=
  _ ← IRIS_setLedMode "upgrade-kernel";
  install_boot_file verify (KERNEL_IMAGE plat) bootdir (KERNEL_TMP_IMAGE plat).

Definition install_dtb (verify : bool) (bootdir : string) : M unit :=
  install_boot_file verify (KERNEL_DTB plat) bootdir (KERNEL_TMP_DTB plat).

(** ** Root file system *)

(** Opening both files, the buffers, and the two loops: [res]. *)
Definition rootfs_copy (verify : bool) (rootfsdev : string) : M Z :=
  src ← fopen_r (ROOTFS_FILE plat);
  dev ← fopen_r rootfsdev;
  mem ← malloc_ok;
  _ ← pokeWatchdog;
  match src, dev with
  | Some img, Some old =>
      if negb mem then mret 1
      else
        let '(res, new) := rootfs_write (S (String.length img)) io1 0 img "" old true in
        _ ← put_dev rootfsdev new;
        if (res =? 0) && verify then
          _ ← pokeWatchdog;
          mret (rootfs_verify (S (String.length img)) io2 0 img new)
        else mret res
  | _, _ => mret 1
  end.

Definition install_rootfs (verify : bool) (rootfsdev : string) : M unit :=
  a ← access (ROOTFS_FILE plat);
  when a
    (res ← rootfs_copy verify rootfsdev;
     if negb (res =? 0) then fail_exit "upgrade-rootfs-err" INSTALL_ROOTFS_ERR else mret tt).

(** ** Radio firmware *)

(** [pre] runs before the flash command; the new value of [killAgent]. *)
Definition install_radio (firmware led cmd : string) (code : Z) (pre : M unit) (killAgent : bool) : M bool :=
  a ← access firmware;
  if a : bool then
    _ ← pokeWatchdog;
    let origpath := snprintf 256 ("/tmp/update/" +:+ firmware) in
    let filepath := snprintf 256 (FIRMWARE_DIR +:+ firmware) in
    d ← diff_q firmware filepath;
    if d : bool then
      _ ← when killAgent stopHubAgent;
      _ ← IRIS_setLedMode led;
      _ ← unlink filepath;
      _ ← pre;
      st ← system (snprintf 256 (cmd +:+ firmware));
      if negb (st =? 0) then fail_exit (led +:+ "-err") code
      else
        _ ← IRIS_copyFile origpath filepath;
        mret false
    else mret killAgent
  else mret killAgent.

Definition install_radios (killAgent : bool) : M unit :=
  killAgent ← install_radio ZWAVE_FIRMWARE "upgrade-zwave" "zwave_flash -w " INSTALL_ZWAVE_ERR (mret tt) killAgent;
  hw ← IRIS_isHwFlowControlSupported stack;
  killAgent ← install_radio (if hw : bool then ZIGBEE_FIRMWARE_HWFLOW else ZIGBEE_FIRMWARE)
    "upgrade-zigbee" "zigbee_flash -w " INSTALL_ZIGBEE_ERR (mret tt) killAgent;
  hw ← IRIS_isHwFlowControlSupported stack;
  _ ← install_radio (if hw : bool then BLE_FIRMWARE_HWFLOW else BLE_FIRMWARE)
    "upgrade-bte" "ble_prog " INSTALL_BLE_ERR
    (_ ← system "killall hciattach > /dev/null 2>&1"; mret tt) killAgent;
  mret tt.

(** ** Wrapping up *)

Definition write_index (bootdir : string) (updateindex : Z) : M unit :=
  let path := snprintf 256 (bootdir +:+ "/bootindex") in
  f ← fopen_w path;
  if negb f then cleanup_exit INSTALL_KERNEL_ERR
  else _ ← fwrite path (dec updateindex +:+ String LF ""); mret tt.

Definition unmount_all : M unit :=
  b ← access TMP_BOOT_DIR;
  _ ← when b (_ ← umount2 TMP_BOOT_DIR; rmdir TMP_BOOT_DIR);
  _ ← umount2 TMP_KERNEL1_DIR;
  _ ← umount2 TMP_KERNEL2_DIR;
  _ ← rmdir TMP_KERNEL1_DIR;
  _ ← rmdir TMP_KERNEL2_DIR;
  _ ← system "rm -rf /tmp/update";
  mret tt.

(** Everything before the new boot index is written. *)
Definition install_parts (o : fw_opts) (bootdir rootfsdev : string) : M unit :=
  _ ← install_uboot (opt_verify o);
  _ ← install_kernel (opt_verify o) bootdir;
  _ ← install_dtb (opt_verify o) bootdir;
  _ ← install_rootfs (opt_verify o) rootfsdev;
  _ ← when (negb (opt_skipradio o)) (install_radios (opt_kill o));
  pokeWatchdog.

Definition fwinstall (opts : list ascii) (filearg : option string) : M Z :=
  match parse_opts opts (FwOpts true false false) with
  | inl 0 => mret 0
  | inl code => exit code
  | inr o =>
      match filearg with
      | None => exit INSTALL_ARG_ERR
      | Some filearg =>
          _ ← chdir "/tmp";
          _ ← take_lock;
          _ ← unpack filearg;
          _ ← mount_kernels;
          '(index1, index2) ← boot_indices;
          let '(bootdir, rootfsdev, updateindex) := choose_partition index1 index2 in
          _ ← install_parts o bootdir rootfsdev;
          _ ← write_index bootdir updateindex;
          _ ← unmount_all;
          mret 0
      end
  end.

End Install.

(** ** The copy of the root file system *)

Lemma same_bytes_spec a b : same_bytes a b = true <-> a = b.
Proof. unfold same_bytes. by rewrite bool_decide_eq_true. Qed.

(** The next block. *)
Definition block_size (src : string) : nat :=
  if (READ_BLOCK_SIZE <? String.length src)%nat then READ_BLOCK_SIZE else String.length src.

Lemma block_size_spec src : src <> "" -> (0 < block_size src <= String.length src)%nat.
Proof.
  intros Hs. unfold block_size. assert (0 < String.length src)%nat by (destruct src; [done|cbn; lia]).
  destruct (Nat.ltb_spec READ_BLOCK_SIZE (String.length src)); unfold READ_BLOCK_SIZE in *; lia.
Qed.

Lemma rootfs_write_sound fuel : forall io k src pre cur compare new,
  (String.length src < fuel)%nat -> rootfs_write fuel io k src pre cur compare = (0, new) ->
  new = pre +:+ src +:+ sdrop (String.length src) cur /\ (String.length src <= String.length cur)%nat.
Proof.
  induction fuel as [|f IH]; intros io k src pre cur compare new Hf; [lia|]. cbn [rootfs_write].
  destruct (Nat.eqb_spec (String.length src) 0) as [E|E].
  { intros [= <-]. destruct src; [|done]. cbn. split; [done|lia]. }
  fold (block_size src). set (n := block_size src).
  assert (0 < n <= String.length src)%nat as Hn by (apply block_size_spec; by destruct src).
  assert (forall c', rootfs_write f io (S k) (sdrop n src) (pre +:+ stake n src) (sdrop n cur) c' = (0, new) ->
    (n <= String.length cur)%nat -> new = pre +:+ src +:+ sdrop (String.length src) cur /\
    (String.length src <= String.length cur)%nat) as Hstep.
  { intros c' Hr Hc. apply IH in Hr; [|rewrite sdrop_len; lia]. destruct Hr as [-> Hl]. rewrite !sdrop_len in *.
    split; [|lia]. rewrite sapp_assoc, <- (sapp_assoc (stake n src)), stake_sdrop, sdrop_sdrop.
    by replace (n + (String.length src - n))%nat with (String.length src) by lia. }
  case_if; [done|]. destruct (Nat.ltb_spec (String.length cur) n) as [Hc|Hc].
  - rewrite orb_true_r. destruct compare; cbn [andb]; repeat case_if; done.
  - repeat case_if; try done; intros Hr; [|by eapply Hstep].
    eapply Hstep; [|done].
    match goal with E : compare && same_bytes _ _ = true |- _ => apply andb_true_iff in E as [_ E]; apply same_bytes_spec in E; rewrite E end.
    exact Hr.
Qed.

Lemma rootfs_write_complete fuel : forall io k src pre cur compare,
  (forall j, rd_src io j = true /\ rd_dev io j = true /\ wr_dev io j = true) ->
  (String.length src < fuel)%nat -> (String.length src <= String.length cur)%nat ->
  fst (rootfs_write fuel io k src pre cur compare) = 0.
Proof.
  induction fuel as [|f IH]; intros io k src pre cur compare Hio Hf Hl; [lia|]. cbn [rootfs_write].
  destruct (Nat.eqb_spec (String.length src) 0) as [E|E]; [done|].
  fold (block_size src). set (n := block_size src).
  assert (0 < n <= String.length src)%nat as Hn by (apply block_size_spec; by destruct src).
  destruct (Hio k) as (-> & -> & ->). rewrite (proj2 (Nat.ltb_ge _ _)) by lia. cbn [negb orb]. rewrite andb_false_r.
  case_if; apply IH; try done; rewrite !sdrop_len; lia.
Qed.

Lemma rootfs_verify_ok fuel : forall io k src rest,
  (forall j, rd_src io j = true /\ rd_dev io j = true) -> (String.length src < fuel)%nat ->
  rootfs_verify fuel io k src (src +:+ rest) = 0.
Proof.
  induction fuel as [|f IH]; intros io k src rest Hio Hf; [lia|]. cbn [rootfs_verify].
  destruct (Nat.eqb_spec (String.length src) 0) as [E|E]; [done|].
  fold (block_size src). set (n := block_size src).
  assert (0 < n <= String.length src)%nat as Hn by (apply block_size_spec; by destruct src).
  destruct (Hio k) as (-> & ->). rewrite slen_app, (proj2 (Nat.ltb_ge _ _)) by lia. cbn [negb orb].
  rewrite stake_app_le, sdrop_app_le by lia. rewrite (proj2 (same_bytes_spec _ _)) by done.
  apply IH; [done|]. rewrite sdrop_len. lia.
Qed.

(** C14.  The root file system copy is right: whenever the write loop ends without an error the
    device starts with the image and is unchanged behind it, although blocks that already
    agree are skipped; and on a device large enough whose reads and writes succeed, the loop
    does end without an error and the verify loop accepts the result. *)
Theorem rootfs_install_correct io1 io2 img dev :
  (forall new, rootfs_write (S (String.length img)) io1 0 img "" dev true = (0, new) ->
     new = img +:+ sdrop (String.length img) dev) /\
  ((forall j, rd_src io1 j = true /\ rd_dev io1 j = true /\ wr_dev io1 j = true) ->
   (forall j, rd_src io2 j = true /\ rd_dev io2 j = true) -> (String.length img <= String.length dev)%nat ->
   let new := img +:+ sdrop (String.length img) dev in
   rootfs_write (S (String.length img)) io1 0 img "" dev true = (0, new) /\
   rootfs_verify (S (String.length img)) io2 0 img new = 0).
Proof.
  split.
  - intros new Hr. apply rootfs_write_sound in Hr as [-> _]; [done|lia].
  - intros H1 H2 Hl. cbv zeta. split; [|apply rootfs_verify_ok; [done|lia]].
    pose proof (rootfs_write_complete (S (String.length img)) io1 0 img "" dev true H1 ltac:(lia) Hl) as Hc.
    destruct (rootfs_write _ _ _ _ _ _ _) as [res new] eqn:Hr. cbn in Hc. subst res.
    apply rootfs_write_sound in Hr as [-> _]; [done|lia].
Qed.

(** Block I/O that never fails. *)
Definition good_io : blk_io := BlkIo (fun _ => true) (fun _ => true) (fun _ => true).

Lemma rootfs_install_correct_witness :
  rootfs_write 4 good_io 0 "abc" "" "abXYZ" true = (0, "abcYZ") /\ rootfs_verify 4 good_io 0 "abc" "abcYZ" = 0.
Proof. apply (rootfs_install_correct good_io good_io "abc" "abXYZ"); cbn; auto. Defined.

(** ** What the program does not touch *)

(** The mounts fwinstall makes. *)
Definition fw_mounts : list (string * string) :=
  [(TMP_KERNEL1_DIR, KERNEL1_DEV); (TMP_KERNEL2_DIR, KERNEL2_DEV); (TMP_BOOT_DIR, BOOT_DEV)].
Definition mounts_ok (ms : list (string * string)) : Prop := Forall (fun m => m ∈ fw_mounts) ms.

(** No file system state the program can be in makes path [p] denote the file with key [k]. *)
Definition avoids (k p : string) : bool :=
  String.prefix "/" p && negb (String.eqb p k) &&
  forallb (fun m => match below m.1 p with Some r => negb (String.eqb (m.2 +:+ ":" +:+ r) k) | None => true end) fw_mounts.

Lemma avoids_resolve k p s : avoids k p = true -> mounts_ok (mnts s) -> resolve s p <> k.
Proof.
  unfold avoids, resolve, abs_path. intros Ha Hm.
  apply andb_true_iff in Ha as [Ha Hf]. apply andb_true_iff in Ha as [Hp Hk]. rewrite Hp.
  apply negb_true_iff, String.eqb_neq in Hk. rewrite forallb_forall in Hf.
  induction (mnts s) as [|[d dev] ms IH]; [done|]. cbn [resolve_in].
  apply Forall_cons_1 in Hm as [Hin Hm]. destruct (below d p) as [r|] eqn:Hb; [|by apply IH].
  apply list_elem_of_In in Hin. specialize (Hf _ Hin). cbn [fst snd] in Hf. rewrite Hb in Hf.
  by apply negb_true_iff, String.eqb_neq in Hf.
Qed.

(** The commands of an installation leave the file with key [k] alone. *)
Definition sh_keeps `{Env} (k : string) : Prop := forall c w,
  files (snd (sh c w)) !! k = files (fs w) !! k.

(** The file with key [k] holds [v], and only the program's own mounts are there. *)
Definition holds (k : string) (v : option string) (w : world) : Prop :=
  files (fs w) !! k = v /\ mounts_ok (mnts (fs w)).

Section Keeps.
Context `{Env} `{!ShLocal} (k : string) (v : option string) (Hsh : sh_keeps k).

Lemma holds_put p s w : avoids k p = true -> holds k v w -> holds k v (put_file p s w).
Proof.
  intros Ha [Hv Hm]. split; [|done]. cbn. rewrite lookup_insert_ne; [done|]. by apply avoids_resolve.
Qed.
Lemma holds_del p w : avoids k p = true -> holds k v w -> holds k v (del_file p w).
Proof.
  intros Ha [Hv Hm]. split; [|done]. cbn. rewrite lookup_delete_ne; [done|]. by apply avoids_resolve.
Qed.
Lemma stable_fopen_w p : avoids k p = true -> stable (holds k v) (fopen_w p).
Proof. intros Ha w Hw. unfold fopen_w. destruct (wr_ok p w); [by apply holds_put|done]. Qed.
Lemma stable_fwrite p s : avoids k p = true -> stable (holds k v) (fwrite p s).
Proof. intros Ha w Hw. by apply holds_put. Qed.
Lemma stable_open_rw p : avoids k p = true -> stable (holds k v) (open_rw p).
Proof. intros Ha w Hw. unfold open_rw. destruct (wr_ok p w); [by apply holds_put|done]. Qed.
Lemma stable_sendfile p s : avoids k p = true -> stable (holds k v) (sendfile p s).
Proof. intros Ha w Hw. by apply holds_put. Qed.
Lemma stable_put_dev p s : avoids k p = true -> stable (holds k v) (put_dev p s).
Proof. intros Ha w Hw. by apply holds_put. Qed.
Lemma stable_unlink p : avoids k p = true -> stable (holds k v) (unlink p).
Proof. intros Ha w Hw. by apply holds_del. Qed.
Lemma stable_system c : stable (holds k v) (system c).
Proof.
  intros w [Hv Hm]. unfold system. pose proof (Hsh c w) as H2. destruct (sh_local c w) as [H1 _].
  destruct (sh c w) as [st s]. cbn in *. split; cbn; congruence.
Qed.
Lemma stable_mkdir p : stable (holds k v) (mkdir p).
Proof. by intros w []. Qed.
Lemma stable_rmdir p : stable (holds k v) (rmdir p).
Proof. by intros w []. Qed.
Lemma stable_chdir p : stable (holds k v) (chdir p).
Proof. by intros w []. Qed.
Lemma stable_mount dev dir : (dir, dev) ∈ fw_mounts -> stable (holds k v) (mount dev dir).
Proof.
  intros Hin w [Hv Hm]. unfold mount. destruct (mount_ok dev dir w); [|done]. split; [done|]. by constructor.
Qed.
Lemma stable_umount2 dir : stable (holds k v) (umount2 dir).
Proof. intros w [Hv Hm]. split; [done|]. cbn. unfold mounts_ok in *. rewrite Forall_forall in *.
  intros m Hin. apply Hm, list_elem_of_In. apply list_elem_of_In in Hin. by apply list_elem_of_filter in Hin as [_ ?].
Qed.
Lemma stable_same_fs {A} (m : M A) : keeps_fs m -> stable (holds k v) m.
Proof. intros Hm w [Hv Hmm]. unfold holds. by rewrite Hm. Qed.
End Keeps.

(** Closes the leaves of a [stable (holds k v) _] goal: paths by computation, commands by the
    hypothesis on [sh]. *)
Ltac keeps_step :=
  lazymatch goal with
  | |- forall _, _ => intros ?
  | |- stable _ (let _ := _ in _) => cbv zeta
  | |- stable _ (mbind _ _) => apply stable_bind
  | |- stable _ (mret _) => apply stable_ret
  | |- stable _ (exit _) => apply stable_exit
  | |- stable _ crash => apply stable_crash
  | |- stable _ (when _ _) => apply stable_when
  | |- stable _ (match ?x with _ => _ end) => destruct x
  | |- stable _ (fopen_w _) => apply stable_fopen_w; vm_compute; reflexivity
  | |- stable _ (fwrite _ _) => apply stable_fwrite; vm_compute; reflexivity
  | |- stable _ (open_rw _) => apply stable_open_rw; vm_compute; reflexivity
  | |- stable _ (sendfile _ _) => apply stable_sendfile; vm_compute; reflexivity
  | |- stable _ (put_dev _ _) => apply stable_put_dev; vm_compute; reflexivity
  | |- stable _ (unlink _) => apply stable_unlink; vm_compute; reflexivity
  | |- stable _ (system _) => apply stable_system; assumption
  | |- stable _ (mkdir _) => apply stable_mkdir
  | |- stable _ (rmdir _) => apply stable_rmdir
  | |- stable _ (chdir _) => apply stable_chdir
  | |- stable _ (mount _ _) => apply stable_mount, list_elem_of_In; cbn; auto 10
  | |- stable _ (umount2 _) => apply stable_umount2
  | |- stable _ (access _) => apply stable_same_fs, keeps_fs_access
  | |- stable _ (stat _) => apply stable_same_fs, keeps_fs_stat
  | |- stable _ (fopen_r _) => apply stable_same_fs, keeps_fs_fopen_r
  | |- stable _ (popen _) => apply stable_same_fs, keeps_fs_popen
  | |- stable _ (readlink _) => apply stable_same_fs, keeps_fs_readlink
  | |- stable _ malloc_ok => apply stable_same_fs, keeps_fs_malloc
  | |- stable _ (emit _) => apply stable_same_fs, keeps_fs_emit
  | |- stable _ (store_token _ _ _) => apply stable_same_fs, keeps_fs_store
  end.
Ltac keeps_tac := repeat keeps_step.

Section Protected.
Context `{Env} `{!ShLocal} (plat : platform) (stack : string) (io1 io2 : blk_io).

(** The two boot index files. *)
Definition BOOTINDEX1 : string := "/dev/kern1:/bootindex".
Definition BOOTINDEX2 : string := "/dev/kern2:/bootindex".

Definition is_bootdir (d : string) : Prop := d = TMP_KERNEL1_DIR \/ d = TMP_KERNEL2_DIR.
Definition is_rootdev (d : string) : Prop := d = DEV_ROOTFS1 \/ d = DEV_ROOTFS2.

Section Key.
Context (k : string) (v : option string) (Hsh : sh_keeps k) (Hk : k = BOOTINDEX1 \/ k = BOOTINDEX2).

Lemma setLedMode_keeps led : stable (holds k v) (IRIS_setLedMode led).
Proof. destruct Hk as [-> | ->]; unfold IRIS_setLedMode, usleep; keeps_tac. Qed.
Lemma pokeWatchdog_keeps : stable (holds k v) pokeWatchdog.
Proof. unfold pokeWatchdog, writeWatchdog. keeps_tac. Qed.
Lemma cleanup_exit_keeps A code : stable (holds k v) (@cleanup_exit _ A code).
Proof. destruct Hk as [-> | ->]; unfold cleanup_exit; keeps_tac. Qed.
Ltac keeps :=
  repeat first [ keeps_step
               | lazymatch goal with
                 | |- stable _ (IRIS_setLedMode _) => apply setLedMode_keeps
                 | |- stable _ pokeWatchdog => apply pokeWatchdog_keeps
                 | |- stable _ (cleanup_exit _) => apply cleanup_exit_keeps
                 | |- stable _ (fail_exit _ _) => unfold fail_exit
                 | |- stable _ (diff_q _ _) => unfold diff_q
                 | |- stable _ (cmpFlashToFile _ _ _ _) => unfold cmpFlashToFile
                 | |- stable _ stopHubAgent => unfold stopHubAgent, sleep
                 end ].

Lemma install_file_keeps verify src dst led code :
  avoids k dst = true -> stable (holds k v) (install_file verify src dst led code).
Proof.
  intros Ha. unfold install_file, IRIS_copyFile. keeps.
  all: first [by apply stable_unlink | by apply stable_open_rw | by apply stable_sendfile | idtac].
  all: keeps; try (by apply stable_sendfile).
Qed.
Lemma avoids_boot d name : is_bootdir d ->
  In name [KERNEL_TMP_IMAGE plat; KERNEL_TMP_DTB plat] -> avoids k (snprintf 256 (d +:+ name)) = true.
Proof. intros [-> | ->] [<- | [<- | []]]; destruct Hk as [-> | ->], plat; vm_compute; reflexivity. Qed.

Lemma install_uboot_keeps verify : stable (holds k v) (install_uboot plat verify).
Proof.
  unfold install_uboot. destruct plat; keeps;
    try (apply install_file_keeps; destruct Hk as [-> | ->]; vm_compute; reflexivity);
    destruct Hk as [-> | ->]; keeps.
Qed.

Lemma install_boot_keeps verify src d name :
  is_bootdir d -> In name [KERNEL_TMP_IMAGE plat; KERNEL_TMP_DTB plat] ->
  stable (holds k v) (install_boot_file verify src d name).
Proof.
  intros Hd Hn. unfold install_boot_file. keeps. by apply install_file_keeps, avoids_boot.
Qed.

Lemma install_rootfs_keeps verify d : is_rootdev d -> stable (holds k v) (install_rootfs plat io1 io2 verify d).
Proof.
  intros [-> | ->]; unfold install_rootfs, rootfs_copy; keeps; destruct Hk as [-> | ->]; keeps.
Qed.

Lemma install_radio_keeps firmware led cmd code pre kill :
  avoids k (snprintf 256 (FIRMWARE_DIR +:+ firmware)) = true -> stable (holds k v) pre ->
  stable (holds k v) (install_radio firmware led cmd code pre kill).
Proof.
  intros Ha Hp. unfold install_radio, IRIS_copyFile. keeps;
    try first [by apply stable_unlink | by apply stable_open_rw | by apply stable_sendfile | exact Hp]; keeps;
    by apply stable_sendfile.
Qed.

Lemma install_radios_keeps kill : stable (holds k v) (install_radios stack kill).
Proof.
  unfold install_radios, IRIS_isHwFlowControlSupported, model_or_version, IRIS_getModel, read_word, IRIS_getHardwareVersion.
  keeps; apply install_radio_keeps; keeps; destruct Hk as [-> | ->]; vm_compute; reflexivity.
Qed.

Lemma install_parts_keeps o d dev :
  is_bootdir d -> is_rootdev dev -> stable (holds k v) (install_parts plat stack io1 io2 o d dev).
Proof.
  intros Hd Hdev. unfold install_parts, install_kernel, install_dtb.
  keeps; [apply install_uboot_keeps|apply install_boot_keeps; [done|cbn; auto]..|by apply install_rootfs_keeps|
          apply install_radios_keeps].
Qed.

Lemma take_lock_keeps : stable (holds k v) take_lock.
Proof. unfold take_lock. destruct Hk as [-> | ->]; keeps. Qed.
Lemma unpack_keeps filearg : stable (holds k v) (unpack filearg).
Proof. unfold unpack. keeps; destruct Hk as [-> | ->]; keeps. Qed.
Lemma mount_kernels_keeps : stable (holds k v) mount_kernels.
Proof. unfold mount_kernels. keeps. Qed.
Lemma boot_indices_keeps : stable (holds k v) boot_indices.
Proof. unfold boot_indices, read_index. keeps. Qed.

(** The whole program: unless it returns 0, the boot index is what it was. *)
Lemma choose_cases i1 i2 d dev u :
  choose_partition i1 i2 = (d, dev, u) -> is_bootdir d /\ is_rootdev dev.
Proof. unfold choose_partition, is_bootdir, is_rootdev. case_if; intros [= <- <- _]; auto. Qed.

Lemma unmount_all_val w : wp unmount_all (fun r _ => r = Val tt) w.
Proof. unfold unmount_all. by wp_go. Qed.

Lemma cleanup_exit_no_val A code : no_val (@cleanup_exit _ A code).
Proof. unfold cleanup_exit. repeat (apply no_val_bind; intros _). apply no_val_exit. Qed.

Lemma fwinstall_keeps opts filearg w :
  holds k v w -> wp (fwinstall plat stack io1 io2 opts filearg) (fun r w' => r = Val 0 \/ holds k v w') w.
Proof.
  intros Hw. unfold fwinstall. destruct (parse_opts opts _) as [[|p|p]|o]; [by left|by right..|].
  destruct filearg as [file|]; [|by right].
  apply (wp_stable_bind (holds k v)); [apply stable_chdir|done| |auto]. intros _ w1 H1.
  apply (wp_stable_bind (holds k v)); [apply take_lock_keeps|done| |auto]. intros _ w2 H2.
  apply (wp_stable_bind (holds k v)); [apply unpack_keeps|done| |auto]. intros _ w3 H3.
  apply (wp_stable_bind (holds k v)); [apply mount_kernels_keeps|done| |auto]. intros _ w4 H4.
  apply (wp_stable_bind (holds k v)); [apply boot_indices_keeps|done| |auto]. intros [i1 i2] w5 H5.
  destruct (choose_partition i1 i2) as [[d dev] u] eqn:Hc. apply choose_cases in Hc as [Hd Hdev].
  apply (wp_stable_bind (holds k v)); [by apply install_parts_keeps|done| |auto]. intros _ w6 H6.
  unfold write_index. wp_step. wp_step. wp_step; cbn [seq_post negb].
  - wp_step. wp_step. cbn [seq_post]. wp_step. cbn [seq_post]. wp_step.
    eapply wp_mono; [apply unmount_all_val|]. intros r w7 ->. cbn [seq_post]. wp_step. by left.
  - eapply wp_mono; [apply wp_and; [apply cleanup_exit_no_val|by apply (stable_wp _ _ _ (cleanup_exit_keeps unit INSTALL_KERNEL_ERR))]|].
    intros r w7 [Hr Hw7]. destruct r; cbn; auto. done.
Qed.
Lemma unmount_all_keeps : stable (holds k v) unmount_all.
Proof. unfold unmount_all. keeps. Qed.
End Key.
End Protected.

(** ** Where the new index goes *)

Section Success.
Context `{Env} `{!ShLocal} (plat : platform) (stack : string) (io1 io2 : blk_io).

(** The boot index paths denote the boot index files. *)
Definition index_paths (ms : list (string * string)) : Prop :=
  resolve_in ms (TMP_KERNEL1_DIR +:+ "/bootindex") = BOOTINDEX1 /\
  resolve_in ms (TMP_KERNEL2_DIR +:+ "/bootindex") = BOOTINDEX2.
Definition mounted (w : world) : Prop := index_paths (mnts (fs w)).

Lemma fail_exit_no_val A led code : no_val (@fail_exit _ A led code).
Proof. unfold fail_exit. apply no_val_bind. intros _. apply cleanup_exit_no_val. Qed.

Lemma mount_boot_mounted : vstable mounted (mount BOOT_DEV TMP_BOOT_DIR).
Proof.
  apply vstable_stable. intros w Hw. unfold mount. destruct (mount_ok _ _ w); [|done]. exact Hw.
Qed.

Lemma vstable_mnts_eq {A} (m : M A) ms : keeps_mnts m -> vstable (fun w => mnts (fs w) = ms) m.
Proof. apply (vstable_mnts (fun l => l = ms)). Qed.

Ltac vkeeps :=
  repeat lazymatch goal with
  | |- forall _, _ => intros ?
  | |- vstable _ (let _ := _ in _) => cbv zeta
  | |- vstable _ (mbind _ _) => apply vstable_bind
  | |- vstable _ (mret _) => apply vstable_ret
  | |- vstable _ (exit _) => apply vstable_no_val, no_val_exit
  | |- vstable _ (fail_exit _ _) => apply vstable_no_val, fail_exit_no_val
  | |- vstable _ (cleanup_exit _) => apply vstable_no_val, cleanup_exit_no_val
  | |- vstable _ crash => apply vstable_stable, stable_crash
  | |- vstable _ (when _ _) => apply vstable_when
  | |- vstable _ (match ?x with _ => _ end) => destruct x
  | |- vstable _ (mount BOOT_DEV TMP_BOOT_DIR) => apply mount_boot_mounted
  | |- vstable _ (IRIS_setLedMode _) => unfold IRIS_setLedMode, usleep
  | |- vstable _ (IRIS_copyFile _ _) => unfold IRIS_copyFile
  | |- vstable _ pokeWatchdog => unfold pokeWatchdog, writeWatchdog
  | |- vstable _ stopHubAgent => unfold stopHubAgent, sleep
  | |- vstable _ (diff_q _ _) => unfold diff_q
  | |- vstable _ (cmpFlashToFile _ _ _ _) => unfold cmpFlashToFile
  | |- vstable _ (install_file _ _ _ _ _) => unfold install_file
  | |- vstable _ (install_boot_file _ _ _ _) => unfold install_boot_file
  | |- vstable _ (install_radio _ _ _ _ _ _) => unfold install_radio
  | |- vstable _ (IRIS_isHwFlowControlSupported _) =>
      unfold IRIS_isHwFlowControlSupported, model_or_version, IRIS_getModel, read_word, IRIS_getHardwareVersion
  | |- vstable mounted _ => apply (vstable_mnts index_paths); km_leaf
  | |- vstable _ _ => apply vstable_mnts_eq; km_leaf
  end.

Lemma install_parts_mounted o d dev : vstable mounted (install_parts plat stack io1 io2 o d dev).
Proof.
  unfold install_parts, install_uboot, install_kernel, install_dtb, install_rootfs, rootfs_copy, install_radios. vkeeps.
Qed.

Lemma unpack_mnts filearg ms : vstable (fun w => mnts (fs w) = ms) (unpack filearg).
Proof. unfold unpack. vkeeps. Qed.

Lemma take_lock_mnts ms : vstable (fun w => mnts (fs w) = ms) take_lock.
Proof. unfold take_lock. vkeeps. Qed.
(** Both boot index files, with the mounts. *)
Definition both (v1 v2 : option string) (w : world) : Prop := holds BOOTINDEX1 v1 w /\ holds BOOTINDEX2 v2 w.

Lemma both_stable {A} (m : M A) v1 v2 :
  stable (holds BOOTINDEX1 v1) m -> stable (holds BOOTINDEX2 v2) m -> stable (both v1 v2) m.
Proof. intros H1 H2 w [Hw1 Hw2]. split; [by apply H1|by apply H2]. Qed.

Context (Hh : healthy) (Hk1 : sh_keeps BOOTINDEX1) (Hk2 : sh_keeps BOOTINDEX2).

Lemma mount_kernels_mounted :
  forall w, mnts (fs w) = [] -> wp mount_kernels (fun r w' => match r with Val _ => mounted w' | _ => True end) w.
Proof.
  intros w Hm. unfold mount_kernels.
  assert (vstable (fun w => mnts (fs w) = []) pokeWatchdog) as Hp by vkeeps.
  eapply (wp_vstable (fun w => mnts (fs w) = [])); [exact Hp|done| |by intros []]. intros _ w1 H1.
  do 2 (wp_step; wp_step; cbn [seq_post]). unfold mount. wp_step. unfold wp at 1.
  destruct (mount_ok KERNEL1_DEV TMP_KERNEL1_DIR _); cbn [fst snd seq_post];
    [|eapply wp_mono; [apply fail_exit_no_val|by intros []]].
  wp_step. unfold wp at 1. destruct (mount_ok KERNEL2_DEV TMP_KERNEL2_DIR _); cbn [fst snd seq_post];
    [|eapply wp_mono; [apply fail_exit_no_val|by intros []]].
  wp_step. unfold mounted. cbn. rewrite H1. done.
Qed.

(** The index a boot index file holds. *)
Definition index_at (k : string) (w : world) : option Z := files (fs w) !! k ≫= scan_d.

Lemma wp_read_index dir k i Q w :
  is_bootdir dir -> resolve_in (mnts (fs w)) (dir +:+ "/bootindex") = k ->
  index_at k w = Some i -> Q (Val i) w -> wp (read_index dir) Q w.
Proof.
  intros Ha Hr Hi HQ. unfold index_at in Hi. destruct (files (fs w) !! k) as [s|] eqn:Hs; [|done]. cbn in Hi.
  unfold read_index. wp_step. apply (wp_fopen_r_some Hh _ s).
  - rewrite <- Hs, <- Hr. by destruct Ha as [-> | ->].
  - cbn [seq_post]. wp_step. by rewrite Hi.
Qed.

(** The indices after the corruption check. *)
Definition adjusted (i1 i2 a b : Z) : Prop :=
  (a = i1 /\ b = i2) \/ (a = -1 /\ b = i2 /\ i2 < i1) \/ (a = i1 /\ b = -1 /\ i1 < i2).

Lemma corrupt_check_adjusted c f1 f2 i1 i2 :
  adjusted i1 i2 (fst (corrupt_check c f1 f2 i1 i2)) (snd (corrupt_check c f1 f2 i1 i2)).
Proof. unfold corrupt_check, adjusted. repeat case_if; to_prop; cbn; auto. Qed.

Lemma wp_boot_indices i1 i2 w :
  mounted w -> index_at BOOTINDEX1 w = Some i1 -> index_at BOOTINDEX2 w = Some i2 ->
  wp boot_indices (fun r w' => fs w' = fs w /\ exists a b, r = Val (a, b) /\ adjusted i1 i2 a b) w.
Proof.
  intros [Hm1 Hm2] H1 H2. unfold boot_indices. wp_step. eapply wp_read_index; [by left|exact Hm1|exact H1|]. cbn [seq_post].
  wp_step. eapply wp_read_index; [by right|exact Hm2|exact H2|]. cbn [seq_post]. wp_step. wp_step. cbn [seq_post].
  destruct (pipe _ w) as [out|]; [|wp_step; split; [done|]; exists i1, i2; split; [done|by left]].
  wp_step. unfold wp at 1, readlink. cbn [fst snd seq_post]. wp_step. unfold wp at 1. cbn [fst snd seq_post]. wp_step.
  split; [done|]. destruct (fgets 256 out) as [cl|]; [|exists i1, i2; split; [done|by left]].
  eexists _, _. split; [f_equal; apply surjective_pairing|]. apply corrupt_check_adjusted.
Qed.

Lemma choose_adjusted i1 i2 a b :
  0 <= i1 < INT_MAX -> 0 <= i2 < INT_MAX -> adjusted i1 i2 a b ->
  choose_partition a b = (TMP_KERNEL1_DIR, DEV_ROOTFS1, i2 + 1) \/
  choose_partition a b = (TMP_KERNEL2_DIR, DEV_ROOTFS2, i1 + 1).
Proof.
  unfold INT_MAX. intros H1 H2 Ha. unfold choose_partition. destruct (Z.ltb_spec b a).
  - right. do 2 f_equal. unfold adjusted in Ha. rewrite i32_small; [|unfold INT_MIN, INT_MAX]; lia.
  - left. do 2 f_equal. unfold adjusted in Ha. rewrite i32_small; [|unfold INT_MIN, INT_MAX]; lia.
Qed.

(** What a finished installation leaves in the two boot index files. *)
Definition switched (v1 v2 : option string) (i1 i2 : Z) (w : world) : Prop :=
  both (Some (dec (i2 + 1) +:+ String LF "")) v2 w \/ both v1 (Some (dec (i1 + 1) +:+ String LF "")) w.

Lemma wp_write_index1 v1 v2 u w : mounted w -> both v1 v2 w ->
  wp (write_index TMP_KERNEL1_DIR u) (fun r w' => r = Val tt /\ both (Some (dec u +:+ String LF "")) v2 w') w.
Proof.
  intros [Hm _] [[_ Hok] [H2 _]]. unfold write_index. wp_step. apply (wp_fopen_w_ok Hh). cbn [seq_post negb]. wp_step.
  apply (wp_fwrite_ok Hh). cbn [seq_post]. wp_step. split; [done|].
  unfold both, holds, put_file, get, resolve, abs_path, set_fs. cbn [fs files mnts cwd].
  change (snprintf 256 (TMP_KERNEL1_DIR +:+ "/bootindex")) with (TMP_KERNEL1_DIR +:+ "/bootindex").
  change (String.prefix "/" (TMP_KERNEL1_DIR +:+ "/bootindex")) with true. cbv iota. rewrite Hm.
  rewrite !lookup_insert_eq, !lookup_insert_ne by done. done.
Qed.

Lemma wp_write_index2 v1 v2 u w : mounted w -> both v1 v2 w ->
  wp (write_index TMP_KERNEL2_DIR u) (fun r w' => r = Val tt /\ both v1 (Some (dec u +:+ String LF "")) w') w.
Proof.
  intros [_ Hm] [[H1 Hok] [_ _]]. unfold write_index. wp_step. apply (wp_fopen_w_ok Hh). cbn [seq_post negb]. wp_step.
  apply (wp_fwrite_ok Hh). cbn [seq_post]. wp_step. split; [done|].
  unfold both, holds, put_file, get, resolve, abs_path, set_fs. cbn [fs files mnts cwd].
  change (snprintf 256 (TMP_KERNEL2_DIR +:+ "/bootindex")) with (TMP_KERNEL2_DIR +:+ "/bootindex").
  change (String.prefix "/" (TMP_KERNEL2_DIR +:+ "/bootindex")) with true. cbv iota. rewrite Hm.
  rewrite !lookup_insert_eq, !lookup_insert_ne by done. done.
Qed.

Lemma both_index v1 v2 i1 i2 w :
  both v1 v2 w -> v1 ≫= scan_d = Some i1 -> v2 ≫= scan_d = Some i2 ->
  index_at BOOTINDEX1 w = Some i1 /\ index_at BOOTINDEX2 w = Some i2.
Proof. unfold index_at. by intros [[-> _] [-> _]]. Qed.

Lemma write_unmount v1 v2 i1 i2 a b o w :
  0 <= i1 < INT_MAX -> 0 <= i2 < INT_MAX -> adjusted i1 i2 a b -> mounted w -> both v1 v2 w ->
  wp (let '(bootdir, rootfsdev, updateindex) := choose_partition a b in
      _ ← install_parts plat stack io1 io2 o bootdir rootfsdev;
      _ ← write_index bootdir updateindex; _ ← unmount_all; mret 0)
     (fun r w' => match r with Val _ => switched v1 v2 i1 i2 w' | _ => True end) w.
Proof.
  intros Hi1 Hi2 Ha Hm Hb.
  assert (forall d dev, is_bootdir d -> is_rootdev dev ->
    vstable (fun w => mounted w /\ both v1 v2 w) (install_parts plat stack io1 io2 o d dev)) as Hp.
  { intros d dev Hd Hdev. apply vstable_and; [apply install_parts_mounted|].
    apply vstable_stable, both_stable; apply install_parts_keeps; auto. }
  assert (forall v v', stable (both v v') unmount_all) as Hu.
  { intros v v'. apply both_stable; apply unmount_all_keeps; auto. }
  destruct (choose_adjusted i1 i2 a b Hi1 Hi2 Ha) as [-> | ->].
  - eapply (wp_vstable (fun w => mounted w /\ both v1 v2 w));
      [apply Hp; [by left|by left]|done| |by intros []]. intros _ w1 [Hm1 Hb1].
    wp_step. eapply wp_mono; [by apply (wp_write_index1 v1 v2)|]. intros r w2 [-> Hb2]. cbn [seq_post].
    eapply wp_stable_bind; [apply Hu|exact Hb2| |done]. intros _ w3 Hb3. wp_step. by left.
  - eapply (wp_vstable (fun w => mounted w /\ both v1 v2 w));
      [apply Hp; [by right|by right]|done| |by intros []]. intros _ w1 [Hm1 Hb1].
    wp_step. eapply wp_mono; [by apply (wp_write_index2 v1 v2)|]. intros r w2 [-> Hb2]. cbn [seq_post].
    eapply wp_stable_bind; [apply Hu|exact Hb2| |done]. intros _ w3 Hb3. wp_step. by right.
Qed.

Lemma fwinstall_switched opts o filearg v1 v2 i1 i2 w :
  parse_opts opts (FwOpts true false false) = inr o -> mnts (fs w) = [] -> both v1 v2 w ->
  v1 ≫= scan_d = Some i1 -> v2 ≫= scan_d = Some i2 -> 0 <= i1 < INT_MAX -> 0 <= i2 < INT_MAX ->
  wp (fwinstall plat stack io1 io2 opts filearg)
     (fun r w' => match r with Val _ => switched v1 v2 i1 i2 w' | _ => True end) w.
Proof.
  intros Ho Hm Hb Hv1 Hv2 Hi1 Hi2. unfold fwinstall. rewrite Ho. destruct filearg as [file|]; [|by wp_step].
  set (J := fun w => mnts (fs w) = [] /\ both v1 v2 w).
  eapply (wp_vstable J); [|done| |by intros []].
  { apply vstable_and; [apply vstable_mnts_eq; km_leaf|apply vstable_stable, both_stable; apply stable_chdir]. }
  intros _ w1 H1. eapply (wp_vstable J); [|exact H1| |by intros []].
  { apply vstable_and; [apply take_lock_mnts|apply vstable_stable, both_stable; apply take_lock_keeps; auto]. }
  intros _ w2 H2. eapply (wp_vstable J); [|exact H2| |by intros []].
  { apply vstable_and; [apply unpack_mnts|apply vstable_stable, both_stable; apply unpack_keeps; auto]. }
  intros _ w3 [H3 H3b]. wp_step. eapply wp_mono.
  { apply wp_and; [by apply mount_kernels_mounted|].
    apply (stable_wp (both v1 v2)); [|exact H3b]. apply both_stable; apply mount_kernels_keeps; auto. }
  intros [[]|z|z|] w4 [H4 H4b]; cbn [seq_post]; try done.
  destruct (both_index _ _ _ _ _ H4b Hv1 Hv2) as [Hx1 Hx2]. wp_step. eapply wp_mono; [by apply wp_boot_indices|].
  intros r w5 (Hfs & a & b & -> & Had). cbn [seq_post].
  apply write_unmount; [done..|unfold mounted; by rewrite Hfs|unfold both, holds; by rewrite Hfs].
Qed.
End Success.

(** ** The lock file *)

Section Lock.
Context {Other : Env} {Hub : Env} {Local : @ShLocal Hub} (plat : platform) (stack : string) (io1 io2 : blk_io).
Context (Hsh : sh_keeps INSTALL_LOCK_FILE).

Definition locked (w : world) : Prop := holds INSTALL_LOCK_FILE (Some "") w.
Definition unlocked (w : world) : Prop := files (fs w) !! INSTALL_LOCK_FILE = None.

(** Run with the lock held, [m] either returns with the lock held or ends the process without it. *)
Definition guarded {A} (m : M A) : Prop := forall w, locked w ->
  wp m (fun r w' => match r with Val _ => locked w' | Exit _ => unlocked w' | _ => True end) w.

Definition no_exit {A} (m : M A) : Prop := forall w, match fst (m w) with Exit _ => False | _ => True end.

Lemma guarded_leaf {A} (m : M A) : no_exit m -> stable locked m -> guarded m.
Proof.
  intros He Hs w Hw. specialize (He w). specialize (Hs w Hw). unfold wp. by destruct (fst (m w)).
Qed.
Lemma guarded_ret {A} (a : A) : guarded (mret a).
Proof. by intros w. Qed.
Lemma guarded_crash {A} : guarded (@crash A).
Proof. by intros w. Qed.
Lemma guarded_bind {A B} (m : M A) (k : A -> M B) : guarded m -> (forall a, guarded (k a)) -> guarded (m ≫= k).
Proof.
  intros Hm Hk w Hw. wp_step. eapply wp_mono; [by apply Hm|]. intros [a|z|z|] w' Hw'; cbn [seq_post]; try done.
  by apply Hk.
Qed.
Lemma guarded_when b (m : M unit) : guarded m -> guarded (when b m).
Proof. destruct b; [done|]. intros _. apply guarded_ret. Qed.

Lemma resolve_lock s : mounts_ok (mnts s) -> resolve s INSTALL_LOCK_FILE = INSTALL_LOCK_FILE.
Proof.
  unfold resolve, abs_path. cbn [String.prefix]. change (if String.prefix "/" INSTALL_LOCK_FILE then INSTALL_LOCK_FILE else
    cwd s +:+ "/" +:+ INSTALL_LOCK_FILE) with INSTALL_LOCK_FILE.
  induction 1 as [|m ms Hm _ IH]; [done|]. destruct m as [d dev]. cbn [resolve_in].
  apply list_elem_of_In in Hm. destruct Hm as [[= <- <-] | [[= <- <-] | [[= <- <-] | []]]]; exact IH.
Qed.

(** [unlink] of the lock file releases it. *)
Lemma unlink_unlocks w : mounts_ok (mnts (fs w)) -> unlocked (del_file INSTALL_LOCK_FILE w).
Proof. intros Hm. unfold unlocked, del_file. cbn. rewrite resolve_lock by done. apply lookup_delete_eq. Qed.

Lemma guarded_unlink_exit {A} z : guarded (_ ← unlink INSTALL_LOCK_FILE; @exit A z).
Proof. intros w [_ Hm]. wp_step. wp_step. cbn [seq_post]. wp_step. by apply unlink_unlocks. Qed.

Lemma guarded_unlink_system_exit {A} c z : guarded (_ ← unlink INSTALL_LOCK_FILE; _ ← system c; @exit A z).
Proof.
  intros w [_ Hm]. do 2 wp_step. cbn [seq_post]. wp_step. apply wp_system_any. intros st s Hs. cbn [seq_post]. wp_step.
  pose proof (Hsh c (del_file INSTALL_LOCK_FILE w)) as Hk. rewrite Hs in Hk. unfold unlocked. cbn [fs snd] in *.
  rewrite Hk. by apply unlink_unlocks.
Qed.

Ltac leaf :=
  apply guarded_leaf;
  [ intros ?;
    lazymatch goal with
    | |- context [fopen_w ?p] => unfold fopen_w; destruct (wr_ok _ _)
    | |- context [open_rw ?p] => unfold open_rw; destruct (wr_ok _ _)
    | |- context [mount _ _] => unfold mount; destruct (mount_ok _ _ _)
    | |- context [system _] => unfold system; destruct (sh _ _)
    | |- context [store_token _ _ _] => unfold store_token, when; destruct (_ <=? _)%nat
    | _ => idtac
    end; exact I
  | unfold locked; keeps_step ].

Ltac guards :=
  repeat lazymatch goal with
  | |- forall _, _ => intros ?
  | |- guarded (let _ := _ in _) => cbv zeta
  | |- guarded (mbind _ (unlink INSTALL_LOCK_FILE)) =>
      first [apply guarded_unlink_exit | apply guarded_unlink_system_exit]
  | |- guarded (mbind _ _) => apply guarded_bind
  | |- guarded (mret _) => apply guarded_ret
  | |- guarded crash => apply guarded_crash
  | |- guarded (when _ _) => apply guarded_when
  | |- guarded (match ?x with _ => _ end) => destruct x
  | |- guarded (IRIS_setLedMode _) => unfold IRIS_setLedMode, usleep
  | |- guarded (IRIS_copyFile _ _) => unfold IRIS_copyFile
  | |- guarded pokeWatchdog => unfold pokeWatchdog, writeWatchdog
  | |- guarded stopHubAgent => unfold stopHubAgent, sleep
  | |- guarded (diff_q _ _) => unfold diff_q
  | |- guarded (cmpFlashToFile _ _ _ _) => unfold cmpFlashToFile
  | |- guarded (fail_exit _ _) => unfold fail_exit
  | |- guarded (cleanup_exit _) => unfold cleanup_exit
  | |- guarded (install_file _ _ _ _ _) => unfold install_file
  | |- guarded (install_boot_file _ _ _ _) => unfold install_boot_file
  | |- guarded (install_radio _ _ _ _ _ _) => unfold install_radio
  | |- guarded (IRIS_isHwFlowControlSupported _) =>
      unfold IRIS_isHwFlowControlSupported, model_or_version, IRIS_getModel, read_word, IRIS_getHardwareVersion
  | |- guarded _ => progress leaf
  end.

Lemma unpack_guarded file : guarded (unpack file).
Proof. unfold unpack. guards. Qed.
Lemma mount_kernels_guarded : guarded mount_kernels.
Proof. unfold mount_kernels. guards. Qed.
Lemma boot_indices_guarded : guarded boot_indices.
Proof. unfold boot_indices, read_index. guards. Qed.
Lemma install_uboot_guarded verify : guarded (install_uboot plat verify).
Proof. unfold install_uboot. destruct plat; guards. Qed.

Lemma install_file_guarded verify src dst led code :
  avoids INSTALL_LOCK_FILE dst = true -> guarded (install_file verify src dst led code).
Proof.
  intros Ha. assert (stable locked (unlink dst)) by (by apply stable_unlink).
  assert (stable locked (open_rw dst)) by (by apply stable_open_rw).
  assert (forall s, stable locked (sendfile dst s)) by (intros s; by apply stable_sendfile).
  unfold install_file, IRIS_copyFile.
  repeat (guards; try (apply guarded_leaf; [|by auto]; intros ?; unfold open_rw; try destruct (wr_ok _ _); exact I)).
Qed.

Lemma install_boot_guarded verify src d name :
  is_bootdir d -> In name [KERNEL_TMP_IMAGE plat; KERNEL_TMP_DTB plat] -> guarded (install_boot_file verify src d name).
Proof.
  intros Hd Hn. unfold install_boot_file. apply guarded_bind; [leaf|]. intros a. apply guarded_when.
  apply guarded_bind; [guards|]. intros _. apply install_file_guarded.
  destruct Hd as [-> | ->], Hn as [<- | [<- | []]]; destruct plat; vm_compute; reflexivity.
Qed.

Lemma install_rootfs_guarded verify d : is_rootdev d -> guarded (install_rootfs plat io1 io2 verify d).
Proof. intros [-> | ->]; unfold install_rootfs, rootfs_copy; guards. Qed.

Lemma install_radios_guarded kill : guarded (install_radios stack kill).
Proof. unfold install_radios. guards. Qed.

Lemma install_parts_guarded o d dev :
  is_bootdir d -> is_rootdev dev -> guarded (install_parts plat stack io1 io2 o d dev).
Proof.
  intros Hd Hdev. unfold install_parts, install_kernel, install_dtb.
  apply guarded_bind; [apply install_uboot_guarded|intros _].
  apply guarded_bind; [apply guarded_bind; [guards|intros _; apply install_boot_guarded; [done|cbn; auto]]|intros _].
  apply guarded_bind; [apply install_boot_guarded; [done|cbn; auto]|intros _].
  apply guarded_bind; [by apply install_rootfs_guarded|intros _].
  apply guarded_bind; [apply guarded_when, install_radios_guarded|intros _]. guards.
Qed.

Lemma finish_guarded d u : is_bootdir d -> guarded (_ ← write_index d u; _ ← unmount_all; mret 0).
Proof. intros [-> | ->]; unfold write_index, unmount_all; guards. Qed.

Lemma take_lock_takes w : healthy -> mounts_ok (mnts (fs w)) -> unlocked w -> bool_decide (INSTALL_LOCK_FILE ∈ dirs (fs w)) = false ->
  wp take_lock (fun r w' => r = Val tt /\ locked w') w.
Proof.
  intros Hh Hm Hu Hd. unfold take_lock, access. assert (get INSTALL_LOCK_FILE w = None) as Hg.
  { unfold get. by rewrite resolve_lock. }
  wp_step. unfold wp at 1. cbn [fst snd seq_post]. rewrite Hg.
  change (abs_path (fs w) INSTALL_LOCK_FILE) with INSTALL_LOCK_FILE. rewrite Hd. cbv iota.
  wp_step. unfold wp at 1, open_rw. rewrite (proj1 (proj2 (Hh INSTALL_LOCK_FILE w O))), Hg. cbn [fst snd seq_post default]. wp_step.
  split; [done|]. split; [|done]. unfold put_file. cbn. rewrite resolve_lock by done. apply lookup_insert_eq.
Qed.

Lemma fwinstall_body_guarded o file :
  guarded (_ ← unpack file; _ ← mount_kernels; '(index1, index2) ← boot_indices;
           let '(bootdir, rootfsdev, updateindex) := choose_partition index1 index2 in
           _ ← install_parts plat stack io1 io2 o bootdir rootfsdev;
           _ ← write_index bootdir updateindex; _ ← unmount_all; mret 0).
Proof.
  apply guarded_bind; [apply unpack_guarded|]. intros _. apply guarded_bind; [apply mount_kernels_guarded|]. intros _.
  apply guarded_bind; [apply boot_indices_guarded|]. intros [i1 i2].
  destruct (choose_partition i1 i2) as [[d dev] u] eqn:Hc. apply choose_cases in Hc as [Hd Hdev].
  apply guarded_bind; [by apply install_parts_guarded|]. intros _. by apply finish_guarded.
Qed.

(** *** While the lock is held *)

Definition held (w : world) : bool := match files (fs w) !! INSTALL_LOCK_FILE with Some _ => true | None => false end.

(** The hub, except that whatever is asked of it while the lock file is not there is answered by [Other].  Creating the lock
    file and removing the unpacked archive are let through. *)
Definition only_locked : Env := {|
  sh c w := if held w || String.eqb c "rm -rf /tmp/update" then sh c w else @sh Other c w;
  pipe c w := if held w then pipe c w else @pipe Other c w;
  rd_ok f w := if held w then rd_ok f w else @rd_ok Other f w;
  wr_ok f w := if held w || String.eqb f INSTALL_LOCK_FILE then wr_ok f w else @wr_ok Other f w;
  wr_len f w n := if held w then wr_len f w n else @wr_len Other f w n;
  mount_ok dev dir w := if held w then mount_ok dev dir w else @mount_ok Other dev dir w;
  mem_ok w := if held w then mem_ok w else @mem_ok Other w |}.

Lemma locked_held w : locked w -> held w = true.
Proof. intros [E _]. unfold held. by rewrite E. Qed.

(** With the lock held the two programs do the same. *)
Definition same {A} (m' m : M A) : Prop := forall w, locked w -> m' w = m w.

Lemma same_self {A} (m : M A) : same m m.
Proof. done. Qed.
Lemma same_bind {A B} (m' m : M A) (k' k : A -> M B) :
  guarded m -> same m' m -> (forall a, same (k' a) (k a)) -> same (m' ≫= k') (m ≫= k).
Proof.
  intros Hg Hm Hk w Hw. unfold mbind, M_bind. rewrite Hm by done. specialize (Hg w Hw). unfold wp in Hg.
  destruct (m w) as [[a|z|z|] w']; try done. by apply Hk.
Qed.
Lemma same_when b (m' m : M unit) : same m' m -> same (when b m') (when b m).
Proof. by destruct b. Qed.
Lemma same_unlink_system_exit {A} z :
  same (_ ← unlink INSTALL_LOCK_FILE; _ ← @system only_locked "rm -rf /tmp/update"; @exit A z)
       (_ ← unlink INSTALL_LOCK_FILE; _ ← system "rm -rf /tmp/update"; @exit A z).
Proof. intros w Hw. unfold mbind, M_bind, unlink, system. cbn [sh only_locked]. by rewrite orb_true_r. Qed.

Ltac same_call := intros w Hw; pose proof (locked_held w Hw) as Hheld.

Lemma same_system c : same (@system only_locked c) (system c).
Proof. same_call. unfold system. cbn [sh only_locked]. by rewrite Hheld. Qed.
Lemma same_popen c : same (@popen only_locked c) (popen c).
Proof. same_call. unfold popen. cbn [pipe only_locked]. by rewrite Hheld. Qed.
Lemma same_fopen_r f : same (@fopen_r only_locked f) (fopen_r f).
Proof. same_call. unfold fopen_r. cbn [rd_ok only_locked]. by rewrite Hheld. Qed.
Lemma same_fopen_w f : same (@fopen_w only_locked f) (fopen_w f).
Proof. same_call. unfold fopen_w. cbn [wr_ok only_locked]. by rewrite Hheld. Qed.
Lemma same_open_rw f : same (@open_rw only_locked f) (open_rw f).
Proof. same_call. unfold open_rw. cbn [wr_ok only_locked]. by rewrite Hheld. Qed.
Lemma same_fwrite f t : same (@fwrite only_locked f t) (fwrite f t).
Proof. same_call. unfold fwrite. cbn [wr_len only_locked]. by rewrite Hheld. Qed.
Lemma same_sendfile f t : same (@sendfile only_locked f t) (sendfile f t).
Proof. same_call. unfold sendfile. cbn [wr_len only_locked]. by rewrite Hheld. Qed.
Lemma same_mount dev dir : same (@mount only_locked dev dir) (mount dev dir).
Proof. same_call. unfold mount. cbn [mount_ok only_locked]. by rewrite Hheld. Qed.
Lemma same_malloc : same (@malloc_ok only_locked) malloc_ok.
Proof. same_call. unfold malloc_ok. cbn [mem_ok only_locked]. by rewrite Hheld. Qed.

Ltac sames :=
  repeat lazymatch goal with
  | |- forall _, _ => intros ?
  | |- same ?m ?m => apply same_self
  | |- same (let _ := _ in _) _ => cbv zeta
  | |- same (mbind _ (unlink INSTALL_LOCK_FILE)) _ => apply same_unlink_system_exit
  | |- same (mbind _ _) _ => apply same_bind; [solve [guards]| |]
  | |- same (when _ _) _ => apply same_when
  | |- same (match ?x with _ => _ end) _ => destruct x
  | |- same (system _) _ => apply same_system
  | |- same (popen _) _ => apply same_popen
  | |- same (fopen_r _) _ => apply same_fopen_r
  | |- same (fopen_w _) _ => apply same_fopen_w
  | |- same (open_rw _) _ => apply same_open_rw
  | |- same (fwrite _ _) _ => apply same_fwrite
  | |- same (sendfile _ _) _ => apply same_sendfile
  | |- same (mount _ _) _ => apply same_mount
  | |- same malloc_ok _ => apply same_malloc
  | |- same (IRIS_setLedMode _) _ => unfold IRIS_setLedMode, usleep
  | |- same (IRIS_copyFile _ _) _ => unfold IRIS_copyFile
  | |- same pokeWatchdog _ => unfold pokeWatchdog, writeWatchdog
  | |- same stopHubAgent _ => unfold stopHubAgent, sleep
  | |- same (diff_q _ _) _ => unfold diff_q
  | |- same (cmpFlashToFile _ _ _ _) _ => unfold cmpFlashToFile
  | |- same (fail_exit _ _) _ => unfold fail_exit
  | |- same (cleanup_exit _) _ => unfold cleanup_exit
  | |- same (install_file _ _ _ _ _) _ => unfold install_file
  | |- same (install_boot_file _ _ _ _) _ => unfold install_boot_file
  | |- same (install_radio _ _ _ _ _ _) _ => unfold install_radio
  | |- same (IRIS_isHwFlowControlSupported _) _ =>
      unfold IRIS_isHwFlowControlSupported, model_or_version, IRIS_getModel, read_word, IRIS_getHardwareVersion
  end.

Lemma unpack_same file : same (@unpack only_locked file) (unpack file).
Proof. unfold unpack. sames. Qed.
Lemma mount_kernels_same : same (@mount_kernels only_locked) mount_kernels.
Proof. unfold mount_kernels. sames. Qed.
Lemma boot_indices_same : same (@boot_indices only_locked) boot_indices.
Proof. unfold boot_indices, read_index. sames. Qed.
Lemma install_uboot_same verify : same (@install_uboot only_locked plat verify) (install_uboot plat verify).
Proof. unfold install_uboot. destruct plat; sames. Qed.

Lemma install_file_same verify src dst led code : avoids INSTALL_LOCK_FILE dst = true ->
  same (@install_file only_locked verify src dst led code) (install_file verify src dst led code).
Proof.
  intros Ha. assert (guarded (unlink dst)) as Hu by (apply guarded_leaf; [done|by apply stable_unlink]).
  assert (guarded (IRIS_copyFile src dst)) as Hc.
  { assert (stable locked (open_rw dst)) by (by apply stable_open_rw).
    assert (forall s, stable locked (sendfile dst s)) by (intros s; by apply stable_sendfile).
    unfold IRIS_copyFile. repeat (guards; try (apply guarded_leaf; [|by auto]; intros ?; unfold open_rw; try destruct (wr_ok _ _); exact I)). }
  assert (same (@IRIS_copyFile only_locked src dst) (IRIS_copyFile src dst)) as Hs.
  { assert (guarded (open_rw dst)) as Ho by (apply guarded_leaf; [intros ?; unfold open_rw; destruct (wr_ok _ _); exact I|by apply stable_open_rw]).
    assert (forall s, guarded (sendfile dst s)) as Hf by (intros s; apply guarded_leaf; [done|by apply stable_sendfile]).
    unfold IRIS_copyFile. repeat (sames; try (apply same_bind; [by auto| |])). }
  unfold install_file. sames. apply same_bind; [done|sames|intros _]. apply same_bind; [done|done|intros ?]. sames.
Qed.

Lemma install_boot_same verify src d name : is_bootdir d -> In name [KERNEL_TMP_IMAGE plat; KERNEL_TMP_DTB plat] ->
  same (@install_boot_file only_locked verify src d name) (install_boot_file verify src d name).
Proof.
  intros Hd Hn. unfold install_boot_file. apply same_bind; [leaf|sames|]. intros a. apply same_when. apply same_bind; [guards|sames|].
  intros _. apply install_file_same. destruct Hd as [-> | ->], Hn as [<- | [<- | []]]; destruct plat; vm_compute; reflexivity.
Qed.

Lemma install_rootfs_same verify d : is_rootdev d ->
  same (@install_rootfs only_locked plat io1 io2 verify d) (install_rootfs plat io1 io2 verify d).
Proof. intros [-> | ->]; unfold install_rootfs, rootfs_copy; sames. Qed.

Lemma install_radios_same kill : same (@install_radios only_locked stack kill) (install_radios stack kill).
Proof. unfold install_radios. sames. Qed.

Lemma install_parts_same o d dev : is_bootdir d -> is_rootdev dev ->
  same (@install_parts only_locked plat stack io1 io2 o d dev) (install_parts plat stack io1 io2 o d dev).
Proof.
  intros Hd Hdev. unfold install_parts, install_kernel, install_dtb.
  apply same_bind; [apply install_uboot_guarded|apply install_uboot_same|intros _].
  apply same_bind; [apply guarded_bind; [guards|intros _; apply install_boot_guarded; [done|cbn; auto]]| |intros _].
  { apply same_bind; [guards|sames|intros _; apply install_boot_same; [done|cbn; auto]]. }
  apply same_bind; [apply install_boot_guarded; [done|cbn; auto]|apply install_boot_same; [done|cbn; auto]|intros _].
  apply same_bind; [by apply install_rootfs_guarded|by apply install_rootfs_same|intros _].
  apply same_bind; [apply guarded_when, install_radios_guarded|apply same_when, install_radios_same|intros _]. sames.
Qed.

Lemma finish_same d u : is_bootdir d ->
  same (_ ← @write_index only_locked d u; _ ← @unmount_all only_locked; mret 0) (_ ← write_index d u; _ ← unmount_all; mret 0).
Proof. intros [-> | ->]; unfold write_index, unmount_all; sames. Qed.

Lemma take_lock_same w : @take_lock only_locked w = take_lock w.
Proof.
  unfold take_lock, mbind, M_bind, access, open_rw. cbn [wr_ok only_locked]. case_match; [done|]. by rewrite orb_true_r.
Qed.

(** The whole run. *)
Lemma fwinstall_same opts o file w : healthy -> mounts_ok (mnts (fs w)) -> unlocked w ->
  bool_decide (INSTALL_LOCK_FILE ∈ dirs (fs w)) = false -> parse_opts opts (FwOpts true false false) = inr o ->
  @fwinstall only_locked plat stack io1 io2 opts (Some file) w = fwinstall plat stack io1 io2 opts (Some file) w.
Proof.
  intros Hh Hm Hu Hd Ho. unfold fwinstall. rewrite Ho.
  rewrite !(bind_val _ _ tt w (snd (chdir "/tmp" w))) by done. set (w1 := snd (chdir "/tmp" w)).
  pose proof (take_lock_takes w1 Hh Hm Hu Hd) as Ht. unfold wp in Ht. destruct (take_lock w1) as [r w2] eqn:E. cbn [fst snd] in Ht. destruct Ht as [-> Hl].
  rewrite (bind_val _ _ tt w1 w2) by (by rewrite take_lock_same). rewrite (bind_val _ _ tt w1 w2) by done. revert w2 Hl E. intros w2 Hl _.
  enough (forall w, locked w -> forall k' k : M Z, same k' k -> k' w = k w) as Hk; [apply Hk; [done|]|by intros ? ? ? ? Hs; apply Hs].
  apply same_bind; [apply unpack_guarded|apply unpack_same|]. intros _. apply same_bind; [apply mount_kernels_guarded|apply mount_kernels_same|].
  intros _. apply same_bind; [apply boot_indices_guarded|apply boot_indices_same|]. intros [i1 i2].
  destruct (choose_partition i1 i2) as [[d dev] u] eqn:Hc. apply choose_cases in Hc as [Hbd Hdev].
  apply same_bind; [by apply install_parts_guarded|by apply install_parts_same|]. intros _. by apply finish_same.
Qed.
End Lock.

(** ** What the program promises *)

(** C3.  A finished installation switches partitions.  With nothing mounted, boot indices in
    range and no resource failure, when fwinstall returns 0 the index of one partition is one
    above the index of the other, which still has the index it had; so the boot loader, which takes the partition with the larger index, starts the new firmware.
    Commands the program runs may do anything but change the boot index files or the mounts. *)
Theorem fwinstall_switches_partition `{Env} `{!ShLocal} plat stack io1 io2 opts o filearg i1 i2 w :
  healthy -> sh_keeps BOOTINDEX1 -> sh_keeps BOOTINDEX2 ->
  parse_opts opts (FwOpts true false false) = inr o -> mnts (fs w) = [] ->
  index_at BOOTINDEX1 w = Some i1 -> index_at BOOTINDEX2 w = Some i2 ->
  0 <= i1 < INT_MAX -> 0 <= i2 < INT_MAX ->
  fst (fwinstall plat stack io1 io2 opts filearg w) = Val 0 ->
  let w' := snd (fwinstall plat stack io1 io2 opts filearg w) in
  (index_at BOOTINDEX1 w' = Some (i2 + 1) /\ index_at BOOTINDEX2 w' = Some i2) \/
  (index_at BOOTINDEX1 w' = Some i1 /\ index_at BOOTINDEX2 w' = Some (i1 + 1)).
Proof.
  intros Hh Hk1 Hk2 Ho Hm Hx1 Hx2 Hi1 Hi2 Hv. cbv zeta.
  assert (both (files (fs w) !! BOOTINDEX1) (files (fs w) !! BOOTINDEX2) w) as Hb.
  { unfold both, holds, mounts_ok. rewrite Hm. repeat split; constructor. }
  pose proof (fwinstall_switched plat stack io1 io2 Hh Hk1 Hk2 opts o filearg _ _ i1 i2 w Ho Hm Hb Hx1 Hx2 Hi1 Hi2) as Hs.
  unfold wp in Hs. rewrite Hv in Hs. unfold INT_MAX in Hi1, Hi2.
  destruct Hs as [Hs | Hs]; [left|right]; eapply both_index; try exact Hs; try done;
    cbn [mbind option_bind]; apply scan_d_dec; unfold INT_MIN, INT_MAX; lia.
Qed.

(** C4.  A failed installation leaves the boot indices alone: unless the program returns 0, by
    whatever exit or crash, both boot index files are what they were, so the hub keeps booting
    the firmware it was running. *)
Theorem fwinstall_error_keeps_index `{Env} `{!ShLocal} plat stack io1 io2 opts filearg w :
  sh_keeps BOOTINDEX1 -> sh_keeps BOOTINDEX2 -> mounts_ok (mnts (fs w)) ->
  fst (fwinstall plat stack io1 io2 opts filearg w) <> Val 0 ->
  let w' := snd (fwinstall plat stack io1 io2 opts filearg w) in
  files (fs w') !! BOOTINDEX1 = files (fs w) !! BOOTINDEX1 /\
  files (fs w') !! BOOTINDEX2 = files (fs w) !! BOOTINDEX2.
Proof.
  intros Hk1 Hk2 Hm Hv. cbv zeta. split.
  - destruct (fwinstall_keeps plat stack io1 io2 BOOTINDEX1 _ Hk1 (or_introl eq_refl) opts filearg w (conj eq_refl Hm))
      as [Hr | [Hr _]]; [done|exact Hr].
  - destruct (fwinstall_keeps plat stack io1 io2 BOOTINDEX2 _ Hk2 (or_intror eq_refl) opts filearg w (conj eq_refl Hm))
      as [Hr | [Hr _]]; [done|exact Hr].
Qed.

(** C27.  The lock file.  A run started without it holds it all the time: whatever the commands, the files and the mounts would
    do while the lock file is not there makes no difference to what the run does, apart from the creation of the file and the
    removal of the unpacked archive.  The run still holds it when it returns 0, until the hub restarts, and has released it
    when it ends with any error code.  A run that finds it ends with [INSTALL_IN_PROCESS] and has changed nothing but its
    working directory. *)
Theorem fwinstall_lock {Other Hub : Env} {Local : @ShLocal Hub} plat stack io1 io2 opts o file w :
  healthy -> sh_keeps INSTALL_LOCK_FILE -> parse_opts opts (FwOpts true false false) = inr o ->
  mounts_ok (mnts (fs w)) -> bool_decide (INSTALL_LOCK_FILE ∈ dirs (fs w)) = false ->
  let r := fwinstall plat stack io1 io2 opts (Some file) w in
  match files (fs w) !! INSTALL_LOCK_FILE with
  | None =>
      @fwinstall (@only_locked Other Hub) plat stack io1 io2 opts (Some file) w = r /\
      match fst r with Val _ => locked (snd r) | Exit _ => unlocked (snd r) | Throw _ => True | Crash => True end
  | Some _ => r = (Exit INSTALL_IN_PROCESS, snd (chdir "/tmp" w))
  end.
Proof.
  intros Hh Hsh Ho Hm Hd. cbv zeta. destruct (files (fs w) !! INSTALL_LOCK_FILE) as [s|] eqn:Hl.
  - unfold fwinstall. rewrite Ho. unfold mbind, M_bind, chdir. unfold take_lock, access, mbind, M_bind, get.
    rewrite resolve_lock by done. cbn [fs files set_fs]. by rewrite Hl.
  - split; [by apply (fwinstall_same plat stack io1 io2 Hsh opts o)|].
    enough (wp (fwinstall plat stack io1 io2 opts (Some file)) (fun r w' =>
      match r with Val _ => locked w' | Exit _ => unlocked w' | Throw _ => True | Crash => True end) w) as Hw by exact Hw.
    unfold fwinstall. rewrite Ho. wp_step. wp_step. cbn [seq_post]. wp_step.
    eapply wp_mono; [apply take_lock_takes; done|]. intros r w1 [-> Hw1]. cbn [seq_post].
    eapply wp_mono; [by apply fwinstall_body_guarded|]. by intros [].
Qed.

(** ** A concrete hub *)

Module FwToy.

(** The file pairs [diff] is asked about. *)
Definition pairs : list (string * string) :=
  [(KERNEL_IMAGE imxdimagic, TMP_KERNEL1_DIR +:+ KERNEL_TMP_IMAGE imxdimagic);
   (KERNEL_IMAGE imxdimagic, TMP_KERNEL2_DIR +:+ KERNEL_TMP_IMAGE imxdimagic)].

(** [tar] fails unless [tar_ok]; [diff] compares; everything else succeeds and does nothing. *)
Definition status (tar_ok : bool) (c : string) (w : world) : Z :=
  if String.prefix "tar xf" c then if tar_ok then 0 else 256
  else match find (fun p => String.eqb c ("diff -q " +:+ p.1 +:+ " " +:+ p.2)) pairs with
       | Some (a, b) => if bool_decide (get a w = get b w) then 0 else 256
       | None => 0
       end.

#[local] Instance env (tar_ok : bool) : Env := {
  sh := fun c w => (status tar_ok c w, fs w);
  pipe := fun c _ => Some (if String.eqb c "cat /proc/cmdline" then "root=/dev/mmcblk2p2 ro" +:+ String LF "" else "");
  rd_ok := fun _ _ => true;
  wr_ok := fun _ _ => true;
  wr_len := fun _ _ n => n;
  mount_ok := fun _ _ _ => true;
  mem_ok := fun _ => true }.

#[local] Instance local tar_ok : @ShLocal (env tar_ok).
Proof. done. Qed.

(** Partition 1 runs, with index 4; the archive has a kernel and a root file system. *)
Definition hub : world := World
  (Fsys (list_to_map
    [(BOOTINDEX1, "4" +:+ String LF ""); (BOOTINDEX2, "3" +:+ String LF "");
     (KERNEL_IMAGE imxdimagic, "new kernel"); ("/tmp/update/" +:+ ROOTFS_FILE imxdimagic, "new root");
     (DEV_ROOTFS1, "running root file system"); (DEV_ROOTFS2, "old root file system")])
    ∅ [] {[DEV_ROOTFS1 := "mmcblk2p2"; DEV_ROOTFS2 := "mmcblk2p3"]} "/") [].

Definition install (tar_ok : bool) : M Z := @fwinstall (env tar_ok) imxdimagic "" good_io good_io [] (Some "fw.tar").

(** Without the lock file nothing works. *)
Definition hostile : Env :=
  Build_Env (fun _ w => (256, Fsys ∅ ∅ [] ∅ "/")) (fun _ _ => None) (fun _ _ => false) (fun _ _ => false) (fun _ _ _ => O) (fun _ _ _ => false) (fun _ => false).

Lemma healthy_env tar_ok : @healthy (env tar_ok).
Proof. done. Qed.
Lemma sh_keeps_env tar_ok k : @sh_keeps (env tar_ok) k.
Proof. done. Qed.
End FwToy.

Lemma fwinstall_switches_partition_witness :
  let w' := snd (FwToy.install true FwToy.hub) in
  fst (FwToy.install true FwToy.hub) = Val 0 /\ get DEV_ROOTFS2 w' = Some "new root file system" /\
  ((index_at BOOTINDEX1 w' = Some (3 + 1) /\ index_at BOOTINDEX2 w' = Some 3) \/
   (index_at BOOTINDEX1 w' = Some 4 /\ index_at BOOTINDEX2 w' = Some (4 + 1))).
Proof.
  cbv zeta. split; [vm_compute; reflexivity|]. split; [vm_compute; reflexivity|].
  apply (@fwinstall_switches_partition (FwToy.env true) (FwToy.local true) imxdimagic "" good_io good_io []
           (FwOpts true false false) (Some "fw.tar") 4 3 FwToy.hub);
    try first [apply FwToy.healthy_env | apply FwToy.sh_keeps_env | unfold INT_MAX; lia | vm_compute; reflexivity].
Defined.

Lemma fwinstall_error_keeps_index_witness :
  let w' := snd (FwToy.install false FwToy.hub) in
  fst (FwToy.install false FwToy.hub) = Exit INSTALL_UNPACK_ERR /\
  files (fs w') !! BOOTINDEX1 = Some ("4" +:+ String LF "") /\ files (fs w') !! BOOTINDEX2 = Some ("3" +:+ String LF "").
Proof.
  cbv zeta. split; [vm_compute; reflexivity|].
  apply (@fwinstall_error_keeps_index (FwToy.env false) (FwToy.local false) imxdimagic "" good_io good_io [] (Some "fw.tar")
           FwToy.hub); [apply FwToy.sh_keeps_env..|constructor|vm_compute; discriminate].
Defined.

Lemma fwinstall_lock_witness :
  let r := FwToy.install false FwToy.hub in
  @fwinstall (@only_locked FwToy.hostile (FwToy.env false)) imxdimagic "" good_io good_io [] (Some "fw.tar") FwToy.hub = r /\
  fst r = Exit INSTALL_UNPACK_ERR /\ unlocked (snd r).
Proof.
  cbv zeta.
  destruct (@fwinstall_lock FwToy.hostile (FwToy.env false) (FwToy.local false) imxdimagic "" good_io good_io [] (FwOpts true false false)
           "fw.tar" FwToy.hub) as [H1 H2]; [apply FwToy.healthy_env|apply FwToy.sh_keeps_env|reflexivity|constructor|vm_compute; reflexivity|].
  split; [exact H1|]. split; [vm_compute; reflexivity|exact H2].
Defined.

(** ** Comparing the flash with the boot loader image *)

Section Flash.
Context `{Env}.

Definition BOOT0 : string := "/dev/mmcblk2boot0".
Definition FLASH_CMD (count : Z) : string :=
  snprintf 256 ("dd if=" +:+ BOOT0 +:+ " bs=" +:+ dec 512 +:+ " skip=" +:+ dec 2 +:+
                " count=" +:+ dec count +:+ " of=" +:+ TMP_CMP_FILE).
Definition DIFF_CMD : string := snprintf 256 ("diff -q " +:+ UBOOT_IMAGE imxdimagic +:+ " " +:+ TMP_CMP_FILE).

(** [dd] copies [count] blocks to its output file; [diff] returns 0 on equal files. *)
Class FlashTools (count : Z) : Prop := {
  dd_copies : forall w st s, sh (FLASH_CMD count) w = (st, s) ->
    s = fs (put_file TMP_CMP_FILE (stake (Z.to_nat (count * 512)) (sdrop 1024 (default "" (get BOOT0 w)))) w);
  diff_equal : forall w st s, sh DIFF_CMD w = (st, s) ->
    (st = 0 <-> get (UBOOT_IMAGE imxdimagic) w = get TMP_CMP_FILE w) }.

Lemma cmp_copied img d w : plain w -> get (UBOOT_IMAGE imxdimagic) w = Some img ->
  forall t, let w' := World (fs (put_file TMP_CMP_FILE d w)) t in
  get (UBOOT_IMAGE imxdimagic) w' = get TMP_CMP_FILE w' <-> img = d.
Proof.
  intros Hp Hi t w'. unfold get in *. rewrite !resolve_plain in * by done. unfold w', put_file. cbn [fs files set_fs].
  rewrite resolve_plain by done. rewrite lookup_insert_eq, lookup_insert_ne by done. rewrite Hi.
  split; [by intros [= ->]|by intros ->].
Qed.

Lemma wp_cmpFlash img w `{!FlashTools (Z.of_nat (String.length img) / 512)} :
  plain w -> get (UBOOT_IMAGE imxdimagic) w = Some img ->
  wp (cmpFlashToFile BOOT0 2 512 (UBOOT_IMAGE imxdimagic)) (fun r _ => exists st, r = Val st /\
    (st = 0 <-> img = stake (Z.to_nat (Z.of_nat (String.length img) / 512 * 512)) (sdrop 1024 (default "" (get BOOT0 w))))) w.
Proof.
  intros Hp Hi. unfold cmpFlashToFile. wp_step. unfold wp at 1, stat. rewrite Hi. cbn [fst snd seq_post default].
  wp_step. apply wp_system_any. intros st1 s1 H1. cbn [seq_post]. apply dd_copies in H1. subst s1.
  wp_step. apply wp_system_any. intros st s2 H2. apply diff_equal in H2. cbn [seq_post]. wp_step. wp_step.
  cbn [seq_post]. wp_step. exists st. split; [done|]. rewrite H2. by apply cmp_copied.
Qed.
End Flash.

(**  The comparison of the boot loader in flash with a new image finds them equal exactly
    when the image is a whole number of 512 byte blocks and the flash holds it: the block count
    is rounded down, so an image with a partial last block always differs, is flashed on every
    update, and the comparison after flashing then ends the update with an error. *)
Theorem cmpFlashToFile_blocks `{Env} img w `{!FlashTools (Z.of_nat (String.length img) / 512)} :
  plain w -> get (UBOOT_IMAGE imxdimagic) w = Some img ->
  exists st, fst (cmpFlashToFile BOOT0 2 512 (UBOOT_IMAGE imxdimagic) w) = Val st /\
    (st = 0 <-> (String.length img mod 512 = 0)%nat /\
                img = stake (String.length img) (sdrop 1024 (default "" (get BOOT0 w)))).
Proof.
  intros Hp Hi. destruct (wp_cmpFlash img w Hp Hi) as (st & Hr & Hst). exists st. split; [done|]. rewrite Hst. clear.
  set (n := String.length img). set (d := sdrop 1024 _).
  assert (Z.to_nat (Z.of_nat n / 512 * 512) = (n / 512 * 512)%nat) as ->
    by (rewrite <- (Nat2Z.id (n / 512 * 512)), Nat2Z.inj_mul, Nat2Z.inj_div; done).
  pose proof (Nat.div_mod_eq n 512) as Hn. split.
  - intros Hd. assert (n mod 512 = 0)%nat as Hm; [|split; [done|]; rewrite Hd at 1; f_equal; lia].
    apply (f_equal String.length) in Hd. fold n in Hd. rewrite stake_len in Hd. lia.
  - intros [Hm Hd]. rewrite Hd at 1. f_equal. lia.
Qed.

(** The tools on a flash whose boot area holds [zeros] and an image. *)
Module FlashToy.
#[local] Instance env : Env := {
  sh := fun c w =>
    if String.eqb c (FLASH_CMD 1)
    then (0, fs (put_file TMP_CMP_FILE (stake 512 (sdrop 1024 (default "" (get BOOT0 w)))) w))
    else if String.eqb c DIFF_CMD
    then (if bool_decide (get (UBOOT_IMAGE imxdimagic) w = get TMP_CMP_FILE w) then 0 else 256, fs w)
    else (0, fs w);
  pipe := fun _ _ => Some "";
  rd_ok := fun _ _ => true;
  wr_ok := fun _ _ => true;
  wr_len := fun _ _ n => n;
  mount_ok := fun _ _ _ => true;
  mem_ok := fun _ => true }.

#[local] Instance tools : FlashTools 1.
Proof.
  split; intros w st s; unfold sh, env.
  - rewrite String.eqb_refl. by intros [= _ <-].
  - change (String.eqb DIFF_CMD (FLASH_CMD 1)) with false. rewrite String.eqb_refl. intros [= <- _].
    case_bool_decide; split; done.
Qed.

(** An image of one block and a byte, in flash behind two blocks. *)
Definition img : string := zeros 513.
Definition hub : world :=
  World (Fsys (list_to_map [(BOOT0, zeros 4096); (UBOOT_IMAGE imxdimagic, img)]) ∅ [] ∅ "/") [].
End FlashToy.

Lemma cmpFlashToFile_blocks_witness :
  exists st, fst (@cmpFlashToFile FlashToy.env BOOT0 2 512 (UBOOT_IMAGE imxdimagic) FlashToy.hub) = Val st /\ st <> 0.
Proof.
  destruct (@cmpFlashToFile_blocks FlashToy.env FlashToy.img FlashToy.hub FlashToy.tools) as (st & Hr & Hst);
    [reflexivity|vm_compute; reflexivity|].
  exists st. split; [exact Hr|]. intros E. apply Hst in E as [E _]. vm_compute in E. discriminate E.
Defined.

(**  A hub that runs partition 1 without a readable boot index, while partition 2 has one, is
    updated in place: the check clears the index of partition 2 in memory, both indices are then
    equal, and the running partition is chosen with index 0, which is not above the index
    partition 2 still has on disk. *)
Theorem choose_partition_in_place cmdline fs1 fs2 i2 :
  0 <= i2 -> has_sub cmdline fs1 = true -> has_sub cmdline fs2 = false ->
  let '(a, b) := corrupt_check cmdline fs1 fs2 (-1) i2 in
  choose_partition a b = (TMP_KERNEL1_DIR, DEV_ROOTFS1, 0).
Proof.
  intros Hi H1 H2. unfold corrupt_check. rewrite H1, H2.
  rewrite (proj2 (Z.ltb_ge i2 (-1))), (proj2 (Z.ltb_lt (-1) i2)) by lia. reflexivity.
Qed.

Lemma choose_partition_in_place_witness :
  let '(a, b) := corrupt_check "root=/dev/mmcblk2p2" "mmcblk2p2" "mmcblk2p3" (-1) 7 in
  choose_partition a b = (TMP_KERNEL1_DIR, DEV_ROOTFS1, 0).
Proof. apply (choose_partition_in_place "root=/dev/mmcblk2p2" "mmcblk2p2" "mmcblk2p3" 7); [lia|reflexivity..]. Defined.
