(* ===== verification/Update.v ===== *)
(** * update.c and auto_updated.c: fetching, validating and installing firmware

    The command line tool and the update daemon.  They run the programs of
    ValidateImage.v and FwInstall.v as commands; [runs] states what that means, so
    that the theorems on the two programs carry over to their callers.

    The hub is built with [USE_CURL], so the busybox branch of update.c is not
    part of the program. *)
From Stdlib Require Import ZArith String Ascii Lia Bool.
From stdpp Require Import base gmap strings list numbers.
From S2P Require Import Prelude CLib Os IrisLib ImageFormat ValidateImage ImageRoundtrip.

Local Open Scope string_scope.
Local Open Scope Z_scope.

(** ** update.c *)

Definition TMP_FILE : string := "/tmp/upload.bin".

Inductive update_opt := UHelp | UForce | UKill | UCred (optarg : string) | UBad.

Record upd_opts := UpdOpts { force : bool; killAgent : bool; credarg : option string }.

Fixpoint update_opts (opts : list update_opt) (o : upd_opts) : Z + upd_opts :=
  match opts with
  | [] => inr o
  | UHelp :: _ => inl 0
  | UForce :: r => update_opts r (UpdOpts true (killAgent o) (credarg o))
  | UKill :: r => update_opts r (UpdOpts (force o) true (credarg o))
  | UCred a :: r => update_opts r (UpdOpts (force o) (killAgent o) (Some a))
  | UBad :: _ => inl INSTALL_ARG_ERR
  end.

Definition no_opts : upd_opts := UpdOpts false false None.

(** The file a [file://] URL names. *)
Definition url_file (urlarg : string) : string :=
  if strncmp0 urlarg "file://localhost" 16 then sdrop 16 urlarg
  else if match String.get 7 urlarg with Some c => Ascii.eqb c "/" | None => false end then sdrop 7 urlarg
  else sdrop 6 urlarg.

Definition download_cmd (cred : option string) (urlarg : string) : string :=
  snprintf 256
    (if strncmp0 urlarg "file://" 7 then "ln -s " +:+ url_file urlarg +:+ " " +:+ TMP_FILE
     else match cred with
          | Some c => "curl -s -k -u " +:+ c +:+ " " +:+ urlarg +:+ " -o " +:+ TMP_FILE
          | None => "curl -s " +:+ urlarg +:+ " -o " +:+ TMP_FILE
          end).

Definition validate_cmd (skip : bool) (f : string) : string :=
  snprintf 256 (if skip then "validate_image -s " +:+ f else "validate_image " +:+ f).

Definition install_cmd (kill : bool) : string :=
  snprintf 256 (if kill then "fwinstall -k " +:+ FW_INSTALL_FILE else "fwinstall " +:+ FW_INSTALL_FILE).

(** [ledDelay] after a failed installation: the test is on the wait status. *)
Definition led_delay (res : Z) : Z := if INSTALL_HARD_ERRORS <=? res then 10 else 3.

Section Update.
Context `{Env}.

(** Validation and installation: [res] and [ledDelay]. *)
Definition validate_install (o : upd_opts) : M (Z * Z) :=
  res ← system (validate_cmd (force o) TMP_FILE);
  if negb (res =? 0) then mret (res, 3)
  else
    a ← access FW_INSTALL_FILE;
    if a : bool then
      res ← system (install_cmd (killAgent o));
      if negb (res =? 0) then
        _ ← unlink TMP_FILE;
        mret (res, led_delay res)
      else mret (res, 3)
    else mret (res, 3).

(** At the end [exit(res)] keeps the low byte of [res], which is a wait status. *)
Definition update (opts : list update_opt) (urlarg : option string) : M Z :=
  match update_opts opts no_opts with
  | inl 0 => mret 0
  | inl code => exit code
  | inr o =>
      match urlarg with
      | None => exit INSTALL_ARG_ERR
      | Some urlarg =>
          _ ← unlink FW_INSTALL_FILE;
          _ ← unlink TMP_FILE;
          st ← system (download_cmd (credarg o) urlarg);
          if negb (st =? 0) then exit INSTALL_DOWNLOAD_ERR
          else
            ledMode ← IRIS_getLedMode "" 128;
            '(res, ledDelay) ← validate_install o;
            _ ← when (negb (res =? 0)) (sleep ledDelay);
            _ ← IRIS_setLedMode ledMode;
            _ ← unlink FW_INSTALL_FILE;
            _ ← unlink TMP_FILE;
            if negb (res =? 0) then exit (u8 res) else mret 0
      end
  end.
End Update.

(** ** auto_updated.c *)

Definition INITIAL_DELAY : Z := 60 * 3.
Definition MAX_RETRIES : nat := 5.
Definition RETRY_DELAY : Z := 60 * 5.
Definition PERIODIC_DELAY : Z := 60 * 60.
Definition UPDATE_TMP_FILE : string := "/tmp/auto_update.bin".

Definition query_cmd : string :=
  snprintf 256 ("curl -s -k -u " +:+ DQ +:+ UPDATE_USERNAME +:+ ":" +:+ UPDATE_PASSWORD +:+ DQ +:+ " " +:+
                UPDATE_SERVER_URL +:+ UPDATE_VER_FILE).
Definition fetch_cmd (filename : string) : string :=
  snprintf 256 ("curl -s -k -u " +:+ DQ +:+ UPDATE_USERNAME +:+ ":" +:+ UPDATE_PASSWORD +:+ DQ +:+ " " +:+
                UPDATE_SERVER_URL +:+ filename +:+ " -o " +:+ UPDATE_TMP_FILE).

(** The version in a file name. *)
Record fwver := FwVer { v_major : Z; v_minor : Z; v_point : Z; v_build : Z; v_suffix : string }.

(** What the uninitialised locals of an iteration hold. *)
Record locals := Locals { l_filename : string; l_version : fwver }.

(** [_] and [.] become spaces. *)
Fixpoint spaced (s : string) : string :=
  match s with
  | EmptyString => ""
  | String p s' => String (if Ascii.eqb p "_" || Ascii.eqb p "." then " " else p)%char (spaced s')
  end.

(** [sscanf(s, " %d %d %d %d%s bin", ...)]: a conversion that fails leaves it and the
    later variables as they are.  The version, and the text stored in [suffix]. *)
Definition sscan_version (s : string) (v : fwver) : fwver * option string :=
  match scan_int s with
  | None => (v, None)
  | Some (a, s) =>
      match scan_int s with
      | None => (FwVer a (v_minor v) (v_point v) (v_build v) (v_suffix v), None)
      | Some (b, s) =>
          match scan_int s with
          | None => (FwVer a b (v_point v) (v_build v) (v_suffix v), None)
          | Some (c, s) =>
              match scan_int s with
              | None => (FwVer a b c (v_build v) (v_suffix v), None)
              | Some (d, s) => (FwVer a b c d (default (v_suffix v) (scan_s s)), scan_s s)
              end
          end
      end
  end.

Definition isdigit (c : option ascii) : bool :=
  match c with Some c => match digit_val c with Some _ => true | None => false end | None => false end.

(** The version of [filename], and the texts stored in [type] and [suffix]. *)
Definition parse_version (filename : string) (l : locals) : fwver * option string * option string :=
  let version := spaced filename in
  let rest := sdrop 5 version in
  if isdigit (String.get 6 version) then
    let '(v, suffix) := sscan_version rest (l_version l) in (v, None, suffix)
  else
    match span_token (skip_ws rest) with
    | ("", _) => (l_version l, None, None)
    | (t, r) => let '(v, suffix) := sscan_version r (l_version l) in (v, Some t, suffix)
    end.

(** If the suffix is blank the scan stored the extension. *)
Definition drop_bin (suffix : string) : string := if strncmp0 "bin" suffix 32 then "" else suffix.

Definition same_version (v : fwver) : bool :=
  (v_major v =? VERSION_MAJOR) && (v_minor v =? VERSION_MINOR) && (v_point v =? VERSION_POINT) &&
  (v_build v =? VERSION_BUILD) && strncmp0 VERSION_SUFFIX (drop_bin (v_suffix v)) 32.

Section Auto.
Context `{Env}.

(** The first retry loop; [pclose(NULL)] does not return. *)
Fixpoint query_loop (retries : nat) : M (option string) :=
  match retries with
  | O => mret None
  | S n =>
      f ← popen query_cmd;
      match f with
      | Some out => mret (Some out)
      | None => _ ← @crash unit; _ ← sleep RETRY_DELAY; query_loop n
      end
  end.

Fixpoint download_loop (retries : nat) (cmd : string) : M bool :=
  match retries with
  | O => mret false
  | S n =>
      res ← system cmd;
      a ← (if res =? 0 then access UPDATE_TMP_FILE else mret false);
      if a : bool then mret true else _ ← sleep RETRY_DELAY; download_loop n cmd
  end.

(** Validation and installation of a downloaded file. *)
Definition auto_install (ledMode : string) : M unit :=
  res ← system (validate_cmd true UPDATE_TMP_FILE);
  a ← (if res =? 0 then access FW_INSTALL_FILE else mret false);
  '(res, ledDelay) ←
    (if a : bool then
       res ← system (install_cmd false);
       if res =? 0 then _ ← system "hub_restart now"; exit 0
       else mret (res, led_delay res)
     else mret (res, 3));
  _ ← when (negb (res =? 0)) (sleep ledDelay);
  IRIS_setLedMode ledMode.

Definition fetch_install (filename : string) : M unit :=
  _ ← unlink UPDATE_TMP_FILE;
  got ← download_loop MAX_RETRIES (fetch_cmd filename);
  ledMode ← IRIS_getLedMode "" 128;
  _ ← when got (auto_install ledMode);
  _ ← unlink UPDATE_TMP_FILE;
  unlink FW_INSTALL_FILE.

Definition update_check (l : locals) : M unit :=
  skip ← access UPDATE_SKIP_FILE;
  if skip : bool then mret tt
  else
    f ← query_loop MAX_RETRIES;
    match f with
    | None => mret tt
    | Some out =>
        let filename := default (l_filename l) (fgets 128 out) in
        if negb (strncmp0 filename FIRMWARE_PREFIX 5) then mret tt
        else
          let filename := strip_nl filename in
          let '(v, type, suffix) := parse_version filename l in
          _ ← store_token "type" 32 (default "" type);
          _ ← store_token "suffix" 32 (default "" suffix);
          if same_version v then mret tt else fetch_install filename
    end.

(** One turn of the daemon's loop. *)
Definition auto_cycle (l : locals) : M unit :=
  _ ← update_check l; sleep PERIODIC_DELAY.

Fixpoint auto_cycles (ls : list locals) : M unit :=
  match ls with
  | [] => mret tt
  | l :: r => _ ← auto_cycle l; auto_cycles r
  end.

(** The daemon for as many turns as [ls] has contents for the locals. *)
Definition auto_updated (ls : list locals) : M unit :=
  _ ← sleep INITIAL_DELAY; auto_cycles ls.
End Auto.

(** ** Running the programs as commands *)

Section Validated.
Context {Child : Env} {Cr : Crypto} {Tools : @HubTools Child Cr} (stack : string).

Definition skip_opt (skip : bool) : list ascii := if skip then ["s"%char] else [].

Lemma skip_opt_spec skip : validate_opts (skip_opt skip) false false = inr (skip, false).
Proof. by destruct skip. Qed.

(** Every file that is there for installation after [validate_image] started in [w] is one it accepted. *)
Definition only_accepted (skip : bool) (f : string) (w w' : world) : Prop :=
  forall d, get FW_INSTALL_FILE w' = Some d -> exists map, get f w = Some map /\ accepted skip false map w w'.

Lemma accepted_fs skip mfg map w w1 w2 : fs w1 = fs w2 -> accepted skip mfg map w w1 -> accepted skip mfg map w w2.
Proof.
  intros E (h & d & H1 & H2 & H3 & H4). exists h, d. split; [done|]. split; [done|]. split; [|done].
  rewrite <- H3. unfold get. by rewrite E.
Qed.

Lemma validate_status_0 skip f w w' :
  plain w -> wait_status (fst (@validate_image Child (skip_opt skip) (Some f) stack w)) = 0 ->
  fs w' = fs (snd (@validate_image Child (skip_opt skip) (Some f) stack w)) -> only_accepted skip f w w'.
Proof.
  intros P Hst Hfs d Hd. destruct (get f w) as [map|] eqn:Hf.
  - exists map. split; [done|].
    pose proof (wp_validate_image (skip_opt skip) f stack skip false map w (skip_opt_spec skip) P Hf) as Hw.
    unfold wp in Hw. unfold INSTALL_FILE_OPEN_ERR, INSTALL_CKSUM_ERR in Hw.
    destruct (fst (validate_image _ _ _ w)) as [z|z|z|]; cbn in Hst; try lia.
    + destruct Hw as [_ [Hn | Ha]]; [|by eapply accepted_fs].
      unfold get in Hd, Hn. rewrite Hfs in Hd. congruence.
    + rewrite Z.mod_small in Hst by lia. lia.
  - exfalso. revert Hst. unfold validate_image. rewrite skip_opt_spec. unfold mbind, M_bind, fopen_r. rewrite Hf. done.
Qed.

Context {Ev : Env}.

Lemma wp_validate_cmd skip f w Q :
  @runs Ev (validate_cmd skip f) (@validate_image Child (skip_opt skip) (Some f) stack) -> plain w ->
  (forall st s, let w' := World s (trace w ++ [Cmd (validate_cmd skip f)]) in
     (st = 0 -> only_accepted skip f w w') -> Q (Val st) w') ->
  wp (system (validate_cmd skip f)) Q w.
Proof.
  intros Hr P HQ. apply wp_system_any. intros st s Hs. apply HQ.
  rewrite Hr in Hs. injection Hs as <- <-. intros Hst. by apply validate_status_0.
Qed.
End Validated.

(** ** update installs what validate_image accepted *)

Lemma stake_cons_ne n c d s t : c <> d -> (0 < n)%nat -> stake n (String c s) <> stake n (String d t).
Proof. destruct n; [lia|]. cbn. by intros Hc _ [=]. Qed.

Lemma download_not_install cred url kill : download_cmd cred url <> install_cmd kill.
Proof.
  unfold download_cmd, install_cmd, snprintf. destruct (strncmp0 _ _ _), cred, kill; by apply stake_cons_ne; [|lia].
Qed.

Section Finish.
Context `{Env}.

(** The end of the program: LEDs and clean-up, after which the low byte of [res] is the exit code. *)
Definition finish (ledMode : string) (p : Z * Z) : M Z :=
  _ ← when (negb (fst p =? 0)) (sleep (snd p));
  _ ← IRIS_setLedMode ledMode; _ ← unlink FW_INSTALL_FILE; _ ← unlink TMP_FILE;
  if negb (fst p =? 0) then exit (u8 (fst p)) else mret 0.

Lemma wp_finish ledMode res d w :
  wp (finish ledMode (res, d)) (fun r w' => r = (if res =? 0 then Val 0 else Exit (u8 res)) /\
    exists tail, trace w' = (trace w ++ tail)%list /\ forall c, Cmd c ∉ tail) w.
Proof.
  unfold finish, sleep, IRIS_setLedMode, usleep. cbn [fst snd]. destruct (Z.eqb_spec res 0) as [->|Hne]; cbn [negb].
  - wp_go; (split; [done|]); exists [Usleep 10000]; (split; [done|set_solver]).
  - wp_go; try done; (split; [done|]); exists [Sleep d; Usleep 10000]; (split; [symmetry; apply (app_assoc (trace w) [Sleep d] [Usleep 10000])|set_solver]).
Qed.
End Finish.

(** A wait status of a program that ended by itself has a low byte of 0. *)
Lemma wait_status_low code : wait_status (if wait_status (Exit code) =? 0 then Val 0 else Exit (u8 (wait_status (Exit code)))) = 0.
Proof.
  destruct (wait_status _ =? 0); [done|]. cbn [wait_status]. unfold u8. change (2 ^ 8) with 256.
  by rewrite (Z.mul_comm 256 (code mod 256)), Z.mod_mul by lia.
Qed.

Section UpdateAccepted.
Context {Child : Env} {Cr : Crypto} {Tools : @HubTools Child Cr} {Ev : Env} (stack : string).

(** How the events [evs] of a run of [update], and its result, come about when fwinstall was run. *)
Definition update_post (o : upd_opts) (url : string) (w : world) (r : outcome Z) (w' : world) : Prop :=
  exists evs, trace w' = (trace w ++ evs)%list /\
    (Cmd (install_cmd (killAgent o)) ∈ evs ->
     exists w1 w2, trace w1 = (trace w ++ [Cmd (download_cmd (credarg o) url)])%list /\
       trace w2 = (trace w1 ++ [Cmd (validate_cmd (force o) TMP_FILE)])%list /\
       only_accepted (force o) TMP_FILE w1 w2 /\
       let st := fst (sh (install_cmd (killAgent o)) w2) in r = if st =? 0 then Val 0 else Exit (u8 st)).

Lemma post_no_install o url w r w' evs :
  trace w' = (trace w ++ evs)%list -> Cmd (install_cmd (killAgent o)) ∉ evs -> update_post o url w r w'.
Proof. intros Ht Hn. exists evs. done. Qed.

(** From a validated file on. *)
Lemma wp_validate_install o url w w1 ledMode :
  runs (validate_cmd (force o) TMP_FILE) (@validate_image Child (skip_opt (force o)) (Some TMP_FILE) stack) ->
  plain w1 -> trace w1 = (trace w ++ [Cmd (download_cmd (credarg o) url)])%list ->
  wp (validate_install o) (seq_post (finish ledMode) (update_post o url w)) w1.
Proof.
  intros Hr P Ht. pose proof (download_not_install (credarg o) url (killAgent o)) as Hd.
  assert (validate_cmd (force o) TMP_FILE <> install_cmd (killAgent o)) as Hv by (by destruct (force o), (killAgent o)).
  assert (forall p w2 tr, trace w2 = (trace w1 ++ [Cmd (validate_cmd (force o) TMP_FILE)] ++ tr)%list ->
    Cmd (install_cmd (killAgent o)) ∉ tr -> wp (finish ledMode p) (update_post o url w) w2) as Hfin.
  { intros [res d] w2 tr Ht2 Hn. eapply wp_mono; [apply wp_finish|]. intros r w3 [_ (tail & Ht3 & Hc)].
    eapply post_no_install; [rewrite Ht3, Ht2, Ht, <- !app_assoc; reflexivity|].
    rewrite !not_elem_of_app, !list_elem_of_singleton. naive_solver. }
  unfold validate_install. wp_step. apply (wp_validate_cmd stack); [done|done|]. intros st s w2 Hacc. cbn [seq_post].
  wp_step. { cbn [seq_post]. apply (Hfin _ _ []); [by rewrite app_nil_r|by apply not_elem_of_nil]. }
  destruct (Z.eqb_spec st 0) as [->|]; [|done]. wp_step. unfold wp at 1, access. cbn [fst snd seq_post].
  match goal with |- wp (if ?a then _ else _) _ _ => destruct a end.
  2: { wp_step. cbn [seq_post]. apply (Hfin _ _ []); [by rewrite app_nil_r|by apply not_elem_of_nil]. }
  wp_step. apply wp_system_any. intros st2 s2 Hst2. cbn [seq_post].
  assert (forall d w3, trace w3 = (trace w2 ++ [Cmd (install_cmd (killAgent o))])%list ->
    wp (finish ledMode (st2, d)) (update_post o url w) w3) as Hfin2.
  { intros d w3 Ht3. eapply wp_mono; [apply wp_finish|]. intros r w4 [-> (tail & Ht4 & _)].
    eexists. split; [rewrite Ht4, Ht3; unfold w2; cbn [trace]; rewrite Ht, <- !app_assoc; reflexivity|]. intros _.
    exists w1, w2. split; [done|]. split; [done|]. split; [by apply Hacc|]. by rewrite Hst2. }
  destruct (Z.eqb_spec st2 0) as [E2|]; cbn [negb]; [wp_step; cbn [seq_post]; by apply Hfin2|].
  wp_step. wp_step. cbn [seq_post]. wp_step. cbn [seq_post]. by apply Hfin2.
Qed.

(** The command [c] mounts and unmounts nothing. *)
Definition keeps_mounts (c : string) : Prop := forall w, mnts (snd (sh c w)) = mnts (fs w).

Lemma wp_update opts o url w :
  update_opts opts no_opts = inr o -> plain w -> keeps_mounts (download_cmd (credarg o) url) ->
  runs (validate_cmd (force o) TMP_FILE) (@validate_image Child (skip_opt (force o)) (Some TMP_FILE) stack) ->
  wp (update opts (Some url)) (update_post o url w) w.
Proof.
  intros Ho P Hk Hr. unfold update. rewrite Ho. do 2 (wp_step; wp_step; cbn [seq_post]).
  wp_step. apply wp_system_any. intros st s Hs. cbn [seq_post].
  destruct (negb (st =? 0)).
  { wp_step. eapply post_no_install; [reflexivity|]. rewrite list_elem_of_singleton. intros [= E].
    by apply (download_not_install (credarg o) url (killAgent o)). }
  unfold IRIS_getLedMode. wp_step. wp_step. unfold wp at 1. cbn [fst snd fopen_r seq_post]. wp_step.
  cbn [seq_post]. wp_step. eapply wp_mono; [apply (wp_validate_install o url w); [done| |done]|].
  - unfold plain. cbn. pose proof (Hk (del_file TMP_FILE (del_file FW_INSTALL_FILE w))) as Hm.
    rewrite Hs in Hm. cbn in Hm. by rewrite Hm.
  - intros [[res d]|z|z|] w2 Hw2; exact Hw2.
Qed.
End UpdateAccepted.

(** C5.  update installs only what validate_image accepted.  Whatever URL it is given and whatever
    the download leaves, if fwinstall is run at all then it is run after the download and the
    validation, every file it finds to install is one validate_image accepted (signed, intact,
    and for this hub).  The caller of update is not told how that went: a failure is passed to
    exit() as a wait status, of which only the low byte is kept, so that the caller sees success
    whatever code fwinstall ended with. *)
Theorem update_installs_only_accepted {Child : Env} {Cr : Crypto} {Tools : @HubTools Child Cr} {Ev : Env}
    stack opts o url w :
  update_opts opts no_opts = inr o -> plain w -> keeps_mounts (download_cmd (credarg o) url) ->
  runs (validate_cmd (force o) TMP_FILE) (@validate_image Child (skip_opt (force o)) (Some TMP_FILE) stack) ->
  let r := fst (update opts (Some url) w) in
  let w' := snd (update opts (Some url) w) in
  exists evs, trace w' = (trace w ++ evs)%list /\
    (Cmd (install_cmd (killAgent o)) ∈ evs ->
     exists w1 w2, trace w1 = (trace w ++ [Cmd (download_cmd (credarg o) url)])%list /\
       trace w2 = (trace w1 ++ [Cmd (validate_cmd (force o) TMP_FILE)])%list /\
       only_accepted (force o) TMP_FILE w1 w2 /\
       let st := fst (sh (install_cmd (killAgent o)) w2) in
       r = (if st =? 0 then Val 0 else Exit (u8 st)) /\
       forall code, st = wait_status (Exit code) -> wait_status r = 0).
Proof.
  intros Ho P Hk Hr. destruct (wp_update stack opts o url w Ho P Hk Hr) as (evs & Ht & Hi). exists evs. split; [done|].
  intros Hin. destruct (Hi Hin) as (w1 & w2 & H1 & H2 & H3 & H4). exists w1, w2. cbv zeta in *. split_and!; try done.
  intros code Hc. rewrite H4, Hc. apply wait_status_low.
Qed.

(** ** What the caller of update is told *)

Lemma wp_update_failure `{Env} opts o url c w :
  update_opts opts no_opts = inr o ->
  (forall w', fst (sh (download_cmd (credarg o) url) w') = 0) ->
  (forall w', fst (sh (validate_cmd (force o) TMP_FILE) w') = 256 * c) -> 0 < c < 256 ->
  wp (update opts (Some url)) (fun r _ => r = Exit 0) w.
Proof.
  intros Ho Hdl Hv Hc. unfold update. rewrite Ho. do 2 (wp_step; wp_step; cbn [seq_post]).
  wp_step. apply wp_system_any. intros st s Hs. cbn [seq_post].
  pose proof (Hdl (del_file TMP_FILE (del_file FW_INSTALL_FILE w))) as Hz. rewrite Hs in Hz. cbn in Hz. subst st. cbn [Z.eqb negb].
  unfold IRIS_getLedMode. wp_step. wp_step. unfold wp at 1. cbn [fst snd fopen_r seq_post]. wp_step. cbn [seq_post].
  wp_step. unfold validate_install. wp_step. apply wp_system_any. intros st2 s2 Hs2. cbn [seq_post].
  match type of Hs2 with sh _ ?x = _ => pose proof (Hv x) as Hz end. rewrite Hs2 in Hz. cbn [fst] in Hz. subst st2.
  rewrite (proj2 (Z.eqb_neq (256 * c) 0)) by lia. cbn [negb]. wp_step. cbn [seq_post].
  eapply wp_mono; [apply (wp_finish _ (256 * c) 3)|]. intros r w3 [-> _]. rewrite (proj2 (Z.eqb_neq (256 * c) 0)) by lia.
  unfold u8. change (2 ^ 8) with 256. by rewrite (Z.mul_comm 256 c), Z.mod_mul by lia.
Qed.

(**  A failed validation is reported as success: update ends with the wait status of
    validate_image as its exit code, of which the caller gets the low 8 bits, which are 0. *)
Theorem update_failure_reported_as_0 `{Env} opts o url c w :
  update_opts opts no_opts = inr o ->
  (forall w', fst (sh (download_cmd (credarg o) url) w') = 0) ->
  (forall w', fst (sh (validate_cmd (force o) TMP_FILE) w') = 256 * c) -> 0 < c < 256 ->
  fst (update opts (Some url) w) <> Val 0 /\ wait_status (fst (update opts (Some url) w)) = 0.
Proof.
  intros Ho Hdl Hv Hc. pose proof (wp_update_failure opts o url c w Ho Hdl Hv Hc) as Hw. unfold wp in Hw. rewrite Hw.
  by split.
Qed.

(** ** File names *)

(** The name build_image gives an image. *)
Definition fw_name (major minor point build : Z) (suffix : string) : string :=
  "hubOS_" +:+ dec major +:+ "." +:+ dec minor +:+ "." +:+ dec point +:+ "." +:+ dec3 build +:+ suffix +:+ ".bin".

Lemma fw_name_image : image_name DEFAULT_PREFIX =
  fw_name VERSION_MAJOR VERSION_MINOR VERSION_POINT VERSION_BUILD VERSION_SUFFIX.
Proof. done. Qed.

(** A suffix build_image can use: no separators, not a digit first, and not the extension. *)
Definition suffix_ok (s : string) : bool :=
  all_chars (fun c => negb (isspace c || Ascii.eqb c "_" || Ascii.eqb c "." || Ascii.eqb c NUL)) s &&
  match s with String c _ => match digit_val c with Some _ => false | None => true end | EmptyString => true end &&
  negb (String.eqb s "bin") && (String.length s <? 32)%nat.

Lemma spaced_app a b : spaced (a +:+ b) = spaced a +:+ spaced b.
Proof. induction a as [|c a IH]; cbn; [done|]. by rewrite IH. Qed.

Lemma spaced_digits fuel n : 0 <= n -> spaced (dec_fuel fuel n) = dec_fuel fuel n.
Proof.
  revert n. induction fuel as [|f IH]; intros n Hn; cbn; [done|].
  assert (forall d, 0 <= d < 10 -> spaced (String (digit d) "") = String (digit d) "") as Hd.
  { intros d Hd. assert (d = 0 \/ d = 1 \/ d = 2 \/ d = 3 \/ d = 4 \/ d = 5 \/ d = 6 \/ d = 7 \/ d = 8 \/ d = 9) as Hd' by lia.
    by repeat destruct Hd' as [->|Hd']; [..|subst d]. }
  destruct (Z.ltb_spec n 10); [apply Hd; lia|]. rewrite spaced_app, IH by (apply Z.div_pos; lia).
  f_equal. apply Hd. apply Z.mod_pos_bound. lia.
Qed.

Lemma spaced_dec n : 0 <= n -> spaced (dec n) = dec n.
Proof. intros Hn. unfold dec. rewrite (proj2 (Z.ltb_ge n 0)) by done. by apply spaced_digits. Qed.

Lemma spaced_dec3 n : 0 <= n -> spaced (dec3 n) = dec3 n.
Proof. intros Hn. unfold dec3. rewrite spaced_app, spaced_dec by done. by repeat case_if. Qed.

Lemma spaced_suffix s :
  all_chars (fun c => negb (isspace c || Ascii.eqb c "_" || Ascii.eqb c "." || Ascii.eqb c NUL)) s = true -> spaced s = s.
Proof.
  induction s as [|c s IH]; cbn [all_chars spaced]; [done|]. intros [Hc Hs]%andb_true_iff. rewrite IH by done.
  destruct (Ascii.eqb c "_"), (Ascii.eqb c "."), (isspace c); done.
Qed.

Lemma scan_int_dec3 x rest : 0 <= x <= INT_MAX -> no_digit rest -> scan_int (dec3 x +:+ rest) = Some (x, rest).
Proof.
  intros Hx Hr. pose proof (scan_digits_nonneg x rest ltac:(lia) Hr) as Hd.
  assert (dec x = dec_nonneg x) as E by (unfold dec; by rewrite (proj2 (Z.ltb_ge x 0)) by lia).
  unfold dec3. repeat case_if; rewrite sapp_assoc; cbn [String.append].
  - apply scan_int_zero_digits; [|done]. by rewrite scan_digits_zero, E.
  - apply scan_int_zero_digits; [|done]. by rewrite E.
  - apply scan_int_dec; [|done]. unfold INT_MIN. lia.
Qed.

Lemma scan_s_token t c rest :
  all_chars (fun x => negb (isspace x)) t = true -> t <> "" -> isspace c = true -> scan_s (t +:+ String c rest) = Some t.
Proof.
  intros Ht Hne Hc. unfold scan_s.
  assert (span_token (t +:+ String c rest) = (t, String c rest)) as Hs.
  { clear Hne. induction t as [|x t IH]; [cbn; by rewrite Hc|]. cbn in Ht. to_prop. cbn.
    rewrite IH by done. by destruct (isspace x). }
  destruct t as [|x t]; [done|]. cbn in Ht. to_prop. cbn [String.append skip_ws].
  destruct (isspace x); [done|]. cbn [String.append] in Hs. by rewrite Hs.
Qed.

Lemma all_chars_impl (P Q : ascii -> bool) s :
  (forall c, P c = true -> Q c = true) -> all_chars P s = true -> all_chars Q s = true.
Proof. intros H. induction s as [|c s IH]; cbn; [done|]. intros [H1 H2]%andb_true_iff. by rewrite H, IH. Qed.

(** The token after the build number. *)
Lemma scan_suffix s : suffix_ok s = true -> exists t, scan_s (s +:+ " bin") = Some t /\ drop_bin t = s.
Proof.
  unfold suffix_ok. intros [[[Hc _]%andb_true_iff Hb]%andb_true_iff Hl]%andb_true_iff. to_prop.
  destruct (decide (s = "")) as [->|Hne]; [by exists "bin"|]. exists s. split.
  - apply scan_s_token; [|done|done]. eapply all_chars_impl; [|exact Hc]. intros x. cbv beta. by destruct (isspace x).
  - unfold drop_bin. destruct (strncmp0 "bin" s 32) eqn:He; [|done].
    apply strncmp0_eq in He; [by subst|done| |cbn; lia]. unfold nul_free.
    eapply all_chars_impl; [|exact Hc]. intros x. cbv beta. destruct (Ascii.eqb x NUL); [|done]. by rewrite !orb_true_r.
Qed.

Lemma suffix_no_digit s : suffix_ok s = true -> no_digit (s +:+ " bin").
Proof.
  unfold suffix_ok. intros [[[_ Hd]%andb_true_iff _]%andb_true_iff _]%andb_true_iff.
  destruct s as [|c s]; [done|]. cbn. by destruct (digit_val c).
Qed.

Lemma spaced_fw_name major minor point build suffix :
  0 <= major -> 0 <= minor -> 0 <= point -> 0 <= build -> suffix_ok suffix = true ->
  spaced (fw_name major minor point build suffix) =
  "hubOS " +:+ dec major +:+ " " +:+ dec minor +:+ " " +:+ dec point +:+ " " +:+ dec3 build +:+ suffix +:+ " bin".
Proof.
  intros H1 H2 H3 H4 Hs. unfold fw_name. rewrite !spaced_app, !spaced_dec, spaced_dec3 by done.
  rewrite (spaced_suffix suffix); [done|]. unfold suffix_ok in Hs. by repeat apply andb_true_iff in Hs as [Hs _].
Qed.

Lemma parse_fw_name major minor point build suffix l :
  0 <= major <= INT_MAX -> 0 <= minor <= INT_MAX -> 0 <= point <= INT_MAX -> 0 <= build <= INT_MAX ->
  suffix_ok suffix = true -> exists t,
  parse_version (fw_name major minor point build suffix) l = (FwVer major minor point build t, None, Some t) /\
  drop_bin t = suffix.
Proof.
  intros H1 H2 H3 H4 Hs. destruct (scan_suffix suffix Hs) as (t & Ht & Hd). exists t. split; [|done].
  unfold parse_version. rewrite spaced_fw_name by (done || lia).
  assert (forall x, 0 <= x <= INT_MAX -> INT_MIN <= x <= INT_MAX) as Hw by (intros x; unfold INT_MIN; lia).
  assert (isdigit (String.get 6 ("hubOS " +:+ dec major +:+ " " +:+ dec minor +:+ " " +:+ dec point +:+ " " +:+
    dec3 build +:+ suffix +:+ " bin")) = true) as ->.
  { destruct (dec_fuel_head (S (Z.to_nat (Z.log2 major))) major) as (c & r & He & d & Hv & _); [lia..|].
    unfold dec at 1. rewrite (proj2 (Z.ltb_ge major 0)) by lia. unfold dec_nonneg. rewrite He. cbn. by rewrite Hv. }
  cbn [String.append sdrop]. unfold sscan_version.
  rewrite !scan_int_space, scan_int_dec by (auto; done). cbn [String.append].
  rewrite !scan_int_space, scan_int_dec by (auto; done). cbn [String.append].
  rewrite !scan_int_space, scan_int_dec by (auto; done). cbn [String.append].
  rewrite !scan_int_space, scan_int_dec3 by (auto; by apply suffix_no_digit). by rewrite Ht.
Qed.

(** ** The daemon *)

Section Daemon.
Context {Child : Env} {Cr : Crypto} {Tools : @HubTools Child Cr} {Ev : Env} (stack : string).
Context (Hk : forall f, keeps_mounts (fetch_cmd f)).
Context (Hr : runs (validate_cmd true UPDATE_TMP_FILE) (@validate_image Child (skip_opt true) (Some UPDATE_TMP_FILE) stack)).

Definition restart_cmd : string := "hub_restart now".

(** Events other than an installation or a restart. *)
Definition quiet (evs : list event) : Prop := (Cmd (install_cmd false) ∉ evs) /\ (Cmd restart_cmd ∉ evs).

Lemma quiet_app a b : quiet a -> quiet b -> quiet (a ++ b)%list.
Proof. unfold quiet. rewrite !not_elem_of_app. naive_solver. Qed.
Lemma quiet_nil : quiet [].
Proof. split; apply not_elem_of_nil. Qed.
Lemma quiet_one e : e <> Cmd (install_cmd false) -> e <> Cmd restart_cmd -> quiet [e].
Proof. unfold quiet. rewrite !list_elem_of_singleton. by split; apply not_eq_sym. Qed.
Lemma quiet_fetch f : quiet [Cmd (fetch_cmd f)].
Proof. apply quiet_one; intros [= E]; revert E; unfold fetch_cmd, snprintf; by apply stake_cons_ne; [|lia]. Qed.

(** From [w] to [w'] only quiet events, and the mounts are the same. *)
Definition quietly (w w' : world) : Prop :=
  mnts (fs w') = mnts (fs w) /\ exists evs, trace w' = (trace w ++ evs)%list /\ quiet evs.

Lemma quietly_refl w : quietly w w.
Proof. split; [done|]. exists []. by rewrite app_nil_r; split; [|apply quiet_nil]. Qed.
Lemma quietly_trans w1 w2 w3 : quietly w1 w2 -> quietly w2 w3 -> quietly w1 w3.
Proof.
  intros [H1 (e1 & T1 & Q1)] [H2 (e2 & T2 & Q2)]. split; [congruence|]. exists (e1 ++ e2)%list.
  rewrite T2, T1, <- app_assoc. split; [done|by apply quiet_app].
Qed.
Lemma quietly_event w s e : mnts s = mnts (fs w) -> quiet [e] -> quietly w (World s (trace w ++ [e])).
Proof. intros Hm Hq. split; [done|]. by exists [e]. Qed.
Lemma quietly_same w w' : mnts (fs w') = mnts (fs w) -> trace w' = trace w -> quietly w w'.
Proof. intros Hm Ht. split; [done|]. exists []. by rewrite app_nil_r; split; [|apply quiet_nil]. Qed.

Definition quiet_run {A} (m : M A) : Prop :=
  forall w, wp m (fun r w' => quietly w w' /\ match r with Exit _ => False | _ => True end) w.

Lemma quiet_run_ret {A} (a : A) : quiet_run (mret a).
Proof. intros w. split; [apply quietly_refl|done]. Qed.
Lemma quiet_run_bind {A B} (m : M A) (k : A -> M B) : quiet_run m -> (forall a, quiet_run (k a)) -> quiet_run (m ≫= k).
Proof.
  intros Hm Hkk w. wp_step. eapply wp_mono; [apply Hm|]. intros [a|z|z|] w1 [H1 H2]; cbn [seq_post]; try done.
  eapply wp_mono; [apply Hkk|]. intros r w2 [H3 H4]. split; [by eapply quietly_trans|done].
Qed.
Lemma quiet_run_leaf {A} (m : M A) : keeps_mnts m -> (forall w, trace (snd (m w)) = trace w) ->
  (forall w, match fst (m w) with Exit _ => False | _ => True end) -> quiet_run m.
Proof. intros H1 H2 H3 w. split; [apply quietly_same; auto|exact (H3 w)]. Qed.
Lemma quiet_run_emit e : quiet [e] -> quiet_run (emit e).
Proof. intros Hq w. split; [by apply (quietly_event w (fs w))|done]. Qed.
Lemma quiet_run_sleep n : quiet_run (sleep n).
Proof. by apply quiet_run_emit, quiet_one. Qed.
Lemma quiet_run_popen c : quiet_run (popen c).
Proof. intros w. split; [|done]. by apply (quietly_event w (fs w)); [|apply quiet_one]. Qed.
Lemma quiet_run_crash {A} : quiet_run (@crash A).
Proof. intros w. split; [apply quietly_refl|done]. Qed.
Lemma quiet_run_fetch f : quiet_run (system (fetch_cmd f)).
Proof.
  intros w. apply wp_system_any. intros st s Hs. split; [|done]. apply quietly_event; [|apply quiet_fetch].
  pose proof (Hk f w) as Hm. by rewrite Hs in Hm.
Qed.

Ltac quiets :=
  repeat lazymatch goal with
  | |- forall _, _ => intros ?
  | |- quiet_run (mbind _ _) => apply quiet_run_bind
  | |- quiet_run (mret _) => apply quiet_run_ret
  | |- quiet_run (sleep _) => apply quiet_run_sleep
  | |- quiet_run (popen _) => apply quiet_run_popen
  | |- quiet_run crash => apply quiet_run_crash
  | |- quiet_run (system (fetch_cmd _)) => apply quiet_run_fetch
  | |- quiet_run (when _ _) => unfold when
  | |- quiet_run (match ?x with _ => _ end) => destruct x
  | |- quiet_run (IRIS_setLedMode _) => unfold IRIS_setLedMode, usleep
  | |- quiet_run (IRIS_getLedMode _ _) => unfold IRIS_getLedMode
  | |- quiet_run (fopen_w _) =>
      apply quiet_run_leaf; intros ?; unfold fopen_w; destruct (wr_ok _ _); done
  | |- quiet_run (store_token _ _ _) => unfold store_token
  | |- quiet_run (emit (Overrun _ _)) => apply quiet_run_emit; by apply quiet_one
  | |- quiet_run (emit (Usleep _)) => apply quiet_run_emit; by apply quiet_one
  | |- quiet_run _ => by apply quiet_run_leaf
  end.

Lemma query_loop_quiet n : quiet_run (query_loop n).
Proof. induction n as [|n IH]; cbn [query_loop]; quiets. exact IH. Qed.

Lemma download_loop_quiet n f : quiet_run (download_loop n (fetch_cmd f)).
Proof. induction n as [|n IH]; cbn [download_loop]; quiets. exact IH. Qed.

Definition not_exit {A} (r : outcome A) : Prop := match r with Exit _ => False | _ => True end.

(** From [w] to [w'] only quiet events. *)
Definition hushed (w w' : world) : Prop := exists evs, trace w' = (trace w ++ evs)%list /\ quiet evs.

Lemma hushed_trans w1 w2 w3 : hushed w1 w2 -> hushed w2 w3 -> hushed w1 w3.
Proof.
  intros (e1 & T1 & Q1) (e2 & T2 & Q2). exists (e1 ++ e2)%list.
  rewrite T2, T1, <- app_assoc. split; [done|by apply quiet_app].
Qed.

(** A turn of the daemon from [w]: nothing installed, or the validated file. *)
Definition auto_post (w : world) (r : outcome unit) (w' : world) : Prop :=
  (not_exit r /\ hushed w w') \/
  exists w1 w2 post, hushed w w1 /\ trace w2 = (trace w1 ++ [Cmd (validate_cmd true UPDATE_TMP_FILE)])%list /\
    trace w' = (trace w2 ++ Cmd (install_cmd false) :: post)%list /\ only_accepted true UPDATE_TMP_FILE w1 w2 /\
    (if fst (sh (install_cmd false) w2) =? 0 then r = Exit 0 /\ post = [Cmd restart_cmd]
     else not_exit r /\ quiet post).

Lemma auto_post_before w w0 r w' : hushed w w0 -> auto_post w0 r w' -> auto_post w r w'.
Proof.
  intros Hq [[Hn Hq0]|(w1 & w2 & post & Hq1 & H)]; [left; split; [done|by eapply hushed_trans]|].
  right. exists w1, w2, post. split; [by eapply hushed_trans|done].
Qed.

Lemma auto_post_after w a w0 r w' : auto_post w (Val a) w0 -> hushed w0 w' -> not_exit r -> auto_post w r w'.
Proof.
  intros [[_ Hq0]|(w1 & w2 & post & Hq1 & Ht2 & Ht & Hacc & H)] Hq Hr'; [left; split; [done|by eapply hushed_trans]|].
  destruct (_ =? 0) eqn:Hst; [by destruct H|]. destruct H as [_ Hp]. destruct Hq as (evs & Hte & He).
  right. exists w1, w2, (post ++ evs)%list. rewrite Hst. split; [done|]. split; [done|].
  split; [by rewrite Hte, Ht, <- app_assoc|]. split; [done|]. split; [done|]. by apply quiet_app.
Qed.

Lemma auto_post_bind (m : M unit) (k : unit -> M unit) w :
  wp m (auto_post w) w -> (forall a, quiet_run (k a)) -> wp (m ≫= k) (auto_post w) w.
Proof.
  intros Hm Hkk. wp_step. eapply wp_mono; [exact Hm|]. intros [a|z|z|] w0 Hw0; cbn [seq_post]; [|exact Hw0..].
  eapply wp_mono; [apply Hkk|]. intros r w' [[_ Hq] Hn]. by eapply auto_post_after.
Qed.

Lemma auto_post_quiet {A} (m : M A) (k : A -> M unit) w :
  quiet_run m -> (forall a w0, quietly w w0 -> wp (k a) (auto_post w0) w0) -> wp (m ≫= k) (auto_post w) w.
Proof.
  intros Hm Hkk. wp_step. eapply wp_mono; [apply Hm|]. intros [a|z|z|] w0 [Hq Hn]; cbn [seq_post];
    [|left; split; [done|apply Hq]..].
  eapply wp_mono; [by apply Hkk|]. intros r w'. apply auto_post_before. apply Hq.
Qed.

Lemma wp_quiet_run (m : M unit) w : quiet_run m -> wp m (auto_post w) w.
Proof. intros Hm. eapply wp_mono; [apply Hm|]. intros r w' [[_ Hq] Hn]. by left. Qed.

(** The end of [auto_install], after [system] has returned [res]. *)
Lemma after_install_quiet ledMode res d : quiet_run (_ ← when (negb (res =? 0)) (sleep d); IRIS_setLedMode ledMode).
Proof. quiets. Qed.

Lemma quiet_validate : quiet [Cmd (validate_cmd true UPDATE_TMP_FILE)].
Proof. by apply quiet_one. Qed.

Lemma wp_auto_install ledMode w : plain w -> wp (auto_install ledMode) (auto_post w) w.
Proof.
  intros P. unfold auto_install. wp_step. apply (wp_validate_cmd stack); [done|done|]. intros st s w2 Hacc. cbn [seq_post].
  assert (forall p w3, trace w3 = trace w2 ->
    wp (let '(res, ledDelay) := p in _ ← when (negb (res =? 0)) (sleep ledDelay); IRIS_setLedMode ledMode) (auto_post w) w3)
    as Hfin.
  { intros [res d] w3 Ht. eapply wp_mono; [apply after_install_quiet|]. intros r w4 [[_ Hq] Hn]. left. split; [done|].
    eapply hushed_trans; [|exact Hq]. exists [Cmd (validate_cmd true UPDATE_TMP_FILE)]. split; [done|apply quiet_validate]. }
  wp_step. destruct (Z.eqb_spec st 0) as [->|Hst].
  2: { wp_step. cbn [seq_post]. wp_step. wp_step. cbn [seq_post]. by apply (Hfin (st, 3)). }
  unfold wp at 1, access. cbn [fst snd seq_post].
  match goal with |- wp (mbind _ (if ?a then _ else _)) _ _ => destruct a end.
  2: { wp_step. wp_step. cbn [seq_post]. by apply (Hfin (0, 3)). }
  wp_step. wp_step. apply wp_system_any. intros st2 s2 Hs2. cbn [seq_post].
  destruct (Z.eqb_spec st2 0) as [->|Hne].
  - wp_step. apply wp_system_any. intros st3 s3 _. cbn [seq_post]. wp_step. cbn [seq_post]. right.
    exists w, w2, [Cmd restart_cmd]. rewrite Hs2. cbn [fst Z.eqb]. split; [by exists []; rewrite app_nil_r; split; [|apply quiet_nil]|].
    split; [done|]. split; [by cbn; rewrite <- !app_assoc|]. split; [by apply Hacc|done].
  - wp_step. cbn [seq_post]. eapply wp_mono; [apply after_install_quiet|]. intros r w4 [[_ (evs & Ht4 & Hq4)] Hn]. right.
    exists w, w2, evs. rewrite Hs2. cbn [fst]. rewrite (proj2 (Z.eqb_neq st2 0)) by done.
    split; [by exists []; rewrite app_nil_r; split; [|apply quiet_nil]|].
    split; [done|]. split; [rewrite Ht4; by cbn; rewrite <- !app_assoc|]. split; [by apply Hacc|done].
Qed.

Lemma plain_quietly w w' : quietly w w' -> plain w -> plain w'.
Proof. intros [Hm _]. unfold plain. congruence. Qed.

Lemma wp_fetch_install f w : plain w -> wp (fetch_install f) (auto_post w) w.
Proof.
  intros P. unfold fetch_install. apply auto_post_quiet; [quiets|]. intros _ w1 H1.
  apply auto_post_quiet; [apply download_loop_quiet|]. intros got w2 H2.
  apply auto_post_quiet; [quiets|]. intros ledMode w3 H3. apply auto_post_bind; [|intros ?; quiets].
  destruct got; [|by apply wp_quiet_run; quiets]. apply wp_auto_install.
  eapply plain_quietly; [exact H3|]. eapply plain_quietly; [exact H2|]. by eapply plain_quietly.
Qed.

Lemma wp_auto_cycle l w : plain w -> wp (auto_cycle l) (auto_post w) w.
Proof.
  intros P. unfold auto_cycle. apply auto_post_bind; [|intros ?; quiets]. unfold update_check.
  apply auto_post_quiet; [quiets|]. intros skip w1 H1. destruct skip; [by apply wp_quiet_run; quiets|].
  apply auto_post_quiet; [apply query_loop_quiet|]. intros [out|] w2 H2; [|by apply wp_quiet_run; quiets].
  case_if; [by apply wp_quiet_run; quiets|]. destruct (parse_version _ l) as [[v type] suffix].
  apply auto_post_quiet; [quiets|]. intros _ w3 H3. apply auto_post_quiet; [quiets|]. intros _ w4 H4.
  destruct (same_version v); [by apply wp_quiet_run; quiets|]. apply wp_fetch_install.
  do 3 (eapply plain_quietly; [eassumption|]). by eapply plain_quietly.
Qed.
End Daemon.

(** C13.  One turn of the update daemon: either it installs nothing and restarts nothing, or it runs
    fwinstall exactly once, right after validate_image, with every file fwinstall finds to
    install being one validate_image accepted; and it restarts the hub, and ends, exactly when
    fwinstall succeeded. *)
Theorem auto_cycle_installs_only_accepted {Child : Env} {Cr : Crypto} {Tools : @HubTools Child Cr} {Ev : Env} stack l w :
  (forall f, keeps_mounts (fetch_cmd f)) ->
  runs (validate_cmd true UPDATE_TMP_FILE) (@validate_image Child (skip_opt true) (Some UPDATE_TMP_FILE) stack) ->
  plain w ->
  let r := fst (auto_cycle l w) in
  let w' := snd (auto_cycle l w) in
  (not_exit r /\ exists evs, trace w' = (trace w ++ evs)%list /\ quiet evs) \/
  exists evs w1 w2 post, trace w1 = (trace w ++ evs)%list /\ quiet evs /\
    trace w2 = (trace w1 ++ [Cmd (validate_cmd true UPDATE_TMP_FILE)])%list /\
    trace w' = (trace w2 ++ Cmd (install_cmd false) :: post)%list /\ only_accepted true UPDATE_TMP_FILE w1 w2 /\
    (if fst (sh (install_cmd false) w2) =? 0 then r = Exit 0 /\ post = [Cmd restart_cmd]
     else not_exit r /\ quiet post).
Proof.
  intros Hk Hr P. destruct (wp_auto_cycle stack Hk Hr l w P) as [H|(w1 & w2 & post & (evs & H1 & H2) & H)]; [by left|].
  right. by exists evs, w1, w2, post.
Qed.

Lemma same_version_name major minor point build suffix l :
  0 <= major <= INT_MAX -> 0 <= minor <= INT_MAX -> 0 <= point <= INT_MAX -> 0 <= build <= INT_MAX ->
  suffix_ok suffix = true ->
  same_version (parse_version (fw_name major minor point build suffix) l).1.1 = true <->
  (major = VERSION_MAJOR /\ minor = VERSION_MINOR /\ point = VERSION_POINT /\ build = VERSION_BUILD /\
   suffix = VERSION_SUFFIX).
Proof.
  intros H1 H2 H3 H4 Hs. destruct (parse_fw_name major minor point build suffix l) as (t & -> & Hd); [done..|].
  unfold same_version. cbn [fst v_major v_minor v_point v_build v_suffix]. rewrite Hd.
  rewrite !andb_true_iff, !Z.eqb_eq. change (strncmp0 VERSION_SUFFIX suffix 32) with
    (match suffix with EmptyString => true | String y _ => Ascii.eqb y NUL end).
  assert (match suffix with EmptyString => true | String y _ => Ascii.eqb y NUL end = true <-> suffix = VERSION_SUFFIX)
    as ->; [|tauto].
  destruct suffix as [|c s]; [done|]. split; [|done]. unfold suffix_ok in Hs. cbn [all_chars] in Hs.
  intros E. rewrite E, !orb_true_r in Hs. done.
Qed.

(**  The version test of the update daemon: on the name build_image gives to the image of any
    version, the daemon's parsing recovers that version, so it skips the update exactly when
    version and suffix are those of the running firmware. *)
Theorem auto_version_test major minor point build suffix l :
  0 <= major <= INT_MAX -> 0 <= minor <= INT_MAX -> 0 <= point <= INT_MAX -> 0 <= build <= INT_MAX ->
  suffix_ok suffix = true ->
  let '(v, _, _) := parse_version (fw_name major minor point build suffix) l in
  FwVer (v_major v) (v_minor v) (v_point v) (v_build v) (drop_bin (v_suffix v)) = FwVer major minor point build suffix /\
  (same_version v = true <->
   fw_name major minor point build suffix = image_name DEFAULT_PREFIX /\ suffix = VERSION_SUFFIX /\
   (major, minor, point, build) = (VERSION_MAJOR, VERSION_MINOR, VERSION_POINT, VERSION_BUILD)).
Proof.
  intros H1 H2 H3 H4 Hs. pose proof (same_version_name major minor point build suffix l H1 H2 H3 H4 Hs) as Hv.
  destruct (parse_fw_name major minor point build suffix l) as (t & E & Hd); [done..|]. rewrite E in *.
  split; [cbn; by rewrite Hd|]. cbn [fst] in Hv. rewrite Hv. split.
  - intros (-> & -> & -> & -> & ->). done.
  - intros (_ & -> & [= -> -> -> ->]). done.
Qed.

(** ** A hub that updates itself *)

Module UpdToy.

(** The result of a program run as a command. *)
Definition run_image (m : M Z) (w : world) : Z * fsys := (wait_status (fst (m w)), fs (snd (m w))).

(** The two validation commands run validate_image, a download gives [upload], and fwinstall
    ends with [code]. *)
#[local] Instance env (upload : string) (code : Z) : Env := {
  sh := fun c w =>
    if String.eqb c (validate_cmd false TMP_FILE) then run_image (@validate_image Toy.env [] (Some TMP_FILE) "") w
    else if String.eqb c (validate_cmd true UPDATE_TMP_FILE)
    then run_image (@validate_image Toy.env (skip_opt true) (Some UPDATE_TMP_FILE) "") w
    else if String.prefix "ln -s" c then (0, fs (put_file TMP_FILE upload w))
    else if String.prefix "curl" c then (0, fs (put_file UPDATE_TMP_FILE upload w))
    else if String.prefix "fwinstall" c then (256 * code, fs w)
    else (0, fs w);
  pipe := fun _ _ => Some ("hubOS_9.0.0.001.bin" +:+ String LF "");
  rd_ok := fun _ _ => true;
  wr_ok := fun _ _ => true;
  wr_len := fun _ _ n => n;
  mount_ok := fun _ _ _ => true;
  mem_ok := fun _ => true }.

Definition url : string := "file:///media/usb/hubOS.bin".

Lemma keeps_download upload code : @keeps_mounts (env upload code) (download_cmd None url).
Proof. done. Qed.
Lemma keeps_fetch upload code f : @keeps_mounts (env upload code) (fetch_cmd f).
Proof. done. Qed.
Lemma runs_update upload code :
  @runs (env upload code) (validate_cmd false TMP_FILE) (@validate_image Toy.env [] (Some TMP_FILE) "").
Proof. done. Qed.
Lemma runs_auto upload code :
  @runs (env upload code) (validate_cmd true UPDATE_TMP_FILE) (@validate_image Toy.env (skip_opt true) (Some UPDATE_TMP_FILE) "").
Proof. done. Qed.

(** validate_image always ends with [INSTALL_HDR_SIG_ERR]. *)
#[local] Instance refusing : Env := {
  sh := fun c w => (if String.prefix "validate_image" c then 256 * INSTALL_HDR_SIG_ERR else 0, fs w);
  pipe := fun _ _ => Some "";
  rd_ok := fun _ _ => true;
  wr_ok := fun _ _ => true;
  wr_len := fun _ _ n => n;
  mount_ok := fun _ _ _ => true;
  mem_ok := fun _ => true }.
End UpdToy.

Lemma update_installs_only_accepted_witness :
  let out := @update (UpdToy.env toy_image 0) [] (Some UpdToy.url) (toy_hub "") in
  fst out = Val 0 /\ Cmd (install_cmd false) ∈ trace (snd out) /\
  exists w1 w2, @only_accepted Toy.crypto false TMP_FILE w1 w2 /\ trace w2 = [Cmd (download_cmd None UpdToy.url); Cmd (validate_cmd false TMP_FILE)].
Proof.
  cbv zeta. split; [vm_compute; reflexivity|].
  assert (Cmd (install_cmd false) ∈ trace (snd (@update (UpdToy.env toy_image 0) [] (Some UpdToy.url) (toy_hub "")))) as Hin
    by (vm_compute; set_solver).
  split; [exact Hin|].
  destruct (@update_installs_only_accepted Toy.env Toy.crypto Toy.hub (UpdToy.env toy_image 0) "" [] no_opts UpdToy.url
    (toy_hub "")) as (evs & Ht & Hi); [reflexivity|reflexivity|apply UpdToy.keeps_download|apply UpdToy.runs_update|].
  rewrite Ht in Hin. destruct (Hi Hin) as (w1 & w2 & H1 & H2 & H3 & _). exists w1, w2. split; [exact H3|]. rewrite H2, H1. reflexivity.
Defined.

Lemma update_failure_reported_as_0_witness :
  let r := fst (@update UpdToy.refusing [] (Some UpdToy.url) (toy_hub "")) in
  r <> Val 0 /\ wait_status r = 0.
Proof.
  apply (@update_failure_reported_as_0 UpdToy.refusing [] no_opts UpdToy.url INSTALL_HDR_SIG_ERR (toy_hub ""));
    [reflexivity|reflexivity|reflexivity|unfold INSTALL_HDR_SIG_ERR; lia].
Defined.

(** The locals of a first turn. *)
Definition fresh : locals := Locals "" (FwVer 0 0 0 0 "").

Lemma auto_cycle_installs_only_accepted_witness :
  let out := @auto_cycle (UpdToy.env toy_image 0) fresh (toy_hub "") in
  fst out = Exit 0 /\
  exists w1 w2, trace (snd out) = (trace w2 ++ [Cmd (install_cmd false); Cmd restart_cmd])%list /\
    @only_accepted Toy.crypto true UPDATE_TMP_FILE w1 w2.
Proof.
  cbv zeta. assert (fst (@auto_cycle (UpdToy.env toy_image 0) fresh (toy_hub "")) = Exit 0) as Hr by (vm_compute; reflexivity).
  split; [exact Hr|].
  destruct (@auto_cycle_installs_only_accepted Toy.env Toy.crypto Toy.hub (UpdToy.env toy_image 0) "" fresh (toy_hub ""))
    as [[Hn _]|(evs & w1 & w2 & post & _ & _ & _ & Ht & Ha & Hp)];
    [exact (UpdToy.keeps_fetch toy_image 0)|exact (UpdToy.runs_auto toy_image 0)|reflexivity|rewrite Hr in Hn; destruct Hn|].
  exists w1, w2. split; [|exact Ha]. rewrite Ht. rewrite Hr in Hp. destruct (_ =? 0); [|by destruct Hp as [[] _]].
  by destruct Hp as [_ ->].
Defined.

Lemma auto_version_test_witness :
  let '(v, _, _) := parse_version "hubOS_3.0.1.029rc1.bin" fresh in
  FwVer (v_major v) (v_minor v) (v_point v) (v_build v) (drop_bin (v_suffix v)) = FwVer 3 0 1 29 "rc1" /\
  same_version v = false.
Proof.
  pose proof (auto_version_test 3 0 1 29 "rc1" fresh) as H. unfold INT_MAX in H.
  specialize (H ltac:(lia) ltac:(lia) ltac:(lia) ltac:(lia) eq_refl).
  change (fw_name 3 0 1 29 "rc1") with "hubOS_3.0.1.029rc1.bin" in H.
  destruct (parse_version "hubOS_3.0.1.029rc1.bin" fresh) as [[v t] s]. destruct H as [H1 H2]. split; [exact H1|].
  destruct (same_version v); [|reflexivity]. destruct (proj1 H2 eq_refl) as (_ & E & _). discriminate E.
Defined.
