(* ===== verification/LedRing.v ===== *)
(** * ledRing.c: patterns on the LED ring

    A pattern is the list of what the program does: the frames it sends to the LED
    driver, the delays, and the LED mode it records.  A frame is the [mbi6023] array
    of the ioctl; a store outside the array makes it [None].  The hardware version,
    which the program reads anew for every frame, is a parameter, and so are the
    readings of the clock.  Failing ioctls are only reported, and not modelled. *)
From Stdlib Require Import ZArith String Ascii Lia Bool.
From stdpp Require Import base gmap strings list numbers.
From S2P Require Import Prelude CLib.

Local Open Scope string_scope.
Local Open Scope Z_scope.

Definition QUAD_1 : Z := 1.
Definition QUAD_2 : Z := 2.
Definition QUAD_3 : Z := 3.
Definition QUAD_4 : Z := 4.
Definition MIN_IND_LED_VER : Z := 2.
Definition ALL_LEDS : Z := 0xFF.
Definition LEDS_OFF : Z := 0.
Definition TOTAL_LEDS : Z := 12.
Definition TOTAL_QUADS : Z := 4.
Definition MAX_MODES : Z := 12.
Definition DELAY_SLOW : Z := 300000.
Definition DELAY_SLOW_SINGLE : Z := 100000.
Definition DELAY_BLINK : Z := 300000.
Definition DELAY_FAST : Z := 100000.
Definition DELAY_FAST_SINGLE : Z := 33333.
Definition DELAY_TRIPLE : Z := 500000.
Definition DELAY_TICK : Z := 5.
Definition DELAY_1S : Z := 1.
Definition DELAY_2S : Z := 2.

(** ** Frames *)

(** A store to an array element. *)
Definition store (i v : Z) (ring : list Z) : option (list Z) :=
  if (0 <=? i) && (i <? Z.of_nat (length ring)) then Some (<[Z.to_nat i := v]> ring) else None.

(** The three words of LED [i], counted from 0. *)
Definition set_led (i b r g : Z) (ring : list Z) : option (list Z) :=
  ring ← store (i * 3 + 3) b ring; ring ← store (i * 3 + 4) r ring; store (i * 3 + 5) g ring.

Fixpoint set_leds (leds : list Z) (b r g : Z) (ring : list Z) : option (list Z) :=
  match leds with
  | [] => Some ring
  | i :: leds' => ring ← set_led i b r g ring; set_leds leds' b r g ring
  end.

(** Brightness words of a colour, [percent] being 100, or 200 for the dimmed neighbours. *)
Definition red (color percent : Z) : Z := Z.shiftr (Z.land color 0xFF0000) 16 * 0xFFFF / percent.
Definition green (color percent : Z) : Z := Z.shiftr (Z.land color 0x00FF00) 8 * 0xFFFF / percent.
Definition blue (color percent : Z) : Z := Z.land color 0x0000FF * 0xFFFF / percent.

Definition clear_v2 : list Z := [0xFC00; 0xFC02; 0x9002] ++ replicate 36 0.
Definition clear_v1 : list Z := [0xFC00; 0xFC00; 0] ++ replicate 12 0.

(** The version to assume: the latest if none is set. *)
Definition hw_version (hw : Z) : Z := if hw =? 0 then MIN_IND_LED_VER else hw.

Definition writeRing (hw color which : Z) : option (list Z) :=
  let r := red color 100 in let g := green color 100 in let b := blue color 100 in
  if MIN_IND_LED_VER <=? hw_version hw then
    if (0 <? which) && (which <=? TOTAL_LEDS) then set_led (which - 1) b r g clear_v2
    else if which =? ALL_LEDS then set_leds (seqZ 0 TOTAL_LEDS) b r g clear_v2
    else Some clear_v2
  else
    if which =? QUAD_1 then set_led 0 b r g clear_v1
    else if which =? QUAD_2 then set_led 1 b r g clear_v1
    else if which =? QUAD_3 then set_led 2 b r g clear_v1
    else if which =? QUAD_4 then set_led 3 b r g clear_v1
    else if which =? ALL_LEDS then set_leds (seqZ 0 TOTAL_QUADS) b r g clear_v1
    else Some clear_v1.

Definition writeTail (color which : Z) : option (list Z) :=
  let r := red color 100 in let g := green color 100 in let b := blue color 100 in
  let tr := red color 200 in let tg := green color 200 in let tb := blue color 200 in
  if (0 <? which) && (which <=? TOTAL_LEDS) then
    ring ← set_led (which - 1) b r g clear_v2;
    ring ← set_led (if which =? 1 then 11 else which - 2) tb tr tg ring;
    set_led (if which =? TOTAL_LEDS then 1 else which) tb tr tg ring
  else Some clear_v2.

(** The clockwise variant, which is the one compiled. *)
Definition writeSegments (color which : Z) (onOff : bool) : option (list Z) :=
  let r := red color 100 in let g := green color 100 in let b := blue color 100 in
  set_leds (map (fun index => TOTAL_LEDS - index)
             (if onOff then seqZ 1 which else seqZ which (TOTAL_LEDS - which + 1))) b r g clear_v2.

(** ** Options *)

(** [strtoul(s, 0, base)] with a 32-bit [unsigned long] *)
Definition strtoul (s : string) (base : Z) : Z := strtou 32 s base.

Inductive ring_opt :=
| RHelp | RRed (a : string) | RGreen (a : string) | RBlue (a : string) | RDuration (a : string)
| RColor (a : string) | RMode (a : string) | RBad.

Record ring_args := RingArgs { a_r : Z; a_g : Z; a_b : Z; a_m : Z; a_d : Z; a_end : Z }.

(** The option loop, from reading [n] of the clock on. *)
Fixpoint ring_opts (opts : list ring_opt) (clk : nat -> Z) (n : nat) (a : ring_args) : Z + (ring_args * nat) :=
  match opts with
  | [] => inr (a, n)
  | RHelp :: _ => inl 0
  | RRed s :: o => ring_opts o clk n (RingArgs (i32 (strtoul s 0)) (a_g a) (a_b a) (a_m a) (a_d a) (a_end a))
  | RGreen s :: o => ring_opts o clk n (RingArgs (a_r a) (i32 (strtoul s 0)) (a_b a) (a_m a) (a_d a) (a_end a))
  | RBlue s :: o => ring_opts o clk n (RingArgs (a_r a) (a_g a) (i32 (strtoul s 0)) (a_m a) (a_d a) (a_end a))
  | RDuration s :: o =>
      let d := i32 (strtoul s 0) in
      if 0 <? d then ring_opts o clk (S n) (RingArgs (a_r a) (a_g a) (a_b a) (a_m a) d (i32 (clk n + d)))
      else ring_opts o clk n (RingArgs (a_r a) (a_g a) (a_b a) (a_m a) d (a_end a))
  | RColor s :: o =>
      let color := i32 (strtoul s 16) in
      ring_opts o clk n (RingArgs (Z.shiftr (Z.land color 0xFF0000) 16) (Z.shiftr (Z.land color 0xFF00) 8)
                                (Z.land color 0xFF) (a_m a) (a_d a) (a_end a))
  | RMode s :: o =>
      let m := i32 (strtoul s 0) in
      if (m <? 1) || (MAX_MODES <? m) then inl 1
      else ring_opts o clk n (RingArgs (a_r a) (a_g a) (a_b a) m (a_d a) (a_end a))
  | RBad :: _ => inl 1
  end.

Definition ring_defaults : ring_args := RingArgs 100 100 100 6 0 0.

(** [if (r < 0) r = 0; if (r > 100) r = 100;] *)
Definition clamp (x : Z) : Z := let x := if x <? 0 then 0 else x in if 100 <? x then 100 else x.

Definition rgb (r g b : Z) : Z := Z.lor (Z.lor (Z.shiftl r 16) (Z.shiftl g 8)) b.

(** ** Patterns *)

Inductive lev :=
| Frame (f : option (list Z))
| Usleep (us : Z)
| SleepS (s : Z)
| LedMode (mode : string).

Definition ringOff (hw : Z) : list lev := [Frame (writeRing hw LEDS_OFF ALL_LEDS); LedMode "all-off"].

(** [while (1) { body; if (endTime && time(NULL) > endTime) { ringOff(fd); break; } }], for at most
    [fuel] turns, the clock being at reading [n]; [ge] for the loops that test >=.  The events, and
    whether the loop was left. *)
Fixpoint ring_loop (fuel : nat) (hw : Z) (clk : nat -> Z) (n : nat) (endTime : Z) (ge : bool) (body : list lev)
  : list lev * bool :=
  match fuel with
  | O => ([], false)
  | S f =>
      if endTime =? 0 then let '(l, d) := ring_loop f hw clk n endTime ge body in ((body ++ l)%list, d)
      else if (if ge then endTime <=? clk n else endTime <? clk n) then ((body ++ ringOff hw)%list, true)
      else let '(l, d) := ring_loop f hw clk (S n) endTime ge body in ((body ++ l)%list, d)
  end.

Section Modes.
Context (hw : Z) (a : ring_args).
Let color : Z := rgb (a_r a) (a_g a) (a_b a).
Let off : lev := Frame (writeRing hw LEDS_OFF ALL_LEDS).
Let on : lev := Frame (writeRing hw color ALL_LEDS).

(** One turn of the ring, LED by LED or quadrant by quadrant. *)
Definition rotate (single group : Z) : list lev :=
  if MIN_IND_LED_VER <=? hw_version hw then
    concat (map (fun i => [Frame (writeTail color i); Usleep single]) (rev (seqZ 1 TOTAL_LEDS)))
  else
    concat (map (fun q => [Frame (writeRing hw color q); Usleep group]) [QUAD_1; QUAD_2; QUAD_3; QUAD_4]).

(** The ring at [index] tenths of the brightness. *)
Definition fade (index : Z) : list lev :=
  [Frame (writeRing hw (rgb (a_r a * index / 10) (a_g a * index / 10) (a_b a * index / 10)) ALL_LEDS); Usleep DELAY_FAST].

Definition ticks (onOff : bool) : list lev :=
  concat (map (fun index => [Frame (writeSegments color index onOff);
                             if a_d a =? 0 then SleepS DELAY_TICK else Usleep (Z.quot (i32 (a_d a * 1000000)) TOTAL_LEDS)])
              (seqZ 1 TOTAL_LEDS)).

Definition loop_body (m : Z) : list lev :=
  match m with
  | 3 => [on; SleepS DELAY_1S; off; SleepS DELAY_1S]
  | 4 => [on; Usleep DELAY_BLINK; off; Usleep DELAY_BLINK]
  | 6 => [SleepS DELAY_1S]
  | 7 => rotate DELAY_SLOW_SINGLE DELAY_SLOW
  | 8 => rotate DELAY_FAST_SINGLE DELAY_FAST
  | 9 => concat (map fade (seqZ 0 11))
  | 10 => (concat (map fade (seqZ 0 11)) ++ concat (map fade (rev (seqZ 0 11))))%list
  | 11 => ticks false
  | 12 => ticks true
  | _ => []
  end.

(** The [switch]: the events, and whether the program ended. *)
Definition ring_mode (fuel : nat) (clk : nat -> Z) (n : nat) : list lev * bool :=
  match a_m a with
  | 1 => ([off; on; Usleep DELAY_BLINK] ++ ringOff hw, true)%list
  | 2 => ([off; on; SleepS DELAY_2S] ++ ringOff hw, true)%list
  | 5 => ([off; Usleep DELAY_TRIPLE; on; Usleep DELAY_BLINK; off; Usleep DELAY_BLINK; on; Usleep DELAY_BLINK;
           off; Usleep DELAY_BLINK; on; Usleep DELAY_BLINK; off; Usleep DELAY_TRIPLE] ++ ringOff hw, true)%list
  | 6 =>
      if a_end a =? 0 then ([on], true)
      else let '(l, d) := ring_loop fuel hw clk n (a_end a) false (loop_body 6) in (on :: l, d)
  | 11 => ring_loop fuel hw clk n (a_end a) true (loop_body 11)
  | 12 => ring_loop fuel hw clk n (a_end a) true (loop_body 12)
  | m => ring_loop fuel hw clk n (a_end a) false (loop_body m)
  end.
End Modes.

(** The program: exit status, events, and whether it ended; [dev_ok]: the ring can be opened. *)
Definition ledRing (fuel : nat) (hw : Z) (dev_ok : bool) (clk : nat -> Z) (opts : list ring_opt) : Z * list lev * bool :=
  match ring_opts opts clk 0 ring_defaults with
  | inl code => (code, [], true)
  | inr (a, n) =>
      if negb dev_ok then (0, [], true)
      else
        let a := RingArgs (clamp (a_r a)) (clamp (a_g a)) (clamp (a_b a)) (a_m a) (a_d a) (a_end a) in
        let '(l, d) := ring_mode hw a fuel clk n in (0, l, d)
  end.

(** ** Colours *)

Definition is_chan (x : Z) : Prop := 0 <= x < 256.

Lemma rgb_sum r g b : is_chan r -> is_chan g -> is_chan b -> rgb r g b = r * 65536 + g * 256 + b.
Proof.
  unfold is_chan, rgb. intros Hr Hg Hb. rewrite <- Z.lor_assoc.
  rewrite (lor_shiftl 8 g b), (lor_shiftl 16 r) by lia. lia.
Qed.

(** A field of eight bits of the colour. *)
Lemma rgb_field r g b k : is_chan r -> is_chan g -> is_chan b -> 0 <= k ->
  Z.shiftr (Z.land (rgb r g b) (Z.shiftl 0xFF k)) k = (r * 65536 + g * 256 + b) / 2 ^ k mod 256.
Proof.
  intros Hr Hg Hb Hk. rewrite Z.shiftr_land, Z.shiftr_shiftl_l, Z.sub_diag, Z.shiftl_0_r by lia.
  change 0xFF with (Z.ones 8). by rewrite rgb_sum, Z.land_ones, Z.shiftr_div_pow2 by (done || lia).
Qed.

Lemma red_rgb r g b p : is_chan r -> is_chan g -> is_chan b -> red (rgb r g b) p = r * 0xFFFF / p.
Proof.
  intros Hr Hg Hb. unfold red. do 2 f_equal. change 0xFF0000 with (Z.shiftl 0xFF 16). rewrite (rgb_field r g b 16) by (done || lia).
  unfold is_chan in *. change (2 ^ 16) with 65536. dlia.
Qed.
Lemma green_rgb r g b p : is_chan r -> is_chan g -> is_chan b -> green (rgb r g b) p = g * 0xFFFF / p.
Proof.
  intros Hr Hg Hb. unfold green. do 2 f_equal. change 0xFF00 with (Z.shiftl 0xFF 8). rewrite (rgb_field r g b 8) by (done || lia).
  unfold is_chan in *. change (2 ^ 8) with 256. dlia.
Qed.
Lemma blue_rgb r g b p : is_chan r -> is_chan g -> is_chan b -> blue (rgb r g b) p = b * 0xFFFF / p.
Proof.
  intros Hr Hg Hb. unfold blue. do 2 f_equal. pose proof (rgb_field r g b 0 Hr Hg Hb ltac:(lia)) as H.
  rewrite Z.shiftr_0_r in H. rewrite Z.shiftl_0_r in H. rewrite H. unfold is_chan in *. change (2 ^ 0) with 1. dlia.
Qed.

(** ** Single LEDs of a frame *)

(** The words of LED [j]. *)
Definition led (ring : list Z) (j : nat) : list (option Z) :=
  [ring !! (j * 3 + 3)%nat; ring !! (j * 3 + 4)%nat; ring !! (j * 3 + 5)%nat].

Lemma store_some i v ring : (i < length ring)%nat -> store (Z.of_nat i) v ring = Some (<[i := v]> ring).
Proof.
  intros Hi. unfold store. rewrite (proj2 (Z.leb_le _ _)), (proj2 (Z.ltb_lt _ _)) by lia. cbn. by rewrite Nat2Z.id.
Qed.

Definition with_led (i : nat) (b r g : Z) (ring : list Z) : list Z :=
  <[(i * 3 + 5)%nat := g]> (<[(i * 3 + 4)%nat := r]> (<[(i * 3 + 3)%nat := b]> ring)).

Lemma set_led_some i b r g ring :
  (i * 3 + 6 <= length ring)%nat -> set_led (Z.of_nat i) b r g ring = Some (with_led i b r g ring).
Proof.
  intros Hi. unfold set_led.
  replace (Z.of_nat i * 3 + 3) with (Z.of_nat (i * 3 + 3)) by lia.
  replace (Z.of_nat i * 3 + 4) with (Z.of_nat (i * 3 + 4)) by lia.
  replace (Z.of_nat i * 3 + 5) with (Z.of_nat (i * 3 + 5)) by lia.
  rewrite store_some by lia. cbn [mbind option_bind]. rewrite store_some by (rewrite length_insert; lia).
  cbn [mbind option_bind]. by rewrite store_some by (rewrite !length_insert; lia).
Qed.

Lemma with_led_len i b r g ring : length (with_led i b r g ring) = length ring.
Proof. unfold with_led. by rewrite !length_insert. Qed.

Lemma led_with_led i j b r g ring : (i * 3 + 6 <= length ring)%nat ->
  led (with_led i b r g ring) j = if decide (j = i) then [Some b; Some r; Some g] else led ring j.
Proof.
  intros Hi. unfold led, with_led. destruct (decide (j = i)) as [->|Hne].
  - rewrite !list_lookup_insert_eq by (rewrite ?length_insert; lia).
    rewrite !list_lookup_insert_ne by lia. rewrite !list_lookup_insert_eq by (rewrite ?length_insert; lia).
    by rewrite !list_lookup_insert_ne, list_lookup_insert_eq by (rewrite ?length_insert; lia).
  - by rewrite !list_lookup_insert_ne by lia.
Qed.

Definition is_word (x : Z) : Prop := 0 <= x <= 0xFFFF.

(** A frame of [n] words with the header of [clear]. *)
Record frame_of (clear l : list Z) : Prop := {
  frame_len : length l = length clear;
  frame_head : take 3 l = take 3 clear;
  frame_words : Forall is_word l }.

Lemma with_led_frame clear l i b r g : frame_of clear l -> is_word b -> is_word r -> is_word g ->
  frame_of clear (with_led i b r g l).
Proof.
  intros [H1 H2 H3] Hb Hr Hg. unfold with_led. split.
  - by rewrite !length_insert.
  - rewrite !take_insert_ge by lia. done.
  - by repeat apply Forall_insert.
Qed.

Definition fits (l : list Z) (i : Z) : Prop := 0 <= i /\ i * 3 + 6 <= Z.of_nat (length l).

Lemma set_led_spec clear l i b r g :
  frame_of clear l -> fits clear i -> is_word b -> is_word r -> is_word g ->
  exists l', set_led i b r g l = Some l' /\ frame_of clear l' /\
    forall j, led l' j = if decide (Z.of_nat j = i) then [Some b; Some r; Some g] else led l j.
Proof.
  intros Hf [Hi1 Hi2] Hb Hr Hg. destruct Hf as [Hlen Hh Hw] eqn:E. exists (with_led (Z.to_nat i) b r g l). split.
  - rewrite <- (Z2Nat.id i) at 1 by done. apply set_led_some. lia.
  - split; [by apply with_led_frame|]. intros j. rewrite led_with_led by lia.
    destruct (decide (j = Z.to_nat i)), (decide (Z.of_nat j = i)); done || lia.
Qed.

Lemma set_leds_spec clear b r g leds : Forall (fits clear) leds -> is_word b -> is_word r -> is_word g ->
  forall l, frame_of clear l -> exists l', set_leds leds b r g l = Some l' /\ frame_of clear l' /\
    forall j, led l' j = if decide (Z.of_nat j ∈ leds) then [Some b; Some r; Some g] else led l j.
Proof.
  intros Hl Hb Hr Hg. induction Hl as [|i leds Hi _ IH]; intros l Hf.
  - exists l. split; [done|]. split; [done|]. intros j. by rewrite decide_False by apply not_elem_of_nil.
  - destruct (set_led_spec clear l i b r g Hf Hi Hb Hr Hg) as (l1 & H1 & Hf1 & Hj1).
    destruct (IH l1 Hf1) as (l2 & H2 & Hf2 & Hj2). exists l2. cbn [set_leds]. rewrite H1. cbn [mbind option_bind].
    split; [done|]. split; [done|]. intros j. rewrite Hj2, Hj1.
    destruct (decide (Z.of_nat j ∈ leds)) as [Hin|Hni]; [by rewrite decide_True by (by right)|].
    destruct (decide (Z.of_nat j = i)) as [->|Hne]; [by rewrite decide_True by left|].
    rewrite decide_False; [done|]. rewrite elem_of_cons. naive_solver.
Qed.

Lemma clear_v2_frame : frame_of clear_v2 clear_v2.
Proof. split; [done|done|]. repeat constructor; done. Qed.
Lemma clear_v1_frame : frame_of clear_v1 clear_v1.
Proof. split; [done|done|]. repeat constructor; done. Qed.
Lemma led_clear_v2 j : (j < 12)%nat -> led clear_v2 j = [Some 0; Some 0; Some 0].
Proof. intros Hj. do 12 (destruct j as [|j]; [done|]). lia. Qed.

(** ** What a frame shows *)

Definition pct (x : Z) : Prop := 0 <= x <= 100.
Definition level (x p : Z) : Z := x * 0xFFFF / p.

Lemma level_word x : pct x -> is_word (level x 100).
Proof. unfold pct, is_word, level. intros H. dlia. Qed.
Lemma level_half x : pct x -> is_word (level x 200).
Proof. unfold pct, is_word, level. intros H. dlia. Qed.
Lemma pct_chan x : pct x -> is_chan x.
Proof. unfold pct, is_chan. lia. Qed.
Create HintDb leds.
#[local] Hint Resolve level_word level_half pct_chan clear_v2_frame clear_v1_frame : leds.

Definition individual (hw : Z) : bool := MIN_IND_LED_VER <=? hw_version hw.
Definition clear_of (hw : Z) : list Z := if individual hw then clear_v2 else clear_v1.

(** The words of an LED at full and at half brightness, and dark. *)
Definition lit (r g b p : Z) : list (option Z) := [Some (level b p); Some (level r p); Some (level g p)].
Definition dark : list (option Z) := [Some 0; Some 0; Some 0].

Section Show.
Context (r g b : Z) (Hr : pct r) (Hg : pct g) (Hb : pct b).

Lemma colours p : red (rgb r g b) p = level r p /\ green (rgb r g b) p = level g p /\ blue (rgb r g b) p = level b p.
Proof. by rewrite red_rgb, green_rgb, blue_rgb by auto with leds. Qed.

Lemma fits_v2 i : 0 <= i < 12 -> fits clear_v2 i.
Proof. intros Hi. split; cbn; lia. Qed.
Lemma fits_v1 i : 0 <= i < 4 -> fits clear_v1 i.
Proof. intros Hi. split; cbn; lia. Qed.

Lemma led_v2 p i l : is_word (level r p) -> is_word (level g p) -> is_word (level b p) -> frame_of clear_v2 l -> 0 <= i < 12 ->
  exists l', set_led i (level b p) (level r p) (level g p) l = Some l' /\ frame_of clear_v2 l' /\
    forall j, led l' j = if decide (Z.of_nat j = i) then lit r g b p else led l j.
Proof. intros. apply set_led_spec; [done|by apply fits_v2|done..]. Qed.

Lemma leds_v2 leds : Forall (fits clear_v2) leds ->
  exists l', set_leds leds (level b 100) (level r 100) (level g 100) clear_v2 = Some l' /\ frame_of clear_v2 l' /\
    forall j, led l' j = if decide (Z.of_nat j ∈ leds) then lit r g b 100 else led clear_v2 j.
Proof. intros. apply set_leds_spec; auto with leds. Qed.

Lemma writeRing_frame hw which : exists l, writeRing hw (rgb r g b) which = Some l /\ frame_of (clear_of hw) l.
Proof.
  destruct (colours 100) as (Er & Eg & Eb). unfold writeRing, clear_of. rewrite Er, Eg, Eb. fold (individual hw).
  assert (forall i, 0 <= i < 4 -> exists l, set_led i (level b 100) (level r 100) (level g 100) clear_v1 = Some l /\
    frame_of clear_v1 l) as G1.
  { intros i Hi. destruct (set_led_spec clear_v1 clear_v1 i (level b 100) (level r 100) (level g 100))
      as (l & H1 & H2 & _); auto using fits_v1 with leds. by exists l. }
  destruct (individual hw).
  - repeat case_if; to_prop; [| |by eauto with leds].
    + destruct (led_v2 100 (which - 1) clear_v2) as (l & H1 & H2 & _); auto with leds; [unfold TOTAL_LEDS in *; lia|].
      by exists l.
    + destruct (leds_v2 (seqZ 0 TOTAL_LEDS)) as (l & H1 & H2 & _); [by repeat constructor|]. by exists l.
  - repeat case_if; [by apply G1..| |by eauto with leds].
    destruct (set_leds_spec clear_v1 (level b 100) (level r 100) (level g 100) (seqZ 0 TOTAL_QUADS))
      with (l := clear_v1) as (l & H1 & H2 & _); auto with leds; [by repeat constructor|]. by exists l.
Qed.

Lemma writeTail_some which : 1 <= which <= 12 -> exists l,
  writeTail (rgb r g b) which = Some l /\ frame_of clear_v2 l /\
  forall j, (j < 12)%nat -> led l j =
    if decide (Z.of_nat j = if which =? 12 then 1 else which) then lit r g b 200
    else if decide (Z.of_nat j = if which =? 1 then 11 else which - 2) then lit r g b 200
    else if decide (Z.of_nat j = which - 1) then lit r g b 100 else dark.
Proof.
  intros Hw. destruct (colours 100) as (Er & Eg & Eb), (colours 200) as (Fr & Fg & Fb).
  unfold writeTail. rewrite Er, Eg, Eb, Fr, Fg, Fb. unfold TOTAL_LEDS.
  rewrite (proj2 (Z.ltb_lt 0 which)), (proj2 (Z.leb_le which 12)) by lia. cbn [andb].
  destruct (led_v2 100 (which - 1) clear_v2) as (l1 & H1 & F1 & J1); [auto with leds..|lia|].
  destruct (led_v2 200 (if which =? 1 then 11 else which - 2) l1) as (l2 & H2 & F2 & J2); [auto with leds..|case_if; to_prop; lia|].
  destruct (led_v2 200 (if which =? 12 then 1 else which) l2) as (l3 & H3 & F3 & J3); [auto with leds..|case_if; to_prop; lia|].
  exists l3. rewrite H1. cbn [mbind option_bind]. rewrite H2. cbn [mbind option_bind]. split; [done|]. split; [done|].
  intros j Hj. rewrite J3, J2, J1. repeat destruct (decide _); try done. by apply led_clear_v2.
Qed.

Lemma writeSegments_some which onOff : 1 <= which <= 12 -> exists l,
  writeSegments (rgb r g b) which onOff = Some l /\ frame_of clear_v2 l /\
  forall j, (j < 12)%nat -> led l j =
    if (if onOff then 12 - which <=? Z.of_nat j else Z.of_nat j <=? 12 - which) then lit r g b 100 else dark.
Proof.
  intros Hw. destruct (colours 100) as (Er & Eg & Eb). unfold writeSegments. rewrite Er, Eg, Eb.
  set (leds := map _ _). assert (forall i, i ∈ leds <-> 0 <= i < 12 /\ if onOff then 12 - which <= i else i <= 12 - which) as Hin.
  { intros i. unfold leds. rewrite list_elem_of_fmap. unfold TOTAL_LEDS. split.
    - intros (k & -> & Hk). destruct onOff; apply elem_of_seqZ in Hk; lia.
    - intros Hi. exists (12 - i). split; [lia|]. destruct onOff; apply elem_of_seqZ; lia. }
  destruct (leds_v2 leds) as (l & H1 & H2 & H3).
  { apply List.Forall_forall. intros i Hi%list_elem_of_In. apply fits_v2. by apply Hin. }
  exists l. split; [done|]. split; [done|]. intros j Hj. rewrite H3.
  destruct (decide (Z.of_nat j ∈ leds)) as [Hd|Hd]; rewrite Hin in Hd.
  - destruct onOff; rewrite (proj2 (Z.leb_le _ _)); (done || lia).
  - rewrite led_clear_v2 by done. destruct onOff; rewrite (proj2 (Z.leb_gt _ _)); (done || lia).
Qed.
End Show.

(** ** All frames of a run *)

(** A frame the driver of this hardware accepts. *)
Definition valid_frame (hw : Z) (f : option (list Z)) : Prop := exists l, f = Some l /\ frame_of (clear_of hw) l.
Definition valid_ev (hw : Z) (e : lev) : Prop := match e with Frame f => valid_frame hw f | _ => True end.

Lemma valid_writeRing hw r g b which : pct r -> pct g -> pct b -> valid_ev hw (Frame (writeRing hw (rgb r g b) which)).
Proof. intros. by apply writeRing_frame. Qed.
Lemma valid_off hw : valid_ev hw (Frame (writeRing hw LEDS_OFF ALL_LEDS)).
Proof. by apply (valid_writeRing hw 0 0 0). Qed.
Lemma valid_ringOff hw : Forall (valid_ev hw) (ringOff hw).
Proof. constructor; [apply valid_off|by repeat constructor]. Qed.

Lemma Forall_concat_map {A B} (P : B -> Prop) (f : A -> list B) l :
  (forall x, x ∈ l -> Forall P (f x)) -> Forall P (concat (map f l)).
Proof.
  induction l as [|x l IH]; cbn; [constructor|]. intros H. apply Forall_app. split; [apply H; by left|].
  apply IH. intros y Hy. apply H. by right.
Qed.

Lemma ring_loop_valid fuel hw clk endTime ge body : Forall (valid_ev hw) body ->
  forall n, Forall (valid_ev hw) (fst (ring_loop fuel hw clk n endTime ge body)).
Proof.
  intros Hb. induction fuel as [|f IH]; intros n; cbn [ring_loop]; [constructor|]. case_if.
  - specialize (IH n). destruct (ring_loop f hw clk n endTime ge body). by apply Forall_app.
  - match goal with |- context [if ?t then (_, true) else _] => destruct t end; [apply Forall_app; by split; [|apply valid_ringOff]|].
    specialize (IH (S n)). destruct (ring_loop f hw clk (S n) endTime ge body). by apply Forall_app.
Qed.

Definition args_ok (a : ring_args) : Prop := pct (a_r a) /\ pct (a_g a) /\ pct (a_b a).

Lemma individual_clear hw : individual hw = true -> clear_of hw = clear_v2.
Proof. unfold clear_of. by intros ->. Qed.

Lemma rotate_valid hw a single group : args_ok a -> Forall (valid_ev hw) (rotate hw a single group).
Proof.
  intros (Hr & Hg & Hb). unfold rotate. fold (individual hw). destruct (individual hw) eqn:Hi; apply Forall_concat_map; intros i Hin;
    (constructor; [|by repeat constructor]).
  - apply list_elem_of_In, in_rev, list_elem_of_In, elem_of_seqZ in Hin. unfold TOTAL_LEDS in Hin.
    destruct (writeTail_some (a_r a) (a_g a) (a_b a) Hr Hg Hb i) as (l & H1 & H2 & _); [lia|].
    exists l. by rewrite individual_clear.
  - by apply valid_writeRing.
Qed.

Lemma fade_valid hw a index : args_ok a -> 0 <= index <= 10 -> Forall (valid_ev hw) (fade hw a index).
Proof.
  intros (Hr & Hg & Hb) Hi. unfold pct in *. constructor; [|by repeat constructor].
  apply valid_writeRing; unfold pct; clear -Hr Hg Hb Hi; split; try (apply Z.div_pos; nia); apply Z.div_le_upper_bound; nia.
Qed.

Lemma fades_valid hw a l : args_ok a -> (forall i, i ∈ l -> 0 <= i <= 10) -> Forall (valid_ev hw) (concat (map (fade hw a) l)).
Proof. intros Ha Hl. apply Forall_concat_map. intros i Hi. by apply fade_valid; [|apply Hl]. Qed.

Lemma ticks_valid hw a onOff : args_ok a -> individual hw = true -> Forall (valid_ev hw) (ticks a onOff).
Proof.
  intros (Hr & Hg & Hb) Hi. unfold ticks. apply Forall_concat_map. intros i Hin%elem_of_seqZ. unfold TOTAL_LEDS in Hin.
  destruct (writeSegments_some (a_r a) (a_g a) (a_b a) Hr Hg Hb i onOff) as (l & H1 & H2 & _); [lia|].
  constructor; [exists l; by rewrite individual_clear|]. constructor; [|constructor]. by destruct (a_d a =? 0).
Qed.

Lemma mode_cases (P : Z -> Prop) : P 1 -> P 2 -> P 3 -> P 4 -> P 5 -> P 6 -> P 7 -> P 8 -> P 9 -> P 10 -> P 11 -> P 12 ->
  forall m, 1 <= m <= MAX_MODES -> P m.
Proof.
  unfold MAX_MODES. intros H1 H2 H3 H4 H5 H6 H7 H8 H9 H10 H11 H12 m Hm.
  assert (m = 1 \/ m = 2 \/ m = 3 \/ m = 4 \/ m = 5 \/ m = 6 \/ m = 7 \/ m = 8 \/ m = 9 \/ m = 10 \/ m = 11 \/ m = 12) as H by lia.
  by repeat destruct H as [->|H]; [..|subst m].
Qed.

(** Only the tick modes need individual LEDs. *)
Definition mode_fits (hw m : Z) : Prop := individual hw = true \/ (m <> 11 /\ m <> 12).

Lemma ring_mode_valid hw a fuel clk n : args_ok a -> 1 <= a_m a <= MAX_MODES -> mode_fits hw (a_m a) ->
  Forall (valid_ev hw) (fst (ring_mode hw a fuel clk n)).
Proof.
  intros Ha Hm Hf. destruct a as [r g b m d e]. cbn [a_m] in *. pose proof Ha as (Hr & Hg & Hb). cbn [a_r a_g a_b] in *.
  pose proof (valid_off hw) as Vo. pose proof (valid_writeRing hw r g b ALL_LEDS Hr Hg Hb) as Vn.
  pose proof (valid_ringOff hw) as Vr.
  assert (forall i, i ∈ seqZ 0 11 -> 0 <= i <= 10) as Hs by (intros i Hi%elem_of_seqZ; lia).
  assert (forall i, i ∈ rev (seqZ 0 11) -> 0 <= i <= 10) as Hs'.
  { intros i Hi. apply list_elem_of_In, in_rev, list_elem_of_In in Hi. auto. }
  revert m Hm Ha Hf. apply (mode_cases (fun m => _ -> _ -> _)); intros Ha Hf; unfold ring_mode; cbn [a_m a_end a_r a_g a_b];
    try (apply ring_loop_valid; cbn [loop_body a_r a_g a_b]).
  all: try (by apply rotate_valid).
  all: try (cbn [fst app]; repeat (apply Forall_cons_2; [first [exact Vo | exact Vn | exact I]|]); solve [exact Vr | constructor]).
  all: try (by apply fades_valid).
  all: try (by apply Forall_app; split; apply fades_valid).
  all: try (apply ticks_valid; [done|]; by destruct Hf as [?|[? ?]]).
  destruct (e =? 0); [by repeat constructor|].
  pose proof (ring_loop_valid fuel hw clk e false [SleepS DELAY_1S] ltac:(by repeat constructor) n) as Hl.
  cbn [loop_body]. destruct (ring_loop fuel hw clk n e false [SleepS DELAY_1S]).
  constructor; [exact Vn|exact Hl].
Qed.

Lemma clamp_pct x : pct (clamp x).
Proof. unfold clamp, pct. repeat case_if; to_prop; lia. Qed.

Lemma ring_opts_mode opts clk : forall n a a' n',
  1 <= a_m a <= MAX_MODES -> ring_opts opts clk n a = inr (a', n') -> 1 <= a_m a' <= MAX_MODES.
Proof.
  induction opts as [|o opts IH]; intros n a a' n' Hm; cbn [ring_opts]; [by intros [= <- _]|].
  destruct o; try done; try (apply IH; exact Hm).
  - case_if; apply IH; exact Hm.
  - case_if; [done|]. apply IH. cbn [a_m]. to_prop. unfold MAX_MODES in *. lia.
Qed.

(** C32.  Every frame of every run of ledRing is one the LED driver accepts: the stores stay inside
    the array, the header is intact and every brightness is a 16-bit word, whatever options are
    given, except that the tick modes need hardware with individual LEDs. *)
Theorem ledRing_frames_valid fuel hw dev_ok clk opts a n :
  ring_opts opts clk 0 ring_defaults = inr (a, n) -> mode_fits hw (a_m a) ->
  Forall (valid_ev hw) (fst (ledRing fuel hw dev_ok clk opts)).2.
Proof.
  intros Ho Hf. unfold ledRing. rewrite Ho. destruct dev_ok; [|constructor]. cbn [negb].
  match goal with |- context [ring_mode hw ?x fuel clk n] => pose proof (ring_mode_valid hw x fuel clk n) as Hv end.
  destruct (ring_mode _ _ _ _ _) as [l d]. cbn [fst snd]. apply Hv; [|cbn [a_m]|done].
  - split; [|split]; apply clamp_pct.
  - eapply ring_opts_mode; [|exact Ho]. cbn. unfold MAX_MODES. lia.
Qed.

Lemma ledRing_frames_valid_witness :
  Forall (valid_ev 2) (fst (ledRing 2 2 true (fun _ => 0) [RColor "640064"; RMode "11"])).2.
Proof.
  apply (ledRing_frames_valid 2 2 true (fun _ => 0) [RColor "640064"; RMode "11"] (RingArgs 100 0 100 11 0 0) 0);
    [vm_compute; reflexivity|left; reflexivity].
Defined.

(**  On hardware without individual LEDs the tick modes send the frames of the other hardware:
    unlike the rotating modes they do not look at the hardware version. *)
Theorem ticks_ignore_hardware a onOff : args_ok a ->
  exists l, Frame (Some l) ∈ ticks a onOff /\ length l = 39%nat /\ valid_frame 2 (Some l) /\
    forall hw, individual hw = false -> ~ valid_frame hw (Some l).
Proof.
  intros (Hr & Hg & Hb). destruct (writeSegments_some (a_r a) (a_g a) (a_b a) Hr Hg Hb 1 onOff) as (l & H1 & H2 & _); [lia|].
  exists l. split; [|split; [apply H2|split; [by exists l|]]].
  - unfold ticks. rewrite <- H1. cbn [seqZ TOTAL_LEDS map concat app]. by left.
  - intros hw Hi (l' & [= <-] & [Hlen _ _]). unfold clear_of in Hlen. rewrite Hi in Hlen. destruct H2 as [Hl _ _].
    rewrite Hl in Hlen. done.
Qed.

Lemma ticks_ignore_hardware_witness :
  exists l, Frame (Some l) ∈ ticks (RingArgs 0 0 48 11 0 0) false /\ length l = 39%nat /\ ~ valid_frame 1 (Some l).
Proof.
  destruct (ticks_ignore_hardware (RingArgs 0 0 48 11 0 0) false) as (l & H1 & H2 & _ & H3).
  - unfold args_ok, pct. cbn. lia.
  - exists l. split; [exact H1|]. split; [exact H2|]. apply H3. reflexivity.
Defined.

(**  The countdown and count-up patterns: on the ring of twelve LEDs, step [k] of a count-up
    lights exactly the [k] LEDs at the end of the chain, and step [k] of a countdown all but the
    last [k - 1] of them, in the given colour, and leaves the others dark. *)
Theorem writeSegments_counts r g b k onOff :
  pct r -> pct g -> pct b -> 1 <= k <= TOTAL_LEDS ->
  exists l, writeSegments (rgb r g b) k onOff = Some l /\ frame_of clear_v2 l /\
    forall j, (j < 12)%nat -> led l j =
      if (if onOff then TOTAL_LEDS - k <=? Z.of_nat j else Z.of_nat j <=? TOTAL_LEDS - k) then lit r g b 100 else dark.
Proof. intros Hr Hg Hb Hk. by apply writeSegments_some. Qed.

Lemma writeSegments_counts_witness :
  exists l, writeSegments (rgb 0 0 48) 2 true = Some l /\ led l 9 = dark /\ led l 10 = lit 0 0 48 100.
Proof.
  destruct (writeSegments_counts 0 0 48 2 true) as (l & H1 & _ & H2); [unfold pct, TOTAL_LEDS; lia..|].
  exists l. split; [exact H1|]. split; rewrite H2 by lia; reflexivity.
Defined.

(**  A rotating pattern lights one LED and, dimmed, its two neighbours on the ring: this holds for
    every LED but the last. *)
Theorem writeTail_neighbours r g b which :
  pct r -> pct g -> pct b -> 1 <= which < TOTAL_LEDS ->
  exists l, writeTail (rgb r g b) which = Some l /\ frame_of clear_v2 l /\
    forall j, (j < 12)%nat -> led l j =
      if decide (Z.of_nat j = which - 1) then lit r g b 100
      else if decide (Z.of_nat j = (which - 2) mod 12 \/ Z.of_nat j = which mod 12) then lit r g b 200
      else dark.
Proof.
  unfold TOTAL_LEDS. intros Hr Hg Hb Hw. destruct (writeTail_some r g b Hr Hg Hb which) as (l & H1 & H2 & H3); [lia|].
  exists l. split; [done|]. split; [done|]. intros j Hj. rewrite H3 by done.
  rewrite (proj2 (Z.eqb_neq which 12)) by lia. rewrite (Z.mod_small which 12) by lia.
  assert ((if which =? 1 then 11 else which - 2) = (which - 2) mod 12) as ->.
  { destruct (Z.eqb_spec which 1) as [->|]; [done|]. by rewrite Z.mod_small by lia. }
  assert ((which - 2) mod 12 <> which - 1) as Hne.
  { destruct (Z.eqb_spec which 1) as [->|]; [done|]. rewrite Z.mod_small by lia. lia. }
  repeat destruct (decide _); try done; lia.
Qed.

Lemma writeTail_neighbours_witness :
  exists l, writeTail (rgb 0 100 0) 1 = Some l /\ led l 0 = lit 0 100 0 100 /\ led l 11 = lit 0 100 0 200.
Proof.
  destruct (writeTail_neighbours 0 100 0 1) as (l & H1 & _ & H2); [unfold pct, TOTAL_LEDS; lia..|].
  exists l. split; [exact H1|]. split; rewrite H2 by lia; reflexivity.
Defined.

(**  For the last LED the dimmed successor is wrong: the second LED of the ring is lit instead of
    the first, which is its neighbour. *)
Theorem writeTail_last r g b :
  pct r -> pct g -> pct b -> exists l, writeTail (rgb r g b) TOTAL_LEDS = Some l /\
    led l 0 = dark /\ led l 1 = lit r g b 200 /\ led l 10 = lit r g b 200 /\ led l 11 = lit r g b 100.
Proof.
  intros Hr Hg Hb. destruct (writeTail_some r g b Hr Hg Hb 12) as (l & H1 & H2 & H3); [lia|].
  exists l. split; [exact H1|]. rewrite !H3 by lia. done.
Qed.

Lemma writeTail_last_witness : exists l, writeTail (rgb 0 100 0) TOTAL_LEDS = Some l /\ led l 0 = dark.
Proof.
  destruct (writeTail_last 0 100 0) as (l & H1 & H2 & _); [unfold pct; lia..|]. exists l. split; [exact H1|exact H2].
Defined.

(** ** Durations *)

Lemma ring_loop_ends hw clk endTime ge body k : endTime <> 0 -> forall fuel n,
  endTime < clk (n + k)%nat -> (k < fuel)%nat ->
  exists l, ring_loop fuel hw clk n endTime ge body = ((l ++ ringOff hw)%list, true).
Proof.
  intros He. induction k as [|k IH]; intros [|f] n Hc Hf; try lia; cbn [ring_loop]; rewrite (proj2 (Z.eqb_neq endTime 0)) by done.
  - rewrite Nat.add_0_r in Hc. assert ((if ge then endTime <=? clk n else endTime <? clk n) = true) as ->.
    { destruct ge; [apply Z.leb_le; lia|by apply Z.ltb_lt]. }
    by exists body.
  - match goal with |- context [if ?t then (_, true) else _] => destruct t end; [by exists body|].
    destruct (IH f (S n)) as (l & E); [by rewrite Nat.add_succ_comm|lia|]. rewrite E. exists (body ++ l)%list. by rewrite app_assoc.
Qed.

Lemma ring_mode_ends hw a fuel clk n k : 1 <= a_m a <= MAX_MODES -> a_end a <> 0 ->
  a_end a < clk (n + k)%nat -> (k < fuel)%nat ->
  exists l, ring_mode hw a fuel clk n = ((l ++ ringOff hw)%list, true).
Proof.
  intros Hm He Hc Hf. pose proof (fun ge body => ring_loop_ends hw clk (a_end a) ge body k He fuel n Hc Hf) as Hl.
  destruct a as [r g b m d e]. cbn [a_m a_end] in *. revert m Hm Hl.
  apply (mode_cases (fun m => _ -> _)); intros Hl; unfold ring_mode; cbn [a_m a_end]; try apply Hl; try (eexists; reflexivity).
  rewrite (proj2 (Z.eqb_neq e 0)) by done. destruct (Hl false (loop_body hw (RingArgs r g b 6 d e) 6)) as (l & E). rewrite E.
  eexists (_ :: l). reflexivity.
Qed.

(**  A pattern with a duration ends: in every mode, once the clock has passed the end time at one
    of the readings the loop makes, the program has ended, and the last it did is to turn the
    ring off and to record the mode all-off. *)
Theorem ledRing_duration fuel hw clk opts a n k :
  ring_opts opts clk 0 ring_defaults = inr (a, n) -> a_end a <> 0 -> a_end a < clk (n + k)%nat -> (k < fuel)%nat ->
  exists l, ledRing fuel hw true clk opts = (0, (l ++ ringOff hw)%list, true).
Proof.
  intros Ho He Hc Hf. unfold ledRing. rewrite Ho. cbn [negb].
  match goal with |- context [ring_mode hw ?x fuel clk n] => destruct (ring_mode_ends hw x fuel clk n k) as (l & E) end;
    [|done..|rewrite E; by exists l].
  cbn [a_m]. eapply ring_opts_mode; [|exact Ho]. cbn. unfold MAX_MODES. lia.
Qed.

Lemma ledRing_duration_witness :
  exists l, ledRing 6 2 true (fun n => 1000 + Z.of_nat n) [RColor "006400"; RMode "6"; RDuration "3"] =
    (0, (l ++ ringOff 2)%list, true).
Proof.
  apply (ledRing_duration 6 2 (fun n => 1000 + Z.of_nat n) [RColor "006400"; RMode "6"; RDuration "3"]
           (RingArgs 0 100 0 6 3 1003) 1 3); [vm_compute; reflexivity|vm_compute; discriminate|vm_compute; reflexivity|lia].
Defined.
