(* ===== verification/RingCtrl.v ===== *)
(** * ringctrl.c: the LED modes of the hub with a ring

    The tables of the source are functions on the inductive type of the modes; the
    numbers of the C enumeration, which the program stores in a file between its runs,
    are the positions in [all_modes]. *)
From Stdlib Require Import ZArith String Ascii Lia Bool.
From stdpp Require Import base gmap strings list numbers.
From S2P Require Import Prelude CLib Os IrisLib LedRing.

Local Open Scope string_scope.
Local Open Scope Z_scope.

Inductive led_setting :=
| RING_OFF | RING_BLINK_ONCE_SHORT | RING_BLINK_ONCE_LONG | RING_BLINK_SLOW | RING_BLINK_FAST | RING_BLINK_TRIPLE
| RING_SOLID | RING_ROTATE_SLOW | RING_ROTATE_FAST | RING_PULSE | RING_WAVE | RING_TICK_DOWN | RING_TICK_UP.

Definition setting_code (s : led_setting) : Z :=
  match s with
  | RING_OFF => 0 | RING_BLINK_ONCE_SHORT => 1 | RING_BLINK_ONCE_LONG => 2 | RING_BLINK_SLOW => 3
  | RING_BLINK_FAST => 4 | RING_BLINK_TRIPLE => 5 | RING_SOLID => 6 | RING_ROTATE_SLOW => 7
  | RING_ROTATE_FAST => 8 | RING_PULSE => 9 | RING_WAVE => 10 | RING_TICK_DOWN => 11 | RING_TICK_UP => 12
  end.

Inductive leds_mode :=
| BOOT_POST | BOOT_LINUX | BOOT_AGENT | NORMAL_UNASSOC_CONN_PRI | NORMAL_UNASSOC_CONN_PRI_BATT
| NORMAL_UNASSOC_CONN_BACKUP | NORMAL_UNASSOC_CONN_BACKUP_BATT | NORMAL_UNASSOC_DISCONN
| NORMAL_UNASSOC_DISCONN_BATT | NORMAL_ASSOC_CONN_PRI | NORMAL_ASSOC_CONN_PRI_BATT | NORMAL_ASSOC_CONN_BACKUP
| NORMAL_ASSOC_CONN_BACKUP_BATT | NORMAL_ASSOC_DISCONN | NORMAL_ASSOC_DISCONN_BATT | NORMAL_PAIRING_CONN_PRI
| NORMAL_PAIRING_CONN_PRI_BATT | NORMAL_PAIRING_CONN_BACKUP | NORMAL_PAIRING_CONN_BACKUP_BATT
| NORMAL_PAIRING_DISCONN | NORMAL_PAIRING_DISCONN_BATT | UPGRADE_DECRYPT | UPGRADE_DECRYPT_ERR | UPGRADE_UNPACK
| UPGRADE_UNPACK_ERR | UPGRADE_BOOTLOADER | UPGRADE_BOOTLOADER_ERR | UPGRADE_KERNEL | UPGRADE_KERNEL_ERR
| UPGRADE_ROOTFS | UPGRADE_ROOTFS_ERR | UPGRADE_ZIGBEE | UPGRADE_ZIGBEE_ERR | UPGRADE_ZWAVE | UPGRADE_ZWAVE_ERR
| UPGRADE_BTE | UPGRADE_BTE_ERR | SHUTDOWN | BUTTON_REBOOT | BUTTON_SOFT_RESET | BUTTON_FACTORY_DEFAULT
| ALL_ON | ALL_OFF | FIRST_BOOTUP | ETHERNET_INSERTED | WIFI_IN_PROGRESS | WIFI_SUCCESS | WIFI_FAILURE
| INTERNET_IN_PROGRESS | INTERNET_SUCCESS | INTERNET_FAILURE | CLOUD_IN_PROGRESS | CLOUD_SUCCESS
| CLOUD_FAILURE | REGISTER_IN_PROGRESS | REGISTER_SUCCESS | REGISTER_FAILURE | DEVICE_PAIRED | DEVICE_REMOVED
| BUTTON_PRESS_NORMAL | BUTTON_PRESS_STATUS | BUTTON_PRESS_BATTERY | BUTTON_PRESS_OFFLINE | BUTTON_PRESS_BACKUP
| BUTTON_PRESS_BACKUP_BATT | BUTTON_PRESS_OFFLINE_BATT | BUTTON_PRESS_BACKUP_OFFLINE
| BUTTON_PRESS_WIFI_RECONNECT | DEREGISTERING | FACTORY_RESET_ACK | TURNING_OFF | ALARM_GRACE_ENTER
| ALARM_GRACE_EXIT | ALARM_OFF | ALARM_ON | ALARM_PARTIAL | ALARM_FAILURE | ALARMING_SECURITY
| ALARMING_SECURITY_BATT | ALARMING_LOCAL | ALARMING_LOCAL_BATT | ALARMING_PANIC | ALARMING_PANIC_BATT
| ALARMING_PANIC_MON | ALARMING_PANIC_MON_BATT | ALARMING_PANIC_LOCAL | ALARMING_PANIC_LOCAL_BATT
| ALARMING_SMOKE | ALARMING_SMOKE_BATT | ALARMING_CO | ALARMING_CO_BATT | ALARMING_LEAK | ALARMING_LEAK_BATT
| ALARMING_CARE | ALARMING_CARE_BATT | DOOR_CHIME | UNKNOWN_LED_MODE.

Definition all_modes : list leds_mode :=
  [BOOT_POST; BOOT_LINUX; BOOT_AGENT; NORMAL_UNASSOC_CONN_PRI; NORMAL_UNASSOC_CONN_PRI_BATT;
   NORMAL_UNASSOC_CONN_BACKUP; NORMAL_UNASSOC_CONN_BACKUP_BATT; NORMAL_UNASSOC_DISCONN;
   NORMAL_UNASSOC_DISCONN_BATT; NORMAL_ASSOC_CONN_PRI; NORMAL_ASSOC_CONN_PRI_BATT; NORMAL_ASSOC_CONN_BACKUP;
   NORMAL_ASSOC_CONN_BACKUP_BATT; NORMAL_ASSOC_DISCONN; NORMAL_ASSOC_DISCONN_BATT; NORMAL_PAIRING_CONN_PRI;
   NORMAL_PAIRING_CONN_PRI_BATT; NORMAL_PAIRING_CONN_BACKUP; NORMAL_PAIRING_CONN_BACKUP_BATT;
   NORMAL_PAIRING_DISCONN; NORMAL_PAIRING_DISCONN_BATT; UPGRADE_DECRYPT; UPGRADE_DECRYPT_ERR; UPGRADE_UNPACK;
   UPGRADE_UNPACK_ERR; UPGRADE_BOOTLOADER; UPGRADE_BOOTLOADER_ERR; UPGRADE_KERNEL; UPGRADE_KERNEL_ERR;
   UPGRADE_ROOTFS; UPGRADE_ROOTFS_ERR; UPGRADE_ZIGBEE; UPGRADE_ZIGBEE_ERR; UPGRADE_ZWAVE; UPGRADE_ZWAVE_ERR;
   UPGRADE_BTE; UPGRADE_BTE_ERR; SHUTDOWN; BUTTON_REBOOT; BUTTON_SOFT_RESET; BUTTON_FACTORY_DEFAULT; ALL_ON;
   ALL_OFF; FIRST_BOOTUP; ETHERNET_INSERTED; WIFI_IN_PROGRESS; WIFI_SUCCESS; WIFI_FAILURE;
   INTERNET_IN_PROGRESS; INTERNET_SUCCESS; INTERNET_FAILURE; CLOUD_IN_PROGRESS; CLOUD_SUCCESS; CLOUD_FAILURE;
   REGISTER_IN_PROGRESS; REGISTER_SUCCESS; REGISTER_FAILURE; DEVICE_PAIRED; DEVICE_REMOVED;
   BUTTON_PRESS_NORMAL; BUTTON_PRESS_STATUS; BUTTON_PRESS_BATTERY; BUTTON_PRESS_OFFLINE; BUTTON_PRESS_BACKUP;
   BUTTON_PRESS_BACKUP_BATT; BUTTON_PRESS_OFFLINE_BATT; BUTTON_PRESS_BACKUP_OFFLINE;
   BUTTON_PRESS_WIFI_RECONNECT; DEREGISTERING; FACTORY_RESET_ACK; TURNING_OFF; ALARM_GRACE_ENTER;
   ALARM_GRACE_EXIT; ALARM_OFF; ALARM_ON; ALARM_PARTIAL; ALARM_FAILURE; ALARMING_SECURITY;
   ALARMING_SECURITY_BATT; ALARMING_LOCAL; ALARMING_LOCAL_BATT; ALARMING_PANIC; ALARMING_PANIC_BATT;
   ALARMING_PANIC_MON; ALARMING_PANIC_MON_BATT; ALARMING_PANIC_LOCAL; ALARMING_PANIC_LOCAL_BATT;
   ALARMING_SMOKE; ALARMING_SMOKE_BATT; ALARMING_CO; ALARMING_CO_BATT; ALARMING_LEAK; ALARMING_LEAK_BATT;
   ALARMING_CARE; ALARMING_CARE_BATT; DOOR_CHIME; UNKNOWN_LED_MODE].

(** The value of a mode in the enumeration. *)
Definition mode_code (m : leds_mode) : Z :=
  match m with
  | BOOT_POST => 0 | BOOT_LINUX => 1 | BOOT_AGENT => 2 | NORMAL_UNASSOC_CONN_PRI => 3
  | NORMAL_UNASSOC_CONN_PRI_BATT => 4 | NORMAL_UNASSOC_CONN_BACKUP => 5 | NORMAL_UNASSOC_CONN_BACKUP_BATT => 6
  | NORMAL_UNASSOC_DISCONN => 7 | NORMAL_UNASSOC_DISCONN_BATT => 8 | NORMAL_ASSOC_CONN_PRI => 9
  | NORMAL_ASSOC_CONN_PRI_BATT => 10 | NORMAL_ASSOC_CONN_BACKUP => 11 | NORMAL_ASSOC_CONN_BACKUP_BATT => 12
  | NORMAL_ASSOC_DISCONN => 13 | NORMAL_ASSOC_DISCONN_BATT => 14 | NORMAL_PAIRING_CONN_PRI => 15
  | NORMAL_PAIRING_CONN_PRI_BATT => 16 | NORMAL_PAIRING_CONN_BACKUP => 17
  | NORMAL_PAIRING_CONN_BACKUP_BATT => 18 | NORMAL_PAIRING_DISCONN => 19 | NORMAL_PAIRING_DISCONN_BATT => 20
  | UPGRADE_DECRYPT => 21 | UPGRADE_DECRYPT_ERR => 22 | UPGRADE_UNPACK => 23 | UPGRADE_UNPACK_ERR => 24
  | UPGRADE_BOOTLOADER => 25 | UPGRADE_BOOTLOADER_ERR => 26 | UPGRADE_KERNEL => 27 | UPGRADE_KERNEL_ERR => 28
  | UPGRADE_ROOTFS => 29 | UPGRADE_ROOTFS_ERR => 30 | UPGRADE_ZIGBEE => 31 | UPGRADE_ZIGBEE_ERR => 32
  | UPGRADE_ZWAVE => 33 | UPGRADE_ZWAVE_ERR => 34 | UPGRADE_BTE => 35 | UPGRADE_BTE_ERR => 36 | SHUTDOWN => 37
  | BUTTON_REBOOT => 38 | BUTTON_SOFT_RESET => 39 | BUTTON_FACTORY_DEFAULT => 40 | ALL_ON => 41 | ALL_OFF => 42
  | FIRST_BOOTUP => 43 | ETHERNET_INSERTED => 44 | WIFI_IN_PROGRESS => 45 | WIFI_SUCCESS => 46
  | WIFI_FAILURE => 47 | INTERNET_IN_PROGRESS => 48 | INTERNET_SUCCESS => 49 | INTERNET_FAILURE => 50
  | CLOUD_IN_PROGRESS => 51 | CLOUD_SUCCESS => 52 | CLOUD_FAILURE => 53 | REGISTER_IN_PROGRESS => 54
  | REGISTER_SUCCESS => 55 | REGISTER_FAILURE => 56 | DEVICE_PAIRED => 57 | DEVICE_REMOVED => 58
  | BUTTON_PRESS_NORMAL => 59 | BUTTON_PRESS_STATUS => 60 | BUTTON_PRESS_BATTERY => 61
  | BUTTON_PRESS_OFFLINE => 62 | BUTTON_PRESS_BACKUP => 63 | BUTTON_PRESS_BACKUP_BATT => 64
  | BUTTON_PRESS_OFFLINE_BATT => 65 | BUTTON_PRESS_BACKUP_OFFLINE => 66 | BUTTON_PRESS_WIFI_RECONNECT => 67
  | DEREGISTERING => 68 | FACTORY_RESET_ACK => 69 | TURNING_OFF => 70 | ALARM_GRACE_ENTER => 71
  | ALARM_GRACE_EXIT => 72 | ALARM_OFF => 73 | ALARM_ON => 74 | ALARM_PARTIAL => 75 | ALARM_FAILURE => 76
  | ALARMING_SECURITY => 77 | ALARMING_SECURITY_BATT => 78 | ALARMING_LOCAL => 79 | ALARMING_LOCAL_BATT => 80
  | ALARMING_PANIC => 81 | ALARMING_PANIC_BATT => 82 | ALARMING_PANIC_MON => 83 | ALARMING_PANIC_MON_BATT => 84
  | ALARMING_PANIC_LOCAL => 85 | ALARMING_PANIC_LOCAL_BATT => 86 | ALARMING_SMOKE => 87
  | ALARMING_SMOKE_BATT => 88 | ALARMING_CO => 89 | ALARMING_CO_BATT => 90 | ALARMING_LEAK => 91
  | ALARMING_LEAK_BATT => 92 | ALARMING_CARE => 93 | ALARMING_CARE_BATT => 94 | DOOR_CHIME => 95
  | UNKNOWN_LED_MODE => 96
  end.

Definition COLOR_OFF : Z := 0x000000.
Definition COLOR_WHITE : Z := 0x402010.
Definition COLOR_RED : Z := 0x640000.
Definition COLOR_GREEN : Z := 0x006400.
Definition COLOR_BLUE : Z := 0x000064.
Definition COLOR_BLUE_TICK : Z := 0x000030.
Definition COLOR_PURPLE : Z := 0x640064.
Definition COLOR_PINK : Z := 0x64000A.
Definition COLOR_TEAL : Z := 0x006432.
Definition COLOR_YELLOW : Z := 0x401800.
Definition RING_APP : string := "ledRing".
Definition MAX_STATE_NAME_LENGTH : nat := 24.
Definition LAST_LED_MODE_FILE : string := "/tmp/lastLedMode".

Record led_state := LedState { s_color : Z; s_mode : led_setting; s_duration : Z }.

Definition states (m : leds_mode) : led_state :=
  match m with
  | BOOT_POST => LedState COLOR_PURPLE RING_SOLID 0
  | BOOT_LINUX => LedState COLOR_PURPLE RING_SOLID 0
  | BOOT_AGENT => LedState COLOR_PURPLE RING_ROTATE_SLOW 0
  | NORMAL_UNASSOC_CONN_PRI => LedState COLOR_OFF RING_OFF 0
  | NORMAL_UNASSOC_CONN_PRI_BATT => LedState COLOR_OFF RING_OFF 0
  | NORMAL_UNASSOC_CONN_BACKUP => LedState COLOR_OFF RING_OFF 0
  | NORMAL_UNASSOC_CONN_BACKUP_BATT => LedState COLOR_OFF RING_OFF 0
  | NORMAL_UNASSOC_DISCONN => LedState COLOR_OFF RING_OFF 0
  | NORMAL_UNASSOC_DISCONN_BATT => LedState COLOR_OFF RING_OFF 0
  | NORMAL_ASSOC_CONN_PRI => LedState COLOR_OFF RING_OFF 0
  | NORMAL_ASSOC_CONN_PRI_BATT => LedState COLOR_OFF RING_OFF 0
  | NORMAL_ASSOC_CONN_BACKUP => LedState COLOR_OFF RING_OFF 0
  | NORMAL_ASSOC_CONN_BACKUP_BATT => LedState COLOR_OFF RING_OFF 0
  | NORMAL_ASSOC_DISCONN => LedState COLOR_OFF RING_OFF 0
  | NORMAL_ASSOC_DISCONN_BATT => LedState COLOR_OFF RING_OFF 0
  | NORMAL_PAIRING_CONN_PRI => LedState COLOR_GREEN RING_ROTATE_SLOW 0
  | NORMAL_PAIRING_CONN_PRI_BATT => LedState COLOR_GREEN RING_ROTATE_SLOW 0
  | NORMAL_PAIRING_CONN_BACKUP => LedState COLOR_GREEN RING_ROTATE_SLOW 0
  | NORMAL_PAIRING_CONN_BACKUP_BATT => LedState COLOR_GREEN RING_ROTATE_SLOW 0
  | NORMAL_PAIRING_DISCONN => LedState COLOR_BLUE RING_PULSE 0
  | NORMAL_PAIRING_DISCONN_BATT => LedState COLOR_BLUE RING_PULSE 0
  | UPGRADE_DECRYPT => LedState COLOR_WHITE RING_ROTATE_SLOW 10
  | UPGRADE_DECRYPT_ERR => LedState COLOR_RED RING_SOLID 0
  | UPGRADE_UNPACK => LedState COLOR_WHITE RING_ROTATE_SLOW 10
  | UPGRADE_UNPACK_ERR => LedState COLOR_RED RING_SOLID 0
  | UPGRADE_BOOTLOADER => LedState COLOR_WHITE RING_ROTATE_SLOW 10
  | UPGRADE_BOOTLOADER_ERR => LedState COLOR_RED RING_SOLID 0
  | UPGRADE_KERNEL => LedState COLOR_WHITE RING_ROTATE_SLOW 10
  | UPGRADE_KERNEL_ERR => LedState COLOR_RED RING_SOLID 0
  | UPGRADE_ROOTFS => LedState COLOR_WHITE RING_ROTATE_SLOW 10
  | UPGRADE_ROOTFS_ERR => LedState COLOR_RED RING_SOLID 0
  | UPGRADE_ZIGBEE => LedState COLOR_WHITE RING_ROTATE_SLOW 10
  | UPGRADE_ZIGBEE_ERR => LedState COLOR_RED RING_SOLID 0
  | UPGRADE_ZWAVE => LedState COLOR_WHITE RING_ROTATE_SLOW 10
  | UPGRADE_ZWAVE_ERR => LedState COLOR_RED RING_SOLID 0
  | UPGRADE_BTE => LedState COLOR_WHITE RING_ROTATE_SLOW 10
  | UPGRADE_BTE_ERR => LedState COLOR_RED RING_SOLID 0
  | SHUTDOWN => LedState COLOR_GREEN RING_SOLID 5
  | BUTTON_REBOOT => LedState COLOR_GREEN RING_SOLID 5
  | BUTTON_SOFT_RESET => LedState COLOR_GREEN RING_SOLID 5
  | BUTTON_FACTORY_DEFAULT => LedState COLOR_PINK RING_SOLID 15
  | ALL_ON => LedState COLOR_WHITE RING_OFF 0
  | ALL_OFF => LedState COLOR_OFF RING_SOLID 0
  | FIRST_BOOTUP => LedState COLOR_BLUE RING_ROTATE_SLOW 0
  | ETHERNET_INSERTED => LedState COLOR_BLUE RING_ROTATE_SLOW 0
  | WIFI_IN_PROGRESS => LedState COLOR_BLUE RING_ROTATE_SLOW 120
  | WIFI_SUCCESS => LedState COLOR_BLUE RING_ROTATE_SLOW 0
  | WIFI_FAILURE => LedState COLOR_PINK RING_ROTATE_SLOW 0
  | INTERNET_IN_PROGRESS => LedState COLOR_BLUE RING_ROTATE_SLOW 60
  | INTERNET_SUCCESS => LedState COLOR_BLUE RING_ROTATE_SLOW 0
  | INTERNET_FAILURE => LedState COLOR_PINK RING_SOLID 0
  | CLOUD_IN_PROGRESS => LedState COLOR_BLUE RING_ROTATE_SLOW 60
  | CLOUD_SUCCESS => LedState COLOR_BLUE RING_SOLID 0
  | CLOUD_FAILURE => LedState COLOR_PINK RING_PULSE 0
  | REGISTER_IN_PROGRESS => LedState COLOR_BLUE RING_SOLID 60
  | REGISTER_SUCCESS => LedState COLOR_GREEN RING_BLINK_TRIPLE 0
  | REGISTER_FAILURE => LedState COLOR_PINK RING_PULSE 0
  | DEVICE_PAIRED => LedState COLOR_GREEN RING_BLINK_TRIPLE 0
  | DEVICE_REMOVED => LedState COLOR_GREEN RING_BLINK_ONCE_LONG 0
  | BUTTON_PRESS_NORMAL => LedState COLOR_GREEN RING_SOLID 5
  | BUTTON_PRESS_STATUS => LedState COLOR_GREEN RING_SOLID 5
  | BUTTON_PRESS_BATTERY => LedState COLOR_YELLOW RING_SOLID 5
  | BUTTON_PRESS_OFFLINE => LedState COLOR_PINK RING_SOLID 5
  | BUTTON_PRESS_BACKUP => LedState COLOR_RED RING_SOLID 5
  | BUTTON_PRESS_BACKUP_BATT => LedState COLOR_YELLOW RING_SOLID 5
  | BUTTON_PRESS_OFFLINE_BATT => LedState COLOR_PINK RING_SOLID 5
  | BUTTON_PRESS_BACKUP_OFFLINE => LedState COLOR_PINK RING_SOLID 5
  | BUTTON_PRESS_WIFI_RECONNECT => LedState COLOR_GREEN RING_SOLID 5
  | DEREGISTERING => LedState COLOR_GREEN RING_SOLID 10
  | FACTORY_RESET_ACK => LedState COLOR_GREEN RING_SOLID 15
  | TURNING_OFF => LedState COLOR_GREEN RING_SOLID 5
  | ALARM_GRACE_ENTER => LedState COLOR_BLUE_TICK RING_TICK_DOWN 0
  | ALARM_GRACE_EXIT => LedState COLOR_BLUE_TICK RING_TICK_DOWN 0
  | ALARM_OFF => LedState COLOR_GREEN RING_BLINK_ONCE_LONG 0
  | ALARM_ON => LedState COLOR_BLUE RING_BLINK_ONCE_LONG 0
  | ALARM_PARTIAL => LedState COLOR_BLUE RING_BLINK_ONCE_LONG 0
  | ALARM_FAILURE => LedState COLOR_PINK RING_SOLID 5
  | ALARMING_SECURITY => LedState COLOR_BLUE RING_PULSE 0
  | ALARMING_SECURITY_BATT => LedState COLOR_BLUE RING_PULSE 120
  | ALARMING_LOCAL => LedState COLOR_BLUE RING_PULSE 0
  | ALARMING_LOCAL_BATT => LedState COLOR_BLUE RING_PULSE 120
  | ALARMING_PANIC => LedState COLOR_WHITE RING_PULSE 0
  | ALARMING_PANIC_BATT => LedState COLOR_WHITE RING_PULSE 120
  | ALARMING_PANIC_MON => LedState COLOR_WHITE RING_PULSE 0
  | ALARMING_PANIC_MON_BATT => LedState COLOR_WHITE RING_PULSE 120
  | ALARMING_PANIC_LOCAL => LedState COLOR_WHITE RING_PULSE 0
  | ALARMING_PANIC_LOCAL_BATT => LedState COLOR_WHITE RING_PULSE 120
  | ALARMING_SMOKE => LedState COLOR_RED RING_PULSE 0
  | ALARMING_SMOKE_BATT => LedState COLOR_RED RING_PULSE 120
  | ALARMING_CO => LedState COLOR_RED RING_PULSE 0
  | ALARMING_CO_BATT => LedState COLOR_RED RING_PULSE 120
  | ALARMING_LEAK => LedState COLOR_TEAL RING_PULSE 0
  | ALARMING_LEAK_BATT => LedState COLOR_TEAL RING_PULSE 120
  | ALARMING_CARE => LedState COLOR_PURPLE RING_WAVE 0
  | ALARMING_CARE_BATT => LedState COLOR_PURPLE RING_WAVE 120
  | DOOR_CHIME => LedState COLOR_PURPLE RING_BLINK_ONCE_LONG 0
  | UNKNOWN_LED_MODE => LedState COLOR_OFF RING_OFF 0
  end.

Definition state_names (m : leds_mode) : string :=
  match m with
  | BOOT_POST => "boot-post"
  | BOOT_LINUX => "boot-linux"
  | BOOT_AGENT => "boot-agent"
  | NORMAL_UNASSOC_CONN_PRI => "unassoc-conn-pri"
  | NORMAL_UNASSOC_CONN_PRI_BATT => "unassoc-conn-pri-batt"
  | NORMAL_UNASSOC_CONN_BACKUP => "unassoc-conn-backup"
  | NORMAL_UNASSOC_CONN_BACKUP_BATT => "unassoc-conn-backup-batt"
  | NORMAL_UNASSOC_DISCONN => "unassoc-disconn"
  | NORMAL_UNASSOC_DISCONN_BATT => "unassoc-disconn-batt"
  | NORMAL_ASSOC_CONN_PRI => "assoc-conn-pri"
  | NORMAL_ASSOC_CONN_PRI_BATT => "assoc-conn-pri-batt"
  | NORMAL_ASSOC_CONN_BACKUP => "assoc-conn-backup"
  | NORMAL_ASSOC_CONN_BACKUP_BATT => "assoc-conn-backup-batt"
  | NORMAL_ASSOC_DISCONN => "assoc-disconn"
  | NORMAL_ASSOC_DISCONN_BATT => "assoc-disconn-batt"
  | NORMAL_PAIRING_CONN_PRI => "pairing-conn-pri"
  | NORMAL_PAIRING_CONN_PRI_BATT => "pairing-conn-pri-batt"
  | NORMAL_PAIRING_CONN_BACKUP => "pairing-conn-backup"
  | NORMAL_PAIRING_CONN_BACKUP_BATT => "pairing-conn-backup-batt"
  | NORMAL_PAIRING_DISCONN => "pairing-disconn"
  | NORMAL_PAIRING_DISCONN_BATT => "pairing-disconn-batt"
  | UPGRADE_DECRYPT => "upgrade-decrypt"
  | UPGRADE_DECRYPT_ERR => "upgrade-decrypt-err"
  | UPGRADE_UNPACK => "upgrade-unpack"
  | UPGRADE_UNPACK_ERR => "upgrade-unpack-err"
  | UPGRADE_BOOTLOADER => "upgrade-bootloader"
  | UPGRADE_BOOTLOADER_ERR => "upgrade-bootloader-err"
  | UPGRADE_KERNEL => "upgrade-kernel"
  | UPGRADE_KERNEL_ERR => "upgrade-kernel-err"
  | UPGRADE_ROOTFS => "upgrade-rootfs"
  | UPGRADE_ROOTFS_ERR => "upgrade-rootfs-err"
  | UPGRADE_ZIGBEE => "upgrade-zigbee"
  | UPGRADE_ZIGBEE_ERR => "upgrade-zigbee-err"
  | UPGRADE_ZWAVE => "upgrade-zwave"
  | UPGRADE_ZWAVE_ERR => "upgrade-zwave-err"
  | UPGRADE_BTE => "upgrade-bte"
  | UPGRADE_BTE_ERR => "upgrade-bte-err"
  | SHUTDOWN => "shutdown"
  | BUTTON_REBOOT => "button-reboot"
  | BUTTON_SOFT_RESET => "button-soft-reset"
  | BUTTON_FACTORY_DEFAULT => "button-factory-default"
  | ALL_ON => "all-on"
  | ALL_OFF => "all-off"
  | FIRST_BOOTUP => "first-bootup"
  | ETHERNET_INSERTED => "ethernet-inserted"
  | WIFI_IN_PROGRESS => "wifi-in-progress"
  | WIFI_SUCCESS => "wifi-success"
  | WIFI_FAILURE => "wifi-failure"
  | INTERNET_IN_PROGRESS => "internet-in-progress"
  | INTERNET_SUCCESS => "internet-success"
  | INTERNET_FAILURE => "internet-failure"
  | CLOUD_IN_PROGRESS => "cloud-in-progress"
  | CLOUD_SUCCESS => "cloud-success"
  | CLOUD_FAILURE => "cloud-failure"
  | REGISTER_IN_PROGRESS => "register-in-progress"
  | REGISTER_SUCCESS => "register-success"
  | REGISTER_FAILURE => "register-failure"
  | DEVICE_PAIRED => "device-paired"
  | DEVICE_REMOVED => "device-removed"
  | BUTTON_PRESS_NORMAL => "button-press-normal"
  | BUTTON_PRESS_STATUS => "button-press-status"
  | BUTTON_PRESS_BATTERY => "button-press-battery"
  | BUTTON_PRESS_OFFLINE => "button-press-offline"
  | BUTTON_PRESS_BACKUP => "button-press-backup"
  | BUTTON_PRESS_BACKUP_BATT => "button-press-backup-batt"
  | BUTTON_PRESS_OFFLINE_BATT => "button-press-offline-batt"
  | BUTTON_PRESS_BACKUP_OFFLINE => "button-press-backup-offline"
  | BUTTON_PRESS_WIFI_RECONNECT => "button-press-wifi-reconnect"
  | DEREGISTERING => "deregistering"
  | FACTORY_RESET_ACK => "factory-reset-ack"
  | TURNING_OFF => "turning-off"
  | ALARM_GRACE_ENTER => "alarm-grace-enter"
  | ALARM_GRACE_EXIT => "alarm-grace-exit"
  | ALARM_OFF => "alarm-off"
  | ALARM_ON => "alarm-on"
  | ALARM_PARTIAL => "alarm-partial"
  | ALARM_FAILURE => "alarm-failure"
  | ALARMING_SECURITY => "alarming-security"
  | ALARMING_SECURITY_BATT => "alarming-security-batt"
  | ALARMING_LOCAL => "alarming-local"
  | ALARMING_LOCAL_BATT => "alarming-local-batt"
  | ALARMING_PANIC => "alarming-panic"
  | ALARMING_PANIC_BATT => "alarming-panic-batt"
  | ALARMING_PANIC_MON => "alarming-panic-mon"
  | ALARMING_PANIC_MON_BATT => "alarming-panic-mon-batt"
  | ALARMING_PANIC_LOCAL => "alarming-panic-local"
  | ALARMING_PANIC_LOCAL_BATT => "alarming-panic-local-batt"
  | ALARMING_SMOKE => "alarming-smoke"
  | ALARMING_SMOKE_BATT => "alarming-smoke-batt"
  | ALARMING_CO => "alarming-co"
  | ALARMING_CO_BATT => "alarming-co-batt"
  | ALARMING_LEAK => "alarming-leak"
  | ALARMING_LEAK_BATT => "alarming-leak-batt"
  | ALARMING_CARE => "alarming-care"
  | ALARMING_CARE_BATT => "alarming-care-batt"
  | DOOR_CHIME => "door-chime"
  | UNKNOWN_LED_MODE => "unknown"
  end.

(** ** The program *)

(** The mode loop: all modes but the unknown one. *)
Definition find_mode (arg : string) : option leds_mode :=
  find (fun m => strncmp0 arg (state_names m) MAX_STATE_NAME_LENGTH) (removelast all_modes).

(** The final states in which the LEDs are not to be changed: [last] is the recorded mode. *)
Definition locked_out (last i : Z) : bool :=
  (last =? mode_code TURNING_OFF) ||
  (negb (i =? mode_code BOOT_LINUX) && (last =? mode_code SHUTDOWN)) ||
  (negb (i =? mode_code SHUTDOWN) && negb (i =? mode_code BUTTON_SOFT_RESET) && (last =? mode_code BUTTON_REBOOT)) ||
  (negb (i =? mode_code SHUTDOWN) && negb (i =? mode_code BUTTON_FACTORY_DEFAULT) && (last =? mode_code BUTTON_SOFT_RESET)) ||
  (negb (i =? mode_code SHUTDOWN) &&
   ((last =? mode_code BUTTON_FACTORY_DEFAULT) || (last =? mode_code FACTORY_RESET_ACK))).

(** [printf("%X", x)] of a positive number *)
Definition hex_digit (d : Z) : ascii := ascii_of_N (Z.to_N (if d <? 10 then 48 + d else 55 + d)).

Fixpoint hex_fuel (fuel : nat) (n : Z) : string :=
  match fuel with
  | O => ""
  | S f => if n <? 16 then String (hex_digit n) "" else hex_fuel f (n / 16) +:+ String (hex_digit (n mod 16)) ""
  end.

Definition hexX (n : Z) : string := hex_fuel 8 n.

Definition kill_cmd : string := snprintf 128 ("killall " +:+ RING_APP +:+ " > /dev/null 2>&1").

Definition ring_cmd (s : led_state) (duration : Z) : string :=
  snprintf 128
    (if duration =? 0 then RING_APP +:+ " -c " +:+ hexX (s_color s) +:+ " -m " +:+ dec (setting_code (s_mode s)) +:+ "&"
     else RING_APP +:+ " -c " +:+ hexX (s_color s) +:+ " -m " +:+ dec (setting_code (s_mode s)) +:+ " -d " +:+ dec duration +:+ "&").

Definition is_off (s : led_setting) : bool := match s with RING_OFF => true | _ => false end.

Section Ring.
Context `{Env}.

(** The end of the program: record mode [i] and start its pattern. *)
Definition ring_show (i : leds_mode) (duration : Z) : M Z :=
  _ ← system kill_cmd;
  let duration := if duration =? 0 then s_duration (states i) else duration in
  o ← fopen_w LAST_LED_MODE_FILE;
  _ ← when o (_ ← fwrite LAST_LED_MODE_FILE (dec (mode_code i)); mret tt);
  system (ring_cmd (states i) duration).

Definition read_last : M Z :=
  a ← access LAST_LED_MODE_FILE;
  f ← (if a : bool then fopen_r LAST_LED_MODE_FILE else mret None);
  mret (match f with Some s => default (mode_code BOOT_POST) (scan_d s) | None => mode_code BOOT_POST end).

(** [argv] without the program name. *)
Definition ringctrl (args : list string) : M Z :=
  match args with
  | [] => exit 1
  | arg :: rest =>
      _ ← when (String.length arg =? 0)%nat (emit (Overrun "argv[1]" (-1)));
      match find_mode (strip_nl arg) with
      | None => exit 1
      | Some i =>
          let duration := match rest with [d] => atoi d | _ => 0 end in
          lastMode ← read_last;
          if locked_out lastMode (mode_code i) then mret 0
          else if is_off (s_mode (states i)) then mret 0
          else ring_show i duration
      end
  end.
End Ring.

(** ** Names *)

(**  Every LED mode can be selected by its name, with or without a newline at its end: although
    only 24 characters are compared, no name hides another; and [unknown] is not a mode. *)
Theorem find_mode_names m :
  find_mode "unknown" = None /\
  (m <> UNKNOWN_LED_MODE ->
   find_mode (strip_nl (state_names m)) = Some m /\ find_mode (strip_nl (state_names m +:+ String LF "")) = Some m).
Proof. split; [vm_compute; reflexivity|]. intros Hm. destruct m; try (split; vm_compute; reflexivity). congruence. Qed.

Lemma find_mode_names_witness : find_mode (strip_nl ("button-press-offline-batt" +:+ String LF "")) = Some BUTTON_PRESS_OFFLINE_BATT.
Proof. apply (find_mode_names BUTTON_PRESS_OFFLINE_BATT). discriminate. Defined.

(** ** The recorded mode as a state machine *)

(** The mode the next run will find recorded. *)
Definition ring_next (last : Z) (m : leds_mode) : Z :=
  if locked_out last (mode_code m) then last else if is_off (s_mode (states m)) then last else mode_code m.

Section Machine.
Context `{Env} (Hh : healthy) (Hk : forall c w, files (snd (sh c w)) !! LAST_LED_MODE_FILE = files (fs w) !! LAST_LED_MODE_FILE)
  (Hm : forall c w, mnts (snd (sh c w)) = mnts (fs w)).

(** The recorded mode. *)
Definition last_mode (w : world) : Z :=
  match files (fs w) !! LAST_LED_MODE_FILE with Some s => default 0 (scan_d s) | None => 0 end.

(** The mode an invocation selects. *)
Definition selects (args : list string) : option leds_mode :=
  match args with [] => None | arg :: _ => find_mode (strip_nl arg) end.

Lemma get_last w : plain w -> get LAST_LED_MODE_FILE w = files (fs w) !! LAST_LED_MODE_FILE.
Proof. intros P. unfold get. by rewrite resolve_plain. Qed.

(** Reading the recorded mode. *)
Lemma wp_read_last Q w : plain w -> Q (Val (last_mode w)) w -> wp read_last Q w.
Proof.
  intros P HQ. unfold last_mode in HQ. unfold read_last. wp_step. unfold wp at 1, access. cbn [fst snd seq_post].
  rewrite get_last by done. destruct (files (fs w) !! LAST_LED_MODE_FILE) as [s|] eqn:Hs.
  - wp_step. apply (wp_fopen_r_some Hh _ s); [by rewrite get_last|]. by wp_step.
  - wp_step. case_bool_decide; [|by wp_step; cbn [seq_post]; wp_step].
    unfold wp at 1, fopen_r. rewrite get_last, Hs by done. cbn [fst snd seq_post]. by wp_step.
Qed.

Lemma plain_after c w st s t : plain w -> sh c w = (st, s) -> plain (World s t).
Proof. intros P Hs. unfold plain. cbn. pose proof (Hm c w) as Hx. rewrite Hs in Hx. cbn in Hx. by rewrite Hx. Qed.

Lemma mode_code_range m : 0 <= mode_code m <= 97.
Proof. by destruct m. Qed.

Lemma last_mode_written m w : files (fs w) !! LAST_LED_MODE_FILE = Some (dec (mode_code m)) -> last_mode w = mode_code m.
Proof.
  unfold last_mode. intros ->. unfold scan_d. pose proof (mode_code_range m). rewrite <- (sapp_nil_r (dec (mode_code m))).
  rewrite scan_int_dec; [done|unfold INT_MIN, INT_MAX; lia|done].
Qed.

(** Showing a mode records it. *)
Lemma wp_ring_show i d w : plain w ->
  wp (ring_show i d) (fun r w' => plain w' /\ last_mode w' = mode_code i /\
    let duration := if d =? 0 then s_duration (states i) else d in
    trace w' = (trace w ++ [Cmd kill_cmd; Cmd (ring_cmd (states i) duration)])%list) w.
Proof.
  intros P. unfold ring_show. wp_step. apply wp_system_any. intros st s Hs. cbn [seq_post].
  pose proof (plain_after _ _ _ _ (trace w ++ [Cmd kill_cmd])%list P Hs) as P1. set (w1 := World s _) in *.
  wp_step. apply (wp_fopen_w_ok Hh). cbn [seq_post]. wp_step. unfold when. wp_step. apply (wp_fwrite_ok Hh). cbn [seq_post].
  wp_step. cbn [seq_post]. set (w2 := put_file _ _ _).
  assert (plain w2) as P2 by done.
  assert (files (fs w2) !! LAST_LED_MODE_FILE = Some (dec (mode_code i))) as Hf.
  { rewrite <- get_last by done. unfold w2. by rewrite !get_put_eq. }
  apply wp_system_any. intros st2 s2 Hs2. split; [by eapply plain_after|]. split.
  - apply last_mode_written. cbn. pose proof (Hk (ring_cmd (states i) (if d =? 0 then s_duration (states i) else d)) w2) as Hx.
    rewrite Hs2 in Hx. cbn in Hx. by rewrite Hx.
  - cbv zeta. cbn [trace]. unfold w2, put_file. cbn [trace set_fs]. unfold w1. cbn [trace]. by rewrite <- app_assoc.
Qed.

(** The mode an invocation shows, the recorded mode being [last]. *)
Definition shown (last : Z) (args : list string) : option leds_mode :=
  match selects args with
  | Some m => if locked_out last (mode_code m) || is_off (s_mode (states m)) then None else Some m
  | None => None
  end.

Definition arg_duration (args : list string) (m : leds_mode) : Z :=
  let d := match args with [_; d] => atoi d | _ => 0 end in if d =? 0 then s_duration (states m) else d.

(** What an invocation adds to the trace. *)
Definition ring_events (last : Z) (args : list string) : list event :=
  ((match args with [] => [] | arg :: _ => if (String.length arg =? 0)%nat then [Overrun "argv[1]" (-1)] else [] end) ++
   match shown last args with
   | Some m => [Cmd kill_cmd; Cmd (ring_cmd (states m) (arg_duration args m))]
   | None => []
   end)%list.

Definition ring_post (args : list string) (w : world) (w' : world) : Prop :=
  plain w' /\ last_mode w' = match shown (last_mode w) args with Some m => mode_code m | None => last_mode w end /\
  trace w' = (trace w ++ ring_events (last_mode w) args)%list.

Lemma wp_ringctrl_found arg rest m w w0 :
  find_mode (strip_nl arg) = Some m -> plain w0 -> last_mode w0 = last_mode w ->
  trace w0 = (trace w ++ if (String.length arg =? 0)%nat then [Overrun "argv[1]" (-1)] else [])%list ->
  wp (lastMode ← read_last;
      if locked_out lastMode (mode_code m) then mret 0
      else if is_off (s_mode (states m)) then mret 0
      else ring_show m (match rest with [d] => atoi d | _ => 0 end)) (fun _ w' => ring_post (arg :: rest) w w') w0.
Proof.
  intros Hf P L T. wp_step. apply wp_read_last; [done|]. cbn [seq_post]. rewrite L. unfold ring_post, ring_events, shown.
  cbn [selects]. rewrite Hf. destruct (locked_out (last_mode w) (mode_code m)); cbn [orb].
  { apply wp_ret. by rewrite app_nil_r. }
  destruct (is_off (s_mode (states m))). { apply wp_ret. by rewrite app_nil_r. }
  eapply wp_mono; [by apply wp_ring_show|]. cbn. intros r w' (P' & L' & T'). split; [done|]. split; [done|].
  rewrite T', T, <- app_assoc. unfold arg_duration. destruct rest as [|d [|]]; reflexivity.
Qed.

Lemma wp_ringctrl args w : plain w -> wp (ringctrl args) (fun _ w' => ring_post args w w') w.
Proof.
  intros P. destruct args as [|arg rest].
  { unfold ring_post, ring_events, shown. cbn. by rewrite app_nil_r. }
  cbn [ringctrl]. wp_step. destruct (find_mode (strip_nl arg)) as [m|] eqn:Hf.
  - unfold when. destruct (String.length arg =? 0)%nat eqn:Hl; wp_step; cbn [seq_post];
      (eapply wp_ringctrl_found; [done|done|done|]); rewrite Hl; by rewrite ?app_nil_r.
  - unfold when. destruct (String.length arg =? 0)%nat eqn:Hl; wp_step; cbn [seq_post]; wp_step;
      unfold ring_post, ring_events, shown; cbn [selects]; rewrite Hf, Hl; by rewrite ?app_nil_r.
Qed.

(** The world after a sequence of invocations. *)
Fixpoint ring_calls (calls : list (list string)) (w : world) : world :=
  match calls with
  | [] => w
  | args :: r => ring_calls r (snd (ringctrl args w))
  end.

Lemma ring_calls_inv (I : Z -> Prop) (ok : list string -> Prop) (T : list event -> Prop) :
  T [] -> (forall a b, T a -> T b -> T (a ++ b)%list) ->
  (forall last args, I last -> ok args -> T (ring_events last args) /\
     I match shown last args with Some m => mode_code m | None => last end) ->
  forall calls w, plain w -> I (last_mode w) -> Forall ok calls ->
    I (last_mode (ring_calls calls w)) /\ exists evs, trace (ring_calls calls w) = (trace w ++ evs)%list /\ T evs.
Proof.
  intros T0 Tapp Hstep calls. induction calls as [|args calls IH]; intros w P Hi Hok; cbn [ring_calls].
  - split; [done|]. exists []. by rewrite app_nil_r.
  - apply Forall_cons_1 in Hok as [Ha Hc]. destruct (wp_ringctrl args w P) as (P1 & L1 & T1).
    destruct (Hstep (last_mode w) args Hi Ha) as [HT HI]. rewrite <- L1 in HI.
    destruct (IH _ P1 HI Hc) as (HI' & evs & Te & HTe). split; [done|].
    exists (ring_events (last_mode w) args ++ evs)%list. rewrite Te, T1, <- app_assoc. auto.
Qed.
End Machine.

(** C31.  ringctrl on the recorded mode: an invocation that selects a mode which is not locked out, and
    not one without a pattern, records that mode and replaces the running pattern by the mode's,
    with the given or the default duration; every other invocation runs nothing and records
    nothing. *)
Theorem ringctrl_shows `{Env} args w :
  healthy -> (forall c w, files (snd (sh c w)) !! LAST_LED_MODE_FILE = files (fs w) !! LAST_LED_MODE_FILE) ->
  (forall c w, mnts (snd (sh c w)) = mnts (fs w)) -> plain w ->
  let w' := snd (ringctrl args w) in
  last_mode w' = match shown (last_mode w) args with Some m => mode_code m | None => last_mode w end /\
  trace w' = (trace w ++ ring_events (last_mode w) args)%list.
Proof. intros Hh Hk Hm P. by apply (wp_ringctrl Hh Hk Hm args w P). Qed.

(** ** Final states *)

Definition no_cmds (evs : list event) : Prop := forall c, Cmd c ∉ evs.

(** Only the pattern of [m] was started. *)
Definition only_pattern (m : leds_mode) (evs : list event) : Prop :=
  forall c, Cmd c ∈ evs -> c = kill_cmd \/ exists d, c = ring_cmd (states m) d.

Lemma events_none last args : shown last args = None -> forall c, Cmd c ∉ ring_events last args.
Proof.
  intros Hs c. unfold ring_events. rewrite Hs, app_nil_r. destruct args as [|arg rest]; [apply not_elem_of_nil|].
  destruct (String.length arg =? 0)%nat; [by rewrite list_elem_of_singleton|apply not_elem_of_nil].
Qed.

Lemma events_some last args m : shown last args = Some m -> only_pattern m (ring_events last args).
Proof.
  intros Hs c. unfold ring_events. rewrite Hs, elem_of_app. intros [Hin|Hin].
  - destruct args as [|arg rest]; [by apply not_elem_of_nil in Hin|].
    destruct (String.length arg =? 0)%nat; [by apply list_elem_of_singleton in Hin|by apply not_elem_of_nil in Hin].
  - apply elem_of_cons in Hin as [[= ->]|Hin]; [by left|]. apply list_elem_of_singleton in Hin as [= ->]. right. eauto.
Qed.

(** The modes the hub does not leave before it has been restarted. *)
Definition ends_run (m : leds_mode) : bool :=
  match m with SHUTDOWN => true | BUTTON_FACTORY_DEFAULT => true | FACTORY_RESET_ACK => true | _ => false end.

Lemma mode_eq_shutdown i : i = SHUTDOWN \/ i <> SHUTDOWN.
Proof. destruct i; (by left) || (by right). Qed.

Lemma locked_ends_run m i : ends_run m = true -> i <> SHUTDOWN -> i <> BOOT_LINUX ->
  locked_out (mode_code m) (mode_code i) = true /\ locked_out (mode_code SHUTDOWN) (mode_code i) = true.
Proof. destruct m; try done; intros _; by destruct i. Qed.

Lemma shown_ends_run m last args i : ends_run m = true -> last = mode_code m \/ last = mode_code SHUTDOWN ->
  selects args <> Some BOOT_LINUX -> shown last args = Some i -> i = SHUTDOWN.
Proof.
  intros Hm Hl Hb. unfold shown. destruct (selects args) as [i'|]; [|done].
  destruct (locked_out last (mode_code i') || is_off (s_mode (states i'))) eqn:E; [done|]. intros [= <-].
  apply orb_false_iff in E as [E _]. destruct (mode_eq_shutdown i') as [->|Hne]; [done|]. exfalso.
  destruct (locked_ends_run m i' Hm Hne) as [L1 L2]; [congruence|]. destruct Hl as [-> | ->]; congruence.
Qed.

(** C30.  Final states: whatever sequence of ringctrl invocations follows, once the hub is turning off
    the ring is not changed any more; and once it shuts down, or a factory reset has been
    requested or acknowledged, then until boot-linux is set the only pattern anyone can start is
    that of the shutdown. *)
Theorem ring_final_states `{Env} calls w m :
  healthy -> (forall c w, files (snd (sh c w)) !! LAST_LED_MODE_FILE = files (fs w) !! LAST_LED_MODE_FILE) ->
  (forall c w, mnts (snd (sh c w)) = mnts (fs w)) -> plain w -> last_mode w = mode_code m ->
  let w' := ring_calls calls w in
  (m = TURNING_OFF -> last_mode w' = mode_code TURNING_OFF /\ exists evs, trace w' = (trace w ++ evs)%list /\ no_cmds evs) /\
  (ends_run m = true -> Forall (fun args => selects args <> Some BOOT_LINUX) calls ->
   (last_mode w' = mode_code m \/ last_mode w' = mode_code SHUTDOWN) /\
   exists evs, trace w' = (trace w ++ evs)%list /\ only_pattern SHUTDOWN evs).
Proof.
  intros Hh Hk Hm P Hl. cbv zeta. split.
  - intros ->. apply (ring_calls_inv Hh Hk Hm (fun l => l = mode_code TURNING_OFF) (fun _ => True) no_cmds); try done.
    + intros c. apply not_elem_of_nil.
    + intros a b Ha Hb c. rewrite elem_of_app. intros [Hc|Hc]; [by eapply Ha|by eapply Hb].
    + intros last args -> _. assert (shown (mode_code TURNING_OFF) args = None) as Hs.
      { unfold shown. by destruct (selects args). }
      rewrite Hs. split; [|done]. intros c. by apply events_none.
    + by apply List.Forall_forall.
  - intros Hr Hc.
    apply (ring_calls_inv Hh Hk Hm (fun l => l = mode_code m \/ l = mode_code SHUTDOWN)
             (fun args => selects args <> Some BOOT_LINUX) (only_pattern SHUTDOWN)); try done.
    + intros c. by intros ?%not_elem_of_nil.
    + intros a b Ha Hb c. rewrite elem_of_app. intros [Hi|Hi]; [by apply Ha|by apply Hb].
    + intros last args Hi Ho. destruct (shown last args) as [i|] eqn:Hs.
      * pose proof (shown_ends_run m last args i Hr Hi Ho Hs) as ->. split; [by eapply events_some|by right].
      * split; [|done]. intros c Hc'. by apply events_none in Hc'.
    + by left.
Qed.

(** A hub on which every command succeeds. *)
Module RingToy.
#[local] Instance env : Env := {
  sh := fun _ w => (0, fs w);
  pipe := fun _ _ => None;
  rd_ok := fun _ _ => true;
  wr_ok := fun _ _ => true;
  wr_len := fun _ _ n => n;
  mount_ok := fun _ _ _ => true;
  mem_ok := fun _ => true }.

Definition hub (last : string) : world := World (Fsys {[ LAST_LED_MODE_FILE := last ]} ∅ [] ∅ "/") [].
End RingToy.

Lemma ringctrl_shows_witness :
  let w' := snd (@ringctrl RingToy.env ["alarm-grace-exit"; "30"] (RingToy.hub "0")) in
  last_mode w' = mode_code ALARM_GRACE_EXIT /\ trace w' = [Cmd kill_cmd; Cmd "ledRing -c 30 -m 11 -d 30&"].
Proof.
  apply (@ringctrl_shows RingToy.env ["alarm-grace-exit"; "30"] (RingToy.hub "0")); [|reflexivity..].
  intros p w n. repeat split.
Defined.

Lemma ring_final_states_witness :
  let w' := @ring_calls RingToy.env [["all-off"]; ["shutdown"]; ["alarming-smoke"]] (RingToy.hub "40") in
  (last_mode w' = mode_code BUTTON_FACTORY_DEFAULT \/ last_mode w' = mode_code SHUTDOWN) /\
  exists evs, trace w' = ([] ++ evs)%list /\ only_pattern SHUTDOWN evs.
Proof.
  apply (@ring_final_states RingToy.env [["all-off"]; ["shutdown"]; ["alarming-smoke"]] (RingToy.hub "40")
           BUTTON_FACTORY_DEFAULT); try reflexivity.
  - intros p w n. repeat split.
  - repeat constructor; vm_compute; discriminate.
Defined.

Lemma read_last_pure `{Env} w : exists z, read_last w = (Val z, w).
Proof.
  unfold read_last, mbind, M_bind, access. destruct (match get LAST_LED_MODE_FILE w with Some _ => true | None => _ end).
  - unfold fopen_r. eexists. reflexivity.
  - eexists. reflexivity.
Qed.

(**  The mode all-on does nothing: its entry has the colour of a lit ring but no pattern, so the
    request is dropped without an error. *)
Theorem all_on_ignored `{Env} w : s_color (states ALL_ON) <> COLOR_OFF /\ ringctrl ["all-on"] w = (Val 0, w).
Proof.
  split; [done|]. cbn [ringctrl]. change (find_mode (strip_nl "all-on")) with (Some ALL_ON).
  unfold when. cbn [String.length Nat.eqb]. unfold mbind at 1, M_bind at 1. cbn [mret M_ret].
  unfold mbind, M_bind. destruct (read_last_pure w) as [z ->]. by destruct (locked_out z (mode_code ALL_ON)).
Qed.

(** ** Handing a pattern to ledRing *)

(** The options of [ring_cmd]. *)
Definition ring_argv (s : led_state) (duration : Z) : list ring_opt :=
  RColor (hexX (s_color s)) :: RMode (dec (setting_code (s_mode s))) ::
  if duration =? 0 then [] else [RDuration (dec duration)].

(** [strtoul] reads back a printed number that has no leading zero. *)
Lemma strtoul_dec n : 0 < n <= INT_MAX -> strtoul (dec n) 0 = n.
Proof. unfold INT_MAX. intros Hn. unfold strtoul. rewrite <- (sapp_nil_r (dec n)). apply strtou_dec; [lia|by left|done]. Qed.

(** The percentages of a colour of the table. *)
Definition table_args (m : leds_mode) : ring_args :=
  let c := s_color (states m) in
  RingArgs (Z.shiftr c 16) (Z.land (Z.shiftr c 8) 0xFF) (Z.land c 0xFF) (setting_code (s_mode (states m))) 0 0.

Lemma table_ok m : args_ok (table_args m).
Proof. unfold args_ok, pct. by destruct m. Qed.

(**  What ringctrl asks of ledRing is what ledRing does: for every mode with a pattern, the colour
    and mode number printed on the command line are read back by ledRing's options as the
    table's percentages and pattern, all of them in range, and a duration, the table's or the
    caller's, sets the end time that far in the future. *)
Theorem ring_args_understood m duration clk :
  is_off (s_mode (states m)) = false -> 0 <= duration <= INT_MAX ->
  args_ok (table_args m) /\
  ring_opts (ring_argv (states m) duration) clk 0 ring_defaults =
    inr (if duration =? 0 then (table_args m, 0%nat)
         else (RingArgs (a_r (table_args m)) (a_g (table_args m)) (a_b (table_args m)) (a_m (table_args m))
                        duration (i32 (clk 0%nat + duration)), 1%nat)).
Proof.
  intros Hm Hd. split; [apply table_ok|].
  assert (forall rest, ring_opts (RColor (hexX (s_color (states m))) :: RMode (dec (setting_code (s_mode (states m)))) :: rest)
    clk 0 ring_defaults = ring_opts rest clk 0 (table_args m)) as Hc.
  { intros rest. destruct m; try done; reflexivity. }
  unfold ring_argv. rewrite Hc. destruct (Z.eqb_spec duration 0) as [->|Hne]; [done|].
  cbn [ring_opts]. rewrite strtoul_dec by lia. rewrite i32_small by (unfold INT_MIN; lia).
  by rewrite (proj2 (Z.ltb_lt 0 duration)) by lia.
Qed.

Lemma ring_args_understood_witness :
  ring_opts (ring_argv (states WIFI_IN_PROGRESS) 120) (fun _ => 1000) 0 ring_defaults =
  inr (RingArgs 0 0 100 7 120 1120, 1%nat).
Proof.
  destruct (ring_args_understood WIFI_IN_PROGRESS 120 (fun _ => 1000)) as [_ H]; [reflexivity|unfold INT_MAX; lia|].
  exact H.
Defined.
