(* ===== verification/WifiScan.v ===== *)
(** * wifi_scan.c: networks in range as JSON

    The program reads the output of [iwlist] line by line and prints one JSON object per
    network; with [-t] the short form that wifi_prov.c hands to a phone.  The nested loops on
    the pipe are recursions on the lines still to be read; [goto loop] continues with the line
    read last.  A store outside of an array is an [Overrun] event, after which the array is
    taken to end in a NUL. *)
From Stdlib Require Import ZArith String Ascii Lia Bool.
From stdpp Require Import base gmap strings list numbers.
From S2P Require Import Prelude CLib Os IrisLib Streams.

Local Open Scope string_scope.
Local Open Scope Z_scope.

(** ** Program *)

Definition WIFI_IF : string := "wlan0".

(** A text in double quotes. *)
Definition quoted (s : string) : string := DQ +:+ s +:+ DQ.

Definition SSID_KEY : string := "{" +:+ quoted "ssid" +:+ ":".

Record net := Net {
  ssid : string; mode : string; security : list string; wepauth : string; encryption : string;
  channel : Z; signal : Z; wps : string }.

Definition BACKSLASH : ascii := "092"%char.
Definition QUOTE : ascii := "034"%char.

(** Escapes the two characters JSON strings cannot hold. *)
Fixpoint escape (s : string) : string :=
  match s with
  | EmptyString => ""
  | String c s' =>
      if Ascii.eqb c BACKSLASH || Ascii.eqb c QUOTE then String BACKSLASH (String c (escape s')) else String c (escape s')
  end.

Fixpoint join (sep : string) (l : list string) : string :=
  match l with
  | [] => ""
  | [s] => s
  | s :: l' => s +:+ sep +:+ join sep l'
  end.

(** The single security item of the short form. *)
Definition short_security (securityList : string) : string :=
  if has_sub securityList "WPA2" then "WPA2-PSK"
  else if has_sub securityList "WPA" then "WPA-PSK"
  else if has_sub securityList "WEP" then "WEP"
  else "None".

Definition short_entry (escapedSSID securityList : string) (channel signal : Z) : string :=
  SSID_KEY +:+ quoted escapedSSID +:+ ", " +:+ quoted "security" +:+ ":" +:+ quoted securityList +:+ ", " +:+
  quoted "channel" +:+ ":" +:+ dec channel +:+ ", " +:+ quoted "signal" +:+ ":" +:+ dec signal +:+ "}".

Definition long_entry (escapedSSID securityList : string) (n : net) : string :=
  SSID_KEY +:+ quoted escapedSSID +:+ ", " +:+ quoted "mode" +:+ ":" +:+ quoted (mode n) +:+ ", " +:+
  quoted "security" +:+ ":[" +:+ securityList +:+ "], " +:+ quoted "wepauth" +:+ ":" +:+ quoted (wepauth n) +:+ ", " +:+
  quoted "encryption" +:+ ":" +:+ quoted (encryption n) +:+ ", " +:+ quoted "channel" +:+ ":" +:+ dec (channel n) +:+ ", " +:+
  quoted "signal" +:+ ":" +:+ dec (signal n) +:+ ", " +:+ quoted "wps" +:+ ":" +:+ quoted (wps n) +:+ "}".

(** [firstSSID] and what has been printed. *)
Record output := Out { firstSSID : bool; printed : string }.

Section Scan.
Context {Ev : Env}.

Definition printSSIDData (truncate : bool) (n : net) (o : output) : M output :=
  if strncmp0 (ssid n) (String BACKSLASH "x00") 4 then mret o
  else
    let securityList := join "," (security n) in
    let sep := if firstSSID o then "" else "," in
    let escapedSSID := escape (ssid n) in
    _ ← when (65 <=? String.length escapedSSID)%nat
          (emit (Overrun "escapedSSID" (Z.of_nat (String.length escapedSSID))));
    mret (Out false (printed o +:+ sep +:+
      (if truncate then short_entry escapedSSID (short_security securityList) (channel n) (signal n)
       else long_entry escapedSSID securityList n))).

(** What follows [key] in a line. *)
Definition after (line key : string) : option string :=
  match strstr line key with Some p => Some (sdrop (String.length key) p) | None => None end.

Definition parse_channel (line : string) : Z :=
  match after line "Channel:" with Some p => atoi p | None => 0 end.

(** Two digits, a separator, two digits; a division by zero ends the program. *)
Definition parse_signal (line : string) : M Z :=
  match after line "Quality=" with
  | Some p =>
      let v1 := atoi (stake 2 p) in
      let v2 := atoi (stake 2 (sdrop 3 p)) in
      if v2 =? 0 then crash else mret (Z.quot (v1 * 100) v2)
  | None => mret 0
  end.

(** The text after the quote, without the closing quote and the end of the line, in [ssid[64]]. *)
Definition parse_ssid (line : string) : M string :=
  match after line "ESSID:" with
  | Some q =>
      let ptr := sdrop 1 q in
      let len := Z.of_nat (String.length ptr) - 2 in
      _ ← when ((len <? 0) || (64 <=? len)) (emit (Overrun "ssid" len));
      mret (if (len <? 0) || (64 <=? len) then stake 64 ptr else stake (Z.to_nat len) ptr)
  | None => mret ""
  end.

(** Reads up to a line with the mode; at the end of the input [line] keeps the last one. *)
Fixpoint skip_to_mode (line : string) (lines : list string) : string * list string :=
  match lines with
  | [] => (line, [])
  | l :: ls => if has_sub l "Mode:" then (l, ls) else skip_to_mode l ls
  end.

(** [security[sIndex++] = s] with [char *security[10]]. *)
Definition push (security : list string) (s : string) : M (list string) :=
  _ ← when (10 <=? List.length security)%nat (emit (Overrun "security" (Z.of_nat (List.length security))));
  mret (security ++ [s])%list.

(** The loop on the information elements: security, authentication, encryption, and the lines to continue with if it
    ended at the next cell. *)
Fixpoint ie_loop (lines : list string) (security : list string) (wepauth encryption : string) :
    M (list string * string * string * option (list string)) :=
  match lines with
  | [] => mret (security, wepauth, encryption, None)
  | line :: ls =>
      if has_sub line "Cell " then
        match security with
        | [] => security ← push security (quoted "WEP"); mret (security, "OpenSystem", "WEP", Some lines)
        | _ => mret (security, wepauth, encryption, Some lines)
        end
      else if has_sub line "IE: " then
        if has_sub line "WPA Version 1" then
          security ← push security (quoted "WPA-PSK");
          match ls with
          | next :: ls' => ie_loop ls' security "OpenSystem" (if has_sub next "TPIK" then "TPIK" else "AES")
          | [] => mret (security, "OpenSystem", if has_sub line "TPIK" then "TPIK" else "AES", None)
          end
        else if has_sub line "WPA2" then
          security ← push security (quoted "WPA2-PSK");
          ie_loop ls security "OpenSystem" "AES+TPIK"
        else ie_loop ls security "OpenSystem" encryption
      else ie_loop ls security wepauth encryption
  end.

(** From the mode of a cell on: the output, and the lines to continue with. *)
Definition parse_mode (truncate : bool) (ssid : string) (channel signal : Z) (off : bool) (line : string)
    (lines : list string) (o : output) : M (output * option (list string)) :=
  let '(line, lines) := skip_to_mode line lines in
  let mode := if has_sub line "Master" then "Infrastructure" else "Ad-hoc" in
  if off then
    o ← printSSIDData truncate (Net ssid mode [quoted "None"] "Unknown" "None" channel signal "No") o;
    mret (o, Some lines)
  else
    '(security, wepauth, encryption, next) ← ie_loop lines [] "N/A" "N/A";
    o ← printSSIDData truncate (Net ssid mode security wepauth encryption channel signal "No") o;
    mret (o, Some (default [] next)).

(** The body for a line with [Cell]: the lines that follow it; [None] is the [break] at the end of the input. *)
Definition parse_cell (truncate : bool) (lines : list string) (o : output) : M (output * option (list string)) :=
  match lines with
  | chan :: _ :: sig :: ls =>
      signal ← parse_signal sig;
      match ls with
      | enc :: essid :: rest =>
          ssid ← parse_ssid essid;
          parse_mode truncate ssid (parse_channel chan) signal (has_sub enc "off") essid rest o
      | _ => mret (o, None)
      end
  | _ => mret (o, None)
  end.

Fixpoint scan_loop (fuel : nat) (truncate : bool) (lines : list string) (o : output) : M output :=
  match fuel with
  | O => mret o
  | S f =>
      match lines with
      | [] => mret o
      | line :: ls =>
          if has_sub line "Cell " then
            '(o, next) ← parse_cell truncate ls o;
            match next with Some lines => scan_loop f truncate lines o | None => mret o end
          else scan_loop f truncate ls o
      end
  end.

Definition SCAN_HEADER : string := "{" +:+ quoted "scanresults" +:+ ":" +:+ String LF "[".
Definition SCAN_END : string := "]}" +:+ String LF "".

(** The standard output of the program. *)
Definition wifi_scan (truncate : bool) : M string :=
  f ← popen (snprintf 256 ("/sbin/iwlist " +:+ WIFI_IF +:+ " scan"));
  match f with
  | Some out =>
      let lines := fgets_all (S (String.length out)) 256 out in
      o ← scan_loop (List.length lines) truncate lines (Out true "");
      mret (SCAN_HEADER +:+ printed o +:+ SCAN_END)
  | None => mret (SCAN_HEADER +:+ SCAN_END)
  end.

End Scan.

(** ** JSON strings *)

(** Reads a JSON string up to its closing quote. *)
Fixpoint unescape (s : string) : option (string * string) :=
  match s with
  | EmptyString => None
  | String c s' =>
      if Ascii.eqb c QUOTE then Some ("", s')
      else if Ascii.eqb c BACKSLASH then
        match s' with
        | String d s'' => '(t, r) ← unescape s''; Some (String d t, r)
        | EmptyString => None
        end
      else '(t, r) ← unescape s'; Some (String c t, r)
  end.

Lemma unescape_escape s r : unescape (escape s +:+ String QUOTE r) = Some (s, r).
Proof.
  induction s as [|c s IH]; [done|]. cbn [escape].
  destruct (Ascii.eqb c BACKSLASH) eqn:E1; [|destruct (Ascii.eqb c QUOTE) eqn:E2]; cbn [orb].
  - cbn [String.append unescape]. change (Ascii.eqb BACKSLASH QUOTE) with false.
    change (Ascii.eqb BACKSLASH BACKSLASH) with true. cbn iota. by rewrite IH.
  - cbn [String.append unescape]. change (Ascii.eqb BACKSLASH QUOTE) with false.
    change (Ascii.eqb BACKSLASH BACKSLASH) with true. cbn iota. by rewrite IH.
  - cbn [String.append unescape]. rewrite E2, E1. by rewrite IH.
Qed.

(** ** Cells *)

(** A line of [iwlist] for one information element. *)
Definition is_wpa1 (line : string) : bool := has_sub line "IE: " && has_sub line "WPA Version 1".
Definition is_wpa2 (line : string) : bool := has_sub line "IE: " && negb (has_sub line "WPA Version 1") && has_sub line "WPA2".

(** A cell as [iwlist] prints it: the lines the program only looks into are arbitrary, the ones it takes a value from are
    given by the value. *)
Record cell := Cell {
  c_head : string; c_channel : Z; c_freq : string; c_quality : Z; c_max : Z; c_level : string; c_enc : string;
  c_name : string; c_rates : list string; c_mode : string; c_ies : list string }.

Definition INDENT : string := "                    ".
Definition chan_line (ch : Z) : string := INDENT +:+ "Channel:" +:+ dec ch +:+ String LF "".
Definition qual_line (q m : Z) (rest : string) : string := INDENT +:+ "Quality=" +:+ dec q +:+ "/" +:+ dec m +:+ rest.
Definition essid_line (name : string) : string := INDENT +:+ "ESSID:" +:+ DQ +:+ name +:+ DQ +:+ String LF "".

Definition cell_lines (c : cell) : list string :=
  (c_head c :: chan_line (c_channel c) :: c_freq c :: qual_line (c_quality c) (c_max c) (c_level c) :: c_enc c ::
   essid_line (c_name c) :: c_rates c ++ c_mode c :: c_ies c)%list.

(** The elements: no line starts another cell, and an element of WPA version 1 is followed by a line that is not an element. *)
Fixpoint ies_ok (l : list string) : bool :=
  match l with
  | [] => true
  | line :: l' =>
      negb (has_sub line "Cell ") &&
      (if is_wpa1 line then match l' with next :: _ => negb (has_sub next "IE: ") | [] => false end else true) && ies_ok l'
  end.

Definition wpa_item (line : string) : option string :=
  if is_wpa1 line then Some (quoted "WPA-PSK") else if is_wpa2 line then Some (quoted "WPA2-PSK") else None.

Definition cell_ok (c : cell) : Prop :=
  has_sub (c_head c) "Cell " = true /\ 0 <= c_channel c <= INT_MAX /\ 10 <= c_quality c < 100 /\ 10 <= c_max c < 100 /\
  (String.length (c_name c) < 64)%nat /\ (String.length (escape (c_name c)) < 65)%nat /\
  Forall (fun l => has_sub l "Mode:" = false) (c_rates c) /\ has_sub (c_mode c) "Mode:" = true /\
  ies_ok (c_ies c) = true /\ (List.length (omap wpa_item (c_ies c)) < 10)%nat.

(** The security a phone is told: what the elements say; without elements, WEP if another cell follows, and None for the last
    cell, where the program does not come to the line that adds WEP. *)
Definition cell_security (c : cell) (last : bool) : string :=
  if has_sub (c_enc c) "off" then "None"
  else if existsb is_wpa2 (c_ies c) then "WPA2-PSK"
  else if existsb is_wpa1 (c_ies c) then "WPA-PSK"
  else if last then "None" else "WEP".

(** The object printed for a cell; names of NULs are left out. *)
Definition cell_entry (c : cell) (last : bool) : list string :=
  if strncmp0 (c_name c) (String BACKSLASH "x00") 4 then []
  else [short_entry (escape (c_name c)) (cell_security c last) (c_channel c) (Z.quot (c_quality c * 100) (c_max c))].

Fixpoint entries (cs : list cell) : list string :=
  match cs with
  | [] => []
  | c :: cs' => (cell_entry c (match cs' with [] => true | _ => false end) ++ entries cs')%list
  end.

(** ** Values of the lines *)

(** The value behind a word of an indented line. *)
Lemma after_indent k key r : k <> " "%char -> after (INDENT +:+ String k key +:+ r) (String k key) = Some r.
Proof.
  intros Hk. unfold after. change (INDENT +:+ String k key +:+ r) with (Nat.iter 20 (String " ") (String k key +:+ r)).
  rewrite strstr_spaces, strstr_here by done. by rewrite sdrop_app.
Qed.

Lemma parse_channel_line ch : 0 <= ch <= INT_MAX -> parse_channel (chan_line ch) = ch.
Proof.
  intros Hc. unfold parse_channel, chan_line. rewrite after_indent by done. unfold atoi. rewrite scan_d_dec; [done|]. unfold INT_MIN, INT_MAX in *. lia.
Qed.

Lemma two_digits q : 10 <= q < 100 -> String.length (dec q) = 2%nat /\ atoi (dec q) = q.
Proof.
  intros Hq. assert ((if q <? 10 then true else (String.length (dec q) =? 2)%nat && (atoi (dec q) =? q)) = true) as E.
  { apply (all_below_spec 100 (fun q => if q <? 10 then true else (String.length (dec q) =? 2)%nat && (atoi (dec q) =? q)));
      [by vm_compute|lia]. }
  rewrite (proj2 (Z.ltb_ge q 10)) in E by lia. by to_prop.
Qed.

Section ScanLemmas.
Context {Ev : Env}.

Lemma parse_signal_line q m rest w : 10 <= q < 100 -> 10 <= m < 100 ->
  parse_signal (qual_line q m rest) w = (Val (Z.quot (q * 100) m), w).
Proof.
  intros Hq Hm. destruct (two_digits q Hq) as [Lq Aq], (two_digits m Hm) as [Lm Am].
  unfold parse_signal, qual_line. rewrite after_indent by done. replace (sdrop 3 (dec q +:+ "/" +:+ dec m +:+ rest)) with (dec m +:+ rest).
  2: { replace 3%nat with (String.length (dec q) + 1)%nat by lia. by rewrite <- sdrop_sdrop, sdrop_app. }
  assert (forall t r, String.length t = 2%nat -> stake 2 (t +:+ r) = t) as Hst by (intros t r <-; apply stake_app).
  rewrite !Hst, Aq, Am by done. by rewrite (proj2 (Z.eqb_neq m 0)) by lia.
Qed.

Lemma parse_ssid_line name w : (String.length name < 64)%nat -> parse_ssid (essid_line name) w = (Val name, w).
Proof.
  intros Hn. unfold parse_ssid, essid_line. rewrite after_indent by done. change (sdrop 1 (DQ +:+ name +:+ DQ +:+ String LF "")) with (name +:+ DQ +:+ String LF "").
  rewrite slen_app. cbn [String.length DQ String.append].
  replace (Z.of_nat (String.length name + 2) - 2) with (Z.of_nat (String.length name)) by lia.
  rewrite (proj2 (Z.ltb_ge _ 0)), (proj2 (Z.leb_gt 64 _)) by lia. cbn [orb when].
  unfold mbind, M_bind, mret, M_ret. rewrite Nat2Z.id. by rewrite stake_app.
Qed.

(** ** The loops *)

(** A cell, or the end of the input. *)
Definition cell_start (l : list string) : Prop :=
  match l with [] => True | line :: _ => has_sub line "Cell " = true end.

(** The security list when the loop on the elements ends. *)
Definition final_security (security rest : list string) : list string :=
  match security, rest with [], _ :: _ => [quoted "WEP"] | _, _ => security end.

Lemma push_ok sec s w : (List.length sec < 10)%nat -> push sec s w = (Val (sec ++ [s])%list, w).
Proof. intros Hl. unfold push. by rewrite (proj2 (Nat.leb_gt 10 _)). Qed.

Lemma ie_loop_end rest sec wa enc w : cell_start rest ->
  exists wa' enc', ie_loop rest sec wa enc w =
    (Val (final_security sec rest, wa', enc', match rest with [] => None | _ => Some rest end), w).
Proof.
  intros Hr. destruct rest as [|line rest]; cbn [ie_loop]; [destruct sec; eauto|]. cbn in Hr. rewrite Hr.
  destruct sec as [|s sec]; [|eauto]. erewrite bind_val by (apply push_ok; cbn; lia). eauto.
Qed.

Lemma omap_cons {A B} (f : A -> option B) x l :
  omap f (x :: l) = match f x with Some y => y :: omap f l | None => omap f l end.
Proof. done. Qed.

Lemma list_app_cons {A} (l : list A) x k : (l ++ x :: k)%list = ((l ++ [x]) ++ k)%list.
Proof. by rewrite <- app_assoc. Qed.

Lemma wpa_item_none line : has_sub line "IE: " = false -> wpa_item line = None.
Proof. intros E. unfold wpa_item, is_wpa1, is_wpa2. by rewrite E. Qed.

Lemma wpa_item_1 line : has_sub line "IE: " = true -> has_sub line "WPA Version 1" = true ->
  wpa_item line = Some (quoted "WPA-PSK").
Proof. intros E1 E2. unfold wpa_item, is_wpa1. by rewrite E1, E2. Qed.

Lemma wpa_item_2 line : has_sub line "IE: " = true -> has_sub line "WPA Version 1" = false -> has_sub line "WPA2" = true ->
  wpa_item line = Some (quoted "WPA2-PSK").
Proof. intros E1 E2 E3. unfold wpa_item, is_wpa1, is_wpa2. by rewrite E1, E2, E3. Qed.

Lemma ie_loop_items n : forall ies rest sec wa enc w,
  (List.length ies <= n)%nat -> ies_ok ies = true -> cell_start rest ->
  (List.length sec + List.length (omap wpa_item ies) < 10)%nat ->
  exists wa' enc', ie_loop (ies ++ rest)%list sec wa enc w =
    (Val (final_security (sec ++ omap wpa_item ies)%list rest, wa', enc', match rest with [] => None | _ => Some rest end), w).
Proof.
  induction n as [|n IH]; intros ies rest sec wa enc w Hn Hok Hr Hl.
  { destruct ies; [|cbn in Hn; lia]. rewrite app_nil_r. by apply ie_loop_end. }
  destruct ies as [|line ies]; [rewrite app_nil_r; by apply ie_loop_end|].
  cbn [ies_ok] in Hok. apply andb_true_iff in Hok as [Hok Hies]. apply andb_true_iff in Hok as [Hcell Hnext].
  apply negb_true_iff in Hcell. cbn [app ie_loop]. rewrite Hcell. rewrite omap_cons in *.
  destruct (has_sub line "IE: ") eqn:E1; [destruct (has_sub line "WPA Version 1") eqn:E2; [|destruct (has_sub line "WPA2") eqn:E3]|].
  - rewrite (wpa_item_1 line E1 E2) in *. unfold is_wpa1 in Hnext. rewrite E1, E2 in Hnext. cbn [andb] in Hnext.
    destruct ies as [|next ies]; [done|]. apply negb_true_iff in Hnext. cbn [app]. cbn [ies_ok] in Hies. to_prop.
    rewrite omap_cons, (wpa_item_none next Hnext) in *. cbn [List.length] in *.
    erewrite bind_val by (apply push_ok; lia). rewrite (list_app_cons sec _ (omap wpa_item ies)).
    apply IH; [lia|done..|]. rewrite length_app. cbn. lia.
  - rewrite (wpa_item_2 line E1 E2 E3) in *. cbn [List.length] in *.
    erewrite bind_val by (apply push_ok; lia). rewrite (list_app_cons sec _ (omap wpa_item ies)).
    apply IH; [lia|done..|]. rewrite length_app. cbn. lia.
  - assert (wpa_item line = None) as Hi by (unfold wpa_item, is_wpa1, is_wpa2; by rewrite E1, E2, E3). rewrite Hi in *.
    apply IH; [cbn in Hn; lia|done..].
  - rewrite (wpa_item_none line E1) in *. apply IH; [cbn in Hn; lia|done..].
Qed.

(** ** The security item *)

Definition is_item (s : string) : Prop := s = quoted "WPA-PSK" \/ s = quoted "WPA2-PSK".

Lemma items_ok ies : Forall is_item (omap wpa_item ies).
Proof.
  induction ies as [|line ies IH]; [by constructor|]. rewrite omap_cons. destruct (wpa_item line) as [i|] eqn:E; [|done].
  constructor; [|done]. unfold wpa_item in E. unfold is_item. case_ifs; simplify_eq; auto.
Qed.

Lemma has_wpa2 l : Forall is_item l -> has_sub (join "," l) "WPA2" = existsb (String.eqb (quoted "WPA2-PSK")) l.
Proof.
  induction l as [|x l IH]; intros Hl; [done|]. apply Forall_cons_1 in Hl as [Hx Hl]. specialize (IH Hl).
  destruct l as [|y l]; [by destruct Hx as [-> | ->]|].
  change (join "," (x :: y :: l)) with (x +:+ "," +:+ join "," (y :: l)). destruct Hx as [-> | ->]; [exact IH|done].
Qed.

Lemma has_wpa l : Forall is_item l -> has_sub (join "," l) "WPA" = match l with [] => false | _ => true end.
Proof.
  intros Hl. destruct Hl as [|x l Hx Hl]; [done|].
  destruct l as [|y l]; [by destruct Hx as [-> | ->]|].
  change (join "," (x :: y :: l)) with (x +:+ "," +:+ join "," (y :: l)). by destruct Hx as [-> | ->].
Qed.

Lemma items_wpa2 ies : existsb (String.eqb (quoted "WPA2-PSK")) (omap wpa_item ies) = existsb is_wpa2 ies.
Proof.
  induction ies as [|line ies IH]; [done|]. rewrite omap_cons. cbn [existsb]. rewrite <- IH. unfold wpa_item, is_wpa1, is_wpa2.
  destruct (has_sub line "IE: "), (has_sub line "WPA Version 1"), (has_sub line "WPA2"); done.
Qed.

Lemma items_none ies : omap wpa_item ies = [] <-> existsb is_wpa2 ies = false /\ existsb is_wpa1 ies = false.
Proof.
  induction ies as [|line ies IH]; [done|]. rewrite omap_cons. cbn [existsb]. unfold wpa_item.
  destruct (is_wpa1 line); [split; [done|by intros [_ [=]]]|]. destruct (is_wpa2 line); [split; [done|by intros [[=] _]]|]. done.
Qed.

Lemma final_short c rest : has_sub (c_enc c) "off" = false ->
  short_security (join "," (final_security (omap wpa_item (c_ies c)) rest)) =
  cell_security c (match rest with [] => true | _ => false end).
Proof.
  intros Hoff. unfold cell_security. rewrite Hoff. unfold final_security.
  pose proof (items_none (c_ies c)) as Hn. pose proof (items_wpa2 (c_ies c)) as H2. pose proof (items_ok (c_ies c)) as Hok.
  destruct (omap wpa_item (c_ies c)) as [|x l].
  - destruct Hn as [Hn _]. destruct (Hn eq_refl) as [-> ->]. by destruct rest.
  - unfold short_security. rewrite has_wpa2, has_wpa, H2 by done. destruct (existsb is_wpa2 (c_ies c)); [done|].
    destruct (existsb is_wpa1 (c_ies c)); [done|]. destruct Hn as [_ Hn]. by specialize (Hn (conj eq_refl eq_refl)).
Qed.

(** ** The program *)

Definition print_entry (o : output) (e : string) : output :=
  Out false (printed o +:+ (if firstSSID o then "" else ",") +:+ e).

Lemma print_net c last md sec wa enc o w : cell_ok c ->
  short_security (join "," sec) = cell_security c last ->
  printSSIDData true (Net (c_name c) md sec wa enc (c_channel c) (Z.quot (c_quality c * 100) (c_max c)) "No") o w =
  (Val (foldl print_entry o (cell_entry c last)), w).
Proof.
  intros (_ & _ & _ & _ & _ & He & _) Hs. unfold printSSIDData, cell_entry. cbn [ssid security channel signal].
  destruct (strncmp0 _ _ _); [done|]. rewrite (proj2 (Nat.leb_gt 65 _)) by done. rewrite Hs. done.
Qed.

Lemma skip_to_mode_rates line rates md rest :
  Forall (fun l => has_sub l "Mode:" = false) rates -> has_sub md "Mode:" = true ->
  skip_to_mode line (rates ++ md :: rest)%list = (md, rest).
Proof.
  intros Hr Hm. revert line. induction Hr as [|l rates Hl Hr IH]; intros line; cbn; [by rewrite Hm|]. by rewrite Hl.
Qed.

Definition is_last {A} (l : list A) : bool := match l with [] => true | _ => false end.

Lemma parse_cell_ok c rest o w : cell_ok c -> cell_start rest ->
  exists l, parse_cell true (tl (cell_lines c) ++ rest)%list o w =
    (Val (foldl print_entry o (cell_entry c (is_last rest)), Some l), w) /\
    (l = rest \/ l = c_ies c ++ rest)%list.
Proof.
  intros Hc Hr. pose proof Hc as (_ & Hch & Hq & Hm & Hn & _ & Hrates & Hmode & Hies & Hit).
  unfold cell_lines. cbn [tl app parse_cell]. rewrite <- app_assoc.
  erewrite bind_val by (by apply parse_signal_line). cbn beta iota.
  erewrite bind_val by (by apply parse_ssid_line). cbn beta iota.
  rewrite parse_channel_line by done. unfold parse_mode. rewrite <- app_comm_cons, skip_to_mode_rates by done.
  destruct (has_sub (c_enc c) "off") eqn:Eoff.
  - erewrite bind_val by (apply (print_net c (is_last rest)); [done|]; unfold cell_security; by rewrite Eoff). eauto.
  - destruct (ie_loop_items (List.length (c_ies c)) (c_ies c) rest [] "N/A" "N/A" w) as (wa & enc & He); [lia|done|done|done|].
    erewrite bind_val by exact He. cbn beta iota.
    erewrite bind_val by (apply (print_net c (is_last rest)); [done|]; by apply final_short).
    exists rest. split; [by destruct rest|by left].
Qed.

Lemma scan_skip pre : Forall (fun l => has_sub l "Cell " = false) pre -> forall fuel t rest o w,
  scan_loop (List.length pre + fuel) t (pre ++ rest)%list o w = scan_loop fuel t rest o w.
Proof. intros H. induction H as [|l pre Hl Hpre IH]; intros fuel t rest o w; [done|]. cbn. by rewrite Hl. Qed.

Lemma ies_no_cell l : ies_ok l = true -> Forall (fun l => has_sub l "Cell " = false) l.
Proof.
  induction l as [|x l IH]; cbn; intros H; [by constructor|]. apply andb_true_iff in H as [H Hl].
  apply andb_true_iff in H as [Hx _]. apply negb_true_iff in Hx. constructor; auto.
Qed.

Definition cells_lines (cs : list cell) : list string := concat (map cell_lines cs).

Lemma cells_start cs : Forall cell_ok cs -> cell_start (cells_lines cs).
Proof. intros H. destruct H as [|c cs Hc _]; [done|]. cbn. apply Hc. Qed.

Lemma cells_last cs : is_last (cells_lines cs) = is_last (A := cell) cs.
Proof. by destruct cs. Qed.

Lemma scan_cells cs : Forall cell_ok cs -> forall pre fuel o w,
  Forall (fun l => has_sub l "Cell " = false) pre -> (List.length pre + List.length (cells_lines cs) <= fuel)%nat ->
  scan_loop fuel true (pre ++ cells_lines cs)%list o w = (Val (foldl print_entry o (entries cs)), w).
Proof.
  intros Hcs. induction Hcs as [|c cs Hc Hcs IH]; intros pre fuel o w Hpre Hf;
    replace fuel with (List.length pre + (fuel - List.length pre))%nat by lia; rewrite scan_skip by done.
  { by destruct (fuel - List.length pre)%nat. }
  change (cells_lines (c :: cs)) with (cell_lines c ++ cells_lines cs)%list in *. rewrite length_app in Hf.
  destruct (fuel - List.length pre)%nat as [|f] eqn:Ef; [cbn in Hf; lia|].
  change (cell_lines c ++ cells_lines cs)%list with (c_head c :: tl (cell_lines c) ++ cells_lines cs)%list.
  cbn [scan_loop]. rewrite (proj1 Hc). destruct (parse_cell_ok c (cells_lines cs) o w Hc) as (l & He & Hl); [by apply cells_start|].
  erewrite bind_val by exact He. cbn beta iota.
  replace (entries (c :: cs)) with (cell_entry c (is_last (cells_lines cs)) ++ entries cs)%list by (by rewrite cells_last).
  rewrite foldl_app.
  assert (List.length (cell_lines c) = 7 + List.length (c_rates c) + List.length (c_ies c))%nat as Hlen
    by (unfold cell_lines; cbn [List.length]; rewrite length_app; cbn; lia).
  destruct Hl as [-> | ->]; [apply (IH []); [constructor|cbn; lia]|].
  apply IH; [apply ies_no_cell, Hc|lia].
Qed.
End ScanLemmas.

Lemma foldl_printed es o : firstSSID o = false ->
  printed (foldl print_entry o es) = printed o +:+ fold_right (fun e r => "," +:+ e +:+ r) "" es.
Proof.
  revert o. induction es as [|e es IH]; intros o Ho; cbn [foldl fold_right]; [by rewrite sapp_nil_r|].
  rewrite IH by done. cbn [printed print_entry]. rewrite Ho. by rewrite !sapp_assoc.
Qed.

Lemma join_fold e es : join "," (e :: es) = e +:+ fold_right (fun e r => "," +:+ e +:+ r) "" es.
Proof.
  revert e. induction es as [|x es IH]; intros e; [by rewrite sapp_nil_r|].
  change (join "," (e :: x :: es)) with (e +:+ "," +:+ join "," (x :: es)). by rewrite IH.
Qed.

Lemma printed_join es : printed (foldl print_entry (Out true "") es) = join "," es.
Proof. destruct es as [|e es]; [done|]. cbn [foldl]. rewrite foldl_printed by done. by rewrite join_fold. Qed.

Definition SCAN_CMD : string := "/sbin/iwlist wlan0 scan".

Lemma wifi_scan_prints `{Ev : Env} w pre cs :
  pipe SCAN_CMD w = Some (fold_right String.append "" (pre ++ cells_lines cs)%list) ->
  Forall is_line (pre ++ cells_lines cs) -> Forall (fun l => has_sub l "Cell " = false) pre -> Forall cell_ok cs ->
  wifi_scan true w = (Val (SCAN_HEADER +:+ join "," (entries cs) +:+ SCAN_END), World (fs w) (trace w ++ [Pipe SCAN_CMD])).
Proof.
  intros Hp Hl Hpre Hcs. unfold wifi_scan.
  erewrite bind_val by (unfold popen; change (snprintf 256 _) with SCAN_CMD; rewrite Hp; reflexivity). cbn beta iota zeta.
  rewrite fgets_all_lines by (try done; pose proof (lines_length _ Hl); lia).
  erewrite bind_val by (apply scan_cells; [done..|rewrite length_app; lia]). by rewrite printed_join.
Qed.

(** For the output of [iwlist] with any number of cells, wifi_scan prints the networks as a JSON array in the order of
    the cells, each with its name escaped, its channel, its signal in percent and its security, and stays inside its
    arrays.  A network without WPA elements is reported as WEP, but as open if it is the last one. *)
Theorem wifi_scan_lists `{Ev : Env} w pre cs :
  pipe SCAN_CMD w = Some (fold_right String.append "" (pre ++ cells_lines cs)%list) ->
  Forall is_line (pre ++ cells_lines cs) -> Forall (fun l => has_sub l "Cell " = false) pre -> Forall cell_ok cs ->
  wifi_scan true w = (Val (SCAN_HEADER +:+ join "," (entries cs) +:+ SCAN_END), World (fs w) (trace w ++ [Pipe SCAN_CMD])).
Proof. apply wifi_scan_prints. Qed.

(** ** A weak signal *)

Lemma one_digit q : 0 <= q < 10 -> dec q = String (digit q) "".
Proof.
  intros Hq. assert (String.eqb (dec q) (String (digit q) "") = true) as E.
  { apply (all_below_spec 10 (fun q => String.eqb (dec q) (String (digit q) ""))); [by vm_compute|lia]. }
  by to_prop.
Qed.

Lemma atoi_zero s : no_digit s -> atoi (stake 2 (String "0" s)) = 0.
Proof.
  destruct s as [|c s]; [done|]. cbn [no_digit stake]. intros Hc. unfold atoi, scan_d, scan_int.
  cbn [skip_ws]. change (isspace "0") with false. cbn iota. change (Ascii.eqb "0" "-") with false.
  change (Ascii.eqb "0" "+") with false. cbn iota beta. cbn [scan_digits]. change (digit_val "0") with (Some 0). cbn iota beta.
  by rewrite Hc.
Qed.

Lemma parse_signal_weak `{Ev : Env} q level w : 0 <= q < 10 -> no_digit level ->
  parse_signal (qual_line q 70 level) w = (Crash, w).
Proof.
  intros Hq Hl. unfold parse_signal, qual_line. rewrite after_indent by done. rewrite one_digit by done.
  change (sdrop 3 (String (digit q) "" +:+ "/" +:+ dec 70 +:+ level)) with (String "0" level).
  by rewrite atoi_zero.
Qed.

(** A quality of one digit, such as 7/70, ends the program by a division by zero: the two digits it expects are the
    digit and the slash, and the denominator is read from one place too far.  Nothing is printed for any network. *)
Theorem wifi_scan_weak_signal `{Ev : Env} w t pre head chan freq q level tl' :
  pipe SCAN_CMD w = Some (fold_right String.append "" (pre ++ head :: chan :: freq :: qual_line q 70 level :: tl')%list) ->
  Forall is_line (pre ++ head :: chan :: freq :: qual_line q 70 level :: tl') ->
  Forall (fun l => has_sub l "Cell " = false) pre -> has_sub head "Cell " = true ->
  0 <= q < 10 -> no_digit level -> fst (wifi_scan t w) = Crash.
Proof.
  intros Hp Hl Hpre Hh Hq Hlev. unfold wifi_scan.
  erewrite bind_val by (unfold popen; change (snprintf 256 _) with SCAN_CMD; rewrite Hp; reflexivity). cbn beta iota zeta.
  rewrite fgets_all_lines by (try done; pose proof (lines_length _ Hl); lia).
  unfold mbind at 1, M_bind at 1. rewrite length_app, scan_skip by done. cbn [List.length scan_loop]. rewrite Hh.
  unfold mbind at 1, M_bind at 1. cbn [parse_cell]. unfold mbind at 1, M_bind at 1. by rewrite parse_signal_weak.
Qed.

(** ** Example *)

Module ScanToy.

Definition line (s : string) : string := s +:+ String LF "".

Definition cell_a : cell :=
  Cell (line "          Cell 01 - Address: 00:11:22:33:44:55") 6 (line "Frequency:2.437 GHz") 63 70
    (line "  Signal level=-47 dBm") (line "Encryption key:on") "home"
    [line "Bit Rates:54 Mb/s"] (line "Mode:Master") [line "IE: IEEE 802.11i/WPA2 Version 1"].

Definition cell_b : cell :=
  Cell (line "          Cell 02 - Address: 66:11:22:33:44:55") 11 (line "Frequency:2.462 GHz") 35 70
    (line "  Signal level=-75 dBm") (line "Encryption key:on") ("a" +:+ DQ +:+ "b")
    [] (line "Mode:Master") [].

Definition scan_out (lines : list string) : string := fold_right String.append "" lines.

Definition env_of (out : string) : Env :=
  Build_Env (fun _ w => (0, fs w)) (fun _ _ => Some out) (fun _ _ => true) (fun _ _ => true) (fun _ _ n => n)
    (fun _ _ _ => true) (fun _ => true).

Definition w0 : world := World (Fsys ∅ ∅ [] ∅ "/") [].

Definition head : list string := [line "wlan0     Scan completed :"].
Definition good : list string := (head ++ cells_lines [cell_a; cell_b])%list.
Definition weak : list string :=
  (head ++ c_head cell_a :: chan_line 6 :: c_freq cell_a :: qual_line 7 70 (line "  Signal level=-100 dBm") :: [])%list.

End ScanToy.

Lemma wifi_scan_lists_witness :
  @wifi_scan (ScanToy.env_of (ScanToy.scan_out ScanToy.good)) true ScanToy.w0 =
  (Val (SCAN_HEADER +:+ join "," (entries [ScanToy.cell_a; ScanToy.cell_b]) +:+ SCAN_END),
   World (fs ScanToy.w0) (trace ScanToy.w0 ++ [Pipe SCAN_CMD])).
Proof.
  apply (wifi_scan_lists ScanToy.w0 ScanToy.head [ScanToy.cell_a; ScanToy.cell_b]).
  - reflexivity.
  - apply is_lineb_lines. by vm_compute.
  - repeat constructor.
  - repeat (apply Forall_cons_2 || apply Forall_nil_2); unfold cell_ok; split_and!;
      first [by vm_compute | vm_compute; lia | repeat constructor].
Defined.

Lemma wifi_scan_weak_signal_witness :
  fst (@wifi_scan (ScanToy.env_of (ScanToy.scan_out ScanToy.weak)) false ScanToy.w0) = Crash.
Proof.
  apply (wifi_scan_weak_signal ScanToy.w0 false ScanToy.head (c_head ScanToy.cell_a) (chan_line 6) (c_freq ScanToy.cell_a) 7
    (ScanToy.line "  Signal level=-100 dBm") []).
  - reflexivity.
  - apply is_lineb_lines. by vm_compute.
  - repeat constructor.
  - by vm_compute.
  - lia.
  - by vm_compute.
Defined.
