(* ===== verification/WifiProv.v ===== *)
(** * wifi_prov.c: Wi-Fi provisioning over Bluetooth

    The callbacks that BlueZ runs when a phone reads or writes a characteristic.  The static
    variables of the file are the record [prov]; a callback takes it, the value that was written
    and the time, and returns the reply and the new record.  [prov_step] is one request, and the
    main loop is a sequence of requests.  Passwords arrive encrypted with the cipher of Aes.v
    under a key made of the hub's MAC address.

    Pointers into the text of the scan are offsets; a pointer to memory that has been freed is
    [Dangling], and using it ends the program.  D-Bus registration is not modelled. *)
From Stdlib Require Import ZArith String Ascii Lia Bool.
From stdpp Require Import base gmap strings list numbers.
From S2P Require Import Prelude CLib Os IrisLib Aes Streams WifiScan.

Local Open Scope string_scope.
Local Open Scope Z_scope.

(** ** Constants *)

Definition WIFI_STATUS_FILE : string := "/tmp/wifiStatus".
Definition WIFI_SCAN_FILE : string := "/tmp/wifiScanResults".
Definition TEST_WIFI_CFG_FILE : string := "/tmp/testWifiCfg".
Definition MAX_SSID_LEN : Z := 32.
Definition MAX_PASSWD_LEN : Z := 64.
Definition PROV_IDLE_CHECK : Z := 15.
Definition PROV_IDLE_TIMEOUT : Z := PROV_IDLE_CHECK * 10.

Definition wifi_iv : list Z :=
  [0xBE; 0x98; 0x8A; 0xEC; 0x22; 0x75; 0x43; 0xF6; 0x92; 0xCA; 0xB1; 0xE7; 0xEC; 0x7B; 0x0A; 0xC0].
Definition wifi_key : list Z := [0x2E; 0x2C; 0x18; 0x3D; 0xBB; 0x77; 0x49; 0x3D; 0xB0; 0x8A].

(** ** State *)

Inductive scan_state := SCAN_INIT | SCAN_START | SCAN_MORE.

Inductive scan_ptr := Null | At (offset : nat) | Dangling.

(** Character arrays that hold strings are strings; [wifiPasswd] and [lastPasswd] are their 64 bytes. *)
Record prov := Prov {
  wifiSSID : string; wifiAuthType : string; wifiPasswd : list Z; wifiPasswdLen : Z; wifiStatus : string;
  wifiScanResults : option string; wifiScanState : scan_state; wifiScanPtr : scan_ptr; wifiScanCount : Z;
  wifiActivity : Z;
  lastSSID : string; lastAuthType : string; lastPasswd : list Z; lastPasswdLen : Z }.

Definition set_activity (now : Z) (p : prov) : prov :=
  Prov (wifiSSID p) (wifiAuthType p) (wifiPasswd p) (wifiPasswdLen p) (wifiStatus p) (wifiScanResults p) (wifiScanState p)
    (wifiScanPtr p) (wifiScanCount p) now (lastSSID p) (lastAuthType p) (lastPasswd p) (lastPasswdLen p).
Definition set_ssid (s : string) (p : prov) : prov :=
  Prov s (wifiAuthType p) (wifiPasswd p) (wifiPasswdLen p) (wifiStatus p) (wifiScanResults p) (wifiScanState p)
    (wifiScanPtr p) (wifiScanCount p) (wifiActivity p) (lastSSID p) (lastAuthType p) (lastPasswd p) (lastPasswdLen p).
Definition set_auth (s : string) (p : prov) : prov :=
  Prov (wifiSSID p) s (wifiPasswd p) (wifiPasswdLen p) (wifiStatus p) (wifiScanResults p) (wifiScanState p)
    (wifiScanPtr p) (wifiScanCount p) (wifiActivity p) (lastSSID p) (lastAuthType p) (lastPasswd p) (lastPasswdLen p).
Definition set_passwd (l : list Z) (len : Z) (p : prov) : prov :=
  Prov (wifiSSID p) (wifiAuthType p) l len (wifiStatus p) (wifiScanResults p) (wifiScanState p)
    (wifiScanPtr p) (wifiScanCount p) (wifiActivity p) (lastSSID p) (lastAuthType p) (lastPasswd p) (lastPasswdLen p).
Definition set_status (s : string) (p : prov) : prov :=
  Prov (wifiSSID p) (wifiAuthType p) (wifiPasswd p) (wifiPasswdLen p) s (wifiScanResults p) (wifiScanState p)
    (wifiScanPtr p) (wifiScanCount p) (wifiActivity p) (lastSSID p) (lastAuthType p) (lastPasswd p) (lastPasswdLen p).
Definition set_scan (r : option string) (st : scan_state) (ptr : scan_ptr) (n : Z) (p : prov) : prov :=
  Prov (wifiSSID p) (wifiAuthType p) (wifiPasswd p) (wifiPasswdLen p) (wifiStatus p) r st ptr n
    (wifiActivity p) (lastSSID p) (lastAuthType p) (lastPasswd p) (lastPasswdLen p).
Definition set_last (s a : string) (l : list Z) (len : Z) (p : prov) : prov :=
  Prov (wifiSSID p) (wifiAuthType p) (wifiPasswd p) (wifiPasswdLen p) (wifiStatus p) (wifiScanResults p) (wifiScanState p)
    (wifiScanPtr p) (wifiScanCount p) (wifiActivity p) s a l len.

(** The initial values of the static variables. *)
Definition prov_init (now : Z) : prov :=
  Prov "" "" (replicate 64 0) 0 "" None SCAN_INIT Null 0 now "" "" (replicate 64 0) 0.

(** ** Bytes and characters *)

Definition char_of (x : Z) : ascii := ascii_of_N (Z.to_N x).

Fixpoint str_of_bytes (l : list Z) : string :=
  match l with [] => "" | x :: l' => String (char_of x) (str_of_bytes l') end.

(** [memcpy(dst, src, n)] where [src] has [n] bytes. *)
Definition overwrite (dst src : list Z) : list Z := src ++ drop (List.length src) dst.

Definition isprint (x : Z) : bool := (32 <=? x) && (x <=? 126).

(** The first of the [n] bytes that is not printable becomes the end of the string. *)
Fixpoint trim (n : nat) (l : list Z) : list Z :=
  match n, l with
  | S n', x :: l' => if isprint x then x :: trim n' l' else 0 :: l'
  | _, _ => l
  end.

(** [strtoull(s, NULL, 16)] *)
Definition strtoull16 (s : string) : Z := strtou 64 s 16.

(** ** The key *)

Definition char_at (s : string) (i : nat) : ascii := default NUL (String.get i s).

(** The twelve digits of an address with separators, printed with [%c]: a C string that ends at a NUL. *)
Definition mac_digits (data : string) : string :=
  cstr (string_of_list_ascii (map (char_at data) [0; 1; 3; 4; 6; 7; 9; 10; 12; 13; 15; 16]%nat)).

Definition mac_byte (macBytes k : Z) : Z := Z.land (Z.shiftr macBytes (8 * k)) 0xFF.

Definition wifi_aes_key (macBytes : Z) : list Z :=
  let wk i := nth i wifi_key 0 in
  [wk 0%nat; wk 1%nat; mac_byte macBytes 0; wk 2%nat; mac_byte macBytes 1; wk 3%nat; mac_byte macBytes 2; wk 4%nat;
   wk 5%nat; mac_byte macBytes 3; wk 6%nat; mac_byte macBytes 4; wk 7%nat; mac_byte macBytes 5; wk 8%nat; wk 9%nat].

Definition config_text (ssid auth passwd : string) : string :=
  "ssid: " +:+ ssid +:+ String LF "" +:+ "security: " +:+ auth +:+ String LF "" +:+ "key: " +:+ passwd +:+ String LF "".

(** ** Callbacks *)

Section Callbacks.
Context {Ev : Env}.

(** What the local array [data] holds on entry, and what follows [wifiPasswd] in memory up to a NUL. *)
Context (stack beyond : string).

(** All the configuration is present and has changed. *)
Definition config_ready (p : prov) : bool :=
  negb (String.eqb (wifiSSID p) "") && negb (String.eqb (wifiSSID p) (lastSSID p)) &&
  negb (String.eqb (wifiAuthType p) "") && negb (String.eqb (wifiAuthType p) (lastAuthType p)) &&
  negb (wifiPasswdLen p =? 0) &&
  negb (bool_decide (take (Z.to_nat (wifiPasswdLen p)) (wifiPasswd p) = take (Z.to_nat (wifiPasswdLen p)) (lastPasswd p))).

Definition updateConfig (p : prov) : M prov :=
  if config_ready p then
    f ← fopen_w TEST_WIFI_CFG_FILE;
    if f : bool then
      '(_, data) ← IRIS_getMACAddr1 stack;
      _ ← store_token "data" 512 data;
      let buf := data +:+ String NUL (sdrop (S (String.length data)) stack) in
      let key := wifi_aes_key (strtoull16 (mac_digits buf)) in
      match AES_CBC_decrypt_buffer (AES_init_ctx_iv key wifi_iv) (wifiPasswd p) (wifiPasswdLen p) with
      | None => _ ← emit (Overrun "wifiPasswd" (wifiPasswdLen p)); crash
      | Some (_, plain) =>
          let passwd := trim (Z.to_nat (wifiPasswdLen p)) plain in
          let text := str_of_bytes passwd in
          _ ← when (nul_free text) (emit (Overrun "wifiPasswd" 64));
          let key_text := if nul_free text then text +:+ beyond else cstr text in
          let data := snprintf 512 (config_text (wifiSSID p) (wifiAuthType p) key_text) in
          _ ← fwrite TEST_WIFI_CFG_FILE data;
          mret (set_last (wifiSSID p) (wifiAuthType p)
            (overwrite (lastPasswd p) (take (Z.to_nat (wifiPasswdLen p)) passwd)) (wifiPasswdLen p)
            (set_passwd passwd (wifiPasswdLen p) p))
      end
    else mret p
  else mret p.

Definition ValidateWifiSSID (value : list Z) (now : Z) (p : prov) : M (bool * prov) :=
  let p := set_activity now p in
  if MAX_SSID_LEN <? Z.of_nat (List.length value) then mret (false, p)
  else p ← updateConfig (set_ssid (cstr (str_of_bytes value)) p); mret (true, p).

(** [*strchr(s, '-') = '_'] if there is one. *)
Fixpoint dash_to_underscore (s : string) : string :=
  match s with
  | EmptyString => ""
  | String c s' => if Ascii.eqb c "-" then String "_" s' else String c (dash_to_underscore s')
  end.

Definition auth_is (value : list Z) (name : string) : bool :=
  strncmp0 (str_of_bytes value) name (String.length name) &&
  (Z.of_nat (List.length value) =? Z.of_nat (String.length name)).

Definition ValidateWifiAuthType (value : list Z) (now : Z) (p : prov) : M (bool * prov) :=
  let p := set_activity now p in
  if auth_is value "None" || auth_is value "WEP" || auth_is value "WPA-PSK" || auth_is value "WPA2-PSK" then
    p ← updateConfig (set_auth (dash_to_underscore (cstr (str_of_bytes value))) p); mret (true, p)
  else mret (false, p).

Definition ValidateWifiPasswd (value : list Z) (now : Z) (p : prov) : M (bool * prov) :=
  let p := set_activity now p in
  let vlen := Z.of_nat (List.length value) in
  if MAX_PASSWD_LEN <? vlen then mret (false, p)
  else p ← updateConfig (set_passwd (overwrite (wifiPasswd p) value) vlen p); mret (true, p).

Definition UpdateWifiStatus (internal : bool) (now : Z) (p : prov) : M (option string * bool * prov) :=
  let p := if internal then p else set_activity now p in
  f ← fopen_r WIFI_STATUS_FILE;
  match f with
  | Some s =>
      let status := default "" (scan_s s) in
      _ ← store_token "wifiStatus" 24 status;
      let p := set_status status p in
      if (0 <? String.length status)%nat then mret (Some status, true, p) else mret (None, false, p)
  | None => mret (None, false, p)
  end.

(** ** Scan results *)

(** The place of [needle] in [s] at or behind an offset. *)
Definition strstr_at (s : string) (off : nat) (needle : string) : option nat :=
  match strstr (sdrop off s) needle with
  | Some t => Some (String.length s - String.length t)%nat
  | None => None
  end.

(** [while ((ptr = strstr(ptr, SSID_KEY)) != NULL)] *)
Fixpoint count_keys (fuel : nat) (s : string) : Z :=
  match fuel with
  | O => 0
  | S f =>
      match strstr s SSID_KEY with
      | Some t => 1 + count_keys f (sdrop (String.length SSID_KEY) t)
      | None => 0
      end
  end.

(** [while (ptr[0] != c) ptr--;] *)
Fixpoint back_to (s : string) (c : ascii) (off : nat) : option nat :=
  if Ascii.eqb (char_at s off) c then Some off
  else match off with O => None | S off' => back_to s c off' end.

(** One entry behind [off]: its text, and the place of its closing brace.  The array has 128 bytes. *)
Definition cut_entry (array s : string) (off : nat) : M (string * nat) :=
  match strstr_at s off SSID_KEY with
  | None => crash
  | Some ptr1 =>
      match strstr_at s (ptr1 + String.length SSID_KEY) SSID_KEY with
      | None => crash
      | Some ptr2 =>
          match back_to s "}" ptr2 with
          | None => crash
          | Some ptr2 =>
              let len := Z.of_nat ptr2 - Z.of_nat ptr1 + 1 in
              if len <? 0 then crash
              else
                _ ← when (128 <=? len) (emit (Overrun array len));
                mret (stake (Z.to_nat len) (sdrop ptr1 s), ptr2)
          end
      end
  end.

Definition PAGE_HEADER : string := "{" +:+ quoted "scanresults" +:+ ":[".

Definition more_page (ssid1 ssid2 : string) : string :=
  PAGE_HEADER +:+ ssid1 +:+ ", " +:+ ssid2 +:+ "], " +:+ quoted "more" +:+ ":" +:+ quoted "true" +:+ "}".

(** [case SCAN_MORE] *)
Definition scan_more (s : string) (off : nat) (count : Z) (p : prov) : M (option string * bool * prov) :=
  if count <=? 2 then
    match strstr_at s off SSID_KEY with
    | None => crash
    | Some ptr =>
        mret (Some (snprintf 512 (PAGE_HEADER +:+ sdrop ptr s)), true, set_scan (Some s) SCAN_INIT Null 0 p)
    end
  else
    '(ssid1, ptr) ← cut_entry "ssid1" s off;
    '(ssid2, ptr) ← cut_entry "ssid2" s ptr;
    let count := count - 2 in
    mret (Some (snprintf 512 (more_page ssid1 ssid2)), true,
          if count =? 0 then set_scan (Some s) SCAN_INIT Null 0 p else set_scan (Some s) SCAN_MORE (At ptr) count p).

(** [case SCAN_START] *)
Definition scan_start (s : string) (off : nat) (p : prov) : M (option string * bool * prov) :=
  let t := sdrop off s in
  let count := count_keys (S (String.length t)) t in
  if count <=? 2 then mret (Some s, true, set_scan (Some s) SCAN_INIT Null count p)
  else scan_more s off count p.

(** Reading the file at the start: the buffer and the pointer afterwards. *)
Definition scan_read (p : prov) : M (option string * scan_ptr) :=
  st ← stat WIFI_SCAN_FILE;
  if match st with Some size => 0 <? size | None => false end then
    f ← fopen_r WIFI_SCAN_FILE;
    match f with
    | Some s =>
        let stale := match wifiScanPtr p with At _ => Dangling | q => q end in
        m ← malloc_ok;
        if m : bool then mret (Some (cstr s), At 0) else mret (None, stale)
    | None => mret (wifiScanResults p, wifiScanPtr p)
    end
  else mret (wifiScanResults p, wifiScanPtr p).

Definition UpdateWifiScanResults (internal : bool) (now : Z) (p : prov) : M (option string * bool * prov) :=
  let p := if internal then set_scan (wifiScanResults p) SCAN_INIT (wifiScanPtr p) (wifiScanCount p) p
           else set_activity now p in
  match wifiScanState p with
  | SCAN_INIT =>
      '(results, ptr) ← scan_read p;
      let p := set_scan results SCAN_INIT ptr (wifiScanCount p) p in
      match ptr with
      | Null => mret (None, false, p)
      | _ =>
          match results with
          | None => crash
          | Some s =>
              if internal then mret (Some s, false, p)
              else match ptr with At off => scan_start s off p | _ => crash end
          end
      end
  | SCAN_START =>
      match wifiScanResults p, wifiScanPtr p with Some s, At off => scan_start s off p | _, _ => crash end
  | SCAN_MORE =>
      match wifiScanResults p, wifiScanPtr p with
      | Some s, At off => scan_more s off (wifiScanCount p) p
      | _, _ => crash
      end
  end.

(** ** Requests *)

(** True while provisioning goes on. *)
Definition timeout_handler (now : Z) (p : prov) : bool := now <=? wifiActivity p + PROV_IDLE_TIMEOUT.

Inductive request :=
| ReadScan (internal : bool)
| ReadStatus (internal : bool)
| WriteSSID (value : list Z)
| WriteAuthType (value : list Z)
| WritePasswd (value : list Z).

Definition prov_step (r : request) (now : Z) (p : prov) : M (option string * bool * prov) :=
  match r with
  | ReadScan i => UpdateWifiScanResults i now p
  | ReadStatus i => UpdateWifiStatus i now p
  | WriteSSID v => '(b, p) ← ValidateWifiSSID v now p; mret (None, b, p)
  | WriteAuthType v => '(b, p) ← ValidateWifiAuthType v now p; mret (None, b, p)
  | WritePasswd v => '(b, p) ← ValidateWifiPasswd v now p; mret (None, b, p)
  end.

(** The main loop on a sequence of requests with their times: the replies, and the variables. *)
Fixpoint prov_run (rs : list (request * Z)) (p : prov) : M (list (option string * bool) * prov) :=
  match rs with
  | [] => mret ([], p)
  | (r, now) :: rs' =>
      '(v, b, p) ← prov_step r now p;
      '(vs, p) ← prov_run rs' p;
      mret ((v, b) :: vs, p)
  end.

End Callbacks.

(** ** Well-formed variables *)

(** The configuration: the strings end inside their arrays, and the arrays of the passwords hold bytes. *)
Record arrays_ok (p : prov) : Prop := {
  ok_ssid : Z.of_nat (String.length (wifiSSID p)) <= MAX_SSID_LEN;
  ok_auth : (String.length (wifiAuthType p) < 16)%nat;
  ok_passwd : List.length (wifiPasswd p) = 64%nat /\ Forall is_byte (wifiPasswd p);
  ok_len : 0 <= wifiPasswdLen p <= MAX_PASSWD_LEN;
  ok_lssid : Z.of_nat (String.length (lastSSID p)) <= MAX_SSID_LEN;
  ok_lauth : (String.length (lastAuthType p) < 16)%nat;
  ok_lpasswd : List.length (lastPasswd p) = 64%nat /\ Forall is_byte (lastPasswd p);
  ok_llen : 0 <= lastPasswdLen p <= MAX_PASSWD_LEN }.

(** The scan: between requests it has not just started, and a pointer points into the text, which is there while pages are left. *)
Record scan_ok (p : prov) : Prop := {
  ok_state : wifiScanState p <> SCAN_START;
  ok_ptr : match wifiScanPtr p with
           | Null => True
           | At off => exists s, wifiScanResults p = Some s /\ (off <= String.length s)%nat
           | Dangling => False
           end;
  ok_more : wifiScanState p = SCAN_MORE -> wifiScanPtr p <> Null /\ 0 < wifiScanCount p }.

(** All variables. *)
Record prov_ok (p : prov) : Prop := {
  ok_arrays : arrays_ok p;
  ok_status : (String.length (wifiStatus p) < 24)%nat;
  ok_scan : scan_ok p }.

Lemma arrays_init_ok now : arrays_ok (prov_init now).
Proof.
  assert (List.length (replicate 64 0) = 64%nat /\ Forall is_byte (replicate 64 0)) as Hr.
  { split; [done|]. apply Forall_replicate. unfold is_byte. lia. }
  constructor; cbn [wifiSSID wifiAuthType wifiPasswd wifiPasswdLen lastSSID lastAuthType lastPasswd lastPasswdLen prov_init];
    try done; unfold MAX_SSID_LEN, MAX_PASSWD_LEN; cbn; lia.
Qed.

(** Setters that leave the arrays of the configuration alone. *)
Lemma arrays_ok_activity now p : arrays_ok p -> arrays_ok (set_activity now p).
Proof. by intros []. Qed.
Lemma arrays_ok_status s p : arrays_ok p -> arrays_ok (set_status s p).
Proof. by intros []. Qed.
Lemma arrays_ok_scan r st ptr n p : arrays_ok p -> arrays_ok (set_scan r st ptr n p).
Proof. by intros []. Qed.
#[export] Hint Resolve arrays_ok_activity arrays_ok_status arrays_ok_scan : hub.

Lemma str_of_bytes_length l : String.length (str_of_bytes l) = List.length l.
Proof. induction l; cbn; by f_equal. Qed.

Lemma cstr_length s : (String.length (cstr s) <= String.length s)%nat.
Proof. induction s as [|c s IH]; cbn; [done|]. destruct (Ascii.eqb c NUL); cbn; lia. Qed.

Lemma dash_length s : String.length (dash_to_underscore s) = String.length s.
Proof. induction s as [|c s IH]; cbn; [done|]. destruct (Ascii.eqb c "-"); cbn; by rewrite ?IH. Qed.

Lemma overwrite_ok dst src : List.length dst = 64%nat /\ Forall is_byte dst -> Forall is_byte src ->
  (List.length src <= 64)%nat -> List.length (overwrite dst src) = 64%nat /\ Forall is_byte (overwrite dst src).
Proof.
  intros [Hl Hb] Hs Hn. unfold overwrite. split; [rewrite length_app, length_drop; lia|].
  apply Forall_app. split; [done|]. by apply Forall_drop.
Qed.

Lemma trim_ok n l : Forall is_byte l -> List.length (trim n l) = List.length l /\ Forall is_byte (trim n l).
Proof.
  revert l. induction n as [|n IH]; intros [|x l] H; try done. cbn. forall_hyps. destruct (isprint x); [|split; [done|]].
  - destruct (IH l) as [H1 H2]; [done|]. split; [cbn; by rewrite H1|]. by constructor.
  - constructor; [unfold is_byte; lia|done].
Qed.

(** ** The key *)

Lemma mac_byte_byte m k : is_byte (mac_byte m k).
Proof.
  unfold mac_byte. change 0xFF with (Z.ones 8). rewrite Z.land_ones by lia. unfold is_byte. apply Z.mod_pos_bound. lia.
Qed.

Lemma wifi_aes_key_bytes m : Forall is_byte (wifi_aes_key m).
Proof.
  unfold wifi_aes_key. repeat (apply Forall_cons_2; [first [apply mac_byte_byte | by vm_compute]|]). apply Forall_nil_2.
Qed.

Lemma wifi_iv_block : block wifi_iv.
Proof. split; [done|]. bytes_ok. Qed.

Lemma init_ctx_iv key : AES_init_ctx_iv key wifi_iv = mkCtx (KeyExpansion key) wifi_iv.
Proof. done. Qed.

(** Decrypting a password of up to 64 bytes stays inside its array. *)
Lemma decrypt_ok p key : arrays_ok p -> Forall is_byte key ->
  exists ctx plain, AES_CBC_decrypt_buffer (AES_init_ctx_iv key wifi_iv) (wifiPasswd p) (wifiPasswdLen p) = Some (ctx, plain) /\
    List.length plain = 64%nat /\ Forall is_byte plain.
Proof.
  intros [_ _ [Hl Hb] Hlen _ _ _ _] Hk. destruct (KeyExpansion_bytes key Hk) as [_ Hrk].
  unfold AES_CBC_decrypt_buffer. rewrite init_ctx_iv.
  destruct (proj2 (cbc_decrypt_bounds (KeyExpansion key) (cbc_turns (wifiPasswdLen p)) wifi_iv (wifiPasswd p))) as [[ctx plain] E].
  { pose proof (cbc_turns_ceil (wifiPasswdLen p) (proj1 Hlen)) as Hc. rewrite Hl. unfold MAX_PASSWD_LEN, AES_BLOCKLEN in *. lia. }
  rewrite E. exists ctx, plain. split; [done|].
  destruct (cbc_decrypt_bytes _ Hrk _ _ _ _ _ wifi_iv_block Hb E) as [H1 H2]. by rewrite H1.
Qed.

Section Types.
Context {Ev : Env} (stack beyond : string).

Lemma wp_getMAC old Q w : (forall b d, Q (Val (b, d)) w) -> wp (IRIS_getMACAddr1 old) Q w.
Proof. intros HQ. unfold IRIS_getMACAddr1, read_word. wp_go; apply HQ. Qed.

(** The status and the scan are as they were. *)
Definition keeps_rest (p p' : prov) : Prop :=
  wifiStatus p' = wifiStatus p /\ wifiScanResults p' = wifiScanResults p /\ wifiScanState p' = wifiScanState p /\
  wifiScanPtr p' = wifiScanPtr p /\ wifiScanCount p' = wifiScanCount p.

Lemma updateConfig_ok p w : arrays_ok p ->
  wp (updateConfig stack beyond p) (fun r _ => exists p', r = Val p' /\ arrays_ok p' /\ keeps_rest p p') w.
Proof.
  intros Hp. unfold updateConfig. wp_step; [|apply wp_ret; by exists p]. wp_step. wp_step; cbn [seq_post]; [|apply wp_ret; by exists p].
  wp_step. apply wp_getMAC. intros b d. cbn [seq_post]. wp_step. apply wp_store. intros tr. cbn [seq_post].
  set (key := wifi_aes_key _). destruct (decrypt_ok p key Hp (wifi_aes_key_bytes _)) as (ctx & plain & -> & Hl & Hb).
  destruct (trim_ok (Z.to_nat (wifiPasswdLen p)) plain Hb) as [Htl Htb]. rewrite Hl in Htl.
  assert (arrays_ok (set_last (wifiSSID p) (wifiAuthType p)
    (overwrite (lastPasswd p) (take (Z.to_nat (wifiPasswdLen p)) (trim (Z.to_nat (wifiPasswdLen p)) plain))) (wifiPasswdLen p)
    (set_passwd (trim (Z.to_nat (wifiPasswdLen p)) plain) (wifiPasswdLen p) p))) as Hok.
  { destruct Hp. constructor; try done. apply overwrite_ok; [done|by apply Forall_take|].
    rewrite length_take. lia. }
  wp_step. wp_step; [wp_step|]; cbn [seq_post]; wp_step; apply wp_fwrite; intros n _; cbn [seq_post]; apply wp_ret; by eexists.
Qed.

(** The values a request can carry are bytes. *)
Definition request_ok (r : request) : Prop :=
  match r with WriteSSID v | WriteAuthType v | WritePasswd v => Forall is_byte v | _ => True end.

Definition is_scan (r : request) : Prop := match r with ReadScan _ => True | _ => False end.

(** *** Nothing was stored outside of an array *)

Definition is_overrun (e : event) : bool := match e with Overrun _ _ => true | _ => false end.
Definition clean (w : world) : bool := forallb (fun e => negb (is_overrun e)) (trace w).
Definition dirty (w : world) : Prop := clean w = false.

Lemma dirty_emit e : stable dirty (emit e).
Proof. intros w Hw. unfold dirty, clean in *. cbn [emit snd trace]. by rewrite forallb_app, Hw. Qed.

Lemma dirty_same {A} (m : M A) : (forall w, trace (snd (m w)) = trace w) -> stable dirty m.
Proof. intros Hm w Hw. unfold dirty, clean in *. by rewrite Hm. Qed.

Lemma dirty_store b n t : stable dirty (store_token b n t).
Proof. apply stable_when, dirty_emit. Qed.

Lemma dirty_fopen_w f : stable dirty (fopen_w f).
Proof. apply dirty_same. intros w. unfold fopen_w. by destruct (wr_ok f w). Qed.

Lemma dirty_mac old : stable dirty (IRIS_getMACAddr1 old).
Proof. unfold IRIS_getMACAddr1, read_word. stable_tac; by apply dirty_same. Qed.

Lemma dirty_update p : stable dirty (updateConfig stack beyond p).
Proof.
  unfold updateConfig. repeat first [apply dirty_fopen_w | apply dirty_mac | apply dirty_store | apply dirty_emit | stable_step | by apply dirty_same].
Qed.

(** What holds of the variables and the world after a step, unless something was stored outside of an array. *)
Definition sane (p : prov) (w : world) : Prop := arrays_ok p /\ (clean w = true -> (String.length (wifiStatus p) < 24)%nat /\ scan_ok p).

(** A step that keeps the status and the scan. *)
Lemma sane_kept {A} (m : M A) p w (Q : outcome A -> world -> Prop) : sane p w -> stable dirty m ->
  wp m (fun r w' => (clean w' = true -> clean w = true) -> Q r w') w -> wp m Q w.
Proof.
  intros _ Hd HQ. apply HQ. intros Hc. destruct (clean w) eqn:E; [done|]. specialize (Hd w E). unfold dirty in Hd. congruence.
Qed.

Lemma sane_rest p p' w w' : sane p w -> arrays_ok p' -> keeps_rest p p' -> (clean w' = true -> clean w = true) -> sane p' w'.
Proof.
  intros [_ H] Ha (E1 & E2 & E3 & E4 & E5) Hc. split; [done|]. intros C. destruct (H (Hc C)) as [H1 [H2 H3 H4]].
  rewrite E1. split; [done|]. constructor; by rewrite ?E2, ?E3, ?E4, ?E5.
Qed.

(** A configuration that is written. *)
Lemma update_sane p0 p w : sane p0 w -> arrays_ok p -> keeps_rest p0 p ->
  wp (updateConfig stack beyond p) (fun r w' => exists p', r = Val p' /\ sane p' w') w.
Proof.
  intros Hs Ha Hk. apply (sane_kept _ p0); [done|apply dirty_update|].
  eapply wp_mono; [by apply updateConfig_ok|]. intros r w' (p' & -> & Ha' & Hk') Hc. exists p'. split; [done|].
  apply (sane_rest p0 p' w w'); [done|done| |done]. destruct Hk as (? & ? & ? & ? & ?), Hk' as (? & ? & ? & ? & ?). split_and!; congruence.
Qed.

(** A callback leaves sane variables or ends the program. *)
Definition reply_ok (o : outcome (option string * bool * prov)) (w : world) : Prop :=
  match o with Val (_, _, p') => sane p' w | Crash => True | _ => False end.

Lemma strstr_at_le s off needle n : strstr_at s off needle = Some n -> (n <= String.length s)%nat.
Proof. unfold strstr_at. case_match; [|done]. intros [= <-]. lia. Qed.

Lemma back_to_le s c off n : back_to s c off = Some n -> (n <= off)%nat.
Proof.
  revert n. induction off as [|off IH]; intros n; cbn [back_to]; (destruct (Ascii.eqb _ _); [intros [= <-]; lia|]); [done|].
  intros H%IH. lia.
Qed.

Lemma wp_cut_entry array s off p Q w : sane p w ->
  (forall r n w', (n <= String.length s)%nat -> sane p w' -> Q (Val (r, n)) w') -> (forall w', Q Crash w') -> wp (cut_entry array s off) Q w.
Proof.
  intros Hs H1 H2. unfold cut_entry. destruct (strstr_at s off _) as [p1|]; [|by apply H2].
  destruct (strstr_at s (p1 + _) _) as [p2|] eqn:E2; [|by apply H2]. destruct (back_to s "}" p2) as [p3|] eqn:E3; [|by apply H2].
  apply strstr_at_le in E2. apply back_to_le in E3. cbv zeta. wp_step; [by apply H2|]. wp_step. wp_step; [wp_step|]; cbn [seq_post];
    apply wp_ret; (apply H1; [lia|]); [|done]. eapply sane_rest; [exact Hs|by destruct Hs|done|]. intros C. unfold clean in *. cbn [trace] in C.
  rewrite forallb_app in C. by apply andb_true_iff in C as [C _].
Qed.

Lemma sane_scan r st ptr n p w : sane p w -> scan_ok (set_scan r st ptr n p) -> sane (set_scan r st ptr n p) w.
Proof. intros [Ha H] Hok. split; [by apply arrays_ok_scan|]. intros C. by destruct (H C). Qed.

Lemma scan_more_ok s off n p w : sane p w -> wp (scan_more s off n p) reply_ok w.
Proof.
  intros Hp. unfold scan_more. destruct (Z.leb_spec n 2).
  { case_match; [|done]. apply wp_ret. apply sane_scan; [done|]. by constructor. }
  wp_step. apply (wp_cut_entry _ _ _ p); [done|intros s1 p1 w1 L1 H1|done]. cbn [seq_post]. wp_step.
  apply (wp_cut_entry _ _ _ p); [done|intros s2 p2 w2 L2 H2|done]. cbn [seq_post]. apply wp_ret. cbn.
  rewrite (proj2 (Z.eqb_neq (n - 2) 0)) by lia. apply sane_scan; [done|]. constructor; cbn; [done|by exists s|]. intros _. split; [done|lia].
Qed.

Lemma scan_start_ok s off p w : sane p w -> wp (scan_start s off p) reply_ok w.
Proof.
  intros Hp. unfold scan_start. cbv zeta. wp_step; [|by apply scan_more_ok]. apply wp_ret. apply sane_scan; [done|]. by constructor.
Qed.

Lemma wp_scan_read p Q w : (forall r, (r = (wifiScanResults p, wifiScanPtr p) \/ (exists s, r = (Some s, At 0)) \/ exists q, r = (None, q)) -> Q (Val r) w) ->
  wp (scan_read p) Q w.
Proof.
  intros HQ. unfold scan_read. wp_step. apply wp_stat; intros; cbn [seq_post]; wp_go; apply HQ; eauto.
Qed.

Lemma scan_step_ok i now p w : sane p w -> wp (UpdateWifiScanResults i now p) reply_ok w.
Proof.
  intros Hp. unfold UpdateWifiScanResults. set (q := if i then _ else _). assert (sane q w) as Hq.
  { subst q. destruct i; [|apply (sane_rest p _ w w); [done|apply arrays_ok_activity; by destruct Hp|done|done]]. destruct Hp as [Ha H]. split; [by apply arrays_ok_scan|].
    intros C. destruct (H C) as [H1 [_ H2 _]]. split; [done|]. by constructor. }
  clearbody q. destruct (wifiScanState q) eqn:Est.
  2: { repeat (case_match; try done). by apply scan_start_ok. }
  2: { repeat (case_match; try done). by apply scan_more_ok. }
  wp_step. apply wp_scan_read. intros [results ptr] Hr. cbn [seq_post]. set (q' := set_scan results SCAN_INIT ptr _ q).
  assert (match ptr, results with Null, _ => True | _, Some _ => True | _, _ => False end -> sane q' w) as Hq'.
  { intros Hv. destruct Hq as [Ha H]. split; [by apply arrays_ok_scan|]. intros C. destruct (H C) as [H1 [_ H2 _]]. split; [done|].
    constructor; [done| |done]. cbn. destruct Hr as [[= -> ->] | [[s [= -> ->]] | [x [= -> ->]]]]; [done|exists s; split; [done|lia]|by destruct x]. }
  destruct ptr as [|off|]; [apply wp_ret; by apply Hq'|..]; (destruct results; [|done]); (destruct i; [apply wp_ret; by apply Hq'|]); [|done].
  apply scan_start_ok. by apply Hq'.
Qed.

Lemma prov_step_ok r now p w : request_ok r -> sane p w ->
  wp (prov_step stack beyond r now p)
    (fun o w' => match o with Val (_, _, p') => sane p' w' | Crash => is_scan r | _ => False end) w.
Proof.
  intros Hr Hp. assert (arrays_ok (set_activity now p)) as Ha by (apply arrays_ok_activity; by destruct Hp).
  destruct r as [i|i|v|v|v]; cbn [prov_step is_scan].
  - eapply wp_mono; [by apply scan_step_ok|]. by intros [[[? ?] ?]|?|?|].
  - unfold UpdateWifiStatus. set (q := if i then p else _). assert (sane q w) as Hq by (subst q; destruct i; [done|by apply (sane_rest p _ w w)]).
    clearbody q. wp_step. wp_step; cbn [seq_post]; [|by apply wp_ret]. wp_step. set (st := default "" (scan_s s)).
    assert (forall w', (clean w' = true -> (String.length st < 24)%nat /\ clean w = true) -> sane (set_status st q) w') as Hst.
    { intros w' H'. destruct Hq as [Hqa Hq]. split; [by apply arrays_ok_status|]. intros C. destruct (H' C) as [H1 H2]. split; [done|].
      destruct (Hq H2) as [_ [? ? ?]]. by constructor. }
    unfold store_token. destruct (Nat.leb_spec 24 (String.length st)) as [Hl|Hl]; cbn [when].
    + wp_step. cbn [seq_post]. assert (sane (set_status st q) (World (fs w) (trace w ++ [Overrun "wifiStatus" (Z.of_nat (String.length st))]))).
      { apply Hst. unfold clean. cbn [trace]. rewrite forallb_app. cbn. by rewrite andb_false_r. }
      case_if; by apply wp_ret.
    + apply wp_ret. cbn [seq_post]. assert (sane (set_status st q) w) by by apply Hst. case_if; by apply wp_ret.
  - unfold ValidateWifiSSID. cbv zeta. wp_step. wp_step; [apply wp_ret; cbn [seq_post]; apply wp_ret; by apply (sane_rest p _ w w)|]. wp_step.
    to_prop. eapply wp_mono; [apply (update_sane p); [done| |done]|intros ? ? (p' & -> & Hp'); cbn [seq_post]; by do 2 (apply wp_ret; cbn [seq_post])].
    destruct Ha. constructor; try done. cbn. pose proof (cstr_length (str_of_bytes v)). rewrite str_of_bytes_length in *. lia.
  - unfold ValidateWifiAuthType. cbv zeta. wp_step. wp_step; [|apply wp_ret; cbn [seq_post]; apply wp_ret; by apply (sane_rest p _ w w)]. wp_step.
    eapply wp_mono; [apply (update_sane p); [done| |done]|intros ? ? (p' & -> & Hp'); cbn [seq_post]; by do 2 (apply wp_ret; cbn [seq_post])].
    destruct Ha. constructor; try done. cbn. rewrite dash_length.
    pose proof (cstr_length (str_of_bytes v)) as Hc. rewrite str_of_bytes_length in Hc.
    enough (List.length v < 16)%nat by lia. unfold auth_is in *.
    repeat match goal with H : _ || _ = true |- _ => apply orb_true_iff in H as [H|H] end; to_prop; cbn in *; lia.
  - unfold ValidateWifiPasswd. cbv zeta. wp_step. wp_step; [apply wp_ret; cbn [seq_post]; apply wp_ret; by apply (sane_rest p _ w w)|]. wp_step.
    to_prop. eapply wp_mono; [apply (update_sane p); [done| |done]|intros ? ? (p' & -> & Hp'); cbn [seq_post]; by do 2 (apply wp_ret; cbn [seq_post])].
    unfold MAX_PASSWD_LEN in *. destruct Ha. constructor; try done; cbn.
    + apply overwrite_ok; [done|done|lia].
    + unfold MAX_PASSWD_LEN. lia.
Qed.

(** C33. Whatever sequence of requests a phone makes, as long as nothing was stored outside of an array the variables of wifi_prov are
    well-formed: the strings of the SSID, the authentication and the status end inside their arrays, the password arrays
    hold 64 bytes and their lengths are at most 64, and the pointer of the scan points into the text that was read, with
    networks left whenever pages are left.  Only a request for scan results can end the program. *)
Theorem prov_well_formed rs now w : Forall (fun r => request_ok (fst r)) rs ->
  wp (prov_run stack beyond rs (prov_init now))
    (fun o w' => clean w' = true ->
       match o with Val (_, p) => prov_ok p | Crash => Exists (fun r => is_scan (fst r)) rs | _ => False end) w.
Proof.
  intros Hrs. assert (sane (prov_init now) w) as Hp.
  { split; [apply arrays_init_ok|]. intros _. split; [cbn; lia|]. by constructor. }
  revert Hp. generalize (prov_init now) as p. intros p Hp.
  revert p w Hp. induction Hrs as [|[r t] rs Hr Hrs IH]; intros p w Hp.
  { apply wp_ret. destruct Hp as [Ha H]. intros C. destruct (H C). by constructor. }
  cbn [prov_run]. wp_step.
  eapply wp_mono; [by apply prov_step_ok|]. intros [[[v b] p']|?|?|] w' Ho; try done; cbn [seq_post]; [|by intros _; apply Exists_cons_hd].
  wp_step. eapply wp_mono; [by apply IH|]. intros [[vs p'']|?|?|] w'' Ho'; cbn [seq_post]; [by apply wp_ret|done..|].
  intros C. by apply Exists_cons_tl, Ho'.
Qed.
End Types.

(** ** A configuration sent by a phone *)

Fixpoint bytes_of_str (s : string) : list Z :=
  match s with EmptyString => [] | String c s' => Z.of_N (N_of_ascii c) :: bytes_of_str s' end.

Lemma str_bytes s : str_of_bytes (bytes_of_str s) = s.
Proof. induction s as [|c s IH]; cbn; [done|]. rewrite IH. unfold char_of. by rewrite N2Z.id, ascii_N_embedding. Qed.

Lemma bytes_of_str_bytes s : Forall is_byte (bytes_of_str s).
Proof.
  induction s as [|c s IH]; cbn; constructor; [|done]. unfold is_byte. pose proof (N_ascii_bounded c). lia.
Qed.

Lemma bytes_of_str_length s : List.length (bytes_of_str s) = String.length s.
Proof. induction s; cbn; by f_equal. Qed.

Lemma str_of_bytes_app l k : str_of_bytes (l ++ k) = str_of_bytes l +:+ str_of_bytes k.
Proof. induction l; cbn; [done|]. by f_equal. Qed.

Definition printable (s : string) : bool := forallb isprint (bytes_of_str s).

Lemma printable_nul_free s : printable s = true -> nul_free s = true.
Proof.
  unfold printable, nul_free. induction s as [|c s IH]; cbn; [done|]. intros H. apply andb_true_iff in H as [Hc Hs].
  rewrite IH by done. rewrite andb_true_r. apply negb_true_iff, Ascii.eqb_neq. intros ->. done.
Qed.

Lemma nul_free_nul a b : nul_free (a +:+ String NUL b) = false.
Proof. unfold nul_free. rewrite all_chars_app. cbn. apply andb_false_r. Qed.

Lemma trim_printable pw x t n : forallb isprint pw = true -> isprint x = false -> (List.length pw < n)%nat ->
  trim n (pw ++ x :: t) = (pw ++ 0 :: t)%list.
Proof.
  revert n. induction pw as [|y pw IH]; intros n Hp Hx Hn; (destruct n as [|n]; [lia|]); cbn in *; [by rewrite Hx|].
  apply andb_true_iff in Hp as [Hy Hp]. rewrite Hy. rewrite IH; [done..|lia].
Qed.

(** The authentication types a phone can choose. *)
Definition auth_names : list string := ["None"; "WEP"; "WPA-PSK"; "WPA2-PSK"].

Section Writes.
Context {Ev : Env} (stack beyond : string).

Lemma updateConfig_not_ready p w : config_ready p = false -> updateConfig stack beyond p w = (Val p, w).
Proof. intros H. unfold updateConfig. by rewrite H. Qed.

(** The variables a write changes before the configuration is looked at. *)
Definition written (r : request) (now : Z) (p : prov) : prov :=
  match r with
  | WriteSSID v => set_ssid (cstr (str_of_bytes v)) (set_activity now p)
  | WriteAuthType v => set_auth (dash_to_underscore (cstr (str_of_bytes v))) (set_activity now p)
  | WritePasswd v => set_passwd (overwrite (wifiPasswd p) v) (Z.of_nat (List.length v)) (set_activity now p)
  | _ => p
  end.

(** A write that passes the test of its callback. *)
Definition acceptable (r : request) : bool :=
  match r with
  | WriteSSID v => (List.length v <=? 32)%nat
  | WriteAuthType v => auth_is v "None" || auth_is v "WEP" || auth_is v "WPA-PSK" || auth_is v "WPA2-PSK"
  | WritePasswd v => (List.length v <=? 64)%nat
  | _ => false
  end.

Lemma step_written r now p w1 : acceptable r = true ->
  prov_step stack beyond r now p w1 = (p' ← updateConfig stack beyond (written r now p); mret (None, true, p')) w1.
Proof.
  intros Ha. destruct r as [i|i|v|v|v]; try done; cbn [acceptable] in Ha; cbn [prov_step written].
  - unfold ValidateWifiSSID, MAX_SSID_LEN. to_prop. cbv zeta. rewrite (proj2 (Z.ltb_ge _ _)) by lia.
    unfold mbind, M_bind. by destruct (updateConfig _ _ _ w1) as [[] ?].
  - unfold ValidateWifiAuthType. cbv zeta. rewrite Ha. unfold mbind, M_bind. by destruct (updateConfig _ _ _ w1) as [[] ?].
  - unfold ValidateWifiPasswd, MAX_PASSWD_LEN. to_prop. cbv zeta. rewrite (proj2 (Z.ltb_ge _ _)) by lia.
    unfold mbind, M_bind. by destruct (updateConfig _ _ _ w1) as [[] ?].
Qed.

Lemma not_ready p : wifiSSID p = "" \/ wifiAuthType p = "" \/ wifiPasswdLen p = 0 -> config_ready p = false.
Proof.
  unfold config_ready. intros [-> | [-> | ->]].
  - done.
  - cbn [String.eqb negb]. by rewrite andb_false_r.
  - cbn [Z.eqb negb]. by rewrite andb_false_r.
Qed.

(** A write after which something is still missing. *)
Lemma step_incomplete r now p w1 : acceptable r = true ->
  (let p' := written r now p in wifiSSID p' = "" \/ wifiAuthType p' = "" \/ wifiPasswdLen p' = 0) ->
  prov_step stack beyond r now p w1 = (Val (None, true, written r now p), w1).
Proof.
  intros Ha Hm. rewrite step_written by done.
  erewrite bind_val by (apply updateConfig_not_ready; by apply not_ready). done.
Qed.
End Writes.

Section Config.
Context {Ev : Env} (Hh : healthy) (stack beyond : string).

(** What the hub makes of a password that was encrypted for it. *)
Lemma decrypt_password key pw pad cipher ctx' old :
  Forall is_byte key -> (String.length pw < List.length (bytes_of_str pw ++ pad))%nat ->
  Forall is_byte pad -> Forall is_byte old -> (List.length (bytes_of_str pw ++ pad) mod 16 = 0)%nat ->
  AES_CBC_encrypt_buffer (AES_init_ctx_iv key wifi_iv) (bytes_of_str pw ++ pad) (Z.of_nat (List.length (bytes_of_str pw ++ pad))) =
    Some (ctx', cipher) ->
  List.length cipher = List.length (bytes_of_str pw ++ pad) /\
  AES_CBC_decrypt_buffer (AES_init_ctx_iv key wifi_iv) (cipher ++ old) (Z.of_nat (List.length (bytes_of_str pw ++ pad))) =
    Some (ctx', (bytes_of_str pw ++ pad) ++ old)%list.
Proof.
  intros Hk Hlt Hpad Hold Hmod He. set (plain := (bytes_of_str pw ++ pad)%list) in *.
  destruct (KeyExpansion_bytes key Hk) as [_ Hrk].
  assert (Forall is_byte plain) as Hb by (apply Forall_app; split; [apply bytes_of_str_bytes|done]).
  set (turns := cbc_turns (Z.of_nat (List.length plain))).
  assert (AES_BLOCKLEN * turns = List.length plain)%nat as Ht.
  { pose proof (cbc_turns_ceil (Z.of_nat (List.length plain)) ltac:(lia)) as Hc. fold turns in Hc.
    pose proof (Nat.div_mod_eq (List.length plain) 16) as Hd. rewrite Hmod in Hd. unfold AES_BLOCKLEN in *.
    clear - Hc Hd. clearbody turns. lia. }
  unfold AES_CBC_encrypt_buffer in He. rewrite init_ctx_iv in *. fold turns in He. cbn [Aes.RoundKey Aes.Iv] in He.
  destruct (cbc_encrypt_loop turns (KeyExpansion key) wifi_iv plain) as [[iv' out]|] eqn:E; [|done].
  cbn [mbind option_bind] in He. injection He as <- <-.
  destruct (cbc_loops _ Hrk turns wifi_iv plain wifi_iv_block Hb ltac:(lia)) as (iv1 & o1 & E1 & Hl1 & _ & _).
  rewrite E in E1. injection E1 as <- <-. split; [done|].
  destruct (cbc_loops _ Hrk turns wifi_iv (plain ++ old)%list wifi_iv_block) as (iv2 & o2 & E2 & _ & _ & Hd);
    [by apply Forall_app|rewrite length_app; lia|].
  rewrite (cbc_encrypt_app _ _ _ _ old _ _ (Nat.eq_le_incl _ _ Ht) E) in E2. injection E2 as <- <-. exact Hd.
Qed.

(** The variables after the three values have arrived, in whatever order. *)
Definition received (ssid auth : string) (cipher : list Z) (p : prov) : Prop :=
  wifiSSID p = ssid /\ wifiAuthType p = auth /\ wifiPasswd p = overwrite (replicate 64 0) cipher /\
  wifiPasswdLen p = Z.of_nat (List.length cipher) /\ lastSSID p = "" /\ lastAuthType p = "" /\ lastPasswd p = replicate 64 0.

Lemma mac_digits_app mac r : String.length mac = 17%nat -> mac_digits (mac +:+ r) = mac_digits mac.
Proof.
  intros H. do 17 (destruct mac as [|? mac]; [done|]). by destruct mac.
Qed.

Context (w : world) (Hw : plain w) (mac file : string).
Context (Hfile : get MAC_ADDR1_FILE w = Some file) (Hscan : scan_s file = Some mac) (Hmac : String.length mac = 17%nat).

Definition hub_key : list Z := wifi_aes_key (strtoull16 (mac_digits mac)).

Lemma updateConfig_writes p ssid auth pw x pad ctx' cipher :
  received ssid auth cipher p -> config_ready p = true ->
  printable pw = true -> isprint x = false -> Forall is_byte (x :: pad) ->
  (List.length (bytes_of_str pw ++ x :: pad) mod 16 = 0)%nat -> (List.length (bytes_of_str pw ++ x :: pad) <= 64)%nat ->
  (String.length ssid <= 32)%nat -> (String.length auth <= 15)%nat ->
  AES_CBC_encrypt_buffer (AES_init_ctx_iv hub_key wifi_iv) (bytes_of_str pw ++ x :: pad)
    (Z.of_nat (List.length (bytes_of_str pw ++ x :: pad))) = Some (ctx', cipher) ->
  wp (updateConfig stack beyond p)
    (fun r w' => get TEST_WIFI_CFG_FILE w' = Some (config_text ssid auth pw) /\ trace w' = trace w /\
       exists p', r = Val p' /\ wifiSSID p' = ssid /\ lastSSID p' = ssid) w.
Proof.
  intros (Hss & Hau & Hp & Hpl & _) Hr Hpw Hx Hpad Hmod Hlen Hs Ha He. subst ssid auth.
  set (pb := (bytes_of_str pw ++ x :: pad)%list) in *.
  assert (String.length pw < List.length pb)%nat as Hlt.
  { subst pb. rewrite length_app, bytes_of_str_length. cbn. lia. }
  destruct (decrypt_password hub_key pw (x :: pad) cipher ctx' (drop (List.length cipher) (replicate 64 0))) as [Hcl Hd]; try done.
  { apply wifi_aes_key_bytes. }
  { apply Forall_drop, Forall_replicate. unfold is_byte. lia. }
  fold pb in Hcl, Hd. unfold updateConfig. rewrite Hr. wp_step. apply (wp_fopen_w_ok Hh). cbn [seq_post].
  wp_step. unfold IRIS_getMACAddr1, read_word. wp_step. apply (wp_fopen_r_some Hh _ file).
  { rewrite get_put_ne; [done|]. by rewrite !resolve_plain. }
  cbn [seq_post]. apply wp_ret. rewrite Hscan. cbn [seq_post]. unfold store_token.
  rewrite (proj2 (Nat.leb_gt 512 (String.length mac))) by (rewrite Hmac; lia). wp_step. apply wp_ret. cbn [seq_post].
  rewrite mac_digits_app by done. fold hub_key. rewrite Hp, Hpl, Hcl. unfold overwrite. rewrite Hd.
  rewrite Nat2Z.id.
  assert (forall t, trim (List.length pb) (pb ++ t) = (bytes_of_str pw ++ 0 :: pad ++ t)%list) as Htrim.
  { intros t. unfold pb at 2. rewrite <- app_assoc, <- app_comm_cons.
    by apply trim_printable; [..|rewrite bytes_of_str_length]. }
  rewrite Htrim. cbv zeta. rewrite str_of_bytes_app, str_bytes. cbn [str_of_bytes]. change (char_of 0) with NUL.
  pose proof (printable_nul_free pw Hpw) as Hnf.
  rewrite nul_free_nul. wp_step. apply wp_ret. cbn [seq_post]. rewrite cstr_app by done.
  assert (String.length (config_text (wifiSSID p) (wifiAuthType p) pw) < 512)%nat as Htl.
  { unfold config_text. repeat (rewrite slen_app || cbn [String.length String.append]). lia. }
  rewrite snprintf_id by done. wp_step. apply (wp_fwrite_ok Hh). cbn [seq_post]. apply wp_ret.
  rewrite !get_put_eq. split; [done|]. split; [done|]. eexists. split; [done|]. by cbn.
Qed.

Lemma received_ready ssid auth cipher p : received ssid auth cipher p -> ssid <> "" -> auth <> "" ->
  (0 < List.length cipher <= 64)%nat -> cipher <> replicate (List.length cipher) 0 -> config_ready p = true.
Proof.
  unfold config_ready. intros (-> & -> & -> & -> & -> & -> & ->) Hs Ha Hl Hc.
  rewrite (proj2 (String.eqb_neq ssid "")), (proj2 (String.eqb_neq auth "")) by done.
  rewrite (proj2 (Z.eqb_neq _ 0)) by lia. cbn [andb negb]. apply negb_true_iff, bool_decide_eq_false. rewrite Nat2Z.id.
  unfold overwrite. rewrite take_app_length, take_replicate. by rewrite Nat.min_l by lia.
Qed.

Lemma run_incomplete r now rs p w1 : acceptable r = true ->
  (let p' := written r now p in wifiSSID p' = "" \/ wifiAuthType p' = "" \/ wifiPasswdLen p' = 0) ->
  forall Q, (wp (prov_run stack beyond rs (written r now p)) (fun o w' => match o with Val (_, p') => Q p' w' | _ => False end) w1) ->
  wp (prov_run stack beyond ((r, now) :: rs) p) (fun o w' => match o with Val (_, p') => Q p' w' | _ => False end) w1.
Proof.
  intros Ha Hm Q HQ. cbn [prov_run]. unfold wp in *. erewrite bind_val by (by apply step_incomplete).
  unfold mbind, M_bind. by destruct (prov_run _ _ rs _ w1) as [[[vs p']| | |] w2].
Qed.

Lemma run_last r now p (Q : world -> Prop) : acceptable r = true ->
  wp (updateConfig stack beyond (written r now p)) (fun o w' => exists p', o = Val p' /\ Q w') w ->
  wp (prov_run stack beyond [(r, now)] p) (fun o w' => match o with Val (_, p') => Q w' | _ => False end) w.
Proof.
  intros Ha (p' & He & HQ). unfold wp. cbn [prov_run].
  assert (prov_step stack beyond r now p w = (Val (None, true, p'), snd (updateConfig stack beyond (written r now p) w))) as Hst.
  { rewrite step_written by done. unfold mbind, M_bind. destruct (updateConfig _ _ _ w). cbn in He. by rewrite He. }
  erewrite bind_val by exact Hst. exact HQ.
Qed.

Lemma auth_facts auth : auth ∈ auth_names ->
  acceptable (WriteAuthType (bytes_of_str auth)) = true /\ dash_to_underscore auth <> "" /\
  (String.length (dash_to_underscore auth) <= 15)%nat /\ cstr auth = auth.
Proof.
  intros H. unfold auth_names in H. repeat (apply elem_of_cons in H as [-> | H]; [split_and!; first [by vm_compute | vm_compute; lia]|]).
  by apply not_elem_of_nil in H.
Qed.

(** C25. A configuration a phone sends arrives: the name, the type of authentication and the password, encrypted in CBC
    mode under the key of this hub and padded with bytes that are not printable, are written to the configuration file in
    the form the hub tests, in whatever order the three values are sent; no array is overrun. *)
Theorem wifi_config_roundtrip ssid auth pw x pad ctx' cipher rs t1 t2 t3 now :
  printable ssid = true -> ssid <> "" -> (String.length ssid <= 32)%nat -> auth ∈ auth_names ->
  printable pw = true -> isprint x = false -> Forall is_byte (x :: pad) ->
  (List.length (bytes_of_str pw ++ x :: pad) mod 16 = 0)%nat -> (List.length (bytes_of_str pw ++ x :: pad) <= 64)%nat ->
  AES_CBC_encrypt_buffer (AES_init_ctx_iv hub_key wifi_iv) (bytes_of_str pw ++ x :: pad)
    (Z.of_nat (List.length (bytes_of_str pw ++ x :: pad))) = Some (ctx', cipher) ->
  cipher <> replicate (List.length cipher) 0 ->
  rs ∈ permutations [(WriteSSID (bytes_of_str ssid), t1); (WriteAuthType (bytes_of_str auth), t2); (WritePasswd cipher, t3)] ->
  wp (prov_run stack beyond rs (prov_init now))
    (fun o w' => match o with
                 | Val (_, p') => get TEST_WIFI_CFG_FILE w' = Some (config_text ssid (dash_to_underscore auth) pw) /\
                                  trace w' = trace w
                 | _ => False end) w.
Proof.
  intros Hssid Hs1 Hs2 Hauth Hpw Hx Hpad Hmod Hlen He Hz Hrs.
  destruct (auth_facts auth Hauth) as (Aa & An & Al & Ac).
  assert (cstr (str_of_bytes (bytes_of_str ssid)) = ssid) as Vs by (rewrite str_bytes; by apply cstr_nul_free, printable_nul_free).
  assert (cstr (str_of_bytes (bytes_of_str auth)) = auth) as Va by (by rewrite str_bytes).
  assert (acceptable (WriteSSID (bytes_of_str ssid)) = true) as As.
  { cbn. rewrite bytes_of_str_length. by apply Nat.leb_le. }
  destruct (decrypt_password hub_key pw (x :: pad) cipher ctx' []) as [Hcl _]; try done.
  { apply wifi_aes_key_bytes. }
  { rewrite length_app, bytes_of_str_length. cbn. lia. }
  assert (acceptable (WritePasswd cipher) = true) as Ap by (cbn; rewrite Hcl; by apply Nat.leb_le).
  assert (0 < List.length cipher <= 64)%nat as Hc by (rewrite Hcl, length_app in *; cbn in *; lia).
  assert (forall p, received ssid (dash_to_underscore auth) cipher p -> wp (updateConfig stack beyond p) (fun o w' => exists p', o = Val p' /\
    (get TEST_WIFI_CFG_FILE w' = Some (config_text ssid (dash_to_underscore auth) pw) /\ trace w' = trace w)) w) as Hend.
  { intros p Hp. eapply wp_mono; [by apply (updateConfig_writes p ssid (dash_to_underscore auth) pw x pad ctx' cipher);
      [|apply (received_ready ssid (dash_to_underscore auth) cipher)|..]|]. intros r w' (H1 & H2 & p' & -> & _). eauto. }
  cbn [permutations interleave fmap list_fmap mbind list_bind app] in Hrs.
  repeat (apply elem_of_cons in Hrs as [-> | Hrs];
    [do 2 (apply run_incomplete; [done|cbn; auto|]); apply run_last; [done|]; apply Hend; unfold received; cbn; by rewrite ?Vs, ?Va|]).
  by apply not_elem_of_nil in Hrs.
Qed.
End Config.

(** ** A second attempt *)

Section Retry.
Context {Ev : Env} (stack beyond : string).

Lemma same_name_not_ready p : wifiSSID p = lastSSID p -> config_ready p = false.
Proof. intros E. unfold config_ready. rewrite E, String.eqb_refl. cbn [negb]. by rewrite andb_false_r. Qed.

(** A configuration that was written is remembered. *)
Lemma updateConfig_remembers p w p' w' :
  config_ready p = true -> wr_ok TEST_WIFI_CFG_FILE w = true -> updateConfig stack beyond p w = (Val p', w') ->
  wifiSSID p' = wifiSSID p /\ lastSSID p' = wifiSSID p.
Proof.
  intros Hr Hw He.
  enough (wp (updateConfig stack beyond p) (fun o _ => forall q, o = Val q -> wifiSSID q = wifiSSID p /\ lastSSID q = wifiSSID p) w) as H.
  { unfold wp in H. rewrite He in H. by apply H. }
  unfold updateConfig. rewrite Hr. wp_step. apply wp_fopen_w; [intros _|by rewrite Hw]. cbn [seq_post].
  wp_step. apply wp_getMAC. intros b d. cbn [seq_post]. wp_step. apply wp_store. intros tr. cbn [seq_post].
  destruct (AES_CBC_decrypt_buffer _ _ _) as [[ctx plain]|]; [|wp_go; done].
  wp_step. wp_step; [wp_step|]; cbn [seq_post]; wp_step; apply wp_fwrite; intros n _; cbn [seq_post]; apply wp_ret; by intros q [= <-].
Qed.

(** Once a configuration has been written, a phone that sends another password for the same network, for instance
    after a mistyped one, is told that it was accepted, but no configuration is written: the test asks that name, type and
    password have all changed. *)
Theorem retry_ignored p w p' w' v t :
  config_ready p = true -> wr_ok TEST_WIFI_CFG_FILE w = true -> updateConfig stack beyond p w = (Val p', w') ->
  (List.length v <= 64)%nat ->
  prov_step stack beyond (WritePasswd v) t p' w' = (Val (None, true, written (WritePasswd v) t p'), w').
Proof.
  intros Hr Hw He Hv. destruct (updateConfig_remembers p w p' w' Hr Hw He) as [H1 H2].
  rewrite step_written by (cbn; by apply Nat.leb_le).
  erewrite bind_val by (apply updateConfig_not_ready, same_name_not_ready; cbn; congruence). done.
Qed.
End Retry.

(** ** Pages of scan results *)

(** Nothing in [t] looks like the start of an entry, whatever follows. *)
Definition skips (t : string) : Prop := forall r, strstr (t +:+ r) SSID_KEY = strstr r SSID_KEY.

Lemma skips_app a b : skips a -> skips b -> skips (a +:+ b).
Proof. intros Ha Hb r. by rewrite sapp_assoc, Ha, Hb. Qed.

Lemma skips_nil : skips "".
Proof. by intros r. Qed.

Lemma skips_char c s : c <> "{"%char -> skips s -> skips (String c s).
Proof. intros Hc Hs r. cbn [String.append]. unfold SSID_KEY at 1. cbn [String.append]. by rewrite strstr_skip. Qed.

(** An entry of a list of networks: it starts like one, ends with a brace, and contains no other start. *)
Definition entry_ok (e : string) : Prop :=
  exists body, e = SSID_KEY +:+ body +:+ "}" /\ skips (body +:+ "}") /\ (String.length e < 128)%nat /\ nul_free e = true.

(** A name that is escaped does not look like a start, even at its end. *)
Lemma skips_escaped s t : skips t -> skips (escape s +:+ DQ +:+ "," +:+ t).
Proof.
  intros Ht. induction s as [|c s IH].
  { intros r. apply (skips_app (DQ +:+ ",") t); [|done]. by intros q. }
  cbn [escape]. destruct (Ascii.eqb c BACKSLASH || Ascii.eqb c QUOTE) eqn:E.
  - apply orb_true_iff in E as [E|E]; to_prop; subst c; cbn [String.append]; by repeat (apply skips_char; [done|]).
  - apply orb_false_iff in E as [E1 E2]. destruct (ascii_dec c "{") as [->|Hc]; [|by apply skips_char].
    intros r. change (String "{" (escape s) +:+ DQ +:+ "," +:+ t) with (String "{" (escape s +:+ DQ +:+ "," +:+ t)).
    etransitivity; [|apply IH]. cbn [String.append strstr].
    match goal with |- (if ?b then _ else _) = _ => assert (b = false) as ->; [|done] end.
    destruct s as [|d s]; [done|]. cbn [escape]. destruct (Ascii.eqb d BACKSLASH || Ascii.eqb d QUOTE) eqn:Ed; [done|].
    apply orb_false_iff in Ed as [_ Ed]. to_prop. unfold SSID_KEY, quoted, DQ. cbn [String.append String.prefix].
    destruct (ascii_dec "{" "{"); [|done]. by destruct (ascii_dec "034" d) as [<-|].
Qed.

Lemma skips_chars t : all_chars (fun c => negb (Ascii.eqb c "{")) t = true -> skips t.
Proof.
  induction t as [|c t IH]; intros H; [apply skips_nil|]. cbn in H. apply andb_true_iff in H as [Hc Ht].
  apply negb_true_iff, Ascii.eqb_neq in Hc. by apply skips_char; [|apply IH].
Qed.

(** Short, without a brace and without a NUL. *)
Definition tame (n : nat) (s : string) : bool :=
  (String.length s <=? n)%nat && all_chars (fun c => negb (Ascii.eqb c "{")) s && nul_free s.

Lemma tame_dec n : 0 <= n < 1000 -> tame 3 (dec n) = true.
Proof. intros Hn. apply (all_below_spec 1000 (fun n => tame 3 (dec n))); [by vm_compute|lia]. Qed.

Lemma tame_auth sec : sec ∈ auth_names -> tame 8 sec = true.
Proof.
  unfold auth_names. intros Hs. repeat (apply elem_of_cons in Hs as [-> | Hs]; [by vm_compute|]). by apply not_elem_of_nil in Hs.
Qed.

Lemma tame_spec n s : tame n s = true ->
  (String.length s <= n)%nat /\ all_chars (fun c => negb (Ascii.eqb c "{")) s = true /\ nul_free s = true.
Proof. unfold tame. intros H. to_prop. auto. Qed.

Lemma nul_free_app a b : nul_free (a +:+ b) = nul_free a && nul_free b.
Proof. apply all_chars_app. Qed.

Lemma nul_free_escape s : nul_free s = true -> nul_free (escape s) = true.
Proof.
  unfold nul_free. induction s as [|c s IH]; [done|]. cbn [all_chars escape]. intros H. to_prop.
  destruct (_ || _); cbn; rewrite IH by done; by rewrite (proj2 (Ascii.eqb_neq c NUL)).
Qed.

(** What wifi_scan prints for a network fits the 128 bytes. *)
Lemma short_entry_ok name sec ch sg : nul_free name = true ->
  (String.length (escape name) <= 64)%nat -> sec ∈ auth_names -> 0 <= ch < 1000 -> 0 <= sg < 1000 ->
  entry_ok (short_entry (escape name) sec ch sg).
Proof.
  intros Hnf Hn Hs Hc Hg. destruct (tame_spec _ _ (tame_dec ch Hc)) as (Lc & Cc & Nc).
  destruct (tame_spec _ _ (tame_dec sg Hg)) as (Lg & Cg & Ng), (tame_spec _ _ (tame_auth sec Hs)) as (Ls & Cs & Ns).
  set (rest := " " +:+ quoted "security" +:+ ":" +:+ quoted sec +:+ ", " +:+ quoted "channel" +:+ ":" +:+ dec ch +:+ ", " +:+
    quoted "signal" +:+ ":" +:+ dec sg).
  exists (DQ +:+ escape name +:+ DQ +:+ "," +:+ rest). split_and!.
  - unfold short_entry, rest, quoted. by rewrite !sapp_assoc.
  - rewrite !sapp_assoc. apply skips_app; [by intros r|]. apply skips_escaped, skips_chars.
    unfold rest, quoted. rewrite !all_chars_app, Cs, Cc, Cg. done.
  - unfold short_entry, SSID_KEY, quoted, DQ. repeat (rewrite slen_app || cbn [String.length String.append]). lia.
  - unfold short_entry, quoted. rewrite !nul_free_app, Nc, Ng, Ns, nul_free_escape by done. done.
Qed.

(** The rest of the text from an entry on. *)
Fixpoint text (es : list string) : string :=
  match es with
  | [] => SCAN_END
  | [e] => e +:+ SCAN_END
  | e :: es' => e +:+ "," +:+ text es'
  end.

Lemma text_join es : join "," es +:+ SCAN_END = text es.
Proof.
  induction es as [|e [|e' es] IH]; [done..|].
  change (join "," (e :: e' :: es)) with (e +:+ "," +:+ join "," (e' :: es)).
  change (text (e :: e' :: es)) with (e +:+ "," +:+ text (e' :: es)). by rewrite <- IH, !sapp_assoc.
Qed.

(** What separates an entry from the rest. *)
Definition sep (es : list string) : string := match es with [] => "" | _ => "," end.

Lemma text_cons e es : text (e :: es) = e +:+ sep es +:+ text es.
Proof. by destruct es. Qed.

Lemma skips_sep es : skips (sep es).
Proof. apply skips_chars. by destruct es. Qed.

Lemma strstr_entry e r : entry_ok e -> strstr (e +:+ r) SSID_KEY = Some (e +:+ r).
Proof. intros (body & -> & _). rewrite sapp_assoc. apply strstr_here. Qed.

(** Behind the start of an entry the next one is found. *)
Lemma sdrop_entry e : entry_ok e -> exists b, skips b /\ forall r, sdrop (String.length SSID_KEY) (e +:+ r) = b +:+ r.
Proof. intros (body & -> & Hs & _). exists (body +:+ "}"). split; [done|]. intros r. by rewrite sapp_assoc, sdrop_app. Qed.

Lemma count_text es : Forall entry_ok es -> forall g fuel, skips g -> (List.length es < fuel)%nat ->
  count_keys fuel (g +:+ text es) = Z.of_nat (List.length es).
Proof.
  intros H. induction H as [|e es He Hes IH]; intros g fuel Hg Hf; (destruct fuel as [|f]; [lia|]); cbn [count_keys].
  { by rewrite Hg. }
  rewrite Hg, text_cons, strstr_entry by done. destruct (sdrop_entry e He) as (b & Hb & ->). rewrite <- sapp_assoc.
  rewrite IH; [cbn [List.length]; lia|by apply skips_app, skips_sep|cbn in Hf; lia].
Qed.

Lemma text_length es : Forall entry_ok es -> (List.length es <= String.length (text es))%nat.
Proof.
  induction 1 as [|e es (body & -> & _) _ IH]; [cbn; lia|].
  rewrite text_cons, !slen_app. change (String.length SSID_KEY) with 8%nat. cbn [List.length]. lia.
Qed.

Lemma nul_free_text es : Forall entry_ok es -> nul_free (text es) = true.
Proof.
  induction 1 as [|e es (_ & _ & _ & _ & He) _ IH]; [done|]. rewrite text_cons, !nul_free_app, He, IH. by destruct es.
Qed.

(** ** Places in the text *)

Lemma char_at_app a c r : char_at (a +:+ String c r) (String.length a) = c.
Proof. unfold char_at. by induction a. Qed.

Lemma strstr_at_app a g t needle : strstr (g +:+ t) needle = Some t ->
  strstr_at (a +:+ g +:+ t) (String.length a) needle = Some (String.length (a +:+ g)).
Proof.
  intros H. unfold strstr_at. rewrite sdrop_app, H. f_equal. rewrite !slen_app. lia.
Qed.

(** The end of an entry, searched backwards from the next one. *)
Lemma back_to_brace a r : back_to (a +:+ "}," +:+ String "{" r) "}" (String.length a + 2) = Some (String.length a).
Proof.
  replace (String.length a + 2)%nat with (String.length (a +:+ "},")) by (by rewrite slen_app).
  destruct (String.length (a +:+ "},")) as [|n] eqn:E; [rewrite slen_app in E; cbn in E; lia|]. cbn [back_to].
  assert (char_at (a +:+ "}," +:+ String "{" r) (S n) = "{"%char) as -> by (rewrite <- E, <- sapp_assoc; apply char_at_app).
  cbn iota. change (Ascii.eqb "{" "}") with false. cbn iota.
  destruct n as [|n]; [rewrite slen_app in E; cbn in E; lia|]. cbn [back_to].
  assert (S n = String.length (a +:+ "}")) as En by (rewrite slen_app in *; cbn in *; lia).
  assert (char_at (a +:+ "}," +:+ String "{" r) (S n) = ","%char) as ->.
  { rewrite En. replace (a +:+ "}," +:+ String "{" r) with ((a +:+ "}") +:+ String "," (String "{" r)) by (by rewrite sapp_assoc).
    apply char_at_app. }
  change (Ascii.eqb "," "}") with false. cbn iota.
  assert (n = String.length a) as -> by (rewrite slen_app in En; cbn in En; lia).
  unfold back_to. destruct (String.length a) eqn:Ea; rewrite <- Ea;
    change (a +:+ "}," +:+ String "{" r) with (a +:+ String "}" (String "," (String "{" r))); by rewrite char_at_app.
Qed.

Section Pages.
Context {Ev : Env}.

(** An entry that is followed by another one is copied, and the pointer is left on its brace. *)
Lemma cut_entry_ok array P g e e' r w : entry_ok e -> entry_ok e' -> skips g ->
  cut_entry array (P +:+ g +:+ e +:+ "," +:+ e' +:+ r) (String.length P) w =
  (Val (e, (String.length (P +:+ g +:+ e) - 1)%nat), w).
Proof.
  intros He He' Hg. unfold cut_entry.
  rewrite (strstr_at_app P g) by (rewrite Hg; by apply strstr_entry).
  destruct He as (body & -> & Hs & Hlen & _).
  set (s := P +:+ g +:+ (SSID_KEY +:+ body +:+ "}") +:+ "," +:+ e' +:+ r).
  assert (s = ((P +:+ g) +:+ SSID_KEY) +:+ ((body +:+ "}") +:+ ",") +:+ e' +:+ r) as E1 by (unfold s; by rewrite !sapp_assoc).
  set (a := (P +:+ g) +:+ SSID_KEY +:+ body).
  assert (strstr_at s (String.length (P +:+ g) + String.length SSID_KEY) SSID_KEY = Some (String.length a + 2)%nat) as ->.
  { rewrite <- slen_app, E1, strstr_at_app.
    - f_equal. unfold a. rewrite !slen_app. cbn [String.length]. lia.
    - rewrite (skips_app (body +:+ "}") ","); [by apply strstr_entry|done|by apply skips_chars]. }
  destruct He' as (body' & -> & _).
  assert (exists q, s = a +:+ "}," +:+ String "{" q) as [q E2].
  { eexists. unfold s, a. rewrite !sapp_assoc. do 4 f_equal. }
  assert (back_to s "}" (String.length a + 2) = Some (String.length a)) as -> by (rewrite E2; apply back_to_brace).
  rewrite !slen_app in Hlen. cbn [String.length] in Hlen.
  assert (Z.of_nat (String.length a) - Z.of_nat (String.length (P +:+ g)) + 1 =
    Z.of_nat (String.length (SSID_KEY +:+ body +:+ "}"))) as ->.
  { unfold a. rewrite !slen_app. cbn [String.length]. lia. }
  rewrite (proj2 (Z.ltb_ge _ _)) by lia. rewrite (proj2 (Z.leb_gt _ _)) by (rewrite !slen_app; cbn [String.length]; lia).
  erewrite bind_val by reflexivity. unfold mret, M_ret. rewrite Nat2Z.id. unfold s. rewrite <- (sapp_assoc P g), sdrop_app, stake_app. do 3 f_equal.
  unfold a. rewrite !slen_app. cbn [String.length]. lia.
Qed.

Lemma entry_len e : entry_ok e -> (String.length e < 128)%nat.
Proof. by intros (body & _ & _ & H & _). Qed.

Lemma scan_more_last P g es p w : Forall entry_ok es -> skips g -> es <> [] -> (List.length es <= 2)%nat ->
  let s := P +:+ g +:+ text es in
  scan_more s (String.length P) (Z.of_nat (List.length es)) p w =
  (Val (Some (PAGE_HEADER +:+ text es), true, set_scan (Some s) SCAN_INIT Null 0 p), w).
Proof.
  intros Hes Hg Hne Hl s. unfold scan_more. rewrite (proj2 (Z.leb_le _ _)) by lia.
  assert (strstr (g +:+ text es) SSID_KEY = Some (text es)) as Hf.
  { rewrite Hg. destruct Hes as [|e es He Hes]; [done|]. rewrite text_cons. by apply strstr_entry. }
  unfold s. rewrite (strstr_at_app P g _ _ Hf), <- sapp_assoc, sdrop_app, snprintf_id; [done|].
  rewrite slen_app. change (String.length PAGE_HEADER) with 16%nat.
  assert (forall e, e ∈ es -> String.length e < 128)%nat as Hlen.
  { intros e He. apply entry_len. by eapply (proj1 (list.Forall_forall _ _)) in Hes. }
  destruct es as [|e1 [|e2 [|e3 es]]]; [done|..]; cbn in Hl; try lia;
    pose proof (Hlen e1 ltac:(set_solver)); try (pose proof (Hlen e2 ltac:(set_solver)));
    cbn [text]; rewrite !slen_app; cbn [String.length SCAN_END String.append]; lia.
Qed.

Lemma scan_more_step P g e1 e2 rest p w : Forall entry_ok (e1 :: e2 :: rest) -> skips g -> rest <> [] ->
  let s := P +:+ g +:+ text (e1 :: e2 :: rest) in
  exists P', s = P' +:+ "}," +:+ text rest /\
    scan_more s (String.length P) (Z.of_nat (List.length (e1 :: e2 :: rest))) p w =
    (Val (Some (more_page e1 e2), true, set_scan (Some s) SCAN_MORE (At (String.length P')) (Z.of_nat (List.length rest)) p), w).
Proof.
  intros Hes Hg Hne s. inversion Hes as [|? ? H1 Hes']; subst. inversion Hes' as [|? ? H2 Hr]; subst.
  destruct rest as [|e3 rest]; [done|]. inversion Hr as [|? ? H3 _]; subst.
  pose proof H1 as (b1 & E1 & _). pose proof H2 as (b2 & E2 & _).
  set (P1 := P +:+ g +:+ SSID_KEY +:+ b1). set (P2 := P1 +:+ "}," +:+ SSID_KEY +:+ b2).
  assert (s = P1 +:+ "}," +:+ e2 +:+ "," +:+ text (e3 :: rest)) as S1.
  { unfold s, P1. rewrite !text_cons, E1. cbn [sep]. by rewrite !sapp_assoc. }
  exists P2. split; [rewrite S1; unfold P2; rewrite E2; by rewrite !sapp_assoc|].
  unfold scan_more. rewrite (proj2 (Z.leb_gt _ _)) by (cbn [List.length]; lia).
  assert (cut_entry "ssid1" s (String.length P) w = (Val (e1, String.length P1), w)) as C1.
  { unfold s. rewrite !text_cons. cbn [sep]. rewrite cut_entry_ok by done. do 3 f_equal.
    unfold P1. rewrite E1, !slen_app. cbn [String.length]. lia. }
  assert (cut_entry "ssid2" s (String.length P1) w = (Val (e2, String.length P2), w)) as C2.
  { rewrite S1, text_cons, cut_entry_ok by (done || by apply skips_chars). do 3 f_equal.
    unfold P2. rewrite E2, !slen_app. cbn [String.length]. lia. }
  erewrite bind_val by exact C1. cbv beta iota. erewrite bind_val by exact C2. cbv beta iota zeta.
  rewrite (proj2 (Z.eqb_neq _ 0)) by (cbn [List.length]; lia). unfold mret, M_ret. rewrite snprintf_id.
  - do 3 f_equal. unfold set_scan. f_equal. cbn [List.length]. lia.
  - apply entry_len in H1, H2. unfold more_page. rewrite !slen_app. cbn [String.length PAGE_HEADER quoted DQ String.append].
    repeat (rewrite slen_app; cbn [String.length]). lia.
Qed.

(** ** All the pages *)

Fixpoint more_pages (es : list string) : list string :=
  match es with
  | e1 :: e2 :: ((_ :: _) as rest) => more_page e1 e2 :: more_pages rest
  | _ => [PAGE_HEADER +:+ text es]
  end.

(** The replies to one request after the other: the whole list when it is short, and two networks at a time otherwise. *)
Definition pages (es : list string) : list string :=
  if (List.length es <=? 2)%nat then [SCAN_HEADER +:+ text es] else more_pages es.

Definition reads (ts : list Z) : list (request * Z) := map (fun t => (ReadScan false, t)) ts.
Definition replies (ps : list string) : list (option string * bool) := map (fun pg => (Some pg, true)) ps.

(** Nothing is left to send. *)
Definition scan_idle (p : prov) : Prop := wifiScanState p = SCAN_INIT /\ wifiScanPtr p = Null.

Context (stack beyond : string).

Lemma run_step r t rs p v b p1 vs p2 w : prov_step stack beyond r t p w = (Val (v, b, p1), w) ->
  prov_run stack beyond rs p1 w = (Val (vs, p2), w) ->
  prov_run stack beyond ((r, t) :: rs) p w = (Val ((v, b) :: vs, p2), w).
Proof. intros H1 H2. cbn [prov_run]. erewrite bind_val by exact H1. cbv beta iota. by erewrite bind_val by exact H2. Qed.

Lemma more_run n es : (List.length es <= n)%nat -> Forall entry_ok es -> es <> [] ->
  forall P g ts p w, skips g -> List.length ts = List.length (more_pages es) ->
  wifiScanResults p = Some (P +:+ g +:+ text es) -> wifiScanState p = SCAN_MORE ->
  wifiScanPtr p = At (String.length P) -> wifiScanCount p = Z.of_nat (List.length es) ->
  exists p', prov_run stack beyond (reads ts) p w = (Val (replies (more_pages es), p'), w) /\ scan_idle p'.
Proof.
  revert es. induction n as [|n IH]; intros es Hn Hes Hne P g ts p w Hg Hts Hr Hst Hptr Hc; [by destruct es; cbn in Hn; [|lia]|].
  assert (forall t, prov_step stack beyond (ReadScan false) t p w =
    scan_more (P +:+ g +:+ text es) (String.length P) (Z.of_nat (List.length es)) (set_activity t p) w) as Hstep.
  { intros t. destruct p. cbn [wifiScanResults wifiScanState wifiScanPtr wifiScanCount] in *. by subst. }
  assert ((List.length es <= 2)%nat \/ exists e1 e2 rest, es = e1 :: e2 :: rest /\ rest <> []) as [Hl | (e1 & e2 & rest & -> & Hrest)].
  { destruct es as [|e1 [|e2 [|e3 rest]]]; [left; cbn; lia..|]. right. by exists e1, e2, (e3 :: rest). }
  - assert (more_pages es = [PAGE_HEADER +:+ text es]) as E by (by destruct es as [|e1 [|e2 [|e3 es]]]; cbn in Hl; try lia).
    rewrite E in *. destruct ts as [|t [|? ?]]; try done.
    eexists. split; [eapply run_step; [rewrite Hstep; by apply scan_more_last|reflexivity]|done].
  - assert (more_pages (e1 :: e2 :: rest) = more_page e1 e2 :: more_pages rest) as E by (by destruct rest).
    rewrite E in *. destruct ts as [|t ts]; [done|].
    destruct (scan_more_step P g e1 e2 rest (set_activity t p) w Hes Hg Hrest) as (P' & Es & Em).
    inversion Hes as [|? ? _ Hes']; subst. inversion Hes'; subst.
    destruct (IH rest ltac:(cbn in Hn; lia) ltac:(done) Hrest P' "}," ts
      (set_scan (Some (P +:+ g +:+ text (e1 :: e2 :: rest))) SCAN_MORE (At (String.length P')) (Z.of_nat (List.length rest)) (set_activity t p)) w)
      as (p' & Hp' & Hi); try done; [cbn in Hts; lia|cbn [wifiScanResults set_scan]; by rewrite Es|].
    exists p'. split; [|done]. eapply run_step; [|exact Hp']. by rewrite Hstep.
Qed.

Context (Hh : healthy).

Lemma scan_read_ok s p w : get WIFI_SCAN_FILE w = Some s -> s <> "" -> scan_read p w = (Val (Some (cstr s), At 0), w).
Proof.
  intros Hg Hs. destruct (Hh WIFI_SCAN_FILE w O) as (H1 & _ & _ & H4). unfold scan_read, stat.
  erewrite bind_val by reflexivity. rewrite Hg. destruct s as [|c s]; [done|].
  rewrite (proj2 (Z.ltb_lt 0 _)) by (cbn [String.length]; lia). unfold fopen_r.
  erewrite bind_val by reflexivity. rewrite Hg, H1. cbv zeta. unfold malloc_ok. erewrite bind_val by reflexivity. by rewrite H4.
Qed.

(** The first request of a phone reads the file. *)
Lemma first_read s p t w : get WIFI_SCAN_FILE w = Some s -> s <> "" -> cstr s = s -> wifiScanState p = SCAN_INIT ->
  exists p', prov_step stack beyond (ReadScan false) t p w = scan_start s 0 p' w.
Proof.
  intros Hg Hs Hc Hst. destruct p. cbn [wifiScanState] in Hst. subst. eexists. cbn [prov_step]. unfold UpdateWifiScanResults.
  cbv zeta. cbn [wifiScanState set_activity]. erewrite bind_val by (by apply scan_read_ok). rewrite Hc. reflexivity.
Qed.

Lemma skips_scan_header : skips SCAN_HEADER.
Proof. by intros r. Qed.

(** Reading until the last page. *)
Lemma pages_read es p ts w :
  Forall entry_ok es -> get WIFI_SCAN_FILE w = Some (SCAN_HEADER +:+ join "," es +:+ SCAN_END) ->
  wifiScanState p = SCAN_INIT -> List.length ts = List.length (pages es) ->
  exists p', prov_run stack beyond (reads ts) p w = (Val (replies (pages es), p'), w) /\ scan_idle p'.
Proof.
  rewrite text_join. intros Hes Hg Hst Hts.
  assert (exists t ts', ts = t :: ts') as (t & ts' & ->).
  { unfold pages in Hts. destruct ts as [|t ts']; [|eauto]. by destruct es as [|e1 [|e2 [|e3 es]]]. }
  destruct (first_read (SCAN_HEADER +:+ text es) p t w) as (p1 & E1); [done|done|..|done|].
  { apply cstr_nul_free. by rewrite nul_free_app, nul_free_text. }
  unfold scan_start in E1. change (sdrop 0 (SCAN_HEADER +:+ text es)) with (SCAN_HEADER +:+ text es) in E1. cbv zeta in E1.
  rewrite (count_text es Hes SCAN_HEADER _ skips_scan_header) in E1 by (rewrite slen_app; pose proof (text_length es Hes); lia).
  unfold pages in *. destruct (Nat.leb_spec (List.length es) 2) as [Hl|Hl].
  - rewrite (proj2 (Z.leb_le _ _)) in E1 by lia. destruct ts'; [|done].
    eexists. split; [by eapply run_step; [exact E1|]|done].
  - rewrite (proj2 (Z.leb_gt _ _)) in E1 by lia. destruct es as [|e1 [|e2 [|e3 rest]]]; [cbn in Hl; lia..|].
    destruct (scan_more_step "" SCAN_HEADER e1 e2 (e3 :: rest) p1 w Hes skips_scan_header) as (P' & Es & Em); [done|].
    cbn [String.append] in Es, Em. cbn [String.length] in Em. rewrite Em in E1.
    inversion Hes as [|? ? _ Hes']; subst. inversion Hes'; subst.
    edestruct (more_run _ (e3 :: rest) (le_n _)) with (P := P') (ts := ts') as (p' & Hp' & Hi);
      [done|done|by apply (skips_chars "},")|cbn in Hts; cbn [more_pages] in Hts; by injection Hts|..|].
    5: { exists p'. split; [|exact Hi]. cbn [reads map]. eapply run_step; [exact E1|exact Hp']. }
    all: cbn [wifiScanResults wifiScanState wifiScanPtr wifiScanCount set_scan]; by rewrite ?Es.
Qed.
Lemma entries_ok cs : Forall cell_ok cs -> Forall (fun c => nul_free (c_name c) = true /\ c_channel c < 1000) cs ->
  Forall entry_ok (entries cs).
Proof.
  induction 1 as [|c cs Hc Hcs IH]; intros H; [done|]. inversion H as [|? ? [Hn Hch] H']; subst. cbn [entries].
  apply Forall_app. split; [|by apply IH]. unfold cell_entry. destruct (strncmp0 _ _ _); [done|].
  destruct Hc as (_ & Hc & Hq & Hm & _ & He & _). repeat constructor. apply short_entry_ok; [done|lia|..|lia|].
  - clear. unfold cell_security, auth_names. repeat case_match; set_solver.
  - rewrite Z.quot_div_nonneg by lia. split; [apply Z.div_pos; lia|apply Z.div_lt_upper_bound; lia].
Qed.

(** C26. What a scan finds reaches the phone.  Let [iwlist] print the cells [cs], with names of less than 64 characters and no NUL,
    channels of at most three digits, and qualities of two digits (a quality of one digit ends wifi_scan, see
    [wifi_scan_weak_signal]); and let the scan file hold what wifi_scan printed for them.  A phone that keeps reading the
    characteristic then gets the whole list if there are at most two networks, and otherwise page after page with two
    networks each and the rest on the last one; the reads change no file and overrun no array, and after the last page the
    next read starts over.  An encrypted network without WPA elements is listed as WEP, but as open ("None") in the last
    cell. *)
Theorem scan_reaches_phone w0 w1 pre cs out p ts w :
  pipe SCAN_CMD w0 = Some (fold_right String.append "" (pre ++ cells_lines cs)%list) ->
  Forall is_line (pre ++ cells_lines cs) -> Forall (fun l => has_sub l "Cell " = false) pre -> Forall cell_ok cs ->
  Forall (fun c => nul_free (c_name c) = true /\ c_channel c < 1000) cs ->
  wifi_scan true w0 = (Val out, w1) -> get WIFI_SCAN_FILE w = Some out ->
  wifiScanState p = SCAN_INIT -> List.length ts = List.length (pages (entries cs)) ->
  exists p', prov_run stack beyond (reads ts) p w = (Val (replies (pages (entries cs)), p'), w) /\ scan_idle p'.
Proof.
  intros Hp Hl Hpre Hcs Hn Hscan Hfile. rewrite (wifi_scan_prints w0 pre cs) in Hscan by done. injection Hscan as <- _.
  apply pages_read; [by apply entries_ok|done].
Qed.
End Pages.

(** ** Witnesses *)

Module ProvToy.

Definition env : Env := ScanToy.env_of (ScanToy.scan_out ScanToy.good).
Definition mac : string := "00:16:a2:0f:3c:5b".
Definition w_mac : world := put_file MAC_ADDR1_FILE (ScanToy.line mac) ScanToy.w0.
Definition pw : string := "passphrase".
Definition pad : list Z := [0; 0; 0; 0; 0].
Definition sent : option (AES_ctx * list Z) :=
  AES_CBC_encrypt_buffer (AES_init_ctx_iv (hub_key mac) wifi_iv) (bytes_of_str pw ++ 0 :: pad) 16.
Definition cipher : list Z := match sent with Some (_, c) => c | None => [] end.
Definition ctx : AES_ctx := match sent with Some (c, _) => c | None => mkCtx [] [] end.
Definition requests : list (request * Z) :=
  [(WritePasswd cipher, 10); (WriteSSID (bytes_of_str "home"), 11); (WriteAuthType (bytes_of_str "WPA2-PSK"), 12)].

Definition cells : list cell := [ScanToy.cell_a; ScanToy.cell_b; ScanToy.cell_a; ScanToy.cell_a; ScanToy.cell_b].
Definition scan_env : Env := ScanToy.env_of (ScanToy.scan_out (ScanToy.head ++ cells_lines cells)).
Definition out : string := SCAN_HEADER +:+ join "," (entries cells) +:+ SCAN_END.
Definition w_scan : world := put_file WIFI_SCAN_FILE out ScanToy.w0.

Lemma env_is_healthy : @healthy env.
Proof. done. Qed.

Lemma cipher_bytes : Forall is_byte cipher.
Proof.
  assert (forallb (fun x => (0 <=? x) && (x <? 256)) cipher = true) as Hc by (by vm_compute).
  apply Forall_forall. intros x Hx. apply (proj1 (forallb_forall _ _) Hc) in Hx. unfold is_byte. lia.
Qed.

End ProvToy.

Lemma prov_well_formed_witness :
  @wp _ (@prov_run ProvToy.env "" "" ProvToy.requests (prov_init 0))
    (fun o w' => clean w' = true -> match o with
                | Val (_, p) => prov_ok p | Crash => Exists (fun r => is_scan (fst r)) ProvToy.requests | _ => False end)
    ProvToy.w_mac.
Proof.
  apply (@prov_well_formed ProvToy.env "" "" ProvToy.requests 0).
  repeat (apply Forall_cons_2; [first [exact ProvToy.cipher_bytes | apply bytes_of_str_bytes]|]). apply Forall_nil_2.
Defined.

Lemma wifi_config_roundtrip_witness :
  @wp _ (@prov_run ProvToy.env "" "" ProvToy.requests (prov_init 0))
    (fun o w' => match o with
                 | Val (_, p') => get TEST_WIFI_CFG_FILE w' = Some (config_text "home" "WPA2_PSK" ProvToy.pw) /\
                                  trace w' = trace ProvToy.w_mac
                 | _ => False end) ProvToy.w_mac.
Proof.
  apply (@wifi_config_roundtrip ProvToy.env ProvToy.env_is_healthy "" "" ProvToy.w_mac eq_refl ProvToy.mac (ScanToy.line ProvToy.mac)
    ltac:(by vm_compute) ltac:(by vm_compute) ltac:(by vm_compute)
    "home" "WPA2-PSK" ProvToy.pw 0 ProvToy.pad ProvToy.ctx ProvToy.cipher ProvToy.requests 11 12 10 0); try (by vm_compute).
  - vm_compute. lia.
  - unfold auth_names. set_solver.
  - repeat (apply Forall_cons_2 || apply Forall_nil_2); unfold is_byte; lia.
  - vm_compute. lia.
  - cbn [permutations interleave fmap list_fmap mbind list_bind app]. unfold ProvToy.requests. set_solver.
Defined.

Lemma retry_ignored_witness : exists p' w',
  @prov_step ProvToy.env "" "" (WritePasswd (replicate 16 7)) 20 p' w' =
    (Val (None, true, written (WritePasswd (replicate 16 7)) 20 p'), w') /\ wifiSSID p' = "home".
Proof.
  set (p := Prov "home" "WPA2_PSK" (overwrite (replicate 64 0) ProvToy.cipher) 16 "" None SCAN_INIT Null 0 0 "" "" (replicate 64 0) 0).
  assert (exists p' w', @updateConfig ProvToy.env "" "" p ProvToy.w_mac = (Val p', w') /\ wifiSSID p' = "home") as (p' & w' & E & Es)
    by (vm_compute; eauto).
  exists p', w'. split; [|done].
  apply (@retry_ignored ProvToy.env "" "" p ProvToy.w_mac p' w' (replicate 16 7) 20); [by vm_compute|done|done|cbn; lia].
Defined.

Lemma scan_reaches_phone_witness : List.length (pages (entries ProvToy.cells)) = 3%nat /\ exists p',
  @prov_run ProvToy.scan_env "" "" (reads [5; 6; 7]) (prov_init 0) ProvToy.w_scan =
    (Val (replies (pages (entries ProvToy.cells)), p'), ProvToy.w_scan) /\ scan_idle p'.
Proof.
  split; [by vm_compute|].
  apply (@scan_reaches_phone ProvToy.scan_env "" "" ltac:(done) ScanToy.w0 (World (fs ScanToy.w0) (trace ScanToy.w0 ++ [Pipe SCAN_CMD]))
    ScanToy.head ProvToy.cells ProvToy.out (prov_init 0) [5; 6; 7] ProvToy.w_scan).
  - reflexivity.
  - apply is_lineb_lines. by vm_compute.
  - repeat constructor.
  - repeat (apply Forall_cons_2 || apply Forall_nil_2); unfold cell_ok; split_and!;
      first [by vm_compute | vm_compute; lia | repeat constructor].
  - by repeat constructor.
  - by vm_compute.
  - by vm_compute.
  - reflexivity.
  - by vm_compute.
Defined.
