(* ===== verification/Lte.v ===== *)
(** * iris-4g: the LTE backup connection

    iris4gd.c watches the backup interface and the primary connection and moves the default
    route and the name servers between them; backup_start.c and backup_stop.c bring the
    interface up and down, check_primary.c asks a server over the primary interface.  The
    programs are modelled as the recipe builds them, without the defines for the ZTE and
    Quectel modems.

    The kernel's routing table is what [/proc/net/route] shows; the commands that read and
    change it are parameters with the laws of [NetLaws].  The daemon is a step relation: a
    turn of its loop, the loss of routes when an interface goes down, or the renewal of the lease of the primary
    interface, by the script of its DHCP client. *)
From Stdlib Require Import ZArith String Ascii Lia Bool.
From stdpp Require Import base gmap strings list numbers.
From S2P Require Import Prelude CLib Os IrisLib Traces.

Local Open Scope string_scope.
Local Open Scope Z_scope.

(** ** Constants *)

Definition LTE_STATUS_FILE : string := "/tmp/backupStatus".
Definition LTE_DONGLE_FILE : string := "/tmp/lte_dongle".
Definition LTE_INTF_FILE : string := "/tmp/lte_interface".
Definition LTE_HUAWEI_MODEM_ID : string := "12d1:14dc".
Definition LTE_HUAWEI_MODEM_SUBNET : string := "192.168.8".
Definition PRI_DNS_FILE : string := "/tmp/pri_resolv.conf".
Definition BKUP_DNS_FILE : string := "/tmp/bkup_resolv.conf".
Definition ORIG_DNS_FILE : string := "/var/run/resolv.conf".
Definition PRI_GW_FILE : string := "/tmp/pri_gw.conf".
Definition BKUP_GW_FILE : string := "/tmp/bkup_gw.conf".
Definition PRI_GW_AVAIL_FILE : string := "/tmp/primary_available".
Definition PRIMARY_ETH_IF : string := "eth0".
Definition PRIMARY_WLAN_IF : string := "wlan0".
Definition BACKUP_ETH_IF : string := "eth1".
Definition BACKUP_MTU : string := "1400".
Definition DHCP_CLIENT : string := "udhcpc".
Definition BACKUP_START_CMD : string := "/sbin/ifup".
Definition LTE_START_COMMAND : string := "/usr/bin/backup_start".
Definition LTE_STOP_COMMAND : string := "/usr/bin/backup_stop".
Definition LTE_INIT_COMMAND : string := "/sbin/ifconfig eth1 up; /sbin/ifconfig eth1 down".
Definition CHECK_PRIMARY_CMD : string := "/usr/bin/check_primary".
Definition BACKUP_CHECK_IF_STATUS (intf : string) : string :=
  "ip link show " +:+ intf +:+ " | grep " +:+ DQ +:+ "[<,]UP[,>]" +:+ DQ.
Definition CHECK_HUB_URL : string := "http://captive.apple.com/hotspot-detect.html".
Definition CHECK_TIMEOUT : Z := 5.
Definition GATEWAY_CHECK_DELAY : Z := 5.
Definition MAX_ATTEMPTS : nat := 1.
Definition UP_TIMEOUT : string := "10".
Definition TEST_CONF : string := "/tmp/testWifi.cfg".

(** The command lines on the routing table. *)
Definition SHOW_PRIMARY (gw intf : string) : string :=
  "/sbin/ip route | grep -v 'metric 2' | grep 'default via " +:+ gw +:+ " dev " +:+ intf +:+ "'".
Definition SHOW_BACKUP (gw intf : string) : string :=
  "/sbin/ip route | grep 'default via " +:+ gw +:+ " dev " +:+ intf +:+ "'".
Definition SHOW_METRIC2 : string := "/sbin/ip route | grep 'metric 2'".
Definition DEL_DEFAULT : string := "/sbin/ip route del default > /dev/null 2>&1".
Definition ADD_DEFAULT (gw : string) : string := "/sbin/ip route add default via " +:+ gw +:+ " metric 0 > /dev/null 2>&1".
Definition ADD_METRIC2 (gw : string) : string := "/sbin/route add default gw " +:+ gw +:+ " metric 2 > /dev/null 2>&1".
Definition COPY (src dst : string) : string := "cp " +:+ src +:+ " " +:+ dst.
Definition ECHO (text file : string) : string := "echo " +:+ text +:+ " > " +:+ file.

(** [fgets(line, 256, f) == NULL] *)
Definition no_line (out : string) : bool := match fgets 256 out with None => true | Some _ => false end.

(** ** Programs *)

Section Programs.
Context {Ev : Env}.

(** The word in a file, "" if there is none; an array of 128 bytes holds it. *)
Definition read_id (array file : string) : M string :=
  f ← fopen_r file;
  match f with
  | Some s => let t := default "" (scan_s s) in _ ← store_token array 128 t; mret t
  | None => mret ""
  end.

(** The gateway in a file, [None] if it cannot be opened. *)
Definition read_gw (file : string) : M (option string) :=
  f ← fopen_r file;
  match f with
  | Some s => let gw := default "" (scan_s s) in _ ← store_token "gw" 128 gw; mret (Some gw)
  | None => mret None
  end.

(** If Wifi is up, use over Ethernet. *)
Definition primary_if : M string :=
  up ← IRIS_isIntfIPUp PRIMARY_WLAN_IF;
  mret (if up : bool then PRIMARY_WLAN_IF else PRIMARY_ETH_IF).

Definition configPrimary : M Z :=
  g ← read_gw PRI_GW_FILE;
  match g with
  | Some gw =>
      intf ← primary_if;
      f ← popen (snprintf 128 (SHOW_PRIMARY gw intf));
      match f with
      | Some out =>
          if no_line out then
            _ ← system (snprintf 128 DEL_DEFAULT);
            st ← system (snprintf 128 (ADD_DEFAULT gw));
            if st =? 0 then system (snprintf 128 (COPY PRI_DNS_FILE ORIG_DNS_FILE)) else mret 1
          else mret (-1)
      | None => mret (-1)
      end
  | None => mret (-1)
  end.

Definition configBackup (intf : string) : M Z :=
  g ← read_gw BKUP_GW_FILE;
  match g with
  | Some gw =>
      f ← popen (snprintf 128 (SHOW_BACKUP gw intf));
      match f with
      | Some out =>
          if no_line out then
            _ ← system (snprintf 128 DEL_DEFAULT);
            st ← system (snprintf 128 (ADD_DEFAULT gw));
            if st =? 0 then system (snprintf 128 (COPY BKUP_DNS_FILE ORIG_DNS_FILE)) else mret (-1)
          else mret (-1)
      | None => mret (-1)
      end
  | None => mret (-1)
  end.

Definition configRouteViaPriGateway : M unit :=
  g ← read_gw PRI_GW_FILE;
  match g with
  | Some gw =>
      f ← popen (snprintf 128 SHOW_METRIC2);
      match f with
      | Some out => when (no_line out) (_ ← system (snprintf 128 (ADD_METRIC2 gw)); mret tt)
      | None => mret tt
      end
  | None => mret tt
  end.

(** Whether the backup interface is up. *)
Definition backup_state (backup_if : string) : M bool :=
  f ← popen (snprintf 128 (BACKUP_CHECK_IF_STATUS backup_if));
  mret (match f with Some out => negb (no_line out) | None => false end).

Definition state_name (up : bool) : string := if up then "up" else "down".

(** The status the agent looks at; [stack] is what the uninitialised [oldstate[16]] holds. *)
Definition update_status (stack : string) (up : bool) : M unit :=
  f ← fopen_r LTE_STATUS_FILE;
  match f with
  | Some s =>
      let oldstate := default stack (scan_s s) in
      _ ← store_token "oldstate" 16 oldstate;
      when (negb (strncmp0 (state_name up) oldstate 16))
        (_ ← system (snprintf 128 (ECHO (state_name up) LTE_STATUS_FILE)); mret tt)
  | None => mret tt
  end.

(** One turn of the loop of main: the new value of [primary_up]. *)
Definition gateway_turn (stack backup_if : string) (primary_up : bool) : M bool :=
  _ ← sleep GATEWAY_CHECK_DELAY;
  testing ← access TEST_CONF;
  if testing : bool then mret primary_up
  else
    up ← backup_state backup_if;
    _ ← update_status stack up;
    if up : bool then
      _ ← configRouteViaPriGateway;
      st ← system CHECK_PRIMARY_CMD;
      if st =? 0 then
        if primary_up then mret true
        else
          _ ← system (snprintf 128 (ECHO "available" PRI_GW_AVAIL_FILE));
          res ← configPrimary;
          mret (res =? 0)
      else
        res ← configBackup backup_if;
        if res =? 0 then _ ← unlink PRI_GW_AVAIL_FILE; mret false else mret primary_up
    else if primary_up then mret true
    else res ← configPrimary; mret (res =? 0).

(** As many turns of the loop as there are contents for its locals. *)
Fixpoint gateway_loop (stacks : list string) (backup_if : string) (primary_up : bool) : M bool :=
  match stacks with
  | [] => mret primary_up
  | stack :: stacks' => primary_up ← gateway_turn stack backup_if primary_up; gateway_loop stacks' backup_if primary_up
  end.

(** The interface of a dongle. *)
Definition backup_if_of (dongleID : string) : string :=
  if strncmp0 dongleID LTE_HUAWEI_MODEM_ID (String.length LTE_HUAWEI_MODEM_ID) then BACKUP_ETH_IF else "Unknown".

Inductive daemon := Waiting | Watching (backup_if : string) (primary_up : bool).

(** A turn of the daemon: waiting for a modem, then watching the gateways. *)
Definition daemon_turn (stack : string) (d : daemon) : M daemon :=
  match d with
  | Waiting =>
      dongleID ← read_id "dongleID" LTE_DONGLE_FILE;
      if String.eqb dongleID "" then _ ← sleep GATEWAY_CHECK_DELAY; mret Waiting
      else
        let backup_if := backup_if_of dongleID in
        _ ← system (snprintf 128 (ECHO backup_if LTE_INTF_FILE));
        mret (Watching backup_if true)
  | Watching backup_if primary_up => up ← gateway_turn stack backup_if primary_up; mret (Watching backup_if up)
  end.

(** A modification of the control file, seen by the control thread. *)
Definition lte_control : M unit :=
  f ← fopen_r LTE_CONTROL_FILE;
  match f with
  | Some s =>
      let data := cstr (stake 127 s) in
      if (String.length s =? 0)%nat then mret tt
      else
        _ ← when (String.length data =? 0)%nat (emit (Overrun "data" (-1)));
        let data := strip_nl data in
        if strncmp0 data "connect" 7 then _ ← system LTE_START_COMMAND; mret tt
        else if strncmp0 data "disconnect" 10 then _ ← system LTE_STOP_COMMAND; mret tt
        else when (strncmp0 data "init" 4) (_ ← system LTE_INIT_COMMAND; mret tt)
  | None => mret tt
  end.

Inductive signal := SIGHUP | SIGTERM.

Definition iris4g_sig_handler (imxdimagic : bool) (sig : signal) : M unit :=
  match sig, imxdimagic with
  | SIGHUP, true => mret tt
  | _, _ => _ ← system LTE_STOP_COMMAND; exit 0
  end.

(** *** check_primary *)

Definition CURL_CMD (timeout : Z) (intf url : string) : string :=
  "/usr/bin/curl -m " +:+ dec timeout +:+ " --interface " +:+ intf +:+ " " +:+ url.

Definition check_primary (url : option string) : M Z :=
  let url := default CHECK_HUB_URL url in
  intf ← primary_if;
  f ← popen (snprintf 256 (CURL_CMD CHECK_TIMEOUT intf url));
  mret (match f with
        | Some out => match fgets 256 out with Some line => if strncmp0 line "up" 2 then 0 else -1 | None => -1 end
        | None => -1
        end).

(** *** backup_start and backup_stop *)

Definition KILL_DHCP (intf : string) : string :=
  "ps | grep " +:+ DHCP_CLIENT +:+ " | grep " +:+ intf +:+ " | awk {'print $1'} | xargs kill -9".

(** The interface of the modem, once it is known not to overlap with the primary subnet. *)
Definition start_if : M string :=
  result ← read_id "result" LTE_DONGLE_FILE;
  if String.eqb result "" then exit 1
  else if strncmp0 result LTE_HUAWEI_MODEM_ID (String.length LTE_HUAWEI_MODEM_ID) then
    intf ← primary_if;
    f ← popen (snprintf 256 ("/sbin/ip addr show " +:+ intf +:+ " | grep " +:+ LTE_HUAWEI_MODEM_SUBNET));
    match f with
    | Some out =>
        let result := default "" (scan_s out) in
        _ ← store_token "result" 128 result;
        if String.eqb result "" then mret BACKUP_ETH_IF else exit 1
    | None => crash
    end
  else exit 1.

(** [execl] of [timeout]: the program goes on only if it fails. *)
Definition exec_timeout (exec_ok : bool) (cmd : string) : M unit :=
  if exec_ok then
    st ← system ("/usr/bin/timeout -t " +:+ UP_TIMEOUT +:+ " -s 9 sh -c " +:+ cmd);
    exit (st / 256)
  else mret tt.

Fixpoint start_loop (attempts : nat) (exec_ok : bool) (backup_if : string) : M Z :=
  match attempts with
  | O => exit 1
  | S n =>
      _ ← system (snprintf 256 ("/sbin/ifconfig " +:+ backup_if +:+ " down"));
      _ ← system (snprintf 256 ("/sbin/ifdown " +:+ backup_if));
      _ ← system (snprintf 256 ("/sbin/ifconfig " +:+ backup_if +:+ " up"));
      _ ← system (snprintf 256 ("/sbin/ifconfig " +:+ backup_if +:+ " mtu " +:+ BACKUP_MTU));
      _ ← exec_timeout exec_ok (snprintf 256 (BACKUP_START_CMD +:+ " " +:+ backup_if));
      _ ← system (snprintf 256 (KILL_DHCP backup_if));
      start_loop n exec_ok backup_if
  end.

(** What follows once the interface is known. *)
Definition start_interface (exec_ok : bool) (backup_if : string) : M Z :=
  f ← popen (snprintf 256 (BACKUP_CHECK_IF_STATUS backup_if));
  if match f with Some out => negb (no_line out) | None => false end then mret 0
  else
    _ ← system (snprintf 256 (KILL_DHCP backup_if));
    start_loop MAX_ATTEMPTS exec_ok backup_if.

Definition backup_start (exec_ok : bool) : M Z := backup_if ← start_if; start_interface exec_ok backup_if.

(** [stack] is what the uninitialised [cmd[256]] holds. *)
Definition backup_stop (stack : string) : M Z :=
  dongleID ← read_id "dongleID" LTE_DONGLE_FILE;
  if String.eqb dongleID "" then exit 1
  else
    let cmd := if strncmp0 dongleID LTE_HUAWEI_MODEM_ID (String.length LTE_HUAWEI_MODEM_ID)
               then snprintf 256 ("/sbin/ifdown " +:+ BACKUP_ETH_IF) else stack in
    _ ← system cmd; mret 0.

End Programs.

(** ** The routing table *)

Record route := Route { r_gw : string; r_dev : string; r_metric : Z }.

#[global] Instance route_eq_dec : EqDecision route.
Proof. solve_decision. Defined.

Definition ROUTES : string := "/proc/net/route".

(** How the table reads, default routes only, best first; and the device a gateway is reached over. *)
Class Network := {
  routes_of : string -> list route;
  link_of : world -> string -> option string }.

Definition routes `{Network} (w : world) : list route := routes_of (default "" (get ROUTES w)).

Section Laws.
Context {Ev : Env} {Net : Network}.

(** A pipeline that ends in [grep] prints a line exactly if [P] holds. *)
Definition greps (c : string) (w : world) (P : Prop) : Prop :=
  exists out, pipe c w = Some out /\ (no_line out = false <-> P).

(** What ip(8), route(8), cp(1) and the shell do with the gateways [pgw] and [bgw] and the interface [backup_if]. *)
Record NetLaws (pgw bgw backup_if : string) : Prop := {
  law_show_primary : forall intf w, plain w -> intf ∈ [PRIMARY_WLAN_IF; PRIMARY_ETH_IF] ->
    greps (snprintf 128 (SHOW_PRIMARY pgw intf)) w (exists r, r ∈ routes w /\ r_gw r = pgw /\ r_dev r = intf /\ r_metric r <> 2);
  law_show_backup : forall w, plain w ->
    greps (snprintf 128 (SHOW_BACKUP bgw backup_if)) w (exists r, r ∈ routes w /\ r_gw r = bgw /\ r_dev r = backup_if);
  law_show_metric2 : forall w, plain w -> greps (snprintf 128 SHOW_METRIC2) w (exists r, r ∈ routes w /\ r_metric r = 2);
  law_del : forall w, plain w ->
    let w' := after_cmd (snprintf 128 DEL_DEFAULT) w in agree [ROUTES] w w' /\ routes w' = tail (routes w);
  law_add : forall gw w, plain w -> gw ∈ [pgw; bgw] ->
    let c := snprintf 128 (ADD_DEFAULT gw) in let w' := after_cmd c w in
    agree [ROUTES] w w' /\
    (forall dev, link_of w gw = Some dev -> Forall (fun r => r_metric r <> 0) (routes w) ->
       fst (sh c w) = 0 /\ routes w' = Route gw dev 0 :: routes w) /\
    ((fst (sh c w) = 0 /\ exists dev, routes w' = Route gw dev 0 :: routes w) \/ (fst (sh c w) <> 0 /\ routes w' = routes w));
  law_add_metric2 : forall w, plain w ->
    let w' := after_cmd (snprintf 128 (ADD_METRIC2 pgw)) w in
    agree [ROUTES] w w' /\
    (routes w' = routes w \/ exists dev, routes w' = (routes w ++ [Route pgw dev 2])%list);
  law_copy : forall src dst s w, plain w -> get src w = Some s ->
    (src, dst) ∈ [(PRI_DNS_FILE, ORIG_DNS_FILE); (BKUP_DNS_FILE, ORIG_DNS_FILE)] ->
    sh (snprintf 128 (COPY src dst)) w = (0, fs (put_file dst s w));
  law_echo : forall text file w, plain w ->
    (text, file) ∈ [("up", LTE_STATUS_FILE); ("down", LTE_STATUS_FILE); ("available", PRI_GW_AVAIL_FILE)] ->
    sh (snprintf 128 (ECHO text file)) w = (0, fs (put_file file (text +:+ String LF "") w)) }.

End Laws.

(** ** A turn on a hub whose configuration is complete *)

Section Turn.
Context {Child : Env} {Ev : Env} {Net : Network} (Hh : healthy).

(** The gateways and name servers the DHCP client has recorded. *)
Context (pgw bgw pdns bdns backup_if : string) (L : NetLaws pgw bgw backup_if).

Definition configured (w : world) : Prop :=
  plain w /\
  (exists s, get PRI_GW_FILE w = Some s /\ scan_s s = Some pgw) /\
  (exists s, get BKUP_GW_FILE w = Some s /\ scan_s s = Some bgw) /\
  get PRI_DNS_FILE w = Some pdns /\ get BKUP_DNS_FILE w = Some bdns.

(** Routes that are no competition. *)
Definition spare (rs : list route) : Prop := Forall (fun r => r_metric r = 2 /\ r_gw r = pgw) rs.

(** The default route and the name servers are those of the connection in use.  The kernel drops the backup route with
    its interface. *)
Definition consistent (primary_up : bool) (w : world) : Prop :=
  if primary_up
  then (exists dev rs, routes w = Route pgw dev 0 :: rs /\ spare rs) /\ get ORIG_DNS_FILE w = Some pdns
  else (exists rs, (routes w = Route bgw backup_if 0 :: rs \/ routes w = rs) /\ spare rs) /\ get ORIG_DNS_FILE w = Some bdns.

(** The files a turn may write. *)
Definition turn_files : list string := [ROUTES; ORIG_DNS_FILE; LTE_STATUS_FILE; PRI_GW_AVAIL_FILE].

(** While a turn runs, the gateway [gw] is reached over [dev]. *)
Definition reachable (gw dev : string) (w : world) : Prop := forall w', agree turn_files w w' -> link_of w' gw = Some dev.


Lemma routes_agree ps w w' : agree ps w w' -> ROUTES ∉ ps -> routes w' = routes w.
Proof. intros [_ H] Hn. unfold routes. by rewrite H. Qed.

Lemma agree_turn ps w w1 w2 : agree turn_files w w1 -> agree ps w1 w2 -> ps ⊆ turn_files -> agree turn_files w w2.
Proof. intros H1 H2 Hs. eapply agree_mono; [by eapply agree_trans|]. intros p Hp. apply elem_of_app in Hp as [?|?]; auto. Qed.

Lemma configured_agree w w' : configured w -> agree turn_files w w' -> configured w'.
Proof.
  intros (_ & H1 & H2 & H3 & H4) [P H]. unfold configured.
  rewrite !H by first [done | decide_closed]. done.
Qed.

Lemma reachable_agree gw dev w w' : reachable gw dev w -> agree turn_files w w' -> reachable gw dev w'.
Proof. intros H A w2 A2. apply H. by eapply agree_turn. Qed.

Lemma turn_file f : f ∈ turn_files -> [f] ⊆ turn_files.
Proof. intros H p Hp%list_elem_of_singleton. by subst. Qed.

(** Writing one of the files. *)
Lemma agree_put_file f s w w1 : agree turn_files w w1 -> f ∈ turn_files -> is_abs f -> agree turn_files w (put_file f s w1).
Proof. intros A Hf Ha. by apply agree_put. Qed.

(** Deleting the default route, adding the one through [gw], which fails if the gateway cannot be reached, and copying the
    name servers. *)
Lemma wp_switch_any e gw src dns w Q :
  gw ∈ [pgw; bgw] -> plain w -> spare (tail (routes w)) -> get src w = Some dns ->
  (src, ORIG_DNS_FILE) ∈ [(PRI_DNS_FILE, ORIG_DNS_FILE); (BKUP_DNS_FILE, ORIG_DNS_FILE)] ->
  (forall w' dev, agree turn_files w w' -> routes w' = Route gw dev 0 :: tail (routes w) -> get ORIG_DNS_FILE w' = Some dns ->
     get PRI_GW_AVAIL_FILE w' = get PRI_GW_AVAIL_FILE w -> (forall d, reachable gw d w -> dev = d) -> Q (Val 0) w') ->
  (forall w', agree turn_files w w' -> routes w' = tail (routes w) -> get ORIG_DNS_FILE w' = get ORIG_DNS_FILE w ->
     (forall d, ~ reachable gw d w) -> Q (Val e) w') ->
  wp (_ ← system (snprintf 128 DEL_DEFAULT);
      st ← system (snprintf 128 (ADD_DEFAULT gw));
      if st =? 0 then system (snprintf 128 (COPY src ORIG_DNS_FILE)) else mret e) Q w.
Proof.
  intros Hgws P Hs Hsrc Hin HQ HE. wp_step. apply wp_cmd. cbn [seq_post].
  destruct (law_del _ _ _ L w P) as [A1 R1]. set (w1 := after_cmd (snprintf 128 DEL_DEFAULT) w) in *.
  wp_step. apply wp_cmd. cbn [seq_post]. destruct (law_add _ _ _ L gw w1 (proj1 A1) Hgws) as (A2 & R2 & R3).
  assert (agree turn_files w w1) as T1.
  { eapply agree_mono; [exact A1|]. by apply turn_file; decide_closed. }
  assert (forall d, reachable gw d w -> fst (sh (snprintf 128 (ADD_DEFAULT gw)) w1) = 0 /\
    routes (after_cmd (snprintf 128 (ADD_DEFAULT gw)) w1) = Route gw d 0 :: routes w1) as Hd.
  { intros d Hr. apply R2; [by apply Hr|rewrite R1; eapply Forall_impl; [|exact Hs]; cbn; lia]. }
  set (w2 := after_cmd (snprintf 128 (ADD_DEFAULT gw)) w1) in *.
  assert (agree [ROUTES] w w2) as A3 by (eapply agree_mono; [exact (agree_trans _ _ _ _ _ A1 A2)|]; intros p Hp; by apply elem_of_app in Hp as [?|?]).
  assert (agree turn_files w w2) as T2 by (eapply agree_mono; [exact A3|]; by apply turn_file; decide_closed).
  destruct R3 as [[E2 [dev R2']]|[E2 R2']].
  2: { rewrite (proj2 (Z.eqb_neq _ 0) E2). apply wp_ret, HE; [done|by rewrite R2', R1|apply A3; [done|decide_closed]|].
       intros d Hr. by destruct (Hd d Hr) as [? _]. }
  rewrite E2. cbn [Z.eqb].
  assert (get src w2 = Some dns) as Hs2.
  { rewrite <- Hsrc. apply A3; apply elem_of_cons in Hin as [[= ->]|[[= ->]|[]%not_elem_of_nil]%elem_of_cons];
      try done; decide_closed. }
  apply wp_cmd. unfold after_cmd. rewrite (law_copy _ _ _ L src ORIG_DNS_FILE dns w2 (proj1 A3) Hs2 Hin). cbn [fst snd].
  assert (forall p, p ≠ ORIG_DNS_FILE -> is_abs p -> get p (put_file ORIG_DNS_FILE dns w2) = get p w2) as Hput.
  { intros p Hp Ha. apply get_put_ne. by rewrite !resolve_plain by (done || apply A3). }
  apply (HQ _ dev).
  - eapply agree_fs; [|eapply (agree_put_file ORIG_DNS_FILE dns _ w2); [done|decide_closed|done]]. done.
  - rewrite <- R1. rewrite <- R2'. unfold routes. f_equal. f_equal. by apply Hput.
  - apply get_put_eq.
  - etransitivity; [by apply Hput|]. apply A3; [done|]. decide_closed.
  - intros d Hr. destruct (Hd d Hr) as [_ R]. congruence.
Qed.

Lemma wp_switch e gw dev src dns w Q :
  gw ∈ [pgw; bgw] -> plain w -> spare (tail (routes w)) -> reachable gw dev w -> get src w = Some dns ->
  (src, ORIG_DNS_FILE) ∈ [(PRI_DNS_FILE, ORIG_DNS_FILE); (BKUP_DNS_FILE, ORIG_DNS_FILE)] ->
  (forall w', agree turn_files w w' -> routes w' = Route gw dev 0 :: tail (routes w) -> get ORIG_DNS_FILE w' = Some dns ->
     get PRI_GW_AVAIL_FILE w' = get PRI_GW_AVAIL_FILE w -> Q (Val 0) w') ->
  wp (_ ← system (snprintf 128 DEL_DEFAULT);
      st ← system (snprintf 128 (ADD_DEFAULT gw));
      if st =? 0 then system (snprintf 128 (COPY src ORIG_DNS_FILE)) else mret e) Q w.
Proof.
  intros Hgws P Hs Hr Hsrc Hin HQ. apply (wp_switch_any _ _ _ dns); try done.
  - intros w' d A R D V Hd. rewrite (Hd dev Hr) in R. by apply HQ.
  - intros w' _ _ _ Hn. by destruct (Hn dev).
Qed.

Lemma agree_same ps w w' : plain w -> fs w' = fs w -> agree ps w w'.
Proof. intros P E. by eapply agree_fs; [symmetry; exact E|apply agree_refl]. Qed.

Lemma wp_read_gw file s gw Q w : get file w = Some s -> scan_s s = Some gw ->
  (forall w', fs w' = fs w -> Q (Val (Some gw)) w') -> wp (read_gw file) Q w.
Proof.
  intros Hf Hs HQ. unfold read_gw. wp_step. apply (wp_fopen_r_some Hh _ s); [done|]. cbn [seq_post]. rewrite Hs.
  wp_step. apply wp_store. intros tr. cbn [seq_post]. apply wp_ret. by apply HQ.
Qed.

Lemma wp_primary_if Q w : (forall intf w', intf ∈ [PRIMARY_WLAN_IF; PRIMARY_ETH_IF] -> fs w' = fs w -> Q (Val intf) w') -> wp primary_if Q w.
Proof.
  intros HQ. unfold primary_if, IRIS_isIntfIPUp, printed_line. do 4 wp_step. cbn [seq_post]. apply wp_ret.
  apply HQ; [|done]. repeat case_match; decide_closed.
Qed.

Lemma wp_grep c (P : Prop) (k : bool -> M Z) Q w : greps c w P ->
  (forall w', fs w' = fs w -> P -> wp (k false) Q w') -> (forall w', fs w' = fs w -> ~ P -> wp (k true) Q w') ->
  wp (f ← popen c; match f with Some out => k (no_line out) | None => mret (-1) end) Q w.
Proof.
  intros (out & E & HP) H1 H2. wp_step. wp_step. cbn [seq_post]. rewrite E.
  destruct (no_line out) eqn:En; [apply H2; [done|]|apply H1; [done|by apply HP]]. intros Hp. by apply HP in Hp.
Qed.

(** No route but a spare one goes through the primary gateway. *)
Definition off_primary (w : world) : Prop :=
  spare (tail (routes w)) /\ forall r, r ∈ routes w -> r_metric r <> 2 -> r_gw r <> pgw.

Lemma wp_configPrimary dev w Q : configured w -> off_primary w -> reachable pgw dev w ->
  (forall w', agree turn_files w w' -> routes w' = Route pgw dev 0 :: tail (routes w) -> get ORIG_DNS_FILE w' = Some pdns ->
     get PRI_GW_AVAIL_FILE w' = get PRI_GW_AVAIL_FILE w -> Q (Val 0) w') ->
  wp configPrimary Q w.
Proof.
  intros (P & (s & Hg & Hsc) & _ & Hd & _) [Hs Ho] Hr HQ. unfold configPrimary.
  wp_step. apply (wp_read_gw _ s pgw); [done|done|]. intros w1 E1. cbn [seq_post].
  wp_step. apply wp_primary_if. intros intf w2 Hi E2. cbn [seq_post].
  assert (fs w2 = fs w) as E by congruence. assert (plain w2) as P2 by (unfold plain in *; by rewrite E).
  eapply (wp_grep _ _ (fun b => if b then _ else _)); [by apply (law_show_primary _ _ _ L)|..].
  { intros w3 E3 (r & Hr3 & Hg3 & _ & Hm). exfalso. apply (Ho r); try done. unfold routes in *. by rewrite <- (get_fs _ _ _ E). }
  intros w3 E3 _. assert (fs w3 = fs w) as E' by congruence.
  assert (agree turn_files w w3) as A by by apply agree_same.
  assert (routes w3 = routes w) as R by (unfold routes; by rewrite (get_fs _ _ _ E')).
  apply (wp_switch _ _ dev _ pdns); [by left|apply A|by rewrite R|by eapply reachable_agree|by rewrite (get_fs _ _ _ E')|decide_closed|].
  intros w4 A4 R4 D4 V4. apply HQ; [by eapply agree_turn|by rewrite R4, R|done|]. by rewrite V4, (get_fs _ _ _ E').
Qed.

Definition on_backup (w : world) : Prop := exists r, r ∈ routes w /\ r_gw r = bgw /\ r_dev r = backup_if.

(** The backup connection is configured unless it is already. *)
Lemma wp_configBackup w Q : configured w ->
  (on_backup w -> forall w', fs w' = fs w -> Q (Val (-1)) w') ->
  (~ on_backup w -> spare (tail (routes w)) /\ reachable bgw backup_if w /\
   forall w', agree turn_files w w' -> routes w' = Route bgw backup_if 0 :: tail (routes w) -> get ORIG_DNS_FILE w' = Some bdns ->
     Q (Val 0) w') ->
  wp (configBackup backup_if) Q w.
Proof.
  intros (P & _ & (s & Hg & Hsc) & _ & Hd) Hon Hoff. unfold configBackup.
  wp_step. apply (wp_read_gw _ s bgw); [done|done|]. intros w1 E1. cbn [seq_post].
  assert (plain w1) as P1 by (unfold plain in *; by rewrite E1).
  eapply (wp_grep _ _ (fun b => if b then _ else _)); [by apply (law_show_backup _ _ _ L)|..]; intros w3 E3; fold (on_backup w1);
    assert (fs w3 = fs w) as E' by congruence;
    assert (on_backup w1 <-> on_backup w) as Eon by (unfold on_backup, routes; by rewrite (get_fs _ _ _ E1)).
  { intros H. apply Hon; [by apply Eon|done]. }
  intros H. destruct Hoff as (Hs & Hr & HQ); [by rewrite <- Eon|].
  assert (agree turn_files w w3) as A by by apply agree_same.
  assert (routes w3 = routes w) as R by (unfold routes; by rewrite (get_fs _ _ _ E')).
  apply (wp_switch _ _ backup_if _ bdns); [by right; left|apply A|by rewrite R|by eapply reachable_agree|by rewrite (get_fs _ _ _ E')|decide_closed|].
  intros w4 A4 R4 D4 _. apply HQ; [by eapply agree_turn|by rewrite R4, R|done].
Qed.

(** The spare route. *)
Lemma wp_spare w Q : configured w ->
  (forall w' rs, agree turn_files w w' -> routes w' = (routes w ++ rs)%list -> spare rs ->
     get ORIG_DNS_FILE w' = get ORIG_DNS_FILE w -> get PRI_GW_AVAIL_FILE w' = get PRI_GW_AVAIL_FILE w -> Q (Val tt) w') ->
  wp configRouteViaPriGateway Q w.
Proof.
  intros (P & (s & Hg & Hsc) & _) HQ. unfold configRouteViaPriGateway.
  wp_step. apply (wp_read_gw _ s pgw); [done|done|]. intros w1 E1. cbn [seq_post].
  assert (forall w', fs w' = fs w -> Q (Val tt) w') as Hsame.
  { intros w' E. apply (HQ w' []); [by apply agree_same|unfold routes; by rewrite (get_fs _ _ _ E), app_nil_r|by apply Forall_nil_2|..];
      by apply get_fs. }
  wp_step. wp_step. cbn [seq_post]. destruct (pipe _ w1) as [out|]; [|apply wp_ret; by apply Hsame].
  wp_step; [|by apply Hsame]. wp_step. apply wp_cmd. cbn [seq_post]. apply wp_ret.
  set (w2 := World (fs w1) (trace w1 ++ [Pipe (snprintf 128 SHOW_METRIC2)])).
  assert (fs w2 = fs w) as E2 by (by rewrite <- E1). assert (plain w2) as P2 by (unfold plain in *; by rewrite E2).
  destruct (law_add_metric2 _ _ _ L w2 P2) as [A3 R3].
  assert (agree [ROUTES] w (after_cmd (snprintf 128 (ADD_METRIC2 pgw)) w2)) as A.
  { eapply agree_mono; [exact (agree_trans [] [ROUTES] _ _ _ (agree_same [] w w2 P E2) A3)|]. done. }
  assert (routes w2 = routes w) as R2 by (unfold routes; by rewrite (get_fs _ _ _ E2)). rewrite R2 in R3.
  assert (agree turn_files w (after_cmd (snprintf 128 (ADD_METRIC2 pgw)) w2)) as T.
  { eapply agree_mono; [exact A|]. by apply turn_file; decide_closed. }
  destruct R3 as [R3 | [dev R3]].
  - apply (HQ _ []); [done|by rewrite app_nil_r|by apply Forall_nil_2|..]; apply A; done || decide_closed.
  - apply (HQ _ [Route pgw dev 2]); [done|done|by repeat constructor|..]; apply A; done || decide_closed.
Qed.

(** Reporting the state changes the status file only. *)
Lemma wp_update_status stack up w Q : plain w ->
  (forall w', agree [LTE_STATUS_FILE] w w' -> Q (Val tt) w') -> wp (update_status stack up) Q w.
Proof.
  intros P HQ. unfold update_status. wp_step. wp_step; cbn [seq_post]; [|apply wp_ret, HQ; by apply agree_refl].
  wp_step. apply wp_store. intros tr. cbn [seq_post]. wp_step; [|apply HQ; by apply agree_same].
  wp_step. apply wp_cmd. cbn [seq_post]. apply wp_ret, HQ. unfold after_cmd.
  rewrite (law_echo _ _ _ L) by (done || by destruct up; decide_closed). cbn [snd].
  eapply agree_fs; [|apply (agree_put _ LTE_STATUS_FILE (state_name up +:+ String LF "") _ (World (fs w) tr)); [by apply agree_same|done|decide_closed]].
  done.
Qed.

(** ** What a turn does *)

Context (Hcheck : runs CHECK_PRIMARY_CMD (@check_primary Child None)) (Hgw : pgw <> bgw).

(** What the turn sees: a test of the Wifi configuration, the backup interface, the answer over the primary connection. *)
Definition testing (w : world) : bool :=
  match get TEST_CONF w with Some _ => true | None => bool_decide (abs_path (fs w) TEST_CONF ∈ dirs (fs w)) end.
Definition asleep (w : world) : world := World (fs w) (trace w ++ [Sleep GATEWAY_CHECK_DELAY]).
Definition backup_up (w : world) : bool :=
  match pipe (snprintf 128 (BACKUP_CHECK_IF_STATUS backup_if)) (asleep w) with Some out => negb (no_line out) | None => false end.
Definition primary_ok (w : world) : bool :=
  match fst (@check_primary Child None w) with Val z => z =? 0 | _ => false end.

Lemma check_result w : exists z, @check_primary Child None w = (Val z, snd (@check_primary Child None w)) /\
  (z = 0 \/ z = -1) /\ fs (snd (@check_primary Child None w)) = fs w.
Proof.
  unfold check_primary, primary_if, IRIS_isIntfIPUp, printed_line, popen, mbind, M_bind, mret, M_ret. cbn [fst snd fs].
  eexists. split; [done|]. split; [|done]. repeat (destruct (pipe _ _) || destruct (fgets _ _) || destruct (strncmp0 _ _ _)); auto.
Qed.

(** Asking over the primary connection changes nothing. *)
Lemma wp_check (k : Z -> M bool) Q w :
  (forall w', fs w' = fs w -> primary_ok w = true -> wp (k 0) Q w') ->
  (forall w' st, fs w' = fs w -> primary_ok w = false -> st <> 0 -> wp (k st) Q w') ->
  wp (st ← system CHECK_PRIMARY_CMD; k st) Q w.
Proof.
  intros H1 H2. wp_step. apply wp_cmd. cbn [seq_post]. unfold after_cmd. rewrite (Hcheck w). cbn [fst snd].
  destruct (check_result w) as (z & E & Hz & Hfs). unfold primary_ok in *. rewrite E in *. cbn [fst snd wait_status] in *.
  destruct Hz as [-> | ->]; [by apply H1|]. by apply H2.
Qed.

Lemma consistent_frame up w w' rs : consistent up w -> routes w' = (routes w ++ rs)%list -> spare rs ->
  get ORIG_DNS_FILE w' = get ORIG_DNS_FILE w -> consistent up w'.
Proof.
  unfold consistent. intros H R Hs D. rewrite R, D. destruct up.
  - destruct H as [(dev & rs0 & -> & H) ?]. split; [|done]. exists dev, (rs0 ++ rs)%list. split; [done|by apply Forall_app].
  - destruct H as [(rs0 & Hr & H) ?]. split; [|done]. exists (rs0 ++ rs)%list. split; [|by apply Forall_app].
    destruct Hr as [-> | ->]; [by left|by right].
Qed.

Lemma consistent_tail up w : consistent up w -> spare (tail (routes w)).
Proof.
  unfold consistent. destruct up; [intros [(? & ? & -> & H) _]|intros [(rs & [-> | ->] & H) _]]; try done.
  by destruct rs; [|inversion H].
Qed.

Lemma consistent_off w : consistent false w -> off_primary w.
Proof.
  intros H. split; [by apply (consistent_tail false)|]. destruct H as [(rs & [-> | ->] & Hs) _]; intros r Hr Hm.
  - apply elem_of_cons in Hr as [-> | Hr]; [cbn; congruence|]. eapply (proj1 (list.Forall_forall _ _)) in Hs; [|done]. tauto.
  - eapply (proj1 (list.Forall_forall _ _)) in Hs; [|done]. tauto.
Qed.

Lemma consistent_not_on_backup w : consistent true w -> ~ on_backup w.
Proof.
  intros [(dev & rs & R & Hs) _] (r & Hr & Hg & _). rewrite R in Hr. apply elem_of_cons in Hr as [-> | Hr]; [cbn in Hg; congruence|].
  eapply (proj1 (list.Forall_forall _ _)) in Hs; [|done]. destruct Hs. congruence.
Qed.

(** The agent is told when the primary connection comes back or is lost. *)
Definition announced (before after : bool) (w w' : world) : Prop :=
  (before = true -> after = false -> get PRI_GW_AVAIL_FILE w' = None) /\
  (before = false -> after = true -> backup_up w = true -> get PRI_GW_AVAIL_FILE w' = Some ("available" +:+ String LF "")).

(** The connection that should be in use after a turn. *)
Definition next (before : bool) (w w3 : world) : bool :=
  if testing w then before else if backup_up w then primary_ok w3 else true.

(** Back to the primary connection. *)
Lemma wp_restore dev w Q : configured w -> consistent false w -> reachable pgw dev w ->
  (forall w', agree turn_files w w' -> consistent true w' -> get PRI_GW_AVAIL_FILE w' = get PRI_GW_AVAIL_FILE w -> Q (Val true) w') ->
  wp (res ← configPrimary; mret (res =? 0)) Q w.
Proof.
  intros Hc Hs Hr HQ. wp_step. apply (wp_configPrimary dev); [done|by apply consistent_off|done|].
  intros w' A R D V. cbn [seq_post]. apply wp_ret. cbn [Z.eqb]. apply HQ; [done| |done]. split; [|done].
  exists dev, (tail (routes w)). split; [done|]. by apply (consistent_tail false).
Qed.

(** Over to the backup connection. *)
Lemma wp_fall_back up w Q : configured w -> consistent up w -> reachable bgw backup_if w ->
  (forall w', agree turn_files w w' -> consistent false w' -> (up = true -> get PRI_GW_AVAIL_FILE w' = None) -> Q (Val false) w') ->
  wp (res ← configBackup backup_if; if res =? 0 then _ ← unlink PRI_GW_AVAIL_FILE; mret false else mret up) Q w.
Proof.
  intros Hc Hs Hr HQ. pose proof Hc as (P & _). wp_step. apply wp_configBackup; [done|..].
  - intros Hon w' E. cbn [seq_post Z.eqb]. apply wp_ret. destruct up; [by apply consistent_not_on_backup in Hs|].
    apply HQ; [by apply agree_same| |done]. eapply (consistent_frame false w w' []); [done|..|by apply get_fs].
    + unfold routes. by rewrite (get_fs _ _ _ E), app_nil_r.
    + by apply Forall_nil_2.
  - intros _. split; [by eapply consistent_tail|]. split; [done|]. intros w' A R D. cbn [seq_post Z.eqb].
    wp_step. wp_step. cbn [seq_post]. apply wp_ret.
    assert (forall p, p <> PRI_GW_AVAIL_FILE -> is_abs p -> get p (del_file PRI_GW_AVAIL_FILE w') = get p w') as Hd.
    { intros p Hp Ha. apply get_del_ne. by rewrite !resolve_plain by (done || apply A). }
    apply HQ.
    + apply agree_del; [done|done|decide_closed].
    + split; [|by rewrite Hd]. exists (tail (routes w)). split; [|by eapply consistent_tail].
      left. rewrite <- R. unfold routes. by rewrite Hd.
    + intros _. apply get_del_eq.
Qed.

Lemma wp_testing Q w : Q (Val (testing w)) w -> wp (access TEST_CONF) Q w.
Proof. done. Qed.

(** A turn that finds the backup interface up. *)
Lemma wp_backup_up up pdev w Q : configured w -> consistent up w -> reachable pgw pdev w -> reachable bgw backup_if w ->
  (forall w3 w', agree turn_files w w3 -> agree turn_files w w' -> consistent (primary_ok w3) w' ->
     (up = true -> primary_ok w3 = false -> get PRI_GW_AVAIL_FILE w' = None) ->
     (up = false -> primary_ok w3 = true -> get PRI_GW_AVAIL_FILE w' = Some ("available" +:+ String LF "")) ->
     Q (Val (primary_ok w3)) w') ->
  wp (_ ← configRouteViaPriGateway;
      st ← system CHECK_PRIMARY_CMD;
      if st =? 0 then
        if up then mret true
        else
          _ ← system (snprintf 128 (ECHO "available" PRI_GW_AVAIL_FILE));
          res ← configPrimary;
          mret (res =? 0)
      else
        res ← configBackup backup_if;
        if res =? 0 then _ ← unlink PRI_GW_AVAIL_FILE; mret false else mret up) Q w.
Proof.
  intros Hc Hs Hp Hb HQ. wp_step. apply wp_spare; [done|]. intros w1 rs A1 R1 Hrs D1 _. cbn [seq_post].
  assert (consistent up w1) as S1 by (by eapply consistent_frame).
  apply (wp_check (fun st => if st =? 0 then _ else _)).
  - intros w2 E2 Hok. cbn [Z.eqb].
    assert (agree turn_files w w2) as A2 by (by eapply agree_fs; [symmetry; exact E2|]).
    assert (consistent up w2) as S2.
    { eapply (consistent_frame up w1 w2 []); [done|unfold routes; by rewrite (get_fs _ _ _ E2), app_nil_r|by apply Forall_nil_2|by apply get_fs]. }
    destruct up; [apply wp_ret; rewrite <- Hok; apply HQ; rewrite ?Hok; done|].
    wp_step. apply wp_cmd. cbn [seq_post]. unfold after_cmd.
    rewrite (law_echo _ _ _ L) by (decide_closed || apply A2). cbn [fst snd].
    set (w3 := World _ _). set (avail := "available" +:+ String LF "").
    assert (forall p, p <> PRI_GW_AVAIL_FILE -> is_abs p -> get p w3 = get p w2) as Hput.
    { intros p Hne Ha. apply (get_put_ne PRI_GW_AVAIL_FILE p avail w2). by rewrite !resolve_plain by (done || apply A2). }
    assert (agree turn_files w w3) as A3.
    { apply (agree_fs _ _ (put_file PRI_GW_AVAIL_FILE avail w2)); [done|]. apply agree_put; [done|done|decide_closed]. }
    apply (wp_restore pdev); [by eapply configured_agree|..|by eapply reachable_agree|].
    + eapply (consistent_frame false w2 w3 []); [done|unfold routes; by rewrite Hput, app_nil_r|by apply Forall_nil_2|by apply Hput].
    + intros w4 A4 S4 V4. rewrite <- Hok. apply HQ; [done|by eapply agree_turn|by rewrite Hok|done|].
      intros _ _. rewrite V4. apply (get_put_eq PRI_GW_AVAIL_FILE avail w2).
  - intros w2 st E2 Hok Hst. rewrite (proj2 (Z.eqb_neq st 0) Hst).
    assert (agree turn_files w w2) as A2 by (by eapply agree_fs; [symmetry; exact E2|]).
    apply wp_fall_back; [by eapply configured_agree|..|by eapply reachable_agree|].
    + eapply (consistent_frame up w1 w2 []); [done|unfold routes; by rewrite (get_fs _ _ _ E2), app_nil_r|by apply Forall_nil_2|by apply get_fs].
    + intros w3 A3 S3 V3. rewrite <- Hok. apply HQ; [done|by eapply agree_turn|by rewrite Hok|auto|by rewrite Hok].
Qed.

(** The whole turn, from a consistent state. *)
Lemma wp_turn stack up pdev w Q :
  configured w -> consistent up w -> reachable pgw pdev w -> (backup_up w = true -> reachable bgw backup_if w) ->
  (forall w3 w', agree turn_files w w3 -> agree turn_files w w' -> consistent (next up w w3) w' ->
     announced up (next up w w3) w w' -> Q (Val (next up w w3)) w') ->
  wp (gateway_turn stack backup_if up) Q w.
Proof.
  intros Hc Hs Hp Hb HQ. pose proof Hc as (P & _). unfold gateway_turn. wp_step. unfold sleep. wp_step. cbn [seq_post].
  fold (asleep w). assert (agree turn_files w (asleep w)) as A0 by by apply agree_same.
  wp_step. apply wp_testing. change (testing (asleep w)) with (testing w). cbn [seq_post]. unfold next, announced in HQ.
  assert (consistent up (asleep w)) as S0.
  { eapply (consistent_frame up w (asleep w) []); [done|by rewrite app_nil_r|by apply Forall_nil_2|done]. }
  destruct (testing w) eqn:Ht.
  { apply wp_ret. apply (HQ w); [by apply agree_refl|done|done|by destruct up]. }
  wp_step. unfold backup_state. wp_step. wp_step. cbn [seq_post]. apply wp_ret. fold (backup_up w). cbn [seq_post].
  wp_step. apply wp_update_status; [apply A0|]. intros w1 A1. change (agree [LTE_STATUS_FILE] (asleep w) w1) in A1. cbn [seq_post].
  assert (agree turn_files w w1) as T1.
  { eapply agree_turn; [exact A0|exact A1|]. by apply turn_file; decide_closed. }
  assert (consistent up w1) as S1.
  { eapply (consistent_frame up (asleep w) w1 []); [done|rewrite app_nil_r; by apply (routes_agree [LTE_STATUS_FILE] (asleep w)); [|decide_closed]
      |by apply Forall_nil_2|by apply A1; [|decide_closed]]. }
  assert (reachable pgw pdev w1) as Hp1 by (by eapply reachable_agree).
  assert (configured w1) as Hc1 by (by eapply configured_agree).
  destruct (backup_up w) eqn:Hu.
  - apply (wp_backup_up up pdev); [done|done|done|eapply reachable_agree; [by apply Hb|done]|].
    intros w3 w' A3 A' S' V1 V2. apply (HQ w3); [by eapply agree_turn|by eapply agree_turn|done|auto].
  - destruct up; [apply wp_ret; apply (HQ w); [by apply agree_refl|done|done|done]|].
    apply (wp_restore pdev); [done|done|done|]. intros w' A' S' _. apply (HQ w); [by apply agree_refl|by eapply agree_turn|done|done].
Qed.

(** C20. Failover and recovery.  From a state in which default route and name servers are those of the connection in use,
    a turn of the daemon leads to the state of the connection that should be used: unchanged while the Wifi
    configuration is tested, the primary one if the backup interface is down or the server answers over the primary
    interface, and the backup one otherwise; the file that tells the agent is written or removed accordingly, and no
    other file changes. *)
Theorem failover_turn stack up pdev w :
  configured w -> consistent up w -> reachable pgw pdev w -> (backup_up w = true -> reachable bgw backup_if w) ->
  wp (gateway_turn stack backup_if up)
    (fun r w' => exists w3, agree turn_files w w3 /\ r = Val (next up w w3) /\ agree turn_files w w' /\
       consistent (next up w w3) w' /\ announced up (next up w w3) w w') w.
Proof. intros Hc Hs Hp Hb. apply (wp_turn stack up pdev); [done..|]. intros w3 w' A3 A' S' V. by exists w3. Qed.

(** ** The daemon in its environment *)

(** The name servers are those of the connection the daemon believes in, and every default route but the spare ones goes through
    its gateway; the route itself may be missing. *)
Definition agrees (primary_up : bool) (w : world) : Prop :=
  exists rs, (routes w = rs \/ exists dev, routes w = Route (if primary_up then pgw else bgw) dev 0 :: rs) /\ spare rs /\
    get ORIG_DNS_FILE w = Some (if primary_up then pdns else bdns).

Lemma agrees_consistent up w : consistent up w -> agrees up w.
Proof.
  unfold consistent. destruct up; [intros [(dev & rs & R & Hs) D]|intros [(rs & [R|R] & Hs) D]]; exists rs; split_and!; eauto.
Qed.

Lemma agrees_frame up w w' rs : agrees up w -> routes w' = (routes w ++ rs)%list -> spare rs ->
  get ORIG_DNS_FILE w' = get ORIG_DNS_FILE w -> agrees up w'.
Proof.
  intros (rs0 & Hr & Hs & D) R Hrs D'. exists (rs0 ++ rs)%list. rewrite R, D'. split; [|split; [by apply Forall_app|done]].
  destruct Hr as [-> | [dev ->]]; [by left|right; by exists dev].
Qed.

Lemma agrees_same up w w' : agrees up w -> fs w' = fs w -> agrees up w'.
Proof.
  intros H E. apply (agrees_frame up w w' []); [done|unfold routes; by rewrite (get_fs _ _ _ E), app_nil_r|by apply Forall_nil_2|by apply get_fs].
Qed.

Lemma spare_tail rs : spare rs -> spare (tail rs).
Proof. intros H. destruct H; [by apply Forall_nil_2|done]. Qed.

Lemma agrees_tail up w : agrees up w -> spare (tail (routes w)).
Proof. intros (rs & [-> | [dev ->]] & Hs & _); [by apply spare_tail|done]. Qed.

Lemma agrees_dropped up w w' : agrees up w -> routes w' = tail (routes w) -> get ORIG_DNS_FILE w' = get ORIG_DNS_FILE w -> agrees up w'.
Proof.
  intros H R D. exists (tail (routes w)). split; [by left|]. split; [by eapply agrees_tail|]. rewrite D. by destruct H as (_ & _ & _ & ?).
Qed.

(** What the two functions that switch leave. *)
Definition switched (up to : bool) (w : world) (r : outcome Z) (w' : world) : Prop :=
  exists z, r = Val z /\ agree turn_files w w' /\ agrees (if z =? 0 then to else up) w'.

Lemma wp_configPrimary_any up w : configured w -> agrees up w -> wp configPrimary (switched up true w) w.
Proof.
  intros (P & (s & Hg & Hsc) & _ & Hd & _) Ha. unfold configPrimary.
  wp_step. apply (wp_read_gw _ s pgw); [done|done|]. intros w1 E1. cbn [seq_post].
  wp_step. apply wp_primary_if. intros intf w2 Hi E2. cbn [seq_post].
  assert (fs w2 = fs w) as E by congruence. assert (plain w2) as P2 by (unfold plain in *; by rewrite E).
  eapply (wp_grep _ _ (fun b => if b then _ else _)); [by apply (law_show_primary _ _ _ L)|..]; intros w3 E3 _;
    assert (fs w3 = fs w) as E' by congruence; assert (agree turn_files w w3) as A by by apply agree_same.
  { exists (-1). split; [done|]. split; [done|by eapply agrees_same]. }
  assert (agrees up w3) as H3 by (by eapply agrees_same). pose proof (agrees_tail _ _ H3) as Ht.
  apply (wp_switch_any _ _ _ pdns); [by left|apply A|done|by rewrite (get_fs _ _ _ E')|decide_closed|..].
  - intros w4 dev A4 R4 D4 _ _. exists 0. split; [done|]. split; [by eapply agree_turn|]. exists (tail (routes w3)). eauto.
  - intros w4 A4 R4 D4 _. exists 1. split; [done|]. split; [by eapply agree_turn|by apply (agrees_dropped up w3)].
Qed.

Lemma wp_configBackup_any up w : configured w -> agrees up w -> wp (configBackup backup_if) (switched up false w) w.
Proof.
  intros (P & _ & (s & Hg & Hsc) & _ & Hd) Ha. unfold configBackup.
  wp_step. apply (wp_read_gw _ s bgw); [done|done|]. intros w1 E1. cbn [seq_post].
  assert (plain w1) as P1 by (unfold plain in *; by rewrite E1).
  eapply (wp_grep _ _ (fun b => if b then _ else _)); [by apply (law_show_backup _ _ _ L)|..]; intros w3 E3 _;
    assert (fs w3 = fs w) as E' by congruence; assert (agree turn_files w w3) as A by by apply agree_same.
  { exists (-1). split; [done|]. split; [done|by eapply agrees_same]. }
  assert (agrees up w3) as H3 by (by eapply agrees_same). pose proof (agrees_tail _ _ H3) as Ht.
  apply (wp_switch_any _ _ _ bdns); [by right; left|apply A|done|by rewrite (get_fs _ _ _ E')|decide_closed|..].
  - intros w4 dev A4 R4 D4 _ _. exists 0. split; [done|]. split; [by eapply agree_turn|]. exists (tail (routes w3)). eauto.
  - intros w4 A4 R4 D4 _. exists (-1). split; [done|]. split; [by eapply agree_turn|by apply (agrees_dropped up w3)].
Qed.

(** What a turn leaves, whether or not the gateways can be reached. *)
Definition turned (r : outcome bool) (w' : world) : Prop := exists up, r = Val up /\ configured w' /\ agrees up w'.

Lemma turned_same up w w' : configured w -> agrees up w -> fs w' = fs w -> turned (Val up) w'.
Proof.
  intros Hc Ha E. exists up. split; [done|]. split; [|by eapply agrees_same]. eapply configured_agree; [exact Hc|]. apply agree_same; [by destruct Hc|done].
Qed.

Lemma wp_restore_any w : configured w -> agrees false w -> wp (res ← configPrimary; mret (res =? 0)) turned w.
Proof.
  intros Hc Ha. wp_step. eapply wp_mono; [by apply (wp_configPrimary_any false)|]. intros r w' (z & -> & A & Hz). cbn [seq_post]. apply wp_ret.
  exists (z =? 0). split; [done|]. split; [by eapply configured_agree|]. by destruct (z =? 0).
Qed.

Lemma wp_backup_any up w : configured w -> agrees up w ->
  wp (res ← configBackup backup_if; if res =? 0 then _ ← unlink PRI_GW_AVAIL_FILE; mret false else mret up) turned w.
Proof.
  intros Hc Ha. wp_step. eapply wp_mono; [by apply (wp_configBackup_any up)|]. intros r w' (z & -> & A & Hz). cbn [seq_post].
  assert (configured w') as Hc' by by eapply configured_agree. pose proof Hc' as (P' & _).
  destruct (z =? 0); [|apply wp_ret; by exists up]. wp_step. wp_step. cbn [seq_post]. apply wp_ret. exists false. split; [done|].
  assert (agree turn_files w' (del_file PRI_GW_AVAIL_FILE w')) as A' by (apply agree_del; [by apply agree_refl|done|decide_closed]).
  assert (forall p, is_abs p -> p <> PRI_GW_AVAIL_FILE -> get p (del_file PRI_GW_AVAIL_FILE w') = get p w') as Hdel.
  { intros p Hp Hne. apply get_del_ne. by rewrite !resolve_plain. }
  split; [by eapply configured_agree|]. apply (agrees_frame false w' _ []); [done|unfold routes; by rewrite Hdel, app_nil_r|by apply Forall_nil_2|by apply Hdel].
Qed.

Lemma wp_turn_any stack up w : configured w -> agrees up w -> wp (gateway_turn stack backup_if up) turned w.
Proof.
  intros Hc Ha. pose proof Hc as (P & _). unfold gateway_turn. wp_step. unfold sleep. wp_step. cbn [seq_post]. fold (asleep w).
  assert (configured (asleep w)) as Hc0 by (eapply configured_agree; [exact Hc|by apply agree_same]).
  assert (agrees up (asleep w)) as S0 by (by eapply agrees_same).
  wp_step. apply wp_testing. cbn [seq_post]. wp_step; [apply wp_ret; by apply (turned_same up (asleep w))|].
  wp_step. unfold backup_state. wp_step. wp_step. cbn [seq_post]. apply wp_ret. cbn [seq_post].
  wp_step. apply wp_update_status; [done|]. intros w1 A1. change (agree [LTE_STATUS_FILE] (asleep w) w1) in A1. cbn [seq_post].
  assert (configured w1) as Hc1.
  { eapply configured_agree; [exact Hc0|]. eapply agree_mono; [exact A1|]. by apply turn_file; decide_closed. }
  assert (agrees up w1) as S1.
  { apply (agrees_frame up (asleep w) w1 []); [done|rewrite app_nil_r; by apply (routes_agree [LTE_STATUS_FILE]); [|decide_closed]|by apply Forall_nil_2|].
    apply A1; [done|decide_closed]. }
  wp_step; [|destruct up; [apply wp_ret; by apply (turned_same true w1)|by apply wp_restore_any]].
  wp_step. apply wp_spare; [done|]. intros w2 rs A2 R2 Hrs D2 _. cbn [seq_post].
  assert (configured w2) as Hc2 by (by eapply configured_agree). assert (agrees up w2) as S2 by (by eapply agrees_frame).
  apply (wp_check (fun st => if st =? 0 then _ else _)); [intros w3 E3 _|intros w3 st E3 _ Hst];
    (assert (configured w3) as Hc3 by (eapply configured_agree; [exact Hc2|by apply agree_same; [apply A2|]]));
    (assert (agrees up w3) as S3 by (by eapply agrees_same)).
  - cbn [Z.eqb]. destruct up; [apply wp_ret; by apply (turned_same true w3)|]. wp_step. apply wp_cmd. cbn [seq_post]. unfold after_cmd. pose proof Hc3 as (P3 & _).
    rewrite (law_echo _ _ _ L) by (done || decide_closed). cbn [fst snd]. set (avail := "available" +:+ String LF ""). set (w4 := World _ _).
    assert (forall p, p ≠ PRI_GW_AVAIL_FILE -> is_abs p -> get p w4 = get p w3) as Hput.
    { intros p Hne Hp. apply (get_put_ne PRI_GW_AVAIL_FILE p avail w3). by rewrite !resolve_plain. }
    apply wp_restore_any.
    + eapply configured_agree; [exact Hc3|]. apply (agree_fs _ _ (put_file PRI_GW_AVAIL_FILE avail w3)); [done|].
      apply agree_put; [by apply agree_refl|done|decide_closed].
    + apply (agrees_frame false w3 w4 []); [done|unfold routes; by rewrite Hput, app_nil_r|by apply Forall_nil_2|by apply Hput].
  - rewrite (proj2 (Z.eqb_neq st 0) Hst). by apply wp_backup_any.
Qed.

(** A renewed lease of a primary interface (simple.script of udhcpc): the default routes are replaced by the one of the lease whether
    or not the backup interface is up, since [$?] is tested after an [echo]; the name servers only if it is not up. *)
Definition renewed (w w' : world) : Prop :=
  configured w' /\ (exists dev, routes w' = [Route pgw dev 0]) /\
  get ORIG_DNS_FILE w' = if backup_up w then get ORIG_DNS_FILE w else Some pdns.

(** What happens between the turns of a daemon with the flag [up]: interfaces go and the kernel drops their routes, leases
    are renewed with the same addresses. *)
Inductive outside (up : bool) (w w' : world) : Prop :=
| outside_links : configured w' -> get ORIG_DNS_FILE w' = get ORIG_DNS_FILE w -> routes w' `sublist_of` routes w -> outside up w w'
| outside_lease : up = true -> renewed w w' -> outside up w w'.

(** The daemon starts while the primary connection is in use. *)
Inductive reaches : bool -> world -> Prop :=
| reaches_init w : configured w -> consistent true w -> reaches true w
| reaches_turn up w stack r w' : reaches up w -> gateway_turn stack backup_if up w = (Val r, w') -> reaches r w'
| reaches_outside up w w' : reaches up w -> outside up w w' -> reaches up w'.

Lemma spare_sublist rs rs' : spare rs -> rs' `sublist_of` rs -> spare rs'.
Proof. intros H Hs. apply list.Forall_forall. intros r Hr. eapply (proj1 (list.Forall_forall _ _)) in H; [exact H|]. by eapply elem_of_sublist. Qed.

Lemma agrees_outside up w w' : agrees up w -> outside up w w' -> configured w' /\ agrees up w'.
Proof.
  intros (rs & Hr & Hs & D) [Hc D' Hsub | -> (Hc & [dev R] & D')]; (split; [done|]).
  - destruct Hr as [E | [dev E]]; rewrite E in Hsub.
    + exists (routes w'). split; [by left|]. split; [by eapply spare_sublist|by rewrite D'].
    + apply sublist_cons_r in Hsub as [Hsub|(rs' & E' & Hsub)].
      * exists (routes w'). split; [by left|]. split; [by eapply spare_sublist|by rewrite D'].
      * exists rs'. split; [right; by exists dev|]. split; [by eapply spare_sublist|by rewrite D'].
  - exists []. split; [right; by exists dev|]. split; [by apply Forall_nil_2|]. rewrite D'. by destruct (backup_up w).
Qed.


(** The renewal that is excluded: on the backup connection it takes the routes back to the primary gateway and leaves the name
    servers of the backup connection, so that the two agree with neither value of the flag. *)
Theorem renewal_mixes w w' : pdns <> bdns -> consistent false w -> backup_up w = true -> renewed w w' ->
  routes w' <> [] /\ ~ agrees true w' /\ ~ agrees false w'.
Proof.
  intros Hne [_ D] Hb (_ & [dev R] & D'). rewrite Hb, D in D'. rewrite R. split; [done|]. split.
  - intros (rs & _ & _ & D2). congruence.
  - intros (rs & Hr & Hs & _). rewrite R in Hr. destruct Hr as [<- | [d E]]; [|injection E; congruence]. apply Forall_inv in Hs as [Hm _]. done.
Qed.

(** ** A daemon that starts on the backup connection *)

(** The route of the backup connection is in place. *)
Definition uses_backup (w : world) : Prop := exists rs, routes w = Route bgw backup_if 0 :: rs /\ spare rs.

Lemma uses_backup_frame w w' rs : uses_backup w -> routes w' = (routes w ++ rs)%list -> spare rs -> uses_backup w'.
Proof. intros (rs0 & R & H) R' Hs. exists (rs0 ++ rs)%list. rewrite R', R. split; [done|by apply Forall_app]. Qed.

Lemma uses_backup_same w w' : uses_backup w -> fs w' = fs w -> uses_backup w'.
Proof.
  intros H E. apply (uses_backup_frame w w' []); [done|unfold routes; by rewrite (get_fs _ _ _ E), app_nil_r|by apply Forall_nil_2].
Qed.

Lemma wp_stuck stack w Q : configured w -> uses_backup w ->
  (forall w', configured w' -> uses_backup w' -> Q (Val true) w') -> wp (gateway_turn stack backup_if true) Q w.
Proof.
  intros Hc Hs HQ. pose proof Hc as (P & _). unfold gateway_turn. wp_step. unfold sleep. wp_step. cbn [seq_post]. fold (asleep w).
  assert (configured (asleep w)) as Hc0 by (eapply configured_agree; [exact Hc|by apply agree_same]).
  assert (uses_backup (asleep w)) as S0 by (by eapply uses_backup_same).
  wp_step. apply wp_testing. cbn [seq_post]. wp_step; [apply wp_ret; by apply HQ|].
  wp_step. unfold backup_state. wp_step. wp_step. cbn [seq_post]. apply wp_ret. cbn [seq_post].
  wp_step. apply wp_update_status; [done|]. intros w1 A1. change (agree [LTE_STATUS_FILE] (asleep w) w1) in A1. cbn [seq_post].
  assert (configured w1) as Hc1.
  { eapply configured_agree; [exact Hc0|]. eapply agree_mono; [exact A1|]. by apply turn_file; decide_closed. }
  assert (uses_backup w1) as S1.
  { apply (uses_backup_frame (asleep w) w1 []); [done|rewrite app_nil_r; by apply (routes_agree [LTE_STATUS_FILE]); [|decide_closed]|by apply Forall_nil_2]. }
  wp_step; [|apply wp_ret; by apply HQ].
  wp_step. apply wp_spare; [done|]. intros w2 rs A2 R2 Hrs _ _. cbn [seq_post].
  assert (configured w2) as Hc2 by (by eapply configured_agree). assert (uses_backup w2) as S2 by (by eapply uses_backup_frame).
  apply (wp_check (fun st => if st =? 0 then _ else _)); [intros w3 E3 _|intros w3 st E3 _ Hst];
    (assert (configured w3) as Hc3 by (eapply configured_agree; [exact Hc2|by apply agree_same; [apply A2|]]));
    (assert (uses_backup w3) as S3 by (by eapply uses_backup_same)); [apply wp_ret; by apply HQ|].
  rewrite (proj2 (Z.eqb_neq st 0) Hst). wp_step. apply wp_configBackup; [done|..].
  - intros _ w4 E4. cbn [seq_post Z.eqb]. apply wp_ret, HQ; [|by eapply uses_backup_same].
    eapply configured_agree; [exact Hc3|]. apply agree_same; [by destruct Hc3|done].
  - intros Hn. exfalso. apply Hn. destruct S3 as (rs3 & R3 & _). exists (Route bgw backup_if 0). rewrite R3. split; [by left|done].
Qed.

(** A daemon that is started while the backup connection is in use, for instance after it was killed, starts with
    [primary_up] set and never leaves the backup connection: however many turns it makes, and whatever it finds the
    primary connection and the interfaces to be, it keeps the backup route and believes it is on the primary one. *)
Theorem failover_stuck stacks w : configured w -> uses_backup w ->
  wp (gateway_loop stacks backup_if true) (fun r w' => r = Val true /\ uses_backup w') w.
Proof.
  revert w. induction stacks as [|stack stacks IH]; intros w Hc Hs; [by apply wp_ret|]. cbn [gateway_loop]. wp_step.
  apply wp_stuck; [done|done|]. intros w' Hc' Hs'. by apply IH.
Qed.
End Turn.

(** ** Starting the backup connection *)

Section Start.
Context {Ev : Env}.

(** The commands that bring up the interface; without [timeout] the DHCP client is killed instead. *)
Definition bring_up (exec_ok : bool) (intf : string) : list string :=
  [KILL_DHCP intf; "/sbin/ifconfig " +:+ intf +:+ " down"; "/sbin/ifdown " +:+ intf; "/sbin/ifconfig " +:+ intf +:+ " up";
   "/sbin/ifconfig " +:+ intf +:+ " mtu 1400";
   if exec_ok then "/usr/bin/timeout -t 10 -s 9 sh -c /sbin/ifup " +:+ intf else KILL_DHCP intf].

(** The modem in the dongle file. *)
Definition has_modem (id : string) (w : world) : Prop :=
  exists s t, get LTE_DONGLE_FILE w = Some s /\ scan_s s = Some t /\ strncmp0 t id (String.length id) = true.

Lemma wp_read_id array Q w :
  (forall s t w', get LTE_DONGLE_FILE w = Some s -> scan_s s = Some t -> cmds (trace w') = cmds (trace w) -> fs w' = fs w -> Q (Val t) w') ->
  (forall w', cmds (trace w') = cmds (trace w) -> fs w' = fs w -> Q (Val "") w') -> wp (read_id array LTE_DONGLE_FILE) Q w.
Proof.
  intros H1 H2. unfold read_id. wp_step. wp_step; cbn [seq_post]; [|apply wp_ret; by apply H2].
  wp_step. unfold store_token. wp_step; [wp_step|]; cbn [seq_post]; apply wp_ret;
    (destruct (scan_s s) eqn:E; [eapply H1|apply H2]); try done; cbn [trace]; by rewrite cmds_app, app_nil_r.
Qed.

Lemma wp_primary_if_cmds Q w : (forall intf w', cmds (trace w') = cmds (trace w) -> fs w' = fs w -> Q (Val intf) w') -> wp primary_if Q w.
Proof.
  intros HQ. unfold primary_if, IRIS_isIntfIPUp, printed_line. wp_go; apply HQ; try done; cbn [trace]; by rewrite cmds_app, app_nil_r.
Qed.

Lemma wp_start_interface exec_ok w :
  wp (start_interface exec_ok BACKUP_ETH_IF)
    (fun r w' => exists cs, cmds (trace w') = (cmds (trace w) ++ cs)%list /\
       match r with
       | Val z => z = 0 /\ cs = []
       | Exit z => cs = bring_up exec_ok BACKUP_ETH_IF /\ (exec_ok = false -> z = 1)
       | _ => False
       end) w.
Proof.
  unfold start_interface. wp_step. wp_step. cbn [seq_post].
  wp_step; [apply wp_ret; exists []; split; [cbn [trace]; by rewrite cmds_app|done]|].
  cbn [MAX_ATTEMPTS start_loop]. repeat (wp_step; apply wp_system_any; intros ? ? ?; cbn [seq_post]).
  unfold exec_timeout. wp_step. wp_step.
  - subst exec_ok. wp_step. apply wp_system_any. intros stx sx _. cbn [seq_post]. wp_step. eexists. split; [|split; [reflexivity|congruence]].
    cbn [trace]. rewrite !cmds_app, <- !app_assoc. reflexivity.
  - subst exec_ok. apply wp_ret. cbn [seq_post]. wp_step. apply wp_system_any. intros stx sx _. cbn [seq_post]. wp_step. eexists. split; [|split; [reflexivity|done]].
    cbn [trace]. rewrite !cmds_app, <- !app_assoc. reflexivity.
Qed.

(** backup_start runs no command unless a supported modem is present whose subnet does not overlap with the primary one
    and whose interface is not up yet; then it runs exactly the commands that bring the interface down and up, set its
    MTU and start the DHCP client under a time limit, in this order, and ends with the status of the last one. *)
Theorem backup_start_commands exec_ok w :
  wp (backup_start exec_ok)
    (fun r w' => exists cs, cmds (trace w') = (cmds (trace w) ++ cs)%list /\
       match r with
       | Val z => z = 0 /\ cs = []
       | Exit z => (z = 1 /\ cs = []) \/
                   (has_modem LTE_HUAWEI_MODEM_ID w /\ cs = bring_up exec_ok BACKUP_ETH_IF /\ (exec_ok = false -> z = 1))
       | Crash => cs = []
       | Throw _ => False
       end) w.
Proof.
  match goal with |- wp _ ?Q _ => set (post := Q) end.
  assert (forall w', cmds (trace w') = cmds (trace w) -> post (Exit 1) w' /\ post Crash w') as Hnone.
  { intros w' T. split; exists []; (split; [by rewrite app_nil_r|]); [by left|done]. }
  unfold backup_start, start_if. wp_step. wp_step.
  apply wp_read_id; [intros s t w1 Hf Hs T1 F1|intros w1 T1 F1]; cbn [seq_post]; (wp_step; [wp_step; by apply Hnone|]); [|done].
  wp_step; [|wp_step; by apply Hnone].
  wp_step. apply wp_primary_if_cmds. intros intf w2 T2 F2. cbn [seq_post]. wp_step. wp_step. cbn [seq_post].
  set (w3 := World _ _). assert (cmds (trace w3) = cmds (trace w)) as T3 by (cbn [w3 trace]; rewrite cmds_app, app_nil_r; congruence).
  destruct (pipe _ w2) as [out|]; [|wp_step; by apply Hnone].
  assert (forall w4, cmds (trace w4) = cmds (trace w) ->
    wp (if String.eqb (default "" (scan_s out)) "" then mret BACKUP_ETH_IF else exit 1) (seq_post (start_interface exec_ok) post) w4) as Hrest.
  { intros w4 T4. wp_step; [|wp_step; by apply Hnone]. apply wp_ret. cbn [seq_post].
    eapply wp_mono; [apply wp_start_interface|]. intros r w' (cs & E & Hr). exists cs. rewrite <- T4. split; [done|].
    destruct r; try done. right. split; [|done]. by exists s, t. }
  wp_step. unfold store_token. wp_step; [wp_step|]; cbn [seq_post]; apply Hrest; [|done].
  cbn [trace]. by rewrite cmds_app, T3, app_nil_r.
Qed.
End Start.

(** ** Witnesses *)

Module LteToy.

Definition pgw : string := "10.0.0.1".
Definition bgw : string := "192.168.8.1".

(** One character per default route. *)
Definition route_of (c : ascii) : route :=
  if Ascii.eqb c "P" then Route pgw "eth0" 0 else if Ascii.eqb c "p" then Route pgw "eth0" 2 else Route bgw "eth1" 0.

#[global] Instance net : Network := {
  routes_of s := map route_of (list_ascii_of_string s);
  link_of _ gw := if String.eqb gw pgw then Some "eth0" else if String.eqb gw bgw then Some "eth1" else None }.

Definition table (w : world) : string := default "" (get ROUTES w).
Definition set_table (s : string) (w : world) : Z * fsys := (0, fs (put_file ROUTES s w)).

Definition copy (src dst : string) (w : world) : Z * fsys :=
  match get src w with Some s => (0, fs (put_file dst s w)) | None => (1, fs w) end.

Definition show (p : route -> bool) (w : world) : option string := Some (if existsb p (routes w) then "default" else "").

(** The server answers [answer] over the primary interface; the backup interface is up if [backup]. *)
Definition child (answer : string) : Env :=
  Build_Env (fun _ w => (0, fs w)) (fun _ _ => Some answer) (fun _ _ => true) (fun _ _ => true) (fun _ _ n => n) (fun _ _ _ => true) (fun _ => true).

Definition run (answer : string) (c : string) (w : world) : Z * fsys :=
  if String.eqb c (snprintf 128 DEL_DEFAULT) then set_table (sdrop 1 (table w)) w
  else if String.eqb c (snprintf 128 (ADD_DEFAULT pgw)) then set_table (String "P" (table w)) w
  else if String.eqb c (snprintf 128 (ADD_DEFAULT bgw)) then set_table (String "B" (table w)) w
  else if String.eqb c (snprintf 128 (ADD_METRIC2 pgw)) then set_table (table w +:+ "p") w
  else if String.eqb c (COPY PRI_DNS_FILE ORIG_DNS_FILE) then copy PRI_DNS_FILE ORIG_DNS_FILE w
  else if String.eqb c (COPY BKUP_DNS_FILE ORIG_DNS_FILE) then copy BKUP_DNS_FILE ORIG_DNS_FILE w
  else if String.eqb c (ECHO "up" LTE_STATUS_FILE) then (0, fs (put_file LTE_STATUS_FILE ("up" +:+ String LF "") w))
  else if String.eqb c (ECHO "down" LTE_STATUS_FILE) then (0, fs (put_file LTE_STATUS_FILE ("down" +:+ String LF "") w))
  else if String.eqb c (ECHO "available" PRI_GW_AVAIL_FILE) then (0, fs (put_file PRI_GW_AVAIL_FILE ("available" +:+ String LF "") w))
  else if String.eqb c CHECK_PRIMARY_CMD then
    (wait_status (fst (@check_primary (child answer) None w)), fs (snd (@check_primary (child answer) None w)))
  else (1, fs w).

Definition print (backup : bool) (c : string) (w : world) : option string :=
  if String.eqb c (snprintf 128 (SHOW_PRIMARY pgw PRIMARY_WLAN_IF)) then show (fun r => bool_decide (r = Route pgw "wlan0" 0)) w
  else if String.eqb c (snprintf 128 (SHOW_PRIMARY pgw PRIMARY_ETH_IF)) then show (fun r => bool_decide (r = Route pgw "eth0" 0)) w
  else if String.eqb c (snprintf 128 (SHOW_BACKUP bgw BACKUP_ETH_IF)) then show (fun r => bool_decide (r = Route bgw "eth1" 0)) w
  else if String.eqb c (snprintf 128 SHOW_METRIC2) then show (fun r => r_metric r =? 2) w
  else if String.eqb c (snprintf 128 (BACKUP_CHECK_IF_STATUS BACKUP_ETH_IF)) then Some (if backup then "UP" else "")
  else Some "".

Definition env (backup : bool) (answer : string) : Env :=
  Build_Env (run answer) (print backup) (fun _ _ => true) (fun _ _ => true) (fun _ _ n => n) (fun _ _ _ => true) (fun _ => true).

Lemma routes_kind w r : r ∈ routes w -> r = Route pgw "eth0" 0 \/ r = Route pgw "eth0" 2 \/ r = Route bgw "eth1" 0.
Proof.
  unfold routes. cbn. intros Hr. apply list_elem_of_In, in_map_iff in Hr as (c & <- & _). unfold route_of. repeat case_match; auto.
Qed.

Lemma greps_show b a c w (p : route -> bool) (P : route -> Prop) :
  print b c w = show p w -> (forall r, r ∈ routes w -> (p r = true <-> P r)) ->
  @greps (env b a) c w (exists r, r ∈ routes w /\ P r).
Proof.
  intros E HP. exists (if existsb p (routes w) then "default" else ""). split; [exact E|]. split.
  - destruct (existsb p (routes w)) eqn:X; [|done]. intros _. apply existsb_exists in X as (r & Hr & Hp).
    apply list_elem_of_In in Hr. exists r. split; [done|]. by apply HP.
  - intros (r & Hr & Hp). rewrite (proj2 (existsb_exists p (routes w))); [done|]. exists r.
    split; [by apply list_elem_of_In|by apply HP].
Qed.

(** A command that replaces the table. *)
Lemma table_cmd a b c w s : run a c w = set_table s w -> plain w ->
  agree [ROUTES] w (@after_cmd (env b a) c w) /\ routes (@after_cmd (env b a) c w) = map route_of (list_ascii_of_string s) /\
  fst (run a c w) = 0.
Proof.
  intros E P. unfold after_cmd. cbn [sh env]. rewrite E. split; [|split; [|done]].
  - eapply agree_fs; [|apply (agree_put [ROUTES] ROUTES s w w); [by apply agree_refl|done|by left]]. done.
  - unfold routes. rewrite (get_fs ROUTES _ (put_file ROUTES s w)) by done. by rewrite get_put_eq.
Qed.

Lemma routes_table w : routes w = map route_of (list_ascii_of_string (table w)).
Proof. done. Qed.

Lemma laws b a : @NetLaws (env b a) net pgw bgw BACKUP_ETH_IF.
Proof.
  split.
  - intros intf w _ Hi. apply elem_of_cons in Hi as [-> | [-> | []%not_elem_of_nil]%elem_of_cons];
      (eapply greps_show; [reflexivity|]); intros r [-> | [-> | ->]]%routes_kind; rewrite bool_decide_eq_true; by firstorder.
  - intros w _. eapply greps_show; [reflexivity|]. intros r [-> | [-> | ->]]%routes_kind; rewrite bool_decide_eq_true; by firstorder.
  - intros w _. eapply greps_show; [reflexivity|]. intros r _. apply Z.eqb_eq.
  - intros w P. destruct (table_cmd a b (snprintf 128 DEL_DEFAULT) w (sdrop 1 (table w)) eq_refl P) as (H1 & H2 & _).
    split; [done|]. rewrite H2, routes_table. by destruct (table w).
  - intros gw w P Hg. apply elem_of_cons in Hg as [-> | [-> | []%not_elem_of_nil]%elem_of_cons].
    + destruct (table_cmd a b (snprintf 128 (ADD_DEFAULT pgw)) w (String "P" (table w)) eq_refl P) as (H1 & H2 & H3).
      split; [done|]. split; [intros dev [= <-] _; by rewrite H2|]. left. split; [done|]. exists "eth0". by rewrite H2.
    + destruct (table_cmd a b (snprintf 128 (ADD_DEFAULT bgw)) w (String "B" (table w)) eq_refl P) as (H1 & H2 & H3).
      split; [done|]. split; [intros dev [= <-] _; by rewrite H2|]. left. split; [done|]. exists "eth1". by rewrite H2.
  - intros w P. destruct (table_cmd a b (snprintf 128 (ADD_METRIC2 pgw)) w (table w +:+ "p") eq_refl P) as (H1 & H2 & _).
    split; [done|]. right. exists "eth0". rewrite H2, routes_table. clear. generalize (table w) as t. induction t as [|c t IH]; [done|]. cbn. by rewrite IH.
  - intros src dst s w _ Hs Hi. apply elem_of_cons in Hi as [[= -> ->] | [[= -> ->] | []%not_elem_of_nil]%elem_of_cons].
    + change (copy PRI_DNS_FILE ORIG_DNS_FILE w = (0, fs (put_file ORIG_DNS_FILE s w))). unfold copy. by rewrite Hs.
    + change (copy BKUP_DNS_FILE ORIG_DNS_FILE w = (0, fs (put_file ORIG_DNS_FILE s w))). unfold copy. by rewrite Hs.
  - intros text file w _ Hi. repeat (apply elem_of_cons in Hi as [[= -> ->] | Hi]; [reflexivity|]). by apply not_elem_of_nil in Hi.
Qed.

Lemma checks b a : @runs (env b a) CHECK_PRIMARY_CMD (@check_primary (child a) None).
Proof. by intros w. Qed.

(** The primary connection is in use. *)
Definition w0 : world :=
  put_file ROUTES "P" (put_file PRI_GW_FILE pgw (put_file BKUP_GW_FILE bgw (put_file PRI_DNS_FILE "nameserver 10.0.0.1"
    (put_file BKUP_DNS_FILE "nameserver 192.168.8.1" (put_file ORIG_DNS_FILE "nameserver 10.0.0.1" (World (Fsys ∅ ∅ [] ∅ "/") [])))))).

Lemma w0_configured : configured pgw bgw "nameserver 10.0.0.1" "nameserver 192.168.8.1" w0.
Proof. split; [done|]. split; [by exists pgw|]. split; [by exists bgw|]. done. Qed.

Lemma w0_consistent : consistent pgw bgw "nameserver 10.0.0.1" "nameserver 192.168.8.1" BACKUP_ETH_IF true w0.
Proof. split; [|done]. exists "eth0", []. split; [done|apply Forall_nil_2]. Qed.

(** The daemon is started when the backup connection is in use. *)
Definition w1 : world := put_file ROUTES "Bp" w0.

Lemma w1_uses_backup : uses_backup pgw bgw BACKUP_ETH_IF w1.
Proof. exists [Route pgw "eth0" 2]. split; [done|by repeat constructor]. Qed.

Lemma w1_configured : configured pgw bgw "nameserver 10.0.0.1" "nameserver 192.168.8.1" w1.
Proof. split; [done|]. split; [by exists pgw|]. split; [by exists bgw|]. done. Qed.

End LteToy.

Lemma failover_turn_witness :
  let r := @gateway_turn (LteToy.env true "no route") "" BACKUP_ETH_IF true LteToy.w0 in
  fst r = Val false /\ routes (snd r) = [Route LteToy.bgw "eth1" 0; Route LteToy.pgw "eth0" 2] /\
  get ORIG_DNS_FILE (snd r) = Some "nameserver 192.168.8.1" /\
  exists w3, @next (LteToy.child "no route") (LteToy.env true "no route") BACKUP_ETH_IF true LteToy.w0 w3 = false.
Proof.
  destruct (@failover_turn (LteToy.child "no route") (LteToy.env true "no route") LteToy.net ltac:(done)
    LteToy.pgw LteToy.bgw "nameserver 10.0.0.1" "nameserver 192.168.8.1" BACKUP_ETH_IF (LteToy.laws _ _) (LteToy.checks _ _) ltac:(done)
    "" true "eth0" LteToy.w0 LteToy.w0_configured LteToy.w0_consistent ltac:(done) ltac:(done)) as (w3 & _ & E & _).
  split; [by vm_compute|]. split; [by vm_compute|]. split; [by vm_compute|]. exists w3. reflexivity.
Defined.


Lemma failover_stuck_witness :
  wp (@gateway_loop (LteToy.env true "up") ["a"; "b"; "c"] BACKUP_ETH_IF true)
    (fun r w' => r = Val true /\ uses_backup LteToy.pgw LteToy.bgw BACKUP_ETH_IF w') LteToy.w1 /\
  @primary_ok (LteToy.child "up") LteToy.w1 = true.
Proof.
  split; [|by vm_compute].
  apply (@failover_stuck (LteToy.child "up") (LteToy.env true "up") LteToy.net ltac:(done)
    LteToy.pgw LteToy.bgw "nameserver 10.0.0.1" "nameserver 192.168.8.1" BACKUP_ETH_IF (LteToy.laws _ _) (LteToy.checks _ _)).
  - apply LteToy.w1_configured.
  - apply LteToy.w1_uses_backup.
Defined.
