(* ===== verification/Battery.v ===== *)
(** * batteryd.c and batterydv3.c: battery state of the hub

    Both daemons poll the power source, record when the hub runs on battery, switch the USB
    ports, and translate raw readings to voltages and levels; batterydv3.c also reconnects the
    LTE modem after a power bounce.  Floating point is that of CFloat.v.  Registers and ioctls
    are the class [Hardware]; a turn of each loop is a function of the variables that live
    across turns. *)
From Stdlib Require Import ZArith String Ascii Lia Bool SpecFloat.
From stdpp Require Import base gmap strings list numbers.
From S2P Require Import Prelude CLib CFloat Os IrisLib Traces Lte.

Local Open Scope string_scope.
Local Open Scope Z_scope.

(** ** Constants *)

Definition BTRY_ON_FILE : string := "/tmp/battery_on".
Definition BTRY_LEVEL_FILE : string := "/tmp/battery_level".
Definition BTRY_VOLTAGE_FILE : string := "/tmp/battery_voltage".
Definition CHARGE_STATE_FILE : string := "/tmp/charge_state".
Definition CHARGE_LEVEL_FILE : string := "/tmp/charge_level".
Definition BTRY_HOLD_GPIO_VALUE_FILE : string := "/sys/class/gpio/gpio117/value".
Definition BTRY_VOLTAGE_VALUE_FILE : string := "/sys/bus/iio/devices/iio:device0/in_voltage6_raw".
Definition PWR_EN_USB_VALUE_FILE : string := "/tmp/io/usbPower".
Definition MAX_BATTERY_VOLTAGE : string := "/data/config/max_voltage".

Definition BATTERY_INITIAL_DELAY : Z := 5.
Definition BATTERY_PERIODIC_DELAY : Z := 2.
Definition AC_RESTORE_DELAY : Z := 1.
Definition VOLTAGE_CHECK_INTERVAL : Z := 60 / BATTERY_PERIODIC_DELAY.
Definition MAX_RAW_VOLTAGE : Z := 0x0FFF.
Definition USB0_DEV : string := "/dev/bus/usb/001/001".
Definition USB1_DEV : string := "/dev/bus/usb/002/001".
Definition USB_PORT_CONNECTED : Z := 0x0001.

(** ** Devices *)

Definition ENODATA : Z := 61.

Section Usb.
Context {Ev : Env} {Hw : Hardware}.

(** Writes a file anew. *)
Definition write_text (file text : string) : M unit :=
  f ← fopen_w file;
  when f (_ ← fwrite file text; mret tt).

(** [ioctl(fd, request, ...)] *)
Definition ioctl (dev request : string) : M (option Z) :=
  w ← get_world; _ ← emit (Ioctl dev request); mret (usb_ioctl dev request w).

Definition usb_connected_dev (dev : string) : M bool :=
  w ← get_world;
  if usb_open dev w then
    _ ← emit (Ioctl dev "GET_STATUS");
    mret (match usb_status dev w with Some s => negb (Z.land s USB_PORT_CONNECTED =? 0) | None => false end)
  else mret false.

End Usb.

(** ** batteryd.c *)

Module V2.

Definition I2CBUS : Z := 0.
Definition POWER_STATE_BATTERY : Z := 0x00.
Definition POWER_STATE_AC : Z := 0x08.
Definition POWER_STATE_MASK : Z := 0x08.
Definition BATTERY_HOLD_ON : Z := 0.
Definition BATTERY_HOLD_OFF : Z := 1.
Definition NUM_USB_PORTS : nat := 2.
Definition VOLTAGE_DIVIDER_RES1 : Z := 36500.
Definition VOLTAGE_DIVIDER_RES2 : Z := 100000.
Definition VOLTAGE_IN_MIN : float := lit64 42 1.
Definition VOLTAGE_NO_BATTERIES : float := lit64 125 2.
Definition BATTERY_RESET_V : float := lit64 50 1.
Definition DIODE_V_DROP_OFF : float := lit64 3 2.
Definition DIODE_V_DROP_ON : float := lit64 25 2.

(** The variables that live across turns. *)
Record bat := Bat { lastState : Z; max_voltage : float; loop_count : Z; usb_port_in_use : list bool }.

(** *** Voltages *)

Definition total_voltage (raw_value batteryState : Z) : float :=
  let adc_value := narrow (div64 (mul64 (of_int64 raw_value) (lit64 180 2)) (of_int64 MAX_RAW_VOLTAGE)) in
  let current := div32 adc_value (of_int32 VOLTAGE_DIVIDER_RES1) in
  let total := add32 adc_value (mul32 current (of_int32 VOLTAGE_DIVIDER_RES2)) in
  narrow (add64 (widen total) (if batteryState =? POWER_STATE_BATTERY then DIODE_V_DROP_ON else DIODE_V_DROP_OFF)).

(** The level in percent, -1 without batteries. *)
Definition level (total max : float) : float :=
  if fle (widen total) VOLTAGE_NO_BATTERIES then of_int32 (-1)
  else if fle (widen total) VOLTAGE_IN_MIN then of_int32 0
  else narrow (mul64 (div64 (sub64 (widen total) VOLTAGE_IN_MIN) (sub64 (widen max) VOLTAGE_IN_MIN)) (of_int64 100)).

Section Programs.
Context {Ev : Env} {Hw : Hardware}.

Definition getBatteryState : M Z :=
  f ← popen (snprintf 128 "i2cget -y -f 0 0x24 0xA");
  match f with
  | Some out => mret (Z.land (match scan_x out with Some state => state | None => 0xFF end) POWER_STATE_MASK)
  | None => crash
  end.

Definition HOLD_CMD (mode : Z) : string := "echo " +:+ dec mode +:+ " > " +:+ BTRY_HOLD_GPIO_VALUE_FILE.
Definition holdBatteryPower (mode : Z) : M unit := _ ← system (snprintf 128 (HOLD_CMD mode)); mret tt.

(** Disables a port; the callers ignore the result. *)
Definition usb_disable (dev : string) : M unit :=
  w ← get_world;
  if usb_open dev w then
    r ← ioctl dev "DISCONNECT";
    if match r with Some e => negb (e =? ENODATA) | None => false end then mret tt
    else _ ← ioctl dev "CLEAR_FEATURE PORT_POWER"; mret tt
  else mret tt.

Definition usb_enable (dev : string) : M unit :=
  w ← get_world;
  if usb_open dev w then _ ← ioctl dev "CONNECT"; mret tt else mret tt.

Definition usb_devs : list string := [USB0_DEV; USB1_DEV].

Fixpoint power_off (devs : list string) : M (list bool) :=
  match devs with
  | [] => mret []
  | dev :: devs' =>
      c ← usb_connected_dev dev;
      _ ← when (negb c) (usb_disable dev);
      r ← power_off devs';
      mret (c :: r)
  end.
Definition usb_power_off : M (list bool) := power_off usb_devs.

Fixpoint power_on (devs : list string) (in_use : list bool) : M (list bool) :=
  match devs, in_use with
  | dev :: devs', u :: in_use' => _ ← when (negb u) (usb_enable dev); r ← power_on devs' in_use'; mret (false :: r)
  | _, _ => mret []
  end.
Definition usb_power_on (in_use : list bool) : M (list bool) := power_on usb_devs in_use.

(** *** A turn *)

(** What depends on the power source: the new [usb_port_in_use]. *)
Definition power_step (batteryState : Z) (b : bat) : M (list bool) :=
  if batteryState =? POWER_STATE_BATTERY then
    if negb (lastState b =? POWER_STATE_BATTERY) then
      _ ← holdBatteryPower BATTERY_HOLD_ON;
      _ ← system (snprintf 128 ("date > " +:+ BTRY_ON_FILE));
      usb_power_off
    else mret (usb_port_in_use b)
  else
    in_use ← (if lastState b =? POWER_STATE_BATTERY then
                _ ← unlink BTRY_ON_FILE;
                _ ← sleep AC_RESTORE_DELAY;
                usb_power_on (usb_port_in_use b)
              else mret (usb_port_in_use b));
    _ ← holdBatteryPower BATTERY_HOLD_OFF;
    mret in_use.

(** The new maximum; a larger one is saved. *)
Definition update_max (total max : float) : M float :=
  if flt max total then _ ← write_text MAX_BATTERY_VOLTAGE (print_f2 total +:+ String LF ""); mret total
  else if fle (widen total) VOLTAGE_IN_MIN then mret (narrow BATTERY_RESET_V)
  else mret max.

(** Reports the voltage and the level. *)
Definition voltage_step (batteryState : Z) (max : float) : M float :=
  f ← fopen_r BTRY_VOLTAGE_VALUE_FILE;
  let raw_value := match f with Some s => default 0 (scan_d s) | None => 0 end in
  if 0 <? raw_value then
    let total := total_voltage raw_value batteryState in
    max ← update_max total max;
    _ ← write_text BTRY_LEVEL_FILE (print_f2 (level total max) +:+ String LF "");
    _ ← write_text BTRY_VOLTAGE_FILE (print_f2 total +:+ String LF "");
    mret max
  else mret max.

(** [stack] is what the uninitialised array of [IRIS_isBatteryVoltageDetectionSupported] holds. *)
Definition battery_turn (stack : string) (b : bat) : M bat :=
  batteryState ← getBatteryState;
  in_use ← power_step batteryState b;
  sup ← IRIS_isBatteryVoltageDetectionSupported stack;
  '(max, count) ←
    (if sup : bool then
       if negb (lastState b =? batteryState) then max ← voltage_step batteryState (max_voltage b); mret (max, loop_count b)
       else
         max ← (if loop_count b mod VOLTAGE_CHECK_INTERVAL =? 0 then voltage_step batteryState (max_voltage b)
                else mret (max_voltage b));
         mret (max, u32 (loop_count b + 1))
     else mret (max_voltage b, loop_count b));
  _ ← sleep BATTERY_PERIODIC_DELAY;
  mret (Bat batteryState max count in_use).

(** The start of main. *)
Definition battery_init (stack : string) : M bat :=
  _ ← sleep BATTERY_INITIAL_DELAY;
  sup ← IRIS_isBatteryVoltageDetectionSupported stack;
  max ← (if sup : bool then
           f ← fopen_r MAX_BATTERY_VOLTAGE;
           mret (match f with Some s => default (S754_zero false) (scan_f s) | None => S754_zero false end)
         else mret (S754_zero false));
  mret (Bat POWER_STATE_AC max 0 (replicate NUM_USB_PORTS false)).

(** As many turns as there are contents for the locals. *)
Fixpoint battery_loop (stacks : list string) (b : bat) : M bat :=
  match stacks with
  | [] => mret b
  | stack :: stacks' => b ← battery_turn stack b; battery_loop stacks' b
  end.

End Programs.
End V2.

(** ** batterydv3.c *)

Module V3.

Definition VIN_PRESENT : Z := 0x01.
Definition BATTERY_MISSING : Z := 0x04.
Definition BOOST : Z := 0x40.
Definition STATUS_FIELD : Z := 0x30.
Definition STATUS_READY : Z := 0x00.
Definition STATUS_CHARGING : Z := 0x10.
Definition STATUS_DONE : Z := 0x20.
Definition STATUS_FAULT : Z := 0x30.
Definition POWER_STATE_AC : Z := 0x01.
Definition SY6410_SLAVE_ADDR : Z := 0x30.
Definition VOLTAGE_IN_MIN : float := lit64 268 2.
Definition VOLTAGE_IN_MAX : float := lit64 415 2.
Definition CRG_VOLTAGE_BASE : float := lit64 250 2.
Definition CRG_VOLTAGE_MULT : float := lit64 250 2.

Inductive LteRestartStates := IDLE | START | START_WAIT | DISCONNECT | DISCONNECT_WAIT | RECONNECT.

Record bat := Bat { lastState : Z; usb_port_in_use : bool; lte_restart_state : LteRestartStates; loop_count : Z }.

Definition bat_init : bat := Bat POWER_STATE_AC false IDLE 0.

(** *** Voltages *)

Definition total_voltage (raw_value : Z) : float :=
  narrow (add64 CRG_VOLTAGE_BASE (div64 (mul64 (of_int64 raw_value) CRG_VOLTAGE_MULT) (of_int64 MAX_RAW_VOLTAGE))).

Definition level (total : float) : float :=
  let l := if fle (widen total) VOLTAGE_IN_MIN then of_int32 0
           else narrow (mul64 (div64 (sub64 (widen total) VOLTAGE_IN_MIN) (sub64 VOLTAGE_IN_MAX VOLTAGE_IN_MIN)) (of_int64 100)) in
  if flt (of_int32 100) l then narrow (lit64 1000 1) else l.

(** The charge counter in percent, rounded down. *)
Definition charge_level (charge : Z) : float := of_int32 (charge * 100 / 0xFFFF).

Definition charge_state (batteryState : Z) : string :=
  if negb (Z.land batteryState BOOST =? 0) then "Boost"
  else if negb (Z.land batteryState BATTERY_MISSING =? 0) then "Missing"
  else if Z.land batteryState STATUS_FIELD =? STATUS_READY then "Ready"
  else if Z.land batteryState STATUS_FIELD =? STATUS_CHARGING then "Charging"
  else if Z.land batteryState STATUS_FIELD =? STATUS_DONE then "Done"
  else "Fault".

Definition on_mains (state : Z) : bool := negb (Z.land state VIN_PRESENT =? 0).

Section Programs.
Context {Ev : Env} {Hw : Hardware}.

Definition getBatteryState : M Z :=
  w ← get_world;
  mret (if i2c_open w then
          if i2c_slave SY6991_SLAVE_ADDR w then default 0 (i2c_reg SY6991_SLAVE_ADDR 0 w) else VIN_PRESENT
        else VIN_PRESENT).

Definition USB_POWER_CMD (on : string) : string := "echo " +:+ on +:+ " > " +:+ PWR_EN_USB_VALUE_FILE.
Definition usb_disable : M unit := _ ← system (snprintf 128 (USB_POWER_CMD "0")); mret tt.
Definition usb_enable : M unit := _ ← system (snprintf 128 (USB_POWER_CMD "1")); mret tt.

Definition usb_power_off : M bool :=
  c ← usb_connected_dev USB0_DEV;
  _ ← when (negb c) usb_disable;
  mret c.

Definition usb_power_on (in_use : bool) : M bool := _ ← when (negb in_use) usb_enable; mret false.

(** The restart of the LTE connection after a power bounce. *)
Definition lte_step (s : LteRestartStates) : M LteRestartStates :=
  match s with
  | IDLE => mret IDLE
  | START => _ ← usb_disable; _ ← usb_enable; mret START_WAIT
  | START_WAIT => a ← access LTE_DONGLE_FILE; mret (if a : bool then DISCONNECT else START_WAIT)
  | DISCONNECT => _ ← system (snprintf 128 (ECHO "disconnect" LTE_CONTROL_FILE)); mret DISCONNECT_WAIT
  | DISCONNECT_WAIT => a ← access LTE_DONGLE_FILE; mret (if a : bool then RECONNECT else DISCONNECT_WAIT)
  | RECONNECT => _ ← system (snprintf 128 (ECHO "connect" LTE_CONTROL_FILE)); mret IDLE
  end.

(** What depends on the power source. *)
Definition power_step (batteryState : Z) (b : bat) : M (bool * LteRestartStates) :=
  if negb (on_mains batteryState) then
    if on_mains (lastState b) then
      _ ← system (snprintf 128 ("date > " +:+ BTRY_ON_FILE));
      lte ← IRIS_isLTEConnected;
      if lte : bool then mret (true, START)
      else u ← usb_power_off; mret (u, lte_restart_state b)
    else mret (usb_port_in_use b, lte_restart_state b)
  else if negb (on_mains (lastState b)) then
    _ ← unlink BTRY_ON_FILE;
    u ← usb_power_on (usb_port_in_use b);
    mret (u, lte_restart_state b)
  else mret (usb_port_in_use b, lte_restart_state b).

(** The raw voltage; the charge level is written on the way. *)
Definition read_voltage : M Z :=
  w ← get_world;
  if i2c_open w && i2c_slave SY6410_SLAVE_ADDR w then
    let reg r old := default old (i2c_reg SY6410_SLAVE_ADDR r w) in
    let d2 := reg 2 0 in let d3 := reg 3 d2 in
    let d4 := reg 4 d3 in let d5 := reg 5 d4 in
    _ ← write_text CHARGE_LEVEL_FILE (print_f2 (charge_level (Z.lor (Z.shiftl d4 8) d5)) +:+ String LF "");
    mret (Z.lor (Z.shiftl (Z.land d2 0xFF) 8) d3)
  else mret 0.

Definition voltage_step : M unit :=
  raw_value ← read_voltage;
  when (0 <? raw_value)
    (let total := total_voltage raw_value in
     _ ← write_text BTRY_LEVEL_FILE (print_f2 (level total) +:+ String LF "");
     write_text BTRY_VOLTAGE_FILE (print_f2 total +:+ String LF "")).

Definition battery_turn (b : bat) : M bat :=
  s ← lte_step (lte_restart_state b);
  let b := Bat (lastState b) (usb_port_in_use b) s (loop_count b) in
  batteryState ← getBatteryState;
  '(u, s) ← power_step batteryState b;
  let changed := negb (lastState b =? batteryState) in
  _ ← when changed (write_text CHARGE_STATE_FILE (charge_state batteryState +:+ String LF ""));
  _ ← when (changed || (loop_count b mod VOLTAGE_CHECK_INTERVAL =? 0)) voltage_step;
  _ ← sleep BATTERY_PERIODIC_DELAY;
  mret (Bat batteryState u s (if changed then loop_count b else u32 (loop_count b + 1))).

Fixpoint battery_loop (n : nat) (b : bat) : M bat :=
  match n with
  | O => mret b
  | S n' => b ← battery_turn b; battery_loop n' b
  end.

(** The start of main, and the loop. *)
Definition batterydv3 (n : nat) : M bat :=
  _ ← write_text BTRY_LEVEL_FILE ("0.0" +:+ String LF "");
  _ ← write_text BTRY_VOLTAGE_FILE ("0.0" +:+ String LF "");
  _ ← sleep BATTERY_INITIAL_DELAY;
  battery_loop n bat_init.

End Programs.
End V3.

(** ** Levels *)

Section Levels.

(** The values of [f] from [r] on are numbers that do not decrease, from [prev] to [top]. *)
Fixpoint rising (f : Z -> option Z) (top : Z) (n : nat) (r prev : Z) : bool :=
  match n with
  | O => prev <=? top
  | S n' => match f r with Some v => (prev <=? v) && rising f top n' (r + 1) v | None => false end
  end.

Lemma rising_bounds f top n r prev : rising f top n r prev = true ->
  forall x, r <= x < r + Z.of_nat n -> exists v, f x = Some v /\ prev <= v <= top.
Proof.
  revert r prev. induction n as [|n IH]; intros r prev H x Hx; [lia|]. cbn [rising] in H.
  destruct (f r) as [v|] eqn:E; [|done]. apply andb_true_iff in H as [H1 H2]. to_prop.
  destruct (decide (x = r)) as [->|Hne].
  - exists v. split; [done|]. split; [done|]. destruct n as [|n]; [cbn in H2; lia|].
    destruct (IH _ _ H2 (r + 1)) as (v' & _ & Hv); lia.
  - destruct (IH _ _ H2 x) as (v' & E' & Hv); [lia|]. exists v'. split; [done|lia].
Qed.

Lemma rising_mono f top n r prev : rising f top n r prev = true ->
  forall x y, r <= x <= y -> y < r + Z.of_nat n -> exists u v, f x = Some u /\ f y = Some v /\ prev <= u <= v /\ v <= top.
Proof.
  revert r prev. induction n as [|n IH]; intros r prev H x y Hx Hy; [lia|].
  pose proof (rising_bounds _ _ _ _ _ H y ltac:(lia)) as (v & Ev & Hv). pose proof H as H'. cbn [rising] in H'.
  destruct (f r) as [u|] eqn:Eu; [|done]. apply andb_true_iff in H' as [H1 H2]. to_prop.
  destruct (decide (x = r)) as [->|Hne].
  - exists u, v. repeat (split; [done|]). split; [|lia]. split; [done|]. destruct (decide (y = r)) as [->|Hny]; [by simplify_eq|].
    destruct (rising_bounds _ _ _ _ _ H2 y ltac:(lia)) as (v' & E' & ?). simplify_eq. lia.
  - destruct (IH _ _ H2 x y ltac:(lia) ltac:(lia)) as (u' & v' & ? & ? & ? & ?). exists u', v'. repeat (split; [done|]). lia.
Qed.

Definition v3_level_units (raw : Z) : option Z := units (V3.level (V3.total_voltage raw)).

Lemma v3_levels_rising : rising v3_level_units (100 * 2 ^ 149) 4095 1 0 = true.
Proof. vm_compute. reflexivity. Qed.

(** For every 12-bit reading of the converter the level batterydv3 reports is a number between 0 and 100, and it does not
    decrease when the reading grows, in the rounding of the C operations. *)
Theorem v3_level_monotone r r' : 1 <= r <= r' -> r' <= MAX_RAW_VOLTAGE ->
  exists u v, units (V3.level (V3.total_voltage r)) = Some u /\ units (V3.level (V3.total_voltage r')) = Some v /\
    0 <= u <= v /\ v <= 100 * 2 ^ 149.
Proof.
  intros H1 H2. apply (rising_mono _ _ _ _ _ v3_levels_rising r r'); [done|]. unfold MAX_RAW_VOLTAGE in H2. lia.
Qed.

Lemma v3_level_monotone_witness : exists u v,
  units (V3.level (V3.total_voltage 1000)) = Some u /\ units (V3.level (V3.total_voltage 2000)) = Some v /\ 0 <= u <= v /\ v <= 100 * 2 ^ 149.
Proof. apply (v3_level_monotone 1000 2000); unfold MAX_RAW_VOLTAGE; lia. Defined.

End Levels.

(** ** The record of the power source *)

Section Power.
Context {Ev : Env} {HW : Hardware}.

Definition DATE_CMD : string := snprintf 128 ("date > " +:+ BTRY_ON_FILE).

(** The shell creates the file for [date], and no other command touches it. *)
Record PowerLaws : Prop := {
  law_date : forall w, plain w -> plain (after_cmd DATE_CMD w) /\ is_Some (get BTRY_ON_FILE (after_cmd DATE_CMD w));
  law_other : forall c w, plain w -> c <> DATE_CMD ->
    plain (after_cmd c w) /\ get BTRY_ON_FILE (after_cmd c w) = get BTRY_ON_FILE w }.

Context (L : PowerLaws).

(** The file has the contents [v]. *)
Definition keeps (v : option string) (w : world) : Prop := plain w /\ get BTRY_ON_FILE w = v.

Lemma stable_other v c : c <> DATE_CMD -> stable (keeps v) (system c).
Proof.
  intros Hc w [P Hv]. destruct (law_other L c w P Hc) as [P' Hg]. unfold after_cmd in *. unfold system.
  destruct (sh c w). cbn in *. split; [done|]. by rewrite Hg.
Qed.

Lemma stable_same v {A} (m : M A) : keeps_fs m -> stable (keeps v) m.
Proof. intros Hm w [P Hv]. split; [unfold plain in *; by rewrite Hm|]. rewrite <- Hv. apply get_fs, Hm. Qed.

Lemma stable_write v file text : is_abs file -> file <> BTRY_ON_FILE -> stable (keeps v) (write_text file text).
Proof.
  intros Ha Hne.
  assert (forall s w, keeps v w -> keeps v (put_file file s w)) as Hput.
  { intros s w [P Hv]. split; [done|]. rewrite get_put_ne; [done|]. by rewrite !resolve_plain by done. }
  unfold write_text. apply stable_bind.
  - intros w Hw. unfold fopen_w. destruct (wr_ok _ _); [by apply Hput|done].
  - intros f. apply stable_when. apply stable_bind; [|intros n; apply stable_ret]. intros w Hw. by apply Hput.
Qed.

Lemma stable_world v : stable (keeps v) get_world.
Proof. by intros w. Qed.

Lemma stable_ioctl v dev req : stable (keeps v) (ioctl dev req).
Proof. unfold ioctl. repeat (apply stable_bind; [first [apply stable_world | by apply stable_same]|intros ?]). apply stable_ret. Qed.

Lemma stable_connected v dev : stable (keeps v) (usb_connected_dev dev).
Proof.
  unfold usb_connected_dev. apply stable_bind; [apply stable_world|]. intros w. apply stable_if; [|apply stable_ret].
  apply stable_bind; [by apply stable_same|intros ?; apply stable_ret].
Qed.

Lemma stable_lte v : stable (keeps v) IRIS_isLTEConnected.
Proof.
  unfold IRIS_isLTEConnected. apply stable_bind; [by apply stable_same|]. intros a. apply stable_if; [|apply stable_ret].
  apply stable_bind; [by apply stable_same|]. intros f. apply stable_option; [|apply stable_ret]. intros s. cbv zeta.
  apply stable_bind; [apply stable_when; by apply stable_same|]. intros _. apply stable_ret.
Qed.

(** Taking or removing the record. *)
Lemma wp_date {A} (k : Z -> M A) Q w : plain w -> (forall st v w', keeps (Some v) w' -> wp (k st) Q w') -> wp (st ← system DATE_CMD; k st) Q w.
Proof.
  intros P HQ. destruct (law_date L w P) as [P' [v Hv]]. apply wp_bind. unfold after_cmd in *. unfold wp, system.
  destruct (sh DATE_CMD w) as [st s]. cbn in *. by apply (HQ st v).
Qed.

Lemma wp_unlink_on {A} (k : unit -> M A) Q w : plain w -> (forall w', keeps None w' -> wp (k tt) Q w') -> wp (u ← unlink BTRY_ON_FILE; k u) Q w.
Proof. intros P HQ. apply wp_bind, wp_unlink. cbn. apply HQ. split; [done|apply get_del_eq]. Qed.

Lemma returns_write file text : returns (write_text file text).
Proof.
  apply returns_bind; [intros w; unfold fopen_w; destruct (wr_ok _ _); by eexists|]. intros f. apply returns_when, returns_bind; [|intros; apply returns_ret].
  intros w. by eexists.
Qed.
Lemma returns_port dev : returns (usb_connected_dev dev).
Proof.
  apply returns_bind; [intros w; by eexists|]. intros w. destruct (usb_open dev w); [|apply returns_ret].
  apply returns_bind; [intros w'; by eexists|intros; apply returns_ret].
Qed.
Lemma returns_lte : returns IRIS_isLTEConnected.
Proof.
  unfold IRIS_isLTEConnected. apply returns_bind; [intros w; by eexists|]. intros [|]; [|apply returns_ret].
  apply returns_bind; [intros w; by eexists|]. intros [s|]; [|apply returns_ret]. cbv zeta. apply returns_bind; [|intros; apply returns_ret].
  apply returns_when. intros w. by eexists.
Qed.

(** *** batterydv3 *)

Definition v3_recorded (b : V3.bat) (w : world) : Prop :=
  plain w /\ (V3.on_mains (V3.lastState b) = true <-> get BTRY_ON_FILE w = None).

Lemma v3_usb_ok v on : on ∈ ["0"; "1"] ->
  returns (_ ← system (snprintf 128 (V3.USB_POWER_CMD on)); mret tt) /\
  stable (keeps v) (_ ← system (snprintf 128 (V3.USB_POWER_CMD on)); mret tt).
Proof.
  intros Hon. split; [apply returns_bind; [apply returns_system|intros; apply returns_ret]|].
  apply stable_bind; [|intros; apply stable_ret]. apply stable_other.
  repeat (apply elem_of_cons in Hon as [-> | Hon]; [decide_closed|]). by apply not_elem_of_nil in Hon.
Qed.

Lemma v3_lte_ok v s : returns (V3.lte_step s) /\ stable (keeps v) (V3.lte_step s).
Proof.
  destruct (v3_usb_ok v "0") as [R0 S0]; [decide_closed|]. destruct (v3_usb_ok v "1") as [R1 S1]; [decide_closed|].
  assert (forall k : bool -> V3.LteRestartStates, returns (a ← access LTE_DONGLE_FILE; mret (k a)) /\
    stable (keeps v) (a ← access LTE_DONGLE_FILE; mret (k a))) as Ha.
  { intros k. split; [apply returns_bind; [intros w; by eexists|intros; apply returns_ret]|].
    apply stable_bind; [by apply stable_same|intros; apply stable_ret]. }
  destruct s; cbn [V3.lte_step]; try apply Ha.
  - split; [apply returns_ret|apply stable_ret].
  - split; [repeat (apply returns_bind; [done|intros ?]); apply returns_ret|repeat (apply stable_bind; [done|intros ?]); apply stable_ret].
  - split; [apply returns_bind; [apply returns_system|intros; apply returns_ret]|].
    apply stable_bind; [apply stable_other; decide_closed|intros; apply stable_ret].
  - split; [apply returns_bind; [apply returns_system|intros; apply returns_ret]|].
    apply stable_bind; [apply stable_other; decide_closed|intros; apply stable_ret].
Qed.

Lemma v3_voltage_ok v : returns V3.voltage_step /\ stable (keeps v) V3.voltage_step.
Proof.
  assert (forall f t, f ∈ [CHARGE_LEVEL_FILE; BTRY_LEVEL_FILE; BTRY_VOLTAGE_FILE] -> stable (keeps v) (write_text f t)) as Hs.
  { intros f t Hf. repeat (apply elem_of_cons in Hf as [-> | Hf]; [apply stable_write; [done|decide_closed]|]). by apply not_elem_of_nil in Hf. }
  unfold V3.voltage_step, V3.read_voltage. split.
  - apply returns_bind.
    + apply returns_bind; [intros w; by eexists|]. intros w. destruct (_ && _); [|apply returns_ret].
      apply returns_bind; [apply returns_write|intros; apply returns_ret].
    + intros raw. apply returns_when, returns_bind; [apply returns_write|intros; apply returns_write].
  - apply stable_bind.
    + apply stable_bind; [apply stable_world|]. intros w. apply stable_if; [|apply stable_ret].
      apply stable_bind; [apply Hs; decide_closed|intros; apply stable_ret].
    + intros raw. apply stable_when, stable_bind; [apply Hs; decide_closed|intros; apply Hs; decide_closed].
Qed.

(** The power source changes, or not. *)
Lemma wp_v3_power st b w : v3_recorded b w ->
  wp (V3.power_step st b) (fun r w' => exists x v, r = Val x /\ keeps v w' /\ (V3.on_mains st = true <-> v = None)) w.
Proof.
  intros [P Hb]. unfold V3.power_step. destruct (V3.on_mains st) eqn:E1, (V3.on_mains (V3.lastState b)) eqn:E2; cbn [negb].
  - apply wp_ret. exists (V3.usb_port_in_use b, V3.lte_restart_state b), None. split; [done|]. split; [|done]. split; [done|]. by apply Hb.
  - apply wp_unlink_on; [done|]. intros w' Hw. destruct (v3_usb_ok None "1") as [R1 S1]; [decide_closed|].
    apply (wp_returns (keeps None)); [..|done|].
    + apply returns_bind; [apply returns_when, R1|intros; apply returns_ret].
    + apply stable_bind; [apply stable_when, S1|intros; apply stable_ret].
    + intros a w2 Hw2. apply wp_ret. by exists (a, V3.lte_restart_state b), None.
  - apply wp_date; [done|]. intros _ v w' Hw. apply (wp_returns (keeps (Some v))); [apply returns_lte| |done|].
    { apply stable_lte. }
    intros lte w2 Hw2. wp_step; [apply wp_ret; exists (true, V3.START), (Some v); done|].
    destruct (v3_usb_ok (Some v) "0") as [R0 S0]; [decide_closed|]. apply (wp_returns (keeps (Some v))); [..|done|].
    + apply returns_bind; [apply returns_port|]. intros c. apply returns_bind; [apply returns_when, R0|intros; apply returns_ret].
    + apply stable_bind; [apply stable_connected|]. intros c. apply stable_bind; [apply stable_when, S0|intros; apply stable_ret].
    + intros u w3 Hw3. apply wp_ret. exists (u, V3.lte_restart_state b), (Some v). done.
  - apply wp_ret. destruct (get BTRY_ON_FILE w) as [v|] eqn:Eg; [|by destruct Hb as [_ Hb]; specialize (Hb eq_refl)].
    exists (V3.usb_port_in_use b, V3.lte_restart_state b), (Some v). done.
Qed.

Lemma wp_v3_turn b w Q : v3_recorded b w -> (forall b' w', v3_recorded b' w' -> Q (Val b') w') -> wp (V3.battery_turn b) Q w.
Proof.
  intros [P Hb] HQ. unfold V3.battery_turn. destruct (v3_lte_ok (get BTRY_ON_FILE w) (V3.lte_restart_state b)) as [R S].
  apply (wp_returns (keeps (get BTRY_ON_FILE w))); [done|done|done|]. intros s w1 [P1 H1]. cbv zeta.
  set (b1 := V3.Bat _ _ _ _). assert (v3_recorded b1 w1) as Hb1 by (split; [done|]; by rewrite H1).
  apply (wp_returns (keeps (get BTRY_ON_FILE w1))); [|by apply stable_same|done|].
  { intros w'. by eexists. }
  intros st w2 [P2 H2]. wp_step. eapply wp_mono; [apply (wp_v3_power st b1); split; [done|]; by rewrite H2, <- (proj2 Hb1)|].
  intros r w3 ([u s'] & v & -> & Hv & Hmains). cbn [seq_post]. cbv zeta. destruct (v3_voltage_ok v) as [RV SV].
  apply (wp_returns (keeps v)); [apply returns_when, returns_write|apply stable_when, stable_write; [done|decide_closed]|done|]. intros _ w4 Hv4.
  apply (wp_returns (keeps v)); [by apply returns_when|by apply stable_when|done|]. intros _ w5 Hv5.
  apply (wp_returns (keeps v)); [intros w'; by eexists|by apply stable_same|done|]. intros _ w6 [P6 H6]. apply wp_ret, HQ. split; [done|].
  rewrite H6. exact Hmains.
Qed.

(** While batterydv3 runs, through any number of turns and any sequence of register values, the file that tells the other
    programs that the hub runs on battery exists exactly if the last state read has no input voltage; no turn fails. *)
Theorem v3_battery_file n w : plain w -> get BTRY_ON_FILE w = None ->
  wp (V3.batterydv3 n) (fun r w' => exists b, r = Val b /\ v3_recorded b w') w.
Proof.
  intros P Hn. unfold V3.batterydv3.
  apply (wp_returns (keeps None)); [apply returns_write|apply stable_write; [done|decide_closed]|done|]. intros _ w1 H1.
  apply (wp_returns (keeps None)); [apply returns_write|apply stable_write; [done|decide_closed]|done|]. intros _ w2 H2.
  apply (wp_returns (keeps None)); [intros w'; by eexists|by apply stable_same|done|]. intros _ w3 [P3 H3].
  assert (v3_recorded V3.bat_init w3) as Hb by (by split).
  clear -L Hb. revert Hb. generalize V3.bat_init as b. revert w3.
  induction n as [|n IH]; intros w3 b Hb; [apply wp_ret; eauto|]. cbn [V3.battery_loop]. wp_step.
  apply wp_v3_turn; [done|]. intros b' w' Hb'. cbn [seq_post]. by apply IH.
Qed.
(** *** batteryd *)

Definition on_battery (b : V2.bat) : bool := V2.lastState b =? V2.POWER_STATE_BATTERY.

(** The last value written to the line that holds the battery on. *)
Definition hold_of (c : string) : option Z :=
  if String.eqb c (snprintf 128 (V2.HOLD_CMD 0)) then Some 0 else if String.eqb c (snprintf 128 (V2.HOLD_CMD 1)) then Some 1 else None.
Definition hold_step (h : option Z) (e : event) : option Z :=
  match e with Cmd c => match hold_of c with Some z => Some z | None => h end | _ => h end.
Definition last_hold (t : list event) : option Z := foldl hold_step None t.

Definition v2_recorded (b : V2.bat) (w : world) : Prop :=
  plain w /\ (on_battery b = true <-> is_Some (get BTRY_ON_FILE w)) /\
  (on_battery b = true <-> last_hold (trace w) = Some V2.BATTERY_HOLD_ON).

(** Steps that leave both alone. *)
Definition quiet_pair (v : option string) (h : option Z) (w : world) : Prop := keeps v w /\ last_hold (trace w) = h.

Lemma stable_pair {A} v h (m : M A) : stable (keeps v) m -> stable (fun w => last_hold (trace w) = h) m -> stable (quiet_pair v h) m.
Proof. intros H1 H2 w [Hk Hh]. split; [by apply H1|by apply H2]. Qed.

Lemma last_hold_app t e : last_hold (t ++ [e]) = hold_step (last_hold t) e.
Proof. unfold last_hold. by rewrite foldl_app. Qed.

Lemma hold_emit h e : match e with Cmd _ => False | _ => True end -> stable (fun w => last_hold (trace w) = h) (emit e).
Proof. intros He w Hw. cbn. rewrite last_hold_app. by destruct e. Qed.

Lemma hold_same {A} h (m : M A) : (forall w, trace (snd (m w)) = trace w) -> stable (fun w => last_hold (trace w) = h) m.
Proof. intros Hm w Hw. by rewrite Hm. Qed.

Lemma pair_ret {A} v h (a : A) : stable (quiet_pair v h) (mret a).
Proof. apply stable_ret. Qed.

Lemma pair_emit v h e : match e with Cmd _ => False | _ => True end -> stable (quiet_pair v h) (emit e).
Proof. intros He. apply stable_pair; [by apply stable_same|by apply hold_emit]. Qed.

Lemma pair_write v h file text : is_abs file -> file <> BTRY_ON_FILE -> stable (quiet_pair v h) (write_text file text).
Proof.
  intros Ha Hn. apply stable_pair; [by apply stable_write|]. apply hold_same. intros w. unfold write_text, mbind, M_bind, fopen_w.
  by destruct (wr_ok file w).
Qed.

Lemma pair_ioctl v h dev req : stable (quiet_pair v h) (ioctl dev req).
Proof.
  apply stable_pair; [apply stable_ioctl|]. unfold ioctl. apply stable_bind; [by apply hold_same|]. intros w.
  apply stable_bind; [by apply hold_emit|intros; apply stable_ret].
Qed.

Lemma pair_disable v h dev : stable (quiet_pair v h) (V2.usb_disable dev).
Proof.
  unfold V2.usb_disable. apply stable_bind; [by intros w|]. intros w. apply stable_if; [|apply stable_ret].
  apply stable_bind; [apply pair_ioctl|]. intros r. apply stable_if; [apply stable_ret|].
  apply stable_bind; [apply pair_ioctl|intros; apply stable_ret].
Qed.

Lemma pair_enable v h dev : stable (quiet_pair v h) (V2.usb_enable dev).
Proof.
  unfold V2.usb_enable. apply stable_bind; [by intros w|]. intros w. apply stable_if; [|apply stable_ret].
  apply stable_bind; [apply pair_ioctl|intros; apply stable_ret].
Qed.

Lemma pair_off v h devs : stable (quiet_pair v h) (V2.power_off devs).
Proof.
  induction devs as [|dev devs IH]; [apply stable_ret|]. cbn [V2.power_off]. apply stable_bind.
  - unfold usb_connected_dev. apply stable_bind; [by intros w|]. intros w. apply stable_if; [|apply stable_ret].
    apply stable_bind; [by apply pair_emit|intros; apply stable_ret].
  - intros c. apply stable_bind; [apply stable_when, pair_disable|]. intros _. apply stable_bind; [done|intros; apply stable_ret].
Qed.

Lemma pair_on v h devs u : stable (quiet_pair v h) (V2.power_on devs u).
Proof.
  revert u. induction devs as [|dev devs IH]; intros [|x u]; try apply stable_ret. cbn [V2.power_on].
  apply stable_bind; [apply stable_when, pair_enable|]. intros _. apply stable_bind; [done|intros; apply stable_ret].
Qed.

Lemma returns_ioctl dev req : returns (ioctl dev req).
Proof. apply returns_bind; [intros w; by eexists|]. intros w. apply returns_bind; [intros w'; by eexists|intros; apply returns_ret]. Qed.

Lemma returns_usb dev : returns (V2.usb_disable dev) /\ returns (V2.usb_enable dev).
Proof.
  split; (apply returns_bind; [intros w; by eexists|]); intros w; (destruct (usb_open dev w); [|apply returns_ret]).
  - apply returns_bind; [apply returns_ioctl|]. intros r. destruct (match r with Some e => _ | None => _ end); [apply returns_ret|].
    apply returns_bind; [apply returns_ioctl|intros; apply returns_ret].
  - apply returns_bind; [apply returns_ioctl|intros; apply returns_ret].
Qed.

Lemma returns_off devs : returns (V2.power_off devs).
Proof.
  induction devs as [|dev devs IH]; [apply returns_ret|]. apply returns_bind; [apply returns_port|]. intros c.
  apply returns_bind; [apply returns_when, returns_usb|]. intros _. apply returns_bind; [done|intros; apply returns_ret].
Qed.

Lemma returns_on devs u : returns (V2.power_on devs u).
Proof.
  revert u. induction devs as [|dev devs IH]; intros [|x u]; try apply returns_ret.
  apply returns_bind; [apply returns_when, returns_usb|]. intros _. apply returns_bind; [done|intros; apply returns_ret].
Qed.

(** Writing the hold line. *)
Lemma wp_hold {A} (k : unit -> M A) mode v Q w : mode ∈ [0; 1] -> keeps v w ->
  (forall w', quiet_pair v (Some mode) w' -> wp (k tt) Q w') -> wp (u ← V2.holdBatteryPower mode; k u) Q w.
Proof.
  intros Hm Hv HQ. unfold V2.holdBatteryPower. wp_step. wp_step. apply wp_cmd. cbn [seq_post]. apply wp_ret. cbn [seq_post]. apply HQ.
  assert (snprintf 128 (V2.HOLD_CMD mode) <> DATE_CMD /\ hold_of (snprintf 128 (V2.HOLD_CMD mode)) = Some mode) as [Hd Hh].
  { repeat (apply elem_of_cons in Hm as [-> | Hm]; [split; [decide_closed|by vm_compute]|]). by apply not_elem_of_nil in Hm. }
  split; [|unfold after_cmd; cbn [trace]; rewrite last_hold_app; cbn [hold_step]; by rewrite Hh].
  destruct Hv as [P Hv]. destruct (law_other L _ w P Hd) as [P' Hg]. split; [done|by rewrite Hg].
Qed.

Lemma wp_v2_power st b w : v2_recorded b w ->
  wp (V2.power_step st b) (fun r w' => exists u v h, r = Val u /\ quiet_pair v h w' /\
    ((st =? V2.POWER_STATE_BATTERY) = true <-> is_Some v) /\ ((st =? V2.POWER_STATE_BATTERY) = true <-> h = Some V2.BATTERY_HOLD_ON)) w.
Proof.
  intros (P & Hf & Hh). unfold on_battery in *. unfold V2.power_step. destruct (st =? V2.POWER_STATE_BATTERY) eqn:E1.
  - destruct (V2.lastState b =? V2.POWER_STATE_BATTERY) eqn:E2; cbn [negb].
    { apply wp_ret. exists (V2.usb_port_in_use b), (get BTRY_ON_FILE w), (last_hold (trace w)). by repeat split; try (apply Hf || apply Hh). }
    apply (wp_hold _ _ (get BTRY_ON_FILE w)); [decide_closed|done|]. intros w1 [[P1 _] H1].
    wp_step. apply wp_cmd. cbn [seq_post]. destruct (law_date L w1 P1) as [P2 [v Hv]].
    set (w2 := after_cmd _ w1) in *. assert (quiet_pair (Some v) (Some 0) w2) as H2.
    { split; [done|]. unfold w2, after_cmd. cbn [trace]. rewrite last_hold_app. exact H1. }
    unfold V2.usb_power_off. destruct (returns_off V2.usb_devs w2) as [u Hu]. unfold wp. rewrite Hu.
    exists u, (Some v), (Some 0). split; [done|]. split; [by apply (pair_off (Some v) (Some 0))|done].
  - wp_step. destruct (V2.lastState b =? V2.POWER_STATE_BATTERY) eqn:E2.
    + apply wp_unlink_on; [done|]. intros w1 H1.
      apply (wp_returns (keeps None)); [intros w'; by eexists|by apply stable_same|done|]. intros _ w2 H2.
      destruct (returns_on V2.usb_devs (V2.usb_port_in_use b) w2) as [u Hu]. unfold V2.usb_power_on, wp at 1. rewrite Hu. cbn [seq_post].
      apply (wp_hold _ _ None); [decide_closed| |].
      { apply (pair_on None (last_hold (trace w2)) _ _ w2). by split. }
      intros w3 H3. apply wp_ret. by exists u, None, (Some 1).
    + apply wp_ret. cbn [seq_post]. assert (get BTRY_ON_FILE w = None) as Hn.
      { destruct (get BTRY_ON_FILE w); [|done]. destruct Hf as [_ Hf]. by specialize (Hf (ex_intro _ _ eq_refl)). }
      apply (wp_hold _ _ None); [decide_closed|done|]. intros w3 H3. apply wp_ret. by exists (V2.usb_port_in_use b), None, (Some 1).
Qed.

Lemma v2_voltage_ok v h st max : returns (V2.voltage_step st max) /\ stable (quiet_pair v h) (V2.voltage_step st max).
Proof.
  assert (forall f t, f ∈ [MAX_BATTERY_VOLTAGE; BTRY_LEVEL_FILE; BTRY_VOLTAGE_FILE] -> stable (quiet_pair v h) (write_text f t)) as Hs.
  { intros f t Hf. repeat (apply elem_of_cons in Hf as [-> | Hf]; [apply pair_write; [done|decide_closed]|]). by apply not_elem_of_nil in Hf. }
  unfold V2.voltage_step, V2.update_max. split.
  - apply returns_bind; [intros w; by eexists|]. intros f. cbv zeta. destruct (0 <? _); [|apply returns_ret].
    apply returns_bind; [|intros m; repeat (apply returns_bind; [apply returns_write|intros _]); apply returns_ret].
    destruct (flt _ _); [apply returns_bind; [apply returns_write|intros; apply returns_ret]|]. destruct (fle _ _); apply returns_ret.
  - apply stable_bind; [by intros w|]. intros f. cbv zeta. apply stable_if; [|apply stable_ret].
    apply stable_bind; [|intros m; repeat (apply stable_bind; [apply Hs; decide_closed|intros _]); apply stable_ret].
    apply stable_if; [apply stable_bind; [apply Hs; decide_closed|intros; apply stable_ret]|]. apply stable_if; apply stable_ret.
Qed.

Lemma v2_supported_ok v h stack :
  returns (IRIS_isBatteryVoltageDetectionSupported stack) /\ stable (quiet_pair v h) (IRIS_isBatteryVoltageDetectionSupported stack).
Proof.
  unfold IRIS_isBatteryVoltageDetectionSupported, model_or_version, IRIS_getModel, IRIS_getHardwareVersion, read_word, store_token. split.
  - apply returns_bind; [intros w; by eexists|]. intros [ok m]. apply returns_bind; [apply returns_when; intros w; by eexists|]. intros _.
    destruct (_ && _); [apply returns_ret|]. apply returns_bind; [intros w; by eexists|intros; apply returns_ret].
  - apply stable_bind; [by intros w|]. intros [ok m]. apply stable_bind; [apply stable_when; by apply pair_emit|]. intros _.
    apply stable_if; [apply stable_ret|]. apply stable_bind; [by intros w|intros; apply stable_ret].
Qed.

(** [popen] works. *)
Context (Hpipe : forall c w, is_Some (pipe c w)).

Lemma v2_state_ok v h : returns V2.getBatteryState /\ stable (quiet_pair v h) V2.getBatteryState.
Proof.
  unfold V2.getBatteryState. split.
  - intros w. unfold mbind, M_bind, popen. destruct (Hpipe (snprintf 128 "i2cget -y -f 0 0x24 0xA") w) as [out ->]. by eexists.
  - apply stable_bind.
    + intros w [Hk Hh]. split; [done|]. cbn [popen snd trace]. by rewrite last_hold_app.
    + intros f. apply stable_option; [intros; apply stable_ret|apply stable_crash].
Qed.

Lemma wp_v2_turn stack b w Q : v2_recorded b w -> (forall b' w', v2_recorded b' w' -> Q (Val b') w') -> wp (V2.battery_turn stack b) Q w.
Proof.
  intros (P & Hf & Hh) HQ. unfold V2.battery_turn.
  destruct (v2_state_ok (get BTRY_ON_FILE w) (last_hold (trace w))) as [R0 S0].
  apply (wp_returns (quiet_pair (get BTRY_ON_FILE w) (last_hold (trace w)))); [done|done|done|]. intros st w1 [[P1 F1] H1].
  wp_step. eapply wp_mono; [apply (wp_v2_power st b); split; [done|]; by rewrite F1, H1|].
  intros r w2 (u & v & h & -> & Hv & Hb1 & Hb2). cbn [seq_post].
  destruct (v2_supported_ok v h stack) as [R1 S1]. apply (wp_returns (quiet_pair v h)); [done|done|done|]. intros sup w3 H3.
  destruct (v2_voltage_ok v h st (V2.max_voltage b)) as [R2 S2].
  apply (wp_returns (quiet_pair v h)); [..|done|].
  - destruct sup; [|apply returns_ret]. destruct (negb _); [apply returns_bind; [done|intros; apply returns_ret]|].
    apply returns_bind; [|intros; apply returns_ret]. destruct (_ =? 0); [done|apply returns_ret].
  - apply stable_if; [|apply stable_ret]. apply stable_if; [apply stable_bind; [done|intros; apply stable_ret]|].
    apply stable_bind; [|intros; apply stable_ret]. apply stable_if; [done|apply stable_ret].
  - intros [max count] w4 H4. apply (wp_returns (quiet_pair v h)); [intros w'; by eexists|by apply pair_emit|done|].
    intros _ w5 [[P5 F5] H5]. apply wp_ret, HQ. unfold v2_recorded, on_battery. cbn [V2.lastState]. by rewrite F5, H5.
Qed.

(** C28. While batteryd runs, through any number of turns and whatever the power controller reports, the hub holds on to
    battery power, and the file that tells the other programs so exists, exactly while the last state read is that of a
    hub on battery; no turn fails. *)
Theorem v2_battery_hold stacks stack w : plain w -> get BTRY_ON_FILE w = None -> last_hold (trace w) = None ->
  wp (b ← V2.battery_init stack; V2.battery_loop stacks b) (fun r w' => exists b, r = Val b /\ v2_recorded b w') w.
Proof.
  intros P Hn Hh. unfold V2.battery_init. wp_step.
  set (I := quiet_pair None None). destruct (v2_supported_ok None None stack) as [R1 S1].
  apply (wp_returns I); [intros w'; by eexists|by apply pair_emit|done|]. intros _ w1 H1.
  apply (wp_returns I); [done|done|done|]. intros sup w2 H2.
  apply (wp_returns I); [destruct sup; [apply returns_bind; [intros w'; by eexists|intros; apply returns_ret]|apply returns_ret]| |done|].
  { apply stable_if; [apply stable_bind; [by intros w'|intros; apply stable_ret]|apply stable_ret]. }
  intros max w3 [[P3 F3] H3]. apply wp_ret. cbn [seq_post].
  set (b0 := V2.Bat _ _ _ _). assert (v2_recorded b0 w3) as Hb.
  { unfold v2_recorded, on_battery. rewrite F3, H3. split; [done|]. split; [split; [done|by intros []]|done]. }
  clear -L Hpipe Hb. revert w3 Hb. generalize b0 as b. induction stacks as [|s stacks IH]; intros b w3 Hb; [apply wp_ret; eauto|].
  cbn [V2.battery_loop]. wp_step. apply wp_v2_turn; [done|]. intros b' w' Hb'. cbn [seq_post]. by apply IH.
Qed.
End Power.

(** ** The restart of the LTE connection *)

Section Restart.
Context {Ev : Env} {HW : Hardware}.

Definition DISCONNECT_CMD : string := snprintf 128 (ECHO "disconnect" LTE_CONTROL_FILE).
Definition CONNECT_CMD : string := snprintf 128 (ECHO "connect" LTE_CONTROL_FILE).
Definition PORT_OFF_CMD : string := snprintf 128 (V3.USB_POWER_CMD "0").
Definition PORT_ON_CMD : string := snprintf 128 (V3.USB_POWER_CMD "1").

(** The commands to the port and to the backup daemon. *)
Definition port_cmd (c : string) : bool := bool_decide (c ∈ [DISCONNECT_CMD; CONNECT_CMD; PORT_OFF_CMD; PORT_ON_CMD]).

Lemma sofar_write l file text : stable (sofar port_cmd l) (write_text file text).
Proof. intros w Hw. unfold sofar, write_text, mbind, M_bind, fopen_w. by destruct (wr_ok file w). Qed.

Lemma sofar_voltage l : stable (sofar port_cmd l) V3.voltage_step.
Proof.
  unfold V3.voltage_step, V3.read_voltage. apply stable_bind.
  - apply stable_bind; [by intros w|]. intros w. apply stable_if; [|apply stable_ret].
    apply stable_bind; [apply sofar_write|intros; apply stable_ret].
  - intros raw. apply stable_when, stable_bind; intros; apply sofar_write.
Qed.

(** One state further, while the modem is there. *)
Definition restart_next (s : V3.LteRestartStates) : V3.LteRestartStates :=
  match s with
  | V3.IDLE => V3.IDLE
  | V3.START => V3.START_WAIT
  | V3.START_WAIT => V3.DISCONNECT
  | V3.DISCONNECT => V3.DISCONNECT_WAIT
  | V3.DISCONNECT_WAIT => V3.RECONNECT
  | V3.RECONNECT => V3.IDLE
  end.
Definition restart_cmds (s : V3.LteRestartStates) : list string :=
  match s with
  | V3.START => [PORT_OFF_CMD; PORT_ON_CMD]
  | V3.DISCONNECT => [DISCONNECT_CMD]
  | V3.RECONNECT => [CONNECT_CMD]
  | _ => []
  end.

Lemma wp_lte_step s w : is_Some (get LTE_DONGLE_FILE w) ->
  wp (V3.lte_step s) (fun r w' => r = Val (restart_next s) /\ sofar port_cmd (issued port_cmd (trace w) ++ restart_cmds s) w') w.
Proof.
  intros [v Hv]. assert (wp (access LTE_DONGLE_FILE) (fun r w' => r = Val true /\ w' = w) w) as Ha by (unfold wp, access; by rewrite Hv).
  destruct s; cbn [V3.lte_step restart_next restart_cmds].
  - apply wp_ret. split; [done|]. unfold sofar. by rewrite app_nil_r.
  - unfold V3.usb_disable, V3.usb_enable. wp_step. apply (wp_issue port_cmd _ _ (issued port_cmd (trace w))); [by vm_compute|done|]. intros _ w1 H1.
    apply wp_ret. cbn [seq_post]. wp_step. eapply wp_issue; [|exact H1|]; [by vm_compute|]. intros _ w2 H2.
    apply wp_ret. cbn [seq_post]. apply wp_ret. split; [done|]. by rewrite <- app_assoc in H2.
  - wp_step. eapply wp_mono; [exact Ha|]. intros r w' [-> ->]. cbn [seq_post]. apply wp_ret. split; [done|]. unfold sofar. by rewrite app_nil_r.
  - apply (wp_issue port_cmd _ _ (issued port_cmd (trace w))); [by vm_compute|done|]. intros _ w1 H1. by apply wp_ret.
  - wp_step. eapply wp_mono; [exact Ha|]. intros r w' [-> ->]. cbn [seq_post]. apply wp_ret. split; [done|]. unfold sofar. by rewrite app_nil_r.
  - apply (wp_issue port_cmd _ _ (issued port_cmd (trace w))); [by vm_compute|done|]. intros _ w1 H1. by apply wp_ret.
Qed.

(** Power was not lost, and the port was left on when it was last lost. *)
Definition calm (b : V3.bat) : Prop := V3.usb_port_in_use b = true \/ V3.on_mains (V3.lastState b) = true.

(** The power source is the same, or mains power is back. *)
Lemma wp_calm_power st b l w : calm b -> (V3.on_mains (V3.lastState b) = true -> V3.on_mains st = true) -> sofar port_cmd l w ->
  wp (V3.power_step st b) (fun r w' => exists u, r = Val (u, V3.lte_restart_state b) /\ sofar port_cmd l w' /\ (u = true \/ V3.on_mains st = true)) w.
Proof.
  intros Hc Hst Hl. unfold V3.power_step. destruct (V3.on_mains st), (V3.on_mains (V3.lastState b)) eqn:E2; cbn [negb].
  - apply wp_ret. eexists. split; [done|]. by split; [|right].
  - destruct Hc as [Hu|Hc]; [|congruence]. rewrite Hu. wp_step. apply wp_unlink. cbn [seq_post]. apply wp_ret. exists false. by split_and!; [| |right].
  - by specialize (Hst eq_refl).
  - destruct Hc as [Hu|Hc]; [|congruence]. rewrite Hu. apply wp_ret. exists true. by split_and!; [| |left].
Qed.

Lemma restart_turn b w b' w' : is_Some (get LTE_DONGLE_FILE w) -> calm b -> V3.battery_turn b w = (Val b', w') ->
  (V3.on_mains (V3.lastState b) = true -> V3.on_mains (V3.lastState b') = true) ->
  V3.lte_restart_state b' = restart_next (V3.lte_restart_state b) /\ calm b' /\
  issued port_cmd (trace w') = (issued port_cmd (trace w) ++ restart_cmds (V3.lte_restart_state b))%list.
Proof.
  intros Hd Hc E Hm. set (l := (issued port_cmd (trace w) ++ restart_cmds (V3.lte_restart_state b))%list).
  enough (wp (V3.battery_turn b) (fun r w' => forall b', r = Val b' -> (V3.on_mains (V3.lastState b) = true -> V3.on_mains (V3.lastState b') = true) ->
    V3.lte_restart_state b' = restart_next (V3.lte_restart_state b) /\ calm b' /\ sofar port_cmd l w') w) as H.
  { unfold wp in H. rewrite E in H. by apply H. }
  clear b' w' E Hm. unfold V3.battery_turn. wp_step. eapply wp_mono; [by apply wp_lte_step|]. intros r w1 [-> H1]. cbn [seq_post]. cbv zeta.
  set (b1 := V3.Bat _ _ _ _). wp_step. eapply wp_mono; [instantiate (1 := fun r w2 => exists st, r = Val st /\ w2 = w1); by eexists|].
  intros r w2 (st & -> & ->). cbn [seq_post].
  match goal with |- wp (_ ≫= ?k) _ _ => set (rest := k) end.
  assert (forall x, yields (fun b' => V3.lastState b' = st /\ V3.usb_port_in_use b' = fst x /\ V3.lte_restart_state b' = snd x) (rest x)) as Hy.
  { intros [u s]. repeat (apply yields_bind; intros ?). by apply yields_ret. }
  assert (forall x, stable (sofar port_cmd l) (rest x)) as Hs.
  { intros [u s]. apply stable_bind; [apply stable_when, sofar_write|]. intros _. apply stable_bind; [apply stable_when, sofar_voltage|].
    intros _. apply stable_bind; [by apply sofar_emit|intros; apply stable_ret]. }
  destruct (decide (V3.on_mains (V3.lastState b) = true -> V3.on_mains st = true)) as [Hst|Hst].
  - wp_step. eapply wp_mono; [by apply (wp_calm_power st b1 l)|]. intros r w2 (u & -> & H2 & Hu). cbn [seq_post].
    intros b' E Hm. destruct (Hy _ _ _ E) as (E1 & E2 & E3). split; [done|]. split; [|by apply Hs]. unfold calm. by rewrite E1, E2.
  - intros b' E Hm. rewrite (yields_bind (fun b' => V3.lastState b' = st) (V3.power_step st b1) rest
      (fun x w a E => proj1 (Hy x w a E)) _ _ E) in Hm. done.
Qed.

(** The turn that sees mains power go while the modem carries the connection. *)
Lemma restart_trigger b w b' w' : V3.lte_restart_state b = V3.IDLE -> V3.on_mains (V3.lastState b) = true ->
  V3.battery_turn b w = (Val b', w') -> V3.on_mains (V3.lastState b') = false -> fst (IRIS_isLTEConnected (after_cmd DATE_CMD w)) = Val true ->
  V3.lte_restart_state b' = V3.START /\ V3.usb_port_in_use b' = true /\ issued port_cmd (trace w') = issued port_cmd (trace w).
Proof.
  intros Hi Hm E Hl Hc. set (l := issued port_cmd (trace w)).
  enough (wp (V3.battery_turn b) (fun r w' => forall b', r = Val b' -> V3.on_mains (V3.lastState b') = false ->
    V3.lte_restart_state b' = V3.START /\ V3.usb_port_in_use b' = true /\ sofar port_cmd l w') w) as H.
  { unfold wp in H. rewrite E in H. by apply H. }
  clear b' w' E Hl. unfold V3.battery_turn. rewrite Hi. cbn [V3.lte_step]. wp_step. apply wp_ret. cbn [seq_post]. cbv zeta.
  set (b1 := V3.Bat _ _ _ _). wp_step. eapply wp_mono; [instantiate (1 := fun r w2 => exists st, r = Val st /\ w2 = w); by eexists|].
  intros r w2 (st & -> & ->). cbn [seq_post].
  match goal with |- wp (_ ≫= ?k) _ _ => set (rest := k) end.
  assert (forall x, yields (fun b' => V3.lastState b' = st /\ V3.usb_port_in_use b' = fst x /\ V3.lte_restart_state b' = snd x) (rest x)) as Hy.
  { intros [u s]. repeat (apply yields_bind; intros ?). by apply yields_ret. }
  destruct (V3.on_mains st) eqn:Est.
  { intros b' E Hl. rewrite (yields_bind (fun b' => V3.lastState b' = st) (V3.power_step st b1) rest (fun x w a E => proj1 (Hy x w a E)) _ _ E) in Hl. congruence. }
  wp_step. eapply wp_mono; [instantiate (1 := fun r w2 => r = Val (true, V3.START) /\ sofar port_cmd l w2)|].
  - unfold V3.power_step. rewrite Est. change (V3.lastState b1) with (V3.lastState b). rewrite Hm. cbn [negb]. wp_step. apply wp_cmd. cbn [seq_post].
    fold DATE_CMD. wp_step. unfold wp at 1. rewrite Hc. cbn [seq_post]. apply wp_ret. split; [done|].
    assert (stable (sofar port_cmd l) IRIS_isLTEConnected) as Hs by (unfold IRIS_isLTEConnected; steps; by apply sofar_emit).
    apply Hs. unfold sofar, after_cmd. cbn [trace]. by apply issued_out.
  - intros r w2 [-> H2]. cbn [seq_post]. intros b' E _. destruct (Hy _ _ _ E) as (_ & E2 & E3). split; [done|]. split; [done|]. unfold rest.
    revert H2. apply (stable_bind (sofar port_cmd l)); [apply stable_when, sofar_write|]. intros _. apply stable_bind; [apply stable_when, sofar_voltage|].
    intros _. apply stable_bind; [by apply sofar_emit|intros; apply stable_ret].
Qed.

(** [n] turns with the modem there and mains power not lost; between turns everything but the past may change. *)
Inductive turns : nat -> V3.bat -> world -> V3.bat -> world -> Prop :=
| turns_none b w : turns 0 b w b w
| turns_next n b w w1 b1 w2 b' w' :
    trace w1 = trace w -> is_Some (get LTE_DONGLE_FILE w1) -> V3.battery_turn b w1 = (Val b1, w2) ->
    (V3.on_mains (V3.lastState b) = true -> V3.on_mains (V3.lastState b1) = true) ->
    turns n b1 w2 b' w' -> turns (S n) b w b' w'.

Lemma turns_states n b w b' w' : turns n b w b' w' -> calm b ->
  V3.lte_restart_state b' = Nat.iter n restart_next (V3.lte_restart_state b) /\
  issued port_cmd (trace w') = (issued port_cmd (trace w) ++ concat (map (fun i => restart_cmds (Nat.iter i restart_next (V3.lte_restart_state b))) (List.seq 0 n)))%list.
Proof.
  induction 1 as [b w|n b w w1 b1 w2 b' w' Ht Hd E Hm _ IH]; intros Hc; [by rewrite app_nil_r|].
  destruct (restart_turn _ _ _ _ Hd Hc E Hm) as (S1 & C1 & I1). destruct (IH C1) as [S2 I2]. split.
  - rewrite S2, S1. by rewrite <- Nat.iter_succ_r.
  - rewrite I2, I1, Ht, <- app_assoc. do 2 f_equal. cbn [List.seq map concat Nat.iter]. f_equal. rewrite <- List.seq_shift, map_map.
    f_equal. apply map_ext. intros i. by rewrite S1, <- Nat.iter_succ_r.
Qed.

(** C22. When a turn of batterydv3 finds mains power gone while the LTE modem carries the connection, with no restart under way, the
    connection is restarted: five more turns with the modem plugged in, in which mains power may come back but not go
    again, switch the port off and on, then tell the backup daemon to disconnect and to connect, each once and in this
    order, and nothing more is issued however many such turns follow. *)
Theorem v3_lte_restarts n b w b1 w1 b' w' : V3.lte_restart_state b = V3.IDLE -> V3.on_mains (V3.lastState b) = true ->
  V3.battery_turn b w = (Val b1, w1) -> V3.on_mains (V3.lastState b1) = false -> fst (IRIS_isLTEConnected (after_cmd DATE_CMD w)) = Val true ->
  turns (5 + n) b1 w1 b' w' ->
  V3.lte_restart_state b' = V3.IDLE /\
  issued port_cmd (trace w') = (issued port_cmd (trace w) ++ [PORT_OFF_CMD; PORT_ON_CMD; DISCONNECT_CMD; CONNECT_CMD])%list.
Proof.
  intros Hi Hm E Hl Hc Ht. destruct (restart_trigger _ _ _ _ Hi Hm E Hl Hc) as (Hs & Hu & I1).
  destruct (turns_states _ _ _ _ _ Ht) as [S I]; [by left|]. rewrite Hs in S, I. rewrite I1 in I.
  assert (forall k, Nat.iter (5 + k) restart_next V3.START = V3.IDLE) as Hidle.
  { induction k as [|k IH]; [done|]. rewrite Nat.add_succ_r, Nat.iter_succ, IH. done. }
  split; [by rewrite S, Hidle|]. rewrite I. f_equal. rewrite List.seq_app, map_app, concat_app.
  rewrite (proj2 (concat_nil_Forall (map _ (List.seq (0 + 5) n)))); [done|]. apply Forall_map, list.Forall_forall. intros i Hx.
  apply elem_of_seq in Hx. replace i with (5 + (i - 5))%nat by lia. by rewrite Hidle.
Qed.
End Restart.

(** ** A hub whose mains power goes after the first turn *)

Module BatteryToy.

Definition run (c : string) (w : world) : Z * fsys := if String.eqb c DATE_CMD then (0, fs (put_file BTRY_ON_FILE "now" w)) else (0, fs w).

(** Turns are counted by the sleeps. *)
Definition slept (w : world) : nat :=
  length (List.filter (fun e => match e with Sleep n => n =? BATTERY_PERIODIC_DELAY | _ => false end) (trace w)).

#[local] Instance env : Env :=
  Build_Env run (fun _ w => Some (if (slept w =? 0)%nat then "0x08" else "0x00")) (fun _ _ => true) (fun _ _ => true) (fun _ _ n => n)
    (fun _ _ _ => true) (fun _ => true).
#[local] Instance hw : Hardware :=
  Build_Hardware (fun _ => true) (fun _ _ => true) (fun _ _ w => Some (if (slept w =? 0)%nat then 0x11 else 0x40)) (fun _ _ => true)
    (fun _ _ => Some 0) (fun _ _ _ => None).

Lemma battery_laws : PowerLaws.
Proof.
  split.
  - intros w P. split; [done|]. exists "now". apply (get_put_eq BTRY_ON_FILE "now" w).
  - intros c w P Hc. unfold after_cmd, sh, env, run. by rewrite (proj2 (String.eqb_neq _ _) Hc).
Qed.

Definition hub : world := put_file LTE_DONGLE_FILE LTE_HUAWEI_MODEM_ID (World (Fsys ∅ ∅ [] ∅ "/") []).

(** Turns without changes in between. *)
Fixpoint play (n : nat) (b : V3.bat) (w : world) : option (V3.bat * world) :=
  match n with
  | O => Some (b, w)
  | S n' =>
      match get LTE_DONGLE_FILE w, V3.battery_turn b w with
      | Some _, (Val b1, w2) => if implb (V3.on_mains (V3.lastState b)) (V3.on_mains (V3.lastState b1)) then play n' b1 w2 else None
      | _, _ => None
      end
  end.

Lemma play_turns n b w b' w' : play n b w = Some (b', w') -> turns n b w b' w'.
Proof.
  revert b w. induction n as [|n IH]; intros b w H; [injection H as -> ->; constructor|]. cbn [play] in H.
  destruct (get LTE_DONGLE_FILE w) eqn:Ed; [|done]. destruct (V3.battery_turn b w) as [[b1| | |] w2] eqn:E; try done.
  destruct (V3.on_mains (V3.lastState b)) eqn:E1, (V3.on_mains (V3.lastState b1)) eqn:E2; cbn in H; try done;
    (eapply turns_next; [done|by eexists|exact E|congruence|by apply IH]).
Qed.

(** The modem carries the connection, and power goes. *)
Definition before : world := World (fs (put_file LTE_CONTROL_FILE "connect" hub)) [Sleep BATTERY_PERIODIC_DELAY].
Definition lost : V3.bat * world :=
  match V3.battery_turn V3.bat_init before with (Val b, w) => (b, w) | (_, w) => (V3.bat_init, w) end.
Definition restarted : V3.bat * world := default lost (play 6 (fst lost) (snd lost)).

Lemma restarted_turns : turns (5 + 1) (fst lost) (snd lost) (fst restarted) (snd restarted).
Proof. apply play_turns. vm_compute. reflexivity. Qed.

End BatteryToy.

Lemma v3_battery_file_witness :
  let r := @V3.batterydv3 BatteryToy.env BatteryToy.hw 2 BatteryToy.hub in
  get BTRY_ON_FILE (snd r) = Some "now" /\ exists b, fst r = Val b /\ v3_recorded b (snd r).
Proof.
  split; [by vm_compute|].
  apply (@v3_battery_file BatteryToy.env BatteryToy.hw BatteryToy.battery_laws 2 BatteryToy.hub); [done|by vm_compute].
Defined.

Lemma v2_battery_hold_witness :
  let r := (b ← @V2.battery_init BatteryToy.env "?"; @V2.battery_loop BatteryToy.env BatteryToy.hw ["?"; "?"] b) BatteryToy.hub in
  get BTRY_ON_FILE (snd r) = Some "now" /\ exists b, fst r = Val b /\ v2_recorded b (snd r).
Proof.
  split; [by vm_compute|].
  apply (@v2_battery_hold BatteryToy.env BatteryToy.hw BatteryToy.battery_laws ltac:(intros; by eexists) ["?"; "?"] "?" BatteryToy.hub);
    [done|by vm_compute|done].
Defined.

Lemma v3_lte_restarts_witness :
  V3.lte_restart_state (fst BatteryToy.restarted) = V3.IDLE /\
  issued port_cmd (trace (snd BatteryToy.restarted)) = [PORT_OFF_CMD; PORT_ON_CMD; DISCONNECT_CMD; CONNECT_CMD].
Proof.
  apply (@v3_lte_restarts BatteryToy.env BatteryToy.hw 1 V3.bat_init BatteryToy.before (fst BatteryToy.lost) (snd BatteryToy.lost));
    [done|done|vm_compute; reflexivity|vm_compute; reflexivity|vm_compute; reflexivity|apply BatteryToy.restarted_turns].
Defined.
