(* ===== verification/InitButtons.v ===== *)
(** * irisinitd.c: buttons, LEDs and watchdogs

    The handlers of irisinitd that run on its main loop and on SIGALRM: the reset button, the
    front button and the power button of the v3 hub, the over-current lines of the v2 hub, the
    restart of ifplugd, and the thread that shows LED modes.  A handler is a program of the monad
    of Os.v on the static variables it uses; a reading of a GPIO is the contents of its value
    file when the handler runs. *)
From Stdlib Require Import ZArith String Ascii Lia Bool.
From stdpp Require Import base gmap strings list numbers.
From S2P Require Import Prelude CLib Os IrisLib Traces Battery WifiScan.

Local Open Scope string_scope.
Local Open Scope Z_scope.

(** ** Constants *)

Definition ETH_IF : string := "eth0".
Definition BUTTON_GPIO_VALUE_FILE : string := "/tmp/io/resetBtnValue".
Definition BUTTON_GPIO_EDGE_FILE : string := "/tmp/io/resetBtnEdge".
Definition BUTTON_HELD_VALUE : ascii := "0".
Definition BUTTON_DEFAULT_EDGE : string := "both".
Definition IRIS_BUTTON_GPIO_VALUE_FILE : string := "/tmp/io/irisBtnValue".
Definition PWR_DOWN_BTN_GPIO_VALUE_FILE : string := "/tmp/io/pwrDownBtnValue".
Definition USB0_OC_GPIO_VALUE_FILE : string := "/sys/class/gpio/gpio116/value".
Definition USB1_OC_GPIO_VALUE_FILE : string := "/sys/class/gpio/gpio58/value".
Definition USB0_OC_ON_FILE : string := "/tmp/usb0_oc_on".
Definition USB1_OC_ON_FILE : string := "/tmp/usb1_oc_on".
Definition BUTTON_REBOOT_HOLD : Z := 1.
Definition BUTTON_SOFT_RESET_HOLD : Z := 10.
Definition BUTTON_FACTORY_DEFAULT_HOLD : Z := 20.
Definition AGENT_SOFT_RESET : string := "/data/agent/soft_reset".
Definition REBOOT_SOUND_FILE : string := "/home/root/sounds/reboot_sound.txt".
Definition RESET_SOUND_FILE : string := "/home/root/sounds/reset_sound.txt".
Definition IRIS_BTN_PUSHED_FILE : string := "/tmp/irisButtonPushed".
Definition PROVISIONED_FILE : string := "/data/config/provisioned".
Definition IFPLUGD_START_SCRIPT : string := "/etc/init.d/ifplugd start".
Definition UDHCPC_TERMINATE : string := "kill -9 $(cat /var/run/udhcpc.eth0.pid)".

Definition VOICE (name : string) : string := "/data/agent/conf/voice/" +:+ name +:+ ".mp3".
Definition SUCCESS_SOUND : string := "/data/agent/conf/sounds/Success.mp3".
Definition FAILURE_SOUND : string := "/data/agent/conf/sounds/failure.mp3".
Definition REBOOT_VOICE : string := VOICE "button-reboot".
Definition FACTORY_RESET_VOICE : string := VOICE "FactoryResetOffline".
Definition TURNING_OFF_VOICE : string := VOICE "Turningoff".
Definition BTN_NO_PLACE_VOICE : string := VOICE "buttonPressNoPlace".
Definition BTN_PROV_IN_PROCESS : string := VOICE "button-press-wi-fi-reconnect".
Definition AUDIO_SHORT_DELAY : Z := 500000.
Definition BLE_REENTER_PERIOD : Z := 5000.
Definition POWER_DOWN_PERIOD : Z := 10.

Definition LED_CTRL_APP (p : platform) : string :=
  match p with imxdimagic => "/usr/bin/ringctrl" | beaglebone_yocto => "/usr/bin/ledctrl" end.

Section Init.
Context {Ev : Env} {HW : Hardware} (plat : platform) (thread_ok : bool).

Definition setLedMode (mode : string) : M unit :=
  _ ← system (snprintf 128 ("echo -n " +:+ mode +:+ " > " +:+ LED_MODE_FILE)); mret tt.

(** The channel is set to the start of the file and read. *)
Definition read_gpio (path : string) : M string := fun w => (Val (stake 15 (default "" (get path w))), w).

(** [(read_count == 2) && (buf[0] == held)] *)
Definition held (c : ascii) (buf : string) : bool :=
  match buf with String a (String _ EmptyString) => Ascii.eqb a c | _ => false end.

(** ** The reset button *)

(** [handled] is whether SIGALRM is handled rather than ignored, [armed] whether an alarm is pending. *)
Record buttons := Buttons { button_push : Z; reboot_sound_played : bool; factory_resetting : bool; handled : bool; armed : bool }.
Definition buttons_init : buttons := Buttons 0 false false true false.

(** What the LEDs show while the button is held. *)
Definition hold_mode (push : Z) : option string :=
  if push <? BUTTON_REBOOT_HOLD then None
  else if push <? BUTTON_SOFT_RESET_HOLD then Some "button-reboot"
  else if push <? BUTTON_FACTORY_DEFAULT_HOLD then Some "button-soft-reset"
  else Some "button-factory-default".

(** The part of [alarmHandler] for a button that is still held. *)
Definition alarm_held (b : buttons) : M buttons :=
  let push := i32 (button_push b + 1) in
  let reboot := (BUTTON_REBOOT_HOLD <=? push) && (push <? BUTTON_SOFT_RESET_HOLD) in
  let factory := BUTTON_FACTORY_DEFAULT_HOLD <=? push in
  _ ← when (reboot && negb (reboot_sound_played b))
        (match plat with
         | beaglebone_yocto => _ ← system (snprintf 128 ("play_tones -f " +:+ REBOOT_SOUND_FILE)); mret tt
         | imxdimagic => _ ← IRIS_playAudio thread_ok SUCCESS_SOUND AUDIO_SHORT_DELAY; IRIS_playAudio thread_ok REBOOT_VOICE 0
         end);
  _ ← when (factory && negb (factory_resetting b))
        (match plat with
         | beaglebone_yocto => _ ← system (snprintf 128 ("play_tones -f " +:+ RESET_SOUND_FILE)); mret tt
         | imxdimagic => mret tt
         end);
  _ ← (match hold_mode push with Some mode => setLedMode mode | None => mret tt end);
  mret (Buttons push (reboot_sound_played b || reboot) (factory_resetting b || factory) true true).

Definition write_edge (edge : string) : M unit := write_text BUTTON_GPIO_EDGE_FILE (edge +:+ String LF "").

(** The part of [alarmHandler] for a button that was released. *)
Definition alarm_released (b : buttons) : M buttons :=
  let acted := Buttons (button_push b) (reboot_sound_played b) (factory_resetting b) false false in
  if button_push b <? BUTTON_REBOOT_HOLD then
    _ ← write_edge BUTTON_DEFAULT_EDGE;
    mret (Buttons 0 (reboot_sound_played b) (factory_resetting b) true false)
  else if button_push b <? BUTTON_SOFT_RESET_HOLD then
    _ ← system (match plat with imxdimagic => "hub_restart 5" | beaglebone_yocto => "hub_restart now" end);
    mret acted
  else if button_push b <? BUTTON_FACTORY_DEFAULT_HOLD then
    _ ← system (snprintf 128 ("touch " +:+ AGENT_SOFT_RESET));
    _ ← system (snprintf 128 ("chmod 666 " +:+ AGENT_SOFT_RESET));
    _ ← system (match plat with imxdimagic => "hub_restart 5" | beaglebone_yocto => "hub_restart 1" end);
    mret acted
  else
    _ ← (match plat with
         | imxdimagic =>
             _ ← IRIS_playAudio thread_ok SUCCESS_SOUND AUDIO_SHORT_DELAY;
             _ ← IRIS_playAudio thread_ok FACTORY_RESET_VOICE 0;
             _ ← sleep 10;
             setLedMode "shutdown"
         | beaglebone_yocto => mret tt
         end);
    _ ← system "factory_default";
    mret acted.

Definition alarmHandler (b : buttons) : M buttons :=
  buf ← read_gpio BUTTON_GPIO_VALUE_FILE;
  if held BUTTON_HELD_VALUE buf then alarm_held b else alarm_released b.

Definition buttonHandler (b : buttons) : M buttons :=
  _ ← read_gpio BUTTON_GPIO_VALUE_FILE;
  _ ← write_edge "none";
  mret (Buttons (button_push b) (reboot_sound_played b) (factory_resetting b) (handled b) true).

(** ** The buttons of the v3 hub *)

(** Milliseconds of a time of day; the product is an [int] of 32 bits on the hub. *)
Definition msec (tv : Z * Z) : Z := i32 (i32 (fst tv * 1000) + snd tv / 1000).

(** What a release of the front button after [delta] milliseconds does; the result is whether provisioning was started. *)
Definition iris_released (stack : string) (prov_running : bool) (delta : Z) : M bool :=
  rel ← IRIS_isReleaseImage;
  if (BLE_REENTER_PERIOD <? delta) && rel && negb prov_running then
    _ ← system (snprintf 128 ("ifdown " +:+ WIFI_IF +:+ "; ifconfig " +:+ WIFI_IF +:+ " up"));
    mret true
  else
    _ ← system (snprintf 128 ("echo " +:+ dec delta +:+ " > " +:+ IRIS_BTN_PUSHED_FILE +:+ "; chmod 666 " +:+ IRIS_BTN_PUSHED_FILE));
    p ← access PROVISIONED_FILE;
    _ ← when (negb p)
          (if prov_running then
             currentMode ← IRIS_getLedMode stack 64;
             _ ← setLedMode "button-press-wifi-reconnect";
             _ ← IRIS_playAudio thread_ok BTN_PROV_IN_PROCESS AUDIO_SHORT_DELAY;
             setLedMode currentMode
           else IRIS_playAudio thread_ok BTN_NO_PLACE_VOICE 0);
    mret false.

(** [startTime] and whether provisioning was started; [now] is the time of day, [stack] the uninitialised [currentMode]. *)
Definition irisButtonHandler (stack : string) (now : Z * Z) (prov_running : bool) (startTime : Z) : M (Z * bool) :=
  buf ← read_gpio IRIS_BUTTON_GPIO_VALUE_FILE;
  if held "0" buf then mret (msec now, false)
  else if (String.length buf =? 2)%nat && negb (startTime =? 0) then
    started ← iris_released stack prov_running (msec now - startTime); mret (startTime, started)
  else mret (startTime, false).

(** The new [pwrDownTime]; [n] as for [IRIS_powerDownHub]. *)
Definition pwrDownButtonHandler (n : nat) (now pwrDownTime : Z) : M Z :=
  buf ← read_gpio PWR_DOWN_BTN_GPIO_VALUE_FILE;
  on ← access BTRY_ON_FILE;
  if negb on then mret pwrDownTime
  else if held "0" buf then mret now
  else if (String.length buf =? 2)%nat && negb (pwrDownTime =? 0) then
    if POWER_DOWN_PERIOD <=? now - pwrDownTime then
      _ ← setLedMode "turning-off";
      _ ← IRIS_playAudio thread_ok SUCCESS_SOUND AUDIO_SHORT_DELAY;
      _ ← IRIS_playAudio thread_ok TURNING_OFF_VOICE 0;
      _ ← sleep 3;
      _ ← system "killall irisagentd";
      _ ← system "killall java";
      _ ← sleep 2;
      _ ← system "echo 0 > /tmp/io/zigbeePower";
      _ ← system "echo 0 > /tmp/io/zwavePower";
      _ ← system "echo 0 > /tmp/io/blePower";
      _ ← system "echo 0 > /tmp/io/ltePower";
      _ ← system "sync; sync";
      _ ← sleep 3;
      _ ← IRIS_powerDownHub n;
      mret pwrDownTime
    else mret 0
  else mret pwrDownTime.

(** ** Over-current on the v2 hub *)

(** [stack] is the uninitialised buffer. *)
Definition usbOCHandler (stack : string) (data : Z) : M bool :=
  if negb (data =? 0) && negb (data =? 1) then mret false
  else
    let file := if data =? 0 then USB0_OC_ON_FILE else USB1_OC_ON_FILE in
    buf ← read_gpio (if data =? 0 then USB0_OC_GPIO_VALUE_FILE else USB1_OC_GPIO_VALUE_FILE);
    if String.prefix "0" (if (String.length buf =? 0)%nat then stack else buf) then
      a ← access file;
      _ ← when (negb a) (_ ← system (snprintf 128 ("date > " +:+ file)); mret tt);
      mret true
    else _ ← unlink file; mret true.

(** ** Watchdogs *)

Definition ifplugdWatchdog : M bool :=
  f ← popen (snprintf 256 "pidof ifplugd");
  match f with
  | Some out =>
      _ ← when (match fgets 128 out with None => true | Some _ => false end)
            (_ ← system UDHCPC_TERMINATE; _ ← sleep 1; _ ← system IFPLUGD_START_SCRIPT; mret tt);
      mret true
  | None => mret true
  end.

Definition hwWatchdog : M bool := _ ← pokeWatchdog; mret true.

(** ** The LED thread *)

(** A modification of the mode file: the new [last_led_mode]. *)
Definition led_event (last_led_mode : string) : M string :=
  f ← fopen_r LED_MODE_FILE;
  match f with
  | None => mret last_led_mode
  | Some s =>
      if (String.length s =? 0)%nat then mret last_led_mode
      else
        let data := cstr (stake 127 s) in
        _ ← when (String.length data =? 0)%nat (emit (Overrun "data" (-1)));
        let data := strip_nl data in
        _ ← system (snprintf 127 (LED_CTRL_APP plat +:+ " " +:+ data));
        if has_sub data "-err" then
          if has_sub data "boot" || has_sub data "kernel" || has_sub data "root" then
            _ ← sleep 10; _ ← system "hub_restart now"; mret last_led_mode
          else
            _ ← sleep 3; _ ← system (snprintf 127 (LED_CTRL_APP plat +:+ " " +:+ last_led_mode)); mret last_led_mode
        else mret (stake 128 data)
  end.

End Init.

(** ** The reset button as a history of readings *)

Inductive act := Reboot | SoftReset | FactoryDefault.

(** The action for a button held for [n] seconds. *)
Definition action_of (n : Z) : option act :=
  if n <? BUTTON_REBOOT_HOLD then None
  else if n <? BUTTON_SOFT_RESET_HOLD then Some Reboot
  else if n <? BUTTON_FACTORY_DEFAULT_HOLD then Some SoftReset
  else Some FactoryDefault.

Definition act_cmds (p : platform) (a : act) : list string :=
  match a, p with
  | Reboot, imxdimagic => ["hub_restart 5"]
  | Reboot, beaglebone_yocto => ["hub_restart now"]
  | SoftReset, imxdimagic => ["touch /data/agent/soft_reset"; "chmod 666 /data/agent/soft_reset"; "hub_restart 5"]
  | SoftReset, beaglebone_yocto => ["touch /data/agent/soft_reset"; "chmod 666 /data/agent/soft_reset"; "hub_restart 1"]
  | FactoryDefault, _ => ["factory_default"]
  end.

Definition reset_cmd (c : string) : bool :=
  bool_decide (c ∈ ["hub_restart 5"; "hub_restart now"; "hub_restart 1"; "touch /data/agent/soft_reset"; "chmod 666 /data/agent/soft_reset"; "factory_default"]).

(** Seconds the button was held at the end of a history. *)
Definition streak (h : list string) : Z := foldl (fun n v => if held BUTTON_HELD_VALUE v then n + 1 else 0) 0 h.

Lemma streak_app h v : streak (h ++ [v]) = if held BUTTON_HELD_VALUE v then streak h + 1 else 0.
Proof. unfold streak. by rewrite foldl_app. Qed.

Lemma streak_range h : 0 <= streak h <= Z.of_nat (length h).
Proof.
  induction h as [|v h IH] using rev_ind; [done|]. rewrite streak_app, length_app. cbn [length]. destruct (held _ v); lia.
Qed.

Section ResetButton.
Context {Ev : Env} (plat : platform) (thread_ok : bool).

Definition reading (w : world) : string := stake 15 (default "" (get BUTTON_GPIO_VALUE_FILE w)).

(** The states reached by the handlers, with the readings of the alarm handler; anything else may happen in between
    that issues none of the reset commands. *)
Inductive presses : list string -> buttons -> world -> Prop :=
| presses_init w : sofar reset_cmd [] w -> presses [] buttons_init w
| presses_outside h b w w' : presses h b w -> issued reset_cmd (trace w') = issued reset_cmd (trace w) -> presses h b w'
| presses_edge h b w b' w' : presses h b w -> buttonHandler b w = (Val b', w') -> presses h b' w'
| presses_alarm h b w b' w' : presses h b w -> armed b = true -> handled b = true ->
    alarmHandler plat thread_ok b w = (Val b', w') -> presses (h ++ [reading w]) b' w'
| presses_ignored h b w : presses h b w -> armed b = true -> handled b = false ->
    presses h (Buttons (button_push b) (reboot_sound_played b) (factory_resetting b) false false) w.

Ltac no_reset := unfold reset_cmd; apply bool_decide_eq_false; let H := fresh in intros H;
  repeat (apply elem_of_cons in H as [H|H]; [done|]); by apply not_elem_of_nil in H.

Lemma audio_no_reset s : reset_cmd (snprintf 256 (AUDIO_APP +:+ s)) = false.
Proof. no_reset. Qed.

Lemma sofar_led l mode : stable (sofar reset_cmd l) (setLedMode mode).
Proof. unfold setLedMode. steps. apply sofar_other. no_reset. Qed.

Lemma alarm_held_quiet l b : returns (alarm_held plat thread_ok b) /\ stable (sofar reset_cmd l) (alarm_held plat thread_ok b).
Proof.
  unfold alarm_held. split.
  - steps; try (destruct plat); steps; unfold setLedMode; steps.
  - steps; try (destruct plat); steps; first [apply sofar_other; by vm_compute | apply sofar_playAudio, audio_no_reset | apply sofar_led].
Qed.

Lemma write_edge_quiet l e : returns (write_edge e) /\ stable (sofar reset_cmd l) (write_edge e).
Proof. unfold write_edge, write_text. split; steps. Qed.

(** A release after a hold of [n] seconds. *)
Lemma wp_alarm_released b w : sofar reset_cmd [] w ->
  wp (alarm_released plat thread_ok b) (fun r w' => exists b', r = Val b' /\
    match action_of (button_push b) with
    | None => handled b' = true /\ button_push b' = 0 /\ sofar reset_cmd [] w'
    | Some a => handled b' = false /\ sofar reset_cmd (act_cmds plat a) w'
    end) w.
Proof.
  intros Hw. unfold alarm_released, action_of.
  destruct (button_push b <? BUTTON_REBOOT_HOLD).
  { destruct (write_edge_quiet [] BUTTON_DEFAULT_EDGE) as [R S]. apply (wp_returns _ _ _ _ _ R S Hw). intros _ w' Hw'. apply wp_ret. by eexists. }
  destruct (button_push b <? BUTTON_SOFT_RESET_HOLD).
  { apply (wp_issue reset_cmd _ _ []); [by destruct plat; vm_compute|done|]. intros _ w' Hw'. apply wp_ret. eexists. split; [done|]. by destruct plat. }
  destruct (button_push b <? BUTTON_FACTORY_DEFAULT_HOLD).
  { apply (wp_issue reset_cmd _ _ []); [by vm_compute|done|]. intros _ w1 H1.
    eapply wp_issue; [|exact H1|]; [by vm_compute|]. intros _ w2 H2. eapply wp_issue; [|exact H2|]; [by destruct plat; vm_compute|].
    intros _ w3 H3. apply wp_ret. eexists. split; [done|]. by destruct plat. }
  apply (wp_returns (sofar reset_cmd [])); [| |done|].
  - destruct plat; unfold setLedMode, sleep; steps.
  - destruct plat; unfold sleep; steps; first [apply sofar_playAudio, audio_no_reset | apply sofar_led].
  - intros _ w1 H1. eapply wp_issue; [|exact H1|]; [by vm_compute|]. intros _ w2 H2. apply wp_ret. eexists. split; [done|]. done.
Qed.

Lemma presses_inv h b w : presses h b w -> Z.of_nat (length h) < 2 ^ 31 ->
  (handled b = true /\ button_push b = streak h /\ sofar reset_cmd [] w /\
   (forall h' v, h = (h' ++ [v])%list -> held BUTTON_HELD_VALUE v = false -> action_of (streak h') = None)) \/
  (handled b = false /\ exists h' v a, h = (h' ++ [v])%list /\ held BUTTON_HELD_VALUE v = false /\ action_of (streak h') = Some a /\
   sofar reset_cmd (act_cmds plat a) w).
Proof.
  induction 1 as [w Hw|h b w w' _ IH Ht|h b w b' w' _ IH E|h b w b' w' _ IH Ha Hh E|h b w _ IH Ha Hh]; intros Hlen.
  - left. split_and!; try done. by intros [|x h'] v.
  - unfold sofar in *. rewrite Ht. by apply IH.
  - destruct (write_edge_quiet (issued reset_cmd (trace w)) "none") as [R S]. specialize (S w eq_refl). destruct (R w) as [u Hu].
    assert (handled b' = handled b /\ button_push b' = button_push b /\ issued reset_cmd (trace w') = issued reset_cmd (trace w)) as (E1 & E2 & E3).
    { unfold buttonHandler, mbind, M_bind, read_gpio in E. destruct (write_edge "none" w) as [o w1]. cbn in Hu. subst o. by injection E as <- <-. }
    unfold sofar in *. rewrite E1, E2, E3. by apply IH.
  - rewrite length_app in Hlen. cbn [length] in Hlen. destruct IH as [(_ & Hp & Hs & _)|(Hf & _)]; [lia| |congruence].
    pose proof (streak_range h) as Hr. unfold alarmHandler, mbind, M_bind, read_gpio in E. fold (reading w) in E.
    destruct (held BUTTON_HELD_VALUE (reading w)) eqn:Eh.
    + left. destruct (alarm_held_quiet [] b) as [_ S]. specialize (S w Hs). rewrite E in S.
      assert (handled b' = true /\ button_push b' = i32 (button_push b + 1)) as [H1 H2].
      { assert (yields (fun b' => handled b' = true /\ button_push b' = i32 (button_push b + 1)) (alarm_held plat thread_ok b)) as Y
          by (unfold alarm_held; repeat (apply yields_bind; intros ?); by apply yields_ret).
        apply (Y w). by rewrite E. }
      split_and!; [done| |done|].
      * rewrite H2, Hp, streak_app, Eh. apply i32_small. unfold INT_MIN, INT_MAX. lia.
      * intros h' v [<- <-]%app_inj_tail Hv. congruence.
    + pose proof (wp_alarm_released b w Hs) as W. unfold wp in W. rewrite E in W. destruct W as (b1 & [= <-] & W). rewrite Hp in W.
      destruct (action_of (streak h)) as [a|] eqn:Ea.
      * right. destruct W as [H1 H2]. split; [done|]. by exists h, (reading w), a.
      * left. destruct W as (H1 & H2 & H3). split_and!; [done| |done|].
        -- by rewrite H2, streak_app, Eh.
        -- intros h' v [<- <-]%app_inj_tail Hv. done.
  - right. destruct IH as [(Hf & _)|(_ & H)]; [done|congruence|done].
Qed.

(** The reset commands for a history: those of the action for its last release. *)
Definition expected (h : list string) : list string :=
  match rev h with
  | v :: r => if held BUTTON_HELD_VALUE v then [] else
      match action_of (streak (rev r)) with Some a => act_cmds plat a | None => [] end
  | [] => []
  end.

(** C23. However the handlers of irisinitd for the reset button are run, and whatever they read, every call returns, and the
    reset commands issued are exactly those for the number of seconds the button was held before it was released: none
    below one second, a restart below ten, a soft reset below twenty and a factory reset from twenty on; they are issued
    once. *)
Theorem reset_button h b w : presses h b w -> Z.of_nat (length h) < 2 ^ 31 ->
  returns (buttonHandler b) /\ returns (alarmHandler plat thread_ok b) /\ issued reset_cmd (trace w) = expected h.
Proof.
  intros H Hl. split_and!.
  - unfold buttonHandler, write_edge, write_text. steps. intros w'. by eexists.
  - unfold alarmHandler, alarm_released, write_edge, write_text, setLedMode, sleep. apply returns_bind; [intros w'; by eexists|].
    intros v. destruct (held _ v); [apply (alarm_held_quiet [])|]. steps; try (destruct plat); steps.
  - unfold expected. destruct (presses_inv _ _ _ H Hl) as [(_ & _ & Hs & Hn)|(_ & h' & v & a & -> & Hv & Ha & Hs)].
    + rewrite Hs. destruct (rev h) as [|v r] eqn:E; [done|]. destruct (held _ v) eqn:Ew; [done|].
      rewrite (Hn (rev r) v); [done| |done]. by rewrite <- (rev_involutive h), E.
    + by rewrite rev_unit, Hv, rev_involutive, Ha.
Qed.
End ResetButton.

(** ** A press of one second *)

Module ButtonToy.

#[local] Instance env : Env := BatteryToy.env.

Definition gpio (v : string) (w : world) : world := put_file BUTTON_GPIO_VALUE_FILE v w.
Definition HELD : string := String "0" (String LF "").
Definition FREE : string := String "1" (String LF "").
Definition val {A} (d : A) (r : outcome A * world) : A := match fst r with Val a => a | _ => d end.

Definition w0 : world := gpio HELD BatteryToy.hub.
Definition r1 := buttonHandler buttons_init w0.
Definition b1 := val buttons_init r1.
Definition r2 := alarmHandler imxdimagic true b1 (snd r1).
Definition b2 := val buttons_init r2.
Definition w2 : world := gpio FREE (snd r2).
Definition r3 := alarmHandler imxdimagic true b2 w2.

Lemma pressed : presses imxdimagic true [HELD; FREE] (val buttons_init r3) (snd r3).
Proof.
  assert (presses imxdimagic true [] b1 (snd r1)) as H1 by (eapply presses_edge; [by apply (presses_init _ _ w0)|by vm_compute]).
  assert (presses imxdimagic true [HELD] b2 (snd r2)) as H2
    by (apply (presses_alarm _ _ [] b1 (snd r1)); [done|by vm_compute|by vm_compute|by vm_compute]).
  assert (presses imxdimagic true [HELD] b2 w2) as H2' by by eapply presses_outside.
  apply (presses_alarm _ _ [HELD] b2 w2); [done|by vm_compute|by vm_compute|by vm_compute].
Qed.

End ButtonToy.

Lemma reset_button_witness : issued reset_cmd (trace (snd ButtonToy.r3)) = ["hub_restart 5"].
Proof. apply (@reset_button ButtonToy.env imxdimagic true _ _ _ ButtonToy.pressed). vm_compute. reflexivity. Defined.
