(* ===== verification/LedPath.v ===== *)
(** * From a held button to the ring of LEDs

    While the reset button is held irisinitd writes LED modes to the mode file, its LED thread
    runs ringctrl on each, and ringctrl shows a mode unless the mode shown before locks it out.
    The stages shown are those of the action a release would cause. *)
From Stdlib Require Import ZArith String Ascii Lia Bool.
From stdpp Require Import base gmap strings list numbers.
From S2P Require Import Prelude CLib Os IrisLib Traces RingCtrl InitButtons Battery.

Local Open Scope string_scope.
Local Open Scope Z_scope.

(** The mode that announces an action. *)
Definition act_mode (a : act) : leds_mode :=
  match a with Reboot => BUTTON_REBOOT | SoftReset => BUTTON_SOFT_RESET | FactoryDefault => BUTTON_FACTORY_DEFAULT end.

Definition HOLD_MODES : list string := ["button-reboot"; "button-soft-reset"; "button-factory-default"].
Definition ECHO_MODE (m : string) : string := snprintf 128 ("echo -n " +:+ m +:+ " > " +:+ LED_MODE_FILE).
Definition SHOW_MODE (m : string) : string := snprintf 127 (LED_CTRL_APP imxdimagic +:+ " " +:+ m).

Section Path.
Context {Child : Env} {Ev : Env} (thread_ok : bool).

(** echo(1) writes the mode file, the LED program is ringctrl, and the sound player touches neither file. *)
Record PathLaws : Prop := {
  path_healthy : healthy;
  path_echo : forall m w, plain w -> m ∈ HOLD_MODES ->
    let w' := after_cmd (ECHO_MODE m) w in plain w' /\ get LED_MODE_FILE w' = Some m /\ last_mode w' = last_mode w;
  path_sound : forall s w, plain w ->
    let w' := after_cmd (snprintf 256 (AUDIO_APP +:+ s)) w in plain w' /\ last_mode w' = last_mode w;
  path_show : forall m, m ∈ HOLD_MODES -> runs (SHOW_MODE m) (@ringctrl Child [m]);
  ring_healthy : @healthy Child;
  ring_keeps : forall c w, files (snd (@sh Child c w)) !! LAST_LED_MODE_FILE = files (fs w) !! LAST_LED_MODE_FILE;
  ring_mnts : forall c w, mnts (snd (@sh Child c w)) = mnts (fs w) }.

Context (L : PathLaws).

(** One second with the button held, and the work of the LED thread. *)
Definition hold_second (b : buttons) (last_led_mode : string) : M (buttons * string) :=
  b ← alarm_held imxdimagic thread_ok b;
  last ← led_event imxdimagic last_led_mode;
  mret (b, last).

Fixpoint hold (n : nat) (b : buttons) (last_led_mode : string) : M (buttons * string) :=
  match n with
  | O => mret (b, last_led_mode)
  | S n' => '(b, last) ← hold_second b last_led_mode; hold n' b last
  end.

Definition recorded (z : Z) (w : world) : Prop := plain w /\ last_mode w = z.

Lemma sound_recorded z f d : stable (recorded z) (IRIS_playAudio thread_ok f d).
Proof.
  unfold IRIS_playAudio, playAudio, usleep. steps; try (by intros w).
  intros w [P Hl]. destruct (path_sound L (" " +:+ f +:+ " > /dev/null 2>&1") w P) as [P' Hl'].
  unfold after_cmd in *. unfold system.
  destruct (sh _ w). cbn in *. split; [done|]. by rewrite Hl'.
Qed.

(** The LED thread on a mode of the button. *)
Lemma wp_led_event m mode last w : m ∈ HOLD_MODES -> find_mode (strip_nl m) = Some mode -> get LED_MODE_FILE w = Some m -> plain w ->
  wp (led_event imxdimagic last) (fun r w' => exists last', r = Val last' /\ recorded (ring_next (last_mode w) mode) w') w.
Proof.
  intros Hm Hf Hg P. unfold led_event. wp_step. apply (wp_fopen_r_some (path_healthy L) _ m); [done|]. cbn [seq_post].
  assert ((String.length m =? 0)%nat = false /\ cstr (stake 127 m) = m /\ strip_nl m = m /\ has_sub m "-err" = false) as (E0 & E1 & E2 & E3).
  { unfold HOLD_MODES in Hm. repeat (apply elem_of_cons in Hm as [-> | Hm]; [by vm_compute|]). by apply not_elem_of_nil in Hm. }
  rewrite E0, E1. cbv zeta. rewrite E0. cbn [when]. wp_step. apply wp_ret. cbn [seq_post]. rewrite E2, E3.
  wp_step. apply wp_cmd. cbn [seq_post]. apply wp_ret. eexists. split; [done|].
  destruct (@wp_ringctrl Child (ring_healthy L) (ring_keeps L) (ring_mnts L) [m] w P) as (P' & Hl & _).
  pose proof (path_show L m Hm w) as Hr. unfold recorded, after_cmd. fold (SHOW_MODE m). rewrite Hr. split; [exact P'|].
  transitivity (last_mode (snd (@ringctrl Child [m] w))); [done|]. rewrite Hl. unfold shown, selects, ring_next. rewrite Hf.
  by destruct (locked_out _ _), (is_off _).
Qed.

Lemma wp_hold_second b last w a : plain w -> 0 <= button_push b < INT_MAX -> action_of (button_push b + 1) = Some a ->
  wp (hold_second b last) (fun r w' => exists b' last', r = Val (b', last') /\ button_push b' = button_push b + 1 /\
    recorded (ring_next (last_mode w) (act_mode a)) w') w.
Proof.
  intros P Hp Ha. unfold hold_second, alarm_held. rewrite (i32_small (button_push b + 1)) by (unfold INT_MIN, INT_MAX in *; lia).
  assert (exists m, hold_mode (button_push b + 1) = Some m /\ m ∈ HOLD_MODES /\ find_mode (strip_nl m) = Some (act_mode a)) as (m & Em & Hm & Hf).
  { unfold action_of, hold_mode in *. repeat case_match; try done; injection Ha as <-; eexists; (split; [done|]); (split; [decide_closed|by vm_compute]). }
  rewrite Em. wp_step. apply (wp_returns (recorded (last_mode w))); [steps| |done|].
  { steps; apply sound_recorded. }
  intros _ w1 H1. apply (wp_returns (recorded (last_mode w))); [steps|steps|done|]. intros _ w2 [P2 H2].
  unfold setLedMode. wp_step. wp_step. apply wp_cmd. cbn [seq_post]. apply wp_ret. cbn [seq_post]. apply wp_ret. cbn [seq_post].
  destruct (path_echo L m w2 P2 Hm) as (P3 & Hg & H3). wp_step. eapply wp_mono; [by apply (wp_led_event m (act_mode a))|].
  intros r w3 (last' & -> & H4). cbn [seq_post]. apply wp_ret. eexists _, _. split; [done|]. split; [done|]. unfold ECHO_MODE in H3. by rewrite H3, H2 in H4.
Qed.

(** The ring follows the stages in order. *)
Lemma stage_next n a : action_of (n + 1) = Some a -> 0 <= n ->
  forall z, (n = 0 -> locked_out z (mode_code BUTTON_REBOOT) = false) -> (forall a0, action_of n = Some a0 -> z = mode_code (act_mode a0)) ->
  ring_next z (act_mode a) = mode_code (act_mode a).
Proof.
  intros Ha Hn z H0 Hz. destruct (action_of n) as [a0|] eqn:E.
  - rewrite (Hz a0 eq_refl). unfold action_of, BUTTON_REBOOT_HOLD, BUTTON_SOFT_RESET_HOLD, BUTTON_FACTORY_DEFAULT_HOLD in *.
    repeat case_match; try done; to_prop; try lia; injection Ha as <-; injection E as <-; reflexivity.
  - assert (n = 0) as ->. { unfold action_of, BUTTON_REBOOT_HOLD in E. repeat case_match; try done; to_prop; lia. }
    injection Ha as <-. unfold ring_next. cbn [act_mode]. by rewrite H0.
Qed.

Lemma wp_held n b last w : plain w -> 0 <= button_push b -> button_push b + Z.of_nat n <= INT_MAX ->
  (button_push b = 0 -> locked_out (last_mode w) (mode_code BUTTON_REBOOT) = false) ->
  (forall a, action_of (button_push b) = Some a -> last_mode w = mode_code (act_mode a)) ->
  wp (hold n b last) (fun r w' => exists b' last', r = Val (b', last') /\ button_push b' = button_push b + Z.of_nat n /\
    (forall a, action_of (button_push b + Z.of_nat n) = Some a -> last_mode w' = mode_code (act_mode a))) w.
Proof.
  revert b last w. induction n as [|n IH]; intros b last w P Hp Hn H0 Ha.
  - apply wp_ret. exists b, last. rewrite Z.add_0_r. done.
  - cbn [hold]. assert (exists a, action_of (button_push b + 1) = Some a) as [a E].
    { unfold action_of, BUTTON_REBOOT_HOLD. destruct (Z.ltb_spec (button_push b + 1) 1); [lia|]. repeat case_match; by eexists. }
    wp_step. eapply wp_mono; [apply (wp_hold_second b last w a P); [lia|done]|].
    intros r w1 (b1 & l1 & -> & Hb1 & P1 & Hl1). cbn [seq_post]. rewrite (stage_next _ a E Hp _ H0 Ha) in Hl1.
    replace (button_push b + Z.of_nat (S n)) with (button_push b1 + Z.of_nat n) by lia. apply IH; [done|lia|lia|lia|].
    intros a' E'. rewrite Hb1, E in E'. by injection E' as <-.
Qed.

(** C24. While the reset button of a v3 hub is held, the ring shows after every second the mode that announces what a release
    would do: irisinitd, its LED thread and ringctrl together, unless the ring was locked before the button was pushed. *)
Theorem hold_shows_action n last w : plain w -> 1 <= Z.of_nat n <= INT_MAX -> locked_out (last_mode w) (mode_code BUTTON_REBOOT) = false ->
  wp (hold n buttons_init last) (fun r w' => exists b last' a, r = Val (b, last') /\ button_push b = Z.of_nat n /\
    action_of (Z.of_nat n) = Some a /\ last_mode w' = mode_code (act_mode a)) w.
Proof.
  intros P Hn H0. eapply wp_mono; [apply (wp_held n buttons_init last w P); [done|cbn; lia|done|done]|].
  intros r w' (b & l & -> & Hb & Ha). cbn in Hb, Ha. rewrite Z.add_0_l in *.
  assert (exists a, action_of (Z.of_nat n) = Some a) as [a E].
  { unfold action_of, BUTTON_REBOOT_HOLD. destruct (Z.ltb_spec (Z.of_nat n) 1); [lia|]. repeat case_match; by eexists. }
  exists b, l, a. auto.
Qed.
End Path.

(** ** A button held for ten seconds *)

Module PathToy.

Definition child : Env :=
  Build_Env (fun _ w => (0, fs w)) (fun _ _ => Some "") (fun _ _ => true) (fun _ _ => true) (fun _ _ n => n) (fun _ _ _ => true) (fun _ => true).

Definition run (c : string) (w : world) : Z * fsys :=
  match find (fun m => String.eqb c (ECHO_MODE m)) HOLD_MODES with
  | Some m => (0, fs (put_file LED_MODE_FILE m w))
  | None =>
      match find (fun m => String.eqb c (SHOW_MODE m)) HOLD_MODES with
      | Some m => (wait_status (fst (@ringctrl child [m] w)), fs (snd (@ringctrl child [m] w)))
      | None => (0, fs w)
      end
  end.

Definition env : Env :=
  Build_Env run (fun _ _ => Some "") (fun _ _ => true) (fun _ _ => true) (fun _ _ n => n) (fun _ _ _ => true) (fun _ => true).

Lemma path_laws : @PathLaws child env.
Proof.
  split; try done.
  - intros m w P Hm. unfold after_cmd, sh, env, run.
    assert (find (fun m0 => String.eqb (ECHO_MODE m) (ECHO_MODE m0)) HOLD_MODES = Some m) as ->.
    { unfold HOLD_MODES in Hm. repeat (apply elem_of_cons in Hm as [-> | Hm]; [by vm_compute|]). by apply not_elem_of_nil in Hm. }
    split; [done|]. split; [apply (get_put_eq LED_MODE_FILE m w)|]. unfold last_mode. cbn.
    rewrite lookup_insert_ne; [done|]. by rewrite resolve_plain.
  - intros m Hm w. unfold sh, env, run.
    assert (find (fun m0 => String.eqb (SHOW_MODE m) (ECHO_MODE m0)) HOLD_MODES = None /\
      find (fun m0 => String.eqb (SHOW_MODE m) (SHOW_MODE m0)) HOLD_MODES = Some m) as [-> ->]; [|done].
    unfold HOLD_MODES in Hm. repeat (apply elem_of_cons in Hm as [-> | Hm]; [by vm_compute|]). by apply not_elem_of_nil in Hm.
Qed.

Definition hub : world := World (Fsys ∅ ∅ [] ∅ "/") [].

End PathToy.

Lemma hold_shows_action_witness :
  last_mode (snd (@hold PathToy.env true 10 buttons_init "boot-linux" PathToy.hub)) = mode_code BUTTON_SOFT_RESET.
Proof.
  destruct (@hold_shows_action PathToy.child PathToy.env true PathToy.path_laws 10 "boot-linux" PathToy.hub) as (b & l & a & _ & _ & [= <-] & H);
    [done|vm_compute; by split|by vm_compute|exact H].
Defined.
