(* ===== verification/SshAccess.v ===== *)
(** * irisinitd.c: access by SSH

    Every few seconds irisinitd looks on the mounted media for a key file of this hub, which is
    its hub ID signed with the firmware key, and turns the SSH server on or off; a configuration
    file for the agent is picked up on the way.  [sshCheckAccess] maps the static variable
    [ssh_access] to its new value. *)
From Stdlib Require Import ZArith String Ascii Lia Bool.
From stdpp Require Import base gmap strings list numbers.
From S2P Require Import Prelude CLib Os IrisLib Traces Streams ImageFormat ImageRoundtrip.

Local Open Scope string_scope.
Local Open Scope Z_scope.

(** ** Constants *)

Definition MEDIA_MOUNT_DIR : string := "/run/media".
Definition MAX_FIND_DEPTH : Z := 2.
Definition DEBUG_ENABLED_FILE : string := "/tmp/debug".
Definition AGENT_CFG_FILE : string := "/tmp/agent_cfg".
Definition TEMP_HUB_ID : string := "/tmp/hubID.txt".
Definition IRIS_AGENT_BIN_FILE : string := "/usr/bin/irisagentd".
Definition DROPBEAR_CONFIG_DIR : string := "/data/config/dropbear".
Definition SSH_INIT_SCRIPT : string := "/etc/init.d/dropbear".
Definition SSH_BIN_FILE : string := "/usr/sbin/dropbear".
Definition SIGTERM : Z := 15.

Definition FIND_CMD (file : string) : string :=
  "find . -name " +:+ file +:+ " -maxdepth " +:+ dec MAX_FIND_DEPTH +:+ " | grep -v '/\.'".
Definition VERIFY_CMD (filename : string) : string :=
  "openssl rsautl -verify -in " +:+ filename +:+ " -pubin -inkey " +:+ BUILD_PUBLIC_KEY +:+ " -out " +:+ TEMP_HUB_ID.
Definition DIFF_ID_CMD : string := "diff " +:+ TEMP_HUB_ID +:+ " " +:+ HUB_ID_FILE.

Section Ssh.
Context {Ev : Env}.

(** ** The key file *)

(** The loop over the files found: whether one of them grants access. *)
Fixpoint check_keys (lines : list string) : M bool :=
  match lines with
  | [] => mret false
  | line :: lines' =>
      st ← system (snprintf 256 (VERIFY_CMD (strip_nl line)));
      if negb (st =? 0) then check_keys lines'
      else
        st ← system (snprintf 256 DIFF_ID_CMD);
        if st =? 0 then mret true else check_keys lines'
  end.

(** The contents of [hubID]; [stack] is what the array holds before. *)
Definition read_hub_id (stack : string) : M string :=
  f ← popen (snprintf 256 ("cat " +:+ HUB_ID_FILE));
  match f with
  | None => crash
  | Some out =>
      match scan_s out with
      | Some t => _ ← store_token "hubID" 32 t; mret (cstr t)
      | None => mret (cstr stack)
      end
  end.

Definition current_access (hubID : string) : M bool :=
  if (String.length hubID =? 0)%nat then mret false
  else
    let keyFile := snprintf 64 (strip_nl hubID +:+ ".dbg") in
    f ← popen (snprintf 256 (FIND_CMD keyFile));
    match f with
    | None => crash
    | Some out =>
        a ← check_keys (fgets_all (S (String.length out)) 256 out);
        _ ← unlink TEMP_HUB_ID;
        mret a
    end.

(** ** The configuration of the agent *)

Definition copy_cfg (filename : string) : M bool :=
  _ ← system (snprintf 256 ("cp " +:+ filename +:+ " " +:+ AGENT_CFG_FILE)); mret true.

Definition agent_config (hubID : string) : M unit :=
  let cfgFile := snprintf 64 (hubID +:+ ".cfg") in
  f ← popen (snprintf 256 (FIND_CMD cfgFile));
  let found := match f with Some out => strip_nl <$> fgets 256 out | None => None end in
  currentCfg ← access AGENT_CFG_FILE;
  restartAgent ←
    (match found with
     | Some filename =>
         if negb currentCfg then copy_cfg filename
         else
           st ← system (snprintf 256 ("cmp -s " +:+ filename +:+ " " +:+ AGENT_CFG_FILE));
           if negb (st =? 0) then copy_cfg filename else mret false
     | None => if currentCfg : bool then _ ← unlink AGENT_CFG_FILE; mret true else mret false
     end);
  a ← (if restartAgent : bool then access IRIS_AGENT_BIN_FILE else mret false);
  when a (_ ← system "killall java"; mret tt).

(** ** Turning the server on and off *)

Definition TOUCH_DEBUG : string := snprintf 256 ("touch " +:+ DEBUG_ENABLED_FILE).
Definition SSH_START_CMD : string := snprintf 256 (SSH_INIT_SCRIPT +:+ " realstart").
Definition SSH_STOP_CMD : string := snprintf 256 (SSH_INIT_SCRIPT +:+ " stop").
Definition CHMOD_CONFIG : string := snprintf 256 ("chmod 777 " +:+ DROPBEAR_CONFIG_DIR).

Definition enable_ssh : M unit :=
  _ ← system CHMOD_CONFIG;
  _ ← system TOUCH_DEBUG;
  e ← IRIS_isSSHEnabled;
  when (negb e) (_ ← system SSH_START_CMD; mret tt).

(** One [kill] for every line of process numbers. *)
Fixpoint kill_lines (lines : list string) : M unit :=
  match lines with
  | [] => mret tt
  | line :: lines' =>
      let pid := i32 (strtou 32 line 10) in
      _ ← when (negb (pid =? 0)) (kill pid SIGTERM);
      kill_lines lines'
  end.

Definition disable_ssh : M unit :=
  _ ← unlink DEBUG_ENABLED_FILE;
  e ← IRIS_isSSHEnabled;
  _ ← when e (_ ← system SSH_STOP_CMD; mret tt);
  f ← popen (snprintf 256 ("pidof " +:+ SSH_BIN_FILE));
  match f with
  | Some out => kill_lines (fgets_all (S (String.length out)) 128 out)
  | None => mret tt
  end.

Definition initial_access (ssh_access : Z) : M Z :=
  if ssh_access =? -1 then
    e ← IRIS_isSSHEnabled;
    if e : bool then _ ← system TOUCH_DEBUG; mret 1 else mret 0
  else mret ssh_access.

Definition sshCheckAccess (stack : string) (ssh_access : Z) : M Z :=
  gen ← IRIS_isSSHKeyGen;
  if gen : bool then mret ssh_access
  else
    _ ← chdir MEDIA_MOUNT_DIR;
    ssh_access ← initial_access ssh_access;
    hubID ← read_hub_id stack;
    cur_access ← current_access hubID;
    let hubID := strip_nl hubID in
    rel ← IRIS_isReleaseImage;
    _ ← when (rel && negb (String.length hubID =? 0)%nat) (agent_config hubID);
    if cur_access && (ssh_access =? 0) then _ ← enable_ssh; mret 1
    else if negb cur_access && negb (ssh_access =? 0) then _ ← disable_ssh; mret 0
    else mret ssh_access.

End Ssh.

(** ** Who gets access *)

Section Access.
Context {Ev : Env} {Cr : Crypto} (found : string -> fsys -> list string).

(** A path find(1) prints on the media, short enough for the commands. *)
Definition media_file (f : string) : Prop :=
  exists r, f = "./" +:+ r /\ (String.length f <= 120)%nat /\ all_chars (fun c => negb (Ascii.eqb c LF)) f = true.

Definition line_of (f : string) : string := f +:+ String LF "".

Definition ssh_cmd (c : string) : bool := String.eqb c SSH_START_CMD || String.eqb c SSH_STOP_CMD.

(** The server runs: [IRIS_isSSHEnabled] finds its process file. *)
Definition running (w : world) : bool :=
  match get SSH_PID_FILE w with Some _ => true | None => bool_decide (abs_path (fs w) SSH_PID_FILE ∈ dirs (fs w)) end.

(** What openssl, diff, cat and find do; and only the script of the server touches its process file. *)
Record SshLaws : Prop := {
  ssh_verify : forall f w, plain w -> media_file f -> sh (snprintf 256 (VERIFY_CMD f)) w =
    match get f w ≫= rsa_verify with Some id => (0, fs (put_file TEMP_HUB_ID id w)) | None => (256, fs w) end;
  ssh_diff : forall w, exists st, sh (snprintf 256 DIFF_ID_CMD) w = (st, fs w) /\
    (st = 0 <-> exists d, get TEMP_HUB_ID w = Some d /\ get HUB_ID_FILE w = Some d);
  ssh_cat : forall w, pipe (snprintf 256 ("cat " +:+ HUB_ID_FILE)) w = Some (default "" (get HUB_ID_FILE w));
  ssh_find : forall name w, pipe (snprintf 256 (FIND_CMD name)) w = Some (fold_right String.append "" (map line_of (found name (fs w))));
  ssh_found : forall name s, Forall media_file (found name s);
  ssh_pid : forall c w, plain w -> ssh_cmd c = false -> plain (after_cmd c w) /\ running (after_cmd c w) = running w }.

Context (L : SshLaws).

(** The file [f] holds the hub ID of this hub under the firmware key. *)
Definition key_ok (w : world) (f : string) : Prop :=
  exists id, get f w ≫= rsa_verify = Some id /\ get HUB_ID_FILE w = Some id.

(** The same files, apart from the recovered ID. *)
Definition media (w0 w : world) : Prop :=
  plain w /\ cwd (fs w) = cwd (fs w0) /\ forall k, k <> TEMP_HUB_ID -> files (fs w) !! k = files (fs w0) !! k.

Lemma media_get w0 w p : plain w0 -> media w0 w -> abs_path (fs w0) p <> TEMP_HUB_ID -> get p w = get p w0.
Proof.
  intros P0 (P & Hc & Hf) Hp. unfold get, resolve, plain in *. rewrite P, P0. cbn [resolve_in].
  unfold abs_path in *. rewrite Hc. by apply Hf.
Qed.

Lemma media_path w0 f : cwd (fs w0) = MEDIA_MOUNT_DIR -> media_file f -> abs_path (fs w0) f <> TEMP_HUB_ID.
Proof. intros Hc (r & -> & _). unfold abs_path. rewrite Hc. done. Qed.

Lemma media_put w0 w s : media w0 w -> media w0 (put_file TEMP_HUB_ID s w).
Proof.
  intros (P & Hc & Hf). split; [done|]. split; [done|]. intros k Hk. cbn. rewrite resolve_plain by done.
  rewrite lookup_insert_ne by done. by apply Hf.
Qed.

Lemma strip_line f : strip_nl (line_of f) = f.
Proof.
  unfold line_of. induction f as [|c f IH]; [done|]. cbn [String.append strip_nl]. rewrite IH. by destruct f.
Qed.

Lemma wp_check_keys w0 fl w : plain w0 -> cwd (fs w0) = MEDIA_MOUNT_DIR -> Forall media_file fl -> media w0 w ->
  wp (check_keys (map line_of fl)) (fun r w' => exists b, r = Val b /\ media w0 w' /\ (b = true <-> Exists (key_ok w0) fl)) w.
Proof.
  intros P0 Hc Hfl. revert w. induction Hfl as [|f fl Hf _ IH]; intros w Hw; cbn [map check_keys].
  - apply wp_ret. exists false. split; [done|]. split; [done|]. split; [done|]. by intros ?%Exists_nil.
  - rewrite strip_line. wp_step. apply wp_cmd. unfold after_cmd. destruct Hw as (P & Hw). rewrite (ssh_verify L f w P Hf).
    rewrite (media_get w0 w f P0 (conj P Hw) (media_path w0 f Hc Hf)). cbn [seq_post].
    assert (get HUB_ID_FILE w = get HUB_ID_FILE w0) as Hh by by apply media_get.
    destruct (get f w0 ≫= rsa_verify) as [id|] eqn:Ev0; cbn [fst snd negb Z.eqb].
    + set (w1 := World _ _). assert (media w0 w1) as H1 by by apply (media_put w0 w id).
      wp_step. apply wp_cmd. unfold after_cmd. destruct (ssh_diff L w1) as (st & -> & Hst). cbn [fst snd seq_post].
      assert (get TEMP_HUB_ID w1 = Some id) as Ht by (apply (get_put_eq TEMP_HUB_ID id w)).
      assert (get HUB_ID_FILE w1 = get HUB_ID_FILE w0) as Hh1 by by apply media_get.
      assert (st = 0 <-> key_ok w0 f) as Hk.
      { rewrite Hst, Ht, Hh1. unfold key_ok. rewrite Ev0. split; [intros (d & [= <-] & Hd); eauto|intros (d & [= <-] & Hd); eauto]. }
      destruct (Z.eqb_spec st 0) as [E|E].
      * apply wp_ret. exists true. split; [done|]. split; [done|]. split; [|done]. intros _. apply Exists_cons_hd. by apply Hk.
      * eapply wp_mono; [by apply IH|]. intros r w' (b & -> & Hm & Hb). exists b. split; [done|]. split; [done|].
        rewrite Hb, Exists_cons. split; [by right|]. intros [K|K]; [|done]. by apply Hk in K.
    + eapply wp_mono; [by apply IH|]. intros r w' (b & -> & Hm & Hb). exists b. split; [done|]. split; [done|].
      rewrite Hb, Exists_cons. split; [by right|]. intros [(id & K & _)|K]; [congruence|done].
Qed.

(** *** The commands to the server *)

(** [l] was ordered so far, and the server is as it was. *)
Definition served (l : list string) (b : bool) (w : world) : Prop := sofar ssh_cmd l w /\ plain w /\ running w = b.

Lemma served_quiet {A} l b (m : M A) : (forall w, fs (snd (m w)) = fs w) -> stable (sofar ssh_cmd l) m -> stable (served l b) m.
Proof.
  intros Hf Hm w (Hs & P & Hr). split; [by apply Hm|]. unfold plain, running, get in *. by rewrite !Hf.
Qed.

Lemma served_other l b c : ssh_cmd c = false -> stable (served l b) (system c).
Proof.
  intros Hc w (Hs & P & Hr). destruct (ssh_pid L c w P Hc) as [P' Hr'].
  split; [by apply sofar_other|]. unfold system, after_cmd in *. destruct (sh c w). cbn [snd] in *. by rewrite Hr'.
Qed.

Lemma served_unlink l b p : is_abs p -> p <> SSH_PID_FILE -> stable (served l b) (unlink p).
Proof.
  intros Ha Hp w (Hs & P & Hr). split; [done|]. split; [done|]. rewrite <- Hr. unfold running, unlink. cbn [snd].
  rewrite get_del_ne by (rewrite !resolve_plain by done; congruence). done.
Qed.

Lemma served_chdir l b p : stable (served l b) (chdir p).
Proof. by intros w H. Qed.

Lemma served_keys l b lines : stable (served l b) (check_keys lines).
Proof.
  induction lines as [|line lines IH]; cbn [check_keys]; [apply stable_ret|]. steps; try done; by apply served_other.
Qed.

Lemma served_config l b hubID : returns (agent_config hubID) /\ stable (served l b) (agent_config hubID).
Proof.
  unfold agent_config, copy_cfg. split; steps; first [by apply served_other|by apply served_unlink|apply served_quiet; [done|steps]].
Qed.

Lemma returns_kill lines : returns (kill_lines lines).
Proof. induction lines as [|line lines IH]; cbn [kill_lines]; unfold kill; steps. Qed.

Lemma sofar_kill l lines : stable (sofar ssh_cmd l) (kill_lines lines).
Proof. induction lines as [|line lines IH]; cbn [kill_lines]; unfold kill; steps. Qed.

Lemma wp_running l b (k : bool -> M unit) Q w : served l b w -> wp (k b) Q w -> wp (e ← IRIS_isSSHEnabled; k e) Q w.
Proof. intros (_ & _ & Hr) HQ. apply wp_bind. unfold wp at 1, IRIS_isSSHEnabled, access. cbn [fst snd seq_post]. fold (running w). by rewrite Hr. Qed.

(** What the server is told when access changes. *)
Lemma wp_enable l b w : served l b w -> wp enable_ssh (fun r w' => r = Val tt /\ sofar ssh_cmd (l ++ if b then [] else [SSH_START_CMD]) w') w.
Proof.
  intros Hw. unfold enable_ssh.
  apply (wp_returns (served l b)); [steps|by apply served_other|done|]. intros _ w1 H1.
  apply (wp_returns (served l b)); [steps|by apply served_other|done|]. intros _ w2 H2.
  apply (wp_running l b); [done|]. destruct H2 as [H2 _]. destruct b; cbn [negb when].
  - apply wp_ret. by rewrite app_nil_r.
  - eapply wp_issue; [|exact H2|]; [by vm_compute|]. intros _ w4 H4. by apply wp_ret.
Qed.

Lemma wp_disable l b w : served l b w -> wp disable_ssh (fun r w' => r = Val tt /\ sofar ssh_cmd (l ++ if b then [SSH_STOP_CMD] else []) w') w.
Proof.
  intros Hw. unfold disable_ssh.
  apply (wp_returns (served l b)); [steps|by apply served_unlink|done|]. intros _ w1 H1. apply (wp_running l b); [done|]. destruct H1 as [H1 _].
  assert (forall l' w2, sofar ssh_cmd l' w2 ->
    wp (f ← popen (snprintf 256 ("pidof " +:+ SSH_BIN_FILE)); match f with Some out => kill_lines (fgets_all (S (String.length out)) 128 out) | None => mret tt end)
      (fun r w' => r = Val tt /\ sofar ssh_cmd l' w') w2) as Hrest.
  { intros l' w2 H2. apply (wp_returned (sofar ssh_cmd l')); [|  |done|].
    - steps. apply returns_kill.
    - steps. apply sofar_kill.
    - by intros []. }
  destruct b; cbn [when]; wp_step.
  - eapply wp_issue; [|exact H1|]; [by vm_compute|]. intros _ w3 H3. apply wp_ret. cbn [seq_post]. by apply Hrest.
  - apply wp_ret. cbn [seq_post]. apply Hrest. by rewrite app_nil_r.
Qed.

(** *** A check *)

Definition on_media (w : world) : world := snd (chdir MEDIA_MOUNT_DIR w).

(** A key for the hub with the ID [t] is on the media. *)
Definition authorised (t : string) (w : world) : Prop :=
  Exists (key_ok (on_media w)) (found (snprintf 64 (t +:+ ".dbg")) (fs (on_media w))).

Lemma media_lines fl : Forall media_file fl ->
  fgets_all (S (String.length (fold_right String.append "" (map line_of fl)))) 256 (fold_right String.append "" (map line_of fl)) = map line_of fl.
Proof.
  intros H. assert (Forall is_line (map line_of fl)) as Hl.
  { apply Forall_map. eapply list.Forall_impl; [exact H|]. intros f (r & _ & Hlen & Hlf). exists f. split; [done|]. split; [done|].
    unfold line_of. rewrite slen_app. cbn [String.length]. lia. }
  apply fgets_all_lines; [done|]. pose proof (lines_length _ Hl). lia.
Qed.

Lemma wp_current_access l run w0 w t : plain w0 -> cwd (fs w0) = MEDIA_MOUNT_DIR -> strip_nl t = t -> t <> "" -> fs w = fs w0 -> served l run w ->
  wp (current_access t) (fun r w' => exists b, r = Val b /\ served l run w' /\
    (b = true <-> Exists (key_ok w0) (found (snprintf 64 (t +:+ ".dbg")) (fs w0)))) w.
Proof.
  intros P0 Hc Ht Hne Hfs Hw. unfold current_access. destruct (String.length t =? 0)%nat eqn:E0.
  { destruct t; [done|]. by apply Nat.eqb_eq in E0. }
  rewrite Ht. cbv zeta. wp_step. apply wp_popen. cbn [seq_post]. rewrite (ssh_find L), Hfs. set (fl := found _ _).
  assert (Forall media_file fl) as Hfl by apply (ssh_found L). rewrite media_lines by done.
  set (w1 := World _ _). assert (media w0 w1) as H1 by (unfold media, w1, plain; cbn; rewrite ?Hfs; done).
  assert (served l run w1) as Hw1.
  { destruct Hw as (Hs & _ & Hr). split; [|split; [done|]].
    - unfold sofar, w1. cbn [trace]. by rewrite issued_app, app_nil_r.
    - rewrite <- Hr. unfold running, get, w1. cbn [fs]. by rewrite Hfs. }
  wp_step. eapply wp_mono; [apply wp_and; [apply (wp_check_keys w0 fl w1); done|by apply (stable_wp _ _ _ (served_keys l run (map line_of fl)))]|].
  intros r w2 [(b & -> & _ & Hb) H2]. cbn [seq_post]. wp_step. apply (wp_returned (served l run)); [steps|by apply served_unlink|done|].
  intros u w3 H3. cbn [seq_post]. apply wp_ret. by exists b.
Qed.

Lemma wp_read_hub_id stack w hub t : get HUB_ID_FILE w = Some hub -> scan_s hub = Some t ->
  wp (read_hub_id stack) (fun r w' => r = Val (cstr t) /\ fs w' = fs w /\ forall l b, served l b w -> served l b w') w.
Proof.
  intros Hhub Hscan. unfold read_hub_id. wp_step. apply wp_popen. cbn [seq_post]. rewrite (ssh_cat L), Hhub. change (default "" (Some hub)) with hub. rewrite Hscan.
  set (w1 := World _ _). assert (forall l b, served l b w -> served l b w1) as H1.
  { intros l b Hw. apply (served_quiet l b (popen (snprintf 256 ("cat " +:+ HUB_ID_FILE)))); [done|steps|done]. }
  assert (forall l b, stable (served l b) (store_token "hubID" 32 t)) as H2.
  { intros l b. apply served_quiet; [apply keeps_fs_store|]. unfold store_token. apply stable_when. by apply sofar_emit. }
  wp_step. unfold wp at 1. assert (fst (store_token "hubID" 32 t w1) = Val tt) as -> by (unfold store_token, when; by destruct (_ <=? _)%nat).
  cbn [seq_post]. apply wp_ret. split; [done|]. split; [apply (keeps_fs_store "hubID" 32 t w1)|]. intros l b Hw. apply H2. by apply H1.
Qed.

(** What follows from the outcome. *)
Definition orders (cur : bool) (ssh_access : Z) (run : bool) : list string :=
  if cur then (if (ssh_access =? 0) && negb run then [SSH_START_CMD] else []) else if negb (ssh_access =? 0) && run then [SSH_STOP_CMD] else [].

Lemma wp_decide hubID (cur : bool) ssh_access l run w : ssh_access = 0 \/ ssh_access = 1 -> served l run w ->
  wp (rel ← IRIS_isReleaseImage;
      _ ← when (rel && negb (String.length hubID =? 0)%nat) (agent_config hubID);
      if cur && (ssh_access =? 0) then _ ← enable_ssh; mret 1
      else if negb cur && negb (ssh_access =? 0) then _ ← disable_ssh; mret 0
      else mret ssh_access)
    (fun r w' => r = Val (if cur then 1 else 0) /\ sofar ssh_cmd (l ++ orders cur ssh_access run) w') w.
Proof.
  intros Hs Hl. destruct (served_config l run hubID) as [RC SC].
  apply (wp_returns (served l run)); [by apply returns_ret|by apply stable_ret|done|]. intros rel w1 H1.
  apply (wp_returns (served l run)); [by apply returns_when|by apply stable_when|done|]. intros _ w2 H2.
  assert (forall z : Z, wp (mret (M := M) z) (fun r w' => r = Val z /\ sofar ssh_cmd (l ++ []) w') w2) as Hsame.
  { intros z. apply wp_ret. rewrite app_nil_r. by destruct H2. }
  destruct cur, Hs as [-> | ->]; cbn [andb negb Z.eqb Pos.eqb orders]; [|apply Hsame|apply Hsame|].
  - wp_step. eapply wp_mono; [by apply (wp_enable l run)|]. intros r w3 [-> H3]. cbn [seq_post]. apply wp_ret. by destruct run.
  - wp_step. eapply wp_mono; [by apply (wp_disable l run)|]. intros r w3 [-> H3]. cbn [seq_post]. apply wp_ret. by destruct run.
Qed.

(** What the daemon takes for the state of the access: before its first check, whether the server runs. *)
Definition known_access (ssh_access : Z) : Z := if ssh_access =? 1 then 1 else 0.

Lemma known_cases ssh_access : known_access ssh_access = 0 \/ known_access ssh_access = 1.
Proof. unfold known_access. destruct (_ =? _); auto. Qed.

Lemma wp_initial_access ssh_access w : ssh_access = 0 \/ ssh_access = 1 \/ (ssh_access = -1 /\ running w = false) ->
  wp (initial_access ssh_access) (fun r w' => r = Val (known_access ssh_access) /\ w' = w) w.
Proof.
  unfold initial_access. intros [-> | [-> | [-> Hr]]]; [done..|]. cbn [Z.eqb Pos.eqb]. wp_step. unfold wp at 1, IRIS_isSSHEnabled, access.
  cbn [fst snd seq_post]. fold (running w). by rewrite Hr.
Qed.

End Access.

(** ** Open connections *)

(** When access is withdrawn only the first process pidof(1) names is terminated: it prints all process numbers on one
    line, and one number is read from every line, so that other open connections stay. *)
Theorem ssh_kill_first p rest w : 0 < p < 2 ^ 31 -> (String.length (dec p +:+ " " +:+ rest) < 127)%nat ->
  all_chars (fun c => negb (Ascii.eqb c LF)) (dec p +:+ " " +:+ rest) = true ->
  let out := dec p +:+ " " +:+ rest +:+ String LF "" in
  kill_lines (fgets_all (S (String.length out)) 128 out) w = (Val tt, World (fs w) (trace w ++ [Kill p SIGTERM])).
Proof.
  intros Hp Hl Hlf. cbv zeta. rewrite <- !sapp_assoc in *. set (body := _ +:+ rest) in *. cbn [fgets_all].
  assert (fgets 128 (body +:+ String LF "") = Some (body +:+ String LF "")) as E.
  { unfold fgets. rewrite (first_line_line body "") by done. rewrite stake_all by (rewrite slen_app; cbn [String.length]; lia).
    by destruct body. }
  rewrite E. set (text := body +:+ String LF "") in *.
  assert (sdrop (String.length text) text = "") as -> by (rewrite <- (sapp_nil_r text) at 2; apply sdrop_app).
  assert (fgets_all (String.length text) 128 "" = []) as -> by by destruct (String.length text).
  cbn [kill_lines]. unfold text, body. rewrite !sapp_assoc. rewrite (strtou_dec 32 10 p); [|lia|by right|done].
  rewrite i32_small by (unfold INT_MIN, INT_MAX; lia). rewrite (proj2 (Z.eqb_neq p 0)) by lia. reflexivity.
Qed.

Lemma ssh_kill_first_witness : kill_lines (fgets_all 10 128 ("411 502" +:+ String LF "")) (World (Fsys ∅ ∅ [] ∅ "/") []) =
  (Val tt, World (Fsys ∅ ∅ [] ∅ "/") [Kill 411 SIGTERM]).
Proof. apply (ssh_kill_first 411 "502" (World (Fsys ∅ ∅ [] ∅ "/") [])); [lia|vm_compute; lia|by vm_compute]. Defined.

(** ** A hub with a key *)

Module SshToy.

Definition KEY : string := "./sda1/LWD-1.dbg".
Definition ID : string := "LWD-1" +:+ String LF "".
Definition PRE : string := "openssl rsautl -verify -in ".
Definition POST : string := " -pubin -inkey " +:+ BUILD_PUBLIC_KEY +:+ " -out " +:+ TEMP_HUB_ID.

(** The name in a command that verifies a file. *)
Definition file_of (c : string) : string := let r := sdrop (String.length PRE) c in stake (String.length r - String.length POST) r.

Definition run (c : string) (w : world) : Z * fsys :=
  if String.prefix PRE c then
    match get (file_of c) w ≫= Toy.unsign with Some id => (0, fs (put_file TEMP_HUB_ID id w)) | None => (256, fs w) end
  else if String.eqb c DIFF_ID_CMD then
    (match get TEMP_HUB_ID w, get HUB_ID_FILE w with Some a, Some b => if String.eqb a b then 0 else 256 | _, _ => 512 end, fs w)
  else (0, fs w).

Definition is_find (c : string) : bool := String.eqb c (snprintf 256 (FIND_CMD "LWD-1.dbg")).

Definition print (c : string) (w : world) : option string :=
  if String.prefix "cat " c then Some (default "" (get HUB_ID_FILE w)) else Some (if is_find c then KEY +:+ String LF "" else "").

Definition found (name : string) (s : fsys) : list string := if is_find (snprintf 256 (FIND_CMD name)) then [KEY] else [].

Definition env : Env :=
  Build_Env run print (fun _ _ => true) (fun _ _ => true) (fun _ _ n => n) (fun _ _ _ => true) (fun _ => true).

Lemma file_of_verify f : (String.length f <= 120)%nat -> file_of (snprintf 256 (VERIFY_CMD f)) = f.
Proof.
  intros Hf. rewrite snprintf_id by (unfold VERIFY_CMD; rewrite !slen_app; vm_compute (String.length _) in *; cbn; lia).
  change (VERIFY_CMD f) with (PRE +:+ (f +:+ POST)). unfold file_of. cbv zeta. rewrite sdrop_app, slen_app.
  replace (String.length f + String.length POST - String.length POST)%nat with (String.length f) by lia. apply stake_app.
Qed.

Lemma ssh_laws : @SshLaws env Toy.crypto found.
Proof.
  split.
  - intros f w P (r & -> & Hl & _). unfold sh, env, run. rewrite file_of_verify by done.
    change (String.prefix PRE (snprintf 256 (VERIFY_CMD ("./" +:+ r)))) with true. done.
  - intros w. unfold sh, env, run. eexists. split; [reflexivity|].
    destruct (get TEMP_HUB_ID w) as [a|], (get HUB_ID_FILE w) as [b|]; try (split; [done|by intros (d & ? & ?)]).
    destruct (String.eqb_spec a b) as [->|Hne]; [split; eauto|]. split; [done|]. intros (d & [= ->] & [= ->]). done.
  - done.
  - intros name w. unfold pipe, env, print, found. change (String.prefix "cat " (snprintf 256 (FIND_CMD name))) with false. cbn iota.
    by destruct (is_find _).
  - intros name s. unfold found. destruct (is_find _); [|constructor]. repeat constructor. exists "sda1/LWD-1.dbg". split; [done|].
    split; [vm_compute; lia|done].
  - intros c w P _. unfold after_cmd, sh, env, run. destruct (String.prefix PRE c); [|by destruct (String.eqb c _)].
    destruct (get _ w ≫= _); [|done]. split; [done|]. unfold running. cbn [fs snd]. rewrite (get_fs _ _ (put_file TEMP_HUB_ID s w)) by done.
    by rewrite get_put_ne by (rewrite !resolve_plain by done; done).
Qed.

Definition hub : world :=
  World (Fsys (list_to_map [("/run/media/./sda1/LWD-1.dbg", Toy.sign ID); (HUB_ID_FILE, ID); (SSH_KEY_FILE, "key")]) ∅ [] ∅ "/") [].

End SshToy.

