(* ===== verification/Provision.v ===== *)
(** * irisinitd.c: provisioning of the v3 hub

    The threads of irisinitd that bring the hub on the network: [provisioningThreadHandler], a
    state machine on [lastWifiStatus] that watches the phone's attempts to configure the wireless
    interface, and [wifiCfgThreadHandler], which tries every new configuration.  The threads
    share [lastWifiStatus]; a turn of one is a step of the other's surroundings.  Readings of the
    clock are arguments. *)
From Stdlib Require Import ZArith String Ascii Lia Bool.
From stdpp Require Import base gmap strings list numbers.
From S2P Require Import Prelude CLib Os IrisLib Traces Streams WifiScan WifiProv Battery InitButtons.

Local Open Scope string_scope.
Local Open Scope Z_scope.

(** ** Constants *)

Definition WIFI_TEST_FILE : string := "/tmp/wifiTestResult".
Definition WIFI_SCAN_CMD : string := "/usr/bin/wifi_scan -t".
Definition WIFI_CFG_FILE : string := "/data/config/wifiCfg".
Definition WIFI_PROV_DAEMON : string := "wifi_prov".
Definition WIFI_RESTART_CMD : string := "/usr/bin/wifi_start " +:+ WIFI_IF +:+ " &".
Definition WIFI_TEST_CMD : string := "/usr/bin/wifi_test " +:+ WIFI_IF +:+ " " +:+ TEST_WIFI_CFG_FILE.
Definition UDHCPC_WIFI_TERMINATE : string := "kill -9 $(cat /var/run/udhcpc.wlan0.pid)".
Definition TEST_RESOLVE_HOST : string := "google.com".
Definition WIFI_STATUS_DELAY : Z := 2.
Definition MAX_WIFI_STATUS_CHECKS : Z := 30 / WIFI_STATUS_DELAY.
Definition INTERNET_CHECK_PERIOD : nat := 60.
Definition AUDIO_PLAY_DELAY : Z := 2500000.
Definition PROV_INIT_DELAY : Z := 15.
Definition BLE_RESTART_PERIOD : Z := 300.
Definition WIFI_SCAN_PERIOD : Z := 60.
Definition WIFI_SUCCESS_VOICE : string := VOICE "ConnectedWiFi".
Definition WIFI_FAILURE_VOICE : string := VOICE "WiFiConnectIssue".
Definition INET_SUCCESS_VOICE : string := VOICE "GreatNewsInternetConnection".
Definition INET_FAILURE_VOICE : string := VOICE "internet-failure".
Definition FIRST_BOOTUP_VOICE : string := VOICE "first-bootup".

Inductive WifiStatusType := DISCONNECTED | CONNECTING | BAD_SSID | BAD_PASS | NO_INTERNET | NO_SERVER | CONNECTED.

Definition wifiStatusStrs (s : WifiStatusType) : string :=
  match s with
  | DISCONNECTED => "DISCONNECTED"
  | CONNECTING => "CONNECTING"
  | BAD_SSID => "BAD_SSID"
  | BAD_PASS => "BAD_PASS"
  | NO_INTERNET => "NO_INTERNET"
  | NO_SERVER => "NO_SERVER"
  | CONNECTED => "CONNECTED"
  end.

(** The variables of the provisioning thread, and how a turn ends. *)
Record prov_vars := ProvVars { done : bool; status_checks : Z; last_scan : Z; lastWifiStatus : WifiStatusType }.
Inductive verdict := Again | Restart | Break.

(** ** The test of the connection *)

(** The buffer of [fgets] after a line was read into it. *)
Definition refill (buf line : string) : string := line +:+ String NUL (sdrop (S (String.length line)) buf).

(** The part of a string before the first space, and whether there is one. *)
Fixpoint before_space (s : string) : string * bool :=
  match s with
  | EmptyString => ("", false)
  | String c s' => if Ascii.eqb c " " then ("", true) else let '(t, b) := before_space s' in (String c t, b)
  end.

(** The address in the buffer, and the buffer after the cut at the space. *)
Definition cut_address (buf : string) : string * string :=
  let '(addr, cut) := before_space (cstr (sdrop 11 buf)) in
  (addr, if cut : bool then stake (11 + String.length addr) buf +:+ String NUL (sdrop (12 + String.length addr) buf) else buf).

(** The loop over the lines nslookup printed: whether two different addresses were found. [server] is the first one. *)
Fixpoint dns_loop (lines : list string) (server : option string) (buf : string) : bool :=
  match lines with
  | [] => false
  | line :: lines' =>
      let buf := refill buf line in
      if strncmp0 line "Address:" 8 then
        let '(addr, buf) := cut_address buf in
        match server with
        | None => dns_loop lines' (Some (stake 128 addr)) buf
        | Some server => negb (strncmp0 server (stake 128 addr) 128)
        end
      else dns_loop lines' server buf
  end.

Definition NSLOOKUP : string := snprintf 256 ("nslookup " +:+ TEST_RESOLVE_HOST).

Section Provision.
Context {Ev : Env} (thread_ok : bool) (stack : string).

(** [count] attempts at most; [stack] is the uninitialised line buffer. *)
Fixpoint check_loop (count : nat) : M bool :=
  match count with
  | O => mret false
  | S count' =>
      f ← popen NSLOOKUP;
      if (match f with Some out => dns_loop (fgets_all (S (String.length out)) 256 out) None stack | None => false end) then mret true
      else _ ← sleep 1; check_loop count'
  end.

Definition checkConnection : M bool := check_loop INTERNET_CHECK_PERIOD.

(** ** Status *)

Definition play (file : string) (delay : Z) : M unit := IRIS_playAudio thread_ok file delay.

(** The new [lastWifiStatus]. *)
Definition updateWifiStatus (status : WifiStatusType) : M WifiStatusType :=
  _ ← write_text WIFI_STATUS_FILE (wifiStatusStrs status);
  _ ← (match status with
       | CONNECTING => setLedMode "wifi-in-progress"
       | CONNECTED => _ ← setLedMode "internet-success"; play INET_SUCCESS_VOICE 0
       | NO_INTERNET | NO_SERVER =>
           _ ← setLedMode "internet-failure"; _ ← play FAILURE_SOUND AUDIO_SHORT_DELAY; play INET_FAILURE_VOICE 0
       | BAD_PASS | BAD_SSID =>
           _ ← setLedMode "wifi-failure"; _ ← play FAILURE_SOUND AUDIO_SHORT_DELAY; play WIFI_FAILURE_VOICE 0
       | DISCONNECTED => mret tt
       end);
  mret status.

Definition SET_PROVISIONED (which : string) : string := snprintf 128 ("echo " +:+ which +:+ " > " +:+ PROVISIONED_FILE).
Definition setProvisioned (which : string) : M unit := _ ← system (SET_PROVISIONED which); mret tt.

Definition isProvisioned (which : string) : M bool :=
  f ← popen (snprintf 128 ("cat " +:+ PROVISIONED_FILE));
  mret (match f with
        | Some out => match fgets 256 out with Some line => strncmp0 line which (String.length which) | None => false end
        | None => false
        end).

Definition ethernetProvisioned : M bool :=
  ok ← checkConnection;
  if ok : bool then
    _ ← setLedMode "internet-success";
    _ ← play INET_SUCCESS_VOICE 0;
    _ ← setProvisioned "Ethernet";
    mret true
  else
    _ ← setLedMode "internet-failure";
    _ ← play FAILURE_SOUND AUDIO_SHORT_DELAY;
    _ ← play INET_FAILURE_VOICE 0;
    mret false.

(** ** The start of the provisioning thread *)

(** A process other than grep is listed. *)
Definition listed (out : string) : bool :=
  existsb (fun line => negb (has_sub line "grep")) (fgets_all (S (String.length out)) 256 out).

(** The code waits without an end; here, whether bluetoothd was seen in [n] attempts, for any [n]. *)
Fixpoint wait_bluetooth (n : nat) : M bool :=
  match n with
  | O => mret false
  | S n' =>
      f ← popen (snprintf 128 "ps | grep bluetoothd");
      _ ← sleep 1;
      if (match f with Some out => listed out | None => false end) then mret true else wait_bluetooth n'
  end.

Definition SCAN_TO_FILE : string := snprintf 128 (WIFI_SCAN_CMD +:+ " > " +:+ WIFI_SCAN_FILE).
Definition PROV_VERSION_CMD : string := snprintf 128 (WIFI_PROV_DAEMON +:+ " -v").
Definition START_PROV_CMD : string := snprintf 128 (WIFI_PROV_DAEMON +:+ "&").
Definition KILL_PROV_CMD : string := snprintf 128 ("killall " +:+ WIFI_PROV_DAEMON).

(** [fscanf(f, "ssid: %s", ssid)] on the contents of a file; [old] is what the array holds. *)
Definition scan_ssid (old s : string) : string :=
  if String.prefix "ssid:" s then default old (scan_s (sdrop 5 s)) else old.

(** Already provisioned: the wireless interface is started if the cable is not plugged in. *)
Definition start_provisioned : M unit :=
  e ← IRIS_isIntfConnected ETH_IF;
  _ ← when (negb e)
        (f ← fopen_r WIFI_CFG_FILE;
         match f with
         | Some s =>
             let ssid := scan_ssid (cstr stack) s in
             _ ← store_token "ssid" 36 ssid;
             when (negb (String.length ssid =? 0)%nat) (_ ← system (snprintf 128 WIFI_RESTART_CMD); mret tt)
         | None => mret tt
         end);
  _ ← system PROV_VERSION_CMD;
  mret tt.

(** Whether the thread goes on to provisioning; bluetoothd shows up within [n] attempts or not. *)
Definition prov_begin (atInit : bool) (n : nat) : M bool :=
  if atInit then
    _ ← sleep PROV_INIT_DELAY;
    p ← access PROVISIONED_FILE;
    if p : bool then _ ← start_provisioned; mret false
    else
      _ ← setLedMode "first-bootup";
      _ ← play FIRST_BOOTUP_VOICE AUDIO_SHORT_DELAY;
      e ← IRIS_isIntfConnected ETH_IF;
      ok ← (if e : bool then ethernetProvisioned else mret false);
      if ok : bool then _ ← system PROV_VERSION_CMD; mret false
      else wait_bluetooth n
  else
    _ ← system UDHCPC_WIFI_TERMINATE;
    _ ← unlink PROVISIONED_FILE;
    _ ← system "killall java";
    _ ← sleep 2;
    _ ← setLedMode "first-bootup 300";
    mret true.

(** The variables at [start_prov], or [None] if the thread has ended; [now] is the time of the scan. *)
Definition prov_enter (atInit : bool) (n : nat) (now : Z) : M (option prov_vars) :=
  go ← prov_begin atInit n;
  if go : bool then _ ← system SCAN_TO_FILE; mret (Some (ProvVars false 0 now DISCONNECTED)) else mret None.

(** From [start_prov] on: the status, or [None] if the daemon cannot be started. *)
Definition start_prov : M (option WifiStatusType) :=
  st ← system START_PROV_CMD;
  if negb (st =? 0) then mret None
  else s ← updateWifiStatus DISCONNECTED; mret (Some s).

(** ** A turn of the provisioning thread *)

(** The name in the configuration, as it is copied to [ssid[64]]. *)
Definition config_ssid : M string :=
  f ← popen (snprintf 128 ("cat " +:+ WIFI_CFG_FILE +:+ " | grep ssid"));
  match f ≫= fgets 256 with
  | Some line =>
      match strstr line "ssid: " with
      | Some r =>
          let ptr := sdrop 6 r in
          let i := Z.of_nat (String.length ptr) - 1 in
          _ ← when ((i <? 0) || (64 <=? i)) (emit (Overrun "ssid" i));
          mret (stake (Z.to_nat (Z.min i 64)) ptr)
      | None => mret ""
      end
  | None => mret ""
  end.

(** The case CONNECTING: the new [status_checks] and status. *)
Definition turn_connecting (checks : Z) : M (Z * WifiStatusType) :=
  up ← IRIS_isIntfIPUp WIFI_IF;
  if up : bool then
    _ ← setLedMode "wifi-success";
    _ ← play WIFI_SUCCESS_VOICE AUDIO_PLAY_DELAY;
    _ ← setLedMode "internet-in-progress";
    ok ← checkConnection;
    s ← updateWifiStatus (if ok : bool then CONNECTED else NO_INTERNET);
    mret (0, s)
  else
    s ← (if checks =? 0 then
           ssid ← config_ssid;
           if (String.length ssid =? 0)%nat || (32 <? String.length ssid)%nat then updateWifiStatus BAD_SSID else mret CONNECTING
         else if MAX_WIFI_STATUS_CHECKS <? checks then updateWifiStatus BAD_PASS
         else
           f ← fopen_r WIFI_TEST_FILE;
           let result := match f with Some t => default (-1) (scan_d t) | None => -1 end in
           if result =? 1 then updateWifiStatus BAD_PASS
           else if result =? 2 then updateWifiStatus NO_SERVER
           else mret CONNECTING);
    mret (i32 (checks + 1), s).

(** The other cases but CONNECTED: the new [status_checks]. *)
Definition turn_waiting (checks : Z) (s : WifiStatusType) : M Z :=
  if negb (checks =? 0) then
    _ ← system UDHCPC_WIFI_TERMINATE;
    _ ← when (match s with BAD_PASS | BAD_SSID => true | _ => false end) (_ ← system KILL_PROV_CMD; mret tt);
    mret 0
  else mret checks.

Definition run_machine (v : prov_vars) : M prov_vars :=
  match lastWifiStatus v with
  | CONNECTING => '(c, s) ← turn_connecting (status_checks v); mret (ProvVars false c (last_scan v) s)
  | CONNECTED => _ ← setProvisioned "WiFi"; mret (ProvVars true (status_checks v) (last_scan v) CONNECTED)
  | s => c ← turn_waiting (status_checks v) s; mret (ProvVars false c (last_scan v) s)
  end.

(** Is the daemon to be started again? *)
Definition daemon_gone (factory_resetting : bool) : M bool :=
  f ← popen (snprintf 128 "ps | grep wifi_prov");
  mret (match f with Some out => negb (listed out) && negb factory_resetting | None => false end).

(** The body of the loop; [now1] and [now2] are the two readings of the clock. *)
Definition prov_turn (atInit factory_resetting : bool) (now1 now2 : Z) (v : prov_vars) : M (prov_vars * verdict) :=
  _ ← sleep WIFI_STATUS_DELAY;
  _ ← when (negb atInit) pokeWatchdog;
  e ← IRIS_isIntfConnected ETH_IF;
  brk ← (if e : bool then ethernetProvisioned else mret false);
  if brk : bool then mret (v, Break)
  else
    scan ← (if last_scan v + WIFI_SCAN_PERIOD <? now1 then _ ← system SCAN_TO_FILE; mret now2 else mret (last_scan v));
    v ← run_machine (ProvVars false (status_checks v) scan (lastWifiStatus v));
    if done v then mret (v, Again)
    else
      gone ← daemon_gone factory_resetting;
      mret (v, if gone : bool then Restart else Again).

(** The condition of the loop. *)
Definition goes_on (atInit : bool) (now restartTime : Z) (v : prov_vars) : bool :=
  negb (done v) && negb (negb atInit && (restartTime + BLE_RESTART_PERIOD <? now)).

(** After the loop. *)
Definition prov_finish (v : prov_vars) : M unit :=
  _ ← when (negb (done v)) (setProvisioned "WiFi");
  _ ← system KILL_PROV_CMD;
  mret tt.

(** ** The configuration thread *)

(** The configuration file was closed after writing: the new [lastWifiStatus]. *)
Definition wifi_cfg_event (s : WifiStatusType) : M WifiStatusType :=
  wifi ← IRIS_isIntfConnected WIFI_IF;
  eth ← (if wifi : bool then IRIS_isIntfConnected ETH_IF else mret true);
  let wifiWasUp := wifi && negb eth in
  _ ← system (snprintf 128 ("echo " +:+ DQ +:+ " " +:+ DQ +:+ " > " +:+ WIFI_TEST_FILE));
  connectStatus ← system (snprintf 128 WIFI_TEST_CMD);
  _ ← system (snprintf 128 ("echo " +:+ dec (Z.land (Z.shiftr connectStatus 8) 0xFF) +:+ " > " +:+ WIFI_TEST_FILE));
  let restart_if_up :=
    (eth ← (if wifiWasUp then IRIS_isIntfConnected ETH_IF else mret true);
     when (negb eth) (_ ← system (snprintf 128 WIFI_RESTART_CMD); mret tt)) in
  let unprovisioned := (rel ← IRIS_isReleaseImage; if rel : bool then p ← access PROVISIONED_FILE; mret (negb p) else mret false) in
  if negb (connectStatus =? 0) then
    _ ← restart_if_up;
    u ← unprovisioned;
    if u : bool then updateWifiStatus CONNECTING else mret s
  else
    _ ← system (snprintf 128 ("cp " +:+ TEST_WIFI_CFG_FILE +:+ " " +:+ WIFI_CFG_FILE));
    u ← unprovisioned;
    if u : bool then s ← updateWifiStatus CONNECTING; _ ← system (snprintf 128 WIFI_RESTART_CMD); mret s
    else _ ← restart_if_up; mret s.

(** ** Radio firmware *)

Definition ROOT_FW_DIR : string := "/home/root/fw/".
Definition RADIO_FIRMWARE : string := "zigbee-firmware-hwflow.bin".

Definition checkForRadioFirmwareUpdates : M unit :=
  let origpath := ROOT_FW_DIR +:+ RADIO_FIRMWARE in
  let filepath := "/data/firmware/" +:+ RADIO_FIRMWARE in
  a ← access origpath;
  when a
    (st ← system (snprintf 256 ("diff -q " +:+ origpath +:+ " " +:+ filepath));
     when (negb (st =? 0))
       (_ ← unlink filepath;
        _ ← sleep 1;
        st ← system (snprintf 256 ("zigbee_flash -w " +:+ origpath));
        if negb (st =? 0) then _ ← system (snprintf 256 ("touch " +:+ filepath)); mret tt
        else _ ← IRIS_copyFile origpath filepath; mret tt)).

End Provision.

(** ** The hub is marked only after a test *)

Section Tested.
Context {Ev : Env} (thread_ok : bool) (stack : string).

(** nslookup finds the host in [w]. *)
Definition resolves (w : world) : Prop :=
  exists out, pipe NSLOOKUP w = Some out /\ dns_loop (fgets_all (S (String.length out)) 256 out) None stack = true.

(** It did so at an earlier time. *)
Definition tested (w : world) : Prop := exists w0 t, resolves w0 /\ trace w = (trace w0 ++ t)%list.

Definition grows {A} (m : M A) : Prop := forall w, exists t, trace (snd (m w)) = (trace w ++ t)%list.

Lemma stable_tested {A} (m : M A) : grows m -> stable tested m.
Proof. intros Hm w (w0 & t & Hr & Ht). destruct (Hm w) as [t' E]. exists w0, (t ++ t')%list. by rewrite E, Ht, app_assoc. Qed.

Lemma grows_same {A} (m : M A) : (forall w, trace (snd (m w)) = trace w) -> grows m.
Proof. intros H w. exists []. by rewrite H, app_nil_r. Qed.
Lemma grows_ret {A} (a : A) : grows (mret a).
Proof. by apply grows_same. Qed.
Lemma grows_bind {A B} (m : M A) (k : A -> M B) : grows m -> (forall a, grows (k a)) -> grows (m ≫= k).
Proof.
  intros Hm Hk w. unfold mbind, M_bind. destruct (Hm w) as [t1 E1]. destruct (m w) as [[a| | |] w1]; cbn in *; try (by exists t1).
  destruct (Hk a w1) as [t2 E2]. exists (t1 ++ t2)%list. by rewrite E2, E1, app_assoc.
Qed.
Lemma grows_when b m : grows m -> grows (when b m).
Proof. destruct b; [done|intros _; apply grows_ret]. Qed.
Lemma grows_emit e : grows (emit e).
Proof. intros w. by exists [e]. Qed.
Lemma grows_popen c : grows (popen c).
Proof. intros w. by exists [Pipe c]. Qed.
Lemma grows_system c : grows (system c).
Proof. intros w. exists [Cmd c]. unfold system. by destruct (sh c w). Qed.
Lemma grows_write f s : grows (write_text f s).
Proof. apply grows_same. intros w. unfold write_text, mbind, M_bind, fopen_w. by destruct (wr_ok f w). Qed.
End Tested.

Ltac grow := repeat match goal with
  | |- grows (mret _) => apply grows_ret
  | |- grows (mbind _ _) => apply grows_bind; [|intros ?]
  | |- grows (when _ _) => apply grows_when
  | |- grows (match ?x with _ => _ end) => destruct x
  | |- grows (let _ := _ in _) => cbv zeta
  | |- grows (emit _) => apply grows_emit
  | |- grows (sleep _) => apply grows_emit
  | |- grows (usleep _) => apply grows_emit
  | |- grows (popen _) => apply grows_popen
  | |- grows (system _) => apply grows_system
  | |- grows (write_text _ _) => apply grows_write
  | |- grows (IRIS_isIntfConnected _) => unfold IRIS_isIntfConnected, printed_line
  | |- grows (IRIS_isIntfIPUp _) => unfold IRIS_isIntfIPUp, printed_line
  | |- grows (setLedMode _) => unfold setLedMode
  | |- grows (play _ _ _) => unfold play, IRIS_playAudio, playAudio
  | |- grows pokeWatchdog => unfold pokeWatchdog, writeWatchdog
  | |- grows (updateWifiStatus _ _) => unfold updateWifiStatus
  | |- grows (setProvisioned _) => unfold setProvisioned
  | |- grows _ => solve [auto | by apply grows_same]
  end.

Definition prov_cmd (c : string) : bool := String.eqb c (SET_PROVISIONED "WiFi") || String.eqb c (SET_PROVISIONED "Ethernet").

Section Marked.
Context {Ev : Env} (thread_ok : bool) (stack : string).

Lemma grows_check n : grows (check_loop stack n).
Proof. induction n as [|n IH]; cbn [check_loop]; grow. Qed.

Lemma check_tested n w : wp (check_loop stack n) (fun r w' => r = Val true -> tested stack w') w.
Proof.
  revert w. induction n as [|n IH]; intros w; cbn [check_loop]; [by apply wp_ret|]. wp_step. apply wp_popen. cbn [seq_post].
  destruct (match pipe NSLOOKUP w with Some out => _ | None => false end) eqn:E.
  - apply wp_ret. intros _. exists w, [Pipe NSLOOKUP]. split; [|done]. destruct (pipe NSLOOKUP w) as [out|] eqn:Ep; [|done]. by exists out.
  - wp_step. apply wp_emit. cbn [seq_post]. apply IH.
Qed.

(** Partial correctness: [P] of the result, if there is one. *)
Definition yielding {A} (P : A -> world -> Prop) (m : M A) (w : world) : Prop := forall a, fst (m w) = Val a -> P a (snd (m w)).

Lemma yielding_ret {A} (P : A -> world -> Prop) a w : P a w -> yielding P (mret a) w.
Proof. intros H b [= <-]. exact H. Qed.

Lemma yielding_bind {A B} (P : A -> world -> Prop) (Q : B -> world -> Prop) (m : M A) (k : A -> M B) w :
  yielding P m w -> (forall a w', P a w' -> yielding Q (k a) w') -> yielding Q (m ≫= k) w.
Proof.
  intros Hm Hk b. unfold mbind, M_bind. specialize (Hm). unfold yielding in Hm. destruct (m w) as [[a| | |] w']; try done.
  intros Hb. by apply (Hk a w' (Hm a eq_refl)).
Qed.

Lemma yielding_stable {A} (I : world -> Prop) (m : M A) w : stable I m -> I w -> yielding (fun _ => I) m w.
Proof. intros Hm Hw a _. by apply Hm. Qed.

(** Not marked, or tested before. *)
Definition fine (w : world) : Prop := sofar prov_cmd [] w \/ tested stack w.

Lemma stable_fine {A} (m : M A) : stable (sofar prov_cmd []) m -> grows m -> stable fine m.
Proof. intros H1 H2 w [Hw|Hw]; [left; by apply H1|right; by apply (stable_tested stack)]. Qed.

Lemma audio_not_marked s : prov_cmd (snprintf 256 (AUDIO_APP +:+ s)) = false.
Proof. done. Qed.

Lemma sofar_prov_led l mode : stable (sofar prov_cmd l) (setLedMode mode).
Proof. unfold setLedMode. steps. by apply sofar_other. Qed.

Lemma sofar_prov_play l f d : stable (sofar prov_cmd l) (play thread_ok f d).
Proof. apply sofar_playAudio, audio_not_marked. Qed.

Lemma sofar_prov_write l f s : stable (sofar prov_cmd l) (write_text f s).
Proof. unfold write_text. steps. Qed.

(** Steps that issue no mark. *)
Ltac unmarked := apply stable_fine; [|grow]; unfold updateWifiStatus;
  repeat first [progress steps | apply sofar_prov_led | apply sofar_prov_play | apply sofar_prov_write
    | by apply sofar_other | by apply sofar_emit | apply sofar_printed | by apply sofar_same].

Lemma fine_update s : stable fine (updateWifiStatus thread_ok s).
Proof. unfold updateWifiStatus. unmarked. Qed.

Lemma fine_check n : stable fine (check_loop stack n).
Proof.
  apply stable_fine; [|apply grows_check]. induction n as [|n IH]; cbn [check_loop]; unfold sleep; steps.
Qed.

Lemma fine_poke : stable fine pokeWatchdog.
Proof. unfold pokeWatchdog, writeWatchdog. unmarked. Qed.

Lemma yielding_check n w : fine w -> yielding (fun b w' => fine w' /\ (b = true -> tested stack w')) (check_loop stack n) w.
Proof.
  intros Hw b E. split; [by apply fine_check|]. intros ->. by apply (check_tested n w).
Qed.

Lemma update_yields (P : WifiStatusType -> Prop) s : P s -> yields P (updateWifiStatus thread_ok s).
Proof. intros HP. unfold updateWifiStatus. repeat (apply yields_bind; intros ?). by apply yields_ret. Qed.

Lemma yielding_ethernet w : fine w -> yielding (fun b w' => fine w' /\ (b = true -> tested stack w')) (ethernetProvisioned thread_ok stack) w.
Proof.
  intros Hw. unfold ethernetProvisioned, checkConnection. eapply yielding_bind; [by apply yielding_check|].
  intros [|] w1 [H1 T1].
  - specialize (T1 eq_refl). intros b E. assert (tested stack (snd ((_ ← setLedMode "internet-success"; _ ← play thread_ok INET_SUCCESS_VOICE 0;
      _ ← setProvisioned "Ethernet"; mret true) w1))) as T by (apply stable_tested; [grow|done]). split; [by right|done].
  - eapply yielding_bind; [apply (yielding_stable fine); [unmarked|done]|]. intros ? w2 H2.
    eapply yielding_bind; [apply (yielding_stable fine); [unmarked|done]|]. intros ? w3 H3.
    eapply yielding_bind; [apply (yielding_stable fine); [unmarked|done]|]. intros ? w4 H4. by apply yielding_ret.
Qed.

Lemma yielding_connecting c w : fine w ->
  yielding (fun p w' => fine w' /\ (snd p = CONNECTED -> tested stack w')) (turn_connecting thread_ok stack c) w.
Proof.
  intros Hw. unfold turn_connecting. eapply yielding_bind; [apply (yielding_stable fine); [unmarked|done]|]. intros up w1 H1. destruct up.
  - eapply yielding_bind; [apply (yielding_stable fine); [unmarked|done]|]. intros ? w2 H2.
    eapply yielding_bind; [apply (yielding_stable fine); [unmarked|done]|]. intros ? w3 H3.
    eapply yielding_bind; [apply (yielding_stable fine); [unmarked|done]|]. intros ? w4 H4.
    eapply yielding_bind; [by apply yielding_check|]. intros ok w5 [H5 T5].
    apply (yielding_bind (fun s w' => fine w' /\ (s = CONNECTED -> tested stack w'))).
    + intros s E. split; [by apply fine_update|]. intros ->. apply stable_tested; [grow|]. apply T5.
      assert (CONNECTED = if ok then CONNECTED else NO_INTERNET) as Y by (eapply (update_yields (fun s => s = _)); [reflexivity|exact E]). by destruct ok.
    + intros s w6 H6. by apply yielding_ret.
  - apply (yielding_bind (fun s w' => fine w' /\ s <> CONNECTED)).
    + intros s E. split; [revert E; apply (yielding_stable fine _ w1); [unfold config_ssid; unmarked|done]|]. revert E.
      match goal with |- fst (?m w1) = _ -> _ => enough (yields (fun s => s <> CONNECTED) m) as Y by (apply Y) end.
      repeat match goal with
        | |- yields _ (mbind _ _) => apply yields_bind; intros ?
        | |- yields _ (mret _) => by apply yields_ret
        | |- yields _ (updateWifiStatus _ _) => by apply update_yields
        | |- yields _ (if ?x then _ else _) => destruct x
        | |- yields _ (let _ := _ in _) => cbv zeta
        end.
    + intros s w2 [H2 Hs]. apply yielding_ret. done.
Qed.

Definition with_status (s : WifiStatusType) (v : prov_vars) : prov_vars := ProvVars (done v) (status_checks v) (last_scan v) s.

(** What holds before the next step of the loop. *)
Definition loop_inv (v : prov_vars) (w : world) : Prop := fine w /\ (lastWifiStatus v = CONNECTED -> tested stack w).

Lemma yielding_machine v w : loop_inv v w ->
  yielding (fun v' w' => loop_inv v' w' /\ (done v' = true -> tested stack w')) (run_machine thread_ok stack v) w.
Proof.
  intros [Hf Hc]. unfold run_machine.
  assert (forall s, lastWifiStatus v = s -> s <> CONNECTED -> yielding (fun v' w' => loop_inv v' w' /\ (done v' = true -> tested stack w'))
    (c ← turn_waiting (status_checks v) s; mret (ProvVars false c (last_scan v) s)) w) as Hwait.
  { intros s Es Hs. eapply yielding_bind; [apply (yielding_stable fine); [unfold turn_waiting; unmarked|done]|].
    intros c w1 H1. by apply yielding_ret. }
  destruct (lastWifiStatus v) eqn:Es; try (by apply Hwait).
  - eapply yielding_bind; [by apply yielding_connecting|]. intros [c s] w1 [H1 T1]. by apply yielding_ret.
  - specialize (Hc eq_refl). eapply yielding_bind; [apply (yielding_stable (tested stack)); [apply stable_tested; grow|done]|].
    intros ? w1 H1. apply yielding_ret. split; [split; [by right|done]|done].
Qed.

Lemma yielding_turn fr n1 n2 v w : loop_inv v w ->
  yielding (fun p w' => loop_inv (fst p) w' /\ (done (fst p) = true \/ snd p = Break -> done v = true \/ tested stack w'))
    (prov_turn thread_ok stack true fr n1 n2 v) w.
Proof.
  intros [Hf Hc]. unfold prov_turn. cbn [negb when].
  set (I := fun w => fine w /\ (lastWifiStatus v = CONNECTED -> tested stack w)).
  assert (forall {A} (m : M A), stable fine m -> grows m -> stable I m) as HI.
  { intros A m H1 H2 w' [K1 K2]. split; [by apply H1|]. intros E. by apply (stable_tested stack m H2), K2. }
  eapply yielding_bind; [apply (yielding_stable I); [apply HI; [unmarked|grow]|done]|]. intros ? w1 H1.
  eapply yielding_bind; [apply (yielding_stable I); [apply stable_ret|exact H1]|]. intros ? w2 H2.
  eapply yielding_bind; [apply (yielding_stable I); [apply HI; [unmarked|grow]|exact H2]|]. intros e w3 H3.
  apply (yielding_bind (fun b w' => I w' /\ (b = true -> tested stack w'))).
  { destruct e; [|by apply yielding_ret]. destruct H3 as [F3 C3]. intros b E.
    destruct (yielding_ethernet w3 F3 b E) as [F4 T4]. split; [|done]. split; [done|]. intros Es.
    apply (stable_tested stack (ethernetProvisioned thread_ok stack)); [unfold ethernetProvisioned, checkConnection; grow; apply grows_check|by apply C3]. }
  intros brk w4 [H4 T4]. destruct brk; [by apply yielding_ret; split; [|right; apply T4]|].
  eapply yielding_bind; [apply (yielding_stable I); [apply HI; [unmarked|grow]|exact H4]|]. intros scan w5 H5.
  eapply yielding_bind; [by apply yielding_machine|]. intros v' w6 [H6 D6].
  destruct (done v') eqn:Ed.
  { apply yielding_ret. split; [done|]. intros _. right. by apply D6. }
  eapply yielding_bind; [apply (yielding_stable (loop_inv v')); [|exact H6]|].
  { intros w' [K1 K2]. split; [revert w' K1 K2; intros w' K1 _; revert w' K1; change (stable fine (daemon_gone fr)); unfold daemon_gone; unmarked|].
    intros E. apply (stable_tested stack (daemon_gone fr)); [unfold daemon_gone; grow|by apply K2]. }
  intros gone w7 H7. apply yielding_ret. split; [done|]. cbn. rewrite Ed. by intros [?|?]; destruct gone.
Qed.

(** *** The thread at the first start, with its surroundings *)

Inductive phase := Starting (v : prov_vars) | Loop (v : prov_vars) | Leaving (v : prov_vars) | Ended.

Inductive provs : phase -> world -> Prop :=
| provs_enter n now w0 o w : sofar prov_cmd [] w0 -> prov_enter thread_ok stack true n now w0 = (Val o, w) ->
    provs (match o with Some v => Starting v | None => Ended end) w
| provs_start v w o w' : provs (Starting v) w -> start_prov thread_ok w = (Val o, w') ->
    provs (match o with Some s => Loop (with_status s v) | None => Ended end) w'
| provs_turn fr now1 now2 v w v' k w' : provs (Loop v) w -> done v = false -> prov_turn thread_ok stack true fr now1 now2 v w = (Val (v', k), w') ->
    provs (match k with Again => Loop v' | Restart => Starting v' | Break => Leaving v' end) w'
| provs_done v w : provs (Loop v) w -> done v = true -> provs (Leaving v) w
| provs_finish v w w' : provs (Leaving v) w -> prov_finish v w = (Val tt, w') -> provs Ended w'
| provs_config v w s w' : provs (Loop v) w -> wifi_cfg_event thread_ok (lastWifiStatus v) w = (Val s, w') -> provs (Loop (with_status s v)) w'
| provs_outside p w w' t : provs p w -> trace w' = (trace w ++ t)%list -> issued prov_cmd t = [] -> provs p w'.

Definition phase_inv (p : phase) (w : world) : Prop :=
  match p with
  | Starting v => fine w /\ (done v = true -> tested stack w)
  | Loop v => loop_inv v w /\ (done v = true -> tested stack w)
  | Leaving v => fine w /\ tested stack w
  | Ended => fine w
  end.

Lemma returns_check n : returns (check_loop stack n).
Proof. induction n as [|n IH]; cbn [check_loop]; unfold sleep; steps. Qed.

Lemma fine_ethernet : stable fine (ethernetProvisioned thread_ok stack).
Proof.
  assert (returns (ethernetProvisioned thread_ok stack)) as R.
  { unfold ethernetProvisioned, checkConnection, setLedMode, play, setProvisioned. steps; apply returns_check. }
  intros w Hw. destruct (R w) as [b E]. by apply (yielding_ethernet w Hw b E).
Qed.

Lemma fine_enter n now : stable fine (prov_enter thread_ok stack true n now).
Proof.
  unfold prov_enter, prov_begin, start_provisioned, store_token.
  assert (forall n, stable fine (wait_bluetooth n)) as Hw.
  { clear n. intros n. apply stable_fine; induction n as [|n IH]; cbn [wait_bluetooth]; unfold sleep; [steps|steps|grow|grow]. }
  repeat first [apply fine_ethernet | apply Hw | apply stable_bind; [|intros ?] | apply stable_ret | apply stable_when | apply stable_if
    | match goal with |- stable _ (match ?x with _ => _ end) => destruct x end | solve [unmarked]].
Qed.

Lemma fine_start : stable fine (start_prov thread_ok).
Proof. unfold start_prov. unmarked. Qed.

Lemma result_not_marked st : prov_cmd (snprintf 128 ("echo " +:+ dec (Z.land (Z.shiftr st 8) 0xFF) +:+ " > " +:+ WIFI_TEST_FILE)) = false.
Proof.
  assert (0 <= Z.land (Z.shiftr st 8) 0xFF) as Hn by (apply Z.land_nonneg; by right). unfold dec.
  rewrite (proj2 (Z.ltb_ge _ 0)) by done. unfold dec_nonneg.
  destruct (dec_fuel_head (S (Z.to_nat (Z.log2 (Z.land (Z.shiftr st 8) 0xFF)))) _ ltac:(lia) Hn) as (c & t & -> & d & _ & Hd & ->).
  assert (d = 0 \/ d = 1 \/ d = 2 \/ d = 3 \/ d = 4 \/ d = 5 \/ d = 6 \/ d = 7 \/ d = 8 \/ d = 9) as Hd' by lia.
  by repeat destruct Hd' as [->|Hd']; [..|subst d].
Qed.

Lemma fine_config s : stable fine (wifi_cfg_event thread_ok s).
Proof. unfold wifi_cfg_event. unmarked. all: apply sofar_other, result_not_marked. Qed.

Lemma config_yields s : yields (fun s' => s' = CONNECTING \/ s' = s) (wifi_cfg_event thread_ok s).
Proof.
  unfold wifi_cfg_event. do 5 (apply yields_bind; intros ?). cbv zeta.
  match goal with |- yields _ (if ?x then _ else _) => destruct x end; do 2 (apply yields_bind; intros ?);
    match goal with |- yields _ (if ?x then _ else _) => destruct x end.
  - apply update_yields. by left.
  - apply yields_ret. by right.
  - apply (yields_seq (fun s => s = CONNECTING)); [by apply update_yields|]. intros ? ->. apply yields_bind. intros ?. apply yields_ret. by left.
  - apply yields_bind. intros ?. apply yields_ret. by right.
Qed.

Lemma enter_yields n now : yields (fun o => forall v, o = Some v -> done v = false) (prov_enter thread_ok stack true n now).
Proof.
  unfold prov_enter. apply yields_bind. intros [|]; [apply yields_bind; intros ?|]; apply yields_ret; intros v [= <-]. done.
Qed.

Lemma start_yields : yields (fun o => forall s, o = Some s -> s = DISCONNECTED) (start_prov thread_ok).
Proof.
  unfold start_prov. apply yields_bind. intros st. destruct (negb (st =? 0)); [by apply yields_ret|].
  apply (yields_seq (fun s => s = DISCONNECTED)); [by apply update_yields|]. intros ? ->. apply yields_ret. by intros s [= <-].
Qed.

Lemma grows_config s : grows (wifi_cfg_event thread_ok s).
Proof. unfold wifi_cfg_event. grow. Qed.

Lemma phase_ok p w : provs p w -> phase_inv p w.
Proof.
  induction 1 as [n now w0 o w H0 E|v w o w' _ [Hf Ht] E|fr n1 n2 v w v' k w' _ [IH _] Hd E|v w _ [[IH _] Ht] Hd|v w w' _ [Hf Ht] E
    |v w s w' _ [[Hf Hc] Ht] E|p w w' t _ IH Ht Hi].
  - pose proof (fine_enter n now w0 (or_introl H0)) as Hf. rewrite E in Hf.
    destruct o as [v|]; [|done]. split; [done|]. intros Hdone. enough (done v = false) by congruence.
    apply (enter_yields n now w0 (Some v)); [by rewrite E|done].
  - pose proof (fine_start w Hf) as Hf'. rewrite E in Hf'. destruct o as [s|]; [|done].
    assert (s = DISCONNECTED) as -> by (apply (start_yields w (Some s)); [by rewrite E|done]).
    split; [split; [done|by intros [=]]|]. cbn. intros Hdone. specialize (Ht Hdone).
    pose proof (stable_tested stack (start_prov thread_ok) ltac:(unfold start_prov; grow) w Ht) as T. by rewrite E in T.
  - destruct (yielding_turn fr n1 n2 v w IH (v', k)) as [H1 H2]; [by rewrite E|]. rewrite E in H1, H2. cbn [fst snd] in *.
    rewrite Hd in H2. destruct H1 as [F1 C1]. destruct k; cbn; [split; [split|]; [done|done|]|split; [done|]|split; [done|]]; naive_solver.
  - split; [done|]. by apply Ht.
  - pose proof (stable_tested stack (prov_finish v) ltac:(unfold prov_finish; grow) w Ht) as T. rewrite E in T. by right.
  - pose proof (fine_config (lastWifiStatus v) w Hf) as Hf'. rewrite E in Hf'.
    assert (forall (Q : Prop), (Q -> tested stack w) -> Q -> tested stack w') as K.
    { intros Q HQ q. pose proof (stable_tested stack _ (grows_config (lastWifiStatus v)) w (HQ q)) as T. by rewrite E in T. }
    split; [split; [done|]|by apply K]. cbn. apply K. intros ->.
    destruct (config_yields (lastWifiStatus v) w CONNECTED) as [[=]|Es]; [by rewrite E|]. by apply Hc.
  - assert (fine w -> fine w') as K1.
    { intros [Hs|(w0 & t0 & Hr & H0)]; [left|right]; [unfold sofar; by rewrite Ht, issued_app, Hs, Hi|].
      exists w0, (t0 ++ t)%list. by rewrite Ht, H0, app_assoc. }
    assert (tested stack w -> tested stack w') as K2.
    { intros (w0 & t0 & Hr & H0). exists w0, (t0 ++ t)%list. by rewrite Ht, H0, app_assoc. }
    destruct p; cbn in *; unfold loop_inv in *; naive_solver.
Qed.

(** C16. At the first start of a hub the provisioning thread marks the hub as provisioned, by cable or by radio, only after a
    test of the connection has succeeded: whatever the phone, the configuration thread and the network do, in any order. *)
Theorem marked_only_tested p w : provs p w -> issued prov_cmd (trace w) <> [] -> tested stack w.
Proof. intros H Hm. apply phase_ok in H. destruct p; cbn in H; unfold loop_inv, fine, sofar in H; naive_solver. Qed.
End Marked.

(** ** A good configuration provisions the hub *)

Section Good.
Context {Ev : Env} (thread_ok : bool) (stack : string).

Definition COPY_CFG : string := snprintf 128 ("cp " +:+ TEST_WIFI_CFG_FILE +:+ " " +:+ WIFI_CFG_FILE).
Definition ETH_LINK : string := snprintf 256 ("ip link show " +:+ ETH_IF +:+ " | grep " +:+ DQ +:+ "[<,]LOWER_UP[,>]" +:+ DQ).
Definition WIFI_ADDR : string := snprintf 256 ("ifconfig " +:+ WIFI_IF +:+ " | grep " +:+ DQ +:+ "inet addr" +:+ DQ).

(** The configuration works, there is no cable, wifi_prov runs, and only cp(1) and the marks touch the files in question. *)
Record Online : Prop := {
  on_eth : forall w, pipe ETH_LINK w = Some "";
  on_addr : forall w, exists l, pipe WIFI_ADDR w = Some l /\ l <> "";
  on_dns : forall w, resolves stack w;
  on_ps : forall w, exists out, pipe (snprintf 128 "ps | grep wifi_prov") w = Some out /\ listed out = true;
  on_test : forall w, fst (sh (snprintf 128 WIFI_TEST_CMD) w) = 0;
  on_copy : forall w, plain w -> let w' := after_cmd COPY_CFG w in
    plain w' /\ get WIFI_CFG_FILE w' = get TEST_WIFI_CFG_FILE w /\ get TEST_WIFI_CFG_FILE w' = get TEST_WIFI_CFG_FILE w /\
    fst (access PROVISIONED_FILE w') = fst (access PROVISIONED_FILE w);
  on_other : forall c w, plain w -> c <> COPY_CFG -> let w' := after_cmd c w in
    plain w' /\ get WIFI_CFG_FILE w' = get WIFI_CFG_FILE w /\ get TEST_WIFI_CFG_FILE w' = get TEST_WIFI_CFG_FILE w /\
    (prov_cmd c = false -> fst (access PROVISIONED_FILE w') = fst (access PROVISIONED_FILE w)) }.

Context (L : Online).

(** The files and the marks. *)
Record kept (a b : option string) (l : list string) (w : world) : Prop := Kept {
  kept_plain : plain w;
  kept_cfg : get WIFI_CFG_FILE w = a;
  kept_test : get TEST_WIFI_CFG_FILE w = b;
  kept_open : fst (access PROVISIONED_FILE w) = Val false;
  kept_marks : sofar prov_cmd l w }.

Lemma kept_system a b l c : prov_cmd c = false -> c <> COPY_CFG -> stable (kept a b l) (system c).
Proof.
  intros Hp Hc w [P Ha Hb Ho Hs]. destruct (on_other L c w P Hc) as (P' & Ha' & Hb' & Ho').
  pose proof (sofar_other prov_cmd l c Hp w Hs) as Hs'. unfold system in *. unfold after_cmd in *. destruct (sh c w) as [st s]. cbn [fst snd] in *.
  split; [done|by rewrite Ha'|by rewrite Hb'|by rewrite Ho'|done].
Qed.

Lemma kept_emit a b l e : match e with Cmd _ => False | _ => True end -> stable (kept a b l) (emit e).
Proof. intros He w [P Ha Hb Ho Hs]. split; [done..|]. by apply sofar_emit. Qed.

Lemma kept_popen a b l c : stable (kept a b l) (popen c).
Proof. intros w [P Ha Hb Ho Hs]. split; [done..|]. by apply sofar_popen. Qed.

Lemma kept_write a b l s : stable (kept a b l) (write_text WIFI_STATUS_FILE s).
Proof.
  assert (forall s w, kept a b l w -> kept a b l (put_file WIFI_STATUS_FILE s w)) as Hput.
  { intros s' w [P Ha Hb Ho Hs]. assert (forall p, is_abs p -> p <> WIFI_STATUS_FILE -> get p (put_file WIFI_STATUS_FILE s' w) = get p w) as G.
    { intros p Hp Hne. apply get_put_ne. rewrite !resolve_plain by done. done. }
    split; [done|by rewrite G|by rewrite G| |done]. unfold access in *. cbn [fst] in *. by rewrite G. }
  unfold write_text. apply stable_bind; [intros w Hw; unfold fopen_w; destruct (wr_ok _ _); [by apply Hput|done]|].
  intros f. apply stable_when, stable_bind; [|intros; apply stable_ret]. intros w Hw. by apply Hput.
Qed.

Lemma kept_same {A} a b l (m : M A) : (forall w, snd (m w) = w) -> stable (kept a b l) m.
Proof. intros Hm w Hw. by rewrite Hm. Qed.

Ltac keeping := repeat first [progress steps
  | apply kept_write | apply kept_popen | apply kept_emit; exact I | apply kept_system; [reflexivity|discriminate] | apply kept_same; reflexivity ].

Lemma kept_led a b l mode : stable (kept a b l) (setLedMode mode).
Proof. unfold setLedMode. keeping. Qed.

Lemma kept_play a b l f d : stable (kept a b l) (play thread_ok f d).
Proof. unfold play, IRIS_playAudio, playAudio, usleep. keeping. Qed.

Lemma kept_update a b l s : stable (kept a b l) (updateWifiStatus thread_ok s).
Proof. unfold updateWifiStatus. repeat first [progress keeping | apply kept_led | apply kept_play]. Qed.

Lemma returns_update s : returns (updateWifiStatus thread_ok s).
Proof. unfold updateWifiStatus, write_text, setLedMode, play. steps. Qed.

Lemma wp_status a b l s (Q : outcome WifiStatusType -> world -> Prop) w : kept a b l w -> (forall w', kept a b l w' -> Q (Val s) w') -> wp (updateWifiStatus thread_ok s) Q w.
Proof.
  intros Hw HQ. pose proof (kept_update a b l s w Hw) as K. destruct (returns_update s w) as [s' E].
  pose proof (update_yields thread_ok (fun x => x = s) s eq_refl w s' E) as ->. unfold wp. rewrite E. by apply HQ.
Qed.

Lemma wp_cable {B} a b l (k : bool -> M B) Q w : kept a b l w -> (forall w', kept a b l w' -> wp (k false) Q w') ->
  wp (e ← IRIS_isIntfConnected ETH_IF; k e) Q w.
Proof.
  intros Hw HQ. wp_step. unfold IRIS_isIntfConnected, printed_line. wp_step. apply wp_popen. cbn [seq_post]. fold ETH_LINK. rewrite (on_eth L).
  apply wp_ret. cbn [seq_post fgets]. apply HQ. by apply (kept_popen a b l ETH_LINK w).
Qed.

Lemma wp_address {B} a b l (k : bool -> M B) Q w : kept a b l w -> (forall w', kept a b l w' -> wp (k true) Q w') ->
  wp (e ← IRIS_isIntfIPUp WIFI_IF; k e) Q w.
Proof.
  intros Hw HQ. wp_step. unfold IRIS_isIntfIPUp, printed_line. wp_step. apply wp_popen. cbn [seq_post]. fold WIFI_ADDR.
  destruct (on_addr L w) as (t & -> & Ht). apply wp_ret. cbn [seq_post]. destruct t as [|c t]; [done|]. cbn [fgets].
  apply HQ. by apply (kept_popen a b l WIFI_ADDR w).
Qed.

Lemma wp_online {B} a b l (k : bool -> M B) Q w : kept a b l w -> (forall w', kept a b l w' -> wp (k true) Q w') ->
  wp (ok ← checkConnection stack; k ok) Q w.
Proof.
  intros Hw HQ. wp_step. unfold checkConnection, INTERNET_CHECK_PERIOD. cbn [check_loop]. wp_step. apply wp_popen. cbn [seq_post].
  destruct (on_dns L w) as (out & -> & ->). apply wp_ret. cbn [seq_post]. apply HQ. by apply (kept_popen a b l NSLOOKUP w).
Qed.

(** Steps that return and change nothing of interest. *)
Lemma wp_kept {A B} a b l (m : M A) (k : A -> M B) Q w : returns m -> stable (kept a b l) m -> kept a b l w ->
  (forall x w', kept a b l w' -> wp (k x) Q w') -> wp (m ≫= k) Q w.
Proof. apply wp_returns. Qed.

(** The address is there and the test succeeds. *)
Lemma wp_connecting c a b l w : kept a b l w ->
  wp (turn_connecting thread_ok stack c) (fun r w' => r = Val (0, CONNECTED) /\ kept a b l w') w.
Proof.
  intros Hw. unfold turn_connecting. apply (wp_address a b l); [done|]. intros w1 H1.
  eapply wp_kept; [|apply kept_led|exact H1|]; [unfold setLedMode; steps|]. intros _ w2 H2.
  eapply wp_kept; [|apply kept_play|exact H2|]; [unfold play; steps|]. intros _ w3 H3.
  eapply wp_kept; [|apply kept_led|exact H3|]; [unfold setLedMode; steps|]. intros _ w4 H4.
  eapply wp_online; [exact H4|]. intros w5 H5. wp_step. eapply wp_status; [exact H5|]. intros w6 H6. cbn [seq_post]. by apply wp_ret.
Qed.

Lemma wp_alive {B} a b l fr (k : bool -> M B) Q w : kept a b l w -> (forall w', kept a b l w' -> wp (k false) Q w') ->
  wp (g ← daemon_gone fr; k g) Q w.
Proof.
  intros Hw HQ. wp_step. unfold daemon_gone. wp_step. apply wp_popen. cbn [seq_post]. destruct (on_ps L w) as (out & -> & ->).
  apply wp_ret. cbn [seq_post negb andb]. apply HQ. by apply (kept_popen a b l _ w).
Qed.

(** What comes before the state machine in a turn at the first start. *)
Lemma wp_before fr n1 n2 v a b l Q w : kept a b l w ->
  (forall scan w', kept a b l w' ->
     wp (v ← run_machine thread_ok stack (ProvVars false (status_checks v) scan (lastWifiStatus v));
         if done v then mret (v, Again) else gone ← daemon_gone fr; mret (v, if gone : bool then Restart else Again)) Q w') ->
  wp (prov_turn thread_ok stack true fr n1 n2 v) Q w.
Proof.
  intros Hw HQ. unfold prov_turn. cbn [negb when].
  eapply wp_kept; [|apply kept_emit; exact I|exact Hw|]; [steps|]. intros _ w1 H1. wp_step. apply wp_ret. cbn [seq_post].
  eapply wp_cable; [exact H1|]. intros w2 H2. wp_step. apply wp_ret. cbn [seq_post].
  eapply wp_kept; [| |exact H2|]; [steps|keeping|]. intros scan w3 H3. by apply HQ.
Qed.

Lemma wp_turn_connecting fr n1 n2 v a b l w : lastWifiStatus v = CONNECTING -> kept a b l w ->
  wp (prov_turn thread_ok stack true fr n1 n2 v)
    (fun r w' => exists v', r = Val (v', Again) /\ done v' = false /\ lastWifiStatus v' = CONNECTED /\ kept a b l w') w.
Proof.
  intros Hs Hw. eapply wp_before; [exact Hw|]. intros scan w1 H1. unfold run_machine. cbn [lastWifiStatus status_checks last_scan]. rewrite Hs.
  wp_step. wp_step. eapply wp_mono; [by apply wp_connecting|]. intros r w2 [-> H2]. cbn [seq_post]. apply wp_ret. cbn [seq_post done].
  eapply wp_alive; [exact H2|]. intros w3 H3. apply wp_ret. by eexists.
Qed.

Lemma wp_turn_connected fr n1 n2 v a b l w : lastWifiStatus v = CONNECTED -> kept a b l w ->
  wp (prov_turn thread_ok stack true fr n1 n2 v)
    (fun r w' => exists v', r = Val (v', Again) /\ done v' = true /\ plain w' /\ get WIFI_CFG_FILE w' = a /\
       sofar prov_cmd (l ++ [SET_PROVISIONED "WiFi"]) w') w.
Proof.
  intros Hs Hw. eapply wp_before; [exact Hw|]. intros scan w1 [P Ha Hb Ho Hl]. unfold run_machine. cbn [lastWifiStatus]. rewrite Hs.
  unfold setProvisioned. wp_step. wp_step. wp_step. apply wp_cmd. cbn [seq_post].
  destruct (on_other L (SET_PROVISIONED "WiFi") w1 P) as (P' & Ha' & _); [discriminate|].
  apply wp_ret. cbn [seq_post]. apply wp_ret. cbn [seq_post done]. apply wp_ret. eexists. split_and!; [done|done|done|by rewrite Ha'|].
  unfold sofar, after_cmd. cbn [trace]. by rewrite issued_in, Hl.
Qed.

Lemma returns_eth intf : returns (IRIS_isIntfConnected intf).
Proof. apply returns_printed. Qed.

Lemma kept_eth a b l intf : stable (kept a b l) (IRIS_isIntfConnected intf).
Proof. unfold IRIS_isIntfConnected, printed_line. keeping. Qed.

Lemma wp_config_event s a b l w : kept a b l w ->
  wp (wifi_cfg_event thread_ok s) (fun r w' => r = Val CONNECTING /\ kept b b l w') w.
Proof.
  intros Hw. unfold wifi_cfg_event.
  eapply wp_kept; [apply returns_eth|apply kept_eth|exact Hw|]. intros wifi w1 H1.
  eapply wp_kept; [| |exact H1|]; [destruct wifi; [apply returns_eth|apply returns_ret]|destruct wifi; [apply kept_eth|apply stable_ret]|].
  intros eth w2 H2. cbv zeta. eapply wp_kept; [apply returns_system|apply kept_system; [reflexivity|discriminate]|exact H2|]. intros _ w3 H3.
  wp_step. apply wp_cmd. cbn [seq_post]. rewrite (on_test L).
  assert (kept a b l (after_cmd (snprintf 128 WIFI_TEST_CMD) w3)) as H4.
  { pose proof (kept_system a b l (snprintf 128 WIFI_TEST_CMD) eq_refl ltac:(discriminate) w3 H3) as K. unfold system, after_cmd in *.
    by destruct (sh _ w3). }
  eapply wp_kept; [apply returns_system|apply kept_system; [reflexivity|discriminate]|exact H4|]. intros _ w5 H5. cbn [Z.eqb negb].
  wp_step. apply wp_cmd. cbn [seq_post]. fold COPY_CFG. destruct H5 as [P Ha Hb Ho Hl].
  destruct (on_copy L w5 P) as (P6 & Ha6 & Hb6 & Ho6).
  assert (kept b b l (after_cmd COPY_CFG w5)) as H6.
  { split; [done|by rewrite Ha6|by rewrite Hb6|by rewrite Ho6|]. unfold sofar, after_cmd. cbn [trace]. by rewrite issued_out. }
  wp_step. wp_step. apply wp_ret. cbn [seq_post]. wp_step. unfold wp at 1. pose proof (kept_open _ _ _ _ H6) as ->. cbn [seq_post].
  apply wp_ret. cbn [seq_post negb]. wp_step. eapply wp_status; [exact H6|]. intros w7 H7. cbn [seq_post].
  eapply wp_kept; [apply returns_system|apply kept_system; [reflexivity|discriminate]|exact H7|]. intros _ w8 H8. by apply wp_ret.
Qed.

(** The configuration thread and the provisioning thread after a new configuration. *)
Definition provision (fr : bool) (times : Z * Z * Z * Z) (v : prov_vars) : M (prov_vars * verdict * verdict) :=
  let '(t1, t2, t3, t4) := times in
  s ← wifi_cfg_event thread_ok (lastWifiStatus v);
  '(v1, k1) ← prov_turn thread_ok stack true fr t1 t2 (with_status s v);
  '(v2, k2) ← prov_turn thread_ok stack true fr t3 t4 v1;
  mret (v2, k1, k2).

(** C17. When a configuration works, it becomes the hub's configuration as soon as it is written, and the provisioning thread
    needs two turns to find the connection up and to mark the hub as provisioned; then it is done. *)
Theorem good_config_provisions fr times v cfg old w : plain w -> get TEST_WIFI_CFG_FILE w = Some cfg -> get WIFI_CFG_FILE w = old ->
  fst (access PROVISIONED_FILE w) = Val false -> sofar prov_cmd [] w ->
  wp (provision fr times v) (fun r w' => exists v', r = Val (v', Again, Again) /\ done v' = true /\ get WIFI_CFG_FILE w' = Some cfg /\
    issued prov_cmd (trace w') = [SET_PROVISIONED "WiFi"]) w.
Proof.
  intros P Hb Ha Ho Hl. destruct times as [[[t1 t2] t3] t4]. unfold provision.
  assert (kept old (Some cfg) [] w) as Hw by done.
  wp_step. eapply wp_mono; [eapply wp_config_event; exact Hw|]. intros r w1 [-> H1]. cbn [seq_post].
  wp_step. eapply wp_mono; [eapply wp_turn_connecting; [done|exact H1]|]. intros r w2 (v1 & -> & _ & Hs & H2). cbn [seq_post].
  wp_step. eapply wp_mono; [eapply wp_turn_connected; [exact Hs|exact H2]|]. intros r w3 (v2 & -> & Hd & _ & Hc & Hm). cbn [seq_post].
  apply wp_ret. exists v2. done.
Qed.
End Good.

(** ** A hub on its first start *)

Module ProvisionToy.

Definition ANSWER : string :=
  fold_right String.append "" (map (fun l => l +:+ String LF "")
    ["Server:    192.168.1.253"; "Address:   192.168.1.253"; ""; "Name:      google.com"; "Address:   172.217.10.14"]).

Definition run (c : string) (w : world) : Z * fsys :=
  if String.eqb c COPY_CFG then
    (0, match get TEST_WIFI_CFG_FILE w with Some s => fs (put_file WIFI_CFG_FILE s w) | None => fs (del_file WIFI_CFG_FILE w) end)
  else if String.eqb c (SET_PROVISIONED "WiFi") then (0, fs (put_file PROVISIONED_FILE "WiFi" w))
  else (0, fs w).

Definition print (c : string) (w : world) : option string :=
  if String.eqb c ETH_LINK then Some ""
  else if String.eqb c NSLOOKUP then Some ANSWER
  else Some "1 wifi_prov".

Definition env : Env :=
  Build_Env run print (fun _ _ => true) (fun _ _ => true) (fun _ _ n => n) (fun _ _ _ => true) (fun _ => true).

Lemma access_same p w w' : get p w' = get p w -> dirs (fs w') = dirs (fs w) -> cwd (fs w') = cwd (fs w) -> fst (access p w') = fst (access p w).
Proof. unfold access, abs_path. by intros -> -> ->. Qed.

Lemma online : @Online env "".
Proof.
  split.
  - done.
  - intros w. by exists "1 wifi_prov".
  - intros w. exists ANSWER. split; [done|]. by vm_compute.
  - intros w. exists "1 wifi_prov". split; [done|by vm_compute].
  - done.
  - intros w P. unfold after_cmd, sh, env, run. rewrite String.eqb_refl. cbn [snd].
    assert (forall p, is_abs p -> p <> WIFI_CFG_FILE -> forall s, get p (put_file WIFI_CFG_FILE s w) = get p w /\ get p (del_file WIFI_CFG_FILE w) = get p w) as G.
    { intros p Hp Hne s. split; [apply get_put_ne|apply get_del_ne]; rewrite !resolve_plain by done; done. }
    destruct (get TEST_WIFI_CFG_FILE w) as [s|] eqn:E.
    + split; [done|]. split; [apply (get_put_eq WIFI_CFG_FILE s w)|]. split.
      * rewrite <- E. by apply G.
      * apply access_same; [by apply (G PROVISIONED_FILE eq_refl ltac:(discriminate) s)|done|done].
    + split; [done|]. split; [apply (get_del_eq WIFI_CFG_FILE w)|]. split.
      * rewrite <- E. by apply (G TEST_WIFI_CFG_FILE eq_refl ltac:(discriminate) "").
      * apply access_same; [by apply (G PROVISIONED_FILE eq_refl ltac:(discriminate) "")|done|done].
  - intros c w P Hc. unfold after_cmd, sh, env, run. rewrite (proj2 (String.eqb_neq _ _) Hc).
    destruct (String.eqb c (SET_PROVISIONED "WiFi")) eqn:E; cbn [snd]; [|done].
    split; [done|]. split; [apply get_put_ne; by rewrite !resolve_plain|]. split; [apply get_put_ne; by rewrite !resolve_plain|].
    unfold prov_cmd. rewrite E. done.
Qed.

Definition hub : world := put_file TEST_WIFI_CFG_FILE "ssid: home" (World (Fsys ∅ ∅ [] ∅ "/") []).
Definition vars : prov_vars := ProvVars false 0 0 DISCONNECTED.

(** The first start, step by step. *)
Definition w1 : world := snd (@prov_enter env true "" true 3 0 hub).
Definition w2 : world := snd (@start_prov env true w1).
Definition w3 : world := snd (@wifi_cfg_event env true DISCONNECTED w2).
Definition w4 : world := snd (@prov_turn env true "" true false 10 10 (ProvVars false 0 0 CONNECTING) w3).
Definition w5 : world := snd (@prov_turn env true "" true false 12 12 (ProvVars false 0 0 CONNECTED) w4).

Lemma ran {A} (m : M A) w a w' : w' = snd (m w) -> fst (m w) = Val a -> m w = (Val a, w').
Proof. intros -> <-. by destruct (m w). Qed.

Lemma first_start : @provs env true "" (Loop (ProvVars true 0 0 CONNECTED)) w5.
Proof.
  apply (@provs_turn env true "" false 12 12 (ProvVars false 0 0 CONNECTED) w4 (ProvVars true 0 0 CONNECTED) Again w5); [|done|apply ran; [unfold w1, w2, w3, w4, w5; reflexivity|by vm_compute]].
  apply (@provs_turn env true "" false 10 10 (ProvVars false 0 0 CONNECTING) w3 (ProvVars false 0 0 CONNECTED) Again w4); [|done|apply ran; [unfold w1, w2, w3, w4, w5; reflexivity|by vm_compute]].
  apply (@provs_config env true "" vars w2 CONNECTING w3); [|apply ran; [unfold w1, w2, w3, w4, w5; reflexivity|by vm_compute]].
  apply (@provs_start env true "" vars w1 (Some DISCONNECTED) w2); [|apply ran; [unfold w1, w2, w3, w4, w5; reflexivity|by vm_compute]].
  apply (@provs_enter env true "" 3 0 hub (Some vars) w1); [done|apply ran; [unfold w1, w2, w3, w4, w5; reflexivity|by vm_compute]].
Qed.

End ProvisionToy.

Lemma marked_only_tested_witness : @tested ProvisionToy.env "" ProvisionToy.w5.
Proof.
  apply (@marked_only_tested ProvisionToy.env true "" _ _ ProvisionToy.first_start).
  assert (issued prov_cmd (trace ProvisionToy.w5) = [SET_PROVISIONED "WiFi"]) as -> by (by vm_compute). discriminate.
Defined.

Lemma good_config_provisions_witness :
  let r := @provision ProvisionToy.env true "" false (10, 10, 12, 12) ProvisionToy.vars ProvisionToy.hub in
  get WIFI_CFG_FILE (snd r) = Some "ssid: home" /\ issued prov_cmd (trace (snd r)) = [SET_PROVISIONED "WiFi"].
Proof.
  assert (plain ProvisionToy.hub) as P by done.
  assert (get TEST_WIFI_CFG_FILE ProvisionToy.hub = Some "ssid: home") as Hb by (by vm_compute).
  assert (get WIFI_CFG_FILE ProvisionToy.hub = None) as Ha by (by vm_compute).
  assert (fst (access PROVISIONED_FILE ProvisionToy.hub) = Val false) as Ho by (by vm_compute).
  assert (sofar prov_cmd [] ProvisionToy.hub) as Hl by done.
  destruct (@good_config_provisions ProvisionToy.env true "" ProvisionToy.online false (10, 10, 12, 12) ProvisionToy.vars _ _ _ P Hb Ha Ho Hl)
    as (v' & _ & _ & H1 & H2).
  exact (conj H1 H2).
Defined.
