(* ===== verification/Upkeep.v ===== *)
(** * Keys, certificates, restart and factory default

    update_key.c and update_cert.c (the credentials on the manufacturing
    partition), hub_restart.c, factory_default.c (as built, with
    [REFORMAT_DATA_PARTITION]) and the watcher dwatcher.c.  The option [-h]
    and unknown options are the argument [opts] of a program.  [chmod],
    [chown], [sync] and messages are not part of the model. *)
From Stdlib Require Import ZArith String Ascii Lia Bool.
From stdpp Require Import base gmap strings list numbers.
From S2P Require Import Prelude CLib Os IrisLib Traces Streams InitButtons.

Local Open Scope string_scope.
Local Open Scope Z_scope.

(** ** Further system calls *)

(** The success of the calls of these programs. *)
Class Upkeep := {
  rename_ok : string -> string -> world -> bool;   (* an existing file can be renamed *)
  umount_ok : string -> world -> bool;             (* a mounted partition is not in use *)
  reboot_ok : world -> bool }.

Section Calls.
Context {Ev : Env} {Up : Upkeep}.

(** [rename]: the programs do not look at its result. *)
Definition rename (old new : string) : M unit := fun w =>
  match get old w with
  | Some s => (Val tt, if rename_ok old new w then put_file new s (del_file old w) else w)
  | None => (Val tt, w)
  end.

(** The list of mounts without the last mount on [dir]. *)
Fixpoint unmounted (dir : string) (ms : list (string * string)) : option (list (string * string)) :=
  match ms with
  | [] => None
  | m :: r => if String.eqb (fst m) dir then Some r else cons m <$> unmounted dir r
  end.

(** [umount] returns true on failure, as the C tests it. *)
Definition umount (dir : string) : M bool := fun w =>
  match unmounted dir (mnts (fs w)) with
  | Some ms => if umount_ok dir w
               then (Val false, set_fs w (Fsys (files (fs w)) (dirs (fs w)) ms (links (fs w)) (cwd (fs w))))
               else (Val true, w)
  | None => (Val true, w)
  end.

(** [reboot] returns true on failure. *)
Definition reboot : M bool := _ ← emit Autoboot; w ← get_world; mret (negb (reboot_ok w)).

(** [if (buf[strlen(buf)-1] == '\n') buf[strlen(buf)-1] = '\0';] *)
Definition chomp (buffer s : string) : M string :=
  _ ← when (String.length (cstr s) =? 0)%nat (emit (Overrun buffer (-1)));
  mret (strip_nl (cstr s)).

End Calls.

(** The option loop of the programs that know only [-h]: [inl] ends the program. *)
Definition help_opts (opts : list ascii) : option Z :=
  match opts with
  | [] => None
  | c :: _ => Some (if Ascii.eqb c "h" then 0 else 1)
  end.

(** The program [body] behind its option loop: [return 0] or [exit(1)]. *)
Definition with_help (opts : list ascii) (body : M Z) : M Z :=
  match help_opts opts with
  | None => body
  | Some 0 => mret 0
  | Some z => exit z
  end.

(** ** update_key.c and update_cert.c *)

Definition HUB_CA_CERT : string := "/etc/.ssh/iris-hubsign.chained.crt".
Definition MFG_MOUNT_DEV : string := "/dev/mfg".
Definition MFG_MOUNT_DIR : string := "/mfg".
Definition MFG_CERTS_DIR : string := "/mfg/certs".
Definition MFG_KEYS_DIR : string := "/mfg/keys".
Definition MFG_MAC1_FILE : string := "/mfg/config/macAddr1".

Definition key_check (filename : string) : string := snprintf 256 ("openssl rsa -noout -in " +:+ filename +:+ " -check").
Definition key_match (macAddr filename : string) : string :=
  snprintf 256 ("(openssl x509 -noout -modulus -in " +:+ MFG_CERTS_DIR +:+ "/" +:+ macAddr +:+
    ".crt | openssl md5 ; openssl rsa -noout -modulus -in " +:+ filename +:+ " | openssl md5) | uniq").
Definition key_path (macAddr : string) : string := snprintf 512 (MFG_KEYS_DIR +:+ "/" +:+ macAddr +:+ ".key").

Definition cert_check (filename : string) : string := snprintf 256 ("openssl verify -CAfile " +:+ HUB_CA_CERT +:+ " " +:+ filename).
Definition cert_subject (filename : string) : string := snprintf 256 ("openssl x509 -subject -in " +:+ filename +:+ " -noout").
Definition cert_path (macAddr : string) : string := snprintf 512 (MFG_CERTS_DIR +:+ "/" +:+ macAddr +:+ ".crt").

Section Credentials.
Context {Ev : Env} {Up : Upkeep}.

(** [res = 1; goto validate_error] without a result; the address of the device. *)
Definition read_mac : M string :=
  f ← fopen_r MFG_MAC1_FILE;
  match f ≫= fgets 24 with
  | None => throw 1
  | Some line => chomp "macAddr" line
  end.

(** The new file in place of [buf], which is kept as [.last] until it is there. *)
Definition replace_file (filename buf : string) : M Z :=
  let cmd := snprintf 256 (buf +:+ ".last") in
  _ ← rename buf cmd;
  r ← IRIS_copyFile filename buf;
  res ← (if negb (r =? 0) then _ ← rename cmd buf; mret 1 else mret 0);
  _ ← unlink cmd;
  mret res.

(** [if ((res = system(cmd))) goto validate_error;] *)
Definition validate (cmd : string) : M unit :=
  res ← system cmd; if negb (res =? 0) then throw res else mret tt.

(** The two digests are the same line. *)
Definition one_line (cmd : string) : M unit :=
  f ← popen cmd;
  match f with
  | None => throw 1
  | Some out =>
      match fgets_all 2 512 out with
      | [_] => mret tt
      | _ => throw 1
      end
  end.

Definition key_body (filename : string) : M Z :=
  _ ← validate (key_check filename);
  macAddr ← read_mac;
  _ ← one_line (key_match macAddr filename);
  replace_file filename (key_path macAddr).

Definition cert_body (filename : string) : M Z :=
  _ ← validate (cert_check filename);
  f ← popen (cert_subject filename);
  match f ≫= fgets 512 with
  | None => throw 1
  | Some buf =>
      macAddr ← read_mac;
      if has_sub (cstr buf) macAddr then replace_file filename (cert_path macAddr) else throw 1
  end.

(** Mounting, the body up to the label [exit:], unmounting, and the result. *)
Definition on_mfg (body : M Z) : M Z :=
  m ← mount MFG_MOUNT_DEV MFG_MOUNT_DIR;
  if m : bool then exit 1
  else
    res ← catch body (fun res => mret res);
    u ← umount MFG_MOUNT_DIR;
    let res := if u : bool then 1 else res in
    if negb (res =? 0) then exit 1 else mret 0.

Definition update_key (opts : list ascii) (filename : option string) : M Z :=
  with_help opts (match filename with None => exit 1 | Some f => on_mfg (key_body f) end).

Definition update_cert (opts : list ascii) (filename : option string) : M Z :=
  with_help opts (match filename with None => exit 1 | Some f => on_mfg (cert_body f) end).

End Credentials.

(** ** hub_restart.c *)

Definition restart_delay (whenarg : option string) : Z :=
  match whenarg with
  | None => 0
  | Some a => if strncmp0 a "now" 3 then 0 else atoi a
  end.

Section Restart.
Context {Ev : Env} (plat : platform).

(** [sleep] takes an unsigned number of seconds. *)
Definition hub_restart (opts : list ascii) (whenarg : option string) : M Z :=
  with_help opts (
    let delay := restart_delay whenarg in
    _ ← system (snprintf 128 (LED_CTRL_APP plat +:+ " shutdown"));
    _ ← when (negb (delay =? 0)) (sleep (u32 delay));
    _ ← match plat with
        | imxdimagic =>
            _ ← when (delay <? 5) (sleep (u32 (5 - delay)));
            _ ← system (snprintf 128 (LED_CTRL_APP plat +:+ " boot-linux")); mret tt
        | beaglebone_yocto => mret tt
        end;
    st ← system "/sbin/reboot";
    if negb (st =? 0) then exit 1 else mret 0).

End Restart.

(** ** dwatcher.c *)

Definition CHECK_PERIOD : Z := 5.
Definition INIT_DELAY : Z := 60.
Definition IRISINITD : string := "irisinitd".
Definition BATTERYD : string := "batteryd".
Definition IRIS4GD : string := "iris4gd".
Definition IRIS4GD_PATH : string := "/usr/bin/iris4gd".
Definition IRISINITD_RESTART : string := snprintf 128 (IRISINITD +:+ " restart").

Section Watcher.
Context {Ev : Env}.

Definition checkProcess (process : string) : M bool :=
  f ← popen (snprintf 256 ("pidof " +:+ process));
  mret (match f with Some out => match fgets 128 out with Some _ => true | None => false end | None => false end).

(** [if (!checkProcess(process)) system(cmd);] *)
Definition revive (process cmd : string) : M unit :=
  r ← checkProcess process; when (negb r) (_ ← system cmd; mret tt).

(** The body of the loop. *)
Definition watch_turn : M unit :=
  _ ← sleep CHECK_PERIOD;
  _ ← revive IRISINITD IRISINITD_RESTART;
  rel ← IRIS_isReleaseImage;
  when rel (
    _ ← revive BATTERYD BATTERYD;
    a ← access IRIS4GD_PATH;
    when a (revive IRIS4GD IRIS4GD)).

(** The first [n] turns of the loop. *)
Fixpoint watch_turns (n : nat) : M unit :=
  match n with O => mret tt | S n' => _ ← watch_turn; watch_turns n' end.

Definition dwatcher (n : nat) : M unit := _ ← sleep INIT_DELAY; watch_turns n.

End Watcher.

(** ** factory_default.c *)

Definition TMP_FIRMWARE_DIR : string := "/tmp/firmware/".
Definition DATA_FIRMWARE_DIR : string := "/data/firmware/".
Definition REFORMAT_STR : string := "mkfs.ext4 -q -F -E stripe-width=4096 -L data /dev/data".
Definition UMOUNT_RETRIES : nat := 50.

Definition save_firmware : string :=
  snprintf 128 ("mkdir -p " +:+ TMP_FIRMWARE_DIR +:+ "; cp " +:+ DATA_FIRMWARE_DIR +:+ "* " +:+ TMP_FIRMWARE_DIR).
Definition restore_firmware : string :=
  snprintf 128 ("mount /data; mkdir -p " +:+ DATA_FIRMWARE_DIR +:+ "; cp " +:+ TMP_FIRMWARE_DIR +:+ "* " +:+ DATA_FIRMWARE_DIR).
Definition KILL_ALL : string := snprintf 128 "killall5 -9".

Section FactoryDefault.
Context {Ev : Env} {Up : Upkeep} (plat : platform).

Definition terminate_program (program : string) : M Z := system (snprintf 128 ("killall " +:+ program)).

(** [retries++ < UMOUNT_RETRIES], with [left] more turns. *)
Fixpoint reformat_loop (left : nat) : M unit :=
  match left with
  | O => mret tt
  | S left' =>
      _ ← system KILL_ALL;
      _ ← sleep 5;
      _ ← pokeWatchdog;
      u ← umount "/data";
      if u : bool then reformat_loop left'
      else
        st ← system REFORMAT_STR;
        if negb (st =? 0) then reformat_loop left'
        else
          _ ← pokeWatchdog;
          _ ← system restore_firmware;
          pokeWatchdog
  end.

Definition clean_agent : M unit :=
  rel ← IRIS_isReleaseImage;
  when rel (
    _ ← terminate_program "irisagentd";
    _ ← pokeWatchdog;
    _ ← terminate_program "java";
    _ ← pokeWatchdog;
    _ ← match plat with imxdimagic => IRIS_setLedMode "boot-linux" | beaglebone_yocto => mret tt end;
    _ ← sleep 10;
    pokeWatchdog).

Definition reformat_data : M unit :=
  _ ← system save_firmware;
  _ ← pokeWatchdog;
  reformat_loop UMOUNT_RETRIES.

Definition factory_default (opts : list ascii) : M Z :=
  with_help opts (
    _ ← match plat with imxdimagic => IRIS_setLedMode "shutdown" | beaglebone_yocto => mret tt end;
    _ ← clean_agent;
    _ ← reformat_data;
    _ ← system "zwave_default";
    _ ← pokeWatchdog;
    _ ← system "zigbee_default";
    _ ← pokeWatchdog;
    r ← reboot;
    if r : bool then exit 1 else mret 0).

End FactoryDefault.

(** ** Credentials: what the two programs do to the partition *)

(** The key of a file of the manufacturing partition, and of its copy. *)
Definition mfg_file (p : string) : string := MFG_MOUNT_DEV +:+ ":" +:+ p.

Definition mounted (w : world) : world :=
  set_fs w (Fsys (files (fs w)) (dirs (fs w)) ((MFG_MOUNT_DIR, MFG_MOUNT_DEV) :: mnts (fs w)) (links (fs w)) (cwd (fs w))).

(** The address of the hub, as the partition has it. *)
Definition dev_mac (s : fsys) : option string :=
  line ← files s !! mfg_file "/config/macAddr1" ≫= fgets 24; Some (strip_nl (cstr line)).

(** All files but those stored as [k] and [k] with [.last] are as before. *)
Definition others_same (k : string) (s s' : fsys) : Prop :=
  forall q, q <> k -> q <> k +:+ ".last" -> files s' !! q = files s !! q.
Definition replaced (k data : string) (s s' : fsys) : Prop :=
  files s' !! k = Some data /\ files s' !! (k +:+ ".last") = None /\ others_same k s s'.
Definition kept (k : string) (s s' : fsys) : Prop :=
  (forall old, files s !! k = Some old -> files s' !! k = Some old) /\ others_same k s s'.

Lemma mfg_file_eq p : mfg_file p = mfg_file "" +:+ p.
Proof. done. Qed.

Lemma sdrop_below d p : below d (d +:+ "/" +:+ p) = Some ("/" +:+ p).
Proof. unfold below. rewrite <- sapp_assoc, prefix_app. by rewrite sapp_assoc, sdrop_app. Qed.

Lemma resolve_mfg ms s p : mnts s = (MFG_MOUNT_DIR, MFG_MOUNT_DEV) :: ms -> resolve s ("/mfg/" +:+ p) = mfg_file ("/" +:+ p).
Proof.
  intros E. unfold resolve. rewrite E. change (abs_path s ("/mfg/" +:+ p)) with (MFG_MOUNT_DIR +:+ "/" +:+ p).
  unfold resolve_in. by rewrite sdrop_below.
Qed.

Lemma strip_nl_length s : (String.length (strip_nl s) <= String.length s)%nat.
Proof. induction s as [|c s IH]; [done|]. cbn [strip_nl]. destruct s as [|d s']; [destruct (Ascii.eqb c LF); cbn; lia|]. cbn [String.length] in *. lia. Qed.

Lemma cstr_shorter s : (String.length (cstr s) <= String.length s)%nat.
Proof. induction s as [|c s IH]; [done|]. cbn. destruct (Ascii.eqb c NUL); cbn; lia. Qed.

Lemma fgets_length n s l : fgets n s = Some l -> (String.length l <= n - 1)%nat.
Proof. unfold fgets. destruct s; [done|]. intros [= <-]. rewrite stake_len. lia. Qed.

Lemma dev_mac_length s mac : dev_mac s = Some mac -> (String.length mac <= 23)%nat.
Proof.
  unfold dev_mac. destruct (files s !! _ ≫= fgets 24) as [line|] eqn:E; [|done]. cbn. intros [= <-].
  apply bind_Some in E as (t & _ & E). apply fgets_length in E. pose proof (strip_nl_length (cstr line)). pose proof (cstr_shorter line). lia.
Qed.

Lemma last_ne k : k +:+ ".last" <> k.
Proof. intros E. apply (f_equal String.length) in E. rewrite slen_app in E. cbn in E. lia. Qed.

Section CredentialProofs.
Context {Ev : Env} {Up : Upkeep}.

(** What a rename that works does to the files. *)
Lemma wp_rename old new Q w : (forall a b v, rename_ok a b v = true) ->
  (forall s, get old w = Some s -> Q (Val tt) (put_file new s (del_file old w))) -> (get old w = None -> Q (Val tt) w) -> wp (rename old new) Q w.
Proof. intros Hr H1 H2. unfold wp, rename. destruct (get old w) eqn:E; cbn; [rewrite Hr; by apply H1|by apply H2]. Qed.

(** A copy to a file that is not there. *)
Lemma wp_copy src dst Q w : resolve (fs w) src <> resolve (fs w) dst -> get dst w = None ->
  (forall data, get src w = Some data -> Q (Val 0) (put_file dst data w)) ->
  (forall z w', z <> 0 -> w' = w \/ (exists part, w' = put_file dst part w) -> Q (Val z) w') -> wp (IRIS_copyFile src dst) Q w.
Proof.
  intros Hne Hd H0 H1. unfold IRIS_copyFile. apply wp_bind, wp_fopen_r; [intros data Hs _|intros _; apply wp_ret, H1; auto]; cbn [seq_post].
  apply wp_bind. unfold wp, open_rw. destruct (wr_ok dst w); cbn [fst snd seq_post negb]; [|by apply wp_ret, H1; auto].
  apply wp_bind. unfold wp, sendfile. cbn [fst snd seq_post]. rewrite get_put_eq, Hd. cbn [default from_option id]. rewrite put_put.
  set (n := Nat.min _ _). assert (n <= String.length data)%nat as Hn by (unfold n; lia). clearbody n.
  assert (sdrop n "" = "") as -> by by destruct n. rewrite sapp_nil_r. apply wp_ret.
  destruct (decide (n = String.length data)) as [->|Hlt].
  - rewrite stake_all by done. destruct (String.length data); cbn [Nat.eqb andb negb]; [|rewrite Z.eqb_refl]; by apply H0.
  - destruct (n =? 0)%nat eqn:E0; to_prop.
    + subst n. replace (String.length data =? 0)%nat with false by (symmetry; apply Nat.eqb_neq; lia). cbn [negb andb].
      destruct (-1 =? _) eqn:E1; to_prop; [lia|]. apply H1; [lia|right; by eexists].
    + cbn [andb]. destruct (Z.of_nat n =? _) eqn:E1; to_prop; [lia|]. apply H1; [lia|right; by eexists].
Qed.

(** Only the file [k] and its copy may have changed. *)
Definition near (k : string) (w w' : world) : Prop :=
  mnts (fs w') = mnts (fs w) /\ cwd (fs w') = cwd (fs w) /\ others_same k (fs w) (fs w').

Definition own (k : string) (w : world) (p : string) : Prop := resolve (fs w) p = k \/ resolve (fs w) p = k +:+ ".last".

Lemma near_refl k w : near k w w.
Proof. by split_and!. Qed.

Lemma near_resolve k w w' p : near k w w' -> resolve (fs w') p = resolve (fs w) p.
Proof. intros (Hm & Hc & _). unfold resolve, abs_path. by rewrite Hm, Hc. Qed.

Lemma near_put k p s w w' : near k w w' -> own k w p -> near k w (put_file p s w').
Proof.
  intros Hn Ho. pose proof (near_resolve k w w' p Hn) as R. destruct Hn as (Hm & Hc & Hf). split_and!; [done..|]. intros q Hq Hq'. cbn. rewrite R.
  rewrite lookup_insert_ne; [by apply Hf|]. by destruct Ho as [->| ->].
Qed.

Lemma near_del k p w w' : near k w w' -> own k w p -> near k w (del_file p w').
Proof.
  intros Hn Ho. pose proof (near_resolve k w w' p Hn) as R. destruct Hn as (Hm & Hc & Hf). split_and!; [done..|]. intros q Hq Hq'. cbn. rewrite R.
  rewrite lookup_delete_ne; [by apply Hf|]. by destruct Ho as [->| ->].
Qed.

Ltac near_tac := solve [repeat first [assumption | apply near_del | apply near_put]].

Section Replace.
Context (filename buf last k : string) (w : world).
Hypothesis (Hren : forall a b v, rename_ok a b v = true) (Rb : resolve (fs w) buf = k) (Rl : resolve (fs w) last = k +:+ ".last").
Hypothesis (Hf : ~ own k w filename).

Lemma near_get v p : near k w v -> get p v = files (fs v) !! resolve (fs w) p.
Proof. intros Hn. unfold get. by rewrite (near_resolve k w v). Qed.

Lemma near_source v : near k w v -> get filename v = get filename w.
Proof. intros Hn. rewrite near_get by done. destruct Hn as (_ & _ & Hn). apply Hn; intros E; apply Hf; [by left|by right]. Qed.

(** The part after the first rename. *)
Lemma wp_copy_in v : near k w v -> get buf v = None -> 
  (forall old, get buf w = Some old -> get last v = Some old) ->
  wp (r ← IRIS_copyFile filename buf; res ← (if negb (r =? 0) then _ ← rename last buf; mret 1 else mret 0); _ ← unlink last; mret res)
    (fun r w' => near k w w' /\
      ((r = Val 0 /\ exists data, get filename w = Some data /\ get buf w' = Some data /\ get last w' = None) \/
       (r = Val 1 /\ forall old, get buf w = Some old -> get buf w' = Some old))) v.
Proof.
  intros Hn Hb Hl. assert (own k w buf) as Ob by by left. assert (own k w last) as Ol by by right.
  assert (forall u, near k w u -> resolve (fs u) buf <> resolve (fs u) last) as Hne
    by (intros u Hu; rewrite !(near_resolve k w u), Rb, Rl by done; intros E; by apply (last_ne k)).
  apply wp_bind, wp_copy; [|done|..].
  - rewrite !(near_resolve k w v) by done. intros E. apply Hf. left. congruence.
  - intros data Hd. cbn [seq_post]. rewrite Z.eqb_refl. cbn [negb]. wp_go. split; [near_tac|]. left. split; [done|]. exists data.
    rewrite <- (near_source v) by done. split_and!; [done| |apply get_del_eq]. rewrite get_del_ne by (apply Hne; near_tac). apply get_put_eq.
  - intros z u Hz Hu. assert (near k w u) as Hnu by (destruct Hu as [->|[part ->]]; [done|by apply near_put]).
    assert (get last u = get last v) as El
      by (destruct Hu as [->|[part ->]]; [done|]; rewrite get_put_ne; [done|]; by apply not_eq_sym, Hne).
    cbn [seq_post]. replace (z =? 0) with false by (symmetry; by apply Z.eqb_neq). cbn [negb]. wp_go. apply wp_rename; [done|intros s Hs|intros Hs]; wp_go.
    + split; [near_tac|]. right. split; [done|]. intros old Ho.
      rewrite get_del_ne by (apply Hne; near_tac). rewrite get_put_eq. rewrite El, (Hl old Ho) in Hs. by injection Hs as <-.
    + split; [near_tac|]. right. split; [done|]. intros old Ho. rewrite El, (Hl old Ho) in Hs. done.
Qed.
End Replace.

(** A file of the partition in a world in which it is mounted. *)
Definition on_part (w : world) : Prop := exists ms, mnts (fs w) = (MFG_MOUNT_DIR, MFG_MOUNT_DEV) :: ms.

Lemma wp_replace filename p w : (forall a b v, rename_ok a b v = true) -> on_part w -> (String.length p <= 200)%nat ->
  String.prefix (mfg_file "") (resolve (fs w) filename) = false ->
  wp (replace_file filename ("/mfg/" +:+ p)) (fun r w' => mnts (fs w') = mnts (fs w) /\
    ((r = Val 0 /\ exists data, get filename w = Some data /\ replaced (mfg_file ("/" +:+ p)) data (fs w) (fs w')) \/
     (r = Val 1 /\ kept (mfg_file ("/" +:+ p)) (fs w) (fs w')))) w.
Proof.
  intros Hr [ms Hm] Hl Hf. unfold replace_file. cbv zeta. rewrite snprintf_id by (rewrite !slen_app; cbn [String.length]; lia). rewrite sapp_assoc.
  set (k := mfg_file ("/" +:+ p)). set (buf := "/mfg/" +:+ p). set (last := "/mfg/" +:+ p +:+ ".last").
  assert (resolve (fs w) buf = k) as Rb by by apply (resolve_mfg ms).
  assert (resolve (fs w) last = k +:+ ".last") as Rl by (unfold last; rewrite (resolve_mfg ms) by done; unfold k, mfg_file; by rewrite !sapp_assoc).
  assert (~ own k w filename) as Hno
    by (intros [E|E]; rewrite E in Hf; unfold k in Hf; rewrite (mfg_file_eq ("/" +:+ p)), ?sapp_assoc, prefix_app in Hf; done).
  assert (forall u r, near k w u /\ ((r = Val 0 /\ exists data, get filename w = Some data /\ get buf u = Some data /\ get last u = None) \/
       (r = Val 1 /\ forall old, get buf w = Some old -> get buf u = Some old)) -> mnts (fs u) = mnts (fs w) /\
    ((r = Val 0 /\ exists data, get filename w = Some data /\ replaced k data (fs w) (fs u)) \/ (r = Val 1 /\ kept k (fs w) (fs u)))) as Hfin.
  { intros u r [Hn H]. pose proof Hn as (Hmu & _ & Ho). split; [done|]. unfold replaced, kept. 
    rewrite !(near_get k w u), Rb, Rl in H by done. unfold get in H at 2. rewrite Rb in H. destruct H as [(-> & data & Hd & H1 & H2)|[-> H]]; [left|right]; eauto 10. }
  apply wp_bind, wp_rename; [done|intros s Hs|intros Hs]; cbn [seq_post];
    (eapply wp_mono; [apply (wp_copy_in filename buf last k w)|intros r u; apply Hfin]; try done).
  - apply near_put; [apply near_del; [apply near_refl|by left]|by right].
  - rewrite get_put_ne; [apply get_del_eq|]. intros E. apply (last_ne k). rewrite <- Rl, <- Rb at 1. by symmetry.
  - intros old Ho. rewrite get_put_eq. congruence.
  - intros old Ho. congruence.
Qed.

(** How a program that updates the file [path mac] of the partition ends. *)
Definition replace_post (path : string -> string) (accepted : string -> Prop) (filename : string) (w : world) (r : outcome Z) (w' : world) : Prop :=
  match r with
  | Val z => z = 0 /\ mnts (fs w') = mnts (fs w) /\ exists mac data, dev_mac (fs w) = Some mac /\ accepted mac /\
      get filename (mounted w) = Some data /\ replaced (mfg_file (path mac)) data (fs w) (fs w')
  | Exit z => z = 1 /\
      (files (fs w') = files (fs w) \/
       exists mac, dev_mac (fs w) = Some mac /\ accepted mac /\
         (kept (mfg_file (path mac)) (fs w) (fs w') \/
          umount_ok MFG_MOUNT_DIR (World (fs w') (trace w')) = false /\
          exists data, get filename (mounted w) = Some data /\ replaced (mfg_file (path mac)) data (fs w) (fs w')))
  | _ => False
  end.

(** The same for the part between mounting and unmounting. *)
Definition body_post (path : string -> string) (accepted : string -> Prop) (filename : string) (w : world) (r : outcome Z) (w' : world) : Prop :=
  mnts (fs w') = mnts (fs (mounted w)) /\
  match r with
  | Val z => exists mac, dev_mac (fs w) = Some mac /\ accepted mac /\
      ((z = 0 /\ exists data, get filename (mounted w) = Some data /\ replaced (mfg_file (path mac)) data (fs w) (fs w')) \/
       (z = 1 /\ kept (mfg_file (path mac)) (fs w) (fs w')))
  | Throw z => z <> 0 /\ files (fs w') = files (fs w)
  | _ => False
  end.

Lemma wp_on_mfg path accepted filename body w :
  wp body (body_post path accepted filename w) (mounted w) -> wp (on_mfg body) (replace_post path accepted filename w) w.
Proof.
  intros Hb. unfold on_mfg. apply wp_bind. unfold wp at 1, mount. destruct (mount_ok _ _ w); cbn [fst snd seq_post];
    [|wp_go; split; [done|by left]]. change (set_fs w _) with (mounted w).
  apply wp_bind, wp_catch. eapply wp_mono; [exact Hb|]. intros r u [Hm Hr].
  assert (unmounted MFG_MOUNT_DIR (mnts (fs u)) = Some (mnts (fs w))) as Hu by by rewrite Hm.
  assert (forall z, (exists t, r = t /\ (t = Val z \/ t = Throw z)) -> wp (u ← umount MFG_MOUNT_DIR; let res := if u : bool then 1 else z in
    if negb (res =? 0) then exit 1 else mret 0) (replace_post path accepted filename w) u) as Hend.
  { intros z (t & -> & Ht). apply wp_bind. unfold wp at 1, umount. rewrite Hu. destruct (umount_ok MFG_MOUNT_DIR u) eqn:Ho; cbn [fst snd seq_post].
    - destruct Ht as [-> | ->]; cbn in Hr.
      + destruct Hr as (mac & Hd & Ha & [(-> & data & Hg & Hrep)|[-> Hk]]).
        * change (0 =? 0) with true. cbn [negb]. apply wp_ret. unfold replace_post. split_and!; [done..|]. by exists mac, data.
        * change (1 =? 0) with false. cbn [negb]. wp_go. unfold replace_post. split; [done|]. right. exists mac. split_and!; [done..|by left].
      + destruct Hr as [Hz Hf]. replace (z =? 0) with false by (symmetry; by apply Z.eqb_neq). cbn [negb]. wp_go. unfold replace_post. split; [done|by left].
    - change (1 =? 0) with false. cbn [negb]. wp_go. unfold replace_post. split; [done|]. destruct Ht as [-> | ->]; cbn in Hr; [right|left; apply Hr].
      destruct Hr as (mac & Hd & Ha & [(-> & data & Hg & Hrep)|[-> Hk]]); exists mac; (split; [done|]); (split; [done|]); [|by left].
      right. split; [by destruct u|]. by exists data. }
  destruct r as [z|z|z|]; [|apply wp_ret|done..]; cbn [seq_post]; apply Hend; eauto.
Qed.

(** A step that leaves files and mounts alone, or ends the validation. *)
Definition calm_step {A} (P : A -> Prop) (w : world) (r : outcome A) (u : world) : Prop :=
  fs u = fs w /\ match r with Val a => P a | Throw z => z <> 0 | _ => False end.

Lemma body_throw path accepted filename w u z : fs u = fs (mounted w) -> z <> 0 -> body_post path accepted filename w (Throw z) u.
Proof. intros Hu Hz. split; [by rewrite Hu|]. split; [done|]. by rewrite Hu. Qed.

Lemma wp_calm {A} (P : A -> Prop) path accepted filename w v (m : M A) (k : A -> M Z) : fs v = fs (mounted w) ->
  wp m (calm_step P v) v ->
  (forall a u, P a -> fs u = fs (mounted w) -> wp (k a) (body_post path accepted filename w) u) -> wp (m ≫= k) (body_post path accepted filename w) v.
Proof.
  intros Hv Hm Hk. apply wp_bind. eapply wp_mono; [exact Hm|]. intros r u [Hf Hr]. rewrite Hv in Hf.
  destruct r as [a|z|z|]; cbn [seq_post]; [by apply Hk|by apply body_throw|done..].
Qed.

Lemma wp_validate c w : (forall v, snd (sh c v) = fs v) -> wp (validate c) (calm_step (fun _ => fst (sh c w) = 0) w) w.
Proof.
  intros Hc. unfold validate. apply wp_bind, wp_cmd. cbn [seq_post]. destruct (fst (sh c w) =? 0) eqn:E; to_prop; cbn [negb]; wp_go; (split; [apply Hc|done]).
Qed.

Lemma wp_read_mac v w : fs v = fs (mounted w) -> wp read_mac (calm_step (fun mac => dev_mac (fs w) = Some mac) v) v.
Proof.
  intros Hv. unfold read_mac. assert (get MFG_MAC1_FILE v = files (fs w) !! mfg_file "/config/macAddr1") as Hg.
  { unfold get. rewrite Hv. change MFG_MAC1_FILE with ("/mfg/" +:+ "config/macAddr1"). by erewrite (resolve_mfg (mnts (fs w))). }
  apply wp_bind, wp_fopen_r; [intros s Hs _|intros _]; cbn [seq_post mbind option_bind]; [|wp_go; by split].
  destruct (fgets 24 s) as [line|] eqn:E; [|wp_go; by split]. unfold chomp.
  assert (dev_mac (fs w) = Some (strip_nl (cstr line))) as Hd by (unfold dev_mac; rewrite <- Hg, Hs; cbn [mbind option_bind]; by rewrite E).
  wp_go; by split.
Qed.

Lemma wp_one_line c v : wp (one_line c) (calm_step (fun _ => exists out l, pipe c v = Some out /\ fgets_all 2 512 out = [l]) v) v.
Proof.
  unfold one_line. apply wp_bind, wp_popen. cbn [seq_post]. destruct (pipe c v) as [out|] eqn:E; [|wp_go; by split].
  destruct (fgets_all 2 512 out) as [|l [|l' r]] eqn:El; wp_go; split; try done. by exists out, l.
Qed.

(** The checks the new files passed, on the mounted partition. *)
Definition key_ok (filename : string) (w : world) (mac : string) : Prop :=
  fst (sh (key_check filename) (mounted w)) = 0 /\
  exists v out l, fs v = fs (mounted w) /\ pipe (key_match mac filename) v = Some out /\ fgets_all 2 512 out = [l].
Definition cert_ok (filename : string) (w : world) (mac : string) : Prop :=
  fst (sh (cert_check filename) (mounted w)) = 0 /\
  exists v out buf, fs v = fs (mounted w) /\ pipe (cert_subject filename) v = Some out /\ fgets 512 out = Some buf /\ has_sub (cstr buf) mac = true.

Lemma wp_replace_body path accepted filename p w v mac : (forall a b u, rename_ok a b u = true) ->
  String.prefix (mfg_file "") (resolve (fs (mounted w)) filename) = false -> fs v = fs (mounted w) -> dev_mac (fs w) = Some mac -> accepted mac ->
  path mac = "/" +:+ p -> (String.length p <= 200)%nat ->
  wp (replace_file filename ("/mfg/" +:+ p)) (body_post path accepted filename w) v.
Proof.
  intros Hr Hf Hv Hd Ha Hp Hl. eapply wp_mono; [apply wp_replace; [done| |done|by rewrite Hv]|].
  - exists (mnts (fs w)). by rewrite Hv.
  - intros r u [Hm H]. split; [by rewrite Hm, Hv|]. unfold get in *. rewrite Hv in H. rewrite <- Hp in H.
    destruct H as [[-> H]|[-> H]]; exists mac; split_and!; auto.
Qed.

End CredentialProofs.

(** Replacing the key or the certificate of a hub is safe: whatever fails, update_key and update_cert end with 0 or
    with 1.  They touch the partition only if the new file passed all their checks for this hub; on success the new file
    is there, byte for byte, and the partition is unmounted; on an error a key or certificate that was there is still there, unless
    only the unmounting failed, after the new file was in place.  Nothing else on the partition changes. *)
Theorem credential_update_safe {Ev : Env} {Up : Upkeep} (f : string) (w : world) :
  (forall a b v, rename_ok a b v = true) ->
  (forall v, snd (sh (key_check f) v) = fs v) -> (forall v, snd (sh (cert_check f) v) = fs v) ->
  String.prefix (mfg_file "") (resolve (fs (mounted w)) f) = false ->
  wp (update_key [] (Some f)) (replace_post (fun mac => "/keys/" +:+ mac +:+ ".key") (key_ok f w) f w) w /\
  wp (update_cert [] (Some f)) (replace_post (fun mac => "/certs/" +:+ mac +:+ ".crt") (cert_ok f w) f w) w.
Proof.
  intros Hr Hk Hc Hf. split; apply wp_on_mfg; unfold key_body, cert_body;
    (eapply wp_calm; [done|apply wp_validate; assumption|]); intros [] u1 Hchk Hu1.
  - eapply wp_calm; [done|by apply (wp_read_mac u1 w)|]. intros mac u2 Hd Hu2. pose proof (dev_mac_length _ _ Hd).
    eapply wp_calm; [done|apply wp_one_line|]. intros [] u3 (out & l & Hp & Hl) Hu3. unfold key_path, MFG_KEYS_DIR.
    rewrite snprintf_id by (rewrite !slen_app; cbn [String.length]; lia). apply (wp_replace_body _ _ f ("keys/" +:+ mac +:+ ".key") w u3 mac); try done.
    + split; [done|]. by exists u2, out, l.
    + rewrite !slen_app. cbn [String.length]. lia.
  - apply wp_bind, wp_popen. cbn [seq_post]. set (u2 := World _ _). assert (fs u2 = fs (mounted w)) as Hu2 by done.
    destruct (pipe (cert_subject f) u1) as [out|] eqn:Ep; cbn [mbind option_bind]; [|by wp_go; apply body_throw].
    destruct (fgets 512 out) as [buf|] eqn:Eb; [|by wp_go; apply body_throw].
    eapply wp_calm; [done|by apply (wp_read_mac u2 w)|]. intros mac u3 Hd Hu3. pose proof (dev_mac_length _ _ Hd).
    destruct (has_sub (cstr buf) mac) eqn:Es; [|by wp_go; apply body_throw]. unfold cert_path, MFG_CERTS_DIR.
    rewrite snprintf_id by (rewrite !slen_app; cbn [String.length]; lia). apply (wp_replace_body _ _ f ("certs/" +:+ mac +:+ ".crt") w u3 mac); try done.
    + split; [done|]. by exists u1, out, buf.
    + rewrite !slen_app. cbn [String.length]. lia.
Qed.

(** ** The watcher *)

Section WatcherProofs.
Context {Ev : Env}.

(** [pidof] finds the process. *)
Definition alive (process : string) (v : world) : bool :=
  match pipe (snprintf 256 ("pidof " +:+ process)) v with Some (String _ _) => true | _ => false end.

Lemma wp_checkProcess process Q v : Q (Val (alive process v)) (World (fs v) (trace v ++ [Pipe (snprintf 256 ("pidof " +:+ process))])) -> wp (checkProcess process) Q v.
Proof. intros HQ. unfold checkProcess. apply wp_bind, wp_popen. cbn [seq_post]. apply wp_ret. unfold alive in HQ. by destruct (pipe _ v) as [[]|]. Qed.

(** The daemons the watcher knows, and the commands that start them. *)
Definition watched : list (string * string) := [(IRISINITD, IRISINITD_RESTART); (BATTERYD, BATTERYD); (IRIS4GD, IRIS4GD)].

Section Daemon.
Context (process cmd : string) (Hw : (process, cmd) ∈ watched).

Definition starts (v : world) : list string := issued (String.eqb cmd) (trace v).

(** The programs of the daemons stay where they are. *)
Definition installed (v : world) : Prop := fst (access IRIS4GD_PATH v) = Val true.
Hypothesis (Hin : forall c v, installed v -> installed (after_cmd c v)).

Lemma starts_other e v : match e with Cmd _ => False | _ => True end -> starts (World (fs v) (trace v ++ [e])) = starts v.
Proof. intros He. unfold starts. cbn [trace]. rewrite issued_app. destruct e; try done; apply app_nil_r. Qed.

(** A check of any daemon: this one is started exactly if it is the one checked, and not running. *)
Lemma wp_revive p c v : (p, c) ∈ watched -> installed v -> wp (revive p c) (fun r v' => r = Val tt /\ installed v' /\
  starts v' = starts v ++ (if String.eqb cmd c && negb (alive process v) then [cmd] else []))%list v.
Proof.
  intros Hp Hi. assert (c = cmd -> p = process) as Hpc by (unfold watched in *; set_solver).
  unfold revive. apply wp_bind, wp_checkProcess. cbn [seq_post]. set (u := World _ _).
  assert (starts u = starts v) as Hs by by apply starts_other. apply wp_when; intros Ha.
  - apply wp_bind, wp_cmd. cbn [seq_post]. apply wp_ret. split_and!; [done|by apply Hin|]. rewrite <- Hs. unfold starts, after_cmd. cbn [trace].
    destruct (String.eqb cmd c) eqn:E; [|rewrite issued_out by done; by rewrite app_nil_r].
    apply String.eqb_eq in E as <-. rewrite <- Hpc, Ha by done. apply issued_in, String.eqb_refl.
  - split_and!; [done..|]. rewrite Hs. destruct (String.eqb cmd c) eqn:E; [|by rewrite app_nil_r].
    apply String.eqb_eq in E as <-. rewrite <- Hpc, Ha by done. by rewrite app_nil_r.
Qed.

(** A turn checks the daemon once, at [u]. *)
Lemma wp_watch_turn v : installed v -> wp watch_turn (fun r v' => r = Val tt /\ installed v' /\ exists u, starts u = starts v /\
  starts v' = starts v ++ (if alive process u then [] else [cmd]))%list v.
Proof.
  intros Hi. unfold watch_turn. apply wp_bind, wp_emit. cbn [seq_post]. set (v0 := World _ _). assert (starts v0 = starts v) as H0 by by apply starts_other.
  eapply wp_seq; [apply (wp_revive IRISINITD IRISINITD_RESTART v0); [set_solver|done]|]. intros r v1 (-> & Hi1 & H1). cbn [seq_post].
  apply wp_bind, wp_ret. cbn [seq_post when].
  eapply wp_seq; [apply (wp_revive BATTERYD BATTERYD v1); [set_solver|done]|]. intros r v2 (-> & Hi2 & H2). cbn [seq_post].
  apply wp_bind. unfold wp at 1. rewrite Hi2. cbn [seq_post when]. change (snd (access IRIS4GD_PATH v2)) with v2.
  eapply wp_mono; [apply (wp_revive IRIS4GD IRIS4GD v2); [set_solver|done]|]. intros r v3 (-> & Hi3 & H3). split_and!; [done..|].
  rewrite H3, H2, H1, H0. unfold watched in Hw. rewrite !elem_of_cons in Hw. destruct Hw as [E|[E|[E|E]]]; [..|by apply elem_of_nil in E]; injection E as -> ->.
  - exists v0. split; [done|]. cbn. rewrite !app_nil_r. by destruct (alive _ v0).
  - exists v1. split; [by rewrite H1, H0, app_nil_r|]. cbn. rewrite !app_nil_r. by destruct (alive _ v1).
  - exists v2. split; [by rewrite H2, H1, H0, !app_nil_r|]. cbn. rewrite !app_nil_r. by destruct (alive _ v2).
Qed.

(** No more than one start in a turn, none while the daemon runs. *)
Lemma wp_watch_turns n v : (forall u, alive process u = true) -> installed v ->
  wp (watch_turns n) (fun r v' => r = Val tt /\ starts v' = starts v) v.
Proof.
  intros Hup. revert v. induction n as [|n IH]; intros v Hi; [by apply wp_ret|]. cbn [watch_turns].
  eapply wp_seq; [by apply wp_watch_turn|]. intros r v' (-> & Hi' & u & _ & Hs). cbn [seq_post]. rewrite Hup, app_nil_r in Hs.
  eapply wp_mono; [by apply IH|]. intros r v'' [-> Hs']. by rewrite Hs'.
Qed.

(** The watcher keeps the daemons running: one that is not running is started, once, in the first turn of the loop, and one
    that runs is never started again; the watcher itself never ends. *)
Theorem watcher_restarts n w : installed w ->
  ((forall v, starts v = starts w -> alive process v = false) ->
     wp (dwatcher 1) (fun r w' => r = Val tt /\ starts w' = starts w ++ [cmd])%list w) /\
  ((forall v, alive process v = true) -> wp (dwatcher n) (fun r w' => r = Val tt /\ starts w' = starts w) w).
Proof.
  intros Hi. split; intros Ha; unfold dwatcher; apply wp_bind, wp_emit; cbn [seq_post]; set (v := World _ _);
    assert (starts v = starts w) as Hs by (by apply starts_other); rewrite <- Hs in *.
  - cbn [watch_turns]. eapply wp_seq; [by apply wp_watch_turn|]. intros r v' (-> & _ & u & Hu & Hv). cbn [seq_post]. apply wp_ret. by rewrite Hv, Ha.
  - by apply wp_watch_turns.
Qed.

End Daemon.
End WatcherProofs.

(** ** Restart *)

(** The seconds slept in a run. *)
Fixpoint slept (t : list event) : Z :=
  match t with [] => 0 | Sleep s :: t' => s + slept t' | _ :: t' => slept t' end.

Ltac cmd_step :=
  lazymatch goal with
  | |- wp (system _) _ _ => apply wp_cmd
  | |- wp (sleep _) _ _ => apply wp_emit
  | _ => wp_step
  end.

(** The hub restarts, whatever the LED command returns, after the delay asked for; on the hub with the LED ring after at
    least the 5 seconds the ring needs. *)
Lemma restart_waits {Ev : Env} plat whenarg w : 0 <= restart_delay whenarg < 2 ^ 31 ->
  wp (hub_restart plat [] whenarg) (fun r w' => (r = Val 0 \/ r = Exit 1) /\ exists t, trace w' = (trace w ++ t)%list /\
    cmds t = match plat with
             | imxdimagic => ["/usr/bin/ringctrl shutdown"; "/usr/bin/ringctrl boot-linux"; "/sbin/reboot"]
             | beaglebone_yocto => ["/usr/bin/ledctrl shutdown"; "/sbin/reboot"]
             end /\ slept t = match plat with imxdimagic => Z.max 5 (restart_delay whenarg) | beaglebone_yocto => restart_delay whenarg end) w.
Proof.
  intros Hd. unfold hub_restart, with_help. cbn [help_opts]. cbv zeta. set (d := restart_delay whenarg) in *.
  assert (u32 d = d) as Hu by (unfold u32; rewrite Z.mod_small; lia).
  assert (d < 5 -> u32 (5 - d) = 5 - d) as Hu5 by (intros; unfold u32; rewrite Z.mod_small; lia).
  rewrite Hu. clearbody d. apply wp_bind, wp_cmd. cbn [seq_post].
  destruct plat; repeat cmd_step; to_prop; (split; [auto|]); eexists; (split; [unfold after_cmd; cbn [trace]; rewrite <- !app_assoc; reflexivity|]);
    (split; [reflexivity|]); rewrite ?Hu5 by lia; cbn; lia.
Qed.

(** ** Factory default *)

Section FactoryProofs.
Context {Ev : Env} {Up : Upkeep}.

(** The commands that matter for the data partition. *)
Definition formats (c : string) : bool := String.eqb c REFORMAT_STR || String.eqb c restore_firmware.

(** How often and with what result the partition was formatted. *)
Definition formatted (l : list string) : Prop :=
  l = [] \/ (l = [REFORMAT_STR] /\ exists v, fst (sh REFORMAT_STR v) <> 0) \/
  (l = [REFORMAT_STR; restore_firmware] /\ exists v, fst (sh REFORMAT_STR v) = 0).

(** Only the command that restores the firmware mounts a partition. *)
Context (Hsh : forall c v, c <> restore_firmware -> mnts (snd (sh c v)) = mnts (fs v)).

(** A step that ends, unless [popen] fails, with the same mounts and commands. *)
Definition same_part (w : world) (r : outcome unit) (w' : world) : Prop :=
  match r with
  | Val _ => mnts (fs w') = mnts (fs w) /\ issued formats (trace w') = issued formats (trace w)
  | Crash => exists c v, pipe c v = None
  | _ => False
  end.

Lemma same_cmd c w : formats c = false -> mnts (fs (after_cmd c w)) = mnts (fs w) /\ issued formats (trace (after_cmd c w)) = issued formats (trace w).
Proof.
  intros Hc. unfold after_cmd. cbn [fs trace]. rewrite issued_out by done. split; [|done]. apply Hsh. intros ->. done.
Qed.

Lemma wp_poke w : wp pokeWatchdog (same_part w) w.
Proof.
  unfold pokeWatchdog, writeWatchdog. apply wp_bind, wp_popen. cbn [seq_post]. set (c := snprintf 128 _). set (w1 := World _ _).
  assert (mnts (fs w1) = mnts (fs w) /\ issued formats (trace w1) = issued formats (trace w)) as [Hm Hi]
    by (split; [done|]; unfold w1; cbn [trace]; rewrite issued_app; apply app_nil_r). clearbody w1.
  destruct (pipe c w) as [out|] eqn:E.
  - apply wp_bind. apply wp_when; intros _; [|cbn [seq_post]; by apply wp_ret]. apply wp_bind, wp_cmd. cbn [seq_post]. apply wp_ret. cbn [seq_post].
    apply wp_ret. destruct (same_cmd (snprintf 128 ("echo A > " +:+ HW_WATCHDOG_DEV +:+ " 2> /dev/null")) w1) as [Hm1 Hi1]; [reflexivity|].
    split; [by rewrite <- Hm|by rewrite <- Hi].
  - cbn [when]. apply wp_bind, wp_bind, wp_cmd. cbn [seq_post]. apply wp_ret. cbn [seq_post]. unfold wp, crash. cbn. by exists c, w.
Qed.

(** The commands issued since [w], for any mounts. *)
Definition part_post (w : world) (r : outcome unit) (w' : world) : Prop :=
  match r with
  | Val _ => exists l, issued formats (trace w') = (issued formats (trace w) ++ l)%list /\ formatted l
  | Crash => exists c v, pipe c v = None
  | _ => False
  end.

Definition same (w w' : world) : Prop := mnts (fs w') = mnts (fs w) /\ issued formats (trace w') = issued formats (trace w).

Lemma part_same w w1 r w' : same w w1 -> part_post w1 r w' -> part_post w r w'.
Proof. intros [_ Hi] H. unfold part_post in *. by rewrite <- Hi. Qed.

Lemma wp_poke_then {A} (k : M A) (Q : outcome A -> world -> Prop) w : (forall w', same w w' -> wp k Q w') -> 
  ((exists c v, pipe c v = None) -> forall w', Q Crash w') -> wp (_ ← pokeWatchdog; k) Q w.
Proof.
  intros Hk HQ. eapply wp_seq; [apply wp_poke|]. intros [[]|z|z|] w' H; cbn [seq_post same_part] in *; [by apply Hk|done..|by apply HQ].
Qed.

(** The start of a turn: the other processes are killed. *)
Lemma wp_kill_then (k : M unit) (Q : outcome unit -> world -> Prop) w : (forall w', same w w' -> wp k Q w') -> 
  ((exists c v, pipe c v = None) -> forall w', Q Crash w') -> wp (_ ← system KILL_ALL; _ ← sleep 5; _ ← pokeWatchdog; k) Q w.
Proof.
  intros Hk HQ. apply wp_bind, wp_cmd. cbn [seq_post]. apply wp_bind, wp_emit. cbn [seq_post]. apply wp_poke_then; [|done].
  intros w' [Hm Hi]. apply Hk. cbn [fs trace] in *. rewrite issued_app in Hi. destruct (same_cmd KILL_ALL w eq_refl) as [Hm1 Hi1].
  split; [by rewrite Hm|]. rewrite Hi, Hi1. apply app_nil_r.
Qed.

Lemma same_trans w1 w2 w3 : same w1 w2 -> same w2 w3 -> same w1 w3.
Proof. intros [H1 H2] [H3 H4]. split; congruence. Qed.

(** Once the partition is not mounted, no turn unmounts it again. *)
Lemma wp_loop_gone n w : unmounted "/data" (mnts (fs w)) = None -> wp (reformat_loop n) (same_part w) w.
Proof.
  revert w. induction n as [|n IH]; intros w Hu; [by apply wp_ret|]. cbn [reformat_loop]. apply wp_kill_then; [|done]. intros w' Hs.
  apply wp_bind. unfold wp at 1, umount. rewrite (proj1 Hs), Hu. cbn [fst snd seq_post]. eapply wp_mono; [apply IH; by rewrite (proj1 Hs)|].
  intros [[]|z|z|] w'' H; cbn in *; try done. by apply (same_trans w w' w'').
Qed.

Lemma wp_loop n w : (forall ms, unmounted "/data" (mnts (fs w)) = Some ms -> unmounted "/data" ms = None) -> wp (reformat_loop n) (part_post w) w.
Proof.
  revert w. induction n as [|n IH]; intros w Hone; [apply wp_ret; exists []; rewrite app_nil_r; split; [done|by left]|].
  cbn [reformat_loop]. apply wp_kill_then; [|done]. intros w' Hs. eapply wp_mono; [|intros r u; by apply (part_same w w')].
  rewrite <- (proj1 Hs) in Hone. clear w Hs. rename w' into w. apply wp_bind. unfold wp at 1, umount.
  destruct (unmounted "/data" (mnts (fs w))) as [ms|] eqn:Em; [|cbn [fst snd seq_post]; by apply IH; rewrite Em].
  destruct (umount_ok "/data" w); cbn [fst snd seq_post]; [|by apply IH; rewrite Em].
  set (v := set_fs w _). assert (unmounted "/data" (mnts (fs v)) = None) as Hg by (apply (Hone ms); done).
  change (issued formats (trace w)) with (issued formats (trace v)). apply wp_bind, wp_cmd. cbn [seq_post]. change (part_post w) with (part_post v).
  set (v1 := after_cmd REFORMAT_STR v). assert (issued formats (trace v1) = (issued formats (trace v) ++ [REFORMAT_STR])%list) as Hi by by apply issued_in.
  assert (mnts (fs v1) = mnts (fs v)) as Hm by (apply Hsh; done).
  destruct (fst (sh REFORMAT_STR v) =? 0) eqn:Ez; to_prop; cbn [negb].
  - apply wp_poke_then; [|done]. intros v2 [_ Hi2]. apply wp_bind, wp_cmd. cbn [seq_post]. eapply wp_mono; [apply wp_poke|].
    intros [[]|z|z|] u H; cbn [same_part part_post] in *; try done. exists [REFORMAT_STR; restore_firmware]. destruct H as [_ H].
    unfold after_cmd in H. cbn [trace] in H. rewrite (issued_in formats (trace v2) restore_firmware) in H by done.
    rewrite H, Hi2, Hi, <- app_assoc. split; [done|]. right. right. eauto.
  - eapply wp_mono; [apply wp_loop_gone; by rewrite Hm|]. intros [[]|z|z|] u H; cbn [same_part part_post] in *; try done. exists [REFORMAT_STR]. destruct H as [_ H].
    rewrite H, Hi. split; [done|]. right. left. eauto.
Qed.

Lemma wp_other_then {A} c (k : Z -> M A) (Q : outcome A -> world -> Prop) w : formats c = false ->
  (forall st w', same w w' -> wp (k st) Q w') -> wp (st ← system c; k st) Q w.
Proof. intros Hc Hk. apply wp_bind, wp_cmd. cbn [seq_post]. apply Hk. by apply same_cmd. Qed.

Lemma wp_led_mode mode w : wp (IRIS_setLedMode mode) (same_part w) w.
Proof. unfold IRIS_setLedMode, usleep. wp_go; try done; subst; (split; [done|]); cbn [trace]; rewrite issued_app; apply app_nil_r. Qed.

Lemma same_refl w : same w w.
Proof. done. Qed.

Lemma wp_clean_agent plat w : wp (clean_agent plat) (same_part w) w.
Proof.
  unfold clean_agent, terminate_program. apply wp_bind, wp_ret. cbn [seq_post when].
  apply wp_other_then; [done|]. intros _ w1 H1. apply wp_poke_then; [|done]. intros w2 H2.
  apply wp_other_then; [done|]. intros _ w3 H3. apply wp_poke_then; [|done]. intros w4 H4. 
  assert (same w w4) as H by eauto using same_trans. clear H1 H2 H3 H4.
  apply (wp_seq _ _ (same_part w4)); [destruct plat; [by apply wp_ret|apply wp_led_mode]|].
  intros [[]|z|z|] w5 H5; cbn [same_part seq_post] in *; [|done..]. apply wp_bind, wp_emit. cbn [seq_post].
  eapply wp_mono; [apply wp_poke|]. intros [[]|z|z|] w6 H6; cbn [same_part] in *; try done. cbn [fs trace] in H6.
  rewrite issued_app in H6. destruct H, H5, H6 as [Hm Hi]. split; [congruence|]. rewrite Hi, app_nil_r. congruence.
Qed.

Lemma wp_reformat_data w : (forall ms, unmounted "/data" (mnts (fs w)) = Some ms -> unmounted "/data" ms = None) -> wp reformat_data (part_post w) w.
Proof.
  intros Hone. unfold reformat_data. apply wp_other_then; [done|]. intros _ w1 H1. apply wp_poke_then; [|done]. intros w2 H2.
  pose proof (same_trans _ _ _ H1 H2) as H. eapply wp_mono; [apply wp_loop; by rewrite (proj1 H)|]. intros r u. by apply part_same.
Qed.

(** A factory default ends with a restart of the hub, whatever fails on the way; the data partition is formatted at most once, and
    its firmware files are put back exactly if it was.  A format that fails is not tried again, although the loop is meant to: /data is
    not mounted any more, so every later attempt to unmount it fails. *)
Theorem factory_default_reboots plat w : (forall ms, unmounted "/data" (mnts (fs w)) = Some ms -> unmounted "/data" ms = None) ->
  wp (factory_default plat []) (fun r w' =>
    (r = Crash /\ exists c v, pipe c v = None) \/
    ((r = Val 0 \/ r = Exit 1) /\ (exists t, trace w' = (t ++ [Autoboot])%list) /\
     exists l, issued formats (trace w') = (issued formats (trace w) ++ l)%list /\ formatted l)) w.
Proof.
  intros Hone. unfold factory_default, with_help. cbn [help_opts].
  apply (wp_seq _ _ (same_part w)); [destruct plat; [by apply wp_ret|apply wp_led_mode]|].
  intros [[]|z|z|] w1 H1; cbn [same_part seq_post] in *; [|try done; by left..].
  eapply wp_seq; [apply wp_clean_agent|]. intros [[]|z|z|] w2 H2; cbn [same_part seq_post] in *; [|try done; by left..].
  pose proof (same_trans _ _ _ H1 H2) as H. eapply wp_seq; [apply wp_reformat_data; by rewrite (proj1 H)|].
  intros r w3 H3%(part_same w w2 r w3 H). clear H1 H2 H. destruct r as [[]|z|z|]; cbn [part_post seq_post] in *; [|try done; by left..].
  destruct H3 as (l & Hl & Hf).
  apply wp_other_then; [done|]. intros _ w4 [_ H4]. apply wp_poke_then; [|by left]. intros w5 [_ H5].
  apply wp_other_then; [done|]. intros _ w6 [_ H6]. apply wp_poke_then; [|by left]. intros w7 [_ H7].
  assert (issued formats (trace w7 ++ [Autoboot]) = (issued formats (trace w) ++ l)%list) as Hi by (rewrite issued_app, app_nil_r; congruence).
  unfold reboot, wp, mbind, M_bind, emit, get_world, mret, M_ret. cbn [fst snd fs trace]. destruct (reboot_ok _); cbn [negb fst snd exit trace]; right; (split; [auto|]); (split; [by exists (trace w7)|]); eauto.
Qed.

End FactoryProofs.

(** ** A hub on which the programs run *)

Module UpkeepToy.

(** Commands succeed and change nothing; batteryd runs once it was started. *)
Definition answer (c : string) (v : world) : option string :=
  if String.eqb c ("pidof " +:+ BATTERYD) then Some (match issued (String.eqb BATTERYD) (trace v) with [] => "" | _ => "411" +:+ String LF "" end)
  else if String.eqb c (cert_subject "/tmp/new") then Some ("subject= CN=00:11" +:+ String LF "")
  else Some ("one line" +:+ String LF "").

#[local] Instance toy_env : Env := {|
  sh := fun _ w => (0, fs w); pipe := answer; rd_ok := fun _ _ => true; wr_ok := fun _ _ => true;
  wr_len := fun _ _ n => n; mount_ok := fun _ _ _ => true; mem_ok := fun _ => true |}.
#[local] Instance toy_upkeep : Upkeep := {| rename_ok := fun _ _ _ => true; umount_ok := fun _ _ => true; reboot_ok := fun _ => true |}.

Definition hub : world := World (Fsys
  {[ mfg_file "/config/macAddr1" := "00:11" +:+ String LF ""; mfg_file "/keys/00:11.key" := "old key"; mfg_file "/certs/00:11.crt" := "old cert";
     "/tmp/new" := "new"; IRIS4GD_PATH := "" ]} ∅ [("/data", "/dev/data")] ∅ "/") [].

Lemma credential_update_safe_witness :
  let w := snd (update_key [] (Some "/tmp/new") hub) in
  (fst (update_key [] (Some "/tmp/new") hub) = Val 0 /\ files (fs w) !! mfg_file "/keys/00:11.key" = Some "new") /\
  (wp (update_key [] (Some "/tmp/new")) (replace_post (fun mac => "/keys/" +:+ mac +:+ ".key") (key_ok "/tmp/new" hub) "/tmp/new" hub) hub /\
   wp (update_cert [] (Some "/tmp/new")) (replace_post (fun mac => "/certs/" +:+ mac +:+ ".crt") (cert_ok "/tmp/new" hub) "/tmp/new" hub) hub).
Proof.
  cbv zeta. split; [split; vm_compute; reflexivity|].
  apply (credential_update_safe "/tmp/new" hub); [intros a b v; reflexivity|intros v; reflexivity|intros v; reflexivity|vm_compute; reflexivity].
Defined.

Lemma watcher_restarts_witness : wp (dwatcher 1) (fun r w' => r = Val tt /\ starts BATTERYD w' = (starts BATTERYD hub ++ [BATTERYD])%list) hub.
Proof.
  apply (watcher_restarts BATTERYD BATTERYD).
  - unfold watched. set_solver.
  - intros c v Hv. exact Hv.
  - exact O.
  - vm_compute. reflexivity.
  - intros v Hv. unfold alive. change (pipe _ v) with (answer ("pidof " +:+ BATTERYD) v). unfold answer, starts in *. rewrite Hv. vm_compute. reflexivity.
Defined.

Lemma factory_default_reboots_witness : wp (factory_default imxdimagic []) (fun r w' =>
    (r = Crash /\ exists c v, pipe c v = None) \/
    ((r = Val 0 \/ r = Exit 1) /\ (exists t, trace w' = (t ++ [Autoboot])%list) /\
     exists l, issued formats (trace w') = (issued formats (trace hub) ++ l)%list /\ formatted l)) hub.
Proof.
  apply factory_default_reboots; [intros c v _; reflexivity|]. intros ms H. vm_compute in H. injection H as <-. reflexivity.
Defined.

End UpkeepToy.
