(* ===== verification/Agent.v ===== *)
(** * irisagentd.c: the supervisor of the hub agent

    Installing what a debug dongle brings, unpacking the agent, its debug
    configuration, and the loop that restarts the agent when it ends.  The
    environment of the process, the count of restarts and the time of the last
    one are explicit state.  [chmod] and messages are not part of the model. *)
From Stdlib Require Import ZArith String Ascii Lia Bool.
From stdpp Require Import base gmap strings list numbers.
From S2P Require Import Prelude CLib Os IrisLib Traces Streams ImageFormat ValidateImage ImageRoundtrip Update WifiScan InitButtons SshAccess Upkeep.

Local Open Scope string_scope.
Local Open Scope Z_scope.

Definition INITIAL_DELAY : Z := 4.
Definition AGENT_START_SCRIPT : string := "/data/agent/bin/iris-agent".
Definition AGENT_LOG_FILE : string := "/tmp/hubAgent.log".
Definition AGENT_LAST_LOG : string := "/tmp/hubAgent.last".
Definition AGENT_DEF_TARFILE : string := "/home/agent/iris-agent-hub".
Definition UNPACK200_BINARY : string := "/usr/lib/jvm/java-7-openjdk/jre/bin/unpack200".
Definition STARTUP_SOUND : string := "/data/agent/conf/sounds/Start_Up.mp3".
Definition ZIGBEE_FW_FILE : string := "/data/firmware/zigbee-firmware-hwflow.bin".
Definition HOSTS_FILE : string := "/var/run/hosts".
Definition DEFAULT_HOSTNAME : string := "bh.irisbylowes.com".
Definition HUB_OS_BIN : string := "hubOS.bin".
Definition HUB_AGENT_BIN : string := "hubAgent.bin".
Definition HUB_AGENT_CKSUM : string := "/data/agent/lastAgentCksum.txt".
Definition SOFT_RESET_THRESHOLD : Z := 3.
Definition FACTORY_DEF_THRESHOLD : Z := 6.
Definition MIN_RUNNING_PERIOD : Z := 30 * 60.
Definition AGENT_ROOT_DIR : string := "/data/agent".
Definition AGENT_LIBS_DIR : string := "/data/agent/libs".
Definition DATA_IRIS_DIR : string := "/data/iris".
Definition AGENT_FACTORY_DEFAULT : string := "/data/agent/factory_reset".

(** What lies outside the program. *)
Class AgentEnv := {
  now : world -> Z;                                   (* [time(NULL)] *)
  fork_ok : world -> bool;
  others : world -> fsys;                             (* the files after a second in which the other programs ran *)
  ftw : string -> world -> option (list string);      (* what [nftw] visits, [None] if it fails *)
  remove_ok : string -> world -> bool;
  mkdir_ok : string -> world -> bool;
  chown_ok : string -> world -> bool;
  agent_user : world -> bool;                         (* [getpwnam("agent")] finds the user *)
  launch : gmap string string -> world -> fsys }.                (* a run of the agent with this environment, until it ends *)

(** ** sscanf *)

(** A literal of a format. *)
Fixpoint scan_lit (lit s : string) : option string :=
  match lit, s with
  | EmptyString, _ => Some s
  | String a l, String b t => if Ascii.eqb a b then scan_lit l t else None
  | String _ _, EmptyString => None
  end.

(** [sscanf(line, "name = %ns", buf)], the text stored. *)
Definition scan_word (name : string) (n : nat) (line : string) : option string :=
  s ← scan_lit name line; s ← scan_lit "=" (skip_ws s); t ← scan_s s; Some (stake n t).

(** [%[^\n]]: the rest of the line, if it is not empty. *)
Fixpoint until_lf (s : string) : string :=
  match s with
  | EmptyString => ""
  | String c s' => if Ascii.eqb c LF then "" else String c (until_lf s')
  end.

Definition scan_rest (s : string) : option string := match until_lf s with EmptyString => None | t => Some t end.

(** [sscanf(line, "name = %[^\n]", buf)] *)
Definition scan_text (name line : string) : option string :=
  s ← scan_lit name line; s ← scan_lit "=" (skip_ws s); scan_rest (skip_ws s).

(** [sscanf(line, "%s = %[^\n]", var, value)]: the two texts, as far as they are stored. *)
Definition scan_setting (line : string) : option (string * option string) :=
  match span_token (skip_ws line) with
  | (EmptyString, _) => None
  | (var, s) => Some (var, s ← scan_lit "=" (skip_ws s); scan_rest (skip_ws s))
  end.

(** ** Debug configuration *)

Definition char_in (c : ascii) (s : string) : bool := negb (all_chars (fun d => negb (Ascii.eqb c d)) s).

(** [setenv] and [unsetenv] refuse names that are empty or hold a [=]. *)
Definition env_name (var : string) : bool := negb (String.eqb var "") && negb (char_in "=" var).
Definition setenv (var value : string) (e : gmap string string) : gmap string string := if env_name var then <[var := value]> e else e.
Definition unsetenv (var : string) (e : gmap string string) : gmap string string := if env_name var then delete var e else e.

(** The local variables of [parseDebugConfig]. *)
Record debug_cfg := DebugCfg {
  flags : string; value : string; platformIP : string; platformHost : string; varSet : bool; cfg_env : gmap string string }.

Definition starts_quoted (v : string) : bool := String.prefix (DQ +:+ DQ) v.

Section Agent.
Context {Ev : Env} {Ag : AgentEnv} (plat : platform) (thread_ok : bool).

(** One line of the file. *)
Definition parse_line (line : string) (d : debug_cfg) : M debug_cfg :=
  if has_sub line "platform_ip" then
    mret (DebugCfg (flags d) (value d) (default (platformIP d) (scan_word "platform_ip" 16 line)) (platformHost d) (varSet d) (cfg_env d))
  else if has_sub line "platform_host" then
    mret (DebugCfg (flags d) (value d) (platformIP d) (default (platformHost d) (scan_word "platform_host" 63 line)) (varSet d) (cfg_env d))
  else if has_sub line "agent_debug" then
    mret (DebugCfg (default (flags d) (scan_text "agent_debug" line)) (value d) (platformIP d) (platformHost d) (varSet d) (cfg_env d))
  else if has_sub line " = " && negb (String.prefix "#" line) then
    match scan_setting line with
    | None => mret d
    | Some (var, v) =>
        _ ← store_token "var" 128 var;
        let v := default (value d) v in
        mret (DebugCfg (flags d) v (platformIP d) (platformHost d) true
          (if starts_quoted v then unsetenv var (cfg_env d) else setenv var v (cfg_env d)))
    end
  else mret d.

Fixpoint parse_lines (lines : list string) (d : debug_cfg) : M debug_cfg :=
  match lines with
  | [] => mret d
  | l :: r => d ← parse_line (cstr l) d; parse_lines r d
  end.

Definition LOCALHOST : string :=
  "127.0.0.1" +:+ String "009" "localhost.localdomain" +:+ String "009" "localhost" +:+ String LF "".

Definition createHostEntry (hostip hostname : string) : M Z :=
  f ← fopen_w HOSTS_FILE;
  if negb f then mret (-1)
  else
    _ ← fwrite HOSTS_FILE LOCALHOST;
    let host := if String.eqb hostname "" then DEFAULT_HOSTNAME else hostname in
    _ ← fwrite HOSTS_FILE (hostip +:+ String "009" host +:+ String LF "");
    mret 0.

Definition clearHostEntries : M unit :=
  f ← fopen_w HOSTS_FILE;
  when f (_ ← fwrite HOSTS_FILE LOCALHOST; mret tt).

(** The result, and the environment afterwards. *)
Definition parseDebugConfig (filename : string) (e : gmap string string) : M (Z * gmap string string) :=
  f ← fopen_r filename;
  match f with
  | None => mret (-1, e)
  | Some text =>
      d ← parse_lines (fgets_all (S (String.length text)) 256 text) (DebugCfg "" "" "" "" false e);
      r ← (if negb (String.eqb (platformIP d) "") && negb (varSet d) then createHostEntry (platformIP d) (platformHost d)
           else _ ← clearHostEntries; mret 0);
      if negb (r =? 0) then mret (-1, cfg_env d)
      else if negb (String.eqb (flags d) "") then mret (0, setenv "JAVA_DBG_OPTS" (flags d) (cfg_env d))
      else mret (0, unsetenv "JAVA_DBG_OPTS" (cfg_env d))
  end.

(** ** What a debug dongle brings *)

Definition find_cmd (size : nat) (name : string) : string :=
  snprintf size ("find . -name " +:+ name +:+ " -maxdepth 2 | grep -v '/\.'").

(** [fgets(filename, sizeof(filename), f)] without its line end. *)
Definition found (out : string) : M (option string) :=
  match fgets 128 out with
  | None => mret None
  | Some l => s ← chomp "filename" l; mret (Some s)
  end.

Definition check_hubos : M unit :=
  f ← popen (find_cmd 512 HUB_OS_BIN);
  match f with
  | None => crash
  | Some out =>
      n ← found out;
      match n with
      | None => mret tt
      | Some filename =>
          res ← system (snprintf 512 ("validate_image " +:+ filename));
          a ← (if res =? 0 then access FW_INSTALL_FILE else mret false);
          when a (
            res ← system (snprintf 512 ("fwinstall " +:+ FW_INSTALL_FILE));
            when (res =? 0) (_ ← system "hub_restart 2"; exit 0))
      end
  end.

(** [:] becomes [_]. *)
Fixpoint underscored (s : string) : string :=
  match s with
  | EmptyString => ""
  | String c s' => String (if Ascii.eqb c ":" then "_" else c)%char (underscored s')
  end.

Definition check_key : M unit :=
  f ← fopen_r MAC_ADDR1_FILE;
  match f ≫= fgets 24 with
  | None => mret tt
  | Some line =>
      macAddr ← chomp "macAddr" line;
      a ← access (snprintf 512 ("/tmp/mfg/keys/" +:+ macAddr +:+ ".key"));
      when (negb a) (
        f ← popen (find_cmd 512 (underscored macAddr +:+ ".key"));
        match f with
        | None => mret tt
        | Some out =>
            n ← found out;
            match n with
            | None => mret tt
            | Some filename =>
                st ← system (snprintf 512 ("update_key " +:+ filename));
                when (st =? 0) (_ ← system "hub_restart 2"; exit 0)
            end
        end)
  end.

Definition reinstall_cmd (filename : string) : string :=
  snprintf 512 ("rm -rf /data/iris; rm -rf /data/agent/libs; cd /data/agent; chown -R root .; chgrp -R root .; tar xf " +:+
    MEDIA_MOUNT_DIR +:+ sdrop 1 filename +:+ "; chown -R agent .; chgrp -R agent .").

Definition check_agent : M unit :=
  f ← popen (find_cmd 512 HUB_AGENT_BIN);
  match f with
  | None => crash
  | Some out =>
      n ← found out;
      match n with
      | None => mret tt
      | Some filename =>
          a ← access HUB_AGENT_CKSUM;
          install ← (if a : bool then st ← system (snprintf 512 ("sha256sum -s -c " +:+ HUB_AGENT_CKSUM)); mret (negb (st =? 0)) else mret true);
          when install (
            _ ← system (snprintf 512 ("sha256sum " +:+ filename +:+ " > " +:+ HUB_AGENT_CKSUM));
            st ← system (reinstall_cmd filename);
            when (negb (st =? 0)) (unlink HUB_AGENT_CKSUM))
      end
  end.

Definition checkForHubUpdates : M unit :=
  ssh ← IRIS_isSSHEnabled;
  when ssh (
    _ ← chdir MEDIA_MOUNT_DIR;
    ledMode ← IRIS_getLedMode "" 64;
    _ ← check_hubos;
    _ ← check_key;
    _ ← check_agent;
    IRIS_setLedMode ledMode).

(** ** The files of the agent *)

(** [nftw] with a callback: it ends at the first result that is not 0. *)
Fixpoint visit (cb : string -> M Z) (l : list string) : M Z :=
  match l with
  | [] => mret 0
  | p :: r => z ← cb p; if negb (z =? 0) then mret z else visit cb r
  end.

Definition nftw (dir : string) (cb : string -> M Z) : M Z :=
  w ← get_world; match ftw dir w with None => mret (-1) | Some l => visit cb l end.

Definition file_remove_cb (fpath : string) : M Z := fun w =>
  if remove_ok fpath w then
    let s := fs (del_file fpath w) in
    (Val 0, set_fs w (Fsys (files s) (dirs s ∖ {[fpath]}) (mnts s) (links s) (cwd s)))
  else (Val (-1), w).

Definition chown (p : string) : M Z := w ← get_world; mret (if chown_ok p w then 0 else -1).

Definition file_chown_cb (fpath : string) : M Z :=
  w ← get_world; if agent_user w then chown fpath else mret (-1).

(** The part of a name before its first [.pack.gz]. *)
Definition pack_base (filename : string) : option string :=
  rest ← strstr filename ".pack.gz"; Some (stake (String.length filename - String.length rest) filename).

Definition unpack_cmd (fpath base : string) : string := snprintf 512 (UNPACK200_BINARY +:+ " " +:+ fpath +:+ " " +:+ base +:+ ".jar").

(** [strncpy] leaves a name of 256 bytes or more without its end. *)
Definition file_unpack200_cb (fpath : string) : M Z :=
  w ← get_world;
  let pwd := agent_user w in
  _ ← when (256 <=? String.length fpath)%nat (emit (Overrun "filename" 256));
  match pack_base (stake 256 fpath) with
  | None => mret 0
  | Some base =>
      let jar := snprintf 512 (base +:+ ".jar") in
      _ ← unlink jar;
      st ← system (unpack_cmd fpath base);
      if negb (st =? 0) then mret (-1)
      else
        _ ← unlink fpath;
        if pwd then chown jar else crash
  end.

Definition factoryDefaultHubAgent : M unit :=
  _ ← nftw AGENT_ROOT_DIR file_remove_cb;
  _ ← nftw DATA_IRIS_DIR file_remove_cb;
  w ← get_world;
  if negb (mkdir_ok AGENT_ROOT_DIR w) then mret tt
  else
    _ ← mkdir AGENT_ROOT_DIR;
    _ ← chdir AGENT_ROOT_DIR;
    st ← system (snprintf 256 ("tar xf " +:+ AGENT_DEF_TARFILE));
    if negb (st =? 0) then mret tt
    else
      f ← fopen_w AGENT_FACTORY_DEFAULT;
      if negb f then crash
      else
        _ ← nftw AGENT_ROOT_DIR file_chown_cb;
        _ ← nftw AGENT_LIBS_DIR file_unpack200_cb;
        _ ← system "sync"; mret tt.

Definition softResetHubAgent : M unit :=
  f ← fopen_w AGENT_SOFT_RESET;
  if negb f then crash else mret tt.

(** ** Running the agent *)

(** [while (access(path, F_OK) == -1) sleep(1);] for at most [n] seconds: whether it ended. *)
Fixpoint wait_for (n : nat) (path : string) : M bool :=
  a ← access path;
  if a : bool then mret true
  else match n with
       | O => mret false
       | S n' => _ ← sleep 1; _ ← (fun w => (Val tt, World (others w) (trace w))); wait_for n' path
       end.

Definition AGENT_CMD : string :=
  snprintf 256 ("su - agent -p -c " +:+ DQ +:+ AGENT_START_SCRIPT +:+ " >> " +:+ AGENT_LOG_FILE +:+ " 2>&1" +:+ DQ).

(** The shell runs the agent and returns when it ends. *)
Definition run_agent (e : gmap string string) : M unit := fun w => (Val tt, World (launch e w) (trace w ++ [Cmd AGENT_CMD])).

(** [no_cfg:] *)
Definition no_cfg (e : gmap string string) : M (gmap string string) := _ ← clearHostEntries; mret (unsetenv "JAVA_DBG_OPTS" e).

(** The environment with the settings of the dongle; [stack] is what the uninitialised [hubID] holds. *)
Definition debug_environment (stack : string) (e : gmap string string) : M (gmap string string) :=
  _ ← chdir MEDIA_MOUNT_DIR;
  f ← popen (snprintf 256 ("cat " +:+ HUB_ID_FILE));
  match f with
  | None => crash
  | Some out =>
      _ ← match scan_s out with Some t => store_token "hubID" 32 t | None => mret tt end;
      let hubID := default stack (scan_s out) in
      let cfgFile := if String.eqb hubID "" then "" else snprintf 64 (strip_nl hubID +:+ ".cfg") in
      if String.eqb cfgFile "" then no_cfg e
      else
        f ← popen (find_cmd 256 cfgFile);
        match f with
        | None => no_cfg e
        | Some out =>
            n ← found out;
            match n with
            | None => no_cfg e
            | Some filename => '(_, e') ← parseDebugConfig filename e; mret e'
            end
        end
  end.

(** Returns when the agent has ended; [None] while it still waits after [n] seconds for the provisioning or
    the radio firmware. *)
Definition startHubAgent (n : nat) (stack : string) (e : gmap string string) : M (option (gmap string string)) :=
  ready ← match plat with
          | imxdimagic => a ← wait_for n PROVISIONED_FILE; if a : bool then wait_for n ZIGBEE_FW_FILE else mret false
          | beaglebone_yocto => mret true
          end;
  if negb ready then mret None
  else
    e ← debug_environment stack e;
    w ← get_world;
    _ ← when (fork_ok w) (
      _ ← IRIS_setLedMode "boot-agent";
      _ ← match plat with imxdimagic => IRIS_playAudio thread_ok STARTUP_SOUND 0 | beaglebone_yocto => mret tt end;
      run_agent e);
    mret (Some e).

(** ** The loop *)

Record supervisor := Supervisor { restartCount : Z; lastRestart : Z; s_env : gmap string string }.

(** What is done about the agent that just ended: the new count. *)
Definition on_failure (s : supervisor) : M Z :=
  w ← get_world;
  if now w - lastRestart s <? MIN_RUNNING_PERIOD then
    let count := restartCount s + 1 in
    a ← (if FACTORY_DEF_THRESHOLD <? count then access AGENT_FACTORY_DEFAULT else mret false);
    if a : bool then _ ← factoryDefaultHubAgent; mret 0
    else _ ← when (SOFT_RESET_THRESHOLD <? count) softResetHubAgent; mret count
  else mret 0.

Definition save_log : M unit :=
  l ← access AGENT_LOG_FILE;
  when l (_ ← system (snprintf 128 ("mv " +:+ AGENT_LOG_FILE +:+ " " +:+ AGENT_LAST_LOG)); mret tt).

(** The body of the loop. *)
Definition agent_turn (n : nat) (stack : string) (s : supervisor) : M (option supervisor) :=
  _ ← save_log;
  count ← on_failure s;
  w ← get_world;
  e ← startHubAgent n stack (s_env s);
  mret (Supervisor count (now w) <$> e).

(** One turn for each element of [stacks]; [None] while the supervisor waits. *)
Fixpoint agent_turns (n : nat) (stacks : list string) (s : supervisor) : M (option supervisor) :=
  match stacks with
  | [] => mret (Some s)
  | stack :: r => s' ← agent_turn n stack s; match s' with None => mret None | Some s' => agent_turns n r s' end
  end.

Definition irisagentd (n : nat) (stack : string) (stacks : list string) (e : gmap string string) : M (option supervisor) :=
  _ ← sleep INITIAL_DELAY;
  a ← access AGENT_START_SCRIPT;
  if negb a then exit 1
  else
    _ ← checkForHubUpdates;
    r ← nftw AGENT_LIBS_DIR file_unpack200_cb;
    _ ← when (negb (r =? 0)) factoryDefaultHubAgent;
    w ← get_world;
    e ← startHubAgent n stack e;
    match e with
    | None => mret None
    | Some e => agent_turns n stacks (Supervisor 0 (now w) e)
    end.

End Agent.

(** ** The restart policy *)

(** The command that installs the agent of the image again. *)
Definition REINSTALL : string := snprintf 256 ("tar xf " +:+ AGENT_DEF_TARFILE).

Section Policy.
Context {Ev : Env} {Ag : AgentEnv} (plat : platform) (thread_ok : bool).

(** A hub that is set up, and whose agent took notice of its installation. *)
Definition settled (s : fsys) : Prop :=
  mnts s = [] /\ files s !! AGENT_FACTORY_DEFAULT = None /\ (AGENT_FACTORY_DEFAULT ∉ dirs s) /\
  is_Some (files s !! PROVISIONED_FILE) /\ is_Some (files s !! ZIGBEE_FW_FILE).

(** With a request for a soft reset if [b]; [l] are the installations so far. *)
Definition waiting (b : bool) (l : list string) (v : world) : Prop :=
  settled (fs v) /\ (b = true -> files (fs v) !! AGENT_SOFT_RESET = Some "") /\ issued (String.eqb REINSTALL) (trace v) = l.

(** The commands run by the supervisor, and the agent, leave such a hub settled; commands do not withdraw the request. *)
Hypothesis (Hsh : forall c v, settled (fs v) -> settled (snd (sh c v)) /\
  (files (fs v) !! AGENT_SOFT_RESET = Some "" -> files (snd (sh c v)) !! AGENT_SOFT_RESET = Some "")).
Hypothesis (Hla : forall e v, settled (fs v) -> settled (launch e v)).

Lemma settled_put p t v : is_abs p -> p <> AGENT_FACTORY_DEFAULT -> settled (fs v) -> settled (fs (put_file p t v)).
Proof.
  intros Ha Hp (Hm & Hf & Hd & Hpr & Hz). unfold put_file, settled. cbn [fs set_fs files mnts dirs]. rewrite resolve_plain by done.
  split_and!; [done|by rewrite lookup_insert_ne|done|..].
  - destruct (decide (p = PROVISIONED_FILE)) as [->|]; [rewrite lookup_insert_eq; by eexists|by rewrite lookup_insert_ne].
  - destruct (decide (p = ZIGBEE_FW_FILE)) as [->|]; [rewrite lookup_insert_eq; by eexists|by rewrite lookup_insert_ne].
Qed.

Lemma waiting_put b l p t v : is_abs p -> p <> AGENT_FACTORY_DEFAULT -> p <> AGENT_SOFT_RESET -> waiting b l v -> waiting b l (put_file p t v).
Proof.
  intros Ha Hp Hs (Hv & Hb & Hl). split_and!; [by apply settled_put| |done]. intros E. unfold put_file. cbn [fs set_fs files]. rewrite resolve_plain; [|apply Hv|done].
  by rewrite lookup_insert_ne; [apply Hb|].
Qed.

Lemma waiting_open b l p : is_abs p -> p <> AGENT_FACTORY_DEFAULT -> p <> AGENT_SOFT_RESET -> stable (waiting b l) (fopen_w p).
Proof. intros Ha Hp Hs v Hv. unfold fopen_w. destruct (wr_ok p v); [by apply waiting_put|done]. Qed.

Lemma waiting_fwrite b l p t : is_abs p -> p <> AGENT_FACTORY_DEFAULT -> p <> AGENT_SOFT_RESET -> stable (waiting b l) (fwrite p t).
Proof. intros Ha Hp Hs v Hv. by apply waiting_put. Qed.

Lemma waiting_emit b l e : match e with Cmd _ => False | _ => True end -> stable (waiting b l) (emit e).
Proof. intros He v (Hv & Hb & Hl). split_and!; [done..|]. by apply (sofar_emit _ l e He v). Qed.

Lemma waiting_popen b l c : stable (waiting b l) (popen c).
Proof. intros v (Hv & Hb & Hl). split_and!; [done..|]. by apply (sofar_popen _ l c v). Qed.

Lemma waiting_system b l c : String.eqb REINSTALL c = false -> stable (waiting b l) (system c).
Proof.
  intros Hc v (Hv & Hb & Hl). pose proof (sofar_other _ l c Hc v Hl) as Hi. destruct (Hsh c v Hv) as [H1 H2]. unfold system in *.
  destruct (sh c v) as [st s]. split_and!; [done|by intros E; apply H2, Hb|done].
Qed.

Lemma waiting_same {A} b l (m : M A) : (forall v, snd (m v) = v) -> stable (waiting b l) m.
Proof. intros Hm v Hv. by rewrite Hm. Qed.

Lemma waiting_chdir b l p : stable (waiting b l) (chdir p).
Proof. intros v (Hv & Hb & Hl). by split_and!. Qed.

#[local] Hint Resolve waiting_popen waiting_chdir : steps.
#[local] Hint Extern 1 (stable (waiting _ _) (emit _)) => (by apply waiting_emit) : steps.
#[local] Hint Extern 1 (stable (waiting _ _) (sleep _)) => (by apply waiting_emit) : steps.
#[local] Hint Extern 1 (stable (waiting _ _) (usleep _)) => (by apply waiting_emit) : steps.
#[local] Hint Extern 1 (stable (waiting _ _) (fopen_w _)) => (by apply waiting_open) : steps.
#[local] Hint Extern 1 (stable (waiting _ _) (fwrite _ _)) => (by apply waiting_fwrite) : steps.
#[local] Hint Extern 1 (stable (waiting _ _) (access _)) => (by apply waiting_same) : steps.
#[local] Hint Extern 1 (stable (waiting _ _) (fopen_r _)) => (by apply waiting_same) : steps.
#[local] Hint Extern 1 (stable (waiting _ _) get_world) => (by apply waiting_same) : steps.

Lemma waiting_parse b l lines d : stable (waiting b l) (parse_lines lines d).
Proof. revert d. induction lines as [|x r IH]; intros d; cbn [parse_lines]; unfold parse_line, store_token; steps; apply IH. Qed.

Lemma returns_parse lines d : returns (parse_lines lines d).
Proof. revert d. induction lines as [|x r IH]; intros d; cbn [parse_lines]; unfold parse_line, store_token; steps; apply IH. Qed.

#[local] Hint Resolve waiting_parse returns_parse : steps.

Lemma waiting_config b l f e : stable (waiting b l) (parseDebugConfig f e).
Proof. unfold parseDebugConfig, createHostEntry, clearHostEntries. steps. Qed.

Lemma returns_config f e : returns (parseDebugConfig f e).
Proof. unfold parseDebugConfig, createHostEntry, clearHostEntries. steps. Qed.

#[local] Hint Resolve waiting_config returns_config : steps.

Lemma wp_steps {A} (I : world -> Prop) (m : M A) v : returns m -> stable I m -> I v -> wp m (fun r v' => exists a, r = Val a /\ I v') v.
Proof. intros Hr Hs Hv. apply (wp_returned I); eauto. Qed.

Hypothesis (Hpipe : forall c v, pipe c v <> None).
Hypothesis (Hfork : forall v, fork_ok v = true).
Hypothesis (Hsoft : forall v, wr_ok AGENT_SOFT_RESET v = true).

Lemma wp_debug_environment b l stack e v : waiting b l v -> wp (debug_environment stack e) (fun r v' => exists e', r = Val e' /\ waiting b l v') v.
Proof.
  intros Hv. unfold debug_environment. apply wp_bind. apply wp_tt; [done|]. cbn [seq_post]. apply wp_bind, wp_popen. cbn [seq_post].
  set (u := snd (chdir _ v)). assert (waiting b l u) as Hu by by apply waiting_chdir. pose proof (Hpipe (snprintf 256 ("cat " +:+ HUB_ID_FILE)) u) as Hp.
  destruct (pipe _ u) as [out|]; [|done]. apply wp_steps; [|unfold no_cfg, clearHostEntries, found, chomp, store_token; steps|by apply (waiting_popen b l _ u)].
  unfold no_cfg, clearHostEntries, found, chomp, store_token; steps.
Qed.

Lemma settled_access p v : settled (fs v) -> p ∈ [PROVISIONED_FILE; ZIGBEE_FW_FILE] -> access p v = (Val true, v).
Proof.
  intros (Hm & _ & _ & [x Hx] & [y Hy]) Hp. unfold access, get. rewrite resolve_plain; [|done|set_solver].
  rewrite !elem_of_cons in Hp. destruct Hp as [->|[->|Hp]]; [by rewrite Hx|by rewrite Hy|by apply elem_of_nil in Hp].
Qed.

Lemma settled_wait n p v : settled (fs v) -> p ∈ [PROVISIONED_FILE; ZIGBEE_FW_FILE] -> wait_for n p v = (Val true, v).
Proof. intros Hv Hp. destruct n; cbn [wait_for]; unfold mbind, M_bind; by rewrite settled_access. Qed.

(** The agent runs in [u]. *)
Lemma wp_startHubAgent b l n stack e v : waiting b l v ->
  wp (startHubAgent plat thread_ok n stack e) (fun r v' => exists e' u, r = Val (Some e') /\ waiting b l u /\ fs v' = launch e' u /\ waiting false l v') v.
Proof.
  intros Hv. unfold startHubAgent. apply (wp_seq _ _ (fun r u => r = Val true /\ u = v)).
  { destruct plat; [done|]. unfold wp, mbind, M_bind. rewrite settled_wait; [|apply Hv|set_solver]. rewrite settled_wait; [done|apply Hv|set_solver]. }
  intros r u [-> ->]. cbn [seq_post negb]. eapply wp_seq; [by apply wp_debug_environment|]. intros r u (e' & -> & Hu). cbn [seq_post].
  apply wp_bind. unfold wp at 1, get_world. cbn [fst snd seq_post]. rewrite Hfork. cbn [when]. apply wp_bind.
  eapply wp_seq; [apply (wp_steps (waiting b l) (IRIS_setLedMode "boot-agent") u); [unfold IRIS_setLedMode; steps..|done]|].
  intros r u1 (a & -> & Hu1). cbn [seq_post].
  apply (wp_seq _ _ (fun r u' => r = Val tt /\ waiting b l u')).
  { destruct plat; [by apply wp_ret|]. eapply wp_mono; [apply (wp_steps (waiting b l)); [steps| |done]|by intros r u' ([] & -> & H)].
    unfold IRIS_playAudio, playAudio. steps. by apply waiting_system. }
  intros r u2 [-> Hu2]. cbn [seq_post]. unfold wp, run_agent. cbn [fst snd seq_post]. exists e', u2. split_and!; [done..|].
  destruct Hu2 as (H1 & H2 & H3). split_and!; [by apply Hla|done|].
  change (issued (String.eqb REINSTALL) (trace u2 ++ [Cmd AGENT_CMD]) = l). by rewrite issued_out.
Qed.

Lemma wp_on_failure s l v : waiting false l v -> let count := if now v - lastRestart s <? MIN_RUNNING_PERIOD then restartCount s + 1 else 0 in
  wp (on_failure s) (fun r v' => r = Val count /\ waiting (SOFT_RESET_THRESHOLD <? count) l v') v.
Proof.
  intros Hv. cbv zeta. unfold on_failure. apply wp_bind. unfold wp at 1, get_world. cbn [fst snd seq_post].
  destruct (_ <? MIN_RUNNING_PERIOD); [|apply wp_ret; split; [done|]; done]. set (count := restartCount s + 1).
  apply (wp_seq _ _ (fun r u => r = Val false /\ u = v)).
  { destruct (_ <? count); [|by apply wp_ret]. destruct Hv as ((Hm & Hf & Hd & _) & _). unfold wp, access, get. rewrite resolve_plain by done.
    rewrite Hf. cbn [fst snd]. split; [|done]. by rewrite bool_decide_eq_false_2. }
  intros r u [-> ->]. cbn [seq_post]. destruct (SOFT_RESET_THRESHOLD <? count); cbn [when]; [|by apply wp_bind, wp_ret, wp_ret].
  apply wp_bind. unfold softResetHubAgent. apply wp_bind. unfold wp at 1, fopen_w. rewrite Hsoft. cbn [fst snd seq_post negb]. apply wp_ret. cbn [seq_post].
  apply wp_ret. split; [done|]. destruct Hv as (H1 & _ & H3). split_and!; [by apply settled_put| |done]. intros _.
  unfold put_file. cbn [fs set_fs files]. rewrite resolve_plain; [|apply H1|done]. apply lookup_insert_eq.
Qed.

(** The count of restarts after runs of the agent: for each the time it was seen to have ended, and the time of the next start. *)
Fixpoint restarts (count last : Z) (ts : list (Z * Z)) : Z :=
  match ts with
  | [] => count
  | (t, t') :: r => restarts (if t - last <? MIN_RUNNING_PERIOD then count + 1 else 0) t' r
  end.

Lemma wp_agent_turn l n stack s v : waiting false l v ->
  wp (agent_turn plat thread_ok n stack s) (fun r v' => exists u1 u2 e u, let count := restarts (restartCount s) (lastRestart s) [(now u1, now u2)] in
    r = Val (Some (Supervisor count (now u2) e)) /\ waiting (SOFT_RESET_THRESHOLD <? count) l u /\ fs v' = launch e u /\ waiting false l v') v.
Proof.
  intros Hv. unfold agent_turn. eapply wp_seq; [apply (wp_steps (waiting false l) save_log v); [unfold save_log; steps..|done]|].
  { by apply waiting_system. }
  intros r u1 (a & -> & Hu1). cbn [seq_post]. eapply wp_seq; [apply (wp_on_failure s l u1 Hu1)|]. cbv zeta. intros r u2 [-> Hu2]. cbn [seq_post].
  apply wp_bind. unfold wp at 1, get_world. cbn [fst snd seq_post]. eapply wp_seq; [by apply wp_startHubAgent|].
  intros r v' (e & u & -> & Hu & Hfs & Hv'). cbn [seq_post]. apply wp_ret. exists u1, u2, e, u. by split_and!.
Qed.

Lemma wp_agent_turns l n stacks s w : waiting false l w ->
  wp (agent_turns plat thread_ok n stacks s) (fun r w' => exists s' ts, r = Val (Some s') /\
    length ts = length stacks /\ Forall (fun t => exists u1 u2, t = (now u1, now u2)) ts /\
    restartCount s' = restarts (restartCount s) (lastRestart s) ts /\
    (if stacks is [] then s' = s /\ w' = w else exists u, fs w' = launch (s_env s') u /\
       (SOFT_RESET_THRESHOLD < restartCount s' -> files (fs u) !! AGENT_SOFT_RESET = Some "")) /\ waiting false l w') w.
Proof.
  revert s w. induction stacks as [|stack stacks IH]; intros s w Hv; [apply wp_ret; exists s, []; by split_and!|].
  cbn [agent_turns]. eapply wp_seq; [by apply wp_agent_turn|]. intros r v (u1 & u2 & e & u & -> & Hu & Hfs & Hv'). cbn [seq_post].
  set (s1 := Supervisor _ _ _). eapply wp_mono; [by apply (IH s1 v)|]. intros r v' (s' & ts & -> & Hlen & Hts & Hc & Hrun & Hw').
  exists s', ((now u1, now u2) :: ts). split_and!; [done|cbn; lia|constructor; [by eexists _, _|done]|by rewrite Hc| |done].
  destruct stacks as [|x stacks]; [|by apply Hrun]. destruct Hrun as [-> ->]. exists u. split; [done|]. intros Hn. destruct Hu as (_ & Hu & _).
  apply Hu. by apply Z.ltb_lt.
Qed.

(** The supervisor never gives up on an agent that ends: on a hub that is set up it runs it again after every end, with a request to
    reset itself whenever more than three runs in a row were shorter than half an hour, and [restartCount] counts those.  It
    installs the agent again in no case: the test for that wants the file the agent deletes when it notices a new
    installation, however often the agent has failed. *)
Theorem agent_restart_policy n stacks s w : settled (fs w) ->
  wp (agent_turns plat thread_ok n stacks s) (fun r w' => exists s' ts, r = Val (Some s') /\
    length ts = length stacks /\ Forall (fun t => exists u1 u2, t = (now u1, now u2)) ts /\
    restartCount s' = restarts (restartCount s) (lastRestart s) ts /\
    (stacks <> [] -> exists u, fs w' = launch (s_env s') u /\
       (SOFT_RESET_THRESHOLD < restartCount s' -> files (fs u) !! AGENT_SOFT_RESET = Some "")) /\
    issued (String.eqb REINSTALL) (trace w') = issued (String.eqb REINSTALL) (trace w)) w.
Proof.
  intros Hw. eapply wp_mono; [by apply (wp_agent_turns (issued (String.eqb REINSTALL) (trace w)))|].
  intros r w' (s' & ts & -> & Hlen & Hts & Hc & Hrun & Hw'). exists s', ts. split_and!; [done..| |apply Hw']. by destruct stacks.
Qed.

End Policy.

(** ** Unpacking *)

Definition PACK : string := ".pack.gz".

Lemma prefix_app_cases k b t : String.prefix k (b +:+ t) = true ->
  String.prefix k b = true \/ exists k', k = b +:+ k' /\ String.prefix k' t = true.
Proof.
  revert b. induction k as [|c k IH]; intros b H; [left; by destruct b|]. destruct b as [|d b]; [right; by exists (String c k)|].
  cbn [String.append String.prefix] in *. destruct (ascii_dec c d) as [->|]; [|done]. destruct (IH b H) as [?|(k' & -> & ?)]; [by left|right].
  by exists k'.
Qed.

Lemma prefix_app_l k b t : String.prefix k b = true -> String.prefix k (b +:+ t) = true.
Proof.
  revert b. induction k as [|c k IH]; intros b H; [by destruct (b +:+ t)|]. destruct b as [|d b]; [done|].
  cbn [String.append String.prefix] in *. destruct (ascii_dec c d) as [->|]; [by apply IH|done].
Qed.

(** [.pack.gz] does not begin in a name and go on in the [.jar] put behind it. *)
Lemma no_pack_across c b : String.prefix PACK (String c b) = false -> String.prefix PACK (String c b +:+ ".jar") = false.
Proof.
  intros H. destruct (String.prefix PACK (String c b +:+ ".jar")) eqn:E; [|done]. apply prefix_app_cases in E as [E|(k & Hk & E)]; [congruence|].
  exfalso. unfold PACK in Hk. do 8 (cbn [String.append] in Hk; injection Hk as <- Hk; destruct b as [|? b]; [cbn [String.append] in Hk; subst k; first [discriminate E | discriminate H]|]).
  discriminate Hk.
Qed.

Lemma strstr_length s k r : strstr s k = Some r -> (String.length r <= String.length s)%nat.
Proof.
  induction s as [|c s IH]; cbn [strstr]; (destruct (String.prefix k _); [intros [= <-]; done|]); [done|]. intros H%IH. cbn. lia.
Qed.

Lemma jar_no_pack s base : pack_base s = Some base -> strstr (base +:+ ".jar") PACK = None.
Proof.
  unfold pack_base. destruct (strstr s ".pack.gz") as [rest|] eqn:E; [|done]. cbn. intros [= <-]. change ".pack.gz" with PACK in E. revert E.
  induction s as [|c s IH]; [done|]. cbn [strstr]. destruct (String.prefix PACK (String c s)) eqn:Ep.
  - intros [= <-]. by rewrite Nat.sub_diag.
  - intros E. pose proof (strstr_length _ _ _ E). replace (String.length (String c s) - String.length rest)%nat with (S (String.length s - String.length rest)) by (cbn; lia).
    cbn [stake]. set (b := stake _ s) in *. cbn [String.append strstr]. replace (String c (b +:+ ".jar")) with (String c b +:+ ".jar") by done.
    rewrite no_pack_across; [by apply IH|]. destruct (String.prefix PACK (String c b)) eqn:Eb; [|done].
    rewrite <- Ep. symmetry. rewrite <- (stake_sdrop (String.length s - String.length rest) s). fold b. by apply (prefix_app_l _ (String c b)).
Qed.

Section Unpack.
Context {Ev : Env} {Ag : AgentEnv}.

(** A packed library: an absolute name that fits the buffer. *)
Definition packed (p : string) : Prop := is_abs p /\ (String.length p < 256)%nat /\ exists base, pack_base p = Some base.

(** unpack200 writes the jar file it is given, and nothing else. *)
Hypothesis (Hun : forall p base v, pack_base p = Some base -> mnts (snd (sh (unpack_cmd p base) v)) = mnts (fs v) /\
  forall q, q <> base +:+ ".jar" -> files (snd (sh (unpack_cmd p base) v)) !! q = files (fs v) !! q).

(** unpack200 has unpacked [p] when it held [x]. *)
Definition unpacked (p x : string) : Prop :=
  exists v base, pack_base p = Some base /\ get p v = Some x /\ fst (sh (unpack_cmd p base) v) = 0.

(** From [w] to [w'] packed libraries only disappear, and only when they were unpacked. *)
Definition safe (w w' : world) : Prop := plain w' /\ forall p, packed p ->
  (forall x, get p w = Some x -> get p w' = Some x \/ unpacked p x) /\ (get p w = None -> get p w' = None).

Lemma safe_trans w1 w2 w3 : safe w1 w2 -> safe w2 w3 -> safe w1 w3.
Proof.
  intros [_ H1] [P H2]. split; [done|]. intros p Hp. destruct (H1 p Hp) as [Ha Hb], (H2 p Hp) as [Hc Hd]. split; [|auto].
  intros x Hx. destruct (Ha x Hx) as [Hx'|]; [auto|by right].
Qed.

Lemma safe_refl w : plain w -> safe w w.
Proof. intros P. split; [done|]. auto. Qed.

(** A packed library is not a jar file. *)
Lemma packed_not_jar p q base : packed p -> pack_base q = Some base -> p <> base +:+ ".jar".
Proof.
  intros (_ & _ & b & Hb) Hq ->. apply jar_no_pack in Hq. unfold pack_base in Hb. change ".pack.gz" with PACK in Hb. by rewrite Hq in Hb.
Qed.

Lemma safe_same w w' : plain w' -> (forall p, packed p -> get p w' = get p w) -> safe w w'.
Proof. intros P H. split; [done|]. intros p Hp. rewrite H by done. auto. Qed.

Lemma jar_abs q base : is_abs q -> pack_base q = Some base -> is_abs (base +:+ ".jar").
Proof.
  unfold is_abs, pack_base. destruct q as [|c q]; [done|]. cbn [String.prefix]. destruct (ascii_dec "/" c) as [<-|]; [|done]. intros _. cbn [strstr].
  change (String.prefix ".pack.gz" (String "/" q)) with false. cbv iota. destruct (strstr q ".pack.gz") as [rest|] eqn:E; [|done]. apply strstr_length in E.
  cbn [mbind option_bind]. intros [= <-]. cbn [String.length]. replace (S (String.length q) - String.length rest)%nat with (S (String.length q - String.length rest)) by lia.
  cbn [stake String.append String.prefix]. by destruct (stake _ q +:+ ".jar").
Qed.

(** The callback on one file. *)
Definition unpack_post (p : string) (w : world) (r : outcome Z) (w' : world) : Prop :=
  safe w w' /\ match r with
               | Val z => z = 0 -> packed p -> get p w' = None
               | Crash => exists v, agent_user v = false
               | _ => False
               end.

Lemma wp_unpack p w : plain w -> is_abs p -> (String.length p < 256)%nat -> wp (file_unpack200_cb p) (unpack_post p w) w.
Proof.
  intros P Ha Hl. unfold file_unpack200_cb. apply wp_bind. unfold wp at 1, get_world. cbn [fst snd seq_post]. cbv zeta.
  replace (256 <=? String.length p)%nat with false by (symmetry; apply Nat.leb_gt; lia). apply wp_bind, wp_ret. cbn [seq_post].
  rewrite stake_all by lia. destruct (pack_base p) as [base|] eqn:Hb.
  2: { apply wp_ret. split; [by apply safe_refl|]. intros _ (_ & _ & b & E). congruence. }
  assert (String.length base <= 255)%nat as Hbl.
  { unfold pack_base in Hb. destruct (strstr p ".pack.gz"); [|done]. injection Hb as <-. rewrite stake_len. lia. }
  rewrite snprintf_id by (rewrite slen_app; cbn [String.length]; lia). pose proof (jar_abs p base Ha Hb) as Hj.
  wp_step. wp_step. cbn [seq_post]. set (w1 := del_file _ w).
  assert (safe w w1) as S1.
  { apply safe_same; [done|]. intros q Hq. apply get_del_ne. rewrite !resolve_plain by (done || apply Hq). by apply (packed_not_jar q p). }
  apply wp_bind, wp_cmd. cbn [seq_post]. set (w2 := after_cmd _ w1). destruct (Hun p base w1 Hb) as [Hm Hf].
  assert (plain w2) as P2 by (unfold plain, w2, after_cmd; cbn [fs]; by rewrite Hm).
  assert (forall q, packed q -> get q w2 = get q w1) as G2.
  { intros q Hq. unfold get. rewrite !resolve_plain by (done || apply Hq). apply Hf. by apply (packed_not_jar q p). }
  assert (safe w w2) as S2 by (apply (safe_trans w w1); [done|by apply safe_same]).
  destruct (fst (sh (unpack_cmd p base) w1) =? 0) eqn:Ez; to_prop; cbn [negb]; [|by apply wp_ret; split].
  wp_step. wp_step. cbn [seq_post]. set (w3 := del_file p w2).
  assert (safe w w3) as S3.
  { apply (safe_trans w w2); [done|]. split; [done|]. intros q Hq. destruct (decide (q = p)) as [->|Hne].
    - split; [|intros _; apply get_del_eq]. intros x Hx. right. exists w1, base. split_and!; [done| |done]. by rewrite <- G2.
    - unfold w3. rewrite get_del_ne; [auto|]. by rewrite !resolve_plain by (done || apply Hq). }
  destruct (agent_user w) eqn:Eu; [|split; [done|by exists w]]. unfold chown. apply wp_bind. unfold wp at 1, get_world. cbn [fst snd seq_post].
  apply wp_ret. split; [done|]. intros _ _. apply get_del_eq.
Qed.

(** No library of the agent is lost: whatever happens while they are unpacked, and wherever it stops, a packed library is still there as it
    was, unless unpack200 has unpacked it; when all is done no packed library is left; it stops with a crash only if the user of
    the agent does not exist. *)
Theorem packs_never_lost l w : plain w -> Forall (fun p => is_abs p /\ (String.length p < 256)%nat) l ->
  wp (visit file_unpack200_cb l) (fun r w' =>
    (forall p x, packed p -> get p w = Some x -> get p w' = Some x \/ unpacked p x) /\
    match r with
    | Val z => z = 0 -> forall p, p ∈ l -> packed p -> get p w' = None
    | Crash => exists v, agent_user v = false
    | _ => False
    end) w.
Proof.
  intros P Hl. enough (wp (visit file_unpack200_cb l) (fun r w' => safe w w' /\
    match r with Val z => z = 0 -> forall p, p ∈ l -> packed p -> get p w' = None | Crash => exists v, agent_user v = false | _ => False end) w) as H.
  { eapply wp_mono; [exact H|]. intros r w' [[_ Hs] Hr]. split; [|done]. intros p x Hp. by apply Hs. }
  revert w P. induction Hl as [|p l [Ha Hp] _ IH]; intros w P; cbn [visit].
  { apply wp_ret. split; [by apply safe_refl|]. intros _ p Hp. by apply elem_of_nil in Hp. }
  eapply wp_seq; [by apply wp_unpack|]. intros [z|z|z|] w1 [S1 H1]; cbn [seq_post]; [|done..].
  destruct (z =? 0) eqn:Ez; to_prop; cbn [negb]; [|apply wp_ret; split; [done|congruence]].
  eapply wp_mono; [apply (IH w1), S1|]. intros r w2 [S2 H2]. split; [by apply (safe_trans w w1)|]. destruct r as [z'|z'|z'|]; try done.
  intros Hz' q Hq Hpk. apply elem_of_cons in Hq as [->|Hq]; [|by apply H2]. apply S2; [done|]. by apply H1.
Qed.

End Unpack.

(** ** Firmware of a dongle *)

Section Dongle.
Context {Child : Env} {Cr : Crypto} {Tools : @HubTools Child Cr} {Ev : Env} {Ag : AgentEnv} (stack : string).

Definition installs (v : world) : list string := issued (String.eqb (install_cmd false)) (trace v).

(** A step that installs no firmware. *)
Definition quiet {A} (m : M A) : Prop := forall l, stable (fun v => installs v = l) m.

Lemma quiet_sofar {A} (m : M A) : (forall l, stable (sofar (String.eqb (install_cmd false)) l) m) -> quiet m.
Proof. done. Qed.

Lemma quiet_cmd c : String.eqb (install_cmd false) c = false -> forall l, stable (sofar (String.eqb (install_cmd false)) l) (system c).
Proof. intros Hc l. by apply sofar_other. Qed.

(** A command that begins with another letter. *)
Lemma other_letter n c s : (0 < n)%nat -> c <> "f"%char -> String.eqb (install_cmd false) (snprintf (S n) (String c s)) = false.
Proof.
  intros Hn Hc. apply String.eqb_neq. unfold snprintf. replace (S n - 1)%nat with n by lia. destruct n; [lia|]. cbn [stake].
  change (install_cmd false) with (String "f" "winstall /tmp/fw_image.bin"). congruence.
Qed.

Lemma quiet_found l out : stable (sofar (String.eqb (install_cmd false)) l) (found out).
Proof. unfold found, chomp. steps; by apply sofar_emit. Qed.

Lemma quiet_key : quiet check_key.
Proof.
  apply quiet_sofar. intros l. unfold check_key, chomp. steps; first [by apply sofar_emit | apply quiet_found | by apply quiet_cmd | apply quiet_cmd; by apply (other_letter 511)].
Qed.

Lemma quiet_agent : quiet check_agent.
Proof.
  apply quiet_sofar. intros l. unfold check_agent. steps; first [apply quiet_found | by apply quiet_cmd | apply quiet_cmd; by apply (other_letter 511)].
Qed.

(** How the firmware of a dongle comes to be installed. *)
Definition dongle_post {A} (w : world) (r : outcome A) (w' : world) : Prop :=
  installs w' = installs w \/
  (installs w' = (installs w ++ [install_cmd false])%list /\ exists f w1 w2,
     trace w2 = (trace w1 ++ [Cmd (validate_cmd false f)])%list /\ only_accepted false f w1 w2 /\
     (fst (sh (install_cmd false) w2) = 0 -> r = Exit 0 /\ exists t, trace w' = (t ++ [Cmd "hub_restart 2"])%list)).

Hypothesis (Hrun : forall f, (String.length f < 128)%nat -> runs (validate_cmd false f) (@validate_image Child [] (Some f) stack)).

Lemma wp_check_hubos w : plain w -> wp check_hubos (dongle_post w) w.
Proof.
  intros P. unfold check_hubos. apply wp_bind, wp_popen. cbn [seq_post]. set (w0 := World _ _).
  assert (installs w0 = installs w) as H0 by (unfold installs, w0; cbn [trace]; rewrite issued_app; apply app_nil_r). assert (plain w0) as P0 by done. clearbody w0.
  destruct (pipe _ w) as [out|]; [|by left]. apply (wp_seq _ _ (fun r u => installs u = installs w /\ plain u /\
    exists n, r = Val n /\ match n with Some f => (String.length f < 128)%nat | None => True end)).
  { unfold found, chomp. destruct (fgets 128 out) as [line|] eqn:E; [|apply wp_ret; split_and!; [done..|by exists None]]. apply fgets_length in E.
    pose proof (strip_nl_length (cstr line)). pose proof (cstr_shorter line).
    apply wp_bind, wp_bind, wp_when; intros _; [apply wp_emit|]; cbn [seq_post]; apply wp_ret; cbn [seq_post]; apply wp_ret.
    - split_and!; [|done|eexists; split; [done|cbv beta iota; lia]]. rewrite <- H0. unfold installs. cbn [trace]. rewrite issued_app. apply app_nil_r.
    - split_and!; [done..|eexists; split; [done|cbv beta iota; lia]]. }
  intros r u (Hi & Pu & n & -> & Hn). cbn [seq_post]. destruct n as [f|]; [|by left].
  replace (snprintf 512 ("validate_image " +:+ f)) with (validate_cmd false f)
    by (unfold validate_cmd; rewrite !snprintf_id by (rewrite slen_app; cbn [String.length]; lia); done).
  apply wp_bind, (wp_validate_cmd stack); [by apply (Hrun f)|done|]. cbv zeta. intros st s Hacc. cbn [seq_post]. set (w2 := World s _) in *.
  assert (installs w2 = installs w) as H2.
  { rewrite <- Hi. unfold installs, w2. cbn [trace]. apply issued_out. apply (other_letter 255 "v"); [lia|done]. }
  apply (wp_seq _ _ (fun r u' => u' = w2 /\ exists b : bool, r = Val b /\ (b = true -> st = 0))).
  { destruct (st =? 0) eqn:Ez; to_prop; [|apply wp_ret; split; [done|by exists false]].
    unfold wp, access. cbn [fst snd]. split; [done|]. eexists; by split. }
  intros r u' (-> & b & -> & Hb). cbn [seq_post]. destruct b; cbn [when]; [|by left]. specialize (Hacc (Hb eq_refl)).
  change (snprintf 512 ("fwinstall " +:+ FW_INSTALL_FILE)) with (install_cmd false). apply wp_bind, wp_cmd. cbn [seq_post]. set (w3 := after_cmd _ w2).
  assert (installs w3 = (installs w ++ [install_cmd false])%list) as H3 by (rewrite <- H2; apply issued_in, String.eqb_refl).
  destruct (fst (sh (install_cmd false) w2) =? 0) eqn:Ez; to_prop; cbn [when].
  - apply wp_bind, wp_cmd. cbn [seq_post]. unfold wp, exit. cbn [fst snd]. right. split.
    + rewrite <- H3. unfold installs, after_cmd at 1. cbn [trace]. by apply issued_out.
    + exists f, u, w2. split_and!; [done..|]. intros _. split; [done|]. by exists (trace w3).
  - apply wp_ret. right. split; [done|]. exists f, u, w2. split_and!; [done..|]. congruence.
Qed.

(** The firmware a debug dongle brings is installed only on a hub with SSH enabled, at most once, and only if
    validate_image accepted it: every file fwinstall finds to install is signed, intact and for this hub.  After a successful installation
    the hub is restarted and the agent is not started. *)
Theorem dongle_installs_only_accepted w : plain w ->
  wp checkForHubUpdates (fun r w' => (installs w' <> installs w -> fst (IRIS_isSSHEnabled w) = Val true) /\ dongle_post w r w') w.
Proof.
  intros P. unfold checkForHubUpdates. apply wp_bind. unfold wp at 1. change (snd (IRIS_isSSHEnabled w)) with w.
  destruct (fst (IRIS_isSSHEnabled w)) as [[]|z|z|] eqn:Es; [..|done|done|done]; cbn [seq_post when]; [|by apply wp_ret; split; [|left]].
  apply wp_and; [unfold wp; intros _; done|]. apply wp_bind. apply wp_tt; [done|]. cbn [seq_post]. set (w0 := snd (chdir _ w)).
  apply wp_bind. unfold wp at 1. change (fst (IRIS_getLedMode "" 64 w0)) with (@Val string (match fst (IRIS_getLedMode "" 64 w0) with Val s => s | _ => "" end)).
  cbn [seq_post]. change (snd (IRIS_getLedMode "" 64 w0)) with w0.
  change (@dongle_post unit w) with (@dongle_post unit w0). eapply wp_seq; [by apply wp_check_hubos|].
  set (ledMode := match _ with Val s => s | _ => _ end). intros [[]|z|z|] w1 H1; cbn [seq_post]; [|done..].
  assert (quiet (_ ← check_key; _ ← check_agent; IRIS_setLedMode ledMode)) as Hq.
  { intros l. apply stable_bind; [apply quiet_key|intros _]. apply stable_bind; [apply quiet_agent|intros _]. unfold IRIS_setLedMode.
    change (stable (sofar (String.eqb (install_cmd false)) l)
      (f ← fopen_w LED_MODE_FILE; _ ← when f (_ ← fwrite LED_MODE_FILE ledMode; mret tt); usleep 10000)). steps. }
  eapply wp_mono; [apply (stable_wp _ _ w1 (Hq (installs w1))); done|]. intros r w2 Hi. unfold dongle_post in *. rewrite Hi.
  destruct H1 as [H1|(H1 & f & u1 & u2 & Ht & Ha & Hst)]; [by left|right]. split; [done|]. exists f, u1, u2. split_and!; [done..|].
  intros E. destruct (Hst E) as [E' _]. discriminate E'.
Qed.

End Dongle.

(** ** Debug configurations *)

Definition setting_line (nv : string * string) : string := fst nv +:+ " = " +:+ snd nv +:+ String LF "".

(** A setting the file format can express. *)
Definition plain_char (c : ascii) : bool := negb (Ascii.eqb c LF) && negb (Ascii.eqb c NUL).
Definition good_setting (nv : string * string) : bool :=
  let '(n, v) := nv in
  negb (String.eqb n "") && all_chars (fun c => negb (isspace c) && negb (Ascii.eqb "=" c) && plain_char c) n && negb (String.prefix "#" n) &&
  match v with EmptyString => false | String c _ => negb (isspace c) end && all_chars plain_char v && negb (starts_quoted v) &&
  forallb (fun k => negb (has_sub (setting_line nv) k)) ["platform_ip"; "platform_host"; "agent_debug"] &&
  (String.length (setting_line nv) <? 256)%nat && (String.length n <? 128)%nat.

Lemma has_sub_mid a k r : has_sub (a +:+ k +:+ r) k = true.
Proof.
  unfold has_sub. induction a as [|c a IH]; [change ("" +:+ k +:+ r) with (k +:+ r); by rewrite strstr_here|].
  cbn [String.append strstr]. by destruct (String.prefix k _).
Qed.

Lemma span_token_word n r : all_chars (fun c => negb (isspace c)) n = true -> span_token (n +:+ String " " r) = (n, String " " r).
Proof.
  induction n as [|c n IH]; [done|]. cbn [all_chars String.append span_token]. intros [Hc Hn]%andb_true_iff. apply negb_true_iff in Hc.
  by rewrite Hc, IH.
Qed.

Lemma all_chars_mono (P Q : ascii -> bool) s : (forall c, P c = true -> Q c = true) -> all_chars P s = true -> all_chars Q s = true.
Proof. intros H. induction s as [|c s IH]; [done|]. cbn. intros [Hc Hs]%andb_true_iff. by rewrite H, IH. Qed.

Lemma until_lf_line v r : all_chars plain_char v = true -> until_lf (v +:+ String LF r) = v.
Proof.
  induction v as [|c v IH]; [done|]. cbn [all_chars String.append until_lf]. intros [Hc Hv]%andb_true_iff.
  unfold plain_char in Hc. apply andb_true_iff in Hc as [Hc _]. apply negb_true_iff in Hc. by rewrite Hc, IH.
Qed.

Lemma skip_ws_length s : (String.length (skip_ws s) <= String.length s)%nat.
Proof. induction s as [|c s IH]; [done|]. cbn. destruct (isspace c); cbn; lia. Qed.

Lemma skip_ws_app v r : v <> "" -> skip_ws v = v -> skip_ws (v +:+ r) = v +:+ r.
Proof.
  destruct v as [|c v]; [done|]. intros _. cbn [skip_ws String.append]. destruct (isspace c); [|done]. intros E.
  apply (f_equal String.length) in E. pose proof (skip_ws_length v). cbn in E. lia.
Qed.

Section Config.
Context {Ev : Env}.

(** A good setting as hypotheses. *)
Lemma good_setting_spec n v : good_setting (n, v) = true ->
  n <> "" /\ v <> "" /\ all_chars (fun c => negb (isspace c) && negb (Ascii.eqb "=" c) && plain_char c) n = true /\ String.prefix "#" n = false /\
  skip_ws v = v /\ all_chars plain_char v = true /\ starts_quoted v = false /\
  has_sub (setting_line (n, v)) "platform_ip" = false /\ has_sub (setting_line (n, v)) "platform_host" = false /\
  has_sub (setting_line (n, v)) "agent_debug" = false /\ (String.length (setting_line (n, v)) < 256)%nat /\ (String.length n < 128)%nat.
Proof.
  unfold good_setting. cbn [forallb]. intros H. to_prop. split_and!; try done; [by intros ->|].
  destruct v as [|c v]; [done|]. cbn [skip_ws]. by destruct (isspace c).
Qed.

Lemma parse_setting n v d w : good_setting (n, v) = true ->
  parse_line (setting_line (n, v)) d w = (Val (DebugCfg (flags d) v (platformIP d) (platformHost d) true (<[n := v]> (cfg_env d))), w).
Proof.
  intros (Hn & Hv0 & Hnc & Hh & Hws & Hvc & Hq & H1 & H2 & H3 & Hl & Hl')%good_setting_spec. unfold parse_line. rewrite H1, H2, H3.
  replace (has_sub (setting_line (n, v)) " = ") with true by (symmetry; apply has_sub_mid).
  replace (String.prefix "#" (setting_line (n, v))) with false
    by (destruct n as [|a n]; [done|]; revert Hh; unfold setting_line; cbn [fst String.append String.prefix]; destruct (ascii_dec "#" a); [by destruct n|done]).
  cbn [andb negb].
  assert (scan_setting (setting_line (n, v)) = Some (n, Some v)) as ->.
  { unfold scan_setting, setting_line. cbn [fst snd]. assert (skip_ws (n +:+ " = " +:+ v +:+ String LF "") = n +:+ " = " +:+ v +:+ String LF "") as ->.
    { destruct n as [|c n]; [done|]. cbn [all_chars] in Hnc. to_prop. cbn [String.append skip_ws]. by replace (isspace c) with false. }
    change (" = " +:+ v +:+ String LF "") with (String " " ("= " +:+ v +:+ String LF "")).
    rewrite span_token_word by (refine (all_chars_mono _ _ _ _ Hnc); intros c Hc; by destruct (isspace c)). destruct n as [|c n]; [done|]. f_equal. f_equal.
    set (r := v +:+ String LF ""). change (skip_ws (String " " ("= " +:+ r))) with ("= " +:+ r). change (scan_lit "=" ("= " +:+ r)) with (Some (" " +:+ r)).
    cbn [mbind option_bind]. change (skip_ws (" " +:+ r)) with (skip_ws r). unfold r. rewrite skip_ws_app by done. unfold scan_rest.
    rewrite until_lf_line by done. by destruct v. }
  unfold mbind, M_bind, store_token. replace (128 <=? String.length n)%nat with false by (symmetry; apply Nat.leb_gt; lia). cbn [when mret M_ret default from_option]. unfold id. rewrite Hq.
  unfold setenv, env_name. replace (String.eqb n "") with false by (symmetry; by apply String.eqb_neq). unfold char_in.
  rewrite (all_chars_mono _ (fun d => negb (Ascii.eqb "=" d)) n) with (2 := Hnc) by (intros c Hc; by destruct (isspace c), (Ascii.eqb "=" c)). done.
Qed.

Lemma setting_is_line nv : good_setting nv = true -> is_line (setting_line nv) /\ cstr (setting_line nv) = setting_line nv.
Proof.
  destruct nv as [n v]. intros (Hn & Hv0 & Hnc & Hh & Hws & Hvc & Hq & _ & _ & _ & Hl & _)%good_setting_spec.
  assert (all_chars plain_char (n +:+ " = " +:+ v) = true) as Hc.
  { rewrite !all_chars_app, Hvc. rewrite (all_chars_mono _ plain_char n) with (2 := Hnc); [done|]. intros c Hc. to_prop. done. }
  assert (setting_line (n, v) = (n +:+ " = " +:+ v) +:+ String LF "") as E by (unfold setting_line; cbn [fst snd]; by rewrite !sapp_assoc). rewrite E in *. split.
  - exists (n +:+ " = " +:+ v). split_and!; [done| |done]. refine (all_chars_mono _ _ _ _ Hc). intros c H. unfold plain_char in H. by destruct (Ascii.eqb c LF).
  - apply cstr_nul_free. unfold nul_free. rewrite all_chars_app. apply andb_true_iff. split; [|done].
    refine (all_chars_mono _ _ _ _ Hc). intros c H. unfold plain_char in H. by destruct (Ascii.eqb c LF), (Ascii.eqb c NUL).
Qed.

Definition apply_settings (nvs : list (string * string)) (e : gmap string string) : gmap string string :=
  foldl (fun e nv => <[fst nv := snd nv]> e) e nvs.

Lemma parse_settings nvs d w : Forall (fun nv => good_setting nv = true) nvs -> exists v', parse_lines (map setting_line nvs) d w =
  (Val (DebugCfg (flags d) v' (platformIP d) (platformHost d) (varSet d || negb (bool_decide (nvs = []))) (apply_settings nvs (cfg_env d))), w).
Proof.
  intros H. revert d. induction H as [|[n v] nvs Hg Hnvs IH]; intros d; [exists (value d); cbn; rewrite orb_false_r; by destruct d|].
  cbn [map parse_lines]. destruct (setting_is_line _ Hg) as [_ ->]. rewrite (bind_val _ _ _ _ _ (parse_setting n v d w Hg)).
  destruct (IH (DebugCfg (flags d) v (platformIP d) (platformHost d) true (<[n := v]> (cfg_env d)))) as [v' ->]. exists v'. cbn. by rewrite orb_true_r.
Qed.

(** A debug configuration made of settings is understood: written as lines "name = value" the settings are set in the environment the
    agent gets, the last of two for the same name winning, and everything else in the environment but JAVA_DBG_OPTS stays. *)
Theorem debug_config_roundtrip nvs f e w : Forall (fun nv => good_setting nv = true) nvs ->
  get f w = Some (fold_right String.append "" (map setting_line nvs)) -> rd_ok f w = true ->
  fst (parseDebugConfig f e w) = Val (0, delete "JAVA_DBG_OPTS" (apply_settings nvs e)).
Proof.
  intros Hg Hf Hr. unfold parseDebugConfig. set (text := fold_right _ _ _) in *.
  rewrite (bind_val _ _ (Some text) w w) by (unfold fopen_r; by rewrite Hf, Hr).
  assert (Forall is_line (map setting_line nvs)) as Hl by (apply Forall_fmap; revert Hg; apply Forall_impl; intros nv H; by apply setting_is_line).
  unfold text. rewrite fgets_all_lines; [|done|pose proof (lines_length _ Hl); lia].
  destruct (parse_settings nvs (DebugCfg "" "" "" "" false e) w Hg) as [v' Hp]. rewrite (bind_val _ _ _ _ _ Hp). cbn [flags platformIP platformHost varSet cfg_env].
  change (String.eqb "" "") with true. cbn [negb andb]. 
  assert (exists u, (_ ← clearHostEntries; mret 0) w = (Val 0, u)) as [u Hu].
  { unfold clearHostEntries, mbind, M_bind, fopen_w, fwrite. destruct (wr_ok HOSTS_FILE w); by eexists. }
  by rewrite (bind_val _ _ _ _ _ Hu).
Qed.

End Config.

(** ** A hub with an agent *)

Module AgentToy.

(** Commands do nothing, but for validate_image; every search finds the firmware of the dongle. *)
Definition toy_sh (c : string) (w : world) : Z * fsys :=
  if String.prefix "validate_image " c then UpdToy.run_image (@validate_image Toy.env [] (Some (sdrop 15 c)) "") w else (0, fs w).

#[local] Instance toy_env : Env := {|
  sh := toy_sh; pipe := fun _ _ => Some ("./hubOS.bin" +:+ String LF ""); rd_ok := fun _ _ => true; wr_ok := fun _ _ => true;
  wr_len := fun _ _ n => n; mount_ok := fun _ _ _ => true; mem_ok := fun _ => true |}.

(** The same without a dongle. *)
#[local] Instance still_env : Env := {|
  sh := fun _ w => (0, fs w); pipe := fun _ _ => Some ""; rd_ok := fun _ _ => true; wr_ok := fun _ _ => true;
  wr_len := fun _ _ n => n; mount_ok := fun _ _ _ => true; mem_ok := fun _ => true |}.

(** Time passes with every event; the agent ends at once. *)
#[local] Instance toy_agent : AgentEnv := {|
  now := fun v => Z.of_nat (length (trace v)); fork_ok := fun _ => true; others := fs; ftw := fun _ _ => Some ["/data/agent/libs/a.pack.gz"];
  remove_ok := fun _ _ => true; mkdir_ok := fun _ _ => true; chown_ok := fun _ _ => true; agent_user := fun _ => true; launch := fun _ v => fs v |}.

Definition dongle : world := put_file SSH_PID_FILE "" (put_file "/run/media/./hubOS.bin" toy_image (toy_hub "")).

Lemma toy_runs f : (String.length f < 128)%nat -> @runs toy_env (validate_cmd false f) (@validate_image Toy.env [] (Some f) "").
Proof.
  intros Hf w. unfold validate_cmd. rewrite snprintf_id by (rewrite slen_app; cbn [String.length]; lia).
  change (sh ("validate_image " +:+ f) w) with (toy_sh ("validate_image " +:+ f) w). unfold toy_sh. rewrite prefix_app.
  change (sdrop 15 ("validate_image " +:+ f)) with (sdrop (String.length "validate_image ") ("validate_image " +:+ f)). rewrite sdrop_app. reflexivity.
Qed.

Lemma dongle_installs_only_accepted_witness :
  let out := @checkForHubUpdates toy_env dongle in
  fst out = Exit 0 /\ exists f w1 w2, @only_accepted Toy.crypto false f w1 w2 /\ trace w2 = (trace w1 ++ [Cmd (validate_cmd false f)])%list.
Proof.
  cbv zeta. split; [vm_compute; reflexivity|].
  destruct (@dongle_installs_only_accepted Toy.env Toy.crypto Toy.hub toy_env "" toy_runs dongle eq_refl) as [_ [H|(_ & f & w1 & w2 & Ht & Ha & _)]].
  - exfalso. vm_compute in H. discriminate H.
  - exists f, w1, w2. split; [exact Ha|exact Ht].
Defined.

Definition set_up : world := World (Fsys {[ PROVISIONED_FILE := ""; ZIGBEE_FW_FILE := ""; "/data/agent/libs/a.pack.gz" := "lib"; "/run/media/x.cfg" :=
  fold_right String.append "" (map setting_line [("IRIS_GATEWAY", "wss://gateway"); ("LOG", "on")]) ]} ∅ [] ∅ "/") [].

Lemma agent_restart_policy_witness :
  wp (@agent_turns still_env toy_agent imxdimagic true 0 ["";"";"";""] (Supervisor 0 0 ∅)) (fun r w' => exists s' ts, r = Val (Some s') /\
    length ts = 4%nat /\ Forall (fun t => exists u1 u2, t = (now u1, now u2)) ts /\
    restartCount s' = restarts 0 0 ts /\
    (["";"";"";""] <> [] -> exists u, fs w' = launch (s_env s') u /\
       (SOFT_RESET_THRESHOLD < restartCount s' -> files (fs u) !! AGENT_SOFT_RESET = Some "")) /\
    issued (String.eqb REINSTALL) (trace w') = issued (String.eqb REINSTALL) (trace set_up)) set_up.
Proof.
  apply (@agent_restart_policy still_env toy_agent imxdimagic true).
  - intros c v Hv. split; [exact Hv|intros H; exact H].
  - intros e v Hv. exact Hv.
  - intros c v. discriminate.
  - intros v. reflexivity.
  - intros v. reflexivity.
  - split_and!; [reflexivity|vm_compute; reflexivity|apply not_elem_of_empty|vm_compute; eexists; reflexivity|vm_compute; eexists; reflexivity].
Defined.

Lemma packs_never_lost_witness : wp (@visit (@file_unpack200_cb still_env toy_agent) ["/data/agent/libs/a.pack.gz"]) (fun r w' =>
    (forall p x, packed p -> get p set_up = Some x -> get p w' = Some x \/ @unpacked still_env p x) /\
    match r with
    | Val z => z = 0 -> forall p, p ∈ ["/data/agent/libs/a.pack.gz"] -> packed p -> get p w' = None
    | Crash => exists v, agent_user v = false
    | _ => False
    end) set_up.
Proof.
  apply packs_never_lost; [intros p base v _; split; [reflexivity|intros q _; reflexivity]|reflexivity|].
  apply Forall_cons_2; [split; [reflexivity|cbn; lia]|apply Forall_nil_2].
Defined.

Lemma debug_config_roundtrip_witness :
  fst (@parseDebugConfig still_env "/run/media/x.cfg" {[ "PATH" := "/bin" ]} set_up) =
  Val (0, delete "JAVA_DBG_OPTS" (apply_settings [("IRIS_GATEWAY", "wss://gateway"); ("LOG", "on")] {[ "PATH" := "/bin" ]})).
Proof.
  apply (@debug_config_roundtrip still_env); [|vm_compute; reflexivity|reflexivity].
  apply Forall_cons_2; [vm_compute; reflexivity|]. apply Forall_cons_2; [vm_compute; reflexivity|apply Forall_nil_2].
Defined.

(** A setting without a value gets the value of the setting before it. *)
Example empty_setting_stale :
  (fst (parse_lines ["A = 1" +:+ String LF ""; "B = " +:+ String LF ""] (DebugCfg "" "" "" "" false ∅) set_up)) =
  Val (DebugCfg "" "1" "" "" true {[ "A" := "1"; "B" := "1" ]}).
Proof. vm_compute. reflexivity. Qed.

End AgentToy.
