(* ===== verification/LedCtrl.v ===== *)
(** * ledctrl.c: the three LEDs of the older hub

    The modes, their names and the settings of the LEDs, and the program that
    writes them to the files of the LED driver. *)
From Stdlib Require Import ZArith String Ascii Lia Bool.
From stdpp Require Import base gmap strings list numbers.
From S2P Require Import Prelude CLib Os IrisLib.

Local Open Scope string_scope.
Local Open Scope Z_scope.

Inductive led_setting := LED_OFF | LED_ON | LED_0_5HZ | LED_1HZ | LED_2HZ.

Inductive leds_mode :=
| BOOT_POST | BOOT_LINUX | BOOT_AGENT
| NORMAL_UNASSOC_CONN_PRI | NORMAL_UNASSOC_CONN_PRI_BATT | NORMAL_UNASSOC_CONN_BACKUP | NORMAL_UNASSOC_CONN_BACKUP_BATT
| NORMAL_UNASSOC_DISCONN | NORMAL_UNASSOC_DISCONN_BATT
| NORMAL_ASSOC_CONN_PRI | NORMAL_ASSOC_CONN_PRI_BATT | NORMAL_ASSOC_CONN_BACKUP | NORMAL_ASSOC_CONN_BACKUP_BATT
| NORMAL_ASSOC_DISCONN | NORMAL_ASSOC_DISCONN_BATT
| NORMAL_PAIRING_CONN_PRI | NORMAL_PAIRING_CONN_PRI_BATT | NORMAL_PAIRING_CONN_BACKUP | NORMAL_PAIRING_CONN_BACKUP_BATT
| NORMAL_PAIRING_DISCONN | NORMAL_PAIRING_DISCONN_BATT
| UPGRADE_DECRYPT | UPGRADE_DECRYPT_ERR | UPGRADE_UNPACK | UPGRADE_UNPACK_ERR | UPGRADE_BOOTLOADER | UPGRADE_BOOTLOADER_ERR
| UPGRADE_KERNEL | UPGRADE_KERNEL_ERR | UPGRADE_ROOTFS | UPGRADE_ROOTFS_ERR | UPGRADE_ZIGBEE | UPGRADE_ZIGBEE_ERR
| UPGRADE_ZWAVE | UPGRADE_ZWAVE_ERR | UPGRADE_BTE | UPGRADE_BTE_ERR
| SHUTDOWN | BUTTON_REBOOT | BUTTON_SOFT_RESET | BUTTON_FACTORY_DEFAULT | ALL_ON | ALL_OFF.

Record led_state := LedState { green : led_setting; yellow : led_setting; red : led_setting }.

Definition states (m : leds_mode) : led_state :=
  match m with
  | BOOT_POST => LedState LED_1HZ LED_1HZ LED_1HZ
  | BOOT_LINUX => LedState LED_1HZ LED_1HZ LED_OFF
  | BOOT_AGENT => LedState LED_1HZ LED_OFF LED_OFF
  | NORMAL_UNASSOC_CONN_PRI => LedState LED_0_5HZ LED_OFF LED_OFF
  | NORMAL_UNASSOC_CONN_PRI_BATT => LedState LED_0_5HZ LED_0_5HZ LED_OFF
  | NORMAL_UNASSOC_CONN_BACKUP => LedState LED_0_5HZ LED_ON LED_OFF
  | NORMAL_UNASSOC_CONN_BACKUP_BATT => LedState LED_0_5HZ LED_0_5HZ LED_OFF
  | NORMAL_UNASSOC_DISCONN => LedState LED_0_5HZ LED_OFF LED_1HZ
  | NORMAL_UNASSOC_DISCONN_BATT => LedState LED_0_5HZ LED_0_5HZ LED_1HZ
  | NORMAL_ASSOC_CONN_PRI => LedState LED_ON LED_OFF LED_OFF
  | NORMAL_ASSOC_CONN_PRI_BATT => LedState LED_ON LED_0_5HZ LED_OFF
  | NORMAL_ASSOC_CONN_BACKUP => LedState LED_ON LED_ON LED_OFF
  | NORMAL_ASSOC_CONN_BACKUP_BATT => LedState LED_ON LED_0_5HZ LED_OFF
  | NORMAL_ASSOC_DISCONN => LedState LED_ON LED_OFF LED_1HZ
  | NORMAL_ASSOC_DISCONN_BATT => LedState LED_ON LED_0_5HZ LED_1HZ
  | NORMAL_PAIRING_CONN_PRI => LedState LED_1HZ LED_OFF LED_OFF
  | NORMAL_PAIRING_CONN_PRI_BATT => LedState LED_1HZ LED_0_5HZ LED_OFF
  | NORMAL_PAIRING_CONN_BACKUP => LedState LED_1HZ LED_ON LED_OFF
  | NORMAL_PAIRING_CONN_BACKUP_BATT => LedState LED_1HZ LED_0_5HZ LED_OFF
  | NORMAL_PAIRING_DISCONN => LedState LED_1HZ LED_OFF LED_1HZ
  | NORMAL_PAIRING_DISCONN_BATT => LedState LED_1HZ LED_0_5HZ LED_1HZ
  | UPGRADE_DECRYPT | UPGRADE_UNPACK => LedState LED_OFF LED_2HZ LED_OFF
  | UPGRADE_DECRYPT_ERR | UPGRADE_UNPACK_ERR => LedState LED_OFF LED_2HZ LED_ON
  | UPGRADE_BOOTLOADER | UPGRADE_KERNEL | UPGRADE_ROOTFS => LedState LED_OFF LED_OFF LED_2HZ
  | UPGRADE_BOOTLOADER_ERR => LedState LED_OFF LED_OFF LED_ON
  | UPGRADE_KERNEL_ERR => LedState LED_OFF LED_1HZ LED_ON
  | UPGRADE_ROOTFS_ERR => LedState LED_1HZ LED_1HZ LED_ON
  | UPGRADE_ZIGBEE | UPGRADE_ZWAVE | UPGRADE_BTE => LedState LED_2HZ LED_OFF LED_OFF
  | UPGRADE_ZIGBEE_ERR | UPGRADE_ZWAVE_ERR | UPGRADE_BTE_ERR => LedState LED_2HZ LED_OFF LED_ON
  | SHUTDOWN | BUTTON_FACTORY_DEFAULT | ALL_ON => LedState LED_ON LED_ON LED_ON
  | BUTTON_REBOOT => LedState LED_OFF LED_OFF LED_ON
  | BUTTON_SOFT_RESET => LedState LED_OFF LED_ON LED_ON
  | ALL_OFF => LedState LED_OFF LED_OFF LED_OFF
  end.

(** The modes with their names, in the order of the table. *)
Definition state_names : list (leds_mode * string) :=
  [(BOOT_POST, "boot-post"); (BOOT_LINUX, "boot-linux"); (BOOT_AGENT, "boot-agent");
   (NORMAL_UNASSOC_CONN_PRI, "unassoc-conn-pri"); (NORMAL_UNASSOC_CONN_PRI_BATT, "unassoc-conn-pri-batt");
   (NORMAL_UNASSOC_CONN_BACKUP, "unassoc-conn-backup"); (NORMAL_UNASSOC_CONN_BACKUP_BATT, "unassoc-conn-backup-batt");
   (NORMAL_UNASSOC_DISCONN, "unassoc-disconn"); (NORMAL_UNASSOC_DISCONN_BATT, "unassoc-disconn-batt");
   (NORMAL_ASSOC_CONN_PRI, "assoc-conn-pri"); (NORMAL_ASSOC_CONN_PRI_BATT, "assoc-conn-pri-batt");
   (NORMAL_ASSOC_CONN_BACKUP, "assoc-conn-backup"); (NORMAL_ASSOC_CONN_BACKUP_BATT, "assoc-conn-backup-batt");
   (NORMAL_ASSOC_DISCONN, "assoc-disconn"); (NORMAL_ASSOC_DISCONN_BATT, "assoc-disconn-batt");
   (NORMAL_PAIRING_CONN_PRI, "pairing-conn-pri"); (NORMAL_PAIRING_CONN_PRI_BATT, "pairing-conn-pri-batt");
   (NORMAL_PAIRING_CONN_BACKUP, "pairing-conn-backup"); (NORMAL_PAIRING_CONN_BACKUP_BATT, "pairing-conn-backup-batt");
   (NORMAL_PAIRING_DISCONN, "pairing-disconn"); (NORMAL_PAIRING_DISCONN_BATT, "pairing-disconn-batt");
   (UPGRADE_DECRYPT, "upgrade-decrypt"); (UPGRADE_DECRYPT_ERR, "upgrade-decrypt-err");
   (UPGRADE_UNPACK, "upgrade-unpack"); (UPGRADE_UNPACK_ERR, "upgrade-unpack-err");
   (UPGRADE_BOOTLOADER, "upgrade-bootloader"); (UPGRADE_BOOTLOADER_ERR, "upgrade-bootloader-err");
   (UPGRADE_KERNEL, "upgrade-kernel"); (UPGRADE_KERNEL_ERR, "upgrade-kernel-err");
   (UPGRADE_ROOTFS, "upgrade-rootfs"); (UPGRADE_ROOTFS_ERR, "upgrade-rootfs-err");
   (UPGRADE_ZIGBEE, "upgrade-zigbee"); (UPGRADE_ZIGBEE_ERR, "upgrade-zigbee-err");
   (UPGRADE_ZWAVE, "upgrade-zwave"); (UPGRADE_ZWAVE_ERR, "upgrade-zwave-err");
   (UPGRADE_BTE, "upgrade-bte"); (UPGRADE_BTE_ERR, "upgrade-bte-err");
   (SHUTDOWN, "shutdown"); (BUTTON_REBOOT, "button-reboot"); (BUTTON_SOFT_RESET, "button-soft-reset");
   (BUTTON_FACTORY_DEFAULT, "button-factory-default"); (ALL_ON, "all-on"); (ALL_OFF, "all-off")].

Definition MAX_STATE_NAME_LENGTH : nat := 24.

Fixpoint find_state (names : list (leds_mode * string)) (arg : string) : option leds_mode :=
  match names with
  | [] => None
  | (m, n) :: r => if strncmp0 arg n MAX_STATE_NAME_LENGTH then Some m else find_state r arg
  end.

Definition sysfs (led attribute : string) : string := "/sys/class/leds/" +:+ led +:+ "/" +:+ attribute.

(** [delay_on] and [delay_off], for the settings with a timer. *)
Definition blink_delay (s : led_setting) : option Z :=
  match s with LED_0_5HZ => Some 1000 | LED_1HZ => Some 500 | LED_2HZ => Some 250 | _ => None end.

Definition number_line (n : Z) : string := dec n +:+ String LF "".

Section Program.
Context {Ev : Env}.

(** A write at the start of an open file. *)
Definition write_start (p s : string) : M unit := fun w =>
  let n := Nat.min (wr_len p w (String.length s)) (String.length s) in
  (Val tt, put_file p (stake n s +:+ sdrop n (default "" (get p w))) w).

(** The body of the loop over the LEDs. *)
Definition set_led (led : string) (s : led_setting) : M unit :=
  f_brightness ← fopen_w (sysfs led "brightness");
  f_trigger ← fopen_w (sysfs led "trigger");
  _ ← when f_brightness (write_start (sysfs led "brightness") (number_line 0));
  match s with
  | LED_OFF => mret tt
  | _ =>
      _ ← when f_brightness (write_start (sysfs led "brightness") (number_line 255));
      _ ← when f_trigger (_ ← fwrite (sysfs led "trigger") (match blink_delay s with Some _ => "timer" | None => "default-on" end +:+ String LF ""); mret tt);
      match blink_delay s with
      | None => mret tt
      | Some d =>
          f_delay_on ← fopen_w (sysfs led "delay_on");
          f_delay_off ← fopen_w (sysfs led "delay_off");
          _ ← when f_delay_on (_ ← fwrite (sysfs led "delay_on") (number_line d); mret tt);
          when f_delay_off (_ ← fwrite (sysfs led "delay_off") (number_line d); mret tt)
      end
  end.

(** [args] are the arguments behind the name of the program. *)
Definition ledctrl (args : list string) : M Z :=
  match args with
  | [arg] =>
      _ ← when (String.length arg =? 0)%nat (emit (Overrun "argv[1]" (-1)));
      match find_state state_names (strip_nl arg) with
      | None => exit 1
      | Some m =>
          _ ← set_led "green" (green (states m));
          _ ← set_led "yellow" (yellow (states m));
          _ ← set_led "red" (red (states m));
          mret 0
      end
  | _ => exit 1
  end.

End Program.

(** ** What the LEDs show *)

Section Shows.
Context {Ev : Env} (Hh : healthy).

Definition led_paths (led : string) : list string := [sysfs led "brightness"; sysfs led "trigger"; sysfs led "delay_on"; sysfs led "delay_off"].

(** The files of an LED ask the driver for the setting. *)
Definition shows (led : string) (s : led_setting) (w : world) : Prop :=
  get (sysfs led "brightness") w = Some (match s with LED_OFF => "0" | _ => "255" end +:+ String LF "") /\
  match s with
  | LED_OFF => True
  | LED_ON => get (sysfs led "trigger") w = Some ("default-on" +:+ String LF "")
  | _ => get (sysfs led "trigger") w = Some ("timer" +:+ String LF "") /\
         exists d, blink_delay s = Some d /\ get (sysfs led "delay_on") w = Some (number_line d) /\ get (sysfs led "delay_off") w = Some (number_line d)
  end.

Lemma wp_write_start p s Q w : (forall t, get p w = Some t -> (String.length t <= String.length s)%nat -> Q (Val tt) (put_file p s w)) ->
  (exists t, get p w = Some t /\ (String.length t <= String.length s)%nat) -> wp (write_start p s) Q w.
Proof.
  intros HQ (t & Ht & Hl). unfold wp, write_start. destruct (Hh p w (String.length s)) as (_ & _ & -> & _). cbn [fst snd].
  rewrite Nat.min_id, (stake_all _ s), Ht by lia. cbn [default from_option id].
  assert (sdrop (String.length s) t = "") as ->.
  { destruct (sdrop _ t) eqn:E; [done|]. apply (f_equal String.length) in E. rewrite sdrop_len in E. cbn in E. lia. }
  rewrite sapp_nil_r. by apply (HQ t).
Qed.

Lemma sysfs_ne led a b : a <> b -> sysfs led a <> sysfs led b.
Proof.
  intros H E. apply H. unfold sysfs in E. cbn [String.append] in E. injection E as E. revert E.
  induction led as [|c led IH]; cbn [String.append]; intros E; injection E as E; [done|by apply IH].
Qed.

Lemma look_ne led a b s w : a <> b -> plain w -> get (sysfs led a) (put_file (sysfs led b) s w) = get (sysfs led a) w.
Proof. intros H P. apply get_put_ne. rewrite !resolve_plain by done. by apply sysfs_ne. Qed.

(** Reads a file through the writes to others. *)
Ltac look := repeat first [rewrite get_put_eq | rewrite look_ne by done].

Ltac led_step :=
  lazymatch goal with
  | |- wp (fopen_w _) _ _ => apply (wp_fopen_w_ok Hh)
  | |- wp (fwrite _ _) _ _ => apply (wp_fwrite_ok Hh)
  | |- wp (write_start _ _) _ _ => apply wp_write_start; [intros _ _ _|look; eexists; split; [reflexivity|apply Nat.leb_le; vm_compute; reflexivity]]
  | |- wp (when true _) _ _ => cbn [when]
  | |- wp (match _ with _ => _ end) _ _ => cbv iota
  | _ => wp_step
  end.

Lemma wp_set_led led s w : plain w -> wp (set_led led s) (fun r w' => r = Val tt /\ shows led s w' /\ agree (led_paths led) w w') w.
Proof.
  intros P. assert (forall a t v, a ∈ ["brightness"; "trigger"; "delay_on"; "delay_off"] -> agree (led_paths led) w v ->
    agree (led_paths led) w (put_file (sysfs led a) t v)) as Hput.
  { intros a t v Ha Hv. apply agree_put; [done|done|]. unfold led_paths. set_solver. }
  unfold set_led; destruct s; cbn [blink_delay]; repeat led_step; (split; [done|]); (split; [|repeat (apply Hput; [set_solver|]); by apply agree_refl]);
    unfold shows; look; cbn [default from_option]; unfold id; (split; [done|]); try done.
  all: split; [done|]; eexists; by split_and!.
Qed.

Lemma shows_agree led led' s w w' : (forall a, sysfs led a ∉ led_paths led') -> agree (led_paths led') w w' -> shows led s w -> shows led s w'.
Proof. intros Hn [P H] Hs. unfold shows in *. by rewrite !(H (sysfs led _)) by (done || apply Hn). Qed.

Lemma other_led led led' a :
  match led, led' with String c _, String d _ => c <> d | _, _ => False end -> sysfs led a ∉ led_paths led'.
Proof.
  intros H. destruct led as [|c led], led' as [|d led']; try done. unfold led_paths, sysfs. rewrite !elem_of_cons. cbn [String.append].
  intros [E|[E|[E|[E|E]]]]; try (by apply elem_of_nil in E); injection E as E; done.
Qed.

(** The name of every mode, with or without a line end, finds that mode. *)
Lemma find_state_names m n : (m, n) ∈ state_names -> find_state state_names (strip_nl n) = Some m /\ find_state state_names (strip_nl (n +:+ String LF "")) = Some m /\
  String.length n <> 0%nat.
Proof.
  assert (Forall (fun mn => find_state state_names (strip_nl (snd mn)) = Some (fst mn) /\
    find_state state_names (strip_nl (snd mn +:+ String LF "")) = Some (fst mn) /\ String.length (snd mn) <> 0%nat) state_names) as H
    by (unfold state_names at 3; repeat (apply Forall_cons_2; [by split_and!; vm_compute|]); apply Forall_nil_2).
  intros Hm. exact (proj1 (list.Forall_forall _ _) H (m, n) Hm).
Qed.

(** The older hub shows every mode: ledctrl called with the name of a mode, with or without a line end, sets each of the
    three LEDs to the brightness, trigger and blinking period the table gives for it, and writes no other file; called with a name it
    does not know it changes nothing and fails. *)
Theorem ledctrl_shows_mode w arg : plain w ->
  (forall m n, (m, n) ∈ state_names -> arg = n \/ arg = n +:+ String LF "" ->
     wp (ledctrl [arg]) (fun r w' => r = Val 0 /\ shows "green" (green (states m)) w' /\ shows "yellow" (yellow (states m)) w' /\
       shows "red" (red (states m)) w' /\ agree (led_paths "green" ++ led_paths "yellow" ++ led_paths "red") w w') w) /\
  (find_state state_names (strip_nl arg) = None -> wp (ledctrl [arg]) (fun r w' => r = Exit 1 /\ fs w' = fs w) w).
Proof.
  intros P. split.
  - intros m n Hm Ha. destruct (find_state_names m n Hm) as (H1 & H2 & Hn).
    assert (String.length arg <> 0%nat) as Hl by (destruct Ha as [->| ->]; [done|]; rewrite slen_app; lia). apply Nat.eqb_neq in Hl.
    assert (find_state state_names (strip_nl arg) = Some m) as Hf by (by destruct Ha as [->| ->]). unfold ledctrl. rewrite Hf, Hl. cbn [when].
    apply wp_bind, wp_ret. cbn [seq_post]. eapply wp_seq; [by apply wp_set_led|]. intros r w1 (-> & S1 & A1). cbn [seq_post].
    eapply wp_seq; [apply wp_set_led, A1|]. intros r w2 (-> & S2 & A2). cbn [seq_post].
    eapply wp_seq; [apply wp_set_led, A2|]. intros r w3 (-> & S3 & A3). cbn [seq_post]. apply wp_ret. split_and!; [done|..|done|].
    + eapply shows_agree, (shows_agree _ "yellow"); [|exact A3| |exact A2|exact S1]; intros a; by apply other_led.
    + eapply shows_agree; [|exact A3|exact S2]; intros a; by apply other_led.
    + apply (agree_trans _ _ w w1); [done|]. by apply (agree_trans _ _ w1 w2).
  - intros Hf. unfold ledctrl. rewrite Hf. wp_go; by split.
Qed.

End Shows.

(** A hub on which the program runs. *)
#[local] Instance toy_env : Env := {|
  sh := fun _ w => (0, fs w); pipe := fun _ _ => None; rd_ok := fun _ _ => true; wr_ok := fun _ _ => true;
  wr_len := fun _ _ n => n; mount_ok := fun _ _ _ => true; mem_ok := fun _ => true |}.

Lemma ledctrl_shows_mode_witness : let w := World (Fsys ∅ ∅ [] ∅ "/") [] in
  wp (ledctrl ["upgrade-rootfs-err" +:+ String LF ""]) (fun r w' => r = Val 0 /\ shows "green" LED_1HZ w' /\ shows "yellow" LED_1HZ w' /\ shows "red" LED_ON w' /\
    agree (led_paths "green" ++ led_paths "yellow" ++ led_paths "red") w w') w.
Proof.
  cbv zeta. assert healthy as Hh by (intros p w n; split_and!; reflexivity).
  apply (proj1 (ledctrl_shows_mode Hh (World (Fsys ∅ ∅ [] ∅ "/") []) ("upgrade-rootfs-err" +:+ String LF "") eq_refl) UPGRADE_ROOTFS_ERR "upgrade-rootfs-err");
    [unfold state_names; set_solver|right; reflexivity].
Defined.
