(* ===== verification/Tones.v ===== *)
(** * play_tones.c: tones on the sounder or the speaker

    The table of notes, the conversion of a frequency to the period of the pulse
    width modulator in exact floating-point arithmetic, files of tones, and the program.
    [long] has 32 bits on the hub. *)
From Stdlib Require Import ZArith String Ascii Lia Bool SpecFloat.
From stdpp Require Import base gmap strings list numbers.
From S2P Require Import Prelude CLib CFloat Os IrisLib Traces Streams.

Local Open Scope string_scope.
Local Open Scope Z_scope.

Definition PWM_PERIOD : string := "/tmp/io/pwmPeriod".
Definition PWM_DUTY_CYCLE : string := "/tmp/io/pwmDutyCycle".
Definition PWM_ENABLE : string := "/tmp/io/pwmEnable".
Definition PWM_ON : Z := 1.
Definition PWM_OFF : Z := 0.
Definition DEFAULT_VOLUME : string := "100".
Definition DEFAULT_DURATION : string := "1000".
Definition VOLUME_MIN : Z := 0.
Definition VOLUME_MAX : Z := 100.
Definition DURATION_MIN : Z := 10.
Definition DURATION_MAX : Z := 60000.
Definition FREQ_MIN : float := lit64 3000 2.
Definition FREQ_MAX : float := lit64 2000000 2.
Definition SIGKILL : Z := 9.

(** The notes and their frequencies in hundredths of a hertz. *)
Definition notes : list (string * positive) :=
  [("C1", 3270%positive); ("C#1", 3465%positive); ("D1", 3671%positive); ("D#1", 3889%positive); ("E1", 4120%positive); ("F1", 4365%positive);
   ("F#1", 4625%positive); ("G1", 4900%positive); ("G#1", 5191%positive); ("A1", 5500%positive); ("A#1", 5827%positive); ("B1", 6174%positive);
   ("C2", 6541%positive); ("C#2", 6930%positive); ("D2", 7342%positive); ("D#2", 7778%positive); ("E2", 8241%positive); ("F2", 8731%positive);
   ("F#2", 9250%positive); ("G2", 9800%positive); ("G#2", 10383%positive); ("A2", 11000%positive); ("A#2", 11654%positive); ("B2", 12347%positive);
   ("C3", 13081%positive); ("C#3", 13859%positive); ("D3", 14683%positive); ("D#3", 15556%positive); ("E3", 16481%positive); ("F3", 17461%positive);
   ("F#3", 18500%positive); ("G3", 19600%positive); ("G#3", 20765%positive); ("A3", 22000%positive); ("A#3", 23308%positive); ("B3", 24694%positive);
   ("C4", 26163%positive); ("C#4", 27718%positive); ("D4", 29366%positive); ("D#4", 31113%positive); ("E4", 32963%positive); ("F4", 34923%positive);
   ("F#4", 36999%positive); ("G4", 39200%positive); ("G#4", 41530%positive); ("A4", 44000%positive); ("A#4", 46616%positive); ("B4", 49388%positive);
   ("C5", 52325%positive); ("C#5", 55437%positive); ("D5", 58733%positive); ("D#5", 62225%positive); ("E5", 65926%positive); ("F5", 69846%positive);
   ("F#5", 73999%positive); ("G5", 78399%positive); ("G#5", 83061%positive); ("A5", 88000%positive); ("A#5", 93233%positive); ("B5", 98777%positive);
   ("C6", 104650%positive); ("C#6", 110873%positive); ("D6", 117466%positive); ("D#6", 124451%positive); ("E6", 131851%positive); ("F6", 139691%positive);
   ("F#6", 147998%positive); ("G6", 156798%positive); ("G#6", 166122%positive); ("A6", 176000%positive); ("A#6", 186466%positive); ("B6", 197553%positive);
   ("C7", 209300%positive); ("C#7", 221746%positive); ("D7", 234932%positive); ("D#7", 248902%positive); ("E7", 263702%positive); ("F7", 279383%positive);
   ("F#7", 295996%positive); ("G7", 313596%positive); ("G#7", 332244%positive); ("A7", 352000%positive); ("A#7", 372931%positive); ("B7", 395107%positive);
   ("C8", 418601%positive); ("C#8", 443492%positive); ("D8", 469864%positive); ("D#8", 497803%positive); ("E8", 527404%positive); ("F8", 558765%positive);
   ("F#8", 591991%positive); ("G8", 627193%positive); ("G#8", 664488%positive); ("A8", 704000%positive); ("A#8", 745862%positive); ("B8", 790213%positive)].

Definition isalpha (c : ascii) : bool :=
  let n := N_of_ascii c in (((65 <=? n) && (n <=? 90)) || ((97 <=? n) && (n <=? 122)))%N.

(** The last note that begins with [freq]. *)
Fixpoint note_frequency (l : list (string * positive)) (freq : string) (found : option float) : option float :=
  match l with
  | [] => found
  | (n, f) :: r => note_frequency r freq (if strncmp0 n freq (String.length freq) then Some (lit64 f 2) else found)
  end.

Definition frequency (freq : string) : option float :=
  match freq with
  | String c _ => if isalpha c then note_frequency notes freq None else scan_lf freq
  | EmptyString => scan_lf freq
  end.

(** [(long)((1000000000.00 / freqValue) + 0.5)], in nanoseconds. *)
Definition period_of (f : float) : Z := to_long (add64 (div64 (lit64 100000000000 2) f) (lit64 5 1)).

(** [(period * volumeValue) / (2 * 100)] with an unsigned [long] period. *)
Definition duty_of (period volume : Z) : Z := u32 (period * volume) / 200.

(** [%[^',']]: the text up to a comma or a quote, if it is not empty, and what follows. *)
Fixpoint until_comma (s : string) : string * string :=
  match s with
  | String c s' => if Ascii.eqb c "," || Ascii.eqb c "'" then ("", s) else let '(t, r) := until_comma s' in (String c t, r)
  | EmptyString => ("", "")
  end.

Definition scan_field (s : string) : option (string * string) :=
  match until_comma s with
  | (EmptyString, _) => None
  | (t, r) => Some (t, r)
  end.

Definition scan_comma (s : string) : option string :=
  match s with String c s' => if Ascii.eqb c "," then Some s' else None | EmptyString => None end.

(** [sscanf(line, "%[^','],%[^','],%s", tone, volume, duration)]: the fields, as many as were stored. *)
Definition scan_tone (line : string) : list string :=
  match scan_field line with
  | None => []
  | Some (tone, r) =>
      tone :: match r' ← scan_comma r; scan_field r' with
              | None => []
              | Some (volume, r) => volume :: match r' ← scan_comma r; scan_s r' with None => [] | Some duration => [duration] end
              end
  end.

(** What [getopt] returns. *)
Inductive tone_opt := THelp | TVolume (optarg : string) | TDuration (optarg : string) | TFile (optarg : string) | TBad.

Record tone_args := ToneArgs { volarg : option string; durarg : option string; filearg : option string }.

Fixpoint tone_opts (opts : list tone_opt) (a : tone_args) : Z + tone_args :=
  match opts with
  | [] => inr a
  | THelp :: _ => inl 0
  | TVolume v :: r => tone_opts r (ToneArgs (Some v) (durarg a) (filearg a))
  | TDuration d :: r => tone_opts r (ToneArgs (volarg a) (Some d) (filearg a))
  | TFile f :: r => tone_opts r (ToneArgs (volarg a) (durarg a) (Some f))
  | TBad :: _ => inl 1
  end.

(** The volume of a line under a master volume. *)
Definition scaled (volume master : string) : string := snprintf 16 (dec (Z.quot (i32 (atoi volume * atoi master)) 100)).

Section Program.
Context {Ev : Env} (plat : platform).

(** [stack] is what the uninitialised [line] holds. *)
Definition play_sound_via_speaker (stack : string) (freq vol duration : Z) : M Z :=
  _ ← system (snprintf 127 "/usr/bin/amixer set Speaker 100% > /dev/null 2>&1");
  if negb (vol =? 0) then
    let duration := if duration <? 350 then 350 else duration in
    _ ← system (snprintf 127 ("/usr/bin/speaker-test -t sine -f " +:+ dec freq +:+ " -s 1 > /dev/null 2>&1 &"));
    f ← popen "pidof speaker-test";
    match f with
    | None => crash
    | Some out =>
        let pid := i32 (strtou 32 (default stack (fgets 256 out)) 10) in
        _ ← usleep (duration * 1000);
        _ ← kill pid SIGKILL;
        mret 0
    end
  else _ ← usleep (duration * 1000); mret 0.

(** One number written to a file of the modulator: -1 if there is none, 1 if it cannot be opened. *)
Definition set_pwm (path : string) (size : nat) (n : Z) : M Z :=
  a ← access path;
  if negb a then mret (-1)
  else
    f ← fopen_w path;
    if f : bool then _ ← fwrite path (snprintf size (dec n +:+ String LF "")); mret 0 else mret 1.

Definition setPwmPeriod (period : Z) : M Z := set_pwm PWM_PERIOD 16 period.
Definition setPwmDutyCycle (dutyCycle : Z) : M Z := set_pwm PWM_DUTY_CYCLE 32 dutyCycle.
Definition setPwmEnable (enable : Z) : M Z := set_pwm PWM_ENABLE 16 enable.

(** The settings of the modulator for a tone, and the tone. *)
Definition pwm_tone (res : Z) (f : float) (volume delay : Z) : M Z :=
  r1 ← setPwmDutyCycle 0;
  let period := period_of f in
  r2 ← setPwmPeriod period;
  r3 ← setPwmDutyCycle (duty_of period volume);
  r4 ← setPwmEnable PWM_ON;
  let res := Z.lor (Z.lor (Z.lor (Z.lor res r1) r2) r3) r4 in
  if negb (res =? 0) then mret res else _ ← usleep (delay * 1000); mret 0.

Definition playTone (stack freq volume duration : string) : M Z :=
  match frequency freq with
  | None => mret 1
  | Some f =>
      if flt f FREQ_MIN || flt FREQ_MAX f then mret 1
      else
        let volumeValue := atoi volume in
        if (volumeValue <? VOLUME_MIN) || (VOLUME_MAX <? volumeValue) then mret 1
        else
          let delay := atoi duration in
          if (delay <? DURATION_MIN) || (DURATION_MAX <? delay) then mret 1
          else
            res ← setPwmEnable PWM_OFF;
            match plat with
            | imxdimagic => if res =? -1 then play_sound_via_speaker stack (to_long f) volumeValue delay else pwm_tone res f volumeValue delay
            | beaglebone_yocto => pwm_tone res f volumeValue delay
            end
  end.

(** The loop over the lines of a file. *)
Fixpoint play_lines (stack : string) (master : option string) (lines : list string) : M Z :=
  match lines with
  | [] => mret 0
  | line :: r =>
      let line := cstr line in
      if String.prefix "#" line || String.prefix (String LF "") line then play_lines stack master r
      else
        let fields := scan_tone line in
        _ ← store_token "tone" 16 (nth 0 fields "");
        _ ← store_token "volume" 16 (nth 1 fields "");
        _ ← store_token "duration" 16 (nth 2 fields "");
        match fields with
        | [tone; volume; duration] =>
            let volume := match master with Some m => scaled volume m | None => volume end in
            res ← playTone stack tone volume duration;
            if negb (res =? 0) then mret res else play_lines stack master r
        | _ => exit 1
        end
  end.

Definition play_tones (stack : string) (opts : list tone_opt) (tonearg : option string) : M Z :=
  match tone_opts opts (ToneArgs None None None) with
  | inl 0 => mret 0
  | inl z => exit z
  | inr a =>
      res ← match filearg a with
            | Some file =>
                f ← fopen_r file;
                match f with
                | None => exit 1
                | Some text => play_lines stack (volarg a) (fgets_all (S (String.length text)) 128 text)
                end
            | None =>
                match tonearg with
                | None => exit 1
                | Some tone => playTone stack tone (default DEFAULT_VOLUME (volarg a)) (default DEFAULT_DURATION (durarg a))
                end
            end;
      _ ← setPwmEnable PWM_OFF;
      mret res
  end.

End Program.

(** ** The notes *)

(** The nearest integer to 10^9 divided by [f] hundredths. *)
Definition nearest_period (f : positive) : Z := (2 * 10 ^ 11 + Zpos f) / (2 * Zpos f).

(** A note is found by its name; its period is the nearest integer, and small enough for the volume to be multiplied in. *)
Definition in_tune (nf : string * positive) : Prop :=
  frequency (fst nf) = Some (lit64 (snd nf) 2) /\ flt (lit64 (snd nf) 2) FREQ_MIN || flt FREQ_MAX (lit64 (snd nf) 2) = false /\
  period_of (lit64 (snd nf) 2) = nearest_period (snd nf) /\ (0 <=? nearest_period (snd nf)) && (100 * nearest_period (snd nf) <? 2 ^ 32) = true.

Lemma notes_in_tune : Forall in_tune notes.
Proof. unfold notes. repeat (apply Forall_cons_2; [unfold in_tune; cbn [fst snd]; split_and!; vm_compute; reflexivity|]). apply Forall_nil_2. Qed.

Lemma duty_exact p v : 100 * p < 2 ^ 32 -> 0 <= p -> 0 <= v <= 100 ->
  duty_of p v = p * v / 200 /\ 0 <= p * v / 200 < 2 ^ 32 /\ 2 * (p * v / 200) <= p.
Proof.
  intros H H0 Hv. unfold duty_of, u32. rewrite Z.mod_small by nia. split; [done|].
  pose proof (Z.mul_div_le (p * v) 200 ltac:(lia)). pose proof (Z.div_pos (p * v) 200 ltac:(nia) ltac:(lia)). set (q := p * v / 200) in *. clearbody q. nia.
Qed.

Lemma dec_fuel_short fuel n k : 0 <= n < 10 ^ Z.of_nat (S k) -> (String.length (dec_fuel fuel n) <= S k)%nat.
Proof.
  revert n k. induction fuel as [|fu IH]; intros n k Hn; cbn [dec_fuel]; [cbn; lia|]. destruct (Z.ltb_spec n 10); [cbn; lia|].
  destruct k as [|k]; [cbn in Hn; lia|]. rewrite slen_app. cbn [String.length]. pose proof (IH (n / 10) k) as H'.
  assert (0 <= n / 10 < 10 ^ Z.of_nat (S k)); [|lia]. rewrite (Nat2Z.inj_succ (S k)), Z.pow_succ_r in Hn by lia.
  split; [apply Z.div_pos; lia|apply Z.div_lt_upper_bound; lia].
Qed.

Lemma dec_short n k : 0 <= n < 10 ^ Z.of_nat (S k) -> (String.length (dec n) <= S k)%nat.
Proof. intros Hn. unfold dec. destruct (Z.ltb_spec n 0); [lia|]. by apply dec_fuel_short. Qed.

Lemma dec_short32 n : 0 <= n < 2 ^ 32 -> (String.length (dec n) <= 10)%nat.
Proof. intros Hn. apply (dec_short n 9). change (10 ^ Z.of_nat 10) with 10000000000. lia. Qed.

Lemma atoi_dec x : INT_MIN <= x <= INT_MAX -> atoi (dec x) = x.
Proof. intros Hx. unfold atoi, scan_d. rewrite <- (sapp_nil_r (dec x)), scan_int_dec; done. Qed.

(** ** Playing a note *)

Section Play.
Context {Ev : Env} (Hh : healthy).

(** The hub has a modulator. *)
Definition has_pwm (w : world) : Prop := plain w /\ forall p, p ∈ [PWM_PERIOD; PWM_DUTY_CYCLE; PWM_ENABLE] -> is_Some (get p w).

Lemma has_pwm_put p s w : p ∈ [PWM_PERIOD; PWM_DUTY_CYCLE; PWM_ENABLE] -> has_pwm w -> has_pwm (put_file p s w).
Proof.
  intros Hp [P H]. split; [done|]. intros q Hq. destruct (decide (q = p)) as [->|Hne]; [rewrite get_put_eq; by eexists|].
  rewrite get_put_ne; [by apply H|]. rewrite !resolve_plain; [done|done|set_solver|done|set_solver].
Qed.

Ltac pwm_in := apply (bool_decide_eq_true_1 _); vm_compute; reflexivity.

Definition number_line (n : Z) : string := dec n +:+ String LF "".

Lemma wp_set_pwm p size n Q w : p ∈ [PWM_PERIOD; PWM_DUTY_CYCLE; PWM_ENABLE] -> (String.length (dec n) + 2 <= size)%nat -> has_pwm w ->
  (has_pwm (put_file p (number_line n) w) -> Q (Val 0) (put_file p (number_line n) w)) -> wp (set_pwm p size n) Q w.
Proof.
  intros Hp Hs Hw HQ. unfold set_pwm. apply wp_bind. unfold wp at 1, access. destruct (proj2 Hw p Hp) as [s Hg]. rewrite Hg. cbn [fst snd seq_post negb].
  apply wp_bind, (wp_fopen_w_ok Hh). cbn [seq_post]. apply wp_bind, (wp_fwrite_ok Hh). cbn [seq_post]. apply wp_ret.
  rewrite get_put_eq, put_put. cbn [default from_option id]. rewrite snprintf_id by (rewrite slen_app; cbn [String.length]; lia).
  change ("" +:+ dec n +:+ String LF "") with (number_line n). by apply HQ, has_pwm_put.
Qed.

Lemma look_pwm p q s w : p ∈ [PWM_PERIOD; PWM_DUTY_CYCLE; PWM_ENABLE] -> q ∈ [PWM_PERIOD; PWM_DUTY_CYCLE; PWM_ENABLE] -> has_pwm w -> q <> p ->
  get q (put_file p s w) = get q w.
Proof. intros Hp Hq [P _] Hne. apply get_put_ne. rewrite !resolve_plain; [done|done|set_solver|done|set_solver]. Qed.

(** The modulator plays a tone of [p] nanoseconds. *)
Lemma wp_pwm_tone x p v d Q w : period_of x = p -> 0 <= p -> 100 * p < 2 ^ 32 -> 0 <= v <= 100 -> has_pwm w ->
  (forall u, u = put_file PWM_ENABLE (number_line 1) (put_file PWM_DUTY_CYCLE (number_line (p * v / 200))
      (put_file PWM_PERIOD (number_line p) (put_file PWM_DUTY_CYCLE (number_line 0) w))) -> has_pwm u ->
      get PWM_ENABLE u = Some (number_line 1) -> get PWM_PERIOD u = Some (number_line p) -> get PWM_DUTY_CYCLE u = Some (number_line (p * v / 200)) ->
      Q (Val 0) (World (fs u) (trace u ++ [Usleep (d * 1000)]))) ->
  wp (pwm_tone 0 x v d) Q w.
Proof.
  intros Hx Hp0 Hp1 Hv Hw HQ. destruct (duty_exact p v Hp1 Hp0 Hv) as (Hdu & Hdr & _). unfold pwm_tone, setPwmDutyCycle, setPwmPeriod, setPwmEnable.
  rewrite Hx, Hdu. cbv zeta. set (q := p * v / 200) in *. clearbody q.
  pose proof (dec_short32 p ltac:(lia)) as Lp. pose proof (dec_short32 q ltac:(lia)) as Lq.
  apply wp_bind, wp_set_pwm; [pwm_in|apply Nat.leb_le; vm_compute; reflexivity|done|]. intros H2. cbn [seq_post].
  apply wp_bind, wp_set_pwm; [pwm_in|lia|done|]. intros H3. cbn [seq_post].
  apply wp_bind, wp_set_pwm; [pwm_in|lia|done|]. intros H4. cbn [seq_post].
  apply wp_bind, wp_set_pwm; [pwm_in|apply Nat.leb_le; vm_compute; reflexivity|done|]. intros H5. cbn [seq_post].
  change (negb (_ =? 0)) with false. cbv iota. apply wp_bind, wp_emit. cbn [seq_post]. apply wp_ret. apply HQ; [done|done|by rewrite get_put_eq|..].
  - rewrite look_pwm by (done || pwm_in). rewrite look_pwm by (done || pwm_in). by rewrite get_put_eq.
  - rewrite look_pwm by (done || pwm_in). by rewrite get_put_eq.
Qed.

(** Every note sounds as the table says: play_tones with a note, a volume and a duration sets the modulator to the period nearest to the
    frequency of the note and to the share of it the volume asks for, at most half; it turns the sounder on, waits for the duration and
    turns it off.  No multiplication overflows the 32 bits of a [long]. *)
Theorem note_played plat stack n f v d w : (n, f) ∈ notes -> 0 <= v <= 100 -> 10 <= d <= 60000 -> has_pwm w ->
  wp (play_tones plat stack [TVolume (dec v); TDuration (dec d)] (Some n)) (fun r w' => r = Val 0 /\
    trace w' = (trace w ++ [Usleep (d * 1000)])%list /\ get PWM_ENABLE w' = Some (number_line 0) /\
    exists u, fs w' = fs (put_file PWM_ENABLE (number_line 0) u) /\ get PWM_ENABLE u = Some (number_line 1) /\
      get PWM_PERIOD u = Some (number_line (nearest_period f)) /\ get PWM_DUTY_CYCLE u = Some (number_line (nearest_period f * v / 200)) /\
      2 * (nearest_period f * v / 200) <= nearest_period f) w.
Proof.
  intros Hn Hv Hd Hw. destruct (proj1 (list.Forall_forall _ _) notes_in_tune _ Hn) as (Hf & Hr & Hp & Hb). cbn [fst snd] in *.
  apply andb_true_iff in Hb as [Hp0 Hp1]. apply Z.leb_le in Hp0. apply Z.ltb_lt in Hp1. destruct (duty_exact _ v Hp1 Hp0 Hv) as (_ & _ & Hdu).
  unfold play_tones, playTone. cbn [tone_opts volarg durarg filearg default from_option]. unfold id. rewrite Hf, Hr, !atoi_dec by (unfold INT_MIN, INT_MAX; lia).
  unfold VOLUME_MIN, VOLUME_MAX, DURATION_MIN, DURATION_MAX.
  replace ((v <? 0) || (100 <? v)) with false by (symmetry; apply orb_false_iff; split; apply Z.ltb_ge; lia).
  replace ((d <? 10) || (60000 <? d)) with false by (symmetry; apply orb_false_iff; split; apply Z.ltb_ge; lia).
  set (x := lit64 f 2) in *. set (p := nearest_period f) in *. clearbody x p.
  apply wp_bind. unfold setPwmEnable. apply wp_bind, wp_set_pwm; [pwm_in|apply Nat.leb_le; vm_compute; reflexivity|done|]. intros H1. cbn [seq_post].
  change (number_line PWM_OFF) with (number_line 0) in *. set (w1 := put_file PWM_ENABLE (number_line 0) w) in *.
  replace (match plat with imxdimagic => _ | beaglebone_yocto => _ end) with (pwm_tone 0 x v d) by by destruct plat.
  apply (wp_pwm_tone x p); [done..|]. intros u Hu Hpw U1 U2 U3. cbn [seq_post]. set (u' := World (fs u) _).
  apply wp_bind, wp_set_pwm; [pwm_in|apply Nat.leb_le; vm_compute; reflexivity|exact Hpw|]. intros _. cbn [seq_post]. apply wp_ret.
  split_and!; [done|unfold u'; rewrite Hu; reflexivity|apply get_put_eq|]. by exists u.
Qed.

End Play.

(** ** A hub with a sounder *)

#[local] Instance toy_env : Env := {|
  sh := fun _ w => (0, fs w); pipe := fun _ _ => Some ""; rd_ok := fun _ _ => true; wr_ok := fun _ _ => true;
  wr_len := fun _ _ n => n; mount_ok := fun _ _ _ => true; mem_ok := fun _ => true |}.

Definition sounder : world := World (Fsys {[ PWM_PERIOD := ""; PWM_DUTY_CYCLE := ""; PWM_ENABLE := "";
  "/tmp/tones" := "F7, 100, 400" +:+ String LF ("F7, 100" +:+ String LF "") ]} ∅ [] ∅ "/") [].

Lemma note_played_witness :
  wp (play_tones beaglebone_yocto "" [TVolume (dec 100); TDuration (dec 400)] (Some "F7")) (fun r w' => r = Val 0 /\
    trace w' = ([] ++ [Usleep (400 * 1000)])%list /\ get PWM_ENABLE w' = Some (number_line 0) /\
    exists u, fs w' = fs (put_file PWM_ENABLE (number_line 0) u) /\ get PWM_ENABLE u = Some (number_line 1) /\
      get PWM_PERIOD u = Some (number_line (nearest_period 279383)) /\ get PWM_DUTY_CYCLE u = Some (number_line (nearest_period 279383 * 100 / 200)) /\
      2 * (nearest_period 279383 * 100 / 200) <= nearest_period 279383) sounder.
Proof.
  assert healthy as Hh by (intros p w n; split_and!; reflexivity).
  apply (note_played Hh beaglebone_yocto "" "F7" 279383 100 400 sounder).
  - apply (bool_decide_eq_true_1 _). vm_compute. reflexivity.
  - lia.
  - lia.
  - split; [reflexivity|]. intros p Hp. rewrite !elem_of_cons in Hp. destruct Hp as [->|[->|[->|Hp]]]; [vm_compute; by eexists..|by apply elem_of_nil in Hp].
Defined.

(** A line with a missing field ends the program with the tone before it still sounding. *)
Example malformed_line_keeps_sounding :
  let '(r, w) := play_tones beaglebone_yocto "" [TFile "/tmp/tones"] None sounder in
  r = Exit 1 /\ get PWM_ENABLE w = Some (number_line 1).
Proof. vm_compute. done. Qed.

(** When speaker-test did not start, the number of the process to kill is what the stack holds, such as 0: the own process group. *)
Example speaker_not_running :
  let '(r, w) := @play_sound_via_speaker toy_env "" 440 100 400 sounder in r = Val 0 /\ Kill 0 SIGKILL ∈ trace w.
Proof. vm_compute. split; [done|]. set_solver. Qed.
