(* ===== verification/FrontEnds.v ===== *)
(** * irisnfcd.c and ble_prog.c: tags and the programmer of the BLE module

    The daemon that reports NFC tags, and the command line tool around the
    programmer of BleProg.v.  The NFC library is a parameter: what a search
    for tags finds. *)
From Stdlib Require Import ZArith String Ascii Lia Bool.
From stdpp Require Import base gmap strings list numbers.
From S2P Require Import Prelude CLib BleProg Os IrisLib Traces.

Local Open Scope string_scope.
Local Open Scope Z_scope.

(** ** irisnfcd.c *)

Definition NFC_DEV : string := "/dev/spidev1.0".
Definition NFC_TAG_FILE : string := "/tmp/nfc_tag".
Definition NFC_CHECK_DELAY : Z := 1.

(** The types of tags the library tracks. *)
Inductive tag_type := TRACK_NOTHING | TRACK_NFCTYPE1 | TRACK_NFCTYPE2 | TRACK_NFCTYPE3 | TRACK_NFCTYPE4A | TRACK_NFCTYPE4B | TRACK_NFCTYPE5 | TRACK_OTHER.

Class Reader := {
  dev_open : world -> bool;
  spi_set : string -> world -> bool;          (* an ioctl of the SPI device succeeds *)
  TagHunting : world -> tag_type;
  GetUID : world -> list Z }.                 (* the eight bytes of the identifier *)

Definition hex_digit (d : Z) : ascii := ascii_of_N (Z.to_N (if d <? 10 then 48 + d else 55 + d)).
Definition hex2 (b : Z) : string := String (hex_digit (b / 16)) (String (hex_digit (b mod 16)) "").

(** The identifier, whose bytes come in reverse order. *)
Definition uid_text (buf : list Z) : string := fold_right String.append "" (map hex2 (reverse buf)).

Section Daemon.
Context {Ev : Env} {Rd : Reader}.

Definition nfc_init : M unit :=
  w ← get_world;
  if negb (dev_open w) then exit 0
  else if negb (spi_set "SPI_IOC_WR_MODE" w) then exit 0
  else if negb (spi_set "SPI_IOC_WR_BITS_PER_WORD" w) then exit 0
  else if negb (spi_set "SPI_IOC_WR_MAX_SPEED_HZ" w) then exit 0
  else mret tt.

(** The text of the tag found, if any. *)
Definition nfc_getTag : M (option string) :=
  w ← get_world;
  mret (match TagHunting w with
        | TRACK_NFCTYPE1 | TRACK_NFCTYPE2 | TRACK_NFCTYPE3 | TRACK_NFCTYPE4A | TRACK_NFCTYPE4B => Some "N/A"
        | TRACK_NFCTYPE5 => Some (uid_text (GetUID w))
        | _ => None
        end).

Definition tag_cmd (tag : string) : string := snprintf 256 ("echo " +:+ tag +:+ " > " +:+ NFC_TAG_FILE).

(** The body of the loop: [lastTag] afterwards.  A tag that waits for the one before it to be processed is
    looked for again at once. *)
Definition nfc_turn (lastTag : string) : M string :=
  t ← nfc_getTag;
  match t with
  | Some buf =>
      if negb (String.eqb buf "") && negb (strncmp0 buf lastTag 127) then
        a ← access NFC_TAG_FILE;
        if a : bool then mret lastTag
        else
          let lastTag := stake 127 buf in
          _ ← system (tag_cmd lastTag);
          _ ← sleep NFC_CHECK_DELAY; mret lastTag
      else _ ← sleep NFC_CHECK_DELAY; mret lastTag
  | None => _ ← sleep NFC_CHECK_DELAY; mret ""
  end.

Fixpoint nfc_turns (n : nat) (lastTag : string) : M string :=
  match n with O => mret lastTag | S n' => t ← nfc_turn lastTag; nfc_turns n' t end.

(** The first [n] turns of the daemon. *)
Definition irisnfcd (n : nat) : M string :=
  a ← access NFC_DEV;
  if negb a then exit 0 else _ ← nfc_init; nfc_turns n "".

End Daemon.

(** *** Identifiers *)

Definition hex_value (c : ascii) : Z := let n := Z.of_N (N_of_ascii c) in if n <? 58 then n - 48 else n - 55.

Fixpoint uid_bytes (s : string) : list Z :=
  match s with
  | String a (String b r) => (hex_value a * 16 + hex_value b) :: uid_bytes r
  | _ => []
  end.

Lemma hex_value_digit d : 0 <= d < 16 -> hex_value (hex_digit d) = d.
Proof. intros Hd. apply (all_below_spec 16 (fun d => hex_value (hex_digit d) =? d)) in Hd; [by apply Z.eqb_eq|]. vm_compute. reflexivity. Qed.

Lemma uid_bytes_hex b r : is_byte b -> uid_bytes (hex2 b +:+ r) = b :: uid_bytes r.
Proof.
  intros Hb. unfold hex2, is_byte in *. cbn [String.append uid_bytes]. pose proof (Z.div_mod b 16 ltac:(lia)). pose proof (Z.mod_pos_bound b 16 ltac:(lia)).
  rewrite !hex_value_digit; [|lia|split; [apply Z.div_pos|apply Z.div_lt_upper_bound]; lia]. f_equal. lia.
Qed.

(** The text of an identifier determines it. *)
Lemma uid_text_inj a b : Forall is_byte a -> Forall is_byte b -> uid_text a = uid_text b -> a = b.
Proof.
  assert (forall l, Forall is_byte l -> uid_bytes (fold_right String.append "" (map hex2 l)) = l) as H.
  { intros l Hl. induction Hl as [|x l Hx Hl IH]; [done|]. cbn [map fold_right]. by rewrite uid_bytes_hex, IH. }
  intros Ha%Forall_reverse Hb%Forall_reverse E. apply (inj reverse). rewrite <- (H _ Ha), <- (H _ Hb). unfold uid_text in E. by rewrite E.
Qed.

(** *** Reports *)

Section Reports.
Context {Ev : Env} {Rd : Reader} (tag : string).
Hypothesis (Htag : forall v, nfc_getTag v = (Val (Some tag), v)) (Hne : tag <> "") (Hlen : (String.length tag <= 127)%nat).

Definition reports (v : world) : list string := issued (String.eqb (tag_cmd tag)) (trace v).

(** The tag has been reported: it stays quiet while it is there. *)
Lemma wp_reported n v : wp (nfc_turns n tag) (fun r v' => r = Val tag /\ reports v' = reports v) v.
Proof.
  revert v. induction n as [|n IH]; intros v; [by apply wp_ret|]. cbn [nfc_turns]. apply wp_bind. unfold nfc_turn. apply wp_bind.
  unfold wp at 1. rewrite Htag. cbn [fst snd seq_post]. rewrite strncmp0_refl, andb_false_r. apply wp_bind, wp_emit. cbn [seq_post]. apply wp_ret. cbn [seq_post].
  eapply wp_mono; [apply IH|]. intros r v' [-> Hr]. split; [done|]. rewrite Hr. unfold reports. cbn [trace]. rewrite issued_app. apply app_nil_r.
Qed.

(** A tag in front of the reader is reported once: never while the report before it waits to be processed, then exactly once
    as long as the tag stays. *)
Theorem tag_reported_once n w : strncmp0 tag "" 127 = false ->
  wp (nfc_turns n "") (fun r w' => exists l, r = Val l /\
    ((l = "" /\ reports w' = reports w /\ (n <> 0%nat -> fst (access NFC_TAG_FILE w) = Val true)) \/
     (l = tag /\ reports w' = (reports w ++ [tag_cmd tag])%list))) w.
Proof.
  intros Hf. revert w. induction n as [|n IH]; intros w; [apply wp_ret; exists ""; split; [done|by left]|]. cbn [nfc_turns]. apply wp_bind. unfold nfc_turn. apply wp_bind.
  unfold wp at 1. rewrite Htag. cbn [fst snd seq_post]. rewrite (proj2 (String.eqb_neq _ _) Hne), Hf. cbn [negb andb]. apply wp_bind.
  unfold wp at 1. change (snd (access NFC_TAG_FILE w)) with w. destruct (fst (access NFC_TAG_FILE w)) as [[]|z|z|] eqn:Ea; [..|done|done|done]; cbn [seq_post].
  - apply wp_ret. cbn [seq_post]. eapply wp_mono; [apply IH|]. intros r w' (l & -> & [(-> & Hr & _)|[-> Hr]]); eexists; (split; [done|]); [by left|by right].
  - rewrite stake_all by done. apply wp_bind, wp_cmd. cbn [seq_post]. apply wp_bind, wp_emit. cbn [seq_post]. apply wp_ret. cbn [seq_post].
    eapply wp_mono; [apply wp_reported|]. intros r w' [-> Hr]. exists tag. split; [done|]. right. split; [done|]. rewrite Hr. unfold reports, after_cmd. cbn [trace].
    rewrite issued_app, issued_in by apply String.eqb_refl. apply app_nil_r.
Qed.

End Reports.

(** ** ble_prog.c *)

Definition BLE_RESET_GPIO_VALUE_FILE : string := "/tmp/io/bleReset".
Definition B115200 : Z := 0x1002.

Inductive prog_opt := PHelp | PSlot (optarg : string) | PBad.

(** [inl]: the program ends in the option loop with this code. *)
Fixpoint prog_opts (opts : list prog_opt) (slot : Z) : Z + Z :=
  match opts with
  | [] => inr slot
  | PHelp :: _ => inl 0
  | PSlot a :: r => prog_opts r (atoi a)
  | PBad :: _ => inl 1
  end.

Section Reset.
Context {Ev : Env}.

Definition BLE_assertReset : M unit :=
  _ ← system (snprintf 128 ("echo 0 > " +:+ BLE_RESET_GPIO_VALUE_FILE)); usleep 100000.

Definition BLE_deassertReset : M unit :=
  _ ← system (snprintf 128 ("echo 1 > " +:+ BLE_RESET_GPIO_VALUE_FILE)); usleep 100000.

(** A reset pulls the line low for a tenth of a second and lets the module start for another. *)
Lemma reset_pulse w : trace (snd ((_ ← BLE_assertReset; BLE_deassertReset) w)) = (trace w ++
  [Cmd "echo 0 > /tmp/io/bleReset"; Usleep 100000; Cmd "echo 1 > /tmp/io/bleReset"; Usleep 100000])%list.
Proof.
  unfold BLE_assertReset, BLE_deassertReset, mbind, M_bind, system, usleep, emit. destruct (sh _ w). cbn. destruct (sh _ _). cbn.
  by rewrite <- !app_assoc.
Qed.

End Reset.

(** The exit code; [file] and [size] are what [fopen] and [stat] of a file give, [tty] the settings of the port. *)
Definition ble_prog (cbor : Z -> option Z -> list Z -> list Z) (opts : list prog_opt) (filearg : option (option (list Z) * option Z)) (uart : option termios) (s : ble)
    : ble_ret * option termios * ble :=
  match prog_opts opts 0 with
  | inl z => (BRet z, uart, s)
  | inr slot =>
      match filearg, uart with
      | None, _ => (BRet 1, uart, s)
      | Some _, None => (BRet 1, uart, s)
      | Some (file, size), Some tty =>
          let '(r, s) := BLE_vendorProgram cbor s file size slot in
          (match r with BRet z => BRet (if z =? 0 then 0 else 1) | _ => r end, Some (IRIS_initSerialPort B115200 FLOW_CONTROL_RTSCTS tty), s)
      end
  end.
